(* ===== verification/_CoqProject ===== *)
-Q . S2P
Prelude.v
CArray.v
BitStream.v
TianoHuff.v
TianoFormat.v
TianoBlock.v
TianoSlide.v
TianoCompress.v
TianoReader.v
TianoTable.v
TianoDecode.v
TianoDecompress.v
Chain.v
LsiStack.v
ExpStack.v
BlowfishTables.v
Blowfish.v
Ifr.v
Expression.v
OobCmos.v
FeatureFlag.v
Services.v
Bmc.v
Smbios.v
SmbiosUpdate.v
BiosCfg.v
PhysMem.v
RomHole.v
FullSm.v
InBandSmm.v
VarHash.v
RaidCmd.v
Packages.v
SetupTables.v
FormWalk.v
FormData.v
Hii.v
FormLayout.v
LayoutJson.v
HiiImage.v
HiiRead.v
Dxe.v
RaidSetup.v
SmcLibBmc.v
OutBand.v
OobUpload.v
OobDownload.v
