(* ===== verification/Prelude.v ===== *)
(** * Verification of the SMC OOB module

    The module [src/SmcPkg/Module/SmcOOB] lets a management tool read and edit
    the settings of a server from the running system (in band) or through the
    BMC (out of band). This development models both paths from end to end, down
    to the flash region and to the commands and the memory window the files go
    through, and of the LSI RAID driver the parts that hold its state: its
    setup driver, its variable tables, its command parser and its stack. Paths
    below are relative to the module.

    ** How the program works

    At the end of a boot the DXE driver ([SmcInBand/SmcInBandDxe.c]) combines
    three images in a buffer, the BIOS configuration (all UEFI variables), the
    set-up forms (HII) and the full SMBIOS table, stores the address of the
    buffer in CMOS and triggers the E8 system-management interrupt; the E8
    handler ([SmcInBand/SmcInBandSmm.c]) copies the image to SMRAM. A tool asks
    for an image with the E6 interrupt, edits it and sends it back the same way;
    the handler stores it in a flash region (the ROM hole). Early in the next
    boot the DXE driver applies what lies there: [InBandUpdateBiosCfg] writes
    variables back, [InBandUpdateSmbios] stores edited SMBIOS strings.

    Out of band, [SmcOutBand/SmcOutBand.c] finds the same images through the
    CMOS address and uploads those that differ from the last upload (by a
    digest in a variable) to the BMC; at the next boot it downloads what the
    administrator left there, verifies its checksum and stores it in the same
    flash region, from where [SmcInBand/SmcInBandDxe.c] applies it. RAID
    cards take part through a driver protocol: their settings are variables of
    the configuration image, their commands strings in such variables.

    ** The files

    The language of the model:
    - [Prelude]: the result type [Res] (normal return, access outside a buffer,
      fuel used up) with its bind; machine integers; buffers with checked reads
      and writes; little-endian numbers; byte sums; the generic loop [loop] with
      its invariant and measure rules; [EFI_STATUS]; the tactics [zl], [rd_as],
      [wr_as] and the hint databases [smc], [nofuel], [area], [zlen].
    - [Chain]: linked lists of pool nodes in a heap and hash tables of them.
    - [PhysMem]: the flat memory of the SMI handlers.
    - [Services]: variables, ROM hole and reset port as the class [Firmware],
      with an instance and a way to lift it to a bigger state; [OobCmos] has
      the class [CmosPorts].
    - [RomHole]: [../SmcRomHole] and [../SmcSwSmiFlash], the ROM hole itself,
      written directly or through the E9 interrupt over the class [Flash]; its
      functions meet the laws of [Firmware] that concern the ROM hole.
    - [Ifr], [Packages]: the encoding of set-up forms, as opcode streams related
      to trees ([forest]) and package lists related to lists ([hii_list]).

    The in-band path:
    - [BlowfishTables], [Blowfish]: [Library/CBlowfish.c], [CBlowfish.h2].
    - [OobCmos]: the CMOS tokens of [Library/OobLibrary.c].
    - [FeatureFlag]: [Library/SmcFeatureFlag.c].
    - [ExpStack]: [SmcInBand/SmcStack.c].
    - [Expression], [SetupTables], [FormWalk], [FormData]: the parts of
      [SmcInBand/SmcInBandSetupTemplate.c] that evaluate suppress-if conditions,
      keep the tables, mark hidden references and list the forms.
    - [Hii], [HiiImage]: [SmcInBand/SmcInBandHii.c], the export of the set-up
      forms with hidden items suppressed, and the enciphered image;
      [HiiRead]: the image made with the modelled compressor, and read back.
    - [FormLayout]: [ParseRefNode] and [GenFormLayout] of
      [SmcInBandSetupTemplate.c], which follow the references from the root
      forms and write the tree of forms as text behind the export;
       [LayoutJson]: the grammar of JSON, and that the text is in it.
    - The compressor [Library/TianoCompress.c], from the bottom up: [CArray],
      tables as functions from the index and total-correctness rules ([wp]);
      [BitStream], bits and [PutBits]; [TianoHuff], [MakeTree] and the canonical
      codes; [TianoFormat], the compressed format on its own; [TianoBlock], the
      queue of symbols and [SendBlock]; [TianoSlide], the tree of earlier
      strings and the search in it; [TianoCompress], input, [Encode] and the
      entry point.
    - The decompressor that reads what the compressor writes
      ([src/IntelFrameworkModulePkg/Library/BaseUefiTianoCustomDecompressLib]):
      [TianoReader], the bits of the source; [TianoTable], [MakeTable]: the table
      and the tree a symbol is looked up in; [TianoDecode], the headers of the
      blocks and [Decode]; [TianoDecompress], the entry points and the handlers
      of compressed sections. Of the compressor it shares [TianoFormat] only,
      and the theorem that puts the two together.
    - [Smbios], [SmbiosUpdate]: [SmcInBand/SmcInBandSmbios.c].
    - [FullSm]: [SmcInBand/SmcInBandFullSM.c].
    - [BiosCfg]: [SmcInBand/SmcInBandBiosCfg.c].
    - [InBandSmm]: [SmcInBand/SmcInBandSmm.c], both handlers.
    - [Dxe]: [SmcInBand/SmcInBandDxe.c], entry point and callbacks; it composes
      the components above.

    The out-of-band path:
    - [Bmc]: the transfer protocol the BMC offers as the class [Bmc], with an
      instance in memory.
    - [SmcLibBmc]: the protocol over IPMI commands and the 64 KB window onto the
      memory of the BMC ([src/SmcPkg/SmcLib/SmcLibBmc.c]); [sys_bmc] is the
      second instance of [Bmc], over the classes [VideoDevice] and
      [BmcFirmware], whose instance is [Machine].
    - [OutBand]: [SmcOutBand/SmcOutBand.c] and the digest of
      [Library/OobLibrary.c]; [OobUpload], [OobDownload]: its two directions.

    The LSI RAID driver:
    - [RaidSetup]: [SmcLsiRaidOOB/SmcLsiRaidOOBSetup.c] with the tables of
      [SmcLsiRaidOOBSetting.c]: the search for cards, the list of cards, the
      driver protocol; its [raid_driver] is the [RaidDriver] [BiosCfg] calls.
    - [VarHash]: the variable tables of [SmcLsiRaidOOB/SmcLsiRaidOOB.c].
    - [RaidCmd]: the parser and the examination of commands of
      [SmcLsiRaidOOB/SmcLsiRaidOOBCmd.c].
    - [LsiStack]: [SmcLsiRaidOOB/SmcLsiStack.c].

    A C function keeps its name. Static and global variables are fields of the
    record of their component, or arguments and results of the functions that
    use them; a loop whose body matters is a definition of its own, named after
    what it does; pointers into a buffer are offsets, pointers to pool nodes are
    addresses in a heap. Reads and writes outside what the model knows are
    [Fault], so a theorem that gives a [Done] result also says the code stays
    inside its buffers.

    ** The theorems

    - The two hand-offs, [InBandSmm.SMI_handoff] and
      [Dxe.ReadyToBoot_publishes] on the way out,
      [Dxe.download_applied_at_next_boot] and [InBandSmm.E6_download_correct]
      on the way in: what the tool gets is what the components combined, and
      what it sends is what the next boot applies.
    - The way through the BMC: [OobUpload.UploadOobDataToBmc_sync] (a stored
      digest is that of a file the BMC has), [OobUpload.UploadOobDataToBmc_again]
      (a second boot uploads nothing),
      [OobDownload.DownloadBiosCfgFromBMC_verified] (only a file with the right
      checksum is stored), [OobDownload.remote_settings_applied] (it is what
      the next boot applies), [OobDownload.DownloadBiosStorageFromBmc_restores].
      They are proved against [Bmc]; [SmcLibBmc.upload_replaces],
      [SmcLibBmc.download_fetches], [SmcLibBmc.prepare_read_roundtrip],
      [SmcLibBmc.DataToBMCDone_polls] and [SmcLibBmc.no_device] are about the
      library under it.
    - The flash regions: [RomHole.SmcRomHoleWriteRegion_correct],
      [RomHole.SmcRomHoleWriteRegion_smi], [RomHole.SmcRomHoleWriteRegion_errors]
      (what is left when one of the flash calls fails).
    - Each image byte for byte, against the data it is made of:
      [BiosCfg.CombineBiosCfg_correct], [HiiImage.CombineHiiData_correct],
      [Smbios.CombineSmbios_correct], [FullSm.CombineFullSmBios_correct],
      [FeatureFlag.GenerateFeatureSupportFlags_correct].
    - The walks over set-up forms against functions on trees:
      [Hii.EnumerateHpkList_correct], [FormWalk.ParseOpNode_marks],
      [FormData.InitFormData_correct], [FormLayout.GenFormLayout_correct] (the
      text is that of the tree of forms the references make;
      [LayoutJson.GenFormLayout_json]: it is JSON),
      [Expression.CalExpValue_correct],
      [Expression.GetScopeEnd_correct].
    - The compressor: [TianoCompress.TianoCompress_compresses] (what it writes
      is in the format and expands to the data), on top of
      [TianoSlide.InsertNode_matches] (the tree stays a tree and a match is
      one), [TianoHuff.MakeTree_canonical], [TianoBlock.output_queue]; and
      [TianoCompress.TianoCompress_frees].
    - The decompressor: [TianoDecompress.UefiTianoDecompress_correct] (it returns
      what a buffer in the format stands for, whoever wrote it), on top of
      [TianoTable.MakeTable_decodes]; with the compressor
      [TianoDecompress.TianoCompress_decompresses]: the data comes back;
      [TianoDecompress.TianoDecompress_section]; and for the whole image
      [HiiRead.CombineHiiData_readable]: deciphered and decompressed it is the
      export again.
    - The updates: [BiosCfg.InBandUpdateBiosCfg_correct],
      [BiosCfg.UpdateVariable_correct], [SmbiosUpdate.InBandUpdateSmbios_correct].
    - Round trips: [Blowfish.CBlowFishDecipher_Encipher] and its buffer form,
      [OobCmos.OobCmosTokens_roundtrip], [SmbiosUpdate.UpdateToNVRAM_roundtrip],
      [RaidCmd.AnalysisAndParse_print] (parsing a printed command).
    - Abstract states: the two stacks ([ExpStack.SmcStack_refines],
      [LsiStack.SmcStack_refines_list]), the variable tables as one list of
      variables ([VarHash.lookup_refines] and the theorems on adding, loading
      and freeing), the list of cards ([RaidSetup.SearchForLsiFormSet_correct]).
    - Reachable states: [RaidSetup.data_only_after_download],
      [RaidSetup.Start_Download_ready], [InBandSmm.InitSmcInBandSmm_safe],
      [Dxe.InitSmcInBand_safe].
    - Not all of these are among the numbered properties; the others are theorems
      all the same.
    - Termination and limits: [Expression.CalExpValue_terminates],
      [Blowfish.CBlowFishInit_total], [RaidCmd.AnalysisAndParse_total],
      [InBandSmm.E6_download_wraps], [FormLayout.GenFormLayout_too_deep] (what
      references in a circle do); and theorems on what goes wrong, as
      [VarHash.AddLsiVarByBuffer2_again] or, among the lemmas,
      [HiiImage.CombineHiiData_padding_overrun],
      [SmbiosUpdate.InBandUpdateSmbios_rejects],
      [Expression.CalExpValue_LESS_EQUAL], [RaidCmd.ExamineBasic_status_kept],
      [FormData.InitFormData_long_title], [Hii.EnumerateHpkList_twice].

    ** Fuel

    Loops over a buffer get the length of the buffer and one more, which is
    enough because each turn moves on by at least a byte ([for_each],
    [op_loop], [FindFormsetData]); the theorems that give a result show it.
    Loops over a chain get a bound on its length, a hypothesis of their
    theorems ([VarHash], [LsiStack]); the chain lemmas show that a longer one
    changes nothing and that a chain with a cycle uses up any fuel. The scans of
    the variable store in [BiosCfg] take the number of variables, the scope
    search of [Expression] the bound of a million opcodes the code has. The
    retries of the out-of-band path are recursions on the counters of the code:
    3 files, 200 waits, 20 commands, 60 for the end of an upload. The calls of
    [ParseRefNode] inside each other get 32: level 32 is one the buffer of the
    prefix does not hold, so the fuel never runs out first. The window of
    [SmcLibBmc] takes 18 rounds, one more than a megabyte in chunks of 64 KB
    and the test at the end need. In the compressor chains and paths get twice
    the window, more than there are nodes, comparisons 257 rounds for 256
    bytes, the loop of [Encode] the length of the data and one; its theorems
    show that none runs out. In the decompressor a way down the tree gets as
    many steps as there are nodes and bits, a longer one never ends; lists of
    lengths their number and one; [Decode] the size of the data and two, as
    each round but the last writes a byte.

    ** What is assumed

    Services that report success do what their documentation says, and one
    that reports an error leaves what it would have changed alone; most
    theorems hold for every outcome of these calls. That a call does succeed is
    promised by no one. Where a theorem is about runs in which it does, its
    comment says so and it has one of these as a hypothesis: [vars_writable]
    (every [SetVariable] works), [regions_readable] and [regions_writable]
    (every read and every write of a flash region works), [flash_works] in
    [RomHole], [bmc_hands_out] and [bmc_accepts] (every command of a transfer
    works). They are in the hand-offs that run over several components ([Dxe],
    [OobUpload], [OobDownload]), the entry point of the driver, and single
    theorems on the SMI path of the flash and on a download that wraps.
    [SmbiosUpdate.UpdateToNVRAM_roundtrip] asks that the two variables it is
    about can be written. A file above 64 KB is read from the video memory, of which nothing
    is assumed: it need not hold what the BMC put into its own memory.

    Code outside the module is a parameter: the HII database and its strings,
    [GetNextVariableName], [SmbiosRead], the hide list and the other platform
    hooks, the CPU save state and the check of a memory buffer, the SMI trigger,
    the resource loader, protocol installation, the digest of the crypto
    library, the flash part ([Flash]), the VGA device and the firmware of the
    BMC. Its documented behaviour is a law of a class ([Firmware], [CmosPorts])
    or a hypothesis of the theorem. Parts of the module that are not modelled
    are parameters too, with the hypotheses given where they are used: the
    layout generator and the compressor in [HiiImage], which have models of
    their own ([HiiRead] puts the compressor in), and the RAID library behind
    the setup driver ([RaidSetup], where it may change its own state and take
    identifiers). Pool allocations succeed, except in [RomHole], [OutBand] and
    the entry point in [Dxe], which get what they return as an argument, in
    [VarHash], [RaidSetup] and [LsiStack], whose allocators hand out given
    addresses and can fail, and in [TianoCompress], where any pool can be
    missing. Each file says which of its calls are meant. A write of the ROM
    hole through the E9 interrupt also leaves an address in CMOS; [RomHole]
    models that, [Firmware] has no CMOS.

    ** What is not modelled

    - Data longer than the window: the compressor is modelled with the move of
      the window and [DeleteNode], its theorems are for data that fits (524286
      bytes of the 2 MB an export may have). The decompressor's are for data of
      any size below 4 GB, in streams of version 2 (Tiano's positions); version
      1 is modelled. On corrupted streams nothing is proved but the faults that
      [TianoDecompress] shows.
    - The collection of a card's forms and the execution of commands through the
      form callbacks ([SmcLsiRaidOOB.c], the rest of [SmcLsiRaidOOBCmd.c],
      [SmcLsiRaidOOBLib_SupGray.c]): planned on top of [VarHash], [RaidCmd],
      [RaidSetup] and [LsiStack].
    - [SmcAssetInfo/SmcAssetInfo.c], which reports the devices of the board to the
      BMC; the IPMI commands of [SmcLibBmc.c] that carry no file.
    - Debug output ([SmcInBandHiiDebug.c]); the reset and signal libraries, a
      few lines of glue; the protocol installation of [Library/OobLibrary.c]; the
      build files and the samples.
    - The rest of the repository: vendor packages the module is built with. *)

From stdpp Require Export base option list list_numbers numbers gmap.
From Stdlib Require Export ZArith Lia.

#[global] Open Scope Z_scope.

(** ** Results of C code

    [Done] is a normal return, [Fault] an access outside the buffers the
    model knows (undefined behaviour in C), [NoFuel] a loop cut by the fuel
    of its definition. *)
Inductive Res (A : Type) : Type :=
| Done (a : A)
| Fault
| NoFuel.
Arguments Done {A} a.
Arguments Fault {A}.
Arguments NoFuel {A}.

#[global] Instance Res_ret : MRet Res := @Done.
#[global] Instance Res_bind : MBind Res := fun A B k m =>
  match m with Done a => k a | Fault => Fault | NoFuel => NoFuel end.

Create HintDb smc.
Create HintDb nofuel.

Definition is_done {A} (r : Res A) : bool :=
  match r with Done _ => true | _ => false end.

Lemma Done_inj {A} (a b : A) : Done a = Done b -> b = a.
Proof. congruence. Qed.

Lemma bind_Done {A B} (a : A) (k : A -> Res B) : (Done a ≫= k) = k a.
Proof. reflexivity. Qed.

Lemma bind_inv {A B} (m : Res A) (k : A -> Res B) b :
  (m ≫= k) = Done b -> exists a, m = Done a /\ k a = Done b.
Proof. destruct m; cbn; intros; try discriminate. eauto. Qed.

Lemma bind_assoc {A B C} (m : Res A) (f : A -> Res B) (g : B -> Res C) :
  ((m ≫= f) ≫= g) = (m ≫= fun a => f a ≫= g).
Proof. destruct m; reflexivity. Qed.

(** ** Machine integers *)
Definition u8 (x : Z) : Z := x mod 2 ^ 8.
Definition u16 (x : Z) : Z := x mod 2 ^ 16.
Definition u32 (x : Z) : Z := x mod 2 ^ 32.
Definition u64 (x : Z) : Z := x mod 2 ^ 64.

Definition is_u8 (x : Z) : Prop := 0 <= x < 2 ^ 8.
Definition is_u16 (x : Z) : Prop := 0 <= x < 2 ^ 16.
Definition is_u32 (x : Z) : Prop := 0 <= x < 2 ^ 32.
Definition is_u64 (x : Z) : Prop := 0 <= x < 2 ^ 64.

Lemma u8_range x : is_u8 (u8 x).
Proof. apply Z.mod_pos_bound. lia. Qed.
Lemma u16_range x : is_u16 (u16 x).
Proof. apply Z.mod_pos_bound. lia. Qed.
Lemma u32_range x : is_u32 (u32 x).
Proof. apply Z.mod_pos_bound. lia. Qed.
Lemma u64_range x : is_u64 (u64 x).
Proof. apply Z.mod_pos_bound. lia. Qed.
Lemma u8_small x : is_u8 x -> u8 x = x.
Proof. apply Z.mod_small. Qed.
Lemma u16_small x : is_u16 x -> u16 x = x.
Proof. apply Z.mod_small. Qed.
Lemma u32_small x : is_u32 x -> u32 x = x.
Proof. apply Z.mod_small. Qed.
Lemma u64_small x : is_u64 x -> u64 x = x.
Proof. apply Z.mod_small. Qed.

(** ** Buffers: lists of byte values *)
Definition zlen {A} (l : list A) : Z := Z.of_nat (length l).

Definition bytes_ok (l : list Z) : Prop := Forall is_u8 l.

(** An address is an offset into the buffer; an access outside it is a
    [Fault]. *)
Definition rdn (b : list Z) (i n : Z) : Res (list Z) :=
  if (0 <=? i) && (0 <=? n) && (i + n <=? zlen b)
  then Done (take (Z.to_nat n) (drop (Z.to_nat i) b)) else Fault.

Definition wrn (b : list Z) (i : Z) (bs : list Z) : Res (list Z) :=
  if (0 <=? i) && (i + zlen bs <=? zlen b)
  then Done (take (Z.to_nat i) b ++ bs ++ drop (Z.to_nat (i + zlen bs)) b)
  else Fault.

(** Arrays of any element type, same discipline. *)
Definition arr_get {A} (a : list A) (i : Z) : Res A :=
  if 0 <=? i then
    match a !! Z.to_nat i with Some v => Done v | None => Fault end
  else Fault.

Definition arr_set {A} (a : list A) (i : Z) (v : A) : Res (list A) :=
  if (0 <=? i) && (i <? zlen a) then Done (<[Z.to_nat i := v]> a) else Fault.

Definition rd8 (b : list Z) (i : Z) : Res Z := arr_get b i.

Definition wr8 (b : list Z) (i v : Z) : Res (list Z) := wrn b i [u8 v].

(** Little-endian integers. *)
Fixpoint le_val (l : list Z) : Z :=
  match l with [] => 0 | b :: r => b + 256 * le_val r end.

Fixpoint le_bytes (n : nat) (v : Z) : list Z :=
  match n with O => [] | S n => v mod 256 :: le_bytes n (v / 256) end.

Definition rd16 (b : list Z) (i : Z) : Res Z := l ← rdn b i 2; Done (le_val l).
Definition rd32 (b : list Z) (i : Z) : Res Z := l ← rdn b i 4; Done (le_val l).
Definition rd64 (b : list Z) (i : Z) : Res Z := l ← rdn b i 8; Done (le_val l).
Definition wr16 (b : list Z) (i v : Z) : Res (list Z) := wrn b i (le_bytes 2 v).
Definition wr32 (b : list Z) (i v : Z) : Res (list Z) := wrn b i (le_bytes 4 v).
Definition wr64 (b : list Z) (i v : Z) : Res (list Z) := wrn b i (le_bytes 8 v).

(** The 8-bit sum every header checksum of the module is made of. *)
Definition sum8 (l : list Z) : Z := fold_left (fun c b => u8 (c + b)) l 0.

(** ** Lengths *)
Lemma zlen_nonneg {A} (l : list A) : 0 <= zlen l.
Proof. unfold zlen. lia. Qed.
Lemma zlen_nil {A} : zlen (@nil A) = 0.
Proof. reflexivity. Qed.
Lemma zlen_cons {A} (x : A) l : zlen (x :: l) = 1 + zlen l.
Proof. unfold zlen. cbn [length]. lia. Qed.
Lemma zlen_app {A} (l k : list A) : zlen (l ++ k) = zlen l + zlen k.
Proof. unfold zlen. rewrite length_app. lia. Qed.
Lemma zlen_replicate {A} n (x : A) : zlen (replicate n x) = Z.of_nat n.
Proof. unfold zlen. rewrite length_replicate. lia. Qed.
Lemma length_le_bytes n v : length (le_bytes n v) = n.
Proof. revert v. induction n; cbn; intros; [lia|]. rewrite IHn. lia. Qed.
Lemma zlen_le_bytes n v : zlen (le_bytes n v) = Z.of_nat n.
Proof. unfold zlen. by rewrite length_le_bytes. Qed.
Lemma zlen_take {A} n (l : list A) :
  zlen (take n l) = Z.min (Z.of_nat n) (zlen l).
Proof. unfold zlen. rewrite length_take. lia. Qed.
Lemma zlen_drop {A} n (l : list A) :
  zlen (drop n l) = Z.max 0 (zlen l - Z.of_nat n).
Proof. unfold zlen. rewrite length_drop. lia. Qed.
Lemma zlen_map {A B} (f : A -> B) l : zlen (map f l) = zlen l.
Proof. unfold zlen. by rewrite length_map. Qed.

Create Rewrite HintDb zlen.
#[export] Hint Rewrite @zlen_nil @zlen_cons @zlen_app @zlen_replicate
  @zlen_le_bytes @zlen_take @zlen_drop @zlen_map : zlen.

(** [zl] normalises lengths in the goal and closes it by arithmetic. *)
Ltac zlen_pos :=
  repeat match goal with
  | |- context [@zlen ?A ?l] =>
      lazymatch goal with
      | _ : 0 <= zlen l |- _ => fail
      | _ => pose proof (@zlen_nonneg A l)
      end
  | _ : context [@zlen ?A ?l] |- _ =>
      lazymatch goal with
      | _ : 0 <= zlen l |- _ => fail
      | _ => pose proof (@zlen_nonneg A l)
      end
  end.
Ltac zl := autorewrite with zlen in *; zlen_pos; lia.

(** [args] proves two applications equal by equal lengths in the arguments. *)
Ltac args := solve [repeat first [done | solve [zl] | f_equal]].

(** ** Reading and writing a buffer given as a concatenation *)
Lemma drop_app_zlen {A} (l k : list A) i :
  zlen l = i -> drop (Z.to_nat i) (l ++ k) = k.
Proof. intros <-. unfold zlen. rewrite Nat2Z.id. apply drop_app_length. Qed.

Lemma take_app_zlen {A} (l k : list A) i :
  zlen l = i -> take (Z.to_nat i) (l ++ k) = l.
Proof. intros <-. unfold zlen. rewrite Nat2Z.id. apply take_app_length. Qed.

Lemma rdn_at pre mid post i n :
  zlen pre = i -> zlen mid = n -> rdn (pre ++ mid ++ post) i n = Done mid.
Proof.
  intros Hi Hn. unfold rdn.
  replace ((0 <=? i) && (0 <=? n) && (i + n <=? _)) with true by zl.
  by rewrite (drop_app_zlen pre _ i), (take_app_zlen mid _ n).
Qed.

Lemma wrn_at pre old post i bs :
  zlen pre = i -> zlen old = zlen bs ->
  wrn (pre ++ old ++ post) i bs = Done (pre ++ bs ++ post).
Proof.
  intros Hi Hn. unfold wrn.
  replace ((0 <=? i) && (i + zlen bs <=? _)) with true by zl.
  rewrite (take_app_zlen pre _ i) by done.
  by rewrite (app_assoc pre old post), drop_app_zlen by zl.
Qed.

Lemma rd8_at pre x post i :
  zlen pre = i -> rd8 (pre ++ x :: post) i = Done x.
Proof.
  intros Hi. unfold rd8, arr_get. replace (0 <=? i) with true by zl.
  replace (Z.to_nat i) with (length pre) by (unfold zlen in Hi; lia).
  by rewrite list_lookup_middle.
Qed.

(** The same with the splitting of the buffer as a side condition, and the
    tactics that apply them: [wr_as pre old post] and [rd_as pre mid post]
    evaluate the next access. *)
Lemma wrn_as b pre old post i bs :
  b = pre ++ old ++ post -> zlen pre = i -> zlen old = zlen bs ->
  wrn b i bs = Done (pre ++ bs ++ post).
Proof. intros ->. apply wrn_at. Qed.

Lemma rdn_as b pre mid post i n :
  b = pre ++ mid ++ post -> zlen pre = i -> zlen mid = n -> rdn b i n = Done mid.
Proof. intros ->. apply rdn_at. Qed.

Ltac app_norm := repeat progress (cbn [app]; rewrite <- ?app_assoc).
Ltac app_eq :=
  app_norm;
  first
    [ reflexivity
    | repeat match goal with |- context [?x] => is_var x; unfold x end;
      app_norm; reflexivity ].
Ltac wr_as pre old post :=
  lazymatch goal with
  | |- (wrn ?b ?i ?bs ≫= _) = _ =>
      rewrite (wrn_as b pre old post i bs) by solve [app_eq | zl]; rewrite bind_Done
  | |- _ => rewrite (wrn_as _ pre old post) by solve [app_eq | zl]; rewrite bind_Done
  end.
Ltac rd_as pre mid post :=
  lazymatch goal with
  | |- (rdn ?b ?i ?n ≫= _) = _ =>
      rewrite (rdn_as b pre mid post i n) by solve [app_eq | zl]; rewrite bind_Done
  | |- _ => rewrite (rdn_as _ pre mid post) by solve [app_eq | zl]; rewrite bind_Done
  end.

Lemma rd8_rdn b i : rd8 b i = (l ← rdn b i 1; Done (le_val l)).
Proof.
  unfold rd8, arr_get, rdn. destruct (Z.leb_spec 0 i) as [Hi|]; [|reflexivity]. cbn [andb].
  change (0 <=? 1) with true. cbn [andb].
  destruct (Z.leb_spec (i + 1) (zlen b)) as [Hl|Hl]; unfold zlen in Hl.
  - assert (is_Some (b !! Z.to_nat i)) as [x Hx] by (apply lookup_lt_is_Some_2; lia).
    rewrite Hx, (drop_S _ x) by done. change (Z.to_nat 1) with 1%nat.
    cbn [take]. rewrite take_0, bind_Done. cbn [le_val]. f_equal. lia.
  - rewrite lookup_ge_None_2 by lia. reflexivity.
Qed.

Lemma arr_get_lookup {A} (a : list A) (i : Z) v :
  arr_get a i = Done v <-> 0 <= i /\ a !! Z.to_nat i = Some v.
Proof.
  unfold arr_get. destruct (Z.leb_spec 0 i).
  - destruct (a !! Z.to_nat i); split; [intros [=->]|intros [_ [=->]]| |intros [_ ?]]; done.
  - split; [done|lia].
Qed.

Lemma arr_get_in {A} (a : list A) i :
  0 <= i < zlen a -> exists v, arr_get a i = Done v /\ a !! Z.to_nat i = Some v.
Proof.
  intros H. destruct (lookup_lt_is_Some_2 a (Z.to_nat i)) as [v Hv].
  { unfold zlen in H. lia. }
  exists v. rewrite arr_get_lookup. split_and!; [lia|done..].
Qed.

Lemma arr_set_Done {A} (a : list A) i v a' :
  arr_set a i v = Done a' <-> 0 <= i < zlen a /\ a' = <[Z.to_nat i := v]> a.
Proof.
  unfold arr_set. destruct (Z.leb_spec 0 i), (Z.ltb_spec i (zlen a)); cbn;
    split; try (intros [=<-]); try intros [? ->]; try done; lia.
Qed.

(** ** General facts on [rdn] and [wrn] *)
Lemma rdn_Done b i n l :
  rdn b i n = Done l <->
  0 <= i /\ 0 <= n /\ i + n <= zlen b /\
  l = take (Z.to_nat n) (drop (Z.to_nat i) b).
Proof.
  unfold rdn. split.
  - destruct (Z.leb_spec 0 i), (Z.leb_spec 0 n), (Z.leb_spec (i + n) (zlen b));
      cbn; intros [=<-] || intros [=]; auto.
  - intros (? & ? & ? & ->).
    by replace ((0 <=? i) && (0 <=? n) && (i + n <=? zlen b)) with true by lia.
Qed.

Lemma rdn_zlen b i n l : rdn b i n = Done l -> zlen l = n.
Proof. intros (?&?&?&->)%rdn_Done. zl. Qed.

Lemma rdn_in b i n :
  0 <= i -> 0 <= n -> i + n <= zlen b -> exists l, rdn b i n = Done l.
Proof. intros. eexists. apply rdn_Done. eauto. Qed.

Lemma wrn_Done b i bs b' :
  wrn b i bs = Done b' <->
  0 <= i /\ i + zlen bs <= zlen b /\
  b' = take (Z.to_nat i) b ++ bs ++ drop (Z.to_nat (i + zlen bs)) b.
Proof.
  unfold wrn. split.
  - destruct (Z.leb_spec 0 i), (Z.leb_spec (i + zlen bs) (zlen b));
      cbn; intros [=<-] || intros [=]; auto.
  - intros (? & ? & ->).
    by replace ((0 <=? i) && (i + zlen bs <=? zlen b)) with true by lia.
Qed.

Lemma wrn_zlen b i bs b' : wrn b i bs = Done b' -> zlen b' = zlen b.
Proof. intros (?&?&->)%wrn_Done. zl. Qed.

Lemma wrn_in b i bs :
  0 <= i -> i + zlen bs <= zlen b -> exists b', wrn b i bs = Done b'.
Proof. intros. eexists. apply wrn_Done. eauto. Qed.

Lemma wrn_split b i bs b' :
  wrn b i bs = Done b' ->
  exists pre old post, b = pre ++ old ++ post /\ b' = pre ++ bs ++ post /\
    zlen pre = i /\ zlen old = zlen bs.
Proof.
  intros (?&?&->)%wrn_Done.
  exists (take (Z.to_nat i) b), (take (Z.to_nat (zlen bs)) (drop (Z.to_nat i) b)),
    (drop (Z.to_nat (i + zlen bs)) b).
  split; [|split; [done|]].
  - replace (Z.to_nat (i + zlen bs)) with (Z.to_nat i + Z.to_nat (zlen bs))%nat
      by zl.
    by rewrite <- drop_drop, !take_drop.
  - split; zl.
Qed.

Lemma rdn_wrn_same b i bs b' :
  wrn b i bs = Done b' -> rdn b' i (zlen bs) = Done bs.
Proof.
  intros (pre & old & post & -> & -> & Hi & Ho)%wrn_split. by apply rdn_at.
Qed.

Lemma rdn_wrn_other b i bs b' j n :
  wrn b i bs = Done b' -> j + n <= i \/ i + zlen bs <= j ->
  rdn b' j n = rdn b j n.
Proof.
  intros H Hd. pose proof (wrn_zlen _ _ _ _ H) as Hz.
  apply wrn_Done in H as (Hi & Hl & ->).
  unfold rdn. rewrite Hz.
  destruct (Z.leb_spec 0 j), (Z.leb_spec 0 n), (Z.leb_spec (j + n) (zlen b));
    cbn [andb]; try reflexivity.
  f_equal. unfold zlen in *. destruct Hd as [Hd|Hd].
  - rewrite drop_app_le by (rewrite length_take; lia).
    rewrite take_app_le by (rewrite length_drop, length_take; lia).
    rewrite !take_drop_commute, take_take. do 2 f_equal. lia.
  - rewrite app_assoc.
    rewrite drop_app_ge by (rewrite length_app, length_take; lia).
    rewrite drop_drop. do 2 f_equal. rewrite length_app, length_take. lia.
Qed.

(** ** Appending to the used part of a buffer *)
Lemma prefix_split {A} (c b : list A) :
  c `prefix_of` b -> exists r, b = c ++ r /\ zlen b = zlen c + zlen r.
Proof. intros [r ->]. exists r. split; [done|zl]. Qed.

Lemma wrn_append b c bs :
  c `prefix_of` b -> zlen c + zlen bs <= zlen b ->
  exists b', wrn b (zlen c) bs = Done b' /\ (c ++ bs) `prefix_of` b' /\ zlen b' = zlen b.
Proof.
  intros [r ->] Hl. destruct (wrn_in (c ++ r) (zlen c) bs) as [b' E]; [zl|zl|].
  exists b'. split; [done|]. split; [|by eapply wrn_zlen].
  apply wrn_Done in E as (_ & _ & ->). rewrite take_app_zlen by done.
  rewrite app_assoc. by apply prefix_app_r.
Qed.

(** ** Folds in the result monad *)
Fixpoint foldM {S A} (f : S -> A -> Res S) (l : list A) (s : S) : Res S :=
  match l with [] => Done s | x :: l => s ← f s x; foldM f l s end.

Lemma foldM_app {S A} (f : S -> A -> Res S) l k s :
  foldM f (l ++ k) s = (s ← foldM f l s; foldM f k s).
Proof.
  revert s. induction l as [|x l IH]; intros s; cbn [foldM app]; [done|].
  rewrite bind_assoc. destruct (f s x); cbn; [apply IH|done|done].
Qed.

(** ** Accesses never run out of fuel *)
Lemma bind_nofuel {A B} (m : Res A) (k : A -> Res B) :
  m <> NoFuel -> (forall a, m = Done a -> k a <> NoFuel) -> (m ≫= k) <> NoFuel.
Proof. destruct m; cbn; auto. Qed.
Lemma arr_get_nofuel {A} (a : list A) i : arr_get a i <> NoFuel.
Proof. unfold arr_get. by repeat case_match. Qed.
Lemma arr_set_nofuel {A} (a : list A) i v : arr_set a i v <> NoFuel.
Proof. unfold arr_set. by case_match. Qed.
Lemma rd8_nofuel b i : rd8 b i <> NoFuel.
Proof. apply arr_get_nofuel. Qed.
Lemma rdn_nofuel b i n : rdn b i n <> NoFuel.
Proof. unfold rdn. by case_match. Qed.
Lemma wrn_nofuel b i l : wrn b i l <> NoFuel.
Proof. unfold wrn. by case_match. Qed.
#[export] Hint Resolve arr_get_nofuel arr_set_nofuel rd8_nofuel rdn_nofuel
  wrn_nofuel : nofuel.

Ltac nofuel :=
  repeat first
    [ done
    | solve [auto with nofuel]
    | apply bind_nofuel; [|intros]
    | case_match ].

(** ** [bs] is stored at offset [i] of [b] *)
Definition found (b : list Z) (i : Z) (bs : list Z) : Prop :=
  rdn b i (zlen bs) = Done bs.

Lemma found_split b i bs :
  found b i bs <-> exists pre post, b = pre ++ bs ++ post /\ zlen pre = i.
Proof.
  split.
  - intros (Hi & _ & Hl & E)%rdn_Done.
    exists (take (Z.to_nat i) b), (drop (Z.to_nat (i + zlen bs)) b).
    split; [|zl]. rewrite E at 1.
    replace (Z.to_nat (i + zlen bs)) with (Z.to_nat i + Z.to_nat (zlen bs))%nat by zl.
    by rewrite <- drop_drop, !take_drop.
  - intros (pre & post & -> & Hi). by apply rdn_at.
Qed.

Lemma found_at pre bs post : found (pre ++ bs ++ post) (zlen pre) bs.
Proof. by apply rdn_at. Qed.

Lemma found_app b i x y : found b i (x ++ y) <-> found b i x /\ found b (i + zlen x) y.
Proof.
  split.
  - intros (pre & post & -> & <-)%found_split. rewrite <- app_assoc. split.
    + apply found_at.
    + rewrite (app_assoc pre). apply rdn_at; zl.
  - intros [(Hi & _ & Hl & E)%rdn_Done (Hi2 & _ & Hl2 & E2)%rdn_Done].
    unfold found. apply rdn_Done. split_and!; try zl.
    rewrite zlen_app, (Z2Nat.inj_add (zlen x)) by zl.
    rewrite <- (take_take_drop (drop _ _) (Z.to_nat (zlen x))), <- E, drop_drop.
    f_equal. rewrite <- Z2Nat.inj_add by zl. done.
Qed.

Lemma found_bound b i bs : found b i bs -> 0 <= i /\ i + zlen bs <= zlen b.
Proof. intros (?&_&?&_)%rdn_Done. done. Qed.

Lemma found_rd8 b i x r : found b i (x :: r) -> rd8 b i = Done x.
Proof. intros (pre & post & -> & <-)%found_split. by apply rd8_at. Qed.

Lemma found_cons b i x r : found b i (x :: r) -> found b (i + 1) r.
Proof. intros H. by apply (found_app b i [x] r) in H as [_ ?]. Qed.

Lemma rd8_as b pre x post i : b = pre ++ x :: post -> zlen pre = i -> rd8 b i = Done x.
Proof. intros -> H. by apply rd8_at. Qed.

Ltac r8_as pre x post :=
  lazymatch goal with
  | |- (rd8 ?b ?i ≫= _) = _ =>
      rewrite (rd8_as b pre x post i) by solve [app_eq | zl]; rewrite bind_Done
  end.

Lemma found_rdn b i bs n : found b i bs -> n = zlen bs -> rdn b i n = Done bs.
Proof. by intros ? ->. Qed.

(** ** Little-endian round trips *)
Lemma le_val_le_bytes n v : le_val (le_bytes n v) = v mod 256 ^ Z.of_nat n.
Proof.
  revert v. induction n as [|n IH]; intros v; cbn [le_bytes le_val].
  - by rewrite Z.mod_1_r.
  - rewrite IH, Nat2Z.inj_succ, Z.pow_succ_r by lia.
    by rewrite Z.rem_mul_r by lia.
Qed.

Lemma le_bytes_ok n v : bytes_ok (le_bytes n v).
Proof.
  revert v. induction n; intros v; cbn [le_bytes]; constructor; [|apply IHn].
  apply Z.mod_pos_bound. lia.
Qed.

Lemma le_val_bound l : bytes_ok l -> 0 <= le_val l < 256 ^ zlen l.
Proof.
  induction 1 as [|b l Hb _ IH]; cbn [le_val].
  - by split.
  - rewrite zlen_cons, Z.pow_add_r by zl. unfold is_u8 in Hb.
    rewrite Z.pow_1_r. change (2 ^ 8) with 256 in Hb. nia.
Qed.

Lemma le_bytes_le_val l :
  bytes_ok l -> le_bytes (length l) (le_val l) = l.
Proof.
  induction 1 as [|b l Hb _ IH]; cbn [le_val le_bytes length]; [done|].
  unfold is_u8 in Hb. f_equal.
  - rewrite (Z.mul_comm 256), Z.mod_add by lia. apply Z.mod_small. lia.
  - rewrite (Z.mul_comm 256), Z.div_add, Z.div_small by lia. apply IH.
Qed.

Lemma le_val_2 v : is_u16 v -> le_val (le_bytes 2 v) = v.
Proof. intros H. rewrite le_val_le_bytes. by apply Z.mod_small. Qed.
Lemma le_val_4 v : is_u32 v -> le_val (le_bytes 4 v) = v.
Proof. intros H. rewrite le_val_le_bytes. by apply Z.mod_small. Qed.
Lemma le_val_8 v : is_u64 v -> le_val (le_bytes 8 v) = v.
Proof. intros H. rewrite le_val_le_bytes. by apply Z.mod_small. Qed.

Lemma le_val_2_range l : bytes_ok l -> zlen l = 2 -> is_u16 (le_val l).
Proof. intros H Hl. pose proof (le_val_bound l H). rewrite Hl in *. done. Qed.
Lemma le_val_4_range l : bytes_ok l -> zlen l = 4 -> is_u32 (le_val l).
Proof. intros H Hl. pose proof (le_val_bound l H). rewrite Hl in *. done. Qed.

(** ** The 8-bit checksum *)
Fixpoint zsum (l : list Z) : Z :=
  match l with [] => 0 | b :: r => b + zsum r end.

Lemma sum8_acc l c :
  fold_left (fun c b => u8 (c + b)) l (u8 c) = u8 (c + zsum l).
Proof.
  revert c. induction l as [|b l IH]; intros c; cbn [fold_left zsum].
  - by rewrite Z.add_0_r.
  - rewrite IH. unfold u8.
    rewrite Z.add_assoc, <- (Z.add_mod_idemp_l (_ mod _ + b)) by lia.
    rewrite (Z.add_mod_idemp_l c) by lia. by rewrite Z.add_mod_idemp_l by lia.
Qed.

Lemma sum8_zsum l : sum8 l = u8 (zsum l).
Proof. apply (sum8_acc l 0). Qed.

Lemma zsum_app l k : zsum (l ++ k) = zsum l + zsum k.
Proof. induction l; cbn [zsum app]; lia. Qed.

Lemma sum8_app l k : sum8 (l ++ k) = u8 (sum8 l + sum8 k).
Proof. rewrite !sum8_zsum, zsum_app. unfold u8. by rewrite <- Z.add_mod by lia. Qed.

Lemma sum8_range l : is_u8 (sum8 l).
Proof. rewrite sum8_zsum. apply u8_range. Qed.

(** ** NUL-terminated strings *)
Fixpoint nul_index (l : list Z) : option nat :=
  match l with
  | [] => None
  | b :: r => if b =? 0 then Some O else S <$> nul_index r
  end.

(** [Strlen]: the scan runs off the buffer when there is no NUL. *)
Definition c_strlen (b : list Z) (i : Z) : Res Z :=
  if 0 <=? i then
    match nul_index (drop (Z.to_nat i) b) with
    | Some n => Done (Z.of_nat n)
    | None => Fault
    end
  else Fault.

Definition c_str (b : list Z) (i : Z) : Res (list Z) :=
  n ← c_strlen b i; rdn b i n.

Definition no_nul (l : list Z) : Prop := Forall (fun b => b <> 0) l.

Lemma nul_index_app l k : no_nul l -> nul_index (l ++ 0 :: k) = Some (length l).
Proof.
  induction 1 as [|b l Hb _ IH]; cbn; [done|].
  destruct (Z.eqb_spec b 0); [done|]. by rewrite IH.
Qed.

Lemma c_strlen_at pre s post i :
  zlen pre = i -> no_nul s -> c_strlen (pre ++ s ++ 0 :: post) i = Done (zlen s).
Proof.
  intros Hi Hs. unfold c_strlen. replace (0 <=? i) with true by zl.
  by rewrite drop_app_zlen, nul_index_app by done.
Qed.

Lemma c_str_at pre s post i :
  zlen pre = i -> no_nul s -> c_str (pre ++ s ++ 0 :: post) i = Done s.
Proof.
  intros Hi Hs. unfold c_str. rewrite (c_strlen_at pre s post i), bind_Done by done.
  by apply rdn_at.
Qed.

(** ** Loops

    [loop n step s] iterates a C loop body: [inl] continues with a new
    state, [inr] leaves the loop. *)
Fixpoint loop {S R} (n : nat) (step : S -> Res (S + R)) (s : S) : Res R :=
  match n with
  | O => NoFuel
  | Datatypes.S n =>
      r ← step s;
      match r with inl s' => loop n step s' | inr r => Done r end
  end.

Section loop.
Context {S R : Type} (step : S -> Res (S + R)).

Lemma loop_S n s :
  loop (Datatypes.S n) step s =
  (r ← step s; match r with inl s' => loop n step s' | inr r => Done r end).
Proof. reflexivity. Qed.

Lemma loop_mono n m s r :
  loop n step s = Done r -> (n <= m)%nat -> loop m step s = Done r.
Proof.
  revert m s. induction n as [|n IH]; intros m s; cbn [loop]; [done|].
  intros (a & Ha & Hk)%bind_inv Hm. destruct m as [|m]; [lia|].
  cbn [loop]. rewrite Ha, bind_Done. destruct a; [|done]. apply IH; [done|lia].
Qed.

(** A loop whose measure goes down never runs out of fuel. *)
Lemma loop_measure (f : S -> nat) (I : S -> Prop) n s :
  (forall s, I s -> step s <> NoFuel) ->
  (forall s s', I s -> step s = Done (inl s') -> I s' /\ (f s' < f s)%nat) ->
  I s -> (f s < n)%nat -> loop n step s <> NoFuel.
Proof.
  intros Hn Hd. revert s. induction n as [|n IH]; intros s Hs Hf; [lia|].
  cbn [loop]. specialize (Hn s Hs). destruct (step s) as [[s'|r]| |] eqn:E;
    cbn; try done.
  destruct (Hd s s' Hs E). apply IH; [done|lia].
Qed.

(** Partial correctness by an invariant. *)
Lemma loop_inv (I : S -> Prop) (Q : R -> Prop) n s r :
  (forall s s', I s -> step s = Done (inl s') -> I s') ->
  (forall s r, I s -> step s = Done (inr r) -> Q r) ->
  I s -> loop n step s = Done r -> Q r.
Proof.
  intros Hi Hq. revert s. induction n as [|n IH]; intros s Hs; cbn [loop]; [done|].
  intros ([s'|r'] & Ha & Hk)%bind_inv; [eauto|]. injection Hk as ->. eauto.
Qed.
End loop.

Lemma foldM_inv {S A} (f : S -> A -> Res S) (I : S -> Prop) l s s' :
  (forall s a s', I s -> f s a = Done s' -> I s') -> I s -> foldM f l s = Done s' -> I s'.
Proof.
  intros Hf. revert s. induction l as [|a l IH]; intros s Hs; cbn [foldM].
  - by intros [= <-].
  - intros (s1 & E & Hk)%bind_inv. eauto.
Qed.

(** ** The type of a buffer: [n] bytes

    Every write keeps it. *)
Definition area (n : Z) (b : list Z) : Prop := bytes_ok b /\ zlen b = n.

Lemma wrn_area n b i bs b' : wrn b i bs = Done b' -> bytes_ok bs -> area n b -> area n b'.
Proof.
  intros E Hbs [Hb Hn]. split; [|by rewrite (wrn_zlen _ _ _ _ E)].
  apply wrn_Done in E as (_ & _ & ->). unfold bytes_ok in *.
  rewrite !Forall_app. split_and!; [by apply Forall_take|done|by apply Forall_drop].
Qed.

Lemma u8_bytes_ok v : bytes_ok [u8 v].
Proof. repeat constructor; apply u8_range. Qed.

Lemma map_u8_bytes_ok l : bytes_ok (map u8 l).
Proof. apply Forall_map, Forall_true. intros x. apply u8_range. Qed.

Lemma wr8_area n b i v b' : wr8 b i v = Done b' -> area n b -> area n b'.
Proof. intros E. exact (wrn_area n b i _ b' E (u8_bytes_ok v)). Qed.
Lemma wr16_area n b i v b' : wr16 b i v = Done b' -> area n b -> area n b'.
Proof. intros E. exact (wrn_area n b i _ b' E (le_bytes_ok 2 v)). Qed.
Lemma wr32_area n b i v b' : wr32 b i v = Done b' -> area n b -> area n b'.
Proof. intros E. exact (wrn_area n b i _ b' E (le_bytes_ok 4 v)). Qed.

Create HintDb area.
#[export] Hint Resolve wr8_area wr16_area wr32_area : area.

(** ** EFI_STATUS *)
Inductive EFI_STATUS :=
| EFI_SUCCESS | EFI_LOAD_ERROR | EFI_INVALID_PARAMETER | EFI_UNSUPPORTED
| EFI_BAD_BUFFER_SIZE | EFI_BUFFER_TOO_SMALL | EFI_NOT_READY
| EFI_OUT_OF_RESOURCES | EFI_NOT_FOUND | EFI_ACCESS_DENIED | EFI_ABORTED
| EFI_DEVICE_ERROR | EFI_NO_MEDIA.

#[global] Instance EFI_STATUS_eq_dec : EqDecision EFI_STATUS.
Proof. solve_decision. Defined.

Definition EFI_ERROR (s : EFI_STATUS) : bool :=
  match s with EFI_SUCCESS => false | _ => true end.

Lemma no_error st : EFI_ERROR st = false -> st = EFI_SUCCESS.
Proof. by destruct st. Qed.

(** ** Booleans *)
Definition b2z (b : bool) : Z := if b then 1 else 0.

Lemma b2z_u8 b : is_u8 (b2z b).
Proof. destruct b; unfold is_u8, b2z; lia. Qed.

#[export] Hint Resolve u8_range u16_range u32_range u64_range sum8_range
  le_bytes_ok b2z_u8 : smc.
