(* ===== verification/CArray.v ===== *)
(** * Arrays and sums over them

    The big tables of the compressor (up to two million entries) as functions
    from the index, with the length checked at each access; sums over a range
    of entries, in which the proofs about the tables count; and the rules by
    which a computation is shown to return a result with a property. *)

From S2P Require Import Prelude.

Definition carr : Type := Z -> Z.

Definition upd {A} (a : Z -> A) (i : Z) (v : A) : Z -> A := fun j => if j =? i then v else a j.

(** [n] is the length of the table. *)
Definition aget (n : Z) (a : carr) (i : Z) : Res Z :=
  if (0 <=? i) && (i <? n) then Done (a i) else Fault.
Definition aset (n : Z) (a : carr) (i v : Z) : Res carr :=
  if (0 <=? i) && (i <? n) then Done (upd a i v) else Fault.

(** [for (i = lo; i < hi; i++) a[i] = f (i)], inside the table. *)
Definition afill (lo hi : Z) (f : Z -> Z) (a : carr) : carr :=
  fun j => if (lo <=? j) && (j <? hi) then f j else a j.

Lemma upd_eq {A} (a : Z -> A) i v : upd a i v i = v.
Proof. unfold upd. by rewrite Z.eqb_refl. Qed.
Lemma upd_ne {A} (a : Z -> A) i j v : j <> i -> upd a i v j = a j.
Proof. intros H. unfold upd. by rewrite (proj2 (Z.eqb_neq j i) H). Qed.
Lemma aget_in n a i : 0 <= i < n -> aget n a i = Done (a i).
Proof. intros H. unfold aget. by replace ((0 <=? i) && (i <? n)) with true by lia. Qed.
Lemma aset_in n a i v : 0 <= i < n -> aset n a i v = Done (upd a i v).
Proof. intros H. unfold aset. by replace ((0 <=? i) && (i <? n)) with true by lia. Qed.
Lemma aget_Done n a i v : aget n a i = Done v -> 0 <= i < n /\ v = a i.
Proof.
  unfold aget. destruct (Z.leb_spec 0 i), (Z.ltb_spec i n); cbn; intros [= <-] || intros [=]; split; done || lia.
Qed.
Lemma afill_in lo hi f a j : lo <= j < hi -> afill lo hi f a j = f j.
Proof. intros H. unfold afill. by replace ((lo <=? j) && (j <? hi)) with true by lia. Qed.
Lemma afill_out lo hi f a j : j < lo \/ hi <= j -> afill lo hi f a j = a j.
Proof. intros H. unfold afill. by replace ((lo <=? j) && (j <? hi)) with false by lia. Qed.

(** [upd_at] looks up entries of updated arrays where arithmetic tells the
    indices apart; [acc] makes the next access. *)
Ltac upd_at := repeat first [rewrite upd_eq | rewrite upd_ne by lia].
Ltac acc := rewrite ?aget_in, ?aset_in by lia; rewrite ?bind_Done.

(** ** Sums *)

(** Of [g] over the [n] entries from [lo] on. *)
Fixpoint asum (g : Z -> Z) (a : carr) (lo : Z) (n : nat) : Z :=
  match n with O => 0 | S n => g (a lo) + asum g a (lo + 1) n end.

Definition isv (v : Z) : Z -> Z := fun x => b2z (x =? v).

Lemma asum_app g a n : forall lo m, asum g a lo (n + m) = asum g a lo n + asum g a (lo + Z.of_nat n) m.
Proof.
  induction n as [|n IH]; intros lo m; cbn [asum Nat.add].
  - by rewrite Z.add_0_r.
  - rewrite IH. replace (lo + 1 + Z.of_nat n) with (lo + Z.of_nat (S n)) by lia. lia.
Qed.
Lemma asum_S g a lo n : asum g a lo (S n) = asum g a lo n + g (a (lo + Z.of_nat n)).
Proof. replace (S n) with (n + 1)%nat by lia. rewrite asum_app. cbn [asum]. lia. Qed.
Lemma asum_ext g g' a a' n : forall lo,
  (forall i, lo <= i < lo + Z.of_nat n -> g (a i) = g' (a' i)) -> asum g a lo n = asum g' a' lo n.
Proof.
  induction n as [|n IH]; intros lo H; cbn [asum]; [done|].
  rewrite (H lo), (IH (lo + 1)) by lia || (intros; apply H; lia). done.
Qed.
Lemma asum_out g a lo n i v : i < lo \/ lo + Z.of_nat n <= i -> asum g (upd a i v) lo n = asum g a lo n.
Proof. intros H. apply asum_ext. intros j Hj. by rewrite upd_ne by lia. Qed.
Lemma asum_in g a n i v : forall lo, lo <= i < lo + Z.of_nat n ->
  asum g (upd a i v) lo n = asum g a lo n - g (a i) + g v.
Proof.
  induction n as [|n IH]; intros lo H; [lia|]. cbn [asum]. destruct (decide (i = lo)) as [->|].
  - rewrite upd_eq, asum_out by lia. lia.
  - rewrite upd_ne, IH by lia. lia.
Qed.
Lemma asum_plus g g' a n : forall lo, asum (fun x => g x + g' x) a lo n = asum g a lo n + asum g' a lo n.
Proof. induction n as [|n IH]; intros lo; cbn [asum]; [done|]. rewrite IH. lia. Qed.
Lemma asum_scale c g a n : forall lo, asum (fun x => c * g x) a lo n = c * asum g a lo n.
Proof. induction n as [|n IH]; intros lo; cbn [asum]; [lia|]. rewrite IH. lia. Qed.
Lemma asum_le g g' a n : forall lo, (forall i, lo <= i < lo + Z.of_nat n -> g (a i) <= g' (a i)) ->
  asum g a lo n <= asum g' a lo n.
Proof.
  induction n as [|n IH]; intros lo H; cbn [asum]; [done|].
  pose proof (H lo ltac:(lia)). pose proof (IH (lo + 1) ltac:(intros; apply H; lia)). lia.
Qed.
Lemma asum_const c a n : forall lo, asum (fun _ => c) a lo n = c * Z.of_nat n.
Proof. induction n as [|n IH]; intros lo; cbn [asum]; [lia|]. rewrite IH. lia. Qed.
Lemma asum_nonneg g a lo n : (forall i, lo <= i < lo + Z.of_nat n -> 0 <= g (a i)) -> 0 <= asum g a lo n.
Proof. intros H. pose proof (asum_le (fun _ => 0) g a n lo H) as E. rewrite asum_const in E. lia. Qed.
Lemma asum_entry g a n i : forall lo, lo <= i < lo + Z.of_nat n ->
  (forall j, lo <= j < lo + Z.of_nat n -> 0 <= g (a j)) -> g (a i) <= asum g a lo n.
Proof.
  induction n as [|n IH]; intros lo Hi H; [lia|]. cbn [asum].
  pose proof (asum_nonneg g a (lo + 1) n ltac:(intros; apply H; lia)) as Hn.
  destruct (decide (i = lo)) as [->|]; [lia|].
  pose proof (IH (lo + 1) ltac:(lia) ltac:(intros; apply H; lia)). pose proof (H lo ltac:(lia)). lia.
Qed.
Lemma isv_eq v : isv v v = 1.
Proof. unfold isv. by rewrite Z.eqb_refl. Qed.
Lemma isv_ne v x : x <> v -> isv v x = 0.
Proof. intros H. unfold isv. by rewrite (proj2 (Z.eqb_neq x v) H). Qed.
Lemma isv_01 v x : 0 <= isv v x <= 1.
Proof. unfold isv. destruct (x =? v); cbn; lia. Qed.

(** An entry [v] is there exactly when it is counted. *)
Lemma asum_isv_pos v a lo n : 0 < asum (isv v) a lo n <-> exists i, lo <= i < lo + Z.of_nat n /\ a i = v.
Proof.
  split.
  - revert lo. induction n as [|n IH]; intros lo; cbn [asum]; [lia|]. intros H.
    destruct (decide (a lo = v)) as [E|E]; [exists lo; split; [lia|done]|].
    rewrite (isv_ne v) in H by done. destruct (IH (lo + 1)) as (i & Hi & Ei); [lia|]. exists i. split; [lia|done].
  - intros (i & Hi & E). pose proof (asum_entry (isv v) a n i lo Hi) as H. rewrite E, isv_eq in H.
    pose proof (H ltac:(intros; apply isv_01)). lia.
Qed.
Lemma asum_isv_bound v a lo n : 0 <= asum (isv v) a lo n <= Z.of_nat n.
Proof.
  split; [apply asum_nonneg; intros; apply isv_01|].
  pose proof (asum_le (isv v) (fun _ => 1) a n lo ltac:(intros; apply isv_01)) as H. rewrite asum_const in H. lia.
Qed.

(** A value counted once is at one place. *)
Lemma asum_isv_unique v a lo n i j :
  asum (isv v) a lo n <= 1 -> lo <= i < lo + Z.of_nat n -> lo <= j < lo + Z.of_nat n -> a i = v -> a j = v -> i = j.
Proof.
  intros H Hi Hj Ei Ej. destruct (decide (i = j)) as [|Hne]; [done|]. exfalso.
  pose proof (asum_in (isv v) a n i (v + 1) lo Hi) as E. rewrite Ei, isv_eq, isv_ne in E by lia.
  assert (0 < asum (isv v) (upd a i (v + 1)) lo n); [|lia].
  apply asum_isv_pos. exists j. split; [done|]. by rewrite upd_ne.
Qed.

(** Weighted sums over the entries [0] to [n - 1]. *)
Fixpoint wsum (w a : Z -> Z) (n : nat) : Z :=
  match n with O => 0 | S n => wsum w a n + w (Z.of_nat n) * a (Z.of_nat n) end.

Lemma wsum_ext w w' a a' n :
  (forall i, 0 <= i < Z.of_nat n -> w i * a i = w' i * a' i) -> wsum w a n = wsum w' a' n.
Proof. induction n as [|n IH]; intros H; cbn [wsum]; [done|]. rewrite IH, (H (Z.of_nat n)) by (intros; try apply H; lia). done. Qed.
Lemma wsum_out w a n i v : Z.of_nat n <= i -> wsum w (upd a i v) n = wsum w a n.
Proof. intros H. apply wsum_ext. intros j Hj. by rewrite upd_ne by lia. Qed.
Lemma wsum_upd w a n i v : 0 <= i < Z.of_nat n -> wsum w (upd a i v) n = wsum w a n + w i * (v - a i).
Proof.
  induction n as [|n IH]; intros H; [lia|]. cbn [wsum]. destruct (decide (i = Z.of_nat n)) as [->|].
  - rewrite upd_eq, wsum_out by lia. lia.
  - rewrite upd_ne, IH by lia. lia.
Qed.
Lemma wsum_zero w n : wsum w (fun _ => 0) n = 0.
Proof. induction n as [|n IH]; cbn [wsum]; [done|]. rewrite IH. lia. Qed.
Lemma wsum_nonneg w a n : (forall i, 0 <= i < Z.of_nat n -> 0 <= w i * a i) -> 0 <= wsum w a n.
Proof. induction n as [|n IH]; intros H; cbn [wsum]; [done|]. pose proof (IH ltac:(intros; apply H; lia)). pose proof (H (Z.of_nat n) ltac:(lia)). lia. Qed.
Lemma wsum_entry w a n i : 0 <= i < Z.of_nat n -> (forall i, 0 <= i < Z.of_nat n -> 0 <= w i * a i) -> w i * a i <= wsum w a n.
Proof.
  induction n as [|n IH]; intros Hi H; [lia|]. cbn [wsum].
  pose proof (wsum_nonneg w a n ltac:(intros; apply H; lia)). pose proof (H (Z.of_nat n) ltac:(lia)).
  destruct (decide (i = Z.of_nat n)) as [->|]; [lia|]. pose proof (IH ltac:(lia) ltac:(intros; apply H; lia)). lia.
Qed.

(** Values below [k] sorted by how often they occur. *)
Lemma asum_by_value g a lo n k : (forall i, lo <= i < lo + Z.of_nat n -> 0 <= a i < Z.of_nat k) ->
  asum g a lo n = wsum g (fun v => asum (isv v) a lo n) k.
Proof.
  revert lo. induction n as [|n IH]; intros lo H; cbn [asum].
  - symmetry. apply wsum_zero.
  - rewrite (IH (lo + 1)) by (intros; apply H; lia). pose proof (H lo ltac:(lia)) as Hl.
    rewrite (wsum_ext g g (fun v => isv v (a lo) + asum (isv v) a (lo + 1) n)
      (upd (fun v => asum (isv v) a (lo + 1) n) (a lo) (1 + asum (isv (a lo)) a (lo + 1) n))).
    + rewrite wsum_upd by lia. lia.
    + intros v Hv. f_equal. destruct (decide (v = a lo)) as [->|].
      * by rewrite upd_eq, isv_eq.
      * rewrite upd_ne, isv_ne by done. lia.
Qed.

(** ** Total correctness *)

(** The computation returns, with a result in [Q]. *)
Definition wp {A} (m : Res A) (Q : A -> Prop) : Prop :=
  match m with Done a => Q a | _ => False end.

Lemma wp_Done {A} (a : A) (Q : A -> Prop) : Q a -> wp (Done a) Q.
Proof. done. Qed.
Lemma wp_elim {A} (m : Res A) Q : wp m Q -> exists a, m = Done a /\ Q a.
Proof. destruct m; cbn; [eauto|done|done]. Qed.
Lemma wp_intro {A} (m : Res A) (Q : A -> Prop) a : m = Done a -> Q a -> wp m Q.
Proof. by intros ->. Qed.
Lemma wp_bind {A B} (m : Res A) (k : A -> Res B) Q : wp m (fun a => wp (k a) Q) -> wp (m ≫= k) Q.
Proof. by destruct m. Qed.
Lemma wp_mono {A} (m : Res A) (P Q : A -> Prop) : wp m P -> (forall a, P a -> Q a) -> wp m Q.
Proof. destruct m; cbn; auto. Qed.
Lemma wp_aget n a i Q : 0 <= i < n -> Q (a i) -> wp (aget n a i) Q.
Proof. intros Hi H. by rewrite aget_in. Qed.
Lemma wp_aset n a i v Q : 0 <= i < n -> Q (upd a i v) -> wp (aset n a i v) Q.
Proof. intros Hi H. by rewrite aset_in. Qed.

Lemma wp_loop {S R} (I : S -> Prop) (f : S -> nat) (step : S -> Res (S + R)) n s Q :
  (forall s, I s -> wp (step s) (fun r => match r with inl s' => I s' /\ (f s' < f s)%nat | inr q => Q q end)) ->
  I s -> (f s < n)%nat -> wp (loop n step s) Q.
Proof.
  intros Hs. revert s. induction n as [|n IH]; intros s Hi Hf; [lia|]. cbn [loop]. apply wp_bind.
  eapply wp_mono; [by apply Hs|]. intros [s'|q]; [|done]. intros [Hi' Hf']. apply IH; [done|lia].
Qed.

(** [for (i = lo; i < lo + n; i++)]. *)
Fixpoint forZ {S} (lo : Z) (n : nat) (body : Z -> S -> Res S) (s : S) : Res S :=
  match n with
  | O => Done s
  | Datatypes.S n => s ← body lo s; forZ (lo + 1) n body s
  end.

(** [for (i = hi; i > 0; i--)]. *)
Fixpoint for_down {S} (hi : nat) (body : Z -> S -> Res S) (s : S) : Res S :=
  match hi with
  | O => Done s
  | Datatypes.S n => s ← body (Z.of_nat hi) s; for_down n body s
  end.

Lemma wp_forZ {S} (I : Z -> S -> Prop) (body : Z -> S -> Res S) n : forall lo s Q,
  I lo s -> (forall i s, lo <= i < lo + Z.of_nat n -> I i s -> wp (body i s) (I (i + 1))) ->
  (forall s, I (lo + Z.of_nat n) s -> Q s) -> wp (forZ lo n body s) Q.
Proof.
  induction n as [|n IH]; intros lo s Q Hi Hs HQ; cbn [forZ].
  - apply HQ. by rewrite Z.add_0_r.
  - apply wp_bind. eapply wp_mono; [apply Hs; [lia|done]|]. intros s' H'. apply IH; [done| |].
    + intros i s1 H. apply Hs. lia.
    + intros s1. replace (lo + 1 + Z.of_nat n) with (lo + Z.of_nat (Datatypes.S n)) by lia. apply HQ.
Qed.

Lemma wp_for_down {S} (I : Z -> S -> Prop) (body : Z -> S -> Res S) hi : forall s Q,
  I (Z.of_nat hi) s -> (forall i s, 0 < i <= Z.of_nat hi -> I i s -> wp (body i s) (I (i - 1))) ->
  (forall s, I 0 s -> Q s) -> wp (for_down hi body s) Q.
Proof.
  induction hi as [|n IH]; intros s Q Hi Hs HQ; [by apply HQ|]. cbn [for_down]. apply wp_bind.
  eapply wp_mono; [apply Hs; [lia|done]|]. intros s' H'. apply IH; [|intros i s1 H; apply Hs; lia|done].
  by replace (Z.of_nat n) with (Z.of_nat (Datatypes.S n) - 1) by lia.
Qed.

(** [wps] runs the computation to its next loop, call or test. *)
Ltac wp1 :=
  match goal with
  | |- wp (mbind _ _) _ => apply wp_bind
  | |- wp (Done _) _ => apply wp_Done
  | |- wp (aget _ _ _) _ => apply wp_aget; [lia|]
  | |- wp (aset _ _ _ _) _ => apply wp_aset; [lia|]
  end.
Ltac wps := repeat (wp1; cbv beta).
