(* ===== verification/BitStream.v ===== *)
(** * Bit streams

    Numbers as bits, the most significant one first, and streams of bits as
    bytes, filled from the most significant bit on: what [PutBits] of
    [Library/TianoCompress.c] writes. *)

From S2P Require Import Prelude CArray.

(** The [n] low bits of [v]. *)
Fixpoint bits (n : nat) (v : Z) : list bool :=
  match n with O => [] | S n => Z.testbit v (Z.of_nat n) :: bits n v end.

Fixpoint bval (l : list bool) : Z :=
  match l with [] => 0 | b :: l => b2z b * 2 ^ zlen l + bval l end.

Lemma length_bits n v : length (bits n v) = n.
Proof. induction n; cbn; lia. Qed.
Lemma zlen_bits n v : zlen (bits n v) = Z.of_nat n.
Proof. unfold zlen. by rewrite length_bits. Qed.
Lemma b2z_testbit v n : b2z (Z.testbit v n) = Z.b2z (Z.testbit v n).
Proof. by destruct (Z.testbit v n). Qed.

Lemma bval_bits n v : bval (bits n v) = v mod 2 ^ Z.of_nat n.
Proof.
  induction n as [|n IH]; cbn [bits bval]; [by rewrite Z.mod_1_r|].
  rewrite zlen_bits, IH, b2z_testbit, Z.testbit_spec' by lia.
  replace (Z.of_nat (S n)) with (Z.of_nat n + 1) by lia. rewrite Z.pow_add_r by lia. change (2 ^ 1) with 2.
  rewrite Z.rem_mul_r by lia. lia.
Qed.
Lemma bval_range l : 0 <= bval l < 2 ^ zlen l.
Proof.
  induction l as [|b l IH]; cbn [bval]; [change (zlen (@nil bool)) with 0; lia|]. rewrite zlen_cons, (Z.add_comm 1), Z.pow_add_r by zl.
  destruct b; cbn [b2z]; change (2 ^ 1) with 2; lia.
Qed.
Lemma bval_app l k : bval (l ++ k) = bval l * 2 ^ zlen k + bval k.
Proof.
  induction l as [|b l IH]; cbn [bval app]; [lia|]. rewrite IH, zlen_app, Z.pow_add_r by zl. lia.
Qed.
Lemma bits_bval l : bits (length l) (bval l) = l.
Proof.
  assert (H : forall l h, bits (length l) (h * 2 ^ zlen l + bval l) = l).
  { clear l. induction l as [|b l IH]; intros h; cbn [bits bval length]; [done|]. f_equal.
    - rewrite zlen_cons, (Z.add_comm 1), Z.pow_add_r by zl.
      replace (h * (2 ^ zlen l * 2 ^ 1) + (b2z b * 2 ^ zlen l + bval l)) with (bval l + (h * 2 + b2z b) * 2 ^ zlen l) by ring.
      fold (zlen l). rewrite Z.testbit_odd, Z.shiftr_div_pow2, Z.div_add by zl.
      rewrite Z.div_small by apply bval_range. rewrite Z.add_0_l, Z.odd_add, Z.odd_mul. by destruct b, (Z.odd h).
    - etransitivity; [|apply (IH (h * 2 + b2z b))]. f_equal. rewrite zlen_cons, (Z.add_comm 1), Z.pow_add_r by zl. ring. }
  etransitivity; [|apply (H l 0)]. f_equal.
Qed.
Lemma bits_app n m v : bits (n + m) v = bits n (v / 2 ^ Z.of_nat m) ++ bits m v.
Proof.
  induction n as [|n IH]; cbn [bits app Nat.add]; [done|]. f_equal; [|done].
  rewrite <- Z.shiftr_div_pow2, Z.shiftr_spec by lia. f_equal. lia.
Qed.
Lemma bits_mod n v : bits n (v mod 2 ^ Z.of_nat n) = bits n v.
Proof. rewrite <- (bits_bval (bits n v)), length_bits, bval_bits. done. Qed.
Lemma bits_inj n v w : 0 <= v < 2 ^ Z.of_nat n -> 0 <= w < 2 ^ Z.of_nat n -> bits n v = bits n w -> v = w.
Proof. intros Hv Hw E. apply (f_equal bval) in E. rewrite !bval_bits, !Z.mod_small in E by done. done. Qed.

(** ** Streams as bytes *)

(** The full bytes of a stream. *)
Fixpoint pack (l : list bool) : list Z :=
  match l with
  | a :: b :: c :: d :: e :: f :: g :: h :: l => bval [a; b; c; d; e; f; g; h] :: pack l
  | _ => []
  end.

Lemma pack_cons l k : length l = 8%nat -> pack (l ++ k) = bval l :: pack k.
Proof.
  intros H. do 8 (destruct l as [|? l]; [discriminate H|]). destruct l; [done|discriminate H].
Qed.
Lemma pack_short l : (length l < 8)%nat -> pack l = [].
Proof. intros H. do 8 (destruct l as [|? l]; [done|]). cbn in H. lia. Qed.

Lemma split8 (l : list bool) n : length l = (8 * S n)%nat -> exists a k, l = a ++ k /\ length a = 8%nat /\ length k = (8 * n)%nat.
Proof.
  intros H. exists (take 8 l), (drop 8 l). rewrite take_drop, length_take, length_drop. split; [done|lia].
Qed.

Lemma pack_app n : forall l k, length l = (8 * n)%nat -> pack (l ++ k) = pack l ++ pack k.
Proof.
  induction n as [|n IH]; intros l k H.
  - destruct l; [done|discriminate H].
  - apply split8 in H as (a & r & -> & Ha & Hr). rewrite <- app_assoc, (pack_cons a (r ++ k)), (pack_cons a r) by done.
    cbn [app]. f_equal. by apply IH.
Qed.
Lemma length_pack n : forall l, length l = (8 * n)%nat -> length (pack l) = n.
Proof.
  induction n as [|n IH]; intros l H; [destruct l; [done|discriminate H]|].
  apply split8 in H as (a & k & -> & Ha & Hk). rewrite pack_cons by done. cbn [length]. by rewrite IH.
Qed.

(** ** [PutBits]

    [mDst] is the position in the buffer of [mDstUpperLimit] bytes. *)
Record sink := mkSink { dst : list Z; mDst : Z; mCompSize : Z; mBitCount : Z; mSubBitBuf : Z }.

(** [if (mDst < mDstUpperLimit) *mDst++ = Temp;] *)
Definition put_byte (Temp : Z) (b : list Z) (p : Z) : Res (list Z * Z) :=
  if p <? zlen b then b ← wr8 b p Temp; Done (b, p + 1) else Done (b, p).

Definition put_step (Value : Z) (s : sink * Z) : Res (sink * Z + sink * Z) :=
  let '(k, Number) := s in
  if mBitCount k <=? Number then
    let Number := Number - mBitCount k in
    let Temp := u8 (Z.lor (mSubBitBuf k) (Z.shiftr Value Number)) in
    '(b, p) ← put_byte Temp (dst k) (mDst k);
    Done (inl (mkSink b p (u32 (mCompSize k + 1)) 8 0, Number))
  else Done (inr (k, Number)).

Definition PutBits (Number Value : Z) (k : sink) : Res sink :=
  '(k, Number) ← loop (S (Z.to_nat Number)) (put_step Value) (k, Number);
  let n := mBitCount k - Number in
  Done (mkSink (dst k) (mDst k) (mCompSize k) n (Z.lor (mSubBitBuf k) (u32 (Z.shiftl Value n)))).

Definition InitPutBits (k : sink) : sink := mkSink (dst k) (mDst k) (mCompSize k) 8 0.

(** The sink has taken the bits [l], behind the header [h]; only what fits is
    in the buffer, which is [L] bytes long. [n] bytes are full. *)
Definition wrote (L : Z) (h : list Z) (l : list bool) (k : sink) : Prop :=
  exists full part n, l = full ++ part /\ length full = (8 * n)%nat /\ mCompSize k = u32 (Z.of_nat n) /\
    zlen part = 8 - mBitCount k /\ 1 <= mBitCount k <= 8 /\
    u8 (mSubBitBuf k) = bval part * 2 ^ mBitCount k /\
    zlen (dst k) = L /\ mDst k = Z.min L (zlen h + Z.of_nat n) /\
    take (Z.to_nat (mDst k)) (dst k) = take (Z.to_nat (mDst k)) (h ++ pack full).

Lemma u8_lor a b : u8 (Z.lor a b) = Z.lor (u8 a) (u8 b).
Proof. unfold u8. rewrite <- !Z.land_ones by lia. apply Z.land_lor_distr_l. Qed.

Lemma lor_disjoint x y n : 0 <= n -> 0 <= y < 2 ^ n -> Z.lor (x * 2 ^ n) y = x * 2 ^ n + y.
Proof.
  intros Hn Hy. rewrite <- Z.add_lor_land. replace (Z.land (x * 2 ^ n) y) with 0; [lia|].
  symmetry. apply Z.bits_inj_0. intros i. rewrite Z.land_spec, <- Z.shiftl_mul_pow2 by done.
  destruct (Z.lt_ge_cases i 0); [by rewrite !Z.testbit_neg_r|].
  destruct (Z.lt_ge_cases i n); [by rewrite Z.shiftl_spec_low|].
  rewrite <- (Z.mod_small y (2 ^ n)), Z.mod_pow2_bits_high by lia. apply andb_false_r.
Qed.

Lemma put_byte_ok b p v h full n : u8 v = v -> length full = (8 * n)%nat ->
  p = Z.min (zlen b) (zlen h + Z.of_nat n) -> take (Z.to_nat p) b = take (Z.to_nat p) (h ++ pack full) ->
  forall part, length part = 8%nat -> bval part = v ->
  wp (put_byte v b p) (fun '(b', p') => zlen b' = zlen b /\ p' = Z.min (zlen b) (zlen h + Z.of_nat (S n)) /\
    take (Z.to_nat p') b' = take (Z.to_nat p') (h ++ pack (full ++ part))).
Proof.
  intros Hv Hf Hp Ht part Hl Eb. pose proof (pack_app n full part Hf) as Ep. pose proof (length_pack n full Hf) as Hlp.
  assert (E1 : pack part = [v]) by (rewrite <- (app_nil_r part), pack_cons, Eb by done; done).
  unfold put_byte. destruct (Z.ltb_spec p (zlen b)) as [Hlt|Hge].
  - assert (Ep2 : p = zlen h + Z.of_nat n) by lia. unfold wr8. rewrite Hv.
    destruct (wrn_in b p [v]) as [b' E]; [zl|zl|]. rewrite E, bind_Done. apply wp_Done.
    split; [by eapply wrn_zlen|]. split; [lia|]. apply wrn_Done in E as (_ & _ & ->). rewrite Ht, Ep, E1.
    assert (Hh : length (h ++ pack full) = Z.to_nat p) by (rewrite length_app, Hlp; unfold zlen in Ep2; lia).
    rewrite (take_ge (h ++ pack full)) by lia. rewrite !app_assoc, (take_app_le _ (drop _ _)) by (rewrite length_app; cbn; lia).
    done.
  - apply wp_Done. split; [done|]. split; [lia|]. rewrite Ht, Ep, app_assoc.
    rewrite (take_app_le (h ++ pack full)); [done|]. rewrite length_app, Hlp. unfold zlen in *. lia.
Qed.

Lemma put_value (part : list bool) bc v x sub : zlen part = 8 - bc -> 1 <= bc <= 8 -> 0 <= v ->
  u8 sub = bval part * 2 ^ bc -> (part = [] /\ bc = 8) \/ v < 2 ^ bc -> x = bval (bits (Z.to_nat bc) v) ->
  u8 (Z.lor sub v) = bval part * 2 ^ bc + x.
Proof.
  intros Hp Hbc Hv Hs Hc ->. rewrite u8_lor, Hs, bval_bits, Z2Nat.id by lia.
  replace (u8 v) with (v mod 2 ^ bc).
  - apply lor_disjoint; [lia|]. apply Z.mod_pos_bound. lia.
  - destruct Hc as [[-> ->]|Hc]; [done|]. rewrite Z.mod_small by lia. symmetry. apply u8_small.
    unfold is_u8. pose proof (Z.pow_le_mono_r 2 bc 8 ltac:(lia) ltac:(lia)). lia.
Qed.

Lemma PutBits_spec L h l k N v : wrote L h l k -> 0 <= N <= 32 -> 0 <= v < 2 ^ N ->
  wp (PutBits N v k) (wrote L h (l ++ bits (Z.to_nat N) v)).
Proof.
  intros Hw HN Hv. unfold PutBits. wps.
  pose (I := fun '(k1, r) => 0 <= r <= N /\ wrote L h (l ++ bits (Z.to_nat (N - r)) (v / 2 ^ r)) k1 /\
    (v < 2 ^ r \/ mBitCount k1 = 8)).
  apply (wp_loop I (fun '(_, r) => Z.to_nat r)); [|split; [lia|split; [|left; lia]]|lia].
  2: { rewrite Z.sub_diag. cbn [Z.to_nat bits]. by rewrite app_nil_r. }
  intros [k1 r] (Hr & (full & part & m & El & Hfull & Hcs & Hpart & Hbc & Hsub & HL & Hd & Ht) & Hc).
  assert (Hpz : mBitCount k1 = 8 -> part = []) by (intros E; destruct part; [done|]; exfalso; rewrite E in Hpart; zl).
  unfold put_step. destruct (Z.leb_spec (mBitCount k1) r) as [Hle|Hgt].
  - set (r' := r - mBitCount k1). rewrite Z.shiftr_div_pow2 by lia.
    assert (Ebits : bits (Z.to_nat (N - r')) (v / 2 ^ r') =
      bits (Z.to_nat (N - r)) (v / 2 ^ r) ++ bits (Z.to_nat (mBitCount k1)) (v / 2 ^ r')).
    { replace (Z.to_nat (N - r')) with (Z.to_nat (N - r) + Z.to_nat (mBitCount k1))%nat by lia. rewrite bits_app.
      do 2 f_equal. rewrite Z2Nat.id, Z.div_div, <- Z.pow_add_r by lia. do 2 f_equal. lia. }
    assert (Hval : u8 (Z.lor (mSubBitBuf k1) (v / 2 ^ r')) = bval (part ++ bits (Z.to_nat (mBitCount k1)) (v / 2 ^ r'))).
    { rewrite bval_app, zlen_bits, Z2Nat.id by lia. apply put_value; try done; [apply Z.div_pos; lia|].
      destruct Hc as [Hc|Hc]; [right|left; split; [by apply Hpz|done]]. apply Z.div_lt_upper_bound; [lia|].
      rewrite <- Z.pow_add_r by lia. replace (r' + mBitCount k1) with r by lia. done. }
    apply wp_bind. eapply wp_mono.
    { apply (put_byte_ok _ _ _ h full m); [|done|lia|done| |symmetry; exact Hval].
      - apply u8_small, u8_range.
      - rewrite length_app, length_bits. unfold zlen in Hpart. lia. }
    cbn beta. intros [b' p'] (Hb' & Hp' & Ht'). wps. split; [|lia]. split; [lia|]. split; [|by right].
    exists (full ++ part ++ bits (Z.to_nat (mBitCount k1)) (v / 2 ^ r')), [], (S m). cbn [dst mDst mCompSize mBitCount mSubBitBuf].
    split.
    { rewrite Ebits, app_assoc, El, app_nil_r. by rewrite <- app_assoc. }
    split; [rewrite !length_app, length_bits; unfold zlen in Hpart; lia|].
    split; [rewrite Hcs; unfold u32; rewrite Z.add_mod_idemp_l by lia; f_equal; lia|].
    split; [done|]. split; [lia|]. split; [done|]. split; [lia|]. split; [lia|]. done.
  - wps. exists full, (part ++ bits (Z.to_nat r) v), m. cbn [dst mDst mCompSize mBitCount mSubBitBuf].
    split. { replace (Z.to_nat N) with (Z.to_nat (N - r) + Z.to_nat r)%nat by lia. rewrite bits_app, Z2Nat.id by lia.
      rewrite app_assoc, El. by rewrite <- app_assoc. }
    split; [done|]. split; [done|]. split; [rewrite zlen_app, zlen_bits; lia|]. split; [lia|]. split; [|done].
    rewrite u8_lor, Hsub, bval_app, zlen_bits, bval_bits, Z2Nat.id, Z.shiftl_mul_pow2 by lia.
    set (n := mBitCount k1 - r). assert (Eu : u8 (u32 (v * 2 ^ n)) = (v mod 2 ^ r) * 2 ^ n).
    { unfold u8, u32. rewrite (Z.mod_mod_divide (v * 2 ^ n) (2 ^ 32) (2 ^ 8)) by (exists (2 ^ 24); done).
      destruct Hc as [Hc|Hc].
      - rewrite (Z.mod_small v) by lia. apply Z.mod_small. split; [lia|].
        assert (v * 2 ^ n < 2 ^ r * 2 ^ n) by nia. rewrite <- Z.pow_add_r in H by lia.
        pose proof (Z.pow_le_mono_r 2 (r + n) 8 ltac:(lia) ltac:(lia)). lia.
      - replace (2 ^ 8) with (2 ^ r * 2 ^ n) by (rewrite <- Z.pow_add_r by lia; f_equal; lia).
        rewrite Z.mul_mod_distr_r; lia. }
    rewrite Eu. replace (mBitCount k1) with (n + r) at 1 by lia.
    replace (2 ^ (n + r)) with (2 ^ r * 2 ^ n) by (rewrite <- Z.pow_add_r by lia; f_equal; lia).
    rewrite Z.mul_assoc, Z.mul_add_distr_r. rewrite <- Z.mul_assoc, <- Z.pow_add_r by lia.
    rewrite lor_disjoint; [lia|lia|]. pose proof (Z.mod_pos_bound v (2 ^ r) ltac:(lia)). rewrite Z.pow_add_r by lia. nia.
Qed.
