(* ===== verification/TianoHuff.v ===== *)
(** * Huffman codes of the compressor

    Models [MakeTree] of [Library/TianoCompress.c] and what it calls: the
    priority queue, the tree, the code lengths cut to 16 bits and the codes.
    Whatever the frequencies, the lengths form a complete code and the codes
    are the canonical ones for them. *)

From S2P Require Import Prelude CArray.

Definition UINT8_MAX : Z := 0xff.
Definition UINT8_BIT : Z := 8.
Definition THRESHOLD : Z := 3.
Definition WNDBIT : Z := 19.
Definition WNDSIZ : Z := 2 ^ WNDBIT.
Definition MAXMATCH : Z := 256.
Definition CODE_BIT : Z := 16.
Definition NC : Z := 0xff + MAXMATCH + 2 - THRESHOLD.
Definition CBIT : Z := 9.
Definition NP : Z := WNDBIT + 1.
Definition PBIT : Z := 5.
Definition NT : Z := CODE_BIT + 3.
Definition TBIT : Z := 5.
Definition NPT : Z := 31.

Definition s16 (x : Z) : Z := (x + 2 ^ 15) mod 2 ^ 16 - 2 ^ 15.

(** The tables the trees share. *)
Record trees := mkTrees { mHeap : carr; mLeft : carr; mRight : carr; mLenCnt : carr }.

(** ** The priority queue

    [F] is the length of [mFreq]. *)
Definition DownHeap (F : Z) (mFreq : carr) (mHeapSize Index : Z) (mHeap : carr) : Res carr :=
  Index3 ← aget (NC + 1) mHeap Index;
  '(mHeap, Index) ← loop (S (Z.to_nat mHeapSize))
    (fun '(mHeap, Index, Index2) =>
       if Index2 <=? mHeapSize then
         Index2 ← (if Index2 <? mHeapSize then
                     a ← aget (NC + 1) mHeap Index2; fa ← aget F mFreq a;
                     b ← aget (NC + 1) mHeap (Index2 + 1); fb ← aget F mFreq b;
                     Done (if fa >? fb then Index2 + 1 else Index2)
                   else Done Index2);
         f ← aget F mFreq Index3;
         c ← aget (NC + 1) mHeap Index2;
         fc ← aget F mFreq c;
         if f <=? fc then Done (inr (mHeap, Index))
         else mHeap ← aset (NC + 1) mHeap Index c; Done (inl (mHeap, Index2, 2 * Index2))
       else Done (inr (mHeap, Index))) (mHeap, Index, 2 * Index);
  aset (NC + 1) mHeap Index (s16 Index3).

(** ** From the tree to the lengths *)

(** The static [Depth] is back at its value when the call returns. *)
Fixpoint CountLen (fuel : nat) (mN : Z) (mLeft mRight : carr) (Depth Index : Z) (mLenCnt : carr) : Res carr :=
  match fuel with
  | O => NoFuel
  | S fuel =>
      if Index <? mN then
        let d := if Depth <? 16 then Depth else 16 in
        c ← aget 17 mLenCnt d;
        aset 17 mLenCnt d (u16 (c + 1))
      else
        l ← aget (2 * NC - 1) mLeft Index;
        mLenCnt ← CountLen fuel mN mLeft mRight (Depth + 1) l mLenCnt;
        r ← aget (2 * NC - 1) mRight Index;
        CountLen fuel mN mLeft mRight (Depth + 1) r mLenCnt
  end.

(** The inner loop of the adjustment: a code of the greatest length below 16
    becomes two that are a bit longer. *)
Fixpoint lengthen (Index : nat) (mLenCnt : carr) : Res carr :=
  match Index with
  | O => Done mLenCnt
  | S n =>
      c ← aget 17 mLenCnt (Z.of_nat Index);
      if negb (c =? 0) then
        mLenCnt ← aset 17 mLenCnt (Z.of_nat Index) (u16 (c - 1));
        d ← aget 17 mLenCnt (Z.of_nat Index + 1);
        aset 17 mLenCnt (Z.of_nat Index + 1) (u16 (d + 2))
      else lengthen n mLenCnt
  end.

Definition adjust_step (s : carr * Z) : Res (carr * Z + carr) :=
  let '(mLenCnt, Cum) := s in
  if Cum =? 2 ^ 16 then Done (inr mLenCnt)
  else
    c ← aget 17 mLenCnt 16;
    mLenCnt ← aset 17 mLenCnt 16 (u16 (c - 1));
    mLenCnt ← lengthen 15 mLenCnt;
    Done (inl (mLenCnt, u32 (Cum - 1))).

(** [sz] is the length of [mLen] and of the code table, at whose start the
    symbols lie in the order the tree took them. *)
Definition MakeLen (mN : Z) (tr : trees) (sz : Z) (mCode : carr) (Root : Z) (mLen : carr) : Res (carr * carr) :=
  let cnt := afill 0 17 (fun _ => 0) (mLenCnt tr) in
  cnt ← CountLen (S (Z.to_nat Root)) mN (mLeft tr) (mRight tr) 0 Root cnt;
  Cum ← for_down 16 (fun Index Cum => c ← aget 17 cnt Index; Done (u32 (Cum + Z.shiftl c (16 - Index)))) 0;
  cnt ← loop (S (Z.to_nat (Cum - 2 ^ 16))) adjust_step (cnt, Cum);
  '(mLen, _) ← for_down 16
    (fun Index s =>
       c ← aget 17 cnt Index;
       forZ 0 (Z.to_nat c)
         (fun _ '(mLen, mSortPtr) =>
            s ← aget sz mCode mSortPtr;
            mLen ← aset sz mLen s (u8 Index);
            Done (mLen, mSortPtr + 1)) s) (mLen, 0);
  Done (cnt, mLen).

(** [Start0] is the entry of [Start] the function does not set; it only
    reaches the codes of symbols that are not used. *)
Definition MakeCode (Start0 Number sz : Z) (mLenCnt Len Code : carr) : Res carr :=
  let Start := fun i => if i =? 1 then 0 else Start0 in
  Start ← forZ 1 16 (fun Index Start =>
      s ← aget 18 Start Index; c ← aget 17 mLenCnt Index;
      aset 18 Start (Index + 1) (u16 (Z.shiftl (s + c) 1))) Start;
  '(_, Code) ← forZ 0 (Z.to_nat Number) (fun Index '(Start, Code) =>
      l ← aget sz Len Index;
      s ← aget 18 Start l;
      Code ← aset sz Code Index s;
      Start ← aset 18 Start l (u16 (s + 1));
      Done (Start, Code)) (Start, Code);
  Done Code.

(** ** The tree *)

(** One symbol set: its frequencies (a table of twice its size less one), and
    its code lengths and codes, of size [sz]. *)
Record symbols := mkSym { s_Freq : carr; s_Len : carr; s_Code : carr }.

Definition collect_step (F sz : Z) (mFreq : carr) (s : carr * carr * Z) (Index : Z) : Res (carr * carr * Z) :=
  let '(mLen, mHeap, mHeapSize) := s in
  mLen ← aset sz mLen Index 0;
  f ← aget F mFreq Index;
  if negb (f =? 0) then
    mHeap ← aset (NC + 1) mHeap (mHeapSize + 1) (s16 Index);
    Done (mLen, mHeap, mHeapSize + 1)
  else Done (mLen, mHeap, mHeapSize).

(** The locals of the loop that joins the two rarest nodes. *)
Record joining := mkJoin {
  j_heap : carr; j_size : Z; j_freq : carr; j_left : carr; j_right : carr;
  j_code : carr; j_sort : Z; j_avail : Z }.

(** [if (Index < mN) *mSortPtr++ = (UINT16) Index;] *)
Definition note_symbol (mN sz Index : Z) (code : carr) (mSortPtr : Z) : Res (carr * Z) :=
  if Index <? mN then code ← aset sz code mSortPtr (u16 Index); Done (code, mSortPtr + 1)
  else Done (code, mSortPtr).

Definition join_step (mN F sz : Z) (s : joining) : Res (joining + joining * Z) :=
  Index ← aget (NC + 1) (j_heap s) 1;
  '(code, p) ← note_symbol mN sz Index (j_code s) (j_sort s);
  last ← aget (NC + 1) (j_heap s) (j_size s);
  heap ← aset (NC + 1) (j_heap s) 1 last;
  let size := j_size s - 1 in
  heap ← DownHeap F (j_freq s) size 1 heap;
  Index2 ← aget (NC + 1) heap 1;
  '(code, p) ← note_symbol mN sz Index2 code p;
  let Index3 := j_avail s in
  f1 ← aget F (j_freq s) Index;
  f2 ← aget F (j_freq s) Index2;
  freq ← aset F (j_freq s) Index3 (u16 (f1 + f2));
  heap ← aset (NC + 1) heap 1 (s16 Index3);
  heap ← DownHeap F freq size 1 heap;
  left ← aset (2 * NC - 1) (j_left s) Index3 (u16 Index);
  right ← aset (2 * NC - 1) (j_right s) Index3 (u16 Index2);
  let s := mkJoin heap size freq left right code p (Index3 + 1) in
  if 1 <? size then Done (inl s) else Done (inr (s, Index3)).

Definition MakeTree (Start0 NParm sz : Z) (y : symbols) (tr : trees) : Res (Z * symbols * trees) :=
  let F := 2 * NParm - 1 in
  heap ← aset (NC + 1) (mHeap tr) 1 0;
  '(len, heap, size) ← forZ 0 (Z.to_nat NParm) (fun Index s => collect_step F sz (s_Freq y) s Index) (s_Len y, heap, 0);
  if size <? 2 then
    h ← aget (NC + 1) heap 1;
    code ← aset sz (s_Code y) h 0;
    Done (h, mkSym (s_Freq y) len code, mkTrees heap (mLeft tr) (mRight tr) (mLenCnt tr))
  else
    heap ← for_down (Z.to_nat (size / 2)) (fun Index heap => DownHeap F (s_Freq y) size Index heap) heap;
    '(s, Root) ← loop (Z.to_nat size) (join_step NParm F sz)
      (mkJoin heap size (s_Freq y) (mLeft tr) (mRight tr) (s_Code y) 0 NParm);
    let tr := mkTrees (j_heap s) (j_left s) (j_right s) (mLenCnt tr) in
    '(cnt, len) ← MakeLen NParm tr sz (j_code s) Root len;
    code ← MakeCode Start0 NParm sz cnt len (j_code s);
    Done (Root, mkSym (j_freq s) len code, mkTrees (mHeap tr) (mLeft tr) (mRight tr) cnt).

Lemma s16_small x : 0 <= x < 2 ^ 15 -> s16 x = x.
Proof. intros H. unfold s16. rewrite Z.mod_small by lia. lia. Qed.

(** ** The queue keeps its entries *)

(** [b] holds the entries of [a], in any order, at the places 1 to [n]. *)
Definition same_entries (n : Z) (a b : carr) : Prop :=
  forall g, asum g b 1 (Z.to_nat n) = asum g a 1 (Z.to_nat n).

Lemma same_entries_all (P : Z -> Prop) n a b :
  same_entries n a b -> (forall k, 1 <= k <= n -> P (a k)) -> forall k, 1 <= k <= n -> P (b k).
Proof.
  intros H Ha k Hk. assert (Hp : 0 < asum (isv (b k)) b 1 (Z.to_nat n)).
  { apply asum_isv_pos. exists k. split; [lia|done]. }
  rewrite H in Hp. apply asum_isv_pos in Hp as (j & Hj & E). rewrite <- E. apply Ha. lia.
Qed.

Lemma DownHeap_spec F freq size i h : size <= NC -> F <= 2 ^ 15 -> 1 <= i <= size ->
  (forall k, 1 <= k <= size -> 0 <= h k < F) -> wp (DownHeap F freq size i h) (same_entries size h).
Proof.
  intros Hs HF Hi Hh. unfold NC, MAXMATCH, THRESHOLD in Hs. unfold DownHeap.
  assert (HN : NC = 510) by done. wps. set (x := h i). assert (Hx : 0 <= x < F) by (apply Hh; lia).
  pose (I := fun s : carr * Z * Z => let '(a, j, j2) := s in
    1 <= j <= size /\ j2 = 2 * j /\ same_entries size h (upd a j x)).
  apply (wp_loop I (fun s => Z.to_nat (size - snd (fst s)))).
  - intros [[a j] j2] (Hj & -> & Hsame). cbn beta iota.
    assert (Ha : forall k, 1 <= k <= size -> k <> j -> 0 <= a k < F).
    { intros k Hk Hne. pose proof (same_entries_all (fun v => 0 <= v < F) _ _ _ Hsame Hh k Hk) as H.
      cbn beta in H. by rewrite upd_ne in H. }
    assert (Hend : wp (aset (NC + 1) a j (s16 x)) (same_entries size h)).
    { rewrite s16_small by lia. wps. exact Hsame. }
    destruct (Z.leb_spec (2 * j) size); [|exact Hend].
    apply wp_bind. apply (wp_mono _ (fun k => (k = 2 * j \/ k = 2 * j + 1) /\ k <= size)).
    + destruct (Z.ltb_spec (2 * j) size); [|wps; lia].
      pose proof (Ha (2 * j) ltac:(lia) ltac:(lia)). pose proof (Ha (2 * j + 1) ltac:(lia) ltac:(lia)).
      wps. destruct (_ >? _); lia.
    + intros k [Hk Hk2]. pose proof (Ha k ltac:(lia) ltac:(lia)). wps.
      destruct (_ <=? _); [exact Hend|]. wps. split; [|cbn; lia]. split; [lia|split; [done|]].
      intros g. rewrite <- (Hsame g). rewrite !asum_in, upd_ne by lia. lia.
  - unfold I. split; [lia|split; [done|]]. intros g. rewrite asum_in by lia. fold x. lia.
  - cbn. lia.
Qed.

(** ** The lengths *)

(** [lv] counts the leaves below each node of the tree. *)
Definition tree_ok (mN Avail : Z) (left right lv : Z -> Z) : Prop :=
  (forall i, 0 <= i < mN -> lv i = 1) /\
  forall i, mN <= i < Avail -> 0 <= left i < i /\ 0 <= right i < i /\ lv i = lv (left i) + lv (right i).

Lemma tree_ok_pos mN Avail left right lv : tree_ok mN Avail left right lv ->
  forall i, 0 <= i < Avail -> 1 <= lv i.
Proof.
  intros [H1 H2].
  assert (H : forall i, 0 <= i -> 0 <= i < Avail -> 1 <= lv i); [|intros i Hi; apply H; lia].
  refine (Z_lt_induction _ _). intros i IH Hi. destruct (Z.lt_ge_cases i mN); [rewrite H1; lia|].
  destruct (H2 i ltac:(lia)) as (Hl & Hr & ->).
  pose proof (IH (left i) Hl ltac:(lia)). pose proof (IH (right i) Hr ltac:(lia)). lia.
Qed.

(** The weight of a code of length [j], in units of the longest ones. *)
Definition pow (j : Z) : Z := 2 ^ (16 - j).
Definition kraft (cnt : carr) : Z := wsum pow cnt 17.
Definition total (cnt : carr) : Z := wsum (fun _ => 1) cnt 17.

(** What the leaves at depths from [d] on add to the table: the excess [E]
    comes from leaves deeper than 16, of which at least one stays when the
    excess is taken away. *)
Lemma CountLen_spec mN Avail left right lv (Ht : tree_ok mN Avail left right lv) (HA : Avail <= 2 * NC - 1) fuel :
  forall d i cnt, 0 <= i < Avail -> (Z.to_nat i < fuel)%nat -> 0 <= d ->
  (forall j, 0 <= j < 17 -> 0 <= cnt j) -> total cnt + lv i < 2 ^ 16 ->
  wp (CountLen fuel mN left right d i cnt) (fun c =>
    (forall j, 0 <= j < 17 -> cnt j <= c j) /\ total c = total cnt + lv i /\
    (0 < d \/ mN <= i -> c 0 = cnt 0) /\
    (16 <= d -> kraft c = kraft cnt + lv i /\ c 16 = cnt 16 + lv i) /\
    (d <= 16 -> exists E, 0 <= E /\ kraft c = kraft cnt + pow d + E /\ (E = 0 \/ E + 1 <= c 16 - cnt 16))).
Proof.
  assert (HN : NC = 510) by done.
  induction fuel as [|fuel IH]; intros d i cnt Hi Hf Hd Hc Htot; [lia|]. cbn [CountLen].
  pose proof (tree_ok_pos _ _ _ _ _ Ht) as Hpos. destruct Ht as [Hleaf Hnode].
  destruct (Z.ltb_spec i mN) as [Hlt|Hge].
  - rewrite (Hleaf i) in Htot |- * by lia. set (e := if d <? 16 then d else 16).
    assert (He : 0 <= e < 17 /\ e <= d /\ (16 <= d -> e = 16) /\ (d <= 16 -> e = d)).
    { unfold e. destruct (Z.ltb_spec d 16); lia. }
    assert (Hce : cnt e <= total cnt).
    { pose proof (wsum_entry (fun _ => 1) cnt 17 e) as H. unfold total. cbn beta in H. specialize (H ltac:(lia)).
      rewrite Z.mul_1_l in H. apply H. intros j Hj. specialize (Hc j ltac:(lia)). lia. }
    pose proof (Hc e ltac:(lia)). wps. rewrite u16_small by (unfold is_u16; lia).
    unfold total, kraft. rewrite !wsum_upd by lia. split_and!.
    + intros j Hj. destruct (decide (j = e)) as [->|]; upd_at; lia.
    + lia.
    + intros [Hd0|?]; [|lia]. assert (e <> 0) by lia. by rewrite upd_ne by lia.
    + intros H16. replace e with 16 by lia. rewrite upd_eq. split; [|lia]. change (pow 16) with 1. lia.
    + intros H16. exists 0. replace e with d by lia. split_and!; [done| |by left]. lia.
  - destruct (Hnode i ltac:(lia)) as (Hl & Hr & Hlv). wps.
    pose proof (Hpos (left i) ltac:(lia)). pose proof (Hpos (right i) ltac:(lia)).
    eapply wp_mono; [apply IH; [lia|lia|lia|done|lia]|]. cbn beta. intros c1 (M1 & T1 & Z1 & D1 & K1). wps.
    eapply wp_mono; [apply IH; [lia|lia|lia| |lia]|].
    { intros j Hj. specialize (Hc j Hj). specialize (M1 j Hj). lia. }
    cbn beta. intros c2 (M2 & T2 & Z2 & D2 & K2).
    pose proof (M1 16 ltac:(lia)). pose proof (M2 16 ltac:(lia)). split_and!.
    + intros j Hj. specialize (M1 j Hj). specialize (M2 j Hj). lia.
    + lia.
    + intros _. rewrite Z2, Z1 by lia. done.
    + intros H16. destruct (D1 ltac:(lia)), (D2 ltac:(lia)). lia.
    + intros H16. destruct (decide (d = 16)) as [->|].
      * destruct (D1 ltac:(lia)), (D2 ltac:(lia)). exists (lv i - 1). change (pow 16) with 1. split_and!; [lia|lia|right; lia].
      * destruct (K1 ltac:(lia)) as (E1 & ? & ? & ?), (K2 ltac:(lia)) as (E2 & ? & ? & ?). exists (E1 + E2).
        assert (pow d = 2 * pow (d + 1)).
        { unfold pow. rewrite <- Z.pow_succ_r by lia. f_equal. lia. }
        split_and!; [lia|lia|]. destruct (decide (E1 + E2 = 0)); [by left|right; lia].
Qed.

(** *** The adjustment *)
Definition cnt_ok (cnt : carr) : Prop := forall j, 0 <= j < 17 -> 0 <= cnt j.

Lemma cnt_le_total cnt j : cnt_ok cnt -> 0 <= j < 17 -> cnt j <= total cnt.
Proof.
  intros Hc Hj. pose proof (wsum_entry (fun _ => 1) cnt 17 j) as H. unfold total. cbn beta in H.
  specialize (H ltac:(lia)). rewrite Z.mul_1_l in H. apply H. intros i Hi. specialize (Hc i ltac:(lia)). lia.
Qed.

Lemma lengthen_spec n cnt : (n <= 15)%nat -> cnt_ok cnt -> total cnt < 2 ^ 15 ->
  wp (lengthen n cnt) (fun c =>
    (c = cnt /\ forall j, 1 <= j <= Z.of_nat n -> cnt j = 0) \/
    exists j, 1 <= j <= 15 /\ 0 < cnt j /\ c = upd (upd cnt j (cnt j - 1)) (j + 1) (cnt (j + 1) + 2)).
Proof.
  intros Hn Hc Ht. induction n as [|n IH]; cbn [lengthen].
  - wps. left. split; [done|]. lia.
  - wps. destruct (Z.eqb_spec (cnt (Z.of_nat (S n))) 0) as [E|E]; cbn [negb].
    + eapply wp_mono; [apply IH; lia|]. cbn beta. intros c [[-> H]|H]; [left|by right]. split; [done|].
      intros j Hj. destruct (decide (j = Z.of_nat (S n))) as [->|]; [done|]. apply H. lia.
    + pose proof (Hc (Z.of_nat (S n)) ltac:(lia)). pose proof (cnt_le_total cnt (Z.of_nat (S n)) Hc ltac:(lia)).
      pose proof (Hc (Z.of_nat (S n) + 1) ltac:(lia)). pose proof (cnt_le_total cnt (Z.of_nat (S n) + 1) Hc ltac:(lia)).
      wps. upd_at. right. exists (Z.of_nat (S n)). split; [lia|split; [lia|]].
      by rewrite !u16_small by (unfold is_u16; lia).
Qed.

(** Taking away one of the longest codes, and lengthening one. *)
Lemma drop_longest c : cnt_ok c -> 1 <= c 16 ->
  let c1 := upd c 16 (c 16 - 1) in
  cnt_ok c1 /\ total c1 = total c - 1 /\ kraft c1 = kraft c - 1 /\ c1 0 = c 0 /\ c1 16 = c 16 - 1.
Proof.
  intros Hc H16. cbv zeta. split; [|split_and!].
  - intros j Hj. destruct (decide (j = 16)) as [->|]; upd_at; [lia|]. by apply Hc.
  - unfold total. rewrite wsum_upd by lia. lia.
  - unfold kraft. rewrite wsum_upd by lia. unfold pow. lia.
  - by upd_at.
  - by upd_at.
Qed.

Lemma split_code c j : cnt_ok c -> 1 <= j <= 15 -> 0 < c j ->
  let c2 := upd (upd c j (c j - 1)) (j + 1) (c (j + 1) + 2) in
  cnt_ok c2 /\ total c2 = total c + 1 /\ kraft c2 = kraft c /\ c2 0 = c 0 /\ c 16 <= c2 16.
Proof.
  intros Hc Hj Hpos. cbv zeta.
  assert (Hpow : pow j = 2 * pow (j + 1)).
  { unfold pow. rewrite <- Z.pow_succ_r by lia. f_equal. lia. }
  split; [|split_and!].
  - intros i Hi. pose proof (Hc i Hi). pose proof (Hc (j + 1) ltac:(lia)).
    destruct (decide (i = j + 1)) as [->|]; upd_at; [lia|]. destruct (decide (i = j)) as [->|]; upd_at; lia.
  - unfold total. rewrite !wsum_upd, upd_ne by lia. lia.
  - unfold kraft. rewrite !wsum_upd, upd_ne by lia. lia.
  - by upd_at.
  - destruct (decide (j + 1 = 16)) as [->|]; upd_at; lia.
Qed.

Lemma only_longest c : cnt_ok c -> c 0 = 0 -> (forall j, 1 <= j <= 15 -> c j = 0) -> kraft c = total c.
Proof.
  intros Hc H0 Hz. apply wsum_ext. intros i Hi. destruct (decide (i = 16)) as [->|]; [done|].
  destruct (decide (i = 0)) as [->|]; [rewrite H0; lia|]. rewrite (Hz i) by lia. lia.
Qed.

Definition adjusting (m : Z) (s : carr * Z) : Prop :=
  let '(c, Cum) := s in
  cnt_ok c /\ c 0 = 0 /\ total c = m /\ Cum = kraft c /\ 2 ^ 16 <= Cum /\ (Cum = 2 ^ 16 \/ Cum - 2 ^ 16 + 1 <= c 16).

Lemma adjust_step_ok m c Cum : m < 2 ^ 15 -> adjusting m (c, Cum) -> Cum <> 2 ^ 16 ->
  wp (adjust_step (c, Cum)) (fun r => match r with inl (c', Cum') => adjusting m (c', Cum') /\ Cum' = Cum - 1 | inr _ => False end).
Proof.
  intros Hm (Hc & H0 & Htc & Ek & Hk & He) Hne. unfold adjust_step. rewrite (proj2 (Z.eqb_neq _ _) Hne).
  destruct He as [|He]; [done|]. pose proof (cnt_le_total c 16 Hc ltac:(lia)) as Hle.
  wps. rewrite u16_small by (unfold is_u16; lia).
  destruct (drop_longest c Hc ltac:(lia)) as (Hc1 & Ht1 & Hk1 & H10 & H16). revert Hc1 Ht1 Hk1 H10 H16.
  generalize (upd c 16 (c 16 - 1)). intros c1 Hc1 Ht1 Hk1 H10 H16.
  eapply wp_mono; [apply lengthen_spec; [lia|done|lia]|]. cbn beta. intros c2 H2. wps.
  destruct H2 as [[-> Hz]|(j & Hj & Hpos & ->)].
  - exfalso. pose proof (only_longest c1 Hc1 ltac:(lia) Hz). lia.
  - destruct (split_code c1 j Hc1 Hj Hpos) as (Hc2 & Ht2 & Hk2 & H20 & H216).
    rewrite u32_small by (unfold is_u32; lia). split; [|done]. split; [exact Hc2|]. split_and!; lia.
Qed.

Lemma adjust_spec m c Cum n : m < 2 ^ 15 -> adjusting m (c, Cum) -> (Z.to_nat (Cum - 2 ^ 16) < n)%nat ->
  wp (loop n adjust_step (c, Cum)) (fun c => cnt_ok c /\ c 0 = 0 /\ total c = m /\ kraft c = 2 ^ 16).
Proof.
  intros Hm Ha Hn. apply (wp_loop (adjusting m) (fun '(_, Cum) => Z.to_nat (Cum - 2 ^ 16))); [|exact Ha|exact Hn].
  clear - Hm. intros [c Cum] Ha. destruct (decide (Cum = 2 ^ 16)) as [E|E].
  - unfold adjust_step. rewrite (proj2 (Z.eqb_eq _ _) E). wps. destruct Ha as (? & ? & ? & Ek & _).
    split_and!; [done..|congruence].
  - eapply wp_mono; [by apply (adjust_step_ok m)|]. cbn beta. intros [[c' Cum']|]; [|done]. intros [Ha' ->].
    split; [exact Ha'|]. destruct Ha as (_ & _ & _ & _ & Hk & _). lia.
Qed.

(** How many codes have at most the length [i]. *)
Lemma prefix_sums cnt : cnt_ok cnt -> cnt 0 = 0 -> exists rest : Z -> Z,
  (forall i, 0 < i <= 16 -> rest i = rest (i - 1) + cnt i) /\ (forall i, 0 <= i <= 16 -> 0 <= rest i) /\
  rest 16 = total cnt /\ rest 0 = 0 /\ forall i, 0 <= i <= 16 -> rest i <= total cnt.
Proof.
  intros Hc H0. set (w := fun _ : Z => 1). assert (Hw : forall i, w i = 1) by done. unfold total. fold w. clearbody w.
  exists (fun i => wsum w cnt (S (Z.to_nat i))).
  assert (Hstep : forall n, (n <= 16)%nat -> wsum w cnt n <= wsum w cnt 17).
  { intros n Hn. replace n with (17 - (17 - n))%nat by lia. generalize (17 - n)%nat. intros k. set (t := wsum w cnt 17). assert (Et : wsum w cnt (17 - 0) <= t) by done. clearbody t.
    induction k as [|k IH]; [exact Et|]. destruct (decide (17 <= k)%nat) as [|Hk]; [by replace (17 - S k)%nat with (17 - k)%nat by lia|].
    replace (17 - k)%nat with (S (17 - S k)) in IH by lia. cbn [wsum] in IH.
    pose proof (Hc (Z.of_nat (17 - S k)) ltac:(lia)). rewrite Hw in IH. lia. }
  assert (Hi : forall i, 0 <= i <= 16 -> wsum w cnt (S (Z.to_nat i)) <= wsum w cnt 17).
  { intros i Hi. destruct (decide (i = 16)) as [->|]; [done|]. apply Hstep. lia. }
  split; [|split; [|split; [done|split; [|done]]]].
  - intros i Hi'. replace (Z.to_nat (i - 1)) with (Nat.pred (Z.to_nat i)) by lia.
    replace (S (Nat.pred (Z.to_nat i))) with (Z.to_nat i) by lia. cbn [wsum]. rewrite Z2Nat.id by lia. rewrite Hw. lia.
  - intros i Hi'. apply wsum_nonneg. intros j Hj. pose proof (Hc j ltac:(lia)). rewrite Hw. lia.
  - change (S (Z.to_nat 0)) with 1%nat. cbn [wsum]. change (Z.of_nat 0) with 0. rewrite H0. lia.
Qed.

(** *** Handing out the lengths *)
Section assign.
Context (N m : Z) (code : carr).
Hypothesis code_range : forall k, 0 <= k < m -> 0 <= code k < N.
Hypothesis code_once : forall k l, 0 <= k < m -> 0 <= l < m -> code k = code l -> k = l.

(** The first [p] symbols have their length, [f] counts the lengths. *)
Definition assigned (f : Z -> Z) (p : Z) (len : carr) : Prop :=
  (forall s, 0 <= s < N -> 0 <= len s <= 16) /\
  (forall s, 0 <= s < N -> len s <> 0 <-> exists k, 0 <= k < p /\ code k = s) /\
  forall j, 1 <= j <= 16 -> asum (isv j) len 0 (Z.to_nat N) = f j.

Lemma assign_one f p len j : 0 <= p < m -> 1 <= j <= 16 -> assigned f p len ->
  assigned (upd f j (f j + 1)) (p + 1) (upd len (code p) j).
Proof using code_range code_once.
  intros Hp Hj (Hr & Hs & Hf). pose proof (code_range p Hp) as Hc. split; [|split].
  - intros s Hs'. destruct (decide (s = code p)) as [->|]; upd_at; [lia|]. by apply Hr.
  - intros s Hs'. destruct (decide (s = code p)) as [->|Hne].
    + rewrite upd_eq. split; [|lia]. intros _. exists p. split; [lia|done].
    + rewrite upd_ne, Hs by done. split; intros (k & Hk & E).
      * exists k. split; [lia|done].
      * exists k. split; [|done]. assert (k <> p) by congruence. lia.
  - assert (E0 : len (code p) = 0).
    { destruct (decide (len (code p) = 0)) as [|Hn]; [done|]. apply Hs in Hn as (k & Hk & E); [|done].
      apply code_once in E; lia. }
    intros i Hi. rewrite asum_in, E0, Hf by lia. rewrite (isv_ne i) by lia.
    destruct (decide (i = j)) as [->|]; [rewrite isv_eq; upd_at; lia|]. rewrite isv_ne by lia. upd_at. lia.
Qed.

Lemma assigned_ext f f' p len : (forall j, 1 <= j <= 16 -> f j = f' j) -> assigned f p len -> assigned f' p len.
Proof using. intros Hf (H1 & H2 & H3). split_and!; [done|done|]. intros j Hj. rewrite H3, Hf by lia. done. Qed.

Lemma assign_all sz cnt len : N <= sz -> m <= sz -> cnt_ok cnt -> cnt 0 = 0 -> total cnt = m ->
  (forall s, 0 <= s < N -> len s = 0) ->
  wp (for_down 16
    (fun Index s =>
       c ← aget 17 cnt Index;
       forZ 0 (Z.to_nat c)
         (fun _ '(mLen, mSortPtr) =>
            s ← aget sz code mSortPtr;
            mLen ← aset sz mLen s (u8 Index);
            Done (mLen, mSortPtr + 1)) s) (len, 0))
    (fun '(len, _) => assigned cnt m len).
Proof using code_range code_once.
  intros HN Hm Hc H0 Ht Hl.
  destruct (prefix_sums cnt Hc H0) as (rest & Hrest & Hpos & H16 & H00 & Hle). rewrite Ht in H16, Hle.
  apply (wp_for_down (fun i '(len, p) => p = m - rest i /\ assigned (fun j => if i <? j then cnt j else 0) p len)).
  - split; [change (Z.of_nat 16) with 16; lia|].
    split; [intros s Hs; rewrite Hl by lia; lia|]. split.
    + intros s Hs. rewrite (Hl s Hs). split; [done|]. intros (k & Hk & _). lia.
    + intros j Hj. change (Z.of_nat 16) with 16. destruct (Z.ltb_spec 16 j); [lia|].
      rewrite (asum_ext (isv j) (fun _ => 0) len len); [by rewrite asum_const|].
      intros i Hi. rewrite Hl by lia. apply isv_ne. lia.
  - intros i [len1 p1] Hi [-> Ha]. wps. pose proof (Hrest i ltac:(lia)) as Hr. pose proof (Hpos (i - 1) ltac:(lia)).
    pose proof (Hpos i ltac:(lia)). pose proof (Hc i ltac:(lia)).
    pose proof (Hle i ltac:(lia)).
    apply (wp_forZ (fun q '(len, p) => p = m - rest i + q /\
      assigned (upd (fun j => if i <? j then cnt j else 0) i q) p len)).
    + split; [lia|]. eapply assigned_ext; [|exact Ha]. intros j Hj. cbn beta.
      destruct (decide (j = i)) as [->|]; upd_at; [|done]. by rewrite Z.ltb_irrefl.
    + intros q [len2 p2] Hq [-> Ha2]. pose proof (code_range (m - rest i + q) ltac:(lia)). wps. split; [lia|].
      rewrite u8_small by (unfold is_u8; lia).
      pose proof (assign_one _ (m - rest i + q) _ i ltac:(lia) ltac:(lia) Ha2) as H9. eapply assigned_ext; [|exact H9].
      intros j Hj. destruct (decide (j = i)) as [->|]; by upd_at.
    + intros [len2 p2] [-> Ha2]. split; [lia|]. rewrite Z2Nat.id in Ha2 by lia. rewrite Z.add_0_l in Ha2.
      replace (m - rest i + (0 + Z.of_nat (Z.to_nat (cnt i)))) with (m - rest i + cnt i) by lia.
      eapply assigned_ext; [|exact Ha2]. intros j Hj. cbn beta. destruct (decide (j = i)) as [->|]; upd_at.
      * by replace (i - 1 <? i) with true by lia.
      * destruct (Z.ltb_spec i j), (Z.ltb_spec (i - 1) j); [done|lia|lia|done].
  - intros [len1 p1] [-> Ha]. rewrite H00, Z.sub_0_r in Ha. eapply assigned_ext; [|exact Ha].
    intros j Hj. cbn beta. by replace (0 <? j) with true by lia.
Qed.
End assign.

(** ** Canonical codes

    How many of the symbols below [N] have a code of length [l]; the first
    code of length [l]; the code of a symbol: codes of one length go up with
    the symbols. *)
Definition ncodes (N : Z) (len : Z -> Z) (l : Z) : Z := if l =? 0 then 0 else asum (isv l) len 0 (Z.to_nat N).

Fixpoint first_code (cnt : Z -> Z) (l : nat) : Z :=
  match l with O => 0 | S l => 2 * (first_code cnt l + cnt (Z.of_nat l)) end.

Definition rank (len : Z -> Z) (s : Z) : Z := asum (isv (len s)) len 0 (Z.to_nat s).

Definition canon (N : Z) (len : Z -> Z) (s : Z) : Z :=
  first_code (ncodes N len) (Z.to_nat (len s)) + rank len s.

(** Lengths of at most 16 bits whose codes use up the space of codes. *)
Definition complete (N : Z) (len : Z -> Z) : Prop :=
  (forall s, 0 <= s < N -> 0 <= len s <= 16) /\ kraft (ncodes N len) = 2 ^ 16.

Lemma pow_half j : j < 16 -> pow j = 2 * pow (j + 1).
Proof. intros H. unfold pow. rewrite <- Z.pow_succ_r by lia. f_equal. lia. Qed.
Lemma pow_pos j : j <= 16 -> 0 < pow j.
Proof. intros H. unfold pow. lia. Qed.

Lemma first_code_pow cnt l : (l <= 16)%nat -> first_code cnt l * pow (Z.of_nat l) = wsum pow cnt l.
Proof.
  induction l as [|l IH]; intros Hl; cbn [first_code wsum]; [done|]. rewrite <- IH by lia.
  rewrite (pow_half (Z.of_nat l)) by lia. replace (Z.of_nat l + 1) with (Z.of_nat (S l)) by lia. lia.
Qed.

Lemma ncodes_ok N len : cnt_ok (ncodes N len).
Proof. intros j Hj. unfold ncodes. destruct (j =? 0); [done|]. apply asum_isv_bound. Qed.

Lemma wsum_le_kraft cnt n : cnt_ok cnt -> (n <= 17)%nat -> 0 <= wsum pow cnt n <= kraft cnt.
Proof.
  intros Hc Hn. assert (Hj : forall i, 0 <= i < 17 -> 0 <= pow i * cnt i).
  { intros i Hi. pose proof (Hc i Hi). pose proof (pow_pos i ltac:(lia)). nia. }
  split; [apply wsum_nonneg; intros; apply Hj; lia|]. unfold kraft.
  replace n with (17 - (17 - n))%nat by lia. generalize (17 - n)%nat. intros k.
  set (t := wsum pow cnt 17). assert (Et : wsum pow cnt (17 - 0) <= t) by done. clearbody t.
  induction k as [|k IH]; [exact Et|]. destruct (decide (17 <= k)%nat) as [|Hk]; [by replace (17 - S k)%nat with (17 - k)%nat by lia|].
  replace (17 - k)%nat with (S (17 - S k)) in IH by lia. cbn [wsum] in IH.
  pose proof (Hj (Z.of_nat (17 - S k)) ltac:(lia)). lia.
Qed.

(** The interval of 16-bit numbers that begin with the code of a symbol. *)
Lemma canon_interval N len s : complete N len -> 0 <= s < N -> len s <> 0 ->
  wsum pow (ncodes N len) (Z.to_nat (len s)) <= canon N len s * pow (len s) /\
  (canon N len s + 1) * pow (len s) <= wsum pow (ncodes N len) (S (Z.to_nat (len s))).
Proof.
  intros [Hr Hk] Hs Hl. pose proof (Hr s Hs) as Hls. unfold canon.
  pose proof (first_code_pow (ncodes N len) (Z.to_nat (len s)) ltac:(lia)) as Hf. rewrite Z2Nat.id in Hf by lia.
  cbn [wsum]. rewrite Z2Nat.id by lia. rewrite <- Hf.
  assert (H : 0 <= rank len s /\ rank len s + 1 <= ncodes N len (len s)).
  { unfold ncodes, rank. rewrite (proj2 (Z.eqb_neq _ _) Hl). split; [apply asum_isv_bound|].
    replace (Z.to_nat N) with (Z.to_nat s + S (Z.to_nat (N - s - 1)))%nat by lia. rewrite asum_app. cbn [asum].
    rewrite Z.add_0_l, Z2Nat.id, isv_eq by lia. pose proof (asum_isv_bound (len s) len (s + 1) (Z.to_nat (N - s - 1))). lia. }
  pose proof (pow_pos (len s) ltac:(lia)). nia.
Qed.

Lemma canon_bound N len s : complete N len -> 0 <= s < N -> len s <> 0 -> 0 <= canon N len s < 2 ^ len s.
Proof.
  intros Hc Hs Hl. pose proof (canon_interval N len s Hc Hs Hl) as [H1 H2]. destruct Hc as [Hr Hk].
  pose proof (Hr s Hs). pose proof (wsum_le_kraft (ncodes N len) (Z.to_nat (len s)) (ncodes_ok N len) ltac:(lia)).
  pose proof (wsum_le_kraft (ncodes N len) (S (Z.to_nat (len s))) (ncodes_ok N len) ltac:(lia)).
  pose proof (pow_pos (len s) ltac:(lia)).
  assert (pow (len s) * 2 ^ len s = 2 ^ 16).
  { unfold pow. rewrite <- Z.pow_add_r by lia. f_equal. lia. }
  nia.
Qed.

Lemma MakeCode_spec Start0 N sz cnt len code : 0 <= N <= sz -> complete N len ->
  (forall j, 1 <= j <= 16 -> cnt j = ncodes N len j) ->
  wp (MakeCode Start0 N sz cnt len code) (fun c => forall s, 0 <= s < N -> len s <> 0 -> c s = canon N len s).
Proof.
  intros HN Hcomp Hcnt. unfold MakeCode. apply wp_bind.
  apply (wp_forZ (fun i st => forall l, 1 <= l <= i -> st l = u16 (first_code (ncodes N len) (Z.to_nat l)))).
  { intros l Hl. replace l with 1 by lia. cbn beta. rewrite Z.eqb_refl. change (Z.to_nat 1) with 1%nat. cbn [first_code].
    change (ncodes N len (Z.of_nat 0)) with 0. done. }
  { intros i st Hi Hst. wps. intros l Hl. destruct (decide (l = i + 1)) as [->|]; upd_at; [|apply Hst; lia].
    rewrite (Hst i), Hcnt by lia. replace (Z.to_nat (i + 1)) with (S (Z.to_nat i)) by lia. cbn [first_code].
    rewrite Z2Nat.id, Z.shiftl_mul_pow2 by lia. change (2 ^ 1) with 2. unfold u16.
    rewrite Z.mul_comm, <- Z.mul_mod_idemp_r by lia. rewrite Z.add_mod_idemp_l by lia. by rewrite Z.mul_mod_idemp_r by lia. }
  intros st Hst. destruct Hcomp as [Hr Hk]. apply wp_bind.
  apply (wp_forZ (fun k '(st, c) =>
    (forall l, 1 <= l <= 16 -> st l = u16 (first_code (ncodes N len) (Z.to_nat l) + asum (isv l) len 0 (Z.to_nat k))) /\
    forall s, 0 <= s < k -> len s <> 0 -> c s = canon N len s)).
  - split; [|lia]. intros l Hl. rewrite Hst by lia. change (Z.to_nat 0) with O. cbn [asum]. by rewrite Z.add_0_r.
  - intros k [st1 c1] Hk1 [Hst1 Hc1]. pose proof (Hr k ltac:(lia)) as Hlk. wps. split.
    + intros l Hl. replace (Z.to_nat (k + 1)) with (S (Z.to_nat k)) by lia. rewrite asum_S, Z.add_0_l, Z2Nat.id by lia.
      destruct (decide (l = len k)) as [->|]; upd_at.
      * rewrite isv_eq, Hst1 by lia. unfold u16. rewrite Z.add_mod_idemp_l by lia. f_equal. lia.
      * rewrite isv_ne by done. rewrite Hst1 by lia. f_equal. lia.
    + intros s Hs Hl. destruct (decide (s = k)) as [->|]; upd_at; [|apply Hc1; [lia|done]].
      rewrite Hst1 by lia. apply u16_small. pose proof (canon_bound N len k (conj Hr Hk) ltac:(lia) Hl) as Hb.
      fold (rank len k). fold (canon N len k). unfold is_u16.
      pose proof (Z.pow_le_mono_r 2 (len k) 16 ltac:(lia) ltac:(lia)). lia.
  - intros [st1 c1] [_ Hc1]. wps. intros s Hs. apply Hc1. lia.
Qed.

(** ** Building the tree *)
Definition used (f : Z) : Z := b2z (negb (f =? 0)).

(** The sum of [g] over the symbols below [k] that are used. *)
Definition usum (freq g : Z -> Z) (k : Z) : Z := asum (fun i => used (freq i) * g i) (fun i => i) 0 (Z.to_nat k).

Lemma usum_S freq g k : 0 <= k -> usum freq g (k + 1) = usum freq g k + used (freq k) * g k.
Proof.
  intros Hk. unfold usum. replace (Z.to_nat (k + 1)) with (S (Z.to_nat k)) by lia.
  by rewrite asum_S, Z.add_0_l, Z2Nat.id by lia.
Qed.
Lemma used_01 f : 0 <= used f <= 1.
Proof. unfold used. destruct (f =? 0); cbn; lia. Qed.
Lemma used_times f : used f * f = f.
Proof. unfold used. destruct (Z.eqb_spec f 0); cbn; lia. Qed.
Lemma used_0 f : used f = 0 <-> f = 0.
Proof. unfold used. destruct (Z.eqb_spec f 0); cbn; lia. Qed.

Lemma usum_isv freq s k : 0 <= s -> usum freq (isv s) k = if s <? k then used (freq s) else 0.
Proof.
  intros Hs. destruct (Z.le_gt_cases k 0) as [Hk|Hk].
  { unfold usum. replace (Z.to_nat k) with O by lia. cbn [asum]. destruct (Z.ltb_spec s k); lia. }
  replace k with (Z.of_nat (Z.to_nat k)) by lia. induction (Z.to_nat k) as [|n IH].
  - unfold usum. change (Z.of_nat 0) with 0. change (Z.to_nat 0) with O. cbn [asum]. destruct (Z.ltb_spec s 0); lia.
  - replace (Z.of_nat (S n)) with (Z.of_nat n + 1) by lia. rewrite usum_S, IH by lia.
    destruct (decide (s = Z.of_nat n)) as [->|Hne].
    + rewrite isv_eq. destruct (Z.ltb_spec (Z.of_nat n) (Z.of_nat n)), (Z.ltb_spec (Z.of_nat n) (Z.of_nat n + 1)); lia.
    + rewrite isv_ne by done. destruct (Z.ltb_spec s (Z.of_nat n)), (Z.ltb_spec s (Z.of_nat n + 1)); lia.
Qed.

Lemma usum_ext freq g g' k : (forall i, 0 <= i < k -> g i = g' i) -> usum freq g k = usum freq g' k.
Proof. intros H. apply asum_ext. intros i Hi. f_equal. apply H. lia. Qed.

Lemma usum_freq freq k : usum freq freq k = asum (fun x => x) freq 0 (Z.to_nat k).
Proof. apply asum_ext. intros. apply used_times. Qed.

Lemma usum_const freq k : 0 <= usum freq (fun _ => 1) k /\ (0 <= k -> usum freq (fun _ => 1) k <= k).
Proof.
  split; [apply asum_nonneg; intros i Hi; pose proof (used_01 (freq i)); lia|]. intros Hk.
  pose proof (asum_le (fun i => used (freq i) * 1) (fun _ => 1) (fun i => i) (Z.to_nat k) 0) as H.
  rewrite asum_const in H. unfold usum. specialize (H ltac:(intros i Hi; pose proof (used_01 (freq i)); lia)). lia.
Qed.

Lemma collect_spec N F sz freq len heap : 0 < N -> N <= NC -> N <= F -> N <= sz -> heap 1 = 0 ->
  wp (forZ 0 (Z.to_nat N) (fun Index s => collect_step F sz freq s Index) (len, heap, 0)) (fun '(len', heap', size) =>
    (forall s, 0 <= s < N -> len' s = 0) /\ size = usum freq (fun _ => 1) N /\
    (forall g, asum g heap' 1 (Z.to_nat size) = usum freq g N) /\ (size = 0 -> heap' 1 = 0)).
Proof.
  intros HN HNC HF Hsz H1. assert (HC : NC = 510) by done.
  apply (wp_forZ (fun k '(len', heap', size) =>
    (forall s, 0 <= s < k -> len' s = 0) /\ size = usum freq (fun _ => 1) k /\
    (forall g, asum g heap' 1 (Z.to_nat size) = usum freq g k) /\ (size = 0 -> heap' 1 = 0))).
  - split_and!; [lia|done|done|done].
  - intros k [[len1 heap1] size] Hk (Hl & Es & Hg & Hz). unfold collect_step. wps.
    pose proof (usum_const freq k) as Hs. rewrite <- Es in Hs.
    assert (Hl' : forall s, 0 <= s < k + 1 -> upd len1 k 0 s = 0).
    { intros s Hs'. destruct (decide (s = k)) as [->|]; upd_at; [done|]. apply Hl. lia. }
    destruct (Z.eqb_spec (freq k) 0) as [E|E]; cbn [negb]; wps.
    + split; [done|]. split; [rewrite usum_S, E, <- Es by lia; cbn; lia|]. split; [|done].
      intros g. rewrite usum_S, E, Hg by lia. cbn. lia.
    + rewrite s16_small by lia. assert (Eu : used (freq k) = 1).
      { pose proof (used_01 (freq k)). assert (used (freq k) <> 0); [|lia]. by rewrite used_0. }
      split; [done|]. split; [rewrite usum_S, Eu, <- Es by lia; lia|]. split; [|lia].
      intros g. rewrite usum_S, Eu, <- Hg by lia. replace (Z.to_nat (size + 1)) with (S (Z.to_nat size)) by lia.
      rewrite asum_S, asum_out, Z2Nat.id by lia. replace (1 + size) with (size + 1) by lia. upd_at. lia.
  - intros [[len1 heap1] size]. rewrite Z.add_0_l, Z2Nat.id by lia. done.
Qed.

Lemma note_symbol_spec N sz i code p : 0 <= p -> 0 <= i -> N < 2 ^ 16 -> (i < N -> p < sz) ->
  wp (note_symbol N sz i code p) (fun '(c, q) => q = p + b2z (i <? N) /\
    (forall s, 0 <= s < N -> asum (isv s) c 0 (Z.to_nat q) = asum (isv s) code 0 (Z.to_nat p) + isv s i) /\
    ((forall k, 0 <= k < p -> 0 <= code k < N) -> forall k, 0 <= k < q -> 0 <= c k < N)).
Proof.
  intros Hp Hi HN Hsz. unfold note_symbol. destruct (Z.ltb_spec i N) as [Hlt|Hge]; cbn [b2z]; wps.
  - specialize (Hsz Hlt). wps. rewrite u16_small by (unfold is_u16; lia). split; [done|]. split.
    + intros s Hs. replace (Z.to_nat (p + 1)) with (S (Z.to_nat p)) by lia.
      rewrite asum_S, asum_out, Z.add_0_l, Z2Nat.id, upd_eq by lia. done.
    + intros Hc k Hk. destruct (decide (k = p)) as [->|]; upd_at; [lia|]. apply Hc. lia.
  - rewrite Z.add_0_r. split; [done|]. split; [|done]. intros s Hs. rewrite isv_ne by lia. lia.
Qed.

Section join.
Context (N sz m T : Z) (freq0 : Z -> Z).
Hypothesis N_range : 0 < N <= NC.
Hypothesis sz_range : N <= sz.
Hypothesis m_range : 2 <= m <= N.
Hypothesis T_range : 0 <= T < 2 ^ 16.

Definition joining_ok (s : joining) : Prop :=
  (1 <= j_size s /\ j_avail s + j_size s = N + m /\ N <= j_avail s /\ 0 <= j_sort s) /\
  (forall k, 1 <= k <= j_size s -> 0 <= j_heap s k < j_avail s) /\
  (exists lv, tree_ok N (j_avail s) (j_left s) (j_right s) lv /\ asum lv (j_heap s) 1 (Z.to_nat (j_size s)) = m) /\
  asum (j_freq s) (j_heap s) 1 (Z.to_nat (j_size s)) = T /\
  (forall i, 0 <= i < j_avail s -> 0 <= j_freq s i) /\
  (forall i, 0 <= i < N -> j_freq s i = freq0 i) /\
  j_sort s + asum (fun i => b2z (i <? N)) (j_heap s) 1 (Z.to_nat (j_size s)) = m /\
  (forall i, 0 <= i < N ->
     asum (isv i) (j_code s) 0 (Z.to_nat (j_sort s)) + asum (isv i) (j_heap s) 1 (Z.to_nat (j_size s)) = used (freq0 i)) /\
  forall k, 0 <= k < j_sort s -> 0 <= j_code s k < N.

(** Taking the first entry out of the queue. *)
Lemma pop_sum g h n : 2 <= n ->
  asum g (upd h 1 (h n)) 1 (Z.to_nat (n - 1)) = asum g h 1 (Z.to_nat n) - g (h 1).
Proof using.
  intros Hn. replace (Z.to_nat n) with (S (Z.to_nat (n - 1))) by lia. rewrite asum_S.
  rewrite asum_in, Z2Nat.id by lia. replace (1 + (n - 1)) with n by lia. lia.
Qed.

Lemma join_step_ok s : joining_ok s -> 2 <= j_size s ->
  wp (join_step N (2 * N - 1) sz s) (fun r => match r with
    | inl s' => joining_ok s' /\ j_size s' = j_size s - 1 /\ 2 <= j_size s'
    | inr (s', Root) => joining_ok s' /\ j_size s' = 1 /\ Root = j_avail s' - 1 /\ j_heap s' 1 = Root
    end).
Proof using N_range sz_range m_range T_range.
  intros ((Hs1 & Hav & HNa & Hp) & Hh & (lv & Ht & Hlv) & HT & Hf0 & Hf & Hm & Hcnt & Hcode) Hs.
  unfold join_step. destruct s as [heap size freq left right code p avail].
  cbn [j_heap j_size j_freq j_left j_right j_code j_sort j_avail] in *. assert (HC : NC = 510) by done.
  wps. set (i1 := heap 1). pose proof (Hh 1 ltac:(lia)) as Hi1. fold i1 in Hi1.
  assert (Hent : forall (h : Z -> Z) n k, 1 <= k <= n ->
    b2z (h k <? N) <= asum (fun i => b2z (i <? N)) h 1 (Z.to_nat n)).
  { intros h n k Hk. apply (asum_entry (fun i => b2z (i <? N))); [lia|]. intros j _. by destruct (_ <? _). }
  pose proof (Hent heap size 1 ltac:(lia)) as He1. fold i1 in He1.
  eapply wp_mono; [apply (note_symbol_spec N sz i1 code p); [done|lia|lia|]|].
  { intros Hlt. rewrite (proj2 (Z.ltb_lt _ _) Hlt) in He1. cbn in He1. lia. }
  cbn beta. intros [c1 p1] (-> & Hc1 & Hr1). wps.
  set (h1 := upd heap 1 (heap size)).
  assert (H1 : forall g, asum g h1 1 (Z.to_nat (size - 1)) = asum g heap 1 (Z.to_nat size) - g i1)
    by (intros g; by apply pop_sum).
  assert (Hh1 : forall k, 1 <= k <= size - 1 -> 0 <= h1 k < avail).
  { intros k Hk. unfold h1. destruct (decide (k = 1)) as [->|]; upd_at; apply Hh; lia. }
  eapply wp_mono; [apply (DownHeap_spec (2 * N - 1) freq (size - 1) 1 h1); [lia|lia|lia|]|].
  { intros k Hk. pose proof (Hh1 k Hk). lia. }
  cbn beta. intros h2 H2. wps. set (i2 := h2 1).
  pose proof (same_entries_all (fun v => 0 <= v < avail) _ _ _ H2 Hh1) as Hh2.
  pose proof (Hh2 1 ltac:(lia)) as Hi2. cbn beta in Hi2. fold i2 in Hi2.
  pose proof (Hent h2 (size - 1) 1 ltac:(lia)) as He2. fold i2 in He2. rewrite H2, H1 in He2.
  eapply wp_mono; [apply (note_symbol_spec N sz i2 c1 _); [|lia|lia|]|].
  { destruct (i1 <? N); cbn; lia. }
  { intros Hlt. rewrite (proj2 (Z.ltb_lt _ _) Hlt) in He2. cbn [b2z] in He2. lia. }
  cbn beta. intros [c2 p2] (-> & Hc2 & Hr2). wps.
  assert (Hfs : 0 <= freq i1 + freq i2 <= T).
  { pose proof (Hf0 i1 Hi1). pose proof (Hf0 i2 Hi2). split; [lia|].
    assert (freq i2 <= asum freq h2 1 (Z.to_nat (size - 1))); [|rewrite H2, H1 in *; lia].
    apply (asum_entry freq); [lia|]. intros j Hj. apply Hf0. apply Hh2. lia. }
  rewrite u16_small, !s16_small by (unfold is_u16; lia). set (freq' := upd freq avail (freq i1 + freq i2)).
  set (h3 := upd h2 1 avail).
  assert (Hh3 : forall k, 1 <= k <= size - 1 -> 0 <= h3 k < avail + 1).
  { intros k Hk. unfold h3. destruct (decide (k = 1)) as [->|]; upd_at; [lia|]. pose proof (Hh2 k Hk). cbn beta in *. lia. }
  eapply wp_mono; [apply (DownHeap_spec (2 * N - 1) freq' (size - 1) 1 h3); [lia|lia|lia|]|].
  { intros k Hk. pose proof (Hh3 k Hk). lia. }
  cbn beta. intros h4 H4. wps. rewrite !u16_small by (unfold is_u16; lia).
  assert (Hsum : forall g g' : Z -> Z, (forall i, 0 <= i < avail -> g' i = g i) ->
    asum g' h4 1 (Z.to_nat (size - 1)) = asum g heap 1 (Z.to_nat size) - g i1 - g i2 + g' avail).
  { intros g g' Hg. rewrite H4. unfold h3. rewrite asum_in by lia. fold i2. rewrite H2. rewrite <- H1.
    rewrite (asum_ext g' g h1 h1) by (intros i Hi; apply Hg, Hh1; lia). rewrite (Hg i2) by lia. lia. }
  match goal with |- wp (if 1 <? size - 1 then Done (inl ?s') else _) _ => assert (Hok : joining_ok s') end.
  { unfold joining_ok. cbn [j_heap j_size j_freq j_left j_right j_code j_sort j_avail]. split; [|split; [|split; [|split; [|split; [|split; [|split; [|split]]]]]]].
    - split; [lia|split; [lia|split; [lia|]]]. destruct (i1 <? N), (i2 <? N); cbn; lia.
    - exact (same_entries_all (fun v => 0 <= v < avail + 1) _ _ _ H4 Hh3).
    - exists (upd lv avail (lv i1 + lv i2)). split.
      + destruct Ht as [Hleaf Hnode]. split.
        * intros i Hi. upd_at. by apply Hleaf.
        * intros i Hi. destruct (decide (i = avail)) as [->|].
          -- upd_at. lia.
          -- destruct (Hnode i ltac:(lia)) as (? & ? & ?). upd_at. lia.
      + rewrite (Hsum lv) by (intros i Hi; by upd_at). upd_at. lia.
    - rewrite (Hsum freq) by (intros i Hi; unfold freq'; by upd_at). unfold freq'. upd_at. lia.
    - intros i Hi. unfold freq'. destruct (decide (i = avail)) as [->|]; upd_at; [lia|]. apply Hf0. lia.
    - intros i Hi. unfold freq'. upd_at. by apply Hf.
    - rewrite (Hsum (fun i => b2z (i <? N))) by done. cbn beta. replace (avail <? N) with false by lia. cbn [b2z]. lia.
    - intros i Hi. rewrite (Hsum (isv i)) by done. rewrite (isv_ne i avail) by lia. rewrite Hc2, Hc1 by done.
      rewrite <- (Hcnt i Hi). lia.
    - apply Hr2, Hr1, Hcode. }
  destruct (Z.ltb_spec 1 (size - 1)); apply wp_Done; cbn [j_heap j_size j_avail]; (split; [exact Hok|]); [lia|].
  split; [lia|split; [lia|]]. pose proof (H4 (fun v => v)) as E. replace (Z.to_nat (size - 1)) with 1%nat in E by lia.
  cbn [asum] in E. unfold h3 in E. rewrite upd_eq in E. lia.
Qed.
End join.

(** ** What [MakeTree] makes *)

(** Either one symbol at most is used, whose code has no bits, or the lengths
    are those of a complete code for the symbols that are used, with the
    canonical codes. *)
Definition coded (N : Z) (freq : Z -> Z) (Root : Z) (len code : Z -> Z) : Prop :=
  (0 <= Root < N /\ (forall s, 0 <= s < N -> freq s <> 0 -> s = Root) /\
   (forall s, 0 <= s < N -> len s = 0) /\ code Root = 0) \/
  (N <= Root /\ complete N len /\ (forall s, 0 <= s < N -> len s <> 0 <-> freq s <> 0) /\
   forall s, 0 <= s < N -> len s <> 0 -> code s = canon N len s).

Lemma MakeLen_spec N sz m tr code Root lv len : 0 < N <= NC -> N <= sz -> 2 <= m <= N -> N <= Root < 2 * NC - 1 ->
  tree_ok N (Root + 1) (mLeft tr) (mRight tr) lv -> lv Root = m ->
  (forall k, 0 <= k < m -> 0 <= code k < N) -> (forall k l, 0 <= k < m -> 0 <= l < m -> code k = code l -> k = l) ->
  (forall s, 0 <= s < N -> len s = 0) ->
  wp (MakeLen N tr sz code Root len) (fun '(cnt, len) => complete N len /\
    (forall j, 1 <= j <= 16 -> cnt j = ncodes N len j) /\
    forall s, 0 <= s < N -> len s <> 0 <-> exists k, 0 <= k < m /\ code k = s).
Proof.
  intros HN Hsz Hm HRoot Ht Hlv Hcr Hco Hl. unfold MakeLen. set (c0 := afill 0 17 (fun _ => 0) (mLenCnt tr)).
  assert (HC : NC = 510) by done.
  assert (Hc0 : forall j, 0 <= j < 17 -> c0 j = 0) by (intros j Hj; unfold c0; by rewrite afill_in).
  assert (Hzero : forall w, wsum w c0 17 = 0).
  { intros w. rewrite (wsum_ext w w c0 (fun _ => 0)); [apply wsum_zero|]. intros i Hi. by rewrite Hc0 by lia. }
  clearbody c0. wps. eapply wp_mono.
  { apply (CountLen_spec N (Root + 1) _ _ lv Ht ltac:(lia)); [lia|lia|lia| |].
    - intros j Hj. rewrite Hc0 by done. lia.
    - unfold total. rewrite Hzero. lia. }
  cbn beta. intros cnt (M & Ttot & Z0 & _ & K). unfold total in Ttot at 2. rewrite Hzero in Ttot.
  rewrite (Hc0 0) in Z0 by lia. specialize (Z0 ltac:(lia)). destruct (K ltac:(lia)) as (E & HE & Hk & HEc).
  unfold kraft in Hk at 2. rewrite Hzero in Hk. change (pow 0) with (2 ^ 16) in Hk. rewrite (Hc0 16) in HEc by lia.
  assert (Hok : cnt_ok cnt) by (intros j Hj; rewrite <- (Hc0 j Hj); by apply M).
  pose proof (cnt_le_total cnt 16 Hok ltac:(lia)) as H16. wps.
  apply (wp_for_down (fun i Cum => Cum = kraft cnt - wsum pow cnt (S (Z.to_nat i)))).
  { change (S (Z.to_nat (Z.of_nat 16))) with 17%nat. unfold kraft. lia. }
  { intros i Cum Hi ->. wps. replace (Z.to_nat (i - 1)) with (Nat.pred (Z.to_nat i)) by lia.
    replace (S (Nat.pred (Z.to_nat i))) with (Z.to_nat i) by lia. cbn [wsum]. rewrite Z2Nat.id by lia.
    rewrite Z.shiftl_mul_pow2 by lia. fold (pow i). rewrite u32_small; [lia|]. unfold is_u32.
    pose proof (wsum_le_kraft cnt (Z.to_nat i) Hok ltac:(lia)).
    pose proof (wsum_le_kraft cnt (S (Z.to_nat i)) Hok ltac:(lia)) as Hw. cbn [wsum] in Hw. rewrite Z2Nat.id in Hw by lia. lia. }
  intros Cum ->. change (S (Z.to_nat 0)) with 1%nat. cbn [wsum]. change (Z.of_nat 0) with 0. rewrite Z0.
  replace (kraft cnt - (0 + pow 0 * 0)) with (kraft cnt) by lia. wps.
  eapply wp_mono; [apply (adjust_spec m); [lia| |lia]|].
  { split; [exact Hok|split; [exact Z0|split; [lia|split; [exact eq_refl|split; [lia|]]]]]. destruct HEc; [left|right]; lia. }
  cbn beta. intros c (Hc & Hcz & Hct & Hck). wps.
  eapply wp_mono; [apply (assign_all N m code Hcr Hco sz c len); [lia|lia|exact Hc|exact Hcz|exact Hct|exact Hl]|].
  intros [len' q] (Hr & Hs & Hf). wps.
  assert (Hn : forall j, 1 <= j <= 16 -> c j = ncodes N len' j).
  { intros j Hj. unfold ncodes. rewrite (proj2 (Z.eqb_neq j 0)) by lia. by rewrite Hf. }
  split; [|split; [done|done]]. split; [done|]. rewrite <- Hck. apply wsum_ext. intros i Hi.
  destruct (decide (i = 0)) as [->|]; [by rewrite Hcz|]. by rewrite Hn by lia.
Qed.

Theorem MakeTree_spec Start0 N sz y tr : 0 < N <= NC -> N <= sz ->
  (forall s, 0 <= s < N -> 0 <= s_Freq y s) -> asum (fun x => x) (s_Freq y) 0 (Z.to_nat N) < 2 ^ 16 ->
  wp (MakeTree Start0 N sz y tr) (fun '(Root, y', _) =>
    coded N (s_Freq y) Root (s_Len y') (s_Code y') /\ Root < 2 * N - 1 /\
    (forall s, 0 <= s < N -> s_Freq y' s = s_Freq y s) /\
    s_Freq y' Root = asum (fun x => x) (s_Freq y) 0 (Z.to_nat N)).
Proof.
  intros HN Hsz Hf HT. unfold MakeTree. destruct y as [freq len code]. cbn [s_Freq s_Len s_Code] in *.
  assert (HC : NC = 510) by done. wps.
  eapply wp_mono; [apply (collect_spec N (2 * N - 1) sz freq len); try lia; by upd_at|].
  intros [[len1 heap1] size] (Hl & Es & Hg & Hz).
  pose proof (usum_const freq N) as [Hs0 HsN]. rewrite <- Es in Hs0, HsN. specialize (HsN ltac:(lia)).
  assert (Hh : forall k, 1 <= k <= size -> 0 <= heap1 k < N /\ freq (heap1 k) <> 0).
  { intros k Hk. assert (H : 0 < asum (isv (heap1 k)) heap1 1 (Z.to_nat size)) by (apply asum_isv_pos; exists k; split; [lia|done]).
    rewrite Hg in H. destruct (Z.lt_ge_cases (heap1 k) 0) as [Hneg|Hpos].
    - exfalso. assert (usum freq (isv (heap1 k)) N = usum freq (fun _ => 0) N); [apply usum_ext; intros i Hi; apply isv_ne; lia|].
      assert (usum freq (fun _ => 0) N = 0); [|lia]. unfold usum.
      rewrite (asum_ext _ (fun _ => 0) _ (fun i => i)) by (intros; lia). by rewrite asum_const.
    - rewrite usum_isv in H by done. destruct (Z.ltb_spec (heap1 k) N); [|lia]. split; [done|].
      rewrite <- used_0. lia. }
  assert (HTu : usum freq freq N = asum (fun x => x) freq 0 (Z.to_nat N)) by apply usum_freq.
  destruct (Z.ltb_spec size 2) as [H2|H2].
  - wps. assert (Hroot : 0 <= heap1 1 < N) by (destruct (decide (size = 0)) as [E|E]; [rewrite (Hz E); lia|apply Hh; lia]).
    wps. cbn [s_Freq s_Len s_Code].
    assert (Hall : forall s, 0 <= s < N -> freq s <> 0 -> s = heap1 1).
    { intros s Hs Hne. pose proof (Hg (isv s)) as E. rewrite usum_isv, (proj2 (Z.ltb_lt s N)) in E by lia.
      assert (used (freq s) <> 0) by by rewrite used_0. pose proof (used_01 (freq s)).
      assert (Hp : 0 < asum (isv s) heap1 1 (Z.to_nat size)) by lia.
      apply asum_isv_pos in Hp as (k & Hk & <-). f_equal. lia. }
    split; [left|split; [lia|split; [done|]]].
    + split; [done|]. split; [done|]. split; [done|]. by upd_at.
    + rewrite <- HTu, <- Hg. destruct (decide (size = 0)) as [E|E].
      * rewrite E. cbn. destruct (decide (freq (heap1 1) = 0)) as [|Hne]; [done|]. exfalso.
        pose proof (Hg (isv (heap1 1))) as E1. rewrite usum_isv, (proj2 (Z.ltb_lt _ N)), E in E1 by lia. cbn in E1.
        apply Hne, used_0. done.
      * replace (Z.to_nat size) with 1%nat by lia. cbn [asum]. lia.
  - wps. apply (wp_for_down (fun _ h => same_entries size heap1 h)).
    + by intros g.
    + intros i h Hi Hsame. eapply wp_mono; [apply (DownHeap_spec (2 * N - 1) freq size i h); try lia|].
      * pose proof (Z.div_le_upper_bound size 2 size). pose proof (Z.div_mod size 2 ltac:(lia)). lia.
      * intros k Hk. pose proof (same_entries_all (fun v => 0 <= v < N /\ freq v <> 0) _ _ _ Hsame Hh k Hk). cbn beta in *. lia.
      * cbn beta. intros h' Hh' g. rewrite Hh'. apply Hsame.
    + intros h Hsame. wps. set (T := asum (fun x => x) freq 0 (Z.to_nat N)) in *.
      assert (HT0 : 0 <= T) by (apply asum_nonneg; intros i Hi; apply Hf; lia).
      set (s0 := mkJoin h size freq (mLeft tr) (mRight tr) code 0 N).
      assert (Hok0 : joining_ok N size T freq s0).
      { unfold joining_ok, s0. cbn [j_heap j_size j_freq j_left j_right j_code j_sort j_avail].
        pose proof (same_entries_all (fun v => 0 <= v < N /\ freq v <> 0) _ _ _ Hsame Hh) as Hh'. cbn beta in Hh'.
        split; [lia|]. split; [intros k Hk; specialize (Hh' k Hk); lia|]. split; [|split; [|split; [|split; [|split; [|split]]]]].
        - exists (fun _ => 1). split; [split; [done|lia]|]. rewrite Hsame, Hg. done.
        - by rewrite Hsame, Hg.
        - exact Hf.
        - done.
        - rewrite Hsame, Hg, Z.add_0_l. rewrite Es. apply usum_ext. intros i Hi. by replace (i <? N) with true by lia.
        - intros i Hi. change (Z.to_nat 0) with O. cbn [asum]. rewrite Hsame, Hg, usum_isv by lia.
          by replace (i <? N) with true by lia.
        - lia. }
      apply (wp_loop (fun s => joining_ok N size T freq s /\ 2 <= j_size s) (fun s => Z.to_nat (j_size s - 2))).
      * intros s [Hok Hs]. eapply wp_mono; [apply (join_step_ok N sz size T freq); try done; lia|]. cbn beta.
        intros [s'|[s' Root]]; [intros (Hok' & Hs' & Hs2); split; [by split|lia]|].
        intros (Hok' & Hs' & HRoot & HhR). clear s Hok Hs s0 Hok0. destruct s' as [h' sz' freq' left right code' p avail].
        unfold joining_ok in Hok'. cbn [j_heap j_size j_freq j_left j_right j_code j_sort j_avail] in *. subst sz'.
        destruct Hok' as ((_ & Hav & HNa & Hp) & _ & (lv & Ht & Hlv) & HTf & _ & Hf' & Hm & Hcnt & Hcode).
        change (Z.to_nat 1) with 1%nat in *. cbn [asum] in Hlv, HTf, Hm. rewrite HhR in Hlv, HTf, Hm.
        assert (Hp' : p = size). { rewrite (proj2 (Z.ltb_ge Root N)) in Hm by lia. cbn [b2z] in Hm. lia. }
        subst p. wps. eapply wp_mono.
        { apply (MakeLen_spec N sz size _ code' Root lv len1); cbn [mLeft mRight]; try done; try lia.
          - by replace (Root + 1) with avail by lia.
          - intros k l Hk Hk2 E. eapply (asum_isv_unique (code' k) code' 0 (Z.to_nat size)); try lia.
            pose proof (Hcnt (code' k) ltac:(by apply Hcode)) as E1. pose proof (used_01 (freq (code' k))).
            cbn [asum] in E1. rewrite HhR in E1. pose proof (isv_01 (code' k) Root). lia. }
        cbn beta. intros [cnt len2] (Hcomp & Hn & Hs2). wps.
        eapply wp_mono; [apply MakeCode_spec; [lia|done|done]|]. cbn beta. intros code2 Hcode2. wps.
        cbn [s_Freq s_Len s_Code]. split; [right|split; [lia|split; [done|lia]]].
        split; [lia|]. split; [done|]. split; [|done]. intros s Hs. rewrite Hs2 by done. specialize (Hcnt s Hs).
        cbn [asum] in Hcnt. rewrite HhR, (isv_ne s) in Hcnt by lia. pose proof (used_01 (freq s)).
        rewrite <- used_0. split.
        -- intros (k & Hk & E). assert (0 < asum (isv s) code' 0 (Z.to_nat size)); [|lia].
           apply asum_isv_pos. exists k. split; [lia|done].
        -- intros Hu. assert (Hpos : 0 < asum (isv s) code' 0 (Z.to_nat size)) by lia.
           apply asum_isv_pos in Hpos as (k & Hk & E). exists k. split; [lia|done].
      * split; [exact Hok0|done].
      * cbn [j_size s0]. unfold s0. cbn [j_size]. lia.
Qed.

(** C12: (functional) Codes from frequencies: for any frequencies whose sum
    fits 16 bits [MakeTree] returns. Either at most one symbol is in use, and
    all lengths are zero, or the lengths (cut to 16 bits) are those of a
    complete prefix code, exactly the symbols in use have one, and each code is
    the canonical one for the lengths. The frequency of the root is the sum. *)
Theorem MakeTree_canonical Start0 N sz y tr : 0 < N <= NC -> N <= sz ->
  (forall s, 0 <= s < N -> 0 <= s_Freq y s) -> asum (fun x => x) (s_Freq y) 0 (Z.to_nat N) < 2 ^ 16 ->
  exists Root y' tr', MakeTree Start0 N sz y tr = Done (Root, y', tr') /\
    s_Freq y' Root = asum (fun x => x) (s_Freq y) 0 (Z.to_nat N) /\
    ((0 <= Root < N /\ (forall s, 0 <= s < N -> s_Freq y s <> 0 -> s = Root) /\ forall s, 0 <= s < N -> s_Len y' s = 0) \/
     (N <= Root < 2 * N - 1 /\ complete N (s_Len y') /\ (forall s, 0 <= s < N -> s_Len y' s <> 0 <-> s_Freq y s <> 0) /\
      forall s, 0 <= s < N -> s_Len y' s <> 0 -> s_Code y' s = canon N (s_Len y') s)).
Proof.
  intros HN Hsz Hf Hs. pose proof (MakeTree_spec Start0 N sz y tr HN Hsz Hf Hs) as H. apply wp_elim in H as ([[Root y'] tr'] & E & H).
  destruct H as (Hc & HR & _ & Hsum). exists Root, y', tr'. split; [done|]. split; [done|].
  destruct Hc as [(H1 & H2 & H3 & _)|(H1 & H2 & H3 & H4)]; [by left|right]. split; [lia|done].
Qed.

Lemma MakeTree_canonical_witness :
  let y := mkSym (fun s => if s =? 0 then 3 else if s =? 1 then 1 else if s =? 4 then 2 else 0) (fun _ => 0) (fun _ => 0) in
  let tr := mkTrees (fun _ => 0) (fun _ => 0) (fun _ => 0) (fun _ => 0) in
  exists Root y' tr', MakeTree 0 NT NPT y tr = Done (Root, y', tr') /\ s_Freq y' Root = 6 /\
    ((0 <= Root < NT /\ (forall s, 0 <= s < NT -> s_Freq y s <> 0 -> s = Root) /\ forall s, 0 <= s < NT -> s_Len y' s = 0) \/
     (NT <= Root < 2 * NT - 1 /\ complete NT (s_Len y') /\ (forall s, 0 <= s < NT -> s_Len y' s <> 0 <-> s_Freq y s <> 0) /\
      forall s, 0 <= s < NT -> s_Len y' s <> 0 -> s_Code y' s = canon NT (s_Len y') s)).
Proof.
  intros y tr. apply (MakeTree_canonical 0 NT NPT y tr); [done|done| |by vm_compute].
  intros s _. cbn. destruct (s =? 0), (s =? 1), (s =? 4); done.
Defined.
