(* ===== verification/TianoFormat.v ===== *)
(** * The compressed format

    What a compressed stream is, independent of the program that writes or
    reads it: tokens of the sliding window and what they stand for, the codes
    of a block and how its header describes them, blocks and streams. *)

From S2P Require Import Prelude CArray BitStream TianoHuff.

(** ** Tokens *)

(** A byte, or a copy of [len] bytes from [pos + 1] bytes back. *)
Inductive token := Lit (c : Z) | Ptr (len pos : Z).

Definition token_ok (t : token) : Prop :=
  match t with
  | Lit c => is_u8 c
  | Ptr len pos => THRESHOLD <= len <= MAXMATCH /\ 0 <= pos < WNDSIZ
  end.

Fixpoint copy_back (n : nat) (pos : Z) (out : list Z) : option (list Z) :=
  match n with
  | O => Some out
  | S n => c ← out !! Z.to_nat (zlen out - pos - 1); copy_back n pos (out ++ [c])
  end.

Definition expand_token (out : list Z) (t : token) : option (list Z) :=
  match t with
  | Lit c => Some (out ++ [c])
  | Ptr len pos => if pos <? zlen out then copy_back (Z.to_nat len) pos out else None
  end.

Fixpoint expand (out : list Z) (ts : list token) : option (list Z) :=
  match ts with [] => Some out | t :: ts => out ← expand_token out t; expand out ts end.

(** ** Codes *)

(** Of a set with one symbol in use, written with no bits, or of several. *)
Inductive code := One (s : Z) | Code (len : Z -> Z).

Definition code_ok (N : Z) (c : code) : Prop :=
  match c with One s => 0 <= s < N | Code len => complete N len end.
Definition coded_in (N : Z) (c : code) (s : Z) : Prop :=
  match c with One r => s = r | Code len => 0 <= s < N /\ len s <> 0 end.
Definition code_bits (N : Z) (c : code) (s : Z) : list bool :=
  match c with One _ => [] | Code len => bits (Z.to_nat (len s)) (canon N len s) end.

(** The [n] entries of a table from [lo] on. *)
Fixpoint entries (a : Z -> Z) (lo : Z) (n : nat) : list Z :=
  match n with O => [] | S n => a lo :: entries a (lo + 1) n end.

(** The entries of a table but for the zeros at its end. *)
Fixpoint trimmed (a : Z -> Z) (n : nat) : nat :=
  match n with O => O | S m => if a (Z.of_nat m) =? 0 then trimmed a m else n end.

(** *** Lengths of the extra set and the position set *)
Definition length_bits (l : Z) : list bool :=
  if l <=? 6 then bits 3 l else bits (Z.to_nat (l - 3)) (2 ^ (l - 3) - 2).

(** Zeros behind the third length, at most three. *)
Definition zeros_at_3 (len : Z -> Z) : Z :=
  if negb (len 3 =? 0) then 0 else if negb (len 4 =? 0) then 1 else if negb (len 5 =? 0) then 2 else 3.

Definition lengths_bits (special : bool) (len : Z -> Z) (n : Z) : list bool :=
  if special && (3 <=? n) then
    let z := zeros_at_3 len in
    concat (map length_bits (entries len 0 3)) ++ bits 2 z ++
    concat (map length_bits (entries len (3 + z) (Z.to_nat (n - 3 - z))))
  else concat (map length_bits (entries len 0 (Z.to_nat n))).

Definition set_header (special : bool) (N : Z) (nbit : nat) (c : code) : list bool :=
  match c with
  | One s => bits nbit 0 ++ bits nbit s
  | Code len =>
      let n := Z.of_nat (trimmed len (Z.to_nat N)) in bits nbit n ++ lengths_bits special len n
  end.

(** *** Lengths of the characters *)

(** A length, one zero, or a run of zeros. *)
Inductive run := RLen (l : Z) | RZero | RShort (n : Z) | RLong (n : Z).

Definition run_ok (r : run) : Prop :=
  match r with
  | RLen l => 1 <= l <= 16 | RZero => True | RShort n => 3 <= n <= 18 | RLong n => 20 <= n < 20 + 2 ^ CBIT
  end.
Definition run_lens (r : run) : list Z :=
  match r with
  | RLen l => [l] | RZero => [0] | RShort n => replicate (Z.to_nat n) 0 | RLong n => replicate (Z.to_nat n) 0
  end.
Definition run_sym (r : run) : Z :=
  match r with RZero => 0 | RShort _ => 1 | RLong _ => 2 | RLen l => l + 2 end.
Definition run_bits (t : code) (r : run) : list bool :=
  code_bits NT t (run_sym r) ++
  match r with RShort n => bits 4 (n - 3) | RLong n => bits 9 (n - 20) | _ => [] end.

Definition char_header (t c : code) (rs : list run) : list bool :=
  match c with
  | One s => bits 9 0 ++ bits 9 s
  | Code len => bits 9 (Z.of_nat (trimmed len (Z.to_nat NC))) ++ concat (map (run_bits t) rs)
  end.

Definition runs_ok (t c : code) (rs : list run) : Prop :=
  match c with
  | One _ => t = One 0 /\ rs = []
  | Code len =>
      Forall (fun r => run_ok r /\ coded_in NT t (run_sym r)) rs /\
      concat (map run_lens rs) = entries len 0 (trimmed len (Z.to_nat NC))
  end.

(** ** Blocks *)

(** The symbols of a token: a character or a length; for a pointer the number
    of bits of the position. *)
Definition char_sym (t : token) : Z :=
  match t with Lit c => c | Ptr len _ => len + (UINT8_MAX + 1 - THRESHOLD) end.
Definition pos_sym (pos : Z) : Z := if pos =? 0 then 0 else Z.log2 pos + 1.
Definition pos_bits (p : code) (pos : Z) : list bool :=
  code_bits NP p (pos_sym pos) ++
  (if 1 <? pos_sym pos then bits (Z.to_nat (pos_sym pos - 1)) (pos mod 2 ^ (pos_sym pos - 1)) else []).

Definition token_bits (c p : code) (t : token) : list bool :=
  code_bits NC c (char_sym t) ++ match t with Lit _ => [] | Ptr _ pos => pos_bits p pos end.

Definition token_coded (c p : code) (t : token) : Prop :=
  token_ok t /\ coded_in NC c (char_sym t) /\
  match t with Lit _ => True | Ptr _ pos => coded_in NP p (pos_sym pos) end.

Record block := mkBlock {
  b_extra : code; b_char : code; b_pos : code; b_runs : list run; b_tokens : list token }.

Definition block_bits (b : block) : list bool :=
  bits 16 (zlen (b_tokens b)) ++ set_header true NT 5 (b_extra b) ++
  char_header (b_extra b) (b_char b) (b_runs b) ++ set_header false NP 5 (b_pos b) ++
  concat (map (token_bits (b_char b) (b_pos b)) (b_tokens b)).

Definition block_ok (b : block) : Prop :=
  zlen (b_tokens b) < 2 ^ 16 /\ code_ok NT (b_extra b) /\ code_ok NC (b_char b) /\ code_ok NP (b_pos b) /\
  runs_ok (b_extra b) (b_char b) (b_runs b) /\ Forall (token_coded (b_char b) (b_pos b)) (b_tokens b).

Definition stream_bits (bs : list block) : list bool := concat (map block_bits bs).
Definition stream_tokens (bs : list block) : list token := concat (map b_tokens bs).

(** The data a compressed buffer stands for: after the sizes of the
    compressed and the original data come the blocks, whose tokens expand to
    the data, in whole bytes with zero bits and a zero byte at the end. *)
Definition compressed (x b : list Z) : Prop :=
  exists bs pad, Forall block_ok bs /\ (x <> [] -> Forall (fun k => b_tokens k <> []) bs) /\
    expand [] (stream_tokens bs) = Some x /\
    (length pad < 8)%nat /\ Forall (fun b => b = false) pad /\ (exists n, length (stream_bits bs ++ pad) = (8 * n)%nat) /\
    let data := pack (stream_bits bs ++ pad) ++ [0] in
    b = le_bytes 4 (zlen data) ++ le_bytes 4 (zlen x) ++ data.

(** ** Sizes

    A block costs at most 13400 bits for its header and 51 for each token. *)
Lemma concat_size {A} (f : A -> list bool) n l : (forall x, x ∈ l -> (length (f x) <= n)%nat) -> (length (concat (map f l)) <= n * length l)%nat.
Proof.
  induction l as [|x l IH]; intros H; cbn [map concat length]; [lia|]. rewrite length_app.
  pose proof (H x ltac:(by left)). pose proof (IH ltac:(intros; apply H; by right)). lia.
Qed.

Lemma elem_entries a n : forall lo v, v ∈ entries a lo n -> exists i, lo <= i < lo + Z.of_nat n /\ v = a i.
Proof.
  induction n as [|n IH]; intros lo v H; cbn [entries] in H; [by apply not_elem_of_nil in H|].
  apply elem_of_cons in H as [->|H]; [exists lo; split; [lia|done]|]. destruct (IH _ _ H) as (i & Hi & ->). exists i. split; [lia|done].
Qed.
Lemma length_entries a n : forall lo, length (entries a lo n) = n.
Proof. induction n as [|n IH]; intros lo; cbn; [done|]. by rewrite IH. Qed.

Lemma trimmed_le a n : (trimmed a n <= n)%nat.
Proof. induction n as [|n IH]; cbn; [done|]. destruct (_ =? 0); lia. Qed.

Lemma length_bits_size l : l <= 16 -> (length (length_bits l) <= 13)%nat.
Proof. intros Hl. unfold length_bits. destruct (Z.leb_spec l 6); rewrite BitStream.length_bits; lia. Qed.

Lemma lengths_size N len lo n : (forall s, 0 <= s < N -> 0 <= len s <= 16) -> 0 <= lo -> lo + Z.of_nat n <= N ->
  (length (concat (map length_bits (entries len lo n))) <= 13 * n)%nat.
Proof.
  intros Hl H0 Hn. pose proof (concat_size length_bits 13 (entries len lo n)) as H. rewrite length_entries in H. apply H.
  intros v Hv. apply elem_entries in Hv as (i & Hi & ->). apply length_bits_size. apply Hl. lia.
Qed.

Lemma set_header_size special N nbit c : 0 <= N -> code_ok N c -> (length (set_header special N nbit c) <= 2 * nbit + 2 + 13 * Z.to_nat N)%nat.
Proof.
  intros HN. destruct c as [s|len]; cbn [set_header code_ok].
  - rewrite length_app, !BitStream.length_bits. lia.
  - intros [Hl _]. pose proof (trimmed_le len (Z.to_nat N)) as Ht. rewrite length_app, BitStream.length_bits.
    assert (H : (length (lengths_bits special len (Z.of_nat (trimmed len (Z.to_nat N)))) <= 2 + 13 * Z.to_nat N)%nat); [|lia].
    unfold lengths_bits. set (n := trimmed len (Z.to_nat N)) in *. assert (Hz : 0 <= zeros_at_3 len <= 3).
    { unfold zeros_at_3. repeat destruct (negb _); lia. }
    destruct (special && _) eqn:E.
    + apply andb_true_iff in E as [_ E]. apply Z.leb_le in E. rewrite !length_app, BitStream.length_bits.
      pose proof (lengths_size N len 0 3 Hl ltac:(lia) ltac:(lia)).
      set (e := concat (map length_bits (entries len 0 3))) in *. clearbody e.
      destruct (Z.le_gt_cases (Z.of_nat n - 3 - zeros_at_3 len) 0).
      * replace (Z.to_nat (Z.of_nat n - 3 - zeros_at_3 len)) with O by lia. cbn [entries map concat length]. lia.
      * pose proof (lengths_size N len (3 + zeros_at_3 len) (Z.to_nat (Z.of_nat n - 3 - zeros_at_3 len)) Hl ltac:(lia) ltac:(lia)). lia.
    + rewrite Nat2Z.id. pose proof (lengths_size N len 0 n Hl ltac:(lia) ltac:(lia)). lia.
Qed.

Lemma code_bits_size N c s : code_ok N c -> coded_in N c s -> (length (code_bits N c s) <= 16)%nat.
Proof.
  destruct c as [r|len]; cbn [code_ok coded_in code_bits]; [cbn; lia|]. intros [Hl _] [Hs _]. rewrite BitStream.length_bits.
  pose proof (Hl s Hs). lia.
Qed.

Lemma runs_count rs : Forall run_ok rs -> (length rs <= length (concat (map run_lens rs)))%nat.
Proof.
  induction 1 as [|r rs Hr _ IH]; cbn [map concat length]; [lia|]. rewrite length_app.
  assert (1 <= length (run_lens r))%nat; [|lia].
  destruct r; cbn [run_ok run_lens] in *; rewrite ?length_replicate; cbn [length]; lia.
Qed.

Lemma char_header_size t c rs : code_ok NT t -> runs_ok t c rs -> (length (char_header t c rs) <= 9 + 25 * 510)%nat.
Proof.
  intros Ht Hr. destruct c as [s|len]; cbn [char_header runs_ok] in *; rewrite length_app, !BitStream.length_bits; [lia|].
  destruct Hr as [Hr Hl]. pose proof (concat_size (run_bits t) 25 rs) as Hc.
  assert (Hn : (length rs <= 510)%nat).
  { pose proof (runs_count rs) as H. rewrite Hl, length_entries in H. pose proof (trimmed_le len (Z.to_nat NC)) as Hle.
    change (Z.to_nat NC) with 510%nat in *. specialize (H ltac:(eapply Forall_impl; [exact Hr|]; by intros ? [? _])). lia. }
  assert (Hc' : (length (concat (map (run_bits t) rs)) <= 25 * length rs)%nat); [|lia]. apply Hc.
  intros r Hin. rewrite Forall_forall in Hr. destruct (Hr r Hin) as [_ Hs]. unfold run_bits.
  rewrite length_app. pose proof (code_bits_size NT t _ Ht Hs). destruct r; cbn [length]; rewrite ?BitStream.length_bits; lia.
Qed.

Lemma token_bits_size c p t : code_ok NC c -> code_ok NP p -> token_coded c p t -> (length (token_bits c p t) <= 51)%nat.
Proof.
  intros Hc Hp (Ht & Hcs & Hps). unfold token_bits. rewrite length_app. pose proof (code_bits_size NC c _ Hc Hcs).
  destruct t as [ch|len pos]; cbn [length]; [lia|]. unfold pos_bits. rewrite length_app.
  pose proof (code_bits_size NP p _ Hp Hps). destruct Ht as [_ Hpos].
  assert (pos_sym pos <= 19).
  { unfold pos_sym. destruct (Z.eqb_spec pos 0); [lia|]. change WNDSIZ with (2 ^ 19) in Hpos.
    assert (Z.log2 pos < 19) by (apply Z.log2_lt_pow2; lia). lia. }
  destruct (_ <? _); rewrite ?BitStream.length_bits; cbn [length]; lia.
Qed.

Lemma block_bits_size b : block_ok b -> zlen (block_bits b) <= 13400 + 51 * zlen (b_tokens b).
Proof.
  intros (_ & Ht & Hc & Hp & Hr & Htok). unfold block_bits. rewrite !zlen_app, zlen_bits.
  pose proof (set_header_size true NT 5 _ ltac:(done) Ht). pose proof (set_header_size false NP 5 _ ltac:(done) Hp).
  pose proof (char_header_size _ _ _ Ht Hr). change (Z.to_nat NT) with 19%nat in *. change (Z.to_nat NP) with 20%nat in *.
  assert ((length (concat (map (token_bits (b_char b) (b_pos b)) (b_tokens b))) <= 51 * length (b_tokens b))%nat).
  { apply concat_size. intros t Hin. rewrite Forall_forall in Htok. apply token_bits_size; [done|done|]. by apply Htok. }
  unfold zlen. lia.
Qed.

Lemma stream_bits_size bs : Forall block_ok bs -> zlen (stream_bits bs) <= 13400 * zlen bs + 51 * zlen (stream_tokens bs).
Proof.
  unfold stream_bits, stream_tokens. induction 1 as [|b bs Hb _ IH]; cbn [map concat]; [done|]. rewrite !zlen_app, zlen_cons.
  pose proof (block_bits_size b Hb). lia.
Qed.

Lemma stream_blocks bs : Forall (fun b => b_tokens b <> []) bs -> (length bs <= length (stream_tokens bs))%nat.
Proof.
  unfold stream_tokens. induction 1 as [|b bs Hb _ IH]; cbn [map concat length]; [lia|]. rewrite length_app. destruct (b_tokens b); cbn [length]; [done|lia].
Qed.

(** A token stands for at least one byte. *)
Lemma copy_back_length n pos : forall out o, copy_back n pos out = Some o -> length o = (length out + n)%nat.
Proof.
  induction n as [|n IH]; intros out o; cbn [copy_back]; [intros [= <-]; lia|]. destruct (out !! _); [|done].
  intros H. apply IH in H. rewrite H, length_app. cbn. lia.
Qed.
Lemma expand_length ts : Forall token_ok ts -> forall out o, expand out ts = Some o -> (length ts + length out <= length o)%nat.
Proof.
  induction 1 as [|t ts Ht _ IH]; intros out o; cbn [expand length]; [by intros [= <-]|].
  destruct (expand_token out t) as [o'|] eqn:E; [|done]. intros H. apply IH in H.
  assert (length out + 1 <= length o')%nat; [|lia]. destruct t as [c|len pos]; cbn [expand_token token_ok] in *.
  - injection E as <-. rewrite length_app. cbn. lia.
  - destruct (_ <? _); [|done]. apply copy_back_length in E. unfold THRESHOLD in Ht. lia.
Qed.
