(* ===== verification/TianoBlock.v ===== *)
(** * Blocks of the compressor

    Models the output side of [Library/TianoCompress.c]: the buffer of
    symbols [Output] fills, and [SendBlock], which makes the codes for it and
    writes the block. What it writes is a block of the format. *)

From S2P Require Import Prelude CArray BitStream TianoHuff TianoFormat.

(** The globals of this side. [mBuf] has [mBufSiz] bytes; the extra set and the
    position set share [mPTLen] and [mPTCode]. [CPos] is the static of
    [Output]. *)
Record huf := mkHuf {
  mC : symbols; mTFreq : carr; mPFreq : carr; mPTLen : carr; mPTCode : carr; mTrees : trees;
  mSink : sink; mBuf : carr; mOutputPos : Z; mOutputMask : Z; CPos : Z }.

Definition set_sink (s : huf) (k : sink) : huf :=
  mkHuf (mC s) (mTFreq s) (mPFreq s) (mPTLen s) (mPTCode s) (mTrees s) k (mBuf s) (mOutputPos s) (mOutputMask s) (CPos s).
Definition set_out (s : huf) (buf : carr) (pos mask c : Z) : huf :=
  mkHuf (mC s) (mTFreq s) (mPFreq s) (mPTLen s) (mPTCode s) (mTrees s) (mSink s) buf pos mask c.

(** ** The code lengths *)

(** [while (Number > 0 && Len[Number - 1] == 0) Number--;] *)
Fixpoint trim (sz : Z) (Len : carr) (Number : nat) : Res Z :=
  match Number with
  | O => Done 0
  | S n => v ← aget sz Len (Z.of_nat n); if v =? 0 then trim sz Len n else Done (Z.of_nat Number)
  end.

(** [while (Index < Number && mCLen[Index] == 0) { Index++; Count++; }] *)
Definition zero_run (Len : carr) (Number Index Count : Z) : Res (Z * Z) :=
  loop (S (Z.to_nat Number))
    (fun '(Index, Count) =>
       if Index <? Number then
         v ← aget NC Len Index;
         if v =? 0 then Done (inl (Index + 1, Count + 1)) else Done (inr (Index, Count))
       else Done (inr (Index, Count))) (Index, Count).

Definition tfreq_add (i v : Z) (f : carr) : Res carr :=
  x ← aget (2 * NT - 1) f i; aset (2 * NT - 1) f i (u16 (x + v)).

Definition count_step (mCLen : carr) (Number : Z) (s : Z * carr) : Res (Z * carr + carr) :=
  let '(Index, f) := s in
  if Index <? Number then
    Index3 ← aget NC mCLen Index;
    let Index := Index + 1 in
    if Index3 =? 0 then
      '(Index, Count) ← zero_run mCLen Number Index 1;
      f ← (if Count <=? 2 then tfreq_add 0 Count f
           else if Count <=? 18 then tfreq_add 1 1 f
           else if Count =? 19 then f ← tfreq_add 0 1 f; tfreq_add 1 1 f
           else tfreq_add 2 1 f);
      Done (inl (Index, f))
    else f ← tfreq_add (Index3 + 2) 1 f; Done (inl (Index, f))
  else Done (inr f).

Definition CountTFreq (mCLen mTFreq : carr) : Res carr :=
  let f := afill 0 NT (fun _ => 0) mTFreq in
  Number ← trim NC mCLen (Z.to_nat NC);
  loop (S (Z.to_nat Number)) (count_step mCLen Number) (0, f).

(** [Special] is compared as a signed number: -1 stands for none. *)
Definition wpt_step (mPTLen : carr) (Number Special : Z) (s : Z * sink) : Res (Z * sink + sink) :=
  let '(Index, k) := s in
  if Index <? Number then
    Index3 ← aget NPT mPTLen Index;
    let Index := Index + 1 in
    k ← (if Index3 <=? 6 then PutBits 3 Index3 k else PutBits (Index3 - 3) (u32 (Z.shiftl 1 (Index3 - 3) - 2)) k);
    if Index =? Special then
      Index ← loop 7 (fun Index =>
        if Index <? 6 then
          v ← aget NPT mPTLen Index;
          if v =? 0 then Done (inl (Index + 1)) else Done (inr Index)
        else Done (inr Index)) Index;
      k ← PutBits 2 (Z.land (Index - 3) 3) k;
      Done (inl (Index, k))
    else Done (inl (Index, k))
  else Done (inr k).

Definition WritePTLen (mPTLen : carr) (Number nbit Special : Z) (k : sink) : Res sink :=
  Number ← trim NPT mPTLen (Z.to_nat Number);
  k ← PutBits nbit Number k;
  loop (S (Z.to_nat Number)) (wpt_step mPTLen Number Special) (0, k).

(** The code of a symbol of the extra set or the position set. *)
Definition put_pt (mPTLen mPTCode : carr) (i : Z) (k : sink) : Res sink :=
  l ← aget NPT mPTLen i; c ← aget NPT mPTCode i; PutBits l c k.

Definition wc_step (mCLen mPTLen mPTCode : carr) (Number : Z) (s : Z * sink) : Res (Z * sink + sink) :=
  let '(Index, k) := s in
  if Index <? Number then
    Index3 ← aget NC mCLen Index;
    let Index := Index + 1 in
    if Index3 =? 0 then
      '(Index, Count) ← zero_run mCLen Number Index 1;
      k ← (if Count <=? 2 then forZ 0 (Z.to_nat Count) (fun _ k => put_pt mPTLen mPTCode 0 k) k
           else if Count <=? 18 then k ← put_pt mPTLen mPTCode 1 k; PutBits 4 (Count - 3) k
           else if Count =? 19 then
             k ← put_pt mPTLen mPTCode 0 k; k ← put_pt mPTLen mPTCode 1 k; PutBits 4 15 k
           else k ← put_pt mPTLen mPTCode 2 k; PutBits CBIT (Count - 20) k);
      Done (inl (Index, k))
    else k ← put_pt mPTLen mPTCode (Index3 + 2) k; Done (inl (Index, k))
  else Done (inr k).

Definition WriteCLen (mCLen mPTLen mPTCode : carr) (k : sink) : Res sink :=
  Number ← trim NC mCLen (Z.to_nat NC);
  k ← PutBits CBIT Number k;
  loop (S (Z.to_nat Number)) (wc_step mCLen mPTLen mPTCode Number) (0, k).

(** ** The symbols *)
Definition EncodeC (mCLen mCCode : carr) (Value : Z) (k : sink) : Res sink :=
  l ← aget NC mCLen Value; c ← aget NC mCCode Value; PutBits l c k.

(** [while (Pos) { Pos >>= 1; n++; }]; positions have 32 bits. *)
Definition bit_length (Pos : Z) : Res Z :=
  loop 33 (fun '(q, n) => if negb (q =? 0) then Done (inl (Z.shiftr q 1, n + 1)) else Done (inr n)) (Pos, 0).

Definition EncodeP (mPTLen mPTCode : carr) (Value : Z) (k : sink) : Res sink :=
  Index ← bit_length Value;
  k ← put_pt mPTLen mPTCode Index k;
  if 1 <? Index then PutBits (Index - 1) (Z.land Value (Z.shiftr 0xFFFFFFFF (32 - Index + 1))) k else Done k.

(** One round of the loop over the symbols; [Flags] and [Pos] are its locals. *)
Definition send_step (mBufSiz : Z) (mBuf mCLen mCCode mPTLen mPTCode : carr) (Index : Z) (s : Z * Z * sink)
    : Res (Z * Z * sink) :=
  let '(Flags, Pos, k) := s in
  '(Flags, Pos) ← (if Index mod UINT8_BIT =? 0 then v ← aget mBufSiz mBuf Pos; Done (v, Pos + 1)
                   else Done (u32 (Z.shiftl Flags 1), Pos));
  if negb (Z.land Flags (2 ^ (UINT8_BIT - 1)) =? 0) then
    v ← aget mBufSiz mBuf Pos;
    k ← EncodeC mCLen mCCode (v + 2 ^ UINT8_BIT) k;
    Index3 ← aget mBufSiz mBuf (Pos + 1);
    '(Index3, Pos) ← forZ 0 3 (fun _ '(Index3, Pos) =>
        v ← aget mBufSiz mBuf Pos; Done (u32 (u32 (Z.shiftl Index3 UINT8_BIT) + v), Pos + 1)) (Index3, Pos + 2);
    k ← EncodeP mPTLen mPTCode Index3 k;
    Done (Flags, Pos, k)
  else
    v ← aget mBufSiz mBuf Pos;
    k ← EncodeC mCLen mCCode v k;
    Done (Flags, Pos + 1, k).

(** [Start0] is what [MakeCode] finds in the entry of [Start] it does not set. *)
Definition SendBlock (Start0 mBufSiz : Z) (s : huf) : Res huf :=
  '(Root, c, tr) ← MakeTree Start0 NC NC (mC s) (mTrees s);
  Size ← aget (2 * NC - 1) (s_Freq c) Root;
  k ← PutBits 16 Size (mSink s);
  '(tfreq, ptlen, ptcode, tr, k) ←
    (if NC <=? Root then
       tfreq ← CountTFreq (s_Len c) (mTFreq s);
       '(Root, t, tr) ← MakeTree Start0 NT NPT (mkSym tfreq (mPTLen s) (mPTCode s)) tr;
       k ← (if NT <=? Root then WritePTLen (s_Len t) NT TBIT 3 k
            else k ← PutBits TBIT 0 k; PutBits TBIT Root k);
       k ← WriteCLen (s_Len c) (s_Len t) (s_Code t) k;
       Done (s_Freq t, s_Len t, s_Code t, tr, k)
     else
       k ← PutBits TBIT 0 k;
       k ← PutBits TBIT 0 k;
       k ← PutBits CBIT 0 k;
       k ← PutBits CBIT Root k;
       Done (mTFreq s, mPTLen s, mPTCode s, tr, k));
  '(Root, p, tr) ← MakeTree Start0 NP NPT (mkSym (mPFreq s) ptlen ptcode) tr;
  k ← (if NP <=? Root then WritePTLen (s_Len p) NP PBIT (-1) k
       else k ← PutBits PBIT 0 k; PutBits PBIT Root k);
  '(_, _, k) ← forZ 0 (Z.to_nat Size) (send_step mBufSiz (mBuf s) (s_Len c) (s_Code c) (s_Len p) (s_Code p)) (0, 0, k);
  Done (mkHuf (mkSym (afill 0 NC (fun _ => 0) (s_Freq c)) (s_Len c) (s_Code c)) tfreq
    (afill 0 NP (fun _ => 0) (s_Freq p)) (s_Len p) (s_Code p) tr k (mBuf s) (mOutputPos s) (mOutputMask s) (CPos s)).

(** The byte for the flags of the next eight symbols. *)
Definition new_group (Start0 mBufSiz : Z) (s : huf) : Res huf :=
  let mask := 2 ^ (UINT8_BIT - 1) in
  s ← (if u32 (mBufSiz - 5 * UINT8_BIT) <=? mOutputPos s
       then s ← SendBlock Start0 mBufSiz s; Done (set_out s (mBuf s) 0 mask (CPos s))
       else Done (set_out s (mBuf s) (mOutputPos s) mask (CPos s)));
  buf ← aset mBufSiz (mBuf s) (mOutputPos s) 0;
  Done (set_out s buf (mOutputPos s + 1) mask (mOutputPos s)).

Definition set_freqs (s : huf) (cfreq pfreq : carr) : huf :=
  mkHuf (mkSym cfreq (s_Len (mC s)) (s_Code (mC s))) (mTFreq s) pfreq (mPTLen s) (mPTCode s) (mTrees s) (mSink s)
    (mBuf s) (mOutputPos s) (mOutputMask s) (CPos s).

Definition Output (Start0 mBufSiz CharC Pos : Z) (s : huf) : Res huf :=
  let mask := Z.shiftr (mOutputMask s) 1 in
  s ← (if mask =? 0 then new_group Start0 mBufSiz s
       else Done (set_out s (mBuf s) (mOutputPos s) mask (CPos s)));
  buf ← aset mBufSiz (mBuf s) (mOutputPos s) (u8 CharC);
  let p := mOutputPos s + 1 in
  f ← aget (2 * NC - 1) (s_Freq (mC s)) CharC;
  cfreq ← aset (2 * NC - 1) (s_Freq (mC s)) CharC (u16 (f + 1));
  if 2 ^ UINT8_BIT <=? CharC then
    v ← aget mBufSiz buf (CPos s);
    buf ← aset mBufSiz buf (CPos s) (u8 (Z.lor v (mOutputMask s)));
    buf ← aset mBufSiz buf p (u8 (Z.shiftr Pos 24));
    buf ← aset mBufSiz buf (p + 1) (u8 (Z.shiftr Pos 16));
    buf ← aset mBufSiz buf (p + 2) (u8 (Z.shiftr Pos 8));
    buf ← aset mBufSiz buf (p + 3) (u8 Pos);
    n ← bit_length Pos;
    g ← aget (2 * NP - 1) (mPFreq s) n;
    pfreq ← aset (2 * NP - 1) (mPFreq s) n (u16 (g + 1));
    Done (set_freqs (set_out s buf (p + 4) (mOutputMask s) (CPos s)) cfreq pfreq)
  else Done (set_freqs (set_out s buf p (mOutputMask s) (CPos s)) cfreq (mPFreq s)).

Definition HufEncodeStart (s : huf) : huf :=
  mkHuf (mkSym (afill 0 NC (fun _ => 0) (s_Freq (mC s))) (s_Len (mC s)) (s_Code (mC s))) (mTFreq s)
    (afill 0 NP (fun _ => 0) (mPFreq s)) (mPTLen s) (mPTCode s) (mTrees s) (InitPutBits (mSink s)) (mBuf s) 0 0 (CPos s).

Definition HufEncodeEnd (Start0 mBufSiz : Z) (s : huf) : Res huf :=
  s ← SendBlock Start0 mBufSiz s;
  k ← PutBits (UINT8_BIT - 1) 0 (mSink s);
  Done (set_sink s k).

(** ** Tables and codes *)
Lemma trim_spec sz len n : Z.of_nat n <= sz -> trim sz len n = Done (Z.of_nat (trimmed len n)).
Proof.
  induction n as [|n IH]; intros Hn; cbn [trim trimmed]; [done|]. rewrite aget_in, bind_Done by lia.
  destruct (_ =? 0); [apply IH; lia|done].
Qed.

Lemma trimmed_spec len n : (trimmed len n <= n)%nat /\
  (forall i, Z.of_nat (trimmed len n) <= i < Z.of_nat n -> len i = 0) /\
  ((0 < trimmed len n)%nat -> len (Z.of_nat (trimmed len n) - 1) <> 0).
Proof.
  induction n as [|n (H1 & H2 & H3)]; cbn [trimmed]; [split; [lia|split; lia]|].
  destruct (Z.eqb_spec (len (Z.of_nat n)) 0) as [E|E].
  - split; [lia|split; [|done]]. intros i Hi. destruct (decide (i = Z.of_nat n)) as [->|]; [done|]. apply H2. lia.
  - split; [lia|split; [lia|]]. intros _. by replace (Z.of_nat (S n) - 1) with (Z.of_nat n) by lia.
Qed.

Lemma trimmed_ext a b n : (forall i, 0 <= i < Z.of_nat n -> a i = b i) -> trimmed a n = trimmed b n.
Proof. induction n as [|n IH]; intros H; cbn [trimmed]; [done|]. rewrite H, IH by lia || (intros; apply H; lia). done. Qed.

Lemma entries_ext a b n : forall lo, (forall i, lo <= i < lo + Z.of_nat n -> a i = b i) -> entries a lo n = entries b lo n.
Proof. induction n as [|n IH]; intros lo H; cbn [entries]; [done|]. f_equal; [apply H; lia|apply IH; intros; apply H; lia]. Qed.
Lemma entries_split a n m : forall lo, entries a lo (n + m) = entries a lo n ++ entries a (lo + Z.of_nat n) m.
Proof.
  induction n as [|n IH]; intros lo; cbn [entries Nat.add app]; [by rewrite Z.add_0_r|]. rewrite IH.
  do 3 f_equal. lia.
Qed.

Lemma bit_length_spec v : 0 <= v < 2 ^ 32 -> bit_length v = Done (pos_sym v).
Proof.
  intros Hv. assert (H : wp (bit_length v) (fun n => n = pos_sym v)); [|by apply wp_elim in H as (n & -> & ->)].
  assert (Hp : 0 <= pos_sym v <= 32).
  { unfold pos_sym. destruct (Z.eqb_spec v 0); [lia|]. pose proof (Z.log2_nonneg v).
    assert (Z.log2 v < 32) by (apply Z.log2_lt_pow2; lia). lia. }
  unfold bit_length. apply (wp_loop (fun '(q, n) => 0 <= n <= pos_sym v /\ q = v / 2 ^ n) (fun '(_, n) => Z.to_nat (pos_sym v - n))).
  - intros [q n] [Hn ->]. destruct (Z.eqb_spec (v / 2 ^ n) 0) as [E|E]; cbn [negb]; apply wp_Done.
    + apply Z.div_small_iff in E; [|lia]. destruct E as [E|]; [|lia].
      destruct (decide (n = pos_sym v)) as [|Hne]; [done|]. exfalso. unfold pos_sym in *.
      destruct (Z.eqb_spec v 0); [lia|]. assert (Z.log2 v < n) by (apply Z.log2_lt_pow2; lia). lia.
    + assert (n < pos_sym v).
      { unfold pos_sym in *. destruct (Z.eqb_spec v 0) as [->|]; [by rewrite Z.div_0_l in E by lia|].
        destruct (Z.lt_ge_cases n (Z.log2 v + 1)); [done|]. exfalso. apply E, Z.div_small. split; [lia|].
        apply Z.log2_lt_pow2; lia. }
      split; [|lia]. split; [lia|]. rewrite Z.shiftr_div_pow2, Z.div_div, <- Z.pow_add_r by lia. done.
  - split; [lia|]. by rewrite Z.div_1_r.
  - lia.
Qed.

(** The tables of a set hold a code. *)
Definition holds (N : Z) (c : code) (len cd : Z -> Z) : Prop :=
  match c with
  | One r => (forall s, 0 <= s < N -> len s = 0) /\ cd r = 0
  | Code l => (forall s, 0 <= s < N -> len s = l s) /\ forall s, 0 <= s < N -> l s <> 0 -> cd s = canon N l s
  end.

Lemma coded_holds N freq Root len cd : 0 < N -> coded N freq Root len cd ->
  exists c, code_ok N c /\ holds N c len cd /\ (forall s, 0 <= s < N -> freq s <> 0 -> coded_in N c s) /\
    ((Root < N /\ c = One Root) \/ (N <= Root /\ c = Code len)).
Proof.
  intros HN [(HR & Hs & Hl & Hc)|(HR & Hc & Hs & Hcd)].
  - exists (One Root). split; [done|]. split; [done|]. split; [done|]. left. split; [lia|done].
  - exists (Code len). split; [done|]. split; [done|]. split; [|by right]. intros s Hs' Hf. split; [done|]. by apply Hs.
Qed.

Section writing.
Context (L : Z) (h : list Z).

Lemma put l k N v : wrote L h l k -> 0 <= N <= 32 -> 0 <= v < 2 ^ N ->
  wp (PutBits N v k) (wrote L h (l ++ bits (Z.to_nat N) v)).
Proof using. apply PutBits_spec. Qed.

Lemma put_code N c len cd l k s : code_ok N c -> holds N c len cd -> coded_in N c s -> wrote L h l k ->
  0 <= s < N /\ wp (PutBits (len s) (cd s) k) (wrote L h (l ++ code_bits N c s)).
Proof using.
  intros Hok Hh Hs Hw. destruct c as [r|f]; cbn [code_ok holds coded_in code_bits] in *.
  - subst s. destruct Hh as [Hl Hc]. split; [done|]. rewrite Hl, Hc by done. apply (put _ _ 0 0 Hw); lia.
  - destruct Hs as [Hs Hne], Hh as [Hl Hc]. split; [done|]. rewrite Hl, Hc by done.
    destruct Hok as [Hr Hk]. pose proof (Hr s Hs). apply put; [done|lia|]. by apply canon_bound.
Qed.
End writing.

(** ** Runs of lengths *)
Fixpoint zrun (l : list Z) : nat :=
  match l with x :: l => if x =? 0 then S (zrun l) else O | [] => O end.

(** How a run of [n] zeros is written. *)
Definition zeros (n : Z) : list run :=
  if n <=? 2 then replicate (Z.to_nat n) RZero
  else if n <=? 18 then [RShort n] else if n =? 19 then [RZero; RShort 18] else [RLong n].

Inductive rle : list Z -> list run -> Prop :=
| rle_nil : rle [] []
| rle_len l ls rs : l <> 0 -> rle ls rs -> rle (l :: ls) (RLen l :: rs)
| rle_zeros ls rs : rle (drop (zrun ls) ls) rs -> rle (0 :: ls) (zeros (1 + Z.of_nat (zrun ls)) ++ rs).

Lemma rle_total l : exists rs, rle l rs.
Proof.
  remember (length l) as n eqn:E. assert (Hn : (length l <= n)%nat) by lia. clear E. revert l Hn.
  induction n as [|n IH]; intros l Hn.
  - destruct l; [|cbn in Hn; lia]. exists []. constructor.
  - destruct l as [|x l]; [exists []; constructor|]. cbn in Hn. destruct (decide (x = 0)) as [->|].
    + destruct (IH (drop (zrun l) l)) as [rs H]; [rewrite length_drop; lia|]. eexists. by constructor.
    + destruct (IH l) as [rs H]; [lia|]. eexists. by constructor.
Qed.

Lemma zrun_zeros l : take (zrun l) l = replicate (zrun l) 0.
Proof. induction l as [|x l IH]; cbn [zrun]; [done|]. destruct (Z.eqb_spec x 0) as [->|]; cbn; [by rewrite IH|done]. Qed.
Lemma zrun_le l : (zrun l <= length l)%nat.
Proof. induction l as [|x l IH]; cbn; [done|]. destruct (_ =? 0); lia. Qed.

Lemma zeros_spec n : 1 <= n < 2 ^ 9 ->
  Forall run_ok (zeros n) /\ concat (map run_lens (zeros n)) = replicate (Z.to_nat n) 0.
Proof.
  intros Hn. unfold zeros. destruct (Z.leb_spec n 2); [|destruct (Z.leb_spec n 18); [|destruct (Z.eqb_spec n 19)]].
  - split; [by apply Forall_replicate|]. induction (Z.to_nat n) as [|m IH]; cbn; [done|]. by rewrite IH.
  - split; [constructor; [cbn; lia|done]|]. cbn. by rewrite app_nil_r.
  - subst n. split; [repeat constructor; cbn; lia|done].
  - split; [constructor; [cbn [run_ok]; unfold CBIT; lia|done]|]. cbn. by rewrite app_nil_r.
Qed.

Lemma rle_spec l rs : rle l rs -> zlen l < 2 ^ 9 -> Forall (fun x => 0 <= x <= 16) l ->
  Forall run_ok rs /\ concat (map run_lens rs) = l.
Proof.
  induction 1 as [|x ls rs Hx H IH|ls rs H IH]; intros Hn Hl.
  - split; [done|done].
  - apply Forall_cons in Hl as [Hx2 Hl]. destruct (IH ltac:(zl) Hl) as [H1 H2]. split; [constructor; [cbn; lia|done]|].
    cbn. by rewrite H2.
  - apply Forall_cons in Hl as [_ Hl]. pose proof (zrun_le ls). destruct IH as [H1 H2]; [zl|by apply Forall_drop|].
    destruct (zeros_spec (1 + Z.of_nat (zrun ls))) as [H3 H4]; [unfold zlen in Hn; cbn in Hn; lia|].
    split; [by apply Forall_app|]. rewrite map_app, concat_app, H2, H4.
    replace (Z.to_nat (1 + Z.of_nat (zrun ls))) with (S (zrun ls)) by lia. cbn [replicate app]. f_equal.
    rewrite <- zrun_zeros. apply take_drop.
Qed.

(** What the two loops over the lengths see of a run of zeros. *)
Lemma zero_run_spec len Number Index Count : 0 <= Index <= Number -> Number <= NC ->
  zero_run len Number Index Count =
  Done (Index + Z.of_nat (zrun (entries len Index (Z.to_nat (Number - Index)))),
        Count + Z.of_nat (zrun (entries len Index (Z.to_nat (Number - Index))))).
Proof.
  intros Hi HN. set (z := Z.of_nat (zrun (entries len Index (Z.to_nat (Number - Index))))).
  assert (H : wp (zero_run len Number Index Count) (fun r => r = (Index + z, Count + z))); [|by apply wp_elim in H as (r & -> & ->)].
  unfold zero_run. apply (wp_loop (fun '(i, c) => Index <= i <= Number /\ c - Count = i - Index /\
      z = i - Index + Z.of_nat (zrun (entries len i (Z.to_nat (Number - i))))) (fun '(i, _) => Z.to_nat (Number - i))).
  - intros [i c] (Hii & Hc & Hz). destruct (Z.ltb_spec i Number) as [Hlt|Hge].
    + wps. replace (Z.to_nat (Number - i)) with (S (Z.to_nat (Number - (i + 1)))) in Hz by lia.
      cbn [entries zrun] in Hz. destruct (Z.eqb_spec (len i) 0); apply wp_Done.
      * split; [|lia]. lia.
      * f_equal; lia.
    + apply wp_Done. replace (Z.to_nat (Number - i)) with O in Hz by lia. cbn [entries zrun] in Hz. f_equal; lia.
  - unfold z. lia.
  - lia.
Qed.

Lemma entries_run len Index Number : 0 <= Index < Number ->
  entries len Index (Z.to_nat (Number - Index)) = len Index :: entries len (Index + 1) (Z.to_nat (Number - (Index + 1))).
Proof. intros H. by replace (Z.to_nat (Number - Index)) with (S (Z.to_nat (Number - (Index + 1)))) by lia. Qed.

Lemma entries_drop len k n : forall lo, (k <= n)%nat -> drop k (entries len lo n) = entries len (lo + Z.of_nat k) (n - k).
Proof.
  intros lo Hk. replace n with (k + (n - k))%nat at 1 by lia. rewrite entries_split, drop_app_ge by (rewrite length_entries; lia).
  rewrite length_entries, Nat.sub_diag. done.
Qed.

(** The next run from [Index] on, and where the one after it begins. *)
Lemma rle_next len Index Number rs : 0 <= Index < Number -> rle (entries len Index (Z.to_nat (Number - Index))) rs ->
  if len Index =? 0 then
    let z := Z.of_nat (zrun (entries len (Index + 1) (Z.to_nat (Number - (Index + 1))))) in
    Index + 1 + z <= Number /\
    exists rest, rs = zeros (1 + z) ++ rest /\ rle (entries len (Index + 1 + z) (Z.to_nat (Number - (Index + 1 + z)))) rest
  else exists rest, rs = RLen (len Index) :: rest /\ rle (entries len (Index + 1) (Z.to_nat (Number - (Index + 1)))) rest.
Proof.
  intros Hi H. rewrite entries_run in H by done. inversion H as [|x ls r Hx Hr E1 E2|ls r Hr E1 E2]; subst.
  - rewrite (proj2 (Z.eqb_neq _ _) Hx). eauto.
  - rewrite Z.eqb_refl. cbv zeta. set (es := entries len (Index + 1) _) in *.
    pose proof (zrun_le es) as Hz. unfold es in Hz at 2. rewrite length_entries in Hz. split; [lia|].
    eexists. split; [done|]. unfold es in Hr at 2. rewrite entries_drop in Hr by done.
    replace (Z.to_nat (Number - (Index + 1 + Z.of_nat (zrun es)))) with (Z.to_nat (Number - (Index + 1)) - zrun es)%nat by lia. done.
Qed.

(** How many of the runs are written with the symbol [i]. *)
Fixpoint rcount (i : Z) (rs : list run) : Z :=
  match rs with [] => 0 | r :: rs => isv i (run_sym r) + rcount i rs end.

Lemma rcount_app i rs ts : rcount i (rs ++ ts) = rcount i rs + rcount i ts.
Proof. induction rs as [|r rs IH]; cbn [rcount app]; [done|]. rewrite IH. lia. Qed.
Lemma rcount_nonneg i rs : 0 <= rcount i rs.
Proof. induction rs as [|r rs IH]; cbn [rcount]; [done|]. pose proof (isv_01 i (run_sym r)). lia. Qed.
Lemma rcount_in i rs r : r ∈ rs -> run_sym r = i -> 0 < rcount i rs.
Proof.
  intros H <-. induction H as [r rs|r r' rs H IH]; cbn [rcount].
  - rewrite isv_eq. pose proof (rcount_nonneg (run_sym r) rs). lia.
  - pose proof (isv_01 (run_sym r) (run_sym r')). lia.
Qed.
Lemma rcount_zeros i n : 1 <= n -> 0 <= rcount i (zeros n) <= n.
Proof.
  intros Hn. split; [apply rcount_nonneg|]. unfold zeros.
  destruct (n <=? 2); [|destruct (n <=? 18); [|destruct (Z.eqb_spec n 19)]]; cbn [rcount run_sym].
  - assert (H : forall m, rcount i (replicate m RZero) <= Z.of_nat m).
    { induction m as [|m IH]; cbn [replicate rcount]; [done|]. pose proof (isv_01 i (run_sym RZero)). lia. }
    specialize (H (Z.to_nat n)). lia.
  - pose proof (isv_01 i 1). lia.
  - pose proof (isv_01 i 0). pose proof (isv_01 i 1). lia.
  - pose proof (isv_01 i 2). lia.
Qed.

Lemma tfreq_add_spec i v f : 0 <= i < NT -> 0 <= f i + v < 2 ^ 16 -> tfreq_add i v f = Done (upd f i (f i + v)).
Proof.
  intros Hi Hv. assert (HT : NT = 19) by done. unfold tfreq_add.
  rewrite aget_in, bind_Done, aset_in, u16_small by (unfold is_u16; lia). done.
Qed.

Definition counts (f : Z -> Z) (rs : list run) : Prop := forall i, 0 <= i < NT -> f i = rcount i rs.

Lemma counts_one f rs r : counts f rs -> 0 <= run_sym r < NT -> counts (upd f (run_sym r) (f (run_sym r) + 1)) (rs ++ [r]).
Proof.
  intros Hc Hr i Hi. rewrite rcount_app. cbn [rcount]. destruct (decide (i = run_sym r)) as [->|].
  - rewrite upd_eq, isv_eq, Hc by done. lia.
  - rewrite upd_ne, isv_ne, Hc by done. lia.
Qed.

Lemma count_zeros f rs n : counts f rs -> 1 <= n -> (forall i, 0 <= i < NT -> rcount i rs + n < 2 ^ 16) ->
  wp (if n <=? 2 then tfreq_add 0 n f
      else if n <=? 18 then tfreq_add 1 1 f
      else if n =? 19 then f ← tfreq_add 0 1 f; tfreq_add 1 1 f
      else tfreq_add 2 1 f) (fun f' => counts f' (rs ++ zeros n)).
Proof.
  intros Hc Hn Hb. assert (HT : NT = 19) by done. unfold zeros.
  assert (Hf : forall i, 0 <= i < 3 -> 0 <= f i /\ f i + n < 2 ^ 16).
  { intros i Hi. rewrite Hc by lia. pose proof (Hb i ltac:(lia)). pose proof (rcount_nonneg i rs). lia. }
  pose proof (Hf 0 ltac:(lia)). pose proof (Hf 1 ltac:(lia)). pose proof (Hf 2 ltac:(lia)).
  destruct (Z.leb_spec n 2); [|destruct (Z.leb_spec n 18); [|destruct (Z.eqb_spec n 19)]].
  - rewrite tfreq_add_spec by lia. apply wp_Done. replace n with (Z.of_nat (Z.to_nat n)) at 1 by lia.
    clear - Hc. induction (Z.to_nat n) as [|m IH]; cbn [replicate].
    + intros i Hi. rewrite app_nil_r. destruct (decide (i = 0)) as [->|]; upd_at; [|by apply Hc]. rewrite <- Hc by done. lia.
    + intros i Hi. specialize (IH i Hi). rewrite rcount_app in IH |- *. cbn [rcount run_sym].
      destruct (decide (i = 0)) as [->|]; [rewrite upd_eq in IH |- *; rewrite isv_eq; lia|].
      rewrite upd_ne in IH |- * by done. rewrite isv_ne by lia. lia.
  - rewrite tfreq_add_spec by lia. apply wp_Done. by apply (counts_one f rs (RShort n)).
  - rewrite tfreq_add_spec, bind_Done by lia. pose proof (counts_one f rs RZero Hc ltac:(done)) as HA. cbn [run_sym] in HA.
    rewrite tfreq_add_spec by (upd_at; lia). apply wp_Done. pose proof (counts_one _ _ (RShort 18) HA ltac:(done)) as HB.
    by rewrite <- app_assoc in HB.
  - rewrite tfreq_add_spec by lia. apply wp_Done. by apply (counts_one f rs (RLong n)).
Qed.

Lemma CountTFreq_spec len tf rs : (forall s, 0 <= s < NC -> 0 <= len s <= 16) ->
  rle (entries len 0 (trimmed len (Z.to_nat NC))) rs ->
  wp (CountTFreq len tf) (fun f => counts f rs /\ forall i, 0 <= i < NT -> rcount i rs <= NC).
Proof.
  intros Hr Hrle. unfold CountTFreq. assert (HC : NC = 510) by done. assert (HT : NT = 19) by done.
  rewrite trim_spec, bind_Done by lia. pose proof (trimmed_spec len (Z.to_nat NC)) as (HN & _ & _).
  set (Number := Z.of_nat (trimmed len (Z.to_nat NC))) in *.
  replace (trimmed len (Z.to_nat NC)) with (Z.to_nat (Number - 0)) in Hrle by lia.
  apply (wp_loop (fun '(Index, f) => 0 <= Index <= Number /\ exists d r, rs = d ++ r /\
      rle (entries len Index (Z.to_nat (Number - Index))) r /\ counts f d /\ forall i, 0 <= i < NT -> rcount i d <= Index)
    (fun '(Index, _) => Z.to_nat (Number - Index))).
  - intros [Index f] (Hi & d & r & -> & Hrl & Hc & Hle). unfold count_step.
    destruct (Z.ltb_spec Index Number) as [Hlt|Hge].
    + wps. pose proof (Hr Index ltac:(lia)) as HrI. apply rle_next in Hrl; [|lia]. destruct (Z.eqb_spec (len Index) 0) as [E|E].
      * destruct Hrl as (Hz & rest & -> & Hrl). rewrite zero_run_spec, bind_Done by lia. cbn beta iota.
        set (z := Z.of_nat (zrun (entries len (Index + 1) (Z.to_nat (Number - (Index + 1)))))) in *.
        apply wp_bind. eapply wp_mono; [apply (count_zeros f d (1 + z) Hc); [lia|]|].
        { intros i Hi'. pose proof (Hle i Hi'). lia. }
        cbn beta. intros f' Hf'. apply wp_Done. split; [|lia]. split; [lia|].
        exists (d ++ zeros (1 + z)), rest. split; [by rewrite <- app_assoc|]. split; [done|]. split; [done|].
        intros i Hi'. rewrite rcount_app. pose proof (rcount_zeros i (1 + z) ltac:(lia)). pose proof (Hle i Hi'). lia.
      * destruct Hrl as (rest & -> & Hrl). pose proof (Hc (len Index + 2) ltac:(lia)) as Ef.
        pose proof (Hle (len Index + 2) ltac:(lia)). pose proof (rcount_nonneg (len Index + 2) d).
        rewrite tfreq_add_spec, bind_Done by lia. apply wp_Done. split; [|lia]. split; [lia|].
        exists (d ++ [RLen (len Index)]), rest. split; [by rewrite <- app_assoc|]. split; [done|].
        split; [apply (counts_one f d (RLen (len Index)) Hc); cbn [run_sym]; lia|].
        intros i Hi'. rewrite rcount_app. cbn [rcount]. pose proof (isv_01 i (run_sym (RLen (len Index)))). pose proof (Hle i Hi'). lia.
    + apply wp_Done. replace (Z.to_nat (Number - Index)) with O in Hrl by lia. inversion Hrl; subst.
      rewrite app_nil_r. split; [done|]. intros i Hi'. pose proof (Hle i Hi'). lia.
  - split; [lia|]. exists [], rs. split; [done|]. split; [done|]. split; [|intros; cbn; lia].
    intros i Hi. by rewrite afill_in.
  - lia.
Qed.

Section headers.
Context (L : Z) (h : list Z).

Lemma put_pt_spec N c len cd l k s : N <= NPT -> code_ok N c -> holds N c len cd -> coded_in N c s -> wrote L h l k ->
  wp (put_pt len cd s k) (wrote L h (l ++ code_bits N c s)).
Proof using.
  intros HN Hok Hh Hs Hw. destruct (put_code L h N c len cd l k s Hok Hh Hs Hw) as [Hr H].
  unfold put_pt. wps. exact H.
Qed.

(** A run goes to the output. *)
Lemma put_zeros t len cd n l k : code_ok NT t -> holds NT t len cd -> 1 <= n < 2 ^ 9 ->
  Forall (fun r => coded_in NT t (run_sym r)) (zeros n) -> wrote L h l k ->
  wp (if n <=? 2 then forZ 0 (Z.to_nat n) (fun _ k => put_pt len cd 0 k) k
      else if n <=? 18 then k ← put_pt len cd 1 k; PutBits 4 (n - 3) k
      else if n =? 19 then k ← put_pt len cd 0 k; k ← put_pt len cd 1 k; PutBits 4 15 k
      else k ← put_pt len cd 2 k; PutBits CBIT (n - 20) k)
    (wrote L h (l ++ concat (map (run_bits t) (zeros n)))).
Proof using.
  intros Hok Hh Hn Hz Hw. assert (HT : NT <= NPT) by done. unfold zeros in *.
  assert (Hput : forall s l k, coded_in NT t s -> wrote L h l k -> wp (put_pt len cd s k) (wrote L h (l ++ code_bits NT t s))).
  { intros s l' k' Hs Hw'. by apply (put_pt_spec NT). }
  destruct (Z.leb_spec n 2); [|destruct (Z.leb_spec n 18); [|destruct (Z.eqb_spec n 19)]].
  - apply (wp_forZ (fun i => wrote L h (l ++ concat (map (run_bits t) (replicate (Z.to_nat i) RZero))))).
    + cbn. by rewrite app_nil_r.
    + intros i k' Hi Hw'. replace (Z.to_nat n) with (S (Nat.pred (Z.to_nat n))) in Hz by lia.
      apply Forall_cons in Hz as [HA _]. cbn [run_sym] in HA. eapply wp_mono; [by apply Hput|]. cbn beta. intros k2 Hk2.
      replace (Z.to_nat (i + 1)) with (Z.to_nat i + 1)%nat by lia. rewrite replicate_add, map_app, concat_app.
      cbn [replicate map concat]. unfold run_bits at 2. cbn [run_sym]. by rewrite !app_nil_r, app_assoc.
    + intros k'. by rewrite Z.add_0_l, Z2Nat.id by lia.
  - apply Forall_cons in Hz as [Hz _]. cbn [run_sym] in Hz. apply wp_bind. eapply wp_mono; [by apply Hput|]. cbn beta. intros k1 Hk1.
    eapply wp_mono; [apply (put L h _ _ 4 (n - 3) Hk1); lia|]. cbn beta. intros k2 Hk2.
    cbn [map concat]. unfold run_bits. cbn [run_sym]. by rewrite app_nil_r, app_assoc.
  - apply Forall_cons in Hz as [HA [HB _]%Forall_cons]. cbn [run_sym] in *. apply wp_bind. eapply wp_mono; [by apply Hput|].
    cbn beta. intros k1 Hk1. apply wp_bind. eapply wp_mono; [by apply Hput|]. cbn beta. intros k2 Hk2.
    eapply wp_mono; [apply (put L h _ _ 4 15 Hk2); lia|]. cbn beta. intros k3 Hk3.
    cbn [map concat]. unfold run_bits. cbn [run_sym]. rewrite !app_nil_r. rewrite <- !app_assoc in Hk3. exact Hk3.
  - apply Forall_cons in Hz as [Hz _]. cbn [run_sym] in Hz. apply wp_bind. eapply wp_mono; [by apply Hput|]. cbn beta. intros k1 Hk1.
    eapply wp_mono; [apply (put L h _ _ 9 (n - 20) Hk1); lia|]. cbn beta. intros k2 Hk2.
    cbn [map concat]. unfold run_bits. cbn [run_sym]. by rewrite app_nil_r, app_assoc.
Qed.

Lemma WriteCLen_spec c t clen tlen tcode rs l k :
  (forall s, 0 <= s < NC -> 0 <= clen s <= 16) -> code_ok NT t -> holds NT t tlen tcode ->
  rle (entries clen 0 (trimmed clen (Z.to_nat NC))) rs -> Forall (fun r => coded_in NT t (run_sym r)) rs ->
  c = Code clen -> wrote L h l k ->
  wp (WriteCLen clen tlen tcode k) (wrote L h (l ++ char_header t c rs)).
Proof using.
  intros Hr Hok Hh Hrle Hcod -> Hw. unfold WriteCLen. assert (HC : NC = 510) by done.
  rewrite trim_spec, bind_Done by lia. pose proof (trimmed_spec clen (Z.to_nat NC)) as (HN & _ & _).
  unfold char_header. set (Number := Z.of_nat (trimmed clen (Z.to_nat NC))) in *.
  replace (trimmed clen (Z.to_nat NC)) with (Z.to_nat (Number - 0)) in Hrle by lia.
  apply wp_bind. eapply wp_mono; [apply (put L h _ _ 9 Number Hw); lia|]. cbn beta. intros k0 Hk0.
  change (Z.to_nat 9) with 9%nat in Hk0.
  apply (wp_loop (fun '(Index, k) => 0 <= Index <= Number /\ exists d r, rs = d ++ r /\
      rle (entries clen Index (Z.to_nat (Number - Index))) r /\ wrote L h ((l ++ bits 9 Number) ++ concat (map (run_bits t) d)) k)
    (fun '(Index, _) => Z.to_nat (Number - Index))).
  - intros [Index k1] (Hi & d & r & -> & Hrl & Hk1). unfold wc_step. apply Forall_app in Hcod as [_ Hcod].
    destruct (Z.ltb_spec Index Number) as [Hlt|Hge].
    + wps. apply rle_next in Hrl; [|lia]. destruct (Z.eqb_spec (clen Index) 0) as [E|E].
      * destruct Hrl as (Hz & rest & -> & Hrl). rewrite zero_run_spec, bind_Done by lia. cbn beta iota.
        set (z := Z.of_nat (zrun (entries clen (Index + 1) (Z.to_nat (Number - (Index + 1)))))) in *.
        apply Forall_app in Hcod as [Hcz _].
        apply wp_bind. eapply wp_mono; [eapply (put_zeros t tlen tcode (1 + z)); [exact Hok|exact Hh|lia|done|exact Hk1]|].
        cbn beta. intros k2 Hk2. apply wp_Done. split; [|lia]. split; [lia|].
        exists (d ++ zeros (1 + z)), rest. split; [by rewrite <- app_assoc|]. split; [done|].
        by rewrite map_app, concat_app, app_assoc.
      * destruct Hrl as (rest & -> & Hrl). apply Forall_cons in Hcod as [Hc0 _]. cbn [run_sym] in Hc0.
        apply wp_bind. eapply wp_mono; [by apply (put_pt_spec NT t)|]. cbn beta. intros k2 Hk2. apply wp_Done.
        split; [|lia]. split; [lia|]. exists (d ++ [RLen (clen Index)]), rest. split; [by rewrite <- app_assoc|]. split; [done|].
        rewrite map_app, concat_app. cbn [map concat]. unfold run_bits at 2. cbn [run_sym]. by rewrite !app_nil_r, app_assoc.
    + apply wp_Done. replace (Z.to_nat (Number - Index)) with O in Hrl by lia. inversion Hrl; subst.
      by rewrite app_nil_r, app_assoc.
  - split; [lia|]. exists [], rs. split; [done|]. split; [done|]. cbn [map concat]. by rewrite app_nil_r.
  - lia.
Qed.

Lemma put_length v l k : 0 <= v <= 16 -> wrote L h l k ->
  wp (if v <=? 6 then PutBits 3 v k else PutBits (v - 3) (u32 (Z.shiftl 1 (v - 3) - 2)) k) (wrote L h (l ++ length_bits v)).
Proof using.
  intros Hv Hw. unfold length_bits. destruct (Z.leb_spec v 6).
  - by apply (put L h _ _ 3 v Hw); lia.
  - rewrite Z.shiftl_mul_pow2, Z.mul_1_l by lia.
    pose proof (Z.pow_le_mono_r 2 1 (v - 3) ltac:(lia) ltac:(lia)). pose proof (Z.pow_le_mono_r 2 (v - 3) 13 ltac:(lia) ltac:(lia)).
    rewrite u32_small by (unfold is_u32; lia). apply (put L h _ _ (v - 3) _ Hw); lia.
Qed.

Lemma zeros_at_3_spec len :
  0 <= zeros_at_3 len <= 3 /\ (forall i, 3 <= i < 3 + zeros_at_3 len -> len i = 0) /\
  (zeros_at_3 len < 3 -> len (3 + zeros_at_3 len) <> 0).
Proof using.
  unfold zeros_at_3. destruct (Z.eqb_spec (len 3) 0) as [E3|E3]; cbn [negb]; [|split; [lia|split; [lia|done]]].
  destruct (Z.eqb_spec (len 4) 0) as [E4|E4]; cbn [negb]; [|split; [lia|split; [|done]]].
  - destruct (Z.eqb_spec (len 5) 0) as [E5|E5]; cbn [negb].
    + split; [lia|split; [|lia]]. intros i Hi. assert (i = 3 \/ i = 4 \/ i = 5) as [-> |[-> | ->]] by lia; done.
    + split; [lia|split; [|done]]. intros i Hi. assert (i = 3 \/ i = 4) as [-> | ->] by lia; done.
  - intros i Hi. by assert (i = 3) as -> by lia.
Qed.

(** What is written when the loop stands at [Index]. *)
Definition pt_written (special : bool) (len : Z -> Z) (Index : Z) : list bool :=
  if special && (3 <=? Index) then
    concat (map length_bits (entries len 0 3)) ++ bits 2 (zeros_at_3 len) ++
    concat (map length_bits (entries len (3 + zeros_at_3 len) (Z.to_nat (Index - 3 - zeros_at_3 len))))
  else concat (map length_bits (entries len 0 (Z.to_nat Index))).

Lemma entries_snoc len lo i : lo <= i ->
  concat (map length_bits (entries len lo (Z.to_nat (i + 1 - lo)))) =
  concat (map length_bits (entries len lo (Z.to_nat (i - lo)))) ++ length_bits (len i).
Proof using.
  intros Hi. replace (Z.to_nat (i + 1 - lo)) with (Z.to_nat (i - lo) + 1)%nat by lia.
  rewrite entries_split, map_app, concat_app. cbn [entries map concat]. rewrite app_nil_r. do 3 f_equal. lia.
Qed.

Lemma special_run len : wp (loop 7 (fun Index =>
    if Index <? 6 then
      v ← aget NPT len Index;
      if v =? 0 then Done (inl (Index + 1)) else Done (inr Index)
    else Done (inr Index)) 3) (fun i => i = 3 + zeros_at_3 len).
Proof using.
  assert (HP : NPT = 31) by done. pose proof (zeros_at_3_spec len) as (Hz & Hz1 & Hz2).
  apply (wp_loop (fun i => 3 <= i <= 3 + zeros_at_3 len) (fun i => Z.to_nat (6 - i))); [|lia|lia].
  intros i Hi. destruct (Z.ltb_spec i 6).
  - wps. destruct (Z.eqb_spec (len i) 0) as [E|E]; apply wp_Done.
    + assert (i <> 3 + zeros_at_3 len); [|lia]. intros ->. apply Hz2; [lia|done].
    + destruct (decide (i = 3 + zeros_at_3 len)); [done|]. exfalso. apply E, Hz1. lia.
  - apply wp_Done. lia.
Qed.

Lemma WritePTLen_spec (special : bool) N len l k : 6 <= N <= NPT ->
  (forall s, 0 <= s < N -> 0 <= len s <= 16) -> wrote L h l k ->
  wp (WritePTLen len N 5 (if special then 3 else -1) k) (wrote L h (l ++ set_header special N 5 (Code len))).
Proof using.
  intros HN Hr Hw. assert (HP : NPT = 31) by done. unfold WritePTLen. rewrite trim_spec, bind_Done by lia.
  pose proof (trimmed_spec len (Z.to_nat N)) as (Hn & _ & _). cbn [set_header]. cbv zeta.
  set (n := Z.of_nat (trimmed len (Z.to_nat N))) in *.
  apply wp_bind. eapply wp_mono; [apply (put L h _ _ 5 n Hw); lia|]. cbn beta. intros k0 Hk0.
  change (Z.to_nat 5) with 5%nat in Hk0. pose proof (zeros_at_3_spec len) as (Hz & _).
  apply (wp_loop (fun '(i, k) => wrote L h ((l ++ bits 5 n) ++ pt_written special len i) k /\ 0 <= i /\
      if special && (3 <=? i) then 3 <= n /\ 3 + zeros_at_3 len <= i <= Z.max n (3 + zeros_at_3 len) else i <= n)
    (fun '(i, _) => Z.to_nat (n - i))).
  - intros [i k1] (Hk1 & Hi0 & Hi). unfold wpt_step. destruct (Z.ltb_spec i n) as [Hlt|Hge].
    + wps. apply wp_bind || idtac. eapply wp_mono; [apply (put_length (len i) _ k1 (Hr i ltac:(lia)) Hk1)|]. cbn beta. intros k2 Hk2.
      assert (Hnext : i + 1 <> 3 \/ special = false ->
        wrote L h ((l ++ bits 5 n) ++ pt_written special len (i + 1)) k2).
      { intros Hne. rewrite <- app_assoc in Hk2. unfold pt_written in Hk2 |- *. destruct (special && (3 <=? i)) eqn:Es.
        - apply andb_true_iff in Es as [-> Es%Z.leb_le]. rewrite (proj2 (Z.leb_le 3 (i + 1))) by lia. cbn [andb] in *. rewrite <- !app_assoc in Hk2.
          replace (i + 1 - 3 - zeros_at_3 len) with (i + 1 - (3 + zeros_at_3 len)) by lia. rewrite entries_snoc by lia.
          rewrite <- !app_assoc. replace (i - (3 + zeros_at_3 len)) with (i - 3 - zeros_at_3 len) by lia. exact Hk2.
        - replace (special && (3 <=? i + 1)) with false.
          2: { destruct special; [|done]. cbn [andb] in *. apply Z.leb_gt in Es. symmetry. apply Z.leb_gt. destruct Hne; [lia|done]. }
          pose proof (entries_snoc len 0 i Hi0) as E. rewrite !Z.sub_0_r in E. rewrite E. exact Hk2. }
      destruct (Z.eqb_spec (i + 1) (if special then 3 else -1)) as [E3|E3].
      * destruct special; [|lia]. rewrite E3. apply wp_bind. eapply wp_mono; [apply special_run|]. cbn beta. intros j ->.
        apply wp_bind. replace (Z.land (3 + zeros_at_3 len - 3) 3) with (zeros_at_3 len).
        2: { rewrite (Z.land_ones _ 2) by lia. rewrite Z.mod_small; lia. }
        eapply wp_mono; [apply (put L h _ _ 2 (zeros_at_3 len) Hk2); lia|]. cbn beta. intros k3 Hk3. apply wp_Done.
        split; [|lia]. split; [|split; [lia|cbn [andb]; rewrite (proj2 (Z.leb_le 3 (3 + zeros_at_3 len))) by lia; lia]].
        unfold pt_written in Hk3 |- *. cbn [andb] in *. rewrite (proj2 (Z.leb_gt 3 i)) in Hk3 by lia.
        rewrite (proj2 (Z.leb_le 3 (3 + zeros_at_3 len))) by lia.
        replace (3 + zeros_at_3 len - 3 - zeros_at_3 len) with 0 by lia.
        change (entries len (3 + zeros_at_3 len) (Z.to_nat 0)) with (@nil Z). cbn [map concat].
        rewrite app_nil_r. rewrite <- !app_assoc in Hk3. pose proof (entries_snoc len 0 2 ltac:(lia)) as E.
        change (Z.to_nat (2 + 1 - 0)) with 3%nat in E. rewrite E. replace i with 2 in Hk3 by lia.
        rewrite <- !app_assoc. exact Hk3.
      * apply wp_Done. split; [|lia]. split; [apply Hnext; destruct special; [left; lia|by right]|]. split; [lia|].
        destruct special; cbn [andb] in *; [|lia]. destruct (Z.leb_spec 3 i), (Z.leb_spec 3 (i + 1)); lia.
    + apply wp_Done. rewrite app_assoc. unfold lengths_bits. unfold pt_written in Hk1.
      destruct special; cbn [andb] in *.
      * destruct (Z.leb_spec 3 i), (Z.leb_spec 3 n); try lia.
        -- replace (Z.to_nat (n - 3 - zeros_at_3 len)) with (Z.to_nat (i - 3 - zeros_at_3 len)) by lia. exact Hk1.
        -- replace i with n in Hk1 by lia. exact Hk1.
      * replace (Z.to_nat n) with (Z.to_nat i) by lia. exact Hk1.
  - unfold pt_written. replace (special && (3 <=? 0)) with false by (by destruct special). change (Z.to_nat 0) with O.
    cbn [entries map concat]. rewrite app_nil_r. split; [exact Hk0|]. lia.
  - lia.
Qed.
End headers.

(** ** The buffer of symbols *)
Definition is_ptr (t : token) : bool := match t with Lit _ => false | Ptr _ _ => true end.

Definition token_bytes (t : token) : list Z :=
  match t with
  | Lit c => [c]
  | Ptr len pos => [len - THRESHOLD; u8 (Z.shiftr pos 24); u8 (Z.shiftr pos 16); u8 (Z.shiftr pos 8); u8 pos]
  end.

(** The byte of flags in front of up to eight symbols. *)
Definition flags (g : list token) : Z := bval (map is_ptr g ++ replicate (8 - length g) false).

(** The symbols [ts] in the buffer, the first of them at the place [i] of its
    group of eight. *)
Definition next_place (i : nat) : nat := if (i =? 7)%nat then O else S i.

Fixpoint layout (i : nat) (ts : list token) : list Z :=
  match ts with
  | [] => []
  | t :: r => (if i is O then [flags (take 8 ts)] else []) ++ token_bytes t ++ layout (next_place i) r
  end.

(** The table [a] holds [l] from the index [p] on. *)
Definition at_ (a : Z -> Z) (p : Z) (l : list Z) : Prop := entries a p (length l) = l.

Lemma at_cons a p x l : at_ a p (x :: l) <-> a p = x /\ at_ a (p + 1) l.
Proof. unfold at_. cbn. split; [by intros [= -> ->]|by intros [-> ->]]. Qed.
Lemma at_app a l k : forall p, at_ a p (l ++ k) <-> at_ a p l /\ at_ a (p + zlen l) k.
Proof.
  induction l as [|x l IH]; intros p; cbn [app].
  - change (zlen (@nil Z)) with 0. rewrite Z.add_0_r. unfold at_. cbn. tauto.
  - rewrite !at_cons, IH, zlen_cons. replace (p + 1 + zlen l) with (p + (1 + zlen l)) by lia. tauto.
Qed.
Lemma at_out a p l i v : i < p \/ p + zlen l <= i -> at_ a p l -> at_ (upd a i v) p l.
Proof.
  intros Hi H. unfold at_ in *. rewrite (entries_ext (upd a i v) a); [done|]. intros j Hj. unfold zlen in Hi. by rewrite upd_ne by lia.
Qed.

Lemma flags_bits g : (length g <= 8)%nat -> bits 8 (flags g) = map is_ptr g ++ replicate (8 - length g) false.
Proof.
  intros Hg. unfold flags. set (l := map is_ptr g ++ replicate (8 - length g) false).
  assert (E : length l = 8%nat) by (unfold l; rewrite length_app, length_map, length_replicate; lia).
  rewrite <- E. apply bits_bval.
Qed.

Lemma bval_false l n : bval (l ++ replicate n false) = bval l * 2 ^ Z.of_nat n.
Proof.
  rewrite bval_app, zlen_replicate. assert (E : bval (replicate n false) = 0); [|lia].
  induction n as [|n IH]; cbn [replicate bval b2z]; [done|]. rewrite IH. lia.
Qed.

Lemma flags_snoc g t : (length g < 8)%nat ->
  flags (g ++ [t]) = if is_ptr t then Z.lor (flags g) (2 ^ (7 - zlen g)) else flags g.
Proof.
  intros Hg. unfold flags. rewrite map_app, length_app, !bval_false. cbn [map length].
  assert (Hz : zlen g < 8) by (unfold zlen; lia).
  replace (Z.of_nat (8 - length g)) with (8 - zlen g) by (unfold zlen; lia).
  replace (Z.of_nat (8 - (length g + 1))) with (7 - zlen g) by (unfold zlen; lia).
  rewrite bval_app. change (zlen [is_ptr t]) with 1. cbn [bval]. rewrite zlen_nil.
  assert (Ep : 2 ^ (8 - zlen g) = 2 * 2 ^ (7 - zlen g)) by (rewrite <- Z.pow_succ_r by lia; f_equal; lia).
  destruct (is_ptr t); cbn [b2z].
  - rewrite lor_disjoint; [rewrite Ep; change (2 ^ 1) with 2; change (2 ^ 0) with 1; ring|lia|]. rewrite Ep.
    assert (0 < 2 ^ (7 - zlen g)) by lia. lia.
  - rewrite Ep. change (2 ^ 1) with 2. ring.
Qed.

Lemma flags_range g : (length g <= 8)%nat -> is_u8 (flags g).
Proof.
  intros Hg. unfold flags. pose proof (bval_range (map is_ptr g ++ replicate (8 - length g) false)) as H.
  rewrite zlen_app, zlen_map, zlen_replicate in H. replace (zlen g + Z.of_nat (8 - length g)) with 8 in H by (unfold zlen; lia).
  exact H.
Qed.

Lemma layout_inner g : forall i h, (0 < i)%nat -> (i + length g <= 8)%nat ->
  layout (if (i =? 8)%nat then O else i) (g ++ h) =
  concat (map token_bytes g) ++ layout (if (i + length g =? 8)%nat then O else (i + length g))%nat h.
Proof.
  induction g as [|t g IH]; intros i h H0 Hi; cbn [app map concat length] in *.
  - by rewrite Nat.add_0_r.
  - rewrite (proj2 (Nat.eqb_neq i 8)) by lia. cbn [layout]. destruct i as [|i]; [lia|]. cbn [app]. rewrite <- app_assoc. f_equal.
    specialize (IH (S (S i)) h ltac:(lia) ltac:(lia)). replace (next_place (S i)) with (if (S (S i) =? 8)%nat then O else S (S i)).
    + rewrite IH. do 2 f_equal. by replace (S i + S (length g))%nat with (S (S i) + length g)%nat by lia.
    + unfold next_place. destruct (Nat.eqb_spec (S (S i)) 8), (Nat.eqb_spec (S i) 7); [done|lia|lia|done].
Qed.

Lemma layout_group g h : g <> [] -> (length g <= 8)%nat -> (length g = 8%nat \/ h = []) ->
  layout 0 (g ++ h) = flags g :: concat (map token_bytes g) ++ layout 0 h.
Proof.
  intros Hne Hl Hh. destruct g as [|t g]; [done|]. cbn [layout app]. f_equal.
  - f_equal. change (t :: g ++ h) with ((t :: g) ++ h). destruct Hh as [E|E].
    + rewrite <- E. apply take_app_length.
    + rewrite E, app_nil_r. by apply take_ge.
  - cbn [length] in *. pose proof (layout_inner g 1 h ltac:(lia) ltac:(lia)) as H. cbn [Nat.eqb] in H.
    change (next_place 0) with 1%nat. rewrite H. cbn [map concat]. rewrite <- app_assoc. do 2 f_equal.
    destruct Hh as [E|E]; [|by subst h]. by replace (1 + length g)%nat with 8%nat by lia.
Qed.

Lemma layout_groups n : forall full g, length full = (8 * n)%nat -> layout 0 (full ++ g) = layout 0 full ++ layout 0 g.
Proof.
  induction n as [|n IH]; intros full g H.
  - destruct full; [done|discriminate H].
  - rewrite <- (take_drop 8 full). set (a := take 8 full). set (b := drop 8 full).
    assert (Ha : length a = 8%nat) by (unfold a; rewrite length_take; lia).
    assert (Hb : length b = (8 * n)%nat) by (unfold b; rewrite length_drop; lia).
    assert (a <> []) by (intros E; rewrite E in Ha; done).
    rewrite <- app_assoc, !(layout_group a) by (done || lia || by left). rewrite (IH b g Hb). cbn [app]. by rewrite <- app_assoc.
Qed.

(** ** Writing the symbols *)
Lemma pos_sym_range pos : 0 <= pos < WNDSIZ -> 0 <= pos_sym pos < NP.
Proof.
  intros Hp. unfold pos_sym. change NP with 20. change WNDSIZ with (2 ^ 19) in Hp. destruct (Z.eqb_spec pos 0); [lia|].
  pose proof (Z.log2_nonneg pos). assert (Z.log2 pos < 19) by (apply Z.log2_lt_pow2; lia). lia.
Qed.

Lemma char_sym_range t : token_ok t -> 0 <= char_sym t < NC.
Proof.
  destruct t as [c|len pos]; cbn; unfold is_u8, NC, MAXMATCH, THRESHOLD, UINT8_MAX; lia.
Qed.

Lemma testbit_byte v i : 0 <= i -> negb (Z.land v (2 ^ i) =? 0) = Z.testbit v i.
Proof.
  intros Hi. destruct (Z.testbit v i) eqn:E.
  - destruct (Z.eqb_spec (Z.land v (2 ^ i)) 0) as [E0|]; [|done]. exfalso.
    apply (f_equal (fun x => Z.testbit x i)) in E0. rewrite Z.land_spec, E, Z.pow2_bits_true, Z.bits_0 in E0 by done. done.
  - replace (Z.land v (2 ^ i)) with 0; [done|]. symmetry. apply Z.bits_inj_0. intros j. rewrite Z.land_spec.
    destruct (decide (j = i)) as [->|]; [by rewrite E|]. rewrite Z.pow2_bits_false by done. apply andb_false_r.
Qed.

Lemma cons_split {A} (x y : A) l k : x :: l = y :: k -> x = y /\ l = k.
Proof. by intros [= -> ->]. Qed.

(** The bits of the flags once they are shifted. *)
Lemma bits_shift v : bits 8 (u32 (Z.shiftl v 1)) = bits 7 v ++ [false].
Proof.
  assert (H : bits 8 (u32 (Z.shiftl v 1)) = bits 8 (Z.shiftl v 1)).
  { rewrite <- (bits_mod 8 (u32 _)), <- (bits_mod 8 (Z.shiftl v 1)). f_equal. unfold u32.
    apply Z.mod_mod_divide. by exists (2 ^ 24). }
  rewrite H. change 8%nat with (7 + 1)%nat at 1. rewrite bits_app. f_equal.
  - rewrite Z.shiftl_mul_pow2, Z.div_mul by lia. done.
  - cbn [bits]. by rewrite Z.shiftl_spec_low by lia.
Qed.

Lemma pos_bytes pos : 0 <= pos < 2 ^ 32 ->
  ((u8 (Z.shiftr pos 24) * 2 ^ 8 + u8 (Z.shiftr pos 16)) * 2 ^ 8 + u8 (Z.shiftr pos 8)) * 2 ^ 8 + u8 pos = pos.
Proof.
  intros Hp. unfold u8. rewrite !Z.shiftr_div_pow2 by lia.
  change (2 ^ 24) with (2 ^ 16 * 2 ^ 8). rewrite <- (Z.div_div pos (2 ^ 16)) by lia.
  change (2 ^ 16) with (2 ^ 8 * 2 ^ 8). rewrite <- !(Z.div_div pos (2 ^ 8)) by lia.
  set (a := pos / 2 ^ 8). set (b := a / 2 ^ 8). set (c := b / 2 ^ 8).
  pose proof (Z.div_mod pos (2 ^ 8) ltac:(lia)). pose proof (Z.div_mod a (2 ^ 8) ltac:(lia)). pose proof (Z.div_mod b (2 ^ 8) ltac:(lia)).
  assert (Hc : 0 <= c < 2 ^ 8).
  { unfold c, b, a. rewrite !Z.div_div by lia. split; [apply Z.div_pos; lia|]. apply Z.div_lt_upper_bound; lia. }
  rewrite (Z.mod_small c) by done. fold a in H. fold b in H0. fold c in H1. lia.
Qed.

Lemma four_bytes a b c d : is_u8 a -> is_u8 b -> is_u8 c -> is_u8 d ->
  u32 (u32 (Z.shiftl (u32 (u32 (Z.shiftl (u32 (u32 (Z.shiftl a UINT8_BIT) + b)) UINT8_BIT) + c)) UINT8_BIT) + d) =
  ((a * 2 ^ 8 + b) * 2 ^ 8 + c) * 2 ^ 8 + d.
Proof.
  unfold is_u8, UINT8_BIT. intros Ha Hb Hc Hd. rewrite !Z.shiftl_mul_pow2 by lia.
  rewrite (u32_small (a * 2 ^ 8)) by (unfold is_u32; lia). rewrite (u32_small (a * 2 ^ 8 + b)) by (unfold is_u32; lia).
  rewrite (u32_small ((a * 2 ^ 8 + b) * 2 ^ 8)) by (unfold is_u32; lia).
  rewrite (u32_small ((a * 2 ^ 8 + b) * 2 ^ 8 + c)) by (unfold is_u32; lia).
  rewrite (u32_small (((a * 2 ^ 8 + b) * 2 ^ 8 + c) * 2 ^ 8)) by (unfold is_u32; lia).
  apply u32_small. unfold is_u32. lia.
Qed.

Section sending.
Context (L : Z) (h : list Z) (mBufSiz : Z) (buf : carr).
Context (c p : code) (clen ccode plen pcode : carr).
Hypothesis c_ok : code_ok NC c.
Hypothesis c_holds : holds NC c clen ccode.
Hypothesis p_ok : code_ok NP p.
Hypothesis p_holds : holds NP p plen pcode.

Lemma EncodeC_spec l k s : coded_in NC c s -> wrote L h l k ->
  wp (EncodeC clen ccode s k) (wrote L h (l ++ code_bits NC c s)).
Proof using c_ok c_holds.
  intros Hs Hw. destruct (put_code L h NC c clen ccode l k s c_ok c_holds Hs Hw) as [Hr H]. unfold EncodeC. wps. exact H.
Qed.

Lemma EncodeP_spec l k pos : 0 <= pos < WNDSIZ -> coded_in NP p (pos_sym pos) -> wrote L h l k ->
  wp (EncodeP plen pcode pos k) (wrote L h (l ++ pos_bits p pos)).
Proof using p_ok p_holds.
  intros Hp Hs Hw. unfold EncodeP. pose proof (pos_sym_range pos Hp) as Hr. change WNDSIZ with (2 ^ 19) in Hp. change NP with 20 in Hr.
  rewrite bit_length_spec, bind_Done by lia. apply wp_bind.
  eapply wp_mono; [by apply (put_pt_spec L h NP p)|]. cbn beta. intros k1 Hk1. unfold pos_bits. rewrite app_assoc.
  destruct (Z.ltb_spec 1 (pos_sym pos)); [|by rewrite app_nil_r].
  replace (Z.shiftr 0xFFFFFFFF (32 - pos_sym pos + 1)) with (Z.ones (pos_sym pos - 1)).
  - rewrite Z.land_ones by lia. apply (put L h _ _ (pos_sym pos - 1) _ Hk1); [lia|]. apply Z.mod_pos_bound. lia.
  - change 0xFFFFFFFF with (Z.ones 32). rewrite Z.shiftr_div_pow2, Z.ones_div_pow2 by lia. f_equal. lia.
Qed.

(** Where the loop stands after [d] with [r] still to come. *)
Definition sending (base : list bool) (d r : list token) (s : Z * Z * sink) : Prop :=
  let '(Flags, Pos, k) := s in
  0 <= Pos /\ Pos + zlen (layout (length d mod 8) r) <= mBufSiz /\ at_ buf Pos (layout (length d mod 8) r) /\
  wrote L h (base ++ concat (map (token_bits c p) d)) k /\
  ((length d mod 8)%nat <> O -> exists x, bits 7 Flags = map is_ptr (take (8 - length d mod 8) r) ++ x).

Lemma next_mod n : next_place (n mod 8) = (S n mod 8)%nat.
Proof using.
  unfold next_place. pose proof (Nat.mod_upper_bound n 8 ltac:(lia)). pose proof (Nat.div_mod n 8 ltac:(lia)).
  destruct (Nat.eqb_spec (n mod 8) 7).
  - apply (Nat.mod_unique (S n) 8 (S (n / 8))); lia.
  - apply (Nat.mod_unique (S n) 8 (n / 8)); lia.
Qed.

Lemma send_step_ok base d t r s : Forall (token_coded c p) (t :: r) -> sending base d (t :: r) s ->
  wp (send_step mBufSiz buf clen ccode plen pcode (Z.of_nat (length d)) s) (sending base (d ++ [t]) r).
Proof using c_ok c_holds p_ok p_holds.
  intros [(Htok & Hch & Hpos) _]%Forall_cons. destruct s as [[Flags Pos] k]. intros (HP & HPL & Hat & Hk & Hfl).
  unfold send_step, sending. rewrite length_app. cbn [length]. rewrite Nat.add_1_r.
  set (i := (length d mod 8)%nat) in *. assert (Hi8 : (i < 8)%nat) by (apply Nat.mod_upper_bound; lia).
  assert (EI : Z.of_nat (length d) mod UINT8_BIT = Z.of_nat i) by (unfold i; rewrite Nat2Z.inj_mod; done). rewrite EI.
  rewrite <- next_mod. fold i.
  (* the flags of this symbol and of those behind it *)
  apply wp_bind. apply (wp_mono _ (fun '(F, P) => Z.testbit F 7 = is_ptr t /\ 0 <= P /\
    P + zlen (token_bytes t ++ layout (next_place i) r) <= mBufSiz /\ at_ buf P (token_bytes t ++ layout (next_place i) r) /\
    (next_place i <> O -> exists x, bits 7 F = map is_ptr (take (8 - next_place i) r) ++ x))).
  { cbn [layout] in Hat, HPL. destruct i as [|j] eqn:Ej.
    - cbn [Z.of_nat Z.eqb app] in *. apply at_cons in Hat as [EF Hat]. rewrite zlen_cons in HPL. zlen_pos.
      change (Z.of_nat 0 =? 0) with true. cbn iota. wps.
      pose proof (flags_bits (take 8 (t :: r)) ltac:(rewrite length_take; lia)) as Hb.
      cbn [take map app bits] in Hb. injection Hb as Hb7 Hb. rewrite EF.
      split; [exact Hb7|]. split; [lia|]. split; [lia|]. split; [done|]. intros _. change (next_place 0) with 1%nat.
      eexists. cbn [bits Nat.sub]. exact Hb.
    - destruct (Hfl ltac:(lia)) as [x Hx]. rewrite (proj2 (Z.eqb_neq (Z.of_nat (S j)) 0)) by lia. apply wp_Done.
      pose proof (bits_shift Flags) as Hs. rewrite Hx in Hs. replace (8 - S j)%nat with (S (7 - S j)) in Hs by lia.
      cbn [take map app] in Hs. change (bits 8 (u32 (Z.shiftl Flags 1))) with
        (Z.testbit (u32 (Z.shiftl Flags 1)) 7 :: bits 7 (u32 (Z.shiftl Flags 1))) in Hs. apply cons_split in Hs as [Hs7 Hs].
      split; [exact Hs7|]. split; [lia|]. split; [exact HPL|]. split; [exact Hat|]. intros Hn.
      exists (x ++ [false]). rewrite Hs, <- app_assoc. do 3 f_equal. unfold next_place in *.
      destruct (Nat.eqb_spec (S j) 7); [done|]. lia. }
  intros [F P] (Hbit & HP' & HPL' & Hat' & Hfl'). rewrite testbit_byte by done. change (UINT8_BIT - 1) with 7. rewrite Hbit.
  rewrite map_app, concat_app, app_assoc. cbn [map concat]. rewrite app_nil_r.
  apply at_app in Hat' as [Hat1 Hat2]. rewrite zlen_app in HPL'. zlen_pos. unfold token_bits.
  destruct t as [ch|len pos]; cbn [is_ptr token_bytes char_sym token_ok] in *.
  - apply at_cons in Hat1 as [Ec _]. change (zlen [ch]) with 1 in *. wps. rewrite Ec.
    eapply wp_mono; [by apply EncodeC_spec|]. cbn beta. intros k1 Hk1. wps. rewrite app_nil_r.
    split; [lia|]. split; [lia|]. split; [exact Hat2|]. split; [exact Hk1|exact Hfl'].
  - rewrite !at_cons in Hat1. destruct Hat1 as (E0 & E1 & E2 & E3 & E4 & _). destruct Htok as [Hlen Hp].
    change WNDSIZ with (2 ^ 19) in Hp. match type of HPL' with _ + (zlen ?b + _) <= _ => change (zlen b) with 5 in * end.
    pose proof (u8_range (Z.shiftr pos 24)) as R1. pose proof (u8_range (Z.shiftr pos 16)) as R2. pose proof (u8_range (Z.shiftr pos 8)) as R3.
    pose proof (u8_range pos) as R4. wps.
    replace (buf P + 2 ^ UINT8_BIT) with (len + (UINT8_MAX + 1 - THRESHOLD)).
    2: { rewrite E0. unfold UINT8_BIT, UINT8_MAX. lia. }
    eapply wp_mono; [by apply EncodeC_spec|]. cbn beta. intros k1 Hk1. wps.
    assert (Ep : forZ 0 3 (fun _ '(Index3, Pos) => v ← aget mBufSiz buf Pos; Done (u32 (u32 (Z.shiftl Index3 UINT8_BIT) + v), Pos + 1))
        (buf (P + 1), P + 2) = Done (pos, P + 5)).
    { cbn [forZ]. repeat (rewrite aget_in, !bind_Done by lia).
      replace (P + 2) with (P + 1 + 1) by lia. rewrite E1, E2, E3, E4, four_bytes by assumption.
      f_equal. f_equal; [apply pos_bytes; lia|lia]. }
    rewrite Ep. apply wp_Done. apply wp_bind.
    eapply wp_mono; [by apply EncodeP_spec|]. cbn beta. intros k2 Hk2. wps. rewrite app_assoc.
    split; [lia|]. split; [lia|]. split; [exact Hat2|]. split; [exact Hk2|exact Hfl'].
Qed.

Lemma send_all base ts k : Forall (token_coded c p) ts -> zlen (layout 0 ts) <= mBufSiz -> at_ buf 0 (layout 0 ts) ->
  wrote L h base k ->
  wp (forZ 0 (length ts) (send_step mBufSiz buf clen ccode plen pcode) (0, 0, k))
    (fun '(_, _, k) => wrote L h (base ++ concat (map (token_bits c p) ts)) k).
Proof using c_ok c_holds p_ok p_holds.
  intros Hts Hsz Hat Hk.
  apply (wp_forZ (fun i s => exists d r, ts = d ++ r /\ zlen d = i /\ sending base d r s)).
  - exists [], ts. split; [done|]. split; [done|]. split; [lia|]. split; [exact Hsz|]. split; [exact Hat|].
    split; [cbn [map concat]; by rewrite app_nil_r|done].
  - intros i s Hi (d & r & -> & Hd & Hs). destruct r as [|t r]; [rewrite app_nil_r in Hi; unfold zlen in Hd; lia|].
    apply Forall_app in Hts as [_ Hts]. replace i with (Z.of_nat (length d)) by exact Hd.
    eapply wp_mono; [by apply send_step_ok|]. cbn beta. intros s' Hs'. exists (d ++ [t]), r.
    split; [by rewrite <- app_assoc|]. split; [|done]. unfold zlen. rewrite length_app. cbn. lia.
  - intros [[F P] k'] (d & r & -> & Hd & Hs). assert (r = []).
    { destruct r; [done|]. exfalso. rewrite length_app in Hd. unfold zlen in Hd. cbn in Hd. lia. }
    subst r. rewrite app_nil_r. destruct Hs as (_ & _ & _ & Hk' & _). exact Hk'.
Qed.
End sending.

(** ** A block *)
Section block.
Context (L : Z) (h : list Z) (Start0 : Z).

(** The headers of the extra set and the characters. *)
Definition char_part (Root : Z) (c : symbols) (tfreq ptlen ptcode : carr) (tr : trees) (k : sink)
    : Res (carr * carr * carr * trees * sink) :=
  if NC <=? Root then
    tfreq ← CountTFreq (s_Len c) tfreq;
    '(Root, t, tr) ← MakeTree Start0 NT NPT (mkSym tfreq ptlen ptcode) tr;
    k ← (if NT <=? Root then WritePTLen (s_Len t) NT TBIT 3 k
         else k ← PutBits TBIT 0 k; PutBits TBIT Root k);
    k ← WriteCLen (s_Len c) (s_Len t) (s_Code t) k;
    Done (s_Freq t, s_Len t, s_Code t, tr, k)
  else
    k ← PutBits TBIT 0 k;
    k ← PutBits TBIT 0 k;
    k ← PutBits CBIT 0 k;
    k ← PutBits CBIT Root k;
    Done (tfreq, ptlen, ptcode, tr, k).

(** The header of a set: of the extra set, or of the positions. *)
Lemma set_header_spec (special : bool) N c len Root l k : 6 <= N <= NPT -> N < 2 ^ 5 ->
  code_ok N c -> (Root < N /\ c = One Root) \/ (N <= Root /\ c = Code len) -> wrote L h l k ->
  wp (if N <=? Root then WritePTLen len N 5 (if special then 3 else -1) k
      else k ← PutBits 5 0 k; PutBits 5 Root k) (wrote L h (l ++ set_header special N 5 c)).
Proof using.
  intros HN HN5 Hok [[HR ->]|[HR ->]] Hw; destruct (Z.leb_spec N Root); try lia; cbn [code_ok] in Hok.
  - apply wp_bind. eapply wp_mono; [apply (put L h _ _ 5 0 Hw); lia|]. cbn beta. intros k1 Hk1.
    eapply wp_mono; [apply (put L h _ _ 5 Root Hk1); lia|]. cbn beta. intros k2 Hk2.
    cbn [set_header]. by rewrite app_assoc.
  - apply WritePTLen_spec; [done| |done]. destruct Hok as [Hr _]. exact Hr.
Qed.

Lemma char_part_spec c Root y tfreq ptlen ptcode tr l k : code_ok NC c ->
  (Root < NC /\ c = One Root) \/ (NC <= Root /\ c = Code (s_Len y)) -> wrote L h l k ->
  wp (char_part Root y tfreq ptlen ptcode tr k) (fun '(_, _, _, _, k) => exists t rs,
    code_ok NT t /\ runs_ok t c rs /\ wrote L h (l ++ set_header true NT 5 t ++ char_header t c rs) k).
Proof using.
  intros Hok Hc Hw. unfold char_part. assert (HC : NC = 510) by done. assert (HT : NT = 19) by done. assert (HP : NPT = 31) by done.
  destruct Hc as [[HR ->]|[HR ->]]; destruct (Z.leb_spec NC Root); try lia; cbn [code_ok] in Hok.
  - apply wp_bind. eapply wp_mono; [apply (put L h _ _ 5 0 Hw); lia|]. cbn beta. intros k1 Hk1.
    apply wp_bind. eapply wp_mono; [apply (put L h _ _ 5 0 Hk1); lia|]. cbn beta. intros k2 Hk2.
    apply wp_bind. eapply wp_mono; [apply (put L h _ _ 9 0 Hk2); lia|]. cbn beta. intros k3 Hk3.
    apply wp_bind. eapply wp_mono; [apply (put L h _ _ 9 Root Hk3); lia|]. cbn beta. intros k4 Hk4.
    apply wp_Done. exists (One 0), []. split; [cbn; lia|]. split; [done|]. cbn [set_header char_header].
    rewrite <- !app_assoc. rewrite <- !app_assoc in Hk4. exact Hk4.
  - destruct Hok as [Hr Hk]. destruct (rle_total (entries (s_Len y) 0 (trimmed (s_Len y) (Z.to_nat NC)))) as [rs Hrle].
    apply wp_bind. eapply wp_mono; [by apply CountTFreq_spec|]. cbn beta. intros f (Hf & Hfle).
    assert (Hf0 : forall s, 0 <= s < NT -> 0 <= f s) by (intros s Hs; rewrite Hf by done; apply rcount_nonneg).
    apply wp_bind. eapply wp_mono; [apply (MakeTree_spec Start0 NT NPT (mkSym f ptlen ptcode) tr); cbn [s_Freq]; [lia|lia|done|]|].
    { pose proof (asum_le (fun x => x) (fun _ => NC) f (Z.to_nat NT) 0) as H1. rewrite asum_const in H1.
      specialize (H1 ltac:(intros i Hi; rewrite Hf by lia; apply Hfle; lia)). lia. }
    cbn beta. intros [[R t] tr'] (Hcoded & HR2 & _ & _). cbn [s_Freq] in Hcoded.
    destruct (coded_holds NT f R _ _ ltac:(lia) Hcoded) as (tc & Htok & Hth & Htu & HtR).
    apply wp_bind. eapply wp_mono; [apply (set_header_spec true NT tc (s_Len t) R l k); try done; lia|]. cbn beta. intros k1 Hk1.
    assert (Hspec := rle_spec _ _ Hrle). destruct Hspec as [Hrok Hrlens].
    { pose proof (trimmed_spec (s_Len y) (Z.to_nat NC)) as (Hn & _). unfold zlen. rewrite length_entries. lia. }
    { pose proof (trimmed_spec (s_Len y) (Z.to_nat NC)) as (Hn & _). clear - Hr Hn HC.
      assert (H : forall n lo, 0 <= lo -> lo + Z.of_nat n <= NC -> Forall (fun x => 0 <= x <= 16) (entries (s_Len y) lo n)).
      { induction n as [|n IH]; intros lo H0 H1; cbn [entries]; constructor; [apply Hr; lia|apply IH; lia]. }
      apply H; lia. }
    assert (Hruns : Forall (fun r => coded_in NT tc (run_sym r)) rs).
    { apply List.Forall_forall. intros r Hrin. apply list_elem_of_In in Hrin.
      assert (Hrng : 0 <= run_sym r < NT).
      { rewrite Forall_forall in Hrok. specialize (Hrok r Hrin). destruct r; cbn in *; lia. }
      apply Htu; [done|]. rewrite Hf by done. pose proof (rcount_in (run_sym r) rs r Hrin eq_refl). lia. }
    apply wp_bind. eapply wp_mono; [by eapply (WriteCLen_spec L h (Code (s_Len y)) tc)|].
    cbn beta. intros k2 Hk2. apply wp_Done. exists tc, rs. split; [done|]. split.
    + cbn [runs_ok]. split; [|done]. rewrite Forall_forall in Hrok. rewrite Forall_forall in Hruns. apply Forall_forall.
      intros r Hrin. split; [by apply Hrok|by apply Hruns].
    + by rewrite app_assoc.
Qed.

(** The frequencies are those of the symbols [ts]. *)
Definition freqs_ok (cfreq pfreq : carr) (ts : list token) : Prop :=
  (forall i, 0 <= i < NC -> 0 <= cfreq i) /\ asum (fun x => x) cfreq 0 (Z.to_nat NC) = zlen ts /\
  (forall i, 0 <= i < NP -> 0 <= pfreq i) /\ asum (fun x => x) pfreq 0 (Z.to_nat NP) <= zlen ts /\
  Forall (fun t => cfreq (char_sym t) <> 0 /\ match t with Lit _ => True | Ptr _ pos => pfreq (pos_sym pos) <> 0 end) ts.

Lemma freqs_none cfreq pfreq : freqs_ok (afill 0 NC (fun _ => 0) cfreq) (afill 0 NP (fun _ => 0) pfreq) [].
Proof using.
  split; [intros i Hi; by rewrite afill_in|]. split; [|split; [intros i Hi; by rewrite afill_in|split; [|done]]].
  - rewrite (asum_ext _ (fun _ => 0) _ cfreq); [by rewrite asum_const|]. intros i Hi. by rewrite afill_in.
  - rewrite (asum_ext _ (fun _ => 0) _ pfreq); [by rewrite asum_const|]. intros i Hi. by rewrite afill_in.
Qed.

Lemma SendBlock_spec mBufSiz s ts base : Forall token_ok ts -> zlen ts < 2 ^ 16 ->
  freqs_ok (s_Freq (mC s)) (mPFreq s) ts -> zlen (layout 0 ts) <= mBufSiz -> at_ (mBuf s) 0 (layout 0 ts) ->
  wrote L h base (mSink s) ->
  wp (SendBlock Start0 mBufSiz s) (fun s' => exists b, b_tokens b = ts /\ block_ok b /\
    wrote L h (base ++ block_bits b) (mSink s') /\ freqs_ok (s_Freq (mC s')) (mPFreq s') [] /\
    mBuf s' = mBuf s /\ mOutputPos s' = mOutputPos s /\ mOutputMask s' = mOutputMask s /\ CPos s' = CPos s).
Proof using.
  intros Htok Hn (Hc0 & HcT & Hp0 & HpT & Hfr) Hsz Hat Hw.
  assert (HC : NC = 510) by done. assert (HT : NT = 19) by done. assert (HP : NPT = 31) by done. assert (HNP : NP = 20) by done.
  unfold SendBlock. apply wp_bind.
  eapply wp_mono; [apply (MakeTree_spec Start0 NC NC (mC s) (mTrees s)); [lia|lia|done|lia]|].
  cbn beta. intros [[Root c] tr] (Hcoded & HR & Hfeq & HfR).
  destruct (coded_holds NC _ Root _ _ ltac:(lia) Hcoded) as (cc & Hcok & Hch & Hcu & HcR).
  assert (HR0 : 0 <= Root) by (destruct Hcoded as [(? & _)|(? & _)]; lia). rewrite HcT in HfR. wps. rewrite HfR.
  pose proof (zlen_nonneg ts).
  eapply wp_mono; [apply (put L h _ _ 16 (zlen ts) Hw); lia|]. cbn beta. intros k1 Hk1. change (Z.to_nat 16) with 16%nat in Hk1.
  apply wp_bind. eapply wp_mono; [exact (char_part_spec cc Root c (mTFreq s) (mPTLen s) (mPTCode s) tr _ k1 Hcok HcR Hk1)|].
  cbn beta. intros [[[[tf ptl] ptc] tr2] k2] (tc & rs & Htcok & Hrs & Hk2).
  apply wp_bind. eapply wp_mono; [apply (MakeTree_spec Start0 NP NPT (mkSym (mPFreq s) ptl ptc) tr2); cbn [s_Freq]; [lia|lia|done|lia]|].
  cbn beta. intros [[R p] tr3] (Hpcoded & _ & _ & _). cbn [s_Freq] in Hpcoded.
  destruct (coded_holds NP _ R _ _ ltac:(lia) Hpcoded) as (pc & Hpok & Hph & Hpu & HpR).
  apply wp_bind. eapply wp_mono; [eapply (set_header_spec false NP pc (s_Len p) R); [lia|lia|done|exact HpR|exact Hk2]|].
  cbn beta. intros k3 Hk3.
  assert (Hcodes : Forall (token_coded cc pc) ts).
  { rewrite Forall_forall in Htok. rewrite Forall_forall in Hfr. apply Forall_forall. intros t Ht.
    specialize (Htok t Ht). destruct (Hfr t Ht) as [Hf1 Hf2]. split; [done|].
    split; [apply Hcu; [by apply char_sym_range|done]|]. destruct t as [ch|len pos]; [done|].
    apply Hpu; [apply pos_sym_range; apply Htok|done]. }
  apply wp_bind. eapply wp_mono.
  { replace (Z.to_nat (zlen ts)) with (length ts) by (unfold zlen; lia).
    exact (send_all L h mBufSiz (mBuf s) cc pc _ _ _ _ Hcok Hch Hpok Hph _ ts k3 Hcodes Hsz Hat Hk3). }
  cbn beta. intros [[F P] k4] Hk4. apply wp_Done. exists (mkBlock tc cc pc rs ts).
  cbn [b_tokens mC s_Freq mPFreq mSink mBuf mOutputPos mOutputMask CPos]. split; [done|].
  split; [split_and!; done|]. split; [|split; [apply freqs_none|done]].
  unfold block_bits. cbn [b_tokens b_extra b_char b_pos b_runs]. rewrite <- !app_assoc in Hk4. exact Hk4.
Qed.
End block.

(** ** [Output] *)
Lemma zlen_token_bytes t : 1 <= zlen (token_bytes t) <= 5.
Proof. destruct t; cbn [token_bytes]; rewrite !zlen_cons, zlen_nil; lia. Qed.

Lemma zlen_bodies g : zlen g <= zlen (concat (map token_bytes g)) <= 5 * zlen g.
Proof.
  induction g as [|t g IH]; cbn [map concat]; [by rewrite (@zlen_nil token), (@zlen_nil Z)|].
  rewrite zlen_cons, zlen_app. pose proof (zlen_token_bytes t). lia.
Qed.

Lemma zlen_layout ts : forall i, zlen ts <= zlen (layout i ts).
Proof.
  induction ts as [|t ts IH]; intros i; cbn [layout]; [done|]. specialize (IH (next_place i)).
  rewrite !zlen_app, zlen_cons. pose proof (zlen_token_bytes t). destruct i; zl.
Qed.

Lemma zlen_layout_nil ts i : zlen (layout i ts) = 0 -> ts = [].
Proof. pose proof (zlen_layout ts i). destruct ts; [done|]. rewrite zlen_cons in H. zl. Qed.

(** A group in the buffer, also the empty one: its flags and its symbols. *)
Definition group_bytes (g : list token) : list Z := flags g :: concat (map token_bytes g).

Lemma layout_split n full g : length full = (8 * n)%nat -> g <> [] -> (length g <= 8)%nat ->
  layout 0 (full ++ g) = layout 0 full ++ group_bytes g.
Proof.
  intros Hf Hg Hl. rewrite (layout_groups n) by done. f_equal. pose proof (layout_group g [] Hg Hl ltac:(by right)) as H.
  rewrite app_nil_r in H. cbn [layout] in H. by rewrite app_nil_r in H.
Qed.

(** The number [Output] is given for the position. *)
Definition token_pos (t : token) : Z := match t with Lit _ => 0 | Ptr _ pos => pos end.

Section output.
Context (L : Z) (h : list Z) (Start0 mBufSiz : Z).
Hypothesis siz : 4096 <= mBufSiz <= 2 ^ 14.

(** The blocks [bs] are written, the symbols [ts] wait in the buffer. *)
Definition pending (bs : list block) (ts : list token) (s : huf) : Prop :=
  Forall block_ok bs /\ Forall (fun b => b_tokens b <> []) bs /\ Forall token_ok ts /\
  freqs_ok (s_Freq (mC s)) (mPFreq s) ts /\ wrote L h (stream_bits bs) (mSink s).

Definition filling (bs : list block) (ts : list token) (s : huf) : Prop :=
  pending bs ts s /\ at_ (mBuf s) 0 (layout 0 ts) /\ mOutputPos s = zlen (layout 0 ts) /\ zlen (layout 0 ts) <= mBufSiz /\
  exists full g n, ts = full ++ g /\ length full = (8 * n)%nat /\ (length g <= 8)%nat /\
    ((g = [] /\ full = [] /\ 0 <= mOutputMask s <= 1) \/
     (g <> [] /\ mOutputMask s = 2 ^ (8 - zlen g) /\ CPos s = zlen (layout 0 full) /\ CPos s < mBufSiz - 40)).

(** There is a place in the group for the next symbol. *)
Definition ready (bs : list block) (full g : list token) (s : huf) : Prop :=
  pending bs (full ++ g) s /\ (exists n, length full = (8 * n)%nat) /\ (length g < 8)%nat /\
  at_ (mBuf s) 0 (layout 0 full ++ group_bytes g) /\ mOutputMask s = 2 ^ (7 - zlen g) /\
  CPos s = zlen (layout 0 full) /\ CPos s < mBufSiz - 40 /\ mOutputPos s = CPos s + zlen (group_bytes g).

Lemma stream_bits_snoc bs b : stream_bits (bs ++ [b]) = stream_bits bs ++ block_bits b.
Proof using. unfold stream_bits. rewrite map_app, concat_app. cbn. by rewrite app_nil_r. Qed.
Lemma stream_tokens_snoc bs b : stream_tokens (bs ++ [b]) = stream_tokens bs ++ b_tokens b.
Proof using. unfold stream_tokens. rewrite map_app, concat_app. cbn. by rewrite app_nil_r. Qed.

(** Sending what waits. *)
Lemma send_pending bs ts s : pending bs ts s -> at_ (mBuf s) 0 (layout 0 ts) -> zlen (layout 0 ts) <= mBufSiz -> ts <> [] ->
  wp (SendBlock Start0 mBufSiz s) (fun s' => exists b, b_tokens b = ts /\ pending (bs ++ [b]) [] s').
Proof using siz.
  intros (Hb & Hne & Hts & Hf & Hw) Hat Hsz Hn. pose proof (zlen_layout ts 0).
  eapply wp_mono; [by apply (SendBlock_spec L h Start0 mBufSiz s ts (stream_bits bs)); try done; lia|]. cbn beta.
  intros s' (b & Eb & Hbok & Hw' & Hf' & _). exists b. split; [done|].
  split; [apply Forall_app; split; [done|by apply Forall_singleton]|].
  split; [apply Forall_app; split; [done|apply Forall_singleton; by rewrite Eb]|]. split; [done|]. split; [done|].
  by rewrite stream_bits_snoc.
Qed.

Lemma new_group_spec bs ts s : pending bs ts s -> (exists n, length ts = (8 * n)%nat) -> at_ (mBuf s) 0 (layout 0 ts) ->
  mOutputPos s = zlen (layout 0 ts) -> zlen (layout 0 ts) <= mBufSiz ->
  wp (new_group Start0 mBufSiz s) (fun s' => exists bs' full, ready bs' full [] s' /\
    stream_tokens bs' ++ full = stream_tokens bs ++ ts).
Proof using siz.
  intros Hp Hn Hat Hpos Hsz. unfold new_group. unfold UINT8_BIT. rewrite u32_small by (unfold is_u32; lia).
  apply wp_bind. apply (wp_mono _ (fun s' => exists bs' full, pending bs' full s' /\ (exists n, length full = (8 * n)%nat) /\
    at_ (mBuf s') 0 (layout 0 full) /\ mOutputPos s' = zlen (layout 0 full) /\ mOutputPos s' < mBufSiz - 40 /\
    mOutputMask s' = 2 ^ 7 /\ stream_tokens bs' ++ full = stream_tokens bs ++ ts)).
  - destruct (Z.leb_spec (mBufSiz - 5 * 8) (mOutputPos s)) as [Hge|Hlt].
    + apply wp_bind. assert (Hne : ts <> []) by (intros ->; rewrite Hpos in Hge; cbn [layout] in Hge; rewrite zlen_nil in Hge; lia).
      eapply wp_mono; [by apply (send_pending bs ts)|]. cbn beta. intros s' (b & Eb & Hp'). apply wp_Done.
      exists (bs ++ [b]), []. cbn [set_out mBuf mOutputPos mOutputMask layout]. split; [exact Hp'|]. split; [by exists O|].
      split; [done|]. split; [done|]. split; [lia|]. split; [done|]. by rewrite app_nil_r, stream_tokens_snoc, Eb.
    + apply wp_Done. exists bs, ts. cbn [set_out mBuf mOutputPos mOutputMask]. split; [exact Hp|].
      split; [done|]. split; [done|]. split; [done|]. split; [lia|]. done.
  - intros s1 (bs' & full & Hp' & Hn' & Hat' & Hpos' & Hlt & Hmask & Est). pose proof (zlen_nonneg (layout 0 full)).
    wps. exists bs', full. split; [|done]. unfold ready. cbn [set_out mBuf mOutputPos mOutputMask CPos]. rewrite app_nil_r.
    split; [exact Hp'|]. split; [done|]. split; [cbn; lia|]. split.
    + apply at_app. split; [apply at_out; [lia|done]|]. apply at_cons. split; [|done].
      rewrite Hpos', Z.add_0_l. by rewrite upd_eq.
    + split; [done|]. split; [lia|]. split; [lia|]. unfold group_bytes. cbn [map concat]. rewrite zlen_cons, zlen_nil. lia.
Qed.

Lemma start_output bs ts s : filling bs ts s ->
  wp (let mask := Z.shiftr (mOutputMask s) 1 in
      if mask =? 0 then new_group Start0 mBufSiz s
      else Done (set_out s (mBuf s) (mOutputPos s) mask (CPos s)))
    (fun s' => exists bs' full g, ready bs' full g s' /\ stream_tokens bs' ++ full ++ g = stream_tokens bs ++ ts).
Proof using siz.
  intros (Hp & Hat & Hpos & Hsz & full & g & n & -> & Hfull & Hg & Hcase). cbv zeta.
  assert (Hgroup : (exists m, length (full ++ g) = (8 * m)%nat) ->
    wp (new_group Start0 mBufSiz s) (fun s' => exists bs' full' g', ready bs' full' g' s' /\
      stream_tokens bs' ++ full' ++ g' = stream_tokens bs ++ full ++ g)).
  { intros Hm. eapply wp_mono; [by apply (new_group_spec bs (full ++ g))|]. cbn beta.
    intros s' (bs' & full' & Hr & E). exists bs', full', []. by rewrite app_nil_r. }
  destruct Hcase as [(-> & -> & Hmask)|(Hne & Hmask & HC & HClt)].
  - replace (Z.shiftr (mOutputMask s) 1 =? 0) with true by (destruct (decide (mOutputMask s = 0)) as [->|]; [done|by replace (mOutputMask s) with 1 by lia]).
    apply Hgroup. by exists O.
  - rewrite Hmask, Z.shiftr_div_pow2 by lia. destruct (decide (length g = 8%nat)) as [E|E].
    + replace (8 - zlen g) with 0 by (unfold zlen; lia). cbn [Z.eqb]. change (2 ^ 0 / 2 ^ 1 =? 0) with true. cbn iota.
      apply Hgroup. exists (S n). rewrite length_app. lia.
    + assert (0 <= 7 - zlen g) by (unfold zlen; lia).
      replace (2 ^ (8 - zlen g) / 2 ^ 1) with (2 ^ (7 - zlen g)).
      2: { replace (8 - zlen g) with (7 - zlen g + 1) by lia. rewrite Z.pow_add_r, Z.div_mul by lia. done. }
      rewrite (proj2 (Z.eqb_neq _ 0)) by lia. apply wp_Done. exists bs, full, g. split; [|done].
      unfold ready. cbn [set_out mBuf mOutputPos mOutputMask CPos]. rewrite (layout_split n) in Hat, Hpos, Hsz by done.
      split; [exact Hp|]. split; [by exists n|]. split; [lia|]. split; [exact Hat|]. split; [done|]. split; [done|]. split; [done|].
      rewrite Hpos, zlen_app. lia.
Qed.

Lemma freqs_add cfreq pfreq ts t : freqs_ok cfreq pfreq ts -> token_ok t -> zlen ts < 2 ^ 15 ->
  freqs_ok (upd cfreq (char_sym t) (u16 (cfreq (char_sym t) + 1)))
    (match t with Lit _ => pfreq | Ptr _ pos => upd pfreq (pos_sym pos) (u16 (pfreq (pos_sym pos) + 1)) end) (ts ++ [t]).
Proof using.
  intros (Hc0 & HcT & Hp0 & HpT & Hfr) Ht Hn. pose proof (char_sym_range t Ht) as Hr. assert (HC : NC = 510) by done. assert (HP : NP = 20) by done.
  assert (Hb : cfreq (char_sym t) <= zlen ts).
  { rewrite <- HcT. apply (asum_entry (fun x => x)); [lia|]. intros j Hj. apply Hc0. lia. }
  pose proof (Hc0 _ Hr). rewrite u16_small by (unfold is_u16; lia).
  assert (Hpos : forall len pos, t = Ptr len pos -> 0 <= pos_sym pos < NP /\ 0 <= pfreq (pos_sym pos) <= zlen ts).
  { intros len pos ->. destruct Ht as [_ Hp]. pose proof (pos_sym_range pos Hp) as Hpr. split; [done|]. split; [by apply Hp0|].
    etransitivity; [|exact HpT]. apply (asum_entry (fun x => x)); [lia|]. intros j Hj. apply Hp0. lia. }
  assert (HpU : forall len pos, t = Ptr len pos -> u16 (pfreq (pos_sym pos) + 1) = pfreq (pos_sym pos) + 1).
  { intros len pos E. destruct (Hpos len pos E). apply u16_small. unfold is_u16. lia. }
  split; [|split; [|split; [|split]]].
  - intros i Hi. pose proof (Hc0 i Hi). destruct (decide (i = char_sym t)) as [->|]; upd_at; lia.
  - rewrite asum_in, HcT, zlen_app by lia. change (zlen [t]) with 1. lia.
  - intros i Hi. pose proof (Hp0 i Hi). destruct t as [c|len pos]; [done|]. rewrite (HpU len pos eq_refl).
    destruct (decide (i = pos_sym pos)) as [->|]; upd_at; lia.
  - rewrite zlen_app. change (zlen [t]) with 1. destruct t as [c|len pos]; [lia|].
    destruct (Hpos len pos eq_refl). rewrite (HpU len pos eq_refl), asum_in by lia. lia.
  - apply Forall_app. split.
    + rewrite Forall_forall in Hfr. apply Forall_forall. intros t' Ht'. destruct (Hfr t' Ht') as [H1 H2]. split.
      * destruct (decide (char_sym t' = char_sym t)) as [->|]; upd_at; lia.
      * destruct t' as [c'|len' pos']; [done|]. destruct t as [c|len pos]; [done|]. rewrite (HpU len pos eq_refl).
        destruct (Hpos len pos eq_refl). destruct (decide (pos_sym pos' = pos_sym pos)) as [->|]; upd_at; lia.
    + apply Forall_singleton. split; [upd_at; lia|]. destruct t as [c|len pos]; [done|]. rewrite (HpU len pos eq_refl).
      destruct (Hpos len pos eq_refl). upd_at. lia.
Qed.
Lemma group_bytes_snoc g t : zlen (group_bytes (g ++ [t])) = zlen (group_bytes g) + zlen (token_bytes t).
Proof using.
  unfold group_bytes. rewrite !zlen_cons, map_app, concat_app, zlen_app. cbn [map concat]. rewrite app_nil_r. lia.
Qed.

Lemma output_size g : (length g <= 8)%nat -> 1 + zlen g <= zlen (group_bytes g) <= 1 + 5 * zlen g.
Proof using. intros Hg. unfold group_bytes. rewrite zlen_cons. pose proof (zlen_bodies g). lia. Qed.

(** What the end of [Output] leaves: the symbol is behind the others of its
    group. *)
Lemma output_filled bs full g t s : ready bs full g s -> token_ok t -> forall s' buf,
  at_ buf 0 (layout 0 full ++ group_bytes (g ++ [t])) ->
  s' = set_freqs (set_out s buf (mOutputPos s + zlen (token_bytes t)) (mOutputMask s) (CPos s))
    (upd (s_Freq (mC s)) (char_sym t) (u16 (s_Freq (mC s) (char_sym t) + 1)))
    (match t with Lit _ => mPFreq s | Ptr _ pos => upd (mPFreq s) (pos_sym pos) (u16 (mPFreq s (pos_sym pos) + 1)) end) ->
  filling bs (full ++ g ++ [t]) s'.
Proof using siz.
  intros ((Hb & Hne & Hts & Hf & Hw) & (n & Hn) & Hg & Hat & Hm & HC & HClt & Hpos) Ht s' buf Hat' ->.
  pose proof (zlen_layout full 0). pose proof (zlen_nonneg (layout 0 full)). assert (Hzg : zlen g < 8) by (unfold zlen; lia).
  assert (Hlen : (length (g ++ [t]) <= 8)%nat) by (rewrite length_app; cbn; lia).
  assert (Hgt : g ++ [t] <> []) by (intros E; apply (f_equal length) in E; rewrite length_app in E; cbn in E; lia).
  pose proof (output_size (g ++ [t]) Hlen) as Hs. rewrite group_bytes_snoc in Hs.
  assert (Hz : zlen (g ++ [t]) = zlen g + 1) by (rewrite zlen_app; done). rewrite Hz in Hs.
  unfold filling, pending. cbn [set_freqs set_out mC s_Freq mPFreq mSink mBuf mOutputPos mOutputMask CPos].
  rewrite (layout_split n) by done. rewrite zlen_app, group_bytes_snoc. split.
  - split; [done|]. split; [done|]. split; [|split; [|done]].
    + rewrite app_assoc. apply Forall_app. split; [done|by apply Forall_singleton].
    + rewrite app_assoc. apply freqs_add; [done|done|]. rewrite zlen_app. lia.
  - split; [done|]. split; [lia|]. split; [lia|]. exists full, (g ++ [t]), n. split; [done|]. split; [done|]. split; [done|].
    right. split; [done|]. rewrite Hz. split; [rewrite Hm; f_equal; lia|]. split; [done|lia].
Qed.

Lemma Output_spec bs ts t s : filling bs ts s -> token_ok t ->
  wp (Output Start0 mBufSiz (char_sym t) (token_pos t) s) (fun s' => exists bs' ts', filling bs' ts' s' /\
    ts' <> [] /\ stream_tokens bs' ++ ts' = stream_tokens bs ++ ts ++ [t]).
Proof using siz.
  intros Hfill Ht. unfold Output. cbv zeta. apply wp_bind. eapply wp_mono; [exact (start_output bs ts s Hfill)|]. cbn beta.
  intros s1 (bs' & full & g & Hr & E).
  assert (Hgoal : forall s' buf, at_ buf 0 (layout 0 full ++ group_bytes (g ++ [t])) ->
    s' = set_freqs (set_out s1 buf (mOutputPos s1 + zlen (token_bytes t)) (mOutputMask s1) (CPos s1))
      (upd (s_Freq (mC s1)) (char_sym t) (u16 (s_Freq (mC s1) (char_sym t) + 1)))
      (match t with Lit _ => mPFreq s1 | Ptr _ pos => upd (mPFreq s1) (pos_sym pos) (u16 (mPFreq s1 (pos_sym pos) + 1)) end) ->
    exists bs' ts', filling bs' ts' s' /\ ts' <> [] /\ stream_tokens bs' ++ ts' = stream_tokens bs ++ ts ++ [t]).
  { intros s' buf Ha Es. exists bs', (full ++ g ++ [t]). split; [by apply (output_filled bs' full g t s1 Hr Ht s' buf)|].
    split; [by destruct full, g|].
    rewrite !app_assoc in *. by rewrite E. }
  destruct Hr as (_ & (n & Hn) & Hg & Hat & Hm & HC & HClt & Hpos). pose proof (zlen_nonneg (layout 0 full)).
  assert (Hzg : zlen g < 8) by (unfold zlen; lia). pose proof (output_size g ltac:(lia)) as Hs.
  pose proof (char_sym_range t Ht) as Hcr. assert (HNC : NC = 510) by done. assert (HNP : NP = 20) by done.
  apply at_app in Hat as [Hat1 Hat2]. unfold group_bytes in Hat2. apply at_cons in Hat2 as [Hfl Hat2].
  rewrite Z.add_0_l in Hfl, Hat2. rewrite <- HC in Hfl, Hat2. unfold group_bytes in Hpos, Hs. rewrite zlen_cons in Hpos, Hs.
  assert (Hput : forall fl buf, buf (CPos s1) = fl -> fl = flags (g ++ [t]) ->
    (forall i, i < mOutputPos s1 -> i <> CPos s1 -> buf i = mBuf s1 i) -> at_ buf (mOutputPos s1) (token_bytes t) ->
    at_ buf 0 (layout 0 full ++ group_bytes (g ++ [t]))).
  { intros fl buf E1 E2 Hbuf Htok. apply at_app. split.
    - unfold at_ in *. rewrite (entries_ext buf (mBuf s1)); [done|]. intros i Hi. apply Hbuf; unfold zlen in *; lia.
    - unfold group_bytes. apply at_cons. rewrite Z.add_0_l, <- HC. split; [by rewrite E1|].
      rewrite map_app, concat_app. apply at_app. split.
      + unfold at_ in *. rewrite (entries_ext buf (mBuf s1)); [done|]. intros i Hi. apply Hbuf; unfold zlen in *; lia.
      + cbn [map concat]. rewrite app_nil_r. by replace (CPos s1 + 1 + zlen (concat (map token_bytes g))) with (mOutputPos s1) by lia. }
  pose proof (flags_snoc g t Hg) as Hfs. pose proof (flags_range (g ++ [t]) ltac:(rewrite length_app; cbn; lia)) as Hfr.
  wps. destruct t as [c|len pos]; cbn [is_ptr char_sym token_pos token_bytes token_ok] in *.
  - rewrite (proj2 (Z.leb_gt _ _)) by (unfold is_u8, UINT8_BIT in *; lia). apply wp_Done.
    eapply Hgoal; [|reflexivity]. eapply Hput; [reflexivity| | |].
    + upd_at. by rewrite Hfs.
    + intros i Hi Hne. by upd_at.
    + apply at_cons. split; [|done]. upd_at. by apply u8_small.
  - destruct Ht as [Hl Hp]. unfold THRESHOLD, MAXMATCH, UINT8_MAX, UINT8_BIT in *. change WNDSIZ with (2 ^ 19) in Hp.
    rewrite (proj2 (Z.leb_le _ _)) by lia. pose proof (pos_sym_range pos Hp). wps.
    rewrite bit_length_spec by lia. wps.
    replace (mOutputPos s1 + 1 + 2) with (mOutputPos s1 + 1 + 1 + 1) by lia.
    replace (mOutputPos s1 + 1 + 3) with (mOutputPos s1 + 1 + 1 + 1 + 1) by lia.
    replace (mOutputPos s1 + 1 + 4) with (mOutputPos s1 + zlen (token_bytes (Ptr len pos))) by (cbn [token_bytes]; rewrite !zlen_cons, zlen_nil; lia).
    eapply Hgoal; [|reflexivity].
    eapply Hput; [reflexivity| | |].
    + upd_at. rewrite Hfs, Hm, Hfl. apply u8_small. rewrite Hfs in Hfr. exact Hfr.
    + intros i Hi Hne. by upd_at.
    + repeat (apply at_cons; split); upd_at; try done. unfold u8.
      replace (len + (255 + 1 - 3)) with (len - 3 + 1 * 2 ^ 8) by lia. rewrite Z.mod_add by lia. apply Z.mod_small. lia.
Qed.

(** ** Start and end *)
Lemma filling_start s : zlen (dst (mSink s)) = L -> mDst (mSink s) = Z.min L (zlen h) -> mCompSize (mSink s) = 0 ->
  take (Z.to_nat (mDst (mSink s))) (dst (mSink s)) = take (Z.to_nat (mDst (mSink s))) h ->
  filling [] [] (HufEncodeStart s).
Proof using siz.
  intros HL Hd Hz Ht. unfold HufEncodeStart, filling, pending. cbn [mC s_Freq mPFreq mSink mBuf mOutputPos mOutputMask CPos].
  split; [|split; [done|split; [done|split; [cbn; unfold zlen; cbn; lia|]]]].
  - split; [done|]. split; [done|]. split; [done|]. split; [apply freqs_none|]. exists [], [], O.
    cbn [InitPutBits dst mDst mCompSize mBitCount mSubBitBuf]. rewrite Hz. cbn [pack].
    split; [done|]. split; [done|]. split; [done|]. split; [done|]. split; [lia|]. split; [done|]. split; [done|]. split; [lia|].
    by rewrite (app_nil_r h).
  - exists [], [], O. split; [done|]. split; [done|]. split; [cbn; lia|]. left. split; [done|]. split; [done|]. lia.
Qed.

(** All symbols in blocks, the last byte full. *)
Definition closed (bs : list block) (k : sink) : Prop :=
  Forall block_ok bs /\ exists pad, (length pad < 8)%nat /\ Forall (fun b => b = false) pad /\
    exists n, length (stream_bits bs ++ pad) = (8 * n)%nat /\
    mCompSize k = u32 (Z.of_nat n) /\ zlen (dst k) = L /\ mDst k = Z.min L (zlen h + Z.of_nat n) /\
    take (Z.to_nat (mDst k)) (dst k) = take (Z.to_nat (mDst k)) (h ++ pack (stream_bits bs ++ pad)).
Lemma flushed l k : wrote L h (l ++ bits 7 0) k -> exists pad, (length pad < 8)%nat /\ Forall (fun b => b = false) pad /\
  exists n, length (l ++ pad) = (8 * n)%nat /\ mCompSize k = u32 (Z.of_nat n) /\ zlen (dst k) = L /\
  mDst k = Z.min L (zlen h + Z.of_nat n) /\
  take (Z.to_nat (mDst k)) (dst k) = take (Z.to_nat (mDst k)) (h ++ pack (l ++ pad)).
Proof using.
  intros (full & part & n & E & Hn & Hcs & Hp & Hb & _ & HL & Hd & Ht).
  assert (Hle : (length l <= length full)%nat).
  { apply (f_equal length) in E. rewrite !length_app, BitStream.length_bits in E. unfold zlen in Hp. lia. }
  assert (Ef : full = l ++ take (length full - length l) (bits 7 0)).
  { apply (f_equal (take (length full))) in E. rewrite take_app_length in E. rewrite <- E, take_app at 1.
    f_equal. by rewrite take_ge. }
  exists (take (length full - length l) (bits 7 0)). rewrite <- Ef. split; [rewrite length_take, BitStream.length_bits; lia|]. split.
  - apply Forall_take. by repeat constructor.
  - exists n. by rewrite Hcs.
Qed.

Lemma HufEncodeEnd_spec bs ts s : filling bs ts s ->
  wp (HufEncodeEnd Start0 mBufSiz s) (fun s' => exists b, closed (bs ++ [b]) (mSink s') /\ b_tokens b = ts).
Proof using siz.
  intros ((Hb & Hne & Hts & Hf & Hw) & Hat & Hpos & Hsz & _). unfold HufEncodeEnd. pose proof (zlen_layout ts 0).
  apply wp_bind. eapply wp_mono; [by apply (SendBlock_spec L h Start0 mBufSiz s ts (stream_bits bs)); try done; lia|]. cbn beta.
  intros s' (b & Eb & Hbok & Hw' & _). apply wp_bind. unfold UINT8_BIT.
  eapply wp_mono; [apply (put L h _ _ 7 0 Hw'); lia|]. cbn beta. intros k Hk. apply wp_Done.
  change (Z.to_nat 7) with 7%nat in Hk. rewrite <- stream_bits_snoc in Hk. exists b. split; [|done].
  split; [apply Forall_app; split; [done|by apply Forall_singleton]|]. by apply flushed.
Qed.
End output.

(** ** Any sequence of symbols *)
Definition output_all (Start0 mBufSiz : Z) (ts : list token) (s : huf) : Res huf :=
  foldM (fun s t => Output Start0 mBufSiz (char_sym t) (token_pos t) s) ts s.

Lemma output_all_spec L h Start0 mBufSiz ts : 4096 <= mBufSiz <= 2 ^ 14 -> Forall token_ok ts ->
  forall bs us s, filling L h mBufSiz bs us s -> wp (output_all Start0 mBufSiz ts s) (fun s' => exists bs' us',
    filling L h mBufSiz bs' us' s' /\ stream_tokens bs' ++ us' = stream_tokens bs ++ us ++ ts).
Proof.
  intros Hs. induction 1 as [|t ts Ht _ IH]; intros bs us s Hf; cbn [output_all foldM].
  - apply wp_Done. exists bs, us. by rewrite app_nil_r.
  - apply wp_bind. eapply wp_mono; [by apply (Output_spec L h Start0 mBufSiz Hs bs us t)|]. cbn beta.
    intros s1 (bs1 & us1 & Hf1 & _ & E1). eapply wp_mono; [by apply IH|]. cbn beta. intros s2 (bs2 & us2 & Hf2 & E2).
    exists bs2, us2. split; [done|]. rewrite E2, app_assoc, E1. by rewrite <- !app_assoc.
Qed.

(** C13: (refinement) The queue of symbols: whatever valid characters and
    pointers go to [Output] between [HufEncodeStart] and [HufEncodeEnd], in
    groups of eight behind their flags and sent in blocks when the buffer is
    nearly full, all calls return and the bytes at the destination, as far as
    it has room, are those of a stream of well-formed blocks whose tokens are
    exactly that sequence; the counted size is that of the whole stream. *)
Theorem output_queue Start0 mBufSiz ts s : 4096 <= mBufSiz <= 2 ^ 14 -> Forall token_ok ts ->
  mDst (mSink s) = 0 -> mCompSize (mSink s) = 0 ->
  exists s' bs, (s ← output_all Start0 mBufSiz ts (HufEncodeStart s); HufEncodeEnd Start0 mBufSiz s) = Done s' /\
    stream_tokens bs = ts /\ closed (zlen (dst (mSink s))) [] bs (mSink s').
Proof.
  intros Hs Hts Hd Hc. set (L := zlen (dst (mSink s))).
  assert (Hf : filling L [] mBufSiz [] [] (HufEncodeStart s)) by (apply filling_start; [done|done|rewrite Hd; unfold L; zl|done|by rewrite Hd]).
  assert (H : wp (s ← output_all Start0 mBufSiz ts (HufEncodeStart s); HufEncodeEnd Start0 mBufSiz s)
    (fun s' => exists bs, stream_tokens bs = ts /\ closed L [] bs (mSink s'))).
  { apply wp_bind. eapply wp_mono; [by apply (output_all_spec L [] Start0 mBufSiz ts Hs Hts [] [])|]. cbn beta.
    intros s1 (bs & us & Hf1 & E). eapply wp_mono; [by apply (HufEncodeEnd_spec L [] Start0 mBufSiz Hs bs us)|]. cbn beta.
    intros s2 (b & Hcl & Eb). exists (bs ++ [b]). split; [|done]. rewrite stream_tokens_snoc, Eb. exact E. }
  apply wp_elim in H as (s' & E & bs & H). by exists s', bs.
Qed.

Lemma output_queue_witness :
  let z := fun _ : Z => 0 in
  let s := mkHuf (mkSym z z z) z z z z (mkTrees z z z z) (mkSink (replicate 64 0) 0 0 0 0) z 0 0 0 in
  exists s' bs, (s ← output_all 0 4096 [Lit 65; Lit 66; Ptr 3 1] (HufEncodeStart s); HufEncodeEnd 0 4096 s) = Done s' /\
    stream_tokens bs = [Lit 65; Lit 66; Ptr 3 1] /\ closed 64 [] bs (mSink s').
Proof.
  intros z s. apply (output_queue 0 4096 [Lit 65; Lit 66; Ptr 3 1] s); [done| |done|done].
  repeat constructor; unfold is_u8, THRESHOLD, MAXMATCH; done.
Defined.
