(* ===== verification/TianoSlide.v ===== *)
(** * The dictionary of the compressor

    Models the string info log of [Library/TianoCompress.c]: a tree whose
    leaves are the positions in the window and whose inner nodes are the
    strings several of them share, with its edges in hash chains, and the
    search for the longest match of the current position in it. *)

From S2P Require Import Prelude CArray BitStream TianoHuff.

Definition NIL : Z := 0.
Definition PERC_FLAG : Z := 0x80000000.
Definition MAX_HASH_VAL : Z := 3 * WNDSIZ + (WNDSIZ / 512 + 1) * UINT8_MAX.
Definition HASH (p c : Z) : Z := u32 (u32 (p + Z.shiftl c (WNDBIT - 9)) + u32 (WNDSIZ * 2)).
Definition s32 (x : Z) : Z := (x + 2 ^ 31) mod 2 ^ 32 - 2 ^ 31.
(** [p & ~PERC_FLAG] *)
Definition unperc (p : Z) : Z := Z.land (u32 p) 0x7fffffff.

(** The lengths of the tables. *)
Definition TEXT : Z := WNDSIZ * 2 + MAXMATCH.
Definition NODES : Z := WNDSIZ + UINT8_MAX + 1.
Definition LEAVES : Z := WNDSIZ * 2.
Definition HASHES : Z := MAX_HASH_VAL + 1.

(** No chain and no path is longer than there are nodes. *)
Definition node_fuel : nat := Z.to_nat (2 * WNDSIZ + 1).

Record log := mkLog {
  mLevel : carr; mChildCount : carr; mPosition : carr; mParent : carr; mPrev : carr; mNext : carr; mAvail : Z }.

Definition set_position (l : log) (p : carr) : log :=
  mkLog (mLevel l) (mChildCount l) p (mParent l) (mPrev l) (mNext l) (mAvail l).
Definition set_parent (l : log) (p : carr) : log :=
  mkLog (mLevel l) (mChildCount l) (mPosition l) p (mPrev l) (mNext l) (mAvail l).
Definition set_links (l : log) (prev next : carr) : log :=
  mkLog (mLevel l) (mChildCount l) (mPosition l) (mParent l) prev next (mAvail l).

Definition InitSlide (l : log) : log :=
  let root f a := afill WNDSIZ (WNDSIZ + UINT8_MAX + 1) (fun _ => f) a in
  let next := afill 1 (WNDSIZ - 1) (fun i => i + 1) (mNext l) in
  mkLog (root 1 (mLevel l)) (mChildCount l) (root NIL (mPosition l)) (afill WNDSIZ (WNDSIZ * 2) (fun _ => NIL) (mParent l))
    (mPrev l) (afill (WNDSIZ * 2) (MAX_HASH_VAL + 1) (fun _ => NIL) (upd next (WNDSIZ - 1) NIL)) 1.

Definition Child (NodeQ CharC : Z) (l : log) : Res (log * Z) :=
  NodeR ← aget HASHES (mNext l) (HASH NodeQ CharC);
  parent ← aset LEAVES (mParent l) NIL NodeQ;
  NodeR ← loop node_fuel
    (fun NodeR =>
       q ← aget LEAVES parent NodeR;
       if negb (q =? NodeQ) then NodeR ← aget HASHES (mNext l) NodeR; Done (inl NodeR) else Done (inr NodeR)) NodeR;
  Done (set_parent l parent, NodeR).

Definition MakeChild (Parent CharC Child : Z) (l : log) : Res log :=
  let Node1 := s32 (HASH Parent CharC) in
  Node2 ← aget HASHES (mNext l) Node1;
  next ← aset HASHES (mNext l) Node1 Child;
  next ← aset HASHES next Child Node2;
  prev ← aset LEAVES (mPrev l) Node2 Child;
  prev ← aset LEAVES prev Child Node1;
  parent ← aset LEAVES (mParent l) Child Parent;
  n ← aget NODES (mChildCount l) Parent;
  count ← aset NODES (mChildCount l) Parent (u8 (n + 1));
  Done (mkLog (mLevel l) count (mPosition l) parent prev next (mAvail l)).

(** [New] takes the place of [Old] in its chain. *)
Definition relink (Old New : Z) (l : log) : Res log :=
  TempNode ← aget LEAVES (mPrev l) Old;
  prev ← aset LEAVES (mPrev l) New TempNode;
  next ← aset HASHES (mNext l) TempNode New;
  TempNode ← aget HASHES next Old;
  next ← aset HASHES next New TempNode;
  prev ← aset LEAVES prev TempNode New;
  Done (set_links l prev next).

Definition Split (mText : carr) (mPos mMatchPos mMatchLen Old : Z) (l : log) : Res log :=
  let New := mAvail l in
  avail ← aget HASHES (mNext l) New;
  count ← aset NODES (mChildCount l) New 0;
  l ← relink Old New (mkLog (mLevel l) count (mPosition l) (mParent l) (mPrev l) (mNext l) avail);
  q ← aget LEAVES (mParent l) Old;
  parent ← aset LEAVES (mParent l) New q;
  level ← aset NODES (mLevel l) New (u8 mMatchLen);
  position ← aset NODES (mPosition l) New mPos;
  let l := mkLog level (mChildCount l) position parent (mPrev l) (mNext l) (mAvail l) in
  c ← aget TEXT mText (mMatchPos + mMatchLen);
  l ← MakeChild New c Old l;
  c ← aget TEXT mText (mPos + mMatchLen);
  MakeChild New c mPos l.

(** *** Where a long match of the position before leads *)

(** [while (NodeQ == NIL) ...]: from a leaf that was replaced to the one in
    its place. *)
Definition live_leaf (l : log) (NodeR : Z) : Res (Z * Z) :=
  q ← aget LEAVES (mParent l) NodeR;
  loop node_fuel
    (fun '(NodeR, NodeQ) =>
       if NodeQ =? NIL then
         NodeR ← aget HASHES (mNext l) NodeR; NodeQ ← aget LEAVES (mParent l) NodeR; Done (inl (NodeR, NodeQ))
       else Done (inr (NodeR, NodeQ))) (NodeR, q).

(** [while (mLevel[NodeQ] >= mMatchLen) ...] *)
Definition climb (l : log) (mMatchLen NodeR NodeQ : Z) : Res (Z * Z) :=
  loop node_fuel
    (fun '(NodeR, NodeQ) =>
       v ← aget NODES (mLevel l) NodeQ;
       if mMatchLen <=? v then q ← aget LEAVES (mParent l) NodeQ; Done (inl (NodeQ, q)) else Done (inr (NodeR, NodeQ)))
    (NodeR, NodeQ).

(** The positions from [NodeT] up while they have the flag, and the next. *)
Definition refresh (mPos NodeT : Z) (l : log) : Res log :=
  '(position, NodeT) ← loop node_fuel
    (fun '(position, NodeT) =>
       p ← aget NODES position NodeT;
       if p <? 0 then
         position ← aset NODES position NodeT mPos; NodeT ← aget LEAVES (mParent l) NodeT; Done (inl (position, NodeT))
       else Done (inr (position, NodeT))) (mPosition l, NodeT);
  if NodeT <? WNDSIZ then
    position ← aset NODES position NodeT (s32 (Z.lor mPos PERC_FLAG)); Done (set_position l position)
  else Done (set_position l position).

(** *** Down the tree *)

(** [while (mMatchLen < Index2) ...]: whether it came to its end. *)
Definition compare (mText : carr) (mPos mMatchPos Index2 mMatchLen : Z) : Res (bool * Z) :=
  loop 257
    (fun mMatchLen =>
       if mMatchLen <? Index2 then
         a ← aget TEXT mText (mPos + mMatchLen); b ← aget TEXT mText (mMatchPos + mMatchLen);
         if negb (a =? b) then Done (inr (false, mMatchLen)) else Done (inl (mMatchLen + 1))
       else Done (inr (true, mMatchLen))) mMatchLen.

(** The position takes the place of the leaf it is equal to. *)
Definition replace_leaf (mPos NodeQ NodeR : Z) (l : log) : Res log :=
  l ← relink NodeR mPos l;
  parent ← aset LEAVES (mParent l) mPos NodeQ;
  parent ← aset LEAVES parent NodeR NIL;
  next ← aset HASHES (mNext l) NodeR mPos;
  Done (set_links (set_parent l parent) (mPrev l) next).

Definition descend_step (mText : carr) (mPos : Z) (s : log * Z * Z * Z) : Res (log * Z * Z * Z + log * Z * Z) :=
  let '(l, NodeQ, NodeR, mMatchLen) := s in
  '(Index2, mMatchPos) ← (if WNDSIZ <=? NodeR then Done (MAXMATCH, NodeR)
    else v ← aget NODES (mLevel l) NodeR; p ← aget NODES (mPosition l) NodeR; Done (v, unperc p));
  let mMatchPos := if mPos <=? mMatchPos then mMatchPos - WNDSIZ else mMatchPos in
  '(same, mMatchLen) ← compare mText mPos mMatchPos Index2 mMatchLen;
  if negb same then l ← Split mText mPos mMatchPos mMatchLen NodeR l; Done (inr (l, mMatchPos, mMatchLen))
  else if MAXMATCH <=? mMatchLen then l ← replace_leaf mPos NodeQ NodeR l; Done (inr (l, mMatchPos, mMatchLen))
  else
    position ← aset NODES (mPosition l) NodeR mPos;
    let NodeQ := NodeR in
    c ← aget TEXT mText (mPos + mMatchLen);
    '(l, NodeR) ← Child NodeQ c (set_position l position);
    if NodeR =? NIL then l ← MakeChild NodeQ c mPos l; Done (inr (l, mMatchPos, mMatchLen))
    else Done (inl (l, NodeQ, NodeR, mMatchLen + 1)).

(** The log, [mMatchPos] and [mMatchLen] afterwards. *)
Definition InsertNode (mText : carr) (mPos mMatchPos mMatchLen : Z) (l : log) : Res (log * Z * Z) :=
  let descend l NodeQ NodeR mMatchLen := loop 258 (descend_step mText mPos) (l, NodeQ, NodeR, mMatchLen) in
  if 4 <=? mMatchLen then
    let mMatchLen := mMatchLen - 1 in
    '(NodeR, NodeQ) ← live_leaf l (s32 (Z.lor (mMatchPos + 1) WNDSIZ));
    '(NodeR, NodeQ) ← climb l mMatchLen NodeR NodeQ;
    l ← refresh mPos NodeQ l;
    descend l NodeQ NodeR mMatchLen
  else
    c ← aget TEXT mText mPos;
    let NodeQ := s32 (c + WNDSIZ) in
    CharC ← aget TEXT mText (mPos + 1);
    '(l, NodeR) ← Child NodeQ CharC l;
    if NodeR =? NIL then l ← MakeChild NodeQ CharC mPos l; Done (l, mMatchPos, 1)
    else descend l NodeQ NodeR 2.

(** *** Positions that leave the window *)

(** A position read back in the window before [mPos]. *)
Definition in_window (mPos p : Z) : Z := if mPos <=? p then p - WNDSIZ else p.

(** [while (NodeU & PERC_FLAG) ...]: the newer positions of the nodes above. *)
Definition delete_up (mPos : Z) (l : log) (NodeS NodeQ NodeU : Z) : Res (carr * Z * Z * Z) :=
  loop node_fuel
    (fun '(position, NodeS, NodeQ, NodeU) =>
       if negb (Z.land (u32 NodeU) PERC_FLAG =? 0) then
         let NodeU := in_window mPos (unperc NodeU) in
         let NodeS := if NodeU >? NodeS then NodeU else NodeS in
         position ← aset NODES position NodeQ (s32 (Z.lor NodeS WNDSIZ));
         NodeQ ← aget LEAVES (mParent l) NodeQ;
         NodeU ← aget NODES position NodeQ;
         Done (inl (position, NodeS, NodeQ, NodeU))
       else Done (inr (position, NodeS, NodeQ, NodeU))) (mPosition l, NodeS, NodeQ, NodeU).

Definition DeleteNode (mText : carr) (mPos : Z) (l : log) : Res log :=
  q ← aget LEAVES (mParent l) mPos;
  if q =? NIL then Done l else
  NodeR ← aget LEAVES (mPrev l) mPos;
  NodeS ← aget HASHES (mNext l) mPos;
  next ← aset HASHES (mNext l) NodeR NodeS;
  prev ← aset LEAVES (mPrev l) NodeS NodeR;
  let NodeR := q in
  parent ← aset LEAVES (mParent l) mPos NIL;
  let l := set_links (set_parent l parent) prev next in
  if WNDSIZ <=? NodeR then Done l else
  n ← aget NODES (mChildCount l) NodeR;
  count ← aset NODES (mChildCount l) NodeR (u8 (n - 1));
  let l := mkLog (mLevel l) count (mPosition l) (mParent l) (mPrev l) (mNext l) (mAvail l) in
  if 1 <? u8 (n - 1) then Done l else
  p ← aget NODES (mPosition l) NodeR;
  let NodeT := in_window mPos (unperc p) in
  NodeQ ← aget LEAVES (mParent l) NodeR;
  NodeU ← aget NODES (mPosition l) NodeQ;
  '(position, NodeS, NodeQ, NodeU) ← delete_up mPos l NodeT NodeQ NodeU;
  position ← (if NodeQ <? WNDSIZ then
      let NodeU := in_window mPos NodeU in
      let NodeS := if NodeU >? NodeS then NodeU else NodeS in
      aset NODES position NodeQ (s32 (Z.lor (Z.lor NodeS WNDSIZ) PERC_FLAG))
    else Done position);
  let l := set_position l position in
  v ← aget NODES (mLevel l) NodeR;
  c ← aget TEXT mText (NodeT + v);
  '(l, NodeS) ← Child NodeR c l;
  NodeT ← aget LEAVES (mPrev l) NodeS;
  NodeU ← aget HASHES (mNext l) NodeS;
  next ← aset HASHES (mNext l) NodeT NodeU;
  prev ← aset LEAVES (mPrev l) NodeU NodeT;
  NodeT ← aget LEAVES prev NodeR;
  next ← aset HASHES next NodeT NodeS;
  prev ← aset LEAVES prev NodeS NodeT;
  NodeT ← aget HASHES next NodeR;
  prev ← aset LEAVES prev NodeT NodeS;
  next ← aset HASHES next NodeS NodeT;
  q ← aget LEAVES (mParent l) NodeR;
  parent ← aset LEAVES (mParent l) NodeS q;
  parent ← aset LEAVES parent NodeR NIL;
  next ← aset HASHES next NodeR (mAvail l);
  Done (mkLog (mLevel l) (mChildCount l) (mPosition l) parent prev next NodeR).

(** ** The hash chains *)
Definition is_hash (h : Z) : Prop := LEAVES <= h <= MAX_HASH_VAL.

(** From [p] on, the nodes are linked in both directions, to the end. *)
Fixpoint linked (next prev : carr) (p : Z) (c : list Z) : Prop :=
  match c with
  | [] => next p = NIL
  | r :: c => next p = r /\ prev r = p /\ linked next prev r c
  end.

(** [C h] are the nodes on the chain of [h]; no node is on two. *)
Definition chains (next prev : carr) (C : Z -> list Z) : Prop :=
  (forall h, is_hash h -> linked next prev h (C h) /\ NoDup (C h)) /\
  (forall h r, is_hash h -> r ∈ C h -> 0 < r < LEAVES) /\
  (forall h h' r, is_hash h -> is_hash h' -> r ∈ C h -> r ∈ C h' -> h = h').

Definition chained (C : Z -> list Z) (r : Z) : Prop := exists h, is_hash h /\ r ∈ C h.

Lemma linked_ext next prev next' prev' c : forall p, next' p = next p ->
  (forall r, r ∈ c -> next' r = next r /\ prev' r = prev r) -> linked next prev p c -> linked next' prev' p c.
Proof.
  induction c as [|r c IH]; intros p Hp Hr; cbn [linked]; [by rewrite Hp|]. intros (E1 & E2 & H).
  destruct (Hr r ltac:(by left)) as [En Ev]. split; [by rewrite Hp|]. split; [by rewrite Ev|].
  apply IH; [done| |done]. intros r' Hr'. apply Hr. by right.
Qed.

Lemma linked_mid next prev a r b : forall p, linked next prev p (a ++ r :: b) ->
  (prev r = p \/ prev r ∈ a) /\ (next r = NIL /\ b = [] \/ exists x b', b = x :: b' /\ next r = x) /\ linked next prev r b.
Proof.
  induction a as [|x a IH]; intros p; cbn [app linked]; intros (E1 & E2 & H).
  - split; [by left|]. split; [|done]. destruct b as [|x b]; [by left|]. right. exists x, b. split; [done|apply H].
  - destruct (IH x H) as (Ep & Hb). split; [|done]. right. destruct Ep as [->|]; [by left|by right].
Qed.

Lemma linked_replace next prev old new a b : forall p, linked next prev p (a ++ old :: b) -> NoDup (p :: a ++ old :: b) ->
  ~ new ∈ p :: a ++ old :: b -> ~ NIL ∈ new :: p :: a ++ old :: b ->
  linked (upd (upd next (prev old) new) new (next old)) (upd (upd prev new (prev old)) (next old) new) p (a ++ new :: b).
Proof.
  induction a as [|y a IH]; intros p Hl Hnd Hnew Hnil.
  - cbn [app] in *. destruct Hl as (E1 & E2 & Hl). apply NoDup_cons in Hnd as [Hp Hnd]. apply NoDup_cons in Hnd as [Hold Hnd].
    assert (Hnp : new <> p) by (intros ->; apply Hnew; by left).
    assert (H0n : next old <> new).
    { destruct b as [|x b]; cbn [linked] in Hl.
      - rewrite Hl. intros E. apply Hnil. rewrite E. by left.
      - destruct Hl as (-> & _). intros ->. apply Hnew. right. right. by left. }
    assert (Hpo : p <> old) by (intros ->; apply Hp; by left).
    cbn [linked]. rewrite E2. split; [by rewrite upd_ne, upd_eq by done|].
    split; [by rewrite upd_ne, upd_eq by done|]. destruct b as [|x b]; cbn [linked] in *; [by rewrite upd_eq|].
    destruct Hl as (E3 & E4 & Hl). split; [by rewrite upd_eq|]. split; [rewrite E3; by rewrite upd_eq|].
    apply NoDup_cons in Hnd as [Hx Hnd].
    assert (Hxn : x <> new) by (intros ->; apply Hnew; right; right; by left).
    assert (Hxp : x <> p) by (intros ->; apply Hp; right; by left).
    eapply linked_ext; [| |exact Hl].
    + by rewrite !upd_ne by done.
    + intros r Hr. assert (r <> new) by (intros ->; apply Hnew; right; right; by right).
      assert (r <> p) by (intros ->; apply Hp; right; by right). assert (r <> x) by (intros ->; done).
      rewrite E3, !upd_ne by done. done.
  - cbn [app] in *. destruct Hl as (E1 & E2 & Hl). apply NoDup_cons in Hnd as [Hp Hnd]. pose proof Hnd as Hnd'.
    apply NoDup_cons in Hnd' as [Hy _].
    assert (Hnp : new <> p) by (intros ->; apply Hnew; by left).
    assert (Hyn : new <> y) by (intros ->; apply Hnew; right; by left).
    destruct (linked_mid _ _ _ _ _ _ Hl) as (Hprev & Hnext & _).
    assert (Hpp : p <> prev old).
    { intros ->. apply Hp. destruct Hprev as [->|Hin]; [by left|right; apply elem_of_app; by left]. }
    assert (Hyx : y <> next old).
    { destruct Hnext as [[-> ->]|(x & b' & -> & ->)].
      - intros ->. apply Hnil. right. right. by left.
      - intros ->. apply Hy. apply elem_of_app. right. right. by left. }
    cbn [linked]. split; [by rewrite !upd_ne by done|]. split; [by rewrite !upd_ne by done|].
    apply IH; [done|done| |].
    + intros Hin. apply Hnew. by right.
    + intros Hin. apply Hnil. apply elem_of_cons in Hin as [->|Hin]; [by left|]. right. by right.
Qed.

Lemma upd_chain (C : Z -> list Z) h c h' : upd C h c h' = if decide (h' = h) then c else C h'.
Proof. destruct (decide (h' = h)) as [->|]; [by rewrite upd_eq|by rewrite upd_ne]. Qed.

Lemma upd_chain_Z (a : carr) i v j : upd a i v j = if decide (j = i) then v else a j.
Proof. destruct (decide (j = i)) as [->|]; [by rewrite upd_eq|by rewrite upd_ne]. Qed.

(** [c] is put in front of the chain of [h]. *)
Lemma chains_insert next prev C h c : chains next prev C -> is_hash h -> 0 < c < LEAVES -> ~ chained C c ->
  exists C', chains (upd (upd next h c) c (next h)) (upd (upd prev (next h) c) c h) C' /\
    forall h' r, is_hash h' -> (r ∈ C' h' <-> (r = c /\ h' = h) \/ r ∈ C h').
Proof.
  intros (Hl & Hr & Hd) Hh Hc Hn. exists (upd C h (c :: C h)).
  assert (Hel : forall h' r, is_hash h' -> (r ∈ upd C h (c :: C h) h' <-> (r = c /\ h' = h) \/ r ∈ C h')).
  { intros h' r Hh'. rewrite upd_chain. destruct (decide (h' = h)) as [->|Hne]; [rewrite elem_of_cons; tauto|tauto]. }
  assert (Hhc : h <> c) by (unfold is_hash in Hh; lia).
  assert (Hnh : next h = NIL \/ next h ∈ C h).
  { destruct (Hl h Hh) as [H _]. destruct (C h) as [|x l]; [by left|right]. destruct H as (-> & _). by left. }
  split; [|done]. split; [|split].
  - intros h' Hh'. destruct (Hl h' Hh') as [Hlk Hnd]. rewrite upd_chain. destruct (decide (h' = h)) as [->|Hne].
    + assert (Hcn : ~ c ∈ C h) by (intros Hin; apply Hn; by exists h). split; [|by apply NoDup_cons].
      cbn [linked]. split; [by rewrite upd_ne, upd_eq by done|]. split; [by rewrite upd_eq|].
      destruct (C h) as [|x l] eqn:E; cbn [linked] in *; [by rewrite upd_eq|]. destruct Hlk as (E1 & E2 & Hlk).
      assert (Hxc : x <> c) by (intros ->; apply Hcn; by left). split; [by rewrite upd_eq|].
      split; [rewrite upd_ne, E1, upd_eq by done; done|]. apply NoDup_cons in Hnd as [Hx Hnd].
      assert (Hx2 : forall r, r ∈ x :: l -> r <> h) by (intros r Hin ->; rewrite <- E in Hin; apply (Hr h) in Hin; [unfold is_hash in Hh; lia|done]).
      eapply linked_ext; [| |exact Hlk].
      * rewrite upd_ne by done. apply upd_ne. apply Hx2. by left.
      * intros r Hrl. assert (r <> c) by (intros ->; apply Hcn; by right). assert (r <> x) by (intros ->; done).
        assert (r <> h) by (apply Hx2; by right). rewrite E1, !upd_ne by done. done.
    + split; [|done]. eapply linked_ext; [| |exact Hlk].
      * assert (h' <> c) by (unfold is_hash in Hh'; lia). by rewrite !upd_ne by done.
      * intros r Hin. pose proof (Hr h' r Hh' Hin). assert (r <> h) by (unfold is_hash in Hh; lia).
        assert (r <> c) by (intros ->; apply Hn; by exists h').
        assert (r <> next h). { intros ->. destruct Hnh as [E|Hin2]; [rewrite E in *; unfold NIL in *; lia|]. apply Hne. by apply (Hd h' h (next h)). }
        by rewrite !upd_ne by done.
  - intros h' r Hh' Hin. apply Hel in Hin as [[-> _]|Hin]; [done| |done]. by apply (Hr h').
  - intros h1 h2 r H1 H2 Hi1 Hi2. apply Hel in Hi1; [|done]. apply Hel in Hi2; [|done].
    destruct Hi1 as [[-> ->]|Hi1], Hi2 as [[E ->]|Hi2]; [done| | |by apply (Hd h1 h2 r)].
    + exfalso. apply Hn. by exists h2.
    + subst r. exfalso. apply Hn. by exists h1.
Qed.

Lemma chains_around next prev C h r : chains next prev C -> is_hash h -> r ∈ C h ->
  (prev r = h \/ (prev r ∈ C h /\ prev r <> r)) /\ (next r = NIL \/ (next r ∈ C h /\ next r <> r)).
Proof.
  intros (Hl & Hr & Hd) Hh Hin. destruct (Hl h Hh) as [Hlk Hnd]. apply list_elem_of_split in Hin as (a & b & E). rewrite E in *.
  apply linked_mid in Hlk as (Hp & Hn & _). apply NoDup_app in Hnd as (Hna & Hab & Hnb). apply NoDup_cons in Hnb as [Hrb _]. split.
  - destruct Hp as [->|Hp]; [by left|right]. split; [apply elem_of_app; by left|]. intros E2. apply (Hab _ Hp). rewrite E2. by left.
  - destruct Hn as [[-> _]|(x & b' & -> & ->)]; [by left|right]. split; [apply elem_of_app; right; right; by left|].
    intros ->. apply Hrb. by left.
Qed.

(** [new] takes the place of [old]. *)
Lemma chains_replace next prev C h old new : chains next prev C -> is_hash h -> old ∈ C h -> 0 < new < LEAVES -> ~ chained C new ->
  exists C', chains (upd (upd next (prev old) new) new (next old)) (upd (upd prev new (prev old)) (next old) new) C' /\
    forall h' r, is_hash h' -> (r ∈ C' h' <-> (r = new /\ h' = h) \/ (r ∈ C h' /\ r <> old)).
Proof.
  intros Hch Hh Hin Hnew Hn. pose proof (chains_around _ _ _ _ _ Hch Hh Hin) as [Hp Hx]. destruct Hch as (Hl & Hr & Hd).
  destruct (list_elem_of_split _ _ Hin) as (a & b & E). exists (upd C h (a ++ new :: b)).
  destruct (Hl h Hh) as [Hlk Hnd]. rewrite E in Hlk, Hnd.
  assert (Hno : new <> old) by (intros ->; apply Hn; by exists h).
  assert (Hel : forall h' r, is_hash h' -> (r ∈ upd C h (a ++ new :: b) h' <-> (r = new /\ h' = h) \/ (r ∈ C h' /\ r <> old))).
  { intros h' r Hh'. rewrite upd_chain. destruct (decide (h' = h)) as [->|Hne].
    - rewrite E, !elem_of_app, !elem_of_cons. apply NoDup_app in Hnd as (_ & Hab & Hnb). apply NoDup_cons in Hnb as [Hob _].
      specialize (Hab old). rewrite elem_of_cons in Hab. split.
      + intros [H|[->|H]]; [right|by left|right]; (split; [tauto|]); intros ->; tauto.
      + intros [[-> _]|[H Hne]]; tauto.
    - split; [|tauto]. intros H. right. split; [done|]. intros ->. apply Hne. by apply (Hd h' h old). }
  split; [|done]. split; [|split].
  - intros h' Hh'. rewrite upd_chain. destruct (decide (h' = h)) as [->|Hne].
    + assert (Hhn : ~ h ∈ a ++ old :: b) by (rewrite <- E; intros H; apply (Hr h) in H; [unfold is_hash in Hh; lia|done]).
      assert (Hnn : ~ new ∈ a ++ old :: b) by (rewrite <- E; intros H; apply Hn; by exists h).
      split.
      * apply linked_replace; [done|by apply NoDup_cons| |].
        -- rewrite elem_of_cons. intros [->|H]; [unfold is_hash in Hh; lia|done].
        -- rewrite !elem_of_cons, <- E. unfold NIL, is_hash in *. intros [H|[H|H]]; [lia| |apply (Hr h) in H; [lia|done]].
           unfold LEAVES, WNDSIZ in Hh. change (2 ^ WNDBIT) with 524288 in Hh. lia.
      * apply NoDup_app in Hnd as (Hna & Hab & Hnb). apply NoDup_cons in Hnb as [Hob Hnb]. apply NoDup_app. split; [done|]. split.
        -- intros y Hy. rewrite elem_of_cons. intros [->|Hb]; [apply Hnn, elem_of_app; by left|]. apply (Hab y Hy). by right.
        -- apply NoDup_cons. split; [|done]. intros Hb. apply Hnn, elem_of_app. right. by right.
    + destruct (Hl h' Hh') as [Hlk' Hnd']. split; [|done]. eapply linked_ext; [| |exact Hlk'].
      * assert (h' <> new) by (unfold is_hash in Hh'; lia). rewrite upd_ne by done. apply upd_ne.
        destruct Hp as [->|[Hp _]]; [done|]. apply (Hr h) in Hp; [unfold is_hash in Hh'; lia|done].
      * intros r Hr'. pose proof (Hr h' r Hh' Hr'). assert (r <> new) by (intros ->; apply Hn; by exists h').
        assert (r <> next old).
        { intros ->. destruct Hx as [Ex|[Hx _]]; [rewrite Ex in *; unfold NIL in *; lia|]. apply Hne. by apply (Hd h' h (next old)). }
        assert (r <> prev old).
        { intros ->. destruct Hp as [Ep|[Hp _]]; [rewrite Ep in *; unfold is_hash in *; lia|]. apply Hne. by apply (Hd h' h (prev old)). }
        by rewrite !upd_ne by done.
  - intros h' r Hh' H. apply Hel in H as [[-> _]|[H _]]; [done| |done]. by apply (Hr h').
  - intros h1 h2 r H1 H2 Hi1 Hi2. apply Hel in Hi1; [|done]. apply Hel in Hi2; [|done].
    destruct Hi1 as [[-> ->]|[Hi1 _]], Hi2 as [[E2 ->]|[Hi2 _]]; [done| | |by apply (Hd h1 h2 r)].
    + exfalso. apply Hn. by exists h2.
    + subst r. exfalso. apply Hn. by exists h1.
Qed.

(** A chain is no longer than there are nodes. *)
Lemma chain_length next prev C h : chains next prev C -> is_hash h -> Z.of_nat (length (C h)) < LEAVES.
Proof.
  intros (Hl & Hr & _) Hh. destruct (Hl h Hh) as [_ Hnd].
  assert (Hs : C h ⊆+ seqZ 1 (LEAVES - 1)).
  { apply NoDup_submseteq; [done|]. intros r Hin. apply elem_of_seqZ. apply (Hr h) in Hin; [lia|done]. }
  apply submseteq_length in Hs. rewrite length_seqZ in Hs. assert (0 < LEAVES) by done. lia.
Qed.

(** ** The tree *)
Ltac consts :=
  assert (HW : WNDSIZ = 524288) by done; assert (HL : LEAVES = 1048576) by done; assert (HT : TEXT = 1048832) by done;
  assert (HN : NODES = 524544) by done; assert (HH : HASHES = 1834240) by done; assert (HM : MAX_HASH_VAL = 1834239) by done;
  assert (HU : UINT8_MAX = 255) by done; assert (HX : MAXMATCH = 256) by done; assert (H0 : NIL = 0) by done.

Definition is_parent (l : log) (q : Z) : Prop := 1 <= q < mAvail l \/ WNDSIZ <= q <= WNDSIZ + UINT8_MAX.

Lemma HASH_val p c : 0 <= p <= WNDSIZ + UINT8_MAX -> is_u8 c ->
  HASH p c = p + 1024 * c + LEAVES /\ is_hash (HASH p c) /\ s32 (HASH p c) = HASH p c.
Proof.
  consts. unfold is_u8, is_hash, HASH. intros Hp Hc. change (WNDBIT - 9) with 10. rewrite Z.shiftl_mul_pow2 by lia.
  change (2 ^ 10) with 1024. rewrite (u32_small (p + _)) by (unfold is_u32; lia). change (u32 (WNDSIZ * 2)) with 1048576.
  rewrite u32_small by (unfold is_u32; lia). split; [lia|]. split; [lia|].
  unfold s32. rewrite Z.mod_small by lia. lia.
Qed.

Lemma unperc_small p : 0 <= p < 2 ^ 31 -> unperc p = p.
Proof.
  intros Hp. unfold unperc. rewrite u32_small by (unfold is_u32; lia). change 0x7fffffff with (Z.ones 31).
  rewrite Z.land_ones by lia. by apply Z.mod_small.
Qed.
Lemma unperc_flag p : 0 <= p < 2 ^ 31 -> unperc (s32 (Z.lor p PERC_FLAG)) = p.
Proof.
  intros Hp. unfold unperc, s32, PERC_FLAG. rewrite Z.lor_comm. change 0x80000000 with (1 * 2 ^ 31).
  rewrite lor_disjoint by lia. replace (1 * 2 ^ 31 + p + 2 ^ 31) with (p + 1 * 2 ^ 32) by lia.
  rewrite Z.mod_add, (Z.mod_small p) by lia. change 0x7fffffff with (Z.ones 31). rewrite Z.land_ones by lia. unfold u32.
  rewrite Z.mod_mod_divide by (by exists 2). replace (p - 2 ^ 31) with (p + (-1) * 2 ^ 31) by lia.
  rewrite Z.mod_add by lia. by apply Z.mod_small.
Qed.

Section tree.
Context (T : carr).
Hypothesis T_bytes : forall i, 0 <= i < TEXT -> is_u8 (T i).

(** The [n] bytes at two positions are the same. *)
Definition same (x y n : Z) : Prop := forall k, 0 <= k < n -> T (x + k) = T (y + k).

Definition loc (l : log) (q : Z) : Z := unperc (mPosition l q).
(** Where the string of a node is to be read, and its length. *)
Definition sample (l : log) (r : Z) : Z := if WNDSIZ <=? r then r else loc l r.
Definition level (l : log) (r : Z) : Z := if WNDSIZ <=? r then MAXMATCH else mLevel l r.

(** The string of the parent [q] is also at [x]; a root stands for a byte. *)
Definition agrees (l : log) (q x : Z) : Prop :=
  if WNDSIZ <=? q then T x = q - WNDSIZ else same x (loc l q) (mLevel l q).

Record edge (l : log) (P h r : Z) : Prop := {
  e_node : 1 <= r < mAvail l \/ WNDSIZ <= r < P;
  e_parent : is_parent l (mParent l r);
  e_text : agrees l (mParent l r) (sample l r);
  e_hash : h = HASH (mParent l r) (T (sample l r + mLevel l (mParent l r)));
  e_level : mLevel l (mParent l r) < level l r }.

(** The tree holds the positions before [P]. Inner nodes point to a position
    before [P], but for those up to the level [b], which may point to [P]. *)
Record valid (C : Z -> list Z) (l : log) (P b : Z) : Prop := {
  v_pos : WNDSIZ <= P <= 2 * WNDSIZ - 1;
  v_chains : chains (mNext l) (mPrev l) C;
  v_edges : forall h r, is_hash h -> r ∈ C h -> edge l P h r;
  v_inner : forall i, 1 <= i < mAvail l ->
    2 <= mLevel l i <= UINT8_MAX /\ WNDSIZ <= loc l i /\ (loc l i < P \/ (loc l i = P /\ mLevel l i <= b)) /\ chained C i;
  v_leaves : forall r, WNDSIZ <= r < P -> chained C r \/
    (mParent l r = NIL /\ r < mNext l r < P /\ same r (mNext l r) MAXMATCH);
  v_new : forall r, P <= r < LEAVES -> mParent l r = NIL;
  v_avail : 1 <= mAvail l <= Z.max 1 (P - WNDSIZ);
  v_free : forall i, mAvail l <= i < WNDSIZ - 1 -> mNext l i = i + 1;
  v_roots : forall q, WNDSIZ <= q <= WNDSIZ + UINT8_MAX -> mLevel l q = 1 /\ mPosition l q = NIL }.

Lemma sample_leaf l r : WNDSIZ <= r -> sample l r = r.
Proof using. intros H. unfold sample. by rewrite (proj2 (Z.leb_le _ _) H). Qed.
Lemma sample_inner l r : r < WNDSIZ -> sample l r = loc l r.
Proof using. intros H. unfold sample. by rewrite (proj2 (Z.leb_gt _ _) H). Qed.
Lemma level_leaf l r : WNDSIZ <= r -> level l r = MAXMATCH.
Proof using. intros H. unfold level. by rewrite (proj2 (Z.leb_le _ _) H). Qed.
Lemma level_inner l r : r < WNDSIZ -> level l r = mLevel l r.
Proof using. intros H. unfold level. by rewrite (proj2 (Z.leb_gt _ _) H). Qed.

Lemma agrees_root l q x : WNDSIZ <= q -> agrees l q x <-> T x = q - WNDSIZ.
Proof using. intros H. unfold agrees. by rewrite (proj2 (Z.leb_le _ _) H). Qed.
Lemma agrees_inner l q x : q < WNDSIZ -> agrees l q x <-> same x (loc l q) (mLevel l q).
Proof using. intros H. unfold agrees. by rewrite (proj2 (Z.leb_gt _ _) H). Qed.

Lemma same_le x y n m : m <= n -> same x y n -> same x y m.
Proof using. intros Hm H k Hk. apply H. lia. Qed.
Lemma same_sym x y n : same x y n -> same y x n.
Proof using. intros H k Hk. symmetry. by apply H. Qed.
Lemma same_chain x y z n : same x y n -> same y z n -> same x z n.
Proof using. intros H1 H2 k Hk. by rewrite H1, H2. Qed.
Lemma same_first x y n : 0 < n -> same x y n -> T x = T y.
Proof using. intros Hn H. specialize (H 0 ltac:(lia)). by rewrite !Z.add_0_r in H. Qed.

(** A string that agrees with a node on more than the string of [q]. *)
Lemma agrees_same l q x y n : same x y n -> 0 < n -> mLevel l q <= n -> agrees l q x -> agrees l q y.
Proof using.
  intros Hs Hn Hq. unfold agrees. destruct (Z.leb_spec WNDSIZ q).
  - intros <-. symmetry. by apply (same_first x y n).
  - intros H2. eapply same_chain; [|exact H2]. apply same_sym. by apply (same_le _ _ n).
Qed.

Lemma parent_level C l P b q : valid C l P b -> is_parent l q -> 1 <= mLevel l q <= UINT8_MAX.
Proof using.
  consts. intros V [H|H]; [destruct (v_inner _ _ _ _ V q H); lia|]. destruct (v_roots _ _ _ _ V q H) as [-> _]. lia.
Qed.

Lemma avail_bound C l P b : valid C l P b -> 1 <= mAvail l <= WNDSIZ - 1.
Proof using. consts. intros V. pose proof (v_avail _ _ _ _ V). pose proof (v_pos _ _ _ _ V). lia. Qed.

(** The place and the level of what is on a chain. *)
Lemma sample_range C l P b h r : valid C l P b -> is_hash h -> r ∈ C h ->
  WNDSIZ <= sample l r <= P /\ 2 <= level l r <= MAXMATCH /\ 0 < r < P.
Proof using.
  consts. intros V Hh Hr. destruct (e_node _ _ _ _ (v_edges _ _ _ _ V h r Hh Hr)) as [H|H]; pose proof (avail_bound _ _ _ _ V); pose proof (v_pos _ _ _ _ V).
  - rewrite sample_inner, level_inner by lia. destruct (v_inner _ _ _ _ V r H) as (? & ? & ? & _). lia.
  - rewrite sample_leaf, level_leaf by lia. lia.
Qed.

Lemma parent_range C l P b q : valid C l P b -> is_parent l q -> 0 < q <= WNDSIZ + UINT8_MAX.
Proof using. consts. intros V [H|H]; [|lia]. pose proof (avail_bound _ _ _ _ V). lia. Qed.

(** An edge stays as long as its two ends do. *)
Lemma edge_ext l l' P P' h r : edge l P h r -> mAvail l <= mAvail l' -> P <= P' -> mParent l' r = mParent l r ->
  sample l' r = sample l r -> level l' r = level l r -> mLevel l' (mParent l r) = mLevel l (mParent l r) ->
  (mParent l r < WNDSIZ -> loc l' (mParent l r) = loc l (mParent l r)) -> edge l' P' h r.
Proof using.
  intros [E1 E2 E3 E4 E5] Ha HP Hq Hs Hl Hql Hqp. constructor; rewrite ?Hq, ?Hs, ?Hl, ?Hql; try done.
  - destruct E1; [left|right]; lia.
  - destruct E2; [left|right]; lia.
  - unfold agrees in *. rewrite Hql. destruct (Z.leb_spec WNDSIZ (mParent l r)); [done|]. by rewrite Hqp.
Qed.

(** An inner node may point to [P] once its string is there. *)
Lemma valid_move C l P b b' t v : valid C l P b -> 1 <= t < mAvail l -> unperc v = P -> same P (loc l t) (mLevel l t) ->
  mLevel l t <= b' -> b <= b' -> valid C (set_position l (upd (mPosition l) t v)) P b'.
Proof using.
  consts. intros V Ht Hv Hs Hb Hbb. pose proof (avail_bound _ _ _ _ V) as Ha. pose proof (v_pos _ _ _ _ V) as HP.
  set (l' := set_position l (upd (mPosition l) t v)).
  assert (El : forall i, loc l' i = if decide (i = t) then P else loc l i).
  { intros i. unfold l', loc. cbn [set_position mPosition]. destruct (decide (i = t)) as [->|]; [by rewrite upd_eq|by rewrite upd_ne]. }
  destruct (v_inner _ _ _ _ V t Ht) as (Hlt & _).
  constructor; try apply V.
  - intros h r Hh Hr. pose proof (v_edges _ _ _ _ V h r Hh Hr) as E. pose proof (sample_range _ _ _ _ _ _ V Hh Hr) as Hsr.
    pose proof (parent_level _ _ _ _ _ V (e_parent _ _ _ _ E)) as Hql.
    assert (Hsame : same (sample l r) (sample l' r) (level l r)).
    { unfold sample, level. destruct (Z.leb_spec WNDSIZ r) as [|Hlt2]; [done|]. rewrite El.
      destruct (decide (r = t)) as [->|]; [by apply same_sym|done]. }
    destruct E as [E1 E2 E3 E4 E5]. constructor; try done.
    + assert (Ha' : agrees l (mParent l r) (sample l' r)) by (eapply (agrees_same _ _ (sample l r)); [exact Hsame|lia|lia|done]).
      cbn [l' set_position mParent]. unfold agrees in *. cbn [l' set_position mLevel]. destruct (Z.leb_spec WNDSIZ (mParent l r)); [done|].
      rewrite El. destruct (decide (mParent l r = t)) as [Eq|]; [|done]. rewrite Eq in *. eapply same_chain; [exact Ha'|]. by apply same_sym.
    + cbn [l' set_position mParent mLevel]. rewrite E4. f_equal. apply Hsame. lia.
  - intros i Hi. destruct (v_inner _ _ _ _ V i Hi) as (H1 & H2 & H3 & H4). cbn [l' set_position mLevel].
    rewrite El. destruct (decide (i = t)) as [->|]; split_and!; try done; lia.
  - intros q Hq. destruct (v_roots _ _ _ _ V q Hq) as [H1 H2]. cbn [l' set_position mLevel mPosition]. by rewrite upd_ne by lia.
Qed.

Lemma valid_level C l P b b' : valid C l P b -> b <= b' -> valid C l P b'.
Proof using.
  intros V Hb. constructor; try apply V. intros i Hi. destruct (v_inner _ _ _ _ V i Hi) as (H1 & H2 & H3 & H4).
  split; [done|]. split; [done|]. split; [|done]. destruct H3; [by left|right; lia].
Qed.

Lemma valid_sentinel C l P b v : valid C l P b -> valid C (set_parent l (upd (mParent l) NIL v)) P b.
Proof using.
  consts. intros V. pose proof (v_pos _ _ _ _ V). constructor; try apply V.
  - intros h r Hh Hr. pose proof (sample_range _ _ _ _ _ _ V Hh Hr). pose proof (v_edges _ _ _ _ V h r Hh Hr) as E.
    apply (edge_ext l _ P P); try done. cbn [set_parent mParent]. by rewrite upd_ne by lia.
  - intros r Hr. cbn [set_parent mParent mNext]. rewrite upd_ne by lia. by apply V.
  - intros r Hr. cbn [set_parent mParent]. rewrite upd_ne by lia. by apply V.
Qed.

(** *** The operations *)
Lemma walk next prev parent q : parent NIL = q -> forall c n p, linked next prev p c -> (forall r, r ∈ c -> 0 < r < LEAVES) ->
  (length c < n)%nat ->
  wp (loop n (fun NodeR => x ← aget LEAVES parent NodeR;
       if negb (x =? q) then NodeR ← aget HASHES next NodeR; Done (inl NodeR) else Done (inr NodeR)) (next p))
    (fun r => r = NIL \/ (r ∈ c /\ parent r = q)).
Proof using.
  consts. intros Hq. induction c as [|r c IH]; intros n p Hl Hr Hn; (destruct n as [|n]; [cbn in Hn; lia|]); cbn [loop linked length] in *.
  - rewrite Hl. apply wp_bind. wps. rewrite Hq, Z.eqb_refl. cbn [negb]. wps. by left.
  - destruct Hl as (-> & _ & Hl). pose proof (Hr r ltac:(by left)). apply wp_bind. wps.
    destruct (Z.eqb_spec (parent r) q) as [E|E]; cbn [negb]; wps.
    + right. split; [by left|done].
    + eapply wp_mono; [apply (IH n r Hl); [intros r' Hr'; apply Hr; by right|lia]|]. cbn beta.
      intros r' [->|[Hin Hp]]; [by left|right]. split; [by right|done].
Qed.

Lemma HASH_inj q c d : 0 <= q <= WNDSIZ + UINT8_MAX -> is_u8 c -> is_u8 d -> HASH q c = HASH q d -> c = d.
Proof using.
  intros Hq Hc Hd E. destruct (HASH_val q c Hq Hc) as [E1 _]. destruct (HASH_val q d Hq Hd) as [E2 _]. lia.
Qed.

Lemma Child_spec C l P b q c : valid C l P b -> is_parent l q -> is_u8 c ->
  wp (Child q c l) (fun '(l', r) => l' = set_parent l (upd (mParent l) NIL q) /\
    (r = NIL \/ (r ∈ C (HASH q c) /\ is_hash (HASH q c) /\ mParent l r = q /\ T (sample l r + mLevel l q) = c))).
Proof using T_bytes.
  consts. intros V Hq Hc. pose proof (parent_range _ _ _ _ _ V Hq) as Hr. destruct (HASH_val q c ltac:(lia) Hc) as (Ev & Hh & _).
  pose proof (v_chains _ _ _ _ V) as Hch. pose proof (chain_length _ _ _ _ Hch Hh) as Hlen. destruct Hch as (Hl & Hrng & _).
  destruct (Hl _ Hh) as [Hlk _]. unfold Child. unfold is_hash in Hh. wps.
  eapply wp_mono; [apply (walk _ _ _ q (upd_eq _ _ _) (C (HASH q c)) node_fuel _ Hlk)|].
  - intros r. by apply Hrng.
  - unfold node_fuel. unfold LEAVES in Hlen. lia.
  - cbn beta. intros r Hres. wps. split; [done|]. destruct Hres as [->|[Hin Hp]]; [by left|right]. split; [done|]. split; [done|].
    pose proof (Hrng _ _ Hh Hin). rewrite upd_ne in Hp by lia. split; [done|].
    destruct (v_edges _ _ _ _ V _ r Hh Hin) as [_ _ _ E _]. rewrite Hp in E.
    pose proof (sample_range _ _ _ _ _ _ V Hh Hin). pose proof (parent_level _ _ _ _ _ V Hq). pose proof (v_pos _ _ _ _ V).
    symmetry. apply (HASH_inj q); [lia|done| |done]. apply T_bytes. lia.
Qed.

(** The links of a log after [MakeChild] and [relink]. *)
Definition insert_link (h c : Z) (l : log) : log :=
  set_links l (upd (upd (mPrev l) (mNext l h) c) c h) (upd (upd (mNext l) h c) c (mNext l h)).
Definition replace_link (old new : Z) (l : log) : log :=
  set_links l (upd (upd (mPrev l) new (mPrev l old)) (mNext l old) new)
    (upd (upd (mNext l) (mPrev l old) new) new (mNext l old)).

Definition made_child (q c r : Z) (l l' : log) : Prop :=
  exists count, l' = let m := insert_link (HASH q c) r l in
    mkLog (mLevel m) count (mPosition m) (upd (mParent m) r q) (mPrev m) (mNext m) (mAvail m).

Lemma MakeChild_spec l q c r C : chains (mNext l) (mPrev l) C -> 0 < q <= WNDSIZ + UINT8_MAX -> is_u8 c -> 0 < r < LEAVES ->
  wp (MakeChild q c r l) (made_child q c r l).
Proof using.
  consts. intros (Hl & Hrng & _) Hq Hc Hr. destruct (HASH_val q c ltac:(lia) Hc) as (Ev & Hh & Es). unfold MakeChild. rewrite Es.
  assert (Hn : 0 <= mNext l (HASH q c) < LEAVES).
  { destruct (Hl _ Hh) as [Hlk _]. destruct (C (HASH q c)) as [|x k] eqn:E; cbn [linked] in Hlk; [lia|]. destruct Hlk as (-> & _).
    assert (0 < x < LEAVES); [|lia]. apply (Hrng _ x Hh). rewrite E. by left. }
  unfold is_hash in Hh. wps. by eexists.
Qed.

Lemma relink_spec l C h old new : chains (mNext l) (mPrev l) C -> is_hash h -> old ∈ C h -> 0 < new < LEAVES -> ~ chained C new ->
  wp (relink old new l) (fun l' => l' = replace_link old new l).
Proof using.
  consts. intros Hch Hh Hin Hnew Hn. pose proof (chains_around _ _ _ _ _ Hch Hh Hin) as [Hp Hx]. destruct Hch as (_ & Hrng & _).
  pose proof (Hrng _ _ Hh Hin). assert (new <> old) by (intros ->; apply Hn; by exists h).
  assert (Hpr : 0 <= mPrev l old < HASHES /\ mPrev l old <> old).
  { destruct Hp as [->|[Hp ?]]; [unfold is_hash in Hh; lia|]. apply (Hrng h) in Hp; [lia|done]. }
  assert (Hnr : 0 <= mNext l old < LEAVES).
  { destruct Hx as [->|[Hx ?]]; [lia|]. apply (Hrng h) in Hx; [lia|done]. }
  unfold relink. wps. rewrite upd_ne by lia. wps. done.
Qed.

(** *** The current position enters the tree *)
Lemma chains_frame next prev C r v : chains next prev C -> ~ is_hash r -> ~ chained C r -> chains (upd next r v) prev C.
Proof using.
  intros (Hl & Hr) Hh Hn. split; [|done]. intros h H. destruct (Hl h H) as [Hk Hnd]. split; [|done].
  eapply linked_ext; [| |exact Hk].
  - apply upd_ne. by intros ->.
  - intros x Hx. split; [|done]. apply upd_ne. intros ->. apply Hn. by exists h.
Qed.

Lemma not_chained C l P b r : valid C l P b -> mAvail l <= r < WNDSIZ \/ P <= r -> ~ chained C r.
Proof using.
  intros V Hr (h & Hh & Hin). pose proof (sample_range _ _ _ _ _ _ V Hh Hin).
  destruct (e_node _ _ _ _ (v_edges _ _ _ _ V h r Hh Hin)); lia.
Qed.

Lemma dead_not_chained C l P b r : valid C l P b -> mParent l r = NIL -> ~ chained C r.
Proof using.
  consts. intros V Hp (h & Hh & Hin). destruct (v_edges _ _ _ _ V h r Hh Hin) as [_ E _ _ _]. rewrite Hp in E. unfold is_parent in E. lia.
Qed.

(** The links of what is not in the chains stay. *)
Lemma replace_other C l P b h old new r : valid C l P b -> is_hash h -> old ∈ C h -> ~ chained C r -> ~ is_hash r -> r <> new ->
  mNext (replace_link old new l) r = mNext l r.
Proof using.
  intros V Hh Hin Hn Hr Hne. destruct (chains_around _ _ _ _ _ (v_chains _ _ _ _ V) Hh Hin) as [Hp _].
  unfold replace_link. cbn [set_links mNext]. rewrite upd_ne by done. apply upd_ne. intros ->.
  destruct Hp as [E|[Hp _]]; [by rewrite E in Hr|]. apply Hn. by exists h.
Qed.

Lemma add_leaf C l P b q c l' : valid C l P b -> P <= 2 * WNDSIZ - 2 -> is_parent l q -> agrees l q P -> T (P + mLevel l q) = c ->
  made_child q c P l l' -> exists C', valid C' l' (P + 1) 0.
Proof using T_bytes.
  consts. intros V HP Hq Ha Hc (count & ->). pose proof (v_pos _ _ _ _ V). pose proof (parent_range _ _ _ _ _ V Hq).
  pose proof (parent_level _ _ _ _ _ V Hq). assert (Hcb : is_u8 c) by (rewrite <- Hc; apply T_bytes; lia).
  destruct (HASH_val q c ltac:(lia) Hcb) as (Ev & Hh & _). pose proof (not_chained _ _ _ _ P V ltac:(right; lia)) as HnP.
  destruct (chains_insert _ _ _ _ P (v_chains _ _ _ _ V) Hh ltac:(lia) HnP) as (C' & Hch & Hel).
  pose proof (avail_bound _ _ _ _ V). exists C'. cbv zeta. constructor; cbn [insert_link set_links mLevel mPosition mParent mPrev mNext mAvail].
  - lia.
  - exact Hch.
  - intros h' r Hh' Hr. apply Hel in Hr as [[-> ->]|Hr]; [| |done].
    + constructor; unfold agrees, sample, level, loc; cbn [insert_link set_links mLevel mPosition mParent mPrev mNext mAvail]; rewrite ?upd_eq.
      * right. lia.
      * exact Hq.
      * rewrite (proj2 (Z.leb_le WNDSIZ P)) by lia. exact Ha.
      * rewrite (proj2 (Z.leb_le WNDSIZ P)) by lia. by rewrite Hc.
      * rewrite (proj2 (Z.leb_le WNDSIZ P)) by lia. lia.
    + pose proof (sample_range _ _ _ _ _ _ V Hh' Hr). apply (edge_ext l _ P); try done; [by apply V|lia|].
      cbn [mParent]. by rewrite upd_ne by lia.
  - intros i Hi. destruct (v_inner _ _ _ _ V i Hi) as (H1' & H2' & H3' & h' & Hh' & Hin). unfold loc in *. cbn [mPosition].
    split; [done|]. split; [done|]. split; [left; lia|]. exists h'. split; [done|]. apply Hel; [done|by right].
  - intros r Hr. destruct (decide (r = P)) as [->|]; [left; exists (HASH q c); split; [done|]; apply Hel; [done|by left]|].
    destruct (v_leaves _ _ _ _ V r ltac:(lia)) as [(h' & Hh' & Hin)|(E1 & E2 & E3)].
    + left. exists h'. split; [done|]. apply Hel; [done|by right].
    + right. unfold is_hash in Hh. rewrite !upd_ne by lia. split; [done|]. split; [lia|done].
  - intros r Hr. rewrite upd_ne by lia. apply V. lia.
  - pose proof (v_avail _ _ _ _ V). lia.
  - intros i Hi. unfold is_hash in Hh. rewrite !upd_ne by lia. by apply V.
  - apply V.
Qed.

Lemma replace_leaf_spec C l P b h r : valid C l P b -> P <= 2 * WNDSIZ - 2 -> is_hash h -> r ∈ C h -> WNDSIZ <= r ->
  same r P MAXMATCH -> wp (replace_leaf P (mParent l r) r l) (fun l' => exists C', valid C' l' (P + 1) 0).
Proof using.
  consts. intros V HP Hh Hin Hr Hs. pose proof (v_pos _ _ _ _ V). pose proof (sample_range _ _ _ _ _ _ V Hh Hin).
  pose proof (not_chained _ _ _ _ P V ltac:(right; lia)) as HnP. pose proof (avail_bound _ _ _ _ V).
  unfold replace_leaf. apply wp_bind. eapply wp_mono; [by apply (relink_spec l C h r P (v_chains _ _ _ _ V)); try done; lia|].
  cbn beta. intros l1 ->. wps.
  destruct (chains_replace _ _ _ _ r P (v_chains _ _ _ _ V) Hh Hin ltac:(lia) HnP) as (C' & Hch & Hel). exists C'.
  assert (Hold : forall h' r', is_hash h' -> r' ∈ C h' -> r' <> r -> r' ∈ C' h') by (intros h' r' Hh' H1' H2'; apply Hel; [done|by right]).
  assert (Hrn : ~ chained C' r). { intros (h' & Hh' & Hc). apply Hel in Hc as [[E _]|[_ E]]; [lia|done|done]. }
  assert (Hrh : ~ is_hash r) by (unfold is_hash; lia).
  pose proof (v_edges _ _ _ _ V h r Hh Hin) as E. pose proof (parent_level _ _ _ _ _ V (e_parent _ _ _ _ E)).
  pose proof (parent_range _ _ _ _ _ V (e_parent _ _ _ _ E)).
  constructor; cbn [replace_link set_parent set_links mLevel mPosition mParent mPrev mNext mAvail].
  - lia.
  - by apply chains_frame.
  - intros h' r' Hh' Hr'. apply Hel in Hr' as [[-> ->]|[Hr' Hne]]; [| |done].
    + destruct E as [E1 E2 E3 E4 E5]. rewrite sample_leaf in * by lia.
      constructor; unfold agrees, sample, level, loc; cbn [replace_link set_parent set_links mLevel mPosition mParent mPrev mNext mAvail];
        rewrite ?(upd_ne _ r P), ?upd_eq by lia.
      * right. lia.
      * exact E2.
      * rewrite (proj2 (Z.leb_le WNDSIZ P)) by lia. apply (agrees_same l (mParent l r) r P MAXMATCH); [done|lia|lia|exact E3].
      * rewrite (proj2 (Z.leb_le WNDSIZ P)) by lia. rewrite E4. f_equal. apply Hs. lia.
      * rewrite (proj2 (Z.leb_le WNDSIZ P)) by lia. lia.
    + pose proof (sample_range _ _ _ _ _ _ V Hh' Hr'). apply (edge_ext l _ P); try done; [by apply V|lia|].
      cbn [set_parent set_links mParent]. by rewrite !upd_ne by lia.
  - intros i Hi. destruct (v_inner _ _ _ _ V i Hi) as (H1' & H2' & H3' & h' & Hh' & Hc). unfold loc in *. cbn [replace_link set_parent set_links mPosition].
    split; [done|]. split; [done|]. split; [left; lia|]. exists h'. split; [done|]. apply Hold; [done|done|]. lia.
  - intros r' Hr'. destruct (decide (r' = P)) as [->|]; [left; exists h; split; [done|]; apply Hel; [done|by left]|].
    destruct (decide (r' = r)) as [->|Hne].
    { right. rewrite !upd_eq. split; [done|]. split; [lia|exact Hs]. }
    destruct (v_leaves _ _ _ _ V r' ltac:(lia)) as [(h' & Hh' & Hc)|(E1 & E2 & E3)]; [left; exists h'; split; [done|by apply Hold]|].
    right. rewrite !(upd_ne _ r r'), (upd_ne _ P r') by lia. split; [done|].
    pose proof (replace_other C l P b h r P r' V Hh Hin ltac:(by eapply dead_not_chained) ltac:(unfold is_hash; lia) ltac:(lia)) as En.
    cbn [replace_link set_links mNext] in En. rewrite En. split; [lia|done].
  - intros r' Hr'. rewrite !upd_ne by lia. apply V. lia.
  - pose proof (v_avail _ _ _ _ V). lia.
  - intros i Hi. rewrite (upd_ne _ r i) by lia.
    pose proof (replace_other C l P b h r P i V Hh Hin ltac:(eapply not_chained; [done|left; lia]) ltac:(unfold is_hash; lia) ltac:(lia)) as En.
    cbn [replace_link set_links mNext] in En. rewrite En. by apply V.
  - apply V.
Qed.

(** [Split] puts a node above [r] for the [m] bytes that [r] shares with the
    position: what it computes, and that it is a tree again. *)
Definition split_log (P m c1 c2 r : Z) (l : log) (count : carr) : log :=
  let New := mAvail l in
  let l1 := replace_link r New l in
  let l2 := insert_link (HASH New c2) P (insert_link (HASH New c1) r l1) in
  mkLog (upd (mLevel l) New m) count (upd (mPosition l) New P)
    (upd (upd (upd (mParent l) New (mParent l r)) r New) P New) (mPrev l2) (mNext l2) (New + 1).

Section split.
Context (C : Z -> list Z) (l : log) (P b h r m : Z).
Hypothesis V : valid C l P b.
Hypothesis P_room : P <= 2 * WNDSIZ - 2.
Hypothesis h_ok : is_hash h.
Hypothesis r_in : r ∈ C h.
Hypothesis M_ok : sample l r < P.
Hypothesis M_same : same (sample l r) P m.
Hypothesis m_ok : mLevel l (mParent l r) < m < level l r.
Lemma split_facts : 1 <= mAvail l <= WNDSIZ - 2 /\ ~ chained C (mAvail l) /\ ~ chained C P /\ WNDSIZ <= P /\ 0 < r < P /\
  2 <= m <= UINT8_MAX /\ WNDSIZ <= sample l r /\ is_u8 (T (sample l r + m)) /\ is_u8 (T (P + m)) /\ mNext l (mAvail l) = (mAvail l) + 1 /\ r <> (mAvail l).
Proof using T_bytes V P_room h_ok r_in M_ok m_ok.
  consts. pose proof (v_pos _ _ _ _ V). pose proof (sample_range _ _ _ _ _ _ V h_ok r_in). pose proof (v_avail _ _ _ _ V).
  pose proof (parent_level _ _ _ _ _ V (e_parent _ _ _ _ (v_edges _ _ _ _ V h r h_ok r_in))).
  assert (1 <= mAvail l <= WNDSIZ - 2) by lia. pose proof (not_chained _ _ _ _ (mAvail l) V ltac:(left; lia)) as HnN.
  split; [done|]. split; [done|]. split; [by apply (not_chained _ _ _ _ _ V); right|]. split; [lia|]. split; [lia|]. split; [lia|].
  split; [lia|]. split; [apply T_bytes; lia|]. split; [apply T_bytes; lia|]. split; [apply V; lia|].
  intros E. apply HnN. rewrite <- E. by exists h.
Qed.

Lemma split_chains : exists C',
  chains (mNext (split_log P m (T (sample l r + m)) (T (P + m)) r l (mChildCount l)))
    (mPrev (split_log P m (T (sample l r + m)) (T (P + m)) r l (mChildCount l))) C' /\
  forall h' r', is_hash h' -> (r' ∈ C' h' <-> (r' = P /\ h' = HASH (mAvail l) (T (P + m))) \/ (r' = r /\ h' = HASH (mAvail l) (T (sample l r + m))) \/
    (r' = (mAvail l) /\ h' = h) \/ (r' ∈ C h' /\ r' <> r)).
Proof using T_bytes V P_room h_ok r_in M_ok m_ok.
  consts. destruct split_facts as (HN' & HnN & HnP & HP & Hr & Hm & HM' & Hc1 & Hc2 & _ & HrN).
  destruct (HASH_val (mAvail l) (T (sample l r + m)) ltac:(lia) Hc1) as (_ & Hh1 & _). destruct (HASH_val (mAvail l) (T (P + m)) ltac:(lia) Hc2) as (_ & Hh2 & _).
  destruct (chains_replace _ _ _ _ r (mAvail l) (v_chains _ _ _ _ V) h_ok r_in ltac:(lia) HnN) as (C1 & Hch1 & Hel1).
  assert (Hr1 : ~ chained C1 r). { intros (h' & Hh' & Hin). apply Hel1 in Hin as [[E _]|[_ E]]; [by apply HrN|done|done]. }
  destruct (chains_insert _ _ _ _ r Hch1 Hh1 ltac:(lia) Hr1) as (C2 & Hch2 & Hel2).
  assert (HP2 : ~ chained C2 P).
  { intros (h' & Hh' & Hin). apply Hel2 in Hin as [[E _]|Hin]; [lia| |done]. apply Hel1 in Hin as [[E _]|[Hin _]]; [lia| |done].
    apply HnP. by exists h'. }
  destruct (chains_insert _ _ _ _ P Hch2 Hh2 ltac:(lia) HP2) as (C3 & Hch3 & Hel3). exists C3. split; [exact Hch3|].
  intros h' r' Hh'. rewrite Hel3, Hel2, Hel1 by done. tauto.
Qed.

Lemma Split_run : wp (Split T P (sample l r) m r l) (fun l' => exists count, l' = split_log P m (T (sample l r + m)) (T (P + m)) r l count).
Proof using T_bytes V P_room h_ok r_in M_ok m_ok.
  consts. destruct split_facts as (HN' & HnN & HnP & HP & Hr & Hm & HM' & Hc1 & Hc2 & HnNx & HrN).
  unfold Split. wps. set (l0 := mkLog _ _ _ _ _ _ _).
  eapply wp_mono; [by apply (relink_spec l0 C h r (mAvail l) (v_chains _ _ _ _ V)); try done; lia|]. cbn beta. intros l1 ->.
  cbn [replace_link set_links mParent mLevel mPosition mChildCount mPrev mNext mAvail l0]. rewrite HnNx. rewrite (u8_small m) by (unfold is_u8; lia).
  wps. destruct (chains_replace _ _ _ _ r (mAvail l) (v_chains _ _ _ _ V) h_ok r_in ltac:(lia) HnN) as (C1 & Hch1 & Hel1).
  set (l2 := mkLog _ _ _ _ _ _ _).
  eapply wp_mono; [apply (MakeChild_spec l2 (mAvail l) (T (sample l r + m)) r C1); [exact Hch1|lia|done|lia]|]. cbn beta. intros l3 (count & ->).
  wps. cbv zeta. set (l3 := mkLog _ count _ _ _ _ _).
  assert (Hr1 : ~ chained C1 r). { intros (h' & Hh' & Hin). apply Hel1 in Hin as [[E _]|[_ E]]; [by apply HrN|done|done]. }
  destruct (HASH_val (mAvail l) (T (sample l r + m)) ltac:(lia) Hc1) as (_ & Hh1 & _).
  destruct (chains_insert _ _ _ _ r Hch1 Hh1 ltac:(lia) Hr1) as (C2 & Hch2 & Hel2).
  eapply wp_mono; [apply (MakeChild_spec l3 (mAvail l) (T (P + m)) P C2); [exact Hch2|lia|done|lia]|]. cbn beta. intros l4 (count' & ->).
  by exists count'.
Qed.
Lemma Split_valid count : exists C', valid C' (split_log P m (T (sample l r + m)) (T (P + m)) r l count) (P + 1) 0.
Proof using T_bytes V P_room h_ok r_in M_ok m_ok M_same.
  consts. destruct split_facts as (HN' & HnN & HnP & HP & Hr & Hm & HM' & Hc1 & Hc2 & HnNx & HrN).
  destruct split_chains as (C' & Hch & Hel). exists C'. destruct (HASH_val (mAvail l) _ ltac:(lia) Hc1) as (_ & Hh1 & _).
  destruct (HASH_val (mAvail l) _ ltac:(lia) Hc2) as (_ & Hh2 & _).
  pose proof (v_edges _ _ _ _ V h r h_ok r_in) as E. pose proof (parent_range _ _ _ _ _ V (e_parent _ _ _ _ E)) as Hpr.
  pose proof (parent_level _ _ _ _ _ V (e_parent _ _ _ _ E)) as Hpl. pose proof (v_pos _ _ _ _ V).
  set (l' := split_log _ _ _ _ _ _ count).
  assert (HpN : forall q, is_parent l q -> q <> mAvail l) by (intros q [Hq|Hq]; lia).
  assert (Ep : forall i, mParent l' i = if decide (i = P) then mAvail l else if decide (i = r) then mAvail l else
    if decide (i = mAvail l) then mParent l r else mParent l i).
  { intros i. cbn [l' split_log mParent]. by rewrite !upd_chain_Z. }
  assert (El : forall i, i <> mAvail l -> mLevel l' i = mLevel l i) by (intros i Hi; by apply upd_ne).
  assert (Es : forall i, i <> mAvail l -> loc l' i = loc l i) by (intros i Hi; unfold loc; cbn [l' split_log mPosition]; by rewrite upd_ne).
  assert (ElN : mLevel l' (mAvail l) = m) by apply upd_eq.
  assert (EsN : loc l' (mAvail l) = P). { unfold loc. cbn [l' split_log mPosition]. rewrite upd_eq. apply unperc_small. lia. }
  assert (Esr : forall i, i <> mAvail l -> sample l' i = sample l i) by (intros i Hi; unfold sample; by rewrite Es).
  assert (Elr : forall i, i <> mAvail l -> level l' i = level l i) by (intros i Hi; unfold level; by rewrite El).
  assert (Hnx : forall i, ~ chained C i -> ~ is_hash i -> i <> mAvail l -> i <> r -> i <> P -> mNext l' i = mNext l i).
  { intros i Hi Hih H1' H2' H3'. cbn [l' split_log insert_link set_links mNext].
    rewrite !upd_ne by (done || (intros ->; done)).
    pose proof (replace_other C l P b h r (mAvail l) i V h_ok r_in Hi Hih H1') as En. exact En. }
  constructor; try done.
  - lia.
  - intros h' r' Hh' Hr'. apply Hel in Hr' as [[-> ->]|[[-> ->]|[[-> ->]|[Hr' Hne]]]]; [| | | |done].
    + constructor; rewrite ?Ep, ?decide_True by done.
      * right. lia.
      * left. cbn. lia.
      * rewrite agrees_inner, sample_leaf, EsN by lia. done.
      * by rewrite sample_leaf, ElN by lia.
      * rewrite level_leaf, ElN by lia. lia.
    + constructor; rewrite ?Ep, ?(decide_False (P := r = P)), ?(decide_True (P := r = r)) by (done || lia).
      * destruct E as [[E1|E1] _ _ _ _]; [left; cbn; lia|right; lia].
      * left. cbn. lia.
      * rewrite agrees_inner, EsN, Esr, ElN by (done || lia). done.
      * by rewrite Esr, ElN.
      * rewrite Elr, ElN by done. lia.
    + assert (Esm : sample l' (mAvail l) = P) by (by rewrite sample_inner by lia).
      assert (Hq : mParent l r <> mAvail l) by (apply HpN, E).
      constructor; rewrite ?Ep, ?(decide_False (P := mAvail l = P)), ?(decide_False (P := mAvail l = r)),
        ?(decide_True (P := mAvail l = mAvail l)), ?Esm, ?El by (done || lia).
      * left. cbn. lia.
      * destruct (e_parent _ _ _ _ E); [left; cbn; lia|right; lia].
      * assert (Ha : agrees l (mParent l r) P) by (apply (agrees_same _ _ (sample l r) P m); [done|lia|lia|apply E]).
        unfold agrees in *. destruct (_ <=? _); [done|]. by rewrite El, Es.
      * rewrite (e_hash _ _ _ _ E). f_equal. apply M_same. lia.
      * rewrite level_inner, ElN by lia. lia.
    + pose proof (sample_range _ _ _ _ _ _ V Hh' Hr') as Hsr. pose proof (v_edges _ _ _ _ V h' r' Hh' Hr') as E'.
      assert (r' <> mAvail l) by (intros ->; apply HnN; by exists h').
      apply (edge_ext l _ P); try done; [cbn; lia|lia| |by apply Esr|by apply Elr|apply El, HpN, E'|intros _; apply Es, HpN, E'].
      rewrite Ep, !decide_False by (done || lia). done.
  - intros i Hi. cbn [l' split_log mAvail] in Hi. destruct (decide (i = mAvail l)) as [->|Hne].
    + rewrite ElN, EsN. split; [lia|]. split; [lia|]. split; [left; lia|]. exists h. split; [done|]. apply Hel; [done|]. right. right. by left.
    + destruct (v_inner _ _ _ _ V i ltac:(lia)) as (H1' & H2' & H3' & h' & Hh' & Hin). rewrite El, Es by done.
      split; [done|]. split; [done|]. split; [left; lia|]. destruct (decide (i = r)) as [->|].
      * exists (HASH (mAvail l) (T (sample l r + m))). split; [done|]. apply Hel; [done|]. right. by left.
      * exists h'. split; [done|]. apply Hel; [done|]. right. right. by right.
  - intros i Hi. destruct (decide (i = P)) as [->|]; [left; exists (HASH (mAvail l) (T (P + m))); split; [done|]; apply Hel; [done|by left]|].
    destruct (decide (i = r)) as [->|Hir]; [left; exists (HASH (mAvail l) (T (sample l r + m))); split; [done|]; apply Hel; [done|right; by left]|].
    destruct (v_leaves _ _ _ _ V i ltac:(lia)) as [(h' & Hh' & Hin)|(E1 & E2 & E3)].
    + left. exists h'. split; [done|]. apply Hel; [done|]. right. right. by right.
    + right. rewrite Ep, !decide_False by (done || lia). rewrite Hnx; [| |unfold is_hash; lia|lia|done|done].
      * split; [done|]. split; [lia|done].
      * by eapply dead_not_chained.
  - intros i Hi. rewrite Ep, !decide_False by lia. apply V. lia.
  - cbn. pose proof (v_avail _ _ _ _ V). lia.
  - intros i Hi. cbn [l' split_log mAvail] in Hi. rewrite Hnx; [apply V; lia| |unfold is_hash; lia|lia| |lia].
    2: { destruct (e_node _ _ _ _ E); lia. }
    eapply not_chained; [done|left; lia].
  - intros q Hq. destruct (v_roots _ _ _ _ V q Hq) as [E1 E2]. rewrite El by lia. split; [done|]. cbn [l' split_log mPosition]. by rewrite upd_ne by lia.
Qed.
End split.

(** *** The search *)

(** The position [P] has the [m] bytes at [M], an earlier position; one byte
    need not be anywhere. *)
Definition matches (P M m : Z) : Prop := 1 <= m <= MAXMATCH /\ (2 <= m -> WNDSIZ <= M < P /\ same M P m).

Lemma compare_spec P M Index2 m : 0 <= P <= 2 * WNDSIZ - 1 -> 0 <= M <= 2 * WNDSIZ - 1 -> 0 <= m <= Index2 -> Index2 <= MAXMATCH ->
  same M P m -> wp (compare T P M Index2 m) (fun '(ok, m') => m <= m' /\ same M P m' /\ if ok : bool then m' = Index2 else m' < Index2).
Proof using.
  consts. intros HP HM' Hm HI Hs. unfold compare.
  apply (wp_loop (fun m' => m <= m' <= Index2 /\ same M P m') (fun m' => Z.to_nat (Index2 - m'))); [|split; [lia|done]|lia].
  clear Hs. intros m' [Hm' Hs]. destruct (Z.ltb_spec m' Index2) as [Hlt|Hge]; wps.
  - destruct (Z.eqb_spec (T (P + m')) (T (M + m'))) as [E|E]; cbn [negb]; wps.
    + split; [|lia]. split; [lia|]. intros k Hk. destruct (decide (k = m')) as [->|]; [done|]. apply Hs. lia.
    + split; [lia|]. by split.
  - split; [lia|]. split; [done|lia].
Qed.

Definition descending (C : Z -> list Z) (P : Z) (s : log * Z * Z * Z) : Prop :=
  let '(l, q, r, m) := s in
  exists h, valid C l P (mLevel l q) /\ is_hash h /\ r ∈ C h /\ mParent l r = q /\ 2 <= m /\
    mLevel l q < m <= level l r /\ same (sample l r) P m.

Definition inserted (P : Z) (s : log * Z * Z) : Prop :=
  let '(l, M, m) := s in (exists C, valid C l (P + 1) 0) /\ matches P M m.

Lemma MakeChild_leaf C l P b q : valid C l P b -> P <= 2 * WNDSIZ - 2 -> is_parent l q -> agrees l q P ->
  wp (MakeChild q (T (P + mLevel l q)) P l) (fun l' => exists C', valid C' l' (P + 1) 0).
Proof using T_bytes.
  consts. intros V HP Hq Ha. pose proof (parent_level _ _ _ _ _ V Hq). pose proof (v_pos _ _ _ _ V).
  eapply wp_mono; [apply (MakeChild_spec l q _ P C (v_chains _ _ _ _ V))|].
  - apply (parent_range _ _ _ _ _ V Hq).
  - apply T_bytes. lia.
  - lia.
  - intros l' Hl'. by eapply add_leaf.
Qed.

Lemma descend_spec C P s : P <= 2 * WNDSIZ - 2 -> descending C P s -> wp (loop 258 (descend_step T P) s) (inserted P).
Proof using T_bytes.
  consts. intros HP Hd. apply (wp_loop (descending C P) (fun '(_, _, _, m) => Z.to_nat (MAXMATCH - m))); [clear s Hd| |].
  2: exact Hd.
  2: { destruct s as [[[l q] r] m]. destruct Hd as (? & _ & _ & _ & _ & ? & _). lia. }
  intros [[[l q] r] m] (h & V & Hh & Hr & Hq & Hm2 & Hm & Hs). unfold descend_step.
  pose proof (sample_range _ _ _ _ _ _ V Hh Hr) as (Hsr & Hlr & Hr0). pose proof (v_pos _ _ _ _ V) as HPr.
  pose proof (v_edges _ _ _ _ V h r Hh Hr) as E. pose proof (avail_bound _ _ _ _ V).
  assert (HsP : sample l r < P).
  { unfold sample, level in *. destruct (Z.leb_spec WNDSIZ r); [lia|]. destruct (e_node _ _ _ _ E) as [Hn|]; [|lia].
    destruct (v_inner _ _ _ _ V r Hn) as (_ & _ & Hl & _). lia. }
  apply wp_bind. apply (wp_mono _ (fun x => x = (level l r, sample l r))).
  { unfold level, sample. destruct (Z.leb_spec WNDSIZ r); [by apply wp_Done|]. wps. done. }
  intros ? ->. cbv zeta. rewrite (proj2 (Z.leb_gt P _)) by lia. apply wp_bind.
  eapply wp_mono; [apply (compare_spec P (sample l r) (level l r) m); [lia|lia|lia|lia|done]|]. cbn beta.
  intros [ok m'] (Hm' & Hs' & Hok). destruct ok; cbn [negb].
  - destruct (Z.leb_spec MAXMATCH m') as [H256|Hlt].
    + assert (Hleaf : WNDSIZ <= r). { destruct (Z.lt_ge_cases r WNDSIZ); [|done]. rewrite level_inner in * by done.
        destruct (e_node _ _ _ _ E) as [Hn|]; [|lia]. destruct (v_inner _ _ _ _ V r Hn). lia. }
      rewrite sample_leaf in * by done. apply wp_bind. rewrite <- Hq.
      eapply wp_mono; [apply (replace_leaf_spec C l P _ h r V HP Hh Hr Hleaf); by apply (same_le _ _ m')|]. cbn beta. intros l' Hl'. wps.
      split; [done|]. split; [lia|]. intros _. split; [lia|done].
    + assert (Hin : r < WNDSIZ). { destruct (Z.lt_ge_cases r WNDSIZ); [done|]. rewrite level_leaf in Hok by done. lia. }
      rewrite level_inner, sample_inner in * by done. subst m'.
      assert (Hn : 1 <= r < mAvail l) by (destruct (e_node _ _ _ _ E); lia). wps.
      assert (V1 : valid C (set_position l (upd (mPosition l) r P)) P (mLevel l r)).
      { apply (valid_move C l P (mLevel l q)); [done|done|apply unperc_small; lia|by apply same_sym|lia|lia]. }
      set (l1 := set_position l (upd (mPosition l) r P)) in *.
      assert (Hp1 : is_parent l1 r) by (by left).
      assert (Hloc : loc l1 r = P). { unfold loc. cbn [l1 set_position mPosition]. rewrite upd_eq. apply unperc_small. lia. }
      eapply wp_mono; [apply (Child_spec C l1 P _ r (T (P + mLevel l r)) V1 Hp1); apply T_bytes; lia|]. cbn beta.
      intros [l2 r2] (-> & Hr2). pose proof (valid_sentinel C l1 P _ r V1) as V2. destruct (Z.eqb_spec r2 NIL) as [E2|E2].
      * apply wp_bind. set (l2 := set_parent l1 _) in *.
        eapply wp_mono; [apply (MakeChild_leaf C l2 P _ r V2 HP Hp1)|].
        -- apply agrees_inner; [done|]. intros k Hk. change (loc l2 r) with (loc l1 r). by rewrite Hloc.
        -- cbn beta. intros l' Hl'. wps. split; [done|]. split; [lia|]. intros _. split; [lia|done].
      * destruct Hr2 as [|(Hin2 & Hh2 & Hpar2 & Hch2)]; [done|]. wps. cbn [l1 set_position mLevel] in Hch2 |- *.
        pose proof (sample_range _ _ _ _ _ _ V1 Hh2 Hin2) as (Hs2 & Hl2 & Hr2). pose proof (v_edges _ _ _ _ V1 _ r2 Hh2 Hin2) as E3.
        split; [|lia]. eexists. split; [exact V2|]. split; [exact Hh2|]. split; [exact Hin2|].
        split; [cbn; rewrite upd_ne by lia; exact Hpar2|]. split; [lia|].
        destruct E3 as [_ _ E3 _ E5]. rewrite Hpar2 in E3, E5. cbn [l1 set_position mLevel] in E5. split; [cbn [set_parent mLevel]; unfold level in *; cbn in *; lia|].
        rewrite agrees_inner, Hloc in E3 by done. change (sample (set_parent l1 _) r2) with (sample l1 r2).
        intros k Hk. destruct (decide (k = mLevel l r)) as [->|]; [done|]. apply E3. cbn. lia.
  - apply wp_bind. eapply wp_mono; [apply (Split_run C l P _ h r m' V HP Hh Hr HsP); rewrite Hq; lia|]. cbn beta.
    intros l' (count & ->). wps. split; [|split; [lia|intros _; split; [lia|done]]].
    apply (Split_valid C l P _ h r m' V HP Hh Hr HsP Hs'). rewrite Hq. lia.
Qed.

Lemma live_leaf_spec C l P b r n : valid C l P b -> WNDSIZ <= r < P -> n <= MAXMATCH -> same r P n ->
  wp (live_leaf l r) (fun '(r, q) => WNDSIZ <= r < P /\ chained C r /\ q = mParent l r /\ same r P n).
Proof using.
  consts. intros V Hr Hn Hs. pose proof (v_pos _ _ _ _ V). unfold live_leaf. wps.
  apply (wp_loop (fun '(r, q) => WNDSIZ <= r < P /\ q = mParent l r /\ same r P n) (fun '(r, _) => Z.to_nat (P - r))).
  - intros [r' q'] (Hr' & -> & Hs'). destruct (Z.eqb_spec (mParent l r') NIL) as [E|E]; wps.
    + destruct (v_leaves _ _ _ _ V r' Hr') as [Hc|(_ & Hnx & Hsx)]; [by destruct (dead_not_chained _ _ _ _ _ V E)|].
      wps. split; [|lia]. split; [lia|]. split; [done|]. eapply same_chain; [|exact Hs']. apply same_sym. by apply (same_le _ _ MAXMATCH).
    + split; [lia|]. destruct (v_leaves _ _ _ _ V r' Hr') as [Hc|(E' & _)]; [|done]. by split.
  - split; [lia|]. by split.
  - unfold node_fuel. lia.
Qed.

Lemma climb_spec C l P b h r n : valid C l P b -> is_hash h -> r ∈ C h -> 3 <= n <= level l r -> n <= UINT8_MAX -> same (sample l r) P n ->
  wp (climb l n r (mParent l r)) (fun '(r, q) => exists h, is_hash h /\ r ∈ C h /\ q = mParent l r /\ same (sample l r) P n /\
    mLevel l q < n <= level l r).
Proof using.
  consts. intros V Hh Hr Hn Hn2 Hs. unfold climb.
  apply (wp_loop (fun '(r, q) => exists h, is_hash h /\ r ∈ C h /\ q = mParent l r /\ same (sample l r) P n /\ n <= level l r)
    (fun '(_, q) => Z.to_nat (mLevel l q))).
  - intros [r' q'] (h' & Hh' & Hr' & -> & Hs' & Hl'). pose proof (v_edges _ _ _ _ V _ _ Hh' Hr') as E.
    pose proof (parent_range _ _ _ _ _ V (e_parent _ _ _ _ E)). pose proof (avail_bound _ _ _ _ V). wps.
    destruct (Z.leb_spec n (mLevel l (mParent l r'))) as [Hle|Hgt]; wps.
    + destruct (e_parent _ _ _ _ E) as [Hp|Hp]; [|destruct (v_roots _ _ _ _ V _ Hp); lia].
      destruct (v_inner _ _ _ _ V _ Hp) as (_ & _ & _ & h2 & Hh2 & Hc2). pose proof (v_edges _ _ _ _ V _ _ Hh2 Hc2) as E2. split.
      * exists h2. split; [done|]. split; [done|]. split; [done|]. rewrite sample_inner, level_inner by lia. split; [|done].
        pose proof (e_text _ _ _ _ E) as Ht. rewrite agrees_inner in Ht by lia. eapply same_chain; [apply same_sym, (same_le _ _ _ n Hle), Ht|done].
      * pose proof (e_level _ _ _ _ E2) as HL2. rewrite level_inner in HL2 by lia.
        pose proof (parent_level _ _ _ _ _ V (e_parent _ _ _ _ E2)). lia.
    + exists h'. split; [done|]. split; [done|]. split; [done|]. split; [done|]. lia.
  - exists h. split; [done|]. split; [done|]. split; [done|]. split; [done|]. lia.
  - pose proof (parent_level _ _ _ _ _ V (e_parent _ _ _ _ (v_edges _ _ _ _ V _ _ Hh Hr))). unfold node_fuel. lia.
Qed.

Lemma refresh_spec C l P q : valid C l P 0 -> is_parent l q -> agrees l q P ->
  wp (refresh P q l) (fun l' => exists pos, l' = set_position l pos /\ valid C l' P (mLevel l q) /\
    forall i, mLevel l q < mLevel l i -> pos i = mPosition l i).
Proof using.
  consts. intros V Hq Ha. pose proof (parent_level _ _ _ _ _ V Hq) as Hlq. pose proof (v_pos _ _ _ _ V). pose proof (avail_bound _ _ _ _ V).
  pose (I := fun '(pos, t) => valid C (set_position l pos) P (mLevel l q) /\ is_parent l t /\ agrees (set_position l pos) t P /\
    mLevel l t <= mLevel l q /\ forall i, mLevel l q < mLevel l i -> pos i = mPosition l i).
  unfold refresh. apply wp_bind. apply (wp_mono _ I).
  - apply (wp_loop I (fun '(_, t) => Z.to_nat (mLevel l t))).
    + intros [pos t] (V1 & Ht & Hat & Hlt & Hfr). pose proof (parent_range _ _ _ _ _ V1 Ht). wps.
      destruct (Z.ltb_spec (pos t) 0) as [Hneg|Hpos]; [|by wps].
      assert (Htn : 1 <= t < mAvail l). { destruct Ht as [|Ht]; [done|]. destruct (v_roots _ _ _ _ V1 t Ht) as [_ E]. cbn in E. lia. }
      rewrite agrees_inner in Hat by lia.
      pose proof (valid_move C _ P _ (mLevel l q) t P V1 Htn ltac:(apply unperc_small; lia) Hat Hlt ltac:(lia)) as V2. cbn [set_position mPosition mLevel mChildCount mParent mPrev mNext mAvail] in V2.
      change (set_position (set_position l pos) (upd pos t P)) with (set_position l (upd pos t P)) in V2.
      destruct (v_inner _ _ _ _ V2 t Htn) as (_ & _ & _ & h & Hh & Hin). pose proof (v_edges _ _ _ _ V2 h t Hh Hin) as E.
      pose proof (e_level _ _ _ _ E) as HL2. rewrite level_inner in HL2 by lia. cbn in HL2.
      pose proof (parent_level _ _ _ _ _ V2 (e_parent _ _ _ _ E)) as HL3. cbn in HL3. wps.
      split; [|lia]. split; [exact V2|]. split; [exact (e_parent _ _ _ _ E)|]. split.
      * pose proof (e_text _ _ _ _ E) as Et. rewrite sample_inner in Et by lia. unfold loc in Et at 1. cbn [set_position mPosition] in Et.
        rewrite upd_eq, unperc_small in Et by lia. exact Et.
      * split; [lia|]. intros i Hi. rewrite upd_ne; [by apply Hfr|]. intros ->. lia.
    + destruct l. split; [by apply (valid_level C _ P 0); [exact V|lia]|]. split; [done|]. split; [done|]. split; [done|]. done.
    + unfold node_fuel. lia.
  - intros [pos t] (V1 & Ht & Hat & Hlt & Hfr). pose proof (parent_range _ _ _ _ _ V1 Ht). destruct (Z.ltb_spec t WNDSIZ) as [Hlo|Hhi]; wps.
    + assert (Htn : 1 <= t < mAvail l) by (destruct Ht; lia). rewrite agrees_inner in Hat by lia.
      eexists. split; [done|]. split.
      * exact (valid_move C _ P _ (mLevel l q) t _ V1 Htn ltac:(apply unperc_flag; lia) Hat Hlt ltac:(lia)).
      * intros i Hi. rewrite upd_ne; [by apply Hfr|]. intros ->. lia.
    + eexists. split; [done|]. by split.
Qed.

Lemma lor_window x : WNDSIZ <= x < LEAVES -> s32 (Z.lor x WNDSIZ) = x.
Proof using.
  consts. intros Hx. assert (E : Z.lor x WNDSIZ = x).
  { change WNDSIZ with (1 * 2 ^ 19) at 1. pose proof (lor_disjoint 1 (x - 2 ^ 19) 19 ltac:(lia) ltac:(lia)) as E1.
    assert (E2 : x = Z.lor (1 * 2 ^ 19) (x - 2 ^ 19)) by (rewrite E1; lia). rewrite E2 at 1.
    rewrite (Z.lor_comm _ (x - 2 ^ 19)), <- Z.lor_assoc, Z.lor_diag, Z.lor_comm, E1. lia. }
  rewrite E. unfold s32. rewrite Z.mod_small by lia. lia.
Qed.

(** The match the search of the position before ended with. *)
Definition followed (P M m : Z) : Prop := m <= MAXMATCH /\ (4 <= m -> WNDSIZ <= M < P - 1 /\ same M (P - 1) m).

(** [InsertNode] ends, the position is in the tree, and where it found a match
    there is one. *)
Lemma InsertNode_spec C l P M m : valid C l P 0 -> P <= 2 * WNDSIZ - 2 -> followed P M m -> wp (InsertNode T P M m l) (inserted P).
Proof using T_bytes.
  consts. intros V HP [Hm Hf]. pose proof (v_pos _ _ _ _ V). unfold InsertNode. cbv zeta. destruct (Z.leb_spec 4 m) as [H4|H4].
  - destruct (Hf H4) as [HM' Hs]. rewrite lor_window by lia.
    assert (Hs1 : same (M + 1) P (m - 1)).
    { intros k Hk. specialize (Hs (k + 1) ltac:(lia)). replace (M + (k + 1)) with (M + 1 + k) in Hs by lia.
      by replace (P - 1 + (k + 1)) with (P + k) in Hs by lia. }
    apply wp_bind. eapply wp_mono; [apply (live_leaf_spec C l P 0 (M + 1) (m - 1) V); [lia|lia|done]|]. cbn beta.
    intros [r q] (Hr & (h & Hh & Hin) & -> & Hsr). apply wp_bind.
    eapply wp_mono; [apply (climb_spec C l P 0 h r (m - 1) V Hh Hin); [rewrite level_leaf by lia; lia|lia|by rewrite sample_leaf by lia]|].
    cbn beta. intros [r2 q2] (h2 & Hh2 & Hin2 & -> & Hs2 & Hl2). pose proof (v_edges _ _ _ _ V _ _ Hh2 Hin2) as E.
    pose proof (sample_range _ _ _ _ _ _ V Hh2 Hin2) as Hsr2.
    pose proof (parent_level _ _ _ _ _ V (e_parent _ _ _ _ E)).
    apply wp_bind. eapply wp_mono; [apply (refresh_spec C l P (mParent l r2) V); [apply E|]|].
    + apply (agrees_same _ _ (sample l r2) P (m - 1)); [done|lia|lia|apply E].
    + cbn beta. intros l' (pos & -> & V' & Hfr). apply (descend_spec C); [done|].
      exists h2. split; [exact V'|]. split; [done|]. split; [done|]. split; [done|]. split; [lia|]. split; [exact Hl2|].
      unfold sample, loc. cbn [set_position mPosition]. destruct (Z.leb_spec WNDSIZ r2) as [Hle|Hlt].
      * by rewrite sample_leaf in Hs2 by done.
      * rewrite sample_inner in Hs2 by done. rewrite level_inner in Hl2 by done. rewrite Hfr by lia. exact Hs2.
  - pose proof (T_bytes P ltac:(lia)) as Hb. pose proof (T_bytes (P + 1) ltac:(lia)) as Hb1. unfold is_u8 in Hb.
    assert (Eq : s32 (T P + WNDSIZ) = T P + WNDSIZ) by (unfold s32; rewrite Z.mod_small by lia; lia).
    wps. rewrite Eq. assert (Hq : is_parent l (T P + WNDSIZ)) by (right; lia). destruct (v_roots _ _ _ _ V (T P + WNDSIZ) ltac:(lia)) as [HL1 _].
    eapply wp_mono; [exact (Child_spec C l P 0 _ _ V Hq Hb1)|]. cbn beta. intros [l1 r] (-> & Hr).
    pose proof (valid_sentinel C l P 0 (T P + WNDSIZ) V) as V1. destruct (Z.eqb_spec r NIL) as [E|E].
    + apply wp_bind. eapply wp_mono.
      * pose proof (MakeChild_leaf C _ P 0 (T P + WNDSIZ) V1 HP Hq) as HMc. cbn [set_parent mLevel] in HMc. rewrite HL1 in HMc. apply HMc.
        apply agrees_root; lia.
      * cbn beta. intros l' Hl'. wps. split; [done|]. split; lia.
    + destruct Hr as [|(Hin & Hh & Hpar & Hch)]; [done|]. pose proof (sample_range _ _ _ _ _ _ V Hh Hin) as Hsr.
      apply (descend_spec C); [done|]. eexists. cbn [set_parent mLevel]. rewrite HL1.
      split; [by apply (valid_level _ _ _ 0)|]. split; [exact Hh|]. split; [done|]. split; [cbn; rewrite upd_ne by lia; done|].
      split; [lia|]. split; [unfold level in *; cbn in *; lia|]. change (sample (set_parent l _) r) with (sample l r).
      pose proof (e_text _ _ _ _ (v_edges _ _ _ _ V _ _ Hh Hin)) as Et. rewrite Hpar, agrees_root in Et by lia.
      rewrite HL1 in Hch. intros k Hk. destruct (decide (k = 0)) as [->|]; [rewrite !Z.add_0_r; lia|]. by replace k with 1 by lia.
Qed.

Lemma DeleteNode_none C l P b : valid C l P b -> DeleteNode T P l = Done l.
Proof using.
  consts. intros V. pose proof (v_pos _ _ _ _ V). unfold DeleteNode. rewrite (aget_in LEAVES (mParent l) P), bind_Done by lia.
  rewrite (v_new _ _ _ _ V P ltac:(lia)). done.
Qed.

Lemma InitSlide_valid l : valid (fun _ => []) (InitSlide l) WNDSIZ 0.
Proof using.
  consts. constructor; unfold InitSlide; cbv zeta; cbn [mLevel mChildCount mPosition mParent mPrev mNext mAvail].
  - lia.
  - split; [|split].
    + intros h Hh. split; [|by apply NoDup_nil]. cbn [linked]. unfold is_hash in Hh. by rewrite afill_in by lia.
    + intros h r _ Hr. by apply not_elem_of_nil in Hr.
    + intros h h' r _ _ Hr. by apply not_elem_of_nil in Hr.
  - intros h r _ Hr. by apply not_elem_of_nil in Hr.
  - intros i Hi. lia.
  - intros r Hr. lia.
  - intros r Hr. by rewrite afill_in by lia.
  - lia.
  - intros i Hi. rewrite afill_out by lia. rewrite upd_ne by lia. by rewrite afill_in by lia.
  - intros q Hq. by rewrite !afill_in by lia.
Qed.
End tree.

(** C11: (invariant) The dictionary: [InsertNode] always returns, keeps the
    tree a tree for the positions up to and with the current one (chains
    linked both ways, strings of inner nodes at the places they point to,
    longer ones below shorter ones, replaced leaves leading to equal later
    ones) and, when it reports a match of two or more bytes, the text at the
    match, an earlier position in the window, is the same for that length. *)
Theorem InsertNode_matches T C l P M m : (forall i, 0 <= i < TEXT -> is_u8 (T i)) -> valid T C l P 0 -> P <= 2 * WNDSIZ - 2 ->
  followed T P M m -> exists l' M' m', InsertNode T P M m l = Done (l', M', m') /\ (exists C', valid T C' l' (P + 1) 0) /\
    1 <= m' <= MAXMATCH /\ (2 <= m' -> WNDSIZ <= M' < P /\ forall k, 0 <= k < m' -> T (M' + k) = T (P + k)).
Proof.
  intros HT V HP Hf. pose proof (InsertNode_spec T HT C l P M m V HP Hf) as H. apply wp_elim in H as ([[l' M'] m'] & E & HC & Hm).
  exists l', M', m'. by split.
Qed.

Lemma InsertNode_matches_witness :
  let T := fun i => if i mod 2 =? 0 then 65 else 66 in
  let l := InitSlide (mkLog (fun _ => 7) (fun _ => 7) (fun _ => 7) (fun _ => 7) (fun _ => 7) (fun _ => 7) 0) in
  exists l' M' m', InsertNode T WNDSIZ 0 0 l = Done (l', M', m') /\ (exists C', valid T C' l' (WNDSIZ + 1) 0) /\
    1 <= m' <= MAXMATCH /\ (2 <= m' -> WNDSIZ <= M' < WNDSIZ /\ forall k, 0 <= k < m' -> T (M' + k) = T (WNDSIZ + k)).
Proof.
  intros T l. apply (InsertNode_matches T (fun _ => []) l WNDSIZ 0 0).
  - intros i _. unfold T, is_u8. destruct (_ =? 0); lia.
  - apply InitSlide_valid.
  - done.
  - split; [done|]. intros H. exfalso. apply H. reflexivity.
Defined.
