(* ===== verification/TianoCompress.v ===== *)
(** * The compressor

    Models the main routines of [Library/TianoCompress.c]: the buffers, the
    input with its checksum, [Encode] and [TianoCompress]. For data that fits
    the window the result is a compressed stream whose tokens expand to the
    data. *)

From S2P Require Import Prelude CArray BitStream TianoHuff TianoFormat TianoBlock TianoSlide.

Definition BLKSIZ : Z := 2 ^ 14.
Definition INIT_CRC : Z := 0.
Definition CRCPOLY : Z := 0xA001.

(** ** Pools

    What [AllocatePool] gives for each buffer: nothing, or memory with any
    contents. The buffer of symbols is asked for in several sizes. *)
Record pools := mkPools {
  p_text : option carr; p_level : option carr; p_child : option carr; p_position : option carr;
  p_parent : option carr; p_prev : option carr; p_next : option carr; p_buf : Z -> option carr }.

Inductive pool := PText | PLevel | PChildCount | PPosition | PParent | PPrev | PNext | PBuf (size : Z).

(** An access to a buffer that is not there. *)
Definition deref (o : option carr) : Res carr := match o with Some a => Done a | None => Fault end.

(** [while (mBuf == NULL) ...]: the size and the buffer, if any. *)
Definition get_buf (p : pools) : Res (option (Z * carr)) :=
  loop 20 (fun size =>
    match p_buf p size with
    | Some b => Done (inr (Some (size, b)))
    | None => let size := size / 10 * 9 in if size <? 4 * 1024 then Done (inr None) else Done (inl size)
    end) BLKSIZ.

Definition AllocateMemory (p : pools) : Res (EFI_STATUS * carr * option (Z * carr)) :=
  text ← deref (p_text p);
  let text := afill 0 TEXT (fun _ => 0) text in
  r ← get_buf p;
  match r with
  | Some (size, b) => Done (EFI_SUCCESS, text, Some (size, upd b 0 0))
  | None => Done (EFI_OUT_OF_RESOURCES, text, None)
  end.

Definition held {A} (o : option A) (name : pool) : list pool := match o with Some _ => [name] | None => [] end.

(** The pools given back. *)
Definition FreeMemory (p : pools) (buf : option (Z * carr)) : list pool :=
  held (p_text p) PText ++ held (p_level p) PLevel ++ held (p_child p) PChildCount ++ held (p_position p) PPosition ++
  held (p_parent p) PParent ++ held (p_prev p) PPrev ++ held (p_next p) PNext ++
  match buf with Some (size, _) => [PBuf size] | None => [] end.

(** ** The input *)
Definition crc_shift (Temp : Z) : Z :=
  if negb (Z.land Temp 1 =? 0) then Z.lxor (Z.shiftr Temp 1) CRCPOLY else Z.shiftr Temp 1.
Definition MakeCrcTable (mCrcTable : carr) : carr :=
  afill 0 (UINT8_MAX + 1) (fun i => u16 (Nat.iter (Z.to_nat UINT8_BIT) crc_shift i)) mCrcTable.
Definition UPDATE_CRC (mCrcTable : carr) (c mCrc : Z) : Res Z :=
  t ← aget (UINT8_MAX + 1) mCrcTable (Z.land (Z.lxor mCrc c) 0xff); Done (Z.lxor t (Z.shiftr mCrc UINT8_BIT)).

(** What is left of the source, and the count and checksum of what was read. *)
Record input := mkInput { in_src : list Z; mOrigSize : Z; mCrc : Z }.

(** [for (Index = 0; mSrc < mSrcUpperLimit && Index < Number; Index++) *Pointer++ = *mSrc++;] *)
Fixpoint copy_in (src : list Z) (Pointer Index Number : Z) (text : carr) : Res (carr * list Z * Z) :=
  match src with
  | [] => Done (text, [], Index)
  | c :: r =>
      if Index <? Number then text ← aset TEXT text Pointer c; copy_in r (Pointer + 1) (Index + 1) Number text
      else Done (text, src, Index)
  end.

Definition FreadCrc (mCrcTable : carr) (Pointer Number : Z) (text : carr) (i : input) : Res (carr * input * Z) :=
  '(text, src, Number) ← copy_in (in_src i) Pointer 0 Number text;
  crc ← forZ Pointer (Z.to_nat Number) (fun p crc => c ← aget TEXT text p; UPDATE_CRC mCrcTable c crc) (mCrc i);
  Done (text, mkInput src (u32 (mOrigSize i + Number)) crc, Number).

(** ** [Encode] *)
Record coder := mkCoder {
  c_log : log; mText : carr; mPos : Z; mMatchPos : Z; mMatchLen : Z; mRemainder : Z; c_in : input; c_huf : huf }.

Definition set_huf (s : coder) (h : huf) : coder :=
  mkCoder (c_log s) (mText s) (mPos s) (mMatchPos s) (mMatchLen s) (mRemainder s) (c_in s) h.

(** [if (mMatchLen > mRemainder) mMatchLen = mRemainder;] *)
Definition clip (s : coder) : coder :=
  if mMatchLen s >? mRemainder s
  then mkCoder (c_log s) (mText s) (mPos s) (mMatchPos s) (mRemainder s) (mRemainder s) (c_in s) (c_huf s) else s.

Section program.
(** [MemCpy] of the firmware library moves bytes in one array: destination,
    source, length. [Start0] is what is on the stack of [MakeCode], [MatchPos0]
    what an earlier call left in [mMatchPos]. *)
Context (MemCpy : carr -> Z -> Z -> Z -> carr) (Start0 MatchPos0 : Z) (mCrcTable : carr).

Definition insert (s : coder) : Res coder :=
  '(l, M, m) ← InsertNode (mText s) (mPos s) (mMatchPos s) (mMatchLen s) (c_log s);
  Done (mkCoder l (mText s) (mPos s) M m (mRemainder s) (c_in s) (c_huf s)).

Definition GetNextMatch (s : coder) : Res coder :=
  let rem := mRemainder s - 1 in
  let pos := mPos s + 1 in
  s ← (if pos =? WNDSIZ * 2 then
         let text := MemCpy (mText s) 0 WNDSIZ (WNDSIZ + MAXMATCH) in
         '(text, i, Number) ← FreadCrc mCrcTable (WNDSIZ + MAXMATCH) WNDSIZ text (c_in s);
         Done (mkCoder (c_log s) text WNDSIZ (mMatchPos s) (mMatchLen s) (rem + Number) i (c_huf s))
       else Done (mkCoder (c_log s) (mText s) pos (mMatchPos s) (mMatchLen s) rem (c_in s) (c_huf s)));
  l ← DeleteNode (mText s) (mPos s) (c_log s);
  insert (mkCoder l (mText s) (mPos s) (mMatchPos s) (mMatchLen s) (mRemainder s) (c_in s) (c_huf s)).

Definition put_char (mBufSiz : Z) (s : coder) : Res coder :=
  c ← aget TEXT (mText s) (mPos s - 1); h ← Output Start0 mBufSiz c 0 (c_huf s); Done (set_huf s h).

Definition encode_step (mBufSiz : Z) (s : coder) : Res (coder + coder) :=
  if 0 <? mRemainder s then
    let LastMatchLen := mMatchLen s in
    let LastMatchPos := mMatchPos s in
    s ← GetNextMatch s;
    let s := clip s in
    let Pos := Z.land (u32 (mPos s - LastMatchPos - 2)) (WNDSIZ - 1) in
    if (mMatchLen s >? LastMatchLen) || (LastMatchLen <? THRESHOLD) then s ← put_char mBufSiz s; Done (inl s)
    else if (LastMatchLen =? THRESHOLD) && (Pos >? 2 ^ 11) then s ← put_char mBufSiz s; Done (inl s)
    else
      h ← Output Start0 mBufSiz (LastMatchLen + (UINT8_MAX + 1 - THRESHOLD)) Pos (c_huf s);
      s ← forZ 0 (Z.to_nat (LastMatchLen - 1)) (fun _ => GetNextMatch) (set_huf s h);
      Done (inl (clip s))
  else Done (inr s).

(** The status, the output side, the input and the pools given back. *)
Definition Encode (p : pools) (i : input) (h : huf) : Res (EFI_STATUS * huf * input * list pool) :=
  '(Status, text, buf) ← AllocateMemory p;
  match buf with
  | None => Done (Status, h, i, FreeMemory p None)
  | Some (mBufSiz, b) =>
      level ← deref (p_level p); child ← deref (p_child p); position ← deref (p_position p);
      parent ← deref (p_parent p); prev ← deref (p_prev p); next ← deref (p_next p);
      let l := InitSlide (mkLog level child position parent prev next 0) in
      let h := HufEncodeStart (set_out h b (mOutputPos h) (mOutputMask h) (CPos h)) in
      '(text, i', rem) ← FreadCrc mCrcTable WNDSIZ (WNDSIZ + MAXMATCH) text i;
      s ← insert (mkCoder l text WNDSIZ MatchPos0 0 rem i' h);
      s ← loop (S (length (in_src i))) (encode_step mBufSiz) (clip s);
      h ← HufEncodeEnd Start0 mBufSiz (c_huf s);
      Done (EFI_SUCCESS, h, c_in s, FreeMemory p buf)
  end.
End program.

(** ** [TianoCompress] *)
Definition PutDword (Data : Z) (b : list Z) (mDst : Z) : Res (list Z * Z) :=
  '(b, d) ← put_byte (u8 Data) b mDst;
  '(b, d) ← put_byte (u8 (Z.shiftr Data 8)) b d;
  '(b, d) ← put_byte (u8 (Z.shiftr Data 16)) b d;
  put_byte (u8 (Z.shiftr Data 24)) b d.

Record result := mkResult { r_status : EFI_STATUS; r_dst : list Z; r_DstSize : Z; r_freed : list pool }.

(** [DstBuffer] are the [*DstSize] bytes to write to; [g] are the globals of
    the output side as an earlier call left them. *)
Definition TianoCompress (MemCpy : carr -> Z -> Z -> Z -> carr) (Start0 MatchPos0 : Z) (table : carr) (p : pools) (g : huf)
    (SrcBuffer DstBuffer : list Z) : Res result :=
  '(b, d) ← PutDword 0 DstBuffer 0;
  '(b, d) ← PutDword 0 b d;
  let h := set_sink g (mkSink b d 0 (mBitCount (mSink g)) (mSubBitBuf (mSink g))) in
  '(Status, h, i, freed) ← Encode MemCpy Start0 MatchPos0 (MakeCrcTable table) p (mkInput SrcBuffer 0 INIT_CRC) h;
  if EFI_ERROR Status then Done (mkResult EFI_OUT_OF_RESOURCES (dst (mSink h)) (zlen DstBuffer) freed)
  else
    '(b, _) ← put_byte 0 (dst (mSink h)) (mDst (mSink h));
    '(b, d) ← PutDword (u32 (mCompSize (mSink h) + 1)) b 0;
    '(b, _) ← PutDword (mOrigSize i) b d;
    let size := u32 (mCompSize (mSink h) + 1 + 8) in
    Done (mkResult (if size >? zlen DstBuffer then EFI_BUFFER_TOO_SMALL else EFI_SUCCESS) b size freed).

(** ** What the tokens stand for *)
Lemma expand_app ts us : forall out, expand out (ts ++ us) = (o ← expand out ts; expand o us).
Proof.
  induction ts as [|t ts IH]; intros out; [done|]. cbn [expand app]. destruct (expand_token out t); [apply IH|done].
Qed.

Lemma copy_back_same (x : list Z) pos n : forall p, 0 <= pos < Z.of_nat p -> (p + n <= length x)%nat ->
  (forall k, (k < n)%nat -> x !! (p + k)%nat = x !! (p + k - Z.to_nat pos - 1)%nat) ->
  copy_back n pos (take p x) = Some (take (p + n) x).
Proof.
  induction n as [|n IH]; intros p Hpos Hp Hs; cbn [copy_back]; [by rewrite Nat.add_0_r|].
  destruct (lookup_lt_is_Some_2 x p ltac:(lia)) as [c Hc].
  assert (E : take p x !! Z.to_nat (zlen (take p x) - pos - 1) = Some c).
  { unfold zlen. rewrite length_take, lookup_take_lt by lia. rewrite <- Hc. pose proof (Hs O ltac:(lia)) as H.
    rewrite !Nat.add_0_r in H. rewrite H. f_equal. lia. }
  rewrite E. change (Some c ≫= ?f) with (f c). cbv beta. rewrite <- take_S_r by done. rewrite (IH (S p)); [do 2 f_equal; lia|lia|lia|].
  intros k Hk. pose proof (Hs (S k) ltac:(lia)) as H. by replace (S p + k)%nat with (p + S k)%nat by lia.
Qed.

Section encode.
Context (MemCpy : carr -> Z -> Z -> Z -> carr) (Start0 MatchPos0 : Z) (mCrcTable : carr).
Context (L : Z) (h : list Z) (mBufSiz : Z).
Hypothesis siz : 4096 <= mBufSiz <= 2 ^ 14.
Context (x : list Z) (T : carr) (i0 : input).
Hypothesis x_bytes : bytes_ok x.
Hypothesis x_fits : zlen x <= WNDSIZ - 2.
Hypothesis T_bytes : forall i, 0 <= i < TEXT -> is_u8 (T i).
Hypothesis T_text : forall i, 0 <= i < zlen x -> x !! Z.to_nat i = Some (T (WNDSIZ + i)).

(** The positions up to [P] are in the tree, and the match at [P] is one. *)
Definition searched (P : Z) (s : coder) : Prop :=
  (exists C, valid T C (c_log s) (P + 1) 0) /\ mText s = T /\ mPos s = P /\ WNDSIZ <= P <= WNDSIZ + zlen x /\
  mRemainder s = zlen x - (P - WNDSIZ) /\ mMatchLen s <= MAXMATCH /\ c_in s = i0 /\
  (2 <= mMatchLen s -> WNDSIZ <= mMatchPos s < P /\ same T (mMatchPos s) P (mMatchLen s)).

Lemma GetNextMatch_spec P s : searched P s -> P < WNDSIZ + zlen x ->
  wp (GetNextMatch MemCpy mCrcTable s) (fun s' => searched (P + 1) s' /\ c_huf s' = c_huf s).
Proof using x_fits T_bytes.
  consts. intros ((C & V) & HT' & Hp & HP & Hrem & Hm & Hin & Hmatch) Hlt. unfold GetNextMatch. cbv zeta.
  rewrite Hp, (proj2 (Z.eqb_neq (P + 1) (WNDSIZ * 2))) by lia. rewrite bind_Done. cbn [mText mPos c_log]. rewrite HT', (DeleteNode_none T C _ _ 0 V), bind_Done.
  unfold insert. cbn [c_log mText mPos mMatchPos mMatchLen mRemainder c_in c_huf].
  apply wp_bind. eapply wp_mono; [apply (InsertNode_spec T T_bytes C _ (P + 1)); [exact V|lia|]|].
  - split; [done|]. intros H4. replace (P + 1 - 1) with P by lia. apply Hmatch. lia.
  - cbn beta. intros [[l M] m] (HC & Hm1 & Hm2). wps. split; [|done].
    unfold searched. cbn [c_log mText mPos mMatchPos mMatchLen mRemainder c_in c_huf].
    split; [done|]. split; [done|]. split; [done|]. split; [lia|]. split; [lia|]. split; [lia|]. split; [done|]. exact Hm2.
Qed.

Lemma clip_spec P s : searched P s -> searched P (clip s) /\ mMatchLen (clip s) <= mRemainder (clip s) /\ c_huf (clip s) = c_huf s.
Proof using.
  intros (HC & HT' & Hp & HP & Hrem & Hm & Hin & Hmatch). unfold clip. destruct (Z.gtb_spec (mMatchLen s) (mRemainder s)).
  - split; [|split; [cbn; lia|done]]. unfold searched. cbn [c_log mText mPos mMatchPos mMatchLen mRemainder c_in c_huf].
    split; [done|]. split; [done|]. split; [done|]. split; [lia|]. split; [lia|]. split; [lia|]. split; [done|].
    intros H2. destruct (Hmatch ltac:(lia)) as [H3 H4]. split; [done|]. apply (same_le T _ _ (mMatchLen s)); [lia|done].
  - split; [|split; [lia|done]]. do 7 (split; [done|]). done.
Qed.

(** The output stands for the data up to the position [P]. *)
Definition coded_to (P : Z) (s : coder) : Prop :=
  exists bs ts, filling L h mBufSiz bs ts (c_huf s) /\ (ts = [] -> bs = []) /\
    expand [] (stream_tokens bs ++ ts) = Some (take (Z.to_nat (P - WNDSIZ)) x).

Lemma output_coded P n t s : coded_to P s -> token_ok t -> 0 <= n ->
  expand_token (take (Z.to_nat (P - WNDSIZ)) x) t = Some (take (Z.to_nat (P + n - WNDSIZ)) x) -> forall s',
  wp (Output Start0 mBufSiz (char_sym t) (token_pos t) (c_huf s)) (fun g => coded_to (P + n) (set_huf s' g)).
Proof using siz.
  intros (bs & ts & Hf & Hne & He) Ht Hn Hx s'. eapply wp_mono; [by apply (Output_spec L h Start0 mBufSiz siz bs ts t)|]. cbn beta.
  intros g (bs' & ts' & Hf' & Hne' & E). exists bs', ts'. split; [exact Hf'|]. split; [done|].
  rewrite E, app_assoc, expand_app, He. change (Some ?a ≫= ?f) with (f a). cbv beta. cbn [expand]. by rewrite Hx.
Qed.
Lemma text_byte P : WNDSIZ <= P < WNDSIZ + zlen x -> is_u8 (T P) /\ x !! Z.to_nat (P - WNDSIZ) = Some (T P).
Proof using x_fits T_bytes T_text.
  consts. intros HP. split; [apply T_bytes; lia|]. rewrite T_text by lia. do 2 f_equal. lia.
Qed.

Lemma put_char_coded P s g : WNDSIZ <= P < WNDSIZ + zlen x -> searched (P + 1) s -> coded_to P g -> c_huf s = c_huf g ->
  wp (put_char Start0 mBufSiz s) (fun s' => searched (P + 1) s' /\ coded_to (P + 1) s' /\ mMatchLen s' = mMatchLen s /\ mRemainder s' = mRemainder s).
Proof using siz x_fits T_bytes T_text.
  consts. intros HP Hs Hc Eg. destruct (text_byte P HP) as [Hb Hx]. pose proof Hs as (_ & HT' & Hp & _). unfold put_char.
  rewrite Hp, HT'. replace (P + 1 - 1) with P by lia. wps. rewrite Eg.
  eapply wp_mono; [apply (output_coded P 1 (Lit (T P)) g Hc Hb ltac:(lia))|].
  - cbn [expand_token]. replace (Z.to_nat (P + 1 - WNDSIZ)) with (S (Z.to_nat (P - WNDSIZ))) by lia. by rewrite (take_S_r _ _ _ Hx).
  - cbn beta. intros g' Hg'. wps. split; [exact Hs|]. split; [exact Hg'|done].
Qed.

(** A match is a pointer that stands for the bytes at [P]. *)
Lemma pointer_expands P M m : WNDSIZ <= M < P -> 0 <= m -> P + m <= WNDSIZ + zlen x -> same T M P m ->
  expand_token (take (Z.to_nat (P - WNDSIZ)) x) (Ptr m (P - M - 1)) = Some (take (Z.to_nat (P + m - WNDSIZ)) x).
Proof using x_fits T_text.
  consts. intros HM' Hm HP Hs. cbn [expand_token]. unfold zlen in *. rewrite length_take, (proj2 (Z.ltb_lt _ _)) by lia.
  replace (Z.to_nat (P + m - WNDSIZ)) with (Z.to_nat (P - WNDSIZ) + Z.to_nat m)%nat by lia. apply copy_back_same; [lia|lia|].
  intros k Hk. pose proof (T_text (P - WNDSIZ + Z.of_nat k) ltac:(unfold zlen; lia)) as E1.
  pose proof (T_text (M - WNDSIZ + Z.of_nat k) ltac:(unfold zlen; lia)) as E2. specialize (Hs (Z.of_nat k) ltac:(lia)).
  replace (Z.to_nat (P - WNDSIZ) + k)%nat with (Z.to_nat (P - WNDSIZ + Z.of_nat k)) by lia.
  replace (Z.to_nat (P - WNDSIZ + Z.of_nat k) - Z.to_nat (P - M - 1) - 1)%nat with (Z.to_nat (M - WNDSIZ + Z.of_nat k)) by lia.
  rewrite E1, E2. f_equal. replace (WNDSIZ + (P - WNDSIZ + Z.of_nat k)) with (P + Z.of_nat k) by lia.
  by replace (WNDSIZ + (M - WNDSIZ + Z.of_nat k)) with (M + Z.of_nat k) by lia.
Qed.

Definition encoding (s : coder) : Prop :=
  exists P, searched P s /\ mMatchLen s <= mRemainder s /\ coded_to P s.

Lemma encode_step_ok s : encoding s -> wp (encode_step MemCpy Start0 mCrcTable mBufSiz s)
  (fun r => match r with
            | inl s' => encoding s' /\ (Z.to_nat (mRemainder s') < Z.to_nat (mRemainder s))%nat
            | inr s' => encoding s' /\ mRemainder s' = 0 end).
Proof using siz x_fits T_bytes T_text.
  consts. intros (P & Hs & Hclip & Hc). pose proof Hs as (_ & _ & _ & HP & Hrem & Hm & _ & Hmatch). unfold encode_step.
  destruct (Z.ltb_spec 0 (mRemainder s)) as [Hpos|Hend].
  2: { wps. split; [by exists P|]. lia. }
  cbv zeta. apply wp_bind. eapply wp_mono; [apply (GetNextMatch_spec P s Hs); lia|]. cbn beta. intros s1 (Hs1 & Eh1).
  destruct (clip_spec (P + 1) s1 Hs1) as (Hs2 & Hclip2 & Eh2). rewrite Eh1 in Eh2. set (s2 := clip s1) in *.
  pose proof Hs2 as (_ & _ & Hp2 & _ & Hrem2 & _).
  assert (Hchar : wp (s0 ← put_char Start0 mBufSiz s2; Done (inl s0)) (fun r => match r with
    | inl s' => encoding s' /\ (Z.to_nat (mRemainder s') < Z.to_nat (mRemainder s))%nat
    | inr s' => encoding s' /\ mRemainder s' = 0 end)).
  { apply wp_bind. eapply wp_mono; [by apply (put_char_coded P s2 s); try done; lia|]. cbn beta. intros s3 (Hs3 & Hc3 & Em & Er). wps.
    split; [|lia]. exists (P + 1). split; [done|]. split; [lia|done]. }
  destruct (_ || _) eqn:E1; [exact Hchar|]. apply orb_false_iff in E1 as [Egt Elt]. rewrite Z.gtb_ltb in Egt. apply Z.ltb_ge in Egt, Elt.
  unfold THRESHOLD in Elt. destruct (_ && _); [exact Hchar|]. clear Hchar.
  destruct (Hmatch ltac:(lia)) as [HM' Hsame]. rewrite Hp2.
  assert (EPos : Z.land (u32 (P + 1 - mMatchPos s - 2)) (WNDSIZ - 1) = P - mMatchPos s - 1).
  { rewrite u32_small by (unfold is_u32; lia). change (WNDSIZ - 1) with (Z.ones 19). rewrite Z.land_ones by lia.
    rewrite Z.mod_small; [lia|]. change (2 ^ 19) with WNDSIZ. lia. }
  rewrite EPos, Eh2. apply wp_bind. set (m := mMatchLen s) in *.
  assert (Ht : token_ok (Ptr m (P - mMatchPos s - 1))). { unfold token_ok, THRESHOLD. lia. }
  eapply wp_mono; [refine (output_coded P m (Ptr m (P - mMatchPos s - 1)) s Hc Ht _ _ s2); [lia|apply pointer_expands; try done; lia]|].
  cbn beta. intros g Hg. apply wp_bind.
  eapply (wp_forZ (fun i s' => searched (P + 1 + i) s' /\ c_huf s' = g)).
  - rewrite Z.add_0_r. split; [exact Hs2|done].
  - intros i s' Hi (Hs' & Eg'). eapply wp_mono; [apply (GetNextMatch_spec _ s' Hs'); lia|]. cbn beta. intros s'' (Hs'' & Eg'').
    split; [by replace (P + 1 + (i + 1)) with (P + 1 + i + 1) by lia|by rewrite Eg''].
  - intros s' (Hs' & Eg'). wps. replace (P + 1 + (0 + Z.of_nat (Z.to_nat (m - 1)))) with (P + m) in Hs' by lia.
    destruct (clip_spec (P + m) s' Hs') as (Hs3 & Hclip3 & Eh3). pose proof Hs3 as (_ & _ & _ & _ & Hrem3 & _).
    split; [|lia]. exists (P + m). split; [done|]. split; [done|]. unfold coded_to in *. rewrite Eh3, Eg'. exact Hg.
Qed.
End encode.

(** ** The buffers *)
Definition granted (p : pools) : Prop :=
  is_Some (p_text p) /\ is_Some (p_level p) /\ is_Some (p_child p) /\ is_Some (p_position p) /\ is_Some (p_parent p) /\
  is_Some (p_prev p) /\ is_Some (p_next p).

Definition tables : list pool := [PText; PLevel; PChildCount; PPosition; PParent; PPrev; PNext].

(** The sizes asked for, each nine tenths of the last in whole tens, and the
    first that is granted. *)
Definition buffer_sizes : list Z :=
  [16384; 14742; 13266; 11934; 10737; 9657; 8685; 7812; 7029; 6318; 5679; 5103; 4590; 4131].

Fixpoint first_granted (p : pools) (l : list Z) : option (Z * carr) :=
  match l with
  | [] => None
  | size :: l => match p_buf p size with Some b => Some (size, b) | None => first_granted p l end
  end.

Lemma get_buf_eq p : get_buf p = Done (first_granted p buffer_sizes).
Proof.
  unfold get_buf. set (body := fun size => match p_buf p size with Some b => _ | None => _ end).
  assert (Hb : forall size, body size = match p_buf p size with
    | Some b => Done (inr (Some (size, b)))
    | None => if size / 10 * 9 <? 4096 then Done (inr None) else Done (inl (size / 10 * 9)) end) by done.
  clearbody body.
  assert (Hstep : forall n size size2 l, size / 10 * 9 = size2 ->
    (if size2 <? 4096 then l = [] else loop n body size2 = Done (first_granted p l)) ->
    loop (S n) body size = Done (first_granted p (size :: l))).
  { intros n size size2 l <- H. rewrite loop_S, Hb. cbn [first_granted]. destruct (p_buf p size); [done|].
    destruct (_ <? 4096); [by subst l|exact H]. }
  change BLKSIZ with 16384. unfold buffer_sizes.
  do 13 (eapply Hstep; [vm_compute; reflexivity|]; cbn [Z.ltb Z.compare Pos.compare Pos.compare_cont]).
  by eapply Hstep; [vm_compute; reflexivity|].
Qed.

Lemma first_granted_in p l size b : first_granted p l = Some (size, b) -> In size l /\ p_buf p size = Some b.
Proof.
  induction l as [|n l IH]; cbn [first_granted In]; [done|]. destruct (p_buf p n) eqn:E.
  - intros [= <- <-]. auto.
  - intros H. split; [right; by apply IH|by apply IH].
Qed.

Lemma first_granted_none p l n : first_granted p l = None -> In n l -> p_buf p n = None.
Proof.
  induction l as [|m l IH]; cbn [first_granted In]; [done|]. destruct (p_buf p m) eqn:E; [done|].
  intros H [<-|Hi]; [done|by apply IH].
Qed.

Lemma get_buf_spec p : wp (get_buf p) (fun r => match r with
  | Some (size, b) => 4096 <= size <= 2 ^ 14 /\ p_buf p size = Some b
  | None => first_granted p buffer_sizes = None end).
Proof.
  rewrite get_buf_eq. cbn [wp]. destruct (first_granted p buffer_sizes) as [[size b]|] eqn:E; [|done].
  apply first_granted_in in E as [Hi Hb]. split; [|done]. cbn [buffer_sizes In] in Hi.
  clear -Hi. repeat destruct Hi as [<-|Hi]; done.
Qed.

(** ** The input *)
Lemma copy_in_spec src : forall P i N text, 0 <= P -> P + zlen src <= TEXT -> i + zlen src <= N ->
  wp (copy_in src P i N text) (fun '(t, r, k) => r = [] /\ k = i + zlen src /\
    (forall j, j < P \/ P + zlen src <= j -> t j = text j) /\ forall j, 0 <= j < zlen src -> src !! Z.to_nat j = Some (t (P + j))).
Proof.
  induction src as [|c src IH]; intros P i N text HP Hn Hi; cbn [copy_in].
  - wps. rewrite zlen_nil. split; [done|]. split; [lia|]. split; [done|lia].
  - rewrite zlen_cons in *. pose proof (zlen_nonneg src). rewrite (proj2 (Z.ltb_lt _ _)) by lia. wps.
    eapply wp_mono; [apply (IH (P + 1)); lia|]. cbn beta. intros [[t r] k] (-> & -> & Ho & Hin).
    split; [done|]. split; [lia|]. split.
    + intros j Hj. rewrite Ho by lia. apply upd_ne. lia.
    + intros j Hj. destruct (decide (j = 0)) as [->|Hne].
      * cbn. rewrite Ho by lia. by rewrite Z.add_0_r, upd_eq.
      * replace (Z.to_nat j) with (S (Z.to_nat (j - 1))) by lia. cbn [lookup list_lookup]. change (list_lookup (Z.to_nat (j - 1)) src) with (src !! Z.to_nat (j - 1)).
        rewrite Hin by lia. do 2 f_equal. lia.
Qed.

Lemma UPDATE_CRC_ok table c crc : wp (UPDATE_CRC table c crc) (fun _ => True).
Proof.
  unfold UPDATE_CRC. assert (0 <= Z.land (Z.lxor crc c) 0xff < 256).
  { change 0xff with (Z.ones 8). rewrite Z.land_ones by lia. apply Z.mod_pos_bound. lia. }
  change (UINT8_MAX + 1) with 256. by wps.
Qed.

Lemma FreadCrc_spec table P N text i : 0 <= P -> P + zlen (in_src i) <= TEXT -> zlen (in_src i) <= N ->
  wp (FreadCrc table P N text i) (fun '(t, i', n) => n = zlen (in_src i) /\ mOrigSize i' = u32 (mOrigSize i + n) /\
    (forall j, j < P \/ P + n <= j -> t j = text j) /\ forall j, 0 <= j < n -> in_src i !! Z.to_nat j = Some (t (P + j))).
Proof.
  intros HP Hn HN. unfold FreadCrc. apply wp_bind. eapply wp_mono; [apply (copy_in_spec _ P 0); lia|]. cbn beta.
  intros [[t r] k] (-> & -> & Ho & Hin). rewrite Z.add_0_l. apply wp_bind. pose proof (zlen_nonneg (in_src i)).
  apply (wp_forZ (fun _ _ => True)); [done| |].
  - intros j crc Hj _. wps. apply UPDATE_CRC_ok.
  - intros crc _. by wps.
Qed.

(** ** [Encode] writes a stream for the data *)
Definition encoded (x : list Z) (bs : list block) : Prop :=
  expand [] (stream_tokens bs) = Some x /\ zlen bs <= zlen x + 1 /\ (x <> [] -> Forall (fun b => b_tokens b <> []) bs).

Lemma tokens_ok bs : Forall block_ok bs -> Forall token_ok (stream_tokens bs).
Proof.
  unfold stream_tokens. induction 1 as [|b bs Hb _ IH]; cbn [map concat]; [done|]. apply Forall_app. split; [|done].
  destruct Hb as (_ & _ & _ & _ & _ & Ht). eapply Forall_impl; [exact Ht|]. by intros t [? _].
Qed.

Lemma encoded_last x bs b : Forall block_ok (bs ++ [b]) -> Forall (fun b => b_tokens b <> []) bs -> (b_tokens b = [] -> bs = []) ->
  expand [] (stream_tokens bs ++ b_tokens b) = Some x -> encoded x (bs ++ [b]).
Proof.
  intros Hok Hne Hb He. rewrite <- stream_tokens_snoc in He. split; [done|].
  pose proof (expand_length _ (tokens_ok _ Hok) _ _ He) as Hl. cbn [length] in Hl. rewrite stream_tokens_snoc, length_app in Hl.
  pose proof (stream_blocks bs Hne). split; [unfold zlen; rewrite length_app; cbn [length]; lia|].
  intros Hx. apply Forall_app. split; [done|]. apply Forall_singleton. intros E. specialize (Hb E). subst bs.
  rewrite stream_tokens_snoc, E in He. cbn in He. congruence.
Qed.

Definition buf_pool (r : option (Z * carr)) : list pool := match r with Some (size, _) => [PBuf size] | None => [] end.

Section encode_all.
Context (MemCpy : carr -> Z -> Z -> Z -> carr) (Start0 MatchPos0 : Z) (mCrcTable : carr).
Context (L : Z) (h : list Z).

Lemma Encode_spec p x g : granted p -> bytes_ok x -> zlen x <= WNDSIZ - 2 ->
  zlen (dst (mSink g)) = L -> mDst (mSink g) = Z.min L (zlen h) -> mCompSize (mSink g) = 0 ->
  take (Z.to_nat (mDst (mSink g))) (dst (mSink g)) = take (Z.to_nat (mDst (mSink g))) h ->
  wp (Encode MemCpy Start0 MatchPos0 mCrcTable p (mkInput x 0 INIT_CRC) g) (fun '(st, g', i', freed) =>
    exists r, get_buf p = Done r /\ freed = tables ++ buf_pool r /\
    match r with
    | None => st = EFI_OUT_OF_RESOURCES /\ g' = g
    | Some _ => st = EFI_SUCCESS /\ mOrigSize i' = zlen x /\ exists bs, closed L h bs (mSink g') /\ encoded x bs
    end).
Proof using.
  consts. intros Hg Hx Hn HsL Hsd Hsc Hst. destruct Hg as ([text Et] & [level El] & [child Ec] & [position Ep] & [parent Epa] & [prev Epr] & [next En]).
  unfold Encode, AllocateMemory. rewrite Et. cbn [deref]. pose proof (get_buf_spec p) as Hb. apply wp_elim in Hb as (r & Er & Hr).
  rewrite bind_Done, Er, bind_Done. destruct r as [[size b]|]; rewrite bind_Done; cbv iota beta.
  2: { wps. exists None. split; [done|]. split; [|done]. unfold FreeMemory. by rewrite Et, El, Ec, Ep, Epa, Epr, En. }
  destruct Hr as [Hsz _]. rewrite El, Ec, Ep, Epa, Epr, En. cbn [deref]. rewrite !bind_Done. pose proof (zlen_nonneg x).
  set (g1 := HufEncodeStart (set_out _ _ _ _ _)).
  assert (Hfill : filling L h size [] [] g1) by (apply filling_start; done).
  apply wp_bind. eapply wp_mono; [apply FreadCrc_spec; cbn [in_src]; lia|]. cbn [in_src mOrigSize]. intros [[T i1] rem] (-> & Eo & Hout & Htext).
  rewrite Z.add_0_l, u32_small in Eo by (unfold is_u32; lia).
  assert (T_bytes : forall i, 0 <= i < TEXT -> is_u8 (T i)).
  { intros i Hi. destruct (decide (WNDSIZ <= i < WNDSIZ + zlen x)) as [Hin|Hno].
    - specialize (Htext (i - WNDSIZ) ltac:(lia)). replace (WNDSIZ + (i - WNDSIZ)) with i in Htext by lia.
      unfold bytes_ok in Hx. rewrite Forall_forall in Hx. apply Hx. by eapply list_elem_of_lookup_2.
    - rewrite Hout by lia. rewrite afill_in by lia. done. }
  apply wp_bind. unfold insert. cbn [c_log mText mPos mMatchPos mMatchLen mRemainder c_in c_huf].
  apply wp_bind. eapply wp_mono; [eapply (InsertNode_spec T T_bytes); [apply InitSlide_valid|lia|split; [lia|intros; lia]]|].
  cbn beta. intros [[l M] m] (HC & Hm & Hmatch). apply wp_Done. set (s0 := mkCoder l T WNDSIZ M m (zlen x) i1 g1).
  assert (Hs0 : searched x T i1 WNDSIZ s0).
  { split; [exact HC|]. do 2 (split; [done|]). split; [lia|]. split; [cbn; lia|]. split; [cbn; lia|]. split; [done|]. exact Hmatch. }
  destruct (clip_spec x T i1 WNDSIZ s0 Hs0) as (Hs1 & Hclip & Eh1).
  apply wp_bind. apply (wp_mono _ (fun s => encoding L h size x T i1 s /\ mRemainder s = 0)).
  - apply (wp_loop (encoding L h size x T i1) (fun s => Z.to_nat (mRemainder s))).
    + intros s Hs. eapply wp_mono; [by apply (encode_step_ok MemCpy Start0 mCrcTable L h size Hsz x T i1 Hn T_bytes Htext)|]. cbn beta.
      intros [s'|s'] Hs'; exact Hs'.
    + exists WNDSIZ. split; [exact Hs1|]. split; [done|]. unfold coded_to. rewrite Eh1. exists [], []. split; [exact Hfill|].
      split; [done|]. by rewrite Z.sub_diag.
    + destruct Hs1 as (_ & _ & _ & _ & Hrem & _). rewrite Hrem. unfold zlen. lia.
  - intros s ((P & Hs & _ & bs & ts & Hf & Hnil & He) & Hrem). pose proof Hs as (_ & _ & _ & HP & Hrem' & _ & Hin & _).
    replace (Z.to_nat (P - WNDSIZ)) with (length x) in He by (unfold zlen in *; lia). rewrite firstn_all in He.
    apply wp_bind. eapply wp_mono; [by apply (HufEncodeEnd_spec L h Start0 size Hsz bs ts)|]. cbn beta.
    intros g2 (bl & Hclosed & Ebl). wps. exists (Some (size, b)). split; [done|].
    split; [unfold FreeMemory; by rewrite Et, El, Ec, Ep, Epa, Epr, En|]. split; [done|]. split; [by rewrite Hin|].
    exists (bs ++ [bl]). split; [done|]. apply encoded_last; [apply Hclosed| |by rewrite Ebl|by rewrite Ebl].
    destruct Hf as ((_ & Hne & _) & _). exact Hne.
Qed.
End encode_all.

(** ** The buffer *)

(** [l] is written up to [p], as far as there is room; what is behind is
    that of [b0]. *)
Definition filled (b0 l b : list Z) (p : Z) : Prop :=
  zlen b = zlen b0 /\ p = Z.min (zlen b0) (zlen l) /\ b = take (Z.to_nat p) l ++ drop (Z.to_nat p) b0.

Lemma put_byte_filled v b0 l b p : u8 v = v -> filled b0 l b p -> wp (put_byte v b p) (fun '(b', p') => filled b0 (l ++ [v]) b' p').
Proof.
  intros Hv (Hz & Hp & Eb). unfold put_byte. destruct (Z.ltb_spec p (zlen b)) as [Hlt|Hge].
  - assert (Epl : p = zlen l) by lia. unfold wr8. rewrite Hv. destruct (wrn_in b p [v]) as [b' E]; [zl|zl|].
    rewrite E, bind_Done. wps. apply wrn_zlen in E as Ez. apply wrn_Done in E as (_ & _ & ->). split; [lia|]. split; [zl|].
    change (zlen [v]) with 1. rewrite Eb. rewrite Epl in *. unfold zlen in *. rewrite !Nat2Z.id.
    replace (Z.to_nat (Z.of_nat (length l) + 1)) with (length l + 1)%nat by lia. rewrite (take_ge l) by lia.
    rewrite take_app_length, drop_app_ge, drop_drop by lia. rewrite (take_ge (l ++ [v])) by (rewrite length_app; cbn; lia).
    rewrite <- app_assoc. do 2 f_equal. cbn [app]. f_equal. f_equal. lia.
  - wps. split; [done|]. split; [zl|]. rewrite Eb. f_equal. rewrite take_app_le; [done|]. unfold zlen in *. lia.
Qed.

Lemma PutDword_filled D b0 l b p : 0 <= D -> filled b0 l b p -> wp (PutDword D b p) (fun '(b', p') => filled b0 (l ++ le_bytes 4 D) b' p').
Proof.
  intros HD H. unfold PutDword.
  assert (Hstep : forall v b p l, filled b0 l b p -> wp (put_byte (u8 v) b p) (fun '(b', p') => filled b0 (l ++ [u8 v]) b' p')).
  { intros v b1 p1 l1 H1. apply put_byte_filled; [|done]. apply u8_small, u8_range. }
  assert (E : le_bytes 4 D = [u8 D; u8 (Z.shiftr D 8); u8 (Z.shiftr D 16); u8 (Z.shiftr D 24)]).
  { cbn [le_bytes]. unfold u8. rewrite !Z.shiftr_div_pow2 by lia. rewrite !Z.div_div by lia. done. }
  rewrite E. apply wp_bind. eapply wp_mono; [apply Hstep, H|]. cbn beta. intros [b1 p1] H1.
  apply wp_bind. eapply wp_mono; [apply Hstep, H1|]. cbn beta. intros [b2 p2] H2.
  apply wp_bind. eapply wp_mono; [apply Hstep, H2|]. cbn beta. intros [b3 p3] H3.
  eapply wp_mono; [apply Hstep, H3|]. cbn beta. intros [b4 p4] H4. by rewrite <- !app_assoc in H4.
Qed.

Lemma filled_start b : filled b [] b 0.
Proof. split; [done|]. split; [zl|]. done. Qed.

(** The sizes written last replace the zeros written first. *)
Lemma filled_again b0 h1 h2 data b p b' p' : zlen h1 = zlen h2 -> filled b0 (h1 ++ data) b p -> filled b h2 b' p' ->
  filled b0 (h2 ++ data) b' p.
Proof.
  intros Hh (Hz & Hp & Eb) (Hz' & Hp' & Eb'). rewrite zlen_app in Hp. split; [lia|]. split; [rewrite zlen_app; lia|].
  rewrite Eb', Eb. pose proof (zlen_nonneg data). pose proof (zlen_nonneg h1).
  assert (Hle : (Z.to_nat p' <= Z.to_nat p)%nat) by lia. unfold zlen in *.
  rewrite drop_app, length_take, length_app. destruct (decide (length b0 <= length h1)%nat).
  - assert (Ep' : Z.to_nat p' = length b0) by lia. assert (Ep : Z.to_nat p = length b0) by lia. rewrite Ep, Ep'.
    rewrite !drop_ge by (rewrite ?length_take, ?length_app, ?length_drop; lia). cbn [app]. rewrite !app_nil_r.
    by rewrite take_app_le by lia.
  - assert (Ep' : Z.to_nat p' = length h2) by lia. rewrite Ep', take_ge by lia.
    replace (length h2 - Z.to_nat p `min` (length h1 + length data))%nat with O by lia. rewrite drop_0, app_assoc. f_equal.
    assert (Eq : (length h2 <= Z.to_nat p)%nat) by lia. rewrite skipn_firstn_comm.
    rewrite (drop_app_length' h1 data) by lia. rewrite (take_app (h2)), (take_ge h2) by lia. done.
Qed.

Lemma le_bytes_u32 n : le_bytes 4 (u32 n) = le_bytes 4 n.
Proof.
  cbn [le_bytes]. unfold u32. rewrite !Z.div_div by lia. change (256 * 256) with (2 ^ 16). change (2 ^ 16 * 256) with (2 ^ 24).
  assert (H : forall k m, 0 <= k -> k + 8 <= 32 -> (m mod 2 ^ 32 / 2 ^ k) mod 2 ^ 8 = (m / 2 ^ k) mod 2 ^ 8).
  { intros k m Hk Hk2. apply Z.bits_inj'. intros i Hi. destruct (Z.lt_ge_cases i 8).
    - rewrite !Z.mod_pow2_bits_low, <- !Z.shiftr_div_pow2, !Z.shiftr_spec, Z.mod_pow2_bits_low by lia. done.
    - rewrite !Z.mod_pow2_bits_high by lia. done. }
  pose proof (H 0 n ltac:(lia) ltac:(lia)) as H0'. rewrite !Z.div_1_r in H0'. change 256 with (2 ^ 8).
  rewrite H0', (H 8), (H 16), (H 24) by lia. done.
Qed.

Lemma encoded_size x bs pad : zlen x <= WNDSIZ - 2 -> Forall block_ok bs -> encoded x bs -> (length pad < 8)%nat ->
  zlen (stream_bits bs ++ pad) <= 13451 * zlen x + 13407.
Proof.
  consts. intros Hx Hok (He & Hn & _) Hp. pose proof (stream_bits_size bs Hok). pose proof (expand_length _ (tokens_ok _ Hok) _ _ He) as Hl.
  cbn [length] in Hl. rewrite zlen_app. unfold zlen in *. lia.
Qed.

(** What [TianoCompress] returns: [q] is the buffer of symbols it got. *)
Definition compresses (x b0 : list Z) (q : option (Z * carr)) (r : result) : Prop :=
  zlen (r_dst r) = zlen b0 /\ r_freed r = tables ++ buf_pool q /\
  match q with
  | None => r_status r = EFI_OUT_OF_RESOURCES /\ r_DstSize r = zlen b0
  | Some _ => exists c, compressed x c /\ 8 * zlen c <= 13451 * zlen x + 13500 /\ r_DstSize r = zlen c /\
      r_status r = (if zlen c <=? zlen b0 then EFI_SUCCESS else EFI_BUFFER_TOO_SMALL) /\
      take (length c) (r_dst r) = take (length (r_dst r)) c
  end.

Lemma TianoCompress_spec MemCpy Start0 MatchPos0 table p g x b0 : granted p -> bytes_ok x -> zlen x <= WNDSIZ - 2 ->
  wp (TianoCompress MemCpy Start0 MatchPos0 table p g x b0) (fun r => exists q, get_buf p = Done q /\ compresses x b0 q r).
Proof.
  consts. intros Hg Hx Hn. unfold TianoCompress. apply wp_bind. eapply wp_mono; [apply (PutDword_filled 0 b0 []); [lia|apply filled_start]|].
  cbn beta. intros [b1 p1] H1. apply wp_bind. eapply wp_mono; [apply (PutDword_filled 0 b0 _ _ _ ltac:(lia) H1)|].
  cbn beta. intros [b2 p2] (Hz2 & Hp2 & Eb2). set (h := ([] ++ le_bytes 4 0) ++ le_bytes 4 0) in *. cbv zeta.
  apply wp_bind. eapply wp_mono; [apply (Encode_spec MemCpy Start0 MatchPos0 _ (zlen b0) h p x _ Hg Hx Hn)|].
  { done. } { done. } { done. }
  { cbn [set_sink mSink dst mDst]. rewrite Eb2. rewrite take_app_le; [by rewrite take_take, Nat.min_id|]. rewrite length_take. unfold zlen in Hp2. lia. }
  cbn beta. intros [[[st g'] i'] freed] (q & Eq & Ef & Hres). destruct q as [[size buf]|].
  2: { destruct Hres as [-> ->]. cbn [EFI_ERROR]. wps. exists None. split; [done|]. by split. }
  destruct Hres as (-> & Eo & bs & (Hok & pad & Hpad & Hpz & n & Hln & Hcs & HzL & Hmd & Htk) & Henc). cbn [EFI_ERROR].
  pose proof (encoded_size x bs pad Hn Hok Henc Hpad) as Hsize. set (data := pack (stream_bits bs ++ pad)) in *.
  assert (Hdl : length data = n) by (by apply length_pack).
  assert (Hn32 : Z.of_nat n < 2 ^ 31) by (unfold zlen in Hsize at 1; rewrite Hln in Hsize; lia).
  rewrite u32_small in Hcs by (unfold is_u32; lia). rewrite Hcs.
  set (B := dst (mSink g')) in *.
  assert (HB : filled B (h ++ data) B (mDst (mSink g'))).
  { split; [done|]. split; [rewrite zlen_app; unfold zlen in *; lia|]. rewrite <- Htk. by rewrite take_drop. }
  apply wp_bind. eapply wp_mono; [apply (put_byte_filled 0 B (h ++ data) B _ eq_refl HB)|]. cbn beta. intros [b3 p3] H3.
  apply wp_bind. eapply wp_mono; [apply (PutDword_filled (u32 (Z.of_nat n + 1)) b3 []); [apply u32_range|apply filled_start]|].
  cbn beta. intros [b4 p4] H4. apply wp_bind.
  eapply wp_mono; [apply (PutDword_filled (mOrigSize i') b3 _ _ _ ltac:(rewrite Eo; apply zlen_nonneg) H4)|]. cbn beta. intros [b5 p5] H5.
  rewrite <- app_assoc in H3. pose proof (filled_again B h (([] ++ le_bytes 4 (u32 (Z.of_nat n + 1))) ++ le_bytes 4 (mOrigSize i')) (data ++ [0]) b3 p3 b5 p5 eq_refl H3 H5) as (Hz6 & Hp6 & Eb6).
  wps. rewrite u32_small by (unfold is_u32; lia). exists (Some (size, buf)). split; [done|]. split; [cbn; lia|]. split; [done|].
  set (c := (([] ++ le_bytes 4 (u32 (Z.of_nat n + 1))) ++ le_bytes 4 (mOrigSize i')) ++ data ++ [0]) in *. cbn [r_dst r_DstSize r_status].
  assert (Ec : zlen c = Z.of_nat n + 1 + 8). { unfold c. rewrite !zlen_app, !zlen_le_bytes. change (zlen [0]) with 1. unfold zlen at 1 2. cbn [length]. lia. }
  exists c. split; [|split; [unfold zlen in Hsize at 1; rewrite Hln in Hsize; lia|split; [lia|split]]].
  - destruct Henc as (He & _ & Hne). exists bs, pad. split; [done|]. split; [done|]. split; [done|]. split; [done|]. split; [done|].
    split; [by exists n|]. cbv zeta. unfold c, data. rewrite Eo, le_bytes_u32, zlen_app. cbn [app].
    rewrite <- !app_assoc. do 2 f_equal. change (zlen [0]) with 1. fold data. unfold zlen. by rewrite Hdl.
  - rewrite Z.gtb_ltb. destruct (Z.ltb_spec (zlen b0) (Z.of_nat n + 1 + 8)), (Z.leb_spec (zlen c) (zlen b0)); done || lia.
  - rewrite Eb6 at 1. unfold zlen in *. destruct (decide (length B <= length c)%nat).
    + replace (Z.to_nat p3) with (length B) by lia. rewrite (drop_ge B), app_nil_r by lia. rewrite take_take.
      f_equal. lia.
    + replace (Z.to_nat p3) with (length c) by lia. rewrite take_app_le by (rewrite length_take; lia). rewrite take_take, Nat.min_id, !take_ge by lia. done.
Qed.

(** C8: (refinement) The compressor: for data of at most 524286 bytes, with its
    seven tables allocated, whatever they and the globals hold,
    [TianoCompress] returns. When all fourteen sizes of the buffer of symbols,
    from 16384 down to 4131, are refused, the status is
    [EFI_OUT_OF_RESOURCES]; as soon as one is granted there is a stream in the
    compressed format whose tokens expand to the data and whose size is stored
    in [*DstSize]; the status says whether it fits, and the destination holds
    it, cut where it ends. Nothing outside the destination is written. *)
Theorem TianoCompress_compresses MemCpy Start0 MatchPos0 table p g x b0 : granted p -> bytes_ok x -> zlen x <= WNDSIZ - 2 ->
  exists r, TianoCompress MemCpy Start0 MatchPos0 table p g x b0 = Done r /\ zlen (r_dst r) = zlen b0 /\
    match first_granted p buffer_sizes with
    | None => r_status r = EFI_OUT_OF_RESOURCES
    | Some _ => exists c, compressed x c /\ r_DstSize r = zlen c /\
        r_status r = (if zlen c <=? zlen b0 then EFI_SUCCESS else EFI_BUFFER_TOO_SMALL) /\
        take (length c) (r_dst r) = take (length (r_dst r)) c
    end.
Proof.
  intros Hg Hx Hn. pose proof (TianoCompress_spec MemCpy Start0 MatchPos0 table p g x b0 Hg Hx Hn) as H.
  apply wp_elim in H as (r & E & q & Eq & Hz & _ & Hr). exists r. split; [done|]. split; [done|].
  rewrite get_buf_eq in Eq. apply Done_inj in Eq. rewrite <- Eq. destruct q as [[size b]|]; [|by destruct Hr].
  destruct Hr as (c & Hc & _ & Hr). by exists c.
Qed.

Lemma TianoCompress_compresses_witness :
  let z := fun _ : Z => 0 in let u := fun i : Z => i mod 251 in
  let p := mkPools (Some u) (Some u) (Some u) (Some u) (Some u) (Some u) (Some u) (fun n => if n <? 10000 then Some u else None) in
  let g := mkHuf (mkSym z z z) z z z z (mkTrees z z z z) (mkSink [] 0 0 0 0) z 0 0 0 in
  let x := [65; 66; 65; 66; 65; 66] in
  exists r, TianoCompress (fun t _ _ _ => t) 7 9 z p g x (replicate 100 0) = Done r /\ zlen (r_dst r) = 100 /\
    exists c, compressed x c /\ r_DstSize r = zlen c /\
      r_status r = (if zlen c <=? 100 then EFI_SUCCESS else EFI_BUFFER_TOO_SMALL) /\
      take (length c) (r_dst r) = take (length (r_dst r)) c.
Proof.
  intros z u p g x. apply (TianoCompress_compresses (fun t _ _ _ => t) 7 9 z p g x (replicate 100 0)).
  - repeat split; by eexists.
  - repeat constructor; done.
  - done.
Defined.

(** C40: (liveness) The compressor gives back what it takes: for data of at most
    524286 bytes, with its seven tables allocated (a missing one is written
    through its null pointer), the call ends, on success, with too small a
    destination and when all fourteen sizes of the buffer of symbols are
    refused, and by then each of the seven tables and the buffer of symbols,
    in the first size that was granted, has been freed once. *)
Theorem TianoCompress_frees MemCpy Start0 MatchPos0 table p g x b0 : granted p -> bytes_ok x -> zlen x <= WNDSIZ - 2 ->
  exists r, TianoCompress MemCpy Start0 MatchPos0 table p g x b0 = Done r /\
    match first_granted p buffer_sizes with
    | Some (size, _) => r_freed r = tables ++ [PBuf size] /\ r_status r <> EFI_OUT_OF_RESOURCES
    | None => r_freed r = tables /\ r_status r = EFI_OUT_OF_RESOURCES
    end.
Proof.
  intros Hg Hx Hn. pose proof (TianoCompress_spec MemCpy Start0 MatchPos0 table p g x b0 Hg Hx Hn) as H.
  apply wp_elim in H as (r & E & q & Eq & _ & Hf & Hr). exists r. split; [done|].
  rewrite get_buf_eq in Eq. apply Done_inj in Eq. rewrite <- Eq. destruct q as [[size b]|]; cbn [buf_pool] in Hf.
  - split; [done|]. destruct Hr as (c & _ & _ & _ & -> & _). by destruct (_ <=? _).
  - split; [done|]. by destruct Hr.
Qed.

Lemma TianoCompress_frees_witness :
  let z := fun _ : Z => 0 in
  let p := mkPools (Some z) (Some z) (Some z) (Some z) (Some z) (Some z) (Some z) (fun n => if n <? 10000 then Some z else None) in
  let g := mkHuf (mkSym z z z) z z z z (mkTrees z z z z) (mkSink [] 0 0 0 0) z 0 0 0 in
  exists r, TianoCompress (fun t _ _ _ => t) 7 9 z p g [1; 2; 3] [] = Done r /\
    match first_granted p buffer_sizes with
    | Some (size, _) => r_freed r = tables ++ [PBuf size] /\ r_status r <> EFI_OUT_OF_RESOURCES
    | None => r_freed r = tables /\ r_status r = EFI_OUT_OF_RESOURCES
    end.
Proof.
  intros z p g. apply (TianoCompress_frees (fun t _ _ _ => t) 7 9 z p g [1; 2; 3] []).
  - repeat split; by eexists.
  - repeat constructor; done.
  - done.
Defined.

(** The result of [AllocatePool] is tested for the buffer of symbols only: a
    table that is not there is written through its null pointer. *)
Lemma missing_text_faults p : p_text p = None -> AllocateMemory p = Fault.
Proof. intros E. unfold AllocateMemory. by rewrite E. Qed.
