(* ===== verification/TianoReader.v ===== *)
(** * The bits of a compressed stream, read

    Models the input side of the decompressor
    [src/IntelFrameworkModulePkg/Library/BaseUefiTianoCustomDecompressLib]: the
    next 32 bits of the stream, the byte they are filled from, and what is left
    of the source, which is followed by zeros. *)

From S2P Require Import Prelude CArray BitStream.

Definition BITBUFSIZ : Z := 32.

(** The reading half of [SCRATCH_DATA]. *)
Record reader := mkReader {
  rd_SrcBase : list Z; rd_InBuf : Z; rd_CompSize : Z; rd_BitCount : Z; rd_BitBuf : Z; rd_SubBitBuf : Z }.

(** A round of [while (NumOfBits > Sd->mBitCount)]. *)
Definition fill_step (s : reader * Z) : Res (reader * Z + reader * Z) :=
  let '(r, NumOfBits) := s in
  if rd_BitCount r <? NumOfBits then
    let NumOfBits := u16 (NumOfBits - rd_BitCount r) in
    let buf := Z.lor (rd_BitBuf r) (u32 (Z.shiftl (rd_SubBitBuf r) NumOfBits)) in
    if 0 <? rd_CompSize r then
      c ← rd8 (rd_SrcBase r) (rd_InBuf r);
      Done (inl (mkReader (rd_SrcBase r) (rd_InBuf r + 1) (rd_CompSize r - 1) 8 buf c, NumOfBits))
    else Done (inl (mkReader (rd_SrcBase r) (rd_InBuf r) (rd_CompSize r) 8 buf 0, NumOfBits))
  else Done (inr (r, NumOfBits)).

Definition FillBuf (NumOfBits : Z) (r : reader) : Res reader :=
  let buf := u32 (Z.shiftl (rd_BitBuf r) NumOfBits) in
  let r := mkReader (rd_SrcBase r) (rd_InBuf r) (rd_CompSize r) (rd_BitCount r) buf (rd_SubBitBuf r) in
  '(r, NumOfBits) ← loop (S (S (Z.to_nat NumOfBits))) fill_step (r, NumOfBits);
  let count := u16 (rd_BitCount r - NumOfBits) in
  Done (mkReader (rd_SrcBase r) (rd_InBuf r) (rd_CompSize r) count
    (Z.lor (rd_BitBuf r) (Z.shiftr (rd_SubBitBuf r) count)) (rd_SubBitBuf r)).

Definition GetBits (NumOfBits : Z) (r : reader) : Res (Z * reader) :=
  let OutBits := Z.shiftr (rd_BitBuf r) (BITBUFSIZ - NumOfBits) in
  r ← FillBuf NumOfBits r; Done (OutBits, r).

(** ** What is still to be read *)
Definition bit (l : list bool) (i : nat) : bool := nth i l false.

Lemma bit_app l k i : bit (l ++ k) i = if decide (i < length l)%nat then bit l i else bit k (i - length l).
Proof. unfold bit. destruct (decide _); [by apply app_nth1|apply app_nth2; lia]. Qed.
Lemma bit_out l i : (length l <= i)%nat -> bit l i = false.
Proof. intros H. by apply nth_overflow. Qed.
Lemma bit_bits n v i : (i < n)%nat -> bit (bits n v) i = Z.testbit v (Z.of_nat n - 1 - Z.of_nat i).
Proof.
  revert i. induction n as [|n IH]; intros i Hi; [lia|]. cbn [bits]. destruct i as [|i]; cbn [bit nth].
  - unfold bit. cbn [nth]. f_equal. lia.
  - unfold bit in *. cbn [nth]. rewrite IH by lia. f_equal. lia.
Qed.
Lemma bit_zeros n i : bit (replicate n false) i = false.
Proof. unfold bit. revert i. induction n as [|n IH]; intros [|i]; cbn; [done|done|done|apply IH]. Qed.

Definition unread (r : reader) : list Z := take (Z.to_nat (rd_CompSize r)) (drop (Z.to_nat (rd_InBuf r)) (rd_SrcBase r)).
Definition tail_bits (r : reader) : list bool :=
  bits (Z.to_nat (rd_BitCount r)) (rd_SubBitBuf r) ++ concat (map (bits 8) (unread r)).
Definition rest (r : reader) : list bool := bits 32 (rd_BitBuf r) ++ tail_bits r.

(** The bits above the unread ones of [mSubBitBuf] are at the end of
    [mBitBuf], [n] places up while that is being filled. *)
Definition overlap (r : reader) (n : Z) : Prop :=
  forall t, 0 <= t < 8 - rd_BitCount r -> n + t < 32 -> Z.testbit (rd_BitBuf r) (n + t) = Z.testbit (rd_SubBitBuf r) (rd_BitCount r + t).

Definition source_ok (r : reader) : Prop :=
  bytes_ok (rd_SrcBase r) /\ 0 <= rd_InBuf r /\ 0 <= rd_CompSize r /\ rd_InBuf r + rd_CompSize r <= zlen (rd_SrcBase r) /\
  0 <= rd_BitCount r <= 8 /\ is_u8 (rd_SubBitBuf r) /\ is_u32 (rd_BitBuf r).

Lemma source_next src i c buf x : bytes_ok src -> 0 <= i -> 0 <= c -> i + c <= zlen src -> is_u8 x -> is_u32 buf ->
  source_ok (mkReader src i c 8 buf x).
Proof. intros. unfold source_ok. cbn [rd_SrcBase rd_InBuf rd_CompSize rd_BitCount rd_BitBuf rd_SubBitBuf]. split; [done|]. split; [done|]. split; [done|]. split; [done|]. split; [lia|]. by split. Qed.

Definition reader_ok (r : reader) : Prop := source_ok r /\ overlap r 0.

Lemma high_bit v n i : 0 <= v < 2 ^ n -> 0 <= n <= i -> Z.testbit v i = false.
Proof. intros Hv Hn. rewrite <- (Z.mod_small v (2 ^ n)) by done. apply Z.mod_pow2_bits_high. lia. Qed.

Lemma u32_bit v i : 0 <= i < 32 -> Z.testbit (u32 v) i = Z.testbit v i.
Proof. intros Hi. apply Z.mod_pow2_bits_low. lia. Qed.

Lemma lor_is_u32 a b : is_u32 a -> is_u32 b -> is_u32 (Z.lor a b).
Proof.
  intros Ha Hb. unfold is_u32 in *. assert (E : Z.lor a b = Z.lor a b mod 2 ^ 32); [|rewrite E; apply Z.mod_pos_bound; lia].
  apply Z.bits_inj'. intros i Hi. destruct (Z.lt_ge_cases i 32).
  - by rewrite Z.mod_pow2_bits_low.
  - rewrite Z.mod_pow2_bits_high, Z.lor_spec, (high_bit a 32), (high_bit b 32) by lia. done.
Qed.

Definition fill_inv (B : nat -> bool) (N : Z) (s : reader * Z) : Prop :=
  let '(r, n) := s in
  0 <= n <= N /\ source_ok r /\ overlap r n /\
  (forall i, 0 <= i < 32 - n -> Z.testbit (rd_BitBuf r) (31 - i) = B (Z.to_nat (N + i))) /\
  (forall j, bit (tail_bits r) j = B (Z.to_nat (32 + (N - n)) + j)%nat) /\
  (forall t, 0 <= t < n -> Z.testbit (rd_BitBuf r) t = false).

Lemma unread_next r c l : source_ok r -> unread r = c :: l -> 0 < rd_CompSize r /\ rd8 (rd_SrcBase r) (rd_InBuf r) = Done c /\ is_u8 c /\
  take (Z.to_nat (rd_CompSize r - 1)) (drop (Z.to_nat (rd_InBuf r + 1)) (rd_SrcBase r)) = l.
Proof.
  intros (Hb & Hi & Hc & Hz & _) E. unfold unread in E. destruct (Z.to_nat (rd_CompSize r)) as [|m] eqn:Em; [done|].
  destruct (drop (Z.to_nat (rd_InBuf r)) (rd_SrcBase r)) as [|x d] eqn:Ed; [done|]. cbn [take] in E. injection E as -> <-.
  assert (Hx : rd_SrcBase r !! Z.to_nat (rd_InBuf r) = Some c).
  { rewrite <- (Nat.add_0_r (Z.to_nat (rd_InBuf r))), <- lookup_drop, Ed. done. }
  split; [lia|]. split; [unfold rd8, arr_get; rewrite (proj2 (Z.leb_le _ _)) by lia; by rewrite Hx|].
  split; [by eapply Forall_lookup_1 in Hx|]. replace (Z.to_nat (rd_CompSize r - 1)) with m by lia. f_equal.
  replace (Z.to_nat (rd_InBuf r + 1)) with (Z.to_nat (rd_InBuf r) + 1)%nat by lia. by rewrite <- drop_drop, Ed.
Qed.

Lemma unread_none r : source_ok r -> unread r = [] -> rd_CompSize r = 0.
Proof.
  intros (Hb & Hi & Hc & Hz & _) E. unfold unread in E. apply (f_equal length) in E. rewrite length_take, length_drop in E. unfold zlen in Hz. cbn in E. lia.
Qed.

Definition fill_measure (s : reader * Z) : nat := Z.to_nat (snd s + (if rd_BitCount (fst s) =? 0 then 1 else 0)).

Lemma fill_step_ok B N s : N <= 32 -> fill_inv B N s ->
  wp (fill_step s) (fun r => match r with
    | inl s' => fill_inv B N s' /\ (fill_measure s' < fill_measure s)%nat
    | inr s' => fill_inv B N s' /\ snd s' <= rd_BitCount (fst s') end).
Proof.
  destruct s as [r n]. intros HN (Hn & Hs & Ho & H1 & H2 & H4). pose proof Hs as (Hb & Hi & Hc & Hz & Hcnt & Hsub & Hbuf).
  unfold fill_step. destruct (Z.ltb_spec (rd_BitCount r) n) as [Hlt|Hge].
  2: { apply wp_Done. split; [|done]. split; [lia|]. split; [done|]. split; [done|]. split; [done|]. by split. }
  rewrite u16_small by (unfold is_u16; lia). cbv zeta. set (cnt := rd_BitCount r) in *. set (n' := n - cnt).
  set (sub := rd_SubBitBuf r) in *. set (buf := Z.lor (rd_BitBuf r) (u32 (Z.shiftl sub n'))).
  assert (Hbit : forall i, 0 <= i < 32 -> Z.testbit buf i = Z.testbit (rd_BitBuf r) i || Z.testbit sub (i - n')).
  { intros i Hi32. unfold buf. by rewrite Z.lor_spec, u32_bit, Z.shiftl_spec by lia. }
  assert (Hsub8 : forall i, 8 <= i -> Z.testbit sub i = false) by (intros i Hi8; apply (high_bit sub 8); [exact Hsub|lia]).
  assert (H1' : forall i, 0 <= i < 32 - n' -> Z.testbit buf (31 - i) = B (Z.to_nat (N + i))).
  { intros i Hi'. rewrite Hbit by lia. destruct (Z.lt_ge_cases (31 - i) n).
    - rewrite H4 by lia. cbn [orb]. pose proof (H2 (Z.to_nat (cnt - 1 - (31 - i - n')))) as E.
      unfold tail_bits in E. fold cnt sub in E. rewrite bit_app, BitStream.length_bits, decide_True, bit_bits in E by lia.
      replace (Z.of_nat (Z.to_nat cnt) - 1 - Z.of_nat (Z.to_nat (cnt - 1 - (31 - i - n')))) with (31 - i - n') in E by lia.
      rewrite E. f_equal. lia.
    - rewrite H1 by lia. destruct (Z.lt_ge_cases (31 - i - n') 8); [|by rewrite Hsub8, orb_false_r by lia].
      assert (E : Z.testbit sub (31 - i - n') = B (Z.to_nat (N + i))); [|rewrite E; by destruct (B _)].
      rewrite <- H1 by lia. pose proof (Ho (31 - i - n) ltac:(lia) ltac:(lia)) as E.
      replace (n + (31 - i - n)) with (31 - i) in E by lia. rewrite E. f_equal. lia. }
  assert (H4' : forall t, 0 <= t < n' -> Z.testbit buf t = false).
  { intros t Ht. rewrite Hbit, H4 by lia. cbn [orb]. apply Z.testbit_neg_r. lia. }
  assert (Hbuf' : is_u32 buf) by (apply lor_is_u32; [done|apply u32_range]).
  destruct (unread r) as [|c l] eqn:Eu.
  - pose proof (unread_none r Hs Eu) as E0. rewrite E0. cbn [Z.ltb Z.compare]. apply wp_Done. unfold fill_measure. cbn [fst snd rd_BitCount].
    split; [|fold cnt; cbn [Z.eqb]; destruct (Z.eqb_spec cnt 0); lia]. split; [lia|]. split; [apply source_next; done || lia|].
    split; [unfold overlap; cbn; lia|]. split; [exact H1'|]. split; [|exact H4'].
    intros j. unfold tail_bits, unread. cbn [rd_SrcBase rd_InBuf rd_CompSize rd_BitCount rd_SubBitBuf]. cbn [Z.to_nat take map concat].
    rewrite app_nil_r. pose proof (H2 (Z.to_nat cnt + j)%nat) as E. rewrite bit_out in E.
    + replace (Z.to_nat (32 + (N - n')) + j)%nat with (Z.to_nat (32 + (N - n)) + (Z.to_nat cnt + j))%nat by lia. rewrite <- E.
      destruct (Nat.lt_ge_cases j 8); [by rewrite bit_bits, Z.bits_0 by lia|]. apply bit_out. rewrite BitStream.length_bits. change (Pos.to_nat 8) with 8%nat. lia.
    + unfold tail_bits. rewrite Eu. cbn [map concat]. rewrite app_nil_r, BitStream.length_bits. fold cnt. lia.
  - destruct (unread_next r c l Hs Eu) as (Hpos & Erd & Hcu & El). rewrite (proj2 (Z.ltb_lt 0 _)), Erd, bind_Done by lia.
    apply wp_Done. unfold fill_measure. cbn [fst snd rd_BitCount]. split; [|fold cnt; cbn [Z.eqb]; destruct (Z.eqb_spec cnt 0); lia]. split; [lia|].
    split; [apply source_next; done || lia|]. split; [unfold overlap; cbn; lia|]. split; [exact H1'|]. split; [|exact H4'].
    intros j. unfold tail_bits, unread. cbn [rd_SrcBase rd_InBuf rd_CompSize rd_BitCount rd_SubBitBuf]. rewrite El.
    pose proof (H2 (Z.to_nat cnt + j)%nat) as E. unfold tail_bits in E. rewrite Eu in E. fold cnt in E.
    rewrite bit_app, BitStream.length_bits, decide_False in E by lia. replace (Z.to_nat cnt + j - Z.to_nat cnt)%nat with j in E by lia.
    cbn [map concat] in E. change (Z.to_nat 8) with 8%nat. rewrite E. f_equal. lia.
Qed.

Lemma FillBuf_spec r n : reader_ok r -> 0 <= n <= 32 ->
  wp (FillBuf n r) (fun r' => reader_ok r' /\ forall i, bit (rest r') i = bit (rest r) (Z.to_nat n + i)%nat).
Proof.
  intros [Hs Ho] Hn. pose proof Hs as (Hb & Hi & Hc & Hz & Hcnt & Hsub & Hbuf). unfold FillBuf. cbv zeta.
  set (r0 := mkReader _ _ _ _ _ _). set (B := bit (rest r)).
  assert (Hbit : forall i, 0 <= i < 32 -> B (Z.to_nat i) = Z.testbit (rd_BitBuf r) (31 - i)).
  { intros i Hi'. unfold B, rest. rewrite bit_app, BitStream.length_bits, decide_True, bit_bits by lia. f_equal. lia. }
  assert (H0 : fill_inv B n (r0, n)).
  { split; [lia|]. split; [do 6 (split; [done|]); apply u32_range|].
    cbn [r0 rd_BitBuf]. split; [|split; [|split]].
    - intros t Ht H32. cbn [r0 rd_BitBuf rd_SubBitBuf rd_BitCount] in *. rewrite u32_bit, Z.shiftl_spec by lia.
      replace (n + t - n) with (0 + t) by lia. apply Ho; lia.
    - intros i Hi'. rewrite u32_bit, Z.shiftl_spec, Hbit by lia. f_equal. lia.
    - intros j. rewrite Z.sub_diag, Z.add_0_r. unfold B, rest. rewrite bit_app, BitStream.length_bits, decide_False by lia.
      change (tail_bits r0) with (tail_bits r). f_equal. lia.
    - intros t Ht. rewrite u32_bit, Z.shiftl_spec_low by lia. done. }
  apply wp_bind. apply (wp_mono _ (fun s => fill_inv B n s /\ snd s <= rd_BitCount (fst s))).
  { apply (wp_loop (fill_inv B n) fill_measure); [|done|].
    - intros s Hs'. eapply wp_mono; [by apply (fill_step_ok B n); [lia|]|]. by intros [s'|s'] H.
    - unfold fill_measure. cbn [snd fst]. destruct (_ =? 0); lia. }
  intros [r1 n1] ((Hn1 & Hs1 & Ho1 & H1 & H2 & H4) & Hle). cbn [fst snd] in Hle. apply wp_Done.
  pose proof Hs1 as (Hb1 & Hi1 & Hc1 & Hz1 & Hcnt1 & Hsub1 & Hbuf1). rewrite u16_small by (unfold is_u16; lia).
  set (cnt := rd_BitCount r1) in *. set (sub := rd_SubBitBuf r1) in *. set (buf := Z.lor _ _).
  assert (Hsub8 : forall i, 8 <= i -> Z.testbit sub i = false) by (intros i Hi8; apply (high_bit sub 8); [exact Hsub1|lia]).
  assert (Hb' : forall i, 0 <= i < 32 -> Z.testbit buf i = Z.testbit (rd_BitBuf r1) i || Z.testbit sub (i + (cnt - n1))).
  { intros i Hi'. unfold buf. by rewrite Z.lor_spec, Z.shiftr_spec by lia. }
  assert (Hlo : forall t, 0 <= t < n1 -> Z.testbit buf t = Z.testbit sub (t + (cnt - n1))).
  { intros t Ht. by rewrite Hb', H4 by lia. }
  assert (Hhi : forall t, n1 <= t < 32 -> Z.testbit buf t = Z.testbit (rd_BitBuf r1) t /\
    (t + (cnt - n1) < 8 -> Z.testbit buf t = Z.testbit sub (t + (cnt - n1)))).
  { intros t Ht. rewrite Hb' by lia. destruct (Z.lt_ge_cases (t + (cnt - n1)) 8) as [H8|H8].
    - pose proof (Ho1 (t - n1) ltac:(lia) ltac:(lia)) as E. fold cnt sub in E.
      replace (n1 + (t - n1)) with t in E by lia. replace (cnt + (t - n1)) with (t + (cnt - n1)) in E by lia. rewrite E.
      by destruct (Z.testbit sub _).
    - rewrite (Hsub8 (t + _)), orb_false_r by lia. split; [done|lia]. }
  assert (Hsubbuf : is_u8 sub) by done.
  split; [split|].
  - unfold source_ok. cbn [rd_SrcBase rd_InBuf rd_CompSize rd_BitCount rd_BitBuf rd_SubBitBuf].
    split; [done|]. split; [done|]. split; [done|]. split; [done|]. split; [lia|]. split; [done|].
    apply lor_is_u32; [done|]. unfold is_u32. rewrite Z.shiftr_div_pow2 by lia. unfold is_u8 in Hsubbuf. split; [apply Z.div_pos; lia|].
    apply Z.div_lt_upper_bound; [lia|]. assert (1 <= 2 ^ (cnt - n1)) by lia. nia.
  - intros t Ht H32. cbn [rd_SubBitBuf rd_BitBuf rd_BitCount] in *. rewrite !Z.add_0_l in *. replace (cnt - n1 + t) with (t + (cnt - n1)) by lia.
    destruct (Z.lt_ge_cases t n1); [apply Hlo; lia|]. apply (proj2 (Hhi t ltac:(lia))). lia.
  - intros i. fold B. unfold rest. cbn [rd_BitBuf]. rewrite bit_app, BitStream.length_bits. destruct (decide (i < 32)%nat) as [Hi32|Hi32].
    + rewrite bit_bits by done. replace (Z.of_nat 32 - 1 - Z.of_nat i) with (31 - Z.of_nat i) by lia.
      destruct (Z.lt_ge_cases (31 - Z.of_nat i) n1) as [Hlt|Hge].
      * rewrite Hlo by lia. pose proof (H2 (Z.to_nat (n1 - 1 - (31 - Z.of_nat i)))) as E. unfold tail_bits in E. fold cnt sub in E.
        rewrite bit_app, BitStream.length_bits, decide_True, bit_bits in E by lia.
        replace (Z.of_nat (Z.to_nat cnt) - 1 - Z.of_nat (Z.to_nat (n1 - 1 - (31 - Z.of_nat i)))) with (31 - Z.of_nat i + (cnt - n1)) in E by lia.
        rewrite E. f_equal. lia.
      * rewrite (proj1 (Hhi (31 - Z.of_nat i) ltac:(lia))), H1 by lia. f_equal. lia.
    + unfold tail_bits. cbn [rd_BitCount rd_SubBitBuf]. fold cnt sub. change (unread _) with (unread r1).
      pose proof (H2 (Z.to_nat n1 + (i - 32))%nat) as E. replace (Z.to_nat (32 + (n - n1)) + (Z.to_nat n1 + (i - 32)))%nat with (Z.to_nat n + i)%nat in E by lia.
      rewrite <- E. unfold tail_bits. fold cnt sub. rewrite !bit_app, !BitStream.length_bits.
      destruct (decide (i - 32 < Z.to_nat (cnt - n1))%nat).
      * rewrite decide_True, !bit_bits by lia. f_equal. lia.
      * rewrite decide_False by lia. f_equal. lia.
Qed.

(** The reader stands in front of [l], followed by zeros. *)
Definition reads (r : reader) (l : list bool) : Prop := reader_ok r /\ forall i, bit (rest r) i = bit l i.

Lemma reads_skip r a l : reads r (a ++ l) -> (length a <= 32)%nat -> wp (FillBuf (zlen a) r) (fun r' => reads r' l).
Proof.
  intros [Hr H] Ha. eapply wp_mono; [apply FillBuf_spec; [done|unfold zlen; lia]|]. cbn beta. intros r' [Hr' H']. split; [done|].
  intros i. rewrite H', H, bit_app, decide_False by (unfold zlen; lia). f_equal. unfold zlen. lia.
Qed.

(** The first bits of the stream, as a number. *)
Lemma top_bits r a l n : reads r (a ++ l) -> zlen a = n -> n <= 32 -> Z.shiftr (rd_BitBuf r) (BITBUFSIZ - n) = bval a.
Proof.
  intros [(Hs & _) H] Hn H32. assert (Hz : 0 <= n) by (rewrite <- Hn; apply zlen_nonneg). destruct Hs as (_ & _ & _ & _ & _ & _ & Hbuf).
  unfold BITBUFSIZ. apply Z.bits_inj'. intros i Hi. rewrite Z.shiftr_spec by done. destruct (Z.lt_ge_cases i n) as [Hlt|Hge].
  - pose proof (H (Z.to_nat (n - 1 - i))) as E. unfold rest in E. unfold zlen in Hn.
    rewrite bit_app, BitStream.length_bits, decide_True, bit_bits in E by lia. rewrite bit_app, decide_True in E by lia.
    replace (Z.of_nat 32 - 1 - Z.of_nat (Z.to_nat (n - 1 - i))) with (i + (32 - n)) in E by lia. rewrite E.
    rewrite <- (bits_bval a) at 1. rewrite bit_bits by lia. f_equal. lia.
  - rewrite (high_bit (rd_BitBuf r) 32) by (exact Hbuf || lia). symmetry. pose proof (bval_range a) as Hv. rewrite Hn in Hv. apply (high_bit _ n); [done|lia].
Qed.

Lemma GetBits_spec r n v l : reads r (bits (Z.to_nat n) v ++ l) -> 0 <= n <= 32 -> 0 <= v < 2 ^ n ->
  wp (GetBits n r) (fun '(o, r') => o = v /\ reads r' l).
Proof.
  intros H Hn Hv. unfold GetBits. cbv zeta. rewrite (top_bits r _ l n H) by (rewrite ?zlen_bits; lia).
  rewrite bval_bits, Z2Nat.id, Z.mod_small by lia. apply wp_bind.
  pose proof (reads_skip r _ l H ltac:(rewrite BitStream.length_bits; lia)) as Hs. rewrite zlen_bits, Z2Nat.id in Hs by lia.
  eapply wp_mono; [exact Hs|]. cbn beta. intros r' Hr'. by apply wp_Done.
Qed.

(** A new reader stands at the beginning of the source once it is filled. *)
Lemma reads_start src n : bytes_ok src -> 0 <= n <= zlen src ->
  wp (FillBuf BITBUFSIZ (mkReader src 0 n 0 0 0)) (fun r => reads r (concat (map (bits 8) (take (Z.to_nat n) src)))).
Proof.
  intros Hb Hn. eapply wp_mono; [apply FillBuf_spec; [|done]|].
  - split; [split; [done|]; do 2 (split; [cbn; lia|]); split; [cbn; lia|]; split; [cbn; lia|]; by split|].
    intros t Ht H32. cbn. by rewrite !Z.bits_0.
  - cbn beta. intros r [Hr H]. split; [done|]. intros i. rewrite H. unfold rest. rewrite bit_app, BitStream.length_bits, decide_False by (unfold BITBUFSIZ; lia).
    unfold tail_bits, unread. cbn [rd_SrcBase rd_InBuf rd_CompSize rd_BitCount rd_SubBitBuf]. cbn [Z.to_nat bits app drop]. f_equal. unfold BITBUFSIZ. lia.
Qed.
