(* ===== verification/TianoTable.v ===== *)
(** * Decoding tables

    Models [MakeTable] of the decompressor: the table that is looked up with
    the first bits of the stream, and the tree behind its entries for codes
    that are longer. For the lengths of a complete code looking up a symbol's
    canonical code finds the symbol, and the tree has room. *)

From S2P Require Import Prelude CArray BitStream TianoHuff TianoFormat.

(** ** Data *)

(** [mTable], [mLeft] and [mRight], and a place in one of them: what
    [Pointer] points to. *)
Record tree := mkTree { tr_Table : carr; tr_Left : carr; tr_Right : carr }.
Inductive cell := InTable (i : Z) | InLeft (i : Z) | InRight (i : Z).

Definition NNODE : Z := 2 * NC - 1.
Definition BAD_TABLE : Z := u16 (- 1).

(** [T] is the length of the table. *)
Definition cell_in (T : Z) (c : cell) : bool :=
  match c with InTable i => (0 <=? i) && (i <? T) | InLeft i | InRight i => (0 <=? i) && (i <? NNODE) end.
Definition cell_val (t : tree) (c : cell) : Z :=
  match c with InTable i => tr_Table t i | InLeft i => tr_Left t i | InRight i => tr_Right t i end.
Definition cell_set (t : tree) (c : cell) (v : Z) : tree :=
  match c with
  | InTable i => mkTree (upd (tr_Table t) i v) (tr_Left t) (tr_Right t)
  | InLeft i => mkTree (tr_Table t) (upd (tr_Left t) i v) (tr_Right t)
  | InRight i => mkTree (tr_Table t) (tr_Left t) (upd (tr_Right t) i v)
  end.
Definition get_cell (T : Z) (t : tree) (c : cell) : Res Z := if cell_in T c then Done (cell_val t c) else Fault.
Definition set_cell (T : Z) (t : tree) (c : cell) (v : Z) : Res tree := if cell_in T c then Done (cell_set t c v) else Fault.

(** ** MakeTable *)

(** [Count], [Start] and [Weight] are local arrays, here zero at first; an
    entry is written before it is read. A length of 17 or more is an access
    outside of [Count]. *)
Definition count_lens (NumOfChar sz : Z) (BitLen : carr) : Res carr :=
  forZ 0 (Z.to_nat NumOfChar) (fun Index Count =>
    l ← aget sz BitLen Index; n ← aget 17 Count l; aset 17 Count l (u16 (n + 1))) (fun _ => 0).

Definition make_starts (Count : carr) : Res carr :=
  forZ 1 16 (fun Index Start =>
    s ← aget 18 Start Index; c ← aget 17 Count Index;
    aset 18 Start (Index + 1) (u16 (s + Z.shiftl c (16 - Index)))) (fun _ => 0).

Definition make_weights (TableBits JuBits : Z) (Start : carr) : Res (carr * carr) :=
  '(Start, Weight) ← forZ 1 (Z.to_nat TableBits) (fun Index '(Start, Weight) =>
    s ← aget 18 Start Index; Start ← aset 18 Start Index (Z.shiftr s JuBits);
    Weight ← aset 17 Weight Index (u16 (Z.shiftl 1 (TableBits - Index))); Done (Start, Weight)) (Start, fun _ => 0);
  Weight ← forZ (TableBits + 1) (Z.to_nat (16 - TableBits)) (fun Index Weight =>
    aset 17 Weight Index (u16 (Z.shiftl 1 (16 - Index)))) Weight;
  Done (Start, Weight).

(** What short codes leave of the table is cleared. *)
Definition clear_table (T TableBits Index : Z) (t : tree) : Res tree :=
  let Index3 := u16 (Z.shiftl 1 TableBits) in
  if negb (Index =? 0) && (Index <? Index3) then
    if Index3 <=? T then Done (mkTree (afill Index Index3 (fun _ => 0) (tr_Table t)) (tr_Left t) (tr_Right t)) else Fault
  else Done t.

(** A round of [while (Index != 0)] on the way down to a long code. *)
Definition walk_step (T Mask : Z) (s : tree * Z * cell * Z) : Res (tree * Z * cell * Z) :=
  let '(t, Avail, Pointer, Index3) := s in
  v ← get_cell T t Pointer;
  '(t, Avail) ← (if (v =? 0) && (Avail <? NNODE) then
    t ← set_cell T t (InLeft Avail) 0; t ← set_cell T t (InRight Avail) 0;
    t ← set_cell T t Pointer Avail; Done (t, u16 (Avail + 1))
  else Done (t, Avail));
  v ← get_cell T t Pointer;
  let Pointer := if v <? NNODE then if negb (Z.land Index3 Mask =? 0) then InRight v else InLeft v else Pointer in
  Done (t, Avail, Pointer, u16 (Z.shiftl Index3 1)).

(** A round of [for (Char = 0; Char < NumOfChar; Char++)]. *)
Definition char_step (T sz TableBits JuBits Mask : Z) (BitLen Weight : carr) (Char : Z) (s : carr * Z * tree) : Res (carr * Z * tree) :=
  let '(Start, Avail, t) := s in
  Len ← aget sz BitLen Char;
  if (Len =? 0) || (17 <=? Len) then Done (Start, Avail, t)
  else
    st ← aget 18 Start Len; w ← aget 17 Weight Len;
    let NextCode := u16 (st + w) in
    '(Avail, t) ← (if Len <=? TableBits then
      t ← forZ st (Z.to_nat (NextCode - st)) (fun Index t => set_cell T t (InTable Index) Char) t; Done (Avail, t)
    else
      '(t, Avail, Pointer, _) ← forZ 0 (Z.to_nat (Len - TableBits)) (fun _ => walk_step T Mask) (t, Avail, InTable (Z.shiftr st JuBits), st);
      t ← set_cell T t Pointer Char; Done (Avail, t));
    Start ← aset 18 Start Len NextCode; Done (Start, Avail, t).

Definition MakeTable (NumOfChar sz : Z) (BitLen : carr) (TableBits T : Z) (t : tree) : Res (Z * tree) :=
  Count ← count_lens NumOfChar sz BitLen;
  Start ← make_starts Count;
  last ← aget 18 Start 17;
  if negb (last =? 0) then Done (BAD_TABLE, t)
  else
    let JuBits := u16 (16 - TableBits) in
    '(Start, Weight) ← make_weights TableBits JuBits Start;
    s ← aget 18 Start (TableBits + 1);
    t ← clear_table T TableBits (Z.shiftr s JuBits) t;
    let Mask := u16 (Z.shiftl 1 (15 - TableBits)) in
    '(_, _, t) ← forZ 0 (Z.to_nat NumOfChar) (char_step T sz TableBits JuBits Mask BitLen Weight) (Start, NumOfChar, t);
    Done (0, t).

(** ** Prefixes of canonical codes *)
Section code.
Context (N : Z) (len : Z -> Z).
Hypothesis code_complete : complete N len.
Hypothesis N_range : 0 < N.

Definition first (l : Z) : Z := first_code (ncodes N len) (Z.to_nat l).
(** The inner nodes at the depth [k]: what codes of at most [k] bits leave. *)
Definition inner (k : Z) : Z := 2 ^ k - first k - ncodes N len k.

Lemma ncodes_nonneg l : 0 <= ncodes N len l.
Proof using. unfold ncodes. destruct (l =? 0); [done|]. apply asum_isv_bound. Qed.

Lemma first_step k : 0 <= k -> first (k + 1) = 2 * (first k + ncodes N len k).
Proof using.
  intros Hk. unfold first. replace (Z.to_nat (k + 1)) with (S (Z.to_nat k)) by lia. cbn [first_code]. by rewrite Z2Nat.id by lia.
Qed.

Lemma pow_times k : 0 <= k <= 16 -> 2 ^ k * pow k = 2 ^ 16.
Proof using. intros Hk. unfold pow. rewrite <- Z.pow_add_r by lia. f_equal. lia. Qed.

(** The space that codes of at most [k] bits take. *)
Lemma used_space k : 0 <= k <= 16 -> (first k + ncodes N len k) * pow k = wsum pow (ncodes N len) (S (Z.to_nat k)).
Proof using.
  intros Hk. cbn [wsum]. rewrite Z2Nat.id by lia. pose proof (first_code_pow (ncodes N len) (Z.to_nat k) ltac:(lia)) as H.
  rewrite Z2Nat.id in H by lia. unfold first. lia.
Qed.

Lemma inner_step k : 0 <= k < 16 -> inner (k + 1) = 2 * inner k - ncodes N len (k + 1).
Proof using. intros Hk. unfold inner. rewrite first_step, Z.pow_add_r by lia. change (2 ^ 1) with 2. lia. Qed.

Lemma kraft_sum cnt : kraft cnt = wsum pow cnt 17.
Proof using. done. Qed.
Lemma inner_space n : (n <= 16)%nat -> inner (Z.of_nat n) * pow (Z.of_nat n) = 2 ^ 16 - wsum pow (ncodes N len) (S n).
Proof using.
  intros Hn. pose proof (used_space (Z.of_nat n) ltac:(lia)) as H. rewrite Nat2Z.id in H. rewrite <- H, <- (pow_times (Z.of_nat n)) by lia.
  unfold inner. lia.
Qed.

Lemma inner_last : inner 16 = 0.
Proof using code_complete.
  pose proof (inner_space 16 (le_n 16)) as H. rewrite <- kraft_sum, (proj2 code_complete) in H. assert (E : Z.of_nat 16 = 16) by done. rewrite E in H. assert (E1 : pow 16 = 1) by done. rewrite E1 in H. lia.
Qed.

Lemma inner_nonneg k : 0 <= k <= 16 -> 0 <= inner k.
Proof using code_complete.
  intros Hk. pose proof (wsum_le_kraft (ncodes N len) (S (Z.to_nat k)) (ncodes_ok N len) ltac:(lia)) as [_ H].
  rewrite <- used_space in H by lia. destruct code_complete as [_ Hkr]. rewrite Hkr in H.
  rewrite <- (pow_times k) in H by lia. pose proof (pow_pos k ltac:(lia)). unfold inner. nia.
Qed.

(** *** How many inner nodes there are *)

(** Of the first [n] symbols, those whose codes have one of the [k] greatest lengths. *)
Fixpoint deep (n k : nat) : Z := match k with O => 0 | S k => asum (isv (16 - Z.of_nat k)) len 0 n + deep n k end.
Fixpoint inners (k : nat) : Z := match k with O => 0 | S k => inner (15 - Z.of_nat k) + inners k end.

Lemma deep_S n k : (k <= 16)%nat ->
  deep (S n) k = deep n k + (if (16 - Z.of_nat k <? len (Z.of_nat n)) && (len (Z.of_nat n) <=? 16) then 1 else 0).
Proof using.
  induction k as [|k IH]; intros Hk; cbn [deep].
  - destruct (Z.ltb_spec (16 - Z.of_nat 0) (len (Z.of_nat n))), (Z.leb_spec (len (Z.of_nat n)) 16); cbn; lia.
  - rewrite asum_S, IH, Z.add_0_l by lia. set (l := len (Z.of_nat n)). unfold isv at 2.
    destruct (Z.eqb_spec l (16 - Z.of_nat k)), (Z.ltb_spec (16 - Z.of_nat k) l), (Z.ltb_spec (16 - Z.of_nat (S k)) l), (Z.leb_spec l 16); cbn [andb b2z]; lia.
Qed.

Lemma deep_bound n k : (k <= 16)%nat -> 0 <= deep n k <= Z.of_nat n.
Proof using.
  intros Hk. induction n as [|n IH].
  - induction k as [|k IH]; cbn [deep asum]; [lia|]. specialize (IH ltac:(lia)). lia.
  - rewrite deep_S by done. destruct (_ && _); lia.
Qed.

Lemma inners_deep k : (k <= 16)%nat -> inners k + inner (16 - Z.of_nat k) = deep (Z.to_nat N) k.
Proof using code_complete.
  induction k as [|k IH]; intros Hk; cbn [inners deep].
  - apply inner_last.
  - specialize (IH ltac:(lia)). pose proof (inner_step (15 - Z.of_nat k) ltac:(lia)) as H.
    replace (15 - Z.of_nat k + 1) with (16 - Z.of_nat k) in H by lia.
    replace (16 - Z.of_nat (S k)) with (15 - Z.of_nat k) by lia.
    assert (E : ncodes N len (16 - Z.of_nat k) = asum (isv (16 - Z.of_nat k)) len 0 (Z.to_nat N)).
    { unfold ncodes. by rewrite (proj2 (Z.eqb_neq _ 0)) by lia. }
    lia.
Qed.

(** No more inner nodes than symbols, the table's included. *)
Lemma inners_count b : 1 <= b <= 15 -> 0 <= inners (Z.to_nat (16 - b)) /\ inners (Z.to_nat (16 - b)) + inner b <= N /\
  (inner b = 0 -> inners (Z.to_nat (16 - b)) = 0).
Proof using code_complete N_range.
  intros Hb. pose proof (inners_deep (Z.to_nat (16 - b)) ltac:(lia)) as H. pose proof (deep_bound (Z.to_nat N) (Z.to_nat (16 - b)) ltac:(lia)) as Hd.
  rewrite Z2Nat.id in H by lia. replace (16 - (16 - b)) with b in H by lia. split; [|split; [lia|]].
  - clear H. assert (Hi : forall k, (k <= 16)%nat -> 0 <= inners k); [|apply Hi; lia].
    induction k as [|k IH]; intros Hk; cbn [inners]; [done|]. pose proof (inner_nonneg (15 - Z.of_nat k) ltac:(lia)). specialize (IH ltac:(lia)). lia.
  - intros H0. clear H. assert (Hz : forall n, b + Z.of_nat n <= 16 -> inner (b + Z.of_nat n) = 0).
    { induction n as [|n IH]; intros Hn; [by rewrite Z.add_0_r|]. specialize (IH ltac:(lia)).
      pose proof (inner_step (b + Z.of_nat n) ltac:(lia)) as E. pose proof (ncodes_nonneg (b + Z.of_nat n + 1)).
      pose proof (inner_nonneg (b + Z.of_nat n + 1) ltac:(lia)). replace (b + Z.of_nat (S n)) with (b + Z.of_nat n + 1) by lia. lia. }
    assert (Hi : forall k, Z.of_nat k <= 16 - b -> inners k = 0); [|apply Hi; lia].
    induction k as [|k IH]; intros Hk; cbn [inners]; [done|]. rewrite IH by lia. pose proof (Hz (Z.to_nat (15 - Z.of_nat k - b)) ltac:(lia)) as E.
    replace (b + Z.of_nat (Z.to_nat (15 - Z.of_nat k - b))) with (15 - Z.of_nat k) in E by lia. lia.
Qed.

(** All inner nodes at the [k] greatest depths. *)
Fixpoint all_inner (k : nat) : list (Z * Z) :=
  match k with
  | O => []
  | S k => map (fun p => (15 - Z.of_nat k, p)) (seqZ (2 ^ (15 - Z.of_nat k) - inner (15 - Z.of_nat k)) (inner (15 - Z.of_nat k))) ++ all_inner k
  end.

Lemma all_inner_length k : (k <= 15)%nat -> zlen (all_inner k) = inners k.
Proof using code_complete.
  induction k as [|k IH]; intros Hk; cbn [all_inner inners]; [done|]. rewrite zlen_app, IH by lia.
  pose proof (inner_nonneg (15 - Z.of_nat k) ltac:(lia)). unfold zlen at 1. rewrite length_map, length_seqZ. lia.
Qed.

Definition inner_node (b : Z) (n : Z * Z) : Prop := b <= fst n <= 15 /\ 2 ^ fst n - inner (fst n) <= snd n < 2 ^ fst n.

Lemma all_inner_elem k n : inner_node (16 - Z.of_nat k) n -> n ∈ all_inner k.
Proof using.
  destruct n as [d p]. induction k as [|k IH]; intros [Hd Hp]; cbn [all_inner fst snd] in *; [lia|].
  apply elem_of_app. destruct (decide (d = 15 - Z.of_nat k)) as [->|]; [left|right; apply IH; split; cbn [fst snd]; lia].
  apply list_elem_of_fmap. exists p. split; [done|]. apply elem_of_seqZ. lia.
Qed.

Lemma nodes_count b nodes : 1 <= b <= 15 -> NoDup nodes -> Forall (inner_node b) nodes -> zlen nodes <= inners (Z.to_nat (16 - b)).
Proof using code_complete.
  intros Hb Hd Hf. rewrite <- all_inner_length by lia. unfold zlen. apply inj_le. apply submseteq_length. apply NoDup_submseteq; [done|].
  intros n Hn. apply all_inner_elem. rewrite Z2Nat.id by lia. replace (16 - (16 - b)) with b by lia. by eapply Forall_forall in Hf.
Qed.

(** *** Prefixes *)
Lemma canon_range s : 0 <= s < N -> len s <> 0 -> 1 <= len s <= 16 /\ 0 <= canon N len s < 2 ^ len s.
Proof using code_complete.
  intros Hs Hl. pose proof (proj1 code_complete s Hs). split; [lia|]. by apply canon_bound.
Qed.

Lemma wsum_step a n m : (n <= m)%nat -> (m <= 17)%nat -> cnt_ok a -> wsum pow a n <= wsum pow a m.
Proof using.
  intros Hnm Hm Ha. induction Hnm as [|m Hnm IH]; [done|]. specialize (IH ltac:(lia)). cbn [wsum].
  pose proof (Ha (Z.of_nat m) ltac:(lia)). pose proof (pow_pos (Z.of_nat m) ltac:(lia)). nia.
Qed.

Lemma div_pow2_split a i j : 0 <= i -> 0 <= j -> a / 2 ^ (i + j) = a / 2 ^ i / 2 ^ j.
Proof using. intros Hi Hj. rewrite Z.pow_add_r, Z.div_div by lia. done. Qed.

(** The proper prefixes of a code are inner nodes. *)
Lemma prefix_range s k : 0 <= s < N -> 0 <= k < len s -> 2 ^ k - inner k <= canon N len s / 2 ^ (len s - k) < 2 ^ k.
Proof using code_complete.
  intros Hs Hk. destruct (canon_range s Hs ltac:(lia)) as [Hl Hc]. destruct (canon_interval N len s code_complete Hs ltac:(lia)) as [H1 _].
  split.
  - apply Z.div_le_lower_bound; [lia|]. unfold inner. replace (2 ^ k - (2 ^ k - first k - ncodes N len k)) with (first k + ncodes N len k) by lia.
    pose proof (used_space k ltac:(lia)) as Hu. pose proof (wsum_step (ncodes N len) (S (Z.to_nat k)) (Z.to_nat (len s)) ltac:(lia) ltac:(lia) (ncodes_ok N len)).
    assert (E : pow k = 2 ^ (len s - k) * pow (len s)) by (unfold pow; rewrite <- Z.pow_add_r by lia; f_equal; lia).
    pose proof (pow_pos (len s) ltac:(lia)). nia.
  - apply Z.div_lt_upper_bound; [lia|]. rewrite <- Z.pow_add_r by lia. replace (len s - k + k) with (len s) by lia. lia.
Qed.

Lemma short_range s k : 0 <= s < N -> 0 < len s <= k -> k <= 16 -> (canon N len s + 1) * 2 ^ (k - len s) <= 2 ^ k - inner k.
Proof using code_complete.
  intros Hs Hk Hk16. destruct (canon_interval N len s code_complete Hs ltac:(lia)) as [_ H2].
  unfold inner. replace (2 ^ k - (2 ^ k - first k - ncodes N len k)) with (first k + ncodes N len k) by lia.
  pose proof (used_space k ltac:(lia)) as Hu. pose proof (wsum_step (ncodes N len) (S (Z.to_nat (len s))) (S (Z.to_nat k)) ltac:(lia) ltac:(lia) (ncodes_ok N len)).
  assert (E : pow (len s) = 2 ^ (k - len s) * pow k) by (unfold pow; rewrite <- Z.pow_add_r by lia; f_equal; lia).
  pose proof (pow_pos k ltac:(lia)). nia.
Qed.

Lemma rank_lt s t : 0 <= s < t -> len s = len t -> rank len s < rank len t.
Proof using.
  intros Hs E. unfold rank. rewrite E. replace (Z.to_nat t) with (Z.to_nat s + S (Z.to_nat (t - s - 1)))%nat by lia.
  rewrite asum_app. cbn [asum]. rewrite Z.add_0_l, Z2Nat.id, E, isv_eq by lia. pose proof (asum_isv_bound (len t) len (s + 1) (Z.to_nat (t - s - 1))). lia.
Qed.

Lemma prefix_free s t : 0 <= s < N -> 0 <= t < N -> s <> t -> 0 < len t <= len s ->
  canon N len s / 2 ^ (len s - len t) <> canon N len t.
Proof using code_complete.
  intros Hs Ht Hne Hl E. destruct (decide (len t = len s)) as [El|El].
  - rewrite El, Z.sub_diag, Z.div_1_r in E. unfold canon in E. rewrite El in E.
    destruct (Z.lt_ge_cases s t); [pose proof (rank_lt s t ltac:(lia) ltac:(lia))|pose proof (rank_lt t s ltac:(lia) ltac:(lia))]; lia.
  - pose proof (short_range t (len t) Ht ltac:(lia)) as H1. pose proof (proj1 code_complete s Hs). specialize (H1 ltac:(lia)).
    pose proof (prefix_range s (len t) Hs ltac:(lia)) as [H2 _]. rewrite Z.sub_diag in H1. rewrite E in H2. lia.
Qed.
(** ** The tree

    [nodes] are the prefixes that have a node, in the order of their
    numbers, which begin at [N]. *)
Context (b : Z).
Hypothesis b_range : 1 <= b <= 12.
Hypothesis N_small : N <= NC.
Hypothesis N_table : N < 2 ^ b.

(** The first [k] bits of the code of [s]. *)
Definition pfx (s k : Z) : Z := canon N len s / 2 ^ (len s - k).

Definition at_cell (nodes : list (Z * Z)) (k p : Z) (c : cell) : Prop :=
  (k = b /\ c = InTable p) \/
  (b < k /\ exists i, nodes !! i = Some (k - 1, p / 2) /\
    c = if Z.odd p then InRight (N + Z.of_nat i) else InLeft (N + Z.of_nat i)).

Definition long (s : Z) : Prop := 0 <= s < N /\ b < len s.
Definition short (s : Z) : Prop := 0 <= s < N /\ 0 < len s <= b.

(** The tree [t], made from [t0], has the codes of the symbols below [m]. *)
Record built (t0 : tree) (m : Z) (nodes : list (Z * Z)) (t : tree) : Prop := mkBuilt {
  bu_nodup : NoDup nodes;
  bu_range : Forall (inner_node b) nodes;
  bu_closed : forall k p, (k, p) ∈ nodes -> b < k -> (k - 1, p / 2) ∈ nodes;
  bu_node : forall i k p c, nodes !! i = Some (k, p) -> at_cell nodes k p c -> cell_val t c = N + Z.of_nat i;
  bu_sym : forall s c, s < m -> long s -> at_cell nodes (len s) (canon N len s) c -> cell_val t c = s;
  bu_zero : forall k p c, at_cell nodes k p c -> (k = b -> 2 ^ b - inner b <= p < 2 ^ b) -> (k, p) ∉ nodes ->
    (forall s, s < m -> long s -> (len s, canon N len s) <> (k, p)) -> cell_val t c = 0;
  bu_pre : forall s k, s < m -> long s -> b <= k < len s -> (k, pfx s k) ∈ nodes;
  bu_short : forall s i, s < m -> short s -> 0 <= i < 2 ^ b -> i / 2 ^ (b - len s) = canon N len s -> tr_Table t i = s;
  bu_frame : forall i, i < N \/ 2 * N - 1 <= i -> tr_Left t i = tr_Left t0 i /\ tr_Right t i = tr_Right t0 i }.

Lemma pfx_self s : pfx s (len s) = canon N len s.
Proof. unfold pfx. by rewrite Z.sub_diag, Z.div_1_r. Qed.

Lemma pfx_half s k : k < len s -> pfx s k = pfx s (k + 1) / 2.
Proof.
  intros Hk. unfold pfx. replace (len s - k) with (len s - (k + 1) + 1) by lia. rewrite Z.pow_add_r by lia. by rewrite Z.div_div by lia.
Qed.

Lemma pfx_node s k : long s -> b <= k < len s -> inner_node b (k, pfx s k).
Proof.
  intros [Hs Hl] Hk. destruct (canon_range s Hs ltac:(lia)) as [Hr _]. split; cbn [fst snd]; [lia|]. by apply prefix_range; [|lia].
Qed.

(** Places of different prefixes are different. *)
Lemma at_cell_inj nodes k p k' p' c : at_cell nodes k p c -> at_cell nodes k' p' c -> (k, p) = (k', p').
Proof.
  assert (Hodd : forall q, q = 2 * (q / 2) + Z.b2z (Z.odd q)).
  { intros q. pose proof (Z.div2_odd q) as H. by rewrite Z.div2_div in H. }
  intros [[-> ->]|(Hk & i & Hi & ->)] [[-> Hc]|(Hk' & i' & Hi' & Hc)].
  - by injection Hc as ->.
  - by destruct (Z.odd p').
  - by destruct (Z.odd p).
  - assert (E : i = i' /\ Z.odd p = Z.odd p'); [revert Hc; destruct (Z.odd p), (Z.odd p'); (intros [= Hc] || intros [=]); split; done || lia|].
    destruct E as [<- Ho]. rewrite Hi in Hi'. injection Hi' as Ek Ep. f_equal; [lia|]. rewrite (Hodd p), (Hodd p'), Ep, Ho. done.
Qed.

Lemma at_cell_fun nodes k p c c' : NoDup nodes -> at_cell nodes k p c -> at_cell nodes k p c' -> c = c'.
Proof.
  intros Hd [[-> ->]|(Hk & i & Hi & ->)] [[? ->]|(Hk' & i' & Hi' & ->)]; try lia; [done|].
  by rewrite (NoDup_lookup _ _ _ _ Hd Hi Hi').
Qed.

Lemma at_cell_more nodes nodes' k p c : nodes `prefix_of` nodes' -> at_cell nodes k p c -> at_cell nodes' k p c.
Proof.
  intros Hp [[-> ->]|(Hk & i & Hi & ->)]; [by left|]. right. split; [done|]. exists i. split; [by eapply prefix_lookup_Some|done].
Qed.

(** With one node more there are two more places. *)
Lemma at_cell_snoc nodes n k p c : at_cell (nodes ++ [n]) k p c ->
  at_cell nodes k p c \/ (b < k /\ n = (k - 1, p / 2) /\
    c = if Z.odd p then InRight (N + zlen nodes) else InLeft (N + zlen nodes)).
Proof.
  intros [[-> ->]|(Hk & i & Hi & ->)]; [left; by left|]. apply lookup_app_Some in Hi as [Hi|[Hl Hi]].
  - left. right. split; [done|]. by exists i.
  - right. apply list_lookup_singleton_Some in Hi as [Hi <-]. assert (E : Z.of_nat i = zlen nodes) by (unfold zlen; lia). by rewrite E.
Qed.

Lemma at_cell_in nodes k p c : Forall (inner_node b) nodes -> zlen nodes + N <= NNODE -> (k = b -> 0 <= p < 2 ^ b) -> at_cell nodes k p c -> cell_in (2 ^ b) c = true.
Proof.
  intros Hf Hz Hp [[-> ->]|(Hk & i & Hi & ->)].
  - specialize (Hp eq_refl). cbn [cell_in]. apply andb_true_iff. split; [apply Z.leb_le|apply Z.ltb_lt]; lia.
  - apply lookup_lt_Some in Hi. unfold zlen in Hz. destruct (Z.odd p); cbn [cell_in]; apply andb_true_iff; (split; [apply Z.leb_le|apply Z.ltb_lt]; lia).
Qed.

Lemma cell_val_set t c v : cell_val (cell_set t c v) c = v.
Proof. destruct c; cbn; apply upd_eq. Qed.
Lemma cell_val_set_ne t c c' v : c <> c' -> cell_val (cell_set t c v) c' = cell_val t c'.
Proof. intros H. destruct c, c'; cbn; try done; apply upd_ne; congruence. Qed.

(** *** A new node *)
Definition add_node (t : tree) (c : cell) (n : Z) : tree := cell_set (cell_set (cell_set t (InLeft n) 0) (InRight n) 0) c n.

(** Whether a node is at [c], or may be put there. *)
Definition open (m : Z) (k p : Z) : Prop := inner_node b (k, p) /\ forall s, s < m -> long s -> (len s, canon N len s) <> (k, p).

Lemma nodes_room nodes k p : NoDup nodes -> Forall (inner_node b) nodes -> (k, p) ∉ nodes -> inner_node b (k, p) ->
  zlen nodes < N - 1.
Proof.
  intros Hd Hf Hn Hk. pose proof (nodes_count b (nodes ++ [(k, p)]) ltac:(lia)) as H. rewrite zlen_app in H. change (zlen [(k, p)]) with 1 in H.
  assert (zlen nodes + 1 <= inners (Z.to_nat (16 - b))).
  { apply H; [|by apply Forall_app; split; [|constructor]]. apply NoDup_app. split; [done|]. split; [|apply NoDup_singleton].
    intros x Hx ->%list_elem_of_singleton. done. }
  pose proof (inners_count b ltac:(lia)) as (Hi & Hc & Hz). pose proof (zlen_nonneg nodes). pose proof (inner_nonneg b ltac:(lia)).
  destruct (decide (inner b = 0)) as [E|]; [specialize (Hz E)|]; lia.
Qed.

Lemma built_add t0 m nodes t k p c : built t0 m nodes t -> open m k p -> at_cell nodes k p c -> (k, p) ∉ nodes ->
  let n := N + zlen nodes in
  built t0 m (nodes ++ [(k, p)]) (add_node t c n) /\ n < NNODE /\
  at_cell (nodes ++ [(k, p)]) (k + 1) (2 * p) (InLeft n) /\ at_cell (nodes ++ [(k, p)]) (k + 1) (2 * p + 1) (InRight n).
Proof.
  intros [Hd Hr Hcl Hn Hs Hz Hp Hsh Hfr] [Hk Ho] Hc Hnew n. pose proof (nodes_room nodes k p Hd Hr Hnew Hk) as Hroom.
  assert (Hcn : c <> InLeft n /\ c <> InRight n).
  { destruct Hc as [[_ ->]|(_ & i & Hi & ->)]; [done|]. apply lookup_lt_Some in Hi. unfold n, zlen. destruct (Z.odd p); split; intros [= E]; lia. }
  assert (Hnw : (nodes ++ [(k, p)]) !! length nodes = Some (k, p)) by (rewrite lookup_app_r, Nat.sub_diag by done; done).
  assert (Hch : forall q, q / 2 = p -> at_cell (nodes ++ [(k, p)]) (k + 1) q (if Z.odd q then InRight n else InLeft n)).
  { intros q Hq. right. split; [destruct Hk as [Hk _]; cbn in Hk; lia|]. exists (length nodes). split; [by replace (k + 1 - 1) with k by lia; rewrite Hq|done]. }
  assert (Hold : forall k' p' c', at_cell nodes k' p' c' -> c' <> InLeft n /\ c' <> InRight n).
  { intros k' p' c' [[_ ->]|(_ & i & Hi & ->)]; [done|]. apply lookup_lt_Some in Hi. unfold n, zlen. destruct (Z.odd p'); split; intros [= E]; lia. }
  assert (Hsame : forall k' p' c', at_cell nodes k' p' c' -> (k', p') <> (k, p) -> cell_val (add_node t c n) c' = cell_val t c').
  { intros k' p' c' Hc' Hne. destruct (Hold _ _ _ Hc') as [H1 H2]. unfold add_node. rewrite !cell_val_set_ne; [done|congruence|congruence|].
    intros ->. apply Hne. by eapply at_cell_inj. }
  assert (Hcase : forall k' p' c', at_cell (nodes ++ [(k, p)]) k' p' c' ->
    at_cell nodes k' p' c' \/ (cell_val (add_node t c n) c' = 0 /\ b < k' /\ (k, p) = (k' - 1, p' / 2))).
  { intros k' p' c' Hc'. apply at_cell_snoc in Hc' as [Hc'|(Hb & E & ->)]; [by left|]. right. split; [|done]. fold n. unfold add_node.
    rewrite cell_val_set_ne by (destruct (Z.odd p'); apply Hcn). destruct (Z.odd p'); [apply cell_val_set|].
    rewrite cell_val_set_ne by done. apply cell_val_set. }
  assert (Hodd : Z.odd (2 * p) = false /\ Z.odd (2 * p + 1) = true).
  { split; [by rewrite Z.odd_mul|by rewrite Z.odd_add, Z.odd_mul]. }
  split; [split|].
  - apply NoDup_app. split; [done|]. split; [|apply NoDup_singleton]. by intros x Hx ->%list_elem_of_singleton.
  - apply Forall_app. by split; [|constructor].
  - intros k' p' [Hin|[= -> ->]%list_elem_of_singleton]%elem_of_app Hb; apply elem_of_app; left; [by apply Hcl|].
    destruct Hc as [[-> _]|(_ & i & Hi & _)]; [lia|]. by eapply list_elem_of_lookup_2.
  - intros i k' p' c' Hi Hc'. apply lookup_app_Some in Hi as [Hi|[Hl Hi]].
    + pose proof (list_elem_of_lookup_2 _ _ _ Hi) as Hin. destruct (Hcase _ _ _ Hc') as [Ho'|(_ & Hb & E)].
      * rewrite (Hsame _ _ _ Ho') by congruence. by apply (Hn i k' p').
      * destruct Hnew. rewrite E. by apply Hcl.
    + apply list_lookup_singleton_Some in Hi as [Hi [= <- <-]]. destruct (Hcase _ _ _ Hc') as [Ho'|(_ & _ & E)]; [|injection E; lia].
      rewrite (at_cell_fun nodes k p c' c Hd Ho' Hc). unfold add_node. rewrite cell_val_set. unfold n, zlen. lia.
  - intros s c' Hm Hl Hc'. destruct (Hcase _ _ _ Hc') as [Ho'|(_ & Hb & E)].
    + rewrite (Hsame _ _ _ Ho') by (by apply Ho). by apply Hs.
    + destruct Hnew. rewrite E, <- pfx_self. replace (pfx s (len s)) with (pfx s (len s - 1 + 1)) by (f_equal; lia).
      rewrite <- pfx_half by lia. apply Hp; [done|done|]. destruct Hl. lia.
  - intros k' p' c' Hc' Hb Hnin Hsy. destruct (Hcase _ _ _ Hc') as [Ho'|(E & _)]; [|done].
    assert (Hno : ((k', p') ∉ nodes) /\ (k', p') <> (k, p)).
    { split; [intros Hin; apply Hnin, elem_of_app; by left|intros E; apply Hnin, elem_of_app; right; rewrite E; by left]. }
    rewrite (Hsame _ _ _ Ho') by exact (proj2 Hno). apply (Hz k' p'); [done|done|exact (proj1 Hno)|done].
  - intros s k' Hm Hl Hk'. apply elem_of_app. left. by apply Hp.
  - intros s i Hm Hl Hi E. destruct Hc as [[-> ->]|(Hb & j & Hj & ->)].
    + unfold add_node. cbn [cell_set tr_Table]. rewrite upd_ne; [by apply Hsh|]. destruct Hl as [Hl1 Hl2].
      pose proof (short_range s b Hl1 ltac:(lia) ltac:(lia)) as Hrg. rewrite <- E in Hrg. destruct Hk as [_ Hk]. cbn [fst snd] in Hk.
      pose proof (Z.mul_succ_div_gt i (2 ^ (b - len s)) ltac:(lia)). lia.
    + unfold add_node. destruct (Z.odd p); cbn [cell_set tr_Table]; by apply Hsh.
  - intros i Hi. destruct (Hfr i Hi) as [E1 E2]. rewrite <- E1, <- E2. pose proof (zlen_nonneg nodes).
    destruct Hc as [[-> ->]|(Hb & j & Hj & ->)]; unfold add_node; cbn [cell_set tr_Left tr_Right].
    + split; apply upd_ne; lia.
    + apply lookup_lt_Some in Hj. subst n. unfold zlen in *. destruct (Z.odd p); cbn [cell_set tr_Left tr_Right]; split; repeat rewrite upd_ne by lia; done.
  - split; [unfold NNODE; lia|]. destruct Hodd as [H0 H1]. split.
    + pose proof (Hch (2 * p)) as H. rewrite H0 in H. apply H. symmetry. apply (Z.div_unique _ 2 p 0); lia.
    + pose proof (Hch (2 * p + 1)) as H. rewrite H1 in H. apply H. symmetry. apply (Z.div_unique _ 2 p 1); lia.
Qed.

(** *** The way down *)
Lemma get_cell_in T t c : cell_in T c = true -> get_cell T t c = Done (cell_val t c).
Proof. unfold get_cell. by intros ->. Qed.
Lemma set_cell_in T t c v : cell_in T c = true -> set_cell T t c v = Done (cell_set t c v).
Proof. unfold set_cell. by intros ->. Qed.

Lemma nodes_bound t0 m nodes t : built t0 m nodes t -> zlen nodes + N <= NNODE.
Proof.
  intros Hbu. pose proof (nodes_count b nodes ltac:(lia) (bu_nodup _ _ _ _ Hbu) (bu_range _ _ _ _ Hbu)).
  pose proof (inners_count b ltac:(lia)) as (Hi & Hc & Hz). pose proof (inner_nonneg b ltac:(lia)).
  destruct (decide (inner b = 0)) as [E|]; [specialize (Hz E)|]; unfold NNODE; lia.
Qed.

Lemma u16_bit v i : 0 <= i < 16 -> Z.testbit (u16 v) i = Z.testbit v i.
Proof. intros Hi. apply Z.mod_pow2_bits_low. lia. Qed.

Lemma land_mask x j : 0 <= j -> (Z.land x (2 ^ j) =? 0) = negb (Z.testbit x j).
Proof.
  intros Hj. destruct (Z.testbit x j) eqn:E; cbn [negb].
  - apply Z.eqb_neq. intros H. apply (f_equal (fun v => Z.testbit v j)) in H.
    rewrite Z.land_spec, E, Z.pow2_bits_true, Z.bits_0 in H by done. done.
  - apply Z.eqb_eq. apply Z.bits_inj'. intros i Hi. rewrite Z.land_spec, Z.bits_0. destruct (decide (i = j)) as [->|]; [by rewrite E|].
    rewrite Z.pow2_bits_false by done. by rewrite andb_false_r.
Qed.

Lemma pfx_step s k : k < len s -> pfx s (k + 1) = 2 * pfx s k + Z.b2z (Z.testbit (canon N len s) (len s - 1 - k)).
Proof.
  intros Hk. rewrite (pfx_half s k) by done. unfold pfx. rewrite Z.testbit_odd, Z.shiftr_div_pow2 by lia.
  replace (len s - 1 - k) with (len s - (k + 1)) by lia. set (a := canon N len s / _). pose proof (Z.div2_odd a) as H. by rewrite Z.div2_div in H.
Qed.

Lemma pfx_open s k : long s -> b <= k < len s -> open s k (pfx s k).
Proof.
  intros Hs Hk. split; [by apply pfx_node|]. intros s' Hs' Hl' [= E1 E2]. destruct Hs as [Hs Hl], Hl' as [Hs1 Hl1].
  apply (prefix_free s s'); [done|done|lia|lia|]. by rewrite E2, E1.
Qed.

Lemma child_cell nodes i k p (bt : bool) : nodes !! i = Some (k, p) -> b <= k ->
  at_cell nodes (k + 1) (2 * p + Z.b2z bt) (if bt then InRight (N + Z.of_nat i) else InLeft (N + Z.of_nat i)).
Proof.
  intros Hi Hk. right. split; [lia|]. exists i. split.
  - rewrite Hi. do 2 f_equal; [lia|]. apply (Z.div_unique _ 2 _ (Z.b2z bt)); destruct bt; cbn; lia.
  - rewrite Z.odd_add, Z.odd_mul. by destruct bt.
Qed.

Lemma walk_step_spec t0 s nodes t k c i3 : built t0 s nodes t -> long s -> b <= k < len s -> at_cell nodes k (pfx s k) c ->
  Z.testbit i3 (15 - b) = Z.testbit (canon N len s) (len s - 1 - k) ->
  wp (walk_step (2 ^ b) (u16 (Z.shiftl 1 (15 - b))) (t, N + zlen nodes, c, i3)) (fun '(t', A, c', i3') => exists nodes',
    built t0 s nodes' t' /\ A = N + zlen nodes' /\ (forall x, x ∈ nodes -> x ∈ nodes') /\ (k, pfx s k) ∈ nodes' /\
    at_cell nodes' (k + 1) (pfx s (k + 1)) c' /\ i3' = u16 (Z.shiftl i3 1)).
Proof.
  intros Hbu Hs Hk Hc Hbit. pose proof (pfx_open s k Hs Hk) as Ho. pose proof (nodes_bound _ _ _ _ Hbu) as Hnb. pose proof (zlen_nonneg nodes) as Hz0.
  assert (Hin : cell_in (2 ^ b) c = true).
  { apply (at_cell_in nodes k (pfx s k)); [apply Hbu|done| |done]. intros ->. destruct Ho as [[_ Ho] _]. cbn [fst snd] in Ho.
    assert (0 <= pfx s b); [|lia]. destruct Hs as [Hs Hl]. destruct (canon_range s Hs ltac:(lia)). apply Z.div_pos; lia. }
  assert (Hmask : u16 (Z.shiftl 1 (15 - b)) = 2 ^ (15 - b)).
  { rewrite Z.shiftl_1_l. apply u16_small. unfold is_u16. split; [lia|]. apply Z.pow_lt_mono_r; lia. }
  unfold walk_step. rewrite (get_cell_in _ t c Hin), bind_Done.
  destruct (decide ((k, pfx s k) ∈ nodes)) as [Hel|Hel].
  - pose proof Hel as (i & Hi)%list_elem_of_lookup. pose proof (bu_node _ _ _ _ Hbu i k _ c Hi Hc) as Hv. pose proof (lookup_lt_Some _ _ _ Hi) as Hlt.
    rewrite Hv, (proj2 (Z.eqb_neq (N + Z.of_nat i) 0)) by lia. cbn [andb]. rewrite bind_Done. rewrite (get_cell_in _ t c Hin), bind_Done, Hv.
    unfold zlen in Hnb. rewrite (proj2 (Z.ltb_lt (N + Z.of_nat i) NNODE)) by lia. cbv zeta. rewrite Hmask, land_mask, negb_involutive, Hbit by lia. apply wp_Done.
    exists nodes. split; [done|]. split; [done|]. split; [done|]. split; [done|]. split; [|done]. rewrite pfx_step by lia. by apply child_cell; [|lia].
  - assert (Hv : cell_val t c = 0).
    { apply (bu_zero _ _ _ _ Hbu k (pfx s k)); [done| |done|apply Ho]. intros ->. apply Ho. }
    destruct (built_add t0 s nodes t k _ c Hbu Ho Hc Hel) as (Hbu' & Hn & Hl & Hr).
    rewrite Hv. cbn [Z.eqb]. rewrite (proj2 (Z.ltb_lt (N + zlen nodes) NNODE)) by done. cbn [andb]. assert (Hcn : cell_in (2 ^ b) (InLeft (N + zlen nodes)) = true) by (cbn [cell_in]; rewrite (proj2 (Z.leb_le 0 _)), (proj2 (Z.ltb_lt _ _)) by lia; done).
    rewrite (set_cell_in _ t (InLeft _)), bind_Done by done. rewrite (set_cell_in _ _ (InRight _)), bind_Done by done.
    rewrite (set_cell_in _ _ c), !bind_Done by done. rewrite (get_cell_in _ _ c Hin), bind_Done.
    fold (add_node t c (N + zlen nodes)). assert (Ev : cell_val (add_node t c (N + zlen nodes)) c = N + zlen nodes) by apply cell_val_set.
    rewrite Ev, (proj2 (Z.ltb_lt (N + zlen nodes) NNODE)) by done. cbv zeta. rewrite Hmask, land_mask, negb_involutive, Hbit by lia.
    rewrite u16_small by (unfold is_u16, NNODE in *; change NC with 510 in *; lia). apply wp_Done.
    exists (nodes ++ [(k, pfx s k)]). split; [done|]. split; [rewrite zlen_app; change (zlen [(k, pfx s k)]) with 1; lia|].
    split; [intros x Hx; apply elem_of_app; by left|]. split; [apply elem_of_app; right; by left|]. split; [|done].
    rewrite pfx_step by lia. destruct (Z.testbit (canon N len s) _); cbn [Z.b2z]; [exact Hr|]. rewrite Z.add_0_r. exact Hl.
Qed.

Definition walked (t0 : tree) (s j : Z) (st : tree * Z * cell * Z) : Prop :=
  let '(t, A, c, i3) := st in exists nodes, built t0 s nodes t /\ A = N + zlen nodes /\
    (forall k, b <= k < b + j -> (k, pfx s k) ∈ nodes) /\ at_cell nodes (b + j) (pfx s (b + j)) c /\
    i3 = u16 (canon N len s * 2 ^ (16 - len s + j)).

Lemma walk_spec t0 s st : long s -> walked t0 s 0 st ->
  wp (forZ 0 (Z.to_nat (len s - b)) (fun _ => walk_step (2 ^ b) (u16 (Z.shiftl 1 (15 - b)))) st) (walked t0 s (len s - b)).
Proof.
  intros Hs H0. pose proof (canon_range s (proj1 Hs) ltac:(destruct Hs; lia)) as [Hr Hc].
  apply (wp_forZ (walked t0 s)); [done| |].
  - intros j [[[t A] c] i3] Hj (nodes & Hbu & -> & Hpre & Hat & ->). destruct Hs as [Hs Hl]. eapply wp_mono.
    + apply (walk_step_spec t0 s nodes t (b + j)); [done|done|lia|done|]. rewrite u16_bit, Z.mul_pow2_bits by lia. f_equal. lia.
    + cbn beta. intros [[[t' A'] c'] i3'] (nodes' & Hbu' & -> & Hsub & Hin & Hat' & ->). exists nodes'.
      split; [done|]. split; [done|]. split.
      * intros k Hk. destruct (decide (k = b + j)) as [->|]; [done|]. apply Hsub, Hpre. lia.
      * replace (b + (j + 1)) with (b + j + 1) by lia. split; [done|]. rewrite Z.shiftl_mul_pow2 by lia. unfold u16. rewrite Z.mul_mod_idemp_l by lia.
        f_equal. rewrite <- Z.mul_assoc, <- Z.pow_add_r by lia. do 2 f_equal. lia.
  - intros st'. destruct Hs. replace (0 + Z.of_nat (Z.to_nat (len s - b))) with (len s - b) by lia. done.
Qed.

Lemma new_long t0 s nodes t c : built t0 s nodes t -> long s -> (forall k, b <= k < len s -> (k, pfx s k) ∈ nodes) ->
  at_cell nodes (len s) (canon N len s) c -> built t0 (s + 1) nodes (cell_set t c s).
Proof.
  intros Hbu Hs Hpre Hat. pose proof (bu_range _ _ _ _ Hbu) as Hrg. rewrite Forall_forall in Hrg. pose proof Hs as [Hs1 Hl]. pose proof (canon_range s Hs1 ltac:(lia)) as [Hr Hc].
  destruct Hbu as [Hd Hrg' Hcl Hn Hsy Hz Hp Hsh Hfr].
  assert (Hnt : tr_Table (cell_set t c s) = tr_Table t). { destruct Hat as [[? _]|(_ & i & _ & ->)]; [lia|]. by destruct (Z.odd _). }
  assert (Hdiff : forall k p c', at_cell nodes k p c' -> (k, p) <> (len s, canon N len s) -> c <> c').
  { intros k p c' Hc' Hne ->. apply Hne. by eapply at_cell_inj. }
  assert (Hlt : forall s', s' < s + 1 -> s' <> s -> s' < s) by (intros; lia).
  assert (Hcs : forall s', s' < s -> long s' -> (len s', canon N len s') <> (len s, canon N len s)).
  { intros s' Hs' [Hl1 Hl2] [= E1 E2]. apply (prefix_free s s'); [done|done|lia|lia|]. by rewrite E1, Z.sub_diag, Z.div_1_r, E2. }
  split; [done|done|done| | | | | |].
  - intros i k p c' Hi Hc'. rewrite cell_val_set_ne; [by apply (Hn i k p)|]. apply (Hdiff k p c' Hc'). intros [= -> ->].
    pose proof (Hrg _ (list_elem_of_lookup_2 _ _ _ Hi)) as [Hk Hin]. cbn [fst snd] in *.
    pose proof (short_range s (len s) Hs1 ltac:(lia) ltac:(lia)) as Hx. rewrite Z.sub_diag in Hx. lia.
  - intros s' c' Hm Hl' Hc'. destruct (decide (s' = s)) as [->|Hne].
    + rewrite (at_cell_fun nodes _ _ c' c Hd Hc' Hat). apply cell_val_set.
    + rewrite cell_val_set_ne; [apply Hsy; [lia|done|done]|]. apply (Hdiff _ _ c' Hc'). apply Hcs; [lia|done].
  - intros k p c' Hc' Hb Hnin Hno. rewrite cell_val_set_ne.
    + apply (Hz k p); [done|done|done|]. intros s' Hs'. apply Hno. lia.
    + apply (Hdiff _ _ c' Hc'). intros E. by apply (Hno s ltac:(lia) Hs).
  - intros s' k Hm Hl' Hk. destruct (decide (s' = s)) as [->|Hne]; [by apply Hpre|]. apply Hp; [lia|done|done].
  - intros s' i Hm Hl' Hi E. rewrite Hnt. apply Hsh; [|done|done|done]. destruct Hl' as [_ Hl']. assert (s' <> s) by (intros ->; lia). lia.
  - intros i Hi. destruct (Hfr i Hi) as [E1 E2]. rewrite <- E1, <- E2. destruct Hat as [[? _]|(_ & j & Hj & ->)]; [lia|].
    assert (Hzn : zlen nodes <= N - 1 \/ nodes = []).
    { pose proof (nodes_count b nodes ltac:(lia) Hd Hrg'). pose proof (inners_count b ltac:(lia)) as (Hi1 & Hi2 & Hi3). pose proof (inner_nonneg b ltac:(lia)).
      destruct (decide (inner b = 0)) as [E|]; [specialize (Hi3 E)|]; [right|left; lia]. destruct nodes; [done|]. rewrite zlen_cons in *. pose proof (zlen_nonneg nodes). lia. }
    apply lookup_lt_Some in Hj as Hj'. destruct Hzn as [Hzn|E]; [|rewrite E in Hj'; cbn in Hj'; lia]. unfold zlen in Hzn.
    destruct (Z.odd _); cbn [cell_set tr_Left tr_Right]; split; try rewrite upd_ne by lia; done.
Qed.

Lemma no_code t0 s nodes t : built t0 s nodes t -> len s = 0 -> built t0 (s + 1) nodes t.
Proof.
  intros [Hd Hrg Hcl Hn Hsy Hz Hp Hsh Hfr] H0. assert (Hne : forall s', s' < s + 1 -> 0 < len s' -> s' < s).
  { intros s' Hs' Hl. assert (s' <> s) by (intros ->; lia). lia. }
  split; try done.
  - intros s' c Hm Hl. apply Hsy; [|done]. apply Hne; [done|]. destruct Hl. lia.
  - intros k p c Hc Hb Hnin Hno. apply (Hz k p); [done|done|done|]. intros s' Hs'. apply Hno. lia.
  - intros s' k Hm Hl. apply Hp; [|done]. apply Hne; [done|]. destruct Hl. lia.
  - intros s' i Hm Hl. apply Hsh; [|done]. apply Hne; [done|]. destruct Hl. lia.
Qed.

Lemma new_short t0 s nodes t t' : built t0 s nodes t -> short s -> tr_Left t' = tr_Left t -> tr_Right t' = tr_Right t ->
  (forall i, 0 <= i < 2 ^ b -> tr_Table t' i = if i / 2 ^ (b - len s) =? canon N len s then s else tr_Table t i) -> built t0 (s + 1) nodes t'.
Proof.
  intros [Hd Hrg Hcl Hn Hsy Hz Hp Hsh Hfr] [Hs Hl] El Er Et.
  assert (Htop : forall p, 2 ^ b - inner b <= p < 2 ^ b -> tr_Table t' p = tr_Table t p).
  { intros p Hpr. pose proof (short_range s b Hs Hl ltac:(lia)) as Hx. pose proof (canon_range s Hs ltac:(lia)) as [_ Hc].
    assert (0 <= canon N len s * 2 ^ (b - len s)) by (apply Z.mul_nonneg_nonneg; lia). rewrite Et by lia. rewrite (proj2 (Z.eqb_neq _ _)); [done|].
    intros E. pose proof (Z.mul_succ_div_gt p (2 ^ (b - len s)) ltac:(lia)) as Hg. rewrite E in Hg. lia. }
  assert (Hval : forall k p c, at_cell nodes k p c -> (k = b -> 2 ^ b - inner b <= p < 2 ^ b) -> cell_val t' c = cell_val t c).
  { intros k p c [[-> ->]|(Hb & i & Hi & ->)] Hk; [by apply Htop, Hk|]. destruct (Z.odd p); cbn [cell_val]; by rewrite ?El, ?Er. }
  assert (Hlong : forall s', s' < s + 1 -> long s' -> s' < s).
  { intros s' Hs' [_ Hl']. assert (s' <> s) by (intros ->; lia). lia. }
  split; [done|done|done| | | | | |].
  - intros i k p c Hi Hc. rewrite (Hval k p c Hc); [by apply (Hn i k p)|]. intros ->.
    rewrite Forall_forall in Hrg. by destruct (Hrg _ (list_elem_of_lookup_2 _ _ _ Hi)).
  - intros s' c Hm Hl' Hc. rewrite (Hval _ _ c Hc); [by apply Hsy; [apply Hlong|..]|]. intros E. destruct Hl'. lia.
  - intros k p c Hc Hb Hnin Hno. rewrite (Hval k p c Hc Hb). apply (Hz k p); [done|done|done|]. intros s' Hs'. apply Hno. lia.
  - intros s' k Hm Hl'. apply Hp; [by apply Hlong|done].
  - intros s' i Hm [Hs' Hl'] Hi E. rewrite Et by done. destruct (Z.eqb_spec (i / 2 ^ (b - len s)) (canon N len s)) as [E'|E'].
    + destruct (decide (s' = s)) as [|Hne]; [done|]. exfalso. destruct (Z.le_ge_cases (len s') (len s)) as [Hle|Hle].
      * apply (prefix_free s s'); [done|done|congruence|lia|]. rewrite <- E', <- E. rewrite Z.div_div, <- Z.pow_add_r by lia. do 2 f_equal. lia.
      * apply (prefix_free s' s); [done|done|congruence|lia|]. rewrite <- E', <- E. rewrite Z.div_div, <- Z.pow_add_r by lia. do 2 f_equal. lia.
    + apply Hsh; [|by split|done|done]. assert (s' <> s) by (intros ->; by apply E'). lia.
  - intros i Hi. rewrite El, Er. by apply Hfr.
Qed.

(** ** MakeTable *)
Context (sz : Z).
Hypothesis sz_ok : N <= sz.

Definition width (l : Z) : Z := if l <=? b then b else 16.

Lemma width_range l : 1 <= l <= 16 -> l <= width l <= 16 /\ width l - l <= 15.
Proof. intros Hl. unfold width. destruct (Z.leb_spec l b); lia. Qed.

Lemma count_lens_spec : wp (count_lens N sz len) (fun Count => forall l, 1 <= l <= 16 -> Count l = ncodes N len l).
Proof.
  unfold count_lens. apply (wp_forZ (fun k Count => forall l, 0 <= l <= 16 -> Count l = asum (isv l) len 0 (Z.to_nat k))).
  - intros l Hl. done.
  - intros k Count Hk Hc. pose proof (proj1 code_complete k ltac:(lia)) as Hl. wps. intros l Hl'.
    replace (Z.to_nat (k + 1)) with (S (Z.to_nat k)) by lia. rewrite asum_S, Z.add_0_l, Z2Nat.id by lia. destruct (decide (l = len k)) as [->|].
    + rewrite upd_eq, Hc, isv_eq by lia. pose proof (asum_isv_bound (len k) len 0 (Z.to_nat k)).
      apply u16_small. unfold is_u16. change NC with 510 in N_small. lia.
    + rewrite upd_ne, isv_ne, Hc by done. lia.
  - intros Count Hc l Hl. rewrite Hc by lia. unfold ncodes. rewrite (proj2 (Z.eqb_neq l 0)) by lia. f_equal. lia.
Qed.

Lemma make_starts_spec Count : (forall l, 1 <= l <= 16 -> Count l = ncodes N len l) ->
  wp (make_starts Count) (fun st => forall l, 1 <= l <= 17 -> st l = u16 (wsum pow (ncodes N len) (Z.to_nat l))).
Proof.
  intros Hc. unfold make_starts. apply (wp_forZ (fun k st => forall l, 1 <= l <= k -> st l = u16 (wsum pow (ncodes N len) (Z.to_nat l)))).
  - intros l Hl. replace l with 1 by lia. done.
  - intros k st Hk Hst. wps. intros l Hl. destruct (decide (l = k + 1)) as [->|]; upd_at; [|apply Hst; lia].
    rewrite Hst, Hc by lia. replace (Z.to_nat (k + 1)) with (S (Z.to_nat k)) by lia. cbn [wsum]. rewrite Z2Nat.id, Z.shiftl_mul_pow2 by lia.
    unfold u16. rewrite Z.add_mod_idemp_l by lia. assert (Ep : pow k = 2 ^ (16 - k)) by done. by rewrite Ep, (Z.mul_comm (2 ^ _)).
  - intros st Hst l Hl. apply Hst. lia.
Qed.

Definition starts_ok (m : Z) (Start : carr) : Prop := forall l, 1 <= l <= 16 -> 0 < ncodes N len l ->
  Start l = u16 ((first l + asum (isv l) len 0 (Z.to_nat m)) * 2 ^ (width l - l)).

Lemma first_used l : 1 <= l <= 16 -> 0 < ncodes N len l -> 0 <= first l /\ first l + 1 <= 2 ^ l.
Proof.
  intros Hl Hp. pose proof (inner_nonneg l ltac:(lia)) as Hi. unfold inner in Hi. split; [|lia].
  pose proof (first_code_pow (ncodes N len) (Z.to_nat l) ltac:(lia)) as Hf. rewrite Z2Nat.id in Hf by lia. fold (first l) in Hf.
  pose proof (wsum_le_kraft (ncodes N len) (Z.to_nat l) (ncodes_ok N len) ltac:(lia)) as [Hw _]. pose proof (pow_pos l ltac:(lia)). nia.
Qed.

Lemma make_weights_spec st : (forall l, 1 <= l <= 17 -> st l = u16 (wsum pow (ncodes N len) (Z.to_nat l))) ->
  wp (make_weights b (16 - b) st) (fun '(st', w) => starts_ok 0 st' /\ st' (b + 1) = st (b + 1) /\
    forall l, 1 <= l <= 16 -> w l = 2 ^ (width l - l)).
Proof.
  intros Hst. unfold make_weights. apply wp_bind.
  apply (wp_forZ (fun k '(st', w) => (forall l, 1 <= l < k -> st' l = Z.shiftr (st l) (16 - b) /\ w l = 2 ^ (b - l)) /\ forall l, k <= l -> st' l = st l)).
  - split; [lia|done].
  - intros k [st1 w] Hk [H1 H2]. wps. split.
    + intros l Hl. destruct (decide (l = k)) as [->|]; upd_at; [|apply H1; lia]. rewrite H2 by lia. split; [done|].
      rewrite Z.shiftl_1_l. apply u16_small. unfold is_u16. split; [lia|]. apply Z.pow_lt_mono_r; lia.
    + intros l Hl. rewrite upd_ne by lia. apply H2. lia.
  - intros [st1 w] [H1 H2]. apply wp_bind. rewrite Z2Nat.id in * by lia.
    apply (wp_forZ (fun k w => (forall l, 1 <= l <= b -> w l = 2 ^ (b - l)) /\ forall l, b < l < k -> w l = 2 ^ (16 - l))).
    + split; [intros l Hl; apply H1; lia|lia].
    + intros k w1 Hk [Hw1 Hw2]. wps. split; intros l Hl; (destruct (decide (l = k)) as [->|]; upd_at; [|first [apply Hw1|apply Hw2]; lia]); [lia|].
      rewrite Z.shiftl_1_l. apply u16_small. unfold is_u16. split; [lia|]. apply Z.pow_lt_mono_r; lia.
    + intros w1 [Hw1 Hw2]. apply wp_Done. split; [|split].
      * intros l Hl Hu. pose proof (first_used l Hl Hu) as Hf. cbn [asum Z.to_nat]. rewrite Z.add_0_r.
        pose proof (first_code_pow (ncodes N len) (Z.to_nat l) ltac:(lia)) as Hfp. rewrite Z2Nat.id in Hfp by lia. fold (first l) in Hfp.
        assert (Hsm : is_u16 (wsum pow (ncodes N len) (Z.to_nat l))).
        { rewrite <- Hfp. pose proof (pow_times l ltac:(lia)). pose proof (pow_pos l ltac:(lia)). unfold is_u16. nia. }
        unfold width. destruct (Z.leb_spec l b).
        -- destruct (H1 l ltac:(lia)) as [-> _]. rewrite Hst by lia. rewrite (u16_small _ Hsm), <- Hfp. unfold pow.
           replace (16 - l) with ((b - l) + (16 - b)) by lia. rewrite Z.shiftr_div_pow2, Z.pow_add_r, Z.mul_assoc, Z.div_mul by lia.
           symmetry. apply u16_small. unfold is_u16. pose proof (Z.pow_add_r 2 l (b - l) ltac:(lia) ltac:(lia)) as E. replace (l + (b - l)) with b in E by lia.
           pose proof (Z.pow_lt_mono_r 2 b 16 ltac:(lia) ltac:(lia) ltac:(lia)). assert (0 < 2 ^ (b - l)) by lia. nia.
        -- rewrite H2, Hst, <- Hfp by lia. done.
      * apply H2. lia.
      * intros l Hl. unfold width. destruct (Z.leb_spec l b); [apply Hw1|apply Hw2]; lia.
Qed.

Lemma clear_table_spec t st : st (b + 1) = u16 (wsum pow (ncodes N len) (Z.to_nat (b + 1))) ->
  wp (clear_table (2 ^ b) b (Z.shiftr (st (b + 1)) (16 - b)) t) (built t 0 []).
Proof.
  intros E. pose proof (inner_nonneg b ltac:(lia)) as Hi. pose proof (inners_count b ltac:(lia)) as (Hi1 & Hi2 & _).
  pose proof (used_space b ltac:(lia)) as Hu. replace (Z.to_nat (b + 1)) with (S (Z.to_nat b)) in E by lia. rewrite <- Hu in E.
  replace (first b + ncodes N len b) with (2 ^ b - inner b) in E by (unfold inner; lia).
  assert (E2 : Z.shiftr (st (b + 1)) (16 - b) = if inner b =? 0 then 0 else 2 ^ b - inner b).
  { rewrite E, Z.shiftr_div_pow2 by lia. pose proof (pow_times b ltac:(lia)) as Hpt. pose proof (pow_pos b ltac:(lia)). destruct (Z.eqb_spec (inner b) 0) as [E0|E0].
    - rewrite E0, Z.sub_0_r, Hpt. done.
    - rewrite u16_small by (unfold is_u16; nia). unfold pow. by rewrite Z.div_mul by lia. }
  assert (Hs0 : forall t', tr_Left t' = tr_Left t -> tr_Right t' = tr_Right t -> (forall p, 2 ^ b - inner b <= p < 2 ^ b -> tr_Table t' p = 0) -> built t 0 [] t').
  { intros t' El Er Ht. split; try done.
    - apply NoDup_nil_2.
    - intros k p []%not_elem_of_nil.
    - intros s c Hs [Hl _]. lia.
    - intros k p c [[-> ->]|(_ & i & Hi' & _)] Hb _ _; [|done]. by apply Ht, Hb.
    - intros s k Hs [Hl _]. lia.
    - intros s i Hs [Hl _]. lia.
    - intros i _. by rewrite El, Er. }
  unfold clear_table. rewrite E2, Z.shiftl_1_l. rewrite u16_small by (unfold is_u16; pose proof (Z.pow_lt_mono_r 2 b 16 ltac:(lia) ltac:(lia) ltac:(lia)); lia).
  destruct (Z.eqb_spec (inner b) 0) as [E0|E0]; cbn [Z.eqb negb andb].
  - apply wp_Done. apply Hs0; [done|done|lia].
  - rewrite (proj2 (Z.eqb_neq (2 ^ b - inner b) 0)), (proj2 (Z.ltb_lt (2 ^ b - inner b) (2 ^ b))), Z.leb_refl by lia. cbn [negb andb].
    apply wp_Done. apply Hs0; [done|done|]. intros p Hp. cbn [tr_Table]. by rewrite afill_in by lia.
Qed.

Lemma fill_spec t lo n v : 0 <= lo -> lo + Z.of_nat n <= 2 ^ b ->
  wp (forZ lo n (fun Index t => set_cell (2 ^ b) t (InTable Index) v) t) (fun t' => tr_Left t' = tr_Left t /\ tr_Right t' = tr_Right t /\
    forall i, tr_Table t' i = if (lo <=? i) && (i <? lo + Z.of_nat n) then v else tr_Table t i).
Proof.
  intros H0 Hn. apply (wp_forZ (fun k t' => tr_Left t' = tr_Left t /\ tr_Right t' = tr_Right t /\
    forall i, tr_Table t' i = if (lo <=? i) && (i <? k) then v else tr_Table t i)).
  - split; [done|]. split; [done|]. intros i. destruct (Z.leb_spec lo i), (Z.ltb_spec i lo); done || lia.
  - intros k t1 Hk (El & Er & Et). unfold set_cell. cbn [cell_in]. rewrite (proj2 (Z.leb_le 0 k)), (proj2 (Z.ltb_lt k _)) by lia.
    apply wp_Done. cbn [cell_set tr_Left tr_Right tr_Table]. split; [done|]. split; [done|]. intros i. destruct (decide (i = k)) as [->|Hne].
    + rewrite upd_eq, (proj2 (Z.leb_le lo k)), (proj2 (Z.ltb_lt k _)) by lia. done.
    + rewrite upd_ne, Et by done. by replace (i <? k + 1) with (i <? k) by (destruct (Z.ltb_spec i k), (Z.ltb_spec i (k + 1)); done || lia).
  - done.
Qed.

Definition stepped (t0 : tree) (m : Z) (s : carr * Z * tree) : Prop :=
  let '(Start, A, t) := s in starts_ok m Start /\ exists nodes, built t0 m nodes t /\ A = N + zlen nodes.

(** The start and the end of a symbol's part of the table of its width. *)
Lemma start_value m Start : starts_ok m Start -> 0 <= m < N -> len m <> 0 ->
  Start (len m) = canon N len m * 2 ^ (width (len m) - len m) /\
  (canon N len m + 1) * 2 ^ (width (len m) - len m) <= 2 ^ width (len m) /\ 0 <= canon N len m.
Proof.
  intros Hst Hm Hl. pose proof (canon_range m Hm Hl) as [Hr Hc]. pose proof (width_range (len m) Hr) as [Hw _].
  pose proof (Z.pow_add_r 2 (len m) (width (len m) - len m) ltac:(lia) ltac:(lia)) as E. replace (len m + (width (len m) - len m)) with (width (len m)) in E by lia.
  pose proof (Z.pow_le_mono_r 2 (width (len m)) 16 ltac:(lia) ltac:(lia)). assert (0 < 2 ^ (width (len m) - len m)) by lia.
  split; [|split; [nia|lia]]. rewrite Hst; [|done|].
  - fold (rank len m). fold (canon N len m). apply u16_small. unfold is_u16. nia.
  - unfold ncodes. rewrite (proj2 (Z.eqb_neq (len m) 0)) by done. apply asum_isv_pos. exists m. split; [lia|done].
Qed.

Lemma starts_next m Start : starts_ok m Start -> 0 <= m < N -> len m <> 0 ->
  starts_ok (m + 1) (upd Start (len m) (u16 ((canon N len m + 1) * 2 ^ (width (len m) - len m)))).
Proof.
  intros Hst Hm Hl l Hlr Hu. replace (Z.to_nat (m + 1)) with (S (Z.to_nat m)) by lia. rewrite asum_S, Z.add_0_l, Z2Nat.id by lia.
  destruct (decide (l = len m)) as [->|]; upd_at.
  - rewrite isv_eq. f_equal. fold (rank len m). rewrite Z.add_assoc. fold (canon N len m). done.
  - rewrite isv_ne by done. rewrite Hst by done. do 2 f_equal. lia.
Qed.

Lemma starts_skip m Start : starts_ok m Start -> 0 <= m -> len m = 0 -> starts_ok (m + 1) Start.
Proof.
  intros Hst Hm Hl l Hlr Hu. rewrite Hst by done. replace (Z.to_nat (m + 1)) with (S (Z.to_nat m)) by lia. rewrite asum_S, Z.add_0_l, Z2Nat.id by lia.
  rewrite isv_ne by lia. do 2 f_equal. lia.
Qed.

Lemma in_part c p i : 0 < p -> (c * p <=? i) && (i <? (c + 1) * p) = (i / p =? c).
Proof.
  intros Hp. apply eq_true_iff_eq. rewrite andb_true_iff, Z.leb_le, Z.ltb_lt, Z.eqb_eq. split.
  - intros H. symmetry. apply (Z.div_unique _ _ _ (i - c * p)); lia.
  - intros <-. pose proof (Z.mul_succ_div_gt i p Hp). pose proof (Z.mul_div_le i p Hp). lia.
Qed.

Lemma char_step_spec t0 w m s : 0 <= m < N -> (forall l, 1 <= l <= 16 -> w l = 2 ^ (width l - l)) -> stepped t0 m s ->
  wp (char_step (2 ^ b) sz b (16 - b) (u16 (Z.shiftl 1 (15 - b))) len w m s) (stepped t0 (m + 1)).
Proof.
  destruct s as [[Start A] t]. intros Hm Hw (Hst & nodes & Hbu & ->). unfold char_step. wps. pose proof (proj1 code_complete m Hm) as Hl.
  destruct (Z.eqb_spec (len m) 0) as [E0|E0]; cbn [orb].
  { wps. split; [by apply starts_skip; [|lia|]|]. exists nodes. split; [by apply no_code|done]. }
  rewrite (proj2 (Z.leb_gt 17 (len m))) by lia. wps. destruct (start_value m Start Hst Hm E0) as (Es & He & Hc0).
  set (W := width (len m)) in *. set (p := 2 ^ (W - len m)) in *. cbv zeta. rewrite Hw by lia. fold W p.
  pose proof (width_range (len m) ltac:(lia)) as [HW _]. fold W in HW. assert (Hp : 0 < p) by (unfold p; lia).
  assert (Enext : u16 (Start (len m) + p) = u16 ((canon N len m + 1) * p)) by (rewrite Es; f_equal; lia).
  rewrite Enext. destruct (Z.leb_spec (len m) b) as [Hb|Hb].
  - assert (EW : W = b) by (unfold W, width; by rewrite (proj2 (Z.leb_le _ _))). rewrite EW in *.
    assert (Hsm : u16 ((canon N len m + 1) * p) = (canon N len m + 1) * p).
    { apply u16_small. unfold is_u16. pose proof (Z.pow_lt_mono_r 2 b 16 ltac:(lia) ltac:(lia) ltac:(lia)). lia. }
    rewrite Hsm, Es. wps. eapply wp_mono; [apply fill_spec; [nia|lia]|]. cbn beta. intros t' (El & Er & Et). wps.
    split; [rewrite <- Hsm; by apply (starts_next m Start)|]. exists nodes. split; [|done].
    apply (new_short t0 m nodes t); [done|split; [done|lia]|done|done|]. intros i Hi. rewrite Et.
    replace (canon N len m * p + Z.of_nat (Z.to_nat ((canon N len m + 1) * p - canon N len m * p))) with ((canon N len m + 1) * p) by lia.
    rewrite in_part by done. assert (Ep : 2 ^ (b - len m) = p) by (unfold p; by rewrite EW). by rewrite Ep.
  - assert (EW : W = 16) by (unfold W, width; by rewrite (proj2 (Z.leb_gt _ _))). rewrite EW in *.
    assert (Hlong : long m) by (split; lia). assert (Ep : p = 2 ^ (16 - len m)) by (unfold p; by rewrite EW).
    assert (H0 : walked t0 m 0 (t, N + zlen nodes, InTable (Z.shiftr (Start (len m)) (16 - b)), Start (len m))).
    { exists nodes. split; [done|]. split; [done|]. split; [lia|]. rewrite !Z.add_0_r. split.
      - left. split; [done|]. rewrite Es, Z.shiftr_div_pow2 by lia. unfold pfx. f_equal.
        replace (2 ^ (16 - b)) with (p * 2 ^ (len m - b)) by (rewrite Ep, <- Z.pow_add_r by lia; f_equal; lia).
        by rewrite <- Z.div_div, Z.div_mul by lia.
      - rewrite Es, Ep. symmetry. apply u16_small. unfold is_u16. rewrite <- Ep. nia. }
    wps. eapply wp_mono; [by apply (walk_spec t0 m _ Hlong)|]. cbn beta. intros [[[t' A'] c] i3] (nodes' & Hbu' & -> & Hpre & Hat & _).
    replace (b + (len m - b)) with (len m) in * by lia. rewrite pfx_self in Hat. pose proof (nodes_bound _ _ _ _ Hbu').
    rewrite set_cell_in by (apply (at_cell_in nodes' (len m) (canon N len m)); [apply Hbu'|lia|lia|done]). wps.
    split; [by apply (starts_next m Start)|]. exists nodes'. split; [by apply new_long|done].
Qed.

(** From the value [v] the bits [bs] lead down to the symbol [s]. *)
Fixpoint leads (t : tree) (v : Z) (bs : list bool) (s : Z) : Prop :=
  match bs with
  | [] => v = s
  | bt :: bs => N <= v < 2 * N - 1 /\ leads t (if bt then tr_Right t v else tr_Left t v) bs s
  end.

(** Looking up the first [b] bits of a text that begins with the code of [s]
    gives [s], or the node from which the rest of the code leads to [s]. *)
Definition decodes (t : tree) : Prop :=
  forall s w, 0 <= s < N -> 0 <= w < 2 ^ b ->
    (0 < len s <= b -> w / 2 ^ (b - len s) = canon N len s -> tr_Table t w = s) /\
    (b < len s -> w = canon N len s / 2 ^ (len s - b) -> leads t (tr_Table t w) (bits (Z.to_nat (len s - b)) (canon N len s)) s).

Lemma leads_frame t t' bs : forall v s, (forall i, N <= i < 2 * N - 1 -> tr_Left t' i = tr_Left t i /\ tr_Right t' i = tr_Right t i) ->
  leads t v bs s -> leads t' v bs s.
Proof.
  induction bs as [|bt bs IH]; intros v s H; cbn [leads]; [done|]. intros [Hv Hl]. split; [done|]. destruct (H v Hv) as [El Er].
  rewrite El, Er. by apply IH.
Qed.

Lemma leads_built t0 nodes t s n c : built t0 N nodes t -> long s -> Z.of_nat n <= len s - b ->
  at_cell nodes (len s - Z.of_nat n) (pfx s (len s - Z.of_nat n)) c -> leads t (cell_val t c) (bits n (canon N len s)) s.
Proof.
  intros Hbu Hs. pose proof Hs as [Hs1 Hl]. revert c. induction n as [|n IH]; intros c Hn Hat; cbn [bits leads].
  - apply (bu_sym _ _ _ _ Hbu s); [lia|done|]. rewrite <- pfx_self. by rewrite Z.sub_0_r in Hat.
  - set (k := len s - Z.of_nat (S n)) in *. pose proof (bu_pre _ _ _ _ Hbu s k ltac:(lia) Hs ltac:(lia)) as Hin. pose proof Hin as (i & Hi)%list_elem_of_lookup.
    rewrite (bu_node _ _ _ _ Hbu i k _ c Hi Hat). pose proof (lookup_lt_Some _ _ _ Hi) as Hlt.
    pose proof (nodes_count b nodes ltac:(lia) (bu_nodup _ _ _ _ Hbu) (bu_range _ _ _ _ Hbu)) as Hc.
    pose proof (inners_count b ltac:(lia)) as (Hi1 & Hi2 & Hi3). pose proof (inner_nonneg b ltac:(lia)). unfold zlen in Hc.
    assert (inner b <> 0) by (intros E; specialize (Hi3 E); lia). split; [lia|].
    pose proof (child_cell nodes i k _ (Z.testbit (canon N len s) (len s - 1 - k)) Hi ltac:(lia)) as Hch. rewrite <- pfx_step in Hch by lia.
    replace (len s - 1 - k) with (Z.of_nat n) in Hch by lia. replace (k + 1) with (len s - Z.of_nat n) in Hch by lia.
    specialize (IH _ ltac:(lia) Hch). by destruct (Z.testbit _ _).
Qed.

Lemma MakeTable_spec t : wp (MakeTable N sz len b (2 ^ b) t) (fun '(r, t') => r = 0 /\ decodes t' /\
  forall i, i < N \/ 2 * N - 1 <= i -> tr_Left t' i = tr_Left t i /\ tr_Right t' i = tr_Right t i).
Proof.
  unfold MakeTable. apply wp_bind. eapply wp_mono; [apply count_lens_spec|]. cbn beta. intros Count Hc.
  apply wp_bind. eapply wp_mono; [by apply make_starts_spec|]. cbn beta. intros st Hst. wps.
  assert (E17 : st 17 = 0).
  { rewrite Hst by lia. assert (E : Z.to_nat 17 = 17%nat) by done. rewrite E, <- kraft_sum, (proj2 code_complete). done. }
  rewrite E17. cbn [Z.eqb negb]. cbv zeta. rewrite (u16_small (16 - b)) by (unfold is_u16; lia).
  apply wp_bind. eapply wp_mono; [by apply make_weights_spec|]. cbn beta. intros [st' w] (Hst' & E' & Hw). wps. rewrite E'.
  eapply wp_mono; [by apply clear_table_spec, Hst; lia|]. cbn beta. intros t1 Hb1. wps.
  apply (wp_forZ (stepped t)).
  - split; [done|]. exists []. split; [done|]. rewrite zlen_nil. lia.
  - intros m s Hm Hs. apply char_step_spec; [lia|done|done].
  - replace (0 + Z.of_nat (Z.to_nat N)) with N by lia. intros [[St A] t'] (_ & nodes & Hbu & _). wps. split; [done|]. split; [|apply Hbu].
    intros s wd Hs Hwd. split.
    + intros Hl E. apply (bu_short _ _ _ _ Hbu s); [lia|by split|done|done].
    + intros Hl ->. apply (leads_built t nodes t' s (Z.to_nat (len s - b)) (InTable _)); [done|by split|lia|].
      left. replace (len s - Z.of_nat (Z.to_nat (len s - b))) with b by lia. done.
Qed.
End code.

(** C10: (functional) For the lengths of a complete code, fewer symbols than
    entries of the table and a table of at most 12 bits, [MakeTable] accepts
    the lengths; the first bits of a text lead to the symbol whose canonical
    code the text begins with, at once when the code is short and through the
    nodes of the tree when it is longer; and only the [NumOfChar - 1] nodes from
    [NumOfChar] on are written. *)
Theorem MakeTable_decodes N len sz b t : complete N len -> 0 < N <= sz -> N <= NC -> 1 <= b <= 12 -> N < 2 ^ b ->
  exists t', MakeTable N sz len b (2 ^ b) t = Done (0, t') /\ decodes N len b t' /\
    forall i, i < N \/ 2 * N - 1 <= i -> tr_Left t' i = tr_Left t i /\ tr_Right t' i = tr_Right t i.
Proof.
  intros Hc HN HNC Hb Hs. pose proof (MakeTable_spec N len Hc ltac:(lia) b Hb HNC Hs sz ltac:(lia) t) as H.
  apply wp_elim in H as ([r t'] & E & -> & H). by exists t'.
Qed.

Lemma MakeTable_decodes_witness :
  let len := fun s => if s <? 5 then s + 1 else 5 in let t := mkTree (fun _ => 7) (fun _ => 8) (fun _ => 9) in
  exists t', MakeTable 6 10 len 3 8 t = Done (0, t') /\ decodes 6 len 3 t' /\
    forall i, i < 6 \/ 2 * 6 - 1 <= i -> tr_Left t' i = 8 /\ tr_Right t' i = 9.
Proof.
  intros len t. apply (MakeTable_decodes 6 len 10 3 t); [|lia|by vm_compute|lia|lia].
  split; [|by vm_compute]. intros s Hs. unfold len. destruct (s <? 5); lia.
Defined.
