(* ===== verification/TianoDecode.v ===== *)
(** * The decoder

    Models [DecodeP], [ReadPTLen], [ReadCLen], [DecodeC] and [Decode] of
    [BaseUefiTianoCustomDecompressLib.c]: a symbol is looked up in its table
    and, where its code is longer, found in the tree; the header of a block
    gives the tables; the symbols of a block write the data. *)

From S2P Require Import Prelude CArray BitStream TianoHuff TianoFormat TianoReader TianoTable.

(** ** Data *)
Definition MAXNP : Z := 31.
Definition NPT : Z := MAXNP.

(** [SCRATCH_DATA]: the tables, and the rest but for the input side, which is
    a [reader]. *)
Record tables := mkTables {
  tb_mLeft : carr; tb_mRight : carr; tb_mCLen : carr; tb_mPTLen : carr; tb_mCTable : carr; tb_mPTTable : carr }.

Record scratch := mkScratch {
  sd_in : reader; sd_tables : tables; sd_mBlockSize : Z; sd_mBadTableFlag : Z;
  sd_mDstBase : list Z; sd_mOutBuf : Z; sd_mOrigSize : Z; sd_mPBit : Z }.

Definition with_in (sd : scratch) (r : reader) : scratch :=
  mkScratch r (sd_tables sd) (sd_mBlockSize sd) (sd_mBadTableFlag sd) (sd_mDstBase sd) (sd_mOutBuf sd) (sd_mOrigSize sd) (sd_mPBit sd).
Definition with_header (sd : scratch) (r : reader) (tb : tables) (size bad : Z) : scratch :=
  mkScratch r tb size bad (sd_mDstBase sd) (sd_mOutBuf sd) (sd_mOrigSize sd) (sd_mPBit sd).
Definition with_out (sd : scratch) (d : list Z) (i : Z) : scratch :=
  mkScratch (sd_in sd) (sd_tables sd) (sd_mBlockSize sd) (sd_mBadTableFlag sd) d i (sd_mOrigSize sd) (sd_mPBit sd).

(** ** A symbol *)

(** A round of [do ... while (Val >= lim)]. *)
Definition down_step (lim : Z) (tb : tables) (r : reader) (s : Z * Z) : Res (Z * Z + Z) :=
  let '(v, Mask) := s in
  v ← (if negb (Z.land (rd_BitBuf r) Mask =? 0) then aget NNODE (tb_mRight tb) v else aget NNODE (tb_mLeft tb) v);
  let Mask := Z.shiftr Mask 1 in
  if lim <=? v then Done (inl (v, Mask)) else Done (inr v).

(** The symbol at the beginning of [mBitBuf], from a table of [T] entries for
    its first [n] bits. A way down of more steps than there are nodes and
    bits goes round for ever. *)
Definition find_symbol (lim n T : Z) (table : carr) (tb : tables) (r : reader) : Res Z :=
  v ← aget T table (Z.shiftr (rd_BitBuf r) (BITBUFSIZ - n));
  if lim <=? v then loop (Z.to_nat (NNODE + BITBUFSIZ)) (down_step lim tb r) (v, Z.shiftl 1 (BITBUFSIZ - 1 - n)) else Done v.

(** The symbol, and its code skipped: [lens] are the lengths of the codes. *)
Definition get_symbol (lim n T : Z) (table : carr) (sz : Z) (lens : carr) (tb : tables) (r : reader) : Res (Z * reader) :=
  v ← find_symbol lim n T table tb r; k ← aget sz lens v; r ← FillBuf k r; Done (v, r).

Definition DecodeP (tb : tables) (r : reader) : Res (Z * reader) :=
  '(Val, r) ← get_symbol MAXNP 8 256 (tb_mPTTable tb) NPT (tb_mPTLen tb) tb r;
  if 1 <? Val then '(o, r) ← GetBits (u16 (Val - 1)) r; Done (u32 (u32 (Z.shiftl 1 (Val - 1)) + o), r)
  else Done (Val, r).

(** ** Lengths *)

(** A round of [while (Mask & Sd->mBitBuf)]. *)
Definition ones_step (r : reader) (s : Z * Z) : Res (Z * Z + Z) :=
  let '(Mask, CharC) := s in
  if negb (Z.land Mask (rd_BitBuf r) =? 0) then Done (inl (Z.shiftr Mask 1, u16 (CharC + 1))) else Done (inr CharC).

(** A round of [while ((INT16) (--CharC) >= 0 && Index < n)], which writes
    zeros to a table of [n] entries. *)
Definition zero_step (n : Z) (s : Z * Z * carr) : Res (Z * Z * carr + Z * carr) :=
  let '(CharC, Index, a) := s in
  let CharC := u16 (CharC - 1) in
  if (CharC <? 2 ^ 15) && (Index <? n) then a ← aset n a Index 0; Done (inl (CharC, Index + 1, a)) else Done (inr (Index, a)).
Definition zero_run (n CharC Index : Z) (a : carr) : Res (Z * carr) :=
  loop (Z.to_nat (n + 1)) (zero_step n) (CharC, Index, a).

(** A length of the extra set or the position set: three bits, or ones up to a zero. *)
Definition read_length (r : reader) : Res (Z * reader) :=
  let CharC := u16 (Z.shiftr (rd_BitBuf r) (BITBUFSIZ - 3)) in
  CharC ← (if CharC =? 7 then loop 33 (ones_step r) (Z.shiftl 1 (BITBUFSIZ - 1 - 3), CharC) else Done CharC);
  r ← FillBuf (u16 (if CharC <? 7 then 3 else CharC - 3)) r; Done (CharC, r).

(** A round of [while (Index < Number && Index < NPT)]. *)
Definition ptlen_step (Number Special : Z) (s : Z * carr * reader) : Res (Z * carr * reader + Z * carr * reader) :=
  let '(Index, mPTLen, r) := s in
  if (Index <? Number) && (Index <? NPT) then
    '(CharC, r) ← read_length r;
    mPTLen ← aset NPT mPTLen Index (u8 CharC);
    let Index := Index + 1 in
    if Index =? Special then
      '(o, r) ← GetBits 2 r;
      '(Index, mPTLen) ← zero_run NPT (u16 o) Index mPTLen; Done (inl (Index, mPTLen, r))
    else Done (inl (Index, mPTLen, r))
  else Done (inr (Index, mPTLen, r)).

Definition ReadPTLen (nn nbit Special : Z) (tb : tables) (r : reader) : Res (Z * tables * reader) :=
  '(o, r) ← GetBits nbit r;
  let Number := u16 o in
  if Number =? 0 then
    '(o, r) ← GetBits nbit r;
    Done (0, mkTables (tb_mLeft tb) (tb_mRight tb) (tb_mCLen tb) (afill 0 nn (fun _ => 0) (tb_mPTLen tb)) (tb_mCTable tb)
      (afill 0 256 (fun _ => u16 o) (tb_mPTTable tb)), r)
  else
    '(Index, mPTLen, r) ← loop (Z.to_nat (NPT + 1)) (ptlen_step Number Special) (0, tb_mPTLen tb, r);
    let mPTLen := afill Index (Z.min nn NPT) (fun _ => 0) mPTLen in
    '(f, t) ← MakeTable nn NPT mPTLen 8 256 (mkTree (tb_mPTTable tb) (tb_mLeft tb) (tb_mRight tb));
    Done (f, mkTables (tr_Left t) (tr_Right t) (tb_mCLen tb) mPTLen (tb_mCTable tb) (tr_Table t), r).

(** A round of [while (Index < Number && Index < NC)]. *)
Definition clen_step (Number : Z) (tb : tables) (s : Z * carr * reader) : Res (Z * carr * reader + Z * carr * reader) :=
  let '(Index, mCLen, r) := s in
  if (Index <? Number) && (Index <? NC) then
    '(CharC, r) ← get_symbol NT 8 256 (tb_mPTTable tb) NPT (tb_mPTLen tb) tb r;
    if CharC <=? 2 then
      '(CharC, r) ← (if CharC =? 0 then Done (1, r)
        else if CharC =? 1 then '(o, r) ← GetBits 4 r; Done (u16 (o + 3), r)
        else '(o, r) ← GetBits CBIT r; Done (u16 (o + 20), r));
      '(Index, mCLen) ← zero_run NC CharC Index mCLen; Done (inl (Index, mCLen, r))
    else mCLen ← aset NC mCLen Index (u8 (CharC - 2)); Done (inl (Index + 1, mCLen, r))
  else Done (inr (Index, mCLen, r)).

(** The value of [MakeTable] is dropped. *)
Definition ReadCLen (tb : tables) (r : reader) : Res (tables * reader) :=
  '(o, r) ← GetBits CBIT r;
  let Number := u16 o in
  if Number =? 0 then
    '(o, r) ← GetBits CBIT r;
    Done (mkTables (tb_mLeft tb) (tb_mRight tb) (afill 0 NC (fun _ => 0) (tb_mCLen tb)) (tb_mPTLen tb)
      (afill 0 4096 (fun _ => u16 o) (tb_mCTable tb)) (tb_mPTTable tb), r)
  else
    '(Index, mCLen, r) ← loop (Z.to_nat (NC + 1)) (clen_step Number tb) (0, tb_mCLen tb, r);
    let mCLen := afill Index NC (fun _ => 0) mCLen in
    '(_, t) ← MakeTable NC NC mCLen 12 4096 (mkTree (tb_mCTable tb) (tb_mLeft tb) (tb_mRight tb));
    Done (mkTables (tr_Left t) (tr_Right t) mCLen (tb_mPTLen tb) (tr_Table t) (tb_mPTTable tb), r).

(** ** Blocks *)

(** The header of a block; [true] when a table of lengths is bad. *)
Definition read_header (sd : scratch) : Res (scratch * bool) :=
  '(o, r) ← GetBits 16 (sd_in sd);
  let size := u16 o in
  '(f, tb, r) ← ReadPTLen NT TBIT 3 (sd_tables sd) r;
  if negb (f =? 0) then Done (with_header sd r tb size f, true)
  else
    '(tb, r) ← ReadCLen tb r;
    '(f, tb, r) ← ReadPTLen MAXNP (sd_mPBit sd) (u16 (- 1)) tb r;
    Done (with_header sd r tb size f, negb (f =? 0)).

Definition DecodeC (sd : scratch) : Res (Z * scratch) :=
  '(sd, bad) ← (if sd_mBlockSize sd =? 0 then read_header sd else Done (sd, false));
  if bad : bool then Done (0, sd)
  else
    let size := u16 (sd_mBlockSize sd - 1) in
    '(Index2, r) ← get_symbol NC 12 4096 (tb_mCTable (sd_tables sd)) NC (tb_mCLen (sd_tables sd)) (sd_tables sd) (sd_in sd);
    Done (Index2, with_header sd r (sd_tables sd) size (sd_mBadTableFlag sd)).

(** A round of [while ((INT16) (BytesRemain) >= 0)]; [inr true] goes to
    [Done]. *)
Definition copy_step (OrigSize : Z) (s : list Z * Z * Z * Z) : Res (list Z * Z * Z * Z + list Z * Z * bool) :=
  let '(d, i, DataIdx, BytesRemain) := s in
  if BytesRemain <? 2 ^ 15 then
    c ← rd8 d DataIdx; d ← wr8 d i c;
    let i := u32 (i + 1) in
    if OrigSize <=? i then Done (inr (d, i, true)) else Done (inl (d, i, u32 (DataIdx + 1), u16 (BytesRemain - 1)))
  else Done (inr (d, i, false)).

(** A round of [for (;;)]. *)
Definition decode_step (sd : scratch) : Res (scratch + scratch) :=
  '(CharC, sd) ← DecodeC sd;
  if negb (sd_mBadTableFlag sd =? 0) then Done (inr sd)
  else if CharC <? 256 then
    if sd_mOrigSize sd <=? sd_mOutBuf sd then Done (inr sd)
    else d ← wr8 (sd_mDstBase sd) (sd_mOutBuf sd) (u8 CharC); Done (inl (with_out sd d (u32 (sd_mOutBuf sd + 1))))
  else
    let BytesRemain := u16 (CharC - (256 - THRESHOLD)) in
    '(pos, r) ← DecodeP (sd_tables sd) (sd_in sd);
    let DataIdx := u32 (sd_mOutBuf sd - pos - 1) in
    '(d, i, finished) ← loop (Z.to_nat (BytesRemain + 1)) (copy_step (sd_mOrigSize sd)) (sd_mDstBase sd, sd_mOutBuf sd, DataIdx, u16 (BytesRemain - 1));
    let sd := with_out (with_in sd r) d i in
    if finished : bool then Done (inr sd) else Done (inl sd).

(** Every round but the last writes. *)
Definition Decode (sd : scratch) : Res scratch := loop (Z.to_nat (sd_mOrigSize sd + 2)) decode_step sd.

(** ** Looking up a symbol *)
Lemma reads_bit r l i : reads r l -> 0 <= i < 32 -> Z.testbit (rd_BitBuf r) (31 - i) = bit l (Z.to_nat i).
Proof.
  intros [_ H] Hi. rewrite <- H. unfold rest. rewrite bit_app, BitStream.length_bits, decide_True, bit_bits by lia. f_equal. lia.
Qed.

(** Both sides know the code [c] of [N] symbols; the decoder has it in the
    table and the lengths. *)
Definition gives (lim n T : Z) (table : carr) (tb : tables) (sz : Z) (lens : carr) (N : Z) (c : code) : Prop :=
  forall s r l, coded_in N c s -> reads r (code_bits N c s ++ l) ->
    wp (find_symbol lim n T table tb r) (fun v => v = s) /\ 0 <= s < sz /\ lens s = zlen (code_bits N c s) /\ zlen (code_bits N c s) <= 16.

Lemma down_spec N tb table r bs : forall v s pre l fuel, N <= NC -> 0 < N -> (length bs < fuel)%nat -> reads r (pre ++ bs ++ l) -> zlen pre + zlen bs <= 32 ->
  bs <> [] -> 0 <= s < N -> leads N (mkTree table (tb_mLeft tb) (tb_mRight tb)) v bs s ->
  wp (loop fuel (down_step N tb r) (v, 2 ^ (31 - zlen pre))) (fun v => v = s).
Proof.
  induction bs as [|bt bs IH]; intros v s pre l fuel HN H0 Hf Hr Hz Hne Hs Hl; [done|]. destruct fuel as [|fuel]; [lia|]. cbn [loop].
  destruct Hl as [Hv Hl]. rewrite zlen_cons in Hz. pose proof (zlen_nonneg bs). pose proof (zlen_nonneg pre).
  assert (Hb : Z.testbit (rd_BitBuf r) (31 - zlen pre) = bt).
  { rewrite (reads_bit r _ _ Hr) by lia. rewrite bit_app, decide_False by (unfold zlen; lia). unfold zlen. rewrite Nat2Z.id, Nat.sub_diag. done. }
  apply wp_bind. unfold down_step. rewrite land_mask, negb_involutive, Hb by lia. cbn [tr_Left tr_Right] in Hl.
  assert (Hv' : 0 <= v < NNODE) by (unfold NNODE; lia). apply wp_bind.
  apply (wp_mono _ (fun w => w = if bt then tb_mRight tb v else tb_mLeft tb v)); [by destruct bt; rewrite aget_in by done|].
  cbn beta. intros w ->. cbv zeta. destruct bs as [|bt' bs].
  - cbn [leads] in Hl. rewrite Hl, (proj2 (Z.leb_gt N s)) by lia. by apply wp_Done.
  - pose proof Hl as [Hw _]. rewrite (proj2 (Z.leb_le N _)) by lia. apply wp_Done. cbn [zlen] in *.
    assert (E : Z.shiftr (2 ^ (31 - zlen pre)) 1 = 2 ^ (31 - zlen (pre ++ [bt]))).
    { rewrite zlen_app. change (zlen [bt]) with 1. rewrite zlen_cons in Hz. pose proof (zlen_nonneg bs). rewrite Z.shiftr_div_pow2 by lia.
      replace (31 - zlen pre) with (31 - (zlen pre + 1) + 1) by lia. rewrite Z.pow_add_r by lia. by rewrite Z.div_mul. }
    rewrite E. apply (IH _ s (pre ++ [bt]) l); [done|done|cbn [length] in *; lia|by rewrite <- app_assoc| |done|done|done].
    rewrite zlen_app. change (zlen [bt]) with 1. lia.
Qed.

Lemma gives_code nn N n table tb sz lens len : 1 <= n <= 12 -> nn <= NC -> 0 < N <= nn -> nn <= sz -> complete N len -> complete nn lens ->
  (forall s, 0 <= s < N -> lens s = len s /\ canon nn lens s = canon N len s) -> decodes nn lens n (mkTree table (tb_mLeft tb) (tb_mRight tb)) ->
  gives nn n (2 ^ n) table tb sz lens N (Code len).
Proof.
  intros Hn HNC HN Hsz Hc Hc' Hsame Hd s r l [Hs Hl] Hr. cbn [code_bits] in *. destruct (Hsame s Hs) as [El Ec]. rewrite zlen_bits.
  pose proof (canon_range N len Hc s Hs Hl) as [Hls Hcs]. split; [|split; [lia|split; [lia|lia]]].
  set (w := Z.shiftr (rd_BitBuf r) (BITBUFSIZ - n)).
  assert (Hbuf : is_u32 (rd_BitBuf r)) by apply Hr. assert (Hw : 0 <= w < 2 ^ n).
  { unfold w, BITBUFSIZ. rewrite Z.shiftr_div_pow2 by lia. unfold is_u32 in Hbuf. split; [apply Z.div_pos; lia|].
    apply Z.div_lt_upper_bound; [lia|]. rewrite <- Z.pow_add_r by lia. replace (32 - n + n) with 32 by lia. lia. }
  destruct (Hd s w ltac:(lia) Hw) as [Hshort Hlong]. rewrite El, Ec in *. cbn [tr_Table] in *.
  unfold find_symbol. fold w. apply wp_bind. rewrite aget_in by done. apply wp_Done. destruct (Z.le_gt_cases (len s) n) as [Hle|Hgt].
  - rewrite Hshort; [rewrite (proj2 (Z.leb_gt nn s)) by lia; by apply wp_Done|lia|].
    pose proof (top_bits r _ l (len s) Hr ltac:(rewrite zlen_bits; lia) ltac:(lia)) as E. rewrite bval_bits, Z2Nat.id, Z.mod_small in E by lia.
    rewrite <- E. unfold w, BITBUFSIZ. rewrite !Z.shiftr_div_pow2 by lia. rewrite Z.div_div by lia. rewrite <- Z.pow_add_r by lia. do 2 f_equal. lia.
  - assert (Esp : bits (Z.to_nat (len s)) (canon N len s) = bits (Z.to_nat n) (canon N len s / 2 ^ (len s - n)) ++ bits (Z.to_nat (len s - n)) (canon N len s)).
    { replace (Z.to_nat (len s)) with (Z.to_nat n + Z.to_nat (len s - n))%nat by lia. by rewrite bits_app, Z2Nat.id by lia. }
    rewrite Esp, <- app_assoc in Hr. pose proof (top_bits r _ _ n Hr ltac:(rewrite zlen_bits; lia) ltac:(lia)) as E. fold w in E.
    assert (Hp : 0 <= canon N len s / 2 ^ (len s - n) < 2 ^ n).
    { split; [apply Z.div_pos; lia|]. apply Z.div_lt_upper_bound; [lia|]. rewrite <- Z.pow_add_r by lia. replace (len s - n + n) with (len s) by lia. lia. }
    rewrite bval_bits, Z2Nat.id, Z.mod_small in E by lia.
    specialize (Hlong Hgt E). destruct (Z.to_nat (len s - n)) as [|m] eqn:Em; [lia|]. pose proof Hlong as Hlong'. cbn [bits leads] in Hlong'. destruct Hlong' as [Hv _].
    rewrite (proj2 (Z.leb_le nn _)) by lia. rewrite Z.shiftl_1_l.
    pose proof (down_spec nn tb table r (bits (S m) (canon N len s)) (table w) s (bits (Z.to_nat n) (canon N len s / 2 ^ (len s - n))) l (Z.to_nat (NNODE + BITBUFSIZ))) as H.
    rewrite !zlen_bits, Z2Nat.id in H by lia. replace (BITBUFSIZ - 1 - n) with (31 - n) by (unfold BITBUFSIZ; lia).
    apply H; [done|lia| |exact Hr|lia|done|lia|done]. rewrite BitStream.length_bits. unfold NNODE, BITBUFSIZ. change NC with 510. lia.
Qed.

Lemma gives_one nn n T table tb sz lens N s : 0 <= n <= 12 -> T = 2 ^ n -> 0 <= s < N -> N <= nn -> N <= sz -> lens s = 0 -> (forall i, 0 <= i < T -> table i = s) ->
  gives nn n T table tb sz lens N (One s).
Proof.
  intros Hn -> Hs HN Hsz Hl Ht s' r l -> Hr. cbn [code_bits]. split; [|split; [lia|by rewrite Hl]]. unfold find_symbol. apply wp_bind.
  assert (Hbuf : is_u32 (rd_BitBuf r)) by apply Hr. unfold is_u32 in Hbuf. set (w := Z.shiftr _ _).
  assert (Hw : 0 <= w < 2 ^ n).
  { unfold w, BITBUFSIZ. rewrite Z.shiftr_div_pow2 by lia. split; [apply Z.div_pos; lia|].
    apply Z.div_lt_upper_bound; [lia|]. rewrite <- Z.pow_add_r by lia. replace (32 - n + n) with 32 by lia. lia. }
  rewrite aget_in by done. apply wp_Done. rewrite Ht, (proj2 (Z.leb_gt nn s)) by lia. by apply wp_Done.
Qed.

(** ** A code in a greater set of symbols *)
Section extended.
Context (N nn : Z) (len lens : carr).
Hypothesis N_le : 0 <= N <= nn.
Hypothesis same : forall i, 0 <= i < N -> lens i = len i.
Hypothesis zero : forall i, N <= i < nn -> lens i = 0.

Lemma ncodes_ext l : ncodes nn lens l = ncodes N len l.
Proof.
  unfold ncodes. destruct (Z.eqb_spec l 0); [done|]. replace (Z.to_nat nn) with (Z.to_nat N + Z.to_nat (nn - N))%nat by lia. rewrite asum_app.
  rewrite (asum_ext (isv l) (isv l) lens len) by (intros i Hi; f_equal; apply same; lia).
  rewrite (asum_ext (isv l) (fun _ => 0) lens lens (Z.to_nat (nn - N))) by (intros i Hi; cbv beta; rewrite zero by lia; apply isv_ne; congruence).
  rewrite asum_const. lia.
Qed.

Lemma complete_ext : complete N len -> complete nn lens.
Proof.
  intros [Hr Hk]. split.
  - intros s Hs. destruct (Z.lt_ge_cases s N); [rewrite same by lia; apply Hr; lia|rewrite zero by lia; lia].
  - rewrite <- Hk, !kraft_sum. apply wsum_ext. intros i _. by rewrite ncodes_ext.
Qed.

Lemma canon_ext s : 0 <= s < N -> canon nn lens s = canon N len s.
Proof.
  intros Hs. unfold canon, rank. rewrite same by done. f_equal.
  - induction (Z.to_nat (len s)) as [|n IH]; [done|]. cbn [first_code]. by rewrite IH, ncodes_ext.
  - apply asum_ext. intros i Hi. f_equal. apply same. lia.
Qed.
End extended.

Lemma trimmed_zero a n : (forall i, Z.of_nat (trimmed a n) <= i < Z.of_nat n -> a i = 0) /\
  (trimmed a n <> O -> a (Z.of_nat (trimmed a n) - 1) <> 0).
Proof.
  induction n as [|n [IH1 IH2]]; cbn [trimmed]; [split; [lia|done]|]. destruct (Z.eqb_spec (a (Z.of_nat n)) 0) as [E|E].
  - split; [|done]. intros i Hi. destruct (decide (i = Z.of_nat n)) as [->|]; [done|]. apply IH1. lia.
  - split; [lia|]. intros _. by replace (Z.of_nat (S n) - 1) with (Z.of_nat n) by lia.
Qed.

(** A complete code has a symbol. *)
Lemma complete_trimmed N len : 0 <= N -> complete N len -> trimmed len (Z.to_nat N) <> O.
Proof.
  intros HN [_ Hk] E. destruct (trimmed_zero len (Z.to_nat N)) as [Hz _]. rewrite E in Hz. rewrite kraft_sum in Hk.
  rewrite (wsum_ext pow pow (ncodes N len) (fun _ => 0)), wsum_zero in Hk; [done|]. intros i _. f_equal. unfold ncodes.
  destruct (Z.eqb_spec i 0); [done|]. rewrite (asum_ext (isv i) (fun _ => 0) len len), asum_const; [lia|].
  intros j Hj. rewrite Hz by lia. apply isv_ne. congruence.
Qed.

(** ** Reading lengths *)

(** Bits at the front of the buffer. *)
Lemma reads_app_bit r a l i : reads r (a ++ l) -> 0 <= i < zlen a -> zlen a <= 32 -> Z.testbit (rd_BitBuf r) (31 - i) = bit a (Z.to_nat i).
Proof. intros Hr Hi Ha. rewrite (reads_bit r _ i Hr) by lia. rewrite bit_app, decide_True by (unfold zlen in Hi; lia). done. Qed.

Lemma ones_spec r n l fuel : reads r (bits n (2 ^ Z.of_nat n - 2) ++ l) -> (1 <= n <= 14)%nat ->
  forall j c, (j < n)%nat -> (n - j < fuel)%nat -> 0 <= c <= 7 -> 
  wp (loop fuel (ones_step r) (2 ^ (31 - Z.of_nat j), c + Z.of_nat j)) (fun v => v = c + Z.of_nat n - 1).
Proof.
  intros Hr Hn j c Hj. remember (n - j)%nat as m eqn:Em. revert j fuel Hj Em. induction m as [|m IH]; intros j fuel Hj Em Hf Hc; [lia|].
  destruct fuel as [|fuel]; [lia|]. cbn [loop]. apply wp_bind. unfold ones_step. rewrite Z.land_comm, land_mask by lia.
  rewrite (reads_app_bit r _ _ (Z.of_nat j) Hr) by (rewrite zlen_bits; lia). rewrite bit_bits by lia. rewrite negb_involutive.
  assert (Eb : Z.testbit (2 ^ Z.of_nat n - 2) (Z.of_nat n - 1 - Z.of_nat (Z.to_nat (Z.of_nat j))) = negb (j =? n - 1)%nat).
  { rewrite Nat2Z.id. set (k := Z.of_nat n - 1 - Z.of_nat j). replace (2 ^ Z.of_nat n - 2) with (2 * Z.ones (Z.of_nat n - 1)).
    - destruct (Nat.eqb_spec j (n - 1)) as [->|].
      + replace k with 0 by lia. apply Z.testbit_even_0.
      + replace k with (Z.succ (k - 1)) by lia. rewrite Z.testbit_even_succ by lia. rewrite Z.ones_spec_low by lia. done.
    - rewrite Z.ones_equiv. replace (Z.of_nat n) with (Z.succ (Z.of_nat n - 1)) at 2 by lia. rewrite Z.pow_succ_r by lia. lia. }
  rewrite Eb. destruct (Nat.eqb_spec j (n - 1)) as [->|Hne]; cbn [negb].
  - do 2 apply wp_Done. lia.
  - apply wp_Done. fold (ones_step r). assert (E : Z.shiftr (2 ^ (31 - Z.of_nat j)) 1 = 2 ^ (31 - Z.of_nat (S j))).
    { rewrite Z.shiftr_div_pow2 by lia. replace (31 - Z.of_nat j) with (31 - Z.of_nat (S j) + 1) by lia. rewrite Z.pow_add_r by lia. by rewrite Z.div_mul. }
    rewrite E, u16_small by (unfold is_u16; lia). replace (c + Z.of_nat j + 1) with (c + Z.of_nat (S j)) by lia. apply IH; lia.
Qed.

Lemma read_length_spec r v l : reads r (length_bits v ++ l) -> 0 <= v <= 16 -> wp (read_length r) (fun '(c, r') => c = v /\ reads r' l).
Proof.
  intros Hr Hv. unfold read_length. cbv zeta. unfold length_bits in Hr. destruct (Z.leb_spec v 6) as [H6|H6].
  - rewrite (top_bits r _ l 3 Hr) by (rewrite ?zlen_bits; lia). rewrite bval_bits. change (2 ^ Z.of_nat 3) with 8. rewrite Z.mod_small by lia.
    rewrite (u16_small v) by (unfold is_u16; lia). rewrite (proj2 (Z.eqb_neq v 7)) by lia. wps. rewrite (proj2 (Z.ltb_lt v 7)) by lia.
    eapply wp_mono; [exact (reads_skip r _ l Hr ltac:(rewrite BitStream.length_bits; lia))|]. cbn beta. intros r' Hr'. by apply wp_Done.
  - set (n := Z.to_nat (v - 3)) in *. assert (En : v - 3 = Z.of_nat n) by lia. rewrite En in Hr.
    assert (Hsp : reads r (bits 3 7 ++ (bits (n - 3) (2 ^ Z.of_nat (n - 3) - 2) ++ l))).
    { rewrite app_assoc. replace (bits 3 7 ++ bits (n - 3) (2 ^ Z.of_nat (n - 3) - 2)) with (bits n (2 ^ Z.of_nat n - 2)); [done|].
      replace n with (3 + (n - 3))%nat at 1 2 by lia. rewrite bits_app. set (m := (n - 3)%nat) in *. f_equal.
      - f_equal. replace (Z.of_nat (3 + m)) with (3 + Z.of_nat m) by lia. rewrite Z.pow_add_r by lia. change (2 ^ 3) with 8.
        symmetry. apply (Z.div_unique _ _ _ (2 ^ Z.of_nat m - 2)); [|lia]. assert (2 ^ 1 <= 2 ^ Z.of_nat m) by (apply Z.pow_le_mono_r; lia). lia.
      - rewrite <- bits_mod. rewrite <- (bits_mod m (2 ^ Z.of_nat m - 2)). f_equal. replace (Z.of_nat (3 + m)) with (3 + Z.of_nat m) by lia. rewrite Z.pow_add_r by lia.
        change (2 ^ 3) with 8. replace (8 * 2 ^ Z.of_nat m - 2) with (2 ^ Z.of_nat m - 2 + 7 * 2 ^ Z.of_nat m) by lia. apply Z.mod_add. lia. }
    rewrite (top_bits r _ _ 3 Hsp) by (rewrite ?zlen_bits; lia). change (u16 (bval (bits 3 7))) with 7. cbn [Z.eqb Pos.eqb]. apply wp_bind.
    pose proof (ones_spec r n l 33 Hr ltac:(lia) 3 4 ltac:(lia) ltac:(lia) ltac:(lia)) as H. eapply wp_mono; [exact H|]. cbn beta. intros c Hc. wps.
    assert (Ec : c = v) by lia. rewrite Ec. rewrite (proj2 (Z.ltb_ge v 7)), (u16_small (v - 3)) by (unfold is_u16; lia).
    pose proof (reads_skip r _ l Hr ltac:(rewrite BitStream.length_bits; lia)) as Hs. rewrite zlen_bits, <- En in Hs.
    eapply wp_mono; [exact Hs|]. cbn beta. intros r' Hr'. by apply wp_Done.
Qed.

Lemma zero_run_fills n c Index a : 0 <= c < 2 ^ 15 -> 0 <= Index -> Index + c <= n ->
  wp (zero_run n c Index a) (fun '(i, a') => i = Index + c /\ forall j, a' j = if (Index <=? j) && (j <? Index + c) then 0 else a j).
Proof.
  intros Hc Hi Hn. unfold zero_run.
  apply (wp_loop (fun '(k, i, a') => 0 <= k <= c /\ i = Index + (c - k) /\ forall j, a' j = if (Index <=? j) && (j <? i) then 0 else a j) (fun '(k, _, _) => Z.to_nat k)).
  - intros [[k i] a'] (Hk & Ei & Ha). unfold zero_step. cbv zeta. destruct (Z.eq_dec k 0) as [->|Hk0].
    + change (u16 (0 - 1) <? 2 ^ 15) with false. cbn [andb]. apply wp_Done. replace (c - 0) with c in Ei by lia. rewrite Ei in Ha. by split.
    + rewrite u16_small by (unfold is_u16; lia). rewrite (proj2 (Z.ltb_lt (k - 1) (2 ^ 15))), (proj2 (Z.ltb_lt i n)) by lia. cbn [andb]. wps.
      split; [|lia]. split; [lia|]. split; [lia|]. intros j. destruct (decide (j = i)) as [->|Hne].
      * rewrite upd_eq, (proj2 (Z.leb_le Index i)), (proj2 (Z.ltb_lt i _)) by lia. done.
      * rewrite upd_ne, Ha by done. by replace (j <? i + 1) with (j <? i) by (destruct (Z.ltb_spec j i), (Z.ltb_spec j (i + 1)); done || lia).
  - split; [lia|]. split; [lia|]. intros j. destruct (Z.leb_spec Index j), (Z.ltb_spec j Index); done || lia.
  - lia.
Qed.

(** *** The extra set and the position set *)
Section ptlen.
Context (N : Z) (len : Z -> Z) (sp : bool) (l : list bool).
Hypothesis N_range : 0 < N <= NPT.
Hypothesis len_range : forall s, 0 <= s < N -> 0 <= len s <= 16.
Definition nlens : Z := Z.of_nat (trimmed len (Z.to_nat N)).

(** Lengths beyond the set are zero for the decoder. *)
Definition lens_to (i : Z) : Z := if i <? N then len i else 0.

(** What is still to be read at the length [i]. *)
Definition to_come (i : Z) : list bool :=
  if sp && (3 <=? nlens) && (i <? 3) then
    concat (map length_bits (entries len i (Z.to_nat (3 - i)))) ++ bits 2 (zeros_at_3 len) ++ concat (map length_bits (entries len (3 + zeros_at_3 len) (Z.to_nat (nlens - 3 - zeros_at_3 len))))
  else concat (map length_bits (entries len i (Z.to_nat (nlens - i)))).

Lemma to_come_start : to_come 0 = lengths_bits sp len nlens.
Proof.
  unfold to_come, lengths_bits. destruct (sp && (3 <=? nlens)); cbn [andb]; [done|]. by rewrite Z.sub_0_r.
Qed.

Lemma zeros_range : 0 <= zeros_at_3 len <= 3.
Proof. unfold zeros_at_3. repeat destruct (negb _); lia. Qed.

Lemma zeros_are i : 3 <= i < 3 + zeros_at_3 len -> len i = 0.
Proof.
  unfold zeros_at_3. intros Hi. destruct (Z.eqb_spec (len 3) 0), (Z.eqb_spec (len 4) 0), (Z.eqb_spec (len 5) 0); cbn [negb] in Hi; try lia;
  (assert (E : i = 3 \/ i = 4 \/ i = 5) by lia; destruct E as [->|[->| ->]]; done || lia).
Qed.

Lemma trimmed_range : 0 <= nlens <= N.
Proof. unfold nlens. pose proof (trimmed_le len (Z.to_nat N)). lia. Qed.

Definition ptlen_inv (s : Z * carr * reader) : Prop :=
  let '(i, a, r) := s in (0 <= i <= nlens \/ i = 3 + zeros_at_3 len /\ sp = true) /\ (forall j, 0 <= j < i -> a j = lens_to j) /\ reads r (to_come i ++ l).

Lemma entries_S a i m : 0 < m -> entries a i (Z.to_nat m) = a i :: entries a (i + 1) (Z.to_nat (m - 1)).
Proof. intros Hm. replace (Z.to_nat m) with (S (Z.to_nat (m - 1))) by lia. done. Qed.

Lemma ptlen_step_spec s : ptlen_inv s -> wp (ptlen_step nlens (if sp then 3 else u16 (- 1)) s) (fun q => match q with
  | inl s' => ptlen_inv s' /\ fst (fst s) < fst (fst s') /\ fst (fst s) < NPT
  | inr (i, a, r) => nlens <= i /\ (forall j, 0 <= j < i -> a j = lens_to j) /\ reads r l end).
Proof.
  destruct s as [[i a] r]. intros (Hi & Ha & Hr). pose proof zeros_range as Hz. pose proof trimmed_range as Hn. unfold ptlen_step.
  destruct (Z.ltb_spec i nlens) as [Hlt|Hge]; cbn [andb].
  2: { apply wp_Done. split; [done|]. split; [done|]. unfold to_come in Hr. destruct (Z.leb_spec 3 nlens), (Z.ltb_spec i 3); try lia; rewrite ?andb_false_r in Hr; cbn [andb] in Hr;
       replace (Z.to_nat (nlens - i)) with O in Hr by lia; done. }
  rewrite (proj2 (Z.ltb_lt i NPT)) by lia. assert (Hi0 : 0 <= i) by lia. pose proof (len_range i ltac:(lia)) as Hl.
  assert (E : exists t, to_come i = length_bits (len i) ++ t /\
    if sp && (3 <=? nlens) && (i + 1 =? 3) then t = bits 2 (zeros_at_3 len) ++ to_come (3 + zeros_at_3 len) else t = to_come (i + 1)).
  { unfold to_come. destruct (sp && (3 <=? nlens)); cbn [andb].
    - destruct (Z.ltb_spec i 3).
      + rewrite entries_S by lia. cbn [map concat]. rewrite <- app_assoc. eexists. split; [done|]. destruct (Z.eqb_spec (i + 1) 3) as [E3|E3].
        * rewrite (proj2 (Z.ltb_ge (3 + zeros_at_3 len) 3)) by lia. replace (Z.to_nat (3 - i - 1)) with O by lia. cbn [entries map concat app]. do 5 f_equal. lia.
        * rewrite (proj2 (Z.ltb_lt (i + 1) 3)) by lia. do 5 f_equal. lia.
      + rewrite (proj2 (Z.eqb_neq (i + 1) 3)), (proj2 (Z.ltb_ge (i + 1) 3)) by lia. rewrite entries_S by lia. cbn [map concat]. eexists. split; [done|]. do 4 f_equal. lia.
    - rewrite entries_S by lia. cbn [map concat]. eexists. split; [done|]. do 4 f_equal. lia. }
  destruct E as (t & E & Ht). rewrite E, <- app_assoc in Hr. apply wp_bind. eapply wp_mono; [by apply (read_length_spec r (len i))|].
  cbn beta. intros [c r'] [-> Hr']. unfold NPT, MAXNP in *. wps. rewrite u8_small by (unfold is_u8; lia).
  assert (Ha' : forall j, 0 <= j < i + 1 -> upd a i (len i) j = lens_to j).
  { intros j Hj. destruct (decide (j = i)) as [->|]; upd_at; [|apply Ha; lia]. unfold lens_to. by rewrite (proj2 (Z.ltb_lt i N)) by lia. }
  assert (Hsp : (i + 1 =? (if sp then 3 else u16 (- 1))) = sp && (3 <=? nlens) && (i + 1 =? 3)).
  { destruct sp; cbn [andb].
    - destruct (Z.leb_spec 3 nlens); [done|]. apply Z.eqb_neq. lia.
    - apply Z.eqb_neq. change (u16 (- 1)) with 65535. lia. }
  rewrite Hsp. destruct (sp && (3 <=? nlens) && (i + 1 =? 3)) eqn:Eb.
  - apply andb_true_iff in Eb as [Eb1 Eb]. apply andb_true_iff in Eb1 as [Esp _]. apply Z.eqb_eq in Eb. rewrite Ht, <- app_assoc in Hr'.
    apply wp_bind. eapply wp_mono; [apply (GetBits_spec r' 2 (zeros_at_3 len) _ Hr'); lia|]. cbn beta. intros [o r2] [-> Hr2].
    rewrite u16_small by (unfold is_u16; lia). apply wp_bind. eapply wp_mono; [apply zero_run_fills; lia|]. cbn beta. intros [i' a'] [-> Ha2]. wps.
    cbn [fst]. split; [|lia]. rewrite Eb. split; [by right|]. split; [|done]. intros j Hj. rewrite Ha2.
    destruct (Z.leb_spec (i + 1) j), (Z.ltb_spec j (i + 1 + zeros_at_3 len)); cbn [andb]; try (apply Ha'; lia).
    unfold lens_to. destruct (j <? N); [|done]. symmetry. apply zeros_are. lia.
  - wps. cbn [fst]. split; [|lia]. split; [left; lia|]. split; [done|]. by rewrite <- Ht.
Qed.

Lemma ptlen_loop a r : reads r (lengths_bits sp len nlens ++ l) ->
  wp (loop (Z.to_nat (NPT + 1)) (ptlen_step nlens (if sp then 3 else u16 (- 1))) (0, a, r)) (fun '(i, a, r) =>
    nlens <= i /\ (forall j, 0 <= j < i -> a j = lens_to j) /\ reads r l).
Proof.
  intros Hr. pose proof trimmed_range as Hn. apply (wp_loop ptlen_inv (fun s => Z.to_nat (NPT - fst (fst s)))).
  - intros s Hs. eapply wp_mono; [by apply (ptlen_step_spec s)|]. cbn beta.
    intros [s'|q] H; [destruct H as (H1 & H2 & H3); split; [done|lia]|exact H].
  - split; [left; lia|]. split; [lia|]. by rewrite to_come_start.
  - cbn [fst]. lia.
Qed.
End ptlen.

(** What a set's header changes: nothing of the characters' set but the nodes
    [nn] to [2 * nn - 2]. *)
Definition pt_frame (nn : Z) (tb tb' : tables) : Prop :=
  tb_mCLen tb' = tb_mCLen tb /\ tb_mCTable tb' = tb_mCTable tb /\
  forall i, i < nn \/ 2 * nn - 1 <= i -> tb_mLeft tb' i = tb_mLeft tb i /\ tb_mRight tb' i = tb_mRight tb i.

Lemma ReadPTLen_spec N nn sp tb r c l : 0 < N <= nn -> nn <= NPT -> code_ok N c -> reads r (set_header sp N 5 c ++ l) ->
  wp (ReadPTLen nn 5 (if sp then 3 else u16 (- 1)) tb r) (fun '(f, tb', r') => f = 0 /\ reads r' l /\
    gives nn 8 256 (tb_mPTTable tb') tb' NPT (tb_mPTLen tb') N c /\ pt_frame nn tb tb').
Proof.
  intros HN Hnn Hc Hr. unfold NPT, MAXNP in Hnn. unfold ReadPTLen. destruct c as [s|len]; cbn [set_header code_ok] in *; rewrite <- app_assoc in Hr.
  - apply wp_bind. eapply wp_mono; [apply (GetBits_spec r 5 0 _ Hr); lia|]. cbn beta. intros [o r1] [-> Hr1]. change (u16 0 =? 0) with true. cbv iota zeta.
    apply wp_bind. eapply wp_mono; [apply (GetBits_spec r1 5 s _ Hr1); lia|]. cbn beta. intros [o r2] [-> Hr2].
    rewrite u16_small by (unfold is_u16; lia). apply wp_Done. cbn [tb_mPTTable tb_mPTLen]. split; [done|]. split; [done|]. split; [|done].
    apply gives_one; [lia|done|done|lia|unfold NPT, MAXNP; lia|by apply afill_in; lia|intros i Hi; by rewrite afill_in].
  - pose proof (complete_trimmed N len ltac:(lia) Hc) as Hne. pose proof (trimmed_range N len ltac:(unfold NPT, MAXNP; lia)) as Hn. unfold nlens in Hn.
    set (n := Z.of_nat (trimmed len (Z.to_nat N))) in *.
    apply wp_bind. eapply wp_mono; [apply (GetBits_spec r 5 n _ Hr); lia|]. cbn beta. intros [o r1] [-> Hr1].
    rewrite u16_small by (unfold is_u16; lia). rewrite (proj2 (Z.eqb_neq n 0)) by lia. cbv zeta.
    assert (HNs : 0 < N <= NPT) by (unfold NPT, MAXNP; lia). pose proof (proj1 Hc) as Hlr.
    apply wp_bind. eapply wp_mono; [by apply (ptlen_loop N len sp l HNs Hlr)|]. cbn beta. intros [[i a] r2] (Hi & Ha & Hr2). cbv beta iota.
    unfold nlens in Hi. fold n in Hi. rewrite (Z.min_l nn NPT) by (unfold NPT, MAXNP; lia). set (a2 := afill i nn (fun _ => 0) a).
    destruct (trimmed_zero len (Z.to_nat N)) as [Hz _]. fold n in Hz. rewrite Z2Nat.id in Hz by lia.
    assert (Ha2 : forall j, 0 <= j < nn -> a2 j = lens_to N len j).
    { intros j Hj. unfold a2. destruct (Z.lt_ge_cases j i) as [Hji|Hji]; [rewrite afill_out by lia; apply Ha; lia|]. rewrite afill_in by lia.
      unfold lens_to. destruct (Z.ltb_spec j N); [|done]. symmetry. apply Hz. lia. }
    assert (Hin : forall j, 0 <= j < N -> a2 j = len j) by (intros j Hj; rewrite Ha2 by lia; unfold lens_to; by rewrite (proj2 (Z.ltb_lt j N)) by lia).
    assert (Hout : forall j, N <= j < nn -> a2 j = 0) by (intros j Hj; rewrite Ha2 by lia; unfold lens_to; by rewrite (proj2 (Z.ltb_ge j N)) by lia).
    assert (Hc2 : complete nn a2) by (apply (complete_ext N nn len); done || lia).
    apply wp_bind. eapply wp_mono; [apply (MakeTable_spec nn a2 Hc2); unfold NPT, MAXNP; (change NC with 510; lia) || (change (2 ^ 8) with 256; lia) || lia|].
    cbn beta. intros [f t] (-> & Hd & Hfr). apply wp_Done. cbn [tb_mPTTable tb_mPTLen]. split; [done|]. split; [done|]. split.
    + apply (gives_code nn N 8); [lia|change NC with 510; lia|lia|unfold NPT, MAXNP; lia|done|done| |by destruct t].
      intros s Hs. split; [apply Hin; lia|]. by apply canon_ext; [lia|done|done|].
    + split; [done|]. split; [done|]. cbn [tb_mLeft tb_mRight]. exact Hfr.
Qed.

(** *** The characters *)
Lemma lookup_entries a n j : (j < n)%nat -> forall lo, entries a lo n !! j = Some (a (lo + Z.of_nat j)).
Proof.
  revert j. induction n as [|n IH]; intros j Hj lo; [lia|]. cbn [entries]. destruct j as [|j]; cbn [lookup list_lookup]; [by rewrite Z.add_0_r|].
  change (entries a (lo + 1) n !! j = Some (a (lo + Z.of_nat (S j)))). rewrite IH by lia. do 2 f_equal. lia.
Qed.

Lemma get_symbol_spec lim n T table tb sz lens N c s r l : gives lim n T table tb sz lens N c -> coded_in N c s -> reads r (code_bits N c s ++ l) ->
  wp (get_symbol lim n T table sz lens tb r) (fun '(v, r') => v = s /\ reads r' l).
Proof.
  intros Hg Hc Hr. destruct (Hg s r l Hc Hr) as (Hf & Hs & Hl & Hz). apply wp_bind. eapply wp_mono; [exact Hf|]. cbn beta. intros v ->.
  rewrite aget_in, bind_Done, Hl by lia. apply wp_bind. eapply wp_mono; [apply (reads_skip r _ l Hr); unfold zlen in Hz; lia|]. cbn beta. intros r' Hr'. by apply wp_Done.
Qed.

Section clen.
Context (t : code) (rs : list run) (tb : tables) (l : list bool).
Hypothesis runs : Forall (fun q => run_ok q /\ coded_in NT t (run_sym q)) rs.
Hypothesis extra : gives NT 8 256 (tb_mPTTable tb) tb NPT (tb_mPTLen tb) NT t.

Hypothesis all_short : zlen (concat (map run_lens rs)) <= NC.

Definition clen_inv (s : Z * carr * reader) : Prop :=
  let '(i, a, r) := s in exists done rest, rs = done ++ rest /\ i = zlen (concat (map run_lens done)) /\
    (forall j : nat, Z.of_nat j < i -> concat (map run_lens done) !! j = Some (a (Z.of_nat j))) /\ reads r (concat (map (run_bits t) rest) ++ l).

(** A run with its lengths is written. *)
Lemma clen_next i a a' r done q rest : rs = done ++ q :: rest -> i = zlen (concat (map run_lens done)) ->
  (forall j : nat, Z.of_nat j < i -> concat (map run_lens done) !! j = Some (a (Z.of_nat j))) ->
  (forall j, j < i -> a' j = a j) -> (forall j v, run_lens q !! j = Some v -> a' (i + Z.of_nat j) = v) -> reads r (concat (map (run_bits t) rest) ++ l) ->
  clen_inv (i + zlen (run_lens q), a', r).
Proof.
  intros -> Hi Ha Hsame Hnew Hr. exists (done ++ [q]), rest. rewrite <- app_assoc. split; [done|]. rewrite map_app, concat_app. cbn [map concat]. rewrite app_nil_r, zlen_app, <- Hi.
  split; [done|]. split; [|done]. intros j Hj. assert (0 <= i) by (rewrite Hi; apply zlen_nonneg). destruct (Z.lt_ge_cases (Z.of_nat j) i) as [Hlt|Hge].
  - rewrite Hsame by done. rewrite lookup_app_l by (unfold zlen in Hi; lia). by apply Ha.
  - rewrite lookup_app_r by (unfold zlen in Hi; lia). set (m := (j - length (concat (map run_lens done)))%nat). unfold zlen in *.
    destruct (lookup_lt_is_Some_2 (run_lens q) m ltac:(unfold m; lia)) as [v Hv]. rewrite Hv. f_equal. rewrite <- (Hnew m v Hv). f_equal. unfold m. lia.
Qed.

Lemma clen_step_spec s : clen_inv s -> wp (clen_step (zlen (concat (map run_lens rs))) tb s) (fun q => match q with
  | inl s' => clen_inv s' /\ fst (fst s) < fst (fst s') /\ fst (fst s) < NC
  | inr (i, a, r) => i = zlen (concat (map run_lens rs)) /\ (forall j : nat, Z.of_nat j < i -> concat (map run_lens rs) !! j = Some (a (Z.of_nat j))) /\ reads r l end).
Proof.
  destruct s as [[i a] r]. intros (done & rest & Ers & Ei & Ha & Hr). unfold clen_step. assert (Hi0 : 0 <= i) by (rewrite Ei; apply zlen_nonneg).
  destruct rest as [|q rest].
  { rewrite app_nil_r in Ers. subst done. rewrite <- Ei, Z.ltb_irrefl. cbn [andb]. by apply wp_Done. }
  assert (Hq : run_ok q /\ coded_in NT t (run_sym q)). { rewrite Ers in runs. apply Forall_app in runs as [_ H]. by inversion H. }
  destruct Hq as [Hq Hcq]. assert (Etot : zlen (concat (map run_lens rs)) = i + zlen (run_lens q) + zlen (concat (map run_lens rest))).
  { rewrite Ers, map_app, concat_app, zlen_app. cbn [map concat]. rewrite zlen_app. lia. }
  pose proof (zlen_nonneg (concat (map run_lens rest))). assert (Hlq : 1 <= zlen (run_lens q)).
  { destruct q; cbn [run_ok run_lens] in *; unfold zlen; rewrite ?length_replicate; cbn [length]; lia. }
  rewrite (proj2 (Z.ltb_lt i _)), (proj2 (Z.ltb_lt i NC)) by lia. cbn [andb map concat] in *. rewrite <- app_assoc in Hr. unfold run_bits in Hr at 1. rewrite <- app_assoc in Hr.
  apply wp_bind. eapply wp_mono; [exact (get_symbol_spec _ _ _ _ _ _ _ NT t (run_sym q) r _ extra Hcq Hr)|]. cbn beta. intros [v r1] [-> Hr1].
  assert (Hzeros : forall r', reads r' (concat (map (run_bits t) rest) ++ l) -> run_lens q = replicate (Z.to_nat (zlen (run_lens q))) 0 ->
    wp ('(Index, mCLen) ← zero_run NC (zlen (run_lens q)) i a; Done (inl (Index, mCLen, r') : _ + _)) (fun p => match p with
      | inl s' => clen_inv s' /\ i < fst (fst s') /\ i < NC
      | inr (i, a, r) => i = zlen (concat (map run_lens rs)) /\ (forall j : nat, Z.of_nat j < i -> concat (map run_lens rs) !! j = Some (a (Z.of_nat j))) /\ reads r l end)).
  { intros r' Hr' Eq. change NC with 510 in *. apply wp_bind. eapply wp_mono; [apply zero_run_fills; lia|]. cbn beta. intros [i' a'] [-> Ha']. apply wp_Done. cbn [fst]. split; [|lia].
    apply (clen_next i a a' r' done q rest); try done.
    - intros j Hj. rewrite Ha'. by rewrite (proj2 (Z.leb_gt i j)) by lia.
    - intros j v Hj. pose proof (lookup_lt_Some _ _ _ Hj) as Hlt. rewrite Eq in Hj. apply lookup_replicate in Hj as [-> _]. rewrite Ha'.
      by rewrite (proj2 (Z.leb_le i (i + Z.of_nat j))), (proj2 (Z.ltb_lt (i + Z.of_nat j) (i + zlen (run_lens q)))) by (unfold zlen in *; lia). }
  cbn [fst] in *. destruct q as [v| |n|n]; cbn [run_sym run_ok] in *.
  - rewrite (proj2 (Z.leb_gt (v + 2) 2)) by lia. wps. replace (v + 2 - 2) with v by lia. rewrite u8_small by (unfold is_u8; lia). cbn [fst]. split; [|lia].
    apply (clen_next i a (upd a i v) r1 done (RLen v) rest); try done.
    + intros j Hj. by apply upd_ne; lia.
    + intros j w Hj. cbn [run_lens] in Hj. apply list_lookup_singleton_Some in Hj as [-> <-]. by rewrite Z.add_0_r, upd_eq.
  - change (0 <=? 2) with true. change (0 =? 0) with true. cbv iota. rewrite bind_Done. by apply Hzeros.
  - change (1 <=? 2) with true. change (1 =? 0) with false. change (1 =? 1) with true. cbv iota.
    apply wp_bind. apply wp_bind. eapply wp_mono; [apply (GetBits_spec r1 4 (n - 3) _ Hr1); lia|]. cbn beta. intros [o r2] [-> Hr2]. apply wp_Done. cbv iota beta.
    assert (En : zlen (run_lens (RShort n)) = n) by (cbn [run_lens]; unfold zlen; rewrite length_replicate; lia).
    replace (n - 3 + 3) with (zlen (run_lens (RShort n))) by lia. rewrite u16_small by (unfold is_u16; lia). apply Hzeros; [done|]. by rewrite En.
  - change (2 <=? 2) with true. change (2 =? 0) with false. change (2 =? 1) with false. cbv iota. unfold CBIT in *.
    apply wp_bind. apply wp_bind. eapply wp_mono; [apply (GetBits_spec r1 9 (n - 20) _ Hr1); lia|]. cbn beta. intros [o r2] [-> Hr2]. apply wp_Done. cbv iota beta.
    assert (En : zlen (run_lens (RLong n)) = n) by (cbn [run_lens]; unfold zlen; rewrite length_replicate; lia).
    replace (n - 20 + 20) with (zlen (run_lens (RLong n))) by lia. rewrite u16_small by (unfold is_u16; lia). apply Hzeros; [done|]. by rewrite En.
Qed.

Lemma clen_loop a r : reads r (concat (map (run_bits t) rs) ++ l) ->
  wp (loop (Z.to_nat (NC + 1)) (clen_step (zlen (concat (map run_lens rs))) tb) (0, a, r)) (fun '(i, a, r) =>
    i = zlen (concat (map run_lens rs)) /\ (forall j : nat, Z.of_nat j < i -> concat (map run_lens rs) !! j = Some (a (Z.of_nat j))) /\ reads r l).
Proof.
  intros Hr. apply (wp_loop clen_inv (fun s => Z.to_nat (NC - fst (fst s)))).
  - intros s Hs. eapply wp_mono; [by apply (clen_step_spec s)|]. cbn beta.
    intros [s'|q] H; [destruct H as (H1 & H2 & H3); split; [done|lia]|exact H].
  - exists [], rs. split; [done|]. split; [done|]. split; [lia|done].
  - cbn [fst]. change NC with 510. lia.
Qed.
End clen.

(** The characters' code is in the tables. *)
Definition c_ready (c : code) (tb : tables) : Prop :=
  match c with
  | One s => 0 <= s < NC /\ tb_mCLen tb s = 0 /\ forall i, 0 <= i < 4096 -> tb_mCTable tb i = s
  | Code len => complete NC len /\ (forall s, 0 <= s < NC -> tb_mCLen tb s = len s) /\
      decodes NC (tb_mCLen tb) 12 (mkTree (tb_mCTable tb) (tb_mLeft tb) (tb_mRight tb))
  end.

Lemma c_ready_gives c tb : c_ready c tb -> gives NC 12 4096 (tb_mCTable tb) tb NC (tb_mCLen tb) NC c.
Proof.
  assert (EN : NC = 510) by done. destruct c as [s|len]; cbn [c_ready].
  - intros (Hs & Hl & Ht). apply gives_one; [lia|done|done|lia|lia|done|done].
  - intros (Hc & Hs & Hd). apply (gives_code NC NC 12); [lia|lia|lia|lia|done| | |done].
    + apply (complete_ext NC NC len); [lia|done|lia|done].
    + intros s Hs'. split; [apply Hs; lia|]. apply canon_ext; [lia|done|lia|done].
Qed.

Lemma c_ready_frame c tb tb' nn : nn <= NPT -> pt_frame nn tb tb' -> c_ready c tb -> c_ready c tb'.
Proof.
  unfold NPT, MAXNP. intros Hn (El & Et & Hf). assert (EN : NC = 510) by done. destruct c as [s|len]; cbn [c_ready]; rewrite El, Et; [done|]. intros (Hc & Hs & Hd). split; [done|]. split; [done|].
  intros s w Hs' Hw. destruct (Hd s w Hs' Hw) as [H1 H2]. split; [exact H1|]. intros Hl Ew. eapply leads_frame; [|exact (H2 Hl Ew)].
  intros i Hi. cbn [tr_Left tr_Right]. apply Hf. lia.
Qed.

Lemma ReadCLen_spec t c rs tb r l : code_ok NC c -> runs_ok t c rs -> gives NT 8 256 (tb_mPTTable tb) tb NPT (tb_mPTLen tb) NT t -> reads r (char_header t c rs ++ l) ->
  wp (ReadCLen tb r) (fun '(tb', r') => reads r' l /\ c_ready c tb').
Proof.
  assert (EN : NC = 510) by done. intros Hc Hrs Ht Hr. unfold ReadCLen, CBIT. destruct c as [s|len]; cbn [char_header runs_ok code_ok] in *; rewrite <- app_assoc in Hr.
  - apply wp_bind. eapply wp_mono; [apply (GetBits_spec r 9 0 _ Hr); lia|]. cbn beta. intros [o r1] [-> Hr1]. change (u16 0 =? 0) with true. cbv iota zeta.
    apply wp_bind. eapply wp_mono; [apply (GetBits_spec r1 9 s _ Hr1); lia|]. cbn beta. intros [o r2] [-> Hr2].
    rewrite u16_small by (unfold is_u16; lia). apply wp_Done. split; [done|]. cbn [c_ready tb_mCLen tb_mCTable]. split; [done|]. split; [by apply afill_in; lia|].
    intros i Hi. by rewrite afill_in.
  - pose proof (complete_trimmed NC len ltac:(lia) Hc) as Hne. pose proof (trimmed_le len (Z.to_nat NC)) as Hle. destruct Hrs as [Hf Eall].
    set (n := Z.of_nat (trimmed len (Z.to_nat NC))) in *. assert (Hn : 0 < n <= 510) by lia.
    assert (Etot : zlen (concat (map run_lens rs)) = n) by (rewrite Eall; unfold zlen; rewrite length_entries; done).
    apply wp_bind. eapply wp_mono; [apply (GetBits_spec r 9 n _ Hr); lia|]. cbn beta. intros [o r1] [-> Hr1].
    rewrite u16_small by (unfold is_u16; lia). rewrite (proj2 (Z.eqb_neq n 0)) by lia. cbv zeta. rewrite <- Etot.
    apply wp_bind. eapply wp_mono; [apply (clen_loop t rs tb l Hf Ht); [lia|exact Hr1]|]. cbn beta. intros [[i a] r2] (Ei & Ha & Hr2). cbv beta iota.
    rewrite Etot in Ei. set (a2 := afill i NC (fun _ => 0) a). destruct (trimmed_zero len (Z.to_nat NC)) as [Hz _]. fold n in Hz. rewrite Z2Nat.id in Hz by lia.
    assert (Ha2 : forall j, 0 <= j < NC -> a2 j = len j).
    { intros j Hj. unfold a2. destruct (Z.lt_ge_cases j i) as [Hji|Hji].
      - rewrite afill_out by lia. pose proof (Ha (Z.to_nat j) ltac:(lia)) as H. rewrite Eall, lookup_entries in H by lia. rewrite Z2Nat.id in H by lia. by injection H.
      - rewrite afill_in by lia. symmetry. apply Hz. lia. }
    assert (Hc2 : complete NC a2) by (apply (complete_ext NC NC len); done || lia).
    apply wp_bind. eapply wp_mono; [apply (MakeTable_spec NC a2 Hc2); (change (2 ^ 12) with 4096; lia) || lia|].
    cbn beta. intros [f t'] (_ & Hd & _). apply wp_Done. split; [done|]. cbn [c_ready tb_mCLen tb_mCTable tb_mLeft tb_mRight]. split; [done|]. split; [done|]. by destruct t'.
Qed.

(** ** Positions *)
Definition p_ready (p : code) (tb : tables) : Prop := gives MAXNP 8 256 (tb_mPTTable tb) tb NPT (tb_mPTLen tb) NP p.

Lemma pos_sym_value pos : 0 <= pos < WNDSIZ ->
  let s := pos_sym pos in 0 <= s <= 19 /\ if 1 <? s then pos = 2 ^ (s - 1) + pos mod 2 ^ (s - 1) else pos = s.
Proof.
  intros Hp. unfold pos_sym. cbv zeta. destruct (Z.eqb_spec pos 0) as [->|Hne]; [done|]. change WNDSIZ with (2 ^ 19) in Hp.
  pose proof (Z.log2_nonneg pos). pose proof (Z.log2_spec pos ltac:(lia)) as Hlog. assert (Z.log2 pos < 19) by (apply Z.log2_lt_pow2; lia).
  split; [lia|]. replace (Z.log2 pos + 1 - 1) with (Z.log2 pos) by lia. destruct (Z.ltb_spec 1 (Z.log2 pos + 1)).
  - rewrite Z.pow_succ_r in Hlog by lia. rewrite (Z.mod_eq pos (2 ^ Z.log2 pos)) by lia.
    replace (pos / 2 ^ Z.log2 pos) with 1; [lia|]. apply (Z.div_unique _ _ _ (pos - 2 ^ Z.log2 pos)); lia.
  - assert (E : Z.log2 pos = 0) by lia. rewrite E in *. cbn in Hlog. lia.
Qed.

Lemma DecodeP_spec p tb r pos l : p_ready p tb -> coded_in NP p (pos_sym pos) -> 0 <= pos < WNDSIZ -> reads r (pos_bits p pos ++ l) ->
  wp (DecodeP tb r) (fun '(v, r') => v = pos /\ reads r' l).
Proof.
  intros Hp Hc Hpos Hr. unfold DecodeP. destruct (pos_sym_value pos Hpos) as [Hs Hv]. set (s := pos_sym pos) in *. unfold pos_bits in Hr. fold s in Hr. rewrite <- app_assoc in Hr.
  apply wp_bind. eapply wp_mono; [exact (get_symbol_spec _ _ _ _ _ _ _ NP p s r _ Hp Hc Hr)|]. cbn beta. intros [v r1] [-> Hr1]. cbv beta iota.
  destruct (Z.ltb_spec 1 s) as [H1|H1].
  - rewrite u16_small by (unfold is_u16; lia). pose proof (Z.mod_pos_bound pos (2 ^ (s - 1)) ltac:(lia)) as Hm.
    apply wp_bind. eapply wp_mono; [apply (GetBits_spec r1 (s - 1) (pos mod 2 ^ (s - 1)) _ Hr1); lia|]. cbn beta. intros [o r2] [-> Hr2]. apply wp_Done. split; [|done].
    change WNDSIZ with 524288 in Hpos. pose proof (Z.pow_le_mono_r 2 (s - 1) 18 ltac:(lia) ltac:(lia)).
    rewrite Z.shiftl_1_l, (u32_small (2 ^ (s - 1))) by (unfold is_u32; lia). rewrite <- Hv. apply u32_small. unfold is_u32. lia.
  - apply wp_Done. by split.
Qed.

(** ** Copying *)

(** What is written replaces the beginning of the destination [d0]. *)
Definition over (o d0 : list Z) : list Z := o ++ drop (length o) d0.

Lemma over_zlen o d0 : zlen o <= zlen d0 -> zlen (over o d0) = zlen d0.
Proof. intros H. unfold over, zlen in *. rewrite length_app, length_drop. lia. Qed.

Lemma over_get o d0 i c : o !! Z.to_nat i = Some c -> 0 <= i -> rd8 (over o d0) i = Done c.
Proof.
  intros H Hi. unfold rd8, arr_get. rewrite (proj2 (Z.leb_le 0 i)) by done. unfold over. rewrite lookup_app_l by (by apply lookup_lt_Some in H). by rewrite H.
Qed.

Lemma over_put o d0 c : zlen o < zlen d0 -> is_u8 c -> wr8 (over o d0) (zlen o) c = Done (over (o ++ [c]) d0).
Proof.
  intros H Hc. unfold wr8, wrn. rewrite over_zlen by lia. change (zlen [u8 c]) with 1. rewrite (proj2 (Z.leb_le 0 (zlen o))), (proj2 (Z.leb_le (zlen o + 1) (zlen d0))) by (pose proof (zlen_nonneg o); lia).
  cbn [andb]. rewrite u8_small by done. f_equal. unfold over, zlen in *. rewrite Nat2Z.id, length_app, <- app_assoc. cbn [length].
  rewrite take_app_length. do 2 f_equal. rewrite drop_app_ge by lia. rewrite drop_drop. f_equal. lia.
Qed.

Lemma copy_loop n pos : forall o o' d0 size fuel, copy_back n pos o = Some o' -> Forall is_u8 o -> 0 <= pos < zlen o -> zlen o < size -> zlen o' <= size -> size <= zlen d0 ->
  size < 2 ^ 32 -> Z.of_nat n < 2 ^ 15 -> (n < fuel)%nat ->
  wp (loop fuel (copy_step size) (over o d0, zlen o, zlen o - pos - 1, u16 (Z.of_nat n - 1))) (fun '(d, i, fin) => d = over o' d0 /\ i = zlen o' /\ fin = (size <=? zlen o') /\ Forall is_u8 o').
Proof.
  induction n as [|n IH]; intros o o' d0 size fuel Hcb Ho Hpos Hlt Hle Hd Hs Hn Hf; (destruct fuel as [|fuel]; [lia|]); cbn [loop copy_back] in *; apply wp_bind; unfold copy_step.
  - injection Hcb as ->. change (u16 (Z.of_nat 0 - 1) <? 2 ^ 15) with false. cbv iota. do 2 apply wp_Done. rewrite (proj2 (Z.leb_gt size (zlen o'))) by lia. done.
  - destruct (o !! Z.to_nat (zlen o - pos - 1)) as [c|] eqn:Ec; [|done]. cbn in Hcb. pose proof (Forall_lookup_1 _ _ _ _ Ho Ec) as Hc.
    pose proof (copy_back_length _ _ _ _ Hcb) as Hlen. rewrite length_app in Hlen. cbn [length] in Hlen. assert (Hz : zlen o' = zlen o + 1 + Z.of_nat n) by (unfold zlen; lia).
    rewrite u16_small by (unfold is_u16; lia). rewrite (proj2 (Z.ltb_lt _ (2 ^ 15))) by lia. rewrite (over_get o d0 _ c Ec), bind_Done, over_put, bind_Done by done || lia.
    rewrite u32_small by (unfold is_u32; lia). cbv zeta. assert (Ez : zlen (o ++ [c]) = zlen o + 1) by (rewrite zlen_app; done).
    assert (Ho' : Forall is_u8 (o ++ [c])) by (apply Forall_app; split; [done|by constructor]).
    destruct (Z.leb_spec size (zlen o + 1)) as [Hend|Hgo]; apply wp_Done.
    + assert (n = O) as -> by lia. injection Hcb as <-. apply wp_Done. split; [done|]. split; [done|]. split; [|done]. symmetry. apply Z.leb_le. lia.
    + rewrite u32_small by (unfold is_u32; lia). replace (zlen o - pos - 1 + 1) with (zlen (o ++ [c]) - pos - 1) by lia. rewrite <- Ez.
      replace (Z.of_nat (S n) - 1 - 1) with (Z.of_nat n - 1) by lia. fold (copy_step size). apply IH; done || lia.
Qed.

(** ** Blocks *)

(** The rest of a block, the blocks after it, and zeros. *)
Record input_at (sd : scratch) (c p : code) (ts : list token) (bs : list block) : Prop := mkInputAt {
  ia_bits : exists z, reads (sd_in sd) (concat (map (token_bits c p) ts) ++ stream_bits bs ++ replicate z false);
  ia_size : sd_mBlockSize sd = zlen ts /\ zlen ts < 2 ^ 16;
  ia_flag : sd_mBadTableFlag sd = 0;
  ia_pbit : sd_mPBit sd = 5;
  ia_ready : ts <> [] -> c_ready c (sd_tables sd) /\ p_ready p (sd_tables sd);
  ia_coded : Forall (token_coded c p) ts;
  ia_blocks : Forall block_ok bs }.

Definition same_out (sd sd' : scratch) : Prop :=
  sd_mDstBase sd' = sd_mDstBase sd /\ sd_mOutBuf sd' = sd_mOutBuf sd /\ sd_mOrigSize sd' = sd_mOrigSize sd.

Lemma read_header_spec sd b l : block_ok b -> sd_mPBit sd = 5 -> reads (sd_in sd) (block_bits b ++ l) ->
  wp (read_header sd) (fun '(sd', bad) => bad = false /\ same_out sd sd' /\ sd_mPBit sd' = 5 /\ sd_mBadTableFlag sd' = 0 /\
    sd_mBlockSize sd' = zlen (b_tokens b) /\ c_ready (b_char b) (sd_tables sd') /\ p_ready (b_pos b) (sd_tables sd') /\
    reads (sd_in sd') (concat (map (token_bits (b_char b) (b_pos b)) (b_tokens b)) ++ l)).
Proof.
  intros (Hz & He & Hc & Hp & Hrs & _) H5 Hr. unfold block_bits in Hr. rewrite <- !app_assoc in Hr. unfold read_header. pose proof (zlen_nonneg (b_tokens b)).
  apply wp_bind. eapply wp_mono; [apply (GetBits_spec (sd_in sd) 16 (zlen (b_tokens b)) _ Hr); lia|]. cbn beta. intros [o r1] [-> Hr1]. cbv zeta.
  rewrite u16_small by (unfold is_u16; lia). change TBIT with 5. apply wp_bind. eapply wp_mono; [apply (ReadPTLen_spec NT NT true _ r1 (b_extra b) _ ltac:(done) ltac:(done) He Hr1)|].
  cbn beta. intros [[f tb1] r2] (-> & Hr2 & Hg & _). cbv beta iota. change (0 =? 0) with true. cbn [negb].
  apply wp_bind. eapply wp_mono; [apply (ReadCLen_spec (b_extra b) (b_char b) (b_runs b) tb1 r2 _ Hc Hrs Hg Hr2)|]. cbn beta. intros [tb2 r3] [Hr3 Hcr]. cbv beta iota.
  rewrite H5. apply wp_bind. eapply wp_mono; [apply (ReadPTLen_spec NP MAXNP false tb2 r3 (b_pos b) _ ltac:(done) ltac:(done) Hp Hr3)|].
  cbn beta. intros [[f tb3] r4] (-> & Hr4 & Hg4 & Hfr). apply wp_Done. split; [done|]. split; [done|]. cbn [with_header sd_mPBit sd_mBadTableFlag sd_mBlockSize sd_tables sd_in].
  split; [done|]. split; [done|]. split; [done|]. split; [by apply (c_ready_frame _ tb2 tb3 MAXNP)|]. split; [done|]. done.
Qed.

(** A block of no tokens, all zeros, as behind the end of the stream. *)
Definition no_block : block := mkBlock (One 0) (One 0) (One 0) [] [].
Lemma no_block_ok : block_ok no_block.
Proof. split; [done|]. do 3 (split; [done|]). split; [by split|]. constructor. Qed.
Lemma no_block_bits : block_bits no_block = replicate 54 false.
Proof. by vm_compute. Qed.

Lemma reads_zeros r z k : reads r (replicate z false) -> reads r (replicate k false).
Proof. intros [Hr H]. split; [done|]. intros i. by rewrite H, !bit_zeros. Qed.

(** The next symbol of a block. *)
Lemma DecodeC_in sd c p t ts bs : input_at sd c p (t :: ts) bs ->
  wp (DecodeC sd) (fun '(ch, sd') => ch = char_sym t /\ exists r z, sd' = with_header sd r (sd_tables sd) (zlen ts) 0 /\
    reads r (match t with Lit _ => [] | Ptr _ pos => pos_bits p pos end ++ concat (map (token_bits c p) ts) ++ stream_bits bs ++ replicate z false)).
Proof.
  intros [[z Hr] [Hs Hs16] Hf H5 Hrd Hcd Hb]. destruct (Hrd ltac:(done)) as [Hc Hp]. unfold DecodeC. rewrite Hs, zlen_cons in *. pose proof (zlen_nonneg ts).
  rewrite (proj2 (Z.eqb_neq (1 + zlen ts) 0)) by lia. rewrite bind_Done. cbv beta iota zeta. replace (1 + zlen ts - 1) with (zlen ts) by lia.
  inversion Hcd as [|? ? (Ht & Htc & _) _]; subst. cbn [map concat] in Hr. rewrite <- app_assoc in Hr. unfold token_bits in Hr at 1. rewrite <- app_assoc in Hr.
  apply wp_bind. eapply wp_mono; [exact (get_symbol_spec _ _ _ _ _ _ _ NC c (char_sym t) (sd_in sd) _ (c_ready_gives _ _ Hc) Htc Hr)|].
  cbn beta. intros [v r1] [-> Hr1]. apply wp_Done. split; [done|]. exists r1, z. rewrite Hs, Hf. replace (1 + zlen ts - 1) with (zlen ts) by lia. rewrite u16_small by (unfold is_u16; lia). done.
Qed.

(** ** The data *)
Section decode.
Context (x d0 : list Z).
Hypothesis x_fits : zlen x <= zlen d0.
Hypothesis x_size : zlen x < 2 ^ 32.

Definition dec_inv (sd : scratch) : Prop :=
  exists c p ts bs o, input_at sd c p ts bs /\ Forall (fun b => b_tokens b <> []) bs /\
    expand o (ts ++ stream_tokens bs) = Some x /\ Forall is_u8 o /\
    sd_mDstBase sd = over o d0 /\ sd_mOutBuf sd = zlen o /\ sd_mOrigSize sd = zlen x.

Definition decoded (sd : scratch) : Prop := sd_mBadTableFlag sd = 0 /\ sd_mDstBase sd = over x d0.

Lemma coded_tokens_ok c p ts : Forall (token_coded c p) ts -> Forall token_ok ts.
Proof. intros H. eapply Forall_impl; [exact H|]. by intros t [Ht _]. Qed.

Lemma blocks_tokens_ok bs : Forall block_ok bs -> Forall token_ok (stream_tokens bs).
Proof.
  unfold stream_tokens. induction 1 as [|b bs Hb _ IH]; cbn [map concat]; [constructor|]. apply Forall_app. split; [|done].
  destruct Hb as (_ & _ & _ & _ & _ & Ht). by eapply coded_tokens_ok.
Qed.

(** A round within a block. *)
Lemma decode_in sd c p t ts bs o : input_at sd c p (t :: ts) bs -> Forall (fun b => b_tokens b <> []) bs ->
  expand o (t :: ts ++ stream_tokens bs) = Some x -> Forall is_u8 o ->
  sd_mDstBase sd = over o d0 -> sd_mOutBuf sd = zlen o -> sd_mOrigSize sd = zlen x ->
  wp (decode_step sd) (fun q => match q with inl sd' => dec_inv sd' /\ zlen o < sd_mOutBuf sd' | inr sd' => decoded sd' end).
Proof.
  intros Hin Hne Hx Ho Ed Ei Es. pose proof Hin as [_ [_ Hs16] Hf H5 Hrd Hcd Hb]. destruct (Hrd ltac:(done)) as [Hc Hp].
  inversion Hcd as [|? ? Ht Hcd']; subst. pose proof Ht as (Htok & _ & Htp). rewrite zlen_cons in Hs16. pose proof (zlen_nonneg o) as Ho0.
  cbn [expand] in Hx. destruct (expand_token o t) as [o'|] eqn:Eo; [|done]. cbn in Hx.
  assert (Hlen : zlen o' <= zlen x).
  { pose proof (expand_length (ts ++ stream_tokens bs) ltac:(apply Forall_app; split; [by eapply coded_tokens_ok|by apply blocks_tokens_ok]) o' x Hx). unfold zlen. lia. }
  unfold decode_step. apply wp_bind. eapply wp_mono; [by apply (DecodeC_in sd c p t ts bs)|]. cbn beta. intros [ch sd'] (-> & r & z & -> & Hr). cbv beta iota.
  cbn [with_header sd_mBadTableFlag sd_mOrigSize sd_mOutBuf sd_mDstBase sd_in sd_tables]. change (0 =? 0) with true. cbn [negb]. rewrite Ed, Ei, Es.
  assert (Hnext : forall r' d i, d = over o' d0 -> i = zlen o' -> Forall is_u8 o' -> reads r' (concat (map (token_bits c p) ts) ++ stream_bits bs ++ replicate z false) ->
    dec_inv (with_out (with_in (with_header sd r (sd_tables sd) (zlen ts) 0) r') d i)).
  { intros r' d i -> -> Ho' Hr'. exists c, p, ts, bs, o'. split.
    - split; cbn; [by exists z|split; [done|lia]|done|done|done|done|done].
    - split; [done|]. split; [done|]. split; [done|]. cbn. done. }
  destruct t as [ch|len pos]; cbn [char_sym expand_token token_ok] in *.
  - injection Eo as <-. assert (Ez : zlen (o ++ [ch]) = zlen o + 1) by (rewrite zlen_app; done). unfold is_u8 in Htok. rewrite (proj2 (Z.ltb_lt ch 256)) by lia.
    rewrite (proj2 (Z.leb_gt (zlen x) (zlen o))) by lia. rewrite u8_small by (unfold is_u8; lia). rewrite over_put, bind_Done by (unfold is_u8; lia).
    apply wp_Done. rewrite u32_small by (unfold is_u32; lia). rewrite <- Ez. split; [|cbn; lia]. apply (Hnext r); [done|done| |done].
    apply Forall_app. split; [done|]. by constructor.
  - destruct (Z.ltb_spec pos (zlen o)) as [Hpos|]; [|done]. pose proof (copy_back_length _ _ _ _ Eo) as Hcl. destruct Htok as [Hl Hp0].
    change THRESHOLD with 3 in *. change MAXMATCH with 256 in *. change UINT8_MAX with 255 in *.
    assert (Ez : zlen o' = zlen o + len) by (unfold zlen; lia). rewrite (proj2 (Z.ltb_ge (len + (255 + 1 - 3)) 256)) by lia.
    apply wp_bind. eapply wp_mono; [exact (DecodeP_spec p (sd_tables sd) r pos _ Hp Htp Hp0 Hr)|]. cbn beta. intros [v r2] [-> Hr2]. cbv beta iota zeta.
    replace (len + (255 + 1 - 3) - (256 - 3)) with len by lia. rewrite (u16_small len) by (unfold is_u16; lia). rewrite (u32_small (zlen o - pos - 1)) by (unfold is_u32; lia).
    apply wp_bind. eapply wp_mono; [replace (len - 1) with (Z.of_nat (Z.to_nat len) - 1) by lia; apply (copy_loop (Z.to_nat len) pos o o' d0 (zlen x)); done || lia|].
    cbn beta. intros [[d i] fin] (-> & -> & -> & Ho'). cbv beta iota. destruct (Z.leb_spec (zlen x) (zlen o')) as [Hfin|Hgo]; apply wp_Done.
    + split; [done|]. cbn. assert (Exo : x = o'); [|by rewrite Exo].
      assert (Enil : ts ++ stream_tokens bs = []).
      { pose proof (expand_length (ts ++ stream_tokens bs) ltac:(apply Forall_app; split; [by eapply coded_tokens_ok|by apply blocks_tokens_ok]) o' x Hx) as Hk.
        unfold zlen in Hfin. destruct (ts ++ stream_tokens bs); [done|]. cbn [length] in Hk. lia. }
      rewrite Enil in Hx. cbn in Hx. by injection Hx.
    + split; [|cbn; lia]. by apply (Hnext r2).
Qed.

Lemma input_length sd c p ts bs o : input_at sd c p ts bs -> expand o (ts ++ stream_tokens bs) = Some x -> zlen o <= zlen x.
Proof.
  intros Hin Hx. pose proof (coded_tokens_ok _ _ _ (ia_coded _ _ _ _ _ Hin)). pose proof (blocks_tokens_ok _ (ia_blocks _ _ _ _ _ Hin)).
  pose proof (expand_length (ts ++ stream_tokens bs) ltac:(by apply Forall_app) o x Hx). unfold zlen. lia.
Qed.

Lemma decode_enter sd sd' : sd_mBlockSize sd = 0 -> read_header sd = Done (sd', false) -> sd_mBlockSize sd' <> 0 -> decode_step sd = decode_step sd'.
Proof.
  intros E0 Eh Hne. unfold decode_step. assert (E : DecodeC sd = DecodeC sd'); [|by rewrite E]. unfold DecodeC.
  rewrite E0. change (0 =? 0) with true. cbv iota. rewrite Eh, bind_Done. cbv iota beta. rewrite (proj2 (Z.eqb_neq (sd_mBlockSize sd') 0) Hne). by rewrite bind_Done.
Qed.

(** Behind the last block: the data is complete. *)
Lemma decode_end sd c p : input_at sd c p [] [] -> sd_mDstBase sd = over x d0 -> sd_mOutBuf sd = zlen x -> sd_mOrigSize sd = zlen x ->
  wp (decode_step sd) (fun q => match q with inl _ => False | inr sd' => decoded sd' end).
Proof.
  intros [[z Hr] [Hs _] Hf H5 _ _ _] Ed Ei Es. cbn [map concat app stream_bits] in Hr. apply (reads_zeros _ z (54 + 54)) in Hr.
  rewrite replicate_add in Hr. assert (Hr' : reads (sd_in sd) (block_bits no_block ++ replicate 54 false)) by (by rewrite no_block_bits).
  unfold decode_step, DecodeC. rewrite Hs. change (zlen (@nil token) =? 0) with true. cbv iota. apply wp_bind. apply wp_bind.
  eapply wp_mono; [apply (read_header_spec sd no_block _ no_block_ok H5 Hr')|]. cbn beta. intros [sd' bad] (-> & (Ed' & Ei' & Es') & _ & Hf' & Hb' & Hc & _ & Hr2). cbv beta iota zeta.
  cbn [b_tokens no_block map concat app] in Hr2.
  apply wp_bind. eapply wp_mono; [exact (get_symbol_spec _ _ _ _ _ _ _ NC (One 0) 0 (sd_in sd') _ (c_ready_gives _ _ Hc) eq_refl Hr2)|].
  cbn beta. intros [v r1] [-> _]. apply wp_Done. cbv beta iota. cbn [with_header sd_mBadTableFlag sd_mOrigSize sd_mOutBuf sd_mDstBase]. rewrite Hf', Es', Ei', Es, Ei.
  change (0 =? 0) with true. change (0 <? 256) with true. cbn [negb]. rewrite Z.leb_refl. apply wp_Done. split; [done|]. cbn. by rewrite Ed'.
Qed.

Lemma decode_step_spec sd : dec_inv sd ->
  wp (decode_step sd) (fun q => match q with inl sd' => dec_inv sd' /\ sd_mOutBuf sd < sd_mOutBuf sd' <= zlen x | inr sd' => decoded sd' end).
Proof.
  intros (c & p & ts & bs & o & Hin & Hne & Hx & Ho & Ed & Ei & Es).
  assert (Hle : forall sd', dec_inv sd' -> sd_mOutBuf sd' <= zlen x).
  { intros sd' (c' & p' & ts' & bs' & o' & Hin' & _ & Hx' & _ & _ & -> & _).
    exact (input_length _ _ _ _ _ _ Hin' Hx'). }
  assert (Hres : forall q, match q with inl sd' => dec_inv sd' /\ zlen o < sd_mOutBuf sd' | inr sd' => decoded sd' end ->
    match q with inl sd' => dec_inv sd' /\ sd_mOutBuf sd < sd_mOutBuf sd' <= zlen x | inr sd' => decoded sd' end).
  { intros [sd'|sd'] Hq; [|done]. destruct Hq as [Hd Hlt]. split; [done|]. split; [lia|by apply Hle]. }
  destruct ts as [|t ts]; [destruct bs as [|b bs]|].
  - cbn in Hx. injection Hx as ->. eapply wp_mono; [by apply (decode_end sd c p)|]. by intros [sd'|sd'].
  - destruct Hin as [[z Hr] [Hs _] Hf H5 _ _ Hbs]. inversion Hbs as [|? ? Hb Hbs']; subst. inversion Hne as [|? ? Hbn Hne']; subst.
    cbn [map concat app] in Hr. unfold stream_bits in Hr. cbn [map concat] in Hr. rewrite <- app_assoc in Hr.
    pose proof (read_header_spec sd b _ Hb H5 Hr) as (q & Eq & Hq)%wp_elim. destruct q as [sd' bad]. destruct Hq as (-> & (Ed' & Ei' & Es') & H5' & Hf' & Hs' & Hc & Hp & Hr').
    destruct (b_tokens b) as [|t ts] eqn:Et; [done|]. rewrite (decode_enter sd sd' Hs Eq) by (rewrite Hs', zlen_cons; pose proof (zlen_nonneg ts); lia).
    eapply wp_mono; [|exact Hres]. apply (decode_in sd' (b_char b) (b_pos b) t ts bs o); try done.
    + split; [by exists z| |done|done|done| |done]; [split; [done|]|]; destruct Hb as (Hsz & _ & _ & _ & _ & Htk); rewrite Et in *; done.
    + unfold stream_tokens in Hx. cbn [map concat app] in Hx. by rewrite Et in Hx.
    + by rewrite Ed'.
    + by rewrite Ei'.
    + by rewrite Es'.
  - eapply wp_mono; [|exact Hres]. by apply (decode_in sd c p t ts bs o).
Qed.

Lemma Decode_spec sd : dec_inv sd -> wp (Decode sd) decoded.
Proof.
  intros H. unfold Decode. pose proof H as (c & p & ts & bs & o & _ & _ & _ & _ & _ & Ei & Es). rewrite Es.
  apply (wp_loop (fun sd => dec_inv sd /\ sd_mOutBuf sd <= zlen x) (fun sd => Z.to_nat (zlen x - sd_mOutBuf sd))).
  - intros s [Hs Hle]. eapply wp_mono; [by apply decode_step_spec|]. cbn beta. intros [s'|s'] Hs'; [|done]. destruct Hs' as [Hd Hlt]. split; [split; [done|lia]|lia].
  - split; [done|]. destruct H as (c' & p' & ts' & bs' & o' & Hin' & _ & Hx' & _ & _ & Eo & _).
    rewrite Eo. exact (input_length _ _ _ _ _ _ Hin' Hx').
  - pose proof (zlen_nonneg o). pose proof (zlen_nonneg x). rewrite Ei. lia.
Qed.
End decode.
