(* ===== verification/TianoDecompress.v ===== *)
(** * The decompressor

    Models the entry points of [BaseUefiTianoCustomDecompressLib.c]. What they
    are given in the compressed format they return as it was, so they undo
    [TianoCompress]; so do the handlers of the sections that hold compressed
    data. *)

From S2P Require Import Prelude CArray BitStream TianoHuff TianoFormat TianoBlock TianoSlide TianoCompress TianoReader TianoTable TianoDecode.

(** ** Sizes *)

(** [Scratch] is the size of [SCRATCH_DATA], which depends on the compiler.
    What is stored are the sizes of the data and of the scratch buffer. *)
Definition UefiDecompressGetInfo (Scratch : Z) (Source : list Z) (SourceSize : Z) : Res (EFI_STATUS * option (Z * Z)) :=
  if SourceSize <? 8 then Done (EFI_INVALID_PARAMETER, None)
  else
    CompressedSize ← rd32 Source 0;
    if SourceSize <? u32 (CompressedSize + 8) then Done (EFI_INVALID_PARAMETER, None)
    else DestinationSize ← rd32 Source 4; Done (EFI_SUCCESS, Some (DestinationSize, Scratch)).

(** ** Decompression *)

(** [mPBit]; another version is an [ASSERT] and leaves the zero. *)
Definition position_bits (Version : Z) : Z := if Version =? 1 then 4 else if Version =? 2 then 5 else 0.

Definition UefiTianoDecompress (Source Destination : list Z) (Version : Z) : Res (EFI_STATUS * list Z) :=
  CompSize ← rd32 Source 0; OrigSize ← rd32 Source 4;
  if OrigSize =? 0 then Done (EFI_SUCCESS, Destination)
  else
    let zeros := fun _ : Z => 0 in
    r ← FillBuf BITBUFSIZ (mkReader (drop 8 Source) 0 CompSize 0 0 0);
    sd ← Decode (mkScratch r (mkTables zeros zeros zeros zeros zeros zeros) 0 0 Destination 0 OrigSize (position_bits Version));
    if negb (sd_mBadTableFlag sd =? 0) then Done (EFI_INVALID_PARAMETER, sd_mDstBase sd) else Done (EFI_SUCCESS, sd_mDstBase sd).

Definition UefiDecompress (Source Destination : list Z) : Res (EFI_STATUS * list Z) := UefiTianoDecompress Source Destination 1.

(** ** Sections *)

(** [gTianoCustomDecompressGuid]. *)
Definition TIANO_CUSTOM_DECOMPRESS_GUID : list Z :=
  le_bytes 4 0xA31280AD ++ le_bytes 2 0x481E ++ le_bytes 2 0x41B6 ++ [0x95; 0xE8; 0x12; 0x7F; 0x4C; 0x98; 0x47; 0x79].

Definition SECTION_SIZE (s : list Z) : Res Z := v ← rd32 s 0; Done (Z.land v 0x00ffffff).
Definition IS_SECTION2 (s : list Z) : Res bool := v ← SECTION_SIZE s; Done (v =? 0x00ffffff).
Definition SECTION2_SIZE (s : list Z) : Res Z := rd32 s 4.

(** The GUID of [EFI_GUID_DEFINED_SECTION] or [EFI_GUID_DEFINED_SECTION2],
    and the place of [DataOffset]; [Attributes] comes after it. *)
Definition section_guid (two : bool) : Z := if two then 8 else 4.
Definition section_offset (two : bool) : Z := section_guid two + 16.

(** [InputSection] may be [NULL]. [SectionAttribute] is stored first. *)
Definition TianoDecompressGetInfo (Scratch : Z) (InputSection : option (list Z)) : Res (EFI_STATUS * option Z * option (Z * Z)) :=
  match InputSection with
  | None => Done (EFI_INVALID_PARAMETER, None, None)
  | Some s =>
      two ← IS_SECTION2 s;
      g ← rdn s (section_guid two) 16;
      if bool_decide (g = TIANO_CUSTOM_DECOMPRESS_GUID) then
        a ← rd16 s (section_offset two + 2);
        off ← rd16 s (section_offset two);
        size ← (if two : bool then SECTION2_SIZE s else SECTION_SIZE s);
        '(st, sizes) ← UefiDecompressGetInfo Scratch (drop (Z.to_nat off) s) (u32 (size - off));
        Done (st, Some a, sizes)
      else Done (EFI_INVALID_PARAMETER, None, None)
  end.

(** [AuthenticationStatus] is set to zero when the GUID is the right one. *)
Definition TianoDecompress (s OutputBuffer : list Z) : Res (EFI_STATUS * list Z * option Z) :=
  two ← IS_SECTION2 s;
  g ← rdn s (section_guid two) 16;
  if bool_decide (g = TIANO_CUSTOM_DECOMPRESS_GUID) then
    off ← rd16 s (section_offset two);
    '(st, d) ← UefiTianoDecompress (drop (Z.to_nat off) s) OutputBuffer 2;
    Done (st, d, Some 0)
  else Done (EFI_INVALID_PARAMETER, OutputBuffer, None).

(** ** The bits of the bytes *)
Lemma bits_pack n : forall l, length l = (8 * n)%nat -> concat (map (bits 8) (pack l)) = l.
Proof.
  induction n as [|n IH]; intros l H; [destruct l; [done|discriminate H]|]. apply split8 in H as (a & k & -> & Ha & Hk). rewrite pack_cons by done. cbn [map concat].
  rewrite IH by done. f_equal. rewrite <- Ha at 1. apply bits_bval.
Qed.

Lemma pack_bytes n : forall l, length l = (8 * n)%nat -> bytes_ok (pack l).
Proof.
  induction n as [|n IH]; intros l H; [destruct l; [constructor|discriminate H]|]. apply split8 in H as (a & k & -> & Ha & Hk). rewrite pack_cons by done.
  constructor; [|by apply IH]. pose proof (bval_range a) as Hr. unfold zlen in Hr. rewrite Ha in Hr. exact Hr.
Qed.

Lemma falses l : Forall (fun b : bool => b = false) l -> l = replicate (length l) false.
Proof. induction 1 as [|b l -> _ IH]; [done|]. cbn [length replicate]. by rewrite <- IH. Qed.

(** A compressed buffer, with whatever follows it. *)
Lemma compressed_sizes x c t : compressed x c -> zlen x < 2 ^ 32 -> zlen c < 2 ^ 32 -> exists n data,
  c = le_bytes 4 n ++ le_bytes 4 (zlen x) ++ data /\ n = zlen data /\ bytes_ok data /\ zlen c = 8 + n /\
  rd32 (c ++ t) 0 = Done n /\ rd32 (c ++ t) 4 = Done (zlen x) /\ drop 8 (c ++ t) = data ++ t.
Proof.
  intros (bs & pad & _ & _ & _ & _ & _ & (k & Hk) & E) Hx Hc. set (data := pack (stream_bits bs ++ pad) ++ [0]) in *. exists (zlen data), data. cbv zeta in E.
  assert (Hz : zlen c = 8 + zlen data) by (rewrite E, !zlen_app; unfold zlen; rewrite !length_le_bytes; lia).
  pose proof (zlen_nonneg data). pose proof (zlen_nonneg x). split; [done|]. split; [done|]. split.
  { apply Forall_app. split; [by apply (pack_bytes k)|]. by constructor. }
  split; [done|]. rewrite E, <- !app_assoc. split; [|split].
  - unfold rd32. rewrite (rdn_as _ [] (le_bytes 4 (zlen data)) (le_bytes 4 (zlen x) ++ data ++ t)) by done. rewrite bind_Done. f_equal. apply le_val_4. unfold is_u32. lia.
  - unfold rd32. rewrite (rdn_as _ (le_bytes 4 (zlen data)) (le_bytes 4 (zlen x)) (data ++ t)) by done. rewrite bind_Done. f_equal. apply le_val_4. unfold is_u32. lia.
  - done.
Qed.

(** ** The entry point *)
Lemma UefiTianoDecompress_spec x c t d0 : compressed x c -> bytes_ok t -> zlen x < 2 ^ 32 -> zlen c < 2 ^ 32 -> zlen x <= zlen d0 ->
  wp (UefiTianoDecompress (c ++ t) d0 2) (fun r => r = (EFI_SUCCESS, x ++ drop (length x) d0)) /\ bytes_ok c.
Proof.
  intros Hcx Ht Hx Hc Hd. pose proof (compressed_sizes x c t Hcx Hx Hc) as (n & data & Ec & En & Hb & Hz & R0 & R4 & Ed).
  split; [|rewrite Ec; do 2 (apply Forall_app; split; [apply le_bytes_ok|]); done].
  unfold UefiTianoDecompress. rewrite R0, bind_Done, R4, bind_Done, Ed. destruct (Z.eqb_spec (zlen x) 0) as [E0|E0].
  { apply wp_Done. destruct x; [done|]. rewrite zlen_cons in E0. pose proof (zlen_nonneg x). lia. }
  cbv zeta. destruct Hcx as (bs & pad & Hbs & Hne & Hex & Hp & Hpad & (k & Hk) & E).
  assert (Exne : x <> []) by (intros E'; apply E0; by rewrite E'). specialize (Hne Exne).
  assert (Edata : data = pack (stream_bits bs ++ pad) ++ [0]).
  { rewrite Ec in E. apply (f_equal (drop 8)) in E. cbn [le_bytes app drop] in E. exact E. }
  apply wp_bind. apply (wp_mono _ (fun r => reads r (stream_bits bs ++ replicate (length pad + 8) false))).
  { eapply wp_mono; [apply (reads_start (data ++ t) n)|].
    - by apply Forall_app.
    - rewrite zlen_app, En. pose proof (zlen_nonneg data). pose proof (zlen_nonneg t). lia.
    - cbn beta. intros r Hr. rewrite En in Hr. unfold zlen in Hr. rewrite Nat2Z.id, take_app_length, Edata, map_app, concat_app, (bits_pack k) in Hr by done.
      rewrite replicate_add, <- (falses pad Hpad), app_assoc. exact Hr. }
  intros r Hr. apply wp_bind. eapply wp_mono; [apply (Decode_spec x d0 Hd Hx)|].
  - exists (One 0), (One 0), [], bs, []. split; [split; [by exists (length pad + 8)%nat|done|done|done|done|constructor|done]|]. split; [done|]. split; [done|]. split; [constructor|done].
  - cbn beta. intros sd [Hf Ho]. rewrite Hf. change (0 =? 0) with true. cbn [negb]. rewrite Ho. by apply wp_Done.
Qed.

Lemma GetInfo_spec Scratch x c t n : compressed x c -> zlen x < 2 ^ 32 -> zlen c < 2 ^ 32 -> zlen c <= n ->
  UefiDecompressGetInfo Scratch (c ++ t) n = Done (EFI_SUCCESS, Some (zlen x, Scratch)).
Proof.
  intros Hcx Hx Hc Hn. destruct (compressed_sizes x c t Hcx Hx Hc) as (m & data & _ & Em & _ & Hz & R0 & R4 & _).
  unfold UefiDecompressGetInfo. pose proof (zlen_nonneg data). rewrite (proj2 (Z.ltb_ge n 8)) by lia. rewrite R0, bind_Done.
  rewrite u32_small by (unfold is_u32; lia). rewrite (proj2 (Z.ltb_ge n (m + 8))) by lia. by rewrite R4.
Qed.

(** C9: (refinement) The decompressor implements the format: given a buffer in
    the compressed format, with any bytes behind it, and a destination that is
    large enough, [UefiTianoDecompress] with the version of Tiano's algorithm
    returns success, and the data the buffer stands for is at the beginning of
    the destination, whose rest is unchanged. *)
Theorem UefiTianoDecompress_correct x c t d0 : compressed x c -> bytes_ok t -> zlen x < 2 ^ 32 -> zlen c < 2 ^ 32 -> zlen x <= zlen d0 ->
  UefiTianoDecompress (c ++ t) d0 2 = Done (EFI_SUCCESS, x ++ drop (length x) d0).
Proof.
  intros Hcx Ht Hx Hc Hd. destruct (UefiTianoDecompress_spec x c t d0 Hcx Ht Hx Hc Hd) as [H _].
  by apply wp_elim in H as (r & E & ->).
Qed.

(** Two equal bytes: a block with one character, of no bits. *)
Definition demo_block : block := mkBlock (One 0) (One 65) (One 0) [] [Lit 65; Lit 65].
Definition demo_data : list Z := pack (stream_bits [demo_block] ++ [false; false]) ++ [0].
Definition demo_compressed : list Z := le_bytes 4 (zlen demo_data) ++ le_bytes 4 2 ++ demo_data.

Lemma demo_compressed_ok : compressed [65; 65] demo_compressed.
Proof.
  exists [demo_block], [false; false]. split; [constructor; [|constructor]|].
  - split; [done|]. do 3 (split; [done|]). split; [by split|]. by repeat constructor.
  - split; [by repeat constructor|]. split; [done|]. split; [cbn; lia|]. split; [by repeat constructor|]. split; [by exists 7%nat|done].
Qed.

Lemma UefiTianoDecompress_correct_witness :
  UefiTianoDecompress (demo_compressed ++ [1; 2; 3]) [0; 0; 9] 2 = Done (EFI_SUCCESS, [65; 65; 9]).
Proof. apply (UefiTianoDecompress_correct [65; 65] demo_compressed [1; 2; 3] [0; 0; 9] demo_compressed_ok); [by repeat constructor|done|done|done]. Defined.

(** ** What [TianoCompress] wrote *)

(** What a successful call leaves: a stream of the data's, which the decompressor takes. *)
Lemma TianoCompress_success MemCpy Start0 MatchPos0 table p g x b0 r : granted p -> bytes_ok x -> zlen x <= WNDSIZ - 2 ->
  TianoCompress MemCpy Start0 MatchPos0 table p g x b0 = Done r -> r_status r = EFI_SUCCESS ->
  exists c, compressed x c /\ bytes_ok c /\ zlen c = r_DstSize r /\ 9 <= zlen c < 2 ^ 32 /\ zlen c <= zlen b0 /\ zlen (r_dst r) = zlen b0 /\
    take (Z.to_nat (r_DstSize r)) (r_dst r) = c.
Proof.
  intros Hg Hx Hn Er Hs. pose proof (TianoCompress_spec MemCpy Start0 MatchPos0 table p g x b0 Hg Hx Hn) as H. rewrite Er in H.
  destruct H as (q & _ & Hz & _ & Hr). change WNDSIZ with 524288 in Hn. destruct q as [[size b]|]; [|destruct Hr as [Hr _]; congruence].
  destruct Hr as (c & Hcx & Hsz & Ed & Est & Et). exists c. rewrite Hs in Est. destruct (Z.leb_spec (zlen c) (zlen b0)) as [Hle|]; [|done].
  assert (H32 : zlen c < 2 ^ 32) by lia.
  destruct (compressed_sizes x c [] Hcx ltac:(lia) H32) as (m & data & Ec & Em & Hb & Hzc & _). destruct Hcx as (bs & pad & H1 & H2 & H3 & H4 & H5 & H6 & E).
  split; [by exists bs, pad|]. split; [rewrite Ec; do 2 (apply Forall_app; split; [apply le_bytes_ok|]); done|]. split; [done|]. split.
  - split; [|done]. cbv zeta in E. rewrite E, !zlen_app, !zlen_le_bytes. change (zlen [0]) with 1. pose proof (zlen_nonneg (pack (stream_bits bs ++ pad))). lia.
  - split; [done|]. split; [done|]. rewrite Ed. unfold zlen in *. rewrite Nat2Z.id, Et. apply take_ge. lia.
Qed.

(** C6: (roundtrip) Compression is undone: for data of at most 524286 bytes and
    with its tables allocated, [TianoCompress] returns; it succeeds when one of
    the fourteen sizes of the buffer of symbols is granted and the destination
    has 1682 bytes for each byte and 1688 more. Of what it wrote on success [UefiDecompressGetInfo]
    tells the size of the data, and [UefiTianoDecompress] returns the data in a
    buffer of that size. *)
Theorem TianoCompress_decompresses MemCpy Start0 MatchPos0 table p g x b0 : granted p -> bytes_ok x -> zlen x <= WNDSIZ - 2 ->
  exists r, TianoCompress MemCpy Start0 MatchPos0 table p g x b0 = Done r /\
    ((exists size, In size buffer_sizes /\ p_buf p size <> None) -> 1682 * zlen x + 1688 <= zlen b0 -> r_status r = EFI_SUCCESS) /\
    (r_status r = EFI_SUCCESS ->
      let s := take (Z.to_nat (r_DstSize r)) (r_dst r) in
      (forall Scratch, UefiDecompressGetInfo Scratch s (r_DstSize r) = Done (EFI_SUCCESS, Some (zlen x, Scratch))) /\
      forall d0, zlen d0 = zlen x -> UefiTianoDecompress s d0 2 = Done (EFI_SUCCESS, x)).
Proof.
  intros Hg Hx Hn. pose proof (TianoCompress_spec MemCpy Start0 MatchPos0 table p g x b0 Hg Hx Hn) as H.
  apply wp_elim in H as (r & E & q & Eq & _ & _ & Hr). exists r. split; [done|]. split.
  - intros (n & Hi & Hp) Hl. rewrite get_buf_eq in Eq. apply Done_inj in Eq.
    destruct q as [[size b]|]; [|by destruct Hp; apply (first_granted_none p buffer_sizes)].
    destruct Hr as (c & _ & Hsz & _ & -> & _). pose proof (zlen_nonneg x). by rewrite (proj2 (Z.leb_le (zlen c) (zlen b0))) by lia.
  - intros Hs. destruct (TianoCompress_success _ _ _ _ _ _ _ _ r Hg Hx Hn E Hs) as (c & Hcx & _ & <- & Hc & _ & _ & Et). rewrite Et.
    change WNDSIZ with 524288 in Hn. rewrite <- (app_nil_r c). split.
    + intros Scratch. apply GetInfo_spec; [done|lia|lia|rewrite app_nil_r; lia].
    + intros d0 Hd. destruct (UefiTianoDecompress_spec x c [] d0 Hcx ltac:(constructor) ltac:(lia) ltac:(lia) ltac:(lia)) as [H1 _].
      apply wp_elim in H1 as (v & Ev & ->). rewrite Ev, drop_ge, app_nil_r by (unfold zlen in Hd; lia). done.
Qed.

Lemma TianoCompress_decompresses_witness :
  let z := fun _ : Z => 0 in let u := fun i : Z => i mod 251 in
  let p := mkPools (Some u) (Some u) (Some u) (Some u) (Some u) (Some u) (Some u) (fun n => if n <? 10000 then Some u else None) in
  let g := mkHuf (mkSym z z z) z z z z (mkTrees z z z z) (mkSink [] 0 0 0 0) z 0 0 0 in
  let x := [65; 66; 65; 66; 65; 66] in
  exists r, TianoCompress (fun t _ _ _ => t) 7 9 z p g x (replicate (Z.to_nat 12000) 0) = Done r /\ r_status r = EFI_SUCCESS /\
    UefiTianoDecompress (take (Z.to_nat (r_DstSize r)) (r_dst r)) [1; 2; 3; 4; 5; 6] 2 = Done (EFI_SUCCESS, x).
Proof.
  intros z u p g x. destruct (TianoCompress_decompresses (fun t _ _ _ => t) 7 9 z p g x (replicate (Z.to_nat 12000) 0)) as (r & E & Hs & Hd).
  - repeat split; by eexists.
  - repeat constructor; done.
  - done.
  - exists r. split; [exact E|]. assert (Hst : r_status r = EFI_SUCCESS).
    { apply Hs; [exists 9657; split; [cbn; auto 10|done]|]. assert (E1 : zlen (replicate (Z.to_nat 12000) 0) = 12000) by (unfold zlen; rewrite length_replicate, Z2Nat.id by lia; done).
      rewrite E1. change (zlen x) with 6. lia. }
    split; [exact Hst|]. by apply (Hd Hst).
Defined.

(** ** Sections *)

(** A section of either kind that holds [c]: [two] and the size are what its
    header says, [t] is behind the data. *)
Record holds (s : list Z) (two : bool) (size attr off : Z) (c t : list Z) : Prop := mkHolds {
  ho_kind : IS_SECTION2 s = Done two;
  ho_guid : rdn s (section_guid two) 16 = Done TIANO_CUSTOM_DECOMPRESS_GUID;
  ho_size : (if two then SECTION2_SIZE s else SECTION_SIZE s) = Done size;
  ho_attr : rd16 s (section_offset two + 2) = Done attr;
  ho_off : rd16 s (section_offset two) = Done off;
  ho_data : drop (Z.to_nat off) s = c ++ t;
  ho_fits : 0 <= off /\ off + zlen c <= size < 2 ^ 32 }.

(** The handlers of compressed sections, for sections with a
    24-bit and with an extended size: [TianoDecompressGetInfo] tells the
    attributes, the size of the data and of the scratch buffer, and
    [TianoDecompress] returns the data in a buffer of that size, with the
    authentication status zero. *)
Theorem TianoDecompress_section Scratch s two size attr off x c t d0 : holds s two size attr off c t -> compressed x c -> bytes_ok t ->
  zlen x < 2 ^ 32 -> zlen d0 = zlen x ->
  TianoDecompressGetInfo Scratch (Some s) = Done (EFI_SUCCESS, Some attr, Some (zlen x, Scratch)) /\
  TianoDecompress s d0 = Done (EFI_SUCCESS, x, Some 0).
Proof.
  intros [Hk Hg Hs Ha Ho Hd [H0 Hf]] Hcx Ht Hx Hd0. pose proof (zlen_nonneg c). split.
  - unfold TianoDecompressGetInfo. rewrite Hk, bind_Done, Hg, bind_Done, bool_decide_true by done. rewrite Ha, bind_Done, Ho, bind_Done, Hs, bind_Done, Hd.
    rewrite u32_small by (unfold is_u32; lia). by rewrite (GetInfo_spec Scratch x c t) by (done || lia).
  - unfold TianoDecompress. rewrite Hk, bind_Done, Hg, bind_Done, bool_decide_true by done. rewrite Ho, bind_Done, Hd.
    destruct (UefiTianoDecompress_spec x c t d0 Hcx Ht Hx ltac:(lia) ltac:(lia)) as [H1 _]. apply wp_elim in H1 as (v & Ev & ->).
    rewrite Ev, bind_Done, drop_ge, app_nil_r by (unfold zlen in Hd0; lia). done.
Qed.

Definition demo_section : list Z :=
  le_bytes 3 60 ++ [2] ++ TIANO_CUSTOM_DECOMPRESS_GUID ++ le_bytes 2 24 ++ le_bytes 2 1 ++ demo_compressed.

Lemma TianoDecompress_section_witness :
  TianoDecompressGetInfo 13376 (Some demo_section) = Done (EFI_SUCCESS, Some 1, Some (2, 13376)) /\
  TianoDecompress demo_section [0; 0] = Done (EFI_SUCCESS, [65; 65], Some 0).
Proof.
  apply (TianoDecompress_section 13376 demo_section false 60 1 24 [65; 65] demo_compressed []); [|exact demo_compressed_ok|constructor|done|done].
  split; vm_compute; split || done; done.
Defined.

(** ** Errors *)

(** A section with another GUID is refused, with [EFI_INVALID_PARAMETER]. *)
Lemma other_guid_refused Scratch s d0 two g : IS_SECTION2 s = Done two -> rdn s (section_guid two) 16 = Done g -> g <> TIANO_CUSTOM_DECOMPRESS_GUID ->
  TianoDecompressGetInfo Scratch (Some s) = Done (EFI_INVALID_PARAMETER, None, None) /\ TianoDecompress s d0 = Done (EFI_INVALID_PARAMETER, d0, None).
Proof.
  intros Hk Hg Hne. unfold TianoDecompressGetInfo, TianoDecompress. rewrite Hk, !bind_Done, Hg, !bind_Done, bool_decide_false by done. done.
Qed.

(** The sum of the size and the header wraps: a source of eight bytes that
    claims to have four gigabytes of data passes the test. *)
Lemma GetInfo_wraps Scratch : UefiDecompressGetInfo Scratch (le_bytes 4 0xFFFFFFF8 ++ le_bytes 4 7) 8 = Done (EFI_SUCCESS, Some (7, Scratch)).
Proof. by vm_compute. Qed.

(** A length above 16 in the header of a block counts outside of [Count]. *)
Definition long_length : list Z :=
  let data := pack (bits 16 1 ++ bits 5 1 ++ bits 17 (2 ^ 17 - 2) ++ replicate 34 false) in
  le_bytes 4 (zlen data) ++ le_bytes 4 1 ++ data.
Lemma long_length_faults : UefiTianoDecompress long_length [0] 2 = Fault.
Proof. by vm_compute. Qed.

(** What [MakeTable] returns for the characters is dropped: a set of lengths
    that leaves codes unused is not refused, the data comes out of a table
    that was never made. *)
Definition unused_codes : list Z :=
  let data := pack (bits 16 1 ++ bits 5 0 ++ bits 5 3 ++ bits 9 1 ++ bits 5 0 ++ bits 5 0 ++ replicate 35 false) in
  le_bytes 4 (zlen data) ++ le_bytes 4 1 ++ data.
Lemma unused_codes_accepted : UefiTianoDecompress unused_codes [9] 2 = Done (EFI_SUCCESS, [0]).
Proof. by vm_compute. Qed.
