(* ===== verification/Chain.v ===== *)
(** * Linked chains in a heap

    The LSI RAID driver keeps its tables as NULL-terminated lists of pool
    nodes: the hash buckets of variables and of question items, the list of
    cards, the driver's stack. A heap maps addresses to nodes, address 0 is
    NULL, and the link of a node is given by [next]/[set_next], so that the
    lemmas serve every node type (and both links of a variable node).

    The loops below are the ones the driver repeats: walk to the last node
    ([GetPNextStartAddr]), append after the last node, search, release. *)

From S2P Require Import Prelude.

(** Dereference: NULL and released nodes are faults. *)
Definition deref {N} (h : gmap Z N) (p : Z) : Res N :=
  match h !! p with Some n => Done n | None => Fault end.

Lemma deref_at {N} (h : gmap Z N) p n : h !! p = Some n -> deref h p = Done n.
Proof. unfold deref. by intros ->. Qed.

(** The first address of a list whose node satisfies a test. *)
Definition first_at {N} (h : gmap Z N) (f : N -> bool) (ps : list Z) : option Z :=
  List.find (fun q => match h !! q with Some n => f n | None => false end) ps.

Section chain.
Context {N : Type} (next : N -> Z) (set_next : Z -> N -> N).

(** [lseg h p ps q]: following the links from [p] visits [ps] and arrives at
    [q]. *)
Fixpoint lseg (h : gmap Z N) (p : Z) (ps : list Z) (q : Z) : Prop :=
  match ps with
  | [] => p = q
  | r :: rs => p = r /\ r <> 0 /\ exists n, h !! r = Some n /\ lseg h (next n) rs q
  end.

Definition chain (h : gmap Z N) (p : Z) (ps : list Z) : Prop := lseg h p ps 0.

(** [do { if (!p->next) { p->next = v; break; } } while (p = p->next)] *)
Fixpoint chain_append (fuel : nat) (h : gmap Z N) (p v : Z) : Res (gmap Z N) :=
  match fuel with
  | O => NoFuel
  | S k =>
      n ← deref h p;
      if next n =? 0 then Done (<[p := set_next v n]> h)
      else chain_append k h (next n) v
  end.

(** [while (p) { n = p; p = p->next; if (test n) break; }] *)
Fixpoint chain_find (fuel : nat) (h : gmap Z N) (p : Z) (f : N -> bool) : Res (option Z) :=
  match fuel with
  | O => NoFuel
  | S k =>
      if p =? 0 then Done None else
      n ← deref h p;
      if f n then Done (Some p) else chain_find k h (next n) f
  end.

(** [for (p = Start; Start && p->next; p = p->next);] *)
Fixpoint GetPNextStartAddr (fuel : nat) (h : gmap Z N) (p : Z) : Res Z :=
  match fuel with
  | O => NoFuel
  | S k =>
      if p =? 0 then Done 0 else
      n ← deref h p;
      if next n =? 0 then Done p else GetPNextStartAddr k h (next n)
  end.

(** ** Segments *)
Lemma lseg_app h p xs ys q :
  lseg h p (xs ++ ys) q <-> exists r, lseg h p xs r /\ lseg h r ys q.
Proof.
  revert p. induction xs as [|x xs IH]; intros p; cbn.
  - split; [intros H; by exists p|intros (r & -> & H); done].
  - setoid_rewrite IH. split.
    + intros (-> & ? & n & ? & r & ? & ?). eauto 10.
    + intros (r & (-> & ? & n & ? & ?) & ?). eauto 10.
Qed.

Lemma lseg_frame h h' p ps q :
  (forall x n, x ∈ ps -> h !! x = Some n ->
     exists n', h' !! x = Some n' /\ next n' = next n) ->
  lseg h p ps q -> lseg h' p ps q.
Proof.
  revert p. induction ps as [|x ps IH]; intros p Hf H; cbn in *; [done|].
  destruct H as (-> & Hx & n & Hn & H).
  destruct (Hf x n) as (n' & Hn' & E); [by left|done|].
  split_and!; [done..|]. exists n'. split; [done|]. rewrite E.
  apply IH; [|done]. intros y m Hy. apply Hf. by right.
Qed.

Lemma lseg_insert_ne h p ps q x n :
  x ∉ ps -> lseg h p ps q -> lseg (<[x := n]> h) p ps q.
Proof.
  intros Hx. apply lseg_frame. intros y m Hy Hm. exists m.
  rewrite lookup_insert_ne; [done|]. by intros ->.
Qed.

Lemma lseg_delete_ne h p ps q x :
  x ∉ ps -> lseg h p ps q -> lseg (delete x h) p ps q.
Proof.
  intros Hx. apply lseg_frame. intros y m Hy Hm. exists m.
  rewrite lookup_delete_ne; [done|]. by intros ->.
Qed.

Lemma lseg_in h p ps q x : lseg h p ps q -> x ∈ ps -> x <> 0 /\ is_Some (h !! x).
Proof.
  revert p. induction ps as [|y ps IH]; intros p H Hx; [by apply not_elem_of_nil in Hx|].
  destruct H as (-> & Hy & n & Hn & H).
  apply elem_of_cons in Hx as [->|Hx]; [by eauto|by eapply IH].
Qed.

Lemma lseg_snoc_nonzero h p ps x : lseg h p (ps ++ [x]) 0 -> p <> 0.
Proof. destruct ps; cbn; intros (-> & ? & _); done. Qed.

(** ** Chains *)
Lemma chain_det h p ps qs : chain h p ps -> chain h p qs -> ps = qs.
Proof.
  unfold chain. revert p qs. induction ps as [|x ps IH]; intros p [|y qs] H K; cbn in *.
  - done.
  - destruct K as (-> & ? & _). congruence.
  - destruct H as (-> & ? & _). congruence.
  - destruct H as (-> & _ & n & Hn & H), K as (-> & _ & m & Hm & K).
    simplify_eq. f_equal. by eapply IH.
Qed.

Lemma chain_nodup h p ps : chain h p ps -> NoDup ps.
Proof.
  revert p. induction ps as [|x ps IH]; intros p H; [constructor|].
  pose proof H as (-> & Hx & n & Hn & Ht). constructor; [|by eapply IH].
  intros (l & r & ->)%list_elem_of_split.
  apply lseg_app in Ht as (y & _ & Hr). pose proof Hr as (-> & _).
  pose proof (chain_det _ _ _ _ H Hr) as E. apply (f_equal length) in E.
  rewrite !length_cons, length_app, length_cons in E. lia.
Qed.

Lemma chain_size h p ps : chain h p ps -> (length ps <= size h)%nat.
Proof.
  intros H. rewrite <- size_dom.
  rewrite <- (size_list_to_set (C := gset Z) ps) by (by eapply chain_nodup).
  apply subseteq_size. intros x Hx%elem_of_list_to_set.
  apply elem_of_dom. by eapply lseg_in.
Qed.

Lemma chain_head h p x ps : chain h p (x :: ps) -> p = x /\ p <> 0.
Proof. intros (-> & ? & _). done. Qed.

Lemma chain_nil h ps : chain h 0 ps -> ps = [].
Proof. intros H. by eapply chain_det; [exact H|]. Qed.

Lemma chain_find_spec fuel h p f ps :
  chain h p ps -> (length ps < fuel)%nat -> chain_find fuel h p f = Done (first_at h f ps).
Proof.
  unfold chain, first_at. revert p ps. induction fuel as [|k IH]; intros p ps H Hf; [lia|].
  destruct ps as [|x ps]; cbn in *; [by subst|].
  destruct H as (-> & Hx & n & Hn & H). rewrite (proj2 (Z.eqb_neq x 0) Hx).
  rewrite (deref_at _ _ _ Hn), bind_Done, Hn. destruct (f n); [done|].
  apply IH; [done|lia].
Qed.

Lemma GetPNextStartAddr_spec fuel h p ps x :
  chain h p (ps ++ [x]) -> (length ps < fuel)%nat -> GetPNextStartAddr fuel h p = Done x.
Proof.
  unfold chain. revert p ps. induction fuel as [|k IH]; intros p ps H Hf; [lia|].
  destruct ps as [|y ps]; cbn in *.
  - destruct H as (-> & Hx & n & Hn & E). rewrite (proj2 (Z.eqb_neq x 0) Hx).
    by rewrite (deref_at _ _ _ Hn), bind_Done, E.
  - destruct H as (-> & Hx & n & Hn & H). rewrite (proj2 (Z.eqb_neq y 0) Hx).
    rewrite (deref_at _ _ _ Hn), bind_Done.
    pose proof (lseg_snoc_nonzero _ _ _ _ H) as Hz.
    rewrite (proj2 (Z.eqb_neq _ 0) Hz). apply (IH _ ps); [done|lia].
Qed.

Lemma chain_append_spec fuel h p ps x n v :
  chain h p (ps ++ [x]) -> h !! x = Some n -> (length ps < fuel)%nat ->
  chain_append fuel h p v = Done (<[x := set_next v n]> h).
Proof.
  unfold chain. revert p ps. induction fuel as [|k IH]; intros p ps H Hn Hf; [lia|].
  destruct ps as [|y ps]; cbn in *.
  - destruct H as (-> & Hx & m & Hm & E). rewrite Hn in Hm. injection Hm as <-.
    by rewrite (deref_at _ _ _ Hn), bind_Done, E.
  - destruct H as (-> & Hx & m & Hm & H). rewrite (deref_at _ _ _ Hm), bind_Done.
    pose proof (lseg_snoc_nonzero _ _ _ _ H) as Hz.
    rewrite (proj2 (Z.eqb_neq _ 0) Hz). apply (IH _ ps); [done..|lia].
Qed.

Context (next_set : forall p n, next (set_next p n) = p).

Lemma chain_extend h p ps x n v nv :
  chain h p (ps ++ [x]) -> h !! x = Some n -> v <> 0 -> v ∉ ps ++ [x] ->
  h !! v = Some nv -> next nv = 0 ->
  chain (<[x := set_next v n]> h) p ((ps ++ [x]) ++ [v]).
Proof using next_set.
  intros H Hn Hv Hin Hnv Hz. pose proof (chain_nodup _ _ _ H) as Hd.
  apply NoDup_app in Hd as (_ & Hd & _). rewrite not_elem_of_app in Hin.
  destruct Hin as [Hin Hvx]. rewrite list_elem_of_singleton in Hvx.
  apply lseg_app in H as (r & H & Hx). destruct Hx as (-> & Hx & m & Hm & E). rewrite Hn in Hm. injection Hm as <-.
  unfold chain. rewrite <- app_assoc, lseg_app. exists x. split.
  - apply lseg_insert_ne; [|done]. intros Hx'. apply (Hd x Hx'). by left.
  - cbn. split_and!; [done..|]. exists (set_next v n).
    rewrite lookup_insert_eq. split; [done|]. rewrite next_set.
    split_and!; [done..|]. exists nv. by rewrite lookup_insert_ne.
Qed.

(** A node that links to itself: a search that arrives there does not end. *)
Lemma chain_find_trap fuel h p ps x n f :
  lseg h p ps x -> x <> 0 -> h !! x = Some n -> next n = x -> f n = false ->
  (forall q m, q ∈ ps -> h !! q = Some m -> f m = false) ->
  chain_find fuel h p f = NoFuel.
Proof.
  revert p ps. induction fuel as [|k IH]; intros p ps H Hx Hn E Ef Hf; [done|].
  destruct ps as [|y ps]; cbn in *.
  - subst p. rewrite (proj2 (Z.eqb_neq x 0) Hx), (deref_at _ _ _ Hn), bind_Done, Ef, E.
    by apply (IH x []).
  - destruct H as (-> & Hy & m & Hm & H).
    rewrite (proj2 (Z.eqb_neq y 0) Hy), (deref_at _ _ _ Hm), bind_Done.
    rewrite (Hf y m); [|by left|done]. apply (IH _ ps); try done.
    intros q l Hq. apply Hf. by right.
Qed.

End chain.

(** ** Hash tables of chains

    A table is an array of chain heads; [ps] lists the addresses of its nodes
    in the order of insertion, and the chain of a bucket is the sublist of
    the nodes that hash to it. *)
Definition in_bucket {N} (hash : N -> Z) (h : gmap Z N) (i q : Z) : bool :=
  match h !! q with Some n => hash n =? i | None => false end.

Definition bucket {N} (hash : N -> Z) (h : gmap Z N) (i : Z) (ps : list Z) : list Z :=
  List.filter (in_bucket hash h i) ps.

(** Two heaps that agree on a projection of their nodes. *)
Definition same {N X} (g : N -> X) (h h' : gmap Z N) : Prop :=
  forall q, g <$> h' !! q = g <$> h !! q.

Lemma same_trans {N X} (g : N -> X) h1 h2 h3 : same g h1 h2 -> same g h2 h3 -> same g h1 h3.
Proof. intros H K q. by rewrite K. Qed.

Lemma same_at {N X} (g : N -> X) h h' q n :
  same g h h' -> h !! q = Some n -> exists n', h' !! q = Some n' /\ g n' = g n.
Proof.
  intros H Hn. specialize (H q). rewrite Hn in H.
  destruct (h' !! q) as [n'|]; cbn in H; [|done]. injection H as H. eauto.
Qed.

Lemma filter_ext_in {A} (f g : A -> bool) l :
  (forall x, x ∈ l -> f x = g x) -> List.filter f l = List.filter g l.
Proof.
  induction l as [|x l IH]; intros H; cbn; [done|].
  rewrite (H x) by (by left). rewrite IH; [done|]. intros y Hy. apply H. by right.
Qed.

Lemma filter_none {A} (f : A -> bool) l : (forall x, x ∈ l -> f x = false) -> List.filter f l = [].
Proof.
  induction l as [|x l IH]; intros H; cbn; [done|].
  rewrite (H x) by (by left). apply IH. intros y Hy. apply H. by right.
Qed.

Lemma filter_in {A} (f : A -> bool) l x : x ∈ List.filter f l <-> x ∈ l /\ f x = true.
Proof. rewrite !list_elem_of_In. apply List.filter_In. Qed.

Lemma filter_length_le {A} (f : A -> bool) l : (length (List.filter f l) <= length l)%nat.
Proof. induction l as [|x l IH]; cbn; [done|]. destruct (f x); cbn; lia. Qed.

Lemma find_filter {A} (f g : A -> bool) l :
  (forall x, x ∈ l -> f x = true -> g x = true) -> List.find f (List.filter g l) = List.find f l.
Proof.
  induction l as [|x l IH]; intros H; cbn; [done|].
  rewrite <- IH by (intros y Hy; apply H; by right).
  destruct (f x) eqn:Ef.
  - rewrite (H x) by (by left || done). cbn. by rewrite Ef.
  - destruct (g x); cbn; [by rewrite Ef|done].
Qed.

Lemma first_at_bucket {N} (hash : N -> Z) h f i ps :
  (forall n, f n = true -> hash n = i) ->
  first_at h f (bucket hash h i ps) = first_at h f ps.
Proof.
  intros H. apply find_filter. intros q _. unfold in_bucket.
  destruct (h !! q) as [n|]; [|done]. intros E%H. by apply Z.eqb_eq.
Qed.

Section buckets.
Context {N : Type} (next : N -> Z) (set_next : Z -> N -> N) (hash : N -> Z).

Definition bucketed (h : gmap Z N) (t : list Z) (ps : list Z) : Prop :=
  forall i p, t !! i = Some p -> chain next h p (bucket hash h (Z.of_nat i) ps).

(** Append to bucket [i]: the head when it is empty, else after the last node. *)
Definition bucket_add (fuel : nat) (h : gmap Z N) (t : list Z) (i v : Z)
    : Res (gmap Z N * list Z) :=
  p ← arr_get t i;
  if p =? 0 then t' ← arr_set t i v; Done (h, t')
  else h' ← chain_append next set_next fuel h p v; Done (h', t).

Lemma bucketed_frame h h' t ps :
  (forall q, q ∈ ps -> next <$> h' !! q = next <$> h !! q) ->
  (forall q, q ∈ ps -> hash <$> h' !! q = hash <$> h !! q) ->
  bucketed h t ps -> bucketed h' t ps.
Proof.
  intros Hn Hh H i p Hp. replace (bucket hash h' (Z.of_nat i) ps) with (bucket hash h (Z.of_nat i) ps).
  - eapply lseg_frame; [|exact (H i p Hp)]. intros x n [Hx _]%filter_in Hxn.
    specialize (Hn x Hx). rewrite Hxn in Hn. destruct (h' !! x); cbn in Hn; [|done].
    injection Hn as Hn. eauto.
  - apply filter_ext_in. intros q Hq. specialize (Hh q Hq). unfold in_bucket.
    destruct (h' !! q), (h !! q); cbn in Hh; try done. injection Hh as ->. done.
Qed.

Lemma bucket_bounds h t ps i :
  bucketed h t ps -> 0 <= i < zlen t -> exists p, t !! Z.to_nat i = Some p
    /\ arr_get t i = Done p /\ chain next h p (bucket hash h i ps).
Proof.
  intros H Hi. destruct (lookup_lt_is_Some_2 t (Z.to_nat i)) as [p Hp].
  { unfold zlen in Hi. lia. }
  exists p. split_and!; [done| |].
  - apply arr_get_lookup. by split; [lia|].
  - specialize (H _ _ Hp). by rewrite Z2Nat.id in H by lia.
Qed.

Context (next_set : forall p n, next (set_next p n) = p).
Context (hash_set : forall p n, hash (set_next p n) = hash n).

Lemma bucket_snoc h h' j ps v nv :
  hash <$> h' !! v = Some (hash nv) ->
  (forall q, q ∈ ps -> hash <$> h' !! q = hash <$> h !! q) ->
  bucket hash h' j (ps ++ [v]) = bucket hash h j ps ++ (if hash nv =? j then [v] else []).
Proof.
  intros E Es. unfold bucket. rewrite List.filter_app. f_equal.
  - apply filter_ext_in. intros q Hq. specialize (Es q Hq). unfold in_bucket.
    destruct (h' !! q), (h !! q); cbn in Es; try done. injection Es as ->. done.
  - cbn. unfold in_bucket. destruct (h' !! v); cbn in E; [|done]. injection E as ->.
    by destruct (hash nv =? j).
Qed.

Lemma bucket_last h i ps p :
  chain next h p (bucket hash h i ps) -> p <> 0 ->
  exists ys y n, bucket hash h i ps = ys ++ [y] /\ y ∈ ps /\ h !! y = Some n
    /\ hash n = i /\ (length ys < S (length ps))%nat.
Proof.
  intros Hc Hp. destruct (bucket hash h i ps) as [|x l] eqn:E; [by cbn in Hc|].
  destruct (List.exists_last (l := x :: l)) as (ys & y & Ey); [done|]. rewrite Ey in *.
  assert (Hy : y ∈ ps /\ in_bucket hash h i y = true).
  { apply filter_in. fold (bucket hash h i ps). rewrite E, elem_of_app. right; by left. }
  destruct Hy as [Hy Hb]. unfold in_bucket in Hb.
  destruct (h !! y) as [n|] eqn:Hn; [|done]. exists ys, y, n. split_and!; [done..|lia|].
  apply (f_equal length) in E. rewrite length_app in E. cbn in E.
  pose proof (filter_length_le (in_bucket hash h i) ps). unfold bucket in E. lia.
Qed.

Lemma bucketed_head h t ps v nv :
  bucketed h t ps -> h !! v = Some nv -> next nv = 0 -> v <> 0 -> 0 <= hash nv < zlen t ->
  t !! Z.to_nat (hash nv) = Some 0 ->
  bucketed h (<[Z.to_nat (hash nv) := v]> t) (ps ++ [v]).
Proof.
  intros H Hv Hz Hv0 Hi Ht i q Hq. rewrite (bucket_snoc h h) with (nv := nv) by (by rewrite ?Hv).
  destruct (Z.eqb_spec (hash nv) (Z.of_nat i)) as [E|E].
  - assert (i = Z.to_nat (hash nv)) as -> by lia.
    rewrite list_lookup_insert_eq in Hq by (unfold zlen in Hi; lia). injection Hq as <-.
    pose proof (chain_nil _ _ _ (H _ _ Ht)) as ->. cbn. split_and!; [done..|]. eauto.
  - rewrite list_lookup_insert_ne in Hq by lia. rewrite app_nil_r. by apply H.
Qed.

Lemma bucketed_tail h t ps v nv ys y n :
  bucketed h t ps -> h !! v = Some nv -> next nv = 0 -> v <> 0 -> v ∉ ps ->
  bucket hash h (hash nv) ps = ys ++ [y] -> y ∈ ps -> h !! y = Some n -> hash n = hash nv ->
  bucketed (<[y := set_next v n]> h) t (ps ++ [v]).
Proof using next_set hash_set.
  intros H Hv Hz Hv0 Hin Eb Hy Hn En i q Hq.
  assert (Hs : forall q, hash <$> <[y:=set_next v n]> h !! q = hash <$> h !! q).
  { intros x. destruct (decide (x = y)) as [->|]; [|by rewrite lookup_insert_ne].
    by rewrite lookup_insert_eq, Hn; cbn; rewrite hash_set. }
  rewrite (bucket_snoc h _ _ _ _ nv); [|by rewrite Hs, Hv|by intros; apply Hs].
  specialize (H _ _ Hq). destruct (Z.eqb_spec (hash nv) (Z.of_nat i)) as [E|E].
  - rewrite <- E in *. rewrite Eb in H |- *. eapply chain_extend; try done.
    rewrite <- Eb. by intros [? _]%filter_in.
  - rewrite app_nil_r. apply lseg_insert_ne; [|done].
    intros [_ Hb]%filter_in. unfold in_bucket in Hb. rewrite Hn in Hb. lia.
Qed.

Lemma bucket_add_spec fuel h t ps v nv :
  bucketed h t ps -> h !! v = Some nv -> next nv = 0 -> v <> 0 -> v ∉ ps ->
  0 <= hash nv < zlen t -> (length ps < fuel)%nat ->
  exists h' t', bucket_add fuel h t (hash nv) v = Done (h', t')
    /\ bucketed h' t' (ps ++ [v]) /\ zlen t' = zlen t
    /\ (forall q, h' !! q = h !! q
          \/ exists n, q ∈ ps /\ h !! q = Some n /\ h' !! q = Some (set_next v n)).
Proof using next_set hash_set.
  intros H Hv Hz Hv0 Hin Hi Hf.
  destruct (bucket_bounds _ _ _ _ H Hi) as (p & Hp & Hg & Hc).
  unfold bucket_add. rewrite Hg, bind_Done. destruct (Z.eqb_spec p 0) as [->|Hp0].
  - exists h, (<[Z.to_nat (hash nv) := v]> t).
    rewrite (proj2 (arr_set_Done t (hash nv) v _) (conj Hi eq_refl)).
    split_and!; [done|by apply bucketed_head|by unfold zlen; rewrite length_insert|by left].
  - destruct (bucket_last _ _ _ _ Hc Hp0) as (ys & y & n & Eb & Hy & Hn & En & Hl).
    rewrite Eb in Hc. exists (<[y := set_next v n]> h), t.
    rewrite (chain_append_spec _ _ _ _ _ _ _ _ _ Hc Hn) by lia.
    split_and!; [done|by eapply bucketed_tail|done|]. intros q.
    destruct (decide (q = y)) as [->|]; [|left; by rewrite lookup_insert_ne].
    right. exists n. by rewrite lookup_insert_eq.
Qed.
(** Adding a node a second time, after its link was cleared, cuts its chain
    and makes it its own successor. *)
Lemma bucket_readd fuel h t ps v nv xs ys :
  bucketed h t ps -> next nv = 0 -> bucket hash h (hash nv) ps = xs ++ v :: ys ->
  0 <= hash nv < zlen t -> (length ps < fuel)%nat ->
  exists p, arr_get t (hash nv) = Done p
    /\ bucket_add fuel (<[v := nv]> h) t (hash nv) v = Done (<[v := set_next v nv]> h, t)
    /\ lseg next (<[v := set_next v nv]> h) p xs v /\ v <> 0.
Proof.
  intros H Hz Eb Hi Hf. destruct (bucket_bounds _ _ _ _ H Hi) as (p & Hp & Hg & Hc).
  rewrite Eb in Hc. pose proof (chain_nodup _ _ _ _ Hc) as Hd.
  apply NoDup_app in Hd as (_ & Hd & _).
  assert (Hv : v ∉ xs) by (intros Hx; apply (Hd v Hx); by left).
  apply lseg_app in Hc as (r & Hx & Hr). destruct Hr as (-> & Hv0 & _).
  exists p. split_and!; [done| |by apply lseg_insert_ne|done].
  assert (Hc : chain next (<[v := nv]> h) p (xs ++ [v])).
  { apply lseg_app. exists v. split; [by apply lseg_insert_ne|].
    split_and!; [done..|]. exists nv. by rewrite lookup_insert_eq, Hz. }
  unfold bucket_add. rewrite Hg, bind_Done.
  rewrite (proj2 (Z.eqb_neq p 0)) by (by eapply lseg_snoc_nonzero).
  rewrite (chain_append_spec _ _ _ _ _ _ _ nv _ Hc), bind_Done, insert_insert_eq;
    [done|by rewrite lookup_insert_eq|].
  apply (f_equal length) in Eb. rewrite length_app in Eb. cbn in Eb.
  pose proof (filter_length_le (in_bucket hash h (hash nv)) ps). unfold bucket in Eb. lia.
Qed.
End buckets.

(** ** Deciding on a concrete heap *)
Section decide.
Context {N : Type} (next : N -> Z) (hash : N -> Z) (h : gmap Z N).

Fixpoint walk (n : nat) (p : Z) : option (list Z) :=
  if p =? 0 then Some [] else
  match n with
  | O => None
  | S k => m ← h !! p; ps ← walk k (next m); Some (p :: ps)
  end.

Lemma walk_chain n p ps : walk n p = Some ps -> chain next h p ps.
Proof.
  revert p ps. induction n as [|k IH]; intros p ps; cbn; destruct (Z.eqb_spec p 0) as [->|Hp].
  - by intros [= <-].
  - done.
  - by intros [= <-].
  - destruct (h !! p) as [m|] eqn:E; cbn; [|done].
    destruct (walk k (next m)) as [qs|] eqn:Ew; cbn; [|done]. intros [= <-].
    split_and!; [done..|]. exists m. split; [done|]. by apply IH.
Qed.

Definition bucketed_b (n : nat) (t ps : list Z) : bool :=
  forallb (fun ip => bool_decide (walk n ip.2 = Some (bucket hash h (Z.of_nat ip.1) ps)))
    (imap pair t).

Lemma bucketed_b_spec n t ps : bucketed_b n t ps = true -> bucketed next hash h t ps.
Proof.
  unfold bucketed_b. rewrite forallb_forall. intros H i p Hp.
  eapply walk_chain, bool_decide_eq_true_1. apply (H (i, p)). apply list_elem_of_In.
  apply elem_of_lookup_imap. eauto.
Qed.
End decide.
