(* ===== verification/LsiStack.v ===== *)
(** * The stack of the LSI RAID driver

    [SmcLsiRaidOOB/SmcLsiStack.c]: a stack of pool nodes, the top first. The
    allocator hands out the addresses of [avail], 0 being a failure;
    [released] is the log of the [FreePool] calls, whose status is that of
    [freed]. A NULL argument is [None]. *)

From S2P Require Import Prelude Chain.

Record SMC_RAID_STACK_BODY := mkBody { data : Z; dataType : Z }.
Record SMC_RAID_STACK_SET := mkSet { StackBody : SMC_RAID_STACK_BODY; pNext : Z }.

Record Pool := mkPool {
  nodes : gmap Z SMC_RAID_STACK_SET; avail : list Z; released : list Z; SmcStackPoint : Z }.

Section stack.
Context (freed : Z -> EFI_STATUS).

Definition FreePool (p : Z) (s : Pool) : Pool :=
  mkPool (delete p (nodes s)) (avail s) (released s ++ [p]) (SmcStackPoint s).

(** The node is cleared before the status of the allocation is looked at. *)
Definition SmcStackPush (pSmcStack : option Pool) (Input InDataType : Z) : Res (EFI_STATUS * option Pool) :=
  match pSmcStack with
  | None => Done (EFI_INVALID_PARAMETER, None)
  | Some s =>
      match avail s with
      | [] => Fault
      | NewPush :: r =>
          if NewPush =? 0 then Fault else
          let n := mkSet (mkBody (u64 Input) (u8 InDataType)) (SmcStackPoint s) in
          Done (EFI_SUCCESS, Some (mkPool (<[NewPush := n]> (nodes s)) r (released s) NewPush))
      end
  end.

(** [OutPut]: whether the caller gave a place for the value. *)
Definition SmcStackPop (pSmcStack : option Pool) (OutPut : bool)
    : Res (EFI_STATUS * option SMC_RAID_STACK_BODY * option Pool) :=
  if negb OutPut then Done (EFI_INVALID_PARAMETER, None, pSmcStack) else
  match pSmcStack with
  | None => Done (EFI_INVALID_PARAMETER, None, None)
  | Some s =>
      let OldPop := SmcStackPoint s in
      if OldPop =? 0 then Done (EFI_OUT_OF_RESOURCES, None, Some s) else
      n ← deref (nodes s) OldPop;
      let s := mkPool (nodes s) (avail s) (released s) (pNext n) in
      Done (freed OldPop, Some (StackBody n), Some (FreePool OldPop s))
  end.

(** [fuel] bounds the loop. *)
Fixpoint initial_loop (fuel : nat) (s : Pool) : Res Pool :=
  match fuel with
  | O => NoFuel
  | S k =>
      if SmcStackPoint s =? 0 then Done s else
      n ← deref (nodes s) (SmcStackPoint s);
      let s := FreePool (SmcStackPoint s) s in
      initial_loop k (mkPool (nodes s) (avail s) (released s) (pNext n))
  end.

Definition InitialSmcStack (fuel : nat) (pSmcStack : option Pool) : Res (EFI_STATUS * option Pool) :=
  match pSmcStack with
  | None => Done (EFI_INVALID_PARAMETER, None)
  | Some s => s ← initial_loop fuel s; Done (EFI_SUCCESS, Some s)
  end.

(** ** The stack as a list *)
Definition stacked (h : gmap Z SMC_RAID_STACK_SET) (ps : list Z) (l : list SMC_RAID_STACK_BODY) : Prop :=
  Forall2 (fun p v => exists n, h !! p = Some n /\ StackBody n = v) ps l.

(** The nodes [ps] hold [l], the top first; the pool hands out other blocks. *)
Definition stack_holds (s : Pool) (ps : list Z) (l : list SMC_RAID_STACK_BODY) : Prop :=
  chain pNext (nodes s) (SmcStackPoint s) ps /\ stacked (nodes s) ps l /\
  (forall a, a ∈ avail s -> a ∉ ps).

Lemma stacked_frame h h' ps l :
  (forall p, p ∈ ps -> h' !! p = h !! p) -> stacked h ps l -> stacked h' ps l.
Proof using.
  intros Hh H. induction H as [|p v ps l (n & Hn & Hv) _ IH]; constructor.
  - exists n. rewrite Hh; [done|by left].
  - apply IH. intros q Hq. apply Hh. by right.
Qed.

(** Taking the top off. *)
Lemma pop_top s p ps v l :
  stack_holds s (p :: ps) (v :: l) ->
  exists n, SmcStackPoint s = p /\ p <> 0 /\ nodes s !! p = Some n /\ StackBody n = v /\
    let s' := FreePool p (mkPool (nodes s) (avail s) (released s) (pNext n)) in
    stack_holds s' ps l /\ (forall q, q <> p -> nodes s' !! q = nodes s !! q).
Proof using.
  intros (Hc & Hs & Ha). pose proof (chain_nodup _ _ _ _ Hc) as [Hp _]%NoDup_cons.
  destruct Hc as (Ep & Hp0 & n & Hn & Hc). apply Forall2_cons in Hs as [(n' & Hn' & Hv) Hs].
  rewrite Hn in Hn'. injection Hn' as <-. exists n. cbv zeta.
  do 4 (split; [done|]). split; [split_and!|].
  - by apply lseg_delete_ne.
  - eapply stacked_frame; [|exact Hs]. intros q Hq. cbn. rewrite lookup_delete_ne; [done|]. by intros ->.
  - intros a Hin Hq. apply (Ha a Hin). by right.
  - intros q Hq. cbn. by rewrite lookup_delete_ne.
Qed.

Lemma initial_all fuel s ps l :
  stack_holds s ps l -> (length ps < fuel)%nat ->
  exists s', initial_loop fuel s = Done s' /\ SmcStackPoint s' = 0 /\
    released s' = released s ++ ps /\ avail s' = avail s /\
    (forall q, q ∈ ps -> nodes s' !! q = None) /\ (forall q, q ∉ ps -> nodes s' !! q = nodes s !! q).
Proof using.
  revert s ps l. induction fuel as [|k IH]; intros s ps l H Hf; [lia|]. cbn [initial_loop].
  destruct ps as [|p ps].
  - destruct H as (E & _). change (SmcStackPoint s = 0) in E. exists s. rewrite E, app_nil_r.
    split_and!; try done. by intros q ?%not_elem_of_nil.
  - pose proof H as (Hc & Hs & _). destruct l as [|v l]; [by apply Forall2_cons_nil_inv in Hs|].
    pose proof (chain_nodup _ _ _ _ Hc) as [Hp _]%NoDup_cons.
    destruct (pop_top _ _ _ _ _ H) as (n & -> & Hp0 & Hn & _ & Hs' & Ho).
    rewrite (proj2 (Z.eqb_neq p 0) Hp0), (deref_at _ _ _ Hn), bind_Done. cbn [length] in Hf.
    destruct (IH _ _ _ Hs') as (s' & E & E1 & E2 & E3 & E4 & E5); [lia|].
    exists s'. split; [exact E|]. split_and!; [done|by rewrite E2; cbn; rewrite <- app_assoc|done| |].
    + intros q [->|Hq]%elem_of_cons; [|by apply E4]. rewrite E5 by done. cbn. apply lookup_delete_eq.
    + intros q [Hq Hq']%not_elem_of_cons. rewrite E5 by done. by apply Ho.
Qed.

(** on a stack that holds a list the three operations are
    those of the list: [SmcStackPush] puts a value in front, [SmcStackPop]
    takes it off again and reports an empty stack, both leave the other values
    alone; [InitialSmcStack] empties the stack, releases each of its nodes once,
    the top first, and no other block; missing arguments are refused. *)
Theorem SmcStack_refines_list s ps l x t :
  stack_holds s ps l ->
  (forall a r, avail s = a :: r -> a <> 0 -> a ∉ r ->
     exists s', SmcStackPush (Some s) x t = Done (EFI_SUCCESS, Some s') /\
       stack_holds s' (a :: ps) (mkBody (u64 x) (u8 t) :: l)) /\
  SmcStackPop (Some s) false = Done (EFI_INVALID_PARAMETER, None, Some s) /\
  match l with
  | [] => SmcStackPop (Some s) true = Done (EFI_OUT_OF_RESOURCES, None, Some s)
  | v :: r => exists s', SmcStackPop (Some s) true = Done (freed (SmcStackPoint s), Some v, Some s') /\
      stack_holds s' (tail ps) r
  end /\
  exists s', InitialSmcStack (S (length ps)) (Some s) = Done (EFI_SUCCESS, Some s') /\
    stack_holds s' [] [] /\ released s' = released s ++ ps /\
    (forall q, q ∉ ps -> nodes s' !! q = nodes s !! q).
Proof using.
  intros H. pose proof H as (Hc & Hs & Ha). split_and!.
  - intros a r Ea Hz Hr. cbn [SmcStackPush]. rewrite Ea, (proj2 (Z.eqb_neq a 0) Hz).
    assert (Hap : a ∉ ps) by (apply Ha; rewrite Ea; by left).
    eexists. split; [done|]. split_and!; cbn [nodes avail SmcStackPoint].
    + split_and!; [done..|]. eexists. rewrite lookup_insert_eq. split; [done|]. by apply lseg_insert_ne.
    + constructor; [eexists; by rewrite lookup_insert_eq|]. eapply stacked_frame; [|exact Hs].
      intros q Hq. rewrite lookup_insert_ne; [done|]. by intros ->.
    + intros b Hb [->|Hq]%elem_of_cons; [done|]. apply (Ha b); [|done]. rewrite Ea. by right.
  - done.
  - destruct l as [|v r]; cbn [SmcStackPop negb].
    + apply Forall2_nil_inv_r in Hs as ->. change (SmcStackPoint s = 0) in Hc. by rewrite Hc.
    + destruct ps as [|p ps]; [by apply Forall2_nil_cons_inv in Hs|].
      destruct (pop_top _ _ _ _ _ H) as (n & -> & Hp0 & Hn & Hv & Hs' & _).
      rewrite (proj2 (Z.eqb_neq p 0) Hp0), (deref_at _ _ _ Hn), bind_Done, Hv. eexists. split; [done|exact Hs'].
  - destruct (initial_all (S (length ps)) s ps l H) as (s' & E & E1 & E2 & E3 & E4 & E5); [lia|].
    exists s'. cbn [InitialSmcStack]. rewrite E. split; [done|]. split; [|done]. split_and!; [done|constructor|].
    intros a _. apply not_elem_of_nil.
Qed.
End stack.

Lemma SmcStack_refines_list_witness :
  exists s', SmcStackPush (Some (mkPool ∅ [8; 16] [] 0)) 5 1 = Done (EFI_SUCCESS, Some s') /\
    stack_holds s' [8] [mkBody 5 1].
Proof.
  refine (proj1 (SmcStack_refines_list (fun _ => EFI_SUCCESS) (mkPool ∅ [8; 16] [] 0) [] [] 5 1 _) 8 [16] _ _ _).
  - split; [done|]. split; [constructor|]. intros a _. apply not_elem_of_nil.
  - done.
  - done.
  - intros H%list_elem_of_In. cbn in H. lia.
Defined.
