(* ===== verification/ExpStack.v ===== *)
(** * The expression stack of the setup-template generator

    Models [SmcInBand/SmcStack.c]: a fixed array of 32 64-bit entries and a
    32-bit unsigned top index whose empty value is [(UINT32)-1]. The two C
    globals are the fields of [SmcStack]; each operation takes the state and
    returns the new one with the value and the status byte the C function
    writes through its pointers. An array access outside the 32 entries is a
    [Fault]. *)

From S2P Require Import Prelude.

Definition STACK_SIZE : Z := 32.
Definition STACK_EMPTY : Z := u32 (-1).

Record SmcStack := mkSmcStack { ExpStack : list Z; ExpStackTop : Z }.

(** The initial values of the two globals. *)
Definition SmcStack_globals : SmcStack :=
  mkSmcStack (replicate (Z.to_nat STACK_SIZE) 0) STACK_EMPTY.

(** [InitSmcStack] clears the 32 entries; it leaves [ExpStackTop] alone. *)
Definition InitSmcStack (st : SmcStack) : SmcStack :=
  mkSmcStack (replicate (Z.to_nat STACK_SIZE) 0) (ExpStackTop st).

Definition SmcStackSize (st : SmcStack) : Z := ExpStackTop st.

Definition SmcPush64 (Item : Z) (st : SmcStack) : Res (SmcStack * Z) :=
  if ExpStackTop st =? STACK_SIZE - 1 then Done (st, 0)
  else
    let top := u32 (ExpStackTop st + 1) in
    a ← arr_set (ExpStack st) top Item;
    Done (mkSmcStack a top, 1).

(** Returns the new state, the value and the status. *)
Definition SmcPop64 (st : SmcStack) : Res (SmcStack * Z * Z) :=
  if ExpStackTop st =? STACK_EMPTY then Done (st, 0, 0)
  else
    v ← arr_get (ExpStack st) (ExpStackTop st);
    Done (mkSmcStack (ExpStack st) (u32 (ExpStackTop st - 1)), v, 1).

(** ** The abstract bounded stack *)
Definition depth (st : SmcStack) : Z := u32 (ExpStackTop st + 1).

(** The entries in use, the last pushed first. *)
Definition contents (st : SmcStack) : list Z :=
  rev (take (Z.to_nat (depth st)) (ExpStack st)).

Definition stack_wf (st : SmcStack) : Prop :=
  zlen (ExpStack st) = STACK_SIZE /\
  (ExpStackTop st = STACK_EMPTY \/ 0 <= ExpStackTop st < STACK_SIZE).

Definition spec_push (v : Z) (l : list Z) : list Z * Z :=
  if zlen l =? STACK_SIZE then (l, 0) else (v :: l, 1).

Definition spec_pop (l : list Z) : list Z * Z * Z :=
  match l with [] => ([], 0, 0) | v :: r => (r, v, 1) end.

Ltac stack_unfold :=
  unfold stack_wf, contents, depth, STACK_EMPTY, STACK_SIZE, u32 in *.

(** The two shapes of a well-formed state: empty, or [d + 1] entries. *)
Lemma stack_wf_cases st :
  stack_wf st ->
  zlen (ExpStack st) = 32 /\
  ((ExpStackTop st = 4294967295 /\ depth st = 0) \/
   (0 <= ExpStackTop st < 32 /\ depth st = ExpStackTop st + 1)).
Proof.
  intros [Hl Ht]. split; [done|]. stack_unfold. destruct Ht as [->|Ht].
  - left. by split.
  - right. split; [done|]. apply Z.mod_small. lia.
Qed.

Lemma depth_range st : stack_wf st -> 0 <= depth st <= STACK_SIZE.
Proof. intros H%stack_wf_cases. unfold STACK_SIZE. lia. Qed.

Lemma contents_zlen st : stack_wf st -> zlen (contents st) = depth st.
Proof.
  intros H. pose proof (depth_range st H). destruct H as [Hl _].
  unfold contents, zlen, STACK_SIZE in *. rewrite length_rev, length_take. lia.
Qed.

Lemma SmcStack_globals_wf : stack_wf SmcStack_globals.
Proof. split; [done|]. by left. Qed.

Lemma InitSmcStack_wf st : stack_wf st -> stack_wf (InitSmcStack st).
Proof. intros [_ Ht]. by split. Qed.

(** Initialisation keeps the number of entries in use. *)
Lemma InitSmcStack_contents st :
  stack_wf st -> contents (InitSmcStack st) = replicate (Z.to_nat (depth st)) 0.
Proof.
  intros H. pose proof (depth_range st H) as Hd. unfold contents, depth, InitSmcStack.
  cbn [ExpStackTop ExpStack]. fold (depth st).
  rewrite take_replicate, Nat.min_l by (unfold STACK_SIZE in *; lia).
  rewrite rev_alt. apply reverse_replicate.
Qed.

(** Pushing: the result is that of the abstract stack. *)
Lemma push_refines st v :
  stack_wf st ->
  exists st', SmcPush64 v st = Done (st', snd (spec_push v (contents st))) /\
    stack_wf st' /\ contents st' = fst (spec_push v (contents st)).
Proof.
  intros H. pose proof (contents_zlen st H) as Hc. unfold spec_push. rewrite Hc.
  unfold SmcPush64, STACK_SIZE in *.
  destruct (stack_wf_cases st H) as [Hl Ht].
  destruct (Z.eqb_spec (ExpStackTop st) (32 - 1)) as [E|E].
  - replace (depth st =? 32) with true by lia. eauto.
  - replace (depth st =? 32) with false by lia.
    fold (depth st).
    replace (arr_set (ExpStack st) (depth st) v) with
      (Done (<[Z.to_nat (depth st):=v]> (ExpStack st)))
      by (symmetry; apply arr_set_Done; split; [lia|done]).
    rewrite bind_Done. eexists; split; [done|].
    assert (depth st < 32) by lia.
    assert (Hw : stack_wf (mkSmcStack (<[Z.to_nat (depth st):=v]> (ExpStack st)) (depth st))).
    { split; cbn [ExpStack ExpStackTop]; unfold zlen, STACK_SIZE;
        [rewrite length_insert; apply Hl|lia]. }
    split; [done|]. destruct (stack_wf_cases _ Hw) as [_ Ht2].
    cbn [ExpStackTop] in Ht2. unfold contents at 1.
    replace (depth _) with (depth st + 1) by lia. cbn [ExpStack fst].
    replace (Z.to_nat (depth st + 1)) with (S (Z.to_nat (depth st))) by lia.
    erewrite take_S_r by (apply list_lookup_insert_eq; unfold zlen in Hl; lia).
    rewrite take_insert_ge by lia. by rewrite rev_app_distr.
Qed.

(** Popping likewise. *)
Lemma pop_refines st :
  stack_wf st ->
  exists st', SmcPop64 st = Done (st', snd (fst (spec_pop (contents st))),
                                  snd (spec_pop (contents st))) /\
    stack_wf st' /\ contents st' = fst (fst (spec_pop (contents st))).
Proof.
  intros H. destruct (stack_wf_cases st H) as [Hl Ht].
  unfold SmcPop64. change STACK_EMPTY with 4294967295.
  destruct (Z.eqb_spec (ExpStackTop st) 4294967295) as [E|E].
  - assert (contents st = []) as ->.
    { apply length_zero_iff_nil. pose proof (contents_zlen st H). unfold zlen in *. lia. }
    exists st. repeat split; try done; [apply H..|].
    apply length_zero_iff_nil. pose proof (contents_zlen st H). unfold zlen in *. lia.
  - destruct Ht as [[? _]|[Ht Hd]]; [done|].
    destruct (arr_get_in (ExpStack st) (ExpStackTop st)) as (v & Hg & Hv); [lia|].
    rewrite Hg, bind_Done. unfold contents at 1 2 4. rewrite Hd.
    replace (Z.to_nat (ExpStackTop st + 1)) with (S (Z.to_nat (ExpStackTop st))) by lia.
    rewrite (take_S_r _ _ v) by done. rewrite rev_app_distr. cbn.
    eexists; split; [done|].
    set (t := u32 (ExpStackTop st - 1)).
    assert (Htt : t = 4294967295 /\ ExpStackTop st = 0 \/
                  0 < ExpStackTop st /\ t = ExpStackTop st - 1).
    { subst t. unfold u32. destruct (Z.eq_dec (ExpStackTop st) 0) as [->|].
      - by left. - right. split; [lia|]. apply Z.mod_small. lia. }
    assert (Hw : stack_wf (mkSmcStack (ExpStack st) t)).
    { split; [done|]. cbn. unfold STACK_EMPTY, STACK_SIZE, u32.
      destruct Htt as [[-> _]|[? ->]]; [by left|right; lia]. }
    split; [done|]. unfold contents. cbn [ExpStack].
    destruct (stack_wf_cases _ Hw) as [_ Ht2]. cbn [ExpStackTop] in Ht2.
    do 2 f_equal. lia.
Qed.

Lemma SmcPush64_nofuel v st : SmcPush64 v st <> NoFuel.
Proof. unfold SmcPush64. nofuel. Qed.
Lemma SmcPop64_nofuel st : SmcPop64 st <> NoFuel.
Proof. unfold SmcPop64. nofuel. Qed.
#[export] Hint Resolve SmcPush64_nofuel SmcPop64_nofuel : nofuel.

(** on every well-formed state both operations behave as the
    bounded stack of 32 entries: they never fault, report overflow and
    underflow with status 0 and leave the stack unchanged then. *)
Theorem SmcStack_refines st v :
  stack_wf st ->
  (exists st', SmcPush64 v st = Done (st', snd (spec_push v (contents st))) /\
     stack_wf st' /\ contents st' = fst (spec_push v (contents st))) /\
  (exists st', SmcPop64 st = Done (st', snd (fst (spec_pop (contents st))),
                                   snd (spec_pop (contents st))) /\
     stack_wf st' /\ contents st' = fst (fst (spec_pop (contents st)))).
Proof. intros H. split; [by apply push_refines|by apply pop_refines]. Qed.

Lemma SmcStack_refines_witness :
  exists st', SmcPush64 7 SmcStack_globals = Done (st', 1) /\
    contents st' = [7].
Proof.
  destruct (SmcStack_refines SmcStack_globals 7 SmcStack_globals_wf)
    as [(st' & H1 & _ & H2) _]. exists st'. split; [exact H1|exact H2].
Defined.
