(* ===== verification/BlowfishTables.v ===== *)
(** * The Blowfish seed tables

    Models the data of [Library/CBlowfish.h2]: the round count [N], the 18
    subkey seeds [SEED_P] and the four substitution boxes [SEED_S], as the
    file gives them (they are not the tables of the published cipher). *)

From S2P Require Import Prelude.

Definition N : Z := 16.

Definition SEED_P : list Z :=
  [0x2220a900; 0x6a27350c; 0xbc9090c0; 0xc6d99742; 0x8cc405aa; 0x650b28b4;
   0x6906a7ae; 0x866012f1; 0xa2536eb8; 0x15dc8bf; 0x65ed8453; 0x636fd67c;
   0x3ae814a3; 0xced703cc; 0x3120cf62; 0x4e582d59; 0x53ffe9ed; 0x825c38aa].

Definition SEED_S0 : list Z :=
  [0x74949c38; 0xd0dc29b5; 0x75cccad0; 0x8574a633; 0x4cbb17e4; 0xbaaebabc;
   0x85e91ffd; 0xbe478a47; 0x31eff2bc; 0xa3dd39e4; 0xa365a54c; 0x6f46b770;
   0x89810669; 0x27c7ed11; 0x761e472f; 0x6e116b04; 0x7359f5a8; 0x6c0b854b;
   0x74d4e723; 0xc7fa32f8; 0x7d54e4a5; 0xb09e85a5; 0x3eb57130; 0x6f14a8f5;
   0x909d70b0; 0x5d7d6b4c; 0x85a6208c; 0x88898aac; 0x8a630786; 0x6ca8174c;
   0x5a759d79; 0x6b343220; 0x19a71709; 0xb6f65399; 0x48bfe2eb; 0xd00bfd34;
   0x81997446; 0xc952cc35; 0x6f9092c6; 0x30f44963; 0xcb595804; 0x34311974;
   0x5b35d76c; 0x60269f86; 0x6d0c1bdd; 0x661a2daa; 0xa7883922; 0x95514c77;
   0xa88e1736; 0xcfab4e59; 0x4b3826a3; 0xb762c1b3; 0xa061ce68; 0x8d208060;
   0xb91d0313; 0x902064a6; 0xcc867e73; 0x5575d3a9; 0x810c223b; 0x8d5534d3;
   0x826b2a02; 0x3599f770; 0x44bdc248; 0x6b22b351; 0x9732e3fb; 0x5e99d3a1;
   0x5a854d37; 0xaf3ca589; 0x96b2233e; 0x8ad97cd0; 0x7a71efae; 0x5445816a;
   0x5f4b5f92; 0x6eb4c401; 0x5f57c844; 0x4e6fbfe8; 0x6f795b53; 0x8bb6556b;
   0xcef4fb42; 0x2182f71b; 0xb1a70a66; 0x4892e9dc; 0x96196011; 0x8713733e;
   0xb42cb550; 0x7c9aa9a2; 0x2ce6d186; 0x75971321; 0x7a9b8020; 0x6c89b2e6;
   0x6055cff8; 0xbbb63aab; 0x3f032a29; 0x840648e8; 0x3e4598d3; 0xf42004a9;
   0xa5a60abf; 0x7c18fad8; 0xb4827deb; 0x688aee22; 0x95195e26; 0x974dd83b;
   0x3605c2d1; 0xce3260c5; 0x7130c27e; 0x8a948b57; 0x75b5867b; 0xa155bdc3;
   0x8db7561a; 0xc2b0d60f; 0xcae546ae; 0xbbe99227; 0x7383c93e; 0xac4abc3f;
   0xbb2efb17; 0x90b57a66; 0x79fb4226; 0x924888ea; 0x34e83dfd; 0x60a247e9;
   0x9b36fd5b; 0x779f92f3; 0x31819944; 0xc5a5347b; 0xbe515762; 0x8b35de4b;
   0x3f26e544; 0x79c1ef7e; 0x7f21fd73; 0x5ab0f5ac; 0xbae2561f; 0x8a9951c8;
   0x9369c2b3; 0x64de9d3d; 0x7d5cc462; 0x6e6b012d; 0xb0b7b868; 0xa9804595;
   0x7effe4d7; 0x2172410b; 0x777b849c; 0xc687da4b; 0x73c78fcb; 0x694d1863;
   0x66567588; 0x2d3a85ca; 0xaf647e23; 0x561663ee; 0xd4b5b246; 0x8b204188;
   0x8075e653; 0x6aa63867; 0x5f95d6d6; 0x1366f06a; 0x834bf80e; 0x1be6f7e7;
   0xe18150cd; 0xb169e68b; 0x22b89bfd; 0x48326dd8; 0x5eb50d01; 0xaa47dd2d;
   0xad40cb35; 0x50e7cbfc; 0xbb534248; 0xd408f425; 0x5593503b; 0x6cf6c758;
   0x52d5aa8b; 0x93bee2c0; 0xb536e938; 0xd0e91f44; 0x9214acdb; 0x6c011a9f;
   0x9d0a04c0; 0x3ddc5a5e; 0xa9a07c1a; 0x9d89ce6; 0x688278a8; 0x58d7c4cc;
   0x36c87669; 0x5f9ee38c; 0x6b8fe57f; 0x4184edb8; 0x4cf362a7; 0x148732a4;
   0x4e9ab20; 0x98e285e7; 0x67c357b8; 0xcbcba0d4; 0x391728ff; 0x808c6e3a;
   0x71cc32bf; 0x3998ec6a; 0x65257405; 0x7e246658; 0xbf516a29; 0x2849b113;
   0x2a58f4ca; 0x6946dfb3; 0xbf126f44; 0x7976a353; 0xe33e6440; 0x5afa7261;
   0x173cc9c1; 0x4fcf1872; 0x306e0e69; 0xb30b97db; 0x5ac091ce; 0x7c88ec90;
   0x7f15357d; 0xdbd3f042; 0x58709cce; 0x6947ef50; 0x6dec4022; 0x7a15e90c;
   0x505ce15b; 0x70fac9cc; 0x85e5b59a; 0x7e9d0194; 0xf2bb4f65; 0x6d76721d;
   0x1ec7a0b4; 0x45639ef8; 0x8d268e3e; 0xb96e3857; 0xbc99de72; 0x4aa26364;
   0x995fc9f0; 0x17d40cd9; 0x867921b8; 0x344ab97a; 0x85768246; 0x8a7148af;
   0x713abf74; 0xa87eb73d; 0x577a644b; 0x871f6caa; 0xb6773352; 0x6fca3783;
   0x8e6f972b; 0x4fd9854e; 0xbe7a9874; 0x6013f0dd; 0x4e663b68; 0x5f266c78;
   0x89d1f39e; 0xabb56035; 0x38b6a939; 0x9aa4adc5; 0x3f34f329; 0x8de77788;
   0x59188e5c; 0x8cf15c75; 0x6189efd5; 0x532d8341].

Definition SEED_S1 : list Z :=
  [0xa5f403d3; 0x3b02fc9e; 0xbd82f142; 0xbc48feae; 0x12feeb33; 0x60c889cb;
   0xaee09119; 0xac1954b7; 0xc2a492e6; 0x9188a300; 0x89e16780; 0x9888dd85;
   0xb476febb; 0x7289b78d; 0xa235cdf4; 0x85fa7591; 0x68be435d; 0x2c986e11;
   0x5c145faa; 0x322a614a; 0x8450d7e7; 0x8be429b1; 0x1f70d517; 0x9ac8a353;
   0x7ebb80e6; 0x63eeee0d; 0x4bc160dc; 0xeb96de44; 0x21f2058f; 0x96394e28;
   0xa3d7d09f; 0x8c51a54c; 0xdd3135e8; 0xb2d7489d; 0xa1cb801d; 0x2858e072;
   0x77f494fd; 0x594dc105; 0x6c3a888d; 0x797ad211; 0xa067aaac; 0x7392f1da;
   0x59e18bb4; 0x6c616b20; 0xbd4a65f0; 0x3ffb64c7; 0x9ece7d02; 0x6db84a8c;
   0x85371d71; 0x3545487e; 0x85913d11; 0xcd1ef594; 0x91db3314; 0x14eb3c23;
   0x9a831af2; 0xe90bc515; 0x6bcfce55; 0xa713d127; 0xbbc8870f; 0x4184eb4d;
   0x960ff590; 0x5a35238f; 0x4dcd5a28; 0x30de257e; 0x687d0146; 0x7a07152a;
   0x43c196ee; 0x6b941066; 0x6d92c159; 0x53b285a5; 0x8ee55ac0; 0x4300a1eb;
   0x995d01aa; 0x4066831f; 0x7d89af5b; 0x4e3875b9; 0x836bbe80; 0x4878177f;
   0x705b0764; 0xa43d9043; 0xdf79aafb; 0x46e64703; 0x656ab02d; 0x78d80bec;
   0x32f9a3f4; 0x5b134dd4; 0x8948dc4b; 0xbc9427ca; 0x882862d4; 0x77cb66af;
   0x7ee61955; 0x994bb71b; 0x6e7175b1; 0x538af07f; 0x5b1a0b9a; 0xb7a485c1;
   0x960d2630; 0xddcef87f; 0xb1052430; 0x4e7547e5; 0xa33195fd; 0xa5ddc6da;
   0x479c857a; 0xcf20503f; 0xdf6c998e; 0x5576fa7e; 0x8cef9358; 0x60a48ab9;
   0x50868035; 0x5a2d8621; 0x2bf7fbfa; 0xe6344266; 0x905cd8a8; 0xbd7cf889;
   0x9aaa3f52; 0xa560c4fd; 0x357ad629; 0x6a564798; 0xadb07a7c; 0x4cdc43f2;
   0x80624ec9; 0x6b6fc6ed; 0x9115f009; 0x88b2eb2c; 0x8043ccdf; 0x8d3cfc10;
   0x74b27d30; 0x6e40eb05; 0xb774795c; 0xc67152b1; 0xb7b023fe; 0x8ffa8dfe;
   0xb710a386; 0x6a4255cb; 0xb3c76d70; 0x71de320c; 0xd971d82d; 0x417b9e5b;
   0xa9624aa0; 0xcc243876; 0x2d0efad5; 0xd5e1e05b; 0x4cd272fe; 0x26d0cdde;
   0xefe0aef0; 0xd665a50a; 0x5914383f; 0x94bbcd16; 0x60b108a0; 0x74e5f9c8;
   0x361cbc9e; 0x48a2324a; 0x441224ce; 0x7a165d02; 0x544c5a2e; 0x971a86f0;
   0x1f9bca00; 0xa31ccd09; 0x311f32ac; 0x70b5295b; 0xb72fbb79; 0x4890b48b;
   0xad7b016e; 0x2068cf7e; 0xdc4aa483; 0xa2a4801f; 0x7c12f51c; 0x21f5f5ed;
   0x75648310; 0xad99895a; 0xe246e86a; 0x4b0c3241; 0x31b07796; 0x6e50ef6a;
   0x38169a34; 0x83cf8be0; 0xa620e72b; 0x7f8a4965; 0xa9acc20e; 0x61c7f2a8;
   0xb541e22b; 0x985ec7b5; 0x6fb32533; 0x7179f131; 0xd6611094; 0xaec88582;
   0x63c78ad8; 0xba8aab68; 0x67fdb70f; 0x7847acb3; 0x87e1b398; 0x8f5aa6f0;
   0x487778ff; 0x819e835d; 0xaed8093a; 0x781ba1a2; 0x67d2e8ce; 0x956ec2ac;
   0x4acf26fa; 0xbc9db644; 0x25fc2e6a; 0xd9d8308c; 0x653af38b; 0x9f3bbbb3;
   0xbd3e76c9; 0x6d4cfbde; 0x939aa0f9; 0x7322c526; 0x8b8c9324; 0xce365508;
   0x5827be8a; 0x9e7e87c3; 0xd6cc6001; 0x9780b55a; 0xbad5fe4d; 0xc2cbbe8b;
   0xbf84a766; 0x6a95e5fc; 0x3106cb0f; 0x71f8458b; 0xa1550a15; 0x33656c3a;
   0x5bece438; 0x9101c507; 0x9b4979e5; 0x21de13bb; 0xa58a10ba; 0xb36bdfc8;
   0x7449e5ee; 0x1df1f7ba; 0x9f0b00c0; 0x8ff210f3; 0x7d61a55e; 0x834f4317;
   0x8459989e; 0x9cadb246; 0xd48cca0c; 0x5a9e4dc2; 0x769b4fe2; 0x97f325a1;
   0x4ad82cdb; 0x85560237; 0x7a2dd4da; 0x6cb8ae52; 0x83ae7721; 0x9d979f04;
   0x6b685c53; 0x81492009; 0xa811a6e8; 0x97327220; 0x79dfebc5; 0x5219e23b;
   0x83f342e7; 0x7ee66417; 0x985842c8; 0x8c735c93].

Definition SEED_S2 : list Z :=
  [0x50aac315; 0x5392ad39; 0x4a8b40cb; 0xb95052b9; 0xcaf60199; 0x70f32fd0;
   0x8471a1b6; 0x1f285f9e; 0x76d4b2fc; 0xd8ee8826; 0xea3af625; 0x3f215494;
   0xd7c09a5f; 0x68bccbd7; 0x54e14265; 0xd3494ccb; 0x86f98737; 0x70649d6a;
   0x67275592; 0x1fbe7fef; 0x809ce1e2; 0x687bb518; 0x82edff9b; 0xb191cc37;
   0x3dfee675; 0x6a775159; 0x3588bec0; 0x166815a6; 0x67a05e9a; 0x7d623649;
   0x745509ea; 0x620da679; 0x77877d1a; 0x4cd35923; 0x7c273409; 0x90cc29d8;
   0x7d4388d4; 0x81d29984; 0x80ebf3a6; 0x79f43b07; 0x3de4ba1a; 0x6724b6b5;
   0x8e04324e; 0x80b6d1fc; 0x7cb1addb; 0x322631e7; 0xcec48b59; 0x6c5548e7;
   0x66a61c45; 0xa4fadb20; 0x25ba7b1f; 0x5f916639; 0xaf0ee3e8; 0x232f8c63;
   0x94c8657b; 0x6ee5b1aa; 0x818f53ca; 0xc61a9871; 0x539734bd; 0x85381701;
   0xc4ea72b2; 0xc14f9a5e; 0x4b92214a; 0x59fb0680; 0xe6cd8551; 0x15058dde;
   0x34bce69a; 0xaf860465; 0xd5faf3d7; 0x93c6a213; 0x6fd95833; 0xbd7078e7;
   0x58b6bc1e; 0x80fc3217; 0xca5c7bc6; 0x7c96d374; 0x3d929203; 0xa2f5ec86;
   0x6b8b5118; 0x3b5cf0dd; 0x7be6d4a8; 0x5ee0d6db; 0xc4f972d4; 0x946f85c8;
   0x611c6c08; 0x5b7bffd; 0xaae27b99; 0xc25e703a; 0x46b34a3f; 0x2fe72894;
   0x498eeb6a; 0xa056b47f; 0x6a6469dc; 0x904630bb; 0xc03d940c; 0xa8489160;
   0x1c05a054; 0xecc823f9; 0x9590437c; 0x7bf379d4; 0xa96dd19c; 0x47a273c1;
   0x44d372b8; 0xd7e984f0; 0x4d5b864c; 0x9c9682fc; 0xb44ea98e; 0x9e0bef25;
   0x8039d881; 0x74a2ce60; 0x79f54179; 0x7c9bd544; 0x2414c7fc; 0x76f9f4f8;
   0x6a9ba2ff; 0xb051bafc; 0x7498a89f; 0x6859c1d2; 0x81f512b8; 0x44f2d84e;
   0x4813f448; 0x663b0abd; 0x9e7692c8; 0x9b15b141; 0xb29919c3; 0x5f27d7d9;
   0xaca3df62; 0x42893d0c; 0x4527a65a; 0x8a5db2d6; 0xac70a0d2; 0xc3ccbdf5;
   0xb2a39c91; 0x5a7564ca; 0x6c69c68b; 0x83e9484f; 0x80f19865; 0xb0e058a9;
   0x6e6b4cef; 0x3e189678; 0x5bae898d; 0x4d92c1f0; 0x79041b6e; 0x590b104e;
   0x499f3101; 0x6def0b22; 0x9e1830f8; 0x97191b47; 0xdde248e0; 0x85547cd4;
   0x90f6bd2a; 0x7ec9ca3f; 0x73621831; 0x315080be; 0x7ba02cd4; 0x82d1cbd3;
   0xca98588; 0x5fa11f52; 0xe0808cc1; 0xc3d962c0; 0x9c14f2c5; 0xa02f8f98;
   0x638436fa; 0x8ae8f148; 0xa8d72af0; 0x8bb28f47; 0x197b3341; 0xcbb63dab;
   0x3a267c6f; 0xeeaab094; 0x6c6fd5a1; 0x8d155fa7; 0x41e10a2c; 0x7ec6fc20;
   0xa562ae9a; 0x4c8154b1; 0x7468ccc3; 0x7ba4c51f; 0xa3f98f28; 0x99538399;
   0x96cb2485; 0x869ea234; 0xaf826c66; 0xbd23a339; 0x4f5b9e4b; 0x9f6f921b;
   0x9d4ad035; 0x34e4cf16; 0x993b70bc; 0x818d7150; 0x764c2a18; 0x8015c0b9;
   0xbabfaa4b; 0x42a1fa99; 0x82483c40; 0x2b89f38c; 0x80fb9112; 0x4959b88b;
   0x847d75a1; 0x1a26e650; 0xb24baf92; 0x8fa487d9; 0x661b6a2e; 0xaec25a2a;
   0x78352226; 0xbdf4fa43; 0x7e5e917c; 0xd936431b; 0xb9c540d5; 0x97d7753a;
   0x77cdbbe8; 0x5520dddb; 0x7589fe87; 0xa9474a74; 0xa4f7f22c; 0xcde08815;
   0x7d04a930; 0xa6da2187; 0xa20e66de; 0x6276ee4a; 0x85ec472c; 0x88c4d544;
   0xde76a38a; 0xbd69146f; 0x7dd35616; 0x54496174; 0x98a1f271; 0x6e6a5ef9;
   0x47e4d5b7; 0x88336523; 0x5b1fda33; 0x442069a2; 0xb398fd28; 0xbb4496c3;
   0x409706dd; 0xefeaed0b; 0xbe276d9c; 0x4ace26b3; 0x5aaadab1; 0x34d9f586;
   0x5d77c4cd; 0xce1f42c5; 0xb28d964b; 0x8445a839; 0xd43b4b2f; 0x674f33e5;
   0xe28cfa94; 0x877fa8c7; 0x966a28b3; 0x6bcd5bc3; 0xe07fc498; 0x9d847d9b;
   0xd4680b20; 0xbb45435b; 0x7089df72; 0x87911699].

Definition SEED_S3 : list Z :=
  [0x79428fdc; 0x441b5b7f; 0x9239fb1f; 0xa6429229; 0xd4da1114; 0x95d06bb1;
   0xb9016397; 0x4d8d0366; 0x60145403; 0x266cbbdc; 0x9512a7fa; 0x5f3b4ad1;
   0xac43ddc6; 0x988d98ec; 0x8a9fc70e; 0x6acf6179; 0xf5cf08e5; 0xafb27d12;
   0x774bc0b2; 0x6e7e4a53; 0x6386d54b; 0x838cdd71; 0x219eca7d; 0x6bf3c52e;
   0x8a744003; 0xc247371f; 0x5651ba81; 0x89019b17; 0xbc03101e; 0x9f635580;
   0x41ade38a; 0x4a852e18; 0x391d73f4; 0xbf85f074; 0xd02cba68; 0x7c8f066d;
   0xb252f0cc; 0x503bc897; 0x5135c4b8; 0x55a4d9cd; 0x4e900ecf; 0x7b30ecb8;
   0x396e92dc; 0xa7776198; 0xa5c1bbd3; 0xbc147a29; 0x510d6e13; 0x9eec8bcc;
   0x80d1536d; 0x3a9416ae; 0x8c76b709; 0x84b19d8a; 0x373f00fc; 0x92bb6321;
   0x911cf3e6; 0xe41eca6f; 0x804c4dda; 0x848ecc06; 0x63823ef6; 0xaf2c83b2;
   0x72e0e4b7; 0x70b39a27; 0xf1daa61e; 0x4e1934d3; 0x6e12a235; 0xc3aa0762;
   0x3fd0689f; 0x39530116; 0x9d490b0e; 0x7f842f4f; 0x346ea126; 0x8e1301aa;
   0x42f2b0e5; 0x6e75cfb7; 0x3ea7fb4f; 0xafb8eaa5; 0x88e35146; 0x757732d2;
   0x300caac1; 0x6d69f0f1; 0xcc3db329; 0x98a8a636; 0x796f9d40; 0x831d8563;
   0x1e0a0b84; 0xc51ea744; 0x6644ae70; 0x87339baa; 0x65d3769f; 0x4fac4f31;
   0x934bbece; 0xd60451f4; 0x9fd1bea3; 0x96ed077a; 0x8f0bec6f; 0x6dfdb65c;
   0xb56af0be; 0x6757bb61; 0x58a203e0; 0x4593364e; 0x6d16f577; 0xc924bc0f;
   0xdde38680; 0x7c93033d; 0x4601c31d; 0x68326f0d; 0x4ba48c44; 0x757c9200;
   0x89b245ca; 0x3b54b44c; 0x90c091e5; 0x7407d1d2; 0xaff8c73d; 0x750610a3;
   0x45d4cdf7; 0x7f46da82; 0x454b2483; 0x86476756; 0x98c3ee4c; 0x66e5a823;
   0x4f19bd01; 0xb8133355; 0x8d4ed832; 0x8634942d; 0xb9f95ed0; 0xafbf5036;
   0xeadbb323; 0x90e57359; 0x7f26af3b; 0xa36f457e; 0xc084caed; 0x77e740a1;
   0x6b21b692; 0xa8fe9a74; 0x8109128a; 0x62ab5649; 0x5efc59c7; 0xeae118d1;
   0xc84e4ef5; 0x834c4ff8; 0x329ef579; 0x4d019e7b; 0xd6d2c238; 0xb84f22fe;
   0x63d295d2; 0x1af4eea7; 0x7e74887e; 0xaa275031; 0x910ad741; 0x6d7be3f0;
   0x630a2d3d; 0x6236b958; 0x6ae5c3d9; 0x2e51b900; 0x3e2d7f29; 0x357bc093;
   0x64a9a928; 0x8e471d40; 0x606470e4; 0x9175dcd5; 0x2254a8bc; 0x688e6777;
   0xbf46fac7; 0x8a5f704a; 0xe5dba24f; 0x6265bbd6; 0xc8028e75; 0x8aec5691;
   0x91b4475a; 0x661c651c; 0x6adc188b; 0xc0ae3b26; 0x9e1584be; 0x8b022d14;
   0x158b98a6; 0x42b0fc5a; 0x48e2d568; 0xd8a9729c; 0x3df51b7a; 0x587ba238;
   0x5ae43722; 0x6cb68d56; 0x7f7dd33f; 0x55cf17e6; 0xb0e0f37b; 0x6113e11c;
   0x5783a2b3; 0x6b42cdba; 0x70b774a9; 0xf4131d15; 0x12bd04b9; 0x3e234eb1;
   0x62037d41; 0xe3c9aa51; 0x79d5a435; 0xc3c95686; 0x7726aa9a; 0x77a0a0ef;
   0xa822c7c6; 0x87d69872; 0x895b35d9; 0x74c0c747; 0xaac95d1; 0xd677fffd;
   0x56488fd1; 0x81a717cb; 0x814f3683; 0x44a56ead; 0x569727cb; 0x834b4c82;
   0x64b46589; 0xa526a757; 0x779486e7; 0x527f8dfc; 0x6a37011d; 0x78bb09ee;
   0xc3409ffc; 0xd4710f82; 0xcd7f6637; 0xc951404a; 0x75742c94; 0xccd8a94;
   0x8ac2be92; 0x5a1616dc; 0x79e21241; 0x31c6b25e; 0xa4760669; 0xba7187ee;
   0x73b4a1fe; 0xbbc1dbfd; 0x67473c59; 0xd17dda12; 0xa1f8b720; 0x78751224;
   0x50d7f915; 0x93401360; 0x8cbeaa84; 0xbd0f88c0; 0x71809737; 0x78db4f75;
   0x748702fd; 0x49f92143; 0x818f5b8b; 0xb50796b6; 0x915bbf1b; 0x532fa0a5;
   0xa546589e; 0xa32ad7ca; 0xca9c644d; 0x36b72d17; 0x5d663c5d; 0xe1c0830c;
   0x6a04de6d; 0x81a64ff8; 0x35f5ab6b; 0xc6e81f1d].

Definition SEED_S : list (list Z) := [SEED_S0; SEED_S1; SEED_S2; SEED_S3].
