(* ===== verification/Blowfish.v ===== *)
(** * The Blowfish cipher of the OOB library

    Models [Library/CBlowfish.c]. The C globals [good], [chunkSize], [P] and
    [S] are the fields of [CBlowfish]; [CHAR8] is the signed [char] of the
    EDK, so a key byte of 0x80 and above is sign-extended when it is or-ed
    into the 32-bit subkey word. A table access outside its bounds is a
    [Fault]. Strings ([Key]) are the list of their bytes without the NUL. *)

From S2P Require Import Prelude BlowfishTables.

Record CBlowfish := mkCBlowfish {
  good : Z;
  chunkSize : Z;
  P : list Z;
  S : list (list Z);
}.

(** The globals before the first initialisation. *)
Definition CBlowfish_globals : CBlowfish :=
  mkCBlowfish 0 0 (replicate 18 0) (replicate 4 (replicate 256 0)).

Definition S_get (bf : CBlowfish) (i j : Z) : Res Z :=
  row ← arr_get (S bf) i; arr_get row j.

Definition F (bf : CBlowfish) (x : Z) : Res Z :=
  let d := Z.land x 0x00FF in
  let x := Z.shiftr x 8 in
  let c := Z.land x 0x00FF in
  let x := Z.shiftr x 8 in
  let b := Z.land x 0x00FF in
  let x := Z.shiftr x 8 in
  let a := Z.land x 0x00FF in
  sa ← S_get bf 0 a;
  sb ← S_get bf 1 b;
  sc ← S_get bf 2 c;
  sd ← S_get bf 3 d;
  let y := u32 (sa + sb) in
  let y := Z.lxor y sc in
  let y := u32 (y + sd) in
  Done y.

(** The [for] loop of the encipherer: [n] rounds from index [i]. *)
Fixpoint enc_rounds (bf : CBlowfish) (n : nat) (i : Z) (Xl Xr : Z) : Res (Z * Z) :=
  match n with
  | O => Done (Xl, Xr)
  | Datatypes.S n =>
      p ← arr_get (P bf) i;
      let Xl := Z.lxor Xl p in
      f ← F bf Xl;
      let Xr := Z.lxor f Xr in
      enc_rounds bf n (i + 1) Xr Xl
  end.

Definition CBlowFishEncipher (bf : CBlowfish) (xl xr : Z) : Res (Z * Z) :=
  '(Xl, Xr) ← enc_rounds bf (Z.to_nat N) 0 xl xr;
  let temp := Xl in
  let Xl := Xr in
  let Xr := temp in
  pN ← arr_get (P bf) N;
  pN1 ← arr_get (P bf) (N + 1);
  Done (Z.lxor Xl pN1, Z.lxor Xr pN).

(** The decipherer's loop counts [i] down; [n] rounds remain. *)
Fixpoint dec_rounds (bf : CBlowfish) (n : nat) (i : Z) (Xl Xr : Z) : Res (Z * Z) :=
  match n with
  | O => Done (Xl, Xr)
  | Datatypes.S n =>
      p ← arr_get (P bf) i;
      let Xl := Z.lxor Xl p in
      f ← F bf Xl;
      let Xr := Z.lxor f Xr in
      dec_rounds bf n (i - 1) Xr Xl
  end.

(** [for (i = N + 1; i > 1; --i)] makes [N] rounds. *)
Definition CBlowFishDecipher (bf : CBlowfish) (xl xr : Z) : Res (Z * Z) :=
  '(Xl, Xr) ← dec_rounds bf (Z.to_nat N) (N + 1) xl xr;
  let temp := Xl in
  let Xl := Xr in
  let Xr := temp in
  p1 ← arr_get (P bf) 1;
  p0 ← arr_get (P bf) 0;
  Done (Z.lxor Xl p0, Z.lxor Xr p1).

(** ** Key schedule *)

(** A [CHAR8] promoted to [int]. *)
Definition sext8 (c : Z) : Z := if c <? 128 then c else c - 256.

(** Four key bytes make a subkey word; the key index wraps. *)
Fixpoint key_word (Key : list Z) (n : nat) (data j : Z) : Res (Z * Z) :=
  match n with
  | O => Done (data, j)
  | Datatypes.S n =>
      c ← arr_get Key j;
      let data := Z.lor (u32 (Z.shiftl data 8)) (u32 (sext8 c)) in
      let j := j + 1 in
      key_word Key n data (if zlen Key <=? j then 0 else j)
  end.

Fixpoint xor_key (Key : list Z) (n : nat) (i j : Z) (Ps : list Z) : Res (list Z) :=
  match n with
  | O => Done Ps
  | Datatypes.S n =>
      '(data, j) ← key_word Key 4 0 j;
      p ← arr_get Ps i;
      Ps ← arr_set Ps i (Z.lxor p data);
      xor_key Key n (i + 1) j Ps
  end.

Definition set_P (bf : CBlowfish) (Ps : list Z) : CBlowfish :=
  mkCBlowfish (good bf) (chunkSize bf) Ps (S bf).
Definition set_S (bf : CBlowfish) (Ss : list (list Z)) : CBlowfish :=
  mkCBlowfish (good bf) (chunkSize bf) (P bf) Ss.

(** The chained encryptions that fill [P], two words a step. *)
Fixpoint fill_P (n : nat) (i datal datar : Z) (bf : CBlowfish) : Res (CBlowfish * Z * Z) :=
  match n with
  | O => Done (bf, datal, datar)
  | Datatypes.S n =>
      '(datal, datar) ← CBlowFishEncipher bf datal datar;
      Ps ← arr_set (P bf) i datal;
      Ps ← arr_set Ps (i + 1) datar;
      fill_P n (i + 2) datal datar (set_P bf Ps)
  end.

Definition S_set (bf : CBlowfish) (i j v : Z) : Res CBlowfish :=
  row ← arr_get (S bf) i;
  row ← arr_set row j v;
  Ss ← arr_set (S bf) i row;
  Done (set_S bf Ss).

Fixpoint fill_row (n : nat) (i j datal datar : Z) (bf : CBlowfish) : Res (CBlowfish * Z * Z) :=
  match n with
  | O => Done (bf, datal, datar)
  | Datatypes.S n =>
      '(datal, datar) ← CBlowFishEncipher bf datal datar;
      bf ← S_set bf i j datal;
      bf ← S_set bf i (j + 1) datar;
      fill_row n i (j + 2) datal datar bf
  end.

Fixpoint fill_S (n : nat) (i datal datar : Z) (bf : CBlowfish) : Res (CBlowfish * Z * Z) :=
  match n with
  | O => Done (bf, datal, datar)
  | Datatypes.S n =>
      '(bf, datal, datar) ← fill_row 128 i 0 datal datar bf;
      fill_S n (i + 1) datal datar bf
  end.

Definition CBlowFishInit (Key : list Z) (bf : CBlowfish) : Res CBlowfish :=
  if (54 <? zlen Key) || (zlen Key <? 4) then
    Done (mkCBlowfish 0 (chunkSize bf) (P bf) (S bf))
  else
    Ps ← xor_key Key (Z.to_nat (N + 2)) 0 0 SEED_P;
    let bf := mkCBlowfish 1 8 Ps SEED_S in
    '(bf, datal, datar) ← fill_P 9 0 0 0 bf;
    '(bf, _, _) ← fill_S 4 0 datal datar bf;
    Done bf.

(** ** Whole buffers *)

(** One pass over the 8-byte blocks; [op] is the block function. *)
Fixpoint blocks (op : Z -> Z -> Res (Z * Z)) (n : nat) (i chunk : Z)
    (buffer : list Z) : Res (list Z) :=
  match n with
  | O => Done buffer
  | Datatypes.S n =>
      l ← rd32 buffer (i * chunk);
      r ← rd32 buffer (i * chunk + chunk / 2);
      '(l, r) ← op l r;
      buffer ← wr32 buffer (i * chunk) l;
      buffer ← wr32 buffer (i * chunk + chunk / 2) r;
      blocks op n (i + 1) chunk buffer
  end.

(** Returns the status byte and the buffer; [bSize % 0] faults. *)
Definition CBlowFishEncipherCharArray (bf : CBlowfish) (buffer : list Z)
    (BufferSize bSize : Z) : Res (Z * list Z) :=
  if bSize =? 0 then Done (0, buffer)
  else if BufferSize <? bSize then Done (0, buffer)
  else if chunkSize bf =? 0 then Fault
  else if negb (bSize mod chunkSize bf =? 0) then Done (0, buffer)
  else
    buffer ← blocks (CBlowFishEncipher bf) (Z.to_nat (bSize / chunkSize bf)) 0
      (chunkSize bf) buffer;
    Done (1, buffer).

Definition CBlowFishDecipherChararray (bf : CBlowfish) (buffer : list Z)
    (BufferSize bSize : Z) : Res (Z * list Z) :=
  if bSize =? 0 then Done (0, buffer)
  else if BufferSize <? bSize then Done (0, buffer)
  else if chunkSize bf =? 0 then Fault
  else if negb (bSize mod chunkSize bf =? 0) then Done (0, buffer)
  else
    buffer ← blocks (CBlowFishDecipher bf) (Z.to_nat (bSize / chunkSize bf)) 0
      (chunkSize bf) buffer;
    Done (1, buffer).

(** ** Well-formed tables *)
Definition row_wf (row : list Z) : Prop := zlen row = 256 /\ Forall is_u32 row.

Definition bf_wf (bf : CBlowfish) : Prop :=
  zlen (P bf) = 18 /\ Forall is_u32 (P bf) /\
  zlen (S bf) = 4 /\ Forall row_wf (S bf).

Lemma lxor_u32 a b : is_u32 a -> is_u32 b -> is_u32 (Z.lxor a b).
Proof.
  intros [Ha Ha'] [Hb Hb']. split; [apply Z.lxor_nonneg; lia|].
  apply Z.bounded_iff_bits_nonneg; [lia|apply Z.lxor_nonneg; lia|].
  intros l Hl. rewrite Z.lxor_spec.
  rewrite (proj1 (Z.bounded_iff_bits_nonneg 32 a ltac:(lia) Ha) Ha' l Hl).
  by rewrite (proj1 (Z.bounded_iff_bits_nonneg 32 b ltac:(lia) Hb) Hb' l Hl).
Qed.

Lemma land_255 x : 0 <= Z.land x 0x00FF < 256.
Proof. change 0x00FF with (Z.ones 8). rewrite Z.land_ones by lia. apply Z.mod_pos_bound. lia. Qed.

Lemma arr_get_Forall {A} (Q : A -> Prop) (a : list A) i :
  Forall Q a -> 0 <= i < zlen a -> exists v, arr_get a i = Done v /\ Q v.
Proof.
  intros Hf Hi. destruct (arr_get_in a i Hi) as (v & Hg & Hl).
  exists v. split; [done|]. by eapply Forall_lookup_1.
Qed.

Lemma S_get_total bf i j :
  bf_wf bf -> 0 <= i < 4 -> 0 <= j < 256 ->
  exists v, S_get bf i j = Done v /\ is_u32 v.
Proof.
  intros (_ & _ & Hn & Hs) Hi Hj. unfold S_get.
  destruct (arr_get_Forall row_wf (S bf) i Hs) as (row & -> & Hl & Hr); [lia|].
  rewrite bind_Done. apply arr_get_Forall; [done|lia].
Qed.

Lemma F_total bf x : bf_wf bf -> exists y, F bf x = Done y /\ is_u32 y.
Proof.
  intros H. unfold F.
  do 4 match goal with |- context [S_get bf ?i (Z.land ?v 0x00FF)] =>
    destruct (S_get_total bf i (Z.land v 0x00FF) H ltac:(lia) (land_255 v))
      as (? & -> & ?); rewrite bind_Done end.
  eexists. split; [done|apply u32_range].
Qed.

Lemma P_total bf i : bf_wf bf -> 0 <= i < 18 -> exists p, arr_get (P bf) i = Done p /\ is_u32 p.
Proof. intros (Hn & Hp & _) Hi. apply arr_get_Forall; [done|lia]. Qed.

(** ** The Feistel rounds *)

Lemma enc_rounds_S bf n i l r :
  enc_rounds bf (Datatypes.S n) i l r =
  (p ← arr_get (P bf) i; f ← F bf (Z.lxor l p);
   enc_rounds bf n (i + 1) (Z.lxor f r) (Z.lxor l p)).
Proof. reflexivity. Qed.

(** [n + 1] rounds are [n] rounds and one more. *)
Lemma enc_rounds_snoc bf n i l r :
  enc_rounds bf (Datatypes.S n) i l r =
  ('(l', r') ← enc_rounds bf n i l r;
   p ← arr_get (P bf) (i + Z.of_nat n);
   f ← F bf (Z.lxor l' p);
   Done (Z.lxor f r', Z.lxor l' p)).
Proof.
  revert i l r. induction n as [|n IH]; intros i l r.
  - cbn. by rewrite Z.add_0_r.
  - rewrite enc_rounds_S, (enc_rounds_S bf n). destruct (arr_get (P bf) i) as [p| |];
      [rewrite !bind_Done|reflexivity..].
    destruct (F bf (Z.lxor l p)) as [f| |]; [rewrite !bind_Done|reflexivity..].
    rewrite IH. by replace (i + 1 + Z.of_nat n) with (i + Z.of_nat (Datatypes.S n)) by lia.
Qed.

Lemma enc_rounds_total bf n i l r :
  bf_wf bf -> 0 <= i -> i + Z.of_nat n <= 18 -> is_u32 l -> is_u32 r ->
  exists l' r', enc_rounds bf n i l r = Done (l', r') /\ is_u32 l' /\ is_u32 r'.
Proof.
  intros H. revert i l r. induction n as [|n IH]; intros i l r Hi Hn Hl Hr.
  - exists l, r. done.
  - cbn [enc_rounds].
    destruct (P_total bf i H) as (p & -> & Hp); [lia|]. rewrite bind_Done.
    destruct (F_total bf (Z.lxor l p) H) as (f & -> & Hf). rewrite bind_Done.
    apply IH; [lia..| |]; apply lxor_u32; done.
Qed.

Lemma lxor_cancel a b : Z.lxor (Z.lxor a b) b = a.
Proof. by rewrite Z.lxor_assoc, Z.lxor_nilpotent, Z.lxor_0_r. Qed.

(** Deciphering runs the enciphering rounds backwards: the half-block pair
    after [n] rounds, whitened with subkeys [n] and [n + 1], is taken back
    to the input whitened with subkeys 0 and 1. *)
Lemma dec_enc_rounds bf n l r ln rn pn pn1 p0 p1 :
  bf_wf bf -> Z.of_nat n <= 16 ->
  enc_rounds bf n 0 l r = Done (ln, rn) ->
  arr_get (P bf) (Z.of_nat n) = Done pn ->
  arr_get (P bf) (Z.of_nat n + 1) = Done pn1 ->
  arr_get (P bf) 0 = Done p0 -> arr_get (P bf) 1 = Done p1 ->
  dec_rounds bf n (Z.of_nat n + 1) (Z.lxor rn pn1) (Z.lxor ln pn) =
    Done (Z.lxor r p1, Z.lxor l p0).
Proof.
  intros H. revert ln rn pn pn1. induction n as [|n IH];
    intros ln rn pn pn1 Hn He Hpn Hpn1 Hp0 Hp1.
  - injection He as <- <-. change (Z.of_nat 0) with 0 in *. cbn [dec_rounds].
    rewrite Z.add_0_l in Hpn1. congruence.
  - rewrite enc_rounds_snoc in He.
    apply bind_inv in He as ([l' r'] & He & Hk).
    rewrite Z.add_0_l in Hk.
    apply bind_inv in Hk as (q & Hq & Hk). apply bind_inv in Hk as (f & Hf & Hk).
    injection Hk as <- <-. cbn [dec_rounds].
    rewrite Hpn1, bind_Done, lxor_cancel, Hf, bind_Done.
    replace (Z.of_nat (Datatypes.S n) + 1 - 1) with (Z.of_nat n + 1) by lia.
    rewrite (Z.lxor_assoc f r' pn), <- (Z.lxor_assoc f f), Z.lxor_nilpotent, Z.lxor_0_l.
    apply (IH l' r' q pn); try done; [lia|].
    by replace (Z.of_nat n + 1) with (Z.of_nat (Datatypes.S n)) by lia.
Qed.

Lemma CBlowFishEncipher_total bf l r :
  bf_wf bf -> is_u32 l -> is_u32 r ->
  exists l' r', CBlowFishEncipher bf l r = Done (l', r') /\ is_u32 l' /\ is_u32 r'.
Proof.
  intros H Hl Hr. unfold CBlowFishEncipher. change (Z.to_nat N) with 16%nat.
  destruct (enc_rounds_total bf 16 0 l r H) as (l' & r' & -> & Hl' & Hr'); try done.
  rewrite bind_Done. unfold N.
  destruct (P_total bf 16 H) as (? & -> & ?); [lia|].
  destruct (P_total bf (16 + 1) H) as (? & -> & ?); [lia|].
  rewrite !bind_Done. do 2 eexists. split; [done|]. split; by apply lxor_u32.
Qed.

Lemma CBlowFish_inverse bf l r l' r' :
  bf_wf bf -> CBlowFishEncipher bf l r = Done (l', r') ->
  CBlowFishDecipher bf l' r' = Done (l, r).
Proof.
  intros H He. unfold CBlowFishEncipher in He.
  change (Z.to_nat N) with 16%nat in He. unfold N in *.
  apply bind_inv in He as ([ln rn] & He & Hk).
  apply bind_inv in Hk as (p16 & H16 & Hk). apply bind_inv in Hk as (p17 & H17 & Hk).
  injection Hk as <- <-.
  destruct (P_total bf 0 H) as (p0 & H0 & _); [lia|].
  destruct (P_total bf 1 H) as (p1 & H1 & _); [lia|].
  unfold CBlowFishDecipher, N. change (Z.to_nat 16) with 16%nat.
  change (16 + 1) with (Z.of_nat 16 + 1).
  rewrite (dec_enc_rounds bf 16 l r ln rn p16 p17 p0 p1 H); try done.
  rewrite bind_Done, H0, H1, !bind_Done. by rewrite !lxor_cancel.
Qed.

(** ** The key schedule always completes *)
Lemma lor_u32 a b : is_u32 a -> is_u32 b -> is_u32 (Z.lor a b).
Proof.
  intros [Ha Ha'] [Hb Hb']. split; [apply Z.lor_nonneg; lia|].
  apply Z.bounded_iff_bits_nonneg; [lia|apply Z.lor_nonneg; lia|].
  intros l Hl. rewrite Z.lor_spec.
  rewrite (proj1 (Z.bounded_iff_bits_nonneg 32 a ltac:(lia) Ha) Ha' l Hl).
  by rewrite (proj1 (Z.bounded_iff_bits_nonneg 32 b ltac:(lia) Hb) Hb' l Hl).
Qed.

Lemma key_word_total Key n data j :
  is_u32 data -> 0 <= j < zlen Key ->
  exists data' j', key_word Key n data j = Done (data', j') /\
    is_u32 data' /\ 0 <= j' < zlen Key.
Proof.
  revert data j. induction n as [|n IH]; intros data j Hd Hj.
  - exists data, j. done.
  - cbn [key_word]. destruct (arr_get_in Key j Hj) as (c & -> & _).
    rewrite bind_Done. apply IH; [apply lor_u32; apply u32_range|].
    destruct (Z.leb_spec (zlen Key) (j + 1)); lia.
Qed.

Lemma arr_set_total {A} (a : list A) i v :
  0 <= i < zlen a -> exists a', arr_set a i v = Done a' /\ zlen a' = zlen a /\
    forall Q, Forall Q a -> Q v -> Forall Q a'.
Proof.
  intros Hi. exists (<[Z.to_nat i := v]> a). split_and!.
  - by apply arr_set_Done.
  - unfold zlen. by rewrite length_insert.
  - intros Q Ha Hv. by apply Forall_insert.
Qed.

Lemma xor_key_total Key n i j Ps :
  0 <= j < zlen Key -> 0 <= i -> i + Z.of_nat n <= zlen Ps -> Forall is_u32 Ps ->
  exists Ps', xor_key Key n i j Ps = Done Ps' /\ zlen Ps' = zlen Ps /\ Forall is_u32 Ps'.
Proof.
  revert i j Ps. induction n as [|n IH]; intros i j Ps Hj Hi Hn Hp.
  - exists Ps. done.
  - cbn [xor_key].
    destruct (key_word_total Key 4 0 j) as (d & j' & -> & Hd & Hj'); [|done|].
    { unfold is_u32. lia. }
    rewrite bind_Done.
    destruct (arr_get_Forall is_u32 Ps i Hp) as (p & -> & Hpp); [lia|].
    rewrite bind_Done.
    destruct (arr_set_total Ps i (Z.lxor p d)) as (Ps' & -> & Hl & Hf); [lia|].
    rewrite bind_Done.
    destruct (IH (i + 1) j' Ps') as (Ps2 & -> & ? & ?); try done; try lia.
    { apply Hf; [done|by apply lxor_u32]. }
    exists Ps2. split_and!; [done|lia|done].
Qed.

Lemma fill_P_total n i l r bf :
  bf_wf bf -> 0 <= i -> i + 2 * Z.of_nat n <= 18 -> is_u32 l -> is_u32 r ->
  exists bf' l' r', fill_P n i l r bf = Done (bf', l', r') /\ bf_wf bf' /\
    is_u32 l' /\ is_u32 r' /\ good bf' = good bf /\ chunkSize bf' = chunkSize bf.
Proof.
  revert i l r bf. induction n as [|n IH]; intros i l r bf H Hi Hn Hl Hr.
  - exists bf, l, r. done.
  - cbn [fill_P]. destruct (CBlowFishEncipher_total bf l r H Hl Hr) as (l1 & r1 & -> & ? & ?).
    rewrite bind_Done. destruct H as (Hz & Hp & Hs).
    destruct (arr_set_total (P bf) i l1) as (P1 & -> & Hl1 & Hf1); [lia|]. rewrite bind_Done.
    destruct (arr_set_total P1 (i + 1) r1) as (P2 & -> & Hl2 & Hf2); [lia|]. rewrite bind_Done.
    destruct (IH (i + 2) l1 r1 (set_P bf P2)) as (bf' & l' & r' & -> & ?); try done; try lia.
    { split; [cbn; lia|]. split; [cbn; auto|done]. }
    eauto 10.
Qed.

Lemma S_set_total bf i j v :
  bf_wf bf -> 0 <= i < 4 -> 0 <= j < 256 -> is_u32 v ->
  exists bf', S_set bf i j v = Done bf' /\ bf_wf bf' /\
    good bf' = good bf /\ chunkSize bf' = chunkSize bf.
Proof.
  intros (Hz & Hp & Hn & Hs) Hi Hj Hv. unfold S_set.
  destruct (arr_get_Forall row_wf (S bf) i Hs) as (row & -> & Hl & Hr); [lia|].
  rewrite bind_Done.
  destruct (arr_set_total row j v) as (row' & -> & Hl' & Hf'); [lia|]. rewrite bind_Done.
  destruct (arr_set_total (S bf) i row') as (S' & -> & HlS & HfS); [lia|]. rewrite bind_Done.
  eexists. split; [done|]. split; [|done]. split_and!; cbn; [done..|lia|].
  apply HfS; [done|]. split; [lia|auto].
Qed.

Lemma fill_row_total n i j l r bf :
  bf_wf bf -> 0 <= i < 4 -> 0 <= j -> j + 2 * Z.of_nat n <= 256 -> is_u32 l -> is_u32 r ->
  exists bf' l' r', fill_row n i j l r bf = Done (bf', l', r') /\ bf_wf bf' /\
    is_u32 l' /\ is_u32 r' /\ good bf' = good bf /\ chunkSize bf' = chunkSize bf.
Proof.
  revert j l r bf. induction n as [|n IH]; intros j l r bf H Hi Hj Hn Hl Hr.
  - exists bf, l, r. done.
  - cbn [fill_row]. destruct (CBlowFishEncipher_total bf l r H Hl Hr) as (l1 & r1 & -> & ? & ?).
    rewrite bind_Done.
    destruct (S_set_total bf i j l1 H) as (b1 & -> & Hb1 & G1 & C1); try done; [lia|].
    rewrite bind_Done.
    destruct (S_set_total b1 i (j + 1) r1 Hb1) as (b2 & -> & Hb2 & G2 & C2); try done; [lia|].
    rewrite bind_Done, <- G1, <- G2, <- C1, <- C2.
    apply IH; try done; lia.
Qed.

Lemma fill_S_total n i l r bf :
  bf_wf bf -> 0 <= i -> i + Z.of_nat n <= 4 -> is_u32 l -> is_u32 r ->
  exists bf' l' r', fill_S n i l r bf = Done (bf', l', r') /\ bf_wf bf' /\
    good bf' = good bf /\ chunkSize bf' = chunkSize bf.
Proof.
  revert i l r bf. induction n as [|n IH]; intros i l r bf H Hi Hn Hl Hr.
  - exists bf, l, r. done.
  - cbn [fill_S].
    destruct (fill_row_total 128 i 0 l r bf H) as (b1 & l1 & r1 & -> & ? & ? & ? & G & C);
      try done; try lia.
    rewrite bind_Done, <- G, <- C. apply IH; try done; lia.
Qed.

Lemma seeds_wf : zlen SEED_P = 18 /\ Forall is_u32 SEED_P /\
  zlen SEED_S = 4 /\ Forall row_wf SEED_S.
Proof.
  assert (D : forall l, forallb (fun v => (0 <=? v) && (v <? 2 ^ 32)) l = true -> Forall is_u32 l).
  { induction l as [|x l IH]; cbn [forallb]; [constructor|].
    intros [Hx Hl]%andb_prop. constructor; [unfold is_u32; lia|auto]. }
  split_and!; [done| |done|]; [apply D; vm_compute; reflexivity|].
  assert (R : forall l, zlen l = 256 -> forallb (fun v => (0 <=? v) && (v <? 2 ^ 32)) l = true ->
    row_wf l) by (split; auto).
  repeat apply Forall_cons_2; try apply Forall_nil_2; apply R; vm_compute; reflexivity.
Qed.

(** ** Whole buffers, as a function of the block sequence *)
Fixpoint bmap (op : Z -> Z -> Res (Z * Z)) (n : nat) (data : list Z) : Res (list Z) :=
  match n with
  | O => Done []
  | Datatypes.S n =>
      '(l, r) ← op (le_val (take 4 data)) (le_val (take 4 (drop 4 data)));
      rest ← bmap op n (drop 8 data);
      Done (le_bytes 4 l ++ le_bytes 4 r ++ rest)
  end.

(** The first block of a buffer of [n + 1] blocks. *)
Lemma split_block (data : list Z) n :
  zlen data = 8 * Z.of_nat (Datatypes.S n) ->
  exists a b c, data = a ++ b ++ c /\ zlen a = 4 /\ zlen b = 4 /\
    zlen c = 8 * Z.of_nat n /\
    take 4 data = a /\ take 4 (drop 4 data) = b /\ drop 8 data = c.
Proof.
  intros Hd. exists (take 4 data), (take 4 (drop 4 data)), (drop 8 data).
  split_and!; try zl; try done.
  change 8%nat with (4 + 4)%nat. rewrite <- drop_drop. by rewrite !take_drop.
Qed.

Lemma block_parts (a b c : list Z) :
  zlen a = 4 -> zlen b = 4 ->
  take 4 (a ++ b ++ c) = a /\ take 4 (drop 4 (a ++ b ++ c)) = b /\
  drop 8 (a ++ b ++ c) = c.
Proof.
  intros Ha Hb.
  assert (length a = 4%nat) by (unfold zlen in Ha; lia).
  assert (length b = 4%nat) by (unfold zlen in Hb; lia). split_and!.
  - by rewrite take_app_length'.
  - by rewrite drop_app_length', take_app_length'.
  - rewrite app_assoc. apply drop_app_length'. rewrite length_app. lia.
Qed.

Lemma blocks_bmap op n i pre data post :
  zlen pre = i * 8 -> zlen data = 8 * Z.of_nat n ->
  blocks op n i 8 (pre ++ data ++ post) =
  (d ← bmap op n data; Done (pre ++ d ++ post)).
Proof.
  revert i pre data. induction n as [|n IH]; intros i pre data Hp Hd.
  - assert (data = []) as -> by (apply length_zero_iff_nil; unfold zlen in Hd; lia).
    done.
  - destruct (split_block data n Hd) as (a & b & c & -> & Ha & Hb & Hc & Ea & Eb & Ec).
    cbn [blocks bmap]. rewrite Ea, Eb, Ec. change (8 / 2) with 4.
    unfold rd32, wr32. rewrite <- !app_assoc.
    rewrite (rdn_at pre a _ (i * 8) 4) by done. rewrite !bind_Done.
    rewrite (app_assoc pre a), (rdn_at (pre ++ a) b _ (i * 8 + 4) 4) by zl.
    rewrite !bind_Done.
    destruct (op (le_val a) (le_val b)) as [[l r]| |]; [rewrite !bind_Done|done..].
    rewrite <- app_assoc, (wrn_at pre a _ (i * 8) (le_bytes 4 l)), bind_Done by zl.
    rewrite (app_assoc pre), (wrn_at (pre ++ le_bytes 4 l) b _ (i * 8 + 4)), bind_Done by zl.
    rewrite app_assoc, IH by zl.
    destruct (bmap op n c); [rewrite !bind_Done|done..]. by rewrite <- !app_assoc.
Qed.

Lemma bmap_total op n data :
  (forall l r, is_u32 l -> is_u32 r ->
     exists l' r', op l r = Done (l', r') /\ is_u32 l' /\ is_u32 r') ->
  bytes_ok data -> zlen data = 8 * Z.of_nat n ->
  exists d, bmap op n data = Done d /\ zlen d = zlen data /\ bytes_ok d.
Proof.
  intros Hop. revert data. induction n as [|n IH]; intros data Hd Hl.
  - exists []. split_and!; [done|rewrite Hl; done|constructor].
  - cbn [bmap].
    destruct (Hop (le_val (take 4 data)) (le_val (take 4 (drop 4 data))))
      as (l & r & -> & _ & _).
    { apply le_val_4_range; [by apply Forall_take|zl]. }
    { apply le_val_4_range; [by apply Forall_take, Forall_drop|zl]. }
    rewrite bind_Done.
    destruct (IH (drop 8 data)) as (d & -> & Hz & Hb); [by apply Forall_drop|zl|].
    rewrite bind_Done. eexists. split; [done|]. split; [zl|].
    unfold bytes_ok. rewrite !Forall_app. split_and!; [apply le_bytes_ok..|done].
Qed.

Lemma bmap_inverse op op' n data d :
  (forall l r l' r', op l r = Done (l', r') -> op' l' r' = Done (l, r)) ->
  (forall l r, is_u32 l -> is_u32 r ->
     exists l' r', op l r = Done (l', r') /\ is_u32 l' /\ is_u32 r') ->
  bytes_ok data -> zlen data = 8 * Z.of_nat n ->
  bmap op n data = Done d -> bmap op' n d = Done data.
Proof.
  intros Hinv Hop. revert data d. induction n as [|n IH]; intros data d Hd Hl.
  - intros [=<-]. apply (f_equal Done). symmetry. apply length_zero_iff_nil.
    unfold zlen in Hl. lia.
  - destruct (split_block data n Hl) as (a & b & c & -> & Ha & Hb & Hc & Ea & Eb & Ec).
    apply Forall_app in Hd as [Ba Hd]. apply Forall_app in Hd as [Bb Bc].
    cbn [bmap]. rewrite Ea, Eb, Ec.
    destruct (Hop (le_val a) (le_val b)) as (l & r & E & Ul & Ur);
      [by apply le_val_4_range..|].
    rewrite E, bind_Done. intros (rest & Hr & ->%Done_inj)%bind_inv.
    destruct (block_parts (le_bytes 4 l) (le_bytes 4 r) rest) as (-> & -> & ->);
      [apply zlen_le_bytes..|].
    rewrite !le_val_4, (Hinv _ _ _ _ E), bind_Done, (IH c rest), bind_Done by done.
    f_equal. unfold zlen in Ha, Hb.
    replace 4%nat with (length a) at 1 by lia. replace 4%nat with (length b) by lia.
    by rewrite !le_bytes_le_val.
Qed.

(** A key of legal length. *)
Lemma CBlowFishInit_key Key bf :
  4 <= zlen Key <= 54 ->
  exists bf', CBlowFishInit Key bf = Done bf' /\ good bf' = 1 /\ chunkSize bf' = 8 /\ bf_wf bf'.
Proof.
  intros Hk. unfold CBlowFishInit.
  replace ((54 <? zlen Key) || (zlen Key <? 4)) with false by lia.
  destruct seeds_wf as (HP & HPf & HS).
  destruct (xor_key_total Key 18 0 0 SEED_P) as (Ps & E & Hz & Hf); try done; try lia.
  change (Z.to_nat (N + 2)) with 18%nat. rewrite E, bind_Done.
  assert (U0 : is_u32 0) by (unfold is_u32; lia).
  assert (W0 : bf_wf (mkCBlowfish 1 8 Ps SEED_S)).
  { split; [|exact (conj Hf HS)]. change (zlen Ps = 18). lia. }
  destruct (fill_P_total 9 0 0 0 (mkCBlowfish 1 8 Ps SEED_S) W0)
    as (b1 & l1 & r1 & -> & W1 & ? & ? & G1 & C1); try done; try lia.
  rewrite bind_Done.
  destruct (fill_S_total 4 0 l1 r1 b1 W1) as (b2 & l2 & r2 & -> & W2 & G2 & C2);
    try done; try lia.
  rewrite bind_Done. exists b2. split; [done|].
  rewrite G2, G1, C2, C1. done.
Qed.

(** The buffer keeps its type. *)
Lemma blocks_area k op n i chunk b b' : blocks op n i chunk b = Done b' -> area k b -> area k b'.
Proof.
  revert i b. induction n as [|n IH]; intros i b; cbn [blocks]; [by intros [= <-]|].
  intros (l & _ & (r & _ & ([l' r'] & _ & (b1 & E1 & (b2 & E2 & K)%bind_inv)%bind_inv)%bind_inv)%bind_inv)%bind_inv.
  eauto with area.
Qed.

Lemma CharArray_area k bf b n m r b' :
  CBlowFishEncipherCharArray bf b n m = Done (r, b') -> area k b -> area k b'.
Proof.
  unfold CBlowFishEncipherCharArray.
  repeat match goal with |- (if ?c then _ else _) = _ -> _ => destruct c; [by intros [= _ <-]|] end.
  intros (b1 & E & [= _ <-])%bind_inv. by eapply blocks_area.
Qed.

(** Both directions on the first part of a buffer said to hold [size]
    bytes, whatever is behind it. *)
Lemma CharArray_any bf data :
  bf_wf bf -> chunkSize bf = 8 -> bytes_ok data ->
  0 < zlen data -> zlen data mod 8 = 0 ->
  exists data', zlen data' = zlen data /\ forall post size, zlen data <= size ->
    CBlowFishEncipherCharArray bf (data ++ post) size (zlen data) = Done (1, data' ++ post) /\
    CBlowFishDecipherChararray bf (data' ++ post) size (zlen data) = Done (1, data ++ post).
Proof.
  intros H Hc Hd Hpos Hm. unfold CBlowFishEncipherCharArray, CBlowFishDecipherChararray.
  rewrite Hc, Hm. replace (zlen data =? 0) with false by lia.
  set (n := Z.to_nat (zlen data / 8)).
  assert (Hn : zlen data = 8 * Z.of_nat n).
  { unfold n. pose proof (Z.div_mod (zlen data) 8). lia. }
  change (8 =? 0) with false. change (negb (0 =? 0)) with false. cbv iota.
  assert (T := CBlowFishEncipher_total bf).
  destruct (bmap_total (CBlowFishEncipher bf) n data) as (d & E & Hz & _); try done.
  { intros; by apply T. }
  exists d. split; [done|]. intros post size Hs. replace (size <? zlen data) with false by lia. split.
  - change (data ++ post) with ([] ++ data ++ post).
    by rewrite blocks_bmap, E, !bind_Done.
  - change (d ++ post) with ([] ++ d ++ post).
    rewrite blocks_bmap by (done || lia).
    rewrite (bmap_inverse (CBlowFishEncipher bf) _ n data d), !bind_Done; try done.
    + intros. by apply CBlowFish_inverse.
    + intros. by apply T.
Qed.

Lemma CharArray_sized bf data post size :
  bf_wf bf -> chunkSize bf = 8 -> bytes_ok data ->
  0 < zlen data -> zlen data mod 8 = 0 -> zlen data <= size ->
  exists data',
    CBlowFishEncipherCharArray bf (data ++ post) size (zlen data) = Done (1, data' ++ post) /\
    zlen data' = zlen data /\
    CBlowFishDecipherChararray bf (data' ++ post) size (zlen data) = Done (1, data ++ post).
Proof.
  intros H Hc Hd Hpos Hm Hs. destruct (CharArray_any bf data H Hc Hd Hpos Hm) as (d & Hz & Hp).
  exists d. destruct (Hp post size Hs) as [He Hde]. by split_and!.
Qed.

(** ** Properties *)

(** with any well-formed tables, deciphering undoes
    enciphering on every pair of words. *)
Theorem CBlowFishDecipher_Encipher bf l r :
  bf_wf bf -> is_u32 l -> is_u32 r ->
  exists l' r', CBlowFishEncipher bf l r = Done (l', r') /\
    is_u32 l' /\ is_u32 r' /\ CBlowFishDecipher bf l' r' = Done (l, r).
Proof.
  intros H Hl Hr. destruct (CBlowFishEncipher_total bf l r H Hl Hr) as (l' & r' & E & ? & ?).
  exists l', r'. split_and!; try done. by apply CBlowFish_inverse.
Qed.

Definition example_tables : CBlowfish := mkCBlowfish 1 8 SEED_P SEED_S.
Lemma example_tables_wf : bf_wf example_tables.
Proof. exact seeds_wf. Qed.

Lemma CBlowFishDecipher_Encipher_witness :
  exists l' r', CBlowFishEncipher example_tables 1 2 = Done (l', r') /\
    CBlowFishDecipher example_tables l' r' = Done (1, 2).
Proof.
  destruct (CBlowFishDecipher_Encipher example_tables 1 2 example_tables_wf
    ltac:(unfold is_u32; lia) ltac:(unfold is_u32; lia)) as (l' & r' & E & _ & _ & D).
  exists l', r'. split; [exact E|exact D].
Defined.

(** C34: (termination, bounds) for every key string the key schedule returns
    without a table access out of bounds; a key shorter than 4 or longer than
    54 characters clears [good] and leaves chunk size and tables alone, any
    other key sets [good] to 1, the chunk size to 8 and leaves well-formed
    tables. *)
Theorem CBlowFishInit_total Key bf :
  exists bf', CBlowFishInit Key bf = Done bf' /\
    (if (54 <? zlen Key) || (zlen Key <? 4)
     then good bf' = 0 /\ chunkSize bf' = chunkSize bf /\ P bf' = P bf /\ S bf' = S bf
     else good bf' = 1 /\ chunkSize bf' = 8 /\ bf_wf bf').
Proof.
  destruct ((54 <? zlen Key) || (zlen Key <? 4)) eqn:E.
  - unfold CBlowFishInit. rewrite E. eexists; split; done.
  - apply orb_false_iff in E as [E1 E2].
    destruct (CBlowFishInit_key Key bf) as (bf' & ? & ? & ? & ?); [lia|]. by exists bf'.
Qed.

(** C33: (roundtrip) enciphering the first [bSize] bytes of a buffer and
    deciphering them gives the buffer back, with both status bytes 1; the
    bytes from [bSize] on are not touched. *)
Theorem CBlowFish_CharArray_roundtrip bf data post :
  bf_wf bf -> chunkSize bf = 8 -> bytes_ok data ->
  0 < zlen data -> zlen data mod 8 = 0 ->
  exists data',
    CBlowFishEncipherCharArray bf (data ++ post) (zlen (data ++ post)) (zlen data)
      = Done (1, data' ++ post) /\ zlen data' = zlen data /\
    CBlowFishDecipherChararray bf (data' ++ post) (zlen (data ++ post)) (zlen data)
      = Done (1, data ++ post).
Proof. intros. apply CharArray_sized; try done. zl. Qed.

Lemma CBlowFish_CharArray_roundtrip_witness :
  exists data', CBlowFishEncipherCharArray example_tables [1;2;3;4;5;6;7;8;9] 9 8
    = Done (1, data' ++ [9]).
Proof.
  destruct (CBlowFish_CharArray_roundtrip example_tables [1;2;3;4;5;6;7;8] [9]
    example_tables_wf eq_refl ltac:(repeat constructor; lia) ltac:(by compute) eq_refl)
    as (d & E & _). exists d. exact E.
Defined.
