(* ===== verification/Ifr.v ===== *)
(** * IFR opcode streams

    The internal-forms representation the setup-template generator and the
    HII exporter walk: a stream of opcodes, each headed by an opcode byte and
    a byte holding the 7-bit length and the scope bit
    ([EFI_IFR_OP_HEADER]). A pointer into a stream is the offset in its
    buffer. The layouts are those of
    [MdePkg/Include/Uefi/UefiInternalFormRepresentation.h]. *)

From S2P Require Import Prelude.

Definition EFI_IFR_FORM_OP : Z := 0x01.
Definition EFI_IFR_SUBTITLE_OP : Z := 0x02.
Definition EFI_IFR_ONE_OF_OP : Z := 0x05.
Definition EFI_IFR_CHECKBOX_OP : Z := 0x06.
Definition EFI_IFR_NUMERIC_OP : Z := 0x07.
Definition EFI_IFR_ONE_OF_OPTION_OP : Z := 0x09.
Definition EFI_IFR_SUPPRESS_IF_OP : Z := 0x0A.
Definition EFI_IFR_FORM_SET_OP : Z := 0x0E.
Definition EFI_IFR_REF_OP : Z := 0x0F.
Definition EFI_IFR_EQ_ID_VAL_OP : Z := 0x12.
Definition EFI_IFR_EQ_ID_ID_OP : Z := 0x13.
Definition EFI_IFR_EQ_ID_VAL_LIST_OP : Z := 0x14.
Definition EFI_IFR_AND_OP : Z := 0x15.
Definition EFI_IFR_OR_OP : Z := 0x16.
Definition EFI_IFR_NOT_OP : Z := 0x17.
Definition EFI_IFR_DISABLE_IF_OP : Z := 0x1E.
Definition EFI_IFR_END_OP : Z := 0x29.
Definition EFI_IFR_GREATER_THAN_OP : Z := 0x31.
Definition EFI_IFR_GREATER_EQUAL_OP : Z := 0x32.
Definition EFI_IFR_LESS_THAN_OP : Z := 0x33.
Definition EFI_IFR_LESS_EQUAL_OP : Z := 0x34.
Definition EFI_IFR_ADD_OP : Z := 0x3A.
Definition EFI_IFR_SUBTRACT_OP : Z := 0x3B.
Definition EFI_IFR_MULTIPLY_OP : Z := 0x3C.
Definition EFI_IFR_DIVIDE_OP : Z := 0x3D.
Definition EFI_IFR_QUESTION_REF1_OP : Z := 0x40.
Definition EFI_IFR_UINT8_OP : Z := 0x42.
Definition EFI_IFR_UINT16_OP : Z := 0x43.
Definition EFI_IFR_UINT32_OP : Z := 0x44.
Definition EFI_IFR_UINT64_OP : Z := 0x45.
Definition EFI_IFR_TRUE_OP : Z := 0x46.
Definition EFI_IFR_FALSE_OP : Z := 0x47.

Definition EFI_HII_PACKAGE_FORMS : Z := 0x02.

(** ** Header fields *)
Definition op_code (b : list Z) (p : Z) : Res Z := rd8 b p.
Definition op_length (b : list Z) (p : Z) : Res Z :=
  v ← rd8 b (p + 1); Done (Z.land v 0x7F).
Definition op_scope (b : list Z) (p : Z) : Res Z :=
  v ← rd8 b (p + 1); Done (Z.shiftr v 7).

(** ** Encoding of an opcode *)
Definition op_bytes (code : Z) (scope : bool) (payload : list Z) : list Z :=
  code :: (2 + zlen payload + 128 * b2z scope) :: payload.

Definition END_bytes : list Z := op_bytes EFI_IFR_END_OP false [].

Lemma zlen_op_bytes code scope payload :
  zlen (op_bytes code scope payload) = 2 + zlen payload.
Proof. unfold op_bytes. zl. Qed.
Lemma zlen_END_bytes : zlen END_bytes = 2.
Proof. reflexivity. Qed.
#[export] Hint Rewrite zlen_op_bytes zlen_END_bytes : zlen.

(** A payload fits the 7-bit length field. *)
Definition fits (payload : list Z) : Prop := zlen payload <= 125.

Lemma header_length n s : 0 <= n < 128 -> Z.land (n + 128 * b2z s) 0x7F = n.
Proof.
  intros H. change 0x7F with (Z.ones 7). rewrite Z.land_ones by lia.
  change (2 ^ 7) with 128. rewrite (Z.mul_comm 128), Z.mod_add by lia.
  by apply Z.mod_small.
Qed.

Lemma header_scope n s : 0 <= n < 128 -> Z.shiftr (n + 128 * b2z s) 7 = b2z s.
Proof.
  intros H. rewrite Z.shiftr_div_pow2 by lia. change (2 ^ 7) with 128.
  rewrite (Z.mul_comm 128), Z.div_add, Z.div_small by lia. done.
Qed.

Section header.
Context (b : list Z) (p code : Z) (scope : bool) (payload : list Z).
Context (Hf : fits payload) (H : found b p (op_bytes code scope payload)).

Lemma found_op_code : op_code b p = Done code.
Proof using H. by apply (found_rd8 _ _ _ _ H). Qed.

Lemma found_op_length : op_length b p = Done (2 + zlen payload).
Proof using H Hf.
  unfold op_length. rewrite (found_rd8 _ _ _ _ (found_cons _ _ _ _ H)), bind_Done.
  unfold fits in Hf. rewrite header_length; [done|zl].
Qed.

Lemma found_op_scope : op_scope b p = Done (b2z scope).
Proof using H Hf.
  unfold op_scope. rewrite (found_rd8 _ _ _ _ (found_cons _ _ _ _ H)), bind_Done.
  unfold fits in Hf. rewrite header_scope; [done|zl].
Qed.

Lemma found_payload : found b (p + 2) payload.
Proof using H.
  replace (p + 2) with (p + 1 + 1) by lia. eapply found_cons, found_cons, H.
Qed.
End header.

(** ** Well-nested streams

    A forest is a sequence of opcodes, each either plain or opening a scope
    that holds a forest and is closed by an [END]. *)
Inductive forest :=
| FNil
| FLeaf (code : Z) (payload : list Z) (rest : forest)
| FScope (code : Z) (payload : list Z) (kids rest : forest).

Fixpoint enc (f : forest) : list Z :=
  match f with
  | FNil => []
  | FLeaf c pl rest => op_bytes c false pl ++ enc rest
  | FScope c pl kids rest => op_bytes c true pl ++ enc kids ++ END_bytes ++ enc rest
  end.

(** Opcodes are not [END], and payloads fit. *)
Fixpoint forest_ok (f : forest) : Prop :=
  match f with
  | FNil => True
  | FLeaf c pl rest => c <> EFI_IFR_END_OP /\ fits pl /\ forest_ok rest
  | FScope c pl kids rest =>
      c <> EFI_IFR_END_OP /\ fits pl /\ forest_ok kids /\ forest_ok rest
  end.

(** Opcodes of the stream, the [END]s included. *)
Fixpoint ops (f : forest) : nat :=
  match f with
  | FNil => 0
  | FLeaf _ _ rest => 1 + ops rest
  | FScope _ _ kids rest => 2 + ops kids + ops rest
  end.

Lemma fits_nil : fits [].
Proof. done. Qed.
#[export] Hint Resolve fits_nil : smc.

Lemma END_facts b p :
  found b p END_bytes ->
  op_code b p = Done EFI_IFR_END_OP /\ op_length b p = Done 2 /\ op_scope b p = Done 0.
Proof.
  intros H. split_and!; [eapply found_op_code, H|..].
  - exact (found_op_length b p EFI_IFR_END_OP false [] fits_nil H).
  - exact (found_op_scope b p EFI_IFR_END_OP false [] fits_nil H).
Qed.

(** ** Package and package-list headers *)
Definition PKG_HEADER : Z := 4.          (* sizeof (EFI_HII_PACKAGE_HEADER) *)
Definition PKG_LIST_HEADER : Z := 20.    (* sizeof (EFI_HII_PACKAGE_LIST_HEADER) *)

(** 24-bit length and 8-bit type. *)
Definition pkg_length (b : list Z) (p : Z) : Res Z :=
  v ← rd32 b p; Done (Z.land v 0xFFFFFF).
Definition pkg_type (b : list Z) (p : Z) : Res Z :=
  v ← rd32 b p; Done (Z.shiftr v 24).
Definition pkg_list_length (b : list Z) (p : Z) : Res Z := rd32 b (p + 16).

(** Offsets of the fields the walkers read. *)
Definition QUESTION_Prompt (b : list Z) (p : Z) : Res Z := rd16 b (p + 2).
Definition REF_FormId (b : list Z) (p : Z) : Res Z := rd16 b (p + 13).
Definition REF3_FormSetId (b : list Z) (p : Z) : Res (list Z) := rdn b (p + 17) 16.
Definition FORM_FormId (b : list Z) (p : Z) : Res Z := rd16 b (p + 2).
Definition FORM_FormTitle (b : list Z) (p : Z) : Res Z := rd16 b (p + 4).
Definition FORM_SET_Guid (b : list Z) (p : Z) : Res (list Z) := rdn b (p + 2) 16.
Definition FORM_SET_FormSetTitle (b : list Z) (p : Z) : Res Z := rd16 b (p + 18).

Definition sizeof_EFI_IFR_REF : Z := 15.
Definition sizeof_EFI_IFR_REF3 : Z := 33.
