(* ===== verification/Expression.v ===== *)
(** * Suppress-if expressions

    Models [GetScopeEnd] and [CalExpValue] of
    [SmcInBand/SmcInBandSetupTemplate.c]: the first finds the [END] that
    closes the scope a pointer is in, the second evaluates the postfix
    expression behind a suppress-if or disable-if with the stack of
    [ExpStack]. *)

From S2P Require Import Prelude ExpStack Ifr.

(** ** [GetScopeEnd] *)

(** One turn of the loop on pointer, [Scope] and the iteration counter. *)
Definition scope_step (b : list Z) (s : Z * Z * Z) : Res (Z * Z * Z + option Z) :=
  let '(p, Scope, ii) := s in
  if 1000000 <? ii then Done (inr None)
  else
    let next Scope := l ← op_length b p; Done (inl (p + l, Scope, ii + 1)) in
    sc ← op_scope b p;
    if negb (sc =? 0) then next (u64 (Scope + 1))
    else
      c ← op_code b p;
      if c =? EFI_IFR_END_OP then
        let Scope := u64 (Scope - 1) in
        if Scope =? 0 then Done (inr (Some p)) else next Scope
      else next Scope.

(** The C loop leaves at iteration 1000001 at the latest. *)
Definition SCOPE_FUEL : nat := Z.to_nat 1000002.

(** [None] is the C [NULL]. *)
Definition GetScopeEnd (b : list Z) (IfrOpCodeHeader : Z) : Res (option Z) :=
  loop SCOPE_FUEL (scope_step b) (IfrOpCodeHeader, 1, 0).

(** ** [CalExpValue] *)

(** How the evaluation loop ends: [early] is a [return 0] inside it. *)
Record cal_exit := mkExit { early : bool; exit_stack : SmcStack }.

Definition ret0 (st : SmcStack) : Res (Z * SmcStack + cal_exit) :=
  Done (inr (mkExit true st)).

(** Push and step to the next opcode; the push status is ignored. *)
Definition push_next (b : list Z) (p v : Z) (st : SmcStack) : Res (Z * SmcStack + cal_exit) :=
  '(st, _) ← SmcPush64 v st;
  l ← op_length b p;
  Done (inl (p + l, st)).

(** Pop the two operands ([Val1] first) and push [f Val1 Val2]. *)
Definition binary (b : list Z) (p : Z) (f : Z -> Z -> Res Z) (st : SmcStack)
    : Res (Z * SmcStack + cal_exit) :=
  '(st, Val1, StackStatus) ← SmcPop64 st;
  if StackStatus =? 0 then ret0 st
  else
    '(st, Val2, StackStatus) ← SmcPop64 st;
    if StackStatus =? 0 then ret0 st
    else v ← f Val1 Val2; push_next b p v st.

Definition truth (x : Z) : bool := negb (x =? 0).

(** The [if] chain on the opcode [c] at [p]. *)
Definition cal_op (b : list Z) (p c : Z) (st : SmcStack) : Res (Z * SmcStack + cal_exit) :=
  if c =? EFI_IFR_TRUE_OP then push_next b p 1 st
  else if c =? EFI_IFR_FALSE_OP then push_next b p 0 st
  else if c =? EFI_IFR_UINT8_OP then v ← rd8 b (p + 2); push_next b p v st
  else if c =? EFI_IFR_UINT16_OP then v ← rd16 b (p + 2); push_next b p v st
  else if c =? EFI_IFR_UINT32_OP then v ← rd32 b (p + 2); push_next b p v st
  else if c =? EFI_IFR_UINT64_OP then v ← rd64 b (p + 2); push_next b p v st
  else if c =? EFI_IFR_EQ_ID_VAL_OP then ret0 st
  else if c =? EFI_IFR_EQ_ID_VAL_LIST_OP then ret0 st
  else if c =? EFI_IFR_QUESTION_REF1_OP then ret0 st
  else if c =? EFI_IFR_EQ_ID_ID_OP then ret0 st
  else if c =? EFI_IFR_AND_OP then
    binary b p (fun Val1 Val2 => Done (b2z (truth Val1 && truth Val2))) st
  else if c =? EFI_IFR_OR_OP then
    binary b p (fun Val1 Val2 => Done (b2z (truth Val1 || truth Val2))) st
  else if c =? EFI_IFR_NOT_OP then
    '(st, Val1, StackStatus) ← SmcPop64 st;
    if StackStatus =? 0 then ret0 st
    else push_next b p (b2z (negb (truth Val1))) st
  else if c =? EFI_IFR_GREATER_THAN_OP then
    binary b p (fun Val1 Val2 => Done (b2z (Val1 <? Val2))) st
  else if c =? EFI_IFR_GREATER_EQUAL_OP then
    binary b p (fun Val1 Val2 => Done (b2z (Val1 <=? Val2))) st
  else if c =? EFI_IFR_LESS_THAN_OP then
    binary b p (fun Val1 Val2 => Done (b2z (Val2 <? Val1))) st
  else if c =? EFI_IFR_LESS_EQUAL_OP then
    (* the source computes [Val2 >= Val1] here too *)
    binary b p (fun Val1 Val2 => Done (b2z (Val1 <=? Val2))) st
  else if c =? EFI_IFR_ADD_OP then
    binary b p (fun Val1 Val2 => Done (u64 (Val2 + Val1))) st
  else if c =? EFI_IFR_SUBTRACT_OP then
    binary b p (fun Val1 Val2 => Done (u64 (Val2 - Val1))) st
  else if c =? EFI_IFR_MULTIPLY_OP then
    binary b p (fun Val1 Val2 => Done (u64 (Val2 * Val1))) st
  else if c =? EFI_IFR_DIVIDE_OP then
    binary b p (fun Val1 Val2 => if Val1 =? 0 then Fault else Done (Val2 / Val1)) st
  else Done (inr (mkExit false st)).

Definition cal_step (b : list Z) (pScopeEnd : Z) (s : Z * SmcStack)
    : Res (Z * SmcStack + cal_exit) :=
  let '(p, st) := s in
  if negb (p <? pScopeEnd) then Done (inr (mkExit false st))
  else c ← op_code b p; cal_op b p c st.

(** Returns the value and the stack global it leaves behind. The C function
    returns before touching the stack when there is no scope end. *)
Definition CalExpValue (b : list Z) (Op : Z) (st : SmcStack) : Res (Z * SmcStack) :=
  pScopeEnd ← GetScopeEnd b Op;
  match pScopeEnd with
  | None => Done (0, st)
  | Some pScopeEnd =>
      e ← loop SCOPE_FUEL (cal_step b pScopeEnd) (Op, InitSmcStack st);
      if early e then Done (0, exit_stack e)
      else
        '(st, Val1, StackStatus) ← SmcPop64 (exit_stack e);
        if StackStatus =? 0 then Done (0, st) else Done (Val1, st)
  end.

(** ** Scope ends *)
Lemma scope_step_ne b p sc ii :
  ii <= 1000000 ->
  scope_step b (p, sc, ii) =
    (let next sc := l ← op_length b p; Done (inl (p + l, sc, ii + 1)) in
     s ← op_scope b p;
     if negb (s =? 0) then next (u64 (sc + 1))
     else
       c ← op_code b p;
       if c =? EFI_IFR_END_OP then
         let sc := u64 (sc - 1) in
         if sc =? 0 then Done (inr (Some p)) else next sc
       else next sc).
Proof. intros H. unfold scope_step. by replace (1000000 <? ii) with false by lia. Qed.

(** The search walks over a whole forest and comes back to its nesting. *)
Lemma scope_walk b f p sc ii k :
  found b p (enc f) -> forest_ok f -> 1 <= sc -> sc + Z.of_nat (ops f) < 2 ^ 64 ->
  0 <= ii -> ii + Z.of_nat (ops f) <= 1000001 ->
  loop (ops f + k) (scope_step b) (p, sc, ii) =
  loop k (scope_step b) (p + zlen (enc f), sc, ii + Z.of_nat (ops f)).
Proof.
  revert p sc ii k. induction f as [|c pl rest IH|c pl kids IHk rest IHr];
    intros p sc ii k Hb Hok Hsc Hmax Hii Hfuel.
  - cbn [enc ops]. change (Z.of_nat 0) with 0. by rewrite zlen_nil, !Z.add_0_r.
  - cbn [enc ops forest_ok] in *. destruct Hok as (Hc & Hf & Hok).
    apply found_app in Hb as [Hb Hb'].
    cbn [Nat.add]. rewrite loop_S, scope_step_ne by lia. cbv zeta.
    rewrite (found_op_scope b p c false pl), bind_Done, (found_op_code b p c false pl), bind_Done by done.
    change (negb (b2z false =? 0)) with false. cbv iota.
    replace (c =? EFI_IFR_END_OP) with false by lia.
    rewrite (found_op_length b p c false pl), !bind_Done by done.
    rewrite zlen_op_bytes in Hb'. rewrite IH by (done || lia).
    args.
  - cbn [enc ops forest_ok] in *. destruct Hok as (Hc & Hf & Hk & Hr).
    apply found_app in Hb as [Hb Hb']. apply found_app in Hb' as [Hbk Hb'].
    apply found_app in Hb' as [Hbe Hbr].
    rewrite zlen_op_bytes in *. cbn [Nat.add]. rewrite loop_S, scope_step_ne by lia. cbv zeta.
    rewrite (found_op_scope b p c true pl), bind_Done by done.
    change (negb (b2z true =? 0)) with true. cbv iota.
    rewrite (found_op_length b p c true pl), !bind_Done by done.
    rewrite (u64_small (sc + 1)) by (unfold is_u64; lia).
    match goal with |- loop ?n _ _ = _ =>
      replace n with (ops kids + S (ops rest + k))%nat by lia end.
    rewrite IHk by (done || lia). rewrite loop_S, scope_step_ne by lia. cbv zeta.
    destruct (END_facts _ _ Hbe) as (E1 & E2 & E3).
    rewrite E3, bind_Done, E1, bind_Done.
    change (negb (0 =? 0)) with false. rewrite Z.eqb_refl. cbv iota.
    rewrite (u64_small (sc + 1 - 1)) by (unfold is_u64; lia).
    replace (sc + 1 - 1 =? 0) with false by lia. rewrite E2, !bind_Done.
    rewrite zlen_END_bytes in Hbr. rewrite IHr by (done || lia).
    replace (sc + 1 - 1) with sc by lia. args.
Qed.

Lemma GetScopeEnd_found b p f :
  found b p (enc f ++ END_bytes) -> forest_ok f -> Z.of_nat (ops f) <= 1000000 ->
  GetScopeEnd b p = Done (Some (p + zlen (enc f))).
Proof.
  intros [Hb He]%found_app Hok Hn. unfold GetScopeEnd.
  replace SCOPE_FUEL with (ops f + S (SCOPE_FUEL - ops f - 1))%nat by (unfold SCOPE_FUEL; lia).
  rewrite scope_walk by (done || lia). rewrite loop_S, scope_step_ne by lia. cbv zeta.
  destruct (END_facts _ _ He) as (E1 & E2 & E3).
  rewrite E3, bind_Done, E1, bind_Done. done.
Qed.

(** on a well-nested stream of at most a million opcodes
    closed by an [END], [GetScopeEnd] returns the address of that [END]. *)
Theorem GetScopeEnd_correct b p f :
  found b p (enc f ++ END_bytes) -> forest_ok f -> Z.of_nat (ops f) <= 1000000 ->
  GetScopeEnd b p = Done (Some (p + zlen (enc f))).
Proof. apply GetScopeEnd_found. Qed.

Lemma GetScopeEnd_correct_witness :
  GetScopeEnd ([0] ++ (enc (FScope EFI_IFR_FORM_OP [1; 2] FNil FNil) ++ END_bytes)) 1
    = Done (Some 7).
Proof.
  apply (GetScopeEnd_correct _ 1 (FScope EFI_IFR_FORM_OP [1; 2] FNil FNil)).
  - reflexivity.
  - repeat split; discriminate.
  - discriminate.
Defined.

Lemma GetScopeEnd_fuel b p : GetScopeEnd b p <> NoFuel.
Proof.
  unfold GetScopeEnd.
  apply (loop_measure _ (fun s => Z.to_nat (1000001 - snd s))
           (fun s => 0 <= snd s <= 1000001)); unfold SCOPE_FUEL; cbn [snd]; [| |lia..].
  - intros [[q sc] ii] _. unfold scope_step, op_length, op_scope, op_code. cbv zeta. nofuel.
  - intros [[q sc] ii] s' Hi. unfold scope_step. cbn [snd] in *.
    destruct (Z.ltb_spec 1000000 ii); [done|].
    intros (s & _ & Hk)%bind_inv.
    assert (N : forall x, (l ← op_length b q; Done (inl (q + l, x, ii + 1)))
        = (Done (inl s') : Res (_ + option Z)) -> snd s' = ii + 1).
    { intros x (l & _ & [=<-])%bind_inv. done. }
    assert (snd s' = ii + 1); [|lia].
    destruct (negb (s =? 0)); [by eapply N|].
    apply bind_inv in Hk as (c & _ & Hk).
    destruct (c =? EFI_IFR_END_OP); [|by eapply N].
    destruct (u64 (sc - 1) =? 0); [done|by eapply N].
Qed.

(** [GetScopeEnd] always ends, on any bytes whatever: the
    iteration bound of the source cuts every walk, and the fuel of the model
    is above it. *)
Theorem GetScopeEnd_terminates b p : GetScopeEnd b p <> NoFuel.
Proof. apply GetScopeEnd_fuel. Qed.

(** ** Reference semantics of expressions *)
Inductive binop := And | Or | Gt | Ge | Lt | Le | Add | Sub | Mul | Div.

Inductive exp :=
| EBool (v : bool)
| EU8 (v : Z) | EU16 (v : Z) | EU32 (v : Z) | EU64 (v : Z)
| ENot (e : exp)
| EBin (o : binop) (e1 e2 : exp).

(** The UEFI meaning: [e1 o e2], 64-bit unsigned. *)
Definition binop_sem (o : binop) (x y : Z) : Z :=
  match o with
  | And => b2z (truth x && truth y)
  | Or => b2z (truth x || truth y)
  | Gt => b2z (y <? x)
  | Ge => b2z (y <=? x)
  | Lt => b2z (x <? y)
  | Le => b2z (x <=? y)
  | Add => u64 (x + y)
  | Sub => u64 (x - y)
  | Mul => u64 (x * y)
  | Div => x / y
  end.

(** What the source computes: the [<=] opcode compares with [>=]. *)
Definition c_binop_sem (o : binop) (x y : Z) : Z :=
  match o with Le => b2z (y <=? x) | _ => binop_sem o x y end.

Fixpoint eval_by (sem : binop -> Z -> Z -> Z) (e : exp) : Z :=
  match e with
  | EBool v => b2z v
  | EU8 v | EU16 v | EU32 v | EU64 v => v
  | ENot e => b2z (negb (truth (eval_by sem e)))
  | EBin o e1 e2 => sem o (eval_by sem e1) (eval_by sem e2)
  end.

Definition eval : exp -> Z := eval_by binop_sem.
Definition eval_c : exp -> Z := eval_by c_binop_sem.

Definition binop_code (o : binop) : Z :=
  match o with
  | And => EFI_IFR_AND_OP | Or => EFI_IFR_OR_OP
  | Gt => EFI_IFR_GREATER_THAN_OP | Ge => EFI_IFR_GREATER_EQUAL_OP
  | Lt => EFI_IFR_LESS_THAN_OP | Le => EFI_IFR_LESS_EQUAL_OP
  | Add => EFI_IFR_ADD_OP | Sub => EFI_IFR_SUBTRACT_OP
  | Mul => EFI_IFR_MULTIPLY_OP | Div => EFI_IFR_DIVIDE_OP
  end.

(** Postfix opcodes of an expression, in front of [rest]. *)
Fixpoint code (e : exp) (rest : forest) : forest :=
  match e with
  | EBool v => FLeaf (if v then EFI_IFR_TRUE_OP else EFI_IFR_FALSE_OP) [] rest
  | EU8 v => FLeaf EFI_IFR_UINT8_OP (le_bytes 1 v) rest
  | EU16 v => FLeaf EFI_IFR_UINT16_OP (le_bytes 2 v) rest
  | EU32 v => FLeaf EFI_IFR_UINT32_OP (le_bytes 4 v) rest
  | EU64 v => FLeaf EFI_IFR_UINT64_OP (le_bytes 8 v) rest
  | ENot e => code e (FLeaf EFI_IFR_NOT_OP [] rest)
  | EBin o e1 e2 => code e1 (code e2 (FLeaf (binop_code o) [] rest))
  end.

(** Literals fit their opcode; divisors are not zero. *)
Fixpoint exp_ok (sem : binop -> Z -> Z -> Z) (e : exp) : Prop :=
  match e with
  | EBool _ => True
  | EU8 v => is_u8 v
  | EU16 v => is_u16 v
  | EU32 v => is_u32 v
  | EU64 v => is_u64 v
  | ENot e => exp_ok sem e
  | EBin o e1 e2 =>
      exp_ok sem e1 /\ exp_ok sem e2 /\ (o = Div -> eval_by sem e2 <> 0)
  end.

Fixpoint no_le (e : exp) : Prop :=
  match e with
  | ENot e => no_le e
  | EBin o e1 e2 => o <> Le /\ no_le e1 /\ no_le e2
  | _ => True
  end.

Lemma no_le_eval e : no_le e -> eval_c e = eval e.
Proof.
  unfold eval_c, eval. induction e as [| | | | |e IH|o e1 IH1 e2 IH2]; cbn; try done.
  - intros H. by rewrite IH.
  - intros (Ho & H1 & H2). rewrite IH1, IH2 by done. by destruct o.
Qed.

Lemma no_le_ok e : no_le e -> exp_ok binop_sem e -> exp_ok c_binop_sem e.
Proof.
  induction e as [| | | | |e IH|o e1 IH1 e2 IH2]; cbn; try done.
  intros (Ho & H1 & H2) (K1 & K2 & Hd). split_and!; [auto..|].
  fold (eval_c e2). rewrite no_le_eval by done. exact Hd.
Qed.

(** Stack entries an evaluation needs, and its number of opcodes. *)
Fixpoint need (e : exp) : Z :=
  match e with
  | ENot e => need e
  | EBin _ e1 e2 => Z.max (need e1) (1 + need e2)
  | _ => 1
  end.

Fixpoint exp_ops (e : exp) : nat :=
  match e with
  | ENot e => S (exp_ops e)
  | EBin _ e1 e2 => S (exp_ops e1 + exp_ops e2)
  | _ => 1
  end.

Lemma ops_code e rest : (ops (code e rest) = exp_ops e + ops rest)%nat.
Proof.
  revert rest. induction e; intros rest; cbn [code ops exp_ops]; try done.
  - rewrite IHe. cbn [ops]. lia.
  - rewrite IHe1, IHe2. cbn [ops]. lia.
Qed.

Lemma need_pos e : 1 <= need e.
Proof. induction e; cbn [need]; lia. Qed.

Lemma code_ok sem e rest : exp_ok sem e -> forest_ok rest -> forest_ok (code e rest).
Proof.
  revert rest. induction e; intros rest He Hr; cbn [code forest_ok exp_ok] in *;
    try (split_and!; [done|done|done]).
  - by destruct v.
  - apply IHe; [done|]. by split_and!.
  - destruct He as (H1 & H2 & _). apply IHe1; [done|]. apply IHe2; [done|].
    split_and!; [by destruct o|done|done].
Qed.

(** ** The evaluation loop *)
Lemma push_spec v st :
  stack_wf st -> zlen (contents st) < STACK_SIZE ->
  exists st', SmcPush64 v st = Done (st', 1) /\ stack_wf st' /\ contents st' = v :: contents st.
Proof.
  intros H Hl. destruct (push_refines st v H) as (st' & H1 & H2 & H3).
  unfold spec_push in *. replace (_ =? STACK_SIZE) with false in * by lia. eauto.
Qed.

Lemma pop_spec v l st :
  stack_wf st -> contents st = v :: l ->
  exists st', SmcPop64 st = Done (st', v, 1) /\ stack_wf st' /\ contents st' = l.
Proof.
  intros H Hl. destruct (pop_refines st H) as (st' & H1 & H2 & H3).
  rewrite Hl in *. cbn in *. eauto.
Qed.

Lemma pop_empty st :
  stack_wf st -> contents st = [] ->
  exists st', SmcPop64 st = Done (st', 0, 0) /\ stack_wf st' /\ contents st' = [].
Proof.
  intros H Hl. destruct (pop_refines st H) as (st' & H1 & H2 & H3).
  rewrite Hl in *. cbn in *. eauto.
Qed.

(** What one turn of the loop does at an opcode of payload [pl]: state [st]
    to [st']. *)
Definition turns (b : list Z) (pe p : Z) (n : nat) (l : Z) (st st' : SmcStack) : Prop :=
  forall k, loop (n + k) (cal_step b pe) (p, st) = loop k (cal_step b pe) (p + l, st').

Lemma push_next_spec b pe p c pl v st :
  found b p (op_bytes c false pl) -> fits pl -> p < pe ->
  stack_wf st -> zlen (contents st) < STACK_SIZE ->
  cal_step b pe (p, st) = push_next b p v st ->
  exists st', turns b pe p 1 (2 + zlen pl) st st' /\ stack_wf st' /\
    contents st' = v :: contents st.
Proof.
  intros Hf Hfit Hp Hw Hl Hs. destruct (push_spec v st Hw Hl) as (st' & E & Hw' & Hc).
  exists st'. split_and!; [|done..]. intros k. cbn [Nat.add]. rewrite loop_S, Hs.
  unfold push_next. by rewrite E, bind_Done, (found_op_length b p c false pl), bind_Done.
Qed.

Lemma binary_spec b pe p c f v1 v2 r l st :
  found b p (op_bytes c false []) -> p < pe ->
  stack_wf st -> contents st = v2 :: v1 :: l ->
  f v2 v1 = Done r ->
  cal_step b pe (p, st) = binary b p f st ->
  exists st', turns b pe p 1 2 st st' /\ stack_wf st' /\ contents st' = r :: l.
Proof.
  intros Hf Hp Hw Hl Hr Hs. pose proof (contents_zlen st Hw) as Hz.
  pose proof (depth_range st Hw) as Hd. rewrite Hl in Hz.
  destruct (pop_spec v2 _ st Hw Hl) as (st1 & E1 & Hw1 & Hc1).
  destruct (pop_spec v1 _ st1 Hw1 Hc1) as (st2 & E2 & Hw2 & Hc2).
  destruct (push_spec r st2 Hw2) as (st3 & E3 & Hw3 & Hc3).
  { rewrite Hc2. zl. }
  exists st3. split_and!; [|done|by rewrite Hc3, Hc2].
  intros k. cbn [Nat.add]. rewrite loop_S, Hs. unfold binary, push_next.
  rewrite E1, bind_Done. change (1 =? 0) with false. cbv iota.
  rewrite E2, bind_Done, Hr, bind_Done, E3, bind_Done.
  rewrite (found_op_length b p c false []) by done. done.
Qed.

Lemma turns_trans b pe p n1 l1 st st1 n2 l2 st2 n l :
  turns b pe p n1 l1 st st1 -> turns b pe (p + l1) n2 l2 st1 st2 ->
  n = (n1 + n2)%nat -> l = l1 + l2 ->
  turns b pe p n l st st2.
Proof.
  intros H1 H2 -> -> k. rewrite <- Nat.add_assoc, H1, H2. by rewrite Z.add_assoc.
Qed.

Lemma cal_step_at b pe p c pl st :
  found b p (op_bytes c false pl) -> p < pe ->
  cal_step b pe (p, st) =
    (let '(q, st) := (p, st) in
     if false then Done (inr (mkExit false st)) else
       c ← Done c; cal_op b q c st).
Proof.
  intros H Hp. unfold cal_step. replace (negb (p <? pe)) with false by lia.
  by rewrite (found_op_code b p c false pl).
Qed.

Lemma enc_code e rest : enc (code e rest) = enc (code e FNil) ++ enc rest.
Proof.
  revert rest. induction e as [v|v|v|v|v|e IH|o e1 IH1 e2 IH2]; intros rest;
    cbn [code enc]; rewrite ?app_nil_r; try done.
  - rewrite IH, (IH (FLeaf _ _ FNil)). cbn [enc]. by rewrite app_nil_r, app_assoc.
  - rewrite IH1, IH2, (IH1 (code _ _)), (IH2 (FLeaf _ _ FNil)). cbn [enc].
    by rewrite app_nil_r, !app_assoc.
Qed.

Definition binop_fun (o : binop) (Val1 Val2 : Z) : Res Z :=
  match o with
  | Div => if Val1 =? 0 then Fault else Done (Val2 / Val1)
  | And => Done (b2z (truth Val1 && truth Val2))
  | Or => Done (b2z (truth Val1 || truth Val2))
  | _ => Done (c_binop_sem o Val2 Val1)
  end.

Lemma leaf_turns b pe p e st :
  match e with ENot _ | EBin _ _ _ => False | _ => True end ->
  found b p (enc (code e FNil)) -> exp_ok c_binop_sem e -> p + zlen (enc (code e FNil)) <= pe ->
  stack_wf st -> zlen (contents st) < STACK_SIZE ->
  exists st', turns b pe p (exp_ops e) (zlen (enc (code e FNil))) st st' /\
    stack_wf st' /\ contents st' = eval_c e :: contents st.
Proof.
  intros Hleaf Hf Hok Hp Hw Hl.
  assert (HE : forall c pl, code e FNil = FLeaf c pl FNil -> fits pl ->
     cal_op b p c st = push_next b p (eval_c e) st ->
     exists st', turns b pe p (exp_ops e) (zlen (enc (code e FNil))) st st' /\
       stack_wf st' /\ contents st' = eval_c e :: contents st).
  { intros c pl E Hfit Hc. rewrite E in *. cbn [enc] in *. rewrite app_nil_r in *.
    replace (exp_ops e) with 1%nat by (by destruct e). rewrite zlen_op_bytes in *.
    eapply push_next_spec; eauto; [zl|]. rewrite (cal_step_at b pe p c pl) by (done || zl).
    done. }
  assert (HV : forall n c v, code e FNil = FLeaf c (le_bytes n v) FNil -> 
     0 <= v < 256 ^ Z.of_nat n -> rdn b (p + 2) (Z.of_nat n) = Done (le_bytes n v) /\
       le_val (le_bytes n v) = v).
  { intros n c v E Hv. rewrite E in Hf. cbn [enc] in Hf. rewrite app_nil_r in Hf.
    apply found_payload in Hf. split.
    - eapply found_rdn; [exact Hf|]. by rewrite zlen_le_bytes.
    - rewrite le_val_le_bytes. by apply Z.mod_small. }
  destruct e as [v|v|v|v|v|e|o e1 e2]; try done; cbn [code exp_ok] in *.
  - destruct v; (eapply HE; [done|done|reflexivity]).
  - eapply HE; [done|done|]. destruct (HV 1%nat _ _ eq_refl Hok) as [E1 E2].
    change (cal_op b p EFI_IFR_UINT8_OP st) with (v ← rd8 b (p + 2); push_next b p v st).
    rewrite rd8_rdn. by rewrite (E1 : rdn b (p + 2) 1 = _), bind_Done, E2.
  - eapply HE; [done|done|]. destruct (HV 2%nat _ _ eq_refl Hok) as [E1 E2].
    change (cal_op b p EFI_IFR_UINT16_OP st) with (v ← rd16 b (p + 2); push_next b p v st).
    unfold rd16. by rewrite (E1 : rdn b (p + 2) 2 = _), bind_Done, E2.
  - eapply HE; [done|done|]. destruct (HV 4%nat _ _ eq_refl Hok) as [E1 E2].
    change (cal_op b p EFI_IFR_UINT32_OP st) with (v ← rd32 b (p + 2); push_next b p v st).
    unfold rd32. by rewrite (E1 : rdn b (p + 2) 4 = _), bind_Done, E2.
  - eapply HE; [done|done|]. destruct (HV 8%nat _ _ eq_refl Hok) as [E1 E2].
    change (cal_op b p EFI_IFR_UINT64_OP st) with (v ← rd64 b (p + 2); push_next b p v st).
    unfold rd64. by rewrite (E1 : rdn b (p + 2) 8 = _), bind_Done, E2.
Qed.

Lemma code_turns b pe e p st :
  found b p (enc (code e FNil)) -> exp_ok c_binop_sem e -> p + zlen (enc (code e FNil)) <= pe ->
  stack_wf st -> zlen (contents st) + need e <= STACK_SIZE ->
  exists st', turns b pe p (exp_ops e) (zlen (enc (code e FNil))) st st' /\
    stack_wf st' /\ contents st' = eval_c e :: contents st.
Proof.
  revert p st. induction e as [v|v|v|v|v|e IH|o e1 IH1 e2 IH2]; intros p st Hf Hok Hp Hw Hn;
    [apply leaf_turns; done || (cbn [need] in *; lia)..| |].
  - cbn [code] in *. rewrite enc_code in Hf, Hp |- *. change (eval_c (ENot e)) with (b2z (negb (truth (eval_c e)))) in *.
    cbn [exp_ok need enc exp_ops] in *.
    rewrite app_nil_r in Hf, Hp |- *. apply found_app in Hf as [Hf Hf2]. rewrite zlen_app, zlen_op_bytes, zlen_nil in Hp |- *.
    destruct (IH p st) as (st1 & T1 & Hw1 & Hc1); [done..|lia|done|done|].
    destruct (pop_spec _ _ st1 Hw1 Hc1) as (st2 & E2 & Hw2 & Hc2).
    destruct (push_spec (b2z (negb (truth (eval_c e)))) st2 Hw2) as (st3 & E3 & Hw3 & Hc3).
    { rewrite Hc2. pose proof (need_pos e). lia. }
    exists st3. split_and!; [|done|by rewrite Hc3, Hc2].
    eapply (turns_trans _ _ _ _ _ _ st1 1 2); [exact T1| |lia|lia].
    intros k. cbn [Nat.add]. rewrite loop_S, (cal_step_at b pe _ EFI_IFR_NOT_OP []) by (done || lia).
    cbv iota zeta. rewrite bind_Done.
    set (q := p + zlen (enc (code e FNil))) in *.
    change (cal_op b q EFI_IFR_NOT_OP st1) with
      ('(st, Val1, StackStatus) ← SmcPop64 st1;
       if StackStatus =? 0 then ret0 st else push_next b q (b2z (negb (truth Val1))) st).
    rewrite E2, bind_Done. change (1 =? 0) with false. cbv iota. unfold push_next.
    by rewrite E3, bind_Done, (found_op_length b _ EFI_IFR_NOT_OP false []), !bind_Done.
  - cbn [code] in *. rewrite enc_code, (enc_code e2) in Hf, Hp |- *.
    change (eval_c (EBin o e1 e2)) with (c_binop_sem o (eval_c e1) (eval_c e2)) in *.
    cbn [exp_ok need enc exp_ops] in *. destruct Hok as (Hok1 & Hok2 & Hd).
    rewrite app_nil_r in Hf, Hp |- *. apply found_app in Hf as [Hf Hf2].
    apply found_app in Hf2 as [Hf2 Hf3]. rewrite !zlen_app, zlen_op_bytes, zlen_nil in Hp |- *.
    pose proof (zlen_nonneg (enc (code e2 FNil))).
    destruct (IH1 p st) as (st1 & T1 & Hw1 & Hc1); [done..|lia|done|lia|].
    destruct (IH2 (p + zlen (enc (code e1 FNil))) st1) as (st2 & T2 & Hw2 & Hc2);
      [done..|lia|done|rewrite Hc1; zl|].
    rewrite Hc1 in Hc2.
    destruct (binary_spec b pe (p + zlen (enc (code e1 FNil)) + zlen (enc (code e2 FNil)))
      (binop_code o) (binop_fun o) (eval_c e1) (eval_c e2) (c_binop_sem o (eval_c e1) (eval_c e2))
      (contents st) st2) as (st3 & T3 & Hw3 & Hc3); [done|lia|done|done| | |].
    + destruct o; try done; cbn [binop_fun c_binop_sem binop_sem].
      * by rewrite andb_comm.
      * by rewrite orb_comm.
      * pose proof (Hd eq_refl : eval_c e2 <> 0). by replace (eval_c e2 =? 0) with false by lia.
    + rewrite (cal_step_at b pe _ (binop_code o) []) by (done || lia).
      destruct o; reflexivity.
    + exists st3. split_and!; [|done|done].
      eapply (turns_trans _ _ _ _ _ _ st1 (exp_ops e2 + 1)); [exact T1| |lia|reflexivity].
      eapply turns_trans; [exact T2|exact T3|done|lia].
Qed.

Lemma CalExpValue_eval_c b p e st :
  found b p (enc (code e FNil) ++ END_bytes) -> exp_ok c_binop_sem e ->
  Z.of_nat (exp_ops e) <= 1000000 ->
  stack_wf st -> depth st + need e <= STACK_SIZE ->
  exists st', CalExpValue b p st = Done (eval_c e, st') /\ stack_wf st' /\
    depth st' = depth st.
Proof.
  intros Hf Hok Hops Hw Hn. unfold CalExpValue.
  rewrite (GetScopeEnd_found b p (code e FNil)), bind_Done;
    [|done|by eapply code_ok|rewrite ops_code; cbn [ops]; lia].
  apply found_app in Hf as [Hf _]. pose proof (depth_range st Hw) as Hd.
  destruct (code_turns b (p + zlen (enc (code e FNil))) e p (InitSmcStack st))
    as (st1 & T & Hw1 & Hc1); [done|done|lia|by apply InitSmcStack_wf|..].
  { rewrite InitSmcStack_contents by done. zl. }
  replace SCOPE_FUEL with (exp_ops e + S (SCOPE_FUEL - exp_ops e - 1))%nat
    by (unfold SCOPE_FUEL; lia).
  rewrite T, loop_S. cbn [cal_step]. rewrite Z.ltb_irrefl. cbn [negb].
  rewrite bind_Done, bind_Done. cbn [early exit_stack].
  destruct (pop_spec _ _ st1 Hw1 Hc1) as (st2 & E2 & Hw2 & Hc2).
  rewrite E2, bind_Done. change (1 =? 0) with false. cbv iota.
  exists st2. split_and!; [done|done|].
  rewrite <- contents_zlen, Hc2, InitSmcStack_contents by done. zl.
Qed.

(** C17: (equivalence) on the postfix code of an expression without [<=],
    whose nesting fits the free part of the stack, [CalExpValue] returns the
    value of the expression (64-bit unsigned, truth values 0 and 1) and
    leaves the stack at the depth it found. *)
Theorem CalExpValue_correct b p e st :
  found b p (enc (code e FNil) ++ END_bytes) -> no_le e -> exp_ok binop_sem e ->
  Z.of_nat (exp_ops e) <= 1000000 ->
  stack_wf st -> depth st + need e <= STACK_SIZE ->
  exists st', CalExpValue b p st = Done (eval e, st') /\ stack_wf st' /\
    depth st' = depth st.
Proof.
  intros. rewrite <- no_le_eval by done. apply CalExpValue_eval_c; auto using no_le_ok.
Qed.

Definition e_demo : exp := EBin Gt (EBin Add (EU8 3) (EU16 300)) (EU32 70000).

Lemma CalExpValue_correct_witness :
  exists st', CalExpValue (enc (code e_demo FNil) ++ END_bytes) 0 SmcStack_globals
    = Done (0, st') /\ depth st' = 0.
Proof.
  destruct (CalExpValue_correct (enc (code e_demo FNil) ++ END_bytes) 0 e_demo
    SmcStack_globals) as (st' & H & _ & Hd).
  - reflexivity.
  - repeat split; discriminate.
  - repeat split; discriminate.
  - discriminate.
  - apply SmcStack_globals_wf.
  - discriminate.
  - exists st'. split; [exact H|exact Hd].
Defined.

(** the opcode for [e1 <= e2] is evaluated as [e1 >= e2]. *)
Theorem CalExpValue_LESS_EQUAL b p e1 e2 st :
  found b p (enc (code (EBin Le e1 e2) FNil) ++ END_bytes) ->
  no_le e1 -> no_le e2 -> exp_ok binop_sem e1 -> exp_ok binop_sem e2 ->
  Z.of_nat (exp_ops (EBin Le e1 e2)) <= 1000000 ->
  stack_wf st -> depth st + need (EBin Le e1 e2) <= STACK_SIZE ->
  exists st', CalExpValue b p st = Done (eval (EBin Ge e1 e2), st') /\
    depth st' = depth st.
Proof.
  intros Hf Hl1 Hl2 Ho1 Ho2 Hn Hw Hd.
  destruct (CalExpValue_eval_c b p (EBin Le e1 e2) st) as (st' & H & _ & Hd'); try done.
  { split_and!; [by apply no_le_ok..|done]. }
  exists st'. split; [|done]. rewrite H.
  change (eval_c (EBin Le e1 e2)) with (binop_sem Ge (eval_c e1) (eval_c e2)).
  by rewrite !no_le_eval.
Qed.

Lemma CalExpValue_LESS_EQUAL_witness :
  exists st', CalExpValue (enc (code (EBin Le (EU8 1) (EU8 2)) FNil) ++ END_bytes) 0
    SmcStack_globals = Done (0, st') /\ eval (EBin Le (EU8 1) (EU8 2)) = 1.
Proof.
  destruct (CalExpValue_LESS_EQUAL (enc (code (EBin Le (EU8 1) (EU8 2)) FNil) ++ END_bytes) 0
    (EU8 1) (EU8 2) SmcStack_globals) as (st' & H & _); try done;
    try (repeat split; discriminate); try apply SmcStack_globals_wf.
  exists st'. split; [exact H|reflexivity].
Defined.

(** ** Termination and the stack invariant *)

Lemma cal_op_advances b p c st q st' :
  cal_op b p c st = Done (inl (q, st')) -> op_length b p = Done (q - p).
Proof.
  assert (HP : forall v s, push_next b p v s = Done (inl (q, st')) ->
     op_length b p = Done (q - p)).
  { intros v s ([s1 x] & _ & Hk)%bind_inv. apply bind_inv in Hk as (l & Hl & [= <- <-]).
    rewrite Hl. f_equal. lia. }
  assert (HB : forall f s, binary b p f s = Done (inl (q, st')) ->
     op_length b p = Done (q - p)).
  { intros f s ([[s1 x] y] & _ & Hk)%bind_inv. destruct (y =? 0); [done|].
    apply bind_inv in Hk as ([[s2 x2] y2] & _ & Hk). destruct (y2 =? 0); [done|].
    apply bind_inv in Hk as (v & _ & Hk). eauto. }
  unfold cal_op. repeat case_match; intros Hk; try done; eauto;
    try (apply bind_inv in Hk as (v & _ & Hk); eauto).
  destruct v as [[s1 x] y]. destruct (y =? 0); [done|eauto].
Qed.

Lemma cal_op_nofuel b p c st : cal_op b p c st <> NoFuel.
Proof.
  assert (HP : forall v s, push_next b p v s <> NoFuel).
  { intros v s. unfold push_next, op_length. nofuel. }
  assert (HB : forall f s, (forall x y, f x y <> NoFuel) -> binary b p f s <> NoFuel).
  { intros f s Hf. unfold binary. nofuel; auto. }
  unfold cal_op, ret0, rd16, rd32, rd64. repeat case_match; nofuel; auto;
    try (apply HB; nofuel).
Qed.

Lemma scope_step_advances b p sc ii p' sc' ii' :
  scope_step b (p, sc, ii) = Done (inl (p', sc', ii')) -> op_length b p = Done (p' - p).
Proof.
  unfold scope_step. destruct (1000000 <? ii); [done|]. cbv zeta.
  assert (N : forall x, (l ← op_length b p; Done (inl (p + l, x, ii + 1)))
        = (Done (inl (p', sc', ii')) : Res (_ + option Z)) -> op_length b p = Done (p' - p)).
  { intros x (l & Hl & [= <- <- <-])%bind_inv. rewrite Hl. f_equal. lia. }
  intros (s & _ & Hk)%bind_inv. destruct (negb (s =? 0)); [eauto|].
  apply bind_inv in Hk as (c & _ & Hk). repeat case_match; try done; eauto.
Qed.

(** The evaluation loop visits the addresses the scope search visited, so it
    meets the scope end no later. *)
Lemma cal_loop_nofuel b e n p sc ii st :
  loop n (scope_step b) (p, sc, ii) = Done (Some e) ->
  loop n (cal_step b e) (p, st) <> NoFuel.
Proof.
  revert p sc ii st. induction n as [|n IH]; intros p sc ii st; cbn [loop]; [done|].
  intros ([[[p' sc'] ii']|r] & Hs & Hk)%bind_inv.
  - apply scope_step_advances in Hs. cbn [cal_step]. case_match; [done|].
    apply bind_nofuel; [apply bind_nofuel; [unfold op_code; nofuel|intros; apply cal_op_nofuel]|].
    intros [[q st']|x] Hc; [|done].
    apply bind_inv in Hc as (c & _ & Hc%cal_op_advances). rewrite Hs in Hc.
    injection Hc as Hq. replace q with p' by lia. eauto.
  - injection Hk as ->. assert (e = p) as ->.
    { revert Hs. unfold scope_step. case_match; [done|].
      assert (N : forall x : Z, (l ← op_length b p; Done (inl (p + l, x, ii + 1)))
        <> (Done (inr (Some e)) : Res (Z * Z * Z + option Z))) by (by intros x (l & _ & ?)%bind_inv).
      intros (s & _ & Hk)%bind_inv. cbv zeta in Hk. case_match; [by destruct (N _ Hk)|].
      apply bind_inv in Hk as (c & _ & Hk). repeat case_match; try by destruct (N _ Hk).
      congruence. }
    cbn [cal_step]. rewrite Z.ltb_irrefl. cbn [negb]. rewrite bind_Done. done.
Qed.

(** [CalExpValue] always ends, on any bytes whatever, zero
    opcode lengths included: the loop has no bound of its own, and the
    bounded search for the scope end is what cuts it. *)
Theorem CalExpValue_terminates b p st : CalExpValue b p st <> NoFuel.
Proof.
  unfold CalExpValue. apply bind_nofuel; [apply GetScopeEnd_fuel|].
  intros [e|] He; [|done]. apply bind_nofuel; [eapply cal_loop_nofuel, He|].
  intros x _. nofuel.
Qed.

(** ** The stack between two expressions *)
Definition abort_code (pl : list Z) : forest :=
  FLeaf EFI_IFR_TRUE_OP [] (FLeaf EFI_IFR_EQ_ID_VAL_OP pl FNil).

Lemma depth_contents st st' v :
  stack_wf st -> stack_wf st' -> contents st' = v :: contents st -> depth st' = depth st + 1.
Proof. intros H H' E. rewrite <- !contents_zlen, E by done. zl. Qed.

(** an expression that pushes a value and then meets an
    unsupported question opcode returns 0 and leaves its entry behind, since
    neither the early return nor [InitSmcStack] resets the top of the stack;
    once 32 entries have leaked, the expression [TRUE] evaluates to 0. *)
Theorem CalExpValue_leak b p pl st b' p' :
  found b p (enc (abort_code pl) ++ END_bytes) -> fits pl ->
  found b' p' (enc (code (EBool true) FNil) ++ END_bytes) ->
  stack_wf st ->
  (depth st < STACK_SIZE -> exists st', CalExpValue b p st = Done (0, st') /\
     stack_wf st' /\ depth st' = depth st + 1) /\
  (depth st = STACK_SIZE -> exists st', CalExpValue b' p' st = Done (0, st')).
Proof.
  intros Hf Hfit Hf' Hw. split; intros Hd.
  - unfold CalExpValue. rewrite (GetScopeEnd_found b p (abort_code pl)), bind_Done;
      [|done|by split_and!|done].
    apply found_app in Hf as [Hf _]. cbn [abort_code enc] in *. rewrite app_nil_r in *.
    apply found_app in Hf as [Hf1 Hf2]. set (pe := p + _).
    assert (pe = p + 4 + zlen pl) as Hpe by (subst pe; zl).
    change (zlen (op_bytes EFI_IFR_TRUE_OP false [])) with 2 in Hf2.
    pose proof (zlen_nonneg pl). pose proof (InitSmcStack_wf st Hw) as Hw0.
    assert (Hz : depth (InitSmcStack st) = depth st) by done.
    destruct (push_next_spec b pe p EFI_IFR_TRUE_OP [] 1 (InitSmcStack st))
      as (st1 & T & Hw1 & Hc1); [done|done|lia|done|by rewrite contents_zlen, Hz|..].
    { rewrite (cal_step_at b pe p EFI_IFR_TRUE_OP []) by (done || lia). done. }
    exists st1. split_and!; [|done|by eapply depth_contents in Hc1].
    replace SCOPE_FUEL with (1 + S (SCOPE_FUEL - 2))%nat by (unfold SCOPE_FUEL; lia).
    rewrite T, loop_S. change (2 + zlen []) with 2.
    rewrite (cal_step_at b pe (p + 2) EFI_IFR_EQ_ID_VAL_OP pl) by (done || lia). done.
  - unfold CalExpValue.
    rewrite (GetScopeEnd_found b' p' (code (EBool true) FNil)), bind_Done by done.
    apply found_app in Hf' as [Hf' _]. cbn [code enc] in *. rewrite app_nil_r in *.
    pose proof (InitSmcStack_wf st Hw) as Hw0.
    destruct (push_refines (InitSmcStack st) 1 Hw0) as (st1 & E & Hw1 & Hc1).
    assert (Hz : zlen (contents (InitSmcStack st)) = 32) by (by rewrite contents_zlen).
    unfold spec_push in *. rewrite Hz in *. cbn [Z.eqb fst snd STACK_SIZE] in *.
    rewrite InitSmcStack_contents, Hd in Hc1 by done.
    destruct (pop_spec 0 (replicate 31 0) st1 Hw1 Hc1) as (st2 & E2 & _).
    exists st2.
    replace SCOPE_FUEL with (S (S (SCOPE_FUEL - 2)))%nat by (unfold SCOPE_FUEL; lia).
    change (zlen (op_bytes EFI_IFR_TRUE_OP false [])) with 2.
    rewrite loop_S, (cal_step_at b' (p' + 2) p' EFI_IFR_TRUE_OP []) by (done || lia).
    cbv iota. rewrite bind_Done.
    change (cal_op b' p' EFI_IFR_TRUE_OP (InitSmcStack st)) with
      (push_next b' p' 1 (InitSmcStack st)). unfold push_next.
    rewrite E, bind_Done, (found_op_length b' p' EFI_IFR_TRUE_OP false []), !bind_Done by done.
    change (2 + zlen []) with 2. rewrite loop_S. cbn [cal_step].
    rewrite Z.ltb_irrefl. cbn [negb]. rewrite !bind_Done. cbn [early exit_stack].
    by rewrite E2.
Qed.

Definition full_stack : SmcStack := mkSmcStack (replicate 32 5) 31.

Lemma CalExpValue_leak_witness :
  (exists st', CalExpValue (enc (abort_code [1; 0; 2; 0]) ++ END_bytes) 0 SmcStack_globals
     = Done (0, st') /\ depth st' = 1) /\
  (exists st', CalExpValue (enc (code (EBool true) FNil) ++ END_bytes) 0 full_stack
     = Done (0, st')).
Proof.
  split.
  - destruct (CalExpValue_leak (enc (abort_code [1; 0; 2; 0]) ++ END_bytes) 0 [1; 0; 2; 0]
      SmcStack_globals (enc (code (EBool true) FNil) ++ END_bytes) 0) as [H _];
      [reflexivity|discriminate|reflexivity|apply SmcStack_globals_wf|].
    destruct (H eq_refl) as (st' & H1 & _ & H2). exists st'. split; [exact H1|exact H2].
  - destruct (CalExpValue_leak (enc (abort_code [1; 0; 2; 0]) ++ END_bytes) 0 [1; 0; 2; 0]
      full_stack (enc (code (EBool true) FNil) ++ END_bytes) 0) as [_ H];
      [reflexivity|discriminate|reflexivity| |exact (H eq_refl)].
    split; [reflexivity|right]. split; [discriminate|reflexivity].
Defined.
