(* ===== verification/OobCmos.v ===== *)
(** * CMOS tokens

    Models [OobGetCmosTokensValue] and [OobSetCmosTokensValue] of
    [Library/OobLibrary.c]. A token holds the bit offset (bits 0-2), the byte
    offset (bits 3-10 as the code masks it) and the bit size (bits 12 and up)
    of a CMOS item. The I/O ports are an interface, [CmosPorts]; a 128-byte
    RTC whose index register ignores bit 7 is an instance of it. *)

From S2P Require Import Prelude.

Definition CMOS_ADDR_PORT : Z := 0x70.
Definition CMOS_DATA_PORT : Z := 0x71.

(** The two ports: an index register [sel] and cells. [same i j] says that
    two index bytes reach the same cell. *)
Class CmosPorts (S : Type) := {
  IoWrite8 : Z -> Z -> S -> S;
  IoRead8 : Z -> S -> Z;
  sel : S -> Z;
  cell : S -> Z -> Z;
  same : Z -> Z -> bool;
  same_refl i : same i i = true;
  cell_u8 s i : is_u8 (cell s i);
  sel_addr v s : is_u8 v -> sel (IoWrite8 CMOS_ADDR_PORT v s) = v;
  cell_addr v s i : cell (IoWrite8 CMOS_ADDR_PORT v s) i = cell s i;
  read_data s : IoRead8 CMOS_DATA_PORT s = cell s (sel s);
  sel_data v s : sel (IoWrite8 CMOS_DATA_PORT v s) = sel s;
  cell_data v s i : is_u8 v ->
    cell (IoWrite8 CMOS_DATA_PORT v s) i = if same i (sel s) then v else cell s i;
}.

Definition token_size (tokenID : Z) : Z := Z.shiftr tokenID 12.
Definition token_bit (tokenID : Z) : Z := Z.land tokenID 0x7.
Definition token_index (tokenID : Z) : Z := u8 (Z.land (Z.shiftr tokenID 3) 0xff).

(** [(UINT8)(0xff >> (8 - n))]: the shift count is unsigned, so a size above
    8 shifts by about [2 ^ 32], which C does not define. *)
Definition size_mask (tokenID : Z) : Res Z :=
  if token_size tokenID <=? 8
  then Done (u8 (Z.shiftr 0xff (8 - token_size tokenID))) else Fault.

Section ports.
Context {S : Type} `{CmosPorts S}.

Definition OobGetCmosTokensValue (tokenID : Z) (s : S) : Res (Z * S) :=
  maskbit ← size_mask tokenID;
  let Index := token_index tokenID in
  let s := IoWrite8 0x70 (Z.lor Index 0x80) s in
  let Data := IoRead8 0x71 s in
  let Data := u8 (Z.shiftr Data (token_bit tokenID)) in
  Done (Z.land Data maskbit, s).

Definition OobSetCmosTokensValue (tokenID value : Z) (s : S) : Res S :=
  maskbit ← size_mask tokenID;
  let maskbit := u8 (Z.shiftl maskbit (token_bit tokenID)) in
  let Index := token_index tokenID in
  let temp := u8 (Z.shiftl value (token_bit tokenID)) in
  let temp := Z.land temp maskbit in
  let s := IoWrite8 CMOS_ADDR_PORT (Z.lor Index 0x80) s in
  let Data := IoRead8 CMOS_DATA_PORT s in
  let Data := Z.land Data (u8 (Z.lnot maskbit)) in
  let Data := Z.lor Data temp in
  Done (IoWrite8 CMOS_DATA_PORT Data s).
End ports.

(** ** Bits *)
Lemma testbit_u8 x i : 0 <= i -> Z.testbit (u8 x) i = (i <? 8) && Z.testbit x i.
Proof.
  intros Hi. unfold u8. destruct (Z.ltb_spec i 8); cbn [andb].
  - by apply Z.mod_pow2_bits_low.
  - apply Z.mod_pow2_bits_high. lia.
Qed.

Lemma is_u8_bits x : 0 <= x -> (forall i, 8 <= i -> Z.testbit x i = false) -> is_u8 x.
Proof.
  intros H0 H. enough (E : x = u8 x) by (rewrite E; apply u8_range).
  apply Z.bits_inj'. intros i Hi. rewrite testbit_u8 by done.
  destruct (Z.ltb_spec i 8); cbn; [done|]. apply H. lia.
Qed.

Lemma u8_high x i : is_u8 x -> 8 <= i -> Z.testbit x i = false.
Proof.
  intros H Hi. rewrite <- (u8_small x H), testbit_u8 by lia.
  by replace (i <? 8) with false by lia.
Qed.

Lemma is_u8_lor x y : is_u8 x -> is_u8 y -> is_u8 (Z.lor x y).
Proof.
  intros Hx Hy. apply is_u8_bits; [apply Z.lor_nonneg; unfold is_u8 in *; lia|].
  intros i Hi. by rewrite Z.lor_spec, !u8_high.
Qed.

Lemma is_u8_land x y : is_u8 x -> is_u8 y -> is_u8 (Z.land x y).
Proof.
  intros Hx Hy. apply is_u8_bits; [apply Z.land_nonneg; unfold is_u8 in *; lia|].
  intros i Hi. by rewrite Z.land_spec, !u8_high.
Qed.

(** The mask has the low [n] bits. *)
Lemma size_mask_bits t :
  0 <= token_size t <= 8 ->
  exists m, size_mask t = Done m /\ is_u8 m /\
    forall i, 0 <= i -> Z.testbit m i = (i <? token_size t).
Proof.
  intros Hn. unfold size_mask. replace (token_size t <=? 8) with true by lia.
  eexists; split; [done|]. split; [apply u8_range|]. intros i Hi.
  rewrite testbit_u8, Z.shiftr_spec by lia. change 0xff with (Z.ones 8).
  rewrite Z.testbit_ones_nonneg by lia.
  destruct (Z.ltb_spec i 8), (Z.ltb_spec (i + (8 - token_size t)) 8),
    (Z.ltb_spec i (token_size t)); cbn; lia.
Qed.

Lemma token_bit_range t : 0 <= token_bit t < 8.
Proof.
  unfold token_bit. change 0x7 with (Z.ones 3). rewrite Z.land_ones by lia.
  apply Z.mod_pos_bound. lia.
Qed.

Lemma index_u8 t : is_u8 (Z.lor (token_index t) 0x80).
Proof. apply is_u8_lor; [apply u8_range|done]. Qed.

(** What a token reads: the bits of its cell. *)
Section get.
Context {S : Type} `{CmosPorts S}.

Lemma get_spec t s :
  0 <= token_size t <= 8 ->
  exists v s', OobGetCmosTokensValue t s = Done (v, s') /\
    (forall i, cell s' i = cell s i) /\
    forall i, 0 <= i -> Z.testbit v i =
      (i <? token_size t) && Z.testbit (cell s (Z.lor (token_index t) 0x80)) (i + token_bit t).
Proof.
  intros Hn. destruct (size_mask_bits t Hn) as (m & Em & _ & Hm).
  unfold OobGetCmosTokensValue. rewrite Em, bind_Done.
  eexists _, _. split; [done|]. split; [intros; apply cell_addr|].
  intros i Hi. pose proof (token_bit_range t).
  change 0x70 with CMOS_ADDR_PORT. change 0x71 with CMOS_DATA_PORT.
  rewrite read_data, sel_addr, cell_addr by apply index_u8.
  set (c := cell s _). assert (Hc : is_u8 c) by apply cell_u8.
  rewrite Z.land_spec, Hm, testbit_u8, Z.shiftr_spec by lia.
  destruct (Z.ltb_spec i 8), (Z.ltb_spec i (token_size t)); cbn;
    rewrite ?andb_true_r, ?andb_false_r; done || lia.
Qed.

Lemma set_spec t v s :
  0 <= token_size t <= 8 -> is_u8 v ->
  exists s' w, OobSetCmosTokensValue t v s = Done s' /\ is_u8 w /\
    (forall i, cell s' i =
       if same i (Z.lor (token_index t) 0x80) then w else cell s i) /\
    forall j, 0 <= j < 8 -> Z.testbit w j =
      if (token_bit t <=? j) && (j <? token_bit t + token_size t)
      then Z.testbit v (j - token_bit t)
      else Z.testbit (cell s (Z.lor (token_index t) 0x80)) j.
Proof.
  intros Hn Hv. destruct (size_mask_bits t Hn) as (m & Em & Hmu & Hm).
  unfold OobSetCmosTokensValue. rewrite Em, bind_Done. cbv zeta.
  pose proof (token_bit_range t).
  rewrite read_data, sel_addr, cell_addr by apply index_u8.
  set (c := cell s (Z.lor _ _)). set (mb := u8 (Z.shiftl m _)).
  set (w := Z.lor (Z.land c _) _). assert (Hc : is_u8 c) by apply cell_u8.
  assert (Hw : is_u8 w) by (apply is_u8_lor; apply is_u8_land; try apply u8_range; done).
  eexists _, w. split; [done|]. split; [done|]. split.
  { intros i. by rewrite cell_data, sel_addr, cell_addr by (done || apply index_u8). }
  intros j Hj. unfold w, mb.
  rewrite Z.lor_spec, !Z.land_spec, !testbit_u8, Z.lnot_spec, testbit_u8 by lia.
  replace (j <? 8) with true by lia. cbn [andb]. rewrite !Z.shiftl_spec by lia.
  destruct (Z.leb_spec (token_bit t) j) as [Hb|Hb]; cbn [andb].
  - rewrite Hm by lia.
    replace (j - token_bit t <? token_size t) with (j <? token_bit t + token_size t)
      by (destruct (Z.ltb_spec j (token_bit t + token_size t)),
           (Z.ltb_spec (j - token_bit t) (token_size t)); lia).
    destruct (_ <? _); cbn; by rewrite ?andb_true_r, ?andb_false_r, ?orb_false_r.
  - rewrite (Z.testbit_neg_r m), (Z.testbit_neg_r v) by lia. cbn.
    by rewrite ?andb_true_r, ?orb_false_r.
Qed.
End get.

(** ** An address in four tokens

    The drivers pass a 32-bit address to SMM in four one-byte items. *)
Section address.
Context {S : Type} `{CmosPorts S}.

(** A token for a whole cell, and the index it selects. *)
Definition byte_token (t : Z) : Prop := token_size t = 8 /\ token_bit t = 0.
Definition cell_index (t : Z) : Z := Z.lor (token_index t) 0x80.

Definition tokens_apart (t t' : Z) : Prop :=
  same (cell_index t) (cell_index t') = false.

(** Four whole cells, no two of them the same. *)
Definition whole_cells (a b c d : Z) : Prop :=
  byte_token a /\ byte_token b /\ byte_token c /\ byte_token d /\
  tokens_apart a b /\ tokens_apart a c /\ tokens_apart a d /\
  tokens_apart b c /\ tokens_apart b d /\ tokens_apart c d.

Definition put_address (HH H L LL Data32 : Z) (s : S) : Res S :=
  s ← OobSetCmosTokensValue HH (Z.land (Z.shiftr Data32 24) 0xff) s;
  s ← OobSetCmosTokensValue H (Z.land (Z.shiftr Data32 16) 0xff) s;
  s ← OobSetCmosTokensValue L (Z.land (Z.shiftr Data32 8) 0xff) s;
  OobSetCmosTokensValue LL (Z.land Data32 0xff) s.

Definition get_address (HH H L LL : Z) (s : S) : Res (Z * S) :=
  '(b3, s) ← OobGetCmosTokensValue HH s;
  '(b2, s) ← OobGetCmosTokensValue H s;
  '(b1, s) ← OobGetCmosTokensValue L s;
  '(b0, s) ← OobGetCmosTokensValue LL s;
  Done (u32 (Z.lor (Z.lor (Z.lor (Z.shiftl b3 24) (Z.shiftl b2 16)) (Z.shiftl b1 8)) b0), s).

Lemma set_byte t v s :
  byte_token t -> is_u8 v ->
  exists s', OobSetCmosTokensValue t v s = Done s' /\
    forall i, cell s' i = if same i (cell_index t) then v else cell s i.
Proof using.
  intros [Hsz Hbit] Hv. destruct (set_spec t v s) as (s' & w & E & Hw & Hc & Hb); [lia|done|].
  exists s'. split; [done|]. intros i. rewrite Hc. enough (w = v) as -> by done.
  apply Z.bits_inj'. intros j Hj. destruct (Z.lt_ge_cases j 8).
  - rewrite Hb, Hbit, Hsz, Z.sub_0_r by lia. by replace ((0 <=? j) && (j <? 0 + 8)) with true by lia.
  - by rewrite !u8_high.
Qed.

Lemma get_byte t s :
  byte_token t ->
  exists s', OobGetCmosTokensValue t s = Done (cell s (cell_index t), s') /\ (forall i, cell s' i = cell s i).
Proof using.
  intros [Hsz Hbit]. destruct (get_spec t s) as (v & s' & E & Hc & Hb); [lia|].
  exists s'. split; [|done]. rewrite E. do 2 f_equal. apply Z.bits_inj'. intros i Hi.
  rewrite Hb, Hsz, Hbit, Z.add_0_r by done. fold (cell_index t).
  destruct (Z.ltb_spec i 8); cbn [andb]; [done|]. symmetry. apply u8_high; [apply cell_u8|done].
Qed.

Lemma byte_of x k : is_u8 (Z.land (Z.shiftr x k) 0xff).
Proof using. change 0xff with (Z.ones 8). rewrite Z.land_ones by lia. apply u8_range. Qed.

(** Four bytes put together again. *)
Lemma bytes_of_u32 d :
  is_u32 d ->
  u32 (Z.lor (Z.lor (Z.lor (Z.shiftl (Z.land (Z.shiftr d 24) 0xff) 24) (Z.shiftl (Z.land (Z.shiftr d 16) 0xff) 16))
    (Z.shiftl (Z.land (Z.shiftr d 8) 0xff) 8)) (Z.land d 0xff)) = d.
Proof using.
  intros Hd. rewrite <- (u32_small d Hd) at 5. unfold u32. apply Z.bits_inj'. intros i Hi.
  destruct (Z.lt_ge_cases i 32) as [H32|H32];
    [rewrite !Z.mod_pow2_bits_low by lia|by rewrite !Z.mod_pow2_bits_high by lia].
  change 0xff with (Z.ones 8). rewrite !Z.lor_spec, !Z.shiftl_spec by lia.
  assert (E : forall k, 0 <= k -> Z.testbit (Z.land (Z.shiftr d k) (Z.ones 8)) (i - k)
    = (k <=? i) && (i <? k + 8) && Z.testbit d i).
  { intros k Hk. destruct (Z.leb_spec k i); cbn [andb]; [|by rewrite Z.testbit_neg_r by lia].
    rewrite Z.land_spec, Z.shiftr_spec, Z.testbit_ones_nonneg by lia.
    replace (i - k + k) with i by lia. replace (i - k <? 8) with (i <? k + 8) by lia. apply andb_comm. }
  rewrite !E by lia. pose proof (E 0 ltac:(lia)) as E0. rewrite Z.shiftr_0_r, Z.sub_0_r in E0. rewrite E0.
  destruct (Z.testbit d i); [|by rewrite !andb_false_r]. lia.
Qed.

(** What one side saves is what the other finds, every time. *)
Lemma put_get_address a b c d v s :
  whole_cells a b c d -> is_u32 v ->
  exists s', put_address a b c d v s = Done s' /\
    forall s'', (forall i, cell s'' i = cell s' i) ->
      exists r, get_address a b c d s'' = Done (v, r) /\ forall i, cell r i = cell s' i.
Proof using.
  intros (Ba & Bb & Bc & Bd & Hab & Hac & Had & Hbc & Hbd & Hcd) Hv. unfold put_address, tokens_apart in *.
  destruct (set_byte _ (Z.land (Z.shiftr v 24) 0xff) s Ba) as (s1 & E1 & C1); [apply byte_of|].
  destruct (set_byte _ (Z.land (Z.shiftr v 16) 0xff) s1 Bb) as (s2 & E2 & C2); [apply byte_of|].
  destruct (set_byte _ (Z.land (Z.shiftr v 8) 0xff) s2 Bc) as (s3 & E3 & C3); [apply byte_of|].
  destruct (set_byte _ (Z.land v 0xff) s3 Bd) as (s4 & E4 & C4).
  { rewrite <- (Z.shiftr_0_r v). apply byte_of. }
  rewrite E1, bind_Done, E2, bind_Done, E3, bind_Done. exists s4. split; [done|]. intros s0 C0.
  destruct (get_byte _ s0 Ba) as (c1 & G1 & K1). destruct (get_byte _ c1 Bb) as (c2 & G2 & K2).
  destruct (get_byte _ c2 Bc) as (c3 & G3 & K3). destruct (get_byte _ c3 Bd) as (c4 & G4 & K4).
  exists c4. split; [|intros i; by rewrite K4, K3, K2, K1].
  unfold get_address. rewrite G1, bind_Done, G2, bind_Done, G3, bind_Done, G4, bind_Done.
  rewrite !K3, !K2, !K1, !C0, !C4, !C3, !C2, !C1, !same_refl, Hab, Hac, Had, Hbc, Hbd, Hcd.
  by rewrite bytes_of_u32.
Qed.
End address.

(** C39: (roundtrip) reading a token after writing it gives back the value cut
    to the token's size and to the end of its byte; a token with other bits
    of the same cell, or of another cell, keeps its value. *)
Theorem OobCmosTokens_roundtrip {S} `{CmosPorts S} (s : S) (t v : Z) :
  0 <= token_size t <= 8 -> is_u8 v ->
  exists s', OobSetCmosTokensValue t v s = Done s' /\
    (exists s'', OobGetCmosTokensValue t s' =
       Done (v mod 2 ^ Z.min (token_size t) (8 - token_bit t), s'')) /\
    forall t', 0 <= token_size t' -> token_bit t' + token_size t' <= 8 ->
      same (Z.lor (token_index t') 0x80) (Z.lor (token_index t) 0x80) = false \/
      token_index t' = token_index t /\
        (token_bit t' + token_size t' <= token_bit t \/
         token_bit t + token_size t <= token_bit t') ->
      exists r s1 s2, OobGetCmosTokensValue t' s' = Done (r, s1) /\
        OobGetCmosTokensValue t' s = Done (r, s2).
Proof.
  intros Hn Hv. destruct (set_spec t v s Hn Hv) as (s' & w & Es & Hwu & Hc & Hw).
  pose proof (token_bit_range t). exists s'. split; [done|]. split.
  - destruct (get_spec t s' Hn) as (r & s'' & Eg & _ & Hr). exists s''.
    rewrite Eg. do 2 f_equal. apply Z.bits_inj'. intros i Hi.
    rewrite Hr, Hc, same_refl by done.
    destruct (Z.ltb_spec i (Z.min (token_size t) (8 - token_bit t))).
    + rewrite Z.mod_pow2_bits_low by lia. replace (i <? token_size t) with true by lia.
      cbn [andb]. rewrite Hw by lia.
      replace ((token_bit t <=? _) && _) with true by lia. f_equal. lia.
    + rewrite Z.mod_pow2_bits_high by lia.
      destruct (Z.ltb_spec i (token_size t)); cbn [andb]; [|done].
      apply u8_high; [done|lia].
  - intros t' Hn' Hfit Hd. pose proof (token_bit_range t').
    destruct (get_spec t' s') as (r1 & s1 & E1 & _ & Hr1); [lia|].
    destruct (get_spec t' s) as (r2 & s2 & E2 & _ & Hr2); [lia|].
    exists r1, s1, s2. split; [done|]. rewrite E2. do 2 f_equal.
    apply Z.bits_inj'. intros i Hi. rewrite Hr1, Hr2, Hc by done.
    destruct (Z.ltb_spec i (token_size t')); cbn [andb]; [|done].
    destruct Hd as [->|[-> Hd]]; [done|]. rewrite same_refl, Hw by lia.
    destruct (Z.leb_spec (token_bit t) (i + token_bit t')),
      (Z.ltb_spec (i + token_bit t') (token_bit t + token_size t)); cbn; done || lia.
Qed.

(** ** A 128-byte RTC *)
Record RTC := mkRTC { rtc_index : Z; rtc_cells : Z -> Z }.

Definition rtc_slot (i : Z) : Z := Z.land i 0x7f.

#[export, program] Instance RTC_ports : CmosPorts RTC := {
  IoWrite8 p v s :=
    if p =? CMOS_ADDR_PORT then mkRTC v (rtc_cells s)
    else if p =? CMOS_DATA_PORT then
      mkRTC (rtc_index s)
        (fun i => if i =? rtc_slot (rtc_index s) then v else rtc_cells s i)
    else s;
  IoRead8 p s :=
    if p =? CMOS_DATA_PORT then u8 (rtc_cells s (rtc_slot (rtc_index s))) else 0xff;
  sel := rtc_index;
  cell s i := u8 (rtc_cells s (rtc_slot i));
  same i j := rtc_slot i =? rtc_slot j;
}.
Next Obligation. intros. apply Z.eqb_refl. Qed.
Next Obligation. intros. apply u8_range. Qed.
Next Obligation. done. Qed.
Next Obligation. done. Qed.
Next Obligation. done. Qed.
Next Obligation. done. Qed.
Next Obligation.
  intros v s i Hv. cbn. destruct (rtc_slot i =? _); [by apply u8_small|done].
Qed.

Definition rtc0 : RTC := mkRTC 0 (fun i => i).

(** A three-bit item at bit 2 of byte 0x44. *)
Lemma OobCmosTokens_roundtrip_witness :
  exists s', OobSetCmosTokensValue (0x3000 + 8 * 0x44 + 2) 0xfd rtc0 = Done s' /\
    exists s'', OobGetCmosTokensValue (0x3000 + 8 * 0x44 + 2) s' = Done (5, s'').
Proof.
  destruct (OobCmosTokens_roundtrip rtc0 (0x3000 + 8 * 0x44 + 2) 0xfd)
    as (s' & H1 & H2 & _); [split; discriminate|split; [discriminate|reflexivity]|].
  exists s'. split; [exact H1|exact H2].
Defined.
