(* ===== verification/FeatureFlag.v ===== *)
(** * SUM feature flags

    Models [Library/SmcFeatureFlag.c]: the feature-support record that the
    in-band and out-of-band modules send, a 16-byte [PlatInfo_H] followed by
    24 payload bytes in which each supported feature has one bit. *)

From S2P Require Import Prelude OobCmos.

(** ** [SUM_FEATURE_FLAGS] of [Guid/SmcOobPlatformPolicy.h] *)
Record SUM_FEATURE_FLAGS := mkSumFeatureFlags {
  SumFeatureFlagMajorVersion : Z;
  SumFeatureFlagMinorVersion : Z;
  SumPlatformId : Z;
  SumWithWithoutBmc : Z;
  SumInbandJumperlessUpdateBios : Z;
  SumBiosConfigurationSupportOutband : Z;
  SumBiosConfigurationSupportInband : Z;
  SumMeDisablingUpdateBios : Z;
  SumEditDmiSupportOutband : Z;
  SumEditDmiSupportInband : Z;
  SumPresistentDmiBiosCfgSupportOutband : Z;
  SumFullSmbiosSupportOutband : Z;
  SumFullSmbiosSupportInband : Z;
  SumVpdSupportOutband : Z;
  SumVpdSupportInband : Z;
  SumHddInformationBiosSupport : Z;
  SumMctpFwUpdateBiosSupport : Z;
  SumVpdType40BiosSupport : Z;
  SumFru1DataBiosSupport : Z;
  SumIntelRcEventLogSupport : Z;
  SumTpmProvisionSupport : Z;
  SumAutoTpmProvisionSupport : Z;
  SumTpmV12Support : Z;
  SumTpmV20Support : Z;
  SumDefaultPreserveSmbiosSupport : Z;
  SumDefaultProgramNvramSupport : Z;
  SumDefaultUpdateMeSupport : Z;
  SumTpmCustomProvisionTableSupport : Z;
}.

Definition PAYLOAD_SIZE : Z := 24.
Definition sizeof_PlatInfo_H : Z := 16.

(** [if (v) Payload[i] |= (v & 1) << k]. *)
Definition or_flag (b : list Z) (i v k : Z) : Res (list Z) :=
  if v =? 0 then Done b
  else c ← rd8 b i; wr8 b i (Z.lor c (Z.shiftl (Z.land v 1) k)).

(** [Payload] is an offset into the caller's buffer [b]. *)
Definition FsfPayload (b : list Z) (Payload : Z) (f : SUM_FEATURE_FLAGS)
    : Res (list Z * Z) :=
  b ← wrn b Payload (replicate (Z.to_nat PAYLOAD_SIZE) 0);
  b ← (if SumPlatformId f =? 0 then Done b
       else c ← rd8 b (Payload + 0);
            wr8 b (Payload + 0) (Z.lor c (Z.land (SumPlatformId f) 0x7f)));
  b ← or_flag b (Payload + 0) (SumWithWithoutBmc f) 7;
  b ← or_flag b (Payload + 4) (SumInbandJumperlessUpdateBios f) 1;
  b ← or_flag b (Payload + 4) (SumBiosConfigurationSupportOutband f) 3;
  b ← or_flag b (Payload + 4) (SumBiosConfigurationSupportInband f) 4;
  b ← or_flag b (Payload + 4) (SumMeDisablingUpdateBios f) 5;
  b ← or_flag b (Payload + 5) (SumEditDmiSupportOutband f) 1;
  b ← or_flag b (Payload + 5) (SumEditDmiSupportInband f) 2;
  b ← or_flag b (Payload + 6) (SumPresistentDmiBiosCfgSupportOutband f) 1;
  b ← or_flag b (Payload + 10) (SumFullSmbiosSupportOutband f) 1;
  b ← or_flag b (Payload + 10) (SumFullSmbiosSupportInband f) 2;
  b ← or_flag b (Payload + 10) (SumVpdSupportOutband f) 4;
  b ← or_flag b (Payload + 10) (SumVpdSupportInband f) 5;
  b ← or_flag b (Payload + 10) (SumHddInformationBiosSupport f) 6;
  b ← or_flag b (Payload + 11) (SumMctpFwUpdateBiosSupport f) 5;
  b ← or_flag b (Payload + 11) (SumVpdType40BiosSupport f) 6;
  b ← or_flag b (Payload + 12) (SumFru1DataBiosSupport f) 0;
  b ← or_flag b (Payload + 14) (SumIntelRcEventLogSupport f) 1;
  b ← or_flag b (Payload + 16) (SumTpmProvisionSupport f) 1;
  b ← or_flag b (Payload + 16) (SumAutoTpmProvisionSupport f) 3;
  b ← or_flag b (Payload + 16) (SumTpmCustomProvisionTableSupport f) 5;
  b ← or_flag b (Payload + 17) (SumTpmV12Support f) 0;
  b ← or_flag b (Payload + 17) (SumTpmV20Support f) 1;
  b ← or_flag b (Payload + 18) (SumDefaultPreserveSmbiosSupport f) 0;
  b ← or_flag b (Payload + 18) (SumDefaultProgramNvramSupport f) 1;
  b ← or_flag b (Payload + 18) (SumDefaultUpdateMeSupport f) 2;
  Done (b, PAYLOAD_SIZE).

Definition GenerateFeatureSupportFlags (Buffer : list Z) (f : SUM_FEATURE_FLAGS)
    : Res (list Z * Z) :=
  b ← wr8 Buffer 0 (SumFeatureFlagMajorVersion f);
  b ← wr16 b 1 (SumFeatureFlagMinorVersion f);
  '(b, PayloadLength) ← FsfPayload b sizeof_PlatInfo_H f;
  b ← wr16 b 3 PayloadLength;
  payload ← rdn b sizeof_PlatInfo_H PAYLOAD_SIZE;
  b ← wr8 b 14 (u32 (zsum payload));
  header ← rdn b 0 (sizeof_PlatInfo_H - 1);
  b ← wr8 b 15 (u32 (zsum header));
  Done (b, PayloadLength + sizeof_PlatInfo_H).

(** ** The bit map of the specification: byte, bit, flag *)
Definition fsf_table (f : SUM_FEATURE_FLAGS) : list (Z * Z * Z) :=
  [ (0, 7, SumWithWithoutBmc f);
    (4, 1, SumInbandJumperlessUpdateBios f);
    (4, 3, SumBiosConfigurationSupportOutband f);
    (4, 4, SumBiosConfigurationSupportInband f);
    (4, 5, SumMeDisablingUpdateBios f);
    (5, 1, SumEditDmiSupportOutband f);
    (5, 2, SumEditDmiSupportInband f);
    (6, 1, SumPresistentDmiBiosCfgSupportOutband f);
    (10, 1, SumFullSmbiosSupportOutband f);
    (10, 2, SumFullSmbiosSupportInband f);
    (10, 4, SumVpdSupportOutband f);
    (10, 5, SumVpdSupportInband f);
    (10, 6, SumHddInformationBiosSupport f);
    (11, 5, SumMctpFwUpdateBiosSupport f);
    (11, 6, SumVpdType40BiosSupport f);
    (12, 0, SumFru1DataBiosSupport f);
    (14, 1, SumIntelRcEventLogSupport f);
    (16, 1, SumTpmProvisionSupport f);
    (16, 3, SumAutoTpmProvisionSupport f);
    (16, 5, SumTpmCustomProvisionTableSupport f);
    (17, 0, SumTpmV12Support f);
    (17, 1, SumTpmV20Support f);
    (18, 0, SumDefaultPreserveSmbiosSupport f);
    (18, 1, SumDefaultProgramNvramSupport f);
    (18, 2, SumDefaultUpdateMeSupport f) ].

(** The bit of byte [i] the specification asks for. *)
Definition fsf_bit (f : SUM_FEATURE_FLAGS) (i j : Z) : bool :=
  ((i =? 0) && (j <? 7) && Z.testbit (SumPlatformId f) j) ||
  existsb (fun '(bi, bj, v) => (i =? bi) && (j =? bj) && Z.testbit v 0) (fsf_table f).

Definition payload_bit (l : list Z) (i j : Z) : bool :=
  Z.testbit (default 0 (l !! Z.to_nat i)) j.

(** Setting one bit, on the payload alone. *)
Definition or_at (l : list Z) (i x : Z) : list Z :=
  <[Z.to_nat i := u8 (Z.lor (default 0 (l !! Z.to_nat i)) x)]> l.

Lemma rd8_mid pre l post i :
  0 <= i < zlen l -> rd8 (pre ++ l ++ post) (zlen pre + i) = Done (default 0 (l !! Z.to_nat i)).
Proof.
  intros Hi. unfold zlen in Hi. apply arr_get_lookup. split; [zl|].
  rewrite lookup_app_r by (unfold zlen; lia).
  replace (Z.to_nat (zlen pre + i) - length pre)%nat with (Z.to_nat i) by (unfold zlen; lia).
  rewrite lookup_app_l by lia.
  destruct (lookup_lt_is_Some_2 l (Z.to_nat i)) as [x ->]; [lia|done].
Qed.

Lemma wr8_mid pre l post i x :
  0 <= i < zlen l ->
  wr8 (pre ++ l ++ post) (zlen pre + i) x = Done (pre ++ <[Z.to_nat i := u8 x]> l ++ post).
Proof.
  intros Hi. unfold zlen in Hi.
  destruct (lookup_lt_is_Some_2 l (Z.to_nat i)) as [y Hy]; [lia|].
  rewrite <- (take_drop_middle l _ y Hy) at 1.
  rewrite insert_take_drop by lia. unfold wr8.
  replace (pre ++ (take (Z.to_nat i) l ++ y :: drop (S (Z.to_nat i)) l) ++ post)
    with ((pre ++ take (Z.to_nat i) l) ++ [y] ++ (drop (S (Z.to_nat i)) l ++ post))
    by (cbn; by rewrite <- !app_assoc).
  rewrite wrn_at by (unfold zlen in *; cbn; rewrite ?length_app, ?length_take; lia).
  f_equal. cbn. by rewrite <- !app_assoc.
Qed.

Lemma zlen_or_at l i x : zlen (or_at l i x) = zlen l.
Proof. unfold or_at, zlen. by rewrite length_insert. Qed.

Definition flag_bit (v k : Z) : Z := Z.shiftl (Z.land v 1) k.

Lemma or_at_id l i : bytes_ok l -> or_at l i 0 = l.
Proof.
  intros Hl. unfold or_at. destruct (l !! Z.to_nat i) as [x|] eqn:E; cbn.
  - rewrite Z.lor_0_r, u8_small, list_insert_id; auto. eapply Forall_lookup_1; eauto.
  - apply list_insert_ge. by apply lookup_ge_None_1.
Qed.

Lemma or_at_ok l i x : bytes_ok l -> bytes_ok (or_at l i x).
Proof. intros Hl. apply Forall_insert; [done|apply u8_range]. Qed.

Lemma or_flag_mid pre l post i v k :
  bytes_ok l -> 0 <= i < zlen l ->
  or_flag (pre ++ l ++ post) (zlen pre + i) v k =
  Done (pre ++ or_at l i (flag_bit v k) ++ post).
Proof.
  intros Hl Hi. unfold or_flag. destruct (Z.eqb_spec v 0) as [->|].
  - unfold flag_bit. by rewrite Z.land_0_l, Z.shiftl_0_l, or_at_id.
  - by rewrite rd8_mid, bind_Done, wr8_mid.
Qed.

Lemma payload_bit_or l i x i' j :
  0 <= i < zlen l -> 0 <= i' -> 0 <= j < 8 ->
  payload_bit (or_at l i x) i' j =
  payload_bit l i' j || ((i' =? i) && Z.testbit x j).
Proof.
  intros Hi Hi' Hj. unfold payload_bit, or_at, zlen in *.
  destruct (Z.eqb_spec i' i) as [->|Hne]; cbn [andb].
  - rewrite list_lookup_insert_eq by lia. cbn [default from_option id].
    rewrite testbit_u8, Z.lor_spec by lia. by replace (j <? 8) with true by lia.
  - rewrite list_lookup_insert_ne by lia. by rewrite orb_false_r.
Qed.

Lemma testbit_flag v k j : 0 <= k -> 0 <= j -> Z.testbit (flag_bit v k) j = (j =? k) && Z.testbit v 0.
Proof.
  intros Hk Hj. unfold flag_bit. rewrite Z.shiftl_spec, Z.land_spec by lia.
  change 1 with (Z.ones 1). destruct (Z.eqb_spec j k) as [->|Hne]; cbn.
  - rewrite Z.sub_diag, Z.testbit_ones_nonneg by lia. by rewrite andb_true_r.
  - destruct (Z.ltb_spec (j - k) 0); [by rewrite Z.testbit_neg_r|].
    rewrite Z.testbit_ones_nonneg by lia. replace (j - k <? 1) with false by lia.
    apply andb_false_r.
Qed.

(** The payload the code builds, as a fold over the table. *)
Definition fsf_payload (f : SUM_FEATURE_FLAGS) : list Z :=
  fold_left (fun l '(i, k, v) => or_at l i (flag_bit v k)) (fsf_table f)
    (or_at (replicate (Z.to_nat PAYLOAD_SIZE) 0) 0 (Z.land (SumPlatformId f) 0x7f)).

Lemma fold_or_ok t l :
  bytes_ok l -> bytes_ok (fold_left (fun l '(i, k, v) => or_at l i (flag_bit v k)) t l).
Proof.
  revert l. induction t as [|[[i k] v] t IH]; intros l Hl; cbn; [done|].
  by apply IH, or_at_ok.
Qed.

Lemma fold_or_zlen t l :
  zlen (fold_left (fun l '(i, k, v) => or_at l i (flag_bit v k)) t l) = zlen l.
Proof.
  revert l. induction t as [|[[i k] v] t IH]; intros l; cbn; [done|].
  by rewrite IH, zlen_or_at.
Qed.

Lemma fold_or_bit t l i j :
  Forall (fun '(bi, k, _) => 0 <= bi < zlen l /\ 0 <= k) t -> 0 <= i -> 0 <= j < 8 ->
  payload_bit (fold_left (fun l '(i, k, v) => or_at l i (flag_bit v k)) t l) i j =
  payload_bit l i j ||
  existsb (fun '(bi, bj, v) => (i =? bi) && (j =? bj) && Z.testbit v 0) t.
Proof.
  intros Ht Hi Hj. revert l Ht. induction t as [|[[bi k] v] t IH]; intros l Ht; cbn.
  - by rewrite orb_false_r.
  - apply Forall_cons in Ht as [[Hb Hk] Ht].
    rewrite IH by (rewrite zlen_or_at; done).
    rewrite payload_bit_or, testbit_flag by (done || lia).
    by rewrite <- andb_assoc, orb_assoc.
Qed.

Lemma fsf_payload_ok f : bytes_ok (fsf_payload f).
Proof. apply fold_or_ok, or_at_ok. by apply Forall_replicate. Qed.

Lemma fsf_payload_zlen f : zlen (fsf_payload f) = PAYLOAD_SIZE.
Proof. unfold fsf_payload. by rewrite fold_or_zlen, zlen_or_at. Qed.

Lemma fsf_payload_bit f i j :
  0 <= i < PAYLOAD_SIZE -> 0 <= j < 8 -> payload_bit (fsf_payload f) i j = fsf_bit f i j.
Proof.
  intros Hi Hj. unfold fsf_payload. rewrite fold_or_bit; [|..|lia|lia].
  - unfold fsf_bit. f_equal. rewrite payload_bit_or by (done || lia).
    replace (payload_bit (replicate _ 0) i j) with false.
    + change 0x7f with (Z.ones 7).
      rewrite Z.land_spec, Z.testbit_ones_nonneg by lia. cbn [orb].
      rewrite <- andb_assoc. f_equal. apply andb_comm.
    + unfold payload_bit. rewrite lookup_replicate_2 by (unfold PAYLOAD_SIZE in *; lia).
      cbn. by rewrite Z.testbit_0_l.
  - rewrite zlen_or_at. change (zlen _) with 24. unfold fsf_table. repeat constructor; lia.
Qed.

Lemma FsfPayload_mid pre old post f :
  zlen old = PAYLOAD_SIZE ->
  FsfPayload (pre ++ old ++ post) (zlen pre) f = Done (pre ++ fsf_payload f ++ post, PAYLOAD_SIZE).
Proof.
  intros Ho. unfold FsfPayload. rewrite wrn_at by (rewrite ?Ho; done). rewrite bind_Done.
  set (z := replicate _ 0). assert (Hz : bytes_ok z) by (by apply Forall_replicate).
  assert (Hzl : zlen z = 24) by done.
  assert (E0 : (if SumPlatformId f =? 0 then Done (pre ++ z ++ post)
     else c ← rd8 (pre ++ z ++ post) (zlen pre + 0);
       wr8 (pre ++ z ++ post) (zlen pre + 0) (Z.lor c (Z.land (SumPlatformId f) 0x7f)))
     = Done (pre ++ or_at z 0 (Z.land (SumPlatformId f) 0x7f) ++ post)).
  { destruct (Z.eqb_spec (SumPlatformId f) 0) as [->|].
    - by rewrite Z.land_0_l, or_at_id.
    - by rewrite rd8_mid, bind_Done, wr8_mid by lia. }
  rewrite E0, bind_Done. clear E0.
  repeat (rewrite or_flag_mid, bind_Done by
    (repeat apply or_at_ok; done) || (rewrite ?zlen_or_at, Hzl; lia)).
  unfold fsf_payload, fsf_table. cbn [fold_left]. reflexivity.
Qed.

(** Sums of a 32-bit accumulator stored in a byte. *)
Lemma u8_u32 x : u8 (u32 x) = u8 x.
Proof.
  unfold u8, u32. symmetry. rewrite <- (Z.mod_mod_divide x (2 ^ 32) (2 ^ 8)); [done|].
  by exists (2 ^ 24).
Qed.

(** The fields written around the payload. *)
Lemma header_steps M m old3 reserved o1 o2 pl post :
  zlen m = 2 -> zlen old3 = 2 -> zlen reserved = 9 -> zlen pl = 24 ->
  (b ← wrn ([M] ++ m ++ old3 ++ reserved ++ [o1; o2] ++ pl ++ post) 3 (le_bytes 2 24);
   payload ← rdn b 16 24;
   b ← wrn b 14 [u8 (u32 (zsum payload))];
   header ← rdn b 0 15;
   b ← wrn b 15 [u8 (u32 (zsum header))];
   Done (b, 40)) =
  let hdr := [M] ++ m ++ le_bytes 2 24 ++ reserved ++ [sum8 pl] in
  Done (hdr ++ [sum8 hdr] ++ pl ++ post, 40).
Proof.
  intros Hm H3 Hr Hpl. cbv zeta. generalize (zlen_le_bytes 2 24).
  generalize (le_bytes 2 24). intros l3 Hl3.
  wr_as ([M] ++ m) old3 (reserved ++ [o1; o2] ++ pl ++ post).
  rd_as ([M] ++ m ++ l3 ++ reserved ++ [o1; o2]) pl post.
  wr_as ([M] ++ m ++ l3 ++ reserved) [o1] ([o2] ++ pl ++ post).
  rewrite u8_u32, <- sum8_zsum. set (h := [M] ++ m ++ l3 ++ reserved ++ [sum8 pl]).
  assert (Hh : zlen h = 15) by (unfold h; zl).
  rd_as (@nil Z) h ([o2] ++ pl ++ post).
  wr_as h [o2] (pl ++ post).
  by rewrite u8_u32, <- sum8_zsum.
Qed.

Lemma GenerateFeatureSupportFlags_spec f old0 old2 old3 reserved olds oldp post :
  zlen old0 = 1 -> zlen old2 = 2 -> zlen old3 = 2 -> zlen reserved = 9 ->
  zlen olds = 2 -> zlen oldp = PAYLOAD_SIZE ->
  let hdr := [u8 (SumFeatureFlagMajorVersion f)] ++ le_bytes 2 (SumFeatureFlagMinorVersion f) ++
             le_bytes 2 24 ++ reserved ++ [sum8 (fsf_payload f)] in
  GenerateFeatureSupportFlags (old0 ++ old2 ++ old3 ++ reserved ++ olds ++ oldp ++ post) f =
    Done (hdr ++ [sum8 hdr] ++ fsf_payload f ++ post, 40).
Proof.
  intros H0 H2 H3 Hr Hs Hp.
  destruct olds as [|o1 [|o2 [|]]]; try by (exfalso; zl).
  unfold GenerateFeatureSupportFlags, wr8, wr16.
  wr_as (@nil Z) old0 (old2 ++ old3 ++ reserved ++ [o1; o2] ++ oldp ++ post).
  wr_as [u8 (SumFeatureFlagMajorVersion f)] old2 (old3 ++ reserved ++ [o1; o2] ++ oldp ++ post).
  pose proof (FsfPayload_mid ([u8 (SumFeatureFlagMajorVersion f)] ++
    le_bytes 2 (SumFeatureFlagMinorVersion f) ++ old3 ++ reserved ++ [o1; o2]) oldp post f Hp) as HF.
  replace (zlen _) with sizeof_PlatInfo_H in HF by (unfold sizeof_PlatInfo_H; zl).
  rewrite <- !app_assoc in HF. rewrite HF, bind_Done.
  apply header_steps; [zl|done|done|apply fsf_payload_zlen].
Qed.

(** Any buffer of 40 bytes or more will do. *)
Lemma GenerateFeatureSupportFlags_done f buf :
  40 <= zlen buf -> exists b, GenerateFeatureSupportFlags buf f = Done (b, 40) /\ zlen b = zlen buf.
Proof.
  intros Hl.
  assert (P : forall n (l : list Z), Z.of_nat n <= zlen l ->
    exists x y, l = x ++ y /\ zlen x = Z.of_nat n /\ zlen y = zlen l - Z.of_nat n).
  { intros n l Hn. exists (take n l), (drop n l). rewrite take_drop. unfold zlen in *.
    rewrite length_take, length_drop. split; [done|lia]. }
  destruct (P 1%nat buf) as (x0 & y0 & -> & X0 & Y0); [lia|].
  destruct (P 2%nat y0) as (x1 & y1 & -> & X1 & Y1); [lia|].
  destruct (P 2%nat y1) as (x2 & y2 & -> & X2 & Y2); [lia|].
  destruct (P 9%nat y2) as (x3 & y3 & -> & X3 & Y3); [lia|].
  destruct (P 2%nat y3) as (x4 & y4 & -> & X4 & Y4); [lia|].
  destruct (P 24%nat y4) as (x5 & y5 & -> & X5 & Y5); [lia|].
  eexists. split; [by apply GenerateFeatureSupportFlags_spec|].
  pose proof (fsf_payload_zlen f) as Hp. unfold PAYLOAD_SIZE in Hp. zl.
Qed.

(** the feature-support record: for any buffer of at least
    40 bytes the record is the version, the length 24, the reserved bytes the
    buffer already held, the two checksums (the header sum over its first 15
    bytes, the payload sum included) and a payload in which bit [j] of byte
    [i] is set exactly when the bit map gives it to a supported feature. *)
Theorem GenerateFeatureSupportFlags_correct f old0 old2 old3 reserved olds oldp post :
  zlen old0 = 1 -> zlen old2 = 2 -> zlen old3 = 2 -> zlen reserved = 9 ->
  zlen olds = 2 -> zlen oldp = PAYLOAD_SIZE ->
  exists payload hdr,
    GenerateFeatureSupportFlags
      (old0 ++ old2 ++ old3 ++ reserved ++ olds ++ oldp ++ post) f =
      Done (hdr ++ [sum8 hdr] ++ payload ++ post, 40) /\
    hdr = [u8 (SumFeatureFlagMajorVersion f)] ++ le_bytes 2 (SumFeatureFlagMinorVersion f) ++
          le_bytes 2 24 ++ reserved ++ [sum8 payload] /\
    zlen payload = PAYLOAD_SIZE /\ bytes_ok payload /\
    forall i j, 0 <= i < PAYLOAD_SIZE -> 0 <= j < 8 -> payload_bit payload i j = fsf_bit f i j.
Proof.
  intros H0 H2 H3 Hr Hs Hp. eexists (fsf_payload f), _.
  split; [by apply GenerateFeatureSupportFlags_spec|]. split; [reflexivity|].
  split_and!; [apply fsf_payload_zlen|apply fsf_payload_ok|apply fsf_payload_bit].
Qed.

Definition demo_flags : SUM_FEATURE_FLAGS :=
  mkSumFeatureFlags 1 6 9 1 0 1 1 0 1 1 0 1 1 0 0 0 0 0 0 0 1 0 1 1 0 0 0 0.

Lemma GenerateFeatureSupportFlags_correct_witness :
  exists payload hdr,
    GenerateFeatureSupportFlags (replicate 42 7) demo_flags =
      Done (hdr ++ [sum8 hdr] ++ payload ++ [7; 7], 40) /\ payload_bit payload 17 1 = true.
Proof.
  destruct (GenerateFeatureSupportFlags_correct demo_flags [7] [7; 7] [7; 7]
    (replicate 9 7) [7; 7] (replicate 24 7) [7; 7]) as (payload & hdr & H1 & _ & _ & _ & H2);
    [reflexivity..|].
  exists payload, hdr. split; [exact H1|].
  rewrite H2 by (split; [discriminate|reflexivity]). reflexivity.
Defined.
