(* ===== verification/Services.v ===== *)
(** * The firmware services the module calls

    UEFI variables, the ROM hole (flash regions) and the reset port, as an
    interface: the theorems of the clients use only the laws of [Firmware].
    They state the documented behaviour of the services
    ([MdePkg/Include/Uefi/UefiSpec.h],
    [SmcOOB/Include/Protocol/SmcRomHoleProtocol.h]): a service that reports an
    error leaves what it would have changed alone (but a region write that
    fails may have cost the other regions, see [RomHole]), and no service
    touches the others' state. [SimpleFw] is an instance, and [RomHole] has
    one whose region services are the ROM hole library over a flash part. *)

From S2P Require Import Prelude.

(** Variable names are lists of 16-bit characters without the final NUL,
    GUIDs lists of 16 bytes. *)
Definition name : Type := list Z.
Definition guid : Type := list Z.

(** What [GetVariable] hands back: status, attributes, the size it writes
    through its pointer, and the data it copies to the buffer. *)
Record var_result := mkVar {
  v_status : EFI_STATUS; v_attr : Z; v_size : Z; v_data : list Z }.

(** The documented behaviour of [GetVariable] on a stored value. *)
Definition get_result (v : option (Z * list Z)) (size : Z) : var_result :=
  match v with
  | None => mkVar EFI_NOT_FOUND 0 size []
  | Some (a, d) =>
      if zlen d <=? size then mkVar EFI_SUCCESS a (zlen d) d
      else mkVar EFI_BUFFER_TOO_SMALL a (zlen d) []
  end.

Definition stored (a : Z) (d : list Z) : option (Z * list Z) :=
  match d with [] => None | _ => Some (a, d) end.

(** ROM hole members ([SmcPkg/Include/SmcRomHole.h]): [FULL_REGION] is the
    whole hole, the others are parts of it with no byte in common. *)
Definition FULL_REGION : Z := 0.
Definition OA3_REGION : Z := 1.
Definition OA2_REGION : Z := 2.
Definition SMBIOS_FOR_BMC_REGION : Z := 3.
Definition AFU_CMD_REGION : Z := 4.
Definition INBAND_REGION : Z := 5.
Definition CURRENT_SMBIOS_REGION : Z := 6.
Definition PREVIOUS_SMBIOS_REGION : Z := 7.

Class Firmware (W : Type) := {
  var : W -> name -> guid -> option (Z * list Z);
  rom : W -> Z -> list Z;
  resets : W -> list Z;
  GetVariable : name -> guid -> Z -> W -> var_result;
  SetVariable : name -> guid -> Z -> list Z -> W -> EFI_STATUS * W;
  SmcRomHoleReadRegion : Z -> W -> EFI_STATUS * list Z;
  SmcRomHoleWriteRegion : Z -> list Z -> W -> EFI_STATUS * W;
  IoWrite8_cf9 : Z -> W -> W;

  GetVariable_law n g size w : GetVariable n g size w = get_result (var w n g) size;
  SetVariable_same n g a d w :
    var (snd (SetVariable n g a d w)) n g =
    match fst (SetVariable n g a d w) with
    | EFI_SUCCESS => stored a d
    | _ => var w n g
    end;
  SetVariable_other n g a d w n' g' :
    (n', g') <> (n, g) -> var (snd (SetVariable n g a d w)) n' g' = var w n' g';
  SetVariable_rom n g a d w : rom (snd (SetVariable n g a d w)) = rom w;
  SetVariable_resets n g a d w : resets (snd (SetVariable n g a d w)) = resets w;

  ReadRegion_law op w st b :
    SmcRomHoleReadRegion op w = (st, b) ->
    zlen b = zlen (rom w op) /\ (st = EFI_SUCCESS -> b = rom w op);
  WriteRegion_same op b w :
    zlen b = zlen (rom w op) -> fst (SmcRomHoleWriteRegion op b w) = EFI_SUCCESS ->
    rom (snd (SmcRomHoleWriteRegion op b w)) op = b;
  WriteRegion_zlen op b w op' :
    zlen (rom (snd (SmcRomHoleWriteRegion op b w)) op') = zlen (rom w op');
  WriteRegion_other op b w op' :
    op' <> op -> op <> FULL_REGION -> op' <> FULL_REGION ->
    fst (SmcRomHoleWriteRegion op b w) = EFI_SUCCESS ->
    rom (snd (SmcRomHoleWriteRegion op b w)) op' = rom w op';
  WriteRegion_var op b w : var (snd (SmcRomHoleWriteRegion op b w)) = var w;
  WriteRegion_resets op b w : resets (snd (SmcRomHoleWriteRegion op b w)) = resets w;

  reset_var v w : var (IoWrite8_cf9 v w) = var w;
  reset_rom v w : rom (IoWrite8_cf9 v w) = rom w;
  reset_log v w : resets (IoWrite8_cf9 v w) = resets w ++ [v];
}.

(** [SmcRomHoleSize]: the size of a region. *)
Definition SmcRomHoleSize {W} `{Firmware W} (op : Z) (w : W) : Z := zlen (rom w op).

(** Variable attributes. *)
Definition EFI_VARIABLE_NON_VOLATILE : Z := 1.
Definition EFI_VARIABLE_BOOTSERVICE_ACCESS : Z := 2.
Definition EFI_VARIABLE_RUNTIME_ACCESS : Z := 4.

(** The services at work. The laws of [Firmware] say what a call does when it
    reports success; these say that the calls of a kind do report it. No
    documentation promises that: a theorem that needs one of them is about
    runs in which these calls work, and says so. *)
Definition vars_writable {W} `{Firmware W} : Prop :=
  forall n g a d w, fst (SetVariable n g a d w) = EFI_SUCCESS.
Definition regions_readable {W} `{Firmware W} : Prop :=
  forall op w, fst (SmcRomHoleReadRegion op w) = EFI_SUCCESS.
Definition regions_writable {W} `{Firmware W} : Prop :=
  forall op b w, fst (SmcRomHoleWriteRegion op b w) = EFI_SUCCESS.

Section laws.
Context {W : Type} `{Firmware W}.

(** One write of a variable that reports success. *)
Lemma set_stored n g a d w :
  fst (SetVariable n g a d w) = EFI_SUCCESS -> var (snd (SetVariable n g a d w)) n g = stored a d.
Proof. intros Hs. by rewrite SetVariable_same, Hs. Qed.

Lemma set_same n g a d w :
  vars_writable -> var (snd (SetVariable n g a d w)) n g = stored a d.
Proof. intros Hs. apply set_stored, Hs. Qed.

Lemma read_region_ok op w :
  fst (SmcRomHoleReadRegion op w) = EFI_SUCCESS -> SmcRomHoleReadRegion op w = (EFI_SUCCESS, rom w op).
Proof.
  intros Hr. destruct (SmcRomHoleReadRegion op w) as [st b] eqn:E.
  cbn in Hr. subst st. f_equal. by eapply (ReadRegion_law op w EFI_SUCCESS b).
Qed.

Lemma read_region op w :
  regions_readable -> SmcRomHoleReadRegion op w = (EFI_SUCCESS, rom w op).
Proof. intros Hr. apply read_region_ok, Hr. Qed.

Lemma write_region_same op b w :
  regions_writable -> zlen b = zlen (rom w op) ->
  rom (snd (SmcRomHoleWriteRegion op b w)) op = b.
Proof. intros Hw Hl. by apply WriteRegion_same. Qed.

Lemma write_region_other op b w op' :
  regions_writable -> op' <> op -> op <> FULL_REGION -> op' <> FULL_REGION ->
  rom (snd (SmcRomHoleWriteRegion op b w)) op' = rom w op'.
Proof. intros Hw Hn Ho Ho'. by apply WriteRegion_other. Qed.
End laws.

(** ** Services inside a larger state *)
Section lift.
Context {A : Type} `{Firmware A} {W : Type}.

(** The reads and updates of [A] through a projection and its update. *)
Definition lift_op {R : Type} (get : W -> A) (put : A -> W -> W) (op : A -> R * A) (w : W) : R * W :=
  (fst (op (get w)), put (snd (op (get w))) w).

#[local] Obligation Tactic := idtac.

#[program] Definition lift_firmware (get : W -> A) (put : A -> W -> W)
    (get_put : forall a w, get (put a w) = a) : Firmware W := {|
  var w := var (get w); rom w := rom (get w); resets w := resets (get w);
  GetVariable n g size w := GetVariable n g size (get w);
  SetVariable n g a d := lift_op get put (SetVariable n g a d);
  SmcRomHoleReadRegion op w := SmcRomHoleReadRegion op (get w);
  SmcRomHoleWriteRegion op b := lift_op get put (SmcRomHoleWriteRegion op b);
  IoWrite8_cf9 v w := put (IoWrite8_cf9 v (get w)) w;
|}.
Next Obligation. intros. apply GetVariable_law. Qed.
Next Obligation. intros get put E n g a d w. cbn. rewrite E. apply SetVariable_same. Qed.
Next Obligation. intros get put E n g a d w n' g' Hn. cbn. rewrite E. by apply SetVariable_other. Qed.
Next Obligation. intros get put E n g a d w. cbn. rewrite E. apply SetVariable_rom. Qed.
Next Obligation. intros get put E n g a d w. cbn. rewrite E. apply SetVariable_resets. Qed.
Next Obligation. intros get put E op w. apply ReadRegion_law. Qed.
Next Obligation. intros get put E op b w Hl Hs. cbn. rewrite E. by apply WriteRegion_same. Qed.
Next Obligation. intros get put E op b w op'. cbn. rewrite E. apply WriteRegion_zlen. Qed.
Next Obligation. intros get put E op b w op' Hn Hf Hf' Hs. cbn. rewrite E. by apply WriteRegion_other. Qed.
Next Obligation. intros get put E op b w. cbn. rewrite E. apply WriteRegion_var. Qed.
Next Obligation. intros get put E op b w. cbn. rewrite E. apply WriteRegion_resets. Qed.
Next Obligation. intros get put E v w. cbn. rewrite E. apply reset_var. Qed.
Next Obligation. intros get put E v w. cbn. rewrite E. apply reset_rom. Qed.
Next Obligation. intros get put E v w. cbn. rewrite E. apply reset_log. Qed.
End lift.

(** ** An instance: everything in memory, every write succeeds *)
Record SimpleFw := mkFw {
  fw_vars : gmap (list Z * list Z) (Z * list Z);
  fw_rom : gmap Z (list Z);
  fw_resets : list Z }.

Definition fw_region (w : SimpleFw) (op : Z) : list Z := default [] (fw_rom w !! op).

(** A region buffer shorter or longer than the region is cut or padded by
    the old content. *)
Definition fit (old b : list Z) : list Z :=
  take (length old) (b ++ drop (length b) old).

Lemma zlen_fit old b : zlen (fit old b) = zlen old.
Proof. unfold fit, zlen. rewrite length_take, length_app, length_drop. lia. Qed.

Lemma fit_same old b : zlen b = zlen old -> fit old b = b.
Proof.
  intros Hl. assert (length b = length old) as E by (unfold zlen in Hl; lia).
  unfold fit. rewrite <- E. apply take_app_length.
Qed.

Definition put_var (n : name) (g : guid) (a : Z) (d : list Z)
    (m : gmap (list Z * list Z) (Z * list Z)) : gmap (list Z * list Z) (Z * list Z) :=
  match d with [] => delete (n, g) m | _ => <[(n, g) := (a, d)]> m end.

#[local] Obligation Tactic := idtac.

#[export, program] Instance SimpleFw_firmware : Firmware SimpleFw := {
  var w n g := fw_vars w !! (n, g);
  rom := fw_region;
  resets := fw_resets;
  GetVariable n g size w := get_result (fw_vars w !! (n, g)) size;
  SetVariable n g a d w :=
    (EFI_SUCCESS,
     mkFw (put_var n g a d (fw_vars w)) (fw_rom w) (fw_resets w));
  SmcRomHoleReadRegion op w := (EFI_SUCCESS, fw_region w op);
  SmcRomHoleWriteRegion op b w :=
    (EFI_SUCCESS, mkFw (fw_vars w) (<[op := fit (fw_region w op) b]> (fw_rom w)) (fw_resets w));
  IoWrite8_cf9 v w := mkFw (fw_vars w) (fw_rom w) (fw_resets w ++ [v]);
}.
Next Obligation. done. Qed.
Next Obligation.
  intros n g a d w. cbn. destruct d; cbn; [apply lookup_delete_eq|apply lookup_insert_eq].
Qed.
Next Obligation.
  intros n g a d w n' g' Hne. cbn.
  destruct d; [apply lookup_delete_ne|apply lookup_insert_ne]; congruence.
Qed.
Next Obligation. done. Qed.
Next Obligation. done. Qed.
Next Obligation. intros op w st b [= <- <-]. done. Qed.
Next Obligation.
  intros op b w Hl _. cbn. unfold fw_region at 1. cbn.
  rewrite lookup_insert_eq. by apply fit_same.
Qed.
Next Obligation.
  intros op b w op'. cbn. unfold fw_region at 1. cbn.
  destruct (decide (op = op')) as [->|Hne].
  - rewrite lookup_insert_eq. apply zlen_fit.
  - by rewrite lookup_insert_ne.
Qed.
Next Obligation.
  intros op b w op' Hne _ _ _. cbn. unfold fw_region. cbn. by rewrite lookup_insert_ne.
Qed.
Next Obligation. done. Qed.
Next Obligation. done. Qed.
Next Obligation. done. Qed.
Next Obligation. done. Qed.
Next Obligation. done. Qed.

Lemma SimpleFw_vars : @vars_writable SimpleFw _.
Proof. done. Qed.
Lemma SimpleFw_reads : @regions_readable SimpleFw _.
Proof. done. Qed.
Lemma SimpleFw_regions : @regions_writable SimpleFw _.
Proof. done. Qed.
