(* ===== verification/Bmc.v ===== *)
(** * The BMC as the out-of-band driver sees it

    [SMC_IPMI_OEM_COMMAND_SET_PROTOCOL]
    ([SmcOOB/Include/Protocol/SmcIpmiOemCommandSetProtocol.h]) as an
    interface: the files the BMC holds, the transfers in both directions, and
    what the driver relies on. [SmcLibBmc] implements it over IPMI;
    [SimpleBmc] is an instance in memory. *)

From S2P Require Import Prelude Services.

(** File types ([SmcPkg/SmcLib/SmcLibBmc.h]). *)
Definition OOB_FILE_TYPE_HII : Z := 0.
Definition OOB_FILE_TYPE_BIN : Z := 1.
Definition OOB_FILE_TYPE_DMI : Z := 2.
Definition OOB_FILE_TYPE_FULL_SMBIOS : Z := 3.
Definition OOB_FILE_TYPE_BIOS_FEATURE_FLAG : Z := 7.
Definition OOB_FILE_TYPE_BIOS_STORAGE : Z := 8.

(** The largest transfer, and the largest file that is read through the
    window on the memory of the BMC; a larger one is taken from the video
    memory, which need not hold it. *)
Definition TRANSFER_SIZE : Z := 0x100000.
Definition WINDOW_SIZE : Z := 0x10000.

(** No firmware service was used between the two states. *)
Definition quiet {W} `{Firmware W} (w w' : W) : Prop :=
  var w' = var w /\ rom w' = rom w /\ resets w' = resets w.

Lemma quiet_refl {W} `{Firmware W} (w : W) : quiet w w.
Proof. done. Qed.

Lemma quiet_trans {W} `{Firmware W} (a b c : W) : quiet a b -> quiet b c -> quiet a c.
Proof. intros (A1 & A2 & A3) (B1 & B2 & B3). split_and!; congruence. Qed.

(** [bmc_file w t] is the file of type [t] the BMC holds, [offered w] the
    file it has put up for reading, [flash_flags w] what the user wants kept
    over a flash update. The two values a download writes through
    pointers are passed in and out. *)
Class Bmc (W : Type) `{Firmware W} := {
  bmc_file : W -> Z -> option (list Z);
  offered : W -> option (list Z);
  flash_flags : W -> Z;

  PrepareDataToBmc : list Z -> W -> EFI_STATUS * W;
  UploadOobDataStart : Z -> Z -> W -> EFI_STATUS * W;
  UploadOobDataDone : Z -> W -> EFI_STATUS * W;
  DownloadOobDataStart : Z -> Z * Z -> W -> EFI_STATUS * (Z * Z) * W;
  DownloadOobDataReady : Z -> Z -> W -> EFI_STATUS * Z * W;
  ReadDataToBios : Z -> W -> EFI_STATUS * list Z * W;
  DownloadOobDataDone : Z -> Z -> W -> EFI_STATUS * W;
  SmibiosPreservation : Z -> Z -> W -> EFI_STATUS * Z * W;
  GetSetOobIdentify : Z -> Z -> Z -> W -> EFI_STATUS * W;

  (* the firmware services do not reach the BMC *)
  SetVariable_bmc n g a d w : bmc_file (snd (SetVariable n g a d w)) = bmc_file w;
  WriteRegion_bmc op b w : bmc_file (snd (SmcRomHoleWriteRegion op b w)) = bmc_file w;
  (* nor the BMC the firmware *)
  Prepare_quiet d w : quiet w (snd (PrepareDataToBmc d w));
  UploadStart_quiet t n w : quiet w (snd (UploadOobDataStart t n w));
  UploadDone_quiet t w : quiet w (snd (UploadOobDataDone t w));
  DownloadStart_quiet t o w : quiet w (snd (DownloadOobDataStart t o w));
  Ready_quiet t o w : quiet w (snd (DownloadOobDataReady t o w));
  Read_quiet n w : quiet w (snd (ReadDataToBios n w));
  DownloadDone_quiet t v w : quiet w (snd (DownloadOobDataDone t v w));
  Preservation_quiet op v w : quiet w (snd (SmibiosPreservation op v w));
  Identify_quiet a b c w : quiet w (snd (GetSetOobIdentify a b c w));

  (* an upload replaces the file when its three steps succeed, and at worst
     loses it when the last one fails *)
  Prepare_files d w : bmc_file (snd (PrepareDataToBmc d w)) = bmc_file w;
  UploadStart_files t n w : bmc_file (snd (UploadOobDataStart t n w)) = bmc_file w;
  UploadDone_other t w t' : t' <> t -> bmc_file (snd (UploadOobDataDone t w)) t' = bmc_file w t';
  UploadDone_error t w : fst (UploadOobDataDone t w) <> EFI_SUCCESS ->
    bmc_file (snd (UploadOobDataDone t w)) t = bmc_file w t \/
    bmc_file (snd (UploadOobDataDone t w)) t = None;
  upload_law d t w w1 w2 w3 :
    zlen d <= TRANSFER_SIZE -> PrepareDataToBmc d w = (EFI_SUCCESS, w1) ->
    UploadOobDataStart t (zlen d) w1 = (EFI_SUCCESS, w2) ->
    UploadOobDataDone t w2 = (EFI_SUCCESS, w3) -> bmc_file w3 t = Some d;

  (* a download announces the size of a file it has, puts it up, and hands
     it out *)
  DownloadStart_files t o w : bmc_file (snd (DownloadOobDataStart t o w)) = bmc_file w;
  DownloadStart_law t o w n w' :
    DownloadOobDataStart t o w = (EFI_SUCCESS, (n, 1), w') ->
    exists f, bmc_file w t = Some f /\ zlen f = n;
  Ready_files t o w : bmc_file (snd (DownloadOobDataReady t o w)) = bmc_file w;
  Ready_law t o w w' :
    DownloadOobDataReady t o w = (EFI_SUCCESS, 2, w') -> offered w' = bmc_file w' t;
  Read_files n w : bmc_file (snd (ReadDataToBios n w)) = bmc_file w;
  Read_zlen n w bs w' : 0 <= n -> ReadDataToBios n w = (EFI_SUCCESS, bs, w') -> zlen bs = n;
  DownloadDone_other t v w t' : t' <> t -> bmc_file (snd (DownloadOobDataDone t v w)) t' = bmc_file w t';
  Read_law f w bs w' :
    offered w = Some f -> zlen f <= WINDOW_SIZE ->
    ReadDataToBios (zlen f) w = (EFI_SUCCESS, bs, w') -> bs = f;

  (* the preservation flags the user set on the BMC *)
  DownloadStart_flags t o w : flash_flags (snd (DownloadOobDataStart t o w)) = flash_flags w;
  Ready_flags t o w : flash_flags (snd (DownloadOobDataReady t o w)) = flash_flags w;
  Read_flags n w : flash_flags (snd (ReadDataToBios n w)) = flash_flags w;
  Preservation_law v w r w' :
    SmibiosPreservation 0 v w = (EFI_SUCCESS, r, w') -> r = flash_flags w;
}.

(** Every command succeeds. *)
Definition bmc_accepts {W} `{Bmc W} : Prop :=
  (forall d w, fst (PrepareDataToBmc d w) = EFI_SUCCESS) /\
  (forall t n w, fst (UploadOobDataStart t n w) = EFI_SUCCESS) /\
  (forall t w, fst (UploadOobDataDone t w) = EFI_SUCCESS).

(** Every command of a download of a file that is there succeeds. *)
Definition bmc_hands_out {W} `{Bmc W} : Prop :=
  (forall t f o w, bmc_file w t = Some f -> exists w', DownloadOobDataStart t o w = (EFI_SUCCESS, (zlen f, 1), w')) /\
  (forall t f o w, bmc_file w t = Some f -> exists w', DownloadOobDataReady t o w = (EFI_SUCCESS, 2, w')) /\
  (forall f w, offered w = Some f -> exists bs w', ReadDataToBios (zlen f) w = (EFI_SUCCESS, bs, w')) /\
  (forall t v w, fst (DownloadOobDataDone t v w) = EFI_SUCCESS) /\
  (forall v w, fst (fst (SmibiosPreservation 0 v w)) = EFI_SUCCESS).

(** ** A BMC in memory *)
Record SimpleBmc := mkBmc {
  sb_fw : SimpleFw; sb_files : gmap Z (list Z); sb_vram : list Z; sb_staged : Z * list Z;
  sb_offer : option (list Z); sb_flag : Z; sb_done : list (Z * Z) }.

Definition sb_put (f : SimpleFw) (w : SimpleBmc) : SimpleBmc :=
  mkBmc f (sb_files w) (sb_vram w) (sb_staged w) (sb_offer w) (sb_flag w) (sb_done w).

#[export] Instance SimpleBmc_firmware : Firmware SimpleBmc :=
  lift_firmware sb_fw sb_put (fun _ _ => eq_refl).

Definition sb_bytes (n : Z) (w : SimpleBmc) : list Z :=
  take (Z.to_nat n) (sb_vram w ++ replicate (Z.to_nat n) 0).

#[local] Obligation Tactic := idtac.

#[export, program] Instance SimpleBmc_bmc : Bmc SimpleBmc := {
  bmc_file w t := sb_files w !! t;
  offered := sb_offer;
  flash_flags := sb_flag;
  PrepareDataToBmc d w :=
    (EFI_SUCCESS, mkBmc (sb_fw w) (sb_files w) d (sb_staged w) (sb_offer w) (sb_flag w) (sb_done w));
  UploadOobDataStart t n w :=
    (EFI_SUCCESS, mkBmc (sb_fw w) (sb_files w) (sb_vram w) (t, sb_bytes n w) (sb_offer w) (sb_flag w) (sb_done w));
  UploadOobDataDone t w :=
    if decide (fst (sb_staged w) = t)
    then (EFI_SUCCESS, mkBmc (sb_fw w) (<[t := snd (sb_staged w)]> (sb_files w)) (sb_vram w) (sb_staged w)
            (sb_offer w) (sb_flag w) (sb_done w))
    else (EFI_SUCCESS, w);
  DownloadOobDataStart t o w :=
    match sb_files w !! t with
    | Some f => (EFI_SUCCESS, (zlen f, 1), w)
    | None => (EFI_SUCCESS, (0, 0), w)
    end;
  DownloadOobDataReady t o w :=
    match sb_files w !! t with
    | Some f => (EFI_SUCCESS, 2,
        mkBmc (sb_fw w) (sb_files w) f (sb_staged w) (Some f) (sb_flag w) (sb_done w))
    | None => (EFI_SUCCESS, 0, w)
    end;
  ReadDataToBios n w :=
    match sb_offer w with
    | Some f => if zlen f =? n then (EFI_SUCCESS, f, w) else (EFI_NOT_READY, [], w)
    | None => (EFI_NOT_READY, [], w)
    end;
  DownloadOobDataDone t v w :=
    (EFI_SUCCESS, mkBmc (sb_fw w) (sb_files w) (sb_vram w) (sb_staged w) (sb_offer w) (sb_flag w) (sb_done w ++ [(t, v)]));
  SmibiosPreservation op v w :=
    if op =? 0 then (EFI_SUCCESS, sb_flag w, w)
    else (EFI_SUCCESS, v, mkBmc (sb_fw w) (sb_files w) (sb_vram w) (sb_staged w) (sb_offer w) v (sb_done w));
  GetSetOobIdentify a b c w := (EFI_SUCCESS, w);
}.
Next Obligation. done. Qed.
Next Obligation. done. Qed.
Next Obligation. done. Qed.
Next Obligation. done. Qed.
Next Obligation. intros t w. cbn. by case_decide. Qed.
Next Obligation. intros t o w. cbn. repeat case_match; by repeat split. Qed.
Next Obligation. intros t o w. cbn. repeat case_match; by repeat split. Qed.
Next Obligation. intros n w. cbn. repeat case_match; by repeat split. Qed.
Next Obligation. done. Qed.
Next Obligation. intros op v w. cbn. repeat case_match; by repeat split. Qed.
Next Obligation. done. Qed.
Next Obligation. done. Qed.
Next Obligation. done. Qed.
Next Obligation. intros t w t' Hne. cbn. case_decide; [|done]. by apply lookup_insert_ne. Qed.
Next Obligation. intros t w. cbn. case_decide; [done|]. by left. Qed.
Next Obligation.
  intros d t w w1 w2 w3 _ [= <-] [= <-]. cbn. rewrite decide_True by done. intros [= <-]. cbn.
  rewrite lookup_insert_eq. f_equal. unfold sb_bytes. cbn. rewrite take_app_le by (unfold zlen; lia).
  apply take_ge. unfold zlen. lia.
Qed.
Next Obligation. intros t o w. cbn. by case_match. Qed.
Next Obligation.
  intros t o w n w'. cbn. case_match; [|done]. intros [= <- <-]. by eexists.
Qed.
Next Obligation. intros t o w. cbn. by case_match. Qed.
Next Obligation.
  intros t o w w'. cbn. case_match eqn:E; [|done]. by intros [= <-].
Qed.
Next Obligation. intros n w. cbn. by repeat case_match. Qed.
Next Obligation.
  intros n w bs w' _. cbn. destruct (sb_offer w) as [f|]; [|done]. destruct (Z.eqb_spec (zlen f) n); [|done].
  by intros [= <- _].
Qed.
Next Obligation. done. Qed.
Next Obligation. intros f w bs w' E _. cbn in *. rewrite E, Z.eqb_refl. by intros [= <- _]. Qed.
Next Obligation. intros t o w. cbn. by case_match. Qed.
Next Obligation. intros t o w. cbn. by case_match. Qed.
Next Obligation. intros n w. cbn. by repeat case_match. Qed.
Next Obligation. intros v w r w'. cbn. by intros [= <- _]. Qed.

Lemma SimpleBmc_vars : @vars_writable SimpleBmc _.
Proof. done. Qed.
Lemma SimpleBmc_reads : @regions_readable SimpleBmc _.
Proof. done. Qed.
Lemma SimpleBmc_regions : @regions_writable SimpleBmc _.
Proof. done. Qed.

Lemma SimpleBmc_accepts : @bmc_accepts SimpleBmc _ _.
Proof. split_and!; [done|done|]. intros t w. cbn. by case_decide. Qed.

Lemma SimpleBmc_hands_out : @bmc_hands_out SimpleBmc _ _.
Proof.
  split_and!.
  - intros t f o w E. cbn in *. rewrite E. by eexists.
  - intros t f o w E. cbn in *. rewrite E. by eexists.
  - intros f w E. cbn in *. rewrite E, Z.eqb_refl. by eexists _, _.
  - done.
  - done.
Qed.
