(* ===== verification/Smbios.v ===== *)
(** * SMBIOS data for SUM

    Models [GetOffsetVaries], [IsVisibleString], [GetOffsetString] and
    [CombineSmbios] of [SmcInBand/SmcInBandSmbios.c]: the fields of the
    SMBIOS structures that may be edited are packed as records (type, handle,
    offset, data, NUL) behind a checksummed header and stored in the ROM
    hole. [SmbiosData] is the pool buffer of the size of the region; a write
    outside it is a [Fault]. *)

From S2P Require Import Prelude Services.

(** ** Packing one field *)
Definition record_head (TypeNumber TypeHandle OffsetIndex : Z) : Z :=
  u32 (TypeNumber + Z.shiftl TypeHandle 8 + Z.shiftl OffsetIndex 24).

(** State: the buffer and [SmbiosDataIndex]. *)
Definition packer : Type := list Z * Z.

Definition GetOffsetVaries (TypeNumber TypeHandle OffsetIndex VariesSize : Z)
    (TempBuff : list Z) (p : packer) : Res packer :=
  let '(SmbiosData, i) := p in
  SmbiosData ← wr32 SmbiosData i (record_head TypeNumber TypeHandle OffsetIndex);
  let i := i + 4 in
  v ← rdn TempBuff OffsetIndex VariesSize;
  SmbiosData ← wrn SmbiosData i v;
  let i := i + VariesSize in
  SmbiosData ← wr8 SmbiosData i 0;
  Done (SmbiosData, i + 1).

(** At most [n] characters are looked at. *)
Fixpoint is_visible (n : nat) (b : list Z) (i : Z) : Res bool :=
  match n with
  | O => Done true
  | S n =>
      c ← rd8 b i;
      if c =? 0 then Done true
      else if (c <? 0x20) || (0x7E <? c) then Done false
      else is_visible n b (i + 1)
  end.

Definition IsVisibleString (b : list Z) (i : Z) : Res bool :=
  is_visible (Z.to_nat 0xffff) b i.

(** One turn of the search loop: [TempBuffIndex] and [OffsetString]. *)
Definition string_step (TempBuffSize : Z) (TempBuff : list Z) (p : packer) (s : Z * Z)
    : Res (Z * Z + packer) :=
  let '(TempBuffIndex, OffsetString) := s in
  let '(SmbiosData, i) := p in
  if TempBuffIndex <? TempBuffSize then
    if OffsetString =? 1 then
      v ← IsVisibleString TempBuff TempBuffIndex;
      if negb v then Done (inr p)
      else
        str ← c_str TempBuff TempBuffIndex;
        SmbiosData ← wrn SmbiosData i (str ++ [0]);
        let i := i + zlen str in
        SmbiosData ← wr8 SmbiosData i 0;
        Done (inr (SmbiosData, i + 1))
    else
      n ← c_strlen TempBuff TempBuffIndex;
      Done (inl (TempBuffIndex + n + 1, u8 (OffsetString - 1)))
  else Done (inr p).

Definition GetOffsetString (TypeNumber TypeHandle OffsetIndex OffsetString
    structLength TempBuffSize : Z) (TempBuff : list Z) (p : packer) : Res packer :=
  let '(SmbiosData, i) := p in
  SmbiosData ← wr32 SmbiosData i (record_head TypeNumber TypeHandle OffsetIndex);
  let i := i + 4 in
  let SmbiosDataIndexOri := i in
  '(SmbiosData, i) ← loop (S (Z.to_nat (TempBuffSize - structLength)))
    (string_step TempBuffSize TempBuff (SmbiosData, i)) (structLength, OffsetString);
  if SmbiosDataIndexOri =? i then
    SmbiosData ← wr8 SmbiosData i 0;
    Done (SmbiosData, i + 1)
  else Done (SmbiosData, i).

(** ** The tables of [CombineSmbios] *)
Definition TypeNumbers : list Z := [0; 1; 2; 3; 11; 39].

Definition Type00 : list Z := [0x05; 0x08].
Definition Type01 : list Z := [0x04; 0x05; 0x06; 0x07; 0x08; 0x19; 0x1A].
Definition Type02 : list Z := [0x04; 0x05; 0x06; 0x07; 0x08].
Definition Type03 : list Z := [0x04; 0x05; 0x06; 0x07; 0x08; 0x0D].
Definition Type11 : list Z := [0x01; 0x02].
Definition Type39 : list Z :=
  [0x04; 0x05; 0x06; 0x07; 0x08; 0x09; 0x0A; 0x0B; 0x0C; 0x0E; 0x10; 0x12; 0x14].

Definition type_offsets (TypeNumber : Z) : list Z :=
  if TypeNumber =? 0 then Type00 else if TypeNumber =? 1 then Type01
  else if TypeNumber =? 2 then Type02 else if TypeNumber =? 3 then Type03
  else if TypeNumber =? 11 then Type11 else if TypeNumber =? 39 then Type39
  else [].

(** The inner switch statements: the size of a plain field, [None] for the
    default case, a string. *)
Definition varies0 (o : Z) : option Z :=
  if (o =? 0x06) || (o =? 0x12) then Some 2
  else if (o =? 0x09) || (o =? 0x14) || (o =? 0x15) || (o =? 0x16) || (o =? 0x17) then Some 1
  else if o =? 0x0A then Some 8 else None.
Definition varies1 (o : Z) : option Z :=
  if o =? 0x08 then Some 16 else if o =? 0x18 then Some 1 else None.
Definition varies2 (o : Z) : option Z :=
  if (o =? 0x09) || (o =? 0x0D) || (o =? 0x0E) then Some 1
  else if o =? 0x0B then Some 2 else None.
Definition varies3 (o : Z) : option Z :=
  if (o =? 0x05) || (o =? 0x09) || (o =? 0x0A) || (o =? 0x0B) || (o =? 0x0C) ||
     (o =? 0x11) || (o =? 0x12) || (o =? 0x13) || (o =? 0x14) || (o =? 0x15) then Some 1
  else if o =? 0x0D then Some 4 else None.
Definition varies39 (o : Z) : option Z :=
  if o =? 0x04 then Some 1
  else if (o =? 0x0C) || (o =? 0x0E) || (o =? 0x10) || (o =? 0x12) || (o =? 0x14) then Some 2
  else None.

Definition varies (TypeNumber o : Z) : option Z :=
  if TypeNumber =? 0 then varies0 o else if TypeNumber =? 1 then varies1 o
  else if TypeNumber =? 2 then varies2 o else if TypeNumber =? 3 then varies3 o
  else if TypeNumber =? 39 then varies39 o else None.

(** One offset of one structure. For type 11 the table holds string numbers. *)
Definition combine_offset (TypeNumber TempBuffSize : Z) (TempBuff : list Z)
    (p : packer) (o : Z) : Res packer :=
  structLength ← rd8 TempBuff 1;
  structHandle ← rd16 TempBuff 2;
  let str OffsetString :=
    if OffsetString =? 0 then Done p
    else GetOffsetString TypeNumber structHandle o OffsetString structLength
           TempBuffSize TempBuff p in
  if TypeNumber =? 11 then str o
  else match varies TypeNumber o with
       | Some n => GetOffsetVaries TypeNumber structHandle o n TempBuff p
       | None => OffsetString ← rd8 TempBuff o; str OffsetString
       end.

Definition combine_struct (TypeNumber TempBuffSize : Z) (TempBuff : list Z) (p : packer)
    : Res packer :=
  foldM (combine_offset TypeNumber TempBuffSize TempBuff) (type_offsets TypeNumber) p.

Definition sizeof_Smbios_Header : Z := 18.
Definition SMB_sig : list Z := [0x5f; 0x53; 0x4d; 0x42].

Section combine.
(** [SmbiosReadStrucByType]: the [i]th structure of a type, [None] when it
    reports an error. The size goes into the low half of a variable that is
    never initialised: [garbage] is what its high half holds. *)
Context (SmbiosReadStrucByType : Z -> Z -> option (list Z)) (garbage : Z).

Definition read_size (TempBuff : list Z) : Z := garbage * 2 ^ 16 + u16 (zlen TempBuff).

(** One instance; [i] is a [UINT8]. *)
Definition type_step (TypeNumber : Z) (s : Z * packer) : Res (Z * packer + packer) :=
  let '(i, p) := s in
  match SmbiosReadStrucByType TypeNumber i with
  | None => Done (inr p)
  | Some TempBuff =>
      p ← combine_struct TypeNumber (read_size TempBuff) TempBuff p;
      Done (inl (u8 (i + 1), p))
  end.

(** 256 instances take the counter back to 0: the C loop then starts over. *)
Definition TYPE_FUEL : nat := 256.

Definition combine_type (p : packer) (TypeNumber : Z) : Res packer :=
  loop TYPE_FUEL (type_step TypeNumber) (1, p).

Definition fill_header (SmbiosData : list Z) (Version FileSize checksum : Z)
    : Res (list Z) :=
  b ← wrn SmbiosData 0 (replicate (Z.to_nat sizeof_Smbios_Header) 0);
  b ← wrn b 0 SMB_sig;
  b ← wr16 b 4 Version;
  b ← wr32 b 6 FileSize;
  wr8 b 10 checksum.

Context {W : Type} `{Firmware W} (SmbiosVersion : Z).

Definition CombineSmbios (w : W) : Res W :=
  let SmbiosData := replicate (Z.to_nat (SmcRomHoleSize CURRENT_SMBIOS_REGION w)) 0xff in
  '(SmbiosData, SmbiosDataSize) ←
    foldM combine_type TypeNumbers (SmbiosData, sizeof_Smbios_Header);
  if SmbiosDataSize =? sizeof_Smbios_Header then Done w
  else
    data ← rdn SmbiosData sizeof_Smbios_Header (SmbiosDataSize - sizeof_Smbios_Header);
    SmbiosData ← fill_header SmbiosData SmbiosVersion
      (SmbiosDataSize - sizeof_Smbios_Header) (sum8 data);
    if SmcRomHoleSize CURRENT_SMBIOS_REGION w <? SmbiosDataSize then Done w
    else
      let '(_, w) := SmcRomHoleWriteRegion PREVIOUS_SMBIOS_REGION SmbiosData w in
      let '(_, w) := SmcRomHoleWriteRegion CURRENT_SMBIOS_REGION SmbiosData w in
      Done w.
End combine.

(** ** The format: records *)
Record dmi_rec := mkRec { r_type : Z; r_handle : Z; r_offset : Z; r_data : list Z }.

Definition enc_rec (r : dmi_rec) : list Z :=
  [r_type r] ++ le_bytes 2 (r_handle r) ++ [r_offset r] ++ r_data r ++ [0].

Definition enc_recs (l : list dmi_rec) : list Z := concat (map enc_rec l).

Definition smbios_header (Version : Z) (payload : list Z) : list Z :=
  SMB_sig ++ le_bytes 2 Version ++ le_bytes 4 (zlen payload) ++ [sum8 payload] ++
  replicate 7 0.

(** A structure: formatted area and strings. *)
Record dmi_struct := mkStruct { s_fmt : list Z; s_strs : list (list Z) }.

Definition struct_bytes (s : dmi_struct) : list Z :=
  s_fmt s ++ concat (map (fun x => x ++ [0]) (s_strs s)).

Definition visible (x : list Z) : bool :=
  forallb (fun c => (0x20 <=? c) && (c <=? 0x7E)) x.

(** String number [k], empty when it holds a character that cannot be shown. *)
Definition string_data (s : dmi_struct) (k : Z) : list Z :=
  let x := default [] (s_strs s !! Z.to_nat (k - 1)) in
  if visible x then x else [].

Definition s_handle (s : dmi_struct) : Z := le_val (take 2 (drop 2 (s_fmt s))).
Definition s_byte (s : dmi_struct) (o : Z) : Z := default 0 (s_fmt s !! Z.to_nat o).

Definition rec_of (t : Z) (s : dmi_struct) (o : Z) : list dmi_rec :=
  let rec data := [mkRec t (s_handle s) o data] in
  if t =? 11 then rec (string_data s o)
  else match varies t o with
       | Some n => rec (take (Z.to_nat n) (drop (Z.to_nat o) (s_fmt s)))
       | None => if s_byte s o =? 0 then [] else rec (string_data s (s_byte s o))
       end.

Definition struct_recs (t : Z) (s : dmi_struct) : list dmi_rec :=
  concat (map (rec_of t s) (type_offsets t)).

Definition all_recs (structs : Z -> list dmi_struct) : list dmi_rec :=
  concat (map (fun t => concat (map (struct_recs t) (structs t))) TypeNumbers).

(** A well-formed structure: it holds the fields of the table, and its string
    numbers name strings. *)
Definition offset_ok (t : Z) (s : dmi_struct) (o : Z) : Prop :=
  if t =? 11 then o <= zlen (s_strs s)
  else match varies t o with
       | Some n => o + n <= zlen (s_fmt s)
       | None => o < zlen (s_fmt s) /\ s_byte s o <= zlen (s_strs s)
       end.

Record struct_ok (t : Z) (s : dmi_struct) : Prop := {
  so_bytes : bytes_ok (s_fmt s);
  so_len : 4 <= zlen (s_fmt s) < 256;
  so_length : s_byte s 1 = zlen (s_fmt s);
  so_offsets : Forall (offset_ok t s) (type_offsets t);
  so_strs : Forall no_nul (s_strs s);
  so_size : zlen (struct_bytes s) < 2 ^ 16;
}.

(** ** Steps that append to the packed data *)
Definition appends (f : packer -> Res packer) (bs : list Z) : Prop :=
  forall SD c, c `prefix_of` SD -> zlen c + zlen bs <= zlen SD ->
    exists SD', f (SD, zlen c) = Done (SD', zlen (c ++ bs)) /\
      (c ++ bs) `prefix_of` SD' /\ zlen SD' = zlen SD.

Lemma appends_nil : appends Done [].
Proof. intros SD c Hc _. exists SD. by rewrite app_nil_r. Qed.

Lemma appends_seq f g x y :
  appends f x -> appends g y -> appends (fun p => p ← f p; g p) (x ++ y).
Proof.
  intros Hf Hg SD c Hc Hl. rewrite zlen_app in Hl. pose proof (zlen_nonneg y).
  destruct (Hf SD c Hc) as (SD1 & E1 & Hc1 & Hl1); [lia|].
  destruct (Hg SD1 (c ++ x) Hc1) as (SD2 & E2 & Hc2 & Hl2); [zl|].
  exists SD2. rewrite E1, bind_Done, E2, app_assoc. split_and!; [done..|congruence].
Qed.

Lemma appends_fold {A} (f : packer -> A -> Res packer) (E : A -> list Z) l :
  Forall (fun x => appends (fun p => f p x) (E x)) l ->
  appends (foldM f l) (concat (map E l)).
Proof.
  induction 1 as [|x l Hx _ IH]; cbn [map concat foldM]; [apply appends_nil|].
  by apply appends_seq.
Qed.

Lemma record_head_bytes t h o :
  is_u8 t -> is_u16 h -> is_u8 o ->
  le_bytes 4 (record_head t h o) = [t] ++ le_bytes 2 h ++ [o].
Proof.
  intros Ht Hh Ho. set (l := [t] ++ le_bytes 2 h ++ [o]).
  assert (bytes_ok l) as Hl.
  { apply Forall_app. split; [by constructor|]. apply Forall_app. split; [|by constructor].
    apply le_bytes_ok. }
  change (le_bytes 4 (record_head t h o)) with (le_bytes (length l) (record_head t h o)).
  rewrite <- (le_bytes_le_val l Hl). f_equal.
  unfold record_head. rewrite !Z.shiftl_mul_pow2 by lia.
  unfold l. cbn [app le_bytes le_val]. unfold is_u8, is_u16 in *.
  rewrite u32_small by (unfold is_u32; lia).
  pose proof (Z.div_mod h 256). assert (h / 256 < 256) by (apply Z.div_lt_upper_bound; lia).
  rewrite (Z.mod_small (h / 256)) by (split; [apply Z.div_pos|]; lia).
  lia.
Qed.

(** The chain of writes of one record. *)
Lemma write_record SD c t h o d :
  is_u8 t -> is_u16 h -> is_u8 o -> c `prefix_of` SD ->
  zlen c + zlen (enc_rec (mkRec t h o d)) <= zlen SD ->
  exists SD1 SD2 SD3,
    wr32 SD (zlen c) (record_head t h o) = Done SD1 /\
    wrn SD1 (zlen c + 4) d = Done SD2 /\
    wr8 SD2 (zlen c + 4 + zlen d) 0 = Done SD3 /\
    (c ++ enc_rec (mkRec t h o d)) `prefix_of` SD3 /\ zlen SD3 = zlen SD /\
    zlen SD2 = zlen SD /\
    (c ++ le_bytes 4 (record_head t h o)) `prefix_of` SD1 /\ zlen SD1 = zlen SD.
Proof.
  intros Ht Hh Ho Hc Hl. unfold enc_rec in *. cbn [r_type r_handle r_offset r_data] in *.
  assert (zlen c + 5 + zlen d <= zlen SD) as Hz by zl.
  destruct (wrn_append SD c (le_bytes 4 (record_head t h o)) Hc) as (SD1 & E1 & P1 & L1); [zl|].
  destruct (wrn_append SD1 _ d P1) as (SD2 & E2 & P2 & L2); [zl|].
  destruct (wrn_append SD2 _ [0] P2) as (SD3 & E3 & P3 & L3); [zl|].
  exists SD1, SD2, SD3. unfold wr32, wr8.
  replace (zlen c + 4) with (zlen (c ++ le_bytes 4 (record_head t h o))) by zl.
  replace (zlen (c ++ _) + zlen d) with (zlen ((c ++ le_bytes 4 (record_head t h o)) ++ d)) by zl.
  split_and!; try done; [|zl..].
  revert P3. rewrite record_head_bytes by done. by rewrite <- !app_assoc.
Qed.

Lemma zlen_enc_rec r : zlen (enc_rec r) = 5 + zlen (r_data r).
Proof. unfold enc_rec. zl. Qed.
#[export] Hint Rewrite zlen_enc_rec : zlen.

Lemma GetOffsetVaries_appends t h o n T v :
  is_u8 t -> is_u16 h -> is_u8 o -> rdn T o n = Done v ->
  appends (GetOffsetVaries t h o n T) (enc_rec (mkRec t h o v)).
Proof.
  intros Ht Hh Ho Hv SD c Hc Hl.
  destruct (write_record SD c t h o v) as (SD1 & SD2 & SD3 & E1 & E2 & E3 & P & L & _); try done.
  exists SD3. unfold GetOffsetVaries. pose proof (rdn_zlen _ _ _ _ Hv) as Hn. subst n.
  rewrite E1, bind_Done, Hv, bind_Done, E2, bind_Done, E3, bind_Done.
  split; [|done]. do 2 f_equal. rewrite zlen_app, zlen_enc_rec. cbn. lia.
Qed.

(** ** Strings *)
Lemma is_visible_at n pre x post :
  no_nul x -> (length x < n)%nat ->
  is_visible n (pre ++ x ++ 0 :: post) (zlen pre) = Done (visible x).
Proof.
  revert n pre. induction x as [|c x IH]; intros n pre Hx Hn;
    (destruct n as [|n]; [cbn in Hn; lia|]); cbn [is_visible app].
  - by rewrite rd8_at, bind_Done.
  - apply Forall_cons in Hx as [Hc Hx]. rewrite rd8_at, bind_Done by done.
    replace (c =? 0) with false by lia. cbn [visible forallb].
    replace ((0x20 <=? c) && (c <=? 0x7E)) with (negb ((c <? 0x20) || (0x7E <? c))).
    2: { destruct (Z.ltb_spec c 0x20), (Z.ltb_spec 0x7E c), (Z.leb_spec 0x20 c),
           (Z.leb_spec c 0x7E); cbn; lia. }
    destruct (_ || _); cbn [negb andb]; [done|].
    change (c :: x ++ 0 :: post) with ([c] ++ x ++ 0 :: post).
    rewrite (app_assoc pre [c]). replace (zlen pre + 1) with (zlen (pre ++ [c])) by zl.
    apply IH; [done|cbn in Hn; lia].
Qed.

Definition z_strs (l : list (list Z)) : list Z := concat (map (fun x => x ++ [0]) l).

Lemma zlen_z_strs l : zlen l <= zlen (z_strs l).
Proof.
  unfold z_strs. induction l as [|y l IH]; cbn [map concat]; [done|].
  rewrite !zlen_app, !zlen_cons, zlen_nil. pose proof (zlen_nonneg y). lia.
Qed.

(** The search reaches string [k]. *)
Lemma string_search size T p strs A k n x :
  T = A ++ z_strs strs -> Forall no_nul strs -> zlen T <= size ->
  1 <= k < 256 -> strs !! Z.to_nat (k - 1) = Some x -> (Z.to_nat k <= n)%nat ->
  exists A' post m, T = A' ++ x ++ 0 :: post /\ (1 <= m)%nat /\
    loop n (string_step size T p) (zlen A, k) = loop m (string_step size T p) (zlen A', 1).
Proof.
  intros HT Hs Hsz. revert A k n HT. induction Hs as [|y strs Hy _ IH];
    intros A k n HT Hk Hx Hn; [done|].
  unfold z_strs in HT. cbn [map concat] in HT. rewrite <- app_assoc in HT.
  destruct (Z.eq_dec k 1) as [->|Hk1].
  - cbn in Hx. injection Hx as ->. exists A, (z_strs strs), n. split_and!; [done|lia|done].
  - destruct n as [|n]; [lia|].
    destruct (IH (A ++ y ++ [0]) (k - 1) n) as (A' & post & m & E1 & E2 & E3).
    + rewrite HT. app_eq.
    + lia.
    + replace (Z.to_nat (k - 1)) with (S (Z.to_nat (k - 1 - 1))) in Hx by lia. done.
    + lia.
    + exists A', post, m. split_and!; [done..|]. rewrite <- E3, loop_S.
      replace (string_step size T p (zlen A, k)) with
        (Done (inl (zlen (A ++ y ++ [0]), k - 1)) : Res (Z * Z + packer)); [done|].
      unfold string_step. destruct p as [SD i].
      replace (zlen A <? size) with true
        by (symmetry; apply Z.ltb_lt; rewrite HT in Hsz; zl).
      replace (k =? 1) with false by lia.
      replace (c_strlen T (zlen A)) with (Done (zlen y))
        by (symmetry; rewrite HT; apply c_strlen_at; done).
      rewrite !bind_Done, u8_small by (unfold is_u8; lia). do 3 f_equal. zl.
Qed.

(** The turn at the string itself. *)
Lemma string_step_found size A x post SD i :
  no_nul x -> zlen (A ++ x ++ 0 :: post) < 2 ^ 16 -> zlen (A ++ x ++ 0 :: post) <= size ->
  string_step size (A ++ x ++ 0 :: post) (SD, i) (zlen A, 1) =
  (if visible x then
     b ← wrn SD i (x ++ [0]); b ← wr8 b (i + zlen x) 0; Done (inr (b, i + zlen x + 1))
   else Done (inr (SD, i))).
Proof.
  intros Hno Hs16 Hsz. unfold string_step, IsVisibleString.
  replace (zlen A <? size) with true by (symmetry; apply Z.ltb_lt; zl).
  change (1 =? 1) with true. cbv iota.
  rewrite is_visible_at, bind_Done by (done || (unfold zlen in Hs16; rewrite !length_app in Hs16; cbn in Hs16; lia)).
  destruct (visible x); cbn [negb]; [|done]. by rewrite (c_str_at A x post), bind_Done by done.
Qed.

(** What the search leaves behind the record head: the string, or nothing
    when it cannot be shown. *)
Lemma GetOffsetString_appends t h o k slen size s :
  struct_ok t s -> is_u8 t -> is_u16 h -> is_u8 o -> slen = zlen (s_fmt s) ->
  zlen (struct_bytes s) <= size -> 1 <= k < 256 -> k <= zlen (s_strs s) ->
  appends (GetOffsetString t h o k slen size (struct_bytes s))
    (enc_rec (mkRec t h o (string_data s k))).
Proof.
  intros Hok Ht Hh Ho -> Hsz Hk Hks SD c Hc Hl.
  destruct (lookup_lt_is_Some_2 (s_strs s) (Z.to_nat (k - 1))) as [x Hx];
    [unfold zlen in Hks; lia|].
  assert (Hd : string_data s k = if visible x then x else []) by (unfold string_data; by rewrite Hx).
  rewrite Hd in Hl |- *. clear Hd. set (hd := le_bytes 4 (record_head t h o)).
  assert (Hhd : hd = [t] ++ le_bytes 2 h ++ [o]) by (by apply record_head_bytes).
  assert (Hhl : zlen hd = 4) by (unfold hd; zl).
  rewrite zlen_enc_rec in Hl. cbn [r_data] in Hl.
  assert (Hlen : forall d, zlen (c ++ enc_rec (mkRec t h o d)) = zlen c + 5 + zlen d)
    by (intros d; rewrite zlen_app, zlen_enc_rec; cbn [r_data]; lia).
  assert (Henc : forall d, c ++ enc_rec (mkRec t h o d) = ((c ++ hd) ++ d) ++ [0]).
  { intros d. rewrite Hhd. unfold enc_rec. cbn [r_type r_handle r_offset r_data]. app_eq. }
  destruct (wrn_append SD c hd Hc) as (SD1 & E1 & P1 & L1); [zl|].
  unfold GetOffsetString, wr32. fold hd. rewrite E1, bind_Done. set (n := S _).
  destruct (string_search size (struct_bytes s) (SD1, zlen c + 4) (s_strs s) (s_fmt s) k n x)
    as (A & post & m & ET & Hm & ->); try done; [apply Hok| |].
  { unfold n. pose proof (zlen_z_strs (s_strs s)).
    unfold struct_bytes in Hsz. fold (z_strs (s_strs s)) in Hsz. rewrite zlen_app in Hsz. lia. }
  destruct m as [|m]; [lia|]. rewrite loop_S.
  assert (Hno : no_nul x) by (eapply Forall_lookup_1; [apply Hok|done]).
  pose proof (so_size t s Hok) as Hs16. rewrite ET in Hs16, Hsz |- *.
  rewrite string_step_found by (done || zl).
  destruct (visible x).
  - destruct (wrn_append SD1 (c ++ hd) (x ++ [0]) P1) as (SD2 & E2 & P2 & L2); [zl|].
    replace (zlen c + 4) with (zlen (c ++ hd)) by zl. rewrite E2, bind_Done.
    assert (P2' : ((c ++ hd) ++ x) `prefix_of` SD2).
    { etrans; [|exact P2]. rewrite app_assoc. by apply prefix_app_r. }
    destruct (wrn_append SD2 _ [0] P2') as (SD3 & E3 & P3 & L3); [zl|].
    unfold wr8. change [u8 0] with [0].
    replace (zlen (c ++ hd) + zlen x) with (zlen ((c ++ hd) ++ x)) by zl.
    rewrite E3, !bind_Done.
    replace (zlen (c ++ hd) =? _) with false by (symmetry; apply Z.eqb_neq; zl).
    exists SD3. rewrite Henc. split_and!; [do 2 f_equal; zl|done|congruence].
  - rewrite !bind_Done. cbv beta iota. rewrite Z.eqb_refl.
    destruct (wrn_append SD1 (c ++ hd) [0] P1) as (SD3 & E3 & P3 & L3); [zl|].
    unfold wr8. change [u8 0] with [0]. replace (zlen c + 4) with (zlen (c ++ hd)) by zl.
    rewrite E3, bind_Done. exists SD3. rewrite Henc, app_nil_r.
    split_and!; [do 2 f_equal; zl|done|congruence].
Qed.

(** ** Structures, types, the whole table *)
Lemma s_byte_rd8 s o : 0 <= o < zlen (s_fmt s) -> rd8 (struct_bytes s) o = Done (s_byte s o).
Proof.
  intros Ho. unfold zlen in Ho. apply arr_get_lookup. split; [lia|].
  unfold struct_bytes, s_byte. rewrite lookup_app_l by lia.
  destruct (lookup_lt_is_Some_2 (s_fmt s) (Z.to_nat o)) as [y ->]; [lia|done].
Qed.

Lemma s_fmt_rdn s o n :
  0 <= o -> 0 <= n -> o + n <= zlen (s_fmt s) ->
  rdn (struct_bytes s) o n = Done (take (Z.to_nat n) (drop (Z.to_nat o) (s_fmt s))).
Proof.
  intros Ho Hn Hl. unfold struct_bytes. apply rdn_Done. split_and!; [done..|zl|].
  unfold zlen in Hl. rewrite drop_app_le by lia.
  rewrite take_app_le; [done|]. rewrite length_drop. lia.
Qed.

Lemma s_byte_u8 t s o : struct_ok t s -> is_u8 (s_byte s o).
Proof.
  intros Hok. unfold s_byte. destruct (s_fmt s !! Z.to_nat o) as [y|] eqn:E; [|done].
  eapply Forall_lookup_1; [apply Hok|exact E].
Qed.

Lemma s_handle_u16 t s : struct_ok t s -> is_u16 (s_handle s).
Proof.
  intros Hok. apply le_val_2_range.
  - apply Forall_take, Forall_drop, Hok.
  - pose proof (so_len t s Hok). zl.
Qed.

Definition offset_range (o : Z) : Prop := 0 < o < 256.

Lemma type_offsets_range t : Forall offset_range (type_offsets t).
Proof.
  unfold type_offsets. repeat case_match; repeat constructor; done.
Qed.

Lemma varies_pos t o n : varies t o = Some n -> 0 < n.
Proof.
  unfold varies, varies0, varies1, varies2, varies3, varies39.
  repeat case_match; intros [=<-] || intros [=]; lia.
Qed.

Lemma combine_offset_appends t s size o :
  is_u8 t -> struct_ok t s -> zlen (struct_bytes s) <= size -> offset_range o -> offset_ok t s o ->
  appends (fun p => combine_offset t size (struct_bytes s) p o) (enc_recs (rec_of t s o)).
Proof.
  intros Ht Hok Hsz Ho Hoff SD c Hc Hl. unfold offset_range in Ho.
  pose proof (so_len t s Hok) as Hfl. unfold combine_offset.
  rewrite (s_byte_rd8 s 1), bind_Done, (so_length t s Hok) by lia.
  replace (rd16 (struct_bytes s) 2) with (Done (s_handle s))
    by (unfold rd16; by rewrite s_fmt_rdn by lia).
  rewrite bind_Done. cbv zeta. pose proof (s_handle_u16 t s Hok).
  assert (is_u8 o) by (unfold is_u8; lia).
  unfold rec_of, offset_ok in *. cbv zeta in Hl.
  assert (HS : forall k, k < 256 -> 1 <= k -> k <= zlen (s_strs s) ->
    zlen c + zlen (enc_recs [mkRec t (s_handle s) o (string_data s k)]) <= zlen SD ->
    exists SD', (if k =? 0 then Done (SD, zlen c) else
      GetOffsetString t (s_handle s) o k (zlen (s_fmt s)) size (struct_bytes s) (SD, zlen c)) =
      Done (SD', zlen (c ++ enc_recs [mkRec t (s_handle s) o (string_data s k)])) /\
      (c ++ enc_recs [mkRec t (s_handle s) o (string_data s k)]) `prefix_of` SD' /\
      zlen SD' = zlen SD).
  { intros k Hk1 Hk2 Hk3. replace (k =? 0) with false by lia.
    unfold enc_recs. cbn [map concat]. rewrite app_nil_r. intros Hl'.
    apply (GetOffsetString_appends t (s_handle s) o k (zlen (s_fmt s)) size s); done. }
  destruct (t =? 11); [apply HS; lia || done|].
  destruct (varies t o) as [n|] eqn:Ev.
  - revert Hl. unfold enc_recs. cbn [map concat]. rewrite app_nil_r. intros Hl.
    apply varies_pos in Ev as Hn.
    apply (GetOffsetVaries_appends t (s_handle s) o n (struct_bytes s)); try done.
    apply s_fmt_rdn; lia.
  - destruct Hoff as [Ho1 Ho2]. rewrite s_byte_rd8, bind_Done by lia.
    pose proof (s_byte_u8 t s o Hok) as Hu. unfold is_u8 in Hu.
    destruct (Z.eqb_spec (s_byte s o) 0) as [E|E].
    + exists SD. cbn. by rewrite app_nil_r.
    + specialize (HS (s_byte s o)). replace (s_byte s o =? 0) with false in HS by lia.
      apply HS; lia || done.
Qed.

Lemma enc_recs_concat ll : enc_recs (concat ll) = concat (map enc_recs ll).
Proof.
  unfold enc_recs. induction ll as [|l ll IH]; cbn [concat map]; [done|].
  by rewrite map_app, concat_app, IH.
Qed.

Lemma combine_struct_appends t s size :
  is_u8 t -> struct_ok t s -> zlen (struct_bytes s) <= size ->
  appends (combine_struct t size (struct_bytes s)) (enc_recs (struct_recs t s)).
Proof.
  intros Ht Hok Hsz. unfold combine_struct, struct_recs.
  rewrite enc_recs_concat, map_map. apply appends_fold.
  apply Forall_forall. intros o Ho.
  apply combine_offset_appends; try done.
  - eapply Forall_forall; [apply type_offsets_range|done].
  - eapply Forall_forall; [apply (so_offsets t s Hok)|done].
Qed.

Section combine_correct.
Context (SmbiosRead : Z -> Z -> option (list Z)) (garbage : Z).
Context (structs : Z -> list dmi_struct).
Context (Hg : 0 <= garbage).
Context (Hread : forall t i, 1 <= i < 256 ->
  SmbiosRead t i = struct_bytes <$> (structs t !! Z.to_nat (i - 1))).
Context (Hok : forall t, t ∈ TypeNumbers ->
  zlen (structs t) < 255 /\ Forall (struct_ok t) (structs t)).

Lemma type_loop t l i n :
  is_u8 t -> Forall (struct_ok t) l ->
  1 <= i -> i + zlen l < 256 -> drop (Z.to_nat (i - 1)) (structs t) = l -> (length l < n)%nat ->
  appends (fun p => loop n (type_step SmbiosRead garbage t) (i, p))
    (enc_recs (concat (map (struct_recs t) l))).
Proof using Hg Hread.
  intros Ht Hl. revert i n. induction Hl as [|s l Hs _ IH]; intros i n Hi Hmax Hd Hn;
    (destruct n as [|n]; [cbn in Hn; lia|]).
  - intros SD c Hc _. exists SD. rewrite loop_S. cbn [type_step].
    rewrite Hread, lookup_ge_None_2 by (zl || (apply (f_equal length) in Hd;
      rewrite length_drop in Hd; cbn in Hd; lia)).
    cbn. by rewrite app_nil_r.
  - assert (Hi256 : i < 256) by zl.
    assert (Hget : structs t !! Z.to_nat (i - 1) = Some s).
    { rewrite <- (Nat.add_0_r (Z.to_nat (i - 1))), <- lookup_drop, Hd. done. }
    assert (Hb : zlen (struct_bytes s) <= read_size garbage (struct_bytes s)).
    { unfold read_size. pose proof (so_size t s Hs).
      rewrite u16_small by (split; [apply zlen_nonneg|done]). lia. }
    intros SD c Hc Hlen. cbn [map concat] in Hlen |- *.
    assert (Hx : enc_recs (struct_recs t s ++ concat (map (struct_recs t) l)) =
      enc_recs (struct_recs t s) ++ enc_recs (concat (map (struct_recs t) l)))
      by (unfold enc_recs; by rewrite map_app, concat_app).
    rewrite Hx in Hlen |- *. rewrite zlen_app in Hlen.
    pose proof (zlen_nonneg (enc_recs (concat (map (struct_recs t) l)))).
    destruct (combine_struct_appends t s _ Ht Hs Hb SD c Hc) as (SD1 & E1 & P1 & L1); [lia|].
    destruct (IH (i + 1) n) with (SD := SD1) (c := c ++ enc_recs (struct_recs t s))
      as (SD2 & E2 & P2 & L2); [lia|zl| |cbn in Hn; lia|done|zl|].
    { replace (Z.to_nat (i + 1 - 1)) with (Z.to_nat (i - 1) + 1)%nat by lia.
      by rewrite <- drop_drop, Hd. }
    exists SD2. rewrite loop_S. cbn [type_step]. rewrite Hread, Hget by lia. cbn [fmap option_fmap option_map].
    rewrite E1, !bind_Done, u8_small, E2, app_assoc by (unfold is_u8; zl).
    split_and!; [done..|congruence].
Qed.

Lemma combine_types_appends :
  appends (foldM (combine_type SmbiosRead garbage) TypeNumbers) (enc_recs (all_recs structs)).
Proof using Hg Hread Hok.
  unfold all_recs. rewrite enc_recs_concat, map_map. apply appends_fold.
  apply Forall_forall. intros t Ht. destruct (Hok t Ht) as [Hn Hf].
  apply type_loop; [|done|lia|zl|done|].
  - unfold TypeNumbers in Ht. set_unfold in Ht. unfold is_u8. lia.
  - unfold TYPE_FUEL. unfold zlen in Hn. lia.
Qed.

Lemma header_filled old payload rest Version :
  zlen old = 18 ->
  fill_header (old ++ payload ++ rest) Version (zlen payload) (sum8 payload) =
  Done (smbios_header Version payload ++ payload ++ rest).
Proof using.
  intros Ho. unfold fill_header, wr8, wr16, wr32, smbios_header.
  assert (HS : zlen SMB_sig = 4) by done.
  generalize (zlen_le_bytes 2 Version) (zlen_le_bytes 4 (zlen payload)).
  generalize (le_bytes 2 Version) (le_bytes 4 (zlen payload)). intros v f Hv Hf.
  rewrite u8_small by apply sum8_range.
  change (replicate (Z.to_nat sizeof_Smbios_Header) 0) with
    (replicate 4 0 ++ replicate 2 0 ++ replicate 4 0 ++ [0] ++ replicate 7 0).
  wr_as (@nil Z) old (payload ++ rest).
  wr_as (@nil Z) (replicate 4 0)
    (replicate 2 0 ++ replicate 4 0 ++ [0] ++ replicate 7 0 ++ payload ++ rest).
  wr_as SMB_sig (replicate 2 0) (replicate 4 0 ++ [0] ++ replicate 7 0 ++ payload ++ rest).
  wr_as (SMB_sig ++ v) (replicate 4 0) ([0] ++ replicate 7 0 ++ payload ++ rest).
  rewrite (wrn_as _ (SMB_sig ++ v ++ f) [0] (replicate 7 0 ++ payload ++ rest)) by solve [app_eq | zl].
  f_equal. app_eq.
Qed.

Context {W : Type} `{Firmware W} (Version : Z).

(** C22: (functional) On well-formed structures, fewer than 255 of a type, with
    at least one editable field and records that fit the region,
    [CombineSmbios] builds an image: behind a header of 18 bytes with the
    signature, version, 32-bit size and 8-bit sum, exactly the records of the
    editable fields, in table order; the uninitialised half of the size
    variable does not matter. The image is as long as the region, and is
    written to the region of the previous table first, then to that of the
    current one; the statuses are not looked at. A write that reports success
    leaves the image in its region (regions of equal size), and after two of
    them both hold it, so that no older table is kept. No variable changes.
    (The comment of the function tells of a header of 16 bytes, and one in its
    body of moving the old table to the previous region.) *)
Theorem CombineSmbios_correct (w : W) :
  let payload := enc_recs (all_recs structs) in
  payload <> [] -> 18 + zlen payload <= SmcRomHoleSize CURRENT_SMBIOS_REGION w ->
  exists rest, let image := smbios_header Version payload ++ payload ++ rest in
    zlen image = SmcRomHoleSize CURRENT_SMBIOS_REGION w /\
    let '(st1, w1) := SmcRomHoleWriteRegion PREVIOUS_SMBIOS_REGION image w in
    let '(st2, w2) := SmcRomHoleWriteRegion CURRENT_SMBIOS_REGION image w1 in
    CombineSmbios SmbiosRead garbage Version w = Done w2 /\ var w2 = var w /\
    (st2 = EFI_SUCCESS -> rom w2 CURRENT_SMBIOS_REGION = image) /\
    (st1 = EFI_SUCCESS -> st2 = EFI_SUCCESS ->
       SmcRomHoleSize PREVIOUS_SMBIOS_REGION w = SmcRomHoleSize CURRENT_SMBIOS_REGION w ->
       rom w2 PREVIOUS_SMBIOS_REGION = image).
Proof using Hg Hread Hok.
  intros payload Hne Hfit. unfold CombineSmbios.
  set (size := SmcRomHoleSize CURRENT_SMBIOS_REGION w) in *. pose proof (zlen_nonneg payload).
  assert (0 < zlen payload) by (destruct payload; [done|zl]).
  destruct (combine_types_appends (replicate (Z.to_nat size) 0xff) (replicate 18 0xff))
    as (SD & E & P & L); [|fold payload; rewrite !zlen_replicate; lia|].
  { exists (replicate (Z.to_nat size - 18) 0xff). rewrite <- replicate_add. f_equal. lia. }
  rewrite zlen_replicate, zlen_app in E. change (Z.of_nat 18) with sizeof_Smbios_Header in E.
  rewrite zlen_replicate in L, E. fold payload in E, P. rewrite E, bind_Done. clear E.
  change sizeof_Smbios_Header with 18 in *. change (Z.of_nat 18) with 18.
  replace (18 + zlen payload =? 18) with false by lia.
  destruct P as [rest ->]. rewrite <- app_assoc in *. exists rest.
  rd_as (replicate 18 0xff) payload rest.
  replace (18 + zlen payload - 18) with (zlen payload) by lia.
  rewrite header_filled, bind_Done by done.
  replace (size <? 18 + zlen payload) with false by lia.
  set (SD := smbios_header _ _ ++ _). rewrite !zlen_app, zlen_replicate in L.
  assert (HS : zlen SMB_sig = 4) by done.
  assert (HL : zlen SD = size) by (unfold SD, smbios_header; clearbody payload; zl).
  cbv zeta. split; [done|]. clearbody SD.
  pose proof (WriteRegion_zlen PREVIOUS_SMBIOS_REGION SD w CURRENT_SMBIOS_REGION) as Hz.
  pose proof (WriteRegion_same PREVIOUS_SMBIOS_REGION SD w) as S1.
  pose proof (WriteRegion_var PREVIOUS_SMBIOS_REGION SD w) as V1.
  destruct (SmcRomHoleWriteRegion PREVIOUS_SMBIOS_REGION SD w) as [st1 w1]. cbn [fst snd] in *.
  pose proof (WriteRegion_same CURRENT_SMBIOS_REGION SD w1) as S2.
  pose proof (WriteRegion_var CURRENT_SMBIOS_REGION SD w1) as V2.
  pose proof (WriteRegion_other CURRENT_SMBIOS_REGION SD w1 PREVIOUS_SMBIOS_REGION) as O2.
  destruct (SmcRomHoleWriteRegion CURRENT_SMBIOS_REGION SD w1) as [st2 w2]. cbn [fst snd] in *.
  split; [done|]. split; [congruence|]. split; [intros E2; apply S2; [by rewrite Hz|done]|].
  intros E1 E2 Hsame. rewrite O2 by done. apply S1; [|done]. rewrite HL, <- Hsame. done.
Qed.
End combine_correct.

(** ** A witness: a type 1 and a type 2 structure *)
Definition demo_type1 : dmi_struct :=
  mkStruct ([1; 27; 1; 0; 1; 2; 0; 3] ++ replicate 16 0xAB ++ [6; 0; 0])
    [[0x53; 0x4d; 0x43]; [0x58; 0x31]; [0x30; 0x07]].

Definition demo_structs (t : Z) : list dmi_struct := if t =? 1 then [demo_type1] else [].

Definition demo_read (t i : Z) : option (list Z) :=
  struct_bytes <$> (demo_structs t !! Z.to_nat (i - 1)).

Definition demo_fw : SimpleFw :=
  mkFw ∅ (<[CURRENT_SMBIOS_REGION := replicate 128 0xff]>
          (<[PREVIOUS_SMBIOS_REGION := replicate 128 0xff]> ∅)) [].

Lemma demo_type1_ok : struct_ok 1 demo_type1.
Proof.
  split.
  - repeat constructor; discriminate || reflexivity.
  - split; [discriminate|reflexivity].
  - reflexivity.
  - repeat constructor; discriminate || reflexivity.
  - repeat constructor; discriminate.
  - reflexivity.
Qed.

Lemma CombineSmbios_correct_witness :
  exists w' rest, CombineSmbios demo_read 7 0x100 demo_fw = Done w' /\
    rom w' CURRENT_SMBIOS_REGION =
      smbios_header 0x100 (enc_recs (all_recs demo_structs)) ++ enc_recs (all_recs demo_structs) ++ rest /\
    rom w' PREVIOUS_SMBIOS_REGION = rom w' CURRENT_SMBIOS_REGION.
Proof.
  destruct (@CombineSmbios_correct demo_read 7 demo_structs) with (W := SimpleFw) (H := SimpleFw_firmware) (Version := 0x100) (w := demo_fw)
    as (rest & _ & H).
  - discriminate.
  - reflexivity.
  - intros t _. unfold demo_structs. destruct (Z.eqb_spec t 1) as [->|].
    + split; [reflexivity|]. constructor; [apply demo_type1_ok|constructor].
    + split; [reflexivity|constructor].
  - discriminate.
  - vm_compute. discriminate.
  - destruct H as (E & _ & C & P). eexists _, rest. split; [exact E|]. specialize (C eq_refl).
    split; [exact C|]. rewrite C. by apply P.
Defined.
