(* ===== verification/SmbiosUpdate.v ===== *)
(** * Applying edited SMBIOS data

    Models [UpdateToNVRAM], [UpdateOffsetData] and [InBandUpdateSmbios] of
    [SmcInBand/SmcInBandSmbios.c]: the records an operator uploaded are
    compared with the previous ones, and each changed field is stored in (or,
    for a default, removed from) the DMI-edit variables. *)

From S2P Require Import Prelude Services Smbios.

(** ** Names *)
Definition DMI_ARRAY_COUNT : Z := 256.
Definition sizeof_DMI_VAR : Z := 5.

(** [L"DmiArray"] and the prefix [L"DmiVar"]. *)
Definition DmiArrayVar : list Z := [0x44; 0x6d; 0x69; 0x41; 0x72; 0x72; 0x61; 0x79].
Definition DmiVar_prefix : list Z := [0x44; 0x6d; 0x69; 0x56; 0x61; 0x72].

(** [%0nx]: [n] hexadecimal digits; [digit] is the case the library prints. *)
Fixpoint hex (digit : Z -> Z) (n : nat) (v : Z) : list Z :=
  match n with O => [] | S n => hex digit n (v / 16) ++ [digit (v mod 16)] end.

Section nvram.
Context {W : Type} `{Firmware W}.
Context (digit : Z -> Z) (gAmiSmbiosNvramGuid : list Z).

Definition dmi_attr : Z :=
  Z.lor EFI_VARIABLE_RUNTIME_ACCESS
    (Z.lor EFI_VARIABLE_BOOTSERVICE_ACCESS EFI_VARIABLE_NON_VOLATILE).

(** [Swprintf(S1, L"DmiVar%02x%04x%02x%02x", ...)]. *)
Definition DmiVarName (TypeNumber HandleNum TypeOffset : Z) : list Z :=
  DmiVar_prefix ++ hex digit 2 TypeNumber ++ hex digit 4 HandleNum ++
  hex digit 2 TypeOffset ++ hex digit 2 0.

(** A zeroed [DmiArray] that [GetVariable] has filled. *)
Definition dmi_buffer (r : var_result) : list Z :=
  v_data r ++ replicate (Z.to_nat (DMI_ARRAY_COUNT * sizeof_DMI_VAR) - length (v_data r)) 0.

Definition DMI_Type (a : list Z) (i : Z) : Res Z := rd8 a (5 * i).
Definition DMI_Handle (a : list Z) (i : Z) : Res Z := rd16 a (5 * i + 1).
Definition DMI_Offset (a : list Z) (i : Z) : Res Z := rd8 a (5 * i + 3).
Definition DMI_Flags (a : list Z) (i : Z) : Res Z := rd8 a (5 * i + 4).

Definition set_DMI_VAR (a : list Z) (i t h o f : Z) : Res (list Z) :=
  a ← wr8 a (5 * i) t; a ← wr16 a (5 * i + 1) h; a ← wr8 a (5 * i + 3) o;
  wr8 a (5 * i + 4) f.

(** The search for the record, on a [UINT8] index. *)
Definition find_step (a : list Z) (TypeNumber HandleNum TypeOffset Index : Z)
    : Res (Z + Z) :=
  n ← DMI_Type a 0;
  if Index <=? n then
    t ← DMI_Type a Index; h ← DMI_Handle a Index; o ← DMI_Offset a Index;
    if (t =? TypeNumber) && (h =? HandleNum) && (o =? TypeOffset) then Done (inr Index)
    else Done (inl (u8 (Index + 1)))
  else Done (inr Index).

(** The loop that moves the later records down. *)
Definition shift_step (s : list Z * Z) : Res (list Z * Z + list Z) :=
  let '(a, Index) := s in
  n ← DMI_Type a 0;
  if Index <=? n then
    t ← DMI_Type a (Index + 1); h ← DMI_Handle a (Index + 1);
    o ← DMI_Offset a (Index + 1); f ← DMI_Flags a (Index + 1);
    a ← set_DMI_VAR a Index t h o f;
    Done (inl (a, u8 (Index + 1)))
  else Done (inr a).

(** With 255 records the [UINT8] index never passes the count. *)
Definition DMI_FUEL : nat := 257.

Definition load_default (TypeNumber HandleNum TypeOffset : Z) (w : W) : Res W :=
  let S1 := DmiVarName TypeNumber HandleNum TypeOffset in
  let r := GetVariable S1 gAmiSmbiosNvramGuid 0x400 w in
  if decide (v_status r = EFI_NOT_FOUND) then Done w
  else
    let '(_, w) := SetVariable S1 gAmiSmbiosNvramGuid dmi_attr [] w in
    let r := GetVariable DmiArrayVar gAmiSmbiosNvramGuid (DMI_ARRAY_COUNT * sizeof_DMI_VAR) w in
    let a := dmi_buffer r in
    Index ← loop DMI_FUEL (find_step a TypeNumber HandleNum TypeOffset) 1;
    a ← loop DMI_FUEL shift_step (a, Index);
    n ← DMI_Type a 0;
    a ← wr8 a 0 (n - 1);
    d ← rdn a 0 (v_size r);
    Done (snd (SetVariable DmiArrayVar gAmiSmbiosNvramGuid dmi_attr d w)).

Definition store_user (TypeNumber HandleNum TypeOffset : Z) (Data : list Z) (DataSize : Z)
    (w : W) : Res W :=
  let S1 := DmiVarName TypeNumber HandleNum TypeOffset in
  let r := GetVariable DmiArrayVar gAmiSmbiosNvramGuid (DMI_ARRAY_COUNT * sizeof_DMI_VAR) w in
  let a := dmi_buffer r in
  n ← DMI_Type a 0;
  let Index := if decide (v_status r = EFI_SUCCESS) then u8 (n + 1) else 1 in
  a ← set_DMI_VAR a Index TypeNumber HandleNum TypeOffset 0;
  let r1 := GetVariable S1 gAmiSmbiosNvramGuid 0x400 w in
  '(Status, w) ←
    (if decide (v_status r1 = EFI_NOT_FOUND) then
       n ← DMI_Type a 0;
       a ← wr8 a 0 (n + 1);
       d ← rdn a 0 (v_size r);
       Done (SetVariable DmiArrayVar gAmiSmbiosNvramGuid dmi_attr d w)
     else Done (v_status r1, w));
  if decide (Status = EFI_BUFFER_TOO_SMALL \/ Status = EFI_SUCCESS) then
    DataSize ← (if DataSize =? 0 then n ← c_strlen Data 0; Done (u8 (u8 n + 1))
                else Done DataSize);
    d ← rdn Data 0 DataSize;
    Done (snd (SetVariable S1 gAmiSmbiosNvramGuid dmi_attr d w))
  else Done w.

Definition UpdateToNVRAM (TypeNumber HandleNum TypeOffset : Z) (Data : list Z) (DataSize : Z)
    (w : W) : Res W :=
  c ← rd8 Data 0;
  if (DataSize =? 0) && (c =? 0xFE) then load_default TypeNumber HandleNum TypeOffset w
  else store_user TypeNumber HandleNum TypeOffset Data DataSize w.

(** ** One record of the two tables *)
Definition upd_state : Type := Z * Z * W.

Definition UpdateOffsetData (DataSize : Z) (SmbiosData PreSmbiosData : list Z)
    (s : upd_state) : Res upd_state :=
  let '(i, j, w) := s in
  TypeNumber ← rd8 SmbiosData i;
  HandleNum ← rd16 SmbiosData (i + 1);
  TypeOffset ← rd8 SmbiosData (i + 3);
  let i := i + 4 in let j := j + 4 in
  let Data := replicate (Z.to_nat 0x400) 0 in
  if negb (DataSize =? 0) then
    p ← rdn PreSmbiosData j DataSize;
    c ← rdn SmbiosData i DataSize;
    w ← (if decide (p = c) then Done w
         else Data ← wrn Data 0 c; UpdateToNVRAM TypeNumber HandleNum TypeOffset Data DataSize w);
    Done (i + DataSize, j + DataSize, w)
  else
    let TypeOffset :=
      if (TypeNumber =? 11) || (TypeNumber =? 12) then u8 (TypeOffset - 1) else TypeOffset in
    p ← c_str PreSmbiosData j;
    c ← c_str SmbiosData i;
    w ← (if decide (p = c) then Done w
         else Data ← wrn Data 0 (c ++ [0]);
              UpdateToNVRAM TypeNumber HandleNum TypeOffset Data DataSize w);
    Done (i + zlen c, j + zlen p, w).

(** The switch of [InBandUpdateSmbios]. *)
Definition DataSize_of (TypeNumber TypeOffset : Z) : Z :=
  let o := TypeOffset in
  if TypeNumber =? 0 then
    if (o =? 0x06) || (o =? 0x12) then 2
    else if (o =? 0x09) || (o =? 0x14) || (o =? 0x15) || (o =? 0x16) || (o =? 0x17) then 1
    else if o =? 0x0A then 8 else 0
  else if TypeNumber =? 1 then
    if o =? 0x08 then 16 else if o =? 0x18 then 1 else 0
  else if TypeNumber =? 2 then
    if (o =? 0x09) || (o =? 0x0D) || (o =? 0x0E) then 1 else if o =? 0x0B then 2 else 0
  else if TypeNumber =? 3 then
    if (o =? 0x05) || (o =? 0x09) || (o =? 0x0A) || (o =? 0x0B) || (o =? 0x0C) ||
       (o =? 0x11) || (o =? 0x12) || (o =? 0x13) || (o =? 0x14) || (o =? 0x15) then 1
    else if o =? 0x0D then 4 else 0
  else if TypeNumber =? 39 then
    if o =? 0x04 then 1
    else if (o =? 0x0C) || (o =? 0x0E) || (o =? 0x10) || (o =? 0x12) || (o =? 0x14) then 2
    else 0
  else 0.

Definition update_step (SmbiosData PreSmbiosData : list Z) (FileSize : Z) (s : upd_state)
    : Res (upd_state + W) :=
  let '(i, j, w) := s in
  if i <? FileSize + 18 then
    TypeNumber ← rd8 SmbiosData i;
    HandleNum ← rd16 SmbiosData (i + 1);
    TypeOffset ← rd8 SmbiosData (i + 3);
    '(i, j, w) ← UpdateOffsetData (DataSize_of TypeNumber TypeOffset)
                   SmbiosData PreSmbiosData (i, j, w);
    Done (inl (i + 1, j + 1, w))
  else Done (inr w).

(** A turn of the loop consumes at least five bytes. *)
Definition InBandUpdateSmbios (w : W) : Res W :=
  let '(_, PreSmbiosData) := SmcRomHoleReadRegion PREVIOUS_SMBIOS_REGION w in
  let '(_, SmbiosData) := SmcRomHoleReadRegion CURRENT_SMBIOS_REGION w in
  sig ← rdn SmbiosData 0 4;
  if negb (bool_decide (sig = SMB_sig)) then Done w
  else
    Source ← rd8 SmbiosData 11;
    if Source =? 0 then Done w
    else
      FileSize ← rd32 SmbiosData 6;
      data ← rdn SmbiosData 18 FileSize;
      checksum ← rd8 SmbiosData 10;
      if negb (sum8 data =? checksum) then Done w
      else
        w ← loop (S (Z.to_nat FileSize)) (update_step SmbiosData PreSmbiosData FileSize) (18, 18, w);
        SmbiosData ← wr8 SmbiosData 11 0;
        let '(_, w) := SmcRomHoleWriteRegion CURRENT_SMBIOS_REGION SmbiosData w in
        Done (IoWrite8_cf9 0x06 w).
End nvram.

(** ** The two switches agree *)

(** for every type and offset, the size [InBandUpdateSmbios]
    gives a record is the number of bytes [CombineSmbios] packed for it, 0
    standing for a string. *)
Theorem DataSize_agrees t o : DataSize_of t o = default 0 (varies t o).
Proof.
  unfold DataSize_of, varies, varies0, varies1, varies2, varies3, varies39.
  by repeat case_match.
Qed.

(** ** The array of edit records *)
Record dmi_entry := mkEntry { e_type : Z; e_handle : Z; e_offset : Z; e_flags : Z }.

Definition enc_entry (e : dmi_entry) : list Z :=
  [e_type e] ++ le_bytes 2 (e_handle e) ++ [e_offset e; e_flags e].

Definition enc_entries (l : list dmi_entry) : list Z := concat (map enc_entry l).

(** The variable: the count in the first byte of entry 0, the records, and
    unused entries. *)
Definition dmi_array (h4 : list Z) (l : list dmi_entry) (rest : list Z) : list Z :=
  [zlen l] ++ h4 ++ enc_entries l ++ rest.

Record entry_ok (e : dmi_entry) : Prop := {
  eo_type : is_u8 (e_type e); eo_handle : is_u16 (e_handle e);
  eo_offset : is_u8 (e_offset e); eo_flags : is_u8 (e_flags e) }.

Lemma zlen_enc_entry e : zlen (enc_entry e) = 5.
Proof. reflexivity. Qed.

Lemma zlen_enc_entries l : zlen (enc_entries l) = 5 * zlen l.
Proof.
  unfold enc_entries. induction l as [|e l IH]; cbn [map concat]; [done|].
  rewrite zlen_app, zlen_cons, zlen_enc_entry, IH. lia.
Qed.
#[export] Hint Rewrite zlen_enc_entry zlen_enc_entries : zlen.

Lemma enc_entries_app l k : enc_entries (l ++ k) = enc_entries l ++ enc_entries k.
Proof. unfold enc_entries. by rewrite map_app, concat_app. Qed.

(** Reading and writing the entry at a position. *)
Lemma DMI_at pre e post i :
  zlen pre = 5 * i -> entry_ok e ->
  let a := pre ++ enc_entry e ++ post in
  DMI_Type a i = Done (e_type e) /\ DMI_Handle a i = Done (e_handle e) /\
  DMI_Offset a i = Done (e_offset e) /\ DMI_Flags a i = Done (e_flags e).
Proof.
  intros Hi [Ht Hh Ho Hf] a. unfold DMI_Type, DMI_Handle, DMI_Offset, DMI_Flags.
  assert (Hl : zlen (le_bytes 2 (e_handle e)) = 2) by done.
  pose proof (le_val_2 _ Hh) as Hv. subst a. unfold enc_entry.
  revert Hl Hv. generalize (le_bytes 2 (e_handle e)). intros hb Hl Hv. split_and!.
  - by apply rd8_at.
  - unfold rd16. rewrite (rdn_as _ (pre ++ [e_type e]) hb ([e_offset e; e_flags e] ++ post)) by solve [app_eq | zl].
    by rewrite bind_Done, Hv.
  - change (rd8 ?b ?k) with (rd8 b k).
    replace (pre ++ ([e_type e] ++ hb ++ [e_offset e; e_flags e]) ++ post) with
      ((pre ++ [e_type e] ++ hb) ++ e_offset e :: ([e_flags e] ++ post)) by app_eq.
    apply rd8_at. zl.
  - replace (pre ++ ([e_type e] ++ hb ++ [e_offset e; e_flags e]) ++ post) with
      ((pre ++ [e_type e] ++ hb ++ [e_offset e]) ++ e_flags e :: post) by app_eq.
    apply rd8_at. zl.
Qed.

Lemma set_DMI_at pre old post i e :
  zlen pre = 5 * i -> zlen old = 5 -> entry_ok e ->
  set_DMI_VAR (pre ++ old ++ post) i (e_type e) (e_handle e) (e_offset e) (e_flags e) =
  Done (pre ++ enc_entry e ++ post).
Proof.
  intros Hi Ho [Ht Hh Hof Hf]. unfold set_DMI_VAR, wr8, wr16, enc_entry.
  rewrite !u8_small by done.
  assert (Hl : zlen (le_bytes 2 (e_handle e)) = 2) by done.
  revert Hl. generalize (le_bytes 2 (e_handle e)). intros hb Hl.
  destruct old as [|o0 [|o1 [|o2 [|o3 [|o4 [|]]]]]]; try by (exfalso; zl).
  wr_as pre [o0] ([o1; o2; o3; o4] ++ post).
  wr_as (pre ++ [e_type e]) [o1; o2] ([o3; o4] ++ post).
  wr_as (pre ++ [e_type e] ++ hb) [o3] ([o4] ++ post).
  rewrite (wrn_as _ (pre ++ [e_type e] ++ hb ++ [e_offset e]) [o4] post) by solve [app_eq | zl].
  f_equal. app_eq.
Qed.

Definition has_key (t h o : Z) (e : dmi_entry) : bool :=
  (e_type e =? t) && (e_handle e =? h) && (e_offset e =? o).

(** An array with its count, before and after the records at a position. *)
Definition dmi_raw (n : Z) (h4 : list Z) (l : list dmi_entry) (rest : list Z) : list Z :=
  [n] ++ h4 ++ enc_entries l ++ rest.

Lemma raw_count n h4 l rest : DMI_Type (dmi_raw n h4 l rest) 0 = Done n.
Proof. reflexivity. Qed.

Lemma raw_set_count n m h4 l rest :
  is_u8 m -> wr8 (dmi_raw n h4 l rest) 0 m = Done (dmi_raw m h4 l rest).
Proof.
  intros Hm. unfold wr8, dmi_raw. rewrite u8_small by done.
  rewrite (wrn_as _ (@nil Z) [n] (h4 ++ enc_entries l ++ rest)) by solve [app_eq | zl].
  f_equal.
Qed.

Lemma raw_at n h4 l1 e rest :
  zlen h4 = 4 -> entry_ok e ->
  let a := dmi_raw n h4 (l1 ++ [e]) rest in let i := 1 + zlen l1 in
  DMI_Type a i = Done (e_type e) /\ DMI_Handle a i = Done (e_handle e) /\
  DMI_Offset a i = Done (e_offset e) /\ DMI_Flags a i = Done (e_flags e).
Proof.
  intros Hh He a i. subst a i. unfold dmi_raw. rewrite enc_entries_app.
  change (enc_entries [e]) with (enc_entry e ++ []). rewrite app_nil_r.
  replace ([n] ++ h4 ++ (enc_entries l1 ++ enc_entry e) ++ rest) with
    (([n] ++ h4 ++ enc_entries l1) ++ enc_entry e ++ rest) by app_eq.
  apply DMI_at; [zl|done].
Qed.

Lemma raw_set n h4 l1 old e rest :
  zlen h4 = 4 -> zlen old = 5 -> entry_ok e ->
  set_DMI_VAR (dmi_raw n h4 l1 (old ++ rest)) (1 + zlen l1)
    (e_type e) (e_handle e) (e_offset e) (e_flags e) =
  Done (dmi_raw n h4 (l1 ++ [e]) rest).
Proof.
  intros Hh Ho He. unfold dmi_raw.
  replace ([n] ++ h4 ++ enc_entries l1 ++ old ++ rest) with
    (([n] ++ h4 ++ enc_entries l1) ++ old ++ rest) by app_eq.
  rewrite set_DMI_at by (done || zl). f_equal. rewrite enc_entries_app.
  change (enc_entries [e]) with (enc_entry e ++ []). app_eq.
Qed.

Lemma raw_move n h4 l k rest :
  dmi_raw n h4 (l ++ k) rest = dmi_raw n h4 l (enc_entries k ++ rest).
Proof. unfold dmi_raw. rewrite enc_entries_app. app_eq. Qed.

Lemma raw_move1 n h4 l e rest :
  dmi_raw n h4 (l ++ [e]) rest = dmi_raw n h4 l (enc_entry e ++ rest).
Proof.
  rewrite raw_move. change (enc_entries [e]) with (enc_entry e ++ []). by rewrite app_nil_r.
Qed.

Lemma enc_entries_cons e l : enc_entries (e :: l) = enc_entry e ++ enc_entries l.
Proof. reflexivity. Qed.

(** One turn, the count known. *)
Lemma find_step_eq a t h o i n :
  DMI_Type a 0 = Done n ->
  find_step a t h o i =
    if i <=? n then
      t' ← DMI_Type a i; h' ← DMI_Handle a i; o' ← DMI_Offset a i;
      if (t' =? t) && (h' =? h) && (o' =? o) then Done (inr i) else Done (inl (u8 (i + 1)))
    else Done (inr i).
Proof. intros E. unfold find_step. by rewrite E. Qed.

Lemma shift_step_eq a i n :
  DMI_Type a 0 = Done n ->
  shift_step (a, i) =
    if i <=? n then
      t ← DMI_Type a (i + 1); h ← DMI_Handle a (i + 1);
      o ← DMI_Offset a (i + 1); f ← DMI_Flags a (i + 1);
      a ← set_DMI_VAR a i t h o f;
      Done (inl (a, u8 (i + 1)))
    else Done (inr a).
Proof. intros E. cbn [shift_step]. by rewrite E. Qed.

Section search.
Context (n : Z) (h4 : list Z) (t h o : Z) (Hh4 : zlen h4 = 4).

Lemma find_skip d l1 l2 rest k :
  Forall entry_ok l1 -> Forall (fun e => has_key t h o e = false) l1 ->
  zlen d + zlen l1 <= n -> n < 255 ->
  loop (length l1 + k) (find_step (dmi_raw n h4 (d ++ l1 ++ l2) rest) t h o) (1 + zlen d) =
  loop k (find_step (dmi_raw n h4 (d ++ l1 ++ l2) rest) t h o) (1 + zlen d + zlen l1).
Proof using Hh4.
  intros Hok. revert d. induction Hok as [|e l1 He _ IH]; intros d Hk Hn Hn2.
  - cbn [length Nat.add]. by rewrite zlen_nil, Z.add_0_r.
  - apply Forall_cons in Hk as [Hke Hk]. cbn [length Nat.add app]. rewrite loop_S.
    set (a := dmi_raw _ _ _ _). rewrite (find_step_eq a t h o _ n) by done.
    assert (Ha : a = dmi_raw n h4 (d ++ [e]) (enc_entries (l1 ++ l2) ++ rest))
      by (unfold a; by rewrite <- raw_move, <- app_assoc).
    destruct (raw_at n h4 d e (enc_entries (l1 ++ l2) ++ rest) Hh4 He) as (E1 & E2 & E3 & _).
    rewrite <- Ha in *. replace (1 + zlen d <=? n) with true by (symmetry; apply Z.leb_le; zl).
    rewrite E1, bind_Done, E2, bind_Done, E3, bind_Done.
    unfold has_key in Hke. rewrite Hke, bind_Done, u8_small by (unfold is_u8; zl).
    specialize (IH (d ++ [e])). rewrite <- app_assoc in IH. cbn [app] in IH. fold a in IH.
    replace (zlen (d ++ [e])) with (1 + zlen d) in IH by zl.
    replace (1 + zlen d + 1) with (1 + (1 + zlen d)) by lia.
    rewrite IH by (done || zl). f_equal. zl.
Qed.

Lemma find_found l1 e l2 rest :
  Forall entry_ok (l1 ++ [e]) -> Forall (fun e => has_key t h o e = false) l1 ->
  has_key t h o e = true -> zlen l1 < n -> n < 255 ->
  loop DMI_FUEL (find_step (dmi_raw n h4 (l1 ++ e :: l2) rest) t h o) 1 = Done (1 + zlen l1).
Proof using Hh4.
  intros [Hok He]%Forall_app Hk Hke Hn Hn2. apply Forall_cons in He as [He _].
  replace DMI_FUEL with (length l1 + S (DMI_FUEL - length l1 - 1))%nat
    by (unfold DMI_FUEL; unfold zlen in Hn; lia).
  rewrite (find_skip [] l1 (e :: l2)) by (done || zl). cbn [app zlen length]. change (Z.of_nat 0) with 0.
  rewrite loop_S. set (a := dmi_raw _ _ _ _). rewrite (find_step_eq a t h o _ n) by done.
  assert (Ha : a = dmi_raw n h4 (l1 ++ [e]) (enc_entries l2 ++ rest))
    by (unfold a; by rewrite <- raw_move, <- app_assoc).
  destruct (raw_at n h4 l1 e (enc_entries l2 ++ rest) Hh4 He) as (E1 & E2 & E3 & _).
  rewrite <- Ha in *. rewrite Z.add_0_r.
  replace (1 + zlen l1 <=? n) with true by (symmetry; apply Z.leb_le; zl).
  rewrite E1, bind_Done, E2, bind_Done, E3, bind_Done.
  unfold has_key in Hke. by rewrite Hke.
Qed.

Lemma find_missing l rest :
  Forall entry_ok l -> Forall (fun e => has_key t h o e = false) l ->
  n = zlen l -> n < 255 ->
  loop DMI_FUEL (find_step (dmi_raw n h4 l rest) t h o) 1 = Done (1 + zlen l).
Proof using Hh4.
  intros Hok Hk Hn Hn2. pose proof (find_skip [] l [] rest (S (DMI_FUEL - length l - 1))) as E.
  rewrite app_nil_r in E. cbn [app] in E.
  replace DMI_FUEL with (length l + S (DMI_FUEL - length l - 1))%nat
    by (unfold DMI_FUEL; unfold zlen in Hn; lia).
  change (1 + zlen []) with 1 in E. rewrite E by (done || zl).
  rewrite loop_S, (find_step_eq _ t h o _ n) by done.
  by replace (1 + zlen l <=? n) with false by lia.
Qed.

Lemma shift_down l1 e l2 x rest m :
  entry_ok x -> Forall entry_ok l2 -> n = zlen l1 + 1 + zlen l2 -> n < 255 ->
  (length l2 + 2 <= m)%nat ->
  loop m shift_step (dmi_raw n h4 (l1 ++ e :: l2) (enc_entry x ++ rest), 1 + zlen l1) =
  Done (dmi_raw n h4 (l1 ++ l2) (enc_entry x ++ enc_entry x ++ rest)).
Proof using Hh4.
  intros Hx Hok. revert l1 e m. induction Hok as [|y l2 Hy _ IH]; intros l1 e m Hn Hn2 Hm;
    (destruct m as [|m]; [lia|]); rewrite loop_S, (shift_step_eq _ _ n) by done.
  - replace (1 + zlen l1 <=? n) with true by (symmetry; apply Z.leb_le; zl).
    destruct (raw_at n h4 (l1 ++ [e]) x rest Hh4 Hx) as (E1 & E2 & E3 & E4).
    replace (1 + zlen (l1 ++ [e])) with (1 + zlen l1 + 1) in * by zl.
    rewrite raw_move1 in E1, E2, E3, E4.
    rewrite E1, bind_Done, E2, bind_Done, E3, bind_Done, E4, bind_Done.
    rewrite raw_move1, raw_set, !bind_Done, app_nil_r by done.
    destruct m as [|m]; [cbn in Hm; lia|].
    rewrite u8_small by (unfold is_u8; zl). rewrite loop_S, (shift_step_eq _ _ n) by done.
    replace (1 + zlen l1 + 1 <=? n) with false by (symmetry; apply Z.leb_gt; zl).
    by rewrite bind_Done, raw_move1.
  - replace (1 + zlen l1 <=? n) with true by (symmetry; apply Z.leb_le; zl).
    destruct (raw_at n h4 (l1 ++ [e]) y (enc_entries l2 ++ enc_entry x ++ rest) Hh4 Hy)
      as (E1 & E2 & E3 & E4).
    replace (1 + zlen (l1 ++ [e])) with (1 + zlen l1 + 1) in * by zl.
    replace (dmi_raw n h4 ((l1 ++ [e]) ++ [y]) (enc_entries l2 ++ enc_entry x ++ rest))
      with (dmi_raw n h4 (l1 ++ e :: y :: l2) (enc_entry x ++ rest)) in *
      by (rewrite <- raw_move; do 1 f_equal; by rewrite <- !app_assoc).
    rewrite E1, bind_Done, E2, bind_Done, E3, bind_Done, E4, bind_Done.
    rewrite raw_move, enc_entries_cons, <- app_assoc.
    rewrite raw_set, !bind_Done, u8_small by (done || (unfold is_u8; zl)).
    specialize (IH (l1 ++ [y]) y m).
    rewrite (raw_move _ _ (l1 ++ [y])) in IH.
    replace (1 + zlen (l1 ++ [y])) with (1 + zlen l1 + 1) in IH by zl.
    rewrite IH by (zl || (cbn in Hm; lia)).
    by rewrite <- app_assoc.
Qed.
End search.

(** ** Storing a field and going back to its default *)
Definition DMI_SIZE : Z := 1280.   (* 256 entries of 5 bytes *)

Lemma dmi_buffer_full d : zlen d = DMI_SIZE -> dmi_buffer (mkVar EFI_SUCCESS 0 DMI_SIZE d) = d.
Proof.
  intros Hd. unfold dmi_buffer, DMI_ARRAY_COUNT, sizeof_DMI_VAR. cbn [v_data].
  replace (_ - length d)%nat with 0%nat by (unfold zlen, DMI_SIZE in Hd; lia).
  apply app_nil_r.
Qed.

Section update_correct.
Context {W : Type} `{Firmware W} (digit : Z -> Z) (G : list Z).

(** Writes of the variable of that name work. *)
Definition writable (n : name) : Prop := forall a d w, fst (SetVariable n G a d w) = EFI_SUCCESS.

Lemma name_ne t h o : DmiVarName digit t h o <> DmiArrayVar.
Proof using. discriminate. Qed.

Lemma get_array w a l :
  var w DmiArrayVar G = Some (a, l) -> zlen l = DMI_SIZE ->
  GetVariable DmiArrayVar G (DMI_ARRAY_COUNT * sizeof_DMI_VAR) w =
    mkVar EFI_SUCCESS a DMI_SIZE l.
Proof using.
  intros Hv Hl. rewrite GetVariable_law, Hv. cbn. rewrite Hl. done.
Qed.

(** An array that is not there yet reads as one without records. *)
Definition array_content (v : option (Z * list Z)) : list Z :=
  match v with Some (_, l) => l | None => replicate (Z.to_nat DMI_SIZE) 0 end.

Lemma get_content w l :
  array_content (var w DmiArrayVar G) = l -> zlen l = DMI_SIZE ->
  exists st a d, GetVariable DmiArrayVar G (DMI_ARRAY_COUNT * sizeof_DMI_VAR) w = mkVar st a DMI_SIZE d /\
    dmi_buffer (mkVar st a DMI_SIZE d) = l /\
    (st = EFI_SUCCESS \/ st = EFI_NOT_FOUND /\ DMI_Type l 0 = Done 0).
Proof using.
  intros Hc Hl. destruct (var w DmiArrayVar G) as [[a d]|] eqn:E; cbn [array_content] in Hc; subst.
  - eexists _, a, _. rewrite (get_array w a _ E Hl). split; [done|]. split; [by apply dmi_buffer_full|by left].
  - eexists _, 0, []. rewrite GetVariable_law, E. cbn [get_result].
    split; [done|]. split; [by vm_compute|]. right. split; [done|]. by vm_compute.
Qed.

Definition pad_data (d : list Z) : list Z := d ++ replicate (Z.to_nat 0x400 - length d) 0.

(** Both ways through [UpdateToNVRAM], as equations on the variables. *)
Definition same_elsewhere (w w' : W) (t h o : Z) : Prop :=
  rom w' = rom w /\ resets w' = resets w /\
  forall n g, (n, g) <> (DmiArrayVar, G) -> (n, g) <> (DmiVarName digit t h o, G) ->
    var w' n g = var w n g.

Lemma two_sets_elsewhere w t h o n1 d1 n2 d2 :
  n1 = DmiArrayVar \/ n1 = DmiVarName digit t h o ->
  n2 = DmiArrayVar \/ n2 = DmiVarName digit t h o ->
  same_elsewhere w (snd (SetVariable n2 G dmi_attr d2 (snd (SetVariable n1 G dmi_attr d1 w)))) t h o.
Proof using.
  intros H1 H2. split_and!; [by rewrite !SetVariable_rom|by rewrite !SetVariable_resets|].
  intros n g Ha Hb. by rewrite !SetVariable_other by (intros [= -> ->]; destruct H1, H2; subst; auto).
Qed.

Lemma store_string w h4 es old rest t h o s :
  writable DmiArrayVar -> writable (DmiVarName digit t h o) ->
  zlen h4 = 4 -> zlen old = 5 -> zlen es < 255 ->
  zlen (dmi_array h4 es (old ++ rest)) = DMI_SIZE ->
  entry_ok (mkEntry t h o 0) -> no_nul s -> s <> [] -> hd 0 s <> 0xFE -> zlen s < 255 ->
  array_content (var w DmiArrayVar G) = dmi_array h4 es (old ++ rest) ->
  var w (DmiVarName digit t h o) G = None ->
  exists w', UpdateToNVRAM digit G t h o (pad_data (s ++ [0])) 0 w = Done w' /\
    var w' (DmiVarName digit t h o) G = Some (dmi_attr, s ++ [0]) /\
    var w' DmiArrayVar G = Some (dmi_attr, dmi_array h4 (es ++ [mkEntry t h o 0]) rest) /\
    same_elsewhere w w' t h o.
Proof using.
  intros Wa Wn Hh Ho Hes Hsz He Hs Hne Hfe Hsl Ha Hn. unfold UpdateToNVRAM.
  destruct s as [|c s]; [done|]. cbn [hd] in Hfe.
  assert (Hc0 : rd8 (pad_data ((c :: s) ++ [0])) 0 = Done c) by done.
  rewrite Hc0, bind_Done. replace (c =? 0xFE) with false by lia. rewrite andb_false_r.
  unfold store_user. destruct (get_content w _ Ha Hsz) as (sg & ag & dg & -> & Hb & Hsg). cbv zeta.
  cbn [v_status v_size]. change (dmi_array h4 es (old ++ rest)) with (dmi_raw (zlen es) h4 es (old ++ rest)) in Hb, Hsg.
  rewrite Hb, raw_count, bind_Done. rewrite raw_count in Hsg.
  assert (Hix : (if decide (sg = EFI_SUCCESS) then u8 (zlen es + 1) else 1) = 1 + zlen es).
  { destruct Hsg as [->|[-> [= E]]].
    - rewrite decide_True by done. rewrite u8_small by (unfold is_u8; zl). lia.
    - rewrite decide_False by done. lia. }
  rewrite Hix. clear Hix Hsg.
  rewrite (raw_set (zlen es) h4 es old (mkEntry t h o 0)), bind_Done by done.
  rewrite GetVariable_law, Hn. cbn [get_result v_status]. rewrite decide_True by done.
  rewrite raw_count, bind_Done, raw_set_count, bind_Done by (unfold is_u8; zl).
  set (arr := dmi_raw _ _ _ _).
  assert (Hal : zlen arr = DMI_SIZE).
  { unfold arr, dmi_raw. unfold dmi_array in Hsz. revert Hsz. rewrite !zlen_app, !zlen_enc_entries.
    rewrite zlen_app. cbn. zl. }
  rewrite (found_rdn arr 0 arr DMI_SIZE), !bind_Done by
    (done || (apply found_split; exists [], []; by rewrite app_nil_r)).
  pose proof (Wa dmi_attr arr w) as Hst.
  destruct (SetVariable DmiArrayVar G dmi_attr arr w) as [st w1] eqn:E1. cbn in Hst. subst st.
  rewrite decide_True by auto. cbn [Z.eqb].
  unfold pad_data. set (p := replicate _ 0).
  replace (c_strlen _ 0) with (Done (zlen (c :: s))).
  2: { symmetry. rewrite <- app_assoc. by apply (c_strlen_at [] (c :: s) p). }
  rewrite !bind_Done, !(u8_small (zlen _)), u8_small by (unfold is_u8; zl).
  rewrite (rdn_as _ (@nil Z) ((c :: s) ++ [0]) p), bind_Done by (done || zl).
  eexists. split; [done|]. replace w1 with (snd (SetVariable DmiArrayVar G dmi_attr arr w)) by (by rewrite E1).
  split_and!; try apply two_sets_elsewhere; auto.
  - by rewrite set_stored by apply Wn.
  - rewrite SetVariable_other by (intros [=]; by eapply name_ne).
    rewrite set_stored by apply Wa. unfold arr, dmi_array, dmi_raw. cbn [stored app].
    do 4 f_equal. zl.
Qed.

Lemma restore_default w a v h4 l1 e l2 x rest :
  writable DmiArrayVar -> writable (DmiVarName digit (e_type e) (e_handle e) (e_offset e)) ->
  zlen h4 = 4 -> zlen l1 + 1 + zlen l2 < 255 -> entry_ok x ->
  Forall entry_ok (l1 ++ e :: l2) ->
  Forall (fun e' => has_key (e_type e) (e_handle e) (e_offset e) e' = false) l1 ->
  zlen (dmi_array h4 (l1 ++ e :: l2) (enc_entry x ++ rest)) = DMI_SIZE ->
  var w DmiArrayVar G = Some (a, dmi_array h4 (l1 ++ e :: l2) (enc_entry x ++ rest)) ->
  var w (DmiVarName digit (e_type e) (e_handle e) (e_offset e)) G = Some v ->
  exists w', UpdateToNVRAM digit G (e_type e) (e_handle e) (e_offset e) (pad_data [0xFE; 0]) 0 w = Done w' /\
    var w' (DmiVarName digit (e_type e) (e_handle e) (e_offset e)) G = None /\
    var w' DmiArrayVar G = Some (dmi_attr, dmi_array h4 (l1 ++ l2) (enc_entry x ++ enc_entry x ++ rest)) /\
    same_elsewhere w w' (e_type e) (e_handle e) (e_offset e).
Proof using.
  intros Wa Wn Hh Hn Hx Hok Hk Hsz Ha Hv.
  set (t := e_type e) in *. set (h := e_handle e) in *. set (o := e_offset e) in *.
  unfold UpdateToNVRAM. change (rd8 (pad_data [0xFE; 0]) 0) with (Done 0xFE).
  rewrite bind_Done. cbn [Z.eqb andb]. change (0 =? 0) with true. change (0xFE =? 0xFE) with true. cbn [andb].
  unfold load_default. rewrite GetVariable_law, Hv. cbv zeta.
  rewrite decide_False by (unfold get_result; destruct v; case_match; done).
  destruct (SetVariable (DmiVarName digit t h o) G dmi_attr [] w) as [st w1] eqn:E1.
  assert (Hw1 : w1 = snd (SetVariable (DmiVarName digit t h o) G dmi_attr [] w)) by (by rewrite E1).
  assert (Ha1 : var w1 DmiArrayVar G = var w DmiArrayVar G)
    by (rewrite Hw1; apply SetVariable_other; intros [=]; by eapply name_ne).
  rewrite Ha in Ha1. rewrite (get_array w1 a _ Ha1 Hsz). cbn [v_size].
  set (n := zlen (l1 ++ e :: l2)). assert (Hn' : n = zlen l1 + 1 + zlen l2) by (unfold n; zl).
  replace (dmi_buffer _) with (dmi_raw n h4 (l1 ++ e :: l2) (enc_entry x ++ rest))
    by (symmetry; by apply dmi_buffer_full).
  apply Forall_app in Hok as Hok'. destruct Hok' as [Hok1 [Hoe Hok2]%Forall_cons].
  rewrite (find_found n h4 t h o Hh), bind_Done;
    [|by apply Forall_app; split; [|constructor]|done|unfold has_key, t, h, o; by rewrite !Z.eqb_refl|zl|lia].
  rewrite (shift_down n h4 Hh), bind_Done; [|done|done|done|lia|unfold DMI_FUEL; unfold zlen in Hn; lia].
  rewrite raw_count, bind_Done, raw_set_count, bind_Done by (unfold is_u8; zl).
  set (arr := dmi_raw _ _ _ _).
  assert (Hal : zlen arr = DMI_SIZE).
  { unfold arr, dmi_raw. unfold dmi_array in Hsz. revert Hsz. rewrite !enc_entries_app, enc_entries_cons. zl. }
  rewrite (found_rdn arr 0 arr DMI_SIZE), !bind_Done by
    (done || (apply found_split; exists [], []; by rewrite app_nil_r)).
  eexists. split; [done|]. rewrite Hw1. split_and!; try apply two_sets_elsewhere; auto.
  - rewrite SetVariable_other by (intros [=]; by eapply name_ne). by rewrite set_stored by apply Wn.
  - rewrite set_stored by apply Wa. unfold arr, dmi_array, dmi_raw. cbn [stored app].
    do 4 f_equal. zl.
Qed.

(** C32: (roundtrip) An edit and its undoing, when writes of the two variables
    concerned work. For a field without an own variable and without a record
    in the edit array, whether the array is there with all its 256 entries and
    fewer than 254 records or not there yet: storing a string of 1 to 254
    characters that does not start with 0xFE puts it in the variable of the
    field and one record at the end of the array; asking for the default
    afterwards removes the variable and exactly that record, so the array
    lists the records it listed before. No other variable changes, nor does
    the flash, and nothing is reset. *)
Theorem UpdateToNVRAM_roundtrip w h4 es old x rest t h o s :
  writable DmiArrayVar -> writable (DmiVarName digit t h o) ->
  zlen h4 = 4 -> zlen old = 5 -> zlen es < 254 -> entry_ok x ->
  zlen (dmi_array h4 es (old ++ enc_entry x ++ rest)) = DMI_SIZE ->
  entry_ok (mkEntry t h o 0) -> Forall entry_ok es ->
  Forall (fun e => has_key t h o e = false) es ->
  no_nul s -> s <> [] -> hd 0 s <> 0xFE -> zlen s < 255 ->
  array_content (var w DmiArrayVar G) = dmi_array h4 es (old ++ enc_entry x ++ rest) ->
  var w (DmiVarName digit t h o) G = None ->
  exists w1 w2,
    UpdateToNVRAM digit G t h o (pad_data (s ++ [0])) 0 w = Done w1 /\
    var w1 (DmiVarName digit t h o) G = Some (dmi_attr, s ++ [0]) /\
    var w1 DmiArrayVar G =
      Some (dmi_attr, dmi_array h4 (es ++ [mkEntry t h o 0]) (enc_entry x ++ rest)) /\
    UpdateToNVRAM digit G t h o (pad_data [0xFE; 0]) 0 w1 = Done w2 /\
    var w2 (DmiVarName digit t h o) G = None /\
    var w2 DmiArrayVar G =
      Some (dmi_attr, dmi_array h4 es (enc_entry x ++ enc_entry x ++ rest)) /\
    same_elsewhere w w2 t h o.
Proof using.
  intros Wa Wn Hh Ho Hes Hx Hsz He Hok Hk Hs Hne Hfe Hsl Ha Hn.
  destruct (store_string w h4 es old (enc_entry x ++ rest) t h o s)
    as (w1 & E1 & Hv1 & Ha1 & R1 & S1 & V1); try done; [lia|].
  destruct (restore_default w1 dmi_attr (dmi_attr, s ++ [0]) h4 es (mkEntry t h o 0) [] x rest)
    as (w2 & E2 & Hv2 & Ha2 & R2 & S2 & V2); try done.
  - zl.
  - apply Forall_app. auto.
  - revert Hsz. unfold dmi_array. rewrite enc_entries_app. zl.
  - exists w1, w2. rewrite app_nil_r in Ha2. split_and!; try done.
    split; [congruence|split; [congruence|]].
    intros n g H1 H2. rewrite V2 by done. by apply V1.
Qed.
End update_correct.

(** ** A default for a field that has no record *)
Section missing.
Context {W : Type} `{Firmware W} (digit : Z -> Z) (G : list Z).

(** asking for the default of a field whose variable exists but
    which has no record in the edit array drops the last record of another
    field from the array: the count goes down although nothing was found
    (when the variables can be written). *)
Theorem UpdateToNVRAM_default_missing w a v h4 es last rest t h o :
  vars_writable -> zlen h4 = 4 -> zlen es < 254 ->
  Forall entry_ok (es ++ [last]) ->
  Forall (fun e => has_key t h o e = false) (es ++ [last]) ->
  zlen (dmi_array h4 (es ++ [last]) rest) = DMI_SIZE ->
  var w DmiArrayVar G = Some (a, dmi_array h4 (es ++ [last]) rest) ->
  var w (DmiVarName digit t h o) G = Some v ->
  exists w', UpdateToNVRAM digit G t h o (pad_data [0xFE; 0]) 0 w = Done w' /\
    var w' DmiArrayVar G = Some (dmi_attr, dmi_array h4 es (enc_entry last ++ rest)).
Proof.
  intros Hws Hh Hn Hok Hk Hsz Ha Hv.
  unfold UpdateToNVRAM. change (rd8 (pad_data [0xFE; 0]) 0) with (Done 0xFE).
  rewrite bind_Done. change (0 =? 0) with true. change (0xFE =? 0xFE) with true. cbn [andb].
  unfold load_default. rewrite GetVariable_law, Hv. cbv zeta.
  rewrite decide_False by (unfold get_result; destruct v; case_match; done).
  destruct (SetVariable (DmiVarName digit t h o) G dmi_attr [] w) as [st w1] eqn:E1.
  assert (Ha1 : var w1 DmiArrayVar G = var w DmiArrayVar G).
  { replace w1 with (snd (SetVariable (DmiVarName digit t h o) G dmi_attr [] w)) by (by rewrite E1).
    apply SetVariable_other. intros [=]; by eapply name_ne. }
  rewrite Ha in Ha1. rewrite (get_array G w1 a _ Ha1 Hsz). cbn [v_size].
  set (n := zlen (es ++ [last])). assert (Hn' : n = zlen es + 1) by (unfold n; zl).
  replace (dmi_buffer _) with (dmi_raw n h4 (es ++ [last]) rest) by (symmetry; by apply dmi_buffer_full).
  rewrite (find_missing n h4 t h o Hh), bind_Done by (done || lia).
  fold n. unfold DMI_FUEL. rewrite loop_S, (shift_step_eq _ _ n) by done.
  replace (1 + n <=? n) with false by lia.
  rewrite !bind_Done, raw_count, bind_Done, raw_set_count, bind_Done by (unfold is_u8; zl).
  rewrite raw_move1. set (arr := dmi_raw _ _ _ _).
  assert (Hal : zlen arr = DMI_SIZE).
  { unfold arr, dmi_raw. unfold dmi_array in Hsz. revert Hsz. rewrite !enc_entries_app.
    change (enc_entries [last]) with (enc_entry last ++ []). zl. }
  rewrite (found_rdn arr 0 arr DMI_SIZE), !bind_Done by
    (done || (apply found_split; exists [], []; by rewrite app_nil_r)).
  eexists. split; [done|]. rewrite set_same by done. unfold arr, dmi_array, dmi_raw.
  cbn [stored app]. do 4 f_equal. lia.
Qed.
End missing.

(** Witnesses: an edit array with two records and hexadecimal digits. *)
Definition hexdigit (d : Z) : Z := if d <? 10 then 48 + d else 55 + d.
Definition demo_guid : list Z := replicate 16 0x5A.
Definition demo_x : dmi_entry := mkEntry 0 0 0 0.
Definition demo_es : list dmi_entry := [mkEntry 1 1 4 0; mkEntry 2 2 5 0].
Definition demo_dmi (l : list dmi_entry) (unused : nat) : SimpleFw :=
  mkFw (<[(DmiVarName hexdigit 1 1 7, demo_guid) := (7, [0x41; 0])]>
        (<[(DmiArrayVar, demo_guid) :=
             (7, dmi_array [0; 0; 0; 0] l (replicate unused 0))]> ∅)) ∅ [].

Lemma entry_ok_dec e :
  (is_u8 (e_type e) /\ is_u16 (e_handle e) /\ is_u8 (e_offset e) /\ is_u8 (e_flags e)) -> entry_ok e.
Proof. intros (? & ? & ? & ?). by split. Qed.

Lemma demo_es_ok : Forall entry_ok demo_es.
Proof. repeat constructor; discriminate. Qed.

Lemma UpdateToNVRAM_roundtrip_witness :
  exists w1 w2,
    UpdateToNVRAM hexdigit demo_guid 3 3 6 (pad_data ([0x53; 0x4e] ++ [0])) 0
      (demo_dmi demo_es 1265) = Done w1 /\
    UpdateToNVRAM hexdigit demo_guid 3 3 6 (pad_data [0xFE; 0]) 0 w1 = Done w2 /\
    var w2 DmiArrayVar demo_guid =
      Some (dmi_attr, dmi_array [0; 0; 0; 0] demo_es (replicate 1265 0)).
Proof.
  destruct (UpdateToNVRAM_roundtrip hexdigit demo_guid (demo_dmi demo_es 1265)
    [0; 0; 0; 0] demo_es (replicate 5 0) demo_x (replicate 1255 0) 3 3 6 [0x53; 0x4e])
    as (w1 & w2 & H1 & _ & _ & H2 & _ & H3 & _).
  - done.
  - done.
  - reflexivity.
  - reflexivity.
  - reflexivity.
  - apply entry_ok_dec. repeat split; discriminate || reflexivity.
  - reflexivity.
  - apply entry_ok_dec. repeat split; discriminate || reflexivity.
  - apply demo_es_ok.
  - repeat constructor.
  - repeat constructor; discriminate.
  - discriminate.
  - discriminate.
  - reflexivity.
  - vm_compute. reflexivity.
  - vm_compute. reflexivity.
  - exists w1, w2. split; [exact H1|split; [exact H2|exact H3]].
Defined.

Lemma UpdateToNVRAM_default_missing_witness :
  exists w', UpdateToNVRAM hexdigit demo_guid 1 1 7 (pad_data [0xFE; 0]) 0
      (demo_dmi demo_es 1265) = Done w' /\
    var w' DmiArrayVar demo_guid =
      Some (dmi_attr, dmi_array [0; 0; 0; 0] [mkEntry 1 1 4 0]
        (enc_entry (mkEntry 2 2 5 0) ++ replicate 1265 0)).
Proof.
  apply (UpdateToNVRAM_default_missing hexdigit demo_guid (demo_dmi demo_es 1265) 7 (7, [0x41; 0])
    [0; 0; 0; 0] [mkEntry 1 1 4 0] (mkEntry 2 2 5 0) (replicate 1265 0) 1 1 7).
  - apply SimpleFw_vars.
  - reflexivity.
  - reflexivity.
  - apply demo_es_ok.
  - repeat constructor.
  - reflexivity.
  - vm_compute. reflexivity.
  - vm_compute. reflexivity.
Defined.

(** ** The whole update *)

(** A record [InBandUpdateSmbios] can walk over. *)
Record rec_ok (r : dmi_rec) : Prop := {
  ro_type : is_u8 (r_type r); ro_handle : is_u16 (r_handle r); ro_offset : is_u8 (r_offset r);
  ro_data :
    if DataSize_of (r_type r) (r_offset r) =? 0
    then no_nul (r_data r) /\ zlen (r_data r) < 0x400
    else zlen (r_data r) = DataSize_of (r_type r) (r_offset r) }.

(** The two tables describe the same fields. *)
Definition same_field (c p : dmi_rec) : Prop :=
  rec_ok c /\ rec_ok p /\ r_type p = r_type c /\ r_handle p = r_handle c /\
  r_offset p = r_offset c.

Lemma DataSize_bound t o : 0 <= DataSize_of t o <= 16.
Proof.
  unfold DataSize_of. repeat case_match; lia.
Qed.

Section whole.
Context {W : Type} `{Firmware W} (digit : Z -> Z) (G : list Z).

(** What a changed field amounts to. *)
Definition apply_change (w : W) (cp : dmi_rec * dmi_rec) : Res W :=
  let '(c, p) := cp in
  if decide (r_data p = r_data c) then Done w
  else
    let n := DataSize_of (r_type c) (r_offset c) in
    if n =? 0 then
      let o := if (r_type c =? 11) || (r_type c =? 12) then u8 (r_offset c - 1) else r_offset c in
      UpdateToNVRAM digit G (r_type c) (r_handle c) o (pad_data (r_data c ++ [0])) 0 w
    else UpdateToNVRAM digit G (r_type c) (r_handle c) (r_offset c) (pad_data (r_data c)) n w.

Lemma rec_head pre r post i :
  zlen pre = i -> rec_ok r ->
  let b := pre ++ enc_rec r ++ post in
  rd8 b i = Done (r_type r) /\ rd16 b (i + 1) = Done (r_handle r) /\
  rd8 b (i + 3) = Done (r_offset r).
Proof using.
  intros Hi [Ht Hh Ho _] b. subst b. unfold enc_rec, rd16.
  assert (Hl : zlen (le_bytes 2 (r_handle r)) = 2) by done.
  pose proof (le_val_2 _ Hh) as Hv. revert Hl Hv.
  generalize (le_bytes 2 (r_handle r)). intros hb Hl Hv. split_and!.
  - rewrite <- app_assoc. by apply rd8_at.
  - rd_as (pre ++ [r_type r]) hb ([r_offset r] ++ r_data r ++ [0] ++ post). by rewrite Hv.
  - replace (pre ++ ([r_type r] ++ hb ++ [r_offset r] ++ r_data r ++ [0]) ++ post) with
      ((pre ++ [r_type r] ++ hb) ++ r_offset r :: (r_data r ++ [0] ++ post)) by app_eq.
    apply rd8_at. zl.
Qed.

Lemma pad_at d : zlen d <= 0x400 ->
  wrn (replicate (Z.to_nat 0x400) 0) 0 d = Done (pad_data d).
Proof using.
  intros Hd. unfold pad_data.
  replace (replicate (Z.to_nat 0x400) 0) with
    ([] ++ replicate (length d) 0 ++ replicate (Z.to_nat 0x400 - length d) 0)
    by (cbn [app]; rewrite <- replicate_add; f_equal; unfold zlen in Hd; lia).
  rewrite wrn_at; [done|done|]. by rewrite zlen_replicate.
Qed.

(** One record moves both indices past it and applies its change. *)
Lemma UpdateOffsetData_at c p preC postC preP postP w :
  same_field c p ->
  UpdateOffsetData digit G (DataSize_of (r_type c) (r_offset c))
    (preC ++ enc_rec c ++ postC) (preP ++ enc_rec p ++ postP) (zlen preC, zlen preP, w) =
  (w ← apply_change w (c, p);
   Done (zlen preC + 4 + zlen (r_data c), zlen preP + 4 + zlen (r_data p), w)).
Proof using.
  intros (Hc & Hp & Ht & Hh & Ho).
  destruct (rec_head preC c postC (zlen preC) eq_refl Hc) as (E1 & E2 & E3).
  unfold UpdateOffsetData, apply_change. rewrite E1, bind_Done, E2, bind_Done, E3, bind_Done. cbv zeta.
  pose proof (ro_data c Hc) as Dc. pose proof (ro_data p Hp) as Dp. rewrite Ht, Ho in Dp.
  set (n := DataSize_of (r_type c) (r_offset c)) in *. pose proof (DataSize_bound (r_type c) (r_offset c)) as Hn.
  fold n in Hn.
  assert (Sp : forall r pre post, rec_ok r -> exists head, zlen head = zlen pre + 4 /\
      pre ++ enc_rec r ++ post = head ++ r_data r ++ 0 :: post).
  { intros r pre post _. exists (pre ++ [r_type r] ++ le_bytes 2 (r_handle r) ++ [r_offset r]).
    split; [zl|]. unfold enc_rec. app_eq. }
  destruct (Sp c preC postC Hc) as (hc & Hhc & ->). destruct (Sp p preP postP Hp) as (hp & Hhp & ->).
  assert (Hup : zlen (r_data c) <= 0x400 /\ (n <> 0 -> zlen (r_data c) = n /\ zlen (r_data p) = n)).
  { destruct (Z.eqb_spec n 0); [by split; [lia|]|]. split; [lia|auto]. }
  destruct (Z.eqb_spec n 0) as [E|E]; cbn [negb].
  - destruct Dc as [Dc1 Dc2], Dp as [Dp1 Dp2].
    rewrite (c_str_at hp), bind_Done, (c_str_at hc), bind_Done by (done || lia).
    rewrite pad_at, bind_Done, E by zl. by destruct (decide _).
  - destruct Hup as [Hup Hn2]. destruct (Hn2 E) as [Lc Lp].
    rewrite (rdn_at hp (r_data p) (0 :: postP)), bind_Done by (done || lia).
    rewrite (rdn_at hc (r_data c) (0 :: postC)), bind_Done by (done || lia).
    rewrite pad_at, bind_Done by lia. rewrite Lc, Lp. by destruct (decide _).
Qed.

Lemma update_loop l preC preP restC restP w m size :
  Forall (fun cp => same_field (fst cp) (snd cp)) l ->
  zlen preC + zlen (enc_recs (map fst l)) = size + 18 -> (length l < m)%nat ->
  loop m (update_step digit G (preC ++ enc_recs (map fst l) ++ restC)
            (preP ++ enc_recs (map snd l) ++ restP) size) (zlen preC, zlen preP, w) =
  foldM apply_change l w.
Proof using.
  intros Hl. revert preC preP w m. induction Hl as [|[c p] l Hcp _ IH]; intros preC preP w m Hsz Hm;
    (destruct m as [|m]; [cbn in Hm; lia|]); rewrite loop_S.
  - cbn [update_step map foldM]. cbn in Hsz. rewrite zlen_nil in Hsz.
    by replace (zlen preC <? size + 18) with false by lia.
  - cbn [fst snd] in Hcp. cbn [map fst snd foldM]. unfold enc_recs in *. cbn [map concat] in *.
    fold (enc_recs (map fst l)) in *. fold (enc_recs (map snd l)) in *.
    rewrite <- !app_assoc. pose proof Hcp as (Hc & Hp & _). cbn [fst] in Hsz.
    rewrite zlen_app, zlen_enc_rec in Hsz. pose proof (zlen_nonneg (enc_recs (map fst l))).
    pose proof (zlen_nonneg (r_data c)).
    destruct (rec_head preC c (enc_recs (map fst l) ++ restC) (zlen preC) eq_refl Hc) as (E1 & E2 & E3).
    set (bC := preC ++ enc_rec c ++ _) in *. set (bP := preP ++ enc_rec p ++ _).
    replace (update_step digit G bC bP size (zlen preC, zlen preP, w)) with
      (w ← apply_change w (c, p);
       Done (inl (zlen preC + 4 + zlen (r_data c) + 1, zlen preP + 4 + zlen (r_data p) + 1, w))
         : Res (upd_state + W)).
    2: { unfold update_step. replace (zlen preC <? size + 18) with true by lia.
         rewrite E1, bind_Done, E2, bind_Done, E3, bind_Done.
         unfold bC, bP. by rewrite UpdateOffsetData_at, !bind_assoc by done. }
    destruct (apply_change w (c, p)) as [w1| |]; cbn [mbind Res_bind]; [|done|done].
    specialize (IH (preC ++ enc_rec c) (preP ++ enc_rec p) w1 m).
    rewrite <- !app_assoc in IH. fold bC bP in IH. rewrite !zlen_app, !zlen_enc_rec in IH.
    rewrite <- IH by (lia || (cbn in Hm; lia)).
    f_equal. do 2 f_equal; lia.
Qed.

(** C15: (functional) A valid upload: when what the read of the current region
    delivers has the signature, a source byte that is not zero and a matching
    checksum, and the records in it describe the same fields as those the read
    of the previous region delivers, [InBandUpdateSmbios] applies exactly the
    fields whose data differ, in order, then writes the image back with its
    source byte cleared and resets the system. (The comment of the function
    lets only a source byte of 1 pass, the code any that is not zero.) *)
Theorem InBandUpdateSmbios_correct w l version source h6 hdrP restC restP :
  let recs := enc_recs (map fst l) in
  let cur source := SMB_sig ++ version ++ le_bytes 4 (zlen recs) ++ [sum8 recs; source] ++ h6 ++
    recs ++ restC in
  zlen version = 2 -> zlen h6 = 6 -> zlen hdrP = 18 -> zlen recs < 2 ^ 32 -> source <> 0 ->
  Forall (fun cp => same_field (fst cp) (snd cp)) l ->
  snd (SmcRomHoleReadRegion CURRENT_SMBIOS_REGION w) = cur source ->
  snd (SmcRomHoleReadRegion PREVIOUS_SMBIOS_REGION w) = hdrP ++ enc_recs (map snd l) ++ restP ->
  InBandUpdateSmbios digit G w =
    (w1 ← foldM apply_change l w;
     Done (IoWrite8_cf9 0x06 (snd (SmcRomHoleWriteRegion CURRENT_SMBIOS_REGION (cur 0) w1)))).
Proof using.
  intros recs cur Hv H6 HP Hr Hs Hl Hc Hp. unfold InBandUpdateSmbios.
  destruct (SmcRomHoleReadRegion PREVIOUS_SMBIOS_REGION w) as [sP bP]. cbn [snd] in Hp. subst bP.
  destruct (SmcRomHoleReadRegion CURRENT_SMBIOS_REGION w) as [sC bC]. cbn [snd] in Hc. subst bC. pose proof (zlen_nonneg recs).
  set (size4 := le_bytes 4 (zlen recs)) in *. assert (H4 : zlen size4 = 4) by done.
  assert (Hs4 : le_val size4 = zlen recs) by (apply le_val_4; unfold is_u32; lia).
  assert (HS : zlen SMB_sig = 4) by done. clearbody size4.
  assert (HL : length l = length (map fst l)) by (by rewrite length_map).
  assert (Hlen : (length l < S (Z.to_nat (zlen recs)))%nat).
  { enough (zlen l <= zlen recs) by (unfold zlen in *; lia). unfold recs, enc_recs. clear.
    induction l as [|[c p] l IH]; cbn [map concat fst]; [done|].
    rewrite zlen_app, zlen_cons, zlen_enc_rec. pose proof (zlen_nonneg (r_data c)). lia. }
  unfold cur, rd32.
  rd_as (@nil Z) SMB_sig (version ++ size4 ++ [sum8 recs; source] ++ h6 ++ recs ++ restC).
  rewrite bool_decide_eq_true_2 by done. cbn [negb].
  r8_as (SMB_sig ++ version ++ size4 ++ [sum8 recs]) source (h6 ++ recs ++ restC).
  replace (source =? 0) with false by lia. rewrite bind_assoc.
  rd_as (SMB_sig ++ version) size4 ([sum8 recs; source] ++ h6 ++ recs ++ restC).
  rewrite bind_Done, Hs4.
  rd_as (SMB_sig ++ version ++ size4 ++ [sum8 recs; source] ++ h6) recs restC.
  r8_as (SMB_sig ++ version ++ size4) (sum8 recs) ([source] ++ h6 ++ recs ++ restC).
  rewrite Z.eqb_refl. cbn [negb].
  pose proof (update_loop l (SMB_sig ++ version ++ size4 ++ [sum8 recs; source] ++ h6) hdrP restC restP w
    (S (Z.to_nat (zlen recs))) (zlen recs) Hl) as E.
  fold recs in E. rewrite HP in E.
  replace (zlen (SMB_sig ++ version ++ size4 ++ [sum8 recs; source] ++ h6)) with 18 in E by zl.
  rewrite <- !app_assoc in E. rewrite E by (done || lia). clear E.
  destruct (foldM apply_change l w) as [w1| |]; cbn [mbind Res_bind]; [|done|done].
  unfold wr8. change [u8 0] with [0].
  wr_as (SMB_sig ++ version ++ size4 ++ [sum8 recs]) [source] (h6 ++ recs ++ restC).
  rewrite <- !app_assoc. cbn [app].
  by destruct (SmcRomHoleWriteRegion _ _ _).
Qed.
End whole.

Definition demo_cur : dmi_rec := mkRec 1 0x1234 7 [0x41; 0x42].
Definition demo_prev : dmi_rec := mkRec 1 0x1234 7 [0x58].
Definition demo_same : dmi_rec := mkRec 3 2 5 [0x11].
Definition demo_pairs : list (dmi_rec * dmi_rec) := [(demo_cur, demo_prev); (demo_same, demo_same)].

Definition demo_region (source : Z) : list Z :=
  SMB_sig ++ [1; 0] ++ le_bytes 4 (zlen (enc_recs (map fst demo_pairs))) ++
  [sum8 (enc_recs (map fst demo_pairs)); source] ++ [0; 0; 0; 0; 0; 0] ++
  enc_recs (map fst demo_pairs) ++ [0xff].

Definition demo_upload : SimpleFw :=
  mkFw (<[(DmiArrayVar, demo_guid) := (7, dmi_array [0; 0; 0; 0] demo_es (replicate 1265 0))]> ∅)
    (<[CURRENT_SMBIOS_REGION := demo_region 1]>
     (<[PREVIOUS_SMBIOS_REGION :=
          replicate 18 0 ++ enc_recs (map snd demo_pairs) ++ [0xff; 0xff]]> ∅)) [].

Lemma demo_rec_ok : rec_ok demo_cur /\ rec_ok demo_prev /\ rec_ok demo_same.
Proof.
  split_and!; split; try (split; discriminate || reflexivity);
    try (split; [repeat constructor; discriminate|reflexivity]); reflexivity.
Qed.

Lemma InBandUpdateSmbios_correct_witness :
  exists w', InBandUpdateSmbios hexdigit demo_guid demo_upload = Done w' /\
    var w' (DmiVarName hexdigit 1 0x1234 7) demo_guid = Some (dmi_attr, [0x41; 0x42; 0]) /\
    rom w' CURRENT_SMBIOS_REGION = demo_region 0 /\ resets w' = [6].
Proof.
  eexists. split.
  - rewrite (InBandUpdateSmbios_correct hexdigit demo_guid demo_upload demo_pairs [1; 0] 1 [0; 0; 0; 0; 0; 0]
      (replicate 18 0) [0xff] [0xff; 0xff]).
    + vm_compute. reflexivity.
    + reflexivity.
    + reflexivity.
    + reflexivity.
    + reflexivity.
    + discriminate.
    + destruct demo_rec_ok as (H1 & H2 & H3).
      constructor; [split; [exact H1|split; [exact H2|repeat split]]|].
      constructor; [split; [exact H3|split; [exact H3|repeat split]]|constructor].
    + reflexivity.
    + reflexivity.
  - split; [|split]; vm_compute; reflexivity.
Defined.

(** An image that is not marked as an upload: no signature, or source byte
    zero, as [CombineSmbios] and the update itself leave it. *)
Definition not_uploaded (img : list Z) : Prop :=
  4 <= zlen img /\ take 4 img <> SMB_sig \/ 4 <= zlen img /\ img !! 11%nat = Some 0.

Lemma InBandUpdateSmbios_idle {W} `{Firmware W} digit G (w : W) :
  regions_readable -> not_uploaded (rom w CURRENT_SMBIOS_REGION) -> InBandUpdateSmbios digit G w = Done w.
Proof.
  intros Hws Hs. unfold InBandUpdateSmbios. rewrite !read_region by done.
  assert (Hl : 4 <= zlen (rom w CURRENT_SMBIOS_REGION)) by (destruct Hs; tauto).
  rewrite (proj2 (rdn_Done _ 0 4 _)) by (split_and!; [done|done|lia|reflexivity]).
  rewrite bind_Done. case_bool_decide as Hsig; [|done]. cbn [negb].
  destruct Hs as [[_ []]|[_ Hz]]; [done|].
  replace (rd8 (rom w CURRENT_SMBIOS_REGION) 11) with (Done 0 : Res Z); [done|].
  symmetry. apply arr_get_lookup. by split.
Qed.

(** an upload that is not marked as one changes nothing: without
    the signature, with a zero source byte, or with a sum that does not match
    the data, [InBandUpdateSmbios] leaves variables, ROM hole and reset port
    alone (when the regions can be read). *)
Theorem InBandUpdateSmbios_rejects {W} `{Firmware W} digit G (w : W) sig version size checksum source h6 data rest :
  regions_readable ->
  zlen sig = 4 -> zlen version = 2 -> zlen h6 = 6 -> zlen data = size -> is_u32 size ->
  rom w CURRENT_SMBIOS_REGION =
    sig ++ version ++ le_bytes 4 size ++ [checksum; source] ++ h6 ++ data ++ rest ->
  sig <> SMB_sig \/ source = 0 \/ sum8 data <> checksum ->
  InBandUpdateSmbios digit G w = Done w.
Proof.
  intros Hws Hs Hv H6 Hd Hsz Hrom Hbad. unfold InBandUpdateSmbios.
  rewrite !read_region, Hrom by done.
  pose proof (le_val_4 size Hsz) as Hv4. pose proof (zlen_le_bytes 4 size) as Hl4. unfold is_u32 in Hsz.
  revert Hv4 Hl4. generalize (le_bytes 4 size). intros size4 Hs4 H4. unfold rd32.
  rd_as (@nil Z) sig (version ++ size4 ++ [checksum; source] ++ h6 ++ data ++ rest).
  case_bool_decide as Esig; cbn [negb]; [|done].
  r8_as (sig ++ version ++ size4 ++ [checksum]) source (h6 ++ data ++ rest).
  destruct (Z.eqb_spec source 0) as [E|E]; [done|]. rewrite bind_assoc.
  rd_as (sig ++ version) size4 ([checksum; source] ++ h6 ++ data ++ rest).
  rewrite bind_Done, Hs4.
  rd_as (sig ++ version ++ size4 ++ [checksum; source] ++ h6) data rest.
  r8_as (sig ++ version ++ size4) checksum ([source] ++ h6 ++ data ++ rest).
  destruct (Z.eqb_spec (sum8 data) checksum) as [E2|E2]; [|done].
  destruct Hbad as [?|[?|?]]; done.
Qed.

Lemma InBandUpdateSmbios_rejects_witness :
  InBandUpdateSmbios hexdigit demo_guid
    (mkFw ∅ (<[CURRENT_SMBIOS_REGION := SMB_sig ++ [1; 0] ++ le_bytes 4 2 ++ [9; 1] ++ [0; 0; 0; 0; 0; 0] ++ [3; 4] ++ [0xff]]> ∅) [])
  = Done (mkFw ∅ (<[CURRENT_SMBIOS_REGION := SMB_sig ++ [1; 0] ++ le_bytes 4 2 ++ [9; 1] ++ [0; 0; 0; 0; 0; 0] ++ [3; 4] ++ [0xff]]> ∅) []).
Proof.
  apply (InBandUpdateSmbios_rejects hexdigit demo_guid _ SMB_sig [1; 0] 2 9 1 [0; 0; 0; 0; 0; 0] [3; 4] [0xff]).
  - apply SimpleFw_reads.
  - reflexivity.
  - reflexivity.
  - reflexivity.
  - reflexivity.
  - split; [discriminate|reflexivity].
  - reflexivity.
  - right. right. vm_compute. discriminate.
Defined.
