(* ===== verification/BiosCfg.v ===== *)
(** * BIOS configuration image

    Models [SmcInBand/SmcInBandBiosCfg.c]: [CombineBiosCfg] packs every UEFI
    variable behind a checksummed header, [InBandUpdateBiosCfg] takes such an
    image from the ROM hole and writes the listed platform variables back.
    The variable store, the ROM hole and the reset port are those of
    [Services]; the RAID setup driver and the platform hooks are
    parameters. *)

From S2P Require Import Prelude Services.

Definition sizeof_Cfg_Header : Z := 18.
Definition BIN_sig : list Z := [0x5f; 0x42; 0x49; 0x4e].

(** A variable as it is packed: name, GUID, data. *)
Record nv_var := mkNv { nv_name : list Z; nv_guid : list Z; nv_data : list Z }.

(** ** Packing *)

(** [UnicodeStrToAsciiStr]: the low byte of each character, and a NUL. *)
Definition to_ascii (n : list Z) : list Z := map u8 n ++ [0].

(** State: [TotalDataBuffer] and [TotalDataBufferPtr]. *)
Definition CombineVariable (VariableName VariableGuid : list Z) (VariableBuffer : list Z)
    (s : list Z * Z) : Res (list Z * Z) :=
  let '(b, TempPtr) := s in
  let VariableSize := zlen VariableBuffer in
  b ← wr8 b TempPtr (zlen VariableName);
  let TempPtr := TempPtr + 1 in
  b ← wrn b TempPtr (to_ascii VariableName);
  let TempPtr := TempPtr + u8 (zlen VariableName) in
  b ← wrn b TempPtr VariableGuid;
  let TempPtr := TempPtr + 16 in
  b ← wr16 b TempPtr VariableSize;
  let TempPtr := TempPtr + 2 in
  b ← wrn b TempPtr VariableBuffer;
  Done (b, TempPtr + VariableSize).

(** A C string: the characters before the first NUL. *)
Fixpoint c_cut (l : list Z) : list Z :=
  match l with [] => [] | c :: l => if c =? 0 then [] else c :: c_cut l end.

Lemma c_cut_no_nul l : no_nul l -> c_cut l = l.
Proof.
  induction 1 as [|c l Hc _ IH]; cbn; [done|]. replace (c =? 0) with false by lia. by rewrite IH.
Qed.

(** The RAID setup driver ([SmcLsiRaidOOB/SmcLsiRaidOOBSetup.c]), when its
    protocol is installed. *)
Record RaidDriver (W : Type) := mkRaid {
  SmcLsiSetupDriverGetNvData : W -> option nv_var * W;
  SmcLsiSetupDriverCollectData : list Z -> list Z -> list Z -> W -> EFI_STATUS * W;
  SmcLsiSetupDriverHandleDataStart : W -> W }.
Arguments SmcLsiSetupDriverGetNvData {W}.
Arguments SmcLsiSetupDriverCollectData {W}.
Arguments SmcLsiSetupDriverHandleDataStart {W}.

Section combine.
Context {W : Type} `{Firmware W}.

(** [GetNextVariableName]: buffer size, current name and GUID. *)
Context (GetNextVariableName : W -> Z -> list Z * list Z -> EFI_STATUS * (list Z * list Z)).
Context (mSmcLsiRaidOOBSetupDriver : option (RaidDriver W)) (BiosCfgVersion : Z).

(** [UpdateStdDefaults]: a walk over the NVAR records of the defaults that
    only looks at them. [pool] is what the allocated megabyte holds behind
    the data. *)
Definition StdDefaultsVar : list Z :=
  [0x53; 0x74; 0x64; 0x44; 0x65; 0x66; 0x61; 0x75; 0x6c; 0x74; 0x73].
Definition MAX_STDDEFAULTS_SIZE : Z := 0x100000.
Definition NVAR_sig : Z := 0x5241564e.

Definition nvar_step (b : list Z) (p : Z) : Res (Z + unit) :=
  signature ← rd32 b p;
  if negb (signature =? NVAR_sig) then Done (inr tt)
  else
    _ ← c_strlen b (p + 11);
    size ← rd16 b (p + 4);
    Done (inl (p + size)).

Definition UpdateStdDefaults (fuel : nat) (mStdDefGuid pool : list Z) (w : W) : Res EFI_STATUS :=
  let r := GetVariable StdDefaultsVar mStdDefGuid MAX_STDDEFAULTS_SIZE w in
  if EFI_ERROR (v_status r) then Done (v_status r)
  else
    _ ← loop fuel (nvar_step (v_data r ++ pool)) 0;
    Done EFI_SUCCESS.

(** One turn of the scan over all variables. A name longer than the buffer
    makes the loop ask again without end. *)
Definition scan_step (w : W) (s : (list Z * list Z) * (list Z * Z))
    : Res ((list Z * list Z) * (list Z * Z) + EFI_STATUS * (list Z * Z)) :=
  let '(cur, buf) := s in
  let '(Status, next) := GetNextVariableName w 512 cur in
  if decide (Status = EFI_BUFFER_TOO_SMALL) then Done (inl (cur, buf))
  else if EFI_ERROR Status then Done (inr (Status, buf))
  else
    let '(n, g) := next in
    let r := GetVariable n g 0x4000 w in
    if EFI_ERROR (v_status r) then Done (inl (next, buf))
    else buf ← CombineVariable n g (v_data r) buf; Done (inl (next, buf)).

Definition raid_step (drv : RaidDriver W) (s : W * (list Z * Z))
    : Res (W * (list Z * Z) + W * (list Z * Z)) :=
  let '(w, buf) := s in
  match SmcLsiSetupDriverGetNvData drv w with
  | (None, w) => Done (inr (w, buf))
  | (Some v, w) =>
      buf ← CombineVariable (nv_name v) (nv_guid v) (nv_data v) buf; Done (inl (w, buf))
  end.

Definition fill_cfg_header (b : list Z) (p : Z) : Res (list Z * Z) :=
  data ← rdn b sizeof_Cfg_Header (p - sizeof_Cfg_Header);
  b ← wrn b 0 (replicate (Z.to_nat sizeof_Cfg_Header) 0);
  b ← wrn b 0 BIN_sig;
  b ← wr16 b 4 BiosCfgVersion;
  b ← wr32 b 6 (p - sizeof_Cfg_Header);
  b ← wr8 b 10 (sum8 data);
  all ← rdn b 0 p;
  b ← wr8 b p (sum8 all);
  Done (b, p + 1).

(** [fuel] bounds the two scans. [VendorGuidI] is uninitialised at first:
    an empty name starts the enumeration whatever the GUID. The returned
    status is the one that ended the scan or, with a RAID driver, that of
    the allocation made for it. *)
Definition CombineBiosCfg (fuel : nat) (guid0 mStdDefGuid pool : list Z)
    (TotalDataBuffer : list Z) (TotalDataBufferPtr : Z) (w : W)
    : Res (EFI_STATUS * (list Z * Z) * W) :=
  _ ← UpdateStdDefaults fuel mStdDefGuid pool w;
  let p := TotalDataBufferPtr + sizeof_Cfg_Header in
  '(Status, buf) ← loop fuel (scan_step w) (([], guid0), (TotalDataBuffer, p));
  '(Status, (w, buf)) ←
    match mSmcLsiRaidOOBSetupDriver with
    | None => Done (Status, (w, buf))
    | Some drv => r ← loop fuel (raid_step drv) (w, buf); Done (EFI_SUCCESS, r)
    end;
  let '(b, p) := buf in
  buf ← fill_cfg_header b p;
  Done (Status, buf, w).
End combine.

(** ** Writing variables back *)
Section update.
Context {W : Type} `{Firmware W}.

(** The platform's list of variables, without its [SMC_VAR_END] entry. *)
Context (PlatformVar : list (list Z * list Z)).
Context (Smc_UpdatePlatformVariable : list Z -> list Z -> list Z -> W -> W).
Context (Smc_OobLoadDefaultPreSetting : W -> W).
Context (mSmcLsiRaidOOBSetupDriver : option (RaidDriver W)).
Context (gEfiSmcInBandLoadDefaultGuid : list Z).

Definition nv_attr : Z := Z.lor EFI_VARIABLE_NON_VOLATILE EFI_VARIABLE_BOOTSERVICE_ACCESS.

(** The body of the [if] on a matching entry: [inr] is a break. *)
Definition update_entry (n g VariableBuffer : list Z) (w : W) : Res (EFI_STATUS * W * bool) :=
  let VariableSize := zlen VariableBuffer in
  let TempBuffer := replicate (Z.to_nat 0x2000) 0xff in
  let r := GetVariable n g VariableSize w in
  _ ← wrn TempBuffer 0 (v_data r);
  if EFI_ERROR (v_status r) then Done (v_status r, w, true)
  else if negb (v_size r =? VariableSize) then Done (EFI_BAD_BUFFER_SIZE, w, true)
  else
    d ← rdn VariableBuffer 0 (v_size r);
    let '(Status, w) := SetVariable n g nv_attr d w in
    if EFI_ERROR Status then
      let '(Status, w) := SetVariable n g (v_attr r) d w in
      Done (Status, w, EFI_ERROR Status)
    else Done (Status, w, false).

Fixpoint update_entries (l : list (list Z * list Z)) (VariableName VariableGuid VariableBuffer : list Z)
    (Status : EFI_STATUS) (w : W) : Res (EFI_STATUS * W) :=
  match l with
  | [] => Done (Status, w)
  | (n, g) :: l =>
      if bool_decide (n = VariableName) && bool_decide (g = VariableGuid) then
        '(Status, w, stop) ← update_entry n g VariableBuffer w;
        if stop : bool then Done (Status, w)
        else update_entries l VariableName VariableGuid VariableBuffer Status w
      else update_entries l VariableName VariableGuid VariableBuffer Status w
  end.

(** [VarCount] is a [UINT8]: a list of 256 entries never stops counting. *)
Definition UpdateVariable (VariableName VariableGuid VariableBuffer : list Z) (w : W)
    : Res (EFI_STATUS * W) :=
  if zlen PlatformVar <? 256
  then update_entries PlatformVar VariableName VariableGuid VariableBuffer EFI_NOT_FOUND w
  else NoFuel.

(** What one record of the image leads to. *)
Definition update_record (VariableName VariableGuid VariableBuffer : list Z) (w : W) : Res W :=
  let w := Smc_UpdatePlatformVariable VariableName VariableGuid VariableBuffer w in
  '(Status, w) ← UpdateVariable VariableName VariableGuid VariableBuffer w;
  match mSmcLsiRaidOOBSetupDriver with
  | Some drv =>
      if decide (Status = EFI_NOT_FOUND)
      then Done (snd (SmcLsiSetupDriverCollectData drv VariableName VariableGuid VariableBuffer w))
      else Done w
  | None => Done w
  end.

(** [CHAR16 VariableName[50]]. *)
Definition NAME_MAX : Z := 50.

Definition cfg_step (b : list Z) (TotalSize : Z) (s : Z * W) : Res (Z * W + W) :=
  let '(i, w) := s in
  if i <? TotalSize then
    VariableNameSize ← rd8 b i;
    let i := i + 1 in
    n ← rdn b i VariableNameSize;
    if NAME_MAX <=? VariableNameSize then Fault
    else
      let n := c_cut n in
      let i := i + VariableNameSize in
      g ← rdn b i 16;
      let i := i + 16 in
      VariableSize ← rd16 b i;
      let i := i + 2 in
      d ← rdn b i VariableSize;
      w ← update_record n g d w;
      Done (inl (i + VariableSize, w))
  else Done (inr w).

Definition UpdateBiosCfgToSystem (TotalDataBuffer : list Z) (w : W) : Res W :=
  FileSize ← rd32 TotalDataBuffer 6;
  let TotalSize := u32 (FileSize + sizeof_Cfg_Header) in
  w ← loop (S (Z.to_nat TotalSize)) (cfg_step TotalDataBuffer TotalSize) (sizeof_Cfg_Header, w);
  match mSmcLsiRaidOOBSetupDriver with
  | Some drv => Done (SmcLsiSetupDriverHandleDataStart drv w)
  | None => Done w
  end.

(** [L"SmcInBandLoadDefault"]. *)
Definition LoadDefaultVar : list Z :=
  [0x53; 0x6d; 0x63; 0x49; 0x6e; 0x42; 0x61; 0x6e; 0x64; 0x4c; 0x6f; 0x61; 0x64; 0x44; 0x65;
   0x66; 0x61; 0x75; 0x6c; 0x74].

Definition InBandUpdateBiosCfg (w : W) : Res (EFI_STATUS * W) :=
  let r := GetVariable LoadDefaultVar gEfiSmcInBandLoadDefaultGuid 1 w in
  let w := if EFI_ERROR (v_status r) then w
           else snd (SetVariable LoadDefaultVar gEfiSmcInBandLoadDefaultGuid nv_attr [] w) in
  let '(Status, TotalDataBuffer) := SmcRomHoleReadRegion INBAND_REGION w in
  if EFI_ERROR Status then Done (Status, w)
  else
    sig ← rdn TotalDataBuffer 0 4;
    if negb (bool_decide (sig = BIN_sig)) then Done (Status, w)
    else
      Flag ← rd8 TotalDataBuffer 11;
      if Z.land Flag 1 =? 0 then Done (Status, w)
      else
        '(Status, w) ←
          (if negb (Z.land Flag 2 =? 0) then
             let '(Status, w) :=
               SetVariable LoadDefaultVar gEfiSmcInBandLoadDefaultGuid nv_attr [1] w in
             Done (Status, Smc_OobLoadDefaultPreSetting w)
           else w ← UpdateBiosCfgToSystem TotalDataBuffer w; Done (Status, w));
        let blank := replicate (length TotalDataBuffer) 0xff in
        let '(_, w) := SmcRomHoleWriteRegion INBAND_REGION blank w in
        Done (Status, IoWrite8_cf9 0x0E w).
End update.

(** ** The format *)
Definition enc_nv (v : nv_var) : list Z :=
  [zlen (nv_name v)] ++ map u8 (nv_name v) ++ nv_guid v ++ le_bytes 2 (zlen (nv_data v)) ++ nv_data v.

Definition enc_nvs (l : list nv_var) : list Z := concat (map enc_nv l).

Record nv_ok (v : nv_var) : Prop := {
  nv_name_len : zlen (nv_name v) < 256; nv_guid_len : zlen (nv_guid v) = 16;
  nv_data_len : zlen (nv_data v) < 2 ^ 16 }.

Definition cfg_header (Version : Z) (payload : list Z) : list Z :=
  BIN_sig ++ le_bytes 2 Version ++ le_bytes 4 (zlen payload) ++ [sum8 payload] ++ replicate 7 0.

Lemma zlen_enc_nv v :
  zlen (enc_nv v) = 3 + zlen (nv_name v) + zlen (nv_guid v) + zlen (nv_data v).
Proof. unfold enc_nv. zl. Qed.
#[export] Hint Rewrite zlen_enc_nv : zlen.

Lemma CombineVariable_appends v b c :
  nv_ok v -> c `prefix_of` b -> zlen c + zlen (enc_nv v) <= zlen b ->
  exists b', CombineVariable (nv_name v) (nv_guid v) (nv_data v) (b, zlen c) =
      Done (b', zlen (c ++ enc_nv v)) /\
    (c ++ enc_nv v) `prefix_of` b' /\ zlen b' = zlen b.
Proof.
  intros [Hn Hg Hd] Hc Hl. rewrite zlen_enc_nv in Hl. set (an := map u8 (nv_name v)).
  assert (Han : zlen an = zlen (nv_name v)) by (unfold an; zl).
  pose proof (zlen_nonneg (nv_name v)). pose proof (zlen_nonneg (nv_data v)).
  unfold CombineVariable, wr8, wr16, to_ascii. fold an. cbv zeta.
  rewrite !(u8_small (zlen (nv_name v))) by (unfold is_u8; lia).
  set (l1 := [zlen (nv_name v)]). assert (Hl1 : zlen l1 = 1) by done.
  set (l2 := le_bytes 2 (zlen (nv_data v))). assert (Hl2 : zlen l2 = 2) by done.
  assert (HE : c ++ enc_nv v = (((c ++ l1) ++ an) ++ nv_guid v) ++ l2 ++ nv_data v)
    by (unfold enc_nv; fold an l2; subst l1; app_eq).
  destruct (wrn_append b c l1 Hc) as (b1 & E1 & P1 & L1); [lia|].
  rewrite E1, bind_Done. replace (zlen c + 1) with (zlen (c ++ l1)) by zl.
  destruct (wrn_append b1 (c ++ l1) (an ++ [0]) P1) as (b2 & E2 & P2 & L2); [zl|].
  rewrite E2, bind_Done. replace (zlen (c ++ l1) + _) with (zlen ((c ++ l1) ++ an)) by zl.
  assert (P2' : ((c ++ l1) ++ an) `prefix_of` b2)
    by (etrans; [|exact P2]; rewrite app_assoc; by apply prefix_app_r).
  destruct (wrn_append b2 _ (nv_guid v) P2') as (b3 & E3 & P3 & L3); [zl|].
  rewrite E3, bind_Done. replace (zlen _ + 16) with (zlen (((c ++ l1) ++ an) ++ nv_guid v)) by zl.
  destruct (wrn_append b3 _ l2 P3) as (b4 & E4 & P4 & L4); [zl|].
  rewrite E4, bind_Done. replace (zlen _ + 2) with (zlen ((((c ++ l1) ++ an) ++ nv_guid v) ++ l2)) by zl.
  destruct (wrn_append b4 _ (nv_data v) P4) as (b5 & E5 & P5 & L5); [zl|].
  rewrite E5, bind_Done. exists b5. rewrite HE, app_assoc. split_and!; [do 2 f_equal; zl|done|lia].
Qed.

(** ** The scan over the variables *)
Section combine_correct.
Context {W : Type} `{Firmware W}.
Context (GetNextVariableName : W -> Z -> list Z * list Z -> EFI_STATUS * (list Z * list Z)).

(** [chain w cur l]: the enumeration from [cur] on yields the variables [l]
    and ends with an error that is not [EFI_BUFFER_TOO_SMALL]. *)
Fixpoint chain (w : W) (cur : list Z * list Z) (l : list (list Z * list Z)) : Prop :=
  match l with
  | [] => let st := fst (GetNextVariableName w 512 cur) in
          st <> EFI_SUCCESS /\ st <> EFI_BUFFER_TOO_SMALL
  | ng :: l => GetNextVariableName w 512 cur = (EFI_SUCCESS, ng) /\ chain w ng l
  end.

(** What the image holds of a name: its value, when it has one of at most
    [0x4000] bytes. *)
Definition image_of (w : W) (ng : list Z * list Z) : list nv_var :=
  match var w (fst ng) (snd ng) with
  | Some (_, d) => if zlen d <=? 0x4000 then [mkNv (fst ng) (snd ng) d] else []
  | None => []
  end.

Definition image (w : W) (l : list (list Z * list Z)) : list nv_var := concat (map (image_of w) l).

Lemma enc_nvs_app l k : enc_nvs (l ++ k) = enc_nvs l ++ enc_nvs k.
Proof using. unfold enc_nvs. by rewrite map_app, concat_app. Qed.

(** The last element of a list with a first one. *)
Lemma last_start {A} (x cur : A) l : List.last (x :: l) cur = List.last l x.
Proof using. revert x cur. induction l as [|y l IH]; intros x cur; [done|]. exact (eq_trans (IH y cur) (eq_sym (IH y x))). Qed.

Lemma scan_loop w cur l b c k :
  chain w cur l -> Forall nv_ok (image w l) ->
  c `prefix_of` b -> zlen c + zlen (enc_nvs (image w l)) <= zlen b ->
  (length l < k)%nat ->
  exists st b', loop k (scan_step GetNextVariableName w) (cur, (b, zlen c)) =
      Done (st, (b', zlen (c ++ enc_nvs (image w l)))) /\
    st = fst (GetNextVariableName w 512 (List.last l cur)) /\ EFI_ERROR st = true /\
    (c ++ enc_nvs (image w l)) `prefix_of` b' /\ zlen b' = zlen b.
Proof using.
  revert cur b c k. induction l as [|[n g] l IH]; intros cur b c k Hch Hok Hc Hl Hk;
    (destruct k as [|k]; [cbn in Hk; lia|]); rewrite loop_S; cbn [scan_step chain] in *.
  - cbn [List.last]. destruct (GetNextVariableName w 512 cur) as [st ng]. cbn [fst] in Hch.
    destruct Hch as [Hs Hb]. rewrite decide_False by done.
    assert (He : EFI_ERROR st = true) by (by destruct st). rewrite He, bind_Done. exists st, b.
    cbn. by rewrite app_nil_r.
  - destruct Hch as [-> Hch]. rewrite decide_False by done. cbn [EFI_ERROR].
    rewrite GetVariable_law. unfold image in *. cbn [map concat] in *.
    apply Forall_app in Hok as [Hok1 Hok]. rewrite enc_nvs_app, zlen_app in Hl.
    rewrite enc_nvs_app. set (rest := enc_nvs (concat (map (image_of w) l))) in *.
    pose proof (zlen_nonneg rest). remember (image_of w (n, g)) as im eqn:Eim.
    unfold image_of in Eim. cbn [fst snd] in Eim.
    assert (Hlk : (length l < k)%nat) by (cbn in Hk; lia).
    assert (Hskip : im = [] -> exists st b', loop k (scan_step GetNextVariableName w) ((n, g), (b, zlen c)) =
        Done (st, (b', zlen (c ++ enc_nvs im ++ rest))) /\
        st = fst (GetNextVariableName w 512 (List.last ((n, g) :: l) cur)) /\ EFI_ERROR st = true /\
        (c ++ enc_nvs im ++ rest) `prefix_of` b' /\ zlen b' = zlen b).
    { intros ->. cbn [enc_nvs map concat app] in *. rewrite last_start. apply IH; done. }
    destruct (var w n g) as [[a d]|]; cbn [get_result]; [|by apply Hskip].
    destruct (zlen d <=? 0x4000); cbn [v_status v_data EFI_ERROR]; [|by apply Hskip].
    subst im. apply Forall_cons in Hok1 as [Hok1 _].
    replace (enc_nvs [mkNv n g d]) with (enc_nv (mkNv n g d)) in *
      by (unfold enc_nvs; cbn [map concat]; by rewrite app_nil_r).
    destruct (CombineVariable_appends (mkNv n g d) b c Hok1 Hc) as (b1 & E1 & P1 & L1); [lia|].
    cbn [nv_name nv_guid nv_data] in E1. rewrite E1, !bind_Done, app_assoc.
    destruct (IH (n, g) b1 (c ++ enc_nv (mkNv n g d)) k) as (st & b2 & E2 & N2 & S2 & P2 & L2);
      [done..|rewrite zlen_app, L1; lia|done|].
    exists st, b2. rewrite last_start. split_and!; [done|done|done|done|congruence].
Qed.

(** [raid_chain drv w l w']: the RAID driver hands out the variables [l] one
    by one, then an error; its calls take the system from [w] to [w']. *)
Fixpoint raid_chain (drv : RaidDriver W) (w : W) (l : list nv_var) (w' : W) : Prop :=
  match l with
  | [] => SmcLsiSetupDriverGetNvData drv w = (None, w')
  | v :: l => exists w1, SmcLsiSetupDriverGetNvData drv w = (Some v, w1) /\ raid_chain drv w1 l w'
  end.

Definition raid_yields (drv : option (RaidDriver W)) (w : W) (l : list nv_var) (w' : W) : Prop :=
  match drv with None => l = [] /\ w' = w | Some drv => raid_chain drv w l w' end.

Lemma raid_loop drv w l w' b c k :
  raid_chain drv w l w' -> Forall nv_ok l -> c `prefix_of` b ->
  zlen c + zlen (enc_nvs l) <= zlen b -> (length l < k)%nat ->
  exists b', loop k (raid_step drv) (w, (b, zlen c)) = Done (w', (b', zlen (c ++ enc_nvs l))) /\
    (c ++ enc_nvs l) `prefix_of` b' /\ zlen b' = zlen b.
Proof using.
  revert w b c k. induction l as [|v l IH]; intros w b c k Hch Hok Hc Hl Hk;
    (destruct k as [|k]; [cbn in Hk; lia|]); rewrite loop_S; cbn [raid_step raid_chain] in *.
  - rewrite Hch, bind_Done. exists b. by rewrite app_nil_r.
  - destruct Hch as (w1 & -> & Hch). apply Forall_cons in Hok as [Hv Hok].
    unfold enc_nvs in *. cbn [map concat] in *. rewrite zlen_app in Hl.
    pose proof (zlen_nonneg (concat (map enc_nv l))).
    destruct (CombineVariable_appends v b c Hv Hc) as (b1 & E1 & P1 & L1); [lia|].
    rewrite E1, !bind_Done, app_assoc.
    destruct (IH w1 b1 (c ++ enc_nv v) k) as (b2 & E2 & P2 & L2);
      [done..|rewrite zlen_app, L1; lia|cbn in Hk; lia|].
    exists b2. split_and!; [done|done|congruence].
Qed.

Lemma cfg_header_filled old payload x rest Version :
  zlen old = 18 ->
  fill_cfg_header Version (old ++ payload ++ [x] ++ rest) (18 + zlen payload) =
  Done (cfg_header Version payload ++ payload ++ [sum8 (cfg_header Version payload ++ payload)] ++ rest,
        19 + zlen payload).
Proof using.
  intros Ho. unfold fill_cfg_header, wr8, wr16, wr32, cfg_header.
  change sizeof_Cfg_Header with 18.
  replace (18 + zlen payload - 18) with (zlen payload) by lia.
  assert (HS : zlen BIN_sig = 4) by done.
  generalize (zlen_le_bytes 2 Version) (zlen_le_bytes 4 (zlen payload)).
  generalize (le_bytes 2 Version) (le_bytes 4 (zlen payload)). intros v f Hv Hf.
  rd_as old payload ([x] ++ rest).
  rewrite u8_small by apply sum8_range.
  change (replicate (Z.to_nat 18) 0) with
    (replicate 4 0 ++ replicate 2 0 ++ replicate 4 0 ++ [0] ++ replicate 7 0).
  wr_as (@nil Z) old (payload ++ [x] ++ rest).
  wr_as (@nil Z) (replicate 4 0)
    (replicate 2 0 ++ replicate 4 0 ++ [0] ++ replicate 7 0 ++ payload ++ [x] ++ rest).
  wr_as BIN_sig (replicate 2 0) (replicate 4 0 ++ [0] ++ replicate 7 0 ++ payload ++ [x] ++ rest).
  wr_as (BIN_sig ++ v) (replicate 4 0) ([0] ++ replicate 7 0 ++ payload ++ [x] ++ rest).
  wr_as (BIN_sig ++ v ++ f) [0] (replicate 7 0 ++ payload ++ [x] ++ rest).
  set (h := BIN_sig ++ v ++ f ++ [sum8 payload] ++ replicate 7 0).
  assert (Hh : zlen h = 18) by (unfold h; zl).
  rd_as (@nil Z) (h ++ payload) ([x] ++ rest).
  wr_as (h ++ payload) [x] rest.
  rewrite u8_small by apply sum8_range. rewrite <- app_assoc. do 2 f_equal. lia.
Qed.

(** *** The buffer keeps its type *)

(** Only bytes are packed. *)
Definition var_bytes (w : W) : Prop := forall n g a d, var w n g = Some (a, d) -> bytes_ok d.
Definition guid_bytes : Prop := forall w size cur st ng,
  GetNextVariableName w size cur = (st, ng) -> EFI_ERROR st = false -> bytes_ok (snd ng).
Definition raid_bytes (drv : RaidDriver W) : Prop := forall w v w',
  SmcLsiSetupDriverGetNvData drv w = (Some v, w') -> bytes_ok (nv_guid v) /\ bytes_ok (nv_data v).

Lemma to_ascii_bytes_ok n : bytes_ok (to_ascii n).
Proof using. apply Forall_app. split; [apply map_u8_bytes_ok|repeat constructor; discriminate]. Qed.

(** The state of both scans: the buffer, and a position behind the header. *)
Definition cfg_state (k : Z) (buf : list Z * Z) : Prop := area k (fst buf) /\ sizeof_Cfg_Header <= snd buf.

Lemma CombineVariable_keeps k n g d buf buf' :
  CombineVariable n g d buf = Done buf' -> bytes_ok g -> bytes_ok d ->
  cfg_state k buf -> cfg_state k buf'.
Proof using.
  destruct buf as [b p], buf' as [b' p'].
  unfold CombineVariable. intros (b1 & E1 & (b2 & E2 & (b3 & E3 & (b4 & E4 & (b5 & E5 & [= <- <-])
    %bind_inv)%bind_inv)%bind_inv)%bind_inv)%bind_inv Hg Hd [Hb Hp]. split; cbn [fst snd] in *.
  - eapply wrn_area; [exact E5|done|]. eapply wr16_area; [exact E4|].
    eapply wrn_area; [exact E3|done|]. eapply wrn_area; [exact E2|apply to_ascii_bytes_ok|].
    eapply wr8_area; [exact E1|done].
  - pose proof (u8_range (zlen n)) as [? _]. pose proof (zlen_nonneg d). lia.
Qed.

Lemma scan_keeps k fuel w s st buf :
  var_bytes w -> guid_bytes -> cfg_state k (snd s) ->
  loop fuel (scan_step GetNextVariableName w) s = Done (st, buf) -> cfg_state k buf.
Proof using.
  intros Hw Hg. apply (loop_inv _ (fun s => cfg_state k (snd s)) (fun r => cfg_state k (snd r))).
  - intros [cur buf1] [cur2 buf2] Hb. unfold scan_step.
    destruct (GetNextVariableName w 512 cur) as [st1 [n g]] eqn:E.
    destruct (decide _); [by intros [= <- <-]|].
    destruct (EFI_ERROR st1) eqn:Est; [done|]. pose proof (Hg _ _ _ _ _ E Est) as Hgb. rewrite GetVariable_law.
    destruct (EFI_ERROR (v_status _)); [by intros [= <- <-]|].
    intros (b' & E2 & [= <- <-])%bind_inv. eapply CombineVariable_keeps; [exact E2|exact Hgb| |exact Hb].
    destruct (var w n g) as [[a d]|] eqn:Ev; cbn; [|constructor].
    destruct (_ <=? _); cbn; [by eapply Hw|constructor].
  - intros [cur buf1] [st2 buf2] Hb. unfold scan_step.
    destruct (GetNextVariableName w 512 cur) as [st1 [n g]]. destruct (decide _); [done|].
    destruct (EFI_ERROR st1); [by intros [= <- <-]|]. destruct (EFI_ERROR _); [done|].
    by intros (? & _ & [=])%bind_inv.
Qed.

Lemma raid_keeps k fuel drv s r :
  raid_bytes drv -> cfg_state k (snd s) ->
  loop fuel (raid_step drv) s = Done r -> cfg_state k (snd r).
Proof using.
  intros Hr. apply (loop_inv _ (fun s => cfg_state k (snd s)) (fun r => cfg_state k (snd r))).
  - intros [w1 buf1] [w2 buf2] Hb. unfold raid_step.
    destruct (SmcLsiSetupDriverGetNvData drv w1) as [[v|] w3] eqn:E; [|done]. apply Hr in E as [Hg Hd].
    intros (b2 & E2 & [= <- <-])%bind_inv. by eapply CombineVariable_keeps.
  - intros [w1 buf1] [w2 buf2] Hb. unfold raid_step.
    destruct (SmcLsiSetupDriverGetNvData drv w1) as [[v|] w3]; [|by intros [= _ <-]].
    by intros (? & _ & [=])%bind_inv.
Qed.

Lemma fill_cfg_header_size k Version buf b' m :
  fill_cfg_header Version (fst buf) (snd buf) = Done (b', m) -> cfg_state k buf -> k < 2 ^ 32 ->
  area k b' /\ m <= k /\ m = le_val (take 4 (drop 6 b')) + sizeof_Cfg_Header + 1.
Proof using.
  destruct buf as [b p]. unfold fill_cfg_header, cfg_state. cbn [fst snd].
  intros (data & _ & (b1 & E2 & (b2 & E3 & (b3 & E4 & (b4 & E5 & (b5 & E6 &
    (all & _ & (b6 & E8 & [= <- <-])%bind_inv)%bind_inv)%bind_inv)%bind_inv)%bind_inv)%bind_inv)%bind_inv)%bind_inv.
  intros [Hb Hp] Hk. assert (Hb5 : area k b5).
  { eapply wr8_area; [exact E6|]. eapply wr32_area; [exact E5|].
    eapply wr16_area; [exact E4|]. eapply wrn_area; [exact E3|by repeat constructor|].
    eapply wrn_area; [exact E2|by apply Forall_replicate|done]. }
  unfold sizeof_Cfg_Header in *. pose proof (proj2 Hb5) as L5.
  pose proof (proj1 (wrn_Done _ _ _ _) E8) as (_ & L & _). change (zlen [u8 (sum8 all)]) with 1 in L.
  assert (R : rdn b4 6 4 = Done (le_bytes 4 (p - 18))) by (by apply (rdn_wrn_same _ _ _ _ E5)).
  rewrite <- (rdn_wrn_other _ _ _ _ _ _ E6), <- (rdn_wrn_other _ _ _ _ _ _ E8) in R by lia.
  apply rdn_Done in R as (_ & _ & _ & R). change (Z.to_nat 4) with 4%nat in R.
  change (Z.to_nat 6) with 6%nat in R. rewrite <- R, le_val_4 by (unfold is_u32; lia).
  split; [by eapply wr8_area|]. lia.
Qed.

(** Whatever it packs, [CombineBiosCfg] returns the buffer with as many bytes,
    and a size that the header states. *)
Lemma CombineBiosCfg_size k fuel guid0 dguid pool drv Version b w st b' m w' :
  CombineBiosCfg GetNextVariableName drv Version fuel guid0 dguid pool b 0 w = Done (st, (b', m), w') ->
  area k b -> k < 2 ^ 32 -> var_bytes w -> guid_bytes ->
  match drv with Some d => raid_bytes d | None => True end ->
  area k b' /\ m <= k /\ m = le_val (take 4 (drop 6 b')) + sizeof_Cfg_Header + 1.
Proof using.
  unfold CombineBiosCfg.
  intros (sd & _ & ([st1 buf1] & E1 & ([st2 [w2 buf2]] & E2 & K)%bind_inv)%bind_inv)%bind_inv Hb Hk Hv Hg Hd.
  apply (scan_keeps k) in E1; [|done|done|by split].
  assert (H2 : cfg_state k buf2).
  { destruct drv as [drv|]; [|by injection E2 as _ _ <-].
    apply bind_inv in E2 as (r & E2 & [= _ ->]). by apply (raid_keeps k) in E2. }
  destruct buf2 as [b2 p2]. apply bind_inv in K as ([b3 m3] & E3 & [= _ <- <- _]).
  by apply (fill_cfg_header_size k Version (b2, p2)).
Qed.

Lemma CombineBiosCfg_spec w l drv lr w' guid0 dguid pool Version fuel b sd :
  chain w ([], guid0) l -> Forall nv_ok (image w l) -> (length l < fuel)%nat ->
  raid_yields drv w lr w' -> Forall nv_ok lr -> (length lr < fuel)%nat ->
  UpdateStdDefaults fuel dguid pool w = Done sd ->
  let payload := enc_nvs (image w l ++ lr) in
  let hdr := cfg_header Version payload in
  19 + zlen payload <= zlen b ->
  exists st rest,
    CombineBiosCfg GetNextVariableName drv Version fuel guid0 dguid pool b 0 w =
      Done (st, (hdr ++ payload ++ [sum8 (hdr ++ payload)] ++ rest, 19 + zlen payload), w') /\
    st = (if drv is Some _ then EFI_SUCCESS else fst (GetNextVariableName w 512 (List.last l ([], guid0)))) /\
    zlen (hdr ++ payload ++ [sum8 (hdr ++ payload)] ++ rest) = zlen b.
Proof using.
  intros Hch Hok Hf Hr Hokr Hfr Hst payload hdr Hl. unfold CombineBiosCfg. rewrite Hst, bind_Done.
  assert (Ep : payload = enc_nvs (image w l) ++ enc_nvs lr) by apply enc_nvs_app.
  set (c := take 18 b). pose proof (zlen_nonneg payload). pose proof (zlen_nonneg (enc_nvs lr)).
  assert (Hlp : zlen payload = zlen (enc_nvs (image w l)) + zlen (enc_nvs lr)) by (rewrite Ep; zl).
  assert (Hc : zlen c = 18) by (unfold c; zl).
  destruct (scan_loop w ([], guid0) l b c fuel) as (st & b1 & E1 & N1 & _ & P1 & L1); try done.
  { exists (drop 18 b). symmetry. apply take_drop. }
  { lia. }
  change (0 + sizeof_Cfg_Header) with 18. rewrite Hc in E1. rewrite E1, bind_Done. clear E1.
  set (c1 := c ++ enc_nvs (image w l)) in *.
  assert (Hc1 : zlen c1 = 18 + zlen (enc_nvs (image w l))) by (unfold c1; zl).
  assert (Hraid : exists b2, match drv with
      | None => Done (st, (w, (b1, zlen c1)))
      | Some drv => r ← loop fuel (raid_step drv) (w, (b1, zlen c1)); Done (EFI_SUCCESS, r)
      end = Done (if drv is Some _ then EFI_SUCCESS else st, (w', (b2, zlen (c ++ payload)))) /\
      (c ++ payload) `prefix_of` b2 /\ zlen b2 = zlen b).
  { rewrite Ep, app_assoc. fold c1. destruct drv as [drv|]; cbn [raid_yields] in Hr.
    - destruct (raid_loop drv w lr w' b1 c1 fuel) as (b2 & E2 & P2 & L2); [done..|lia|done|].
      exists b2. rewrite E2, bind_Done. split_and!; [done|done|lia].
    - destruct Hr as [-> ->]. exists b1. rewrite app_nil_r. done. }
  destruct Hraid as (b2 & -> & [r ->] & L2). rewrite bind_Done. rewrite zlen_app in L2.
  destruct r as [|x rest]; [exfalso; zl|].
  rewrite zlen_app, Hc, <- app_assoc. change (x :: rest) with ([x] ++ rest).
  rewrite cfg_header_filled, bind_Done by done. exists (if drv is Some _ then EFI_SUCCESS else st), rest.
  split_and!; [done|by destruct drv; rewrite ?N1|].
  assert (HS : zlen BIN_sig = 4) by done. unfold hdr, cfg_header. zl.
Qed.

End combine_correct.

(** ** Writing one variable back *)
Section update_correct.
Context {W : Type} `{Firmware W}.

Lemma update_entries_skip P n g d st w :
  (n, g) ∉ P -> update_entries P n g d st w = Done (st, w).
Proof.
  revert st. induction P as [|[n' g'] P IH]; intros st Hn; cbn [update_entries]; [done|].
  apply not_elem_of_cons in Hn as [Hne Hn].
  destruct (bool_decide_reflect (n' = n)) as [->|]; cbn [andb]; [|by apply IH].
  destruct (bool_decide_reflect (g' = g)) as [->|]; [done|by apply IH].
Qed.

Lemma update_entries_at P1 P2 n g d st w :
  (n, g) ∉ P1 ->
  update_entries (P1 ++ (n, g) :: P2) n g d st w =
  ('(st', w', stop) ← update_entry n g d w;
   if stop : bool then Done (st', w') else update_entries P2 n g d st' w').
Proof.
  induction P1 as [|[n' g'] P1 IH]; intros Hn; cbn [app update_entries].
  - by rewrite !bool_decide_eq_true_2.
  - apply not_elem_of_cons in Hn as [Hne Hn].
    destruct (bool_decide_reflect (n' = n)) as [->|]; cbn [andb]; [|by apply IH].
    destruct (bool_decide_reflect (g' = g)) as [->|]; [done|by apply IH].
Qed.

(** Two tries at a variable, with two sets of attributes, touch nothing
    else. *)
Lemma set_retry n g d a w :
  exists st w' stop,
    (let '(Status, w) := SetVariable n g nv_attr d w in
     if EFI_ERROR Status then
       let '(Status, w) := SetVariable n g a d w in Done (Status, w, EFI_ERROR Status)
     else Done (Status, w, false)) = Done (st, w', stop) /\
    rom w' = rom w /\ resets w' = resets w /\
    (forall n' g', (n', g') <> (n, g) -> var w' n' g' = var w n' g') /\
    (st = EFI_SUCCESS -> exists a', var w' n g = stored a' d).
Proof.
  pose proof (SetVariable_same n g nv_attr d w) as Hv1.
  pose proof (SetVariable_other n g nv_attr d w) as Ho1.
  pose proof (SetVariable_rom n g nv_attr d w) as Hr1.
  pose proof (SetVariable_resets n g nv_attr d w) as Hs1.
  destruct (SetVariable n g nv_attr d w) as [st1 w1]. cbn [fst snd] in *.
  destruct (EFI_ERROR st1) eqn:Est.
  - pose proof (SetVariable_same n g a d w1) as Hv2.
    pose proof (SetVariable_other n g a d w1) as Ho2.
    pose proof (SetVariable_rom n g a d w1) as Hr2.
    pose proof (SetVariable_resets n g a d w1) as Hs2.
    destruct (SetVariable n g a d w1) as [st2 w2]. cbn [fst snd] in *.
    eexists st2, w2, _. split_and!; [done|congruence..| |].
    + intros n' g' Hne. by rewrite Ho2, Ho1.
    + intros ->. by exists a.
  - eexists st1, w1, _. split_and!; [done..|]. intros ->. by exists nv_attr.
Qed.

(** writing a variable back: a variable outside the
    platform list, or one whose stored size differs, stays as it is with an
    error status; a listed variable of the same size gets the new data, and
    nothing else changes. *)
Theorem UpdateVariable_correct P n g d w :
  NoDup P -> zlen P < 256 -> zlen d <= 0x2000 ->
  exists st w', UpdateVariable P n g d w = Done (st, w') /\
    rom w' = rom w /\ resets w' = resets w /\
    (forall n' g', (n', g') <> (n, g) -> var w' n' g' = var w n' g') /\
    ((n, g) ∉ P -> st = EFI_NOT_FOUND /\ w' = w) /\
    ((n, g) ∈ P -> match var w n g with
                   | None => st = EFI_NOT_FOUND /\ w' = w
                   | Some (a, old) =>
                       if zlen old =? zlen d
                       then st = EFI_SUCCESS -> exists a', var w' n g = stored a' d
                       else EFI_ERROR st = true /\ w' = w
                   end).
Proof.
  intros Hnd HP Hd. unfold UpdateVariable. replace (zlen P <? 256) with true by lia.
  destruct (decide ((n, g) ∈ P)) as [Hin|Hout].
  2: { exists EFI_NOT_FOUND, w. rewrite update_entries_skip by done.
       split_and!; try done. }
  apply list_elem_of_split in Hin as Hsp. destruct Hsp as (P1 & P2 & ->).
  apply NoDup_app in Hnd as (_ & Hd1 & Hnd2). apply NoDup_cons in Hnd2 as [Hn2 _].
  assert (Hn1 : (n, g) ∉ P1) by (intros Hi; eapply Hd1; [exact Hi|]; apply list_elem_of_here).
  rewrite (update_entries_at P1 P2 n g d _ w Hn1). unfold update_entry. rewrite GetVariable_law.
  assert (HT : forall x, zlen x <= 0x2000 -> exists y, wrn (replicate (Z.to_nat 0x2000) 255) 0 x = Done y).
  { intros x Hx. apply wrn_in; [lia|]. rewrite zlen_replicate. lia. }
  destruct (var w n g) as [[a old]|] eqn:Ev; cbn [get_result].
  2: { cbn [v_data v_status]. destruct (HT []) as [y ->]; [zl|]. rewrite !bind_Done.
       exists EFI_NOT_FOUND, w. by split_and!. }
  destruct (Z.leb_spec (zlen old) (zlen d)) as [Hle|Hgt]; cbn [v_data v_status v_size v_attr EFI_ERROR].
  2: { destruct (HT []) as [y ->]; [zl|]. rewrite !bind_Done.
       exists EFI_BUFFER_TOO_SMALL, w. replace (zlen old =? zlen d) with false by lia. by split_and!. }
  destruct (HT old) as [y ->]; [lia|]. rewrite !bind_Done.
  destruct (Z.eqb_spec (zlen old) (zlen d)) as [E|E]; cbn [negb].
  2: { rewrite bind_Done. exists EFI_BAD_BUFFER_SIZE, w. by split_and!. }
  rewrite E, (found_rdn d 0 d (zlen d)), bind_Done
    by (done || (apply found_split; exists [], []; by rewrite app_nil_r)).
  destruct (set_retry n g d a w) as (st & w' & stop & -> & Hrom & Hres & Hoth & Hset).
  rewrite bind_Done. exists st, w'. split.
  { destruct stop; [done|]. by apply update_entries_skip. }
  split_and!; [done..|]. intros _. exact Hset.
Qed.
End update_correct.

(** ** The image read back *)
Section image_correct.
Context {W : Type} `{Firmware W}.
Context (P : list (list Z * list Z)) (hook : list Z -> list Z -> list Z -> W -> W)
  (preset : W -> W) (raid : option (RaidDriver W)) (G : list Z).

(** A record the parser can take: a byte-valued name without NUL that fits
    [VariableName[50]]. *)
Record rd_ok (v : nv_var) : Prop := {
  rd_name : zlen (nv_name v) < NAME_MAX; rd_chars : Forall is_u8 (nv_name v);
  rd_nul : no_nul (nv_name v);
  rd_guid : zlen (nv_guid v) = 16; rd_data : zlen (nv_data v) < 2 ^ 16 }.

Definition apply_nv (w : W) (v : nv_var) : Res W :=
  update_record P hook raid (nv_name v) (nv_guid v) (nv_data v) w.

(** Writing variables leaves the flash alone. *)
Lemma update_entry_rom n g d w st w' b : update_entry n g d w = Done (st, w', b) -> rom w' = rom w.
Proof using.
  unfold update_entry. intros (? & _ & K)%bind_inv.
  destruct (EFI_ERROR _); [by injection K as _ <- _|]. destruct (negb _); [by injection K as _ <- _|].
  apply bind_inv in K as (d1 & _ & K).
  pose proof (SetVariable_rom n g nv_attr d1 w) as R1.
  destruct (SetVariable n g nv_attr d1 w) as [st1 w1]. cbn [snd] in R1.
  destruct (EFI_ERROR st1); [|by injection K as _ <- _].
  pose proof (SetVariable_rom n g (v_attr (GetVariable n g (zlen d) w)) d1 w1) as R2.
  destruct (SetVariable n g _ d1 w1) as [st2 w2]. injection K as _ <- _. cbn [snd] in R2. congruence.
Qed.

Lemma update_entries_rom L n g d st w st' w' : update_entries L n g d st w = Done (st', w') -> rom w' = rom w.
Proof using.
  revert st w. induction L as [|[n1 g1] L IH]; intros st w; cbn [update_entries]; [by intros [= _ <-]|].
  destruct (_ && _); [|apply IH]. intros ([[st1 w1] b] & E & K)%bind_inv. apply update_entry_rom in E.
  destruct b; [injection K as _ <-; done|]. apply IH in K. congruence.
Qed.

Lemma apply_nvs_rom l w w' :
  raid = None -> (forall n g d w, rom (hook n g d w) = rom w) -> foldM apply_nv l w = Done w' -> rom w' = rom w.
Proof using.
  intros Hr Hh. revert w. induction l as [|v l IH]; intros w; cbn [foldM]; [by intros [= <-]|].
  intros (w1 & E & K)%bind_inv. apply IH in K. rewrite K. clear K.
  unfold apply_nv, update_record in E. rewrite Hr in E. apply bind_inv in E as ([st w2] & E & [= <-]).
  unfold UpdateVariable in E. destruct (_ <? _); [|done]. apply update_entries_rom in E. by rewrite E.
Qed.

Lemma map_u8_id l : Forall is_u8 l -> map u8 l = l.
Proof using. induction 1 as [|x l Hx _ IH]; cbn; [done|]. by rewrite u8_small, IH. Qed.

Lemma cfg_step_at v pre post size w :
  rd_ok v -> zlen pre < size ->
  cfg_step P hook raid (pre ++ enc_nv v ++ post) size (zlen pre, w) =
  (w ← apply_nv w v; Done (inl (zlen pre + zlen (enc_nv v), w))).
Proof using.
  intros [Hn Hc Hz Hg Hd] Hp. unfold cfg_step. replace (zlen pre <? size) with true by lia.
  rewrite zlen_enc_nv. unfold enc_nv, rd16, apply_nv. rewrite map_u8_id by done.
  destruct v as [nm gd d]. cbn [nv_name nv_guid nv_data] in *.
  assert (Hv2 : le_val (le_bytes 2 (zlen d)) = zlen d)
    by (apply le_val_2; split; [apply zlen_nonneg|done]).
  generalize (zlen_le_bytes 2 (zlen d)). revert Hv2.
  generalize (le_bytes 2 (zlen d)). intros s2 Hv2 Hl2. unfold NAME_MAX in *.
  r8_as pre (zlen nm) (nm ++ gd ++ s2 ++ d ++ post).
  rd_as (pre ++ [zlen nm]) nm (gd ++ s2 ++ d ++ post).
  replace (50 <=? zlen nm) with false by lia. rewrite c_cut_no_nul by done.
  rd_as (pre ++ [zlen nm] ++ nm) gd (s2 ++ d ++ post). rewrite bind_assoc.
  rd_as (pre ++ [zlen nm] ++ nm ++ gd) s2 (d ++ post). rewrite bind_Done, Hv2.
  rd_as (pre ++ [zlen nm] ++ nm ++ gd ++ s2) d post.
  destruct (update_record P hook raid nm gd d w) as [w'| |]; cbn [mbind Res_bind]; [|done|done].
  do 3 f_equal. lia.
Qed.

Lemma cfg_loop l pre post w m size :
  Forall rd_ok l -> zlen pre + zlen (enc_nvs l) = size -> (length l < m)%nat ->
  loop m (cfg_step P hook raid (pre ++ enc_nvs l ++ post) size) (zlen pre, w) =
  foldM apply_nv l w.
Proof using.
  intros Hl. revert pre w m. induction Hl as [|v l Hv _ IH]; intros pre w m Hsz Hm;
    (destruct m as [|m]; [cbn in Hm; lia|]); rewrite loop_S.
  - cbn in Hsz. unfold cfg_step. rewrite zlen_nil in Hsz.
    by replace (zlen pre <? size) with false by lia.
  - unfold enc_nvs in *. cbn [map concat foldM] in *. fold (enc_nvs l) in *.
    rewrite zlen_app in Hsz. pose proof (zlen_nonneg (enc_nvs l)).
    pose proof (zlen_nonneg (enc_nv v)). pose proof (zlen_nonneg (nv_name v)).
    pose proof (zlen_nonneg (nv_data v)).
    assert (0 < zlen (enc_nv v)) by (rewrite zlen_enc_nv, (rd_guid v Hv); lia).
    rewrite <- app_assoc. rewrite cfg_step_at by (done || lia).
    destruct (apply_nv w v) as [w1| |]; cbn [mbind Res_bind]; [|done|done].
    specialize (IH (pre ++ enc_nv v) w1 m). rewrite <- app_assoc, zlen_app in IH.
    apply IH; [lia|cbn in Hm; lia].
Qed.

Lemma UpdateBiosCfg_image l version flag checksum h6 rest w :
  Forall rd_ok l -> zlen version = 2 -> zlen h6 = 6 ->
  18 + zlen (enc_nvs l) < 2 ^ 32 ->
  UpdateBiosCfgToSystem P hook raid
    (BIN_sig ++ version ++ le_bytes 4 (zlen (enc_nvs l)) ++ [checksum; flag] ++ h6 ++ enc_nvs l ++ rest) w =
  (w ← foldM apply_nv l w;
   Done (match raid with Some drv => SmcLsiSetupDriverHandleDataStart drv w | None => w end)).
Proof using.
  intros Hl Hv H4 Hsz. unfold UpdateBiosCfgToSystem, rd32. rewrite bind_assoc.
  pose proof (zlen_nonneg (enc_nvs l)).
  assert (Hv4 : le_val (le_bytes 4 (zlen (enc_nvs l))) = zlen (enc_nvs l))
    by (apply le_val_4; unfold is_u32; lia).
  generalize (zlen_le_bytes 4 (zlen (enc_nvs l))). revert Hv4.
  generalize (le_bytes 4 (zlen (enc_nvs l))). intros s4 Hv4 Hl4.
  assert (HS : zlen BIN_sig = 4) by done.
  rd_as (BIN_sig ++ version) s4 ([checksum; flag] ++ h6 ++ enc_nvs l ++ rest).
  rewrite bind_Done, Hv4. change sizeof_Cfg_Header with 18.
  rewrite u32_small by (unfold is_u32; lia).
  pose proof (cfg_loop l (BIN_sig ++ version ++ s4 ++ [checksum; flag] ++ h6) rest w
    (S (Z.to_nat (zlen (enc_nvs l) + 18))) (zlen (enc_nvs l) + 18) Hl) as E.
  replace (zlen (BIN_sig ++ _)) with 18 in E by zl. rewrite <- !app_assoc in E.
  rewrite E; [|lia|].
  - destruct (foldM apply_nv l w); cbn [mbind Res_bind]; [|done|done]. by destruct raid.
  - enough (zlen l <= zlen (enc_nvs l)) by (unfold zlen in *; lia).
    clear -Hl. unfold enc_nvs. induction Hl as [|v l Hv _ IH]; cbn [map concat]; [done|].
    rewrite zlen_app, zlen_cons, zlen_enc_nv. zlen_pos. lia.
Qed.

(** What the start of [InBandUpdateBiosCfg] leaves: the load-default
    variable, if its value is one byte, is deleted, as far as the service
    does it. *)
Definition without_load_default (w : W) : W :=
  match var w LoadDefaultVar G with
  | Some (_, d) => if zlen d <=? 1 then snd (SetVariable LoadDefaultVar G nv_attr [] w) else w
  | None => w
  end.

Lemma without_load_default_rom w : rom (without_load_default w) = rom w.
Proof using.
  unfold without_load_default. destruct (var w LoadDefaultVar G) as [[a d]|]; [|done].
  destruct (_ <=? _); [apply SetVariable_rom|done].
Qed.

Lemma without_load_default_eq w :
  (if EFI_ERROR (v_status (GetVariable LoadDefaultVar G 1 w)) then w
   else snd (SetVariable LoadDefaultVar G nv_attr [] w)) = without_load_default w.
Proof using.
  rewrite GetVariable_law. unfold without_load_default.
  destruct (var w LoadDefaultVar G) as [[a d]|]; [|done]. cbn [get_result]. by destruct (_ <=? _).
Qed.

(** The end of an update: the region is blanked and the system reset. *)
Definition finish_update (size : Z) (w : W) : W :=
  IoWrite8_cf9 0x0E (snd (SmcRomHoleWriteRegion INBAND_REGION (replicate (Z.to_nat size) 0xff) w)).

(** What a marked image leads to. *)
Definition apply_image (l : list nv_var) (flag size : Z) (w : W) : Res (EFI_STATUS * W) :=
  if Z.land flag 1 =? 0 then Done (EFI_SUCCESS, w)
  else if Z.land flag 2 =? 0 then
    w1 ← foldM apply_nv l w;
    Done (EFI_SUCCESS, finish_update size
      (match raid with Some drv => SmcLsiSetupDriverHandleDataStart drv w1 | None => w1 end))
  else
    let '(st, w1) := SetVariable LoadDefaultVar G nv_attr [1] w in
    Done (st, finish_update size (preset w1)).

(** The update, given what the read of the region returns. *)
Lemma InBandUpdateBiosCfg_read w st img :
  SmcRomHoleReadRegion INBAND_REGION (without_load_default w) = (st, img) ->
  (EFI_ERROR st = true -> InBandUpdateBiosCfg P hook preset raid G w = Done (st, without_load_default w)) /\
  (EFI_ERROR st = false -> 4 <= zlen img -> take 4 img <> BIN_sig ->
     InBandUpdateBiosCfg P hook preset raid G w = Done (st, without_load_default w)) /\
  (forall l version flag checksum h6 rest,
     EFI_ERROR st = false -> Forall rd_ok l -> zlen version = 2 -> zlen h6 = 6 ->
     18 + zlen (enc_nvs l) < 2 ^ 32 ->
     img = BIN_sig ++ version ++ le_bytes 4 (zlen (enc_nvs l)) ++ [checksum; flag] ++ h6 ++ enc_nvs l ++ rest ->
     InBandUpdateBiosCfg P hook preset raid G w = apply_image l flag (zlen img) (without_load_default w)).
Proof using.
  intros Er. unfold InBandUpdateBiosCfg. cbv zeta. rewrite without_load_default_eq, Er.
  generalize (without_load_default w). clear w Er. intros w.
  split; [by intros ->|]. split.
  { intros -> Hz Hs. rewrite (proj2 (rdn_Done img 0 4 (take 4 img))), bind_Done by (split_and!; [lia..|done]).
    by rewrite bool_decide_eq_false_2. }
  intros l version flag checksum h6 rest Hst Hl Hv H4 Hsz Him.
  apply no_error in Hst as ->. cbn [EFI_ERROR].
  pose proof (UpdateBiosCfg_image l version flag checksum h6 rest w Hl Hv H4 Hsz) as EU.
  rewrite <- Him in EU.
  assert (HS : zlen BIN_sig = 4) by done. pose proof (zlen_le_bytes 4 (zlen (enc_nvs l))) as H44.
  rewrite (rdn_as img (@nil Z) BIN_sig
    (version ++ le_bytes 4 (zlen (enc_nvs l)) ++ [checksum; flag] ++ h6 ++ enc_nvs l ++ rest)), bind_Done
    by (done || zl).
  rewrite bool_decide_eq_true_2 by done. cbn [negb].
  rewrite (rd8_as img (BIN_sig ++ version ++ le_bytes 4 (zlen (enc_nvs l)) ++ [checksum]) flag
    (h6 ++ enc_nvs l ++ rest)), bind_Done by (solve [rewrite Him; app_eq] || zl).
  unfold apply_image, finish_update. replace (Z.to_nat (zlen img)) with (length img) by (unfold zlen; lia).
  destruct (Z.land flag 1 =? 0); [done|].
  destruct (Z.land flag 2 =? 0); cbn [negb].
  - rewrite EU, !bind_assoc. destruct (foldM apply_nv l w) as [w1| |]; cbn [mbind Res_bind]; [|done|done].
    by destruct (SmcRomHoleWriteRegion _ _ _).
  - destruct (SetVariable LoadDefaultVar G nv_attr [1] w) as [st w1].
    rewrite bind_Done. by destruct (SmcRomHoleWriteRegion _ _ _).
Qed.

(** What only looks at the flag of the image. *)
Lemma InBandUpdateBiosCfg_flag w img flag :
  SmcRomHoleReadRegion INBAND_REGION (without_load_default w) = (EFI_SUCCESS, img) ->
  take 4 img = BIN_sig -> img !! 11%nat = Some flag -> Z.land flag 1 = 0 \/ Z.land flag 2 <> 0 ->
  InBandUpdateBiosCfg P hook preset raid G w = apply_image [] flag (zlen img) (without_load_default w).
Proof using.
  intros Er Hsig Hf Hc. unfold InBandUpdateBiosCfg. cbv zeta. rewrite without_load_default_eq, Er.
  cbn [EFI_ERROR]. assert (Hz : 4 <= zlen img) by (apply lookup_lt_Some in Hf; unfold zlen; lia).
  rewrite (proj2 (rdn_Done img 0 4 BIN_sig)), bind_Done by (split_and!; done || lia).
  rewrite bool_decide_eq_true_2 by done. cbn [negb].
  assert (E : rd8 img 11 = Done flag) by (apply arr_get_lookup; by split). rewrite E, bind_Done.
  unfold apply_image, finish_update. replace (Z.to_nat (zlen img)) with (length img) by (unfold zlen; lia).
  destruct (Z.eqb_spec (Z.land flag 1) 0); [done|]. destruct (Z.eqb_spec (Z.land flag 2) 0); [by destruct Hc|].
  cbn [negb]. destruct (SetVariable LoadDefaultVar G nv_attr [1] (without_load_default w)) as [st w1].
  rewrite bind_Done. by destruct (SmcRomHoleWriteRegion _ _ _).
Qed.

(** The update of an image that is in the region, when the read works. *)
Lemma InBandUpdateBiosCfg_spec l version flag checksum h6 rest w :
  regions_readable -> Forall rd_ok l -> zlen version = 2 -> zlen h6 = 6 ->
  18 + zlen (enc_nvs l) < 2 ^ 32 ->
  rom w INBAND_REGION =
    BIN_sig ++ version ++ le_bytes 4 (zlen (enc_nvs l)) ++ [checksum; flag] ++ h6 ++ enc_nvs l ++ rest ->
  InBandUpdateBiosCfg P hook preset raid G w =
    apply_image l flag (zlen (rom w INBAND_REGION)) (without_load_default w).
Proof using.
  intros Hrd Hl Hv H4 Hsz Hrom. pose proof (read_region INBAND_REGION (without_load_default w) Hrd) as Er.
  rewrite without_load_default_rom in Er.
  by eapply (InBandUpdateBiosCfg_read w EFI_SUCCESS (rom w INBAND_REGION) Er).
Qed.

(** C16: (functional) The update at boot, for every outcome of the services it
    calls, once the buffer for the region is to be had. The load-default variable is deleted first, if its value is one
    byte. Then, when the region cannot be read, has no signature, or has bit
    0 of the flag clear, nothing else happens and the status of the read
    comes back. When bits 0 and 1 are set, the load-default variable is set
    to 1, whatever the records are. When bit 0 is set and bit 1 clear and the
    names of the records fit the parser's 50 characters, every record is
    applied in order. In both cases the region is blanked and the system gets
    a global reset, whether or not a variable changed (the comment of the
    function makes the reset depend on that). *)
Theorem InBandUpdateBiosCfg_correct w st img :
  SmcRomHoleReadRegion INBAND_REGION (without_load_default w) = (st, img) ->
  let run := InBandUpdateBiosCfg P hook preset raid G w in
  (st <> EFI_SUCCESS -> run = Done (st, without_load_default w)) /\
  (st = EFI_SUCCESS -> 4 <= zlen img -> take 4 img <> BIN_sig -> run = Done (st, without_load_default w)) /\
  let finish w := IoWrite8_cf9 0x0E (snd (SmcRomHoleWriteRegion INBAND_REGION
                    (replicate (Z.to_nat (zlen img)) 0xff) w)) in
  (forall flag, st = EFI_SUCCESS -> take 4 img = BIN_sig -> img !! 11%nat = Some flag ->
     (Z.land flag 1 = 0 -> run = Done (EFI_SUCCESS, without_load_default w)) /\
     (Z.land flag 1 <> 0 -> Z.land flag 2 <> 0 ->
        run = let '(st1, w1) := SetVariable LoadDefaultVar G nv_attr [1] (without_load_default w) in
              Done (st1, finish (preset w1)))) /\
  (forall l version flag checksum h6 rest,
     st = EFI_SUCCESS -> Forall rd_ok l -> zlen version = 2 -> zlen h6 = 6 ->
     18 + zlen (enc_nvs l) < 2 ^ 32 ->
     img = BIN_sig ++ version ++ le_bytes 4 (zlen (enc_nvs l)) ++ [checksum; flag] ++ h6 ++ enc_nvs l ++ rest ->
     Z.land flag 1 <> 0 -> Z.land flag 2 = 0 ->
     run =
       w1 ← foldM apply_nv l (without_load_default w);
       Done (EFI_SUCCESS, finish
         (match raid with Some drv => SmcLsiSetupDriverHandleDataStart drv w1 | None => w1 end))).
Proof using.
  intros Er run. destruct (InBandUpdateBiosCfg_read w st img Er) as (H1 & H2 & H3).
  split; [intros Hs; apply H1; by destruct st|]. split; [intros ->; by apply H2|]. intros finish. split.
  - intros flag -> Hsig Hf. pose proof (InBandUpdateBiosCfg_flag w img flag Er Hsig Hf) as HF. fold run in HF.
    unfold apply_image in HF. split.
    + intros F1. rewrite HF by auto. by rewrite F1.
    + intros F1 F2. rewrite HF by auto. by rewrite (proj2 (Z.eqb_neq _ _) F1), (proj2 (Z.eqb_neq _ _) F2).
  - intros l version flag checksum h6 rest -> Hl Hv H4 Hsz Him F1 F2. unfold run.
    rewrite (H3 l version flag checksum h6 rest eq_refl Hl Hv H4 Hsz Him). unfold apply_image.
    by rewrite (proj2 (Z.eqb_neq _ _) F1), F2.
Qed.

(** a record whose name has 50 characters or more runs off the
    50-element name buffer of the parser. *)
Theorem UpdateBiosCfgToSystem_long_name v l version flag checksum h6 rest w :
  NAME_MAX <= zlen (nv_name v) < 256 -> zlen version = 2 -> zlen h6 = 6 ->
  18 + zlen (enc_nvs (v :: l)) < 2 ^ 32 ->
  UpdateBiosCfgToSystem P hook raid
    (BIN_sig ++ version ++ le_bytes 4 (zlen (enc_nvs (v :: l))) ++ [checksum; flag] ++ h6 ++
     enc_nvs (v :: l) ++ rest) w = Fault.
Proof using.
  intros Hn Hv H4 Hsz. unfold UpdateBiosCfgToSystem, rd32. rewrite bind_assoc.
  set (N := zlen (enc_nvs (v :: l))) in *. assert (HN : 0 < N).
  { unfold N, enc_nvs. cbn [map concat]. rewrite zlen_app, zlen_enc_nv. zlen_pos. lia. }
  assert (Hv4 : le_val (le_bytes 4 N) = N) by (apply le_val_4; unfold is_u32; lia).
  generalize (zlen_le_bytes 4 N). revert Hv4. generalize (le_bytes 4 N). intros s4 Hv4 Hl4.
  assert (HS : zlen BIN_sig = 4) by done.
  rd_as (BIN_sig ++ version) s4 ([checksum; flag] ++ h6 ++ enc_nvs (v :: l) ++ rest).
  rewrite bind_Done, Hv4. change sizeof_Cfg_Header with 18.
  rewrite u32_small, loop_S by (unfold is_u32; lia).
  replace (cfg_step _ _ _ _ _ _) with (Fault : Res (Z * W + W)); [done|].
  set (post := nv_guid v ++ le_bytes 2 (zlen (nv_data v)) ++ nv_data v ++ enc_nvs l ++ rest).
  assert (EE : enc_nvs (v :: l) ++ rest = [zlen (nv_name v)] ++ map u8 (nv_name v) ++ post).
  { change (enc_nvs (v :: l)) with (enc_nv v ++ enc_nvs l). unfold post. clear.
    unfold enc_nv. app_eq. }
  rewrite EE. clear EE.
  unfold cfg_step. replace (18 <? N + 18) with true by lia. symmetry. clearbody post.
  r8_as (BIN_sig ++ version ++ s4 ++ [checksum; flag] ++ h6) (zlen (nv_name v)) (map u8 (nv_name v) ++ post).
  rd_as (BIN_sig ++ version ++ s4 ++ [checksum; flag] ++ h6 ++ [zlen (nv_name v)])
    (map u8 (nv_name v)) post.
  by replace (NAME_MAX <=? zlen (nv_name v)) with true by lia.
Qed.
End image_correct.

(** ** Witnesses *)
Definition demo_G : list Z := replicate 16 0x11.
Definition demo_name1 : list Z := [0x53; 0x65; 0x74; 0x75; 0x70].
Definition demo_name2 : list Z := [0x42; 0x6f; 0x6f; 0x74].

Definition demo_next (w : SimpleFw) (size : Z) (cur : list Z * list Z)
    : EFI_STATUS * (list Z * list Z) :=
  if decide (fst cur = []) then (EFI_SUCCESS, (demo_name1, demo_G))
  else if decide (fst cur = demo_name1) then (EFI_SUCCESS, (demo_name2, demo_G))
  else (EFI_NOT_FOUND, cur).

Definition demo_store : SimpleFw :=
  mkFw (<[(demo_name1, demo_G) := (7, [1; 2; 3])]> (<[(demo_name2, demo_G) := (3, [9])]> ∅)) ∅ [].

(** A driver with one variable to hand out. *)
Definition demo_raid : RaidDriver SimpleFw :=
  mkRaid _ (fun w => match fw_resets w with
                     | [] => (Some (mkNv [0x52] demo_G [5]), mkFw (fw_vars w) (fw_rom w) [0])
                     | _ => (None, w)
                     end)
    (fun _ _ _ w => (EFI_SUCCESS, w)) (fun w => w).


Lemma UpdateVariable_correct_witness :
  exists w', UpdateVariable [(demo_name1, demo_G)] demo_name1 demo_G [4; 5; 6] demo_store
      = Done (EFI_SUCCESS, w') /\
    var w' demo_name1 demo_G = Some (3, [4; 5; 6]) /\ var w' demo_name2 demo_G = Some (3, [9]).
Proof.
  destruct (UpdateVariable_correct [(demo_name1, demo_G)] demo_name1 demo_G [4; 5; 6] demo_store)
    as (st & w' & H1 & _ & _ & H2 & _).
  - repeat constructor. set_solver.
  - reflexivity.
  - discriminate.
  - exists w'. rewrite (H2 demo_name2 demo_G) by discriminate.
    eassert (E0 : UpdateVariable [(demo_name1, demo_G)] demo_name1 demo_G [4; 5; 6] demo_store =
      Done (EFI_SUCCESS, _)) by (vm_compute; reflexivity).
    rewrite E0 in H1. apply Done_inj in H1. injection H1 as -> ->.
    split; [exact E0|split; reflexivity].
Defined.

Definition demo_vars : list nv_var := [mkNv demo_name1 demo_G [4; 5; 6]; mkNv demo_name2 demo_G [8]].

Definition demo_image (flag : Z) : SimpleFw :=
  mkFw (fw_vars demo_store)
    (<[INBAND_REGION := BIN_sig ++ [0; 2] ++ le_bytes 4 (zlen (enc_nvs demo_vars)) ++ [0; flag] ++
        [0; 0; 0; 0; 0; 0] ++ enc_nvs demo_vars ++ [0xff; 0xff; 0xff]]> ∅) [].

Lemma demo_vars_ok : Forall rd_ok demo_vars.
Proof. repeat constructor; discriminate. Qed.

Lemma InBandUpdateBiosCfg_correct_witness :
  exists w', InBandUpdateBiosCfg [(demo_name1, demo_G)] (fun _ _ _ w => w) (fun w => w) None demo_G
      (demo_image 1) = Done (EFI_SUCCESS, w') /\
    var w' demo_name1 demo_G = Some (3, [4; 5; 6]) /\ var w' demo_name2 demo_G = Some (3, [9]) /\
    resets w' = [0x0E].
Proof.
  assert (E0 : without_load_default demo_G (demo_image 1) = demo_image 1) by (vm_compute; reflexivity).
  assert (Er : SmcRomHoleReadRegion INBAND_REGION (without_load_default demo_G (demo_image 1)) =
    (EFI_SUCCESS, rom (demo_image 1) INBAND_REGION)) by (rewrite E0; reflexivity).
  destruct (InBandUpdateBiosCfg_correct [(demo_name1, demo_G)] (fun _ _ _ w => w) (fun w => w) None
    demo_G (demo_image 1) EFI_SUCCESS (rom (demo_image 1) INBAND_REGION) Er) as (_ & _ & _ & H).
  specialize (H demo_vars [0; 2] 1 0 [0; 0; 0; 0; 0; 0] [0xff; 0xff; 0xff] eq_refl demo_vars_ok
    eq_refl eq_refl eq_refl eq_refl ltac:(discriminate) eq_refl). rewrite E0 in H.
  eexists. split.
  - rewrite H. vm_compute. reflexivity.
  - split; [|split]; reflexivity.
Defined.

Lemma UpdateBiosCfgToSystem_long_name_witness :
  UpdateBiosCfgToSystem [] (fun _ _ _ w => w) None
    (BIN_sig ++ [0; 2] ++ le_bytes 4 (zlen (enc_nvs [mkNv (replicate 50 0x41) demo_G [1]])) ++ [0; 1] ++
     [0; 0; 0; 0; 0; 0] ++ enc_nvs [mkNv (replicate 50 0x41) demo_G [1]] ++ []) demo_store = Fault.
Proof.
  apply (UpdateBiosCfgToSystem_long_name [] (fun _ _ _ w => w) None (mkNv (replicate 50 0x41) demo_G [1]) []
    [0; 2] 1 0 [0; 0; 0; 0; 0; 0] []).
  - split; [discriminate|reflexivity].
  - reflexivity.
  - reflexivity.
  - reflexivity.
Defined.
