(* ===== verification/PhysMem.v ===== *)
(** * Flat memory

    The address space the SMM handlers and the SMBIOS search work on: a map
    from addresses to bytes. Copies between overlapping ranges, and headers
    that lie inside the buffers they describe, behave as they do in memory. *)

From S2P Require Import Prelude.

Definition mem : Type := Z -> Z.

Definition mread (m : mem) (a n : Z) : list Z :=
  map (fun i => m (a + Z.of_nat i)) (seq 0 (Z.to_nat n)).

Definition mwrite (m : mem) (a : Z) (bs : list Z) : mem := fun x =>
  if (a <=? x) && (x <? a + zlen bs)
  then match bs !! Z.to_nat (x - a) with Some v => v | None => m x end else m x.

Definition mr8 (m : mem) (a : Z) : Z := m a.
Definition mr16 (m : mem) (a : Z) : Z := le_val (mread m a 2).
Definition mr32 (m : mem) (a : Z) : Z := le_val (mread m a 4).
Definition mr64 (m : mem) (a : Z) : Z := le_val (mread m a 8).
Definition mw8 (m : mem) (a v : Z) : mem := mwrite m a [u8 v].
Definition mw32 (m : mem) (a v : Z) : mem := mwrite m a (le_bytes 4 v).

Definition mem_ok (m : mem) : Prop := forall a, is_u8 (m a).

(** [n] bytes from [a] and [k] bytes from [b] have no byte in common. *)
Definition apart (a n b k : Z) : Prop := a + n <= b \/ b + k <= a.

Lemma zlen_mread m a n : 0 <= n -> zlen (mread m a n) = n.
Proof. intros Hn. unfold mread. rewrite zlen_map. unfold zlen. rewrite length_seq. lia. Qed.

Lemma mread_lookup m a n i :
  (i < Z.to_nat n)%nat -> mread m a n !! i = Some (m (a + Z.of_nat i)).
Proof.
  intros Hi. unfold mread. rewrite list_lookup_fmap.
  rewrite lookup_seq_lt by done. done.
Qed.

Lemma mread_ext m m' a n :
  (forall x, a <= x < a + n -> m x = m' x) -> mread m a n = mread m' a n.
Proof.
  intros Hx. apply list_eq. intros i.
  destruct (decide (i < Z.to_nat n)%nat) as [Hi|Hi].
  - rewrite !mread_lookup by done. f_equal. apply Hx. lia.
  - rewrite !lookup_ge_None_2; [done|unfold mread; rewrite length_map, length_seq; lia..].
Qed.

Lemma mwrite_out m a bs x : x < a \/ a + zlen bs <= x -> mwrite m a bs x = m x.
Proof.
  intros Hx. unfold mwrite. by replace ((a <=? x) && (x <? a + zlen bs)) with false by lia.
Qed.

Lemma mread_other m a bs b k :
  apart a (zlen bs) b k -> mread (mwrite m a bs) b k = mread m b k.
Proof. intros Hd. apply mread_ext. intros x Hx. apply mwrite_out. unfold apart in Hd. lia. Qed.

Lemma mread_same m a bs n : n = zlen bs -> mread (mwrite m a bs) a n = bs.
Proof.
  intros ->. apply list_eq. intros i. destruct (decide (i < length bs)%nat) as [Hi|Hi].
  - rewrite mread_lookup by (unfold zlen; lia). unfold mwrite.
    replace ((a <=? a + Z.of_nat i) && (a + Z.of_nat i <? a + zlen bs)) with true
      by (unfold zlen; lia).
    replace (Z.to_nat (a + Z.of_nat i - a)) with i by lia.
    by destruct (lookup_lt_is_Some_2 bs i Hi) as [v ->].
  - rewrite !lookup_ge_None_2; [done|lia|].
    unfold mread. rewrite length_map, length_seq. unfold zlen. lia.
Qed.

Lemma mread_split m a n k :
  0 <= n -> 0 <= k -> mread m a (n + k) = mread m a n ++ mread m (a + n) k.
Proof.
  intros Hn Hk. apply list_eq. intros i.
  assert (Hl : length (mread m a n) = Z.to_nat n) by (unfold mread; by rewrite length_map, length_seq).
  destruct (decide (i < Z.to_nat n)%nat) as [Hi|Hi].
  - rewrite lookup_app_l, !mread_lookup by lia. done.
  - rewrite lookup_app_r, Hl by lia. destruct (decide (i < Z.to_nat (n + k))%nat) as [Hi2|Hi2].
    + rewrite !mread_lookup by lia. do 2 f_equal. lia.
    + rewrite !lookup_ge_None_2; [done|unfold mread; rewrite length_map, length_seq; lia..].
Qed.

Lemma mread_bytes_ok m a n : mem_ok m -> bytes_ok (mread m a n).
Proof.
  intros Hm. unfold mread, bytes_ok. apply Forall_map, Forall_true. intros i. apply Hm.
Qed.

Lemma mwrite_ok m a bs : mem_ok m -> bytes_ok bs -> mem_ok (mwrite m a bs).
Proof.
  intros Hm Hb x. unfold mwrite. destruct (_ && _); [|apply Hm].
  destruct (bs !! _) as [v|] eqn:E; [|apply Hm]. eapply Forall_lookup_1; eauto.
Qed.

Lemma mr32_range m a : mem_ok m -> is_u32 (mr32 m a).
Proof.
  intros Hm. unfold mr32. apply le_val_4_range; [by apply mread_bytes_ok|by apply zlen_mread].
Qed.

Lemma mr32_other m a bs b : apart a (zlen bs) b 4 -> mr32 (mwrite m a bs) b = mr32 m b.
Proof. intros Hd. unfold mr32. by rewrite mread_other. Qed.
Lemma mr64_other m a bs b : apart a (zlen bs) b 8 -> mr64 (mwrite m a bs) b = mr64 m b.
Proof. intros Hd. unfold mr64. by rewrite mread_other. Qed.
Lemma mr8_other m a bs b : apart a (zlen bs) b 1 -> mr8 (mwrite m a bs) b = mr8 m b.
Proof. intros Hd. apply mwrite_out. unfold apart in Hd. lia. Qed.

(** A part of a range reads as the part of its bytes. *)
Lemma mread_part m a n i k :
  0 <= i -> 0 <= k -> i + k <= n ->
  mread m (a + i) k = take (Z.to_nat k) (drop (Z.to_nat i) (mread m a n)).
Proof.
  intros Hi Hk Hn. replace n with (i + (k + (n - i - k))) by lia.
  rewrite mread_split, mread_split by lia.
  rewrite drop_app_zlen by (by apply zlen_mread). by rewrite take_app_zlen by (by apply zlen_mread).
Qed.

Lemma mread_1 m a : mread m a 1 = [m a].
Proof.
  unfold mread. change (Z.to_nat 1) with 1%nat. cbn [seq map]. change (Z.of_nat 0) with 0.
  by rewrite Z.add_0_r.
Qed.

Lemma mr8_mw8 m a v : mr8 (mw8 m a v) a = u8 v.
Proof.
  unfold mr8, mw8. assert (E : mread (mwrite m a [u8 v]) a 1 = [u8 v]) by (by apply mread_same).
  rewrite mread_1 in E. by injection E.
Qed.

Lemma mread_cut m a n i k b :
  n = i + k -> b = a + i -> 0 <= i -> 0 <= k -> mread m a n = mread m a i ++ mread m b k.
Proof. intros -> ->. apply mread_split. Qed.
