(* ===== verification/RomHole.v ===== *)
(** * The ROM hole

    Models [SmcPkg/Module/SmcRomHole] (the DXE and the SMM copy of the
    library behind [SmcRomHoleProtocol]) and [SmcPkg/Module/SmcSwSmiFlash]
    (writing the flash through software SMI E9). The hole is 64 KB of flash,
    divided into the regions of [SMC_ROM_HOLE_MAP]; a write of one region
    reads the whole hole into a buffer, changes the part, erases the hole and
    writes it back. The flash part is an interface, [Flash]. The DXE library
    over any flash part is an instance of the region services of [Firmware]
    ([Board_firmware]). *)

From S2P Require Import Prelude Services OobCmos PhysMem.

(** [FLASH_PROTOCOL] ([AmiCompatibilityPkg/Include/Protocol/FlashProtocol.h]):
    nothing outside the range is touched, an erased range reads as 0xFF, and
    data written over an erased range reads back. *)
#[local] Obligation Tactic := idtac.

Class Flash (F : Type) := {
  flash : F -> mem;
  FlashRead : Z -> Z -> F -> EFI_STATUS * list Z;
  FlashErase : Z -> Z -> F -> EFI_STATUS * F;
  FlashWrite : Z -> list Z -> F -> EFI_STATUS * F;
  DeviceWriteEnable : F -> EFI_STATUS * F;
  DeviceWriteDisable : F -> EFI_STATUS * F;

  FlashRead_law a n f : 0 <= n ->
    zlen (snd (FlashRead a n f)) = n /\
    (fst (FlashRead a n f) = EFI_SUCCESS -> snd (FlashRead a n f) = mread (flash f) a n);
  FlashErase_in a n f : 0 <= n -> fst (FlashErase a n f) = EFI_SUCCESS ->
    mread (flash (snd (FlashErase a n f))) a n = replicate (Z.to_nat n) 0xff;
  FlashErase_out a n f x : x < a \/ a + n <= x -> flash (snd (FlashErase a n f)) x = flash f x;
  FlashWrite_in a bs f : fst (FlashWrite a bs f) = EFI_SUCCESS ->
    mread (flash f) a (zlen bs) = replicate (length bs) 0xff ->
    mread (flash (snd (FlashWrite a bs f))) a (zlen bs) = bs;
  FlashWrite_out a bs f x : x < a \/ a + zlen bs <= x -> flash (snd (FlashWrite a bs f)) x = flash f x;
  DeviceWriteEnable_flash f x : flash (snd (DeviceWriteEnable f)) x = flash f x;
  DeviceWriteDisable_flash f x : flash (snd (DeviceWriteDisable f)) x = flash f x;
}.

Definition SMC_ROM_HOLE_SIZE : Z := 0x10000.

(** The members of [SMC_ROM_HOLE_MAP] with their sizes, in order. *)
Definition SMC_ROM_HOLE_MAP : list (Z * Z) :=
  [(OA3_REGION, 2 * 1024); (OA2_REGION, 2 * 1024); (SMBIOS_FOR_BMC_REGION, 4 * 1024);
   (AFU_CMD_REGION, 4 * 1024); (INBAND_REGION, 12 * 1024); (CURRENT_SMBIOS_REGION, 4 * 1024);
   (PREVIOUS_SMBIOS_REGION, 4 * 1024)].

(** Offset and size of a member. *)
Fixpoint member_at (op off : Z) (l : list (Z * Z)) : option (Z * Z) :=
  match l with
  | [] => None
  | (op', n) :: l => if op =? op' then Some (off, n) else member_at op (off + n) l
  end.

(** The two tables have no entry for [FULL_REGION] nor above
    [PREVIOUS_SMBIOS_REGION]: those reads are of uninitialised memory. *)
Definition SmcRomHoleSize (Operation : Z) : Res Z :=
  match member_at Operation 0 SMC_ROM_HOLE_MAP with Some (_, n) => Done n | None => Fault end.
Definition SmcRomHoleOffset (Operation : Z) : Res Z :=
  match member_at Operation 0 SMC_ROM_HOLE_MAP with Some (off, _) => Done off | None => Fault end.

(** Size and offset for a read or a write in DXE. *)
Definition region_range (Operation : Z) : Res (Z * Z) :=
  if Operation =? FULL_REGION then Done (SMC_ROM_HOLE_SIZE, 0)
  else
    TempSize ← SmcRomHoleSize Operation;
    Offset ← SmcRomHoleOffset Operation;
    Done (TempSize, Offset).

Definition SWSMI_E9_SUBCMD_FLASH_WRITE : Z := 1.
Definition SWSMI_E9_SUBCMD_UNREGISTER : Z := 2.
Definition SWSMI_SMC_FLASH : Z := 0xE9.

Section lib.
Context {F : Type} `{Flash F} {S : Type} `{CmosPorts S}.

(** Memory, CMOS, the flash part, and the flag of the SMI handler. *)
Record hole := mkHole { h_mem : mem; h_cm : S; h_flash : F; DisableSmcSwSmiFlash : bool }.

Definition set_mem (x : hole) (m : mem) : hole :=
  mkHole m (h_cm x) (h_flash x) (DisableSmcSwSmiFlash x).
Definition set_cm (x : hole) (c : S) : hole :=
  mkHole (h_mem x) c (h_flash x) (DisableSmcSwSmiFlash x).
Definition set_flash (x : hole) (f : F) : hole :=
  mkHole (h_mem x) (h_cm x) f (DisableSmcSwSmiFlash x).

(** One call of the flash protocol. *)
Definition on_flash (op : F -> EFI_STATUS * F) (x : hole) : EFI_STATUS * hole :=
  let '(Status, f) := op (h_flash x) in (Status, set_flash x f).

Context (SMC_ROM_HOLE_LOCATION : Z) (Q_SMC_ADDR_HH Q_SMC_ADDR_H Q_SMC_ADDR_L Q_SMC_ADDR_LL : Z).

(** [SmcFlash] says whether the library found the flash protocol. *)
Definition SmcRomHoleReadRegion (SmcFlash : bool) (Operation : Z) (pBuffer : list Z) (x : hole)
    : Res (EFI_STATUS * list Z) :=
  if negb SmcFlash then Done (EFI_NOT_READY, pBuffer)
  else
    '(TempSize, Offset) ← region_range Operation;
    let '(Status, b) := FlashRead (SMC_ROM_HOLE_LOCATION + Offset) TempSize (h_flash x) in
    pBuffer ← wrn pBuffer 0 b;
    Done (Status, pBuffer).

(** ** Software SMI E9 *)
Definition H_FlashAddress : Z := 0.
Definition H_Size : Z := 8.
Definition H_DataBuffer : Z := 16.

(** [has_flash]: [gAmiSmmFlashProtocolGuid] is there. *)
Definition SmcSwSmiFlashCallBack (has_flash : bool) (DataPort : Z) (x : hole) : Res (EFI_STATUS * hole) :=
  if DisableSmcSwSmiFlash x then Done (EFI_SUCCESS, x)
  else if DataPort =? SWSMI_E9_SUBCMD_FLASH_WRITE then
    if has_flash then
      '(p, c) ← get_address Q_SMC_ADDR_HH Q_SMC_ADDR_H Q_SMC_ADDR_L Q_SMC_ADDR_LL (h_cm x);
      let x := set_cm x c in
      let '(_, x) := on_flash DeviceWriteEnable x in
      let address := mr64 (h_mem x) (p + H_FlashAddress) in
      let size := mr64 (h_mem x) (p + H_Size) in
      let data := mr64 (h_mem x) (p + H_DataBuffer) in
      let '(_, x) := on_flash (FlashErase address size) x in
      let '(_, x) := on_flash (FlashWrite address (mread (h_mem x) data size)) x in
      let '(_, x) := on_flash DeviceWriteDisable x in
      Done (EFI_SUCCESS, x)
    else Done (EFI_NOT_FOUND, x)
  else if DataPort =? SWSMI_E9_SUBCMD_UNREGISTER then
    Done (EFI_SUCCESS, mkHole (h_mem x) (h_cm x) (h_flash x) true)
  else Done (EFI_SUCCESS, x).

(** [gSmmCtl->Trigger] with the SMI value and the data port, [None] when the
    protocol is not there; [header] is the address of the local variable
    [SmcSwSmiFlashHeader]. *)
Context (gSmmCtl : option (Z -> Z -> hole -> Res (EFI_STATUS * hole))) (header : Z).

Definition flash_header (FlashAddress Size DataBuffer : Z) : list Z :=
  le_bytes 8 FlashAddress ++ le_bytes 8 Size ++ le_bytes 8 DataBuffer.

Definition SmcSwSmiFlashWrite (FlashAddress Size DataBuffer : Z) (x : hole) : Res (EFI_STATUS * hole) :=
  match gSmmCtl with
  | None => Done (EFI_NOT_FOUND, x)
  | Some Trigger =>
      let x := set_mem x (mwrite (h_mem x) header (flash_header FlashAddress Size DataBuffer)) in
      let Data32 := u32 header in
      c ← put_address Q_SMC_ADDR_HH Q_SMC_ADDR_H Q_SMC_ADDR_L Q_SMC_ADDR_LL Data32 (h_cm x);
      Trigger SWSMI_SMC_FLASH SWSMI_E9_SUBCMD_FLASH_WRITE (set_cm x c)
  end.

(** ** Writing a region in DXE *)

(** Without the SMI: enable, erase, write, disable; the first error ends it. *)
Definition write_directly (TempBuffer : Z) (x : hole) : EFI_STATUS * hole :=
  let '(Status, x) := on_flash DeviceWriteEnable x in
  if EFI_ERROR Status then (Status, x)
  else
    let '(Status, x) := on_flash (FlashErase SMC_ROM_HOLE_LOCATION SMC_ROM_HOLE_SIZE) x in
    if EFI_ERROR Status then (Status, x)
    else
      let '(Status, x) := on_flash
        (FlashWrite SMC_ROM_HOLE_LOCATION (mread (h_mem x) TempBuffer SMC_ROM_HOLE_SIZE)) x in
      if EFI_ERROR Status then (Status, x)
      else on_flash DeviceWriteDisable x.

(** [TempBuffer]: what [AllocateBuffer] returns; [sw]: the protocol of the
    SMI flash driver is installed. *)
Definition SmcRomHoleWriteRegion (SmcFlash : bool) (TempBuffer : option Z) (sw : bool)
    (Operation : Z) (pBuffer : list Z) (x : hole) : Res (EFI_STATUS * hole) :=
  if negb SmcFlash then Done (EFI_NOT_READY, x)
  else
    match TempBuffer with
    | None => Done (EFI_OUT_OF_RESOURCES, x)
    | Some TempBuffer =>
        '(TempSize, Offset) ← region_range Operation;
        let '(Status, b) := FlashRead SMC_ROM_HOLE_LOCATION SMC_ROM_HOLE_SIZE (h_flash x) in
        let x := set_mem x (mwrite (h_mem x) TempBuffer b) in
        if EFI_ERROR Status then Done (Status, x)
        else
          src ← rdn pBuffer 0 TempSize;
          let x := set_mem x (mwrite (h_mem x) (TempBuffer + Offset) src) in
          if sw then
            '(Status, x) ← SmcSwSmiFlashWrite SMC_ROM_HOLE_LOCATION SMC_ROM_HOLE_SIZE TempBuffer x;
            if EFI_ERROR Status then Done (write_directly TempBuffer x) else Done (Status, x)
          else Done (write_directly TempBuffer x)
    end.

(** The event before the OS boots: the handler stops working. *)
Definition UnregisterSwSmiE9BeforeOsBoot (x : hole) : Res hole :=
  match gSmmCtl with
  | None => Done x
  | Some Trigger => '(_, x) ← Trigger SWSMI_SMC_FLASH SWSMI_E9_SUBCMD_UNREGISTER x; Done x
  end.

(** The handler's installation: the result says whether
    [gSmcSwSmiFlashProtocolGuid] is installed. *)
Definition InSmmFunction (SwDispatch Register : bool) : EFI_STATUS * bool :=
  if SwDispatch then (EFI_SUCCESS, Register) else (EFI_SUCCESS, false).

(** [SmcRomHoleInit]: whether the flash protocol is there. *)
Definition SmcRomHoleInit (located : bool) : EFI_STATUS * bool :=
  if located then (EFI_SUCCESS, true) else (EFI_NOT_FOUND, false).

(** ** The SMM copy *)
Definition SmcRomHoleWriteRegion_Smm (SmcFlash : bool) (TempBuffer : option Z)
    (Operation : Z) (pBuffer : list Z) (x : hole) : Res (EFI_STATUS * hole) :=
  if negb SmcFlash then Done (EFI_NOT_READY, x)
  else
    match TempBuffer with
    | None => Done (EFI_OUT_OF_RESOURCES, x)
    | Some TempBuffer =>
        let '(Status, x) := on_flash DeviceWriteEnable x in
        if EFI_ERROR Status then Done (Status, x)
        else
          TempSize ← SmcRomHoleSize Operation;
          Offset ← SmcRomHoleOffset Operation;
          let '(Status, b) := FlashRead SMC_ROM_HOLE_LOCATION SMC_ROM_HOLE_SIZE (h_flash x) in
          let x := set_mem x (mwrite (h_mem x) TempBuffer b) in
          if EFI_ERROR Status then Done (Status, x)
          else
            let '(Status, x) := on_flash (FlashErase SMC_ROM_HOLE_LOCATION SMC_ROM_HOLE_SIZE) x in
            if EFI_ERROR Status then Done (Status, x)
            else
              src ← rdn pBuffer 0 TempSize;
              let x := set_mem x (mwrite (h_mem x) (TempBuffer + Offset) src) in
              let '(Status, x) := on_flash
                (FlashWrite SMC_ROM_HOLE_LOCATION (mread (h_mem x) TempBuffer SMC_ROM_HOLE_SIZE)) x in
              if EFI_ERROR Status then Done (Status, x)
              else Done (on_flash DeviceWriteDisable x)
    end.

(** [SmcRomHoleSmmInit] always reports success. *)
Definition SmcRomHoleSmmInit (SmmBase2 Smst located : bool) : EFI_STATUS * bool :=
  if negb SmmBase2 then (EFI_SUCCESS, false)
  else if negb Smst then (EFI_SUCCESS, false)
  else (EFI_SUCCESS, located).
End lib.

(** ** The block types of the flash tool *)
Record BLOCK_DESC := mkBlock { bd_Type : Z; bd_StartAddress : Z; bd_BlockSize : Z }.

(** [SmcRomHoleUpdateBlockTypeId] on the blocks of the [INFO_BLOCK]. *)
Definition SmcRomHoleUpdateBlockTypeId (SMIFLASH_GET_FLASH_INFO OA3_FLASH_BLOCK_DESC_TYPE first SwSmiNum : Z)
    (Blocks : list BLOCK_DESC) : list BLOCK_DESC :=
  if negb (SwSmiNum =? SMIFLASH_GET_FLASH_INFO) then Blocks
  else map (fun b =>
    if bd_StartAddress b <? first then b
    else if first + SMC_ROM_HOLE_SIZE <=? bd_StartAddress b then b
    else mkBlock OA3_FLASH_BLOCK_DESC_TYPE (bd_StartAddress b) (bd_BlockSize b)) Blocks.

(** ** The regions *)
Lemma region_cases op n off :
  region_range op = Done (n, off) ->
  op = FULL_REGION /\ n = SMC_ROM_HOLE_SIZE /\ off = 0 \/
  op <> FULL_REGION /\ member_at op 0 SMC_ROM_HOLE_MAP = Some (off, n).
Proof.
  unfold region_range, SmcRomHoleSize, SmcRomHoleOffset. destruct (Z.eqb_spec op FULL_REGION) as [->|Hf].
  - intros [= <- <-]. by left.
  - destruct (member_at _ _ _) as [[o k]|]; cbn; [|done]. intros [= <- <-]. by right.
Qed.

Lemma member_bounds op l : forall off0 off n,
  Forall (fun p => 0 <= snd p) l -> member_at op off0 l = Some (off, n) ->
  off0 <= off /\ 0 <= n /\ off + n <= off0 + foldr (fun p k => snd p + k) 0 l.
Proof.
  induction l as [|[op' k] l IH]; intros off0 off n Hl; cbn; [done|].
  apply Forall_cons in Hl as [Hk Hl]. cbn in Hk.
  assert (Hs : 0 <= foldr (fun p k => snd p + k) 0 l).
  { clear -Hl. induction Hl; cbn; lia. }
  destruct (op =? op').
  - intros [= <- <-]. lia.
  - intros E. apply IH in E; [lia|done].
Qed.

(** Two members have no byte in common. *)
Lemma member_apart op op' l : forall off0 off n off' n',
  Forall (fun p => 0 <= snd p) l -> op <> op' ->
  member_at op off0 l = Some (off, n) -> member_at op' off0 l = Some (off', n') ->
  apart off n off' n'.
Proof.
  induction l as [|[o k] l IH]; intros off0 off n off' n' Hl Hne; cbn; [done|].
  apply Forall_cons in Hl as [Hk Hl]. cbn in Hk.
  destruct (Z.eqb_spec op o) as [->|], (Z.eqb_spec op' o) as [->|]; try done.
  - intros [= <- <-] E. apply member_bounds in E; [|done]. left. lia.
  - intros E [= <- <-]. apply member_bounds in E; [|done]. right. lia.
  - intros E E'. by eapply IH.
Qed.

Lemma map_sizes : Forall (fun p => 0 <= snd p) SMC_ROM_HOLE_MAP.
Proof. repeat constructor; discriminate. Qed.

Lemma region_in op n off :
  region_range op = Done (n, off) -> 0 <= off /\ 0 <= n /\ off + n <= SMC_ROM_HOLE_SIZE.
Proof.
  intros [(_ & -> & ->)|[_ E]]%region_cases; [unfold SMC_ROM_HOLE_SIZE; lia|].
  apply member_bounds in E; [|apply map_sizes].
  change (foldr _ _ _) with (32 * 1024) in E. unfold SMC_ROM_HOLE_SIZE. lia.
Qed.

Lemma region_apart op n off op' n' off' :
  op <> op' -> op <> FULL_REGION -> op' <> FULL_REGION ->
  region_range op = Done (n, off) -> region_range op' = Done (n', off') -> apart off n off' n'.
Proof.
  intros Hne Hf Hf' [[? _]|[_ E]]%region_cases [[? _]|[_ E']]%region_cases; try done.
  exact (member_apart op op' _ 0 off n off' n' map_sizes Hne E E').
Qed.

(** Patching a part of a buffer. *)
Definition splice (old : list Z) (off : Z) (bs : list Z) : list Z :=
  take (Z.to_nat off) old ++ bs ++ drop (Z.to_nat (off + zlen bs)) old.

Lemma zlen_splice old off bs :
  0 <= off -> off + zlen bs <= zlen old -> zlen (splice old off bs) = zlen old.
Proof. intros Ho Hl. unfold splice. zlen_pos. rewrite !zlen_app, zlen_take, zlen_drop. lia. Qed.

Lemma mread_patch m a b off bs n :
  zlen b = n -> 0 <= off -> off + zlen bs <= n ->
  mread (mwrite (mwrite m a b) (a + off) bs) a n = splice b off bs.
Proof.
  intros Hb Ho Hl. zlen_pos. unfold splice.
  rewrite (mread_cut _ a n off (n - off) (a + off)) by lia.
  rewrite (mread_cut _ (a + off) (n - off) (zlen bs) (n - off - zlen bs) (a + (off + zlen bs))) by lia.
  rewrite (mread_same _ (a + off)) by done.
  rewrite !(mread_other _ (a + off) bs) by (unfold apart; lia).
  f_equal; [|f_equal].
  - pose proof (mread_part (mwrite m a b) a n 0 off) as E. rewrite Z.add_0_r in E.
    rewrite E, mread_same by lia. by rewrite drop_0.
  - rewrite (mread_part (mwrite m a b) a n), mread_same by lia.
    apply take_ge. rewrite length_drop. unfold zlen in *. lia.
Qed.

(** What a part of a patched buffer holds. *)
Lemma splice_at old off bs :
  0 <= off -> off + zlen bs <= zlen old ->
  take (Z.to_nat (zlen bs)) (drop (Z.to_nat off) (splice old off bs)) = bs.
Proof.
  intros Ho Hl. unfold splice. zlen_pos. rewrite drop_app_zlen by (rewrite zlen_take; lia).
  by rewrite take_app_zlen.
Qed.

Lemma splice_other old off bs off' n' :
  0 <= off -> off + zlen bs <= zlen old -> 0 <= off' -> 0 <= n' -> off' + n' <= zlen old ->
  apart off (zlen bs) off' n' ->
  take (Z.to_nat n') (drop (Z.to_nat off') (splice old off bs)) =
  take (Z.to_nat n') (drop (Z.to_nat off') old).
Proof.
  intros Ho Hl Ho' Hn' Hl' Ha. apply list_eq. intros i. unfold splice.
  destruct (decide (i < Z.to_nat n')%nat) as [Hi|Hi].
  2:{ rewrite !lookup_take_ge by lia. done. }
  rewrite !lookup_take_lt, !lookup_drop by done. unfold apart, zlen in *.
  destruct Ha as [Ha|Ha].
  - rewrite lookup_app_r by (rewrite length_take; lia). rewrite lookup_app_r by (rewrite length_take; lia).
    rewrite lookup_drop, length_take. f_equal. lia.
  - rewrite lookup_app_l by (rewrite length_take; lia). apply lookup_take_lt. lia.
Qed.

(** ** What a write does *)
Section write_correct.
Context {F : Type} `{Flash F} {S : Type} `{CmosPorts S}.
Context (LOC : Z).

(** The bytes of the hole and of a region. *)
Definition hole_bytes (x : @hole F S) : list Z := mread (flash (h_flash x)) LOC SMC_ROM_HOLE_SIZE.
Definition region_bytes (x : @hole F S) (op : Z) : list Z :=
  match region_range op with
  | Done (n, off) => mread (flash (h_flash x)) (LOC + off) n
  | _ => []
  end.

(** Only the bytes of the hole may differ. *)
Definition only_hole (x x' : @hole F S) : Prop :=
  forall a, a < LOC \/ LOC + SMC_ROM_HOLE_SIZE <= a -> flash (h_flash x') a = flash (h_flash x) a.

Lemma size_pos : 0 <= SMC_ROM_HOLE_SIZE.
Proof. by vm_compute. Qed.
#[local] Opaque SMC_ROM_HOLE_SIZE.

Lemma zlen_hole x : zlen (hole_bytes x) = SMC_ROM_HOLE_SIZE.
Proof. apply zlen_mread, size_pos. Qed.

Lemma region_part x op n off :
  region_range op = Done (n, off) ->
  region_bytes x op = take (Z.to_nat n) (drop (Z.to_nat off) (hole_bytes x)).
Proof.
  intros E. pose proof (region_in _ _ _ E) as (? & ? & ?). unfold region_bytes. rewrite E.
  by apply mread_part.
Qed.

Lemma zlen_region x op n off : region_range op = Done (n, off) -> zlen (region_bytes x op) = n.
Proof. intros E. pose proof (region_in _ _ _ E). unfold region_bytes. rewrite E. apply zlen_mread. lia. Qed.

Lemma write_directly_spec tb (x : @hole F S) :
  exists st f, write_directly LOC tb x = (st, set_flash x f) /\ only_hole x (set_flash x f) /\
    (st = EFI_SUCCESS -> hole_bytes (set_flash x f) = mread (h_mem x) tb SMC_ROM_HOLE_SIZE).
Proof.
  unfold write_directly, on_flash, only_hole, hole_bytes. pose proof size_pos as Hp.
  set (img := mread (h_mem x) tb SMC_ROM_HOLE_SIZE).
  assert (Hi : zlen img = SMC_ROM_HOLE_SIZE) by (by apply zlen_mread).
  destruct (DeviceWriteEnable (h_flash x)) as [st1 f1] eqn:E1.
  assert (F1 : forall a, flash f1 a = flash (h_flash x) a)
    by (intros a; pose proof (DeviceWriteEnable_flash (h_flash x) a) as L; by rewrite E1 in L).
  destruct (EFI_ERROR st1) eqn:G1.
  { eexists _, f1. split; [done|]. split; [intros; apply F1|]. intros ->. discriminate G1. }
  destruct (FlashErase LOC SMC_ROM_HOLE_SIZE (h_flash (set_flash x f1))) as [st2 f2] eqn:E2. cbn [h_flash set_flash] in E2.
  assert (F2 : forall a, a < LOC \/ LOC + SMC_ROM_HOLE_SIZE <= a -> flash f2 a = flash (h_flash x) a).
  { intros a Ha. pose proof (FlashErase_out LOC SMC_ROM_HOLE_SIZE f1 a Ha) as L. rewrite E2 in L. by rewrite <- F1. }
  destruct (EFI_ERROR st2) eqn:G2.
  { eexists _, f2. split; [done|]. split; [exact F2|]. intros ->. discriminate G2. }
  assert (B2 : mread (flash f2) LOC SMC_ROM_HOLE_SIZE = replicate (Z.to_nat SMC_ROM_HOLE_SIZE) 0xff).
  { pose proof (FlashErase_in LOC SMC_ROM_HOLE_SIZE f1 Hp) as L. rewrite E2 in L. apply L. exact (no_error _ G2). }
  cbn [h_flash set_flash h_mem]. fold img. destruct (FlashWrite LOC img f2) as [st3 f3] eqn:E3.
  assert (F3 : forall a, a < LOC \/ LOC + SMC_ROM_HOLE_SIZE <= a -> flash f3 a = flash (h_flash x) a).
  { intros a Ha. pose proof (FlashWrite_out LOC img f2 a) as L. rewrite E3, Hi in L. cbn [snd] in L. rewrite L by done. by apply F2. }
  destruct (EFI_ERROR st3) eqn:G3.
  { eexists _, f3. split; [done|]. split; [exact F3|]. intros ->. discriminate G3. }
  cbn [h_flash set_flash]. destruct (DeviceWriteDisable f3) as [st4 f4] eqn:E4.
  assert (F4 : forall a, flash f4 a = flash f3 a)
    by (intros a; pose proof (DeviceWriteDisable_flash f3 a) as L; by rewrite E4 in L).
  eexists _, f4. split; [done|]. split; [intros a Ha; cbn; rewrite F4; by apply F3|].
  intros _. cbn [h_flash set_flash]. rewrite (mread_ext _ (flash f3)) by (intros; apply F4).
  pose proof (FlashWrite_in LOC img f2) as L. rewrite E3, Hi in L. apply L; [exact (no_error _ G3)|].
  assert (El : length img = Z.to_nat SMC_ROM_HOLE_SIZE) by (unfold zlen in Hi; lia).
  rewrite El. exact B2.
Qed.

(** The buffer before the flash is written. *)
Lemma write_prepares op pBuffer n off tb sw (x : @hole F S) HH HHH HL HLL ctl header :
  region_range op = Done (n, off) -> n <= zlen pBuffer ->
  exists m, let st := fst (FlashRead LOC SMC_ROM_HOLE_SIZE (h_flash x)) in
    (forall a, a < tb \/ tb + SMC_ROM_HOLE_SIZE <= a -> m a = h_mem x a) /\
    SmcRomHoleWriteRegion LOC HH HHH HL HLL ctl header true (Some tb) sw op pBuffer x =
      (if EFI_ERROR st then Done (st, set_mem x m)
       else if sw then
         '(Status, x) ← SmcSwSmiFlashWrite HH HHH HL HLL ctl header LOC SMC_ROM_HOLE_SIZE tb (set_mem x m);
         if EFI_ERROR Status then Done (write_directly LOC tb x) else Done (Status, x)
       else Done (write_directly LOC tb (set_mem x m))) /\
    (st = EFI_SUCCESS ->
       mread m tb SMC_ROM_HOLE_SIZE = splice (hole_bytes x) off (take (Z.to_nat n) pBuffer)).
Proof.
  intros Hr Hn. pose proof (region_in _ _ _ Hr) as (Ho & Hn0 & Hin). unfold SmcRomHoleWriteRegion. cbn [negb].
  rewrite Hr, bind_Done. pose proof (FlashRead_law LOC SMC_ROM_HOLE_SIZE (h_flash x) size_pos) as [Hl Hb].
  destruct (FlashRead LOC SMC_ROM_HOLE_SIZE (h_flash x)) as [st b]. cbn [fst snd] in Hl, Hb.
  destruct (EFI_ERROR st) eqn:Est.
  { exists (mwrite (h_mem x) tb b). cbn zeta. cbn [fst]. rewrite Est. split_and!; [|done|intros ->; discriminate Est].
    intros a Ha. apply mwrite_out. lia. }
  assert (Hs : zlen (take (Z.to_nat n) pBuffer) = n) by (rewrite zlen_take; lia).
  rewrite (rdn_as pBuffer [] (take (Z.to_nat n) pBuffer) (drop (Z.to_nat n) pBuffer)), bind_Done
    by (try done; by rewrite take_drop).
  set (src := take (Z.to_nat n) pBuffer) in *.
  rewrite (no_error _ Est) in Hb |- *.
  exists (mwrite (mwrite (h_mem x) tb b) (tb + off) src). cbn zeta. cbn [fst].
  split; [|split].
  - intros a Ha. rewrite !mwrite_out; [done|lia|lia].
  - cbn [EFI_ERROR set_mem h_mem]. by destruct sw.
  - intros _. rewrite (mread_patch _ _ _ _ _ SMC_ROM_HOLE_SIZE) by lia.
    f_equal. by apply Hb.
Qed.

(** What the regions hold after the hole was patched. *)
Lemma spliced_regions (x x' : @hole F S) op n off src :
  region_range op = Done (n, off) -> zlen src = n -> hole_bytes x' = splice (hole_bytes x) off src ->
  region_bytes x' op = src /\
  (op <> FULL_REGION -> forall op', op' <> op -> op' <> FULL_REGION -> region_bytes x' op' = region_bytes x op').
Proof.
  intros Hr Hs Hx. pose proof (region_in _ _ _ Hr) as (Ho & Hn0 & Hin). pose proof (zlen_hole x) as Hz. split.
  - rewrite (region_part x' op n off Hr), Hx, <- Hs. apply splice_at; lia.
  - intros Hf op' Hne Hf'. destruct (region_range op') as [[n' off']| |] eqn:Hr';
      [|by unfold region_bytes; rewrite Hr'..].
    pose proof (region_in _ _ _ Hr') as (? & ? & ?).
    rewrite !(region_part _ op' n' off' Hr'), Hx. apply splice_other; try lia.
    rewrite Hs. exact (region_apart op n off op' n' off' (not_eq_sym Hne) Hf Hf' Hr Hr').
Qed.
Lemma write_region_spec op pBuffer n off tb (x : @hole F S) HH HHH HL HLL ctl header :
  region_range op = Done (n, off) -> n <= zlen pBuffer ->
  exists st x',
    SmcRomHoleWriteRegion LOC HH HHH HL HLL ctl header true (Some tb) false op pBuffer x = Done (st, x') /\
    h_cm x' = h_cm x /\ only_hole x x' /\
    (st = EFI_SUCCESS ->
       region_bytes x' op = take (Z.to_nat n) pBuffer /\
       (op <> FULL_REGION -> forall op', op' <> op -> op' <> FULL_REGION ->
          region_bytes x' op' = region_bytes x op')).
Proof.
  intros Hr Hn. destruct (write_prepares op pBuffer n off tb false x HH HHH HL HLL ctl header Hr Hn)
    as (m & _ & E & Hm). cbn zeta in E, Hm. rewrite E. clear E. pose proof (region_in _ _ _ Hr) as (_ & Hn0 & _).
  revert Hm. generalize (fst (FlashRead LOC SMC_ROM_HOLE_SIZE (h_flash x))). intros st Hm.
  destruct (EFI_ERROR st) eqn:Est.
  { eexists st, _. split; [reflexivity|]. split; [reflexivity|]. split; [intros a _; reflexivity|].
    intros ->. discriminate Est. }
  specialize (Hm (no_error _ Est)). destruct (write_directly_spec tb (set_mem x m)) as (st' & f & -> & Ho & Hs).
  exists st', (set_flash (set_mem x m) f). split; [reflexivity|]. split; [reflexivity|]. split; [exact Ho|].
  intros Hst. apply (spliced_regions _ _ op n off); [exact Hr|rewrite zlen_take; lia|].
  rewrite (Hs Hst). exact Hm.
Qed.

(** C28: (functional) writing a region in DXE without the SMI: whatever the
    flash part reports, only bytes of the hole may change, and CMOS stays as
    it was; when it reports success, the region holds the first bytes of the
    caller's buffer and every other region its old bytes. *)
Theorem SmcRomHoleWriteRegion_correct op pBuffer n off tb (x : @hole F S) HH HHH HL HLL ctl header :
  region_range op = Done (n, off) -> n <= zlen pBuffer ->
  exists st x',
    SmcRomHoleWriteRegion LOC HH HHH HL HLL ctl header true (Some tb) false op pBuffer x = Done (st, x') /\
    h_cm x' = h_cm x /\ only_hole x x' /\
    (st = EFI_SUCCESS ->
       region_bytes x' op = take (Z.to_nat n) pBuffer /\
       (op <> FULL_REGION -> forall op', op' <> op -> op' <> FULL_REGION ->
          region_bytes x' op' = region_bytes x op')).
Proof. apply write_region_spec. Qed.

(** ** A write that fails on the way *)

(** The status of a sequence of calls that stops at the first error. *)
Fixpoint first_error (l : list EFI_STATUS) : EFI_STATUS :=
  match l with
  | [] => EFI_SUCCESS
  | st :: l => if EFI_ERROR st then st else first_error l
  end.

(** The four steps at the flash part, one by one. *)
Lemma write_directly_steps tb (x : @hole F S) st1 f1 st2 f2 st3 f3 st4 f4 :
  DeviceWriteEnable (h_flash x) = (st1, f1) -> FlashErase LOC SMC_ROM_HOLE_SIZE f1 = (st2, f2) ->
  FlashWrite LOC (mread (h_mem x) tb SMC_ROM_HOLE_SIZE) f2 = (st3, f3) -> DeviceWriteDisable f3 = (st4, f4) ->
  write_directly LOC tb x =
    (first_error [st1; st2; st3; st4],
     set_flash x (if EFI_ERROR st1 then f1 else if EFI_ERROR st2 then f2 else if EFI_ERROR st3 then f3 else f4)).
Proof.
  intros E1 E2 E3 E4. unfold write_directly, on_flash. rewrite E1. cbn [first_error].
  destruct (EFI_ERROR st1); [done|]. cbn [h_flash set_flash]. rewrite E2.
  destruct (EFI_ERROR st2); [done|]. cbn [h_flash set_flash h_mem]. rewrite E3.
  destruct (EFI_ERROR st3); [done|]. cbn [h_flash set_flash]. rewrite E4. destruct x.
  by destruct (EFI_ERROR st4) eqn:G; [|apply no_error in G as ->].
Qed.

(** C31: (error) the errors of a region write in DXE without the SMI, once the
    flash protocol and the buffer for the hole are there. The
    status is that of the first of the five flash calls (read, enable, erase,
    write, disable) that fails. When the read or the enable fails, no byte of
    the flash changed. When the write after the erase fails, nothing puts the
    old data back: in every region, not only the one written, each byte that
    the failing write left as it found it is 0xFF. When only the disable
    fails, the caller gets its error although the region holds the new data
    and the other regions their old. *)
Theorem SmcRomHoleWriteRegion_errors op pBuffer n off tb (x : @hole F S) HH HHH HL HLL ctl header :
  region_range op = Done (n, off) -> n <= zlen pBuffer ->
  let image := splice (hole_bytes x) off (take (Z.to_nat n) pBuffer) in
  let st0 := fst (FlashRead LOC SMC_ROM_HOLE_SIZE (h_flash x)) in
  let '(st1, f1) := DeviceWriteEnable (h_flash x) in
  let '(st2, f2) := FlashErase LOC SMC_ROM_HOLE_SIZE f1 in
  let '(st3, f3) := FlashWrite LOC image f2 in
  let '(st4, f4) := DeviceWriteDisable f3 in
  exists x',
    SmcRomHoleWriteRegion LOC HH HHH HL HLL ctl header true (Some tb) false op pBuffer x =
      Done (first_error [st0; st1; st2; st3; st4], x') /\
    (EFI_ERROR st0 || EFI_ERROR st1 = true -> forall a, flash (h_flash x') a = flash (h_flash x) a) /\
    (first_error [st0; st1] = EFI_SUCCESS -> EFI_ERROR st2 = true -> h_flash x' = f2) /\
    (first_error [st0; st1; st2] = EFI_SUCCESS -> EFI_ERROR st3 = true ->
       h_flash x' = f3 /\
       forall op' n' off' i, region_range op' = Done (n', off') -> 0 <= i < n' ->
         let a := LOC + off' + i in flash f3 a = flash f2 a -> flash (h_flash x') a = 0xff) /\
    (first_error [st0; st1; st2; st3] = EFI_SUCCESS ->
       region_bytes x' op = take (Z.to_nat n) pBuffer /\
       (op <> FULL_REGION -> forall op', op' <> op -> op' <> FULL_REGION ->
          region_bytes x' op' = region_bytes x op')).
Proof.
  intros Hr Hn image st0. destruct (write_prepares op pBuffer n off tb false x HH HHH HL HLL ctl header Hr Hn)
    as (m & _ & E & Hm). cbn zeta in E, Hm. fold st0 image in E, Hm. rewrite E. clear E.
  destruct (DeviceWriteEnable (h_flash x)) as [st1 f1] eqn:E1.
  destruct (FlashErase LOC SMC_ROM_HOLE_SIZE f1) as [st2 f2] eqn:E2.
  destruct (FlashWrite LOC image f2) as [st3 f3] eqn:E3. destruct (DeviceWriteDisable f3) as [st4 f4] eqn:E4.
  cbn [first_error]. destruct (EFI_ERROR st0) eqn:G0.
  { exists (set_mem x m). split; [reflexivity|]. split; [done|].
    by split_and!; intros ->. }
  apply no_error in G0. specialize (Hm G0).
  rewrite (write_directly_steps tb (set_mem x m) st1 f1 st2 f2 st3 f3 st4 f4 E1 E2) by (first [exact E4|cbn [h_mem set_mem]; by rewrite Hm]).
  eexists. split; [reflexivity|]. cbn [orb h_flash set_flash set_mem first_error].
  split_and!.
  - intros ->. intros a. pose proof (DeviceWriteEnable_flash (h_flash x) a) as L. by rewrite E1 in L.
  - intros H1 H2. destruct (EFI_ERROR st1) eqn:G1; [by subst st1|]. by rewrite H2.
  - intros H12 H3. destruct (EFI_ERROR st1) eqn:G1; [by subst st1|]. destruct (EFI_ERROR st2) eqn:G2; [by subst st2|].
    rewrite H3. split; [done|]. intros op' n' off' i Hr' Hi ->. pose proof (region_in _ _ _ Hr') as (? & ? & ?).
    pose proof (FlashErase_in LOC SMC_ROM_HOLE_SIZE f1 size_pos) as L. rewrite E2 in L. cbn [fst snd] in L.
    specialize (L (no_error _ G2)).
    apply (f_equal (fun l => l !! Z.to_nat (off' + i))) in L.
    rewrite lookup_replicate_2, mread_lookup in L by lia. injection L as L.
    by replace (LOC + off' + i) with (LOC + Z.of_nat (Z.to_nat (off' + i))) by lia.
  - intros H123. destruct (EFI_ERROR st1) eqn:G1; [by subst st1|]. destruct (EFI_ERROR st2) eqn:G2; [by subst st2|].
    destruct (EFI_ERROR st3) eqn:G3; [by subst st3|].
    pose proof (region_in _ _ _ Hr) as (? & ? & ?).
    apply (spliced_regions _ _ op n off); [exact Hr|rewrite zlen_take; lia|]. unfold hole_bytes at 1. cbn [h_flash set_flash].
    rewrite (mread_ext _ (flash f3)) by (intros a _; pose proof (DeviceWriteDisable_flash f3 a) as L; by rewrite E4 in L).
    fold image. assert (Hi : zlen image = SMC_ROM_HOLE_SIZE) by (rewrite <- Hm; apply zlen_mread, size_pos).
    pose proof (FlashWrite_in LOC image f2) as L. rewrite E3, Hi in L. apply L; [exact (no_error _ G3)|].
    pose proof (FlashErase_in LOC SMC_ROM_HOLE_SIZE f1 size_pos) as L2. rewrite E2 in L2. cbn [fst snd] in L2.
    rewrite L2 by exact (no_error _ G2). f_equal. unfold zlen in Hi. lia.
Qed.
End write_correct.

(** ** Writing through the SMI *)
Section smi.
Context {F : Type} `{Flash F} {S : Type} `{CmosPorts S}.
Context (LOC HH HHH HL HLL header : Z) (Trigger : Z -> Z -> @hole F S -> Res (EFI_STATUS * @hole F S)).

(** The SMI of the E9 value runs the handler; its status does not come back. *)
Hypothesis Trigger_E9 : forall port x,
  Trigger SWSMI_SMC_FLASH port x =
  ('(_, x) ← SmcSwSmiFlashCallBack HH HHH HL HLL true port x; Done (EFI_SUCCESS, x)).
Hypothesis tokens : whole_cells HH HHH HL HLL.
Hypothesis header_range : is_u32 header.

Definition flash_works : Prop :=
  (forall a n f, fst (FlashRead a n f) = EFI_SUCCESS) /\
  (forall a n f, fst (FlashErase a n f) = EFI_SUCCESS) /\
  (forall a bs f, fst (FlashWrite a bs f) = EFI_SUCCESS).

Lemma header_fields (m : mem) address size data :
  is_u64 address -> is_u64 size -> is_u64 data ->
  let m' := mwrite m header (flash_header address size data) in
  mr64 m' (header + H_FlashAddress) = address /\ mr64 m' (header + H_Size) = size /\
  mr64 m' (header + H_DataBuffer) = data.
Proof using.
  intros Ha Hs Hd m'.
  assert (E : mread m' header 24 = flash_header address size data).
  { apply mread_same. unfold flash_header. zl. }
  assert (L : forall v, zlen (le_bytes 8 v) = 8) by (intros; apply zlen_le_bytes).
  assert (P : forall i, 0 <= i -> i + 8 <= 24 ->
    mr64 m' (header + i) = le_val (take (Z.to_nat 8) (drop (Z.to_nat i) (flash_header address size data)))).
  { intros i Hi Hi'. unfold mr64. by rewrite (mread_part m' header 24 i 8), E by lia. }
  unfold H_FlashAddress, H_Size, H_DataBuffer. rewrite !P by lia. unfold flash_header.
  split_and!.
  - change (Z.to_nat 0) with 0%nat. rewrite drop_0, take_app_zlen by apply L. by apply le_val_8.
  - rewrite drop_app_zlen, take_app_zlen by apply L. by apply le_val_8.
  - rewrite app_assoc, drop_app_zlen by (rewrite zlen_app, !L; lia).
    rewrite take_ge by (pose proof (L data); unfold zlen in *; lia). by apply le_val_8.
Qed.

(** What the handler does with a request of [SmcSwSmiFlashWrite]. *)
Lemma smi_write_spec tb (x : @hole F S) :
  is_u64 LOC -> is_u64 tb -> apart header 24 tb SMC_ROM_HOLE_SIZE ->
  exists x', SmcSwSmiFlashWrite HH HHH HL HLL (Some Trigger) header LOC SMC_ROM_HOLE_SIZE tb x =
      Done (EFI_SUCCESS, x') /\ only_hole LOC x x' /\
    (exists c, get_address HH HHH HL HLL (h_cm x') = Done (header, c)) /\
    if DisableSmcSwSmiFlash x then h_flash x' = h_flash x
    else flash_works -> hole_bytes LOC x' = mread (h_mem x) tb SMC_ROM_HOLE_SIZE.
Proof using Trigger_E9 tokens header_range.
  intros HL64 Hb64 Hap. unfold SmcSwSmiFlashWrite. rewrite (u32_small header header_range).
  set (m := mwrite (h_mem x) header _).
  destruct (put_get_address _ _ _ _ header (h_cm (set_mem x m)) tokens header_range) as (c & -> & Hget).
  rewrite bind_Done, Trigger_E9. unfold SmcSwSmiFlashCallBack.
  cbn [DisableSmcSwSmiFlash set_cm set_mem h_cm h_mem h_flash].
  destruct (DisableSmcSwSmiFlash x) eqn:Ed.
  { rewrite bind_Done. eexists. split; [reflexivity|]. split; [intros a _; reflexivity|].
    split; [|reflexivity]. destruct (Hget c) as (c' & G & _); [reflexivity|]. exists c'. exact G. }
  change (SWSMI_E9_SUBCMD_FLASH_WRITE =? SWSMI_E9_SUBCMD_FLASH_WRITE) with true. cbn iota.
  destruct (Hget c) as (c' & G & Hc); [reflexivity|]. rewrite G, bind_Done.
  assert (Hsz : is_u64 SMC_ROM_HOLE_SIZE) by (split; [discriminate|reflexivity]).
  destruct (header_fields (h_mem x) LOC SMC_ROM_HOLE_SIZE tb HL64 Hsz Hb64) as (E1 & E2 & E3). fold m in E1, E2, E3.
  pose proof size_pos as Hp.
  assert (Hi : mread m tb SMC_ROM_HOLE_SIZE = mread (h_mem x) tb SMC_ROM_HOLE_SIZE).
  { apply mread_other. unfold flash_header, apart in *. rewrite !zlen_app, !zlen_le_bytes. lia. }
  unfold on_flash. cbn [h_flash set_cm set_mem h_mem]. destruct (DeviceWriteEnable (h_flash x)) as [st1 f1] eqn:D1.
  cbn [h_flash h_mem set_flash set_cm set_mem]. rewrite E1, E2, E3.
  destruct (FlashErase LOC SMC_ROM_HOLE_SIZE f1) as [st2 f2] eqn:D2. cbn [h_flash h_mem h_cm set_flash set_cm set_mem].
  rewrite Hi. set (img := mread (h_mem x) tb SMC_ROM_HOLE_SIZE).
  assert (Hz : zlen img = SMC_ROM_HOLE_SIZE) by (by apply zlen_mread).
  destruct (FlashWrite LOC img f2) as [st3 f3] eqn:D3. cbn [h_flash h_mem h_cm set_flash set_cm set_mem].
  destruct (DeviceWriteDisable f3) as [st4 f4] eqn:D4. rewrite bind_Done.
  assert (L4 : forall a, flash f4 a = flash f3 a)
    by (intros a; pose proof (DeviceWriteDisable_flash f3 a) as L; by rewrite D4 in L).
  eexists. split; [reflexivity|]. cbn [h_flash h_mem h_cm set_flash set_cm set_mem DisableSmcSwSmiFlash].
  split; [|split; [destruct (Hget c') as (c2 & G2 & _); [exact Hc|]; exists c2; exact G2|]].
  - intros a Ha. cbn [h_flash h_mem h_cm set_flash set_cm set_mem]. rewrite L4.
    pose proof (FlashWrite_out LOC img f2 a) as L. rewrite D3, Hz in L. cbn [snd] in L. rewrite L by exact Ha.
    pose proof (FlashErase_out LOC SMC_ROM_HOLE_SIZE f1 a Ha) as L'. rewrite D2 in L'. cbn [snd] in L'. rewrite L'.
    pose proof (DeviceWriteEnable_flash (h_flash x) a) as L1. by rewrite D1 in L1.
  - intros (_ & He & Hw). unfold hole_bytes. cbn [h_flash h_mem h_cm set_flash set_cm set_mem].
    rewrite (mread_ext _ (flash f3)) by (intros; apply L4).
    pose proof (FlashErase_in LOC SMC_ROM_HOLE_SIZE f1 Hp (He _ _ _)) as Hb. rewrite D2 in Hb. cbn [snd] in Hb.
    pose proof (FlashWrite_in LOC img f2 (Hw _ _ _)) as L. rewrite D3, Hz in L. cbn [snd] in L. apply L.
    assert (El : length img = Z.to_nat SMC_ROM_HOLE_SIZE) by (unfold zlen in Hz; lia).
    rewrite El. exact Hb.
Qed.

(** writing a region when the SMI flash driver is there and
    the flash part works: while its handler is enabled the region and only
    the region changes; once it was disabled before the OS boots, the flash
    keeps its bytes. The write reports success either way, and either way the
    four CMOS items hold the address of the request instead of what was in
    them. *)
Theorem SmcRomHoleWriteRegion_smi op pBuffer n off tb (x : @hole F S) :
  region_range op = Done (n, off) -> n <= zlen pBuffer -> flash_works ->
  is_u64 LOC -> is_u64 tb -> apart header 24 tb SMC_ROM_HOLE_SIZE ->
  exists x',
    SmcRomHoleWriteRegion LOC HH HHH HL HLL (Some Trigger) header true (Some tb) true op pBuffer x =
      Done (EFI_SUCCESS, x') /\
    only_hole LOC x x' /\ (exists c, get_address HH HHH HL HLL (h_cm x') = Done (header, c)) /\
    if DisableSmcSwSmiFlash x then h_flash x' = h_flash x
    else region_bytes LOC x' op = take (Z.to_nat n) pBuffer /\
      (op <> FULL_REGION -> forall op', op' <> op -> op' <> FULL_REGION ->
         region_bytes LOC x' op' = region_bytes LOC x op').
Proof using Trigger_E9 tokens header_range.
  intros Hr Hn Hw HL64 Hb64 Hap. pose proof (region_in _ _ _ Hr) as (_ & Hn0 & _).
  destruct (write_prepares LOC op pBuffer n off tb true x HH HHH HL HLL (Some Trigger) header Hr Hn)
    as (m & _ & E & Hm). rewrite E, (proj1 Hw) in *. clear E. cbn [EFI_ERROR].
  destruct (smi_write_spec tb (set_mem x m) HL64 Hb64 Hap) as (x' & -> & Ho & Hc & Hs).
  rewrite bind_Done. cbn [EFI_ERROR]. exists x'. split; [reflexivity|]. split; [exact Ho|]. split; [exact Hc|].
  cbn [DisableSmcSwSmiFlash set_mem] in Hs. destruct (DisableSmcSwSmiFlash x); [exact Hs|].
  apply (spliced_regions LOC _ _ op n off); [exact Hr|rewrite zlen_take; lia|].
  rewrite (Hs Hw). by apply Hm.
Qed.

(** the SMM copy of the library writes a region exactly as
    the DXE copy does without the SMI, the order of its steps notwithstanding,
    on a flash part that works. *)
Theorem Smm_write_same op pBuffer n off tb (x : @hole F S) ctl :
  region_range op = Done (n, off) -> op <> FULL_REGION -> n <= zlen pBuffer -> flash_works ->
  (forall f, fst (DeviceWriteEnable f) = EFI_SUCCESS) ->
  SmcRomHoleWriteRegion_Smm LOC true (Some tb) op pBuffer x =
  SmcRomHoleWriteRegion LOC HH HHH HL HLL ctl header true (Some tb) false op pBuffer x.
Proof using.
  intros Hr Hf Hn (Hrd & Her & Hwr) Hen. pose proof (region_in _ _ _ Hr) as (Ho & Hn0 & Hi).
  unfold SmcRomHoleWriteRegion_Smm, SmcRomHoleWriteRegion, write_directly, on_flash. cbn [negb]. rewrite Hr, bind_Done.
  apply region_cases in Hr as [[? _]|[_ Hr]]; [done|].
  assert (Esz : SmcRomHoleSize op = Done n) by (unfold SmcRomHoleSize; by rewrite Hr).
  assert (Eoff : SmcRomHoleOffset op = Done off) by (unfold SmcRomHoleOffset; by rewrite Hr).
  assert (Esrc : rdn pBuffer 0 n = Done (take (Z.to_nat n) pBuffer)).
  { apply (rdn_as pBuffer [] _ (drop (Z.to_nat n) pBuffer)); [by rewrite take_drop|reflexivity|rewrite zlen_take; lia]. }
  pose proof (Hen (h_flash x)) as H1. pose proof (DeviceWriteEnable_flash (h_flash x)) as L1.
  pose proof (FlashRead_law LOC SMC_ROM_HOLE_SIZE (h_flash x) size_pos) as [_ R1].
  specialize (R1 (Hrd _ _ _)).
  pose proof (Hrd LOC SMC_ROM_HOLE_SIZE (h_flash x)) as S1.
  destruct (FlashRead LOC SMC_ROM_HOLE_SIZE (h_flash x)) as [s1 b1]. cbn [fst snd] in *. subst s1 b1.
  destruct (DeviceWriteEnable (h_flash x)) as [st1 f1] eqn:D1. cbn [fst snd] in *. subst st1.
  cbn [EFI_ERROR h_flash set_flash set_mem h_mem]. rewrite Esz, bind_Done, Eoff, !bind_Done, Esrc, !bind_Done.
  pose proof (FlashRead_law LOC SMC_ROM_HOLE_SIZE f1 size_pos) as [_ R2]. specialize (R2 (Hrd _ _ _)).
  pose proof (Hrd LOC SMC_ROM_HOLE_SIZE f1) as S2.
  destruct (FlashRead LOC SMC_ROM_HOLE_SIZE f1) as [s2 b2]. cbn [fst snd] in *. subst s2 b2.
  rewrite (mread_ext (flash f1) (flash (h_flash x))) by (intros; apply L1). cbn [EFI_ERROR].
  cbn [EFI_ERROR h_flash set_flash set_mem h_mem]. rewrite D1. cbn [EFI_ERROR h_flash set_flash set_mem h_mem].
  pose proof (Her LOC SMC_ROM_HOLE_SIZE f1) as S3.
  destruct (FlashErase LOC SMC_ROM_HOLE_SIZE f1) as [s3 f3]. cbn [fst snd] in *. subst s3.
  cbn [EFI_ERROR h_flash set_flash set_mem h_mem].
  rewrite ?bind_Done. set (img := mread _ tb SMC_ROM_HOLE_SIZE).
  destruct (FlashWrite LOC img f3) as [s4 f4]. destruct (EFI_ERROR s4); [reflexivity|].
  cbn [h_flash h_mem h_cm set_flash set_cm set_mem]. destruct (DeviceWriteDisable f4). reflexivity.
Qed.
End smi.

(** [FULL_REGION] has no entry in the tables the SMM copy reads. *)
Lemma Smm_full_region {F} `{Flash F} {S} `{CmosPorts S} LOC tb pBuffer (x : @hole F S) :
  (forall f, fst (DeviceWriteEnable f) = EFI_SUCCESS) ->
  SmcRomHoleWriteRegion_Smm LOC true (Some tb) FULL_REGION pBuffer x = Fault.
Proof.
  intros Hen. unfold SmcRomHoleWriteRegion_Smm, on_flash. pose proof (Hen (h_flash x)) as E. cbn [negb].
  destruct (DeviceWriteEnable (h_flash x)). cbn in E. by subst.
Qed.

(** ** The region services of a board

    The DXE library over a flash part, with variables in memory: what the
    module calls through [SmcRomHoleProtocol] keeps the laws of [Firmware]. *)
Section board.
Context {F : Type} `{Flash F} {S : Type} `{CmosPorts S}.

(** The location of the hole, whether the library found the flash protocol,
    what [AllocatePool] returns. *)
Record board := mkBoard {
  bd_loc : Z; bd_located : bool; bd_pool : option Z; bd_hole : @hole F S;
  bd_vars : gmap (list Z * list Z) (Z * list Z); bd_resets : list Z }.

Definition set_hole (w : board) (x : hole) : board :=
  mkBoard (bd_loc w) (bd_located w) (bd_pool w) x (bd_vars w) (bd_resets w).

Definition board_read (op : Z) (w : board) : EFI_STATUS * list Z :=
  match region_range op with
  | Done (n, _) =>
      match SmcRomHoleReadRegion (bd_loc w) (bd_located w) op (replicate (Z.to_nat n) 0) (bd_hole w) with
      | Done r => r
      | _ => (EFI_INVALID_PARAMETER, replicate (Z.to_nat n) 0)
      end
  | _ => (EFI_INVALID_PARAMETER, [])
  end.

Definition board_write (op : Z) (b : list Z) (w : board) : EFI_STATUS * board :=
  match SmcRomHoleWriteRegion (bd_loc w) 0 0 0 0 None 0 (bd_located w) (bd_pool w) false op b (bd_hole w) with
  | Done (st, x) => (st, set_hole w x)
  | _ => (EFI_INVALID_PARAMETER, w)
  end.

Lemma board_read_law op w st b :
  board_read op w = (st, b) ->
  zlen b = zlen (region_bytes (bd_loc w) (bd_hole w) op) /\
  (st = EFI_SUCCESS -> b = region_bytes (bd_loc w) (bd_hole w) op).
Proof.
  unfold board_read. destruct (region_range op) as [[n off]| |] eqn:Hr;
    [|intros [= <- <-]; unfold region_bytes; rewrite Hr; by split..].
  pose proof (region_in _ _ _ Hr) as (Ho & Hn & Hi). rewrite (zlen_region _ _ _ _ _ Hr).
  assert (Hz : zlen (replicate (Z.to_nat n) 0) = n) by (rewrite zlen_replicate; lia).
  unfold SmcRomHoleReadRegion. destruct (bd_located w); cbn [negb]; [|intros [= <- <-]; by split].
  rewrite Hr, bind_Done. unfold region_bytes. rewrite Hr.
  pose proof (FlashRead_law (bd_loc w + off) n (h_flash (bd_hole w)) Hn) as [Hl Hb].
  destruct (FlashRead (bd_loc w + off) n (h_flash (bd_hole w))) as [st' b']. cbn [fst snd] in Hl, Hb.
  pose proof (wrn_at [] (replicate (Z.to_nat n) 0) [] 0 b' eq_refl ltac:(lia)) as E.
  cbn [app] in E. rewrite !app_nil_r in E. rewrite E, bind_Done. intros [= <- <-]. by split.
Qed.

Lemma board_write_law op b w :
  let w' := snd (board_write op b w) in
  bd_loc w' = bd_loc w /\ bd_vars w' = bd_vars w /\ bd_resets w' = bd_resets w /\
  (fst (board_write op b w) = EFI_SUCCESS ->
     (zlen b = zlen (region_bytes (bd_loc w) (bd_hole w) op) ->
        region_bytes (bd_loc w) (bd_hole w') op = b) /\
     forall op', op' <> op -> op <> FULL_REGION -> op' <> FULL_REGION ->
       region_bytes (bd_loc w) (bd_hole w') op' = region_bytes (bd_loc w) (bd_hole w) op').
Proof.
  unfold board_write. destruct (SmcRomHoleWriteRegion _ _ _ _ _ _ _ _ _ _ _ _ _) as [[st x]| |] eqn:E;
    [|by split_and!..].
  cbn [fst snd set_hole bd_loc bd_vars bd_resets bd_hole]. split_and!; [done..|]. intros ->.
  unfold SmcRomHoleWriteRegion in E. destruct (bd_located w); [|discriminate E]. cbn [negb] in E.
  destruct (bd_pool w) as [tb|] eqn:Et; [|discriminate E].
  destruct (region_range op) as [[n off]| |] eqn:Hr; [|discriminate E..].
  pose proof (region_in _ _ _ Hr) as (_ & Hn0 & _). pose proof (zlen_region (bd_loc w) (bd_hole w) _ _ _ Hr) as Hz.
  assert (Hn : n <= zlen b).
  { rewrite bind_Done in E. destruct (FlashRead _ _ _) as [st1 b1]. destruct (EFI_ERROR st1) eqn:G1.
    - injection E as -> _. discriminate G1.
    - apply bind_inv in E as (src & Es & _). apply rdn_Done in Es. lia. }
  destruct (write_region_spec (bd_loc w) op b n off tb (bd_hole w) 0 0 0 0 None 0 Hr Hn) as (st' & x' & E' & _ & _ & Hs).
  unfold SmcRomHoleWriteRegion in E'. cbn [negb] in E'. rewrite Hr in E'. rewrite E' in E.
  injection E as -> ->. destruct (Hs eq_refl) as [H1 H2]. split.
  - intros Hl. rewrite H1, take_ge; [done|]. unfold zlen in *. lia.
  - intros op' ? ? ?. by apply H2.
Qed.
End board.

#[export, program] Instance Board_firmware {F} `{Flash F} {S} `{CmosPorts S} : Firmware (@board F S) := {
  var w n g := bd_vars w !! (n, g);
  rom w := region_bytes (bd_loc w) (bd_hole w);
  resets := bd_resets;
  GetVariable n g size w := get_result (bd_vars w !! (n, g)) size;
  SetVariable n g a d w :=
    (EFI_SUCCESS, mkBoard (bd_loc w) (bd_located w) (bd_pool w) (bd_hole w) (put_var n g a d (bd_vars w)) (bd_resets w));
  Services.SmcRomHoleReadRegion := board_read;
  Services.SmcRomHoleWriteRegion := board_write;
  IoWrite8_cf9 v w :=
    mkBoard (bd_loc w) (bd_located w) (bd_pool w) (bd_hole w) (bd_vars w) (bd_resets w ++ [v]);
}.
Next Obligation. done. Qed.
Next Obligation.
  intros F HF S HS n g a d w. cbn. destruct d; cbn; [apply lookup_delete_eq|apply lookup_insert_eq].
Qed.
Next Obligation.
  intros F HF S HS n g a d w n' g' Hne. cbn.
  destruct d; [apply lookup_delete_ne|apply lookup_insert_ne]; congruence.
Qed.
Next Obligation. done. Qed.
Next Obligation. done. Qed.
Next Obligation. intros F HF S HS op w st b E. by apply board_read_law. Qed.
Next Obligation.
  intros F HF S HS op b w Hl Hs. destruct (board_write_law op b w) as (E & _ & _ & L). cbn. rewrite E.
  by apply L.
Qed.
Next Obligation.
  intros F HF S HS op b w op'. destruct (board_write_law op b w) as (E & _). cbn. rewrite E. clear E.
  unfold region_bytes. destruct (region_range op') as [[n off]| |] eqn:Hr; [|done..].
  pose proof (region_in _ _ _ Hr). rewrite !zlen_mread by lia. done.
Qed.
Next Obligation.
  intros F HF S HS op b w op' Hne Hf Hf' Hs. destruct (board_write_law op b w) as (E & _ & _ & L). cbn. rewrite E.
  by apply L.
Qed.
Next Obligation. intros F HF S HS op b w. cbn. by destruct (board_write_law op b w) as (_ & -> & _). Qed.
Next Obligation. intros F HF S HS op b w. by destruct (board_write_law op b w) as (_ & _ & E & _). Qed.
Next Obligation. done. Qed.
Next Obligation. done. Qed.
Next Obligation. done. Qed.

(** ** Two flash parts in memory *)

(** One that does what it is told, and one that never writes. *)
Record MemFlash := mkMemFlash { mf : mem }.
Record BrokenFlash := mkBroken { bf : mem }.

Definition erased (n : Z) : list Z := replicate (Z.to_nat n) 0xff.

Lemma erased_in m a n : 0 <= n -> mread (mwrite m a (erased n)) a n = replicate (Z.to_nat n) 0xff.
Proof. intros Hn. apply mread_same. unfold erased. rewrite zlen_replicate. lia. Qed.

Lemma erased_out m a n x : x < a \/ a + n <= x -> mwrite m a (erased n) x = m x.
Proof.
  intros Hx. destruct (Z.le_gt_cases 0 n).
  - apply mwrite_out. unfold erased. rewrite zlen_replicate. lia.
  - unfold erased. apply mwrite_out. rewrite zlen_replicate. lia.
Qed.

#[export, program] Instance MemFlash_flash : Flash MemFlash := {
  flash := mf;
  FlashRead a n f := (EFI_SUCCESS, mread (mf f) a n);
  FlashErase a n f := (EFI_SUCCESS, mkMemFlash (mwrite (mf f) a (erased n)));
  FlashWrite a bs f := (EFI_SUCCESS, mkMemFlash (mwrite (mf f) a bs));
  DeviceWriteEnable f := (EFI_SUCCESS, f);
  DeviceWriteDisable f := (EFI_SUCCESS, f);
}.
Next Obligation. intros a n f Hn. split; [by apply zlen_mread|done]. Qed.
Next Obligation. intros a n f Hn _. by apply erased_in. Qed.
Next Obligation. intros a n f x Hx. by apply erased_out. Qed.
Next Obligation. intros a bs f _ _. by apply mread_same. Qed.
Next Obligation. intros a bs f x Hx. by apply mwrite_out. Qed.
Next Obligation. done. Qed.
Next Obligation. done. Qed.

#[export, program] Instance BrokenFlash_flash : Flash BrokenFlash := {
  flash := bf;
  FlashRead a n f := (EFI_SUCCESS, mread (bf f) a n);
  FlashErase a n f := (EFI_SUCCESS, mkBroken (mwrite (bf f) a (erased n)));
  FlashWrite a bs f := (EFI_DEVICE_ERROR, f);
  DeviceWriteEnable f := (EFI_SUCCESS, f);
  DeviceWriteDisable f := (EFI_SUCCESS, f);
}.
Next Obligation. intros a n f Hn. split; [by apply zlen_mread|done]. Qed.
Next Obligation. intros a n f Hn _. by apply erased_in. Qed.
Next Obligation. intros a n f x Hx. by apply erased_out. Qed.
Next Obligation. intros a bs f. done. Qed.
Next Obligation. done. Qed.
Next Obligation. done. Qed.
Next Obligation. done. Qed.

Definition demo_hole {F} (f : F) (disabled : bool) : @hole F RTC :=
  mkHole (fun _ => 0) (mkRTC 0 (fun _ => 0)) f disabled.

Definition demo_Trigger (_ port : Z) (x : @hole MemFlash RTC) : Res (EFI_STATUS * @hole MemFlash RTC) :=
  '(_, x) ← SmcSwSmiFlashCallBack (0x8000 + 8 * 1) (0x8000 + 8 * 2) (0x8000 + 8 * 3) (0x8000 + 8 * 4) true port x;
  Done (EFI_SUCCESS, x).

Lemma demo_works : @flash_works MemFlash _.
Proof. by split_and!. Qed.

Lemma SmcRomHoleWriteRegion_correct_witness :
  exists x', SmcRomHoleWriteRegion 0xff000000 0 0 0 0 None 0 true (Some 0x100000) false OA3_REGION
      (replicate 2048 7) (demo_hole (mkMemFlash (fun _ => 3)) false) = Done (EFI_SUCCESS, x') /\
    take 2 (region_bytes 0xff000000 x' OA3_REGION) = [7; 7] /\
    take 2 (region_bytes 0xff000000 x' OA2_REGION) = [3; 3].
Proof.
  destruct (SmcRomHoleWriteRegion_correct 0xff000000 OA3_REGION (replicate 2048 7) 2048 0 0x100000
    (demo_hole (mkMemFlash (fun _ => 3)) false) 0 0 0 0 None 0) as (st & x' & E & _ & _ & Hs).
  - reflexivity.
  - by vm_compute.
  - assert (st = EFI_SUCCESS) as -> by (symmetry; apply (f_equal (fun r => match r with Done (s, _) => s | _ => EFI_ABORTED end)) in E; exact E).
    destruct (Hs eq_refl) as [H1 H2]. exists x'. split; [exact E|]. rewrite H1, H2 by discriminate.
    split; [by vm_compute|]. vm_compute. reflexivity.
Defined.

Lemma SmcRomHoleWriteRegion_errors_witness :
  exists x', SmcRomHoleWriteRegion 0xff000000 0 0 0 0 None 0 true (Some 0x100000) false CURRENT_SMBIOS_REGION
      (replicate 4096 7) (demo_hole (mkBroken (fun _ => 3)) false) = Done (EFI_DEVICE_ERROR, x') /\
    flash (h_flash x') (0xff000000 + 0 + 1) = 0xff.
Proof.
  destruct (SmcRomHoleWriteRegion_errors 0xff000000 CURRENT_SMBIOS_REGION (replicate 4096 7) 4096 (24 * 1024) 0x100000
    (demo_hole (mkBroken (fun _ => 3)) false) 0 0 0 0 None 0) as (x' & E & _ & _ & Hb & _).
  - reflexivity.
  - by vm_compute.
  - exists x'. split; [exact E|]. destruct (Hb eq_refl eq_refl) as [_ Hx].
    apply (Hx OA3_REGION 2048 0 1); [reflexivity|by split|reflexivity].
Defined.

Lemma SmcRomHoleWriteRegion_smi_witness :
  exists x', SmcRomHoleWriteRegion 0xff000000 (0x8000 + 8 * 1) (0x8000 + 8 * 2) (0x8000 + 8 * 3) (0x8000 + 8 * 4)
      (Some demo_Trigger) 0x7000 true (Some 0x100000) true OA2_REGION (replicate 2048 7)
      (demo_hole (mkMemFlash (fun _ => 3)) true) = Done (EFI_SUCCESS, x') /\
    h_flash x' = mkMemFlash (fun _ => 3).
Proof.
  destruct (SmcRomHoleWriteRegion_smi 0xff000000 (0x8000 + 8 * 1) (0x8000 + 8 * 2) (0x8000 + 8 * 3) (0x8000 + 8 * 4)
    0x7000 demo_Trigger (fun _ _ => eq_refl) ltac:(unfold whole_cells, byte_token, tokens_apart; split_and!; reflexivity)
    ltac:(split; [discriminate|reflexivity]) OA2_REGION (replicate 2048 7) 2048 2048 0x100000
    (demo_hole (mkMemFlash (fun _ => 3)) true)) as (x' & E & _ & _ & Hf).
  - reflexivity.
  - by vm_compute.
  - exact demo_works.
  - split; [discriminate|reflexivity].
  - split; [discriminate|reflexivity].
  - left. by vm_compute.
  - exists x'. split; [exact E|exact Hf].
Defined.

Lemma Smm_write_same_witness :
  SmcRomHoleWriteRegion_Smm 0xff000000 true (Some 0x100000) INBAND_REGION (replicate (Z.to_nat 12288) 9)
      (demo_hole (mkMemFlash (fun _ => 3)) false) =
  SmcRomHoleWriteRegion 0xff000000 0 0 0 0 None 0 true (Some 0x100000) false INBAND_REGION
      (replicate (Z.to_nat 12288) 9) (demo_hole (mkMemFlash (fun _ => 3)) false).
Proof.
  apply (Smm_write_same 0xff000000 0 0 0 0 0 INBAND_REGION (replicate (Z.to_nat 12288) 9) 12288 (12 * 1024) 0x100000
    (demo_hole (mkMemFlash (fun _ => 3)) false) None).
  - reflexivity.
  - discriminate.
  - by vm_compute.
  - exact demo_works.
  - done.
Defined.
