(* ===== verification/FullSm.v ===== *)
(** * The full SMBIOS table

    Models [CombineFullSmBios] of [SmcInBand/SmcInBandFullSM.c]: the search for
    the SMBIOS entry point on 16-byte boundaries below 1 MB, and the copy of
    the table behind a checksummed header. *)

From S2P Require Import Prelude PhysMem.

Definition SM_SIGNATURE : Z := 0x5F4D535F.
Definition SM_START : Z := 0x000F0000.
Definition SM_END : Z := 0x000FFFFF.

Definition sizeof_FullSmBios_Header : Z := 18.

(** Fields of [SMBIOS_TABLE_ENTRY_POINT]. *)
Definition EP_TableLength (m : mem) (p : Z) : Z := mr16 m (p + 22).
Definition EP_TableAddress (m : mem) (p : Z) : Z := mr32 m (p + 24).

(** The pointer is a [UINT32*]: adding 4 moves it by 16. *)
Definition sm_step (m : mem) (pSAddr : Z) : Res (Z + option Z) :=
  if pSAddr <=? SM_END then
    if SM_SIGNATURE =? mr32 m pSAddr then Done (inr (Some pSAddr))
    else Done (inl (pSAddr + 16))
  else Done (inr None).

Definition SM_FUEL : nat := Z.to_nat 4097.

(** The checksum loop reads and writes the byte in the header. *)
Definition add_checksum (BuffAddress : Z) (m : mem) (a : Z) : Res mem :=
  Done (mw8 m (BuffAddress + 10) (mr8 m (BuffAddress + 10) + mr8 m a)).

Section full.
Context (FullSmbiosVersion SmbiosMajorVersion SmbiosMinorVersion SmbiosDocVersion : Z).

(** The header in front of a table of [Length] bytes, its sum still 0. *)
Definition put_header (BuffAddress Length : Z) (m : mem) : mem :=
  let m := mwrite m BuffAddress [0x5f; 0x53; 0x4d; 0x5f] in
  let m := mwrite m (BuffAddress + 4) (le_bytes 2 FullSmbiosVersion) in
  let m := mw32 m (BuffAddress + 6) Length in
  let m := mw8 m (BuffAddress + 10) 0 in
  let m := mw8 m (BuffAddress + 12) SmbiosMajorVersion in
  let m := mw8 m (BuffAddress + 13) SmbiosMinorVersion in
  mw8 m (BuffAddress + 14) SmbiosDocVersion.

(** Returns the memory and [*BuffSize]. *)
Definition CombineFullSmBios (BuffAddress : Z) (m : mem) : Res (mem * Z) :=
  r ← loop SM_FUEL (sm_step m) SM_START;
  match r with
  | None => Done (m, 0)
  | Some pSAddr =>
      let pTAddr := EP_TableAddress m pSAddr in
      let Length := EP_TableLength m pSAddr in
      let m := put_header BuffAddress Length m in
      m ← foldM (add_checksum BuffAddress)
            (map (fun i => pTAddr + Z.of_nat i) (seq 0 (Z.to_nat Length))) m;
      let m := mwrite m (BuffAddress + sizeof_FullSmBios_Header) (mread m pTAddr Length) in
      Done (m, sizeof_FullSmBios_Header + Length)
  end.
End full.

(** ** The search *)
Lemma sm_search m k p :
  SM_START <= p -> p + 16 * Z.of_nat k = SM_START + 16 * 4096 ->
  (exists r, loop (S k) (sm_step m) p = Done r /\
    match r with
    | Some q => p <= q <= SM_END /\ (q - p) mod 16 = 0 /\ mr32 m q = SM_SIGNATURE /\
        forall x, p <= x < q -> (x - p) mod 16 = 0 -> mr32 m x <> SM_SIGNATURE
    | None => forall x, p <= x <= SM_END -> (x - p) mod 16 = 0 -> mr32 m x <> SM_SIGNATURE
    end).
Proof.
  revert p. induction k as [|k IH]; intros p Hp Hk; rewrite loop_S.
  - replace (sm_step m p) with (Done (inr None) : Res (Z + option Z)).
    2: { unfold sm_step, SM_START, SM_END in *. by replace (p <=? 1048575) with false by lia. }
    exists None. split; [done|]. unfold SM_START, SM_END in *. intros x Hx. lia.
  - replace (sm_step m p) with (if SM_SIGNATURE =? mr32 m p then Done (inr (Some p))
      else Done (inl (p + 16)) : Res (Z + option Z)).
    2: { unfold sm_step. by replace (p <=? SM_END) with true by (unfold SM_START, SM_END in *; lia). }
    destruct (Z.eqb_spec SM_SIGNATURE (mr32 m p)) as [E|E].
    + exists (Some p). split; [done|]. unfold SM_START, SM_END in *.
      rewrite Z.sub_diag. split_and!; try done; lia.
    + destruct (IH (p + 16)) as (r & Er & Hr); [lia|lia|]. rewrite bind_Done.
      exists r. split; [done|].
      assert (Hmod : forall x, (x - p) mod 16 = (x - (p + 16)) mod 16).
      { intros x. replace (x - p) with ((x - (p + 16)) + 1 * 16) by lia. apply Z.mod_add. lia. }
      assert (Hnear : forall x, p <= x < p + 16 -> (x - p) mod 16 = 0 -> x = p).
      { intros x Hx. rewrite Z.mod_small by lia. lia. }
      destruct r as [q|].
      * destruct Hr as (H1 & H2 & H3 & H4). rewrite Hmod. split_and!; try done; try lia.
        intros x Hx Hm. destruct (Z.lt_ge_cases x (p + 16)) as [Hlt|Hge].
        -- rewrite (Hnear x) by (done || lia). congruence.
        -- apply H4; [lia|by rewrite <- Hmod].
      * intros x Hx Hm. destruct (Z.lt_ge_cases x (p + 16)) as [Hlt|Hge].
        -- rewrite (Hnear x) by (done || lia). congruence.
        -- apply Hr; [lia|by rewrite <- Hmod].
Qed.

(** The running sum, while the table is not the byte it is kept in. *)
Lemma checksum_loop B m l c :
  Forall (fun a => a <> B + 10) l -> is_u8 c -> mr8 m (B + 10) = c ->
  exists m', foldM (add_checksum B) l m = Done m' /\
    m' (B + 10) = u8 (c + zsum (map m l)) /\ forall x, x <> B + 10 -> m' x = m x.
Proof.
  intros Hl. revert m c. induction Hl as [|a l Ha Hl IH]; intros m c Hc Hm; cbn [foldM map zsum].
  - exists m. rewrite Z.add_0_r, u8_small by done. done.
  - change (add_checksum B m a) with (Done (mw8 m (B + 10) (mr8 m (B + 10) + mr8 m a))).
    rewrite bind_Done, Hm. unfold mr8.
    set (m1 := mw8 m (B + 10) (c + m a)).
    assert (H1 : m1 (B + 10) = u8 (c + m a)).
    { apply mr8_mw8. }
    assert (H2 : forall x, x <> B + 10 -> m1 x = m x).
    { intros x Hx. apply mwrite_out. rewrite zlen_cons, zlen_nil. lia. }
    destruct (IH m1 (u8 (c + m a))) as (m' & E & E1 & E2); [apply u8_range|done|].
    exists m'. split; [done|]. split.
    + rewrite E1. assert (Hex : map m1 l = map m l).
      { apply map_ext_in. intros x Hx. apply H2. revert x Hx. by apply List.Forall_forall. }
      rewrite Hex. unfold u8. rewrite Z.add_mod_idemp_l by lia. f_equal. lia.
    + intros x Hx. rewrite E2 by done. by apply H2.
Qed.

Lemma checksum_total B l m : exists m', foldM (add_checksum B) l m = Done m'.
Proof. revert m. induction l as [|a l IH]; intros m; cbn [foldM]; [eauto|apply IH]. Qed.

Lemma map_seq_mread m a n : map m (map (fun i => a + Z.of_nat i) (seq 0 (Z.to_nat n))) = mread m a n.
Proof. unfold mread. by rewrite map_map. Qed.

Definition full_header (Version Length sum Major Minor Doc : Z) (flag : Z) (r3 : list Z) : list Z :=
  [0x5f; 0x53; 0x4d; 0x5f] ++ le_bytes 2 Version ++ le_bytes 4 Length ++
  [sum; flag; u8 Major; u8 Minor; u8 Doc] ++ r3.

(** What the header writes change, and what they leave. *)
Lemma put_header_out V Ma Mi D B n m x :
  x < B \/ B + 15 <= x \/ x = B + 11 -> put_header V Ma Mi D B n m x = m x.
Proof.
  intros Hx. unfold put_header, mw8, mw32.
  rewrite !mwrite_out by (rewrite ?zlen_le_bytes, ?zlen_cons, ?zlen_nil; lia). done.
Qed.

Lemma put_header_sum V Ma Mi D B n m : mr8 (put_header V Ma Mi D B n m) (B + 10) = 0.
Proof.
  unfold put_header. unfold mw8 at 1 2 3. rewrite !mr8_other by (unfold apart; zl). apply mr8_mw8.
Qed.

(** A memory that agrees with the header writes except for the sum reads as
    the header. *)
Lemma put_header_read V Ma Mi D B n m m' sum :
  m' (B + 10) = sum ->
  (forall x, B <= x < B + 18 -> x <> B + 10 -> m' x = put_header V Ma Mi D B n m x) ->
  mread m' B 18 = full_header V n sum Ma Mi D (m (B + 11)) (mread m (B + 15) 3).
Proof.
  intros Hs Hm'. set (m7 := put_header V Ma Mi D B n m) in *.
  assert (Hpart : forall i k, 0 <= i -> i + k <= 18 -> i + k <= 10 \/ 11 <= i ->
     mread m' (B + i) k = mread m7 (B + i) k).
  { intros i k Hi Hk Hik. apply mread_ext. intros x Hx. apply Hm'; lia. }
  unfold full_header. rewrite <- (Z.add_0_r B) at 1.
  rewrite (mread_cut m' (B + 0) 18 4 14 (B + 4)), (Hpart 0 4) by lia.
  rewrite (mread_cut m' (B + 4) 14 2 12 (B + 6)), (Hpart 4 2) by lia.
  rewrite (mread_cut m' (B + 6) 12 4 8 (B + 10)), (Hpart 6 4) by lia.
  rewrite (mread_cut m' (B + 10) 8 1 7 (B + 11)), mread_1, Hs by lia.
  rewrite (mread_cut m' (B + 11) 7 1 6 (B + 12)), (Hpart 11 1), (mread_1 m7), (put_header_out V Ma Mi D B n m) by lia.
  rewrite (mread_cut m' (B + 12) 6 1 5 (B + 13)), (Hpart 12 1) by lia.
  rewrite (mread_cut m' (B + 13) 5 1 4 (B + 14)), (Hpart 13 1) by lia.
  rewrite (mread_cut m' (B + 14) 4 1 3 (B + 15)), (Hpart 14 1), (Hpart 15 3) by lia.
  assert (E15 : mread m7 (B + 15) 3 = mread m (B + 15) 3).
  { apply mread_ext. intros x Hx. apply put_header_out. lia. }
  rewrite E15. unfold m7, put_header, mw8, mw32. rewrite Z.add_0_r.
  repeat first [rewrite mread_same by done | rewrite mread_other by (unfold apart; zl)].
  reflexivity.
Qed.

(** The sum and the copy, for a table that does not touch the header. *)
Lemma table_copied V Ma Mi D B m t n :
  mem_ok m -> 0 <= n -> apart B 18 t n ->
  let table := mread m t n in
  exists m8, foldM (add_checksum B) (map (fun i => t + Z.of_nat i) (seq 0 (Z.to_nat n)))
      (put_header V Ma Mi D B n m) = Done m8 /\
    let m9 := mwrite m8 (B + 18) (mread m8 t n) in
    mread m9 B 18 = full_header V n (sum8 table) Ma Mi D (m (B + 11)) (mread m (B + 15) 3) /\
    mread m9 (B + 18) n = table /\ forall x, x < B \/ B + (18 + n) <= x -> m9 x = m x.
Proof.
  intros Hm Hn Hap table. unfold apart in Hap. set (m7 := put_header V Ma Mi D B n m).
  assert (Ho : forall x, x < B \/ B + 15 <= x -> m7 x = m x)
    by (intros x Hx; apply put_header_out; lia).
  destruct (checksum_loop B m7 (map (fun i => t + Z.of_nat i) (seq 0 (Z.to_nat n))) 0)
    as (m8 & E8 & Hs8 & Ho8); [|done|apply put_header_sum|].
  { apply Forall_map, Forall_forall. intros i [_ Hi]%elem_of_seq. lia. }
  exists m8. split; [done|].
  assert (E7 : mread m7 t n = table) by (apply mread_ext; intros x Hx; apply Ho; lia).
  assert (Et : mread m8 t n = table).
  { rewrite <- E7. apply mread_ext. intros x Hx. apply Ho8. lia. }
  rewrite map_seq_mread, E7, Z.add_0_l, <- sum8_zsum in Hs8. rewrite Et.
  assert (Htl : zlen table = n) by (by apply zlen_mread). cbv zeta.
  split_and!; [|by apply mread_same|].
  - apply put_header_read.
    + by rewrite mwrite_out by lia.
    + intros x Hx Hne. rewrite mwrite_out by lia. by apply Ho8.
  - intros x Hx. rewrite mwrite_out, Ho8 by lia. apply Ho. lia.
Qed.

(** *** The memory keeps its type *)
Lemma add_checksum_keeps B l m m' :
  foldM (add_checksum B) l m = Done m' ->
  (mem_ok m -> mem_ok m') /\ forall x, x <> B + 10 -> m' x = m x.
Proof.
  intros E. refine (foldM_inv _ (fun m1 => (mem_ok m -> mem_ok m1) /\ forall x, x <> B + 10 -> m1 x = m x)
    l m m' _ (conj (fun H => H) (fun _ _ => eq_refl)) E).
  intros m1 a m2 [H1 H2] [= <-]. split.
  - intros Hm. apply mwrite_ok; [by apply H1|apply u8_bytes_ok].
  - intros x Hx. unfold mw8. rewrite mwrite_out by zl. by apply H2.
Qed.

Lemma put_header_ok V Ma Mi D B n m : mem_ok m -> mem_ok (put_header V Ma Mi D B n m).
Proof.
  intros Hm. unfold put_header, mw8, mw32.
  repeat apply mwrite_ok; try apply u8_bytes_ok; try apply le_bytes_ok; [done|].
  by repeat constructor.
Qed.

(** The size reported is 0, with the memory as it was, or the one the header
    states, whether or not the table lies in the buffer. *)
Lemma CombineFullSmBios_size V Ma Mi D B m :
  mem_ok m ->
  exists m' size, CombineFullSmBios V Ma Mi D B m = Done (m', size) /\ mem_ok m' /\
    (forall x, x < B \/ B + size <= x -> m' x = m x) /\
    (size = 0 \/ 18 <= size < 18 + 2 ^ 16 /\ mr32 m' (B + 6) = size - 18).
Proof.
  intros Hm. unfold CombineFullSmBios.
  destruct (sm_search m 4096 SM_START) as (r & Er & _); [lia|done|].
  change SM_FUEL with (S 4096). rewrite Er, bind_Done. destruct r as [p|].
  2: { exists m, 0. split_and!; auto. }
  set (n := EP_TableLength m p). set (t := EP_TableAddress m p).
  assert (Hn : is_u16 n).
  { unfold n, EP_TableLength, mr16. apply le_val_2_range; [by apply mread_bytes_ok|by apply zlen_mread]. }
  cbv zeta. set (m7 := put_header V Ma Mi D B n m). set (l := map _ _).
  destruct (checksum_total B l m7) as [m8 E8]. rewrite E8, bind_Done.
  apply add_checksum_keeps in E8 as [H8 Ho8].
  assert (Hm7 : mem_ok m7) by (by apply put_header_ok). specialize (H8 Hm7).
  unfold is_u16 in Hn. set (m9 := mwrite m8 (B + 18) (mread m8 t n)).
  assert (Ho9 : forall x, x < B + 18 \/ B + 18 + n <= x -> m9 x = m8 x).
  { intros x Hx. apply mwrite_out. rewrite zlen_mread by lia. lia. }
  exists m9, (18 + n). split; [done|]. split; [apply mwrite_ok; [done|by apply mread_bytes_ok]|].
  split.
  - intros x Hx. rewrite Ho9, Ho8 by lia. apply put_header_out. lia.
  - right. split; [lia|]. unfold mr32.
    rewrite (mread_ext m9 m7) by (intros x Hx; rewrite Ho9, Ho8 by lia; done).
    unfold m7, put_header, mw8, mw32.
    rewrite !mread_other by (unfold apart; zl). rewrite mread_same by done.
    rewrite le_val_4 by (unfold is_u32; lia). lia.
Qed.

(** The first entry point of the segment. *)
Definition first_entry (m : mem) (p : Z) : Prop :=
  SM_START <= p <= SM_END /\ (p - SM_START) mod 16 = 0 /\ mr32 m p = SM_SIGNATURE /\
  forall x, SM_START <= x < p -> (x - SM_START) mod 16 = 0 -> mr32 m x <> SM_SIGNATURE.

Lemma CombineFullSmBios_entry V Ma Mi D B m p :
  mem_ok m -> first_entry m p ->
  let n := EP_TableLength m p in let t := EP_TableAddress m p in
  apart B 18 t n ->
  exists m', CombineFullSmBios V Ma Mi D B m = Done (m', 18 + n) /\
    mread m' B 18 = full_header V n (sum8 (mread m t n)) Ma Mi D (m (B + 11)) (mread m (B + 15) 3) /\
    mread m' (B + 18) n = mread m t n.
Proof.
  intros Hm (P1 & P2 & P3 & P4) n t Hap. unfold CombineFullSmBios.
  destruct (sm_search m 4096 SM_START) as (r & Er & Hr); [lia|done|].
  change SM_FUEL with (S 4096). rewrite Er, bind_Done.
  assert (r = Some p) as ->.
  { destruct r as [q|]; [|by destruct (Hr p P1 P2)]. destruct Hr as (Q1 & Q2 & Q3 & Q4).
    destruct (Z.lt_trichotomy q p) as [Hlt|[->|Hlt]]; [|done|]; exfalso.
    - apply (P4 q); [lia|done|done].
    - apply (Q4 p); [lia|done|done]. }
  fold n t. cbv zeta.
  assert (Hn : is_u16 n).
  { unfold n, EP_TableLength, mr16. apply le_val_2_range; [by apply mread_bytes_ok|by apply zlen_mread]. }
  destruct (table_copied V Ma Mi D B m t n Hm (proj1 Hn) Hap) as (m8 & E8 & H1 & H2 & _).
  rewrite E8, bind_Done. eexists. split; [reflexivity|]. done.
Qed.

(** [CombineFullSmBios] finds the first entry point on a
    16-byte boundary of the segment; the buffer then holds the header, with
    the length and the 8-bit sum of the table, and a copy of the table; the
    flag and reserved bytes are those the buffer held, and no byte outside
    the reported size changes. Without an entry point the size is 0 and
    memory is untouched. *)
Theorem CombineFullSmBios_correct V Ma Mi D B m :
  mem_ok m ->
  exists m' size, CombineFullSmBios V Ma Mi D B m = Done (m', size) /\
    ((size = 0 /\ m' = m /\
      forall x, SM_START <= x <= SM_END -> (x - SM_START) mod 16 = 0 -> mr32 m x <> SM_SIGNATURE) \/
     exists p,
      (SM_START <= p <= SM_END /\ (p - SM_START) mod 16 = 0 /\ mr32 m p = SM_SIGNATURE /\
       forall x, SM_START <= x < p -> (x - SM_START) mod 16 = 0 -> mr32 m x <> SM_SIGNATURE) /\
      let n := EP_TableLength m p in let t := EP_TableAddress m p in
      size = 18 + n /\
      (apart B 18 t n ->
       let table := mread m t n in
       mread m' B 18 = full_header V n (sum8 table) Ma Mi D (m (B + 11)) (mread m (B + 15) 3) /\
       mread m' (B + 18) n = table /\
       forall x, x < B \/ B + size <= x -> m' x = m x)).
Proof.
  intros Hm. unfold CombineFullSmBios.
  destruct (sm_search m 4096 SM_START) as (r & Er & Hr); [lia|done|].
  change SM_FUEL with (S 4096). rewrite Er, bind_Done. destruct r as [p|].
  2: { exists m, 0. split; [done|]. left. split_and!; [done|done|]. intros x Hx Hmod. by apply Hr. }
  destruct Hr as (Hp1 & Hp2 & Hp3 & Hp4).
  set (n := EP_TableLength m p). set (t := EP_TableAddress m p).
  assert (Hn : 0 <= n < 65536).
  { unfold n, EP_TableLength, mr16.
    apply (le_val_2_range (mread m (p + 22) 2)); [by apply mread_bytes_ok|by apply zlen_mread]. }
  cbv zeta. set (m7 := put_header V Ma Mi D B n m). set (l := map _ _).
  destruct (checksum_total B l m7) as [m8 E8]. rewrite E8, bind_Done.
  eexists _, _. split; [done|]. right. exists p. split; [done|]. split; [done|]. intros Hap.
  destruct (table_copied V Ma Mi D B m t n Hm ltac:(lia) Hap) as (m8' & E8' & Ht).
  fold m7 l in E8'. rewrite E8 in E8'. injection E8' as ->. exact Ht.
Qed.

(** A segment with an entry point at 0xF0010 and a table of three bytes. *)
Definition demo_mem : mem :=
  mwrite (mwrite (fun _ => 0) (SM_START + 16)
    ([0x5f; 0x53; 0x4d; 0x5f] ++ replicate 18 0 ++ [3; 0] ++ le_bytes 4 0x2000)) 0x2000 [1; 2; 250].

Lemma CombineFullSmBios_correct_witness :
  exists m', CombineFullSmBios 0x100 2 8 0 0x9000 demo_mem = Done (m', 21) /\
    mread m' 0x9012 3 = [1; 2; 250].
Proof.
  destruct (CombineFullSmBios_correct 0x100 2 8 0 0x9000 demo_mem)
    as (m' & size & H1 & [(_ & _ & H2)|(p & (Hp1 & Hp2 & Hp3 & Hp4) & Hs & Ht)]).
  - apply mwrite_ok; [apply mwrite_ok; [done|]|]; repeat constructor; discriminate.
  - exfalso. apply (H2 (SM_START + 16)); [split; discriminate|reflexivity|vm_compute; reflexivity].
  - assert (p = SM_START + 16) as ->.
    { destruct (Z.lt_trichotomy p (SM_START + 16)) as [Hlt|[->|Hgt]]; [|done|].
      - assert (p = SM_START) as ->.
        { rewrite Z.mod_small in Hp2 by lia. lia. }
        vm_compute in Hp3. discriminate.
      - exfalso. apply (Hp4 (SM_START + 16)); [lia|reflexivity|vm_compute; reflexivity]. }
    assert (E1 : EP_TableLength demo_mem (SM_START + 16) = 3) by (vm_compute; reflexivity).
    assert (E2 : EP_TableAddress demo_mem (SM_START + 16) = 0x2000) by (vm_compute; reflexivity).
    rewrite E1 in Hs, Ht. rewrite E2 in Ht. subst size. exists m'. split; [exact H1|].
    destruct Ht as (_ & Ht & _); [right; discriminate|].
    transitivity (mread demo_mem 0x2000 3); [exact Ht|vm_compute; reflexivity].
Defined.
