(* ===== verification/InBandSmm.v ===== *)
(** * The SMI handlers

    Models [SmcInBand/SmcInBandSmm.c]: the E8 handler copies the images the
    DXE driver combined into SMRAM, the E6 handler hands them to the tool and
    takes edited ones into the ROM hole. Both work on the flat memory of
    [PhysMem]; the CMOS ports carry the address of the DXE buffer. *)

From S2P Require Import Prelude Services OobCmos FeatureFlag Smbios BiosCfg FullSm PhysMem.

Definition SMC_OOB_SMRAM_TOTAL_SIZE : Z := 1024 * 1024.
Definition SMC_OOB_SMRAM_HII_SIZE : Z := 384 * 1024.
Definition SMC_OOB_SMRAM_FULL_SMBIOS_SIZE : Z := 256 * 1024.
Definition SMC_OOB_SMRAM_BIOS_CFG_SIZE : Z := 384 * 1024.
Definition SMC_OOB_SMRAM_HII_OFFSET : Z := 0.
Definition SMC_OOB_SMRAM_FULL_SMBIOS_OFFSET : Z := SMC_OOB_SMRAM_HII_OFFSET + SMC_OOB_SMRAM_HII_SIZE.
Definition SMC_OOB_SMRAM_BIOS_CFG_OFFSET : Z :=
  SMC_OOB_SMRAM_FULL_SMBIOS_OFFSET + SMC_OOB_SMRAM_FULL_SMBIOS_SIZE.

(** [SMM_COMMUNICATION_BUFFER_SIZE] of [SmcInBand.sdl]. *)
Definition SMM_COMMUNICATION_BUFFER_SIZE : Z := 0x40000.

(** The three file headers have [FileSize] at the same offset. *)
Definition FileSize_at (m : mem) (p : Z) : Z := mr32 m (p + 6).
Definition sizeof_HII_HEADER : Z := 18.

(** [InBand_Base_Header], packed: length (2), [SubCommand], [TotalDataSize]
    (4), [FileType], [ReturnStatus], [DataBufferAddress] (8). *)
Definition H_SubCommand : Z := 2.
Definition H_TotalDataSize : Z := 3.
Definition H_FileType : Z := 7.
Definition H_ReturnStatus : Z := 8.
Definition H_DataBufferAddress : Z := 9.
Definition sizeof_Base_Header : Z := 17.

(** What [InitSmcInBandSmm] keeps of the platform policy. *)
Record smm_policy := mkPolicy {
  InBandSwSmiE6 : Z; InBandSwSmiE8 : Z;
  CmosSmcAddrHH : Z; CmosSmcAddrH : Z; CmosSmcAddrL : Z; CmosSmcAddrLL : Z;
  SumFeatureFlags : SUM_FEATURE_FLAGS }.

Section handlers.
Context {W : Type} `{Firmware W} {S : Type} `{CmosPorts S}.

Record smm := mkSmm { mm : mem; fw : W; cm : S }.

Context (gSmcOobSmRam : Z) (pol : smm_policy).

Definition set_mem (s : smm) (m : mem) : smm := mkSmm m (fw s) (cm s).

(** [MemCpy] of [n] bytes. *)
Definition MemCpy (m : mem) (dst src n : Z) : mem := mwrite m dst (mread m src n).

(** The end of both transfers: size and status. *)
Definition report (hdr TotalLength : Z) (m : mem) : mem :=
  let m := mw32 m (hdr + H_TotalDataSize) TotalLength in
  let n := mr32 m (hdr + H_TotalDataSize) in
  mw8 m (hdr + H_ReturnStatus)
    (if SMM_COMMUNICATION_BUFFER_SIZE <? n then 1 else if TotalLength =? 0 then 3 else 0).

Definition UploadDataToRAM (hdr InBand_Area_Type : Z) (s : smm) : Res smm :=
  let m := mw8 (mm s) (hdr + H_ReturnStatus) 0 in
  let dst := mr64 m (hdr + H_DataBufferAddress) in
  '(m, TotalLength) ←
    (if InBand_Area_Type =? 0x00 then
       let src := gSmcOobSmRam + SMC_OOB_SMRAM_BIOS_CFG_OFFSET in
       let n := u32 (FileSize_at m src + sizeof_Cfg_Header + 1) in
       Done (MemCpy m dst src n, n)
     else if InBand_Area_Type =? 0x01 then
       let src := gSmcOobSmRam + SMC_OOB_SMRAM_HII_OFFSET in
       let n := u32 (FileSize_at m src + sizeof_HII_HEADER) in
       Done (MemCpy m dst src n, n)
     else if InBand_Area_Type =? 0x02 then
       let '(_, b) := SmcRomHoleReadRegion CURRENT_SMBIOS_REGION (fw s) in
       let m := mwrite m dst b in
       Done (m, u32 (FileSize_at m dst + sizeof_Smbios_Header))
     else if InBand_Area_Type =? 0x03 then
       let src := gSmcOobSmRam + SMC_OOB_SMRAM_FULL_SMBIOS_OFFSET in
       let n := u32 (FileSize_at m src + sizeof_FullSmBios_Header) in
       Done (MemCpy m dst src n, n)
     else if InBand_Area_Type =? 0x80 then
       '(b, n) ← GenerateFeatureSupportFlags (mread m dst 40) (SumFeatureFlags pol);
       Done (mwrite m dst b, n)
     else Done (m, 0));
  Done (set_mem s (report hdr TotalLength m)).

Definition DownloadDataFromRAM (hdr InBand_Area_Type : Z) (s : smm) : smm :=
  let m := mw8 (mm s) (hdr + H_ReturnStatus) 0 in
  let src := mr64 m (hdr + H_DataBufferAddress) in
  let take_region op TotalLength :=
    if TotalLength <=? SmcRomHoleSize op (fw s) then
      let '(_, w) := SmcRomHoleWriteRegion op (mread m src (SmcRomHoleSize op (fw s))) (fw s) in
      mkSmm m w (cm s)
    else set_mem s (mw8 m (hdr + H_ReturnStatus) 1) in
  if InBand_Area_Type =? 0 then
    take_region INBAND_REGION (u32 (FileSize_at m src + sizeof_Cfg_Header + 1))
  else if InBand_Area_Type =? 2 then
    take_region CURRENT_SMBIOS_REGION (u32 (FileSize_at m src + sizeof_Smbios_Header))
  else set_mem s m.

(** The address the DXE driver left in four CMOS items. *)
Definition cmos_address (s : S) : Res (Z * S) :=
  '(b3, s) ← OobGetCmosTokensValue (CmosSmcAddrHH pol) s;
  '(b2, s) ← OobGetCmosTokensValue (CmosSmcAddrH pol) s;
  '(b1, s) ← OobGetCmosTokensValue (CmosSmcAddrL pol) s;
  '(b0, s) ← OobGetCmosTokensValue (CmosSmcAddrLL pol) s;
  Done (u32 (Z.lor (Z.lor (Z.lor (Z.shiftl b3 24) (Z.shiftl b2 16)) (Z.shiftl b1 8)) b0), s).

Definition SWSMI_E8_SUBCMD_COMBINE_HII : Z := 1.
Definition SWSMI_E8_SUBCMD_COMBINE_FULL_SMBIOS : Z := 2.
Definition SWSMI_E8_SUBCMD_COMBINE_BIOS_CFG : Z := 3.

Definition SmcInBandSwSmiE8Handler (DataPort : Z) (s : smm) : Res (EFI_STATUS * smm) :=
  '(pBuffer, c) ← cmos_address (cm s);
  let m := mm s in
  let copy off header :=
    MemCpy m (gSmcOobSmRam + off) (pBuffer + off) (FileSize_at m (pBuffer + off) + header) in
  let m :=
    if DataPort =? SWSMI_E8_SUBCMD_COMBINE_HII then
      copy SMC_OOB_SMRAM_HII_OFFSET sizeof_HII_HEADER
    else if DataPort =? SWSMI_E8_SUBCMD_COMBINE_FULL_SMBIOS then
      copy SMC_OOB_SMRAM_FULL_SMBIOS_OFFSET sizeof_FullSmBios_Header
    else if DataPort =? SWSMI_E8_SUBCMD_COMBINE_BIOS_CFG then
      copy SMC_OOB_SMRAM_BIOS_CFG_OFFSET (sizeof_Cfg_Header + 1)
    else m in
  Done (EFI_SUCCESS, mkSmm m (fw s) c).

(** Saved registers of the CPU that raised the SMI, and the check of a
    buffer against SMRAM. *)
Inductive smm_reg := REG_RBX | REG_RCX.
Context (ReadSaveState : smm_reg -> Z -> EFI_STATUS * Z).
Context (AmiValidateMemoryBuffer : Z -> Z -> EFI_STATUS).

(** [(UINTN)-1]. *)
Definition NO_CPU : Z := u64 (-1).

Definition SmcInBandSwSmiE6Handler (Cpu : Z) (s : smm) : Res (EFI_STATUS * smm) :=
  if Cpu =? NO_CPU then Done (EFI_SUCCESS, s)
  else
    let '(_, LowBufferAddress) := ReadSaveState REG_RBX Cpu in
    let '(Status, HighBufferAddress) := ReadSaveState REG_RCX Cpu in
    let pCommBuff := u64 (u64 (Z.shiftl HighBufferAddress 32) + LowBufferAddress) in
    if EFI_ERROR (AmiValidateMemoryBuffer pCommBuff SMM_COMMUNICATION_BUFFER_SIZE)
    then Done (EFI_ACCESS_DENIED, s)
    else
      let SubCommand := mr8 (mm s) (pCommBuff + H_SubCommand) in
      let FileType := mr8 (mm s) (pCommBuff + H_FileType) in
      if SubCommand =? 0x01 then Done (Status, DownloadDataFromRAM pCommBuff FileType s)
      else if SubCommand =? 0x03 then
        s ← UploadDataToRAM pCommBuff FileType s; Done (Status, s)
      else Done (Status, s).
End handlers.

(** ** Installation *)

(** What the services answer to [InitSmcInBandSmm], in the order of its
    calls. *)
Record smm_env := mkEnv {
  env_policy : option smm_policy;
  env_SmmBase : bool; env_Smst : bool; env_SmmCpu : bool; env_SwDispatch : bool;
  env_RomHole : bool; env_OobLibrary : bool;
  env_alloc : option Z;
  env_register : Z -> bool }.

Inductive smi_handler := E6Handler | E8Handler.

(** The globals of the driver: NULL pointers are [None] and [false]. *)
Record smm_globals := mkGlobals {
  g_policy : option smm_policy; g_SmmBase : bool; g_Smst : bool; g_SmmCpu : bool; g_RomHole : bool;
  g_OobLibrary : bool; g_SmRam : option Z; g_handlers : list (Z * smi_handler) }.

Definition globals0 : smm_globals := mkGlobals None false false false false false None [].

(** One assignment to a global each. *)
Definition set_policy (v : option smm_policy) (g : smm_globals) : smm_globals :=
  mkGlobals v (g_SmmBase g) (g_Smst g) (g_SmmCpu g) (g_RomHole g) (g_OobLibrary g) (g_SmRam g) (g_handlers g).
Definition set_SmmBase (v : bool) (g : smm_globals) : smm_globals :=
  mkGlobals (g_policy g) v (g_Smst g) (g_SmmCpu g) (g_RomHole g) (g_OobLibrary g) (g_SmRam g) (g_handlers g).
Definition set_Smst (v : bool) (g : smm_globals) : smm_globals :=
  mkGlobals (g_policy g) (g_SmmBase g) v (g_SmmCpu g) (g_RomHole g) (g_OobLibrary g) (g_SmRam g) (g_handlers g).
Definition set_SmmCpu (v : bool) (g : smm_globals) : smm_globals :=
  mkGlobals (g_policy g) (g_SmmBase g) (g_Smst g) v (g_RomHole g) (g_OobLibrary g) (g_SmRam g) (g_handlers g).
Definition set_RomHole (v : bool) (g : smm_globals) : smm_globals :=
  mkGlobals (g_policy g) (g_SmmBase g) (g_Smst g) (g_SmmCpu g) v (g_OobLibrary g) (g_SmRam g) (g_handlers g).
Definition set_OobLibrary (v : bool) (g : smm_globals) : smm_globals :=
  mkGlobals (g_policy g) (g_SmmBase g) (g_Smst g) (g_SmmCpu g) (g_RomHole g) v (g_SmRam g) (g_handlers g).
Definition set_SmRam (v : option Z) (g : smm_globals) : smm_globals :=
  mkGlobals (g_policy g) (g_SmmBase g) (g_Smst g) (g_SmmCpu g) (g_RomHole g) (g_OobLibrary g) v (g_handlers g).
Definition set_handlers (v : list (Z * smi_handler)) (g : smm_globals) : smm_globals :=
  mkGlobals (g_policy g) (g_SmmBase g) (g_Smst g) (g_SmmCpu g) (g_RomHole g) (g_OobLibrary g) (g_SmRam g) v.

Definition add_handler (n : Z) (h : smi_handler) (g : smm_globals) : smm_globals :=
  set_handlers (g_handlers g ++ [(n, h)]) g.

Definition InitSmcInBandSmm (e : smm_env) (g : smm_globals) : EFI_STATUS * smm_globals :=
  match env_policy e with
  | None => (EFI_NOT_READY, g)
  | Some pol =>
      let g := set_policy (Some pol) g in
      if negb (env_SmmBase e) then (EFI_NOT_READY, g) else
      let g := set_SmmBase true g in
      if negb (env_Smst e) then (EFI_NOT_READY, g) else
      let g := set_Smst true g in
      if negb (env_SmmCpu e) then (EFI_NOT_READY, g) else
      let g := set_SmmCpu true g in
      if negb (env_SwDispatch e) then (EFI_NOT_READY, g) else
      if negb (env_RomHole e) then (EFI_NOT_READY, g) else
      let g := set_RomHole true g in
      if negb (env_OobLibrary e) then (EFI_NOT_READY, g) else
      let g := set_OobLibrary true g in
      match env_alloc e with
      | None => (EFI_NOT_READY, g)
      | Some ram =>
          let g := set_SmRam (Some ram) g in
          if negb (env_register e (InBandSwSmiE6 pol)) then (EFI_NOT_READY, g) else
          let g := add_handler (InBandSwSmiE6 pol) E6Handler g in
          if negb (env_register e (InBandSwSmiE8 pol)) then (EFI_NOT_READY, g) else
          (EFI_SUCCESS, add_handler (InBandSwSmiE8 pol) E8Handler g)
      end
  end.

(** What a handler dereferences. *)
Definition ready (g : smm_globals) : Prop :=
  is_Some (g_policy g) /\ g_SmmCpu g = true /\ g_RomHole g = true /\ g_OobLibrary g = true /\
  is_Some (g_SmRam g).

(** whatever the services answer, an SMI handler is registered
    only when the policy, the CPU, ROM-hole and library protocols and the
    SMRAM block it uses are in place; success means both are registered with
    the policy's SMI numbers; a failure leaves a handler behind exactly when
    E8's registration alone is refused, and then it is E6's. *)
Theorem InitSmcInBandSmm_safe e :
  let '(st, g) := InitSmcInBandSmm e globals0 in
  (g_handlers g <> [] -> ready g) /\
  (st = EFI_SUCCESS -> exists pol, env_policy e = Some pol /\ g_policy g = Some pol /\
     g_handlers g = [(InBandSwSmiE6 pol, E6Handler); (InBandSwSmiE8 pol, E8Handler)]) /\
  (st <> EFI_SUCCESS -> st = EFI_NOT_READY /\ (g_handlers g = [] \/
     exists pol, env_policy e = Some pol /\ env_register e (InBandSwSmiE8 pol) = false /\
     g_handlers g = [(InBandSwSmiE6 pol, E6Handler)])).
Proof.
  assert (H0 : forall g, g_handlers g = [] ->
    (g_handlers g <> [] -> ready g) /\
    (EFI_NOT_READY = EFI_SUCCESS -> exists pol, env_policy e = Some pol /\ g_policy g = Some pol /\
       g_handlers g = [(InBandSwSmiE6 pol, E6Handler); (InBandSwSmiE8 pol, E8Handler)]) /\
    (EFI_NOT_READY <> EFI_SUCCESS -> EFI_NOT_READY = EFI_NOT_READY /\ (g_handlers g = [] \/
       exists pol, env_policy e = Some pol /\ env_register e (InBandSwSmiE8 pol) = false /\
       g_handlers g = [(InBandSwSmiE6 pol, E6Handler)]))).
  { intros g Hg. split_and!; [done..|]. intros _. auto. }
  unfold InitSmcInBandSmm. destruct (env_policy e) as [pol|] eqn:Ep; [|by apply H0].
  repeat match goal with
  | |- context [negb ?b] => destruct b eqn:?; cbn [negb]; [|by apply H0]
  | |- context [match env_alloc e with _ => _ end] => destruct (env_alloc e) as [ram|]; [|by apply H0]
  | |- context [if negb (env_register e (InBandSwSmiE6 pol)) then _ else _] =>
      destruct (env_register e (InBandSwSmiE6 pol)); cbn [negb]; [|by apply H0]
  end.
  destruct (env_register e (InBandSwSmiE8 pol)) eqn:E8; cbn; unfold ready; cbn;
    (split; [by eauto 10|]); split; intros ?; try done.
  - by exists pol.
  - split; [done|]. right. by exists pol.
Qed.

(** ** The hand-off of the images *)

(** An image the DXE driver combines: the port value of its E8 request, the
    file type of its E6 request, its place, header and room. *)
Inductive image := IMG_HII | IMG_FULL_SMBIOS | IMG_BIOS_CFG.

Definition img_port (k : image) : Z :=
  match k with
  | IMG_HII => SWSMI_E8_SUBCMD_COMBINE_HII
  | IMG_FULL_SMBIOS => SWSMI_E8_SUBCMD_COMBINE_FULL_SMBIOS
  | IMG_BIOS_CFG => SWSMI_E8_SUBCMD_COMBINE_BIOS_CFG
  end.
Definition img_type (k : image) : Z :=
  match k with IMG_HII => 1 | IMG_FULL_SMBIOS => 3 | IMG_BIOS_CFG => 0 end.
Definition img_off (k : image) : Z :=
  match k with
  | IMG_HII => SMC_OOB_SMRAM_HII_OFFSET
  | IMG_FULL_SMBIOS => SMC_OOB_SMRAM_FULL_SMBIOS_OFFSET
  | IMG_BIOS_CFG => SMC_OOB_SMRAM_BIOS_CFG_OFFSET
  end.
Definition img_header (k : image) : Z :=
  match k with
  | IMG_HII => sizeof_HII_HEADER
  | IMG_FULL_SMBIOS => sizeof_FullSmBios_Header
  | IMG_BIOS_CFG => sizeof_Cfg_Header + 1
  end.
Definition img_room (k : image) : Z :=
  match k with
  | IMG_HII => SMC_OOB_SMRAM_HII_SIZE
  | IMG_FULL_SMBIOS => SMC_OOB_SMRAM_FULL_SMBIOS_SIZE
  | IMG_BIOS_CFG => SMC_OOB_SMRAM_BIOS_CFG_SIZE
  end.

(** Bytes of the image stored in a buffer laid out like the SMRAM block. *)
Definition img_size (m : mem) (base : Z) (k : image) : Z :=
  FileSize_at m (base + img_off k) + img_header k.
Definition img_bytes (m : mem) (base : Z) (k : image) : list Z :=
  mread m (base + img_off k) (img_size m base k).

#[global] Instance image_eq_dec : EqDecision image.
Proof. solve_decision. Defined.

(** The areas lie one after the other inside the block. *)
Lemma img_layout k :
  0 <= img_off k /\ 10 <= img_header k <= 19 /\ 0 < img_room k <= 0x60000 /\
  img_off k + img_room k <= SMC_OOB_SMRAM_TOTAL_SIZE.
Proof. destruct k; vm_compute; intuition discriminate. Qed.

Lemma img_areas_apart k k' : k <> k' -> apart (img_off k) (img_room k) (img_off k') (img_room k').
Proof.
  unfold apart.
  destruct k, k'; intros ?; try done; vm_compute; intuition discriminate.
Qed.

Lemma img_size_read m m' b b' k n :
  10 <= n -> mread m' (b' + img_off k) n = mread m (b + img_off k) n -> img_size m' b' k = img_size m b k.
Proof.
  intros Hn E. unfold img_size, FileSize_at, mr32. do 2 f_equal.
  rewrite !(mread_part _ (_ + img_off k) n 6 4) by lia. by rewrite E.
Qed.

(** An area of [m'] holds the image of [m]. *)
Definition holds (m : mem) (b : Z) (m' : mem) (b' : Z) (k : image) : Prop :=
  mread m' (b' + img_off k) (img_size m b k) = img_bytes m b k.

Lemma holds_size m b m' b' k : mem_ok m -> holds m b m' b' k -> img_size m' b' k = img_size m b k.
Proof.
  intros Hm Hh. eapply img_size_read; [|exact Hh]. unfold img_size, FileSize_at.
  pose proof (mr32_range m (b + img_off k + 6) Hm) as [? _]. pose proof (img_layout k). lia.
Qed.

Section handoff.
Context {W : Type} `{Firmware W} {S : Type} `{CmosPorts S}.
Context (gSmcOobSmRam : Z) (pol : smm_policy).

Lemma get_token t s k :
  size_mask t = Done k ->
  OobGetCmosTokensValue t s =
  Done (Z.land (u8 (Z.shiftr (cell s (Z.lor (token_index t) 0x80)) (token_bit t))) k,
        IoWrite8 CMOS_ADDR_PORT (Z.lor (token_index t) 0x80) s).
Proof.
  intros Hk. unfold OobGetCmosTokensValue. rewrite Hk, bind_Done.
  change 0x70 with CMOS_ADDR_PORT. change 0x71 with CMOS_DATA_PORT.
  rewrite read_data, sel_addr by apply index_u8. by rewrite cell_addr.
Qed.

Definition same_cells (s s' : S) : Prop := forall i, cell s i = cell s' i.

Lemma get_token_again t s s' v c :
  same_cells s' s -> OobGetCmosTokensValue t s = Done (v, c) ->
  exists c', OobGetCmosTokensValue t s' = Done (v, c') /\ same_cells c' c /\ same_cells c s.
Proof.
  intros Hc Hg. destruct (size_mask t) as [k| |] eqn:Ek.
  - rewrite (get_token t s k Ek) in Hg. injection Hg as <- <-.
    eexists. rewrite (get_token t s' k Ek), Hc. split; [done|].
    split; intros i; by rewrite !cell_addr.
  - unfold OobGetCmosTokensValue in Hg. by rewrite Ek in Hg.
  - unfold OobGetCmosTokensValue in Hg. by rewrite Ek in Hg.
Qed.

(** The address reads the same every time. *)
Lemma cmos_address_again s s' v c :
  same_cells s' s -> cmos_address pol s = Done (v, c) ->
  exists c', cmos_address pol s' = Done (v, c') /\ same_cells c' s.
Proof.
  intros Hc. unfold cmos_address.
  intros ([v1 c1] & E1 & ([v2 c2] & E2 & ([v3 c3] & E3 & ([v4 c4] & E4 & Hd)%bind_inv)%bind_inv)%bind_inv)%bind_inv.
  destruct (get_token_again _ s s' _ _ Hc E1) as (d1 & F1 & D1 & K1).
  destruct (get_token_again _ c1 d1 _ _ D1 E2) as (d2 & F2 & D2 & K2).
  destruct (get_token_again _ c2 d2 _ _ D2 E3) as (d3 & F3 & D3 & K3).
  destruct (get_token_again _ c3 d3 _ _ D3 E4) as (d4 & F4 & D4 & K4).
  exists d4. rewrite F1, bind_Done, F2, bind_Done, F3, bind_Done, F4, bind_Done.
  injection Hd as <- _. split; [done|]. intros i. by rewrite D4, K4, K3, K2, K1.
Qed.

(** An E8 request with the images of the DXE buffer. *)
Definition E8_request (s : @smm W S) (k : image) : Res (@smm W S) :=
  '(_, s) ← SmcInBandSwSmiE8Handler gSmcOobSmRam pol (img_port k) s; Done s.

Lemma E8_copy s k pBuffer c :
  cmos_address pol (cm s) = Done (pBuffer, c) ->
  E8_request s k =
  Done (mkSmm (mwrite (mm s) (gSmcOobSmRam + img_off k) (img_bytes (mm s) pBuffer k)) (fw s) c).
Proof.
  intros Hc. unfold E8_request, SmcInBandSwSmiE8Handler. rewrite Hc, bind_Done.
  by destruct k.
Qed.

(** Memory outside SMRAM. *)
Definition agree_out (m m' : mem) : Prop :=
  forall x, x < gSmcOobSmRam \/ gSmcOobSmRam + SMC_OOB_SMRAM_TOTAL_SIZE <= x -> m' x = m x.

Lemma agree_read m m' a n :
  agree_out m m' -> apart a n gSmcOobSmRam SMC_OOB_SMRAM_TOTAL_SIZE -> mread m' a n = mread m a n.
Proof. intros Ha Hd. apply mread_ext. intros x Hx. apply Ha. unfold apart in Hd. lia. Qed.

Context (m0 : mem) (pBuffer : Z).
Hypothesis m0_ok : mem_ok m0.
Hypothesis buffer_apart :
  apart pBuffer SMC_OOB_SMRAM_TOTAL_SIZE gSmcOobSmRam SMC_OOB_SMRAM_TOTAL_SIZE.
Hypothesis fits : forall k, img_size m0 pBuffer k <= img_room k.

Lemma img_size_range k : 10 <= img_size m0 pBuffer k <= img_room k.
Proof.
  split; [|apply fits]. unfold img_size, FileSize_at.
  pose proof (mr32_range m0 (pBuffer + img_off k + 6) m0_ok) as [? _].
  pose proof (img_layout k). lia.
Qed.

Lemma zlen_img_bytes k : zlen (img_bytes m0 pBuffer k) = img_size m0 pBuffer k.
Proof. pose proof (img_size_range k). apply zlen_mread. lia. Qed.

Lemma img_source m k : agree_out m0 m ->
  img_size m pBuffer k = img_size m0 pBuffer k /\ img_bytes m pBuffer k = img_bytes m0 pBuffer k.
Proof.
  intros Ha. pose proof (img_size_range k) as Hr. pose proof (img_layout k) as Hl.
  assert (E : mread m (pBuffer + img_off k) (img_size m0 pBuffer k) =
    mread m0 (pBuffer + img_off k) (img_size m0 pBuffer k)).
  { apply agree_read; [done|]. unfold apart in *. lia. }
  assert (Es : img_size m pBuffer k = img_size m0 pBuffer k) by (eapply img_size_read; [|exact E]; lia).
  split; [done|]. unfold img_bytes. by rewrite Es.
Qed.

(** Any sequence of requests leaves each requested image in its area. *)
Lemma E8_requests ks done s c0 :
  same_cells (cm s) c0 -> (exists c, cmos_address pol c0 = Done (pBuffer, c)) ->
  agree_out m0 (mm s) -> (forall k, k ∈ done -> holds m0 pBuffer (mm s) gSmcOobSmRam k) ->
  exists s', foldM E8_request ks s = Done s' /\ fw s' = fw s /\ agree_out m0 (mm s') /\
    (forall k, k ∈ done ++ ks -> holds m0 pBuffer (mm s') gSmcOobSmRam k).
Proof.
  revert done s. induction ks as [|k ks IH]; intros dn s Hc Ha Hm Hd; cbn [foldM].
  { exists s. by rewrite app_nil_r. }
  destruct Ha as [c Ha]. destruct (cmos_address_again _ _ _ _ Hc Ha) as (c' & Hc' & Hs').
  rewrite (E8_copy s k pBuffer c' Hc'), bind_Done.
  destruct (img_source (mm s) k Hm) as [Es Eb]. pose proof (zlen_img_bytes k) as Hz.
  pose proof (img_size_range k) as Hr. pose proof (img_layout k) as Hl.
  rewrite Eb.
  destruct (IH (dn ++ [k]) (mkSmm (mwrite (mm s) (gSmcOobSmRam + img_off k) (img_bytes m0 pBuffer k)) (fw s) c'))
    as (s' & E & F & A & Hh); cbn [mm fw cm]; eauto.
  - intros x Hx. rewrite mwrite_out by lia. by apply Hm.
  - intros k' [Hk'| ->%list_elem_of_singleton]%elem_of_app.
    + destruct (decide (k' = k)) as [->|Hne]; [unfold holds; by apply mread_same|].
      unfold holds. rewrite mread_other; [by apply Hd|].
      pose proof (img_areas_apart k k' ltac:(done)) as Hap. pose proof (img_size_range k').
      unfold apart in *. lia.
    + unfold holds. by apply mread_same.
  - exists s'. rewrite <- app_assoc in Hh. done.
Qed.

Lemma img_size_ok m k : holds m0 pBuffer m gSmcOobSmRam k ->
  img_size m gSmcOobSmRam k = img_size m0 pBuffer k /\
  img_bytes m gSmcOobSmRam k = img_bytes m0 pBuffer k.
Proof.
  intros Hh. pose proof (holds_size _ _ _ _ _ m0_ok Hh) as E. split; [done|].
  unfold img_bytes at 1. rewrite E. exact Hh.
Qed.

Lemma holds_mwrite m k a bs :
  apart a (zlen bs) gSmcOobSmRam SMC_OOB_SMRAM_TOTAL_SIZE ->
  holds m0 pBuffer m gSmcOobSmRam k -> holds m0 pBuffer (mwrite m a bs) gSmcOobSmRam k.
Proof.
  intros Ha Hh. unfold holds. rewrite mread_other; [done|].
  pose proof (img_layout k). pose proof (img_size_range k). unfold apart in *. lia.
Qed.

Context (hdr : Z).
Hypothesis hdr_apart : apart hdr sizeof_Base_Header gSmcOobSmRam SMC_OOB_SMRAM_TOTAL_SIZE.

(** The memory after an upload of image [k] to [dst]. *)
Definition uploaded (m : mem) (dst : Z) (k : image) : mem :=
  report hdr (img_size m0 pBuffer k)
    (mwrite (mw8 m (hdr + H_ReturnStatus) 0) dst (img_bytes m0 pBuffer k)).

Lemma upload_image (s : @smm W S) k :
  holds m0 pBuffer (mm s) gSmcOobSmRam k ->
  UploadDataToRAM gSmcOobSmRam pol hdr (img_type k) s =
  Done (set_mem s (uploaded (mm s) (mr64 (mm s) (hdr + H_DataBufferAddress)) k)).
Proof.
  intros Hh. pose proof (img_size_range k) as Hr. pose proof (img_layout k) as Hl.
  set (m1 := mw8 (mm s) (hdr + H_ReturnStatus) 0).
  assert (Hh1 : holds m0 pBuffer m1 gSmcOobSmRam k).
  { apply holds_mwrite; [|done]. unfold apart, sizeof_Base_Header, H_ReturnStatus in *. zl. }
  destruct (img_size_ok m1 k Hh1) as [Es Eb].
  assert (Ed : mr64 m1 (hdr + H_DataBufferAddress) = mr64 (mm s) (hdr + H_DataBufferAddress)).
  { apply mr64_other. unfold apart, H_ReturnStatus, H_DataBufferAddress. zl. }
  unfold UploadDataToRAM. fold m1. rewrite Ed.
  assert (Eu : forall x, x = img_size m0 pBuffer k -> u32 x = x).
  { intros x ->. apply u32_small. unfold is_u32. lia. }
  unfold uploaded. fold m1. rewrite <- Eb, <- Es in *. clear Eb.
  unfold img_bytes. unfold img_size in *.
  destruct k; cbn [img_type img_off img_header Z.eqb Pos.eqb] in *;
    rewrite bind_Done, <- ?(Z.add_assoc _ sizeof_Cfg_Header 1), Eu by lia; reflexivity.
Qed.

Lemma uploaded_spec m dst k :
  apart dst (img_size m0 pBuffer k) hdr sizeof_Base_Header ->
  let n := img_size m0 pBuffer k in
  mread (uploaded m dst k) dst n = img_bytes m0 pBuffer k /\
  mr32 (uploaded m dst k) (hdr + H_TotalDataSize) = n /\
  mr8 (uploaded m dst k) (hdr + H_ReturnStatus) =
    (if SMM_COMMUNICATION_BUFFER_SIZE <? n then 1 else 0).
Proof.
  intros Hd n. pose proof (img_size_range k) as Hr. pose proof (img_layout k) as Hl.
  pose proof (zlen_img_bytes k) as Hz.
  unfold uploaded, report. fold n. unfold n in *.
  set (m1 := mwrite (mw8 m _ 0) dst _).
  unfold sizeof_Base_Header in Hd.
  assert (Et : forall a v, a = hdr + H_TotalDataSize -> is_u32 v -> mr32 (mw32 m1 a v) (hdr + H_TotalDataSize) = v).
  { intros a v -> Hv. unfold mr32, mw32. rewrite mread_same by done. by apply le_val_4. }
  rewrite Et by (done || unfold is_u32; lia).
  replace (img_size m0 pBuffer k =? 0) with false by lia.
  split_and!.
  - unfold mw8, mw32. rewrite !mread_other.
    + subst m1. by apply mread_same.
    + unfold apart, H_TotalDataSize in *. zl.
    + unfold apart, H_ReturnStatus in *. zl.
  - unfold mw8. rewrite mr32_other; [apply Et; [done|unfold is_u32; lia]|].
    unfold apart, H_ReturnStatus, H_TotalDataSize. zl.
  - unfold mw8. assert (E : forall v, mread (mwrite (mw32 m1 (hdr + H_TotalDataSize) (img_size m0 pBuffer k))
      (hdr + H_ReturnStatus) [v]) (hdr + H_ReturnStatus) 1 = [v]) by (intros; by apply mread_same).
    unfold mr8. specialize (E (u8 (if SMM_COMMUNICATION_BUFFER_SIZE <? img_size m0 pBuffer k then 1 else 0))).
    rewrite mread_1 in E. injection E as ->. by case_match.
Qed.

Lemma uploaded_holds m dst k k' :
  apart dst (img_size m0 pBuffer k) gSmcOobSmRam SMC_OOB_SMRAM_TOTAL_SIZE ->
  holds m0 pBuffer m gSmcOobSmRam k' -> holds m0 pBuffer (uploaded m dst k) gSmcOobSmRam k'.
Proof.
  intros Hd Hh. pose proof (zlen_img_bytes k). unfold uploaded, report, mw8, mw32.
  unfold sizeof_Base_Header in *.
  repeat apply holds_mwrite; try done; unfold apart, H_ReturnStatus, H_TotalDataSize in *; zl.
Qed.
End handoff.

(** ** What the handlers promise *)

Section requests.
Context {W : Type} `{Firmware W} {S : Type} `{CmosPorts S}.
Context (gSmcOobSmRam : Z) (pol : smm_policy).
Context (ReadSaveState : smm_reg -> Z -> EFI_STATUS * Z)
        (AmiValidateMemoryBuffer : Z -> Z -> EFI_STATUS).

(** CPU [Cpu] raised E6 with its request at [hdr], which passes the check. *)
Definition E6_request_at (Cpu hdr : Z) (st : EFI_STATUS) : Prop :=
  Cpu <> NO_CPU /\
  (exists st0 lo hi, ReadSaveState REG_RBX Cpu = (st0, lo) /\ ReadSaveState REG_RCX Cpu = (st, hi) /\
     hdr = u64 (u64 (Z.shiftl hi 32) + lo)) /\
  AmiValidateMemoryBuffer hdr SMM_COMMUNICATION_BUFFER_SIZE = EFI_SUCCESS.

Lemma E6_dispatch Cpu hdr st (s : @smm W S) :
  E6_request_at Cpu hdr st ->
  SmcInBandSwSmiE6Handler gSmcOobSmRam pol ReadSaveState AmiValidateMemoryBuffer Cpu s =
  (if mr8 (mm s) (hdr + H_SubCommand) =? 1 then
     Done (st, DownloadDataFromRAM hdr (mr8 (mm s) (hdr + H_FileType)) s)
   else if mr8 (mm s) (hdr + H_SubCommand) =? 3 then
     s ← UploadDataToRAM gSmcOobSmRam pol hdr (mr8 (mm s) (hdr + H_FileType)) s; Done (st, s)
   else Done (st, s)).
Proof.
  intros (Hc & (st0 & lo & hi & E1 & E2 & ->) & Hv). unfold SmcInBandSwSmiE6Handler.
  replace (Cpu =? NO_CPU) with false by lia. by rewrite E1, E2, Hv.
Qed.

(** C1: (functional) the hand-off of the images: after any sequence of E8
    requests for images that fit their areas, taken from a DXE buffer
    outside SMRAM, an E6 upload request for one of them copies exactly its
    bytes to the caller's buffer, reports its size, flags a size above the
    communication buffer, and leaves every image in SMRAM as it was. Other
    software may change any memory outside SMRAM before the E6 request. *)
Theorem SMI_handoff (s : @smm W S) pBuffer c ks k Cpu hdr st :
  cmos_address pol (cm s) = Done (pBuffer, c) -> mem_ok (mm s) ->
  apart pBuffer SMC_OOB_SMRAM_TOTAL_SIZE gSmcOobSmRam SMC_OOB_SMRAM_TOTAL_SIZE ->
  (forall k, img_size (mm s) pBuffer k <= img_room k) ->
  k ∈ ks -> E6_request_at Cpu hdr st ->
  apart hdr sizeof_Base_Header gSmcOobSmRam SMC_OOB_SMRAM_TOTAL_SIZE ->
  let n := img_size (mm s) pBuffer k in
  exists s1, foldM (E8_request gSmcOobSmRam pol) ks s = Done s1 /\
  forall m2,
    (forall x, gSmcOobSmRam <= x < gSmcOobSmRam + SMC_OOB_SMRAM_TOTAL_SIZE -> m2 x = mm s1 x) ->
    mr8 m2 (hdr + H_SubCommand) = 3 -> mr8 m2 (hdr + H_FileType) = img_type k ->
    let dst := mr64 m2 (hdr + H_DataBufferAddress) in
    apart dst n hdr sizeof_Base_Header -> apart dst n gSmcOobSmRam SMC_OOB_SMRAM_TOTAL_SIZE ->
    exists s3,
      SmcInBandSwSmiE6Handler gSmcOobSmRam pol ReadSaveState AmiValidateMemoryBuffer Cpu
        (set_mem s1 m2) = Done (st, s3) /\
      fw s3 = fw s /\
      mread (mm s3) dst n = mread (mm s) (pBuffer + img_off k) n /\
      mr32 (mm s3) (hdr + H_TotalDataSize) = n /\
      mr8 (mm s3) (hdr + H_ReturnStatus) = (if SMM_COMMUNICATION_BUFFER_SIZE <? n then 1 else 0) /\
      forall k', k' ∈ ks -> holds (mm s) pBuffer (mm s3) gSmcOobSmRam k'.
Proof.
  intros Hc Hm Hb Hf Hk He Hh n.
  destruct (E8_requests gSmcOobSmRam pol (mm s) pBuffer Hm Hb Hf ks [] s (cm s))
    as (s1 & E1 & F1 & _ & H1); [done|by exists c|done|by intros ? ?%not_elem_of_nil|].
  exists s1. split; [done|]. intros m2 Hm2 Hsub Hty dst Hd1 Hd2.
  assert (H2 : forall k', k' ∈ ks -> holds (mm s) pBuffer m2 gSmcOobSmRam k').
  { intros k' Hk'. unfold holds. rewrite <- (H1 k' Hk'). apply mread_ext. intros x Hx.
    apply Hm2. pose proof (img_layout k'). specialize (Hf k'). lia. }
  rewrite (E6_dispatch _ _ _ _ He). cbn [mm set_mem]. rewrite Hsub, Hty. cbn [Z.eqb Pos.eqb].
  rewrite (upload_image gSmcOobSmRam pol (mm s) pBuffer Hm Hf hdr Hh) by (by apply H2).
  rewrite bind_Done. eexists. split; [done|]. cbn [mm fw set_mem].
  destruct (uploaded_spec (mm s) pBuffer Hm Hf hdr m2 dst k Hd1) as (U1 & U2 & U3).
  split_and!; [done|exact U1|exact U2|exact U3|].
  intros k' Hk'. apply uploaded_holds; auto.
Qed.

(** the E6 handler checks the address of the request but not
    the [DataBufferAddress] in it: an upload request that passes the check
    writes the image wherever that field points, inside SMRAM as well. *)
Theorem E6_upload_unchecked (s : @smm W S) k Cpu hdr st :
  mem_ok (mm s) -> (forall k, img_size (mm s) gSmcOobSmRam k <= img_room k) ->
  E6_request_at Cpu hdr st ->
  apart hdr sizeof_Base_Header gSmcOobSmRam SMC_OOB_SMRAM_TOTAL_SIZE ->
  mr8 (mm s) (hdr + H_SubCommand) = 3 -> mr8 (mm s) (hdr + H_FileType) = img_type k ->
  let n := img_size (mm s) gSmcOobSmRam k in
  let dst := mr64 (mm s) (hdr + H_DataBufferAddress) in
  gSmcOobSmRam <= dst -> dst + n <= gSmcOobSmRam + SMC_OOB_SMRAM_TOTAL_SIZE ->
  exists s3,
    SmcInBandSwSmiE6Handler gSmcOobSmRam pol ReadSaveState AmiValidateMemoryBuffer Cpu s =
      Done (st, s3) /\
    mread (mm s3) dst n = img_bytes (mm s) gSmcOobSmRam k.
Proof.
  intros Hm Hf He Hh Hsub Hty n dst Hd1 Hd2.
  rewrite (E6_dispatch _ _ _ _ He), Hsub, Hty. cbn [Z.eqb Pos.eqb].
  rewrite (upload_image gSmcOobSmRam pol (mm s) gSmcOobSmRam Hm Hf hdr Hh) by done.
  rewrite bind_Done. eexists. split; [done|]. cbn [mm set_mem].
  apply (uploaded_spec (mm s) gSmcOobSmRam Hm Hf). unfold apart in *. fold n dst. lia.
Qed.

(** The two files a tool may send: file type, region, bytes around the
    data. *)
Definition download_kind (FileType op header : Z) : Prop :=
  (FileType = 0 /\ op = INBAND_REGION /\ header = sizeof_Cfg_Header + 1) \/
  (FileType = 2 /\ op = CURRENT_SMBIOS_REGION /\ header = sizeof_Smbios_Header).

Lemma download_eq hdr ft op header (s : @smm W S) :
  download_kind ft op header ->
  let m := mw8 (mm s) (hdr + H_ReturnStatus) 0 in
  let src := mr64 m (hdr + H_DataBufferAddress) in
  DownloadDataFromRAM hdr ft s =
  (if u32 (FileSize_at m src + header) <=? SmcRomHoleSize op (fw s) then
     mkSmm m (snd (SmcRomHoleWriteRegion op (mread m src (SmcRomHoleSize op (fw s))) (fw s))) (cm s)
   else set_mem s (mw8 m (hdr + H_ReturnStatus) 1)).
Proof.
  intros [(-> & -> & ->)|(-> & -> & ->)] m src; unfold DownloadDataFromRAM; fold m src;
    cbn [Z.eqb Pos.eqb]; rewrite ?Z.add_assoc;
    destruct (SmcRomHoleWriteRegion _ _ _) as [? ?]; reflexivity.
Qed.

(** C25: (functional) an E6 download request, for every outcome of the flash
    write. When the image's 32-bit length fits the flash region of its file
    type, the handler writes the caller's image to that region and reports
    status 0 whatever the write reports; a write that reports success leaves
    exactly the image in the region and the other regions as they were.
    Otherwise it reports status 1 and leaves the firmware's state alone. In
    both cases no variable changes, and no byte of memory but the status. *)
Theorem E6_download_correct (s : @smm W S) Cpu hdr st ft op header :
  E6_request_at Cpu hdr st -> download_kind ft op header ->
  mr8 (mm s) (hdr + H_SubCommand) = 1 -> mr8 (mm s) (hdr + H_FileType) = ft ->
  let m := mw8 (mm s) (hdr + H_ReturnStatus) 0 in
  let src := mr64 (mm s) (hdr + H_DataBufferAddress) in
  let size := SmcRomHoleSize op (fw s) in
  let accepted := u32 (FileSize_at m src + header) <=? size in
  let image := mread m src size in
  exists s3,
    SmcInBandSwSmiE6Handler gSmcOobSmRam pol ReadSaveState AmiValidateMemoryBuffer Cpu s =
      Done (st, s3) /\
    mr8 (mm s3) (hdr + H_ReturnStatus) = b2z (negb accepted) /\
    (forall x, x <> hdr + H_ReturnStatus -> mm s3 x = mm s x) /\
    fw s3 = (if accepted then snd (SmcRomHoleWriteRegion op image (fw s)) else fw s) /\
    (accepted = true -> fst (SmcRomHoleWriteRegion op image (fw s)) = EFI_SUCCESS ->
       rom (fw s3) op = image /\
       forall op', op' <> op -> op' <> FULL_REGION -> rom (fw s3) op' = rom (fw s) op') /\
    var (fw s3) = var (fw s).
Proof.
  intros He Hk Hsub Hty m src size accepted image.
  rewrite (E6_dispatch _ _ _ _ He), Hsub, Hty. cbn [Z.eqb Pos.eqb].
  rewrite (download_eq hdr ft op header s Hk). fold m.
  assert (Es : mr64 m (hdr + H_DataBufferAddress) = src).
  { apply mr64_other. unfold apart, H_ReturnStatus, H_DataBufferAddress. zl. }
  rewrite Es. fold size accepted image. eexists. split; [done|].
  assert (Hout : forall x v m', x <> hdr + H_ReturnStatus -> mw8 m' (hdr + H_ReturnStatus) v x = m' x).
  { intros x v m' Hx. apply mwrite_out. zl. }
  destruct accepted; cbn [mm fw set_mem negb b2z].
  - split; [apply mr8_mw8|]. split; [intros; by apply Hout|]. split; [done|]. split; [|apply WriteRegion_var].
    intros _ Hok. split.
    + apply WriteRegion_same; [|done]. subst image. rewrite zlen_mread; [done|]. subst size. unfold SmcRomHoleSize. zl.
    + intros op' Hop Hfull. apply WriteRegion_other; try done. by destruct Hk as [(_&->&_)|(_&->&_)].
  - split; [apply mr8_mw8|]. split; [|done]. intros x Hx. rewrite Hout by done. by apply Hout.
Qed.

(** the length of a download is computed in 32 bits: a file
    size just below [2 ^ 32] wraps, passes the size check, and the flash
    region, if it can be written, then holds a header whose size field exceeds
    the region. *)
Theorem E6_download_wraps (s : @smm W S) Cpu hdr st ft op header :
  @regions_writable W _ -> E6_request_at Cpu hdr st -> download_kind ft op header ->
  mr8 (mm s) (hdr + H_SubCommand) = 1 -> mr8 (mm s) (hdr + H_FileType) = ft ->
  let src := mr64 (mm s) (hdr + H_DataBufferAddress) in
  let size := SmcRomHoleSize op (fw s) in
  apart src size hdr sizeof_Base_Header -> 18 <= size < 2 ^ 31 ->
  2 ^ 32 - header <= FileSize_at (mm s) src < 2 ^ 32 ->
  exists s3,
    SmcInBandSwSmiE6Handler gSmcOobSmRam pol ReadSaveState AmiValidateMemoryBuffer Cpu s =
      Done (st, s3) /\
    mr8 (mm s3) (hdr + H_ReturnStatus) = 0 /\
    rom (fw s3) op = mread (mm s) src size /\
    size < le_val (take 4 (drop 6 (rom (fw s3) op))).
Proof.
  intros Hw He Hk Hsub Hty src size Ha Hs Hf.
  rewrite (E6_dispatch _ _ _ _ He), Hsub, Hty. cbn [Z.eqb Pos.eqb].
  rewrite (download_eq hdr ft op header s Hk).
  set (m := mw8 (mm s) (hdr + H_ReturnStatus) 0). cbv zeta.
  assert (Es : mr64 m (hdr + H_DataBufferAddress) = src).
  { apply mr64_other. unfold apart, H_ReturnStatus, H_DataBufferAddress. zl. }
  rewrite Es. fold size. unfold sizeof_Base_Header in Ha.
  assert (Er : mread m src size = mread (mm s) src size).
  { apply mread_other. unfold apart, H_ReturnStatus in *. zl. }
  assert (Ef : FileSize_at m src = FileSize_at (mm s) src).
  { apply mr32_other. unfold apart, H_ReturnStatus in *. zl. }
  rewrite Ef, Er.
  assert (Hh : 18 <= header <= 19) by (destruct Hk as [(_&_&->)|(_&_&->)]; unfold sizeof_Cfg_Header, sizeof_Smbios_Header; lia).
  replace (u32 (FileSize_at (mm s) src + header)) with (FileSize_at (mm s) src + header - 2 ^ 32).
  2:{ unfold u32. apply (Z.mod_unique _ _ 1); lia. }
  replace (_ <=? size) with true by lia. eexists. split; [done|]. cbn [mm fw].
  rewrite write_region_same; [|done|rewrite zlen_mread by lia; done].
  split_and!; [apply mr8_mw8|done|].
  pose proof (mread_part (mm s) src size 6 4 ltac:(lia) ltac:(lia) ltac:(lia)) as Ep.
  change (Z.to_nat 4) with 4%nat in Ep. change (Z.to_nat 6) with 6%nat in Ep. rewrite <- Ep.
  fold (mr32 (mm s) (src + 6)). unfold FileSize_at in Hf. lia.
Qed.
End requests.

(** ** A concrete system

    SMRAM at 16 MB, the DXE buffer at 8 MB as the RTC says, a request at
    4 KB whose data goes to or comes from 8 KB. *)
Definition demo_ram : Z := 0x1000000.
Definition demo_pol : smm_policy :=
  mkPolicy 0xe6 0xe8 (0x8000 + 8 * 1) (0x8000 + 8 * 2) (0x8000 + 8 * 3) (0x8000 + 8 * 4) demo_flags.
Definition demo_rtc : RTC := mkRTC 0 (fun i => if i =? 2 then 0x80 else 0).
Definition demo_save (r : smm_reg) (_ : Z) : EFI_STATUS * Z :=
  (EFI_SUCCESS, match r with REG_RBX => 0x1000 | REG_RCX => 0 end).
(** Refuses what overlaps SMRAM. *)
Definition demo_validate (a n : Z) : EFI_STATUS :=
  if (a + n <=? demo_ram) || (demo_ram + SMC_OOB_SMRAM_TOTAL_SIZE <=? a)
  then EFI_SUCCESS else EFI_ACCESS_DENIED.

Definition zero_mem : mem := fun _ => 0.
Lemma zero_mem_ok : mem_ok zero_mem.
Proof. intros a. by split. Qed.

(** A settings image of three data bytes and its checksum. *)
Definition demo_cfg : list Z :=
  [0x24; 0x43; 0x46; 0x47; 1; 0; 3; 0; 0; 0; 0; 0; 0; 0; 0; 0; 0; 0; 7; 8; 9; 0xaa].

Definition demo_request (SubCommand FileType dst : Z) : list Z :=
  [17; 0; SubCommand; 0; 0; 0; 0; FileType; 0] ++ le_bytes 8 dst.

Definition demo_fw : SimpleFw := mkFw ∅ {[INBAND_REGION := replicate 32 0xff]} [].

Lemma demo_E6 : E6_request_at demo_save demo_validate 0 0x1000 EFI_SUCCESS.
Proof. split; [done|]. split; [|done]. by exists EFI_SUCCESS, 0x1000, 0. Qed.

Lemma demo_bytes_ok l : forallb (fun b => (0 <=? b) && (b <? 256)) l = true -> bytes_ok l.
Proof.
  induction l as [|b l IH]; cbn; [by constructor|]. intros [Hb Hl]%andb_prop.
  constructor; [unfold is_u8; lia|by apply IH].
Qed.

Lemma SMI_handoff_witness :
  let s := mkSmm (mwrite zero_mem (0x800000 + img_off IMG_BIOS_CFG) demo_cfg) demo_fw demo_rtc in
  exists s1, foldM (E8_request demo_ram demo_pol) [IMG_HII; IMG_BIOS_CFG] s = Done s1 /\
  exists s3,
    SmcInBandSwSmiE6Handler demo_ram demo_pol demo_save demo_validate 0
      (set_mem s1 (mwrite (mm s1) 0x1000 (demo_request 3 0 0x2000))) = Done (EFI_SUCCESS, s3) /\
    mread (mm s3) 0x2000 22 = demo_cfg /\ mr32 (mm s3) 0x1003 = 22.
Proof.
  intros s.
  assert (Hsz : img_size (mm s) 0x800000 IMG_BIOS_CFG = 22) by by vm_compute.
  destruct (SMI_handoff demo_ram demo_pol demo_save demo_validate s 0x800000
    (IoWrite8 0x70 0x84 demo_rtc) [IMG_HII; IMG_BIOS_CFG] IMG_BIOS_CFG 0 0x1000 EFI_SUCCESS)
    as (s1 & E1 & Hs1).
  - reflexivity.
  - apply mwrite_ok; [apply zero_mem_ok|]. by apply demo_bytes_ok.
  - by left.
  - intros []; by vm_compute.
  - set_solver.
  - apply demo_E6.
  - by left.
  - exists s1. split; [exact E1|].
    set (m2 := mwrite (mm s1) 0x1000 (demo_request 3 0 0x2000)).
    assert (Ed : mr64 m2 (0x1000 + H_DataBufferAddress) = 0x2000).
    { unfold mr64. change (0x1000 + H_DataBufferAddress) with (0x1000 + 9).
      rewrite (mread_part m2 0x1000 17 9 8) by lia. subst m2. by rewrite mread_same. }
    destruct (Hs1 m2) as (s3 & E3 & _ & R & T & _).
    + intros x Hx. apply mwrite_out. unfold demo_ram in Hx. right. change (zlen _) with 17. lia.
    + reflexivity.
    + reflexivity.
    + rewrite Ed. by right.
    + rewrite Ed. by left.
    + exists s3. rewrite Ed, Hsz in *. split; [exact E3|]. split; [|exact T].
      rewrite R. by apply mread_same.
Defined.

Lemma E6_upload_unchecked_witness :
  exists s3,
    SmcInBandSwSmiE6Handler demo_ram demo_pol demo_save demo_validate 0
      (mkSmm (mwrite zero_mem 0x1000 (demo_request 3 0 demo_ram)) demo_fw demo_rtc) =
      Done (EFI_SUCCESS, s3) /\
    mread (mm s3) demo_ram 19 = replicate 19 0.
Proof.
  destruct (E6_upload_unchecked demo_ram demo_pol demo_save demo_validate
    (mkSmm (mwrite zero_mem 0x1000 (demo_request 3 0 demo_ram)) demo_fw demo_rtc)
    IMG_BIOS_CFG 0 0x1000 EFI_SUCCESS) as (s3 & E & R).
  - apply mwrite_ok; [apply zero_mem_ok|]. by apply demo_bytes_ok.
  - intros []; by vm_compute.
  - apply demo_E6.
  - by left.
  - reflexivity.
  - reflexivity.
  - by vm_compute.
  - by vm_compute.
  - exists s3. split; [exact E|]. exact R.
Defined.

Lemma E6_download_correct_witness :
  exists s3,
    SmcInBandSwSmiE6Handler demo_ram demo_pol demo_save demo_validate 0
      (mkSmm (mwrite (mwrite zero_mem 0x2000 demo_cfg) 0x1000 (demo_request 1 0 0x2000))
         demo_fw demo_rtc) = Done (EFI_SUCCESS, s3) /\
    mr8 (mm s3) 0x1008 = 0 /\ rom (fw s3) INBAND_REGION = demo_cfg ++ replicate 10 0.
Proof.
  destruct (E6_download_correct demo_ram demo_pol demo_save demo_validate
    (mkSmm (mwrite (mwrite zero_mem 0x2000 demo_cfg) 0x1000 (demo_request 1 0 0x2000))
         demo_fw demo_rtc) 0 0x1000 EFI_SUCCESS 0 INBAND_REGION 19)
    as (s3 & E & R & _ & _ & F & _).
  - apply demo_E6.
  - by left.
  - reflexivity.
  - reflexivity.
  - exists s3. split; [exact E|]. split; [exact R|]. destruct F as [-> _]; [by vm_compute|reflexivity|by vm_compute].
Defined.

Lemma E6_download_wraps_witness :
  exists s3,
    SmcInBandSwSmiE6Handler demo_ram demo_pol demo_save demo_validate 0
      (mkSmm (mwrite (mwrite zero_mem 0x2006 (le_bytes 4 0xfffffff8)) 0x1000 (demo_request 1 0 0x2000))
         demo_fw demo_rtc) = Done (EFI_SUCCESS, s3) /\
    mr8 (mm s3) 0x1008 = 0.
Proof.
  destruct (E6_download_wraps demo_ram demo_pol demo_save demo_validate
    (mkSmm (mwrite (mwrite zero_mem 0x2006 (le_bytes 4 0xfffffff8)) 0x1000 (demo_request 1 0 0x2000))
         demo_fw demo_rtc) 0 0x1000 EFI_SUCCESS 0 INBAND_REGION 19)
    as (s3 & E & R & _).
  - apply SimpleFw_regions.
  - apply demo_E6.
  - by left.
  - reflexivity.
  - reflexivity.
  - by right.
  - by vm_compute.
  - by vm_compute.
  - exists s3. split; [exact E|exact R].
Defined.
