(* ===== verification/VarHash.v ===== *)
(** * Variable tables of the LSI RAID driver

    [SmcLsiRaidOOB.c], the part between "LSI VAR START" and "LSI VAR END":
    per card, the variables the card's forms use, chained in two hash tables
    of 31 buckets, one by name and one by variable-store identifier. A node is
    on one chain of each table.

    The functions work on the tables two globals point to,
    [LsiVarHashTableName] and [LsiVarHashTableVarId]; here the globals hold
    the address of the card record ([SMC_LSI_HII_HANDLE]) the tables are in.
    The pool allocator hands out the addresses of the list [avail], 0 being a
    failure; [released] is the log of the [FreePool] calls. [fuel] bounds the
    loops over a chain. *)

From S2P Require Import Prelude Chain.

Definition NAME_LENGTH : Z := 0x80.
Definition VAR_HASH_NUM : Z := 0x1F.
Definition VAR_UNUSED_SPACE : Z := 0x100.
Definition RAID_NULL : Z := 0xFF.

(** ** Data *)
Record SMC_RAID_VAR := mkVar {
  RaidVarName : list Z;      (* without the terminator *)
  RaidVarGuid : list Z;
  RaidVarId : Z;
  RaidVarSize : Z;
  RaidVarBuffer : Z }.

Record SMC_RAID_VAR_HASH := mkNode {
  RaidVar : SMC_RAID_VAR;
  pRaidpNameNext : Z;
  pRaidpIdNext : Z }.

Definition set_NameNext (p : Z) (n : SMC_RAID_VAR_HASH) : SMC_RAID_VAR_HASH :=
  mkNode (RaidVar n) p (pRaidpIdNext n).
Definition set_IdNext (p : Z) (n : SMC_RAID_VAR_HASH) : SMC_RAID_VAR_HASH :=
  mkNode (RaidVar n) (pRaidpNameNext n) p.
Definition set_Buffer (p : Z) (n : SMC_RAID_VAR_HASH) : SMC_RAID_VAR_HASH :=
  let v := RaidVar n in
  mkNode (mkVar (RaidVarName v) (RaidVarGuid v) (RaidVarId v) (RaidVarSize v) p)
    (pRaidpNameNext n) (pRaidpIdNext n).

Record SMC_LSI_HII_HANDLE := mkHandle {
  RaidCardType : Z;
  RaidLsiVarHashTableName : list Z;
  RaidLsiVarHashTableVarId : list Z;
  pNext : Z }.

Record World := mkWorld {
  vars : gmap Z SMC_RAID_VAR_HASH;
  bufs : gmap Z (list Z);
  handles : gmap Z SMC_LSI_HII_HANDLE;
  LsiVarHashTableName : Z;
  LsiVarHashTableVarId : Z;
  SmcLsiDetailedStatus : Z;
  avail : list Z;
  released : list Z }.

Definition set_vars (h : gmap Z SMC_RAID_VAR_HASH) (w : World) : World :=
  mkWorld h (bufs w) (handles w) (LsiVarHashTableName w) (LsiVarHashTableVarId w)
    (SmcLsiDetailedStatus w) (avail w) (released w).
Definition set_bufs (b : gmap Z (list Z)) (w : World) : World :=
  mkWorld (vars w) b (handles w) (LsiVarHashTableName w) (LsiVarHashTableVarId w)
    (SmcLsiDetailedStatus w) (avail w) (released w).
Definition set_handles (h : gmap Z SMC_LSI_HII_HANDLE) (w : World) : World :=
  mkWorld (vars w) (bufs w) h (LsiVarHashTableName w) (LsiVarHashTableVarId w)
    (SmcLsiDetailedStatus w) (avail w) (released w).
Definition set_globals (n i : Z) (w : World) : World :=
  mkWorld (vars w) (bufs w) (handles w) n i
    (SmcLsiDetailedStatus w) (avail w) (released w).
Definition set_avail (a : list Z) (w : World) : World :=
  mkWorld (vars w) (bufs w) (handles w) (LsiVarHashTableName w) (LsiVarHashTableVarId w)
    (SmcLsiDetailedStatus w) a (released w).

(** [pProtocol->SmcLsiDetailedStatus = (... << 8) | (ErrorStatus & 0xFF)]:
    the last eight error codes, the newest in the low byte. *)
Definition SettingErrorStatus (ErrorStatus : Z) (w : World) : World :=
  mkWorld (vars w) (bufs w) (handles w) (LsiVarHashTableName w) (LsiVarHashTableVarId w)
    (u64 (Z.lor (Z.shiftl (SmcLsiDetailedStatus w) 8) (Z.land ErrorStatus 0xFF)))
    (avail w) (released w).

(** ** Pool *)
Definition AllocatePool (w : World) : Z * World :=
  match avail w with [] => (0, w) | a :: r => (a, set_avail r w) end.

(** [FreePool] of an address that is not allocated changes nothing. *)
Definition FreePool (p : Z) (w : World) : World :=
  mkWorld (delete p (vars w)) (delete p (bufs w)) (handles w)
    (LsiVarHashTableName w) (LsiVarHashTableVarId w) (SmcLsiDetailedStatus w)
    (avail w) (released w ++ [p]).

(** ** The tables the globals point to *)
Definition name_table (w : World) : Res (list Z) :=
  h ← deref (handles w) (LsiVarHashTableName w); Done (RaidLsiVarHashTableName h).
Definition id_table (w : World) : Res (list Z) :=
  h ← deref (handles w) (LsiVarHashTableVarId w); Done (RaidLsiVarHashTableVarId h).

Definition set_name_table (t : list Z) (w : World) : World :=
  set_handles (alter (fun h => mkHandle (RaidCardType h) t (RaidLsiVarHashTableVarId h) (pNext h))
    (LsiVarHashTableName w) (handles w)) w.
Definition set_id_table (t : list Z) (w : World) : World :=
  set_handles (alter (fun h => mkHandle (RaidCardType h) (RaidLsiVarHashTableName h) t (pNext h))
    (LsiVarHashTableVarId w) (handles w)) w.

Definition InitialLsiVarHashTable (SmcLsiCurrHiiHandleTable : Z) (w : World) : EFI_STATUS * World :=
  if SmcLsiCurrHiiHandleTable =? 0 then (EFI_LOAD_ERROR, w)
  else (EFI_SUCCESS, set_globals SmcLsiCurrHiiHandleTable SmcLsiCurrHiiHandleTable w).

(** ** Hash functions *)
Definition VarHashByName (Name : list Z) : Z :=
  fold_left (fun hashval c => u16 (hashval + u8 c)) Name 0 mod VAR_HASH_NUM.
Definition VarHashById (VarId : Z) : Z := VarId mod VAR_HASH_NUM.

Definition name_hash (n : SMC_RAID_VAR_HASH) : Z := VarHashByName (RaidVarName (RaidVar n)).
Definition id_hash (n : SMC_RAID_VAR_HASH) : Z := VarHashById (RaidVarId (RaidVar n)).

(** ** Search *)
Definition var_matches (Name : list Z) (Guid : option (list Z)) (n : SMC_RAID_VAR_HASH) : bool :=
  bool_decide (RaidVarName (RaidVar n) = Name) &&
  match Guid with None => true | Some g => bool_decide (RaidVarGuid (RaidVar n) = g) end.
Definition id_matches (VarId : Z) (n : SMC_RAID_VAR_HASH) : bool :=
  RaidVarId (RaidVar n) =? VarId.

(** A pointer result: 0 when nothing was found. *)
Definition ptr (o : option Z) : Z := default 0 o.

Section driver.
Context (fuel : nat).

Definition SearchLsiVarByName (w : World) (Name : list Z) (Guid : option (list Z)) : Res Z :=
  t ← name_table w;
  pTemp ← arr_get t (VarHashByName Name);
  o ← chain_find pRaidpNameNext fuel (vars w) pTemp (var_matches Name Guid);
  Done (ptr o).

Definition SearchLsiVarById (w : World) (VarId : Z) : Res Z :=
  t ← id_table w;
  pTemp ← arr_get t (VarHashById VarId);
  o ← chain_find pRaidpIdNext fuel (vars w) pTemp (id_matches VarId);
  Done (ptr o).

(** ** Insertion *)
Definition AddLsiVarByName (Var : Z) (w : World) : Res World :=
  n ← deref (vars w) Var;
  t ← name_table w;
  r ← bucket_add pRaidpNameNext set_NameNext fuel (vars w) t (name_hash n) Var;
  Done (set_name_table r.2 (set_vars r.1 w)).

Definition AddLsiVarByVId (Var : Z) (w : World) : Res World :=
  n ← deref (vars w) Var;
  t ← id_table w;
  r ← bucket_add pRaidpIdNext set_IdNext fuel (vars w) t (id_hash n) Var;
  Done (set_id_table r.2 (set_vars r.1 w)).

Definition AddLsiVarToTable (Var : Z) (w : World) : Res World :=
  w ← AddLsiVarByName Var w; AddLsiVarByVId Var w.

(** [Strcpy] into an array of [NAME_LENGTH] bytes. *)
Definition VarInitial (pTemp : Z) (Name Guid : list Z) (VarId VarSize : Z) (w : World) : Res World :=
  n ← deref (vars w) pTemp;
  if NAME_LENGTH <=? zlen Name then Fault else
  Done (set_vars (<[pTemp := mkNode
    (mkVar Name Guid VarId VarSize (RaidVarBuffer (RaidVar n))) 0 0]> (vars w)) w).

(** The buffer is allocated once; a later call copies into the buffer there
    is. The second comparison of the code repeats the first after the copy. *)
Definition SetLsiVarBuffer (pVar Buffer : Z) (w : World) : Res (Z * World) :=
  if pVar =? 0 then Done (0, w) else
  if Buffer =? 0 then Done (0, w) else
  n ← deref (vars w) pVar;
  let size := RaidVarSize (RaidVar n) in
  w ← (if RaidVarBuffer (RaidVar n) =? 0 then
         let '(a, w) := AllocatePool w in
         if a =? 0 then Fault     (* MemSet of NULL *)
         else Done (set_vars (<[pVar := set_Buffer a n]> (vars w))
                (set_bufs (<[a := replicate (Z.to_nat size) 0]> (bufs w)) w))
       else Done w);
  n ← deref (vars w) pVar;
  src ← deref (bufs w) Buffer;
  new ← rdn src 0 size;
  dst ← deref (bufs w) (RaidVarBuffer (RaidVar n));
  old ← rdn dst 0 size;
  if bool_decide (old = new) then Done (pVar, w) else
  dst ← wrn dst 0 new;
  let w := set_bufs (<[RaidVarBuffer (RaidVar n) := dst]> (bufs w)) w in
  src ← deref (bufs w) Buffer;
  new ← rdn src 0 size;
  got ← rdn dst 0 size;
  Done (if bool_decide (got = new) then pVar else 0, w).

Definition GetLsiVarBuffer (pVar : Z) (w : World) : Res Z :=
  if pVar =? 0 then Done 0 else
  n ← deref (vars w) pVar; Done (RaidVarBuffer (RaidVar n)).

(** The node a variable gets: the one that has its name, or a new one, all
    zero. [None]: the allocation failed, error code 0x30. *)
Definition zero_node : SMC_RAID_VAR_HASH := mkNode (mkVar [] (replicate 16 0) 0 0 0) 0 0.

Definition var_node (Name Guid : list Z) (w : World) : Res (option Z * World) :=
  pVar ← SearchLsiVarByName w Name (Some Guid);
  if pVar =? 0 then
    let '(a, w) := AllocatePool w in
    if a =? 0 then Done (None, SettingErrorStatus 0x30 w)
    else Done (Some a, set_vars (<[a := zero_node]> (vars w)) w)
  else Done (Some pVar, w).

(** [EFI_ERROR] of a pointer, as the code applies it to the result of
    [SetLsiVarBuffer]: the top bit of a 64-bit word. *)
Definition EFI_ERROR_ptr (p : Z) : bool := Z.testbit p 63.
#[global] Arguments EFI_ERROR_ptr : simpl never.

Definition AddLsiVarByBuffer (Name Guid : list Z) (VarId VarSize pBuffer : Z) (w : World)
    : Res (Z * World) :=
  '(o, w) ← var_node Name Guid w;
  match o with
  | None => Done (0, w)
  | Some pTemp =>
      w ← VarInitial pTemp Name Guid VarId VarSize w;
      '(r, w) ← SetLsiVarBuffer pTemp pBuffer w;
      if EFI_ERROR_ptr r then Done (0, SettingErrorStatus 0x32 w) else
      w ← AddLsiVarToTable pTemp w;
      Done (pTemp, w)
  end.

Definition AddLsiVarByBuffer2 (Name Guid : list Z) (VarId VarSize pBuffer : Z) (w : World)
    : Res (Z * World) :=
  '(o, w) ← var_node Name Guid w;
  match o with
  | None => Done (0, w)
  | Some pTemp =>
      w ← VarInitial pTemp Name Guid VarId VarSize w;
      n ← deref (vars w) pTemp;
      let w := set_vars (<[pTemp := set_Buffer pBuffer n]> (vars w)) w in
      w ← AddLsiVarToTable pTemp w;
      Done (pTemp, w)
  end.

(** *** [AddLsiVar]: the data comes from the card's configuration access

    [ExtractConfig name guid size] is the answer of the card's
    [EFI_HII_CONFIG_ACCESS_PROTOCOL] to a request for the whole variable, an
    error or a configuration string; [ConfigToBlock] is the routing
    protocol's conversion of such a string to at most [size] bytes. *)
Context (ExtractConfig : list Z -> list Z -> Z -> option (list Z)).
Context (ConfigToBlock : list Z -> Z -> option (list Z)).

Definition SetLsiVarBuffer_byString (pVar : Z) (DataString : list Z) (w : World)
    : Res (Z * World) :=
  n ← deref (vars w) pVar;
  let VarDataSize := RaidVarSize (RaidVar n) + VAR_UNUSED_SPACE in
  w ← (if RaidVarBuffer (RaidVar n) =? 0 then
         let '(a, w) := AllocatePool w in
         if a =? 0 then Fault
         else Done (set_vars (<[pVar := set_Buffer a n]> (vars w))
                (set_bufs (<[a := replicate (Z.to_nat VarDataSize) 0]> (bufs w)) w))
       else Done w);
  n ← deref (vars w) pVar;
  let b := RaidVarBuffer (RaidVar n) in
  buf ← deref (bufs w) b;
  buf ← wrn buf 0 (replicate (Z.to_nat VarDataSize) 0);
  match ConfigToBlock DataString VarDataSize with
  | None => Done (0, set_bufs (<[b := buf]> (bufs w)) w)
  | Some block =>
      buf ← wrn buf 0 (take (Z.to_nat VarDataSize) block);
      Done (pVar, set_bufs (<[b := buf]> (bufs w)) w)
  end.

Definition AddLsiVar (Name Guid : list Z) (VarId VarSize : Z) (w : World) : Res (Z * World) :=
  '(o, w) ← var_node Name Guid w;
  match o with
  | None => Done (0, w)
  | Some pTemp =>
      w ← VarInitial pTemp Name Guid VarId VarSize w;
      match ExtractConfig Name Guid VarSize with
      | None => Done (0, SettingErrorStatus 0x31 w)
      | Some TempResult =>
          '(r, w) ← SetLsiVarBuffer_byString pTemp TempResult w;
          if r =? 0 then Done (0, SettingErrorStatus 0x32 w) else
          w ← AddLsiVarToTable pTemp w;
          Done (pTemp, w)
      end
  end.

(** ** Release *)
Fixpoint free_chain (n : nat) (pTemp : Z) (w : World) : Res World :=
  match n with
  | O => NoFuel
  | S k =>
      if pTemp =? 0 then Done w else
      v ← deref (vars w) pTemp;
      free_chain k (pRaidpNameNext v)
        (FreePool pTemp (FreePool (RaidVarBuffer (RaidVar v)) w))
  end.

Definition FreeLsiVarHashTable (w : World) : Res (EFI_STATUS * World) :=
  t ← name_table w;
  w ← foldM (fun w i => pTemp ← arr_get t i; free_chain fuel pTemp w)
        (seqZ 0 VAR_HASH_NUM) w;
  let zeros := replicate (Z.to_nat VAR_HASH_NUM) 0 in
  _ ← id_table w;
  Done (EFI_SUCCESS, set_id_table zeros (set_name_table zeros w)).

(** ** Search over the cards

    The loop over the list of cards moves a global from card to card and
    restores it at the end. *)
Fixpoint first_card (n : nat) (hd : Z) (w : World) (look : Z -> Res Z) : Res (Z * Z) :=
  match n with
  | O => NoFuel
  | S k =>
      if hd =? 0 then Done (0, 0) else
      h ← deref (handles w) hd;
      if RaidCardType h =? RAID_NULL then Done (hd, 0) else
      p ← look hd;
      if p =? 0 then first_card k (pNext h) w look else Done (hd, p)
  end.

Definition SearchInSmcSetupVarById (SmcLsiHiiHandleTable SmcVarId : Z) (w : World)
    : Res (Z * World) :=
  let pOriVarIdTable := LsiVarHashTableVarId w in
  r ← first_card fuel SmcLsiHiiHandleTable w
        (fun hd => SearchLsiVarById (set_globals (LsiVarHashTableName w) hd w) SmcVarId);
  Done (r.2, set_globals (LsiVarHashTableName w) pOriVarIdTable w).

Definition SearchInSmcSetupVarByName (SmcLsiHiiHandleTable : Z) (SmcVarName : list Z)
    (pGuid : option (list Z)) (w : World) : Res (Z * World) :=
  let pOriVarNameTable := LsiVarHashTableName w in
  r ← first_card fuel SmcLsiHiiHandleTable w
        (fun hd => SearchLsiVarByName (set_globals hd (LsiVarHashTableVarId w) w) SmcVarName pGuid);
  Done (r.2, set_globals pOriVarNameTable (LsiVarHashTableVarId w) w).

Definition SearchInTargetHandleSmcSetupVarByName (pSmcHiiHandle : Z) (SmcVarName : list Z)
    (pGuid : option (list Z)) (w : World) : Res (Z * World) :=
  if pSmcHiiHandle =? 0 then Done (0, w) else
  let pOriVarNameTable := LsiVarHashTableName w in
  p ← SearchLsiVarByName (set_globals pSmcHiiHandle (LsiVarHashTableVarId w) w) SmcVarName pGuid;
  Done (p, set_globals pOriVarNameTable (LsiVarHashTableVarId w) w).

(** The card whose table has the name; the end of the list of cards when none
    has. *)
Definition SearchHiiHandleTableByVarName (SmcLsiHiiHandleTable : Z) (SmcVarName : list Z)
    (pGuid : option (list Z)) (w : World) : Res (Z * World) :=
  let pOriVarNameTable := LsiVarHashTableName w in
  r ← first_card fuel SmcLsiHiiHandleTable w
        (fun hd => SearchLsiVarByName (set_globals hd (LsiVarHashTableVarId w) w) SmcVarName pGuid);
  Done (r.1, set_globals pOriVarNameTable (LsiVarHashTableVarId w) w).
End driver.

(** ** What the tables hold

    [tables h nt it ps]: [ps] are the nodes in the order they were added, and
    both tables chain exactly these nodes. *)
Definition tables (h : gmap Z SMC_RAID_VAR_HASH) (nt it ps : list Z) : Prop :=
  NoDup ps /\ (forall q, q ∈ ps -> q <> 0 /\ is_Some (h !! q)) /\
  zlen nt = VAR_HASH_NUM /\ zlen it = VAR_HASH_NUM /\
  bucketed pRaidpNameNext name_hash h nt ps /\ bucketed pRaidpIdNext id_hash h it ps.

(** Card [hd] holds the variables at [ps]. *)
Definition holds (w : World) (hd : Z) (ps : list Z) : Prop :=
  exists c, handles w !! hd = Some c /\
    tables (vars w) (RaidLsiVarHashTableName c) (RaidLsiVarHashTableVarId c) ps.

Definition current (w : World) (hd : Z) : Prop :=
  LsiVarHashTableName w = hd /\ LsiVarHashTableVarId w = hd.

(** The variables themselves, oldest first. *)
Definition entries (w : World) (ps : list Z) : list SMC_RAID_VAR :=
  omap (fun q => RaidVar <$> vars w !! q) ps.

Lemma hash_range x : 0 <= x mod VAR_HASH_NUM < VAR_HASH_NUM.
Proof. by apply Z.mod_pos_bound. Qed.

Lemma VarHashByName_range Name : 0 <= VarHashByName Name < VAR_HASH_NUM.
Proof. apply hash_range. Qed.
Lemma VarHashById_range i : 0 <= VarHashById i < VAR_HASH_NUM.
Proof. apply hash_range. Qed.

Lemma var_matches_hash Name G n : var_matches Name G n = true -> name_hash n = VarHashByName Name.
Proof. unfold var_matches, name_hash. intros [->%bool_decide_eq_true _]%andb_prop. done. Qed.

Lemma id_matches_hash i n : id_matches i n = true -> id_hash n = VarHashById i.
Proof. unfold id_matches, id_hash. by intros ->%Z.eqb_eq. Qed.

Section tables.
Context (fuel : nat) (w : World) (hd : Z) (ps : list Z).
Context (H : holds w hd ps) (Hf : (length ps < fuel)%nat).

Lemma bucket_fuel {N} (hash : N -> Z) h i : (length (bucket hash h i ps) < fuel)%nat.
Proof using Hf. pose proof (filter_length_le (in_bucket hash h i) ps). unfold bucket. lia. Qed.

Lemma search_name Name G :
  LsiVarHashTableName w = hd ->
  SearchLsiVarByName fuel w Name G = Done (ptr (first_at (vars w) (var_matches Name G) ps)).
Proof using H Hf.
  intros E. destruct H as (c & Hc & _ & _ & Hn & _ & Hb & _).
  unfold SearchLsiVarByName, name_table. rewrite E, (deref_at _ _ _ Hc), !bind_Done.
  pose proof (VarHashByName_range Name) as Hr. rewrite <- Hn in Hr.
  destruct (bucket_bounds _ _ _ _ _ _ Hb Hr) as (p & _ & -> & Hp). cbn.
  rewrite (chain_find_spec _ _ _ _ _ _ Hp) by apply bucket_fuel. cbn.
  by rewrite first_at_bucket by apply var_matches_hash.
Qed.

Lemma search_id i :
  LsiVarHashTableVarId w = hd ->
  SearchLsiVarById fuel w i = Done (ptr (first_at (vars w) (id_matches i) ps)).
Proof using H Hf.
  intros E. destruct H as (c & Hc & _ & _ & _ & Hn & _ & Hb).
  unfold SearchLsiVarById, id_table. rewrite E, (deref_at _ _ _ Hc), !bind_Done.
  pose proof (VarHashById_range i) as Hr. rewrite <- Hn in Hr.
  destruct (bucket_bounds _ _ _ _ _ _ Hb Hr) as (p & _ & -> & Hp). cbn.
  rewrite (chain_find_spec _ _ _ _ _ _ Hp) by apply bucket_fuel. cbn.
  by rewrite first_at_bucket by apply id_matches_hash.
Qed.
End tables.

(** ** The effect of an insertion *)

(** [w'] is [w] with new links between the nodes of card [hd] only. *)
Definition relinked (hd : Z) (ps : list Z) (w w' : World) : Prop :=
  same RaidVar (vars w) (vars w') /\
  (forall q, q ∉ ps -> vars w' !! q = vars w !! q) /\
  (forall d, d <> hd -> handles w' !! d = handles w !! d) /\
  bufs w' = bufs w /\ avail w' = avail w /\ released w' = released w /\
  LsiVarHashTableName w' = LsiVarHashTableName w /\
  LsiVarHashTableVarId w' = LsiVarHashTableVarId w /\
  SmcLsiDetailedStatus w' = SmcLsiDetailedStatus w.

Lemma relinked_trans hd ps w1 w2 w3 :
  relinked hd ps w1 w2 -> relinked hd ps w2 w3 -> relinked hd ps w1 w3.
Proof.
  intros (A & B & C & ? & ? & ? & ? & ? & ?) (A' & B' & C' & ? & ? & ? & ? & ? & ?).
  split_and!; [exact (same_trans _ _ _ _ A A')| | |congruence..].
  - intros q Hq. by rewrite B', B.
  - intros d Hd. by rewrite C', C.
Qed.

(** One link of some node of [ps] now points to [v]. *)
Definition one_link (set_next : Z -> SMC_RAID_VAR_HASH -> SMC_RAID_VAR_HASH) (v : Z)
    (ps : list Z) (h h' : gmap Z SMC_RAID_VAR_HASH) : Prop :=
  forall q, h' !! q = h !! q \/
    exists n, q ∈ ps /\ h !! q = Some n /\ h' !! q = Some (set_next v n).

Lemma one_link_same {X} (g : SMC_RAID_VAR_HASH -> X) set_next v ps h h' :
  (forall n, g (set_next v n) = g n) -> one_link set_next v ps h h' -> same g h h'.
Proof.
  intros Hg H q. destruct (H q) as [->|(n & _ & E & ->)]; [done|]. rewrite E. cbn. by rewrite Hg.
Qed.

Lemma one_link_outside set_next v ps h h' q :
  one_link set_next v ps h h' -> q ∉ ps -> h' !! q = h !! q.
Proof. intros H Hq. destruct (H q) as [->|(n & ? & _)]; done. Qed.

Section add.
Context (fuel : nat) (w : World) (hd : Z) (c : SMC_LSI_HII_HANDLE) (ps : list Z) (v : Z).
Context (x : SMC_RAID_VAR) (Hc : handles w !! hd = Some c) (Hf : (length ps < fuel)%nat).
Context (Hcur : current w hd) (Hv0 : v <> 0) (Hin : v ∉ ps).

Lemma AddLsiVarByName_spec n :
  vars w !! v = Some n -> pRaidpNameNext n = 0 ->
  bucketed pRaidpNameNext name_hash (vars w) (RaidLsiVarHashTableName c) ps ->
  zlen (RaidLsiVarHashTableName c) = VAR_HASH_NUM ->
  exists h' t', AddLsiVarByName fuel v w = Done (set_name_table t' (set_vars h' w))
    /\ bucketed pRaidpNameNext name_hash h' t' (ps ++ [v]) /\ zlen t' = VAR_HASH_NUM
    /\ one_link set_NameNext v ps (vars w) h'.
Proof using Hc Hf Hcur Hv0 Hin.
  intros Hn Hz Hb Hl. destruct Hcur as [E _].
  destruct (bucket_add_spec pRaidpNameNext set_NameNext name_hash (fun _ _ => eq_refl)
    (fun _ _ => eq_refl) fuel (vars w) (RaidLsiVarHashTableName c) ps v n)
    as (h' & t' & Ha & Hb' & Hl' & Ho); try done.
  { rewrite Hl. apply VarHashByName_range. }
  exists h', t'. unfold AddLsiVarByName, name_table.
  rewrite (deref_at _ _ _ Hn), bind_Done, E, (deref_at _ _ _ Hc), bind_Done, bind_Done, Ha.
  rewrite Hl' , Hl. done.
Qed.

Lemma AddLsiVarByVId_spec n :
  vars w !! v = Some n -> pRaidpIdNext n = 0 ->
  bucketed pRaidpIdNext id_hash (vars w) (RaidLsiVarHashTableVarId c) ps ->
  zlen (RaidLsiVarHashTableVarId c) = VAR_HASH_NUM ->
  exists h' t', AddLsiVarByVId fuel v w = Done (set_id_table t' (set_vars h' w))
    /\ bucketed pRaidpIdNext id_hash h' t' (ps ++ [v]) /\ zlen t' = VAR_HASH_NUM
    /\ one_link set_IdNext v ps (vars w) h'.
Proof using Hc Hf Hcur Hv0 Hin.
  intros Hn Hz Hb Hl. destruct Hcur as [_ E].
  destruct (bucket_add_spec pRaidpIdNext set_IdNext id_hash (fun _ _ => eq_refl)
    (fun _ _ => eq_refl) fuel (vars w) (RaidLsiVarHashTableVarId c) ps v n)
    as (h' & t' & Ha & Hb' & Hl' & Ho); try done.
  { rewrite Hl. apply VarHashById_range. }
  exists h', t'. unfold AddLsiVarByVId, id_table.
  rewrite (deref_at _ _ _ Hn), bind_Done, E, (deref_at _ _ _ Hc), bind_Done, bind_Done, Ha.
  rewrite Hl' , Hl. done.
Qed.
End add.

Lemma name_link_same v ps h h' :
  one_link set_NameNext v ps h h' ->
  same RaidVar h h' /\ same pRaidpIdNext h h' /\ same id_hash h h'.
Proof. intros H. split_and!; (eapply one_link_same; [|exact H]; done). Qed.

Lemma id_link_same v ps h h' :
  one_link set_IdNext v ps h h' ->
  same RaidVar h h' /\ same pRaidpNameNext h h' /\ same name_hash h h'.
Proof. intros H. split_and!; (eapply one_link_same; [|exact H]; done). Qed.

Lemma snoc_nodes {X} (g : SMC_RAID_VAR_HASH -> X) h h' ps v n :
  same g h h' -> (forall q, q ∈ ps -> q <> 0 /\ is_Some (h !! q)) -> v <> 0 ->
  h !! v = Some n -> forall q, q ∈ ps ++ [v] -> q <> 0 /\ is_Some (h' !! q).
Proof.
  intros Hs Hin Hv Hn q Hq.
  assert (K : q <> 0 /\ exists m, h !! q = Some m).
  { apply elem_of_app in Hq as [Hq| ->%list_elem_of_singleton]; [|eauto].
    destruct (Hin q Hq) as [? [m ?]]. eauto. }
  destruct K as (K & m & Hm). destruct (same_at _ _ _ _ _ Hs Hm) as (m' & ? & _). eauto.
Qed.

Lemma nodup_snoc (ps : list Z) v : NoDup ps -> v ∉ ps -> NoDup (ps ++ [v]).
Proof.
  intros. apply NoDup_app. split_and!; [done| |apply NoDup_singleton].
  intros q Hq. by intros ->%list_elem_of_singleton.
Qed.

Lemma AddLsiVarToTable_spec fuel w hd ps v x :
  holds w hd ps -> current w hd -> (length ps < fuel)%nat ->
  v <> 0 -> v ∉ ps -> vars w !! v = Some (mkNode x 0 0) ->
  exists w', AddLsiVarToTable fuel v w = Done w' /\ holds w' hd (ps ++ [v])
    /\ relinked hd ps w w'.
Proof.
  intros (c & Hc & Hd & Hin & Hln & Hli & Hbn & Hbi) Hcur Hf Hv0 Hv Hn.
  destruct (AddLsiVarByName_spec fuel w hd c ps v Hc Hf Hcur Hv0 Hv _ Hn eq_refl Hbn Hln)
    as (h1 & t1 & E1 & Hb1 & Hl1 & Ho1).
  destruct Hcur as [En Ei]. destruct (name_link_same _ _ _ _ Ho1) as (S1 & Si1 & Sh1).
  set (w1 := set_name_table t1 (set_vars h1 w)).
  set (c1 := mkHandle (RaidCardType c) t1 (RaidLsiVarHashTableVarId c) (pNext c)).
  assert (Hc1 : handles w1 !! hd = Some c1) by (cbn; by rewrite En, lookup_alter_eq, Hc).
  assert (Hv1 : vars w1 !! v = Some (mkNode x 0 0)).
  { cbn. by rewrite (one_link_outside _ _ _ _ _ _ Ho1 Hv). }
  destruct (AddLsiVarByVId_spec fuel w1 hd c1 ps v Hc1 Hf (conj En Ei) Hv0 Hv _ Hv1 eq_refl)
    as (h2 & t2 & E2 & Hb2 & Hl2 & Ho2); [|done|].
  { eapply bucketed_frame; [by intros q _; apply Si1|by intros q _; apply Sh1|exact Hbi]. }
  destruct (id_link_same _ _ _ _ Ho2) as (S2 & Sn2 & Sh2).
  exists (set_id_table t2 (set_vars h2 w1)). unfold AddLsiVarToTable.
  rewrite E1, bind_Done. fold w1. split_and!; [done| |].
  - exists (mkHandle (RaidCardType c) t1 t2 (pNext c)). split.
    { cbn. rewrite Ei, En, !lookup_alter_eq, Hc. done. }
    split_and!; cbn; [by apply nodup_snoc| |done..| |done].
    + eapply snoc_nodes; [exact (same_trans _ _ _ _ S1 S2)|done..].
    + eapply bucketed_frame; [by intros q _; apply Sn2|by intros q _; apply Sh2|done].
  - split_and!; cbn; [exact (same_trans _ _ _ _ S1 S2)| | |done..].
    + intros q Hq. by rewrite (one_link_outside _ _ _ _ _ _ Ho2 Hq),
        <- (one_link_outside _ _ _ _ _ _ Ho1 Hq).
    + intros d Hne. by rewrite Ei, En, !lookup_alter_ne.
Qed.

(** ** Adding a new variable *)
Lemma holds_insert w hd ps a n :
  holds w hd ps -> a ∉ ps -> holds (set_vars (<[a := n]> (vars w)) w) hd ps.
Proof.
  intros (c & Hc & Hd & Hin & Hln & Hli & Hbn & Hbi) Ha. exists c. split; [done|].
  assert (E : forall q, q ∈ ps -> <[a := n]> (vars w) !! q = vars w !! q).
  { intros q Hq. apply lookup_insert_ne. by intros ->. }
  split_and!; cbn; try done.
  - intros q Hq. rewrite E by done. by apply Hin.
  - eapply bucketed_frame; [by intros q Hq; rewrite E|by intros q Hq; rewrite E|done].
  - eapply bucketed_frame; [by intros q Hq; rewrite E|by intros q Hq; rewrite E|done].
Qed.

Lemma holds_fresh w hd ps a : holds w hd ps -> vars w !! a = None -> a ∉ ps.
Proof. intros (c & _ & _ & Hin & _) Ha Hx. destruct (Hin a Hx) as [_ [n Hn]]. congruence. Qed.

(** Cards do not share variables: the other cards are untouched. *)
Lemma relinked_other hd ps w w' d qs :
  relinked hd ps w w' -> d <> hd -> (forall q, q ∈ qs -> q ∉ ps) ->
  holds w d qs -> holds w' d qs.
Proof.
  intros (Hs & Ho & Hh & _) Hd Hq (c & Hc & Hn & Hin & ? & ? & Hbn & Hbi).
  exists c. rewrite Hh by done. split; [done|].
  split_and!; try done.
  - intros q K. rewrite Ho by auto. by apply Hin.
  - eapply bucketed_frame; [by intros q K; rewrite Ho by auto..|done].
  - eapply bucketed_frame; [by intros q K; rewrite Ho by auto..|done].
Qed.

Definition absent (w : World) (ps : list Z) (Name Guid : list Z) : Prop :=
  first_at (vars w) (var_matches Name (Some Guid)) ps = None.

Lemma var_node_fresh fuel w hd ps Name Guid a r :
  holds w hd ps -> current w hd -> (length ps < fuel)%nat -> absent w ps Name Guid ->
  avail w = a :: r -> a <> 0 ->
  var_node fuel Name Guid w
  = Done (Some a, set_vars (<[a := zero_node]> (vars w)) (set_avail r w)).
Proof.
  intros H [E _] Hf Ha Hav Ha0. unfold var_node.
  rewrite (search_name _ _ _ _ H Hf _ _ E), bind_Done, Ha. cbn.
  unfold AllocatePool. rewrite Hav. by rewrite (proj2 (Z.eqb_neq a 0) Ha0).
Qed.

Lemma VarInitial_at w p n Name Guid VarId VarSize :
  vars w !! p = Some n -> zlen Name < NAME_LENGTH ->
  VarInitial p Name Guid VarId VarSize w
  = Done (set_vars (<[p := mkNode (mkVar Name Guid VarId VarSize (RaidVarBuffer (RaidVar n))) 0 0]>
      (vars w)) w).
Proof.
  intros Hn Hl. unfold VarInitial. rewrite (deref_at _ _ _ Hn), bind_Done.
  by rewrite (proj2 (Z.leb_gt _ _) Hl).
Qed.

Lemma rdn_full b n : zlen b = n -> rdn b 0 n = Done b.
Proof. intros H. apply (rdn_as b [] b []); [by rewrite app_nil_r|done|done]. Qed.

Lemma wrn_full b bs : zlen b = zlen bs -> wrn b 0 bs = Done bs.
Proof.
  intros H. rewrite (wrn_as b [] b [] 0 bs); [by rewrite app_nil_r|by rewrite app_nil_r|done..].
Qed.

Lemma rdn_prefix b n : 0 <= n <= zlen b -> rdn b 0 n = Done (take (Z.to_nat n) b).
Proof. intros H. apply rdn_Done. split_and!; [lia..|]. by rewrite drop_0. Qed.

(** The first copy into a variable without a buffer. *)
Lemma SetLsiVarBuffer_new w p n Buffer b r src :
  vars w !! p = Some n -> p <> 0 -> RaidVarBuffer (RaidVar n) = 0 -> Buffer <> 0 ->
  avail w = b :: r -> b <> 0 -> b <> Buffer -> bufs w !! Buffer = Some src ->
  0 <= RaidVarSize (RaidVar n) <= zlen src ->
  SetLsiVarBuffer p Buffer w
  = Done (p, set_vars (<[p := set_Buffer b n]> (vars w))
      (set_bufs (<[b := take (Z.to_nat (RaidVarSize (RaidVar n))) src]> (bufs w)) (set_avail r w))).
Proof.
  intros Hn Hp Hb0 HB Hav Hb HbB Hsrc Hsz. unfold SetLsiVarBuffer.
  rewrite (proj2 (Z.eqb_neq p 0) Hp), (proj2 (Z.eqb_neq Buffer 0) HB), (deref_at _ _ _ Hn), bind_Done.
  rewrite Hb0. cbn. unfold AllocatePool. rewrite Hav, (proj2 (Z.eqb_neq b 0) Hb).
  rewrite bind_Done. cbn. rewrite (deref_at _ _ (set_Buffer b n)) by apply lookup_insert_eq.
  rewrite bind_Done. cbn.
  assert (Es : forall x, deref (<[b := x]> (bufs w)) Buffer = Done src).
  { intros x. apply deref_at. by rewrite lookup_insert_ne. }
  rewrite Es, bind_Done. set (size := RaidVarSize (RaidVar n)) in *.
  assert (Ez : zlen (replicate (Z.to_nat size) 0) = size) by zl.
  assert (Et : zlen (take (Z.to_nat size) src) = size) by (rewrite zlen_take; lia).
  rewrite (rdn_prefix src size) by done. rewrite bind_Done.
  rewrite (deref_at _ _ _ (lookup_insert_eq _ _ _)), bind_Done, (rdn_full _ _ Ez), bind_Done.
  case_bool_decide as E; [by rewrite E|].
  rewrite wrn_full, bind_Done by (by rewrite Et). cbn.
  rewrite insert_insert_eq, Es, bind_Done, (rdn_prefix src size), bind_Done by done.
  by rewrite (rdn_full _ _ Et), bind_Done, bool_decide_true.
Qed.

Lemma entries_same w w' ps :
  (forall q, q ∈ ps -> RaidVar <$> vars w' !! q = RaidVar <$> vars w !! q) ->
  entries w' ps = entries w ps.
Proof.
  unfold entries. induction ps as [|q ps IH]; intros H; cbn; [done|].
  rewrite (H q) by (by left). rewrite IH; [done|]. intros x Hx. apply H. by right.
Qed.

Lemma entries_app w ps qs : entries w (ps ++ qs) = entries w ps ++ entries w qs.
Proof. apply omap_app. Qed.

(** The card's block, padded with the zeros of the cleared buffer. *)
Definition padded (D : Z) (block : list Z) : list Z :=
  take (Z.to_nat D) block ++ replicate (Z.to_nat (D - zlen block)) 0.

Lemma SetLsiVarBuffer_byString_new ConfigToBlock w p n s b r :
  vars w !! p = Some n -> RaidVarBuffer (RaidVar n) = 0 -> avail w = b :: r -> b <> 0 ->
  0 <= RaidVarSize (RaidVar n) ->
  let D := RaidVarSize (RaidVar n) + VAR_UNUSED_SPACE in
  SetLsiVarBuffer_byString ConfigToBlock p s w
  = Done (match ConfigToBlock s D with None => 0 | Some _ => p end,
      set_vars (<[p := set_Buffer b n]> (vars w))
        (set_bufs (<[b := padded D (default [] (ConfigToBlock s D))]> (bufs w)) (set_avail r w))).
Proof.
  intros Hn Hb0 Hav Hb Hsz D. unfold SetLsiVarBuffer_byString.
  rewrite (deref_at _ _ _ Hn), bind_Done. fold D. rewrite Hb0. cbn.
  unfold AllocatePool. rewrite Hav, (proj2 (Z.eqb_neq b 0) Hb), bind_Done. cbn.
  rewrite (deref_at _ _ _ (lookup_insert_eq _ _ _)), bind_Done. cbn.
  rewrite (deref_at _ _ _ (lookup_insert_eq _ _ _)), bind_Done, wrn_full, bind_Done by done.
  assert (HD : 0 <= D) by (unfold D, VAR_UNUSED_SPACE; lia).
  destruct (ConfigToBlock s D) as [block|]; cbn; rewrite ?insert_insert_eq.
  - pose proof (zlen_nonneg block).
    rewrite (wrn_as _ [] (replicate (length (take (Z.to_nat D) block)) 0)
      (replicate (Z.to_nat (D - zlen block)) 0)).
    + rewrite bind_Done. cbn. unfold set_vars, set_bufs. cbn. by rewrite insert_insert_eq.
    + cbn. rewrite <- replicate_add. f_equal. rewrite length_take. unfold zlen in *. lia.
    + done.
    + unfold zlen. by rewrite length_replicate.
  - unfold padded. rewrite take_nil. cbn. rewrite Z.sub_0_r. done.
Qed.

Lemma EFI_ERROR_ptr_small p : 0 <= p < 2 ^ 63 -> EFI_ERROR_ptr p = false.
Proof. intros H. apply Z.testbit_false; [lia|]. by rewrite Z.div_small. Qed.

Section fresh.
Context (fuel : nat) (w : World) (hd : Z) (ps : list Z) (a : Z).
Context (H : holds w hd ps) (Hcur : current w hd) (Hf : (length ps < fuel)%nat).
Context (Ha : vars w !! a = None) (Ha0 : a <> 0).

(** The node is linked in: the card's list of variables grows by [x], the
    other cards keep theirs. *)
Definition grown (x : SMC_RAID_VAR) (w' : World) : Prop :=
  holds w' hd (ps ++ [a]) /\ current w' hd /\ entries w' (ps ++ [a]) = entries w ps ++ [x] /\
  (forall d qs, d <> hd -> (forall q, q ∈ qs -> q ∉ ps) -> holds w d qs ->
     holds w' d qs /\ entries w' qs = entries w qs).

Lemma table_grown w0 x :
  handles w0 = handles w -> current w0 hd ->
  vars w0 = <[a := mkNode x 0 0]> (vars w) ->
  exists w', AddLsiVarToTable fuel a w0 = Done w' /\ grown x w' /\ relinked hd ps w0 w'.
Proof using H Hf Ha Ha0.
  intros Eh Hcur0 Ev. pose proof (holds_fresh _ _ _ _ H Ha) as Hin.
  assert (Hk : forall d qs, holds w d qs -> holds w0 d qs).
  { intros d qs K. destruct (holds_insert _ _ _ a (mkNode x 0 0) K) as (c & Hc & Ht).
    - by eapply holds_fresh.
    - exists c. rewrite Eh, Ev. done. }
  assert (Ee : forall d qs, holds w d qs -> entries w0 qs = entries w qs).
  { intros d qs K. apply entries_same. intros q Hq. rewrite Ev, lookup_insert_ne; [done|].
    intros ->. by eapply holds_fresh. }
  destruct (AddLsiVarToTable_spec fuel w0 hd ps a x (Hk _ _ H) Hcur0 Hf Ha0 Hin)
    as (w' & E & Hh & Hr); [by rewrite Ev, lookup_insert_eq|].
  exists w'. split_and!; [done| |done]. pose proof Hr as (Hs & _ & _ & _ & _ & _ & Gn & Gi & _).
  split_and!; [done|by destruct Hcur0; split; congruence| |].
  - rewrite (entries_same w0 w') by (intros q _; apply Hs).
    rewrite entries_app, (Ee _ _ H). f_equal. unfold entries. cbn.
    by rewrite Ev, lookup_insert_eq.
  - intros d qs Hd Hq K. split; [by eapply relinked_other; eauto|].
    rewrite (entries_same w0 w') by (intros q _; apply Hs). by eapply Ee.
Qed.

Context (Name Guid : list Z) (VarId VarSize : Z).
Context (Hnew : absent w ps Name Guid) (Hlen : zlen Name < NAME_LENGTH).

(** ** Properties *)

(** [AddLsiVarByBuffer] of a name the card does not have
    yet: it returns the new node, the card's tables then hold the old
    variables followed by the new one (with a private copy of the first
    [VarSize] bytes of the buffer), the buffers in use are otherwise
    unchanged, and the tables of the other cards keep their variables. *)
Theorem AddLsiVarByBuffer_fresh pBuffer src b r :
  avail w = a :: b :: r -> a < 2 ^ 63 -> 0 <= a -> b <> 0 -> pBuffer <> 0 -> b <> pBuffer ->
  bufs w !! pBuffer = Some src -> 0 <= VarSize <= zlen src ->
  exists w', AddLsiVarByBuffer fuel Name Guid VarId VarSize pBuffer w = Done (a, w')
    /\ grown (mkVar Name Guid VarId VarSize b) w'
    /\ bufs w' = <[b := take (Z.to_nat VarSize) src]> (bufs w)
    /\ SmcLsiDetailedStatus w' = SmcLsiDetailedStatus w.
Proof using H Hcur Hf Ha Ha0 Hnew Hlen.
  intros Hav Ha63 Hap Hb HB HbB Hsrc Hsz. unfold AddLsiVarByBuffer.
  rewrite (var_node_fresh _ _ _ _ _ _ _ _ H Hcur Hf Hnew Hav Ha0), bind_Done.
  erewrite VarInitial_at; [|apply lookup_insert_eq|done]. rewrite bind_Done. cbn.
  erewrite SetLsiVarBuffer_new; [|apply lookup_insert_eq|done..].
  rewrite bind_Done. cbn. rewrite EFI_ERROR_ptr_small by done.
  cbn. rewrite !insert_insert_eq. destruct Hcur as [En Ei].
  match goal with |- exists w', AddLsiVarToTable _ _ ?w0 ≫= _ = _ /\ _ =>
    destruct (table_grown w0 (mkVar Name Guid VarId VarSize b)) as (w' & E & Hg & Hr) end; try done.
  exists w'. rewrite E. destruct Hr as (_ & _ & _ & Eb & _ & _ & _ & _ & Es). done.
Qed.

(** [AddLsiVar] of a name the card does not have yet: when
    the card answers the request and the answer converts, the variable is
    added with the block the card returned, followed by zeros up to 0x100
    bytes past the variable's size. When the card refuses, or the answer
    does not convert, NULL is returned with error code 0x31 or 0x32 and the
    tables are unchanged. *)
Theorem AddLsiVar_fresh ExtractConfig ConfigToBlock b r :
  avail w = a :: b :: r -> b <> 0 -> 0 <= VarSize ->
  exists w' p, AddLsiVar fuel ExtractConfig ConfigToBlock Name Guid VarId VarSize w = Done (p, w')
  /\ match ExtractConfig Name Guid VarSize with
     | None => p = 0 /\ holds w' hd ps /\ entries w' ps = entries w ps
               /\ SmcLsiDetailedStatus w' = u64 (Z.lor (Z.shiftl (SmcLsiDetailedStatus w) 8) 0x31)
     | Some s =>
         match ConfigToBlock s (VarSize + VAR_UNUSED_SPACE) with
         | None => p = 0 /\ holds w' hd ps /\ entries w' ps = entries w ps
               /\ SmcLsiDetailedStatus w' = u64 (Z.lor (Z.shiftl (SmcLsiDetailedStatus w) 8) 0x32)
         | Some block =>
             p = a /\ grown (mkVar Name Guid VarId VarSize b) w' /\
             (zlen block <= VarSize + VAR_UNUSED_SPACE ->
              bufs w' !! b = Some (block ++ replicate (Z.to_nat (VarSize + VAR_UNUSED_SPACE - zlen block)) 0))
         end
     end.
Proof using H Hcur Hf Ha Ha0 Hnew Hlen.
  intros Hav Hb Hsz. unfold AddLsiVar.
  rewrite (var_node_fresh _ _ _ _ _ _ _ _ H Hcur Hf Hnew Hav Ha0), bind_Done.
  erewrite VarInitial_at; [|apply lookup_insert_eq|done]. rewrite bind_Done. cbn.
  rewrite insert_insert_eq.
  assert (Hk : forall n w1, vars w1 = <[a := n]> (vars w) -> handles w1 = handles w ->
    holds w1 hd ps /\ entries w1 ps = entries w ps).
  { intros n w1 Ev Eh. pose proof (holds_fresh _ _ _ _ H Ha) as Hin. split.
    - destruct (holds_insert _ _ _ a n H Hin) as (c & Hc & Ht). exists c. by rewrite Eh, Ev.
    - apply entries_same. intros q Hq. rewrite Ev, lookup_insert_ne; [done|]. by intros ->. }
  destruct (ExtractConfig Name Guid VarSize) as [s|].
  2: { eexists _, 0. split; [done|]. split; [done|]. split_and!; [by eapply Hk..|done]. }
  erewrite SetLsiVarBuffer_byString_new; [|apply lookup_insert_eq|done..].
  rewrite bind_Done. cbn. rewrite insert_insert_eq.
  destruct (ConfigToBlock s (VarSize + VAR_UNUSED_SPACE)) as [block|]; cbn.
  2: { eexists _, 0. split; [done|]. split; [done|]. split_and!; [by eapply Hk..|done]. }
  rewrite (proj2 (Z.eqb_neq a 0) Ha0). destruct Hcur as [En Ei].
  match goal with |- exists w' p, AddLsiVarToTable _ _ ?w0 ≫= _ = _ /\ _ =>
    destruct (table_grown w0 (mkVar Name Guid VarId VarSize b)) as (w' & E & Hg & Hr) end; try done.
  exists w', a. rewrite E. split_and!; [done..|]. intros Hl.
  destruct Hr as (_ & _ & _ & -> & _). cbn. rewrite lookup_insert_eq. unfold padded.
  rewrite take_ge by (unfold zlen in Hl; lia). done.
Qed.
End fresh.

(** ** Lookup *)
Definition entry_matches (Name : list Z) (Guid : option (list Z)) (v : SMC_RAID_VAR) : bool :=
  bool_decide (RaidVarName v = Name) &&
  match Guid with None => true | Some g => bool_decide (RaidVarGuid v = g) end.

Lemma first_at_entries w f g ps :
  (forall n, f n = g (RaidVar n)) ->
  match first_at (vars w) f ps with
  | Some p => p ∈ ps /\ RaidVar <$> vars w !! p = List.find g (entries w ps)
  | None => List.find g (entries w ps) = None
  end.
Proof.
  intros Hg. unfold first_at, entries. induction ps as [|q ps IH]; cbn; [done|].
  destruct (vars w !! q) as [n|] eqn:E; cbn.
  - rewrite Hg. destruct (g (RaidVar n)) eqn:Eg.
    + split; [by left|]. by rewrite E.
    + destruct (List.find _ ps); [|done]. destruct IH. split; [by right|done].
  - destruct (List.find _ ps); [|done]. destruct IH. split; [by right|done].
Qed.

(** The pointer a lookup returns, against the entry it should find. *)
Definition points_to (w : World) (p : Z) (o : option SMC_RAID_VAR) : Prop :=
  match o with None => p = 0 | Some v => p <> 0 /\ RaidVar <$> vars w !! p = Some v end.

Lemma points_to_first w hd ps f g :
  holds w hd ps -> (forall n, f n = g (RaidVar n)) ->
  points_to w (ptr (first_at (vars w) f ps)) (List.find g (entries w ps)).
Proof.
  intros (c & _ & _ & Hin & _) Hg. pose proof (first_at_entries w f g ps Hg) as K.
  destruct (first_at (vars w) f ps) as [p|]; cbn.
  - destruct K as [Hp <-]. destruct (Hin p Hp) as [Hz [n Hn]]. rewrite Hn. cbn.
    by rewrite Hn.
  - by rewrite K.
Qed.

(** C35: (refinement) The hash tables implement a list of variables: a lookup
    by name (and GUID, unless NULL is given) or by variable-store identifier
    returns the oldest variable of the card that matches, or NULL when none
    does. *)
Theorem lookup_refines fuel w hd ps Name Guid VarId :
  holds w hd ps -> current w hd -> (length ps < fuel)%nat ->
  (exists p, SearchLsiVarByName fuel w Name Guid = Done p
     /\ points_to w p (List.find (entry_matches Name Guid) (entries w ps))) /\
  (exists p, SearchLsiVarById fuel w VarId = Done p
     /\ points_to w p (List.find (fun v => RaidVarId v =? VarId) (entries w ps))).
Proof.
  intros H [En Ei] Hf. split; eexists; split.
  - by eapply search_name.
  - by eapply points_to_first.
  - by eapply search_id.
  - by eapply points_to_first.
Qed.

(** ** Adding a variable again *)
Lemma first_at_Some {N} (h : gmap Z N) f ps p :
  first_at h f ps = Some p -> p ∈ ps /\ exists n, h !! p = Some n /\ f n = true.
Proof.
  intros [Hp Hf]%List.find_some. split; [by apply list_elem_of_In|].
  destruct (h !! p); [eauto|done].
Qed.

Lemma bucket_split {N} (hash : N -> Z) h i ps p n :
  p ∈ ps -> h !! p = Some n -> hash n = i ->
  exists xs ys, bucket hash h i ps = xs ++ p :: ys /\ (forall x, x ∈ xs -> x ∈ ps).
Proof.
  intros Hp Hn Hi. assert (Hb : p ∈ bucket hash h i ps).
  { apply filter_in. split; [done|]. unfold in_bucket. rewrite Hn. by apply Z.eqb_eq. }
  destruct (list_elem_of_split _ _ Hb) as (xs & ys & E). exists xs, ys. split; [done|].
  intros x Hx. assert (Hx' : x ∈ bucket hash h i ps) by (rewrite E; apply elem_of_app; by left).
  by apply filter_in in Hx' as [? _].
Qed.

Lemma set_table_same w hd c :
  handles w !! hd = Some c -> current w hd ->
  set_name_table (RaidLsiVarHashTableName c) w = w /\ set_id_table (RaidLsiVarHashTableVarId c) w = w.
Proof.
  intros Hc [En Ei]. unfold set_name_table, set_id_table, set_handles.
  rewrite En, Ei, !alter_id by (intros x; rewrite Hc; intros [= <-]; by destruct c).
  by destruct w; cbn in *; subst.
Qed.

(** Linking a node of the card in again: it becomes its own successor. *)
Lemma AddLsiVarToTable_again fuel w0 w hd c ps p n nv :
  handles w0 !! hd = Some c -> tables (vars w0) (RaidLsiVarHashTableName c)
    (RaidLsiVarHashTableVarId c) ps -> (length ps < fuel)%nat ->
  p ∈ ps -> vars w0 !! p = Some n -> name_hash nv = name_hash n -> id_hash nv = id_hash n ->
  pRaidpNameNext nv = 0 -> pRaidpIdNext nv = 0 ->
  current w hd -> handles w = handles w0 -> vars w = <[p := nv]> (vars w0) ->
  exists w' hp xs, AddLsiVarToTable fuel p w = Done w' /\ current w' hd /\ handles w' = handles w
    /\ vars w' = <[p := set_IdNext p (set_NameNext p nv)]> (vars w0)
    /\ arr_get (RaidLsiVarHashTableName c) (name_hash n) = Done hp
    /\ lseg pRaidpNameNext (vars w') hp xs p /\ p <> 0 /\ (forall x, x ∈ xs -> x ∈ ps).
Proof.
  intros Hc (Hd & Hin & Hln & Hli & Hbn & Hbi) Hf Hp Hn En Ei Zn Zi Hcur Eh Ev.
  destruct (bucket_split name_hash (vars w0) (name_hash nv) ps p n Hp Hn (eq_sym En))
    as (xs & ys & Eb & Hxs).
  destruct (bucket_split id_hash (vars w0) (id_hash nv) ps p n Hp Hn (eq_sym Ei))
    as (xs' & ys' & Eb' & _).
  rewrite <- Eh in Hc.
  destruct (bucket_readd pRaidpNameNext set_NameNext name_hash fuel (vars w0)
    (RaidLsiVarHashTableName c) ps p nv xs ys) as (hp & Hg & Ha & Hl & Hp0); try done.
  { rewrite Hln. apply VarHashByName_range. }
  set (nv1 := set_NameNext p nv) in *. set (w1 := set_vars (<[p := nv1]> (vars w0)) w).
  destruct (bucket_readd pRaidpIdNext set_IdNext id_hash fuel (vars w0)
    (RaidLsiVarHashTableVarId c) ps p nv1 xs' ys') as (hp' & Hg' & Ha' & _ & _); try done.
  { rewrite Hli. apply VarHashById_range. }
  assert (E1 : AddLsiVarByName fuel p w = Done w1).
  { unfold AddLsiVarByName, name_table. rewrite Ev, (deref_at _ _ _ (lookup_insert_eq _ _ _)).
    rewrite bind_Done, (proj1 Hcur), (deref_at _ _ _ Hc), !bind_Done, Ha, bind_Done.
    f_equal. by apply (set_table_same w1 hd c). }
  assert (E2 : AddLsiVarByVId fuel p w1 = Done (set_vars (<[p := set_IdNext p nv1]> (vars w0)) w)).
  { unfold AddLsiVarByVId, id_table. cbn [vars w1 set_vars].
    rewrite (deref_at _ _ _ (lookup_insert_eq _ _ _)), bind_Done.
    change (LsiVarHashTableVarId w1) with (LsiVarHashTableVarId w).
    change (handles w1) with (handles w).
    rewrite (proj2 Hcur), (deref_at _ _ _ Hc), !bind_Done, Ha', bind_Done.
    f_equal. by apply (set_table_same (set_vars _ w) hd c). }
  exists (set_vars (<[p := set_IdNext p nv1]> (vars w0)) w), hp, xs.
  unfold AddLsiVarToTable. rewrite E1, bind_Done, E2. cbn. rewrite <- En.
  split_and!; try done. eapply lseg_frame; [|exact Hl]. intros x m _ Hm.
  destruct (decide (x = p)) as [->|Hx].
  - rewrite lookup_insert_eq in *. injection Hm as <-. eauto.
  - rewrite lookup_insert_ne in * by done. eauto.
Qed.

(** Adding a variable the card already has (same name, GUID and
    identifier) returns, but the node is then its own successor: a search
    for any other name of the same bucket that the card does not have never
    ends. *)
Theorem AddLsiVarByBuffer2_again fuel w hd ps Name Guid VarSize pBuffer p n :
  holds w hd ps -> current w hd -> (length ps < fuel)%nat -> zlen Name < NAME_LENGTH ->
  first_at (vars w) (var_matches Name (Some Guid)) ps = Some p -> vars w !! p = Some n ->
  exists w', AddLsiVarByBuffer2 fuel Name Guid (RaidVarId (RaidVar n)) VarSize pBuffer w = Done (p, w')
    /\ forall fuel' Name' G, VarHashByName Name' = VarHashByName Name -> Name' <> Name ->
         (forall v, v ∈ entries w ps -> RaidVarName v <> Name') ->
         SearchLsiVarByName fuel' w' Name' G = NoFuel.
Proof.
  intros H Hcur Hf Hlen Hfirst Hn. pose proof H as (c & Hc & Ht). pose proof Ht as (_ & Hin & _).
  destruct (first_at_Some _ _ _ _ Hfirst) as (Hp & m & Hm & Hmatch). rewrite Hn in Hm.
  injection Hm as <-. pose proof (var_matches_hash _ _ _ Hmatch) as Hh.
  destruct (Hin p Hp) as [Hp0 _]. unfold AddLsiVarByBuffer2, var_node.
  rewrite (search_name _ _ _ _ H Hf _ _ (proj1 Hcur)), bind_Done, Hfirst. cbn.
  rewrite (proj2 (Z.eqb_neq p 0) Hp0), bind_Done.
  rewrite (VarInitial_at _ _ _ _ _ _ _ Hn Hlen), bind_Done. cbn.
  rewrite (deref_at _ _ _ (lookup_insert_eq _ _ _)), bind_Done, insert_insert_eq. cbn.
  match goal with |- context [AddLsiVarToTable _ _ ?w0] =>
    destruct (AddLsiVarToTable_again fuel w w0 hd c ps p n (mkNode
      (mkVar Name Guid (RaidVarId (RaidVar n)) VarSize pBuffer) 0 0))
      as (w' & hp & xs & E & [En _] & Eh & Ev & Hg & Hl & _ & Hxs); try done end.
  exists w'. rewrite E. split; [done|]. intros fuel' Name' G Hb Hne Hno.
  unfold SearchLsiVarByName, name_table. rewrite En, Eh. cbn.
  rewrite (deref_at _ _ _ Hc), !bind_Done, Hb, <- Hh, Hg, bind_Done.
  erewrite chain_find_trap with (x := p); [done|exact Hl|done|by rewrite Ev; apply lookup_insert_eq|done| |].
  - unfold var_matches. cbn. by rewrite bool_decide_false.
  - intros q m Hq Hqm. rewrite Ev in Hqm. unfold var_matches.
    destruct (decide (q = p)) as [->|Hqp].
    { rewrite lookup_insert_eq in Hqm. injection Hqm as <-. cbn. by rewrite bool_decide_false. }
    rewrite lookup_insert_ne in Hqm by done. rewrite bool_decide_false; [done|].
    apply Hno. apply list_elem_of_omap. exists q. split; [by apply Hxs|]. by rewrite Hqm.
Qed.

(** ** Release *)
Lemma filter_perm {A} (f : A -> bool) l :
  l ≡ₚ List.filter f l ++ List.filter (fun x => negb (f x)) l.
Proof.
  induction l as [|x l IH]; cbn; [done|]. destruct (f x); cbn.
  - by constructor.
  - rewrite <- Permutation_middle. by constructor.
Qed.

Lemma filter_filter {A} (f g : A -> bool) l :
  (forall x, f x = true -> g x = true) -> List.filter f (List.filter g l) = List.filter f l.
Proof.
  intros H. induction l as [|x l IH]; cbn; [done|]. destruct (g x) eqn:Eg; cbn.
  - by rewrite IH.
  - destruct (f x) eqn:Ef; [|done]. apply H in Ef. congruence.
Qed.

(** The buckets in order, a rearrangement of the nodes. *)
Lemma buckets_perm {A} (f : A -> Z) n k l :
  (forall x, x ∈ l -> k <= f x < k + Z.of_nat n) ->
  concat (map (fun i => List.filter (fun x => f x =? i) l) (seqZ k (Z.of_nat n))) ≡ₚ l.
Proof.
  revert k l. induction n as [|n IH]; intros k l H.
  - destruct l as [|x l]; [done|]. specialize (H x ltac:(by left)). lia.
  - rewrite seqZ_cons by lia. cbn.
    etransitivity; [|symmetry; apply (filter_perm (fun x => f x =? k))].
    apply Permutation_app_head.
    replace (Z.pred (Z.of_nat (S n))) with (Z.of_nat n) by lia.
    rewrite <- (IH (Z.succ k) (List.filter (fun x => negb (f x =? k)) l)).
    + apply eq_subrelation; [apply _|]. f_equal. apply map_ext_in. intros i [Hi _]%list_elem_of_In%elem_of_seqZ.
      symmetry. apply filter_filter. intros x Hx. lia.
    + intros x [Hx Hk]%filter_in. specialize (H x Hx). lia.
Qed.

Definition buf_of (h : gmap Z SMC_RAID_VAR_HASH) (q : Z) : Z :=
  match h !! q with Some n => RaidVarBuffer (RaidVar n) | None => 0 end.

Definition free_one (h : gmap Z SMC_RAID_VAR_HASH) (w : World) (q : Z) : World :=
  FreePool q (FreePool (buf_of h q) w).

Section free.
Context (h : gmap Z SMC_RAID_VAR_HASH) (ps : list Z).
Context (Hbuf : forall q, q ∈ ps -> buf_of h q ∉ ps).

Lemma free_one_other w q x : x ∈ ps -> q ∈ ps -> x <> q -> vars (free_one h w q) !! x = vars w !! x.
Proof using Hbuf.
  intros Hx Hq Hne. cbn. rewrite lookup_delete_ne by done. apply lookup_delete_ne.
  intros E. apply (Hbuf q Hq). by rewrite E.
Qed.

Lemma free_list_other qs w x :
  x ∈ ps -> x ∉ qs -> (forall q, q ∈ qs -> q ∈ ps) ->
  vars (fold_left (free_one h) qs w) !! x = vars w !! x.
Proof using Hbuf.
  intros Hx. revert w. induction qs as [|q qs IH]; intros w Hn Hqs; cbn [fold_left]; [done|].
  apply not_elem_of_cons in Hn as [Hne Hn].
  rewrite IH; [|done|intros y Hy; apply Hqs; by right].
  apply free_one_other; [done|apply Hqs; by left|done].
Qed.

Lemma free_list_dead qs w x :
  vars w !! x = None -> vars (fold_left (free_one h) qs w) !! x = None.
Proof.
  revert w. induction qs as [|q qs IH]; intros w Hx; cbn [fold_left]; [done|].
  apply IH. cbn. apply lookup_delete_None. right. apply lookup_delete_None. by right.
Qed.

Lemma free_list_gone qs w x : x ∈ qs -> vars (fold_left (free_one h) qs w) !! x = None.
Proof.
  revert w. induction qs as [|q qs IH]; intros w Hx; [by apply not_elem_of_nil in Hx|].
  cbn [fold_left]. apply elem_of_cons in Hx as [->|Hx]; [|by apply IH].
  apply free_list_dead. cbn. apply lookup_delete_eq.
Qed.

Lemma free_list_log qs w :
  released (fold_left (free_one h) qs w) = released w ++ concat (map (fun q => [buf_of h q; q]) qs).
Proof.
  revert w. induction qs as [|q qs IH]; intros w; cbn [fold_left map concat]; [by rewrite app_nil_r|].
  rewrite IH. cbn. by rewrite <- !app_assoc.
Qed.

Lemma free_list_frame qs w :
  handles (fold_left (free_one h) qs w) = handles w /\
  LsiVarHashTableName (fold_left (free_one h) qs w) = LsiVarHashTableName w /\
  LsiVarHashTableVarId (fold_left (free_one h) qs w) = LsiVarHashTableVarId w.
Proof.
  revert w. induction qs as [|q qs IH]; intros w; cbn [fold_left]; [done|].
  destruct (IH (free_one h w q)) as (-> & -> & ->). done.
Qed.

Lemma free_chain_spec fuel p qs w :
  chain pRaidpNameNext h p qs -> (forall q, q ∈ qs -> q ∈ ps /\ vars w !! q = h !! q) ->
  (length qs < fuel)%nat -> free_chain fuel p w = Done (fold_left (free_one h) qs w).
Proof using Hbuf.
  revert p qs w. induction fuel as [|k IH]; intros p qs w Hc Hq Hf; [lia|].
  pose proof (chain_nodup _ _ _ _ Hc) as Hd. destruct qs as [|q qs]; cbn in *; [by subst|].
  destruct Hc as (-> & Hz & n & Hn & Hc). rewrite (proj2 (Z.eqb_neq q 0) Hz).
  destruct (Hq q ltac:(by left)) as [Hqp Eq].
  rewrite (deref_at _ _ n) by (by rewrite Eq). rewrite bind_Done.
  apply NoDup_cons in Hd as [Hnq Hd].
  rewrite (IH _ qs); [by unfold free_one, buf_of; rewrite Hn|done| |lia].
  intros x Hx. destruct (Hq x ltac:(by right)) as [Hxp Ex]. split; [done|].
  rewrite <- Ex. replace (RaidVarBuffer (RaidVar n)) with (buf_of h q) by (unfold buf_of; by rewrite Hn).
  apply (free_one_other w q x); [done..|]. by intros ->.
Qed.

Lemma free_buckets fuel t js w :
  bucketed pRaidpNameNext name_hash h t ps -> zlen t = VAR_HASH_NUM -> (length ps < fuel)%nat ->
  NoDup js -> (forall i, i ∈ js -> 0 <= i < VAR_HASH_NUM) ->
  (forall i q, i ∈ js -> q ∈ bucket name_hash h i ps -> vars w !! q = h !! q) ->
  foldM (fun w i => pTemp ← arr_get t i; free_chain fuel pTemp w) js w
  = Done (fold_left (free_one h) (concat (map (fun i => bucket name_hash h i ps) js)) w).
Proof using Hbuf.
  intros Hb Hl Hf. revert w. induction js as [|i js IH]; intros w Hd Hr Hw; cbn; [done|].
  apply NoDup_cons in Hd as [Hni Hd].
  destruct (bucket_bounds _ _ _ _ _ i Hb) as (p & _ & -> & Hc); [rewrite Hl; apply Hr; by left|].
  rewrite bind_Done, (free_chain_spec fuel p (bucket name_hash h i ps)); [|done| |].
  - rewrite bind_Done, IH, fold_left_app; [done|done|intros j Hj; apply Hr; by right|].
    intros j q Hj Hq. rewrite free_list_other; [by eapply Hw; [right|]|by apply filter_in in Hq as []| |].
    + intros Hq'. apply filter_in in Hq as [_ Hq], Hq' as [_ Hq']. unfold in_bucket in *.
      destruct (h !! q); [|done]. assert (i = j) by lia. by subst.
    + intros x Hx. by apply filter_in in Hx as [].
  - intros q Hq. split; [by apply filter_in in Hq as []|by eapply Hw; [left|]].
  - apply bucket_fuel. done.
Qed.
End free.

Lemma all_buckets h ps :
  (forall q, q ∈ ps -> q <> 0 /\ is_Some (h !! q)) ->
  concat (map (fun i => bucket name_hash h i ps) (seqZ 0 VAR_HASH_NUM)) ≡ₚ ps.
Proof.
  intros Hin. set (f q := match h !! q with Some n => name_hash n | None => 0 end).
  transitivity (concat (map (fun i => List.filter (fun x => f x =? i) ps)
    (seqZ 0 (Z.of_nat (Z.to_nat VAR_HASH_NUM))))).
  - rewrite Z2Nat.id by done. apply eq_subrelation; [apply _|]. f_equal. apply map_ext_in.
    intros i _. apply filter_ext_in. intros q Hq. unfold in_bucket, f.
    by destruct (Hin q Hq) as [_ [n ->]].
  - apply buckets_perm. intros q Hq. unfold f. destruct (Hin q Hq) as [_ [n ->]].
    apply VarHashByName_range.
Qed.

(** [FreeLsiVarHashTable] succeeds, releases every variable of
    the card exactly once, each after its buffer, and leaves the card with
    empty tables. A buffer is released once for every variable that points to
    it. *)
Theorem FreeLsiVarHashTable_releases fuel w hd ps :
  holds w hd ps -> current w hd -> (length ps < fuel)%nat ->
  (forall q, q ∈ ps -> buf_of (vars w) q ∉ ps) ->
  exists w' qs, FreeLsiVarHashTable fuel w = Done (EFI_SUCCESS, w') /\ qs ≡ₚ ps
    /\ released w' = released w ++ concat (map (fun q => [buf_of (vars w) q; q]) qs)
    /\ (forall q, q ∈ ps -> vars w' !! q = None) /\ holds w' hd [].
Proof.
  intros (c & Hc & Hd & Hin & Hln & Hli & Hbn & Hbi) [En Ei] Hf Hbuf.
  set (qs := concat (map (fun i => bucket name_hash (vars w) i ps) (seqZ 0 VAR_HASH_NUM))).
  set (w1 := fold_left (free_one (vars w)) qs w).
  assert (Ep : qs ≡ₚ ps) by by apply all_buckets.
  assert (Ef : foldM (fun w i => pTemp ← arr_get (RaidLsiVarHashTableName c) i;
      free_chain fuel pTemp w) (seqZ 0 VAR_HASH_NUM) w = Done w1).
  { eapply free_buckets; try done.
    - apply NoDup_seqZ.
    - intros i Hi%elem_of_seqZ. lia. }
  unfold FreeLsiVarHashTable, name_table, id_table.
  rewrite En, (deref_at _ _ _ Hc), !bind_Done, Ef, bind_Done.
  destruct (free_list_frame (vars w) qs w) as (Eh & En1 & Ei1). fold w1 in Eh, En1, Ei1.
  rewrite Ei1, Ei, Eh, (deref_at _ _ _ Hc), !bind_Done.
  eexists _, qs. split_and!; [done|done|apply free_list_log| |].
  - intros q Hq. apply free_list_gone. by rewrite Ep.
  - exists (mkHandle (RaidCardType c) (replicate (Z.to_nat VAR_HASH_NUM) 0)
      (replicate (Z.to_nat VAR_HASH_NUM) 0) (pNext c)). split.
    { cbn. rewrite Ei1, En1, Ei, En, Eh, !lookup_alter_eq, Hc. done. }
    split_and!; cbn; try done.
    + constructor.
    + intros q Hq. by apply not_elem_of_nil in Hq.
    + intros i p [-> _]%(lookup_replicate 31). done.
    + intros i p [-> _]%(lookup_replicate 31). done.
Qed.

(** ** Search over the cards *)

(** The list of cards at [hd] is [cs], each card with its variables; it ends
    at [e], NULL or a record of type [RAID_NULL]. *)
Definition cards (w : World) (hd : Z) (cs : list (Z * list Z)) (e : Z) : Prop :=
  lseg pNext (handles w) hd (map fst cs) e /\
  (forall d ps, (d, ps) ∈ cs -> holds w d ps /\
     forall c, handles w !! d = Some c -> RaidCardType c <> RAID_NULL) /\
  (e = 0 \/ exists c, handles w !! e = Some c /\ RaidCardType c = RAID_NULL).

(** The first card with a variable that passes the test, and that variable. *)
Definition first_in_cards (w : World) (f : SMC_RAID_VAR_HASH -> bool) (cs : list (Z * list Z)) (e : Z)
    : Z * Z :=
  match List.find (fun c => bool_decide (first_at (vars w) f c.2 <> None)) cs with
  | Some (d, ps) => (d, ptr (first_at (vars w) f ps))
  | None => (e, 0)
  end.

Lemma first_card_spec fuel w hd cs e f look :
  cards w hd cs e -> (length cs < fuel)%nat ->
  (forall d ps, (d, ps) ∈ cs -> look d = Done (ptr (first_at (vars w) f ps))) ->
  first_card fuel hd w look = Done (first_in_cards w f cs e).
Proof.
  intros (Hs & Hc & He) Hf Hlook. revert hd cs Hs Hc Hf Hlook.
  induction fuel as [|k IH]; intros hd cs Hs Hc Hf Hlook; [lia|].
  destruct cs as [|[d ps] cs]; cbn in Hs.
  - subst hd. cbn. destruct He as [->|(c & Hce & Et)]; [done|].
    destruct (Z.eqb_spec e 0) as [->|]; [done|].
    by rewrite (deref_at _ _ _ Hce), bind_Done, Et.
  - destruct Hs as (-> & Hd & c & Hcd & Hs). cbn [first_card].
    rewrite (proj2 (Z.eqb_neq d 0) Hd), (deref_at _ _ _ Hcd), bind_Done.
    destruct (Hc d ps ltac:(by left)) as [Hh Ht].
    rewrite (proj2 (Z.eqb_neq _ _) (Ht _ Hcd)), (Hlook d ps) by (by left).
    rewrite bind_Done. unfold first_in_cards. cbn [List.find snd].
    destruct (first_at (vars w) f ps) as [p|] eqn:E; unfold ptr; cbn [from_option id].
    + rewrite bool_decide_true by done. rewrite E.
      destruct (first_at_Some _ _ _ _ E) as [Hp _].
      destruct Hh as (_ & _ & _ & Hin & _). destruct (Hin p Hp) as [Hp0 _].
      by rewrite (proj2 (Z.eqb_neq p 0) Hp0).
    + rewrite bool_decide_false by (intros Hx; by apply Hx). cbn. apply IH; [done| |cbn in Hf; lia|].
      * intros d' ps' Hd'. apply Hc. by right.
      * intros d' ps' Hd'. apply Hlook. by right.
Qed.

Lemma holds_globals w n i hd ps : holds (set_globals n i w) hd ps <-> holds w hd ps.
Proof. done. Qed.

(** Searching all cards: the variable returned is the first
    match of the first card that has one, the card returned is that card (the
    end of the list of cards when no card matches), and the globals are back
    to the card they pointed to. *)
Theorem search_cards fuel w hd cs e Name Guid VarId :
  cards w hd cs e -> (length cs < fuel)%nat ->
  (forall d ps, (d, ps) ∈ cs -> (length ps < fuel)%nat) ->
  SearchInSmcSetupVarByName fuel hd Name Guid w
    = Done ((first_in_cards w (var_matches Name Guid) cs e).2, w) /\
  SearchHiiHandleTableByVarName fuel hd Name Guid w
    = Done ((first_in_cards w (var_matches Name Guid) cs e).1, w) /\
  SearchInSmcSetupVarById fuel hd VarId w
    = Done ((first_in_cards w (id_matches VarId) cs e).2, w).
Proof.
  intros H Hl Hps. pose proof H as (_ & Hc & _).
  assert (Ew : forall n i, n = LsiVarHashTableName w -> i = LsiVarHashTableVarId w ->
    set_globals n i w = w) by (intros n i -> ->; by destruct w).
  assert (Hn : forall d ps, (d, ps) ∈ cs ->
    SearchLsiVarByName fuel (set_globals d (LsiVarHashTableVarId w) w) Name Guid
    = Done (ptr (first_at (vars w) (var_matches Name Guid) ps))).
  { intros d ps Hd. apply (search_name fuel (set_globals d _ w) d ps); [by apply Hc|by eapply Hps|done]. }
  assert (Hi : forall d ps, (d, ps) ∈ cs ->
    SearchLsiVarById fuel (set_globals (LsiVarHashTableName w) d w) VarId
    = Done (ptr (first_at (vars w) (id_matches VarId) ps))).
  { intros d ps Hd. apply (search_id fuel (set_globals _ d w) d ps); [by apply Hc|by eapply Hps|done]. }
  unfold SearchInSmcSetupVarByName, SearchHiiHandleTableByVarName, SearchInSmcSetupVarById.
  rewrite (first_card_spec _ _ _ _ _ _ _ H Hl Hn), (first_card_spec _ _ _ _ _ _ _ H Hl Hi).
  rewrite !bind_Done, !Ew by done. done.
Qed.

(** ** A card to try the definitions on *)
Module Demo.
Definition guid (n : Z) : list Z := replicate 16 n.
Definition name (c : Z) : list Z := [83; 77; c].

Definition empty_card : SMC_LSI_HII_HANDLE := mkHandle 0 (replicate 31 0) (replicate 31 0) 0.

Definition w0 : World :=
  mkWorld ∅ {[ 500 := [1; 2; 3; 4] ]} {[ 100 := empty_card ]} 100 100 0
    [201; 301; 202; 302; 203; 303] [].

(** Two variables whose names share a bucket, added one after the other. *)
Definition w1 : Res (Z * World) := AddLsiVarByBuffer 10 (name 65) (guid 1) 1 4 500 w0.
Definition w2 : Res (Z * World) :=
  '(_, w) ← w1; AddLsiVarByBuffer 10 (name 96) (guid 1) 32 2 500 w.

Definition result (r : Res (Z * World)) : World :=
  match r with Done (_, w) => w | _ => w0 end.
End Demo.

Example demo_lookup :
  (let w := Demo.result Demo.w2 in
   (SearchLsiVarByName 10 w (Demo.name 65) None, SearchLsiVarByName 10 w (Demo.name 96) None,
    SearchLsiVarById 10 w 32, SearchLsiVarById 10 w 7))
  = (Done 201, Done 202, Done 202, Done 0).
Proof. vm_compute. reflexivity. Qed.

Definition holds_b (w : World) (hd : Z) (ps : list Z) : bool :=
  match handles w !! hd with
  | None => false
  | Some c =>
      bool_decide (NoDup ps) &&
      forallb (fun q => negb (q =? 0) && bool_decide (is_Some (vars w !! q))) ps &&
      (zlen (RaidLsiVarHashTableName c) =? VAR_HASH_NUM) &&
      (zlen (RaidLsiVarHashTableVarId c) =? VAR_HASH_NUM) &&
      bucketed_b pRaidpNameNext name_hash (vars w) 10 (RaidLsiVarHashTableName c) ps &&
      bucketed_b pRaidpIdNext id_hash (vars w) 10 (RaidLsiVarHashTableVarId c) ps
  end.

Lemma holds_b_spec w hd ps : holds_b w hd ps = true -> holds w hd ps.
Proof.
  unfold holds_b. destruct (handles w !! hd) as [c|] eqn:Hc; [|done].
  rewrite !andb_true_iff, forallb_forall. intros (((((H1 & H2) & H3) & H4) & H5) & H6).
  exists c. split; [done|]. split_and!.
  - by apply bool_decide_eq_true_1 in H1.
  - intros q Hq%list_elem_of_In%H2. apply andb_true_iff in Hq as [Hz Hs].
    split; [lia|]. by apply bool_decide_eq_true_1 in Hs.
  - lia.
  - lia.
  - by eapply bucketed_b_spec.
  - by eapply bucketed_b_spec.
Qed.

Lemma AddLsiVarByBuffer_fresh_witness :
  exists w', AddLsiVarByBuffer 10 (Demo.name 65) (Demo.guid 1) 1 4 500 Demo.w0 = Done (201, w')
    /\ grown Demo.w0 100 [] 201 (mkVar (Demo.name 65) (Demo.guid 1) 1 4 301) w'
    /\ bufs w' = <[301 := take (Z.to_nat 4) [1; 2; 3; 4]]> (bufs Demo.w0)
    /\ SmcLsiDetailedStatus w' = SmcLsiDetailedStatus Demo.w0.
Proof.
  apply (AddLsiVarByBuffer_fresh 10 Demo.w0 100 [] 201) with (r := [202; 302; 203; 303]);
    try (vm_compute; (reflexivity || lia || done)).
  by apply holds_b_spec.
Defined.

Lemma AddLsiVar_fresh_witness :
  exists w' p, AddLsiVar 10 (fun _ _ _ => Some [7]) (fun s _ => Some s)
      (Demo.name 65) (Demo.guid 1) 1 4 Demo.w0 = Done (p, w')
  /\ p = 201 /\ grown Demo.w0 100 [] 201 (mkVar (Demo.name 65) (Demo.guid 1) 1 4 301) w' /\
     (1 <= 4 + VAR_UNUSED_SPACE -> bufs w' !! 301 = Some ([7] ++ replicate (Z.to_nat (4 + VAR_UNUSED_SPACE - 1)) 0)).
Proof.
  apply (AddLsiVar_fresh 10 Demo.w0 100 [] 201) with (b := 301) (r := [202; 302; 203; 303])
    (ExtractConfig := fun _ _ _ => Some [7]) (ConfigToBlock := fun s _ => Some s);
    try (vm_compute; (reflexivity || done)).
  - by apply holds_b_spec.
  - cbn. lia.
Defined.

Lemma lookup_refines_witness :
  (exists p, SearchLsiVarByName 10 (Demo.result Demo.w2) (Demo.name 96) None = Done p
     /\ points_to (Demo.result Demo.w2) p
          (Some (mkVar (Demo.name 96) (Demo.guid 1) 32 2 302))) /\
  (exists p, SearchLsiVarById 10 (Demo.result Demo.w2) 7 = Done p
     /\ points_to (Demo.result Demo.w2) p None).
Proof.
  apply (lookup_refines 10 (Demo.result Demo.w2) 100 [201; 202] (Demo.name 96) None 7).
  - apply holds_b_spec. vm_compute. reflexivity.
  - vm_compute. done.
  - cbn. lia.
Defined.

Lemma AddLsiVarByBuffer2_again_witness :
  exists w', AddLsiVarByBuffer2 10 (Demo.name 65) (Demo.guid 1) 1 4 500 (Demo.result Demo.w2)
      = Done (201, w')
    /\ forall fuel' Name' G, VarHashByName Name' = VarHashByName (Demo.name 65) -> Name' <> Demo.name 65 ->
         (forall v, v ∈ entries (Demo.result Demo.w2) [201; 202] -> RaidVarName v <> Name') ->
         SearchLsiVarByName fuel' w' Name' G = NoFuel.
Proof.
  apply (AddLsiVarByBuffer2_again 10 (Demo.result Demo.w2) 100 [201; 202] (Demo.name 65)
    (Demo.guid 1) 4 500 201 (mkNode (mkVar (Demo.name 65) (Demo.guid 1) 1 4 301) 202 202)).
  - apply holds_b_spec. vm_compute. reflexivity.
  - vm_compute. done.
  - cbn. lia.
  - vm_compute. reflexivity.
  - vm_compute. reflexivity.
  - vm_compute. reflexivity.
Defined.

Lemma FreeLsiVarHashTable_releases_witness :
  let w := Demo.result Demo.w2 in
  exists w' qs, FreeLsiVarHashTable 10 w = Done (EFI_SUCCESS, w') /\ qs ≡ₚ [201; 202]
    /\ released w' = released w ++ concat (map (fun q => [buf_of (vars w) q; q]) qs)
    /\ (forall q, q ∈ [201; 202] -> vars w' !! q = None) /\ holds w' 100 [].
Proof.
  apply (FreeLsiVarHashTable_releases 10 (Demo.result Demo.w2) 100 [201; 202]).
  - apply holds_b_spec. vm_compute. reflexivity.
  - vm_compute. done.
  - cbn. lia.
  - apply Forall_forall.
    refine (bool_decide_eq_true_1 (Forall (fun q => buf_of _ q ∉ [201; 202]) _) _).
    vm_compute. reflexivity.
Defined.

Lemma search_cards_witness :
  let w := Demo.result Demo.w2 in
  SearchInSmcSetupVarByName 10 100 (Demo.name 96) None w = Done (202, w) /\
  SearchHiiHandleTableByVarName 10 100 (Demo.name 96) None w = Done (100, w) /\
  SearchInSmcSetupVarById 10 100 7 w = Done (0, w).
Proof.
  apply (search_cards 10 (Demo.result Demo.w2) 100 [(100, [201; 202])] 0 (Demo.name 96) None 7).
  - split_and!.
    + vm_compute. split_and!; [done..|]. eexists. split; [reflexivity|done].
    + intros d ps [= -> ->]%list_elem_of_singleton. split.
      * apply holds_b_spec. vm_compute. reflexivity.
      * intros c. vm_compute. by intros [= <-].
    + by left.
  - cbn. lia.
  - intros d ps [= -> ->]%list_elem_of_singleton. cbn. lia.
Defined.
