(* ===== verification/RaidCmd.v ===== *)
(** * RAID commands: the parser

    [SmcLsiRaidOOBCmd.c], the functions that read a command line of the form
    [{C:[B|D|O] G:[n,n,...] S:[num TB|GB] R:[n] J:[M|U]}] out of a variable the
    BMC can write ([AnalysisAndParseCmdString] and what it calls).

    A C string is the list of its characters without the terminator, a
    pointer into it the rest of the list from there; [chr] reads the character
    a pointer points to, 0 at the end. The section list the parser builds has
    one owner and is a Rocq list. *)

From Stdlib Require Import Ascii String.
From S2P Require Import Prelude.

(** ** Characters and strings *)
Definition ch (a : ascii) : Z := Z.of_N (N_of_ascii a).
Definition lit (s : string) : list Z := map ch (list_ascii_of_string s).

Definition chr (s : list Z) : Z := match s with [] => 0 | c :: _ => c end.

Definition is_digit (c : Z) : bool := (ch "0" <=? c) && (c <=? ch "9").

Fixpoint starts (s pat : list Z) {struct pat} : bool :=
  match pat with
  | [] => true
  | q :: pat' => match s with [] => false | p :: s' => (p =? q) && starts s' pat' end
  end.

(** The first place of [pat], or the end of the string. *)
Fixpoint Strstr (s pat : list Z) : list Z :=
  match s with
  | [] => []
  | _ :: t => if starts s pat then s else Strstr t pat
  end.

Definition upper (c : Z) : Z :=
  if (ch "a" <=? c) && (c <=? ch "z") then u8 (c - 0x20) else c.
Definition UpperAsciiString (s : list Z) : list Z := map upper s.

(** ** Data *)
Definition SMC_ITEM_CMD_STRING_SIZE : Z := 255.

Inductive RAID_SIZE_TYPE := SIZE_TB_TYPE | SIZE_GB_TYPE | SIZE_NON_TYPE.
Inductive SMC_RAID_CMD_SPECIE_ENUM :=
| SMC_CMD_SPECIE_BUILD | SMC_CMD_SPECIE_DELETE | SMC_CMD_SPECIE_OTHER | SMC_CMD_SPECIE_NON.
Inductive SMC_RAID_CMD_JBOD_ENUM := SMC_CMD_JBOD_MAKE | SMC_CMD_JBOD_UNCONFIG | SMC_CMD_JBOD_NON.
Inductive SMC_RAID_CMD_TYPE_ENUM :=
| SMC_CMD_RAID_GROUP | SMC_CMD_RAID_RAIDTYPE | SMC_CMD_RAID_SIZE
| SMC_CMD_RAID_COMMAND | SMC_CMD_RAID_JBOD.

#[global] Instance RAID_SIZE_TYPE_eq_dec : EqDecision RAID_SIZE_TYPE.
Proof. solve_decision. Defined.
#[global] Instance SPECIE_eq_dec : EqDecision SMC_RAID_CMD_SPECIE_ENUM.
Proof. solve_decision. Defined.
#[global] Instance JBOD_eq_dec : EqDecision SMC_RAID_CMD_JBOD_ENUM.
Proof. solve_decision. Defined.
#[global] Instance CMD_TYPE_eq_dec : EqDecision SMC_RAID_CMD_TYPE_ENUM.
Proof. solve_decision. Defined.

(** [HdHame] is [None] for NULL. *)
Record SMC_RAID_CMD_GROUP_HDD := mkHdd { HdNum : Z; HddType : Z; HdHame : option (list Z) }.

Definition new_hdd (n : Z) : SMC_RAID_CMD_GROUP_HDD := mkHdd n 0 None.

Inductive SMC_RAID_CMD_SECTION :=
| CmdGroup (GroupHddSet : list SMC_RAID_CMD_GROUP_HDD)
| CmdRaidType (RaidType : Z)
| CmdSize (RaidSizeType : RAID_SIZE_TYPE) (RaidSizeContext : list Z)
| CmdSpecie (RaidCmdSpecie : SMC_RAID_CMD_SPECIE_ENUM)
| CmdJbod (RaidCmdJbodEnum : SMC_RAID_CMD_JBOD_ENUM).

Definition RaidCmdType (s : SMC_RAID_CMD_SECTION) : SMC_RAID_CMD_TYPE_ENUM :=
  match s with
  | CmdGroup _ => SMC_CMD_RAID_GROUP
  | CmdRaidType _ => SMC_CMD_RAID_RAIDTYPE
  | CmdSize _ _ => SMC_CMD_RAID_SIZE
  | CmdSpecie _ => SMC_CMD_RAID_COMMAND
  | CmdJbod _ => SMC_CMD_RAID_JBOD
  end.

Record SMC_RAID_CMD_SET := mkSet {
  RaidCmdSection : list SMC_RAID_CMD_SECTION;
  CmdEnable : bool }.

(** The tables of [SmcLsiRaidOOBGlbTable.c], each ended by its NON entry. *)
Definition SmcRaidSizeTypeMap : list (RAID_SIZE_TYPE * list Z) :=
  [(SIZE_TB_TYPE, lit "TB"); (SIZE_GB_TYPE, lit "GB"); (SIZE_NON_TYPE, [])].
Definition SpecieMap : list (Z * SMC_RAID_CMD_SPECIE_ENUM) :=
  [(ch "B", SMC_CMD_SPECIE_BUILD); (ch "D", SMC_CMD_SPECIE_DELETE);
   (ch "O", SMC_CMD_SPECIE_OTHER); (ch "X", SMC_CMD_SPECIE_NON)].
Definition JbodMap : list (Z * SMC_RAID_CMD_JBOD_ENUM) :=
  [(ch "M", SMC_CMD_JBOD_MAKE); (ch "U", SMC_CMD_JBOD_UNCONFIG); (ch "X", SMC_CMD_JBOD_NON)].

(** ** Section search *)
Fixpoint SearchForCmdSection (l : list SMC_RAID_CMD_SECTION) (t : SMC_RAID_CMD_TYPE_ENUM)
    : list SMC_RAID_CMD_SECTION :=
  match l with
  | [] => []
  | s :: r => if decide (RaidCmdType s = t) then l else SearchForCmdSection r t
  end.

Definition SearchForCmdSectionList (l : list SMC_RAID_CMD_SECTION) (t : SMC_RAID_CMD_TYPE_ENUM)
    : list SMC_RAID_CMD_SECTION :=
  List.filter (fun s => bool_decide (RaidCmdType s = t)) l.

Definition SearchForCmdSectionBody (l : list SMC_RAID_CMD_SECTION) (t : SMC_RAID_CMD_TYPE_ENUM)
    : option SMC_RAID_CMD_SECTION :=
  match SearchForCmdSection l t with [] => None | s :: _ => Some s end.

(** ** The five section parsers

    [None] is NULL: no such section, or a malformed one. *)

(** Loop over a table up to its NON entry. *)
Fixpoint table_code {A} (m : list (Z * A)) (last : A -> bool) (c : Z) : option A :=
  match m with
  | [] => None
  | (code, v) :: r => if last v then None else if c =? code then Some v else table_code r last c
  end.

Definition ParseCmdRaidJbod (aCmdString : list Z) : option SMC_RAID_CMD_SECTION :=
  let p := Strstr aCmdString (lit "J:[") in
  if chr p =? 0 then None else
  let p := drop 3 p in
  match table_code JbodMap (fun v => bool_decide (v = SMC_CMD_JBOD_NON)) (chr p) with
  | None => None
  | Some JBODEnum => if chr (drop 1 p) =? ch "]" then Some (CmdJbod JBODEnum) else None
  end.

Definition ParseCmdSpecie (aCmdString : list Z) : option SMC_RAID_CMD_SECTION :=
  let p := Strstr aCmdString (lit "C:[") in
  if chr p =? 0 then None else
  let p := drop 3 p in
  match table_code SpecieMap (fun v => bool_decide (v = SMC_CMD_SPECIE_NON)) (chr p) with
  | None => None
  | Some SpecieType => if chr (drop 1 p) =? ch "]" then Some (CmdSpecie SpecieType) else None
  end.

(** The first unit of the table that occurs anywhere in the rest. *)
Fixpoint SearchRaidSizeType (m : list (RAID_SIZE_TYPE * list Z)) (s : list Z)
    : RAID_SIZE_TYPE * list Z :=
  match m with
  | [] => (SIZE_NON_TYPE, [])
  | (t, u) :: r =>
      if decide (t = SIZE_NON_TYPE) then (t, u)
      else if negb (chr (Strstr s u) =? 0) then (t, u) else SearchRaidSizeType r s
  end.

(** Copy of the digits into [CHAR16 RaidSizeContext[80]]; the inner [None] is
    a second point. *)
Definition RaidSizeContext_len : Z := 80.

Fixpoint size_digits (s : list Z) (aPoint : bool) (ctx : list Z)
    : Res (option (list Z * list Z)) :=
  match s with
  | [] => Done (Some (ctx, []))
  | c :: t =>
      if is_digit c || (c =? ch ".") then
        if (c =? ch ".") && aPoint then Done None else
        if RaidSizeContext_len <=? zlen ctx then Fault else
        size_digits t (aPoint || (c =? ch ".")) (ctx ++ [c])
      else Done (Some (ctx, s))
  end.

Definition ParseCmdRaidSize (aCmdString : list Z) : Res (option SMC_RAID_CMD_SECTION) :=
  let p := Strstr aCmdString (lit "S:[") in
  if chr p =? 0 then Done None else
  let p := drop 3 p in
  if negb (is_digit (chr p)) then Done None else
  r ← size_digits p false [];
  match r with
  | None => Done None
  | Some (ctx, p) =>
      let '(unit, us) := SearchRaidSizeType SmcRaidSizeTypeMap p in
      if decide (unit = SIZE_NON_TYPE) then Done None else
      let p := drop (length us) p in
      if chr p =? ch "]" then
        Done (Some (CmdSize unit (ctx ++ replicate (Z.to_nat (RaidSizeContext_len - zlen ctx)) 0)))
      else Done None
  end.

(** The decimal loop: 0xFFFF while no digit was read; [None] from 255 on. *)
Definition SMC_RAID_CMD_GROUP_TYPE_END : Z := 0xFF.

Fixpoint number (lo hi : Z) (s : list Z) (TempVal : Z) : option (Z * list Z) :=
  match s with
  | [] => Some (TempVal, [])
  | c :: t =>
      if (lo <=? c) && (c <=? hi) then
        let T := if TempVal =? 0xFFFF then 0 else TempVal in
        let T := u16 (T * 10 + (c - ch "0")) in
        if 0xFF <=? T then None else number lo hi t T
      else Some (TempVal, s)
  end.

Definition ParseCmdRaidType (aCmdString : list Z) (BigerThan SmallThan SpecialExamine : Z)
    : option SMC_RAID_CMD_SECTION :=
  let p := Strstr aCmdString (lit "R:[") in
  if chr p =? 0 then None else
  match number BigerThan SmallThan (drop 3 p) 0xFFFF with
  | None => None
  | Some (TempVal, p) =>
      if negb (chr p =? ch "]") then None else
      if negb (SpecialExamine =? 0xFF) && negb (TempVal =? SpecialExamine) then None else
      let RaidType := if TempVal =? 0xFFFF then SMC_RAID_CMD_GROUP_TYPE_END else u8 TempVal in
      if RaidType =? SMC_RAID_CMD_GROUP_TYPE_END then None else Some (CmdRaidType RaidType)
  end.

(** Numbers into [UINT16 RaidHddNum[128]], separated by commas, up to a
    bracket. *)
Definition RaidHddNum_len : Z := 128.

Fixpoint group_nums (fuel : nat) (s : list Z) (nums : list Z) : Res (option (list Z * list Z)) :=
  match fuel with
  | O => NoFuel
  | S k =>
      match number (ch "0") (ch "9") s 0xFFFF with
      | None => Done None
      | Some (TempVal, s) =>
          if negb ((chr s =? ch ",") || (chr s =? ch "]")) then Done None else
          let s := if chr s =? ch "," then drop 1 s else s in
          nums ← (if TempVal =? 0xFFFF then Done nums
                  else if RaidHddNum_len <=? zlen nums then Fault
                  else Done (nums ++ [TempVal]));
          if chr s =? ch "]" then Done (Some (nums, s)) else group_nums k s nums
      end
  end.

(** The section, NULL when the group is empty or malformed, and the position
    the caller goes on from. *)
Definition ParseCmdGroupSub (aCmdString : list Z) : Res (option SMC_RAID_CMD_SECTION * list Z) :=
  if chr aCmdString =? 0 then Done (None, aCmdString) else
  let p := Strstr aCmdString (lit "G:[") in
  if chr p =? 0 then Done (None, aCmdString) else
  r ← group_nums (S (length p)) (drop 3 p) [];
  match r with
  | None => Done (None, aCmdString)
  | Some (nums, p) =>
      Done (if 0 <? zlen nums then Some (CmdGroup (map new_hdd nums)) else None, p)
  end.

Fixpoint ParseCmdGroup (fuel : nat) (aCmdString : list Z) (pSection : list SMC_RAID_CMD_SECTION)
    : Res (list SMC_RAID_CMD_SECTION) :=
  match fuel with
  | O => NoFuel
  | S k =>
      '(pTempSection, p) ← ParseCmdGroupSub aCmdString;
      match pTempSection with
      | None => Done pSection
      | Some s => ParseCmdGroup k p (pSection ++ [s])
      end
  end.

(** ** The command line *)

(** Keeps what is between the braces, without blanks; [None] for unpaired
    braces or brackets. [out] is what has been written. *)
Fixpoint delete_useless (s : list Z) (LeftPar LeftBra : bool) (out : list Z) : option (list Z) :=
  match s with
  | [] => None
  | c :: t =>
      if (c =? ch " ") || (c =? 9) then delete_useless t LeftPar LeftBra out else
      if c =? ch "{" then
        if LeftPar then None else delete_useless t true LeftBra (out ++ [c])
      else if c =? ch "}" then
        if negb LeftPar then None else if LeftBra then None else Some (out ++ [c])
      else if LeftPar then
        if c =? ch "[" then
          if LeftBra then None else delete_useless t LeftPar true (out ++ [c])
        else if c =? ch "]" then
          if negb LeftBra then None else delete_useless t LeftPar false (out ++ [c])
        else delete_useless t LeftPar LeftBra (out ++ [c])
      else delete_useless t LeftPar LeftBra out
  end.

Definition DeleteUselessChar (aCmdString : list Z) : option (list Z) :=
  delete_useless aCmdString false false [].

(** The low byte of every character, up to one that is 0. *)
Fixpoint UnicodeStrToAsciiStr (s : list Z) : list Z :=
  match s with
  | [] => []
  | c :: t => if u8 c =? 0 then [] else u8 c :: UnicodeStrToAsciiStr t
  end.

Definition ReConstructTheCmdLine (pOriCmdCfg : list Z) : option (list Z) :=
  if SMC_ITEM_CMD_STRING_SIZE <? zlen pOriCmdCfg + 1 then None
  else DeleteUselessChar (UpperAsciiString (UnicodeStrToAsciiStr pOriCmdCfg)).

Definition opt_list {A} (o : option A) : list A := match o with Some x => [x] | None => [] end.

Definition AnalysisAndParseCmdString (puCmdCfgString : list Z) : Res (option SMC_RAID_CMD_SET) :=
  match ReConstructTheCmdLine puCmdCfgString with
  | None => Done None
  | Some aCmdCfgString =>
      match ParseCmdSpecie aCmdCfgString with
      | None => Done None
      | Some pSpecie =>
          pGroups ← ParseCmdGroup (S (length aCmdCfgString)) aCmdCfgString [];
          pSize ← ParseCmdRaidSize aCmdCfgString;
          let pType := ParseCmdRaidType aCmdCfgString (ch "0") (ch "9") SMC_RAID_CMD_GROUP_TYPE_END in
          let pJbod := ParseCmdRaidJbod aCmdCfgString in
          Done (Some (mkSet (pSpecie :: pGroups ++ opt_list pSize ++ opt_list pType
            ++ opt_list pJbod) false))
      end
  end.

(** ** The parser returns *)
Lemma Strstr_length s pat : (length (Strstr s pat) <= length s)%nat.
Proof. induction s as [|c t IH]; [done|]. cbn [Strstr]. destruct (starts _ _); cbn; lia. Qed.

(** What [number] leaves: a rest, shorter when a digit was read. *)
Lemma number_spec lo hi s T :
  match number lo hi s T with
  | None => True
  | Some (T', p) => (length p <= length s)%nat /\ (T' = T \/ (0 <= T' < 0xFF /\ (length p < length s)%nat))
  end.
Proof.
  revert T. induction s as [|c t IH]; intros T; cbn [number]; [auto|].
  destruct ((lo <=? c) && (c <=? hi)); [|cbn; auto]. cbv zeta.
  match goal with |- context [number lo hi t ?x] => set (T1 := x) in * end.
  destruct (Z.leb_spec 0xFF T1); [done|]. specialize (IH T1).
  destruct (number lo hi t T1) as [[T' p]|]; [|done]. destruct IH as [Hl Hc]. cbn [length].
  split; [lia|]. right. destruct Hc as [->|[? ?]]; [|lia].
  pose proof (u16_range ((if T =? 0xFFFF then 0 else T) * 10 + (c - ch "0"))) as [? _].
  unfold T1 in *. lia.
Qed.

Lemma chr_drop1 s c : chr s = c -> c <> 0 -> exists t, s = c :: t /\ drop 1 s = t.
Proof. destruct s as [|x t]; cbn; intros <- H; [done|eauto]. Qed.

Lemma group_nums_total k s nums :
  (length s < k)%nat -> 2 * zlen nums + zlen s < 256 ->
  exists o, group_nums k s nums = Done o /\
    match o with None => True | Some (_, p) => (length p <= length s)%nat /\ chr p = ch "]" end.
Proof.
  revert s nums. induction k as [|k IH]; intros s nums Hk Hb; [lia|]. cbn [group_nums].
  pose proof (number_spec (ch "0") (ch "9") s 0xFFFF) as Hn.
  destruct (number (ch "0") (ch "9") s 0xFFFF) as [[T p]|]; [|by exists None]. destruct Hn as [Hl HT].
  assert (Hadd : (chr p = ch "," \/ chr p = ch "]") -> exists nums',
    (if T =? 0xFFFF then Done nums else if RaidHddNum_len <=? zlen nums then Fault
     else Done (nums ++ [T])) = Done nums' /\ 2 * zlen nums' + zlen p < 257).
  { intros Hc. assert (1 <= zlen p) by (destruct p; [by destruct Hc|zl]).
    destruct (Z.eqb_spec T 0xFFFF) as [|HT']; [exists nums; split; [done|unfold zlen in *; lia]|].
    destruct HT as [|[_ Hlt]]; [done|].
    exists (nums ++ [T]). rewrite (proj2 (Z.leb_gt _ _)).
    - split; [done|]. rewrite zlen_app. unfold zlen in *. cbn. lia.
    - unfold RaidHddNum_len, zlen in *. lia. }
  destruct (Z.eqb_spec (chr p) (ch ",")) as [E|E]; cbn [orb].
  - destruct (Hadd (or_introl E)) as (nums' & -> & Hb'). rewrite bind_Done. cbn [negb].
    destruct (chr_drop1 p _ E) as (t & -> & ->); [done|]. cbn [length] in *.
    destruct (Z.eqb_spec (chr t) (ch "]")) as [E'|].
    + eexists. split; [done|]. cbn. split; [lia|done].
    + destruct (IH t nums') as (o & -> & Ho); [lia|unfold zlen in *; cbn [length] in *; lia|].
      exists o. split; [done|]. destruct o as [[? p]|]; [|done]. destruct Ho. split; [lia|done].
  - destruct (Z.eqb_spec (chr p) (ch "]")) as [E'|]; cbn [negb]; [|by exists None].
    destruct (Hadd (or_intror E')) as (nums' & -> & _). rewrite bind_Done.
    eexists. split; [done|]. cbn. split; [lia|done].
Qed.

Lemma starts_length s pat : starts s pat = true -> (length pat <= length s)%nat.
Proof.
  revert s. induction pat as [|q pat IH]; intros s; [cbn; lia|].
  destruct s as [|p s]; cbn; [done|]. intros [_ H]%andb_true_iff. apply IH in H. lia.
Qed.

Lemma Strstr_found s pat : Strstr s pat <> [] -> starts (Strstr s pat) pat = true.
Proof.
  induction s as [|c t IH]; cbn [Strstr]; [done|].
  by destruct (starts (c :: t) pat) eqn:E.
Qed.

Lemma chr_nonzero s : chr s <> 0 -> s <> [].
Proof. by destruct s. Qed.

Lemma ParseCmdGroupSub_total s :
  zlen s < 256 -> exists o p, ParseCmdGroupSub s = Done (o, p) /\
    (length p <= length s)%nat /\ (o <> None -> (length p < length s)%nat).
Proof.
  intros Hs. unfold ParseCmdGroupSub. destruct (Z.eqb_spec (chr s) 0); [by exists None, s|].
  destruct (Z.eqb_spec (chr (Strstr s (lit "G:["))) 0) as [|Hc]; [by exists None, s|].
  pose proof (Strstr_length s (lit "G:[")) as Hl.
  pose proof (starts_length _ _ (Strstr_found _ _ (chr_nonzero _ Hc))) as Hp.
  change (length (lit "G:[")) with 3%nat in Hp.
  set (p := Strstr s (lit "G:[")) in *.
  destruct (group_nums_total (S (length p)) (drop 3 p) []) as (o & -> & Ho).
  { rewrite length_drop. lia. }
  { unfold zlen in *. rewrite length_drop. cbn [length]. lia. }
  rewrite bind_Done. destruct o as [[nums q]|]; [|by exists None, s].
  eexists _, q. split; [done|]. destruct Ho as [Ho _]. rewrite length_drop in Ho.
  split; [lia|intros _; lia].
Qed.

Lemma ParseCmdGroup_total k s acc :
  (length s < k)%nat -> zlen s < 256 -> exists l, ParseCmdGroup k s acc = Done l.
Proof.
  revert s acc. induction k as [|k IH]; intros s acc Hk Hs; [lia|]. cbn [ParseCmdGroup].
  destruct (ParseCmdGroupSub_total s Hs) as (o & p & -> & Hp & Ho). rewrite bind_Done.
  destruct o as [x|]; [|eauto]. apply IH; [specialize (Ho ltac:(done)); lia|unfold zlen in *; lia].
Qed.

Lemma size_digits_nofuel s aPoint ctx : size_digits s aPoint ctx <> NoFuel.
Proof.
  revert aPoint ctx. induction s as [|c t IH]; intros aPoint ctx; cbn [size_digits]; [done|].
  destruct (is_digit c || (c =? ch ".")); [|done].
  destruct ((c =? ch ".") && aPoint); [done|].
  destruct (RaidSizeContext_len <=? zlen ctx); [done|]. apply IH.
Qed.

Lemma ParseCmdRaidSize_nofuel s : ParseCmdRaidSize s <> NoFuel.
Proof.
  unfold ParseCmdRaidSize. destruct (_ =? 0); [done|]. destruct (negb _); [done|].
  apply bind_nofuel; [apply size_digits_nofuel|]. intros [[ctx p]|] _; [|done].
  destruct (SearchRaidSizeType _ _) as [u us]. destruct (decide _); [done|].
  by destruct (_ =? _).
Qed.

(** A run of [n] digits and points somewhere in a string. *)
Definition has_run (n : Z) (s : list Z) : Prop :=
  exists a b c, s = a ++ b ++ c /\ zlen b = n /\ Forall (fun x => is_digit x || (x =? ch ".") = true) b.

Lemma size_digits_run s aPoint ctx :
  size_digits s aPoint ctx = Fault -> zlen ctx <= RaidSizeContext_len ->
  exists b c, s = b ++ c /\ zlen ctx + zlen b = RaidSizeContext_len + 1 /\
    Forall (fun x => is_digit x || (x =? ch ".") = true) b.
Proof.
  revert aPoint ctx. induction s as [|c t IH]; intros aPoint ctx; cbn [size_digits]; [done|].
  destruct (is_digit c || (c =? ch ".")) eqn:Ec; [|done].
  destruct ((c =? ch ".") && aPoint); [done|].
  destruct (Z.leb_spec RaidSizeContext_len (zlen ctx)) as [Hm|Hm]; intros K Hl.
  - exists [c], t. split_and!; [done|change (zlen [c]) with 1; lia|by repeat constructor].
  - apply IH in K as (b & r & -> & Hb & Hf).
    + exists (c :: b), r. split_and!; [done|rewrite zlen_app in Hb; change (zlen [c]) with 1 in Hb; zl|].
      by constructor.
    + rewrite zlen_app. change (zlen [c]) with 1. lia.
Qed.

Lemma Strstr_suffix s pat : exists a, s = a ++ Strstr s pat.
Proof.
  induction s as [|c t IH]; [by exists []|]. cbn [Strstr]. destruct (starts _ _); [by exists []|].
  destruct IH as [a E]. exists (c :: a). cbn. by rewrite <- E.
Qed.

Lemma ParseCmdRaidSize_fault s : ParseCmdRaidSize s = Fault -> has_run 81 s.
Proof.
  unfold ParseCmdRaidSize. destruct (_ =? 0); [done|]. destruct (negb _); [done|].
  destruct (size_digits _ _ _) as [[[ctx p]|]| |] eqn:E; rewrite ?bind_Done; try done.
  - destruct (SearchRaidSizeType _ _) as [u us]. destruct (decide _); [done|]. by destruct (_ =? _).
  - intros _. apply size_digits_run in E as (b & c & E & Hb & Hf); [|done].
    destruct (Strstr_suffix s (lit "S:[")) as [a Ea].
    exists (a ++ take 3 (Strstr s (lit "S:["))), b, c. split_and!; [|done|done].
    by rewrite <- app_assoc, <- E, take_drop.
Qed.

Lemma delete_useless_length s L B out r :
  delete_useless s L B out = Some r -> (length r <= length out + length s)%nat.
Proof.
  revert L B out. induction s as [|c t IH]; intros L B out; cbn [delete_useless]; [done|].
  repeat match goal with |- context [if ?b then _ else _] => destruct b end;
    try done; try (intros H%IH; rewrite ?length_app in H; cbn in *; lia).
  intros [= <-]. rewrite length_app. cbn. lia.
Qed.

Lemma UnicodeStrToAsciiStr_length s : (length (UnicodeStrToAsciiStr s) <= length s)%nat.
Proof. induction s as [|c t IH]; cbn; [done|]. destruct (u8 c =? 0); cbn; lia. Qed.

Lemma ReConstructTheCmdLine_length u s : ReConstructTheCmdLine u = Some s -> zlen s < 255.
Proof.
  unfold ReConstructTheCmdLine. destruct (Z.ltb_spec SMC_ITEM_CMD_STRING_SIZE (zlen u + 1)); [done|].
  intros E%delete_useless_length. unfold UpperAsciiString in E. rewrite length_map in E.
  pose proof (UnicodeStrToAsciiStr_length u). cbn in E. unfold SMC_ITEM_CMD_STRING_SIZE, zlen in *. lia.
Qed.

(** C37: (bounds) The parser returns on every string: no loop runs without
    end and the drive numbers never pass the end of their 128-entry array.
    The only write outside an array is the one of a size of more than 80
    digits, past the end of the size text. *)
Theorem AnalysisAndParse_total u :
  (exists o, AnalysisAndParseCmdString u = Done o) \/
  (AnalysisAndParseCmdString u = Fault /\ exists s, ReConstructTheCmdLine u = Some s /\ has_run 81 s).
Proof.
  unfold AnalysisAndParseCmdString. destruct (ReConstructTheCmdLine u) as [s|] eqn:E; [|eauto].
  destruct (ParseCmdSpecie s); [|eauto]. pose proof (ReConstructTheCmdLine_length _ _ E) as Hl.
  destruct (ParseCmdGroup_total (S (length s)) s []) as [l ->]; [lia|lia|]. rewrite bind_Done.
  destruct (ParseCmdRaidSize s) as [o| |] eqn:Es; [eauto| |by apply ParseCmdRaidSize_nofuel in Es].
  right. split; [done|]. exists s. split; [done|]. by apply ParseCmdRaidSize_fault.
Qed.

(** The overflow, from a command line that fits its variable. *)
Definition long_size : list Z := lit "{C:[B]S:[" ++ replicate 81 (ch "9") ++ lit "TB]}".

Lemma long_size_faults :
  zlen long_size + 1 <= SMC_ITEM_CMD_STRING_SIZE /\ AnalysisAndParseCmdString long_size = Fault.
Proof. split; [vm_compute; done|vm_compute; reflexivity]. Qed.

(** ** Printing commands *)
Record Command := mkCmd {
  c_specie : SMC_RAID_CMD_SPECIE_ENUM;
  c_groups : list (list Z);
  c_size : option (list Z * RAID_SIZE_TYPE);
  c_type : option Z;
  c_jbod : option SMC_RAID_CMD_JBOD_ENUM }.

Definition digit (d : Z) : Z := ch "0" + d.
Definition dec (n : Z) : list Z :=
  if n <? 10 then [digit n] else
  if n <? 100 then [digit (n / 10); digit (n mod 10)]
  else [digit (n / 100); digit (n / 10 mod 10); digit (n mod 10)].

Fixpoint nums_text (l : list Z) : list Z :=
  match l with
  | [] => []
  | [n] => dec n
  | n :: r => dec n ++ lit "," ++ nums_text r
  end.

Definition specie_code (s : SMC_RAID_CMD_SPECIE_ENUM) : list Z :=
  match s with
  | SMC_CMD_SPECIE_BUILD => lit "B" | SMC_CMD_SPECIE_DELETE => lit "D"
  | SMC_CMD_SPECIE_OTHER => lit "O" | SMC_CMD_SPECIE_NON => lit "X"
  end.
Definition jbod_code (j : SMC_RAID_CMD_JBOD_ENUM) : list Z :=
  match j with
  | SMC_CMD_JBOD_MAKE => lit "M" | SMC_CMD_JBOD_UNCONFIG => lit "U" | SMC_CMD_JBOD_NON => lit "X"
  end.
Definition unit_code (u : RAID_SIZE_TYPE) : list Z :=
  match u with SIZE_TB_TYPE => lit "TB" | SIZE_GB_TYPE => lit "GB" | SIZE_NON_TYPE => [] end.

(** A section: letter, colon and bracketed contents. *)
Definition section (letter : ascii) (t : list Z) : list Z :=
  [ch letter] ++ lit ":[" ++ t ++ lit "]".

Definition size_part (c : Command) : list Z :=
  match c_size c with Some (ctx, u) => section "S" (ctx ++ unit_code u) | None => [] end.
Definition type_part (c : Command) : list Z :=
  match c_type c with Some n => section "R" (dec n) | None => [] end.
Definition jbod_part (c : Command) : list Z :=
  match c_jbod c with Some j => section "J" (jbod_code j) | None => [] end.
Definition group_parts (gs : list (list Z)) : list Z :=
  concat (map (fun g => section "G" (nums_text g)) gs).

Definition print (c : Command) : list Z :=
  lit "{" ++ section "C" (specie_code (c_specie c)) ++ group_parts (c_groups c)
  ++ size_part c ++ type_part c ++ jbod_part c ++ lit "}".

(** The sections the parser should find. *)
Definition sections (c : Command) : list SMC_RAID_CMD_SECTION :=
  CmdSpecie (c_specie c) :: map (fun g => CmdGroup (map new_hdd g)) (c_groups c)
  ++ match c_size c with
     | Some (ctx, u) => [CmdSize u (ctx ++ replicate (Z.to_nat (RaidSizeContext_len - zlen ctx)) 0)]
     | None => [] end
  ++ opt_list (CmdRaidType <$> c_type c) ++ opt_list (CmdJbod <$> c_jbod c).

Definition small (n : Z) : Prop := 0 <= n < 0xFF.

(** A number: digits with at most one point, the first character a digit. *)
Definition size_ok (ctx : list Z) : Prop :=
  is_digit (chr ctx) = true /\ Forall (fun x => is_digit x || (x =? ch ".") = true) ctx /\
  zlen (List.filter (fun x => x =? ch ".") ctx) <= 1 /\ zlen ctx <= RaidSizeContext_len.

Definition command_ok (c : Command) : Prop :=
  c_specie c <> SMC_CMD_SPECIE_NON /\
  Forall (fun g => g <> [] /\ Forall small g) (c_groups c) /\
  match c_size c with Some (ctx, u) => size_ok ctx /\ u <> SIZE_NON_TYPE | None => True end /\
  match c_type c with Some n => small n | None => True end /\
  c_jbod c <> Some SMC_CMD_JBOD_NON.

(** ** Searching in printed text *)
Definition free (c : ascii) (t : list Z) : Prop := Forall (fun x => x <> ch c) t.

Lemma free_app c s t : free c s -> free c t -> free c (s ++ t).
Proof. intros. by apply Forall_app. Qed.

Lemma Strstr_skip c pat t s : free c t -> Strstr (t ++ s) (ch c :: pat) = Strstr s (ch c :: pat).
Proof.
  induction 1 as [|x t Hx _ IH]; [done|]. cbn [app Strstr starts].
  by rewrite (proj2 (Z.eqb_neq _ _) Hx).
Qed.

Lemma Strstr_none c pat t : free c t -> Strstr t (ch c :: pat) = [].
Proof. intros H. rewrite <- (app_nil_r t), Strstr_skip by done. done. Qed.

Lemma starts_app pat r : starts (pat ++ r) pat = true.
Proof. induction pat as [|q pat IH]; cbn; [done|]. by rewrite Z.eqb_refl. Qed.

Lemma Strstr_here c pat r : Strstr ((ch c :: pat) ++ r) (ch c :: pat) = (ch c :: pat) ++ r.
Proof.
  pose proof (starts_app (ch c :: pat) r) as H. cbn [app Strstr] in *. by rewrite H.
Qed.

Definition numeric (t : list Z) : Prop := Forall (fun x => is_digit x || (x =? ch ".") || (x =? ch ",") = true) t.

Lemma free_numeric c t :
  is_digit (ch c) || (ch c =? ch ".") || (ch c =? ch ",") = false -> numeric t -> free c t.
Proof.
  intros Hc H. eapply Forall_impl; [exact H|]. intros x Hx ->. cbn in Hx. congruence.
Qed.

Lemma numeric_app s t : numeric s -> numeric t -> numeric (s ++ t).
Proof. intros. by apply Forall_app. Qed.

Lemma is_digit_digit d : 0 <= d < 10 -> is_digit (digit d) = true.
Proof. intros H. unfold is_digit, digit. change (ch "0") with 48. change (ch "9") with 57. lia. Qed.

Ltac dm := Z.div_mod_to_equations; lia.

Lemma dec_digits n : small n -> Forall (fun x => is_digit x = true) (dec n).
Proof.
  unfold small, dec. intros H.
  destruct (Z.ltb_spec n 10); [|destruct (Z.ltb_spec n 100)]; repeat constructor;
    apply is_digit_digit; dm.
Qed.

Lemma numeric_dec n : small n -> numeric (dec n).
Proof. intros H. eapply Forall_impl; [by apply dec_digits|]. by intros x ->. Qed.

Lemma numeric_nums l : Forall small l -> numeric (nums_text l).
Proof.
  induction 1 as [|n l Hn _ IH]; [constructor|]. cbn [nums_text].
  destruct l; [by apply numeric_dec|]. apply numeric_app; [by apply numeric_dec|].
  apply numeric_app; [by repeat constructor|done].
Qed.

Lemma numeric_size ctx : size_ok ctx -> numeric ctx.
Proof. intros (_ & H & _). eapply Forall_impl; [exact H|]. intros x Hx. by rewrite Hx. Qed.

(** ** Numbers *)
Lemma number_step d t T v :
  0 <= d < 10 -> v = (if T =? 0xFFFF then 0 else T) * 10 + d -> small v ->
  number (ch "0") (ch "9") (digit d :: t) T = number (ch "0") (ch "9") t v.
Proof.
  intros Hd -> [Hv Hb]. cbn [number].
  pose proof (is_digit_digit d Hd) as Hi. unfold is_digit in Hi. rewrite Hi. cbv zeta.
  replace (digit d - ch "0") with d by (unfold digit; lia).
  rewrite u16_small by (unfold is_u16; lia). by rewrite (proj2 (Z.leb_gt _ _) Hb).
Qed.

Lemma number_stop s T : is_digit (chr s) = false -> number (ch "0") (ch "9") s T = Some (T, s).
Proof.
  intros H. destruct s as [|c t]; [done|]. cbn [number]. unfold is_digit, chr in H. by rewrite H.
Qed.

Lemma number_dec n r :
  small n -> is_digit (chr r) = false -> number (ch "0") (ch "9") (dec n ++ r) 0xFFFF = Some (n, r).
Proof.
  unfold small, dec. intros H Hr.
  assert (E : forall T, 0 <= T < 0xFF -> (T =? 0xFFFF) = false) by lia.
  destruct (Z.ltb_spec n 10); [|destruct (Z.ltb_spec n 100)]; cbn [app].
  - rewrite (number_step n _ _ n) by (unfold small; cbn; lia). by apply number_stop.
  - rewrite (number_step (n / 10) _ _ (n / 10)) by (unfold small; cbn; dm).
    rewrite (number_step (n mod 10) _ _ n) by (rewrite ?E; unfold small; dm).
    by apply number_stop.
  - rewrite (number_step (n / 100) _ _ (n / 100)) by (unfold small; cbn; dm).
    rewrite (number_step (n / 10 mod 10) _ _ (n / 10)) by (rewrite ?E; unfold small; dm).
    rewrite (number_step (n mod 10) _ _ n) by (rewrite ?E; unfold small; dm).
    by apply number_stop.
Qed.

Lemma group_step k n c t acc :
  small n -> zlen acc < RaidHddNum_len -> c = ch "," \/ c = ch "]" ->
  group_nums (S k) (dec n ++ c :: t) acc
  = let s := if c =? ch "," then t else c :: t in
    if chr s =? ch "]" then Done (Some (acc ++ [n], s)) else group_nums k s (acc ++ [n]).
Proof.
  intros Hn Ha Hc. cbn [group_nums].
  rewrite number_dec by (done || by destruct Hc; subst). cbn [chr].
  rewrite (proj2 (Z.eqb_neq n 0xFFFF)) by (destruct Hn; lia).
  rewrite (proj2 (Z.leb_gt RaidHddNum_len (zlen acc))) by lia. rewrite bind_Done.
  by destruct Hc; subst.
Qed.

Lemma dec_head n t : small n -> is_digit (chr (dec n ++ t)) = true.
Proof.
  intros H. pose proof (dec_digits n H) as Hd. revert Hd. unfold dec.
  destruct (n <? 10), (n <? 100); cbn; by inversion 1.
Qed.

Lemma nums_head l t : l <> [] -> Forall small l -> is_digit (chr (nums_text l ++ t)) = true.
Proof.
  intros Hl Hs. destruct l as [|n r]; [done|]. apply Forall_cons in Hs as [Hn _].
  destruct r; cbn [nums_text]; rewrite <- ?app_assoc; by apply dec_head.
Qed.

Lemma group_nums_text l k r acc :
  l <> [] -> Forall small l -> (length l <= k)%nat -> zlen acc + zlen l <= RaidHddNum_len ->
  group_nums k (nums_text l ++ lit "]" ++ r) acc = Done (Some (acc ++ l, lit "]" ++ r)).
Proof.
  intros Hl Hs. revert k acc Hl. induction Hs as [|n l Hn Hs IH]; intros k acc Hl Hk Hb; [done|].
  destruct k as [|k]; [cbn in Hk; lia|]. rewrite zlen_cons in Hb. pose proof (zlen_nonneg l).
  destruct l as [|m l].
  - cbn [nums_text]. change (lit "]" ++ r) with (ch "]" :: r).
    rewrite group_step by (auto || lia). done.
  - change (nums_text (n :: m :: l)) with (dec n ++ lit "," ++ nums_text (m :: l)).
    set (t := nums_text (m :: l)) in *. rewrite <- !app_assoc.
    change (lit "," ++ t ++ lit "]" ++ r) with (ch "," :: (t ++ lit "]" ++ r)).
    rewrite group_step by (auto || lia). cbv zeta. rewrite Z.eqb_refl.
    pose proof (nums_head (m :: l) (lit "]" ++ r) ltac:(done) Hs) as Hh. fold t in Hh.
    destruct (Z.eqb_spec (chr (t ++ lit "]" ++ r)) (ch "]")) as [E|_]; [by rewrite E in Hh|].
    rewrite IH; [by rewrite <- app_assoc|done|cbn in *; lia|].
    rewrite zlen_app. change (zlen [n]) with 1. lia.
Qed.

(** ** Sections *)
Lemma find_section a pre t r :
  free a pre ->
  exists p, Strstr (pre ++ section a t ++ r) (ch a :: lit ":[") = ch a :: p
    /\ drop 3 (ch a :: p) = t ++ lit "]" ++ r.
Proof.
  intros H. rewrite Strstr_skip by done. unfold section.
  exists (lit ":[" ++ t ++ lit "]" ++ r). split; [|done].
  replace (([ch a] ++ lit ":[" ++ t ++ lit "]") ++ r)
    with ((ch a :: lit ":[") ++ (t ++ lit "]" ++ r)) by (cbn; by rewrite <- app_assoc).
  by rewrite Strstr_here.
Qed.

Lemma ch_nonzero a : ch a <> 0 -> (ch a =? 0) = false.
Proof. by intros ?%Z.eqb_neq. Qed.

(** Characters of the fixed parts, for [free]. *)
Ltac free_fixed := repeat constructor; vm_compute; discriminate.

Lemma free_section c a t :
  ch c <> ch a -> ch c <> ch ":" -> ch c <> ch "[" -> ch c <> ch "]" -> free c t -> free c (section a t).
Proof.
  intros. unfold section. repeat apply free_app; try done; repeat constructor; congruence.
Qed.

(** A letter of the other sections does not occur in a numeric section. *)
Lemma free_numeric_section c a t :
  ch c <> ch a -> ch c <> ch ":" -> ch c <> ch "[" -> ch c <> ch "]" ->
  is_digit (ch c) || (ch c =? ch ".") || (ch c =? ch ",") = false -> numeric t ->
  free c (section a t).
Proof. intros. apply free_section; try done. by apply free_numeric. Qed.

Ltac other_letter := vm_compute; (reflexivity || discriminate).

Section parts.
Context (c : Command) (Hok : command_ok c).

Lemma free_specie a :
  a = "G"%char \/ a = "S"%char \/ a = "R"%char \/ a = "J"%char ->
  free a (lit "{" ++ section "C" (specie_code (c_specie c))).
Proof using Hok.
  destruct Hok as [Hs _]. destruct (c_specie c); [..|done];
    intros [->|[->|[->| ->]]]; free_fixed.
Qed.

Lemma free_groups a :
  a = "S"%char \/ a = "R"%char \/ a = "J"%char -> free a (group_parts (c_groups c)).
Proof using Hok.
  destruct Hok as (_ & Hg & _). intros Ha. unfold group_parts.
  induction Hg as [|g gs [_ Hg] _ IH]; [constructor|]. cbn [map concat].
  apply free_app; [|done].
  apply numeric_nums in Hg. destruct Ha as [->|[->| ->]]; (apply free_numeric_section; [other_letter..|done]).
Qed.

Lemma free_size a : a = "R"%char \/ a = "J"%char -> free a (size_part c).
Proof using Hok.
  destruct Hok as (_ & _ & Hs & _). unfold size_part. intros Ha.
  destruct (c_size c) as [[ctx u]|]; [|constructor]. destruct Hs as [Hs _].
  apply numeric_size in Hs.
  destruct Ha as [->| ->]; (apply free_section; [other_letter..|]; apply free_app;
    [by apply free_numeric|destruct u; free_fixed]).
Qed.

Lemma free_type a :
  a = "G"%char \/ a = "S"%char \/ a = "J"%char \/ a = "T"%char -> free a (type_part c).
Proof using Hok.
  destruct Hok as (_ & _ & _ & Ht & _). unfold type_part. intros Ha.
  destruct (c_type c) as [n|]; [|constructor]. apply numeric_dec in Ht.
  destruct Ha as [->|[->|[->| ->]]]; (apply free_numeric_section; [other_letter..|done]).
Qed.

Lemma free_jbod a :
  a = "G"%char \/ a = "S"%char \/ a = "R"%char \/ a = "T"%char -> free a (jbod_part c).
Proof.
  unfold jbod_part. intros Ha. destruct (c_jbod c) as [[]|]; [..|constructor];
    destruct Ha as [->|[->|[->| ->]]]; free_fixed.
Qed.

Lemma free_brace a : ch a <> ch "}" -> free a (lit "}").
Proof. intros H. repeat constructor. cbn. congruence. Qed.

Lemma free_tail a :
  a = "G"%char \/ a = "S"%char \/ a = "T"%char -> free a (type_part c ++ jbod_part c ++ lit "}").
Proof using Hok.
  intros Ha. apply free_app; [apply free_type; tauto|]. apply free_app; [apply free_jbod; tauto|].
  by destruct Ha as [->|[->| ->]]; apply free_brace.
Qed.

(** No group after the groups, although a unit may be [GB]. *)
Lemma no_group_left :
  Strstr (size_part c ++ type_part c ++ jbod_part c ++ lit "}") (lit "G:[") = [].
Proof using Hok.
  pose proof (free_tail "G" ltac:(auto)) as Ht. set (tail := type_part c ++ jbod_part c ++ lit "}") in *.
  unfold size_part. destruct Hok as (_ & _ & Hs & _). destruct (c_size c) as [[ctx u]|].
  2: by apply Strstr_none.
  destruct Hs as [Hs _]. apply numeric_size, (free_numeric "G") in Hs; [|done].
  unfold section. rewrite <- !app_assoc.
  change (lit "G:[") with (ch "G" :: lit ":[").
  rewrite (Strstr_skip "G" _ [ch "S"]), (Strstr_skip "G" _ (lit ":[")), (Strstr_skip "G" _ ctx)
    by (done || free_fixed).
  destruct u.
  - rewrite (Strstr_skip "G" _ (lit "TB")), (Strstr_skip "G" _ (lit "]")) by free_fixed.
    by apply Strstr_none.
  - change (Strstr (lit "B]" ++ tail) (ch "G" :: lit ":[") = []).
    rewrite Strstr_skip by free_fixed. by apply Strstr_none.
  - rewrite app_nil_l, (Strstr_skip "G" _ (lit "]")) by free_fixed. by apply Strstr_none.
Qed.
End parts.

Lemma ParseCmdSpecie_print c : command_ok c -> ParseCmdSpecie (print c) = Some (CmdSpecie (c_specie c)).
Proof.
  intros [Hs _]. unfold ParseCmdSpecie, print.
  destruct (find_section "C" (lit "{") (specie_code (c_specie c)) (group_parts (c_groups c)
    ++ size_part c ++ type_part c ++ jbod_part c ++ lit "}")) as (p & E & Ed); [free_fixed|].
  change (lit "C:[") with (ch "C" :: lit ":["). rewrite E. cbn [chr]. rewrite Ed.
  by destruct (c_specie c).
Qed.

Lemma ParseCmdGroupSub_print pre g r :
  free "G" pre -> pre <> [] -> Forall (fun x => x <> 0) pre -> g <> [] -> Forall small g ->
  zlen g <= RaidHddNum_len ->
  ParseCmdGroupSub (pre ++ section "G" (nums_text g) ++ r)
  = Done (Some (CmdGroup (map new_hdd g)), lit "]" ++ r).
Proof.
  intros Hf Hp Hz Hg Hs Hl. unfold ParseCmdGroupSub.
  assert (E0 : (chr (pre ++ section "G" (nums_text g) ++ r) =? 0) = false).
  { destruct pre as [|x pre]; [done|]. apply Forall_cons in Hz as [Hx _]. by apply Z.eqb_neq. }
  rewrite E0. change (lit "G:[") with (ch "G" :: lit ":[").
  destruct (find_section "G" pre (nums_text g) r Hf) as (p & -> & Ed). cbn [chr].
  rewrite Ed, group_nums_text; try done.
  - rewrite bind_Done. cbn [app]. rewrite (proj2 (Z.ltb_lt 0 (zlen g))); [done|].
    destruct g; [done|]. zl.
  - apply (f_equal length) in Ed. rewrite length_drop, length_app in Ed.
    assert (length g <= length (nums_text g))%nat; [|cbn [length] in *; lia].
    clear -Hs. induction Hs as [|n l Hn _ IH]; [done|]. destruct l as [|m l].
    + pose proof (dec_head n [] Hn) as K. rewrite app_nil_r in K. cbn. destruct (dec n); cbn in *; [done|lia].
    + change (nums_text (n :: m :: l)) with (dec n ++ lit "," ++ nums_text (m :: l)).
      rewrite !length_app. cbn [length lit] in *. change (length (lit ",")) with 1%nat. lia.
Qed.

Lemma ParseCmdGroup_print gs k pre tail acc :
  Forall (fun g => g <> [] /\ Forall small g) gs -> Forall (fun g => zlen g <= RaidHddNum_len) gs ->
  (length gs < k)%nat -> free "G" pre -> pre <> [] -> Forall (fun x => x <> 0) pre ->
  Strstr tail (lit "G:[") = [] ->
  ParseCmdGroup k (pre ++ group_parts gs ++ tail) acc
  = Done (acc ++ map (fun g => CmdGroup (map new_hdd g)) gs).
Proof.
  intros Hg. revert k pre acc. induction Hg as [|g gs [Hg Hs] _ IH]; intros k pre acc Hl Hk Hf Hp Hz Ht;
    (destruct k as [|k]; [cbn in Hk; lia|]); cbn [ParseCmdGroup].
  - unfold ParseCmdGroupSub. cbn [group_parts map concat app]. rewrite app_nil_r.
    destruct (chr (pre ++ tail) =? 0); [done|].
    change (lit "G:[") with (ch "G" :: lit ":[") in *. by rewrite Strstr_skip, Ht.
  - apply Forall_cons in Hl as [Hl Hls]. cbn [group_parts map concat]. rewrite <- app_assoc.
    rewrite ParseCmdGroupSub_print by done. rewrite bind_Done.
    change (concat (map (fun g => section "G" (nums_text g)) gs)) with (group_parts gs).
    rewrite IH; [by rewrite <- app_assoc|done|cbn in Hk; lia|free_fixed|done|by repeat constructor|done].
Qed.

Lemma size_digits_print t r aPoint ctx :
  Forall (fun x => is_digit x || (x =? ch ".") = true) t ->
  zlen (List.filter (fun x => x =? ch ".") t) + b2z aPoint <= 1 ->
  zlen ctx + zlen t <= RaidSizeContext_len ->
  is_digit (chr r) || (chr r =? ch ".") = false -> r <> [] ->
  size_digits (t ++ r) aPoint ctx = Done (Some (ctx ++ t, r)).
Proof.
  intros Ht. revert aPoint ctx. induction Ht as [|x t Hx Ht IH]; intros aPoint ctx Hp Hl Hr Hn.
  - cbn [app]. destruct r as [|y r]; [done|]. cbn [size_digits]. cbn [chr] in Hr. rewrite Hr.
    by rewrite app_nil_r.
  - cbn [app size_digits]. rewrite Hx. rewrite zlen_cons in Hl. pose proof (zlen_nonneg t).
    cbn [List.filter] in Hp. pose proof (zlen_nonneg (List.filter (fun x => x =? ch ".") t)).
    assert (Ha : (x =? ch ".") && aPoint = false).
    { destruct (x =? ch "."), aPoint; try done. rewrite zlen_cons in Hp. cbn in Hp. lia. }
    rewrite Ha, (proj2 (Z.leb_gt _ _)) by lia. rewrite IH.
    + by rewrite <- app_assoc.
    + destruct (x =? ch "."), aPoint; cbn in *; rewrite ?zlen_cons in Hp; lia.
    + rewrite zlen_app. change (zlen [x]) with 1. lia.
    + done.
    + done.
Qed.

Lemma SearchRaidSizeType_print u r :
  u <> SIZE_NON_TYPE -> free "T" r ->
  SearchRaidSizeType SmcRaidSizeTypeMap (unit_code u ++ lit "]" ++ r) = (u, unit_code u).
Proof.
  intros Hu Hf. destruct u; [reflexivity| |done].
  cbn [SearchRaidSizeType SmcRaidSizeTypeMap]. rewrite decide_False by done.
  change (lit "TB") with (ch "T" :: lit "B").
  rewrite (Strstr_skip "T" _ (unit_code SIZE_GB_TYPE)), (Strstr_skip "T" _ (lit "]")), Strstr_none
    by (done || free_fixed).
  reflexivity.
Qed.

Section print.
Context (c : Command) (Hok : command_ok c).
Let pre := lit "{" ++ section "C" (specie_code (c_specie c)) ++ group_parts (c_groups c).

Lemma print_eq : print c = pre ++ size_part c ++ type_part c ++ jbod_part c ++ lit "}".
Proof. unfold print, pre. by rewrite <- !app_assoc. Qed.

Lemma free_pre a : a = "S"%char \/ a = "R"%char \/ a = "J"%char -> free a pre.
Proof using Hok.
  intros Ha. unfold pre. rewrite app_assoc. apply free_app.
  - apply free_specie; [done|tauto].
  - by apply free_groups.
Qed.

Lemma ParseCmdRaidSize_print :
  ParseCmdRaidSize (print c) = Done (match c_size c with
    | Some (ctx, u) => Some (CmdSize u (ctx ++ replicate (Z.to_nat (RaidSizeContext_len - zlen ctx)) 0))
    | None => None end).
Proof using Hok.
  unfold ParseCmdRaidSize. rewrite print_eq. change (lit "S:[") with (ch "S" :: lit ":[").
  pose proof (free_pre "S" ltac:(auto)) as Hp. pose proof (free_tail c Hok "S" ltac:(auto)) as Ht.
  pose proof (free_tail c Hok "T" ltac:(auto)) as HT.
  destruct Hok as (_ & _ & Hs & _). unfold size_part. destruct (c_size c) as [[ctx u]|].
  2: { cbn [app]. by rewrite Strstr_none by by apply free_app. }
  destruct Hs as ((Hd & Hall & Hpt & Hlen) & Hu).
  destruct (find_section "S" pre (ctx ++ unit_code u) (type_part c ++ jbod_part c ++ lit "}") Hp)
    as (p & -> & Ed). cbn [chr]. rewrite Ed, <- app_assoc.
  assert (Hh : is_digit (chr (ctx ++ unit_code u ++ lit "]" ++ type_part c ++ jbod_part c ++ lit "}")) = true)
    by (destruct ctx; [done|exact Hd]).
  rewrite Hh. cbn [negb]. rewrite size_digits_print;
    [|done|cbn; lia|change (zlen []) with 0; lia|by destruct u|by destruct u].
  rewrite bind_Done, SearchRaidSizeType_print by done.
  rewrite decide_False by done. rewrite drop_app_length. done.
Qed.

Lemma ParseCmdRaidType_print :
  ParseCmdRaidType (print c) (ch "0") (ch "9") SMC_RAID_CMD_GROUP_TYPE_END
  = CmdRaidType <$> c_type c.
Proof using Hok.
  unfold ParseCmdRaidType. rewrite print_eq, app_assoc. change (lit "R:[") with (ch "R" :: lit ":[").
  assert (Hp : free "R" (pre ++ size_part c)).
  { apply free_app; [apply free_pre; auto|apply free_size; auto]. }
  pose proof (free_jbod c "R" ltac:(auto)) as Hj.
  destruct Hok as (_ & _ & _ & Ht & _). unfold type_part. destruct (c_type c) as [n|].
  2: { cbn [app]. rewrite Strstr_none; [done|]. apply free_app; [done|]. apply free_app; [done|free_fixed]. }
  destruct (find_section "R" _ (dec n) (jbod_part c ++ lit "}") Hp) as (p & -> & Ed).
  cbn [chr]. rewrite Ed, number_dec by done. cbn. destruct Ht.
  rewrite (proj2 (Z.eqb_neq n 0xFFFF)) by lia. rewrite u8_small by (unfold is_u8; lia).
  by rewrite (proj2 (Z.eqb_neq n _)) by (unfold SMC_RAID_CMD_GROUP_TYPE_END; lia).
Qed.

Lemma ParseCmdRaidJbod_print : ParseCmdRaidJbod (print c) = CmdJbod <$> c_jbod c.
Proof using Hok.
  unfold ParseCmdRaidJbod. rewrite print_eq, !app_assoc. change (lit "J:[") with (ch "J" :: lit ":[").
  assert (Hp : free "J" ((pre ++ size_part c) ++ type_part c)).
  { apply free_app; [apply free_app; [apply free_pre; auto|apply free_size; auto]|].
    apply free_type; auto. }
  destruct Hok as (_ & _ & _ & _ & Hj). rewrite <- (app_assoc _ (jbod_part c)).
  unfold jbod_part. destruct (c_jbod c) as [j|].
  2: { cbn [app]. rewrite Strstr_none; [done|]. apply free_app; [done|free_fixed]. }
  destruct (find_section "J" _ (jbod_code j) (lit "}") Hp) as (p & -> & Ed).
  cbn [chr]. rewrite Ed. by destruct j.
Qed.
End print.

(** ** Clean-up of the command line *)
Definition nonblank (c : Z) : bool := negb ((c =? ch " ") || (c =? 9)).

(** Blanks could be deleted beforehand. *)
Lemma delete_useless_blanks s L B out :
  delete_useless s L B out = delete_useless (List.filter nonblank s) L B out.
Proof.
  revert L B out. induction s as [|c t IH]; intros L B out; [done|].
  cbn [List.filter]. unfold nonblank at 1. cbn [delete_useless].
  destruct ((c =? ch " ") || (c =? 9)) eqn:E; cbn [negb]; [apply IH|].
  cbn [delete_useless]. rewrite E.
  repeat match goal with |- context [if ?b then _ else _] => destruct b; try done; try apply IH end.
Qed.

Definition no_brace (s : list Z) : Prop := Forall (fun x => x <> ch "{" /\ x <> ch "}") s.

(** What is before the brace is dropped. *)
Lemma delete_useless_pre pre s B out :
  no_brace pre -> delete_useless (pre ++ s) false B out = delete_useless s false B out.
Proof.
  induction 1 as [|c t [H1 H2] _ IH]; [done|]. cbn [app delete_useless].
  rewrite (proj2 (Z.eqb_neq _ _) H1), (proj2 (Z.eqb_neq _ _) H2). by destruct (_ || _).
Qed.

Definition plain (s : list Z) : Prop :=
  Forall (fun x => nonblank x && negb (x =? ch "{") && negb (x =? ch "}")
    && negb (x =? ch "[") && negb (x =? ch "]") = true) s.

Lemma delete_useless_plain t s B out :
  plain t -> delete_useless (t ++ s) true B out = delete_useless s true B (out ++ t).
Proof.
  intros H. revert out. induction H as [|c t H _ IH]; intros out; [by rewrite app_nil_r|].
  cbn [app delete_useless]. unfold nonblank in H. rewrite !andb_true_iff, !negb_true_iff in H.
  destruct H as ((((-> & ->) & ->) & ->) & ->). by rewrite IH, <- app_assoc.
Qed.

Lemma delete_useless_section a t s out :
  plain [ch a] -> plain t ->
  delete_useless (section a t ++ s) true false out = delete_useless s true false (out ++ section a t).
Proof.
  intros Ha Ht. unfold section. rewrite <- !app_assoc, delete_useless_plain by done.
  change (lit ":[") with (lit ":" ++ lit "["). rewrite <- !app_assoc.
  rewrite delete_useless_plain by by repeat constructor.
  change (lit "[" ++ t ++ lit "]" ++ s) with (ch "[" :: (t ++ lit "]" ++ s)). cbn [delete_useless].
  change ((ch "[" =? ch " ") || (ch "[" =? 9)) with false. cbn [orb].
  change (ch "[" =? ch "{") with false. change (ch "[" =? ch "}") with false.
  rewrite Z.eqb_refl. rewrite delete_useless_plain by done.
  rewrite !app_assoc. reflexivity.
Qed.

Lemma plain_app s t : plain s -> plain t -> plain (s ++ t).
Proof. intros. by apply Forall_app. Qed.

Lemma plain_numeric t : numeric t -> plain t.
Proof.
  intros H. eapply Forall_impl; [exact H|]. intros x Hx. unfold is_digit, nonblank in *.
  change (ch "0") with 48 in *. change (ch "9") with 57 in *. change (ch ".") with 46 in *.
  change (ch ",") with 44 in *. change (ch " ") with 32. change (ch "{") with 123.
  change (ch "}") with 125. change (ch "[") with 91. change (ch "]") with 93. lia.
Qed.

Lemma delete_useless_groups gs s out :
  Forall (fun g => g <> [] /\ Forall small g) gs ->
  delete_useless (group_parts gs ++ s) true false out
  = delete_useless s true false (out ++ group_parts gs).
Proof.
  intros H. revert out. induction H as [|g gs [_ Hg] _ IH]; intros out.
  - cbn. by rewrite app_nil_r.
  - cbn [group_parts map concat]. rewrite <- app_assoc, delete_useless_section.
    + change (concat (map (fun g => section "G" (nums_text g)) gs)) with (group_parts gs).
      by rewrite IH, app_assoc.
    + by repeat constructor.
    + by apply plain_numeric, numeric_nums.
Qed.

(** An optional section. *)
Lemma delete_useless_opt {A} (o : option A) (f : A -> list Z) a s out :
  (forall x, o = Some x -> plain (f x)) -> plain [ch a] ->
  delete_useless (match o with Some x => section a (f x) | None => [] end ++ s) true false out
  = delete_useless s true false (out ++ match o with Some x => section a (f x) | None => [] end).
Proof.
  intros Hf Ha. destruct o as [x|]; [|by rewrite app_nil_r]. apply delete_useless_section; auto.
Qed.

Lemma size_part_eq c :
  size_part c = match c_size c with Some x => section "S" (x.1 ++ unit_code x.2) | None => [] end.
Proof. unfold size_part. by destruct (c_size c) as [[]|]. Qed.

Lemma delete_useless_print c post :
  command_ok c -> delete_useless (print c ++ post) false false [] = Some (print c).
Proof.
  intros (Hs & Hg & Hz & Ht & Hj). unfold print. rewrite <- !app_assoc.
  change (lit "{" ++ ?x) with (ch "{" :: x). cbn [delete_useless].
  change ((ch "{" =? ch " ") || (ch "{" =? 9)) with false. rewrite Z.eqb_refl.
  rewrite delete_useless_section; [|by repeat constructor|by destruct (c_specie c); repeat constructor].
  rewrite delete_useless_groups by done. rewrite size_part_eq. unfold type_part, jbod_part.
  rewrite !delete_useless_opt; [|..|by repeat constructor| |by repeat constructor| |by repeat constructor].
  - change (lit "}" ++ post) with (ch "}" :: post). cbn [delete_useless].
    change ((ch "}" =? ch " ") || (ch "}" =? 9)) with false.
    change (ch "}" =? ch "{") with false. rewrite Z.eqb_refl. cbn [negb].
    rewrite <- !app_assoc. reflexivity.
  - intros x E. destruct (c_jbod c) as [[]|]; simplify_eq; by repeat constructor.
  - intros x E. rewrite E in Ht. by apply plain_numeric, numeric_dec.
  - intros [ctx u] E. rewrite E in Hz. destruct Hz as [Hz _]. apply plain_app.
    + by apply plain_numeric, numeric_size.
    + destruct u; by repeat constructor.
Qed.

(** Noise: blanks and lower case inside the braces, any text around them. *)
Definition text_char (x : Z) : Prop := 0 < x < 256.

Lemma UnicodeStrToAsciiStr_text s : Forall text_char s -> UnicodeStrToAsciiStr s = s.
Proof.
  induction 1 as [|x t Hx _ IH]; [done|]. cbn. unfold text_char in Hx.
  rewrite u8_small by (unfold is_u8; lia). by rewrite (proj2 (Z.eqb_neq x 0)), IH by lia.
Qed.

Lemma no_brace_upper s : Forall text_char s -> no_brace s -> no_brace (UpperAsciiString s).
Proof.
  intros Ht H. induction H as [|x t Hx _ IH]; [constructor|].
  apply Forall_cons in Ht as [Hr Ht]. constructor; [|by apply IH].
  unfold upper, text_char in *. change (ch "a") with 97. change (ch "z") with 122.
  change (ch "{") with 123 in *. change (ch "}") with 125 in *.
  destruct (Z.leb_spec 97 x), (Z.leb_spec x 122); cbn; try done.
  rewrite u8_small by (unfold is_u8; lia). lia.
Qed.

Lemma no_brace_blanks s : no_brace s -> no_brace (List.filter nonblank s).
Proof.
  induction 1 as [|x t Hx _ IH]; cbn; [constructor|]. destruct (nonblank x); [by constructor|done].
Qed.

Lemma ReConstructTheCmdLine_print c before body after :
  command_ok c -> Forall text_char (before ++ body ++ after) -> no_brace before ->
  zlen (before ++ body ++ after) < SMC_ITEM_CMD_STRING_SIZE ->
  List.filter nonblank (UpperAsciiString body) = print c ->
  ReConstructTheCmdLine (before ++ body ++ after) = Some (print c).
Proof.
  intros Hok Ht Hb Hl E. unfold ReConstructTheCmdLine.
  rewrite (proj2 (Z.ltb_ge _ _)) by lia. rewrite UnicodeStrToAsciiStr_text by done.
  unfold DeleteUselessChar, UpperAsciiString in *. rewrite delete_useless_blanks, !map_app.
  rewrite !List.filter_app, E, delete_useless_pre; [by apply delete_useless_print|].
  apply Forall_app in Ht as [Ht _]. by apply no_brace_blanks, no_brace_upper.
Qed.

Lemma nums_length l : Forall small l -> (2 * length l <= S (length (nums_text l)))%nat.
Proof.
  induction 1 as [|n l Hn _ IH]; [cbn; lia|].
  assert (1 <= length (dec n))%nat.
  { pose proof (dec_head n [] Hn) as K. rewrite app_nil_r in K. destruct (dec n); cbn in *; [done|lia]. }
  destruct l as [|m l]; [cbn; lia|].
  change (nums_text (n :: m :: l)) with (dec n ++ lit "," ++ nums_text (m :: l)).
  rewrite !length_app. change (length (lit ",")) with 1%nat. cbn [length] in *. lia.
Qed.

Lemma groups_length gs :
  Forall (fun g => g <> [] /\ Forall small g) gs ->
  (length gs <= length (group_parts gs))%nat /\
  Forall (fun g => (length (nums_text g) <= length (group_parts gs))%nat) gs.
Proof.
  induction 1 as [|g gs _ _ [IH1 IH2]]; [by split; [|constructor]|].
  cbn [group_parts map concat]. unfold section at 1 3. rewrite !length_app.
  change (concat (map (fun g => section "G" (nums_text g)) gs)) with (group_parts gs).
  cbn [length]. split; [cbn; lia|]. constructor; [lia|].
  eapply Forall_impl; [exact IH2|]. intros x Hx. cbn in Hx |- *. lia.
Qed.

(** C36: (roundtrip) A command line that shows a command, with any blanks and
    letter case inside the braces and any text around them, parses to that
    command: its kind, its groups of drives, its size, its RAID type and its
    JBOD action, in this order, not enabled yet. *)
Theorem AnalysisAndParse_print c before body after :
  command_ok c -> Forall text_char (before ++ body ++ after) -> no_brace before ->
  zlen (before ++ body ++ after) < SMC_ITEM_CMD_STRING_SIZE ->
  List.filter nonblank (UpperAsciiString body) = print c ->
  AnalysisAndParseCmdString (before ++ body ++ after) = Done (Some (mkSet (sections c) false)).
Proof.
  intros Hok Ht Hb Hl E.
  pose proof (ReConstructTheCmdLine_print _ _ _ _ Hok Ht Hb Hl E) as Er.
  pose proof (ReConstructTheCmdLine_length _ _ Er) as Hlen.
  unfold AnalysisAndParseCmdString. rewrite Er, ParseCmdSpecie_print by done.
  assert (Hg : Forall (fun g => g <> [] /\ Forall small g) (c_groups c)) by apply Hok.
  destruct (groups_length _ Hg) as [Hn Hgl].
  assert (Hp : (length (group_parts (c_groups c)) < length (print c))%nat).
  { unfold print. rewrite !length_app. cbn. lia. }
  assert (Eg : ParseCmdGroup (S (length (print c))) (print c) []
    = Done (map (fun g => CmdGroup (map new_hdd g)) (c_groups c))).
  { unfold print at 2. rewrite app_assoc. apply (ParseCmdGroup_print _ _ _ _ []).
    - done.
    - apply Forall_forall. intros g Hin. rewrite Forall_forall in Hgl, Hg.
      specialize (Hgl g Hin). destruct (Hg g Hin) as [_ Hs]. pose proof (nums_length g Hs).
      unfold RaidHddNum_len, zlen in *. lia.
    - lia.
    - apply free_specie; auto.
    - done.
    - destruct (c_specie c); by repeat constructor.
    - by apply no_group_left. }
  rewrite Eg, bind_Done, ParseCmdRaidSize_print, bind_Done, ParseCmdRaidType_print,
    ParseCmdRaidJbod_print by done.
  unfold sections. by destruct (c_size c) as [[]|].
Qed.

(** A command with every section, and a line that shows it. *)
Definition demo_command : Command :=
  mkCmd SMC_CMD_SPECIE_BUILD [[0; 1]; [12; 254]] (Some (lit "1.5", SIZE_TB_TYPE)) (Some 50)
    (Some SMC_CMD_JBOD_MAKE).
Definition demo_body : list Z := lit "{c:[b] G:[0,1]G:[12, 254] S:[1.5 tb] r:[50] J:[M]}".

Lemma AnalysisAndParse_print_witness :
  AnalysisAndParseCmdString (lit "raid " ++ demo_body ++ lit " ;")
  = Done (Some (mkSet (sections demo_command) false)).
Proof.
  apply (AnalysisAndParse_print demo_command (lit "raid ") demo_body (lit " ;")).
  - unfold command_ok, size_ok, small. split_and!; try done; repeat constructor; done.
  - apply Forall_forall. intros x Hx. unfold text_char.
    repeat (apply elem_of_cons in Hx as [->|Hx]; [vm_compute; split; reflexivity|]).
    by apply not_elem_of_nil in Hx.
  - repeat constructor; done.
  - vm_compute. reflexivity.
  - vm_compute. reflexivity.
Defined.

(** The unit is looked for in the whole rest of the line. *)
Lemma unit_of_later_section :
  AnalysisAndParseCmdString (lit "{C:[B]S:[10GB]S:[1TB]}")
  = Done (Some (mkSet [CmdSpecie SMC_CMD_SPECIE_BUILD;
      CmdSize SIZE_TB_TYPE (lit "10" ++ replicate 78 0)] false)).
Proof. vm_compute. reflexivity. Qed.

(** ** Requirements on a command *)
Definition SMC_CMD_RAIDTYPE_R0 : Z := 0.
Definition SMC_CMD_RAIDTYPE_NOSPAN : Z := 9.

(** One group: every drive is marked in [BOOLEAN RaidHddNum[256]]. *)
Fixpoint examine_hdds (l : list SMC_RAID_CMD_GROUP_HDD) (RaidHddNum : list bool) (Status : EFI_STATUS)
    : Res (list bool * EFI_STATUS) :=
  match l with
  | [] => Done (RaidHddNum, Status)
  | h :: r =>
      used ← arr_get RaidHddNum (HdNum h);
      let Status := if used || bool_decide (HdHame h = None) then EFI_INVALID_PARAMETER else Status in
      RaidHddNum ← arr_set RaidHddNum (HdNum h) true;
      examine_hdds r RaidHddNum Status
  end.

(** The do-while loop over the sections, from a first group on. *)
Fixpoint examine_sections (l : list SMC_RAID_CMD_SECTION) (RaidTypeEnum : Z) (RaidHddNum : list bool)
    (Status : EFI_STATUS) : Res EFI_STATUS :=
  match l with
  | [] => Fault
  | s :: r =>
      '(RaidHddNum, Status) ← match s with
        | CmdGroup hdds => examine_hdds hdds RaidHddNum Status
        | _ => Done (RaidHddNum, Status)
        end;
      if negb (EFI_ERROR Status) && (SMC_CMD_RAIDTYPE_NOSPAN <? RaidTypeEnum)
         && negb (bool_decide (r = []))
      then examine_sections r RaidTypeEnum RaidHddNum Status
      else Done Status
  end.

Definition raid_type_of (l : list SMC_RAID_CMD_SECTION) : Z :=
  match SearchForCmdSectionBody l SMC_CMD_RAID_RAIDTYPE with
  | Some (CmdRaidType t) => t
  | _ => SMC_CMD_RAIDTYPE_R0
  end.

Definition ExamineForCmdGroup (l : list SMC_RAID_CMD_SECTION) (CmdSpecie : SMC_RAID_CMD_SPECIE_ENUM)
    : Res EFI_STATUS :=
  match SearchForCmdSectionBody l SMC_CMD_RAID_GROUP with
  | None => Done EFI_NOT_FOUND
  | Some _ =>
      if decide (CmdSpecie = SMC_CMD_SPECIE_BUILD) then
        examine_sections (SearchForCmdSection l SMC_CMD_RAID_GROUP) (raid_type_of l)
          (replicate 256 false) EFI_SUCCESS
      else Done EFI_SUCCESS
  end.

Definition has_jbod (l : list SMC_RAID_CMD_SECTION) : bool :=
  match SearchForCmdSectionBody l SMC_CMD_RAID_JBOD with Some _ => true | None => false end.

(** The body of the switch on the kind of the command; the [DELETE] case
    runs on into the [OTHER] case. *)
Definition examine_specie (l : list SMC_RAID_CMD_SECTION) (specie : SMC_RAID_CMD_SPECIE_ENUM)
    (Status : EFI_STATUS) : Res EFI_STATUS :=
  let other Status :=
    if has_jbod l then ExamineForCmdGroup l SMC_CMD_SPECIE_OTHER else Done Status in
  match specie with
  | SMC_CMD_SPECIE_BUILD => ExamineForCmdGroup l SMC_CMD_SPECIE_BUILD
  | SMC_CMD_SPECIE_DELETE => Status ← ExamineForCmdGroup l SMC_CMD_SPECIE_DELETE; other Status
  | SMC_CMD_SPECIE_OTHER => other Status
  | SMC_CMD_SPECIE_NON => Done Status
  end.

(** [Status] lives across the commands. *)
Fixpoint ExamineBasicForCmdRequire (sets : list SMC_RAID_CMD_SET) (Status : EFI_STATUS)
    : Res (list SMC_RAID_CMD_SET) :=
  match sets with
  | [] => Done []
  | s :: r =>
      if CmdEnable s then
        match SearchForCmdSectionBody (RaidCmdSection s) SMC_CMD_RAID_COMMAND with
        | Some (CmdSpecie specie) =>
            Status ← examine_specie (RaidCmdSection s) specie Status;
            rest ← ExamineBasicForCmdRequire r Status;
            Done (mkSet (RaidCmdSection s) (negb (EFI_ERROR Status)) :: rest)
        | _ =>
            rest ← ExamineBasicForCmdRequire r Status;
            Done (mkSet (RaidCmdSection s) false :: rest)
        end
      else rest ← ExamineBasicForCmdRequire r Status; Done (s :: rest)
  end.

(** *** What is required *)
Definition groups_of (l : list SMC_RAID_CMD_SECTION) : list (list SMC_RAID_CMD_GROUP_HDD) :=
  omap (fun s => match s with CmdGroup g => Some g | _ => None end) l.

(** The groups that matter: all of them for a spanned type, else the first. *)
Definition examined_groups (l : list SMC_RAID_CMD_SECTION) : list (list SMC_RAID_CMD_GROUP_HDD) :=
  if SMC_CMD_RAIDTYPE_NOSPAN <? raid_type_of l then groups_of l else take 1 (groups_of l).

(** Every drive is named (it exists) and no drive is given twice. *)
Definition drives_ok (hdds : list SMC_RAID_CMD_GROUP_HDD) : Prop :=
  NoDup (map HdNum hdds) /\ Forall (fun h => HdHame h <> None) hdds.

#[global] Instance drives_ok_dec hdds : Decision (drives_ok hdds).
Proof. unfold drives_ok. apply _. Defined.

Definition build_ok (l : list SMC_RAID_CMD_SECTION) : Prop :=
  groups_of l <> [] /\ drives_ok (concat (examined_groups l)).

#[global] Instance build_ok_dec l : Decision (build_ok l).
Proof. unfold build_ok. apply _. Defined.

Definition required (l : list SMC_RAID_CMD_SECTION) (specie : SMC_RAID_CMD_SPECIE_ENUM) : bool :=
  match specie with
  | SMC_CMD_SPECIE_BUILD => bool_decide (build_ok l)
  | _ => negb (bool_decide (groups_of l = []))
  end.

Definition enabled_after (s : SMC_RAID_CMD_SET) : bool :=
  CmdEnable s && match SearchForCmdSectionBody (RaidCmdSection s) SMC_CMD_RAID_COMMAND with
                 | Some (CmdSpecie specie) => required (RaidCmdSection s) specie
                 | _ => false
                 end.

Definition num_ok (h : SMC_RAID_CMD_GROUP_HDD) : Prop := 0 <= HdNum h < 256.

(** The marks stand for the drives seen. *)
Definition marked (m : list bool) (seen : list Z) : Prop :=
  zlen m = 256 /\ forall n, 0 <= n < 256 -> arr_get m n = Done (bool_decide (n ∈ seen)).

Lemma marked_set m seen n :
  marked m seen -> 0 <= n < 256 ->
  exists m', arr_set m n true = Done m' /\ marked m' (n :: seen).
Proof.
  intros [Hl Hm] Hn. exists (<[Z.to_nat n := true]> m). split.
  - apply arr_set_Done. split; [lia|done].
  - split; [unfold zlen in *; by rewrite length_insert|]. intros k Hk.
    destruct (decide (k = n)) as [->|Hne].
    + rewrite bool_decide_true by (by left). apply arr_get_lookup. split; [lia|].
      apply list_lookup_insert_eq. unfold zlen in Hl. lia.
    + transitivity (arr_get m k).
      * unfold arr_get. rewrite list_lookup_insert_ne by lia. done.
      * rewrite Hm by done. f_equal. apply bool_decide_ext. rewrite elem_of_cons. tauto.
Qed.

Lemma marked_start : marked (replicate 256 false) [].
Proof.
  split; [done|]. intros n Hn. rewrite bool_decide_false by (apply not_elem_of_nil).
  apply arr_get_lookup. split; [lia|]. apply lookup_replicate_2. lia.
Qed.

(** Named drives, none twice, none among those seen. *)
Fixpoint fresh_drives (seen : list Z) (l : list SMC_RAID_CMD_GROUP_HDD) : bool :=
  match l with
  | [] => true
  | h :: r => bool_decide (HdNum h ∉ seen) && negb (bool_decide (HdHame h = None))
              && fresh_drives (HdNum h :: seen) r
  end.

Definition seen_after (l : list SMC_RAID_CMD_GROUP_HDD) (seen : list Z) : list Z :=
  fold_left (fun s h => HdNum h :: s) l seen.

Lemma fresh_drives_app seen a b :
  fresh_drives seen (a ++ b) = fresh_drives seen a && fresh_drives (seen_after a seen) b.
Proof.
  revert seen. induction a as [|h a IH]; intros seen; [done|].
  cbn [app fresh_drives]. by rewrite IH, <- !andb_assoc.
Qed.

Lemma fresh_drives_spec seen l :
  fresh_drives seen l = true <-> drives_ok l /\ Forall (fun h => HdNum h ∉ seen) l.
Proof.
  revert seen. induction l as [|h l IH]; intros seen.
  - split; [|done]. intros _. split; [split; constructor|constructor].
  - cbn [fresh_drives]. rewrite !andb_true_iff, IH, negb_true_iff, bool_decide_eq_true, bool_decide_eq_false.
    unfold drives_ok. cbn [map]. rewrite NoDup_cons, !Forall_cons, !Forall_forall, list_elem_of_fmap.
    setoid_rewrite not_elem_of_cons. split.
    + intros [[H1 H2] [[H3 H4] H5]]. split_and!; try done.
      * intros (x & E & Hx). by destruct (H5 x Hx).
      * intros x Hx. by destruct (H5 x Hx).
    + intros [[[H1 H2] [H3 H4]] [H5 H6]]. split_and!; try done.
      intros x Hx. split; [|by apply H6]. intros E. apply H1. by exists x.
Qed.

Lemma fresh_from_none l : fresh_drives [] l = bool_decide (drives_ok l).
Proof.
  apply eq_true_iff_eq. rewrite fresh_drives_spec, bool_decide_eq_true, Forall_forall.
  split; [by intros [? _]|]. intros H. split; [done|]. intros x _. apply not_elem_of_nil.
Qed.

Lemma examine_hdds_spec l m seen Status :
  Forall num_ok l -> marked m seen ->
  exists m', examine_hdds l m Status
    = Done (m', if fresh_drives seen l then Status else EFI_INVALID_PARAMETER)
    /\ marked m' (seen_after l seen).
Proof.
  intros Hl. revert m seen Status. induction Hl as [|h l Hh _ IH]; intros m seen Status Hm; [eauto|].
  cbn [examine_hdds fresh_drives]. rewrite (proj2 Hm) by done. rewrite bind_Done.
  destruct (marked_set m seen (HdNum h) Hm Hh) as (m1 & -> & Hm1). rewrite bind_Done.
  destruct (IH m1 _ (if bool_decide (HdNum h ∈ seen) || bool_decide (HdHame h = None)
    then EFI_INVALID_PARAMETER else Status) Hm1) as (m2 & -> & Hm2).
  exists m2. split; [|done]. do 2 f_equal. rewrite bool_decide_not.
  by destruct (bool_decide (HdNum h ∈ seen)), (bool_decide (HdHame h = None)), (fresh_drives _ l).
Qed.

Definition sections_ok (l : list SMC_RAID_CMD_SECTION) : Prop := Forall (Forall num_ok) (groups_of l).

Lemma examine_sections_span l t m seen :
  l <> [] -> sections_ok l -> marked m seen -> SMC_CMD_RAIDTYPE_NOSPAN < t ->
  examine_sections l t m EFI_SUCCESS
  = Done (if fresh_drives seen (concat (groups_of l)) then EFI_SUCCESS else EFI_INVALID_PARAMETER).
Proof.
  intros Hl Hs Hm Ht. revert m seen Hm. induction l as [|s l IH]; intros m seen Hm; [done|].
  cbn [examine_sections].
  assert (Hstep : exists m' seen', match s with
      | CmdGroup hdds => examine_hdds hdds m EFI_SUCCESS | _ => Done (m, EFI_SUCCESS) end
      = Done (m', if fresh_drives seen (concat (groups_of [s])) then EFI_SUCCESS else EFI_INVALID_PARAMETER)
    /\ marked m' seen' /\ fresh_drives seen (concat (groups_of (s :: l)))
       = fresh_drives seen (concat (groups_of [s])) && fresh_drives seen' (concat (groups_of l))).
  { destruct s as [hdds| | | |]; try (exists m, seen; by split_and!).
    unfold sections_ok in Hs. cbn in Hs. apply Forall_cons in Hs as [Hh _].
    destruct (examine_hdds_spec hdds m seen EFI_SUCCESS Hh Hm) as (m' & -> & Hm').
    exists m', (seen_after hdds seen). cbn. rewrite app_nil_r. split_and!; [done..|].
    apply fresh_drives_app. }
  destruct Hstep as (m' & seen' & -> & Hm' & ->). rewrite bind_Done.
  rewrite (proj2 (Z.ltb_lt _ _) Ht).
  destruct (fresh_drives seen (concat (groups_of [s]))); cbn [EFI_ERROR negb andb]; [|done].
  case_bool_decide as E; cbn [negb]; [by subst|].
  apply IH; [done| |done]. unfold sections_ok in *.
  destruct s; cbn in Hs; [by apply Forall_cons in Hs as []|done..].
Qed.

Lemma search_group l :
  match SearchForCmdSection l SMC_CMD_RAID_GROUP with
  | [] => groups_of l = []
  | s :: r => exists g, s = CmdGroup g /\ groups_of l = groups_of (s :: r) /\ groups_of (s :: r) = g :: groups_of r
  end.
Proof.
  induction l as [|s l IH]; [done|]. cbn [SearchForCmdSection].
  destruct (decide _) as [E|E]; [destruct s; try done; by eexists|].
  destruct (SearchForCmdSection l SMC_CMD_RAID_GROUP) as [|s' r]; destruct s; done.
Qed.

Lemma examine_sections_first g r t :
  Forall num_ok g -> t <= SMC_CMD_RAIDTYPE_NOSPAN ->
  examine_sections (CmdGroup g :: r) t (replicate 256 false) EFI_SUCCESS
  = Done (if fresh_drives [] g then EFI_SUCCESS else EFI_INVALID_PARAMETER).
Proof.
  intros Hg Ht. cbn [examine_sections].
  destruct (examine_hdds_spec g _ _ EFI_SUCCESS Hg marked_start) as (m' & -> & _).
  rewrite bind_Done, (proj2 (Z.ltb_ge _ _) Ht), andb_false_r. done.
Qed.

Lemma ExamineForCmdGroup_spec l specie :
  sections_ok l ->
  exists st, ExamineForCmdGroup l specie = Done st /\ negb (EFI_ERROR st)
    = if decide (specie = SMC_CMD_SPECIE_BUILD) then bool_decide (build_ok l)
      else negb (bool_decide (groups_of l = [])).
Proof.
  intros Hs. unfold ExamineForCmdGroup, SearchForCmdSectionBody. pose proof (search_group l) as H.
  destruct (SearchForCmdSection l SMC_CMD_RAID_GROUP) as [|s r].
  { exists EFI_NOT_FOUND. split; [done|]. rewrite (bool_decide_true (groups_of l = [])) by done.
    rewrite (bool_decide_false (build_ok l)) by (intros [Hn _]; by rewrite H in Hn).
    by destruct (decide _). }
  destruct H as (g & -> & E1 & E2).
  rewrite (bool_decide_false (groups_of l = [])) by (rewrite E1, E2; done).
  destruct (decide (specie = SMC_CMD_SPECIE_BUILD)); [|by exists EFI_SUCCESS].
  assert (Hgs : sections_ok (CmdGroup g :: r)) by (unfold sections_ok in *; by rewrite <- E1).
  rewrite (bool_decide_ext (build_ok l) (drives_ok (concat (examined_groups l)))).
  2: { unfold build_ok. rewrite E1, E2. split; [by intros [_ ?]|by split]. }
  unfold examined_groups. rewrite E1.
  destruct (Z.ltb_spec SMC_CMD_RAIDTYPE_NOSPAN (raid_type_of l)) as [Ht|Ht].
  - rewrite (examine_sections_span (CmdGroup g :: r) _ _ []), fresh_from_none;
      [|done|done|apply marked_start|done].
    eexists. split; [done|]. by destruct (bool_decide _).
  - rewrite E2. cbn [take concat]. rewrite app_nil_r.
    unfold sections_ok in Hgs. rewrite E2 in Hgs. apply Forall_cons in Hgs as [Hg _].
    rewrite (examine_sections_first _ _ _ Hg Ht), fresh_from_none.
    eexists. split; [done|]. by destruct (bool_decide _).
Qed.

(** A command the examination of which does not depend on the one before: not
    of the kind [OTHER] without a JBOD section. *)
Definition independent (s : SMC_RAID_CMD_SET) : Prop :=
  match SearchForCmdSectionBody (RaidCmdSection s) SMC_CMD_RAID_COMMAND with
  | Some (CmdSpecie SMC_CMD_SPECIE_OTHER) => has_jbod (RaidCmdSection s) = true
  | Some (CmdSpecie SMC_CMD_SPECIE_NON) => False
  | _ => True
  end.

Lemma examine_specie_spec s specie Status :
  sections_ok (RaidCmdSection s) -> independent s ->
  SearchForCmdSectionBody (RaidCmdSection s) SMC_CMD_RAID_COMMAND = Some (CmdSpecie specie) ->
  exists st, examine_specie (RaidCmdSection s) specie Status = Done st
    /\ negb (EFI_ERROR st) = required (RaidCmdSection s) specie.
Proof.
  intros Hs Hi E. unfold independent in Hi. rewrite E in Hi. set (l := RaidCmdSection s) in *.
  destruct (ExamineForCmdGroup_spec l SMC_CMD_SPECIE_BUILD Hs) as (sb & Eb & Hb).
  destruct (ExamineForCmdGroup_spec l SMC_CMD_SPECIE_DELETE Hs) as (sd & Ed & Hd).
  destruct (ExamineForCmdGroup_spec l SMC_CMD_SPECIE_OTHER Hs) as (so & Eo & Ho).
  unfold examine_specie. destruct specie.
  - rewrite Eb. by exists sb.
  - rewrite Ed, bind_Done. destruct (has_jbod l); [rewrite Eo; by exists so|by exists sd].
  - rewrite Hi, Eo. by exists so.
  - done.
Qed.

(** The examination of the commands keeps a command enabled
    exactly when it meets its own requirements: a kind section; for a build
    a first group whose drives are all named and pairwise distinct (over all
    groups together when the RAID type is a spanned one); for any other kind
    at least one group. *)
Theorem ExamineBasicForCmdRequire_correct sets Status :
  Forall (fun s => sections_ok (RaidCmdSection s) /\ independent s) sets ->
  ExamineBasicForCmdRequire sets Status
  = Done (map (fun s => mkSet (RaidCmdSection s) (enabled_after s)) sets).
Proof.
  intros H. revert Status. induction H as [|s sets [Hs Hi] _ IH]; intros Status; [done|].
  cbn [ExamineBasicForCmdRequire map]. unfold enabled_after at 1.
  destruct (CmdEnable s) eqn:Een; cbn [andb].
  2: { rewrite IH, bind_Done. destruct s; cbn in *; by subst. }
  destruct (SearchForCmdSectionBody _ _) as [[]|] eqn:E; rewrite ?IH, ?bind_Done; try done.
  destruct (examine_specie_spec s RaidCmdSpecie Status Hs Hi E) as (st & -> & <-).
  by rewrite bind_Done, IH, bind_Done.
Qed.

(** The status of a command that failed is still there when the
    next one is examined: an [OTHER] command without a JBOD section stays
    enabled alone, and is disabled behind a build command without drives. *)
Theorem ExamineBasic_status_kept l :
  SearchForCmdSectionBody l SMC_CMD_RAID_COMMAND = Some (CmdSpecie SMC_CMD_SPECIE_OTHER) ->
  has_jbod l = false ->
  ExamineBasicForCmdRequire [mkSet l true] EFI_SUCCESS = Done [mkSet l true] /\
  ExamineBasicForCmdRequire [mkSet [CmdSpecie SMC_CMD_SPECIE_BUILD] true; mkSet l true] EFI_SUCCESS
  = Done [mkSet [CmdSpecie SMC_CMD_SPECIE_BUILD] false; mkSet l false].
Proof.
  intros E Hj. cbn [ExamineBasicForCmdRequire CmdEnable RaidCmdSection]. rewrite E.
  unfold examine_specie. rewrite Hj. split; reflexivity.
Qed.

(** *** Concrete commands *)
Definition drive (n : Z) : SMC_RAID_CMD_GROUP_HDD := mkHdd n 1 (Some (lit "HDD")).

Definition spanned : list SMC_RAID_CMD_SECTION :=
  [CmdSpecie SMC_CMD_SPECIE_BUILD; CmdGroup [drive 0; drive 1]; CmdGroup [drive 1; drive 2];
   CmdRaidType 10].

(** A drive shared by two groups is refused for a spanned type and not looked
    at for another one. *)
Lemma ExamineBasicForCmdRequire_correct_witness :
  ExamineBasicForCmdRequire
    [mkSet spanned true; mkSet (take 3 spanned) true; mkSet [CmdSpecie SMC_CMD_SPECIE_DELETE] true]
    EFI_SUCCESS
  = Done [mkSet spanned false; mkSet (take 3 spanned) true; mkSet [CmdSpecie SMC_CMD_SPECIE_DELETE] false].
Proof.
  etransitivity.
  - apply ExamineBasicForCmdRequire_correct. unfold sections_ok, independent, num_ok.
    repeat constructor; cbn; lia.
  - vm_compute. reflexivity.
Defined.

Lemma ExamineBasic_status_kept_witness :
  ExamineBasicForCmdRequire [mkSet [CmdSpecie SMC_CMD_SPECIE_OTHER] true] EFI_SUCCESS
  = Done [mkSet [CmdSpecie SMC_CMD_SPECIE_OTHER] true].
Proof.
  apply (ExamineBasic_status_kept [CmdSpecie SMC_CMD_SPECIE_OTHER]); reflexivity.
Defined.
