(* ===== verification/Packages.v ===== *)
(** * HII package lists

    The container the HII walkers share: a package list is a 20-byte header
    and packages, a package a 4-byte header and data, the data of a forms
    package a stream of opcodes. [for_each] is the C loop
    [for (p = first; p < end; p += p->Length)] all of them use; here it is
    related to a plain fold over the items of a stream. *)

From S2P Require Import Prelude Ifr.

(** ** The loop *)
Section for_each.
Context {S : Type} (next : list Z -> Z -> Res Z) (b : list Z) (stop : Z) (body : Z -> S -> Res S).

Definition each_step (x : Z * S) : Res (Z * S + S) :=
  let '(p, s) := x in
  if p <? stop then
    s ← body p s;
    l ← next b p;
    Done (inl (p + l, s))
  else Done (inr s).

(** Enough for every stream whose items are not empty. *)
Definition for_each (p : Z) (s : S) : Res S :=
  loop (Datatypes.S (length b)) each_step (p, s).

Context {A : Type} (enc_item : A -> list Z).

(** The body run on the items in turn. *)
Fixpoint runM (xs : list A) (p : Z) (s : S) : Res S :=
  match xs with
  | [] => Done s
  | x :: xs => s ← body p s; runM xs (p + zlen (enc_item x)) s
  end.

Lemma each_items xs : forall p s k,
  found b p (concat (map enc_item xs)) -> stop = p + zlen (concat (map enc_item xs)) ->
  (forall x q, x ∈ xs -> found b q (enc_item x) -> next b q = Done (zlen (enc_item x))) ->
  (forall x, x ∈ xs -> 0 < zlen (enc_item x)) ->
  loop (length xs + Datatypes.S k) each_step (p, s) = runM xs p s.
Proof.
  induction xs as [|x xs IH]; intros p s k Hf Hs Hn Hp; cbn [length Nat.add].
  - cbn [concat map] in Hs. rewrite zlen_nil, Z.add_0_r in Hs. rewrite loop_S. cbn [each_step runM].
    by replace (p <? stop) with false by lia.
  - cbn [concat map] in *. apply found_app in Hf as [H1 H2]. rewrite zlen_app in Hs.
    pose proof (Hp x ltac:(constructor)) as Hx. pose proof (zlen_nonneg (concat (map enc_item xs))).
    rewrite loop_S. cbn [each_step runM].
    replace (p <? stop) with true by lia. rewrite bind_assoc.
    destruct (body p s) as [s'| |]; [|done..]. rewrite !bind_Done.
    rewrite (Hn x) by (done || constructor). rewrite bind_Done.
    rewrite <- (IH (p + zlen (enc_item x)) s' k); [done|done|lia| |].
    + intros y q Hy. apply Hn. by constructor.
    + intros y Hy. apply Hp. by constructor.
Qed.

Lemma items_length xs :
  (forall x, x ∈ xs -> 0 < zlen (enc_item x)) -> Z.of_nat (length xs) <= zlen (concat (map enc_item xs)).
Proof using.
  induction xs as [|x xs IH]; intros Hp; [by vm_compute|]. cbn [concat map length].
  pose proof (Hp x ltac:(constructor)). rewrite zlen_app, Nat2Z.inj_succ.
  assert (Z.of_nat (length xs) <= zlen (concat (map enc_item xs))); [|lia].
  apply IH. intros y Hy. apply Hp. by constructor.
Qed.

Lemma for_each_items xs p s :
  found b p (concat (map enc_item xs)) -> stop = p + zlen (concat (map enc_item xs)) ->
  (forall x q, x ∈ xs -> found b q (enc_item x) -> next b q = Done (zlen (enc_item x))) ->
  (forall x, x ∈ xs -> 0 < zlen (enc_item x)) ->
  for_each p s = runM xs p s.
Proof.
  intros Hf Hs Hn Hp. pose proof (items_length xs Hp). pose proof (found_bound _ _ _ Hf).
  unfold for_each. replace (Datatypes.S (length b)) with (length xs + Datatypes.S (length b - length xs))%nat
    by (unfold zlen in *; lia).
  by apply each_items.
Qed.
End for_each.

(** A part of a stored string. *)
Lemma found_part b i bs j n :
  found b i bs -> 0 <= j -> 0 <= n -> j + n <= zlen bs ->
  rdn b (i + j) n = Done (take (Z.to_nat n) (drop (Z.to_nat j) bs)).
Proof.
  intros Hf Hj Hn Hl. rewrite <- (take_drop (Z.to_nat j) bs) in Hf.
  apply found_app in Hf as [_ Hf].
  rewrite <- (take_drop (Z.to_nat n) (drop (Z.to_nat j) bs)) in Hf.
  apply found_app in Hf as [Hf _].
  replace (i + zlen (take (Z.to_nat j) bs)) with (i + j) in Hf by zl.
  apply (found_rdn _ _ _ n Hf). zl.
Qed.

(** ** Opcode streams without their nesting *)
Record ifr_op := mkOp { o_code : Z; o_scope : bool; o_payload : list Z }.

Definition enc_op (o : ifr_op) : list Z := op_bytes (o_code o) (o_scope o) (o_payload o).
Definition enc_ops (l : list ifr_op) : list Z := concat (map enc_op l).

Lemma op_item b o q : fits (o_payload o) -> found b q (enc_op o) -> op_length b q = Done (zlen (enc_op o)).
Proof.
  intros Hf H. unfold enc_op in *. rewrite (found_op_length _ _ _ _ _ Hf H). by rewrite zlen_op_bytes.
Qed.

Lemma op_pos o : 0 < zlen (enc_op o).
Proof. unfold enc_op. zl. Qed.

(** ** Packages *)
Record hii_pkg := mkPkg { k_type : Z; k_data : list Z }.

Definition pkg_header (len type : Z) : list Z := le_bytes 4 (len + type * 2 ^ 24).
Definition enc_pkg (k : hii_pkg) : list Z := pkg_header (4 + zlen (k_data k)) (k_type k) ++ k_data k.
Definition enc_pkgs (l : list hii_pkg) : list Z := concat (map enc_pkg l).

Definition pkg_ok (k : hii_pkg) : Prop := is_u8 (k_type k) /\ 4 + zlen (k_data k) < 2 ^ 24.

Lemma zlen_pkg_header l t : zlen (pkg_header l t) = 4.
Proof. by unfold pkg_header; rewrite zlen_le_bytes. Qed.
#[export] Hint Rewrite zlen_pkg_header : zlen.

Lemma zlen_enc_pkg k : zlen (enc_pkg k) = 4 + zlen (k_data k).
Proof. unfold enc_pkg. zl. Qed.

Lemma pkg_word l t : 0 <= l < 2 ^ 24 -> is_u8 t -> le_val (pkg_header l t) = l + t * 2 ^ 24.
Proof. intros Hl Ht. apply le_val_4. unfold is_u32, is_u8 in *. lia. Qed.

Lemma pkg_item b k q :
  pkg_ok k -> found b q (enc_pkg k) ->
  pkg_length b q = Done (zlen (enc_pkg k)) /\ pkg_type b q = Done (k_type k).
Proof.
  intros [Ht Hl] [Hf _]%found_app. rewrite zlen_enc_pkg. pose proof (zlen_nonneg (k_data k)) as Hz.
  unfold pkg_length, pkg_type, rd32.
  rewrite (found_rdn _ _ _ 4 Hf), !bind_Done by (by rewrite zlen_pkg_header).
  rewrite pkg_word by (done || lia). split; f_equal.
  - change 0xFFFFFF with (Z.ones 24). rewrite Z.land_ones by lia. rewrite Z.mod_add by lia.
    apply Z.mod_small. lia.
  - rewrite Z.shiftr_div_pow2, Z.div_add, Z.div_small by lia. lia.
Qed.

Lemma pkg_pos k : 0 < zlen (enc_pkg k).
Proof. rewrite zlen_enc_pkg. zl. Qed.

(** ** Package lists *)
Record hii_list := mkList { l_guid : list Z; l_pkgs : list hii_pkg }.

Definition list_header (g : list Z) (len : Z) : list Z := g ++ le_bytes 4 len.
Definition enc_list (h : hii_list) : list Z :=
  list_header (l_guid h) (20 + zlen (enc_pkgs (l_pkgs h))) ++ enc_pkgs (l_pkgs h).
Definition enc_lists (l : list hii_list) : list Z := concat (map enc_list l).

Definition list_ok (h : hii_list) : Prop :=
  zlen (l_guid h) = 16 /\ 20 + zlen (enc_pkgs (l_pkgs h)) < 2 ^ 32 /\ Forall pkg_ok (l_pkgs h).

Lemma zlen_enc_list h : list_ok h -> zlen (enc_list h) = 20 + zlen (enc_pkgs (l_pkgs h)).
Proof. intros [Hg _]. unfold enc_list, list_header. zl. Qed.

Lemma list_item b h q :
  list_ok h -> found b q (enc_list h) ->
  pkg_list_length b q = Done (zlen (enc_list h)) /\ found b (q + PKG_LIST_HEADER) (enc_pkgs (l_pkgs h)).
Proof.
  intros Hok [Hf Hp]%found_app. pose proof Hok as (Hg & Hl & _).
  rewrite (zlen_enc_list h Hok). apply found_app in Hf as [_ Hf]. rewrite Hg in Hf.
  pose proof (zlen_nonneg (enc_pkgs (l_pkgs h))). split.
  - unfold pkg_list_length, rd32. rewrite (found_rdn _ _ _ 4 Hf), bind_Done by (by rewrite zlen_le_bytes).
    rewrite le_val_4; [done|unfold is_u32; lia].
  - replace (q + PKG_LIST_HEADER) with (q + zlen (list_header (l_guid h) (20 + zlen (enc_pkgs (l_pkgs h)))));
      [done|]. unfold list_header, PKG_LIST_HEADER. zl.
Qed.

Lemma list_pos h : list_ok h -> 0 < zlen (enc_list h).
Proof. intros H. rewrite (zlen_enc_list h H). zl. Qed.
