(* ===== verification/SetupTables.v ===== *)
(** * Tables of the setup-template generator

    Models the fixed tables of [SmcInBand/SmcInBandSetupTemplate.c]: the map
    from form-set GUIDs to HII handles, the list of forms, the flags of
    hidden references, and the policy's lists of root and hidden forms. Three
    of them share one shape, an array filled at its first free slot; the
    section [slots] proves what that shape provides. *)

From S2P Require Import Prelude Services.

(** ** Strings *)
Fixpoint until_nul (l : list Z) : list Z :=
  match l with [] => [] | b :: r => if b =? 0 then [] else b :: until_nul r end.

(** The C string left by [UnicodeStrToAsciiStr]. *)
Definition UnicodeStrToAsciiStr (s : list Z) : list Z := until_nul (map u8 s).

Definition str_eqb (a b : list Z) : bool := bool_decide (a = b).

(** [SmcGetString] into a buffer of [room] bytes that holds [StrBuff]; it
    copies up to 128 characters without looking at the room. *)
Definition SmcGetString (HiiLibGetString : Z -> Z -> EFI_STATUS * list Z)
    (HiiHandle StrId : Z) (room : Z) (StrBuff : list Z) : Res (EFI_STATUS * list Z) :=
  let '(Status, Data16) := HiiLibGetString HiiHandle StrId in
  if EFI_ERROR Status then Done (Status, StrBuff)
  else
    let s := UnicodeStrToAsciiStr Data16 in
    if zlen s + 1 <=? room then Done (Status, s) else Fault.

(** ** Arrays filled at the first free slot *)
Section slots.
Context {A : Type} (free : A -> bool) (blank : A).

Fixpoint put_first (x : A) (t : list A) : list A :=
  match t with
  | [] => []
  | y :: t => if free y then x :: t else y :: put_first x t
  end.

(** [t] has [N] slots, the entries [l] first and blanks after them. *)
Definition represents (N : nat) (t l : list A) : Prop :=
  Forall (fun x => free x = false) l /\ exists k, t = l ++ replicate k blank /\ length t = N.

Hypothesis blank_free : free blank = true.

Lemma represents_nil N : represents N (replicate N blank) [].
Proof using. split; [constructor|]. exists N. by rewrite length_replicate. Qed.

Lemma put_first_spec N t l x :
  free x = false -> represents N t l ->
  represents N (put_first x t) (if decide (length l < N)%nat then l ++ [x] else l).
Proof using blank_free.
  intros Hx [Hl (k & -> & Hk)]. rewrite length_app, length_replicate in Hk.
  assert (E : forall k, put_first x (l ++ replicate k blank) =
    match k with O => l | S k => l ++ x :: replicate k blank end).
  { intros j. clear Hk. induction Hl as [|y l Hy Hl IH]; cbn [app put_first].
    - destruct j; cbn; [done|]. by rewrite blank_free.
    - rewrite Hy, IH. by destruct j. }
  destruct k as [|k]; rewrite E.
  - rewrite decide_False by lia. split; [done|]. exists O. cbn [replicate]. rewrite app_nil_r.
    split; [done|]. lia.
  - rewrite decide_True by lia. split; [apply Forall_app; by repeat constructor|]. exists k.
    rewrite <- app_assoc. split; [done|]. rewrite length_app. cbn. rewrite length_replicate. lia.
Qed.

(** Entries added in order are kept while there is room. *)
Lemma put_all N t l xs :
  Forall (fun x => free x = false) xs -> represents N t l -> (length l <= N)%nat ->
  represents N (fold_left (fun t x => put_first x t) xs t) (take N (l ++ xs)).
Proof using blank_free.
  intros Hxs. revert t l. induction Hxs as [|x xs Hx Hxs IH]; intros t l Hr Hl; cbn [fold_left].
  - by rewrite app_nil_r, take_ge.
  - pose proof (put_first_spec N t l x Hx Hr) as Hp. destruct (decide (length l < N)%nat).
    + specialize (IH _ _ Hp). rewrite <- app_assoc in IH. apply IH. rewrite length_app. cbn. lia.
    + specialize (IH _ _ Hp Hl). rewrite take_app_le in IH |- * by lia. exact IH.
Qed.

Context (matches : A -> bool).

Lemma find_represents N t l :
  represents N t l -> (forall x, matches x = true -> free x = false) ->
  List.find matches t = List.find matches l.
Proof using blank_free.
  intros [_ (k & -> & _)] Hm. induction l as [|y l IH]; cbn [app List.find].
  - induction k; cbn [replicate List.find]; [done|].
    destruct (matches blank) eqn:E; [|done]. apply Hm in E. congruence.
  - by destruct (matches y).
Qed.
End slots.

(** ** Form-set GUIDs and HII handles *)
Definition MAX_GUID_HANDLE_COUNT : nat := 12.

(** A handle is a pointer; 0 is NULL. *)
Record SMC_GUID_HANDLE := mkGuidHandle { gh_Guid : guid; gh_Handle : Z }.

Definition NULL_GUID : guid := replicate 16 0.
Definition gh_blank : SMC_GUID_HANDLE := mkGuidHandle NULL_GUID 0.
Definition GuidHandleMap0 : list SMC_GUID_HANDLE := replicate MAX_GUID_HANDLE_COUNT gh_blank.

(** [Data1], [Data2] and [Data3] are the first eight bytes. *)
Definition gh_free (e : SMC_GUID_HANDLE) : bool := forallb (Z.eqb 0) (take 8 (gh_Guid e)).

Definition AddGuidHandle (Guid : guid) (Handle : Z) (t : list SMC_GUID_HANDLE) : list SMC_GUID_HANDLE :=
  put_first gh_free (mkGuidHandle Guid Handle) t.

Definition GetGuidHandle (Guid : guid) (t : list SMC_GUID_HANDLE) : Z :=
  match List.find (fun e => bool_decide (gh_Guid e = Guid)) t with
  | Some e => gh_Handle e
  | None => 0
  end.

(** ** Forms *)
Definition MAX_FORM_COUNT : nat := Z.to_nat 1024.

(** [OpPointer] is an offset into the HII data; [None] is NULL. *)
Record SMC_FORM_DATA := mkForm { fd_Guid : guid; fd_FormId : Z; fd_OpPointer : option Z }.

Definition fd_blank : SMC_FORM_DATA := mkForm NULL_GUID 0 None.
Definition FormData0 : list SMC_FORM_DATA := replicate MAX_FORM_COUNT fd_blank.

Definition fd_free (e : SMC_FORM_DATA) : bool :=
  (fd_FormId e =? 0) && bool_decide (fd_OpPointer e = None).

Definition AddForm (Guid : guid) (FormId OpPointer : Z) (t : list SMC_FORM_DATA) : list SMC_FORM_DATA :=
  put_first fd_free (mkForm Guid FormId (Some OpPointer)) t.

Definition GetForm (Guid : guid) (FormId : Z) (t : list SMC_FORM_DATA) : option Z :=
  match List.find (fun e => bool_decide (fd_Guid e = Guid) && (fd_FormId e =? FormId)) t with
  | Some e => fd_OpPointer e
  | None => None
  end.

(** ** Flags of references *)
Definition MAX_REF_COUNT : nat := Z.to_nat 2048.

Record SMC_OP_FLAG := mkOpFlag { of_Pointer : option Z; of_Flag : Z }.

Definition of_blank : SMC_OP_FLAG := mkOpFlag None 0.
Definition OpFlag0 : list SMC_OP_FLAG := replicate MAX_REF_COUNT of_blank.
Definition of_free (e : SMC_OP_FLAG) : bool := bool_decide (of_Pointer e = None).

Definition AddOpFlag (OpPointer Flag : Z) (t : list SMC_OP_FLAG) : list SMC_OP_FLAG :=
  put_first of_free (mkOpFlag (Some OpPointer) Flag) t.

Definition GetOpFlag (OpPointer : Z) (t : list SMC_OP_FLAG) : Z :=
  match List.find (fun e => bool_decide (of_Pointer e = Some OpPointer)) t with
  | Some e => of_Flag e
  | None => 0
  end.

(** ** The policy's lists *)
Record SMC_ROOT_FORM_DATA := mkRootForm {
  rf_Guid : guid; rf_FormId : Z; rf_FormTitle : list Z; rf_OpPointer : option Z }.

(** The index of the first root form with this GUID and title. *)
Fixpoint GetRootForm (Guid : guid) (FormTitle : list Z) (RootForm : list SMC_ROOT_FORM_DATA) : option nat :=
  match RootForm with
  | [] => None
  | r :: rs =>
      if bool_decide (rf_Guid r = Guid) && str_eqb (rf_FormTitle r) FormTitle then Some O
      else S <$> GetRootForm Guid FormTitle rs
  end.

Fixpoint IsHideFormForSum (Guid : guid) (FormTitle : list Z) (TargetFormId : Z)
    (HideFormForSum : list SMC_ROOT_FORM_DATA) : bool :=
  match HideFormForSum with
  | [] => false
  | r :: rs =>
      if bool_decide (rf_Guid r = Guid) && str_eqb (rf_FormTitle r) FormTitle then
        if rf_FormId r =? 0 then true
        else if rf_FormId r =? TargetFormId then true
        else IsHideFormForSum Guid FormTitle TargetFormId rs
      else IsHideFormForSum Guid FormTitle TargetFormId rs
  end.

(** ** What the tables provide *)

(** form sets registered in turn are looked up by GUID: the
    first of them with that GUID among the first twelve gives its handle, and
    an unknown GUID gives NULL; later ones are dropped. *)
Theorem GuidHandleMap_lookup es g :
  Forall (fun e => gh_free e = false) es -> forallb (Z.eqb 0) (take 8 g) = false ->
  GetGuidHandle g
    (fold_left (fun t e => AddGuidHandle (gh_Guid e) (gh_Handle e) t) es GuidHandleMap0) =
  match List.find (fun e => bool_decide (gh_Guid e = g)) (take 12 es) with
  | Some e => gh_Handle e
  | None => 0
  end.
Proof.
  intros Hes Hg. unfold GetGuidHandle, AddGuidHandle.
  pose proof (put_all gh_free gh_blank eq_refl MAX_GUID_HANDLE_COUNT _ [] es Hes
    (represents_nil gh_free gh_blank MAX_GUID_HANDLE_COUNT)) as Hr. cbn [length app] in Hr.
  assert (Hext : forall t, fold_left (fun t e => put_first gh_free (mkGuidHandle (gh_Guid e) (gh_Handle e)) t) es t =
    fold_left (fun t x => put_first gh_free x t) es t).
  { clear. induction es as [|[a h] es IH]; intros t; cbn [fold_left]; [done|]. apply IH. }
  rewrite Hext. rewrite (find_represents gh_free gh_blank eq_refl _ _ _ _ (Hr ltac:(unfold MAX_GUID_HANDLE_COUNT; lia))).
  - reflexivity.
  - intros x E%bool_decide_eq_true. unfold gh_free. by rewrite E.
Qed.

Lemma GuidHandleMap_lookup_witness :
  GetGuidHandle (replicate 16 2)
    (AddGuidHandle (replicate 16 2) 0x50 (AddGuidHandle (replicate 16 1) 0x40 GuidHandleMap0)) = 0x50.
Proof.
  exact (GuidHandleMap_lookup
    [mkGuidHandle (replicate 16 1) 0x40; mkGuidHandle (replicate 16 2) 0x50] (replicate 16 2)
    ltac:(by repeat constructor) eq_refl).
Defined.

(** Marked references: those among the first 2048 marks. *)
Lemma GetOpFlag_marks ps p :
  GetOpFlag p (fold_left (fun t q => AddOpFlag q 1 t) ps OpFlag0) =
  b2z (bool_decide (p ∈ take MAX_REF_COUNT ps)).
Proof.
  unfold GetOpFlag, AddOpFlag.
  set (mark := fun q => mkOpFlag (Some q) 1).
  assert (Hext : forall t, fold_left (fun t q => put_first of_free (mark q) t) ps t =
    fold_left (fun t x => put_first of_free x t) (map mark ps) t).
  { clear. induction ps as [|q ps IH]; intros t; cbn [fold_left map]; [done|]. apply IH. }
  fold mark. change (fun (t : list SMC_OP_FLAG) (q : Z) => put_first of_free {| of_Pointer := Some q; of_Flag := 1 |} t)
    with (fun t q => put_first of_free (mark q) t). rewrite Hext.
  assert (Hr := put_all of_free of_blank eq_refl MAX_REF_COUNT OpFlag0 [] (map mark ps)
    ltac:(apply Forall_map, Forall_true; done) (represents_nil of_free of_blank MAX_REF_COUNT)
    ltac:(apply Nat.le_0_l)).
  cbn [app] in Hr. rewrite (find_represents of_free of_blank eq_refl _ _ _ _ Hr).
  2:{ intros x E%bool_decide_eq_true. unfold of_free. by rewrite E. }
  rewrite <- fmap_take. induction (take MAX_REF_COUNT ps) as [|q l IH]; cbn; [done|].
  unfold mark at 1. cbn [of_Pointer]. destruct (decide (q = p)) as [->|Hne].
  - rewrite bool_decide_true by done. rewrite bool_decide_true by constructor. done.
  - rewrite bool_decide_false by congruence. rewrite IH.
    f_equal. apply bool_decide_ext. rewrite elem_of_cons. naive_solver.
Qed.
