(* ===== verification/FormWalk.v ===== *)
(** * The marking pass over the forms

    Models [IsHidden] and [ParseOpNode] of
    [SmcInBand/SmcInBandSetupTemplate.c]: a recursive walk over the opcodes of
    a form set that evaluates the suppress-if and disable-if conditions on the
    way and flags every form reference inside a true one. The C code keeps the
    conditions of the open scopes in an array of 64 levels; the theorem shows
    that this is the nesting of the stream. *)

From S2P Require Import Prelude ExpStack Ifr Expression SetupTables.

Definition MAX_LEVEL_SIZE : Z := 64.

(** The loop runs over [ii < 64] and [ii < CurrentLevel]. *)
Definition IsHidden (LevelFlag : list Z) (CurrentLevel : Z) : bool :=
  existsb (fun v => negb (v =? 0)) (take (Z.to_nat (Z.min MAX_LEVEL_SIZE CurrentLevel)) LevelFlag).

(** [*Level], [LevelFlag], the flag table and the expression stack. *)
Record walk := mkWalk { Level : Z; LevelFlag : list Z; OpFlag : list SMC_OP_FLAG; w_stack : SmcStack }.

Definition is_ref (c l : Z) : bool :=
  (c =? EFI_IFR_REF_OP) && ((l =? sizeof_EFI_IFR_REF) || (l =? sizeof_EFI_IFR_REF3)).
Definition is_cond (c : Z) : bool := (c =? EFI_IFR_SUPPRESS_IF_OP) || (c =? EFI_IFR_DISABLE_IF_OP).

(** What one opcode that is not [END] does before its scope is entered. *)
Definition visit_op (b : list Z) (pOp c : Z) (s : walk) : Res walk :=
  l ← op_length b pOp;
  if c =? EFI_IFR_FORM_OP then Done s
  else if is_ref c l then
    if IsHidden (LevelFlag s) (Level s)
    then Done (mkWalk (Level s) (LevelFlag s) (AddOpFlag pOp 1 (OpFlag s)) (w_stack s))
    else Done s
  else if is_cond c then
    '(v, st) ← CalExpValue b (pOp + l) (w_stack s);
    flags ← arr_set (LevelFlag s) (Level s) (u8 v);
    Done (mkWalk (Level s) flags (OpFlag s) st)
  else Done s.

(** The [END] branch. *)
Definition leave_scope (s : walk) : Res walk :=
  let Lv := if 0 <? Level s then Level s - 1 else 0 in
  v ← arr_get (LevelFlag s) Lv;
  flags ← (if negb (v =? 0) then arr_set (LevelFlag s) Lv 0 else Done (LevelFlag s));
  Done (mkWalk Lv flags (OpFlag s) (w_stack s)).

Definition enter_scope (s : walk) : walk :=
  mkWalk (u32 (Level s + 1)) (LevelFlag s) (OpFlag s) (w_stack s).

(** One unit of fuel per opcode. *)
Fixpoint ParseOpNode (fuel : nat) (b : list Z) (pOp : Z) (s : walk) : Res (Z * walk) :=
  match fuel with
  | O => NoFuel
  | S fuel =>
      c ← op_code b pOp;
      if c =? EFI_IFR_END_OP then s ← leave_scope s; Done (pOp, s)
      else
        s ← visit_op b pOp c s;
        sc ← op_scope b pOp;
        l ← op_length b pOp;
        '(pOp, s) ← (if sc =? 1 then ParseOpNode fuel b (pOp + l) (enter_scope s) else Done (pOp, s));
        l ← op_length b pOp;
        ParseOpNode fuel b (pOp + l) s
  end.

(** ** The nesting the walk follows *)

(** Conditions open a scope. *)
Fixpoint conds_scoped (f : forest) : Prop :=
  match f with
  | FNil => True
  | FLeaf c _ rest => is_cond c = false /\ conds_scoped rest
  | FScope _ _ kids rest => conds_scoped kids /\ conds_scoped rest
  end.

Fixpoint depth (f : forest) : Z :=
  match f with
  | FNil => 0
  | FLeaf _ _ rest => depth rest
  | FScope _ _ kids rest => Z.max (1 + depth kids) (depth rest)
  end.

Section spec.
Context (b : list Z).

Definition ref_here (c : Z) (pl : list Z) (p : Z) (hid : bool) : list Z :=
  if is_ref c (2 + zlen pl) && hid then [p] else [].

(** References of the forest at [p] that lie inside a true condition, in
    stream order; [hid] says that the whole forest does. *)
Fixpoint hidden_refs (f : forest) (p : Z) (hid : bool) (st : SmcStack) : Res (list Z * SmcStack) :=
  match f with
  | FNil => Done ([], st)
  | FLeaf c pl rest =>
      '(l, st) ← hidden_refs rest (p + 2 + zlen pl) hid st;
      Done (ref_here c pl p hid ++ l, st)
  | FScope c pl kids rest =>
      let q := p + 2 + zlen pl in
      '(v, st) ← (if is_cond c then CalExpValue b q st else Done (0, st));
      '(l1, st) ← hidden_refs kids q (hid || negb (u8 v =? 0)) st;
      '(l2, st) ← hidden_refs rest (q + zlen (enc kids) + 2) hid st;
      Done (ref_here c pl p hid ++ l1 ++ l2, st)
  end.
End spec.

(** ** Level flags *)

(** The flags of the open scopes, and none above them. *)
Definition flags_at (flags : list Z) (Lv : Z) (open : list Z) : Prop :=
  zlen open = Lv /\ flags = open ++ replicate (Z.to_nat (MAX_LEVEL_SIZE - Lv)) 0.

Lemma IsHidden_open flags Lv open :
  flags_at flags Lv open -> Lv <= 64 -> IsHidden flags Lv = existsb (fun v => negb (v =? 0)) open.
Proof.
  intros [Hl ->] Hb. unfold IsHidden, MAX_LEVEL_SIZE. rewrite Z.min_r by lia.
  by rewrite take_app_zlen.
Qed.

Lemma flags_open flags Lv open v :
  flags_at flags Lv open -> Lv < 64 ->
  exists flags', arr_set flags Lv v = Done flags' /\ flags_at flags' (Lv + 1) (open ++ [v]).
Proof.
  intros [Hl ->] Hb. unfold MAX_LEVEL_SIZE.
  replace (Z.to_nat (64 - Lv)) with (S (Z.to_nat (64 - (Lv + 1)))) by zl. cbn [replicate].
  eexists. split.
  - apply arr_set_Done. split; [zl|reflexivity].
  - split; [zl|]. rewrite <- app_assoc. cbn [app]. unfold MAX_LEVEL_SIZE.
    replace (Z.to_nat Lv) with (length open + 0)%nat by (unfold zlen in Hl; lia).
    by rewrite insert_app_r.
Qed.

Lemma flags_enter flags Lv open :
  flags_at flags Lv open -> Lv < 64 -> flags_at flags (Lv + 1) (open ++ [0]).
Proof.
  intros [Hl ->] Hb. split; [zl|]. unfold MAX_LEVEL_SIZE.
  replace (Z.to_nat (64 - Lv)) with (S (Z.to_nat (64 - (Lv + 1)))) by zl.
  by rewrite <- app_assoc.
Qed.

Lemma leave_scope_spec Lv open v flags tab st :
  flags_at flags (Lv + 1) (open ++ [v]) -> 0 <= Lv < 64 ->
  exists flags', leave_scope (mkWalk (Lv + 1) flags tab st) = Done (mkWalk Lv flags' tab st) /\
    flags_at flags' Lv open.
Proof.
  intros [Hl ->] Hb. rewrite zlen_app, zlen_cons, zlen_nil in Hl.
  unfold leave_scope. cbn [Level LevelFlag OpFlag w_stack].
  replace (0 <? Lv + 1) with true by lia. replace (Lv + 1 - 1) with Lv by lia.
  set (tl := replicate _ 0). rewrite <- app_assoc. cbn [app].
  assert (Htl : replicate (Z.to_nat (MAX_LEVEL_SIZE - Lv)) 0 = 0 :: tl).
  { subst tl. unfold MAX_LEVEL_SIZE.
    by replace (Z.to_nat (64 - Lv)) with (S (Z.to_nat (64 - (Lv + 1)))) by lia. }
  assert (Hget : arr_get (open ++ v :: tl) Lv = Done v).
  { apply arr_get_lookup. split; [lia|]. replace (Z.to_nat Lv) with (length open) by (unfold zlen in Hl; lia).
    by rewrite list_lookup_middle. }
  rewrite Hget, bind_Done. destruct (Z.eqb_spec v 0) as [->|Hv]; cbn [negb].
  - rewrite bind_Done. eexists. split; [done|]. split; [lia|]. by rewrite Htl.
  - assert (Hb' : 0 <= Lv < zlen (open ++ v :: tl)) by (pose proof (zlen_nonneg tl); zl).
    rewrite (proj2 (arr_set_Done (open ++ v :: tl) Lv 0 _) (conj Hb' eq_refl)), bind_Done.
    eexists. split; [done|]. split; [lia|]. rewrite Htl.
    replace (Z.to_nat Lv) with (length open + 0)%nat by (unfold zlen in Hl; lia). by rewrite insert_app_r.
Qed.

(** ** The walk *)
Lemma ParseOpNode_mono n m b p s r :
  ParseOpNode n b p s = Done r -> (n <= m)%nat -> ParseOpNode m b p s = Done r.
Proof.
  revert m p s r. induction n as [|n IH]; intros m p s r; [done|].
  destruct m as [|m]; [lia|]. cbn [ParseOpNode]. intros (c & Hc & H)%bind_inv Hm.
  rewrite Hc, bind_Done. destruct (c =? EFI_IFR_END_OP); [done|].
  apply bind_inv in H as (s1 & E1 & H). rewrite E1, bind_Done.
  apply bind_inv in H as (sc & E2 & H). rewrite E2, bind_Done.
  apply bind_inv in H as (l & E3 & H). rewrite E3, bind_Done.
  apply bind_inv in H as ([q s2] & E4 & H).
  assert (E4' : (if sc =? 1 then ParseOpNode m b (p + l) (enter_scope s1) else Done (p, s1)) = Done (q, s2)).
  { destruct (sc =? 1); [|done]. apply IH; [done|lia]. }
  rewrite E4', bind_Done. apply bind_inv in H as (l2 & E5 & H). rewrite E5, bind_Done.
  apply IH; [done|lia].
Qed.

Section walk.
Context (b : list Z).

Definition marks (l : list Z) (tab : list SMC_OP_FLAG) : list SMC_OP_FLAG :=
  fold_left (fun t q => AddOpFlag q 1 t) l tab.

Lemma visit_plain c pl sc p Lv flags open tab st :
  found b p (op_bytes c sc pl) -> fits pl -> is_cond c = false -> flags_at flags Lv open -> Lv <= 64 ->
  visit_op b p c (mkWalk Lv flags tab st) =
  Done (mkWalk Lv flags (marks (ref_here c pl p (existsb (fun v => negb (v =? 0)) open)) tab) st).
Proof.
  intros Hf Hfit Hc Hfl Hlv. unfold visit_op.
  rewrite (found_op_length b p c sc pl Hfit Hf), bind_Done. rewrite Hc. cbn [LevelFlag Level OpFlag w_stack].
  rewrite (IsHidden_open _ _ _ Hfl Hlv). unfold ref_here.
  destruct (Z.eqb_spec c EFI_IFR_FORM_OP) as [->|Hform]; [done|].
  destruct (is_ref c (2 + zlen pl)); [|done]. cbn [andb].
  by destruct (existsb _ open).
Qed.

(** Entering the scope of [c]: the flag of its level is the condition. *)
Lemma visit_scope c pl p Lv flags open tab st v st' :
  found b p (op_bytes c true pl) -> fits pl -> flags_at flags Lv open -> 0 <= Lv < 64 ->
  (if is_cond c then CalExpValue b (p + 2 + zlen pl) st else Done (0, st)) = Done (v, st') ->
  exists flags',
    visit_op b p c (mkWalk Lv flags tab st) =
      Done (mkWalk Lv flags' (marks (ref_here c pl p (existsb (fun v => negb (v =? 0)) open)) tab) st') /\
    flags_at flags' (Lv + 1) (open ++ [u8 v]).
Proof.
  intros Hf Hfit Hfl Hlv Hv. destruct (is_cond c) eqn:Hc.
  - destruct (flags_open _ _ _ (u8 v) Hfl) as (flags' & E & Hfl'); [lia|].
    exists flags'. split; [|done]. unfold visit_op.
    rewrite (found_op_length b p c true pl Hfit Hf), bind_Done, Hc.
    assert (Hr : is_ref c (2 + zlen pl) = false /\ (c =? EFI_IFR_FORM_OP) = false).
    { apply orb_prop in Hc as [->%Z.eqb_eq| ->%Z.eqb_eq]; by split. }
    destruct Hr as [Hr ->]. unfold ref_here. rewrite Hr. cbn [LevelFlag Level OpFlag w_stack andb].
    rewrite Z.add_assoc, Hv, bind_Done, E, bind_Done. done.
  - injection Hv as <- <-. exists flags. split; [by eapply visit_plain; eauto; lia|].
    by apply flags_enter; [|lia].
Qed.

(** One opcode without a scope. *)
Lemma ParseOpNode_leaf n c pl p Lv flags open tab st :
  found b p (op_bytes c false pl) -> fits pl -> c <> EFI_IFR_END_OP -> is_cond c = false ->
  flags_at flags Lv open -> Lv <= 64 ->
  ParseOpNode (S n) b p (mkWalk Lv flags tab st) =
  ParseOpNode n b (p + 2 + zlen pl)
    (mkWalk Lv flags (marks (ref_here c pl p (existsb (fun v => negb (v =? 0)) open)) tab) st).
Proof.
  intros Hf Hfit Hne Hc Hfl Hlv. cbn [ParseOpNode].
  rewrite (found_op_code _ _ _ _ _ Hf), bind_Done. replace (c =? EFI_IFR_END_OP) with false by lia.
  rewrite (visit_plain c pl false p Lv flags open), bind_Done by (done || lia).
  rewrite (found_op_scope _ _ _ _ _ Hfit Hf), bind_Done.
  rewrite (found_op_length _ _ _ _ _ Hfit Hf), bind_Done. cbn [b2z Z.eqb].
  by rewrite bind_Done, (found_op_length _ _ _ _ _ Hfit Hf), bind_Done, Z.add_assoc.
Qed.

(** An opcode with a scope: its content one level down, then what follows the
    opcode the walk of the content stopped at. *)
Lemma ParseOpNode_scope n c pl p Lv flags open tab st v st1 :
  found b p (op_bytes c true pl) -> fits pl -> c <> EFI_IFR_END_OP -> flags_at flags Lv open ->
  0 <= Lv < 64 ->
  (if is_cond c then CalExpValue b (p + 2 + zlen pl) st else Done (0, st)) = Done (v, st1) ->
  exists flags', flags_at flags' (Lv + 1) (open ++ [u8 v]) /\
    ParseOpNode (S n) b p (mkWalk Lv flags tab st) =
    ('(q, s) ← ParseOpNode n b (p + (2 + zlen pl)) (mkWalk (Lv + 1) flags'
        (marks (ref_here c pl p (existsb (fun v => negb (v =? 0)) open)) tab) st1);
     l ← op_length b q; ParseOpNode n b (q + l) s).
Proof.
  intros Hf Hfit Hne Hfl Hlv Hv.
  destruct (visit_scope c pl p Lv flags open tab st v st1) as (flags' & Ev & Hfl'); [done..|].
  exists flags'. split; [done|]. cbn [ParseOpNode].
  rewrite (found_op_code _ _ _ _ _ Hf), bind_Done. replace (c =? EFI_IFR_END_OP) with false by lia.
  rewrite Ev, bind_Done, (found_op_scope _ _ _ _ _ Hfit Hf), bind_Done.
  rewrite (found_op_length _ _ _ _ _ Hfit Hf), bind_Done. cbn [b2z Z.eqb Pos.eqb].
  unfold enter_scope. cbn [Level LevelFlag OpFlag w_stack].
  by rewrite (u32_small (Lv + 1)) by (unfold is_u32; lia).
Qed.

Lemma depth_nonneg f : 0 <= depth f.
Proof. induction f; cbn [depth]; lia. Qed.

Lemma walk_forest f : forall p Lv open flags tab st l st' m r,
  found b p (enc f) -> forest_ok f -> conds_scoped f -> flags_at flags Lv open ->
  0 <= Lv -> Lv + depth f <= 64 ->
  hidden_refs b f p (existsb (fun v => negb (v =? 0)) open) st = Done (l, st') ->
  ParseOpNode m b (p + zlen (enc f)) (mkWalk Lv flags (marks l tab) st') = Done r ->
  ParseOpNode (ops f + m) b p (mkWalk Lv flags tab st) = Done r.
Proof.
  induction f as [|c pl f IH|c pl kids IHk rest IHr];
    intros p Lv open flags tab st l st' m r Hfd Hok Hcs Hfl Hl0 Hl64 Hh Hr.
  - injection Hh as <- <-. cbn [enc] in Hr. rewrite zlen_nil, Z.add_0_r in Hr. exact Hr.
  - cbn [enc] in Hfd, Hr. apply found_app in Hfd as [H1 H2]. rewrite zlen_op_bytes in H2.
    destruct Hok as (Hne & Hfit & Hok), Hcs as [Hc Hcs].
    cbn [hidden_refs] in Hh. apply bind_inv in Hh as ([l1 st1] & E1 & [= <- <-]).
    pose proof (depth_nonneg f). cbn [depth] in Hl64. cbn [ops Nat.add].
    rewrite (ParseOpNode_leaf _ c pl p Lv flags open) by (done || lia).
    rewrite Z.add_assoc in H2. eapply IH; try done.
    + unfold marks in *. rewrite fold_left_app in Hr.
      rewrite zlen_app, zlen_op_bytes, !Z.add_assoc in Hr. exact Hr.
  - cbn [enc] in Hfd, Hr. apply found_app in Hfd as [H1 H2]. rewrite zlen_op_bytes in H2.
    apply found_app in H2 as [H2 H3]. apply found_app in H3 as [H3 H4]. rewrite zlen_END_bytes in H4.
    destruct Hok as (Hne & Hfit & Hok & Hok'), Hcs as [Hcs Hcs'].
    cbn [hidden_refs] in Hh. apply bind_inv in Hh as ([v st1] & E1 & Hh).
    apply bind_inv in Hh as ([l1 st2] & E2 & Hh). apply bind_inv in Hh as ([l2 st3] & E3 & [= <- <-]).
    cbn [depth] in Hl64. pose proof (depth_nonneg kids).
    set (n := (1 + ops kids + ops rest + m)%nat).
    replace (ops (FScope c pl kids rest) + m)%nat with (S n) by (unfold n; cbn [ops]; lia).
    destruct (ParseOpNode_scope n c pl p Lv flags open tab st v st1) as (flags' & Hfl' & ->);
      [done..|lia|done|].
    replace (p + (2 + zlen pl)) with (p + 2 + zlen pl) in * by lia.
    set (q := p + 2 + zlen pl) in *.
    destruct (leave_scope_spec Lv open (u8 v) flags'
      (marks l1 (marks (ref_here c pl p (existsb (fun v => negb (v =? 0)) open)) tab)) st2 Hfl')
      as (flags2 & El & Hfl2); [lia|].
    assert (flags2 = flags) as -> by (destruct Hfl as [_ ->], Hfl2 as [_ ->]; done).
    destruct (END_facts _ _ H3) as (EC & EL & _).
    assert (Ek : ParseOpNode n b q (mkWalk (Lv + 1) flags'
        (marks (ref_here c pl p (existsb (fun v => negb (v =? 0)) open)) tab) st1) =
      Done (q + zlen (enc kids), mkWalk Lv flags
        (marks l1 (marks (ref_here c pl p (existsb (fun v => negb (v =? 0)) open)) tab)) st2)).
    { replace n with (ops kids + S (ops rest + m))%nat by (unfold n; lia).
      eapply IHk; try done; [lia|lia| |].
      - rewrite existsb_app. cbn [existsb]. rewrite orb_false_r. exact E2.
      - cbn [ParseOpNode]. rewrite EC, bind_Done. cbn [Z.eqb]. rewrite Z.eqb_refl, El, bind_Done. done. }
    rewrite Ek, bind_Done, EL, bind_Done.
    replace n with (ops rest + S (ops kids + m))%nat by (unfold n; lia).
    eapply IHr; try done; [lia|].
    apply ParseOpNode_mono with m; [|lia].
    unfold marks in *. rewrite !fold_left_app in Hr.
    rewrite !zlen_app, zlen_op_bytes, zlen_END_bytes in Hr.
    replace (q + zlen (enc kids) + 2 + zlen (enc rest))
      with (p + (2 + zlen pl + (zlen (enc kids) + (2 + zlen (enc rest))))) by (unfold q; lia).
    exact Hr.
Qed.
End walk.

(** C21: (functional) over the content of a form set, [ParseOpNode] stops at
    its closing [END] and flags exactly the references that lie inside a
    suppress-if or disable-if whose value, cut to its low byte, is not zero
    (the first 2048 of them), whatever the other opcodes and however the
    conditions nest, up to 64 levels; the level and the level flags come back
    to their start. The cut is the program's: a condition of the value 256
    hides nothing. *)
Theorem ParseOpNode_marks b f p st l st' :
  found b p (enc f ++ END_bytes) -> forest_ok f -> conds_scoped f -> depth f <= 64 ->
  hidden_refs b f p false st = Done (l, st') ->
  exists s',
    ParseOpNode (ops f + 1) b p (mkWalk 0 (replicate 64 0) OpFlag0 st) =
      Done (p + zlen (enc f), s') /\
    Level s' = 0 /\ LevelFlag s' = replicate 64 0 /\ w_stack s' = st' /\
    forall q, GetOpFlag q (OpFlag s') = b2z (bool_decide (q ∈ take MAX_REF_COUNT l)).
Proof.
  intros [Hf He]%found_app Hok Hcs Hd Hh. destruct (END_facts _ _ He) as (EC & _ & _).
  exists (mkWalk 0 (replicate 64 0) (marks l OpFlag0) st'). split.
  - eapply (walk_forest b f p 0 []); try done.
    cbn [ParseOpNode]. by rewrite EC, bind_Done.
  - cbn [Level LevelFlag OpFlag w_stack]. split_and!; [done..|]. intros q. apply GetOpFlag_marks.
Qed.

(** A hidden reference to form 7 and a visible one to form 8. *)
Definition demo_ref (n : Z) : list Z := replicate 11 0 ++ [n; 0].
Definition demo_forms : forest :=
  FScope EFI_IFR_FORM_OP [1; 0; 5; 0]
    (FScope EFI_IFR_SUPPRESS_IF_OP []
       (FLeaf EFI_IFR_TRUE_OP [] (FLeaf EFI_IFR_REF_OP (demo_ref 7) FNil))
       (FLeaf EFI_IFR_REF_OP (demo_ref 8) FNil)) FNil.
Definition demo_stack : SmcStack := SmcStack_globals.

Lemma ParseOpNode_marks_witness :
  exists s',
    ParseOpNode (ops demo_forms + 1) (enc demo_forms ++ END_bytes) 0
      (mkWalk 0 (replicate 64 0) OpFlag0 demo_stack) = Done (zlen (enc demo_forms), s') /\
    GetOpFlag 10 (OpFlag s') = 1 /\ GetOpFlag 27 (OpFlag s') = 0.
Proof.
  destruct (hidden_refs (enc demo_forms ++ END_bytes) demo_forms 0 false demo_stack)
    as [[l st']| |] eqn:E; try (exfalso; vm_compute in E; discriminate E).
  assert (Hl : l = [10]) by (vm_compute in E; by injection E).
  destruct (ParseOpNode_marks (enc demo_forms ++ END_bytes) demo_forms 0 demo_stack l st')
    as (s' & E1 & _ & _ & _ & Hq).
  - vm_compute. reflexivity.
  - cbn. unfold fits. split_and!; done.
  - done.
  - done.
  - exact E.
  - exists s'. split; [exact E1|]. rewrite !Hq, Hl. split; reflexivity.
Defined.
