(* ===== verification/FormData.v ===== *)
(** * The list of forms

    Models [InitFormData] of [SmcInBand/SmcInBandSetupTemplate.c]: a walk over
    the exported HII data that enters every form of every form set in the
    form table and points the policy's root forms at theirs. *)

From S2P Require Import Prelude Services Ifr Packages SetupTables.

Record form_state := mkFS { FormData : list SMC_FORM_DATA; RootForm : list SMC_ROOT_FORM_DATA }.

Section init.
Context (HiiLibGetString : Z -> Z -> EFI_STATUS * list Z) (GuidHandleMap : list SMC_GUID_HANDLE).
Context (b : list Z).

(** [pRootForm->FormId] and [pRootForm->OpPointer]. *)
Definition update_root (g : guid) (FormTitle : list Z) (FormId p : Z) (root : list SMC_ROOT_FORM_DATA)
    : list SMC_ROOT_FORM_DATA :=
  match GetRootForm g FormTitle root with
  | Some i => alter (fun r => mkRootForm (rf_Guid r) FormId (rf_FormTitle r) (Some p)) i root
  | None => root
  end.

Definition register_form (g : guid) (FormTitle : list Z) (FormId p : Z) (s : form_state) : form_state :=
  mkFS (AddForm g FormId p (FormData s)) (update_root g FormTitle FormId p (RootForm s)).

(** One opcode of the search for forms; [fs] is the form set with its
    handle. *)
Definition form_op (fs : option (guid * Z)) (p : Z) (s : form_state) : Res form_state :=
  c ← op_code b p;
  if c =? EFI_IFR_FORM_OP then
    match fs with
    | Some (g, HiiHandle) =>
        if HiiHandle =? 0 then Done s
        else
          t ← FORM_FormTitle b p;
          '(_, FormTitle) ← SmcGetString HiiLibGetString HiiHandle t 64 [];
          FormId ← FORM_FormId b p;
          Done (register_form g FormTitle FormId p s)
    | None => Done s
    end
  else Done s.

(** One package. *)
Definition form_pkg (IfrPackagePtr : Z) (s : form_state) : Res form_state :=
  ty ← pkg_type b IfrPackagePtr;
  if ty =? EFI_HII_PACKAGE_FORMS then
    let pHpkData := IfrPackagePtr + PKG_HEADER in
    c ← op_code b pHpkData;
    fs ← (if c =? EFI_IFR_FORM_SET_OP then
            g ← FORM_SET_Guid b pHpkData;
            t ← FORM_SET_FormSetTitle b pHpkData;
            let HiiHandle := GetGuidHandle g GuidHandleMap in
            _ ← SmcGetString HiiLibGetString HiiHandle t 64 [];
            Done (Some (g, HiiHandle))
          else Done None);
    l ← pkg_length b IfrPackagePtr;
    for_each op_length b (IfrPackagePtr + l) (form_op fs) pHpkData s
  else Done s.

Definition form_list (HiiPackageList : Z) (s : form_state) : Res form_state :=
  l ← pkg_list_length b HiiPackageList;
  for_each pkg_length b (HiiPackageList + l) form_pkg (HiiPackageList + PKG_LIST_HEADER) s.

Definition InitFormData (BuffSize : Z) (root : list SMC_ROOT_FORM_DATA) : Res form_state :=
  for_each pkg_list_length b BuffSize form_list 0 (mkFS FormData0 root).
End init.

(** ** The forms of an export *)

(** A registered form: form set, id, place, string id of the title. *)
Record form := mkFormEv { e_guid : guid; e_id : Z; e_pos : Z; e_handle : Z; e_title : Z }.

(** The fields of a form opcode's payload. *)
Definition form_id (pl : list Z) : Z := le_val (take 2 pl).
Definition form_title (pl : list Z) : Z := le_val (take 2 (drop 2 pl)).
Definition formset_guid (pl : list Z) : guid := take 16 pl.

Fixpoint forms_of_ops (g : guid) (h : Z) (l : list ifr_op) (p : Z) : list form :=
  match l with
  | [] => []
  | o :: l =>
      (if o_code o =? EFI_IFR_FORM_OP
       then [mkFormEv g (form_id (o_payload o)) p h (form_title (o_payload o))] else []) ++
      forms_of_ops g h l (p + zlen (enc_op o))
  end.

(** An exported package: forms, or anything else. *)
Inductive package :=
| PForms (fs : list Z) (scope : bool) (rest : list ifr_op)
| POther (type : Z) (data : list Z).

Definition formset_op (fs : list Z) (scope : bool) : ifr_op := mkOp EFI_IFR_FORM_SET_OP scope fs.

Definition pkg_of (k : package) : hii_pkg :=
  match k with
  | PForms fs sc rest => mkPkg EFI_HII_PACKAGE_FORMS (enc_ops (formset_op fs sc :: rest))
  | POther t d => mkPkg t d
  end.

(** Titles fit the 64-byte buffers, opcodes have their fields. *)
Definition title_ok (get : Z -> Z -> EFI_STATUS * list Z) (h id : Z) : Prop :=
  zlen (UnicodeStrToAsciiStr (snd (get h id))) < 64.

Definition op_ok (get : Z -> Z -> EFI_STATUS * list Z) (h : Z) (o : ifr_op) : Prop :=
  fits (o_payload o) /\
  (o_code o = EFI_IFR_FORM_OP -> 4 <= zlen (o_payload o) /\ title_ok get h (form_title (o_payload o))).

Section forms.
Context (get : Z -> Z -> EFI_STATUS * list Z) (map_ : list SMC_GUID_HANDLE).

Definition package_ok (k : package) : Prop :=
  pkg_ok (pkg_of k) /\
  match k with
  | PForms fs sc rest =>
      let h := GetGuidHandle (formset_guid fs) map_ in
      18 <= zlen fs /\ fits fs /\ title_ok get h (le_val (take 2 (drop 16 fs))) /\
      Forall (op_ok get h) rest
  | POther t _ => t <> EFI_HII_PACKAGE_FORMS
  end.

Definition forms_of_pkg (k : package) (p : Z) : list form :=
  match k with
  | PForms fs sc rest =>
      let g := formset_guid fs in
      let h := GetGuidHandle g map_ in
      if h =? 0 then [] else forms_of_ops g h rest (p + 4 + (2 + zlen fs))
  | POther _ _ => []
  end.

Fixpoint forms_of_pkgs (l : list package) (p : Z) : list form :=
  match l with
  | [] => []
  | k :: l => forms_of_pkg k p ++ forms_of_pkgs l (p + zlen (enc_pkg (pkg_of k)))
  end.

Definition plist_of (h : list Z * list package) : hii_list := mkList (fst h) (map pkg_of (snd h)).

Fixpoint forms_of_lists (l : list (list Z * list package)) (p : Z) : list form :=
  match l with
  | [] => []
  | h :: l => forms_of_pkgs (snd h) (p + 20) ++ forms_of_lists l (p + zlen (enc_list (plist_of h)))
  end.

Definition plist_ok (h : list Z * list package) : Prop :=
  list_ok (plist_of h) /\ Forall package_ok (snd h).

(** The title string of a form; the buffer stays empty when there is
    none. *)
Definition title_of (h id : Z) : list Z :=
  let '(st, s) := get h id in if EFI_ERROR st then [] else UnicodeStrToAsciiStr s.

Definition enter_form (s : form_state) (e : form) : form_state :=
  register_form (e_guid e) (title_of (e_handle e) (e_title e)) (e_id e) (e_pos e) s.

Lemma SmcGetString_ok h id : title_ok get h id ->
  SmcGetString get h id 64 [] = Done (fst (get h id), title_of h id).
Proof.
  unfold title_ok, SmcGetString, title_of. destruct (get h id) as [st s]; cbn [fst snd]. intros Ht.
  destruct (EFI_ERROR st); [done|]. by replace (zlen _ + 1 <=? 64) with true by lia.
Qed.
End forms.

Section proofs.
Context (get : Z -> Z -> EFI_STATUS * list Z) (map_ : list SMC_GUID_HANDLE) (b : list Z).

Lemma form_op_spec g h o p s :
  found b p (enc_op o) -> op_ok get h o ->
  form_op get b (Some (g, h)) p s =
  Done (fold_left (enter_form get) (if h =? 0 then [] else forms_of_ops g h [o] p) s).
Proof.
  intros Hf [Hfit Hop]. unfold form_op. rewrite (found_op_code _ _ _ _ _ Hf), bind_Done.
  cbn [forms_of_ops]. rewrite app_nil_r. destruct (Z.eqb_spec (o_code o) EFI_IFR_FORM_OP) as [E|E].
  - destruct (Hop E) as [Hl Ht]. pose proof (found_payload _ _ _ _ _ Hf) as Hp.
    destruct (h =? 0); [done|].
    unfold FORM_FormTitle, FORM_FormId, rd16.
    replace (p + 4) with (p + 2 + 2) by lia.
    rewrite (found_part b (p + 2) (o_payload o) 2 2 Hp), !bind_Done by lia.
    change (le_val (take (Z.to_nat 2) (drop (Z.to_nat 2) (o_payload o)))) with (form_title (o_payload o)).
    rewrite (SmcGetString_ok get h (form_title (o_payload o)) Ht), bind_Done.
    replace (p + 2) with (p + 2 + 0) at 1 by lia.
    rewrite (found_part b (p + 2) (o_payload o) 0 2 Hp), !bind_Done by lia. done.
  - by destruct (h =? 0).
Qed.

Lemma forms_of_ops_cons g h o l p :
  forms_of_ops g h (o :: l) p = forms_of_ops g h [o] p ++ forms_of_ops g h l (p + zlen (enc_op o)).
Proof. cbn [forms_of_ops]. by rewrite app_nil_r. Qed.

Lemma form_ops_spec g h l : forall p s,
  found b p (enc_ops l) -> Forall (op_ok get h) l ->
  runM (form_op get b (Some (g, h))) enc_op l p s =
  Done (fold_left (enter_form get) (if h =? 0 then [] else forms_of_ops g h l p) s).
Proof.
  induction l as [|o l IH]; intros p s Hf Hok; [by destruct (h =? 0)|]. cbn [runM].
  unfold enc_ops in Hf. cbn [map concat] in Hf. apply found_app in Hf as [H1 H2].
  apply Forall_cons in Hok as [Ho Hok]. rewrite (form_op_spec g h o p s H1 Ho), bind_Done.
  rewrite IH by done. rewrite (forms_of_ops_cons g h o l). destruct (h =? 0); [done|].
  by rewrite fold_left_app.
Qed.

(** What the package loop does on a forms package. *)
Lemma form_pkg_forms fs sc rest p s :
  let h := GetGuidHandle (formset_guid fs) map_ in
  found b p (enc_pkg (pkg_of (PForms fs sc rest))) -> pkg_ok (pkg_of (PForms fs sc rest)) ->
  18 <= zlen fs ->
  form_pkg get map_ b p s =
  (_ ← SmcGetString get h (le_val (take 2 (drop 16 fs))) 64 [];
   for_each op_length b (p + zlen (enc_pkg (pkg_of (PForms fs sc rest))))
     (form_op get b (Some (formset_guid fs, h))) (p + 4) s).
Proof.
  intros h Hf Hk Hl. destruct (pkg_item _ _ _ Hk Hf) as [El Et]. unfold form_pkg.
  rewrite Et, bind_Done, El. cbn [pkg_of k_type]. rewrite Z.eqb_refl.
  apply found_app in Hf as [_ Hf]. rewrite zlen_pkg_header in Hf. cbn [pkg_of k_data] in Hf.
  change (p + PKG_HEADER) with (p + 4). unfold enc_ops in Hf. cbn [map concat] in Hf.
  apply found_app in Hf as [H1 H2]. pose proof (found_payload _ _ _ _ _ H1) as Hpl.
  cbn [enc_op formset_op o_code o_scope o_payload] in Hpl.
  rewrite (found_op_code _ _ _ _ _ H1), bind_Done. cbn [formset_op o_code]. rewrite Z.eqb_refl.
  unfold FORM_SET_Guid, FORM_SET_FormSetTitle, rd16.
  replace (p + 4 + 2) with (p + 4 + 2 + 0) by lia.
  rewrite (found_part b (p + 4 + 2) fs 0 16 Hpl), !bind_Done by lia.
  replace (p + 4 + 18) with (p + 4 + 2 + 16) by lia.
  rewrite (found_part b (p + 4 + 2) fs 16 2 Hpl), !bind_Done by lia.
  by destruct (SmcGetString get _ _ 64 []).
Qed.

Lemma form_pkg_spec k p s :
  found b p (enc_pkg (pkg_of k)) -> package_ok get map_ k ->
  form_pkg get map_ b p s = Done (fold_left (enter_form get) (forms_of_pkg map_ k p) s).
Proof.
  intros Hf [Hk Hp]. destruct k as [fs sc rest|t d]; cbn [forms_of_pkg].
  2:{ destruct (pkg_item _ _ _ Hk Hf) as [_ Et]. unfold form_pkg. rewrite Et, bind_Done.
      cbn [pkg_of k_type]. by replace (t =? EFI_HII_PACKAGE_FORMS) with false by (cbn in Hp; lia). }
  destruct Hp as (Hl & Hfit & Ht & Hok). rewrite (form_pkg_forms fs sc rest) by done.
  rewrite (SmcGetString_ok get _ _ Ht), bind_Done.
  apply found_app in Hf as [_ Hf]. rewrite zlen_pkg_header in Hf. cbn [pkg_of k_data] in Hf.
  pose proof Hf as [H1 H2]%found_app. set (h := GetGuidHandle (formset_guid fs) map_) in *.
  rewrite (for_each_items op_length b _ _ enc_op (formset_op fs sc :: rest) (p + 4)).
  - cbn [runM]. rewrite (form_op_spec (formset_guid fs) h (formset_op fs sc) (p + 4)) by (done || by split).
    rewrite bind_Done. cbn [forms_of_ops].
    replace (o_code (formset_op fs sc) =? EFI_IFR_FORM_OP) with false by done. cbn [app].
    rewrite form_ops_spec by done. unfold enc_op. cbn [formset_op o_code o_scope o_payload].
    rewrite zlen_op_bytes. by destruct (h =? 0).
  - exact Hf.
  - rewrite zlen_enc_pkg. cbn [pkg_of k_data]. unfold enc_ops. lia.
  - intros o q Ho. apply op_item. apply list_elem_of_In in Ho. destruct Ho as [<-|Ho]; [done|].
    rewrite Forall_forall in Hok. apply list_elem_of_In in Ho. by apply Hok.
  - intros o _. apply op_pos.
Qed.

Definition enc_package (k : package) : list Z := enc_pkg (pkg_of k).
Definition enc_plist (h : list Z * list package) : list Z := enc_list (plist_of h).

Lemma enc_packages l : enc_pkgs (map pkg_of l) = concat (map enc_package l).
Proof. unfold enc_pkgs. by rewrite map_map. Qed.

Lemma form_pkgs_spec l : forall p s,
  found b p (concat (map enc_package l)) -> Forall (package_ok get map_) l ->
  runM (form_pkg get map_ b) enc_package l p s =
  Done (fold_left (enter_form get) (forms_of_pkgs map_ l p) s).
Proof.
  induction l as [|k l IH]; intros p s Hf Hok; [done|]. cbn [runM forms_of_pkgs].
  cbn [map concat] in Hf. apply found_app in Hf as [H1 H2]. apply Forall_cons in Hok as [Ho Hok].
  rewrite (form_pkg_spec k p s H1 Ho), bind_Done, IH by done. by rewrite fold_left_app.
Qed.

Lemma form_list_spec h p s :
  found b p (enc_plist h) -> plist_ok get map_ h ->
  form_list get map_ b p s = Done (fold_left (enter_form get) (forms_of_pkgs map_ (snd h) (p + 20)) s).
Proof.
  intros Hf [Hh Hok]. destruct (list_item _ _ _ Hh Hf) as [El Hp]. unfold form_list.
  rewrite El, bind_Done. cbn [plist_of l_pkgs] in Hp. rewrite enc_packages in Hp.
  rewrite (for_each_items pkg_length b _ _ enc_package (snd h) (p + PKG_LIST_HEADER)).
  - by apply form_pkgs_spec.
  - exact Hp.
  - rewrite (zlen_enc_list _ Hh). cbn [plist_of l_pkgs]. rewrite enc_packages. unfold PKG_LIST_HEADER. lia.
  - intros k q Hk Hq. rewrite Forall_forall in Hok. destruct (Hok k Hk) as [Hpk _].
    by destruct (pkg_item _ _ _ Hpk Hq).
  - intros k _. apply pkg_pos.
Qed.

Lemma form_lists_spec l : forall p s,
  found b p (concat (map enc_plist l)) -> Forall (plist_ok get map_) l ->
  runM (form_list get map_ b) enc_plist l p s =
  Done (fold_left (enter_form get) (forms_of_lists map_ l p) s).
Proof.
  induction l as [|k l IH]; intros p s Hf Hok; [done|]. cbn [runM forms_of_lists].
  cbn [map concat] in Hf. apply found_app in Hf as [H1 H2]. apply Forall_cons in Hok as [Ho Hok].
  rewrite (form_list_spec k p s H1 Ho), bind_Done, IH by done. by rewrite fold_left_app.
Qed.
End proofs.

Lemma InitFormData_fold get map_ lists root :
  Forall (plist_ok get map_) lists ->
  let b := concat (map enc_plist lists) in
  InitFormData get map_ b (zlen b) root =
  Done (fold_left (enter_form get) (forms_of_lists map_ lists 0) (mkFS FormData0 root)).
Proof.
  intros Hok b. assert (Hf : found b 0 b).
  { pose proof (found_at [] b []) as H. by rewrite app_nil_r in H. }
  unfold InitFormData. rewrite (for_each_items pkg_list_length b _ _ enc_plist lists 0); try done.
  - by apply form_lists_spec.
  - intros h q Hh Hq. rewrite Forall_forall in Hok. destruct (Hok h Hh) as [Hl _].
    by destruct (list_item _ _ _ Hl Hq).
  - intros h Hh. rewrite Forall_forall in Hok. destruct (Hok h Hh) as [Hl _]. by apply list_pos.
Qed.

(** Only the table part of the state. *)
Lemma FormData_fold get es : forall s,
  FormData (fold_left (enter_form get) es s) =
  fold_left (fun t x => put_first fd_free x t)
    (map (fun e => mkForm (e_guid e) (e_id e) (Some (e_pos e))) es) (FormData s).
Proof. induction es as [|e es IH]; intros s; cbn [fold_left map]; [done|]. by rewrite IH. Qed.

(** C24: (functional) on a well-formed HII export, [InitFormData] ends, enters
    the forms of all form sets that have an HII handle in stream order, and a
    later [GetForm] finds the first of them with the form set and id asked
    for (among the 1024 the table holds), and nothing else. *)
Theorem InitFormData_correct get map_ lists root :
  Forall (plist_ok get map_) lists ->
  let b := concat (map enc_plist lists) in
  exists s, InitFormData get map_ b (zlen b) root = Done s /\
    s = fold_left (enter_form get) (forms_of_lists map_ lists 0) (mkFS FormData0 root) /\
    forall g id, id <> 0 ->
      GetForm g id (FormData s) =
      e_pos <$> List.find (fun e => bool_decide (e_guid e = g) && (e_id e =? id))
                  (take MAX_FORM_COUNT (forms_of_lists map_ lists 0)).
Proof.
  intros Hok b. eexists. split; [by apply InitFormData_fold|]. split; [done|]. intros g id Hid.
  rewrite FormData_fold. cbn [FormData]. unfold GetForm.
  set (es := forms_of_lists map_ lists 0). set (f := fun e => mkForm _ _ _).
  assert (Hr := put_all fd_free fd_blank eq_refl MAX_FORM_COUNT FormData0 [] (map f es)
    ltac:(apply Forall_map, Forall_true; intros; unfold fd_free; apply andb_false_r)
    (represents_nil fd_free fd_blank MAX_FORM_COUNT) ltac:(apply Nat.le_0_l)).
  cbn [app] in Hr. rewrite (find_represents fd_free fd_blank eq_refl _ _ _ _ Hr).
  2:{ intros x [_ E]%andb_prop. unfold fd_free. by replace (fd_FormId x =? 0) with false by lia. }
  rewrite <- fmap_take. generalize (take MAX_FORM_COUNT es). intros l.
  induction l as [|e l IH]; [done|]. cbn. by destruct (_ && _).
Qed.

(** One list with one form set of two forms. *)
Definition demo_guid : guid := replicate 16 7.
Definition demo_map : list SMC_GUID_HANDLE := AddGuidHandle demo_guid 0x40 GuidHandleMap0.
Definition demo_strings (h id : Z) : EFI_STATUS * list Z := (EFI_SUCCESS, [70; 48 + id]).
Definition demo_lists : list (list Z * list package) :=
  [(replicate 16 9,
    [POther 4 [1; 2; 3];
     PForms (demo_guid ++ [1; 0; 0; 0]) true
       [mkOp EFI_IFR_FORM_OP true [5; 0; 2; 0]; mkOp EFI_IFR_END_OP false [];
        mkOp EFI_IFR_FORM_OP true [6; 0; 3; 0]; mkOp EFI_IFR_END_OP false [];
        mkOp EFI_IFR_END_OP false []]])].

Lemma InitFormData_correct_witness :
  exists s, InitFormData demo_strings demo_map (concat (map enc_plist demo_lists))
      (zlen (concat (map enc_plist demo_lists))) [] = Done s /\
    GetForm demo_guid 6 (FormData s) = Some 61 /\ GetForm demo_guid 7 (FormData s) = None.
Proof.
  destruct (InitFormData_correct demo_strings demo_map demo_lists []) as (s & E & _ & Hg).
  - repeat constructor; cbn; unfold fits, title_ok; cbn; try done; lia.
  - exists s. split; [exact E|]. rewrite !Hg by done. split; reflexivity.
Defined.

(** [InitFormData] copies a form-set title into 64 bytes
    whatever its length: a title of 64 or more characters overruns the
    buffer. *)
Theorem InitFormData_long_title get map_ lg fs sc rest root :
  let h := (lg, [PForms fs sc rest]) in
  let id := le_val (take 2 (drop 16 fs)) in
  list_ok (plist_of h) -> 18 <= zlen fs -> fits fs ->
  fst (get (GetGuidHandle (formset_guid fs) map_) id) = EFI_SUCCESS ->
  64 <= zlen (UnicodeStrToAsciiStr (snd (get (GetGuidHandle (formset_guid fs) map_) id))) ->
  let b := enc_plist h in InitFormData get map_ b (zlen b) root = Fault.
Proof.
  intros h id Hl Hfs Hfit Hst Hlong b. pose proof Hl as (_ & _ & Hk). apply Forall_cons in Hk as [Hk _].
  assert (Hf : found b 0 b).
  { pose proof (found_at [] b []) as H. by rewrite app_nil_r in H. }
  unfold InitFormData. rewrite (for_each_items pkg_list_length b _ _ enc_plist [h] 0).
  - cbn [runM]. unfold form_list at 1. destruct (list_item _ _ _ Hl Hf) as [El Hp].
    rewrite El, bind_Done. cbn [plist_of l_pkgs h snd] in Hp. rewrite enc_packages in Hp.
    rewrite (for_each_items pkg_length b _ _ enc_package [PForms fs sc rest] (0 + PKG_LIST_HEADER)).
    + cbn [runM]. cbn [map concat] in Hp. apply found_app in Hp as [Hp _].
      rewrite (form_pkg_forms _ _ _ fs sc rest) by done. unfold SmcGetString. fold id.
      destruct (get _ id) as [st s]. cbn [fst snd] in Hst, Hlong. subst st. cbn [EFI_ERROR].
      by replace (zlen _ + 1 <=? 64) with false by lia.
    + exact Hp.
    + rewrite (zlen_enc_list _ Hl). cbn [plist_of l_pkgs h snd]. rewrite enc_packages.
      unfold PKG_LIST_HEADER. lia.
    + intros k q ->%list_elem_of_singleton Hq. by destruct (pkg_item _ _ _ Hk Hq).
    + intros k _. apply pkg_pos.
  - cbn [map concat]. by rewrite app_nil_r.
  - cbn [map concat]. by rewrite app_nil_r.
  - intros k q ->%list_elem_of_singleton Hq. by destruct (list_item _ _ _ Hl Hq).
  - intros k ->%list_elem_of_singleton. by apply list_pos.
Qed.

Lemma InitFormData_long_title_witness :
  InitFormData (fun _ _ => (EFI_SUCCESS, replicate 64 65)) demo_map
    (enc_plist (replicate 16 9, [PForms (demo_guid ++ [1; 0; 0; 0]) true []]))
    (zlen (enc_plist (replicate 16 9, [PForms (demo_guid ++ [1; 0; 0; 0]) true []]))) [] = Fault.
Proof.
  apply (InitFormData_long_title (fun _ _ => (EFI_SUCCESS, replicate 64 65)) demo_map (replicate 16 9)
    (demo_guid ++ [1; 0; 0; 0]) true [] []).
  - split; [reflexivity|]. split; [by vm_compute|]. apply Forall_singleton.
    split; [split; by vm_compute|by vm_compute].
  - by vm_compute.
  - by vm_compute.
  - reflexivity.
  - by vm_compute.
Defined.
