(* ===== verification/Hii.v ===== *)
(** * The HII export

    Models [SmcInBand/SmcInBandHii.c]: which package lists are sent to the
    management tool, how the opcodes of hidden items are wrapped in a
    suppress-if, how default flags are synchronised, and how the result is
    compressed, enciphered and put behind a header. The HII database, the
    hide list and the compressor are parameters. *)

From S2P Require Import Prelude Services Blowfish Ifr Packages SetupTables.
From Stdlib Require String Ascii.
Import String.StringSyntax.

Definition str (s : String.string) : list Z :=
  map (fun a => Z.of_N (Ascii.N_of_ascii a)) (String.list_ascii_of_string s).

Arguments str s%_string_scope.

Definition MAX_PACKAGELISTS_SIZE : Z := 0x180000.
Definition MAX_HPK_LIST_SIZE : Z := 0x100000.
Definition MAX_HII_COMBINE_SIZE : Z := 0x200000.

(** ** Which lists are exported *)

(** [EFI_GUID] as stored: three little-endian fields and eight bytes. *)
Definition GUID (d1 d2 d3 : Z) (d4 : list Z) : guid := le_bytes 4 d1 ++ le_bytes 2 d2 ++ le_bytes 2 d3 ++ d4.

Definition NullGuid : guid := replicate 16 0xFF.

Definition AllowedHpkTable : list (list Z * guid) :=
  [(str "Platform Configuration", GUID 0xEC87D643 0xEBA4 0x4BB5 [0xA1;0xE5;0x3F;0x3E;0x36;0xB2;0x0D;0xA9]);
   (str "All Cpu Information", GUID 0xdbf338fe 0x93be 0x46d6 [0xad;0xf5;0xc1;0x7c;0x22;0x36;0xd8;0x38]);
   (str "Socket Configuration", GUID 0x516d5a04 0xc0d5 0x4657 [0xb9;0x08;0xe4;0xfb;0x1d;0x93;0x5e;0xf0]);
   (str "Event Logs", GUID 0x8BEB8C19 0x3FEC 0x4FAB [0xA3;0x78;0xC9;0x03;0xE8;0x90;0xFC;0xAE]);
   (str "IPMI", GUID 0x01239999 0xFC0E 0x4B6E [0x9E;0x79;0xD5;0x4D;0x5D;0xB6;0xCD;0x20]);
   (str "Setup", GUID 0x7B59104A 0xC00D 0x4158 [0x87;0xFF;0xF0;0x4D;0x63;0x96;0xA9;0x15]);
   (str "FixedBootOrder Group Form", GUID 0xde8ab926 0xefda 0x4c23 [0xbb;0xc4;0x98;0xfd;0x29;0xaa;0x00;0x69]);
   (str "SMCLSIOOBSetup", GUID 0xca113bd9 0x21cc 0xaa1b [0x33;0x58;0xa9;0x73;0x78;0xdd;0x3c;0x5e]);
   (str "-----", NullGuid)].

Fixpoint allowed_in (Title : list Z) (Guid : guid) (t : list (list Z * guid)) : bool :=
  match t with
  | [] => false
  | (title, g) :: t =>
      if str_eqb (str "-----") title || bool_decide (NullGuid = g) then false
      else if str_eqb Title title && bool_decide (Guid = g) then true
      else allowed_in Title Guid t
  end.

Definition AllowedHpk (Title : list Z) (Guid : guid) : bool := allowed_in Title Guid AllowedHpkTable.

(** ** Writing opcodes *)

(** Appends to [HiiTmpBuff], of which [out] is the part written. *)
Definition emit (out bs : list Z) : Res (list Z) :=
  if zlen out + zlen bs <=? MAX_PACKAGELISTS_SIZE then Done (out ++ bs) else Fault.

Definition InsertIfrSuppressIf (out : list Z) : Res (list Z) :=
  emit out [EFI_IFR_SUPPRESS_IF_OP; Z.lor 2 (Z.shiftl 1 7)].
Definition InsertIfrTrue (out : list Z) : Res (list Z) :=
  emit out [EFI_IFR_TRUE_OP; Z.lor 2 (Z.shiftl 0 7)].
Definition InsertIfrEnd (out : list Z) : Res (list Z) :=
  emit out [EFI_IFR_END_OP; Z.lor 2 (Z.shiftl 0 7)].

(** [MemCpy] of the opcode at [p]. *)
Definition copy_op (b : list Z) (p : Z) (out : list Z) : Res (list Z) :=
  l ← op_length b p; bs ← rdn b p l; emit out bs.

(** Copies the opcodes up to the [END] of the scope; one unit of fuel per
    opcode. *)
Fixpoint SearchForOpNodeEnd (fuel : nat) (b : list Z) (pOp : Z) (out : list Z) : Res (Z * list Z) :=
  match fuel with
  | O => NoFuel
  | Datatypes.S fuel =>
      out ← copy_op b pOp out;
      c ← op_code b pOp;
      if c =? EFI_IFR_END_OP then Done (pOp, out)
      else
        sc ← op_scope b pOp;
        l ← op_length b pOp;
        '(pOp, out) ← (if sc =? 1 then SearchForOpNodeEnd fuel b (pOp + l) out else Done (pOp, out));
        l ← op_length b pOp;
        SearchForOpNodeEnd fuel b (pOp + l) out
  end.

(** ** Default flags *)
Definition GetTypeValue (Type_ : Z) (b : list Z) (TypeValue : Z) : Res Z :=
  if Type_ =? 0 then rd8 b TypeValue
  else if Type_ =? 1 then rd16 b TypeValue
  else if Type_ =? 2 then rd32 b TypeValue
  else if Type_ =? 3 then rd64 b TypeValue
  else rd8 b TypeValue.

(** [ItemValue] is a global; [IpmiLanSelection] comes from the policy. *)
Definition PreUpdateOpData (IpmiLanSelection : Z) (FormSetTitle ItemPrompt : list Z) (ItemValue : Z) : Z :=
  if str_eqb FormSetTitle (str "IPMI") then
    if str_eqb ItemPrompt (str "IPMI LAN Selection") then IpmiLanSelection else ItemValue
  else ItemValue.

(** [pOneOfOption->Flags], from whether the value is the default. *)
Definition set_default (b : list Z) (p v : Z) : Res (list Z) :=
  ty ← rd8 b (p + 5);
  x ← GetTypeValue ty b (p + 6);
  wr8 b (p + 4) (if x =? v then 0x10 else 0).

(** [Sprintf (Prompt, "Boot Option #%d", Index)] for the indices used. *)
Definition boot_prompt (Index : Z) : list Z :=
  str "Boot Option #" ++ (if Index <? 10 then [48 + Index] else [48 + Index / 10; 48 + Index mod 10]).

(** [ItemPrompt] is [None] while nothing was written to it; comparing it then
    reads indeterminate memory. *)
Definition UpdateOpData (FormSetTitle : list Z) (ItemPrompt : option (list Z)) (ItemValue : Z)
    (b : list Z) (p : Z) : Res (list Z) :=
  b ← (if str_eqb FormSetTitle (str "IPMI") then
         match ItemPrompt with
         | None => Fault
         | Some prompt =>
             if str_eqb prompt (str "IPMI LAN Selection") && negb (ItemValue =? 0xffffffff)
             then set_default b p ItemValue else Done b
         end
       else Done b);
  if str_eqb FormSetTitle (str "FixedBootOrder Group Form") then
    match ItemPrompt with
    | None => Fault
    | Some prompt =>
        foldM (fun b i => if str_eqb prompt (boot_prompt i) then set_default b p (i - 1) else Done b)
          (map Z.of_nat (seq 1 15)) b
    end
  else Done b.

(** ** The opcode loop *)

(** The source buffer (the flags of options are updated in place), the copy
    made so far, whether anything was wrapped, the two prompt buffers and the
    global [ItemValue]. *)
Record op_state := mkOps {
  x_src : list Z; x_out : list Z; x_need : bool;
  x_wide : option (list Z); x_ascii : option (list Z); x_value : Z }.

Section ops.
Context (HiiLibGetString : Z -> Z -> EFI_STATUS * list Z).
Context (SearchForHideListByString : list Z -> Z -> bool).
Context (IpmiLanSelection : Z).
Context (HiiHandle : Z) (FormSetTitleWide : list Z).

Definition FormSetTitle : list Z := UnicodeStrToAsciiStr FormSetTitleWide.

(** The opcodes whose prompt is looked up in the hide list and nothing
    else. *)
Definition is_item (c : Z) : bool :=
  (c =? EFI_IFR_CHECKBOX_OP) || (c =? EFI_IFR_NUMERIC_OP) || (c =? EFI_IFR_REF_OP) ||
  (c =? EFI_IFR_SUBTITLE_OP).

(** The [switch]: [FoundHideItem] and the new state. *)
Definition op_switch (c p : Z) (s : op_state) : Res (bool * op_state) :=
  if c =? EFI_IFR_ONE_OF_OP then
    Prompt ← QUESTION_Prompt (x_src s) p;
    let '(Status, text) := HiiLibGetString HiiHandle Prompt in
    match (if EFI_ERROR Status then x_wide s else Some text) with
    | None => Fault
    | Some ItemPromptWide =>
        let ItemPrompt := UnicodeStrToAsciiStr ItemPromptWide in
        Done (SearchForHideListByString FormSetTitleWide Prompt,
              mkOps (x_src s) (x_out s) (x_need s) (Some ItemPromptWide) (Some ItemPrompt)
                (PreUpdateOpData IpmiLanSelection FormSetTitle ItemPrompt (x_value s)))
    end
  else if c =? EFI_IFR_ONE_OF_OPTION_OP then
    src ← UpdateOpData FormSetTitle (x_ascii s) (x_value s) (x_src s) p;
    Done (false, mkOps src (x_out s) (x_need s) (x_wide s) (x_ascii s) (x_value s))
  else if is_item c then
    Prompt ← QUESTION_Prompt (x_src s) p;
    Done (SearchForHideListByString FormSetTitleWide Prompt, s)
  else Done (false, s).

Definition set_out (s : op_state) (out : list Z) (need : bool) : op_state :=
  mkOps (x_src s) out need (x_wide s) (x_ascii s) (x_value s).

(** The rest of the body; returns the opcode the loop steps on from. *)
Definition op_copy (FoundHideItem : bool) (p : Z) (s : op_state) : Res (Z * op_state) :=
  let b := x_src s in
  if FoundHideItem then
    out ← InsertIfrSuppressIf (x_out s);
    out ← InsertIfrTrue out;
    out ← copy_op b p out;
    sc ← op_scope b p;
    l ← op_length b p;
    '(p, out) ← (if negb (sc =? 0) then SearchForOpNodeEnd (Datatypes.S (length b)) b (p + l) out
                 else Done (p, out));
    out ← InsertIfrEnd out;
    Done (p, set_out s out true)
  else
    out ← copy_op b p (x_out s);
    Done (p, set_out s out (x_need s)).

Definition op_step (stop : Z) (x : Z * op_state) : Res (Z * op_state + op_state) :=
  let '(p, s) := x in
  if p <? stop then
    c ← op_code (x_src s) p;
    '(FoundHideItem, s) ← op_switch c p s;
    '(p, s) ← op_copy FoundHideItem p s;
    l ← op_length (x_src s) p;
    Done (inl (p + l, s))
  else Done (inr s).

Definition op_loop (stop p : Z) (s : op_state) : Res op_state :=
  loop (Datatypes.S (length (x_src s))) (op_step stop) (p, s).
End ops.

(** ** Lists and packages *)

(** A handle and a package list, as [ExportPackageLists] hands them over. *)
Record hii_db := mkDb {
  db_handles : list Z;
  db_export : Z -> EFI_STATUS * list Z }.

(** The static variables of [GetListPackageListsHandle]: the handle buffer
    and whether the pool it lies in was freed. *)
Record hii_statics := mkStatics { st_handles : option (list Z); st_freed : bool }.

(** The list ends with a NULL slot. *)
Definition GetListPackageListsHandle (db : hii_db) (st : hii_statics)
    : EFI_STATUS * list Z * hii_statics :=
  match st_handles st with
  | Some hs => (EFI_SUCCESS, hs, st)
  | None =>
      match db_handles db with
      | [] => (EFI_LOAD_ERROR, [], st)
      | hs => (EFI_SUCCESS, hs ++ [0], mkStatics (Some (hs ++ [0])) (st_freed st))
      end
  end.

(** Returns the buffer of [BufferSize] bytes: the list and zeros. *)
Definition GetExportPackageLists (db : hii_db) (HiiHandle BufferSize : Z) : EFI_STATUS * list Z :=
  let '(Status, data) := db_export db HiiHandle in
  if EFI_ERROR Status then (Status, [])
  else if BufferSize <? zlen data then (EFI_BUFFER_TOO_SMALL, [])
  else (EFI_SUCCESS, data ++ replicate (Z.to_nat (BufferSize - zlen data)) 0).

(** The first forms package that starts with a form set gives the title. *)
Definition formset_step (HiiLibGetString : Z -> Z -> EFI_STATUS * list Z) (HiiHandle : Z) (b : list Z)
    (stop p : Z) : Res (Z + (EFI_STATUS * option (list Z * Z))) :=
  if p <? stop then
    ty ← pkg_type b p;
    c ← (if ty =? EFI_HII_PACKAGE_FORMS then op_code b (p + PKG_HEADER) else Done 0);
    if (ty =? EFI_HII_PACKAGE_FORMS) && (c =? EFI_IFR_FORM_SET_OP) then
      t ← FORM_SET_FormSetTitle b (p + PKG_HEADER);
      let '(Status, title) := HiiLibGetString HiiHandle t in
      if EFI_ERROR Status then Done (inr (Status, None))
      else Done (inr (Status, Some (title, p + PKG_HEADER)))
    else l ← pkg_length b p; Done (inl (p + l))
  else Done (inr (EFI_NOT_FOUND, None)).

Definition FindFormsetData (HiiLibGetString : Z -> Z -> EFI_STATUS * list Z) (HiiHandle : Z) (b : list Z)
    : Res (EFI_STATUS * option (list Z * Z)) :=
  l ← pkg_list_length b 0;
  loop (Datatypes.S (length b)) (formset_step HiiLibGetString HiiHandle b l) PKG_LIST_HEADER.

(** [DataBuffer] as written so far, [*DataSize], [CurrentHpkListSize], the
    exported list and [ItemValue]. *)
Record exp_state := mkExp {
  e_data : list Z; e_size : Z; e_listsize : Z; e_src : list Z; e_value : Z }.

(** [MemCpy] behind what [DataBuffer] holds; nothing checks its size. *)
Definition put_data (data bs : list Z) : Res (list Z) :=
  if zlen data + zlen bs <=? MAX_HII_COMBINE_SIZE then Done (data ++ bs) else Fault.

Section enumerate.
Context (HiiLibGetString : Z -> Z -> EFI_STATUS * list Z).
Context (SmcSetupModifyProtocol : option (list Z -> Z -> bool)).
Context (IpmiLanSelection : Z) (db : hii_db).

(** The rewritten package, and the package list with its updated flags. *)
Definition rewrite_pkg (HiiHandle : Z) (title : list Z) (p : Z) (src : list Z) (value : Z) : Res op_state :=
  ty ← pkg_type src p;
  match SmcSetupModifyProtocol with
  | Some search =>
      if ty =? EFI_HII_PACKAGE_FORMS then
        hd ← rdn src p PKG_HEADER;
        out ← emit [] hd;
        l ← pkg_length src p;
        op_loop HiiLibGetString search IpmiLanSelection HiiHandle title (p + l) (p + PKG_HEADER)
          (mkOps src out false None None value)
      else Done (mkOps src [] false None None value)
  | None => Done (mkOps src [] false None None value)
  end.

(** One package: attach the new or the original one. *)
Definition export_pkg (HiiHandle : Z) (title : list Z) (p : Z) (s : exp_state) : Res exp_state :=
  r ← rewrite_pkg HiiHandle title p (e_src s) (e_value s);
  let src := x_src r in
  if x_need r then
    let TotalSize := zlen (x_out r) in
    ty ← pkg_type (x_out r) 0;
    tmp ← wr32 (x_out r) 0 (Z.lor (Z.land TotalSize 0xFFFFFF) (Z.shiftl ty 24));
    data ← put_data (e_data s) tmp;
    Done (mkExp data (u32 (e_size s + TotalSize)) (u32 (e_listsize s + TotalSize)) src (x_value r))
  else
    l ← pkg_length src p;
    bs ← rdn src p l;
    data ← put_data (e_data s) bs;
    Done (mkExp data (u32 (e_size s + l)) (u32 (e_listsize s + l)) src (x_value r)).

Definition pkg_step (HiiHandle : Z) (title : list Z) (x : Z * exp_state) : Res (Z * exp_state + exp_state) :=
  let '(p, s) := x in
  stop ← pkg_list_length (e_src s) 0;
  if p <? stop then
    s ← export_pkg HiiHandle title p s;
    l ← pkg_length (e_src s) p;
    Done (inl (p + l, s))
  else Done (inr s).

(** One exported list that is allowed. *)
Definition export_list (HiiHandle : Z) (title : list Z) (src : list Z) (s : list Z * Z * Z)
    : Res (list Z * Z * Z) :=
  let '(data, DataSize, value) := s in
  let CurrentHpkList := zlen data in
  hd ← rdn src 0 PKG_LIST_HEADER;
  data ← put_data data hd;
  e ← loop (Datatypes.S (length src)) (pkg_step HiiHandle title)
        (PKG_LIST_HEADER, mkExp data (u32 (DataSize + PKG_LIST_HEADER)) PKG_LIST_HEADER src value);
  data ← wr32 (e_data e) (CurrentHpkList + 16) (e_listsize e);
  Done (data, e_size e, e_value e).

(** One handle. *)
Definition export_handle (s : list Z * Z * Z * list SMC_GUID_HANDLE) (HiiHandle : Z)
    : Res (list Z * Z * Z * list SMC_GUID_HANDLE) :=
  let '(data, DataSize, value, GuidHandleMap) := s in
  let '(Status, src) := GetExportPackageLists db HiiHandle MAX_HPK_LIST_SIZE in
  if EFI_ERROR Status then Done s
  else
    '(Status, r) ← FindFormsetData HiiLibGetString HiiHandle src;
    match r with
    | None => Done s
    | Some (title, pIfrFormSet) =>
        g ← FORM_SET_Guid src pIfrFormSet;
        if negb (AllowedHpk (UnicodeStrToAsciiStr title) g) then Done s
        else
          '(data, DataSize, value) ← export_list HiiHandle title src (data, DataSize, value);
          Done (data, DataSize, value, AddGuidHandle g HiiHandle GuidHandleMap)
    end.

(** The loop ends at the NULL slot. *)
Fixpoint export_handles (hs : list Z) (s : list Z * Z * Z * list SMC_GUID_HANDLE)
    : Res (list Z * Z * Z * list SMC_GUID_HANDLE) :=
  match hs with
  | [] => Done s
  | h :: hs => if h =? 0 then Done s else s ← export_handle s h; export_handles hs s
  end.

Definition EnumerateHpkList (ItemValue : Z) (st : hii_statics)
    : Res (list Z * Z * Z * list SMC_GUID_HANDLE * hii_statics) :=
  let '(Status, hs, st) := GetListPackageListsHandle db st in
  if EFI_ERROR Status then Done ([], 0, ItemValue, GuidHandleMap0, st)
  else if st_freed st then Fault
  else
    s ← export_handles hs ([], 0, ItemValue, GuidHandleMap0);
    Done (s, mkStatics (st_handles st) true).
End enumerate.

(** ** Copying *)
Lemma emit_ok out bs : zlen out + zlen bs <= MAX_PACKAGELISTS_SIZE -> emit out bs = Done (out ++ bs).
Proof. intros H. unfold emit. by replace (_ <=? _) with true by lia. Qed.

Lemma copy_op_ok b p c sc pl out :
  found b p (op_bytes c sc pl) -> fits pl -> zlen out + (2 + zlen pl) <= MAX_PACKAGELISTS_SIZE ->
  copy_op b p out = Done (out ++ op_bytes c sc pl).
Proof.
  intros Hf Hfit Hl. unfold copy_op. rewrite (found_op_length _ _ _ _ _ Hfit Hf), bind_Done.
  rewrite (found_rdn _ _ _ _ Hf), bind_Done by (by rewrite zlen_op_bytes).
  apply emit_ok. by rewrite zlen_op_bytes.
Qed.

Lemma SearchForOpNodeEnd_mono n m b p out r :
  SearchForOpNodeEnd n b p out = Done r -> (n <= m)%nat -> SearchForOpNodeEnd m b p out = Done r.
Proof.
  revert m p out r. induction n as [|n IH]; intros m p out r; [done|].
  destruct m as [|m]; [lia|]. cbn [SearchForOpNodeEnd]. intros (o & Ho & H)%bind_inv Hm.
  rewrite Ho, bind_Done. apply bind_inv in H as (c & Hc & H). rewrite Hc, bind_Done.
  destruct (c =? EFI_IFR_END_OP); [done|].
  apply bind_inv in H as (sc & E2 & H). rewrite E2, bind_Done.
  apply bind_inv in H as (l & E3 & H). rewrite E3, bind_Done.
  apply bind_inv in H as ([q o2] & E4 & H).
  assert (E4' : (if sc =? 1 then SearchForOpNodeEnd m b (p + l) o else Done (p, o)) = Done (q, o2)).
  { destruct (sc =? 1); [|done]. apply IH; [done|lia]. }
  rewrite E4', bind_Done. apply bind_inv in H as (l2 & E5 & H). rewrite E5, bind_Done.
  apply IH; [done|lia].
Qed.

(** The scope's end alone. *)
Lemma search_END b p out m :
  found b p END_bytes -> zlen out + 2 <= MAX_PACKAGELISTS_SIZE ->
  SearchForOpNodeEnd (Datatypes.S m) b p out = Done (p, out ++ END_bytes).
Proof.
  intros Hf Hl. cbn [SearchForOpNodeEnd]. rewrite (copy_op_ok b p EFI_IFR_END_OP false []) by (done || apply fits_nil).
  rewrite bind_Done. destruct (END_facts _ _ Hf) as (-> & _ & _). by rewrite bind_Done.
Qed.

Lemma search_forest b f : forall p out m r,
  found b p (enc f) -> forest_ok f -> zlen out + zlen (enc f) <= MAX_PACKAGELISTS_SIZE ->
  SearchForOpNodeEnd m b (p + zlen (enc f)) (out ++ enc f) = Done r ->
  SearchForOpNodeEnd (ops f + m) b p out = Done r.
Proof.
  induction f as [|c pl f IH|c pl kids IHk rest IHr]; intros p out m r Hf Hok Hl Hr; cbn [enc] in *.
  - by rewrite zlen_nil, Z.add_0_r, app_nil_r in Hr.
  - apply found_app in Hf as [H1 H2]. destruct Hok as (Hne & Hfit & Hok).
    rewrite zlen_app in Hl, Hr. rewrite zlen_op_bytes in H2, Hl, Hr. pose proof (zlen_nonneg (enc f)).
    cbn [ops Nat.add SearchForOpNodeEnd].
    rewrite (copy_op_ok b p c false pl), bind_Done by (done || lia).
    rewrite (found_op_code _ _ _ _ _ H1), bind_Done. replace (c =? EFI_IFR_END_OP) with false by lia.
    rewrite (found_op_scope _ _ _ _ _ Hfit H1), bind_Done.
    rewrite (found_op_length _ _ _ _ _ Hfit H1), bind_Done. cbn [b2z Z.eqb].
    rewrite bind_Done, (found_op_length _ _ _ _ _ Hfit H1), bind_Done.
    apply IH; [done|done|zl|]. by rewrite <- app_assoc, <- Z.add_assoc.
  - apply found_app in Hf as [H1 H2]. destruct Hok as (Hne & Hfit & Hok & Hok').
    rewrite zlen_op_bytes in H2. apply found_app in H2 as [H2 H3]. apply found_app in H3 as [H3 H4].
    rewrite zlen_END_bytes in H4. rewrite !zlen_app, zlen_op_bytes, zlen_END_bytes in Hl, Hr.
    pose proof (zlen_nonneg (enc kids)). pose proof (zlen_nonneg (enc rest)).
    set (n := (1 + ops kids + ops rest + m)%nat).
    replace (ops (FScope c pl kids rest) + m)%nat with (Datatypes.S n) by (unfold n; cbn [ops]; lia).
    cbn [SearchForOpNodeEnd]. rewrite (copy_op_ok b p c true pl), bind_Done by (done || lia).
    rewrite (found_op_code _ _ _ _ _ H1), bind_Done. replace (c =? EFI_IFR_END_OP) with false by lia.
    rewrite (found_op_scope _ _ _ _ _ Hfit H1), bind_Done.
    rewrite (found_op_length _ _ _ _ _ Hfit H1), bind_Done. cbn [b2z Z.eqb Pos.eqb].
    assert (Ek : SearchForOpNodeEnd n b (p + (2 + zlen pl)) (out ++ op_bytes c true pl) =
      Done (p + (2 + zlen pl) + zlen (enc kids), (out ++ op_bytes c true pl) ++ enc kids ++ END_bytes)).
    { replace n with (ops kids + Datatypes.S (ops rest + m))%nat by (unfold n; lia).
      apply IHk; [done|done|zl|]. rewrite search_END; [|done|zl]. by rewrite <- !app_assoc. }
    rewrite Ek, bind_Done. destruct (END_facts _ _ H3) as (_ & -> & _). rewrite bind_Done.
    replace n with (ops rest + Datatypes.S (ops kids + m))%nat by (unfold n; lia).
    apply IHr; [done|done|zl|]. apply SearchForOpNodeEnd_mono with m; [|lia].
    rewrite <- !app_assoc. rewrite <- Hr. f_equal. lia.
Qed.

Lemma ops_zlen f : Z.of_nat (ops f) <= zlen (enc f).
Proof. induction f; cbn [ops enc]; rewrite ?zlen_app, ?zlen_op_bytes, ?zlen_END_bytes; zl. Qed.

(** The copy of a whole scope behind its opener. *)
Lemma search_scope b kids p out :
  found b p (enc kids ++ END_bytes) -> forest_ok kids ->
  zlen out + zlen (enc kids) + 2 <= MAX_PACKAGELISTS_SIZE ->
  SearchForOpNodeEnd (Datatypes.S (length b)) b p out =
  Done (p + zlen (enc kids), out ++ enc kids ++ END_bytes).
Proof.
  intros Hf Hok Hl. pose proof (found_bound _ _ _ Hf) as [? Hb]. rewrite zlen_app, zlen_END_bytes in Hb.
  pose proof (ops_zlen kids). apply found_app in Hf as [H1 H2].
  apply SearchForOpNodeEnd_mono with (ops kids + 1)%nat; [|unfold zlen in *; lia].
  apply search_forest; [done|done|zl|]. rewrite search_END; [|done|zl]. by rewrite <- app_assoc.
Qed.

(** ** What the opcode loop makes of a form set *)

(** Value and flags of an option's payload: string id (2), flags, type,
    value. *)
Definition value_size (ty : Z) : nat :=
  if ty =? 1 then 2 else if ty =? 2 then 4 else if ty =? 3 then 8 else 1.
Definition option_type (pl : list Z) : Z := default 0 (pl !! 3%nat).
Definition option_value (pl : list Z) : Z := le_val (take (value_size (option_type pl)) (drop 4 pl)).
Definition option_ok (pl : list Z) : Prop :=
  4 + Z.of_nat (value_size (option_type pl)) <= zlen pl.

Definition with_flags (pl : list Z) (v : Z) : list Z :=
  take 2 pl ++ [if option_value pl =? v then 0x10 else 0] ++ drop 3 pl.

Section spec.
Context (get : Z -> Z -> EFI_STATUS * list Z) (search : list Z -> Z -> bool).
Context (IpmiLanSelection HiiHandle : Z) (title : list Z).

(** The prompt buffers and [ItemValue]. *)
Record pstate := mkP { p_wide : option (list Z); p_ascii : option (list Z); p_value : Z }.

Definition sync_option (st : pstate) (pl : list Z) : Res (list Z) :=
  let t := FormSetTitle title in
  pl ← (if str_eqb t (str "IPMI") then
          match p_ascii st with
          | None => Fault
          | Some prompt =>
              Done (if str_eqb prompt (str "IPMI LAN Selection") && negb (p_value st =? 0xffffffff)
                    then with_flags pl (p_value st) else pl)
          end
        else Done pl);
  if str_eqb t (str "FixedBootOrder Group Form") then
    match p_ascii st with
    | None => Fault
    | Some prompt =>
        Done (fold_left (fun pl i => if str_eqb prompt (boot_prompt i) then with_flags pl (i - 1) else pl)
                (map Z.of_nat (seq 1 15)) pl)
    end
  else Done pl.

(** Hidden or not, the payload afterwards, the new prompt state. *)
Definition item (c : Z) (pl : list Z) (st : pstate) : Res (bool * list Z * pstate) :=
  let Prompt := le_val (take 2 pl) in
  if c =? EFI_IFR_ONE_OF_OP then
    let '(Status, text) := get HiiHandle Prompt in
    match (if EFI_ERROR Status then p_wide st else Some text) with
    | None => Fault
    | Some w =>
        let a := UnicodeStrToAsciiStr w in
        Done (search title Prompt, pl,
              mkP (Some w) (Some a) (PreUpdateOpData IpmiLanSelection (FormSetTitle title) a (p_value st)))
    end
  else if c =? EFI_IFR_ONE_OF_OPTION_OP then
    pl ← sync_option st pl; Done (false, pl, st)
  else if is_item c then Done (search title Prompt, pl, st)
  else Done (false, pl, st).

(** A node inside [suppressif TRUE]. *)
Definition suppressed (node : forest -> forest) (rest : forest) : forest :=
  FScope EFI_IFR_SUPPRESS_IF_OP [] (FLeaf EFI_IFR_TRUE_OP [] (node FNil)) rest.

(** The exported forest, the source forest with its updated flags, and
    whether anything was wrapped. A hidden node goes with its whole scope,
    as it is. *)
Fixpoint hide_items (f : forest) (st : pstate) : Res (forest * forest * bool * pstate) :=
  match f with
  | FNil => Done (FNil, FNil, false, st)
  | FLeaf c pl rest =>
      '(hid, pl, st) ← item c pl st;
      '(o, u, n, st) ← hide_items rest st;
      Done (if (hid : bool) then suppressed (FLeaf c pl) o else FLeaf c pl o, FLeaf c pl u, hid || n, st)
  | FScope c pl kids rest =>
      '(hid, pl, st) ← item c pl st;
      if (hid : bool) then
        '(o, u, n, st) ← hide_items rest st;
        Done (suppressed (FScope c pl kids) o, FScope c pl kids u, true, st)
      else
        '(ok, uk, nk, st) ← hide_items kids st;
        '(o, u, n, st) ← hide_items rest st;
        Done (FScope c pl ok o, FScope c pl uk u, nk || n, st)
  end.

(** Questions have a prompt, options their fields. *)
Definition payload_ok (c : Z) (pl : list Z) : Prop :=
  fits pl /\ bytes_ok pl /\ c <> EFI_IFR_END_OP /\
  (c = EFI_IFR_ONE_OF_OP \/ is_item c = true -> 2 <= zlen pl) /\
  (c = EFI_IFR_ONE_OF_OPTION_OP -> option_ok pl).

Fixpoint items_ok (f : forest) : Prop :=
  match f with
  | FNil => True
  | FLeaf c pl rest => payload_ok c pl /\ items_ok rest
  | FScope c pl kids rest => payload_ok c pl /\ items_ok kids /\ items_ok rest
  end.
End spec.

(** ** Payload access *)
Lemma zlen_with_flags pl v : 3 <= zlen pl -> zlen (with_flags pl v) = zlen pl.
Proof. intros H. unfold with_flags. zl. Qed.

Lemma with_flags_type pl v : 4 <= zlen pl -> option_type (with_flags pl v) = option_type pl.
Proof.
  intros H. unfold option_type, with_flags. destruct pl as [|a [|b [|c [|d pl]]]]; try (exfalso; zl). done.
Qed.

Lemma with_flags_ok pl v : option_ok pl -> option_ok (with_flags pl v).
Proof.
  unfold option_ok. intros H. rewrite with_flags_type by lia. by rewrite zlen_with_flags by lia.
Qed.

Lemma GetTypeValue_ok b p pl :
  found b p pl -> option_ok pl -> GetTypeValue (option_type pl) b (p + 4) = Done (option_value pl).
Proof.
  intros Hf Ho. unfold option_ok in Ho. unfold option_value, GetTypeValue.
  assert (R : forall n z, z = Z.of_nat n -> n = value_size (option_type pl) ->
    rdn b (p + 4) z = Done (take n (drop 4 pl))).
  { intros n z -> ->. rewrite (found_part b p pl 4) by (done || lia). by rewrite Nat2Z.id. }
  unfold value_size in *. rewrite rd8_rdn. unfold rd16, rd32, rd64.
  destruct (Z.eqb_spec (option_type pl) 0) as [E|]; [rewrite E in *; by rewrite (R 1%nat 1 eq_refl eq_refl)|].
  destruct (option_type pl =? 1); [by rewrite (R 2%nat) by done|].
  destruct (option_type pl =? 2); [by rewrite (R 4%nat) by done|].
  destruct (option_type pl =? 3); [by rewrite (R 8%nat) by done|by rewrite (R 1%nat) by done].
Qed.

Lemma set_default_ok pre c sc pl post v :
  option_ok pl ->
  set_default (pre ++ op_bytes c sc pl ++ post) (zlen pre) v =
  Done (pre ++ op_bytes c sc (with_flags pl v) ++ post).
Proof.
  intros Ho. unfold option_ok in Ho. unfold set_default.
  assert (Hf : found (pre ++ op_bytes c sc pl ++ post) (zlen pre + 2) pl).
  { apply (found_payload _ _ c sc). apply found_at. }
  assert (Ht : rd8 (pre ++ op_bytes c sc pl ++ post) (zlen pre + 5) = Done (option_type pl)).
  { rewrite rd8_rdn. replace (zlen pre + 5) with (zlen pre + 2 + 3) by lia.
    rewrite (found_part _ _ pl 3 1 Hf) by lia. rewrite bind_Done. unfold option_type.
    destruct pl as [|x0 [|x1 [|x2 [|x3 pl]]]]; try (exfalso; zl).
    change (Z.to_nat 1) with 1%nat. change (Z.to_nat 3) with 3%nat.
    cbn [drop take]. rewrite take_0. cbn [le_val]. by rewrite Z.mul_0_r, Z.add_0_r. }
  rewrite Ht, bind_Done. replace (zlen pre + 6) with (zlen pre + 2 + 4) by lia.
  rewrite (GetTypeValue_ok _ _ pl Hf Ho), bind_Done.
  destruct pl as [|x0 [|x1 [|x2 pl]]]; try (exfalso; zl).
  unfold wr8. set (w := if _ =? v then _ else _).
  assert (Hw : [u8 w] = [w]) by (unfold w; by destruct (_ =? v)). rewrite Hw. unfold op_bytes.
  rewrite (wrn_as _ (pre ++ [c; 2 + zlen (x0 :: x1 :: x2 :: pl) + 128 * b2z sc; x0; x1]) [x2] (pl ++ post)).
  - unfold with_flags. fold w. cbn [take drop app].
    f_equal. rewrite <- app_assoc. cbn [app]. by do 4 f_equal.
  - by rewrite <- app_assoc.
  - zl.
  - done.
Qed.

Section items.
Context (get : Z -> Z -> EFI_STATUS * list Z) (search : list Z -> Z -> bool).
Context (IpmiLanSelection HiiHandle : Z) (title : list Z).

Lemma sync_option_zlen st pl pl' :
  option_ok pl -> sync_option title st pl = Done pl' -> option_ok pl' /\ zlen pl' = zlen pl.
Proof.
  intros Ho. unfold sync_option.
  assert (W : forall pl v, option_ok pl -> option_ok (with_flags pl v) /\ zlen (with_flags pl v) = zlen pl).
  { intros q v Hq. split; [by apply with_flags_ok|]. apply zlen_with_flags. unfold option_ok in Hq. lia. }
  assert (Fd : forall (g : Z -> bool) l q, option_ok q ->
    let r := fold_left (fun pl i => if g i then with_flags pl (i - 1) else pl) l q in
    option_ok r /\ zlen r = zlen q).
  { intros g l. induction l as [|i l IH]; intros q Hq; cbn [fold_left]; [done|].
    destruct (g i); [|by apply IH]. destruct (W q (i - 1) Hq) as [W1 W2].
    destruct (IH _ W1) as [I1 I2]. by rewrite <- W2. }
  intros (pl1 & H1 & H2)%bind_inv.
  assert (Ho1 : option_ok pl1 /\ zlen pl1 = zlen pl).
  { destruct (str_eqb _ (str "IPMI")); [|by injection H1 as <-].
    destruct (p_ascii st) as [a|]; [|done]. injection H1 as <-. destruct (_ && _); [by apply W|done]. }
  destruct Ho1 as [Ho1 Hz1]. rewrite <- Hz1.
  destruct (str_eqb _ (str "FixedBootOrder Group Form")); [|by injection H2 as <-].
  destruct (p_ascii st) as [a|]; [|done]. apply Done_inj in H2 as ->. by apply Fd.
Qed.

(** [UpdateOpData] on an option in place. *)
Lemma UpdateOpData_ok pre sc pl post st :
  let c := EFI_IFR_ONE_OF_OPTION_OP in
  option_ok pl ->
  UpdateOpData (FormSetTitle title) (p_ascii st) (p_value st) (pre ++ op_bytes c sc pl ++ post) (zlen pre) =
  (pl ← sync_option title st pl; Done (pre ++ op_bytes c sc pl ++ post)).
Proof.
  intros c Ho. unfold UpdateOpData, sync_option.
  set (t := FormSetTitle title).
  assert (Fd : forall (g : Z -> bool) l q, option_ok q ->
    foldM (fun b i => if g i then set_default b (zlen pre) (i - 1) else Done b) l (pre ++ op_bytes c sc q ++ post) =
    Done (pre ++ op_bytes c sc (fold_left (fun pl i => if g i then with_flags pl (i - 1) else pl) l q) ++ post)).
  { intros g l. induction l as [|i l IH]; intros q Hq; cbn [foldM fold_left]; [done|].
    destruct (g i).
    - rewrite set_default_ok, bind_Done by done. by apply IH, with_flags_ok.
    - rewrite bind_Done. by apply IH. }
  assert (Second : forall q, option_ok q ->
    (if str_eqb t (str "FixedBootOrder Group Form") then
       match p_ascii st with
       | None => Fault
       | Some prompt =>
           foldM (fun b i => if str_eqb prompt (boot_prompt i) then set_default b (zlen pre) (i - 1) else Done b)
             (map Z.of_nat (seq 1 15)) (pre ++ op_bytes c sc q ++ post)
       end
     else Done (pre ++ op_bytes c sc q ++ post)) =
    (q ← (if str_eqb t (str "FixedBootOrder Group Form") then
       match p_ascii st with
       | None => Fault
       | Some prompt =>
           Done (fold_left (fun pl i => if str_eqb prompt (boot_prompt i) then with_flags pl (i - 1) else pl)
                (map Z.of_nat (seq 1 15)) q)
       end else Done q); Done (pre ++ op_bytes c sc q ++ post))).
  { intros q Hq. destruct (str_eqb t _); [|done]. destruct (p_ascii st) as [a|]; [|done].
    rewrite bind_Done. by apply (Fd (fun i => str_eqb a (boot_prompt i))). }
  rewrite bind_assoc. destruct (str_eqb t (str "IPMI")).
  - destruct (p_ascii st) as [a|] eqn:Ea; [|done].
    destruct (_ && _).
    + rewrite set_default_ok, !bind_Done by done. apply Second. by apply with_flags_ok.
    + rewrite !bind_Done. by apply Second.
  - rewrite !bind_Done. by apply Second.
Qed.

Lemma item_payload c pl st hid pl' st' :
  payload_ok c pl -> item get search IpmiLanSelection HiiHandle title c pl st = Done (hid, pl', st') ->
  fits pl' /\ zlen pl' = zlen pl /\ (hid = true -> pl' = pl).
Proof.
  intros (Hf & _ & _ & _ & Ho). unfold item.
  destruct (c =? EFI_IFR_ONE_OF_OP).
  { destruct (get _ _) as [s w]. destruct (if EFI_ERROR s then _ else _); [|done].
    by intros [= <- <- <-]. }
  destruct (Z.eqb_spec c EFI_IFR_ONE_OF_OPTION_OP) as [->|].
  - intros (q & Hq & [= <- <- <-])%bind_inv. destruct (sync_option_zlen _ _ _ (Ho eq_refl) Hq) as [_ Hz].
    unfold fits in *. rewrite Hz. done.
  - destruct (is_item c); by intros [= <- <- <-].
Qed.

Definition state_of (src out : list Z) (need : bool) (st : pstate) : op_state :=
  mkOps src out need (p_wide st) (p_ascii st) (p_value st).

(** The [switch] of the loop is [item]. *)
Lemma op_switch_item pre c sc pl post out need st :
  payload_ok c pl ->
  op_switch get search IpmiLanSelection HiiHandle title c (zlen pre)
    (state_of (pre ++ op_bytes c sc pl ++ post) out need st) =
  ('(hid, pl, st) ← item get search IpmiLanSelection HiiHandle title c pl st;
   Done (hid, state_of (pre ++ op_bytes c sc pl ++ post) out need st)).
Proof.
  intros (Hf & Hb & _ & Hq & Ho). unfold op_switch, item. cbn [state_of x_src x_out x_need x_wide x_ascii x_value].
  assert (Hp : c = EFI_IFR_ONE_OF_OP \/ is_item c = true ->
    QUESTION_Prompt (pre ++ op_bytes c sc pl ++ post) (zlen pre) = Done (le_val (take 2 pl))).
  { intros Hc. unfold QUESTION_Prompt, rd16. replace (zlen pre + 2) with (zlen pre + 2 + 0) by lia.
    rewrite (found_part _ _ pl 0 2); [done|apply (found_payload _ _ c sc), found_at|lia|lia|].
    specialize (Hq Hc). lia. }
  destruct (Z.eqb_spec c EFI_IFR_ONE_OF_OP) as [E|].
  { rewrite Hp by auto. rewrite bind_Done. destruct (get _ _) as [s w].
    by destruct (if EFI_ERROR s then _ else _). }
  destruct (Z.eqb_spec c EFI_IFR_ONE_OF_OPTION_OP) as [->|].
  - rewrite (UpdateOpData_ok pre sc pl post st) by auto. rewrite !bind_assoc.
    by destruct (sync_option title st pl).
  - destruct (is_item c); [|done]. by rewrite Hp, !bind_Done by auto.
Qed.
End items.

(** ** The loop over a form set *)
Section loop.
Context (get : Z -> Z -> EFI_STATUS * list Z) (search : list Z -> Z -> bool).
Context (IpmiLanSelection HiiHandle : Z) (title : list Z) (stop : Z).

#[local] Abbreviation step := (op_step get search IpmiLanSelection HiiHandle title stop).
#[local] Abbreviation itm := (item get search IpmiLanSelection HiiHandle title).
#[local] Abbreviation hide := (hide_items get search IpmiLanSelection HiiHandle title).

Lemma set_out_state src out need st out' need' :
  set_out (state_of src out need st) out' need' = state_of src out' need' st.
Proof. done. Qed.

(** An opcode that stays visible. *)
Lemma step_visible pre c sc pl post out need st pl' st' :
  payload_ok c pl -> itm c pl st = Done (false, pl', st') ->
  zlen pre + (2 + zlen pl) <= stop -> zlen out + (2 + zlen pl) <= MAX_PACKAGELISTS_SIZE ->
  step (zlen pre, state_of (pre ++ op_bytes c sc pl ++ post) out need st) =
  Done (inl (zlen pre + (2 + zlen pl),
             state_of (pre ++ op_bytes c sc pl' ++ post) (out ++ op_bytes c sc pl') need st')).
Proof.
  intros Hp Hi Hs Hl. destruct (item_payload _ _ _ _ _ _ _ _ _ _ _ Hp Hi) as (Hf & Hz & _).
  pose proof Hp as (Hf0 & _). unfold op_step. pose proof (zlen_nonneg pl).
  replace (zlen pre <? stop) with true by lia. cbn [state_of x_src].
  rewrite (found_op_code _ _ c sc pl (found_at _ _ _)), bind_Done.
  rewrite (op_switch_item get search IpmiLanSelection HiiHandle title pre c sc pl post out need st Hp), Hi, !bind_Done.
  unfold op_copy. rewrite (copy_op_ok _ _ c sc pl'); [|apply found_at|done|cbn [state_of x_out]; lia].
  rewrite !bind_Done, set_out_state. cbn [state_of x_src x_out x_need].
  by rewrite (found_op_length _ _ c sc pl' Hf (found_at _ _ _)), bind_Done, Hz.
Qed.

(** A hidden opcode with its scope. *)
Definition node (c : Z) (pl : list Z) (kids : option forest) (rest : forest) : forest :=
  match kids with Some k => FScope c pl k rest | None => FLeaf c pl rest end.

Lemma enc_node c pl kids rest : enc (node c pl kids rest) = enc (node c pl kids FNil) ++ enc rest.
Proof. destruct kids; cbn [node enc]; by rewrite <- ?app_assoc, ?app_nil_r. Qed.

Lemma step_hidden pre c pl kids post out need st pl' st' :
  payload_ok c pl -> match kids with Some k => forest_ok k | None => True end ->
  itm c pl st = Done (true, pl', st') ->
  zlen pre + zlen (enc (node c pl kids FNil)) <= stop ->
  zlen out + zlen (enc (suppressed (node c pl kids) FNil)) <= MAX_PACKAGELISTS_SIZE ->
  step (zlen pre, state_of (pre ++ enc (node c pl kids FNil) ++ post) out need st) =
  Done (inl (zlen pre + zlen (enc (node c pl kids FNil)),
             state_of (pre ++ enc (node c pl kids FNil) ++ post)
               (out ++ enc (suppressed (node c pl kids) FNil)) true st')).
Proof.
  intros Hp Hk Hi Hs Hl. destruct (item_payload _ _ _ _ _ _ _ _ _ _ _ Hp Hi) as (_ & _ & Hpl).
  rewrite (Hpl eq_refl) in *. clear Hpl.
  pose proof Hp as (Hf0 & _). unfold op_step. pose proof (zlen_nonneg pl).
  set (sc := match kids with Some _ => true | None => false end).
  set (tail := match kids with Some k => enc k ++ END_bytes | None => [] end).
  assert (En : enc (node c pl kids FNil) = op_bytes c sc pl ++ tail).
  { destruct kids; cbn [node enc]; by rewrite ?app_nil_r. }
  assert (Es : enc (suppressed (node c pl kids) FNil) =
    op_bytes EFI_IFR_SUPPRESS_IF_OP true [] ++ op_bytes EFI_IFR_TRUE_OP false [] ++
    op_bytes c sc pl ++ tail ++ END_bytes).
  { unfold suppressed. cbn [enc]. by rewrite En, app_nil_r, <- !app_assoc. }
  rewrite Es in Hl |- *. rewrite En in Hs |- *. rewrite !zlen_app, !zlen_op_bytes, zlen_END_bytes, !zlen_nil in Hl.
  rewrite zlen_app, zlen_op_bytes in Hs. pose proof (zlen_nonneg tail).
  replace (zlen pre <? stop) with true by lia. cbn [state_of x_src]. rewrite <- app_assoc.
  rewrite (found_op_code _ _ c sc pl (found_at _ _ _)), bind_Done.
  rewrite (op_switch_item get search IpmiLanSelection HiiHandle title pre c sc pl _ out need st Hp), Hi, !bind_Done.
  unfold op_copy, InsertIfrSuppressIf, InsertIfrTrue, InsertIfrEnd. cbn [state_of x_src x_out].
  rewrite emit_ok, bind_Done by zl. rewrite emit_ok, bind_Done by zl.
  rewrite (copy_op_ok _ _ c sc pl), bind_Done by (apply found_at || done || zl).
  rewrite (found_op_scope _ _ c sc pl Hf0 (found_at _ _ _)), bind_Done.
  rewrite (found_op_length _ _ c sc pl Hf0 (found_at _ _ _)), bind_Done.
  set (b := pre ++ op_bytes c sc pl ++ tail ++ post).
  set (out1 := (_ ++ _) ++ op_bytes c sc pl).
  assert (E : exists q, (if negb (b2z sc =? 0)
      then SearchForOpNodeEnd (Datatypes.S (length b)) b (zlen pre + (2 + zlen pl)) out1
      else Done (zlen pre, out1)) = Done (q, out1 ++ tail) /\
    exists l, op_length b q = Done l /\ q + l = zlen pre + zlen (op_bytes c sc pl ++ tail)).
  { destruct kids as [k|]; cbn [b2z Z.eqb negb sc].
    - exists (zlen pre + (2 + zlen pl) + zlen (enc k)). assert (Hf : found b (zlen pre + (2 + zlen pl)) (enc k ++ END_bytes)).
      { unfold b. rewrite app_assoc. apply found_split. eexists _, post. split; [done|]. zl. }
      split.
      + rewrite (search_scope b k); [by subst tail|done|done|]. unfold out1. subst tail. zl.
      + exists 2. split; [|subst tail; zl]. apply found_app in Hf as [_ Hf].
        by destruct (END_facts _ _ Hf) as (_ & ? & _).
    - exists (zlen pre). subst tail. rewrite !app_nil_r. split; [done|]. exists (2 + zlen pl).
      split; [|zl]. unfold b. by apply (found_op_length _ _ c sc pl Hf0 (found_at _ _ _)). }
  destruct E as (q & E & l & El & Eq). cbn [b2z Z.eqb negb] in E. rewrite E, bind_Done.
  rewrite emit_ok, bind_Done by (unfold out1; zl). rewrite bind_Done. rewrite set_out_state.
  cbn [state_of x_src]. rewrite El, bind_Done, Eq. unfold out1. by rewrite <- !app_assoc.
Qed.

Lemma step_END pre post out need st :
  zlen pre + 2 <= stop -> zlen out + 2 <= MAX_PACKAGELISTS_SIZE ->
  step (zlen pre, state_of (pre ++ END_bytes ++ post) out need st) =
  Done (inl (zlen pre + 2, state_of (pre ++ END_bytes ++ post) (out ++ END_bytes) need st)).
Proof.
  intros Hs Hl. unfold op_step. replace (zlen pre <? stop) with true by lia. cbn [state_of x_src].
  destruct (END_facts _ _ (found_at pre END_bytes post)) as (-> & EL & _). rewrite bind_Done.
  assert (Esw : forall s, op_switch get search IpmiLanSelection HiiHandle title EFI_IFR_END_OP (zlen pre) s =
    Done (false, s)) by done.
  rewrite Esw, bind_Done. unfold op_copy. cbn [state_of x_src x_out].
  rewrite (copy_op_ok _ _ EFI_IFR_END_OP false []), !bind_Done by (apply found_at || apply fits_nil || zl).
  rewrite set_out_state. cbn [state_of x_src]. by rewrite EL, bind_Done.
Qed.

Lemma items_forest_ok f : items_ok f -> forest_ok f.
Proof.
  induction f as [|c pl f IH|c pl k IHk r IHr]; cbn [items_ok forest_ok]; [done| |].
  - intros [(Hf & _ & Hne & _) H]. auto.
  - intros [(Hf & _ & Hne & _) [H H']]. auto.
Qed.

Lemma enc_suppressed n o : enc (suppressed n o) = enc (suppressed n FNil) ++ enc o.
Proof. unfold suppressed. cbn [enc]. by rewrite app_nil_r, <- !app_assoc. Qed.

(** The source keeps its length. *)
Lemma hide_zlen f : forall st o u n st',
  items_ok f -> hide f st = Done (o, u, n, st') -> zlen (enc u) = zlen (enc f).
Proof.
  induction f as [|c pl f IH|c pl k IHk r IHr]; intros st o u n st' Hok Hh; cbn [hide_items] in Hh.
  - by injection Hh as <- <- <- <-.
  - destruct Hok as [Hp Hok]. apply bind_inv in Hh as ([[hid pl'] st1] & Hi & Hh).
    apply bind_inv in Hh as ([[[o1 u1] n1] st2] & Hr & [= <- <- <- <-]).
    destruct (item_payload _ _ _ _ _ _ _ _ _ _ _ Hp Hi) as (_ & Hz & _). specialize (IH _ _ _ _ _ Hok Hr).
    cbn [enc]. rewrite !zlen_app, !zlen_op_bytes. lia.
  - destruct Hok as (Hp & Hk & Hok). apply bind_inv in Hh as ([[hid pl'] st1] & Hi & Hh).
    destruct (item_payload _ _ _ _ _ _ _ _ _ _ _ Hp Hi) as (_ & Hz & _). destruct hid.
    + apply bind_inv in Hh as ([[[o1 u1] n1] st2] & Hr & [= <- <- <- <-]).
      specialize (IHr _ _ _ _ _ Hok Hr). cbn [enc]. rewrite !zlen_app, !zlen_op_bytes. lia.
    + apply bind_inv in Hh as ([[[o0 u0] n0] st0] & Hrk & Hh).
      apply bind_inv in Hh as ([[[o1 u1] n1] st2] & Hr & [= <- <- <- <-]).
      specialize (IHk _ _ _ _ _ Hk Hrk). specialize (IHr _ _ _ _ _ Hok Hr).
      cbn [enc]. rewrite !zlen_app, !zlen_op_bytes. lia.
Qed.

Lemma loop_next {A B} (stp : A -> Res (A + B)) k x y r :
  stp x = Done (inl y) -> loop k stp y = Done r -> loop (Datatypes.S k) stp x = Done r.
Proof. intros E H. by rewrite loop_S, E, bind_Done. Qed.

(** A hidden item, when the loop is known to go over what follows it. *)
Lemma walk_hidden c pl kids rest pre post out need st pl' st1 o1 u1 n1 st2 k r :
  payload_ok c pl -> match kids with Some k => forest_ok k | None => True end ->
  itm c pl st = Done (true, pl', st1) ->
  (forall pre out need,
     zlen pre + zlen (enc rest) <= stop -> zlen out + zlen (enc o1) <= MAX_PACKAGELISTS_SIZE ->
     loop k step (zlen pre + zlen (enc rest),
       state_of (pre ++ enc u1 ++ post) (out ++ enc o1) (need || n1) st2) = Done r ->
     loop (ops rest + k) step (zlen pre, state_of (pre ++ enc rest ++ post) out need st1) = Done r) ->
  zlen pre + zlen (enc (node c pl kids rest)) <= stop ->
  zlen out + zlen (enc (suppressed (node c pl kids) o1)) <= MAX_PACKAGELISTS_SIZE ->
  loop k step (zlen pre + zlen (enc (node c pl kids rest)),
    state_of (pre ++ enc (node c pl kids u1) ++ post)
      (out ++ enc (suppressed (node c pl kids) o1)) true st2) = Done r ->
  loop (1 + (ops rest + k)) step (zlen pre, state_of (pre ++ enc (node c pl kids rest) ++ post) out need st)
    = Done r.
Proof.
  intros Hp Hk Hi IH Hs Hl Hr.
  rewrite enc_suppressed in Hl, Hr. rewrite zlen_app in Hl.
  rewrite enc_node in Hs, Hr |- *. rewrite (enc_node c pl kids u1) in Hr. rewrite zlen_app in Hs, Hr.
  pose proof (zlen_nonneg (enc o1)). pose proof (zlen_nonneg (enc rest)).
  destruct (item_payload _ _ _ _ _ _ _ _ _ _ _ Hp Hi) as (_ & _ & Heq). rewrite (Heq eq_refl) in *.
  set (N := enc (node c pl kids FNil)) in *. rewrite <- app_assoc. eapply loop_next.
  - apply (step_hidden pre c pl kids (enc rest ++ post) out need st pl st1 Hp Hk Hi); fold N; lia.
  - fold N. rewrite <- zlen_app, app_assoc. apply IH; [zl|rewrite zlen_app; lia|].
    rewrite zlen_app, <- !app_assoc in *. cbn [orb].
    replace (zlen pre + zlen N + zlen (enc rest)) with (zlen pre + (zlen N + zlen (enc rest))) by lia. exact Hr.
Qed.

(** The loop goes over a forest and copies what [hide_items] says. *)
Lemma op_walk f : forall pre post out need st o u n st' k r,
  items_ok f -> hide f st = Done (o, u, n, st') ->
  zlen pre + zlen (enc f) <= stop -> zlen out + zlen (enc o) <= MAX_PACKAGELISTS_SIZE ->
  loop k step (zlen pre + zlen (enc f),
               state_of (pre ++ enc u ++ post) (out ++ enc o) (need || n) st') = Done r ->
  loop (ops f + k) step (zlen pre, state_of (pre ++ enc f ++ post) out need st) = Done r.
Proof.
  induction f as [|c pl f IH|c pl kids IHk rest IHr];
    intros pre post out need st o u n st' k r Hok Hh Hs Hl Hr; cbn [hide_items] in Hh.
  - injection Hh as <- <- <- <-. cbn [enc ops Nat.add] in *.
    by rewrite zlen_nil, Z.add_0_r, app_nil_r, orb_false_r in Hr.
  - destruct Hok as [Hp Hok]. apply bind_inv in Hh as ([[hid pl'] st1] & Hi & Hh).
    apply bind_inv in Hh as ([[[o1 u1] n1] st2] & Hh1 & [= <- <- <- <-]).
    destruct (item_payload _ _ _ _ _ _ _ _ _ _ _ Hp Hi) as (_ & Hz & Heq).
    pose proof (zlen_nonneg (enc f)). destruct hid.
    + rewrite (Heq eq_refl) in *. rewrite orb_true_r in Hr.
      eapply (walk_hidden c pl None); [done|done|exact Hi| |done|done|exact Hr].
      intros. eapply IH; done.
    + cbn [enc ops Nat.add] in *. rewrite zlen_app, zlen_op_bytes in Hs, Hl, Hr. rewrite <- !app_assoc in Hr |- *.
      pose proof (zlen_nonneg (enc o1)).
      assert (Hpre : zlen (pre ++ op_bytes c false pl') = zlen pre + (2 + zlen pl)) by zl.
      eapply loop_next; [apply (step_visible pre c false pl); [done|done|lia|lia]|].
      rewrite <- Hpre, app_assoc. eapply IH; [done|done|lia|zl|].
      rewrite Hpre, <- !app_assoc. rewrite <- Hr. do 2 f_equal. lia.
  - destruct Hok as (Hp & Hk & Hok). apply bind_inv in Hh as ([[hid pl'] st1] & Hi & Hh).
    destruct (item_payload _ _ _ _ _ _ _ _ _ _ _ Hp Hi) as (_ & Hz & Heq).
    pose proof (zlen_nonneg (enc kids)). pose proof (zlen_nonneg (enc rest)).
    destruct hid.
    + apply bind_inv in Hh as ([[[o1 u1] n1] st2] & Hh1 & [= <- <- <- <-]).
      rewrite (Heq eq_refl) in *. rewrite orb_true_r in Hr.
      apply (loop_mono _ (1 + (ops rest + k))); [|cbn [ops]; lia].
      eapply (walk_hidden c pl (Some kids)); [done|by apply items_forest_ok|exact Hi| |done|done|exact Hr].
      intros. eapply IHr; done.
    + apply bind_inv in Hh as ([[[o0 u0] n0] st0] & Hhk & Hh).
      apply bind_inv in Hh as ([[[o1 u1] n1] st2] & Hh1 & [= <- <- <- <-]).
      pose proof (hide_zlen kids _ _ _ _ _ Hk Hhk) as Hzk.
      cbn [enc] in Hs, Hl, Hr |- *. rewrite !zlen_app, zlen_op_bytes, zlen_END_bytes in Hs, Hl, Hr.
      rewrite <- !app_assoc in Hr |- *. pose proof (zlen_nonneg (enc o0)). pose proof (zlen_nonneg (enc o1)).
      apply (loop_mono _ (1 + (ops kids + (1 + (ops rest + k))))); [|cbn [ops]; lia].
      eapply loop_next; [apply (step_visible pre c true pl); [done|done|lia|lia]|].
      assert (Hpre : zlen (pre ++ op_bytes c true pl') = zlen pre + (2 + zlen pl)) by zl.
      rewrite <- Hpre, app_assoc. eapply IHk; [done|done|lia|zl|]. rewrite Hpre.
      assert (Hpre2 : zlen ((pre ++ op_bytes c true pl') ++ enc u0) = zlen pre + (2 + zlen pl) + zlen (enc kids)) by zl.
      rewrite <- Hpre2, (app_assoc _ (enc u0)).
      eapply loop_next; [apply step_END; [lia|zl]|].
      assert (Hpre3 : zlen (((pre ++ op_bytes c true pl') ++ enc u0) ++ END_bytes) =
        zlen pre + (2 + zlen pl) + zlen (enc kids) + 2) by zl.
      rewrite Hpre2, <- Hpre3, (app_assoc _ END_bytes).
      eapply IHr; [done|done|lia|zl|]. rewrite Hpre3, <- !app_assoc.
      rewrite <- Hr. do 2 f_equal; [lia|]. by rewrite orb_assoc.
Qed.
End loop.

(** ** Packages and lists *)

(** An exported package: opcodes of a form set, or anything else. *)
Inductive xpkg := XForms (f : forest) | XOther (ty : Z) (data : list Z).

Definition xpkg_of (k : xpkg) : hii_pkg :=
  match k with XForms f => mkPkg EFI_HII_PACKAGE_FORMS (enc f) | XOther t d => mkPkg t d end.

Definition head_op (f : forest) : option (Z * list Z) :=
  match f with FNil => None | FLeaf c pl _ => Some (c, pl) | FScope c pl _ _ => Some (c, pl) end.

Definition xpkg_ok (k : xpkg) : Prop :=
  pkg_ok (xpkg_of k) /\
  match k with
  | XForms f => items_ok f /\ f <> FNil /\
      (forall pl, head_op f = Some (EFI_IFR_FORM_SET_OP, pl) -> 18 <= zlen pl)
  | XOther t _ => t <> EFI_HII_PACKAGE_FORMS
  end.

Section export.
Context (get : Z -> Z -> EFI_STATUS * list Z) (search : option (list Z -> Z -> bool)).
Context (IpmiLanSelection HiiHandle : Z) (title : list Z).

(** What becomes of a package: the exported one, the source with its
    updated flags, and [ItemValue]. *)
Definition export_of (k : xpkg) (value : Z) : Res (xpkg * xpkg * Z) :=
  match search, k with
  | Some search, XForms f =>
      '(o, u, _, st) ← hide_items get search IpmiLanSelection HiiHandle title f (mkP None None value);
      Done (XForms o, XForms u, p_value st)
  | _, _ => Done (k, k, value)
  end.

Fixpoint exports (ks : list xpkg) (value : Z) : Res (list xpkg * Z) :=
  match ks with
  | [] => Done ([], value)
  | k :: ks =>
      '(o, _, value) ← export_of k value;
      '(os, value) ← exports ks value;
      Done (o :: os, value)
  end.

(** Nothing wrapped: the copy is the source. *)
Lemma hide_none sr f : forall st o u st',
  hide_items get sr IpmiLanSelection HiiHandle title f st = Done (o, u, false, st') -> o = u.
Proof.
  induction f as [|c pl f IH|c pl k IHk r IHr]; intros st o u st' Hh; cbn [hide_items] in Hh.
  - by injection Hh as <- <- <-.
  - apply bind_inv in Hh as ([[hid pl'] st1] & Hi & Hh).
    apply bind_inv in Hh as ([[[o1 u1] n1] st2] & Hr & [= Ho Hu Hn Hst]).
    destruct hid; [done|]. cbn in Hn. subst. by rewrite (IH _ _ _ _ Hr).
  - apply bind_inv in Hh as ([[hid pl'] st1] & Hi & Hh). destruct hid.
    + by apply bind_inv in Hh as ([[[o1 u1] n1] st2] & Hr & [= Ho Hu Hn Hst]).
    + apply bind_inv in Hh as ([[[o0 u0] n0] st0] & Hrk & Hh).
      apply bind_inv in Hh as ([[[o1 u1] n1] st2] & Hr & [= Ho Hu Hn Hst]).
      apply orb_false_iff in Hn as [-> ->]. subst. by rewrite (IHk _ _ _ _ Hrk), (IHr _ _ _ _ Hr).
Qed.

(** The rewriting of a forms package in its list. *)
Lemma rewrite_pkg_forms sr pre f post value o u n st' :
  search = Some sr -> xpkg_ok (XForms f) ->
  hide_items get sr IpmiLanSelection HiiHandle title f (mkP None None value) = Done (o, u, n, st') ->
  4 + zlen (enc o) <= MAX_PACKAGELISTS_SIZE ->
  rewrite_pkg get search IpmiLanSelection HiiHandle title (zlen pre)
    (pre ++ enc_pkg (xpkg_of (XForms f)) ++ post) value =
  Done (state_of (pre ++ (pkg_header (4 + zlen (enc f)) EFI_HII_PACKAGE_FORMS ++ enc u) ++ post)
          (pkg_header (4 + zlen (enc f)) EFI_HII_PACKAGE_FORMS ++ enc o) n st').
Proof.
  intros -> [Hk (Hit & _)] Hh Hl. unfold rewrite_pkg.
  set (hd := pkg_header (4 + zlen (enc f)) EFI_HII_PACKAGE_FORMS).
  assert (Hhd : zlen hd = 4) by apply zlen_pkg_header.
  destruct (pkg_item _ _ _ Hk (found_at pre (enc_pkg (xpkg_of (XForms f))) post)) as [El Et].
  change (enc_pkg (xpkg_of (XForms f))) with (hd ++ enc f) in *. rewrite <- app_assoc in *.
  rewrite Et, bind_Done. change (k_type (xpkg_of (XForms f))) with EFI_HII_PACKAGE_FORMS.
  rewrite Z.eqb_refl, (found_rdn _ _ _ PKG_HEADER (found_at pre hd _)), bind_Done by done.
  rewrite emit_ok, bind_Done by (rewrite zlen_nil, Hhd; unfold MAX_PACKAGELISTS_SIZE; lia).
  rewrite El, bind_Done. cbn [app]. unfold op_loop. cbn [x_src].
  set (stop := zlen pre + zlen (hd ++ enc f)).
  assert (Hops := ops_zlen f).
  assert (Hpre : zlen pre + PKG_HEADER = zlen (pre ++ hd)) by (unfold PKG_HEADER; zl).
  assert (Hstop : stop = zlen (pre ++ hd) + zlen (enc f)) by (unfold stop; zl).
  apply (loop_mono _ (ops f + 1)).
  2:{ rewrite !length_app. unfold zlen in *. lia. }
  rewrite Hpre, (app_assoc pre).
  eapply (op_walk get sr IpmiLanSelection HiiHandle title stop f (pre ++ hd) post hd false
    (mkP None None value)); [done|exact Hh|lia|lia|].
  cbn [loop]. unfold op_step. rewrite <- Hstop. rewrite Z.ltb_irrefl, bind_Done. cbn [orb].
  f_equal. unfold state_of. f_equal; by rewrite <- !app_assoc.
Qed.

Lemma pkg_relabel l l' t rest :
  0 <= l < 2 ^ 24 -> 0 <= l' < 2 ^ 24 -> is_u8 t ->
  (ty ← pkg_type (pkg_header l t ++ rest) 0;
   wr32 (pkg_header l t ++ rest) 0 (Z.lor (Z.land l' 0xFFFFFF) (Z.shiftl ty 24))) =
  Done (pkg_header l' t ++ rest).
Proof.
  intros Hl Hl' Ht. unfold pkg_type, rd32.
  pose proof (found_at [] (pkg_header l t) rest) as Hf. cbn [app] in Hf. rewrite zlen_nil in Hf.
  rewrite (found_rdn _ _ _ 4 Hf), !bind_Done by (by rewrite zlen_pkg_header).
  rewrite pkg_word by done. rewrite Z.shiftr_div_pow2, Z.div_add, Z.div_small, Z.add_0_l by lia.
  change 0xFFFFFF with (Z.ones 24). rewrite Z.land_ones, Z.mod_small by lia.
  assert (E : Z.lor l' (Z.shiftl t 24) = l' + t * 2 ^ 24).
  { rewrite Z.shiftl_mul_pow2 by lia. rewrite Z.add_nocarry_lxor, Z.lxor_lor; [done| |].
    all: apply Z.bits_inj'; intros i Hi; rewrite Z.land_spec, Z.bits_0;
      destruct (Z.ltb_spec i 24); [rewrite (Z.mul_pow2_bits_low t) by lia; apply andb_false_r|];
      replace (Z.testbit l' i) with false; [done|];
      rewrite <- (Z.mod_small l' (2 ^ 24)) by lia; symmetry; apply Z.mod_pow2_bits_high; lia. }
  rewrite E. unfold wr32. rewrite (wrn_as _ [] (pkg_header l t) rest).
  - done.
  - done.
  - done.
  - by rewrite zlen_pkg_header, zlen_le_bytes.
Qed.

Lemma put_data_ok data bs : zlen data + zlen bs <= MAX_HII_COMBINE_SIZE -> put_data data bs = Done (data ++ bs).
Proof. intros H. unfold put_data. by replace (_ <=? _) with true by lia. Qed.

Definition out_ok (o : xpkg) : Prop := zlen (enc_pkg (xpkg_of o)) <= MAX_PACKAGELISTS_SIZE.

Definition exp_step (s : exp_state) (o : xpkg) (src : list Z) (value : Z) : exp_state :=
  let n := zlen (enc_pkg (xpkg_of o)) in
  mkExp (e_data s ++ enc_pkg (xpkg_of o)) (u32 (e_size s + n)) (u32 (e_listsize s + n)) src value.

(** A package that is copied as it is. *)
Lemma export_pkg_copy pre k post s :
  pkg_ok (xpkg_of k) -> e_src s = pre ++ enc_pkg (xpkg_of k) ++ post ->
  zlen (e_data s) + zlen (enc_pkg (xpkg_of k)) <= MAX_HII_COMBINE_SIZE ->
  forall st r, rewrite_pkg get search IpmiLanSelection HiiHandle title (zlen pre) (e_src s) (e_value s) = Done r ->
  r = state_of (e_src s) (x_out r) false st ->
  export_pkg get search IpmiLanSelection HiiHandle title (zlen pre) s =
  Done (exp_step s k (e_src s) (p_value st)).
Proof.
  intros Hk Hs Hd st r Hr Hst. unfold export_pkg. rewrite Hr, bind_Done, Hst. cbn [state_of x_need x_src x_value].
  rewrite Hs. destruct (pkg_item _ _ _ Hk (found_at pre (enc_pkg (xpkg_of k)) post)) as [El _].
  rewrite El, bind_Done, (found_rdn _ _ _ _ (found_at _ _ _) eq_refl), bind_Done, put_data_ok by done. done.
Qed.

(** A forms package, when there is a list of hidden items. *)
Lemma export_pkg_forms sr pre f post s o u n st' :
  search = Some sr -> xpkg_ok (XForms f) ->
  hide_items get sr IpmiLanSelection HiiHandle title f (mkP None None (e_value s)) = Done (o, u, n, st') ->
  out_ok (XForms o) -> pkg_ok (xpkg_of (XForms o)) -> pkg_ok (xpkg_of (XForms u)) ->
  zlen (enc u) = zlen (enc f) ->
  e_src s = pre ++ enc_pkg (xpkg_of (XForms f)) ++ post ->
  zlen (e_data s) + zlen (enc_pkg (xpkg_of (XForms o))) <= MAX_HII_COMBINE_SIZE ->
  export_pkg get search IpmiLanSelection HiiHandle title (zlen pre) s =
    Done (exp_step s (XForms o) (pre ++ enc_pkg (xpkg_of (XForms u)) ++ post) (p_value st')).
Proof.
  intros Esr Hk Hh Hout Hpo Hku Hz Hs Hd.
  unfold out_ok in Hout. rewrite zlen_enc_pkg in Hout. cbn [xpkg_of k_data] in Hout.
  pose proof (rewrite_pkg_forms sr pre f post (e_value s) o u n st' Esr Hk Hh Hout) as Hr.
  rewrite <- Hs in Hr. unfold export_pkg. rewrite Hr, bind_Done. cbn [state_of x_need x_src x_out x_value].
  set (hd := pkg_header (4 + zlen (enc f)) EFI_HII_PACKAGE_FORMS) in *.
  assert (Eu : hd ++ enc u = enc_pkg (xpkg_of (XForms u))).
  { unfold enc_pkg. cbn [xpkg_of k_data k_type]. by rewrite Hz. }
  rewrite Eu. destruct n.
  - destruct Hk as [[_ H2] _], Hpo as [_ H3]. cbn [xpkg_of k_data] in H2, H3.
    pose proof (zlen_nonneg (enc f)). pose proof (zlen_nonneg (enc o)).
    replace (zlen (hd ++ enc o)) with (4 + zlen (enc o)) by (unfold hd; zl).
    pose proof (pkg_relabel (4 + zlen (enc f)) (4 + zlen (enc o)) EFI_HII_PACKAGE_FORMS (enc o)
      ltac:(lia) ltac:(lia) ltac:(by split)) as Er. fold hd in Er.
    rewrite <- bind_assoc, Er, bind_Done.
    change (pkg_header (4 + zlen (enc o)) EFI_HII_PACKAGE_FORMS ++ enc o)
      with (enc_pkg (xpkg_of (XForms o))).
    rewrite put_data_ok, bind_Done by done. unfold exp_step. by rewrite zlen_enc_pkg.
  - apply hide_none in Hh as ->.
    destruct (pkg_item _ _ _ Hku (found_at pre (enc_pkg (xpkg_of (XForms u))) post)) as [El _].
    rewrite El, bind_Done, (found_rdn _ _ _ _ (found_at _ _ _) eq_refl), bind_Done, put_data_ok by done. done.
Qed.

Lemma export_pkg_spec pre k post s o u value :
  xpkg_ok k -> export_of k (e_value s) = Done (o, u, value) -> out_ok o -> pkg_ok (xpkg_of o) ->
  e_src s = pre ++ enc_pkg (xpkg_of k) ++ post ->
  zlen (e_data s) + zlen (enc_pkg (xpkg_of o)) <= MAX_HII_COMBINE_SIZE ->
  export_pkg get search IpmiLanSelection HiiHandle title (zlen pre) s =
    Done (exp_step s o (pre ++ enc_pkg (xpkg_of u) ++ post) value) /\
  zlen (enc_pkg (xpkg_of u)) = zlen (enc_pkg (xpkg_of k)) /\ pkg_ok (xpkg_of u).
Proof.
  intros Hk Ho Hout Hpo Hs Hd.
  assert (Plain : forall st, export_of k (e_value s) = Done (k, k, e_value s) ->
    rewrite_pkg get search IpmiLanSelection HiiHandle title (zlen pre) (e_src s) (e_value s) =
      Done (state_of (e_src s) [] false st) -> p_value st = e_value s ->
    export_pkg get search IpmiLanSelection HiiHandle title (zlen pre) s =
      Done (exp_step s o (pre ++ enc_pkg (xpkg_of u) ++ post) value) /\
    zlen (enc_pkg (xpkg_of u)) = zlen (enc_pkg (xpkg_of k)) /\ pkg_ok (xpkg_of u)).
  { intros st E Hr Hv. rewrite E in Ho. injection Ho as <- <- <-. split; [|by split].
    rewrite <- Hs, <- Hv. eapply export_pkg_copy; try done. }
  unfold export_of in Ho. destruct search as [sr|] eqn:Esr.
  2:{ apply (Plain (mkP None None (e_value s))); [unfold export_of; by rewrite Esr| |done].
      unfold rewrite_pkg. rewrite Hs.
      destruct (pkg_item _ _ _ (proj1 Hk) (found_at pre (enc_pkg (xpkg_of k)) post)) as [_ ->]. done. }
  destruct k as [f|t d].
  2:{ apply (Plain (mkP None None (e_value s))); [unfold export_of; by rewrite Esr| |done].
      unfold rewrite_pkg. rewrite Hs.
      destruct (pkg_item _ _ _ (proj1 Hk) (found_at pre (enc_pkg (xpkg_of (XOther t d))) post)) as [_ ->].
      rewrite bind_Done. destruct Hk as [_ Hne]. cbn [xpkg_of k_type].
      by replace (t =? EFI_HII_PACKAGE_FORMS) with false by lia. }
  clear Plain. apply bind_inv in Ho as ([[[o1 u1] n] st'] & Hh & [= <- <- <-]).
  pose proof (hide_zlen get sr IpmiLanSelection HiiHandle title f _ _ _ _ _ (proj1 (proj2 Hk)) Hh) as Hz.
  assert (Hku : pkg_ok (xpkg_of (XForms u1))).
  { destruct Hk as [[H1 H2] _]. split; [done|]. cbn [xpkg_of k_data] in *. lia. }
  assert (Hzu : zlen (enc_pkg (xpkg_of (XForms u1))) = zlen (enc_pkg (xpkg_of (XForms f)))).
  { rewrite !zlen_enc_pkg. cbn [xpkg_of k_data]. lia. }
  split; [|by split]. rewrite <- Esr. by eapply export_pkg_forms.
Qed.
End export.

(** ** Whole lists *)
Section lists.
Context (get : Z -> Z -> EFI_STATUS * list Z) (search : option (list Z -> Z -> bool)).
Context (IpmiLanSelection : Z).

Definition enc_xpkgs (ks : list xpkg) : list Z := enc_pkgs (map xpkg_of ks).

(** The outputs of a list fit the buffers. *)
Definition outs_ok (os : list xpkg) : Prop := Forall (fun o => out_ok o /\ pkg_ok (xpkg_of o)) os.

Section one.
Context (HiiHandle : Z) (title : list Z).
#[local] Abbreviation step := (pkg_step get search IpmiLanSelection HiiHandle title).

(** The package loop behind a list header [lh] that says where the list
    ends. *)
Lemma pkgs_walk lh ks : forall pre post s os value n,
  zlen lh = 20 -> le_val (drop 16 lh) = zlen lh + zlen pre + zlen (enc_xpkgs ks) ->
  Forall xpkg_ok ks -> e_src s = (lh ++ pre) ++ enc_xpkgs ks ++ post ->
  exports get search IpmiLanSelection HiiHandle title ks (e_value s) = Done (os, value) ->
  outs_ok os -> zlen (e_data s) + zlen (enc_xpkgs os) <= MAX_HII_COMBINE_SIZE ->
  (length ks < n)%nat ->
  exists src', loop n step (20 + zlen pre, s) =
    Done (mkExp (e_data s ++ enc_xpkgs os)
      (fold_left (fun x o => u32 (x + zlen (enc_pkg (xpkg_of o)))) os (e_size s))
      (fold_left (fun x o => u32 (x + zlen (enc_pkg (xpkg_of o)))) os (e_listsize s)) src' value).
Proof.
  intros pre post s os value n Hlh Hlen. revert pre post s os value n Hlen.
  induction ks as [|k ks IH]; intros pre post s os value n Hlen Hks Hsrc He Hos Hd Hn;
    (destruct n as [|n]; [lia|]).
  all: assert (Hstop : pkg_list_length (e_src s) 0 = Done (zlen lh + zlen pre + zlen (enc_xpkgs _))) by
    (rewrite <- Hlen; unfold pkg_list_length, rd32; rewrite Hsrc, <- !app_assoc;
     change (0 + 16) with 16; rewrite <- (take_drop 16 lh) at 1; rewrite <- app_assoc;
     rewrite (rdn_as _ (take 16 lh) (drop 16 lh) _ 16 4 eq_refl) by zl; done).
  - cbn [exports] in He. injection He as <- <-. exists (e_src s). rewrite loop_S. unfold pkg_step.
    rewrite Hstop, bind_Done. unfold enc_xpkgs in *. cbn [map enc_pkgs concat] in *. rewrite zlen_nil in *.
    replace (20 + zlen pre <? _) with false by zl. rewrite bind_Done. cbn [fold_left].
    rewrite app_nil_r. by destruct s.
  - cbn [exports] in He. apply bind_inv in He as ([[o u] v1] & Ho & He).
    apply bind_inv in He as ([os' v2] & Hos' & [= <- <-]).
    apply Forall_cons in Hks as [Hk Hks]. apply Forall_cons in Hos as [[Hout Hpo] Hos].
    unfold enc_xpkgs in *. cbn [map] in *. unfold enc_pkgs in *. cbn [map concat] in *.
    rewrite <- (app_assoc (enc_pkg (xpkg_of k))) in Hsrc. rewrite zlen_app in Hd, Hstop, Hlen.
    pose proof (pkg_pos (xpkg_of k)). pose proof (zlen_nonneg (concat (map enc_pkg (map xpkg_of ks)))).
    pose proof (zlen_nonneg (concat (map enc_pkg (map xpkg_of os')))).
    destruct (export_pkg_spec get search IpmiLanSelection HiiHandle title (lh ++ pre) k _ s o u v1 Hk Ho Hout Hpo Hsrc)
      as (Ex & Hzu & Hku); [lia|].
    set (s' := exp_step s o _ v1) in Ex.
    assert (Hst : step (20 + zlen pre, s) = Done (inl (20 + zlen (pre ++ enc_pkg (xpkg_of u)), s'))).
    { unfold pkg_step. rewrite Hstop, bind_Done.
      replace (20 + zlen pre <? _) with true by lia.
      replace (20 + zlen pre) with (zlen (lh ++ pre)) by zl. rewrite Ex, bind_Done.
      destruct (pkg_item _ _ _ Hku (found_at (lh ++ pre) (enc_pkg (xpkg_of u)) (concat (map enc_pkg (map xpkg_of ks)) ++ post)))
        as [El _]. cbn [s' exp_step e_src]. rewrite El, bind_Done. do 3 f_equal. zl. }
    destruct (IH (pre ++ enc_pkg (xpkg_of u)) post s' os' v2 n) as (src' & E).
    + rewrite zlen_app. lia.
    + done.
    + cbn [s' exp_step e_src]. by rewrite <- !app_assoc.
    + exact Hos'.
    + done.
    + cbn [s' exp_step e_data]. rewrite zlen_app. lia.
    + cbn [length] in Hn. lia.
    + exists src'. eapply loop_next; [exact Hst|]. rewrite E.
      cbn [s' exp_step e_data e_size e_listsize fold_left]. by rewrite <- app_assoc.
Qed.

Lemma sizes_sum os x :
  0 <= x -> x + zlen (enc_xpkgs os) < 2 ^ 32 ->
  fold_left (fun x o => u32 (x + zlen (enc_pkg (xpkg_of o)))) os x = x + zlen (enc_xpkgs os).
Proof.
  unfold enc_xpkgs, enc_pkgs. revert x. induction os as [|o os IH]; intros x Hx Hb; cbn [fold_left map concat] in *.
  - rewrite zlen_nil. lia.
  - rewrite zlen_app in *. pose proof (zlen_nonneg (concat (map enc_pkg (map xpkg_of os)))).
    pose proof (pkg_pos (xpkg_of o)). rewrite u32_small by (unfold is_u32; lia). rewrite IH by lia. lia.
Qed.

(** An allowed list is appended with its packages rewritten and its
    length recomputed. *)
Lemma export_list_spec g ks post data value os value' :
  list_ok (mkList g (map xpkg_of ks)) -> Forall xpkg_ok ks ->
  exports get search IpmiLanSelection HiiHandle title ks value = Done (os, value') ->
  outs_ok os -> zlen data + 20 + zlen (enc_xpkgs os) <= MAX_HII_COMBINE_SIZE ->
  export_list get search IpmiLanSelection HiiHandle title
    (enc_list (mkList g (map xpkg_of ks)) ++ post) (data, zlen data, value) =
  Done (data ++ enc_list (mkList g (map xpkg_of os)),
        zlen (data ++ enc_list (mkList g (map xpkg_of os))), value').
Proof.
  intros Hl Hks He Hos Hd. unfold export_list.
  set (N := 20 + zlen (enc_xpkgs ks)). set (lh := list_header g N).
  pose proof Hl as (Hg & HN & _). cbn [l_guid l_pkgs] in Hg, HN.
  assert (Hlh : zlen lh = 20) by (unfold lh, list_header; zl).
  change (enc_list (mkList g (map xpkg_of ks))) with (lh ++ enc_xpkgs ks). rewrite <- app_assoc.
  pose proof (found_at [] lh (enc_xpkgs ks ++ post)) as Hf. cbn [app] in Hf. rewrite zlen_nil in Hf.
  rewrite (found_rdn _ _ _ PKG_LIST_HEADER Hf), bind_Done by done.
  pose proof (zlen_nonneg (enc_xpkgs os)). pose proof (zlen_nonneg (enc_xpkgs ks)). pose proof (zlen_nonneg data).
  unfold MAX_HII_COMBINE_SIZE in *.
  rewrite put_data_ok, bind_Done by (unfold MAX_HII_COMBINE_SIZE; lia).
  destruct (pkgs_walk lh ks [] post
    (mkExp (data ++ lh) (u32 (zlen data + PKG_LIST_HEADER)) PKG_LIST_HEADER (lh ++ enc_xpkgs ks ++ post) value)
    os value' (Datatypes.S (length (lh ++ enc_xpkgs ks ++ post)))) as (src' & E); try done.
  { unfold lh, list_header. replace 16%nat with (length g) by (unfold zlen in Hg; lia).
    rewrite drop_app_length, le_val_4, zlen_nil; [unfold N, list_header; zl|].
    unfold is_u32, N, enc_xpkgs in *. lia. }
  { cbn [e_src]. by rewrite app_nil_r. }
  { cbn [e_data]. rewrite zlen_app. unfold MAX_HII_COMBINE_SIZE. lia. }
  { assert (Z.of_nat (length ks) <= zlen (enc_xpkgs ks)); [|rewrite !length_app; unfold zlen in *; lia].
    unfold enc_xpkgs, enc_pkgs. rewrite <- (length_map xpkg_of ks).
    apply items_length. intros x _. apply pkg_pos. }
  rewrite zlen_nil, Z.add_0_r in E. change PKG_LIST_HEADER with 20 in *. rewrite E, bind_Done.
  cbn [e_data e_size e_listsize e_value]. rewrite (u32_small (zlen data + 20)) by (unfold is_u32; lia).
  rewrite !sizes_sum by lia. unfold wr32.
  assert (Hsplit : lh = g ++ le_bytes 4 N) by done.
  rewrite (wrn_as ((data ++ lh) ++ enc_xpkgs os) (data ++ g) (le_bytes 4 N) (enc_xpkgs os)).
  - rewrite bind_Done. do 3 f_equal.
    + unfold enc_list, list_header. cbn [l_guid l_pkgs]. unfold enc_xpkgs. by rewrite <- !app_assoc.
    + unfold enc_list, list_header. cbn [l_guid l_pkgs]. unfold enc_xpkgs. zl.
  - rewrite Hsplit. by rewrite <- !app_assoc.
  - zl.
  - by rewrite !zlen_le_bytes.
Qed.
End one.

(** The payload and place of the first form-set opcode that starts a forms
    package. *)
Fixpoint formset_in (ks : list xpkg) (p : Z) : option (list Z * Z) :=
  match ks with
  | [] => None
  | k :: ks =>
      let next := formset_in ks (p + zlen (enc_pkg (xpkg_of k))) in
      match k with
      | XForms f =>
          match head_op f with
          | Some (c, pl) => if c =? EFI_IFR_FORM_SET_OP then Some (pl, p + 4) else next
          | None => next
          end
      | XOther _ _ => next
      end
  end.

Definition formset_result (h : Z) (r : option (list Z * Z)) : EFI_STATUS * option (list Z * Z) :=
  match r with
  | None => (EFI_NOT_FOUND, None)
  | Some (pl, pos) =>
      let '(st, t) := get h (le_val (take 2 (drop 16 pl))) in
      if EFI_ERROR st then (st, None) else (st, Some (t, pos))
  end.

Lemma head_op_enc f c pl : head_op f = Some (c, pl) -> exists sc rest, enc f = op_bytes c sc pl ++ rest.
Proof using. destruct f; cbn [head_op enc]; intros [= <- <-]; eauto. Qed.

Lemma formset_walk b stop h ks : forall p n,
  found b p (enc_xpkgs ks) -> stop = p + zlen (enc_xpkgs ks) -> Forall xpkg_ok ks -> (length ks < n)%nat ->
  loop n (formset_step get h b stop) p = Done (formset_result h (formset_in ks p)).
Proof using.
  induction ks as [|k ks IH]; intros p n Hf Hs Hks Hn; (destruct n as [|n]; [lia|]).
  { unfold enc_xpkgs in Hs. cbn [map enc_pkgs concat] in Hs. rewrite loop_S. unfold formset_step.
    by replace (p <? stop) with false by (unfold enc_pkgs in Hs; cbn [map concat] in Hs; zl). }
  unfold enc_xpkgs, enc_pkgs in Hf, Hs. cbn [map concat] in Hf, Hs. rewrite zlen_app in Hs.
  pose proof (pkg_pos (xpkg_of k)). pose proof (zlen_nonneg (concat (map enc_pkg (map xpkg_of ks)))).
  apply found_app in Hf as [Hf Hf2]. apply Forall_cons in Hks as [Hk Hks].
  destruct (pkg_item _ _ _ (proj1 Hk) Hf) as [El Et].
  assert (Next : formset_step get h b stop p = Done (inl (p + zlen (enc_pkg (xpkg_of k)))) ->
    loop (Datatypes.S n) (formset_step get h b stop) p =
    Done (formset_result h (formset_in ks (p + zlen (enc_pkg (xpkg_of k)))))).
  { intros Hst. rewrite loop_S, Hst, bind_Done. cbn [length] in Hn. apply IH; [done|unfold enc_xpkgs, enc_pkgs; lia|done|lia]. }
  destruct k as [f|t d]; cbn [formset_in].
  2:{ apply Next. unfold formset_step. replace (p <? stop) with true by lia. rewrite Et, bind_Done.
      cbn [xpkg_of k_type]. destruct Hk as [_ Hne]. replace (t =? EFI_HII_PACKAGE_FORMS) with false by lia.
      rewrite bind_Done. cbn [andb]. by rewrite El, bind_Done. }
  destruct Hk as (Hpk & Hit & Hnil & Hfs). destruct (head_op f) as [[c pl]|] eqn:Eh; [|by destruct f].
  destruct (head_op_enc f c pl Eh) as (sc & rest & Ee).
  apply found_app in Hf as [_ Hd]. rewrite zlen_pkg_header in Hd. cbn [xpkg_of k_data] in Hd. rewrite Ee in Hd.
  apply found_app in Hd as [Hop _]. pose proof (found_op_code _ _ _ _ _ Hop) as Ec.
  destruct (Z.eqb_spec c EFI_IFR_FORM_SET_OP) as [->|Hne].
  - rewrite loop_S.
    assert (Hst : formset_step get h b stop p = Done (inr (formset_result h (Some (pl, p + 4))))).
    { unfold formset_step. replace (p <? stop) with true by lia. rewrite Et, bind_Done. cbn [xpkg_of k_type].
      rewrite Z.eqb_refl. change (p + PKG_HEADER) with (p + 4). rewrite Ec, bind_Done. rewrite Z.eqb_refl. cbn [andb].
      unfold FORM_SET_FormSetTitle, rd16. replace (p + 4 + 18) with (p + 4 + 2 + 16) by lia.
      rewrite (found_part _ _ pl 16 2 (found_payload _ _ _ _ _ Hop)), !bind_Done by (lia || (specialize (Hfs pl eq_refl); lia)).
      unfold formset_result. change (take (Z.to_nat 2) (drop (Z.to_nat 16) pl)) with (take 2 (drop 16 pl)).
      destruct (get h _) as [st t]. by destruct (EFI_ERROR st). }
    by rewrite Hst, bind_Done.
  - apply Next. unfold formset_step. replace (p <? stop) with true by lia. rewrite Et, bind_Done.
    cbn [xpkg_of k_type]. rewrite Z.eqb_refl. change (p + PKG_HEADER) with (p + 4). rewrite Ec, bind_Done.
    replace (c =? EFI_IFR_FORM_SET_OP) with false by lia. cbn [andb]. by rewrite El, bind_Done.
Qed.

Lemma FindFormsetData_spec h g ks post :
  list_ok (mkList g (map xpkg_of ks)) -> Forall xpkg_ok ks ->
  FindFormsetData get h (enc_list (mkList g (map xpkg_of ks)) ++ post) =
  Done (formset_result h (formset_in ks PKG_LIST_HEADER)).
Proof using.
  intros Hl Hks. set (b := _ ++ post). unfold FindFormsetData.
  pose proof (found_at [] (enc_list (mkList g (map xpkg_of ks))) post) as Hf. cbn [app] in Hf. rewrite zlen_nil in Hf.
  destruct (list_item _ _ _ Hl Hf) as [El Hp]. fold b in El, Hp. rewrite El, bind_Done.
  apply formset_walk; [exact Hp| |done|].
  - rewrite (zlen_enc_list _ Hl). done.
  - assert (Z.of_nat (length ks) <= zlen (enc_xpkgs ks)).
    { unfold enc_xpkgs, enc_pkgs. rewrite <- (length_map xpkg_of ks). apply items_length. intros x _. apply pkg_pos. }
    pose proof (found_bound _ _ _ Hp) as Hb. unfold enc_xpkgs in *. cbn [l_pkgs] in Hb. unfold PKG_LIST_HEADER, zlen in *. lia.
Qed.
End lists.

(** ** The export *)
Section enumerate_spec.
Context (get : Z -> Z -> EFI_STATUS * list Z) (search : option (list Z -> Z -> bool)).
Context (IpmiLanSelection : Z).

(** The list of a handle: its GUID and packages, if it can be exported. *)
Context (lists : Z -> option (list Z * list xpkg)).

(** The lists sent for the handles [hs], each with its handle and form-set
    GUID, and [ItemValue] afterwards. *)
Fixpoint sent (hs : list Z) (value : Z) : Res (list (guid * Z * (list Z * list xpkg)) * Z) :=
  match hs with
  | [] => Done ([], value)
  | h :: hs =>
      match lists h with
      | None => sent hs value
      | Some (g, ks) =>
          match formset_in ks PKG_LIST_HEADER with
          | None => sent hs value
          | Some (pl, _) =>
              let '(st, t) := get h (le_val (take 2 (drop 16 pl))) in
              if EFI_ERROR st then sent hs value
              else if AllowedHpk (UnicodeStrToAsciiStr t) (take 16 pl) then
                '(os, value) ← exports get search IpmiLanSelection h t ks value;
                '(r, value) ← sent hs value;
                Done ((take 16 pl, h, (g, os)) :: r, value)
              else sent hs value
          end
      end
  end.

Definition sent_bytes (r : list (guid * Z * (list Z * list xpkg))) : list Z :=
  concat (map (fun x => enc_list (mkList (fst (snd x)) (map xpkg_of (snd (snd x))))) r).
Definition sent_map (r : list (guid * Z * (list Z * list xpkg))) (t : list SMC_GUID_HANDLE) :=
  fold_left (fun t x => AddGuidHandle (fst (fst x)) (snd (fst x)) t) r t.

Definition source_ok (h : Z) : Prop :=
  match lists h with
  | None => True
  | Some (g, ks) => list_ok (mkList g (map xpkg_of ks)) /\ Forall xpkg_ok ks /\
      zlen (enc_list (mkList g (map xpkg_of ks))) <= MAX_HPK_LIST_SIZE
  end.

Definition db_of (hs : list Z) : hii_db :=
  mkDb hs (fun h => match lists h with
                    | Some (g, ks) => (EFI_SUCCESS, enc_list (mkList g (map xpkg_of ks)))
                    | None => (EFI_NOT_FOUND, [])
                    end).

Lemma formset_in_found ks : forall p pl pos b,
  formset_in ks p = Some (pl, pos) -> found b p (enc_xpkgs ks) -> Forall xpkg_ok ks ->
  found b (pos + 2) pl /\ 18 <= zlen pl.
Proof using.
  induction ks as [|k ks IH]; intros p pl pos b Hi Hf Hks; [done|]. cbn [formset_in] in Hi.
  unfold enc_xpkgs, enc_pkgs in Hf. cbn [map concat] in Hf. apply found_app in Hf as [Hf Hf2].
  apply Forall_cons in Hks as [Hk Hks]. destruct k as [f|t d]; [|by eapply IH].
  destruct Hk as (_ & _ & _ & Hfs). destruct (head_op f) as [[c q]|] eqn:Eh; [|by eapply IH].
  destruct (Z.eqb_spec c EFI_IFR_FORM_SET_OP) as [->|]; [|by eapply IH]. injection Hi as <- <-.
  destruct (head_op_enc f _ q Eh) as (sc & rest & Ee).
  apply found_app in Hf as [_ Hd]. rewrite zlen_pkg_header in Hd. cbn [xpkg_of k_data] in Hd. rewrite Ee in Hd.
  apply found_app in Hd as [Hop _]. split; [exact (found_payload _ _ _ _ _ Hop)|by apply Hfs].
Qed.

Lemma export_handle_spec hs h data value t r value' :
  source_ok h -> sent [h] value = Done (r, value') ->
  Forall (fun x => outs_ok (snd (snd x))) r ->
  zlen data + zlen (sent_bytes r) <= MAX_HII_COMBINE_SIZE ->
  export_handle get search IpmiLanSelection (db_of hs) (data, zlen data, value, t) h =
  Done (data ++ sent_bytes r, zlen (data ++ sent_bytes r), value', sent_map r t).
Proof using.
  intros Hok Hs Hos Hd. unfold export_handle, GetExportPackageLists, source_ok in *. cbn [db_of db_export].
  cbn [sent] in Hs. destruct (lists h) as [[g ks]|].
  2:{ injection Hs as <- <-. unfold sent_bytes. cbn [map concat]. by rewrite app_nil_r. }
  destruct Hok as (Hl & Hks & Hz). cbn [EFI_ERROR].
  replace (MAX_HPK_LIST_SIZE <? _) with false by lia. cbn [EFI_ERROR].
  set (post := replicate _ 0). rewrite FindFormsetData_spec, bind_Done by done. unfold formset_result.
  destruct (formset_in ks PKG_LIST_HEADER) as [[pl pos]|] eqn:Ef.
  2:{ injection Hs as <- <-. unfold sent_bytes. cbn [map concat]. by rewrite app_nil_r. }
  destruct (get h _) as [st title]. destruct (EFI_ERROR st).
  { injection Hs as <- <-. unfold sent_bytes. cbn [map concat]. by rewrite app_nil_r. }
  pose proof (found_at [] (enc_list (mkList g (map xpkg_of ks))) post) as Hf. cbn [app] in Hf. rewrite zlen_nil in Hf.
  destruct (list_item _ _ _ Hl Hf) as [_ Hp].
  destruct (formset_in_found ks _ pl pos _ Ef Hp Hks) as [Hpl Hl18].
  unfold FORM_SET_Guid. replace (pos + 2) with (pos + 2 + 0) by lia.
  rewrite (found_part _ _ pl 0 16 Hpl), bind_Done by lia.
  change (take (Z.to_nat 16) (drop (Z.to_nat 0) pl)) with (take 16 pl).
  destruct (AllowedHpk _ _); cbn [negb].
  2:{ injection Hs as <- <-. unfold sent_bytes. cbn [map concat]. by rewrite app_nil_r. }
  apply bind_inv in Hs as ([os v1] & He & Hs). cbn in Hs. injection Hs as <- <-.
  apply Forall_cons in Hos as [Ho _]. cbn [snd] in Ho.
  unfold sent_bytes in *. cbn [map concat fst snd] in *. rewrite app_nil_r in *.
  assert (Hlo : zlen (enc_list (mkList g (map xpkg_of os))) = 20 + zlen (enc_xpkgs os)).
  { unfold enc_list, list_header, enc_xpkgs. destruct Hl as (Hg & _). cbn [l_guid l_pkgs] in *. zl. }
  rewrite (export_list_spec get search IpmiLanSelection h title g ks post data value os v1) by (done || lia).
  done.
Qed.

Lemma sent_cons h hs value :
  sent (h :: hs) value =
  ('(r1, value) ← sent [h] value; '(r2, value) ← sent hs value; Done (r1 ++ r2, value)).
Proof using.
  cbn [sent]. destruct (lists h) as [[g ks]|]; [|rewrite bind_Done; by destruct (sent hs value) as [[] | |]].
  destruct (formset_in ks PKG_LIST_HEADER) as [[pl pos]|]; [|rewrite bind_Done; by destruct (sent hs value) as [[] | |]].
  destruct (get h _) as [st t]. destruct (EFI_ERROR st); [rewrite bind_Done; by destruct (sent hs value) as [[] | |]|].
  destruct (AllowedHpk _ _); [|rewrite bind_Done; by destruct (sent hs value) as [[] | |]].
  rewrite bind_assoc. destruct (exports _ _ _ _ _ _ _) as [[os v]| |]; cbn; try done.
Qed.

Lemma export_handles_spec all hs : forall data value t r value',
  Forall source_ok hs -> Forall (fun h => h <> 0) hs -> sent hs value = Done (r, value') ->
  Forall (fun x => outs_ok (snd (snd x))) r ->
  zlen data + zlen (sent_bytes r) <= MAX_HII_COMBINE_SIZE ->
  export_handles get search IpmiLanSelection (db_of all) (hs ++ [0]) (data, zlen data, value, t) =
  Done (data ++ sent_bytes r, zlen (data ++ sent_bytes r), value', sent_map r t).
Proof using.
  induction hs as [|h hs IH]; intros data value t r value' Hok Hnz Hs Hos Hd.
  { injection Hs as <- <-. cbn. unfold sent_bytes. cbn [map concat]. by rewrite app_nil_r. }
  apply Forall_cons in Hok as [Hh Hok]. apply Forall_cons in Hnz as [Hz Hnz].
  rewrite sent_cons in Hs. apply bind_inv in Hs as ([r1 v1] & H1 & Hs).
  apply bind_inv in Hs as ([r2 v2] & H2 & [= <- <-]). apply Forall_app in Hos as [Ho1 Ho2].
  assert (Eb : sent_bytes (r1 ++ r2) = sent_bytes r1 ++ sent_bytes r2).
  { unfold sent_bytes. by rewrite map_app, concat_app. }
  rewrite Eb in *. rewrite zlen_app in Hd. pose proof (zlen_nonneg (sent_bytes r2)).
  cbn [app export_handles]. replace (h =? 0) with false by lia.
  rewrite (export_handle_spec all h data value t r1 v1), bind_Done by (done || lia).
  rewrite (IH (data ++ sent_bytes r1) v1 (sent_map r1 t) r2 v2) by (done || (rewrite zlen_app; lia)).
  unfold sent_map. by rewrite fold_left_app, <- app_assoc.
Qed.
End enumerate_spec.

(** C14: (refinement) on a database of well-formed package lists,
    [EnumerateHpkList] returns, in handle order, exactly the lists whose form
    set is in the table of allowed ones; every hidden item is wrapped with
    its whole scope in a suppress-if of TRUE, option flags follow the prompt
    before them, everything else is copied as it is, all lengths are
    recomputed, and each form set is entered with its handle. The handle
    buffer is freed at the end. *)
Theorem EnumerateHpkList_correct get search IpmiLanSelection lists hs value r value' :
  hs <> [] -> Forall (fun h => h <> 0) hs -> Forall (source_ok lists) hs ->
  sent get search IpmiLanSelection lists hs value = Done (r, value') ->
  Forall (fun x => outs_ok (snd (snd x))) r -> zlen (sent_bytes r) <= MAX_HII_COMBINE_SIZE ->
  EnumerateHpkList get search IpmiLanSelection (db_of lists hs) value (mkStatics None false) =
  Done (sent_bytes r, zlen (sent_bytes r), value', sent_map r GuidHandleMap0,
        mkStatics (Some (hs ++ [0])) true).
Proof.
  intros Hne Hnz Hok Hs Hos Hd. unfold EnumerateHpkList, GetListPackageListsHandle.
  cbn [st_handles db_of db_handles st_freed]. destruct hs as [|h hs]; [done|]. cbn [EFI_ERROR st_freed].
  pose proof (export_handles_spec get search IpmiLanSelection lists (h :: hs) (h :: hs) [] value GuidHandleMap0 r value'
    Hok Hnz Hs Hos ltac:(rewrite zlen_nil; lia)) as E.
  cbn [app] in E. change (zlen (@nil Z)) with 0 in E. cbn [app]. by rewrite E.
Qed.

(** the handle buffer is kept in a static variable but freed at
    the end of every call: a second [EnumerateHpkList] reads freed memory. *)
Theorem EnumerateHpkList_twice get search IpmiLanSelection db value st s st' value2 :
  db_handles db <> [] ->
  EnumerateHpkList get search IpmiLanSelection db value st = Done (s, st') ->
  EnumerateHpkList get search IpmiLanSelection db value2 st' = Fault.
Proof.
  intros Hdb H. unfold EnumerateHpkList, GetListPackageListsHandle in H |- *.
  assert (Hs : st_freed st' = true /\ is_Some (st_handles st')).
  { destruct (st_handles st) as [hs|] eqn:E.
    - cbn [EFI_ERROR] in H. destruct (st_freed st); [done|].
      apply bind_inv in H as (x & _ & H). injection H as _ <-. cbn. by rewrite E.
    - destruct (db_handles db) as [|h hs]; [done|].
      cbn [EFI_ERROR st_freed] in H. destruct (st_freed st); [done|].
      apply bind_inv in H as (x & _ & H). injection H as _ <-. by eauto. }
  destruct Hs as [Hf [hs E]]. rewrite E. cbn [EFI_ERROR]. by rewrite Hf.
Qed.

(** A database with one forms list of the allowed set-up form: a hidden
    one-of with an option, and a visible check box. *)
Definition demo_formset : list Z :=
  GUID 0x7B59104A 0xC00D 0x4158 [0x87;0xFF;0xF0;0x4D;0x63;0x96;0xA9;0x15] ++ [1; 0; 0; 0; 0; 0].
Definition demo_form : forest :=
  FScope EFI_IFR_FORM_SET_OP demo_formset
    (FScope EFI_IFR_FORM_OP [5; 0; 2; 0]
       (FScope EFI_IFR_ONE_OF_OP [8; 0; 0; 0]
          (FLeaf EFI_IFR_ONE_OF_OPTION_OP [3; 0; 0; 0; 1] FNil)
          (FLeaf EFI_IFR_CHECKBOX_OP [9; 0; 0; 0] FNil)) FNil) FNil.
Definition demo_get (h id : Z) : EFI_STATUS * list Z := (EFI_SUCCESS, str "Setup").
Definition demo_hide (t : list Z) (id : Z) : bool := id =? 8.
Definition demo_lists (h : Z) : option (list Z * list xpkg) :=
  if h =? 0x40 then Some (replicate 16 9, [XOther 4 [1; 2; 3]; XForms demo_form]) else None.
Definition demo_sent : list xpkg :=
  [XOther 4 [1; 2; 3];
   XForms (FScope EFI_IFR_FORM_SET_OP demo_formset
    (FScope EFI_IFR_FORM_OP [5; 0; 2; 0]
      (FScope EFI_IFR_SUPPRESS_IF_OP []
        (FLeaf EFI_IFR_TRUE_OP []
          (FScope EFI_IFR_ONE_OF_OP [8; 0; 0; 0]
            (FLeaf EFI_IFR_ONE_OF_OPTION_OP [3; 0; 0; 0; 1] FNil) FNil))
        (FLeaf EFI_IFR_CHECKBOX_OP [9; 0; 0; 0] FNil)) FNil) FNil)].

Lemma demo_payload c pl :
  zlen pl <= 125 -> forallb (fun b => (0 <=? b) && (b <? 256)) pl = true -> c <> EFI_IFR_END_OP ->
  2 <= zlen pl -> (c = EFI_IFR_ONE_OF_OPTION_OP -> option_ok pl) -> payload_ok c pl.
Proof.
  intros Hf Hb Hne H2 Ho. split_and!; try done.
  clear -Hb. induction pl as [|b l IH]; cbn in Hb; [by constructor|].
  apply andb_prop in Hb as [Hb Hl]. constructor; [unfold is_u8; lia|by apply IH].
Qed.

Lemma demo_source : Forall (source_ok demo_lists) [0x40; 0x41].
Proof.
  assert (Hit : items_ok demo_form).
  { refine (conj _ (conj (conj _ (conj (conj _ (conj (conj _ I) (conj _ I))) I)) I));
      (apply demo_payload; [by vm_compute|reflexivity|discriminate|by vm_compute|]);
      [discriminate|discriminate|discriminate| |discriminate].
    intros _. by vm_compute. }
  constructor; [|by repeat constructor]. split.
  - split; [reflexivity|]. split; [by vm_compute|].
    constructor; [split; [by split|by vm_compute]|]. constructor; [split; [by split|by vm_compute]|constructor].
  - split; [|by vm_compute].
    constructor; [split; [split; [by split|by vm_compute]|done]|].
    constructor; [|constructor]. split; [split; [by split|by vm_compute]|]. split; [done|]. split; [done|].
    intros pl [= <-]. by vm_compute.
Qed.

Lemma EnumerateHpkList_correct_witness :
  EnumerateHpkList demo_get (Some demo_hide) 1 (db_of demo_lists [0x40; 0x41]) 0 (mkStatics None false) =
  Done (enc_list (mkList (replicate 16 9) (map xpkg_of demo_sent)),
        zlen (enc_list (mkList (replicate 16 9) (map xpkg_of demo_sent))), 0,
        AddGuidHandle (take 16 demo_formset) 0x40 GuidHandleMap0, mkStatics (Some [0x40; 0x41; 0]) true).
Proof.
  rewrite (EnumerateHpkList_correct demo_get (Some demo_hide) 1 demo_lists [0x40; 0x41] 0
    [(take 16 demo_formset, 0x40, (replicate 16 9, demo_sent))] 0).
  - unfold sent_bytes. cbn [map concat fst snd]. by rewrite app_nil_r.
  - done.
  - by repeat constructor.
  - apply demo_source.
  - vm_compute. reflexivity.
  - constructor; [|constructor]. constructor; [split; [by vm_compute|split; [by split|by vm_compute]]|].
    constructor; [split; [by vm_compute|split; [by split|by vm_compute]]|constructor].
  - by vm_compute.
Defined.

Lemma EnumerateHpkList_twice_witness :
  exists s st', EnumerateHpkList demo_get (Some demo_hide) 1 (db_of demo_lists [0x41]) 0 (mkStatics None false) =
      Done (s, st') /\
    EnumerateHpkList demo_get (Some demo_hide) 1 (db_of demo_lists [0x41]) 0 st' = Fault.
Proof.
  eexists _, _. split; [reflexivity|].
  eapply (EnumerateHpkList_twice demo_get (Some demo_hide) 1 (db_of demo_lists [0x41]) 0 (mkStatics None false));
    [done|reflexivity].
Defined.
