(* ===== verification/FormLayout.v ===== *)
(** * The form layout

    Models [ParseRefNode] and [GenFormLayout] of
    [SmcInBand/SmcInBandSetupTemplate.c] (the build without debug messages):
    from the root forms of the policy the references are followed, hidden ones
    left out, and the tree of forms is written as JSON text into a package
    behind the HII export. *)

From S2P Require Import Prelude Services ExpStack Ifr Packages Expression SetupTables FormWalk FormData Hii.
From Stdlib Require String.
Import String.StringSyntax.

(** ** Formatted output

    The directives of [Sprintf] and [Sprintf_s]
    ([AmiCompatibilityPkg/Library/StdLibC.c]) this file uses: [%s], and [%x]
    with a width and a zero as filler. A directive whose letter is unknown
    stays in the text. *)
Inductive sprintf_arg := AStr (s : list Z) | AInt (v : Z).

(** A literal, with ['] for the double quote and [~] for the line feed. *)
Definition lit (s : String.string) : list Z :=
  map (fun c => if c =? 39 then 34 else if c =? 126 then 10 else c) (str s).
Arguments lit s%_string_scope.

Definition digit_char (d : Z) : Z := if d <? 10 then 48 + d else 97 + (d - 10).

(** [Itoa] to base 16; eight digits are enough for 32 bits. *)
Fixpoint hex_digits (fuel : nat) (v : Z) : list Z :=
  match fuel with
  | O => []
  | S fuel => (if v / 16 =? 0 then [] else hex_digits fuel (v / 16)) ++ [digit_char (v mod 16)]
  end.
Definition hex (v : Z) : list Z := hex_digits 8 (u32 v).

Definition fill_to (filler width : Z) (s : list Z) : list Z := replicate (Z.to_nat (width - zlen s)) filler ++ s.

(** [dir] is the filler and the width of the directive being read. *)
Fixpoint sprintf (dir : option (Z * Z)) (Format : list Z) (args : list sprintf_arg) : list Z :=
  match Format with
  | [] => []
  | c :: Format =>
      match dir with
      | None => if c =? 37 then sprintf (Some (32, 0)) Format args else c :: sprintf None Format args
      | Some (filler, width) =>
          if (c =? 48) && (filler =? 32) then sprintf (Some (48, width)) Format args
          else if (48 <=? c) && (c <=? 57) then sprintf (Some (filler, width * 10 + (c - 48))) Format args
          else
            match args with
            | AStr s :: args' =>
                if (c =? 115) || (c =? 97) then s ++ sprintf None Format args' else c :: sprintf None Format args
            | AInt v :: args' =>
                if c =? 120 then fill_to filler width (hex v) ++ sprintf None Format args'
                else c :: sprintf None Format args
            | [] => c :: sprintf None Format args
            end
      end
  end.

(** Eleven numbers in 128 bytes. *)
Definition ToGuidString (Guid : guid) : list Z :=
  sprintf None (lit "%08x-%04x-%04x-%02x%02x-%02x%02x%02x%02x%02x%02x")
    (AInt (le_val (take 4 Guid)) :: AInt (le_val (take 2 (drop 4 Guid))) :: AInt (le_val (take 2 (drop 6 Guid))) ::
     map AInt (drop 8 Guid)).

(** Into a buffer of 64 bytes. *)
Definition BuildPrefix (Count : Z) : Res (list Z) :=
  if 2 * Count + 1 <=? 64 then Done (replicate (Z.to_nat (2 * Count)) 32) else Fault.

(** ** The output: buffer and cursor *)
Definition output : Type := list Z * Z.

(** [TmpSize = Sprintf_s (p, 128, ...); p += TmpSize]. *)
Definition put (Format : list Z) (args : list sprintf_arg) (o : output) : Res output :=
  let '(buf, p) := o in
  let s := take 127 (sprintf None Format args) in
  buf ← wrn buf p (s ++ [0]);
  Done (buf, p + zlen s).

(** The same with the prefix of a level in front. *)
Definition put_at (Level : Z) (Format : list Z) (args : list sprintf_arg) (o : output) : Res output :=
  StrPrefix ← BuildPrefix Level;
  put Format (AStr StrPrefix :: args) o.

(** "Clear tail ',' char." *)
Definition clear_comma (o : output) : Res output :=
  let '(buf, p) := o in
  buf ← wr8 buf (p - 1) 0;
  buf ← wr8 buf (p - 2) 10;
  Done (buf, p - 1).

(** Back to [start], clearing what was written since. *)
Definition rewind (start : Z) (o : output) : Res output :=
  let '(buf, p) := o in
  buf ← wrn buf start (replicate (Z.to_nat (u32 (p - start))) 0);
  Done (buf, start).

(** The lines of a form up to its title; [Lb] and [Lf] are the levels of its
    braces and fields. *)
Definition open_entry (Lb Lf : Z) (Guid : guid) (FormId : Z) (Title : list Z) (o : output) : Res output :=
  o ← put_at Lb (lit "%s{~") [] o;
  o ← put_at Lf (lit "%s'GUID': '%s',~") [AStr (ToGuidString Guid)] o;
  o ← put_at Lf (lit "%s'FormId': '0x%x',~") [AInt FormId] o;
  put_at Lf (lit "%s'Title': '%s',~") [AStr Title] o.

(** What follows the forms below it, of which there are [TmpSize] bytes. *)
Definition close_entry (Lb TmpSize : Z) (o : output) : Res output :=
  o ← (if TmpSize =? 0 then clear_comma o else Done (fst o, snd o + TmpSize));
  put_at Lb (lit "%s},~") [] o.

(** ** Following the references *)

(** What a call of [ParseRefNode] changes; its locals. *)
Record ref_locals := mkLocals {
  lo_out : output; lo_Level : Z; lo_scope : Z; lo_count : Z; lo_title : list Z }.

Section layout.
Context (HiiLibGetString : Z -> Z -> EFI_STATUS * list Z).
Context (GuidHandleMap : list SMC_GUID_HANDLE) (HideFormForSum : list SMC_ROOT_FORM_DATA).
Context (b : list Z).

Section refs.
Context (forms : list SMC_FORM_DATA) (OpFlag : list SMC_OP_FLAG).

(** A recursive call: cursor, level, handle, form set, form id and place of
    the content; the size written, the level and the buffer. *)
Definition ref_call : Type := list Z -> Z -> Z -> Z -> guid -> Z -> Z -> Res (Z * Z * list Z).

(** The two branches for a reference after they have found out where it goes
    to: form set, form id and handle of the target. *)
Definition produce_ref (rec : ref_call) (HiiHandle Prompt : Z) (Guid : guid) (FormId TargetHandle : Z)
    (s : ref_locals) : Res ref_locals :=
  '(_, TitleStrBuff) ← SmcGetString HiiLibGetString HiiHandle Prompt 128 (lo_title s);
  if IsHideFormForSum Guid TitleStrBuff FormId HideFormForSum
  then Done (mkLocals (lo_out s) (lo_Level s) (lo_scope s) (lo_count s) TitleStrBuff)
  else
    let Level := lo_Level s in
    let pOriBuffAddress := snd (lo_out s) in
    o ← open_entry Level Level Guid FormId TitleStrBuff (lo_out s);
    match GetForm Guid FormId forms with
    | Some pTarget =>
        l ← op_length b pTarget;
        '(TmpSize, Level, buf) ←
          rec (fst o) (snd o) (u32 (Level + 1)) TargetHandle Guid FormId (pTarget + l);
        o ← close_entry Level TmpSize (buf, snd o);
        Done (mkLocals o Level (lo_scope s) (u32 (lo_count s + 1)) TitleStrBuff)
    | None =>
        o ← rewind pOriBuffAddress o;
        Done (mkLocals o Level (lo_scope s) (lo_count s) TitleStrBuff)
    end.

(** What an opcode that is not [END] does. *)
Definition ref_op (rec : ref_call) (HiiHandle : Z) (FormsetGuid : guid) (FormId : Z) (pOp c : Z) (s : ref_locals)
    : Res ref_locals :=
  l ← op_length b pOp;
  if (c =? EFI_IFR_REF_OP) && (l =? sizeof_EFI_IFR_REF) then
    if negb (GetOpFlag pOp OpFlag =? 0) then Done s
    else
      id ← REF_FormId b pOp;
      if id =? FormId then Done s
      else
        Prompt ← QUESTION_Prompt b pOp;
        produce_ref rec HiiHandle Prompt FormsetGuid id HiiHandle s
  else if (c =? EFI_IFR_REF_OP) && (l =? sizeof_EFI_IFR_REF3) then
    if negb (GetOpFlag pOp OpFlag =? 0) then Done s
    else
      id ← REF_FormId b pOp;
      Prompt ← QUESTION_Prompt b pOp;
      g ← REF3_FormSetId b pOp;
      produce_ref rec HiiHandle Prompt g id (GetGuidHandle g GuidHandleMap) s
  else Done s.

(** One round of [while (1)]. *)
Definition ref_step (rec : ref_call) (HiiHandle : Z) (FormsetGuid : guid) (FormId : Z) (st : Z * ref_locals)
    : Res (Z * ref_locals + ref_locals) :=
  let '(pOp, s) := st in
  c ← op_code b pOp;
  if (c =? EFI_IFR_END_OP) && (lo_scope s =? 0) then
    Done (inr (mkLocals (lo_out s) (u32 (lo_Level s - 1)) (lo_scope s) (lo_count s) (lo_title s)))
  else
    s ← (if c =? EFI_IFR_END_OP
         then Done (mkLocals (lo_out s) (lo_Level s) (lo_scope s - 1) (lo_count s) (lo_title s))
         else ref_op rec HiiHandle FormsetGuid FormId pOp c s);
    sc ← op_scope b pOp;
    l ← op_length b pOp;
    let scope := if sc =? 1 then u32 (lo_scope s + 1) else lo_scope s in
    Done (inl (pOp + l, mkLocals (lo_out s) (lo_Level s) scope (lo_count s) (lo_title s))).

(** The body of the function around the recursive call. *)
Definition ParseRefNode_body (rec : ref_call) : ref_call :=
  fun buf BuffAddress Level HiiHandle FormsetGuid FormId Op =>
    o ← put_at (u32 (Level - 1)) (lit "%s'Form':[~") [] (buf, BuffAddress);
    s ← loop (Datatypes.S (length b)) (ref_step rec HiiHandle FormsetGuid FormId) (Op, mkLocals o Level 0 0 []);
    o ← (if negb (lo_count s =? 0)
         then o ← clear_comma (lo_out s); put_at (lo_Level s) (lit "%s]~") [] o
         else rewind BuffAddress (lo_out s));
    Done (u32 (snd o - BuffAddress), lo_Level s, fst o).

(** One unit of fuel per nested call; a level above 32 is never reached. *)
Fixpoint ParseRefNode (fuel : nat) : ref_call :=
  match fuel with
  | O => fun _ _ _ _ _ _ _ => NoFuel
  | S fuel => ParseRefNode_body (ParseRefNode fuel)
  end.
End refs.

(** ** The whole layout *)
Definition FormLayoutGuid : guid := GUID 0xfdb0897d 0xb499 0x4b9f [0x96; 0xf7; 0x50; 0xc6; 0x99; 0x68; 0x35; 0xf5].

(** The pass of [ParseOpNode] over one package; table of flags and expression
    stack. *)
Definition mark_pkg (IfrPackagePtr : Z) (s : list SMC_OP_FLAG * SmcStack) : Res (list SMC_OP_FLAG * SmcStack) :=
  ty ← pkg_type b IfrPackagePtr;
  if ty =? EFI_HII_PACKAGE_FORMS then
    let pHpkData := IfrPackagePtr + PKG_HEADER in
    c ← op_code b pHpkData;
    if c =? EFI_IFR_FORM_SET_OP then
      l ← op_length b pHpkData;
      '(_, w) ← ParseOpNode (Datatypes.S (length b)) b (pHpkData + l)
        (mkWalk 0 (replicate (Z.to_nat MAX_LEVEL_SIZE) 0) (fst s) (snd s));
      Done (OpFlag w, w_stack w)
    else Done s
  else Done s.

Definition mark_list (HiiPackageList : Z) (s : list SMC_OP_FLAG * SmcStack) : Res (list SMC_OP_FLAG * SmcStack) :=
  l ← pkg_list_length b HiiPackageList;
  for_each pkg_length b (HiiPackageList + l) mark_pkg (HiiPackageList + PKG_LIST_HEADER) s.

(** One root form; output and number of root forms written. The title is the
    local [StrBuff], which only a debug build fills. *)
Definition root_form (rec : ref_call) (s : output * Z) (r : SMC_ROOT_FORM_DATA) : Res (output * Z) :=
  let '(o, RefCount) := s in
  match rf_OpPointer r with
  | None => Done s
  | Some OpPointer =>
      if rf_FormId r =? 0 then Done s
      else
        let HiiHandle := GetGuidHandle (rf_Guid r) GuidHandleMap in
        o ← open_entry 3 4 (rf_Guid r) (rf_FormId r) [] o;
        l ← op_length b OpPointer;
        '(TmpSize, _, buf) ← rec (fst o) (snd o) 5 HiiHandle (rf_Guid r) (rf_FormId r) (OpPointer + l);
        o ← close_entry 3 TmpSize (buf, snd o);
        Done (o, u32 (RefCount + 1))
  end.

(** The two pool allocations, buffer, root forms and expression stack; the
    status, the buffer with [*BuffSize], and the last two again. *)
Definition GenFormLayout (pool1 pool2 : EFI_STATUS) (HiiDataSize : Z) (BuffAddress : list Z) (BuffSize : Z)
    (root : list SMC_ROOT_FORM_DATA) (st : SmcStack)
    : Res (EFI_STATUS * list Z * Z * list SMC_ROOT_FORM_DATA * SmcStack) :=
  HiiData ← rdn b 0 HiiDataSize;
  buf ← wrn BuffAddress 0 HiiData;
  let pFlHpkList := HiiDataSize in
  if EFI_ERROR pool1 then Done (pool1, buf, BuffSize, root, st)
  else if EFI_ERROR pool2 then Done (pool2, buf, BuffSize, root, st)
  else
    fs ← InitFormData HiiLibGetString GuidHandleMap b HiiDataSize root;
    '(flags, st) ← for_each pkg_list_length b HiiDataSize mark_list 0 (OpFlag0, st);
    buf ← wrn buf pFlHpkList FormLayoutGuid;
    let pFlHpk := pFlHpkList + PKG_LIST_HEADER in
    buf ← wr8 buf (pFlHpk + 3) 0xF0;
    o ← put (lit "{~") [] (buf, pFlHpk + PKG_HEADER);
    o ← put (lit "  'FormLayout':{~") [] o;
    o ← put (lit "    'Form':[~") [] o;
    '(o, RefCount) ← foldM (root_form (ParseRefNode (FormData fs) flags 32)) (RootForm fs) (o, 0);
    o ← (if negb (RefCount =? 0) then clear_comma o else Done o);
    o ← put (lit "    ]~") [] o;
    o ← put (lit "  }~") [] o;
    '(buf, p) ← put (lit "}~") [] o;
    buf ← wrn buf pFlHpk (le_bytes 3 (p - pFlHpk));
    buf ← wr32 buf (pFlHpkList + 16) (p - pFlHpkList);
    Done (EFI_SUCCESS, buf, u32 p, RootForm fs, st).
End layout.

(** ** The text *)
Definition pre (L : Z) : list Z := replicate (Z.to_nat (2 * L)) 32.

Definition line_open (L : Z) : list Z := pre L ++ lit "{~".
Definition line_guid (L : Z) (g : guid) : list Z := pre L ++ lit "'GUID': '" ++ ToGuidString g ++ lit "',~".
Definition line_id (L id : Z) : list Z := pre L ++ lit "'FormId': '0x" ++ hex id ++ lit "',~".
Definition line_title (L : Z) (t : list Z) : list Z := pre L ++ lit "'Title': '" ++ t ++ lit "',~".
Definition line_close (L : Z) : list Z := pre L ++ lit "},~".
Definition line_form (L : Z) : list Z := pre L ++ lit "'Form':[~".
Definition line_end (L : Z) : list Z := pre L ++ lit "]~".

(** Without the comma before the last line feed. *)
Definition chop (s : list Z) : list Z := take (length s - 2) s ++ [10].

(** A form of the layout with those below it. *)
#[warnings="-register-all"]
Inductive node := Node (g : guid) (id : Z) (title : list Z) (kids : list node).

Definition entry (Lb Lf : Z) (g : guid) (id : Z) (t kids : list Z) : list Z :=
  line_open Lb ++ line_guid Lf g ++ line_id Lf id ++
  (match kids with [] => chop (line_title Lf t) | _ => line_title Lf t end) ++ kids ++ line_close Lb.

(** The forms [ns], given by their texts, at level [M]. *)
Definition form_list_text (M : Z) (ns : list (list Z)) : list Z :=
  match ns with [] => [] | _ => line_form (M - 1) ++ chop (concat ns) ++ line_end (M - 1) end.

Fixpoint print_node (L : Z) (n : node) {struct n} : list Z :=
  match n with
  | Node g id t kids => entry L L g id t (form_list_text (L + 1) (map (print_node (L + 1)) kids))
  end.
Definition print_list (M : Z) (ns : list node) : list Z := form_list_text M (map (print_node M) ns).

(** The lines fit the 128 bytes given to [Sprintf_s]. *)
Fixpoint node_fits (L : Z) (n : node) {struct n} : bool :=
  match n with
  | Node g _ t kids =>
      (zlen (line_guid L g) <=? 127) && (zlen (line_title L t) <=? 127) && forallb (node_fits (L + 1)) kids
  end.

Definition print_root (n : node) : list Z :=
  match n with Node g id t kids => entry 3 4 g id t (print_list 5 kids) end.
Definition root_fits (n : node) : bool :=
  match n with
  | Node g _ t kids =>
      (zlen (line_guid 4 g) <=? 127) && (zlen (line_title 4 t) <=? 127) && forallb (node_fits 5) kids
  end.

(** The whole text. *)
Definition layout_text (ns : list node) : list Z :=
  lit "{~" ++ lit "  'FormLayout':{~" ++ lit "    'Form':[~" ++
  (match ns with [] => [] | _ => chop (concat (map print_root ns)) end) ++
  lit "    ]~" ++ lit "  }~" ++ lit "}~".

Lemma zlen_pre L : 0 <= L -> zlen (pre L) = 2 * L.
Proof. intros H. unfold pre. rewrite zlen_replicate. lia. Qed.

Lemma hex_digits_length n v : zlen (hex_digits n v) <= Z.of_nat n.
Proof.
  revert v. induction n as [|n IH]; intros v; [done|]. cbn [hex_digits]. rewrite zlen_app.
  specialize (IH (v / 16)). change (zlen [digit_char (v mod 16)]) with 1.
  destruct (v / 16 =? 0); [change (zlen (@nil Z)) with 0|]; lia.
Qed.

(** The formats give these lines. *)
Lemma sprintf_lit s p args : Forall (fun c => c <> 37) s -> sprintf None (s ++ p) args = s ++ sprintf None p args.
Proof.
  induction 1 as [|c s Hc _ IH]; [done|]. cbn [app sprintf]. by rewrite (proj2 (Z.eqb_neq c 37) Hc), IH.
Qed.

Lemma lines (P G T : list Z) (v : Z) :
  sprintf None (lit "%s{~") [AStr P] = P ++ lit "{~" /\
  sprintf None (lit "%s'GUID': '%s',~") [AStr P; AStr G] = P ++ lit "'GUID': '" ++ G ++ lit "',~" /\
  sprintf None (lit "%s'FormId': '0x%x',~") [AStr P; AInt v] = P ++ lit "'FormId': '0x" ++ hex v ++ lit "',~" /\
  sprintf None (lit "%s'Title': '%s',~") [AStr P; AStr T] = P ++ lit "'Title': '" ++ T ++ lit "',~" /\
  sprintf None (lit "%s},~") [AStr P] = P ++ lit "},~" /\
  sprintf None (lit "%s'Form':[~") [AStr P] = P ++ lit "'Form':[~" /\
  sprintf None (lit "%s]~") [AStr P] = P ++ lit "]~".
Proof.
  assert (E : fill_to 32 0 (hex v) = hex v).
  { unfold fill_to. pose proof (zlen_nonneg (hex v)). replace (Z.to_nat (0 - zlen (hex v))) with 0%nat by lia. done. }
  split_and!; try reflexivity. rewrite <- E. reflexivity.
Qed.

(** ** Writing it *)
Section write.
Context (N : Z).

(** The buffer, [N] bytes, starts with [T], which ends at the cursor. *)
Definition holds (T : list Z) (o : output) : Prop :=
  T `prefix_of` fst o /\ snd o = zlen T /\ zlen (fst o) = N.

Lemma put_cut Format args T o :
  holds T o -> let s := take 127 (sprintf None Format args) in zlen T + zlen s < N ->
  exists o', put Format args o = Done o' /\ holds (T ++ s) o'.
Proof using.
  destruct o as [buf p]. intros (Hp & Hc & Hz) s Hs. cbn [fst snd] in *. subst p.
  destruct (wrn_append buf T (s ++ [0]) Hp) as (b' & E & Hp' & Hz').
  { rewrite zlen_app. change (zlen [0]) with 1. lia. }
  unfold put. fold s. rewrite E, bind_Done. eexists. split; [done|]. split; [|split; cbn [fst snd]; [zl|lia]].
  cbn [fst]. rewrite app_assoc in Hp'. etrans; [|exact Hp']. by apply prefix_app_r.
Qed.

Lemma put_cut_any Format args T o :
  holds T o -> zlen T + 128 <= N ->
  exists o' s, put Format args o = Done o' /\ holds (T ++ s) o' /\ zlen s <= 127.
Proof using.
  intros Hh Hr. set (s := take 127 (sprintf None Format args)).
  assert (Hs : zlen s <= 127) by (unfold s, zlen; rewrite length_take; lia).
  destruct (put_cut Format args T o Hh) as (o' & E & H'); [fold s; lia|]. by exists o', s.
Qed.

Lemma put_line Format args T o line :
  holds T o -> sprintf None Format args = line -> zlen line <= 127 -> zlen T + zlen line < N ->
  exists o', put Format args o = Done o' /\ holds (T ++ line) o'.
Proof using.
  intros Hh E Hl Hr. pose proof (put_cut Format args T o Hh) as Hp. rewrite E in Hp.
  rewrite take_ge in Hp by (unfold zlen in Hl; lia). by apply Hp.
Qed.

Lemma BuildPrefix_ok L : 0 <= L <= 31 -> BuildPrefix L = Done (pre L).
Proof using. intros H. unfold BuildPrefix. by replace (2 * L + 1 <=? 64) with true by lia. Qed.

Lemma put_at_any L Format args T o :
  holds T o -> 0 <= L <= 31 -> zlen T + 128 <= N ->
  exists o' s, put_at L Format args o = Done o' /\ holds (T ++ s) o' /\ zlen s <= 127.
Proof using. intros Hh HL Hr. unfold put_at. rewrite BuildPrefix_ok, bind_Done by done. by apply put_cut_any. Qed.

Lemma put_at_line L Format args T o line :
  holds T o -> 0 <= L <= 31 -> sprintf None Format (AStr (pre L) :: args) = line ->
  zlen line <= 127 -> zlen T + zlen line < N ->
  exists o', put_at L Format args o = Done o' /\ holds (T ++ line) o'.
Proof using. intros Hh HL E Hl Hr. unfold put_at. rewrite BuildPrefix_ok, bind_Done by done. by eapply put_line. Qed.

Lemma chop_app s : chop (s ++ [44; 10]) = s ++ [10].
Proof using.
  unfold chop. rewrite length_app. cbn [length]. replace (length s + 2 - 2)%nat with (length s) by lia.
  by rewrite take_app_length.
Qed.

Lemma zlen_chop s : zlen (chop (s ++ [44; 10])) = zlen s + 1.
Proof using. rewrite chop_app. zl. Qed.

Lemma clear_comma_ok T o : holds (T ++ [44; 10]) o -> exists o', clear_comma o = Done o' /\ holds (T ++ [10]) o'.
Proof using.
  destruct o as [buf p]. intros ([r E] & Hc & Hz). cbn [fst snd] in *.
  assert (Hp : p = zlen T + 2) by zl. clear Hc. subst p. unfold clear_comma, wr8.
  replace (zlen T + 2 - 1) with (zlen (T ++ [44])) by zl.
  rewrite (wrn_as buf (T ++ [44]) [10] r); [|by rewrite E, <- !app_assoc|done|done]. rewrite bind_Done.
  replace (zlen T + 2 - 2) with (zlen T) by zl.
  rewrite (wrn_as _ T [44] (0 :: r)); [|by rewrite <- !app_assoc|done|done]. rewrite bind_Done.
  eexists. split; [done|]. split; [|split; cbn [fst snd]].
  - cbn [fst]. exists (0 :: r). by rewrite <- !app_assoc.
  - zl.
  - rewrite E in Hz. zl.
Qed.

Lemma rewind_ok T X o : N < 2 ^ 32 -> holds (T ++ X) o -> exists o', rewind (zlen T) o = Done o' /\ holds T o'.
Proof using.
  intros HN. destruct o as [buf p]. intros ([r E] & Hc & Hz). cbn [fst snd] in *. subst p.
  pose proof (zlen_nonneg X). pose proof (zlen_nonneg T). pose proof (zlen_nonneg r).
  assert (zlen buf = zlen T + zlen X + zlen r) by (rewrite E; zl).
  unfold rewind. rewrite zlen_app. replace (zlen T + zlen X - zlen T) with (zlen X) by lia.
  rewrite u32_small by (unfold is_u32; lia).
  rewrite (wrn_as buf T X r); [|by rewrite E, <- app_assoc|done|zl]. rewrite bind_Done.
  eexists. split; [done|]. split; [|split; cbn [fst snd]]; [by apply prefix_app_r|done|]. zl.
Qed.

(** *** An entry *)
Lemma open_entry_any Lb Lf g id t T o :
  holds T o -> 0 <= Lb <= 31 -> 0 <= Lf <= 31 -> zlen T + 509 <= N ->
  exists o' X, open_entry Lb Lf g id t o = Done o' /\ holds (T ++ X) o' /\ zlen X <= 508.
Proof using.
  intros H0 HLb HLf Hr. unfold open_entry.
  destruct (put_at_any Lb (lit "%s{~") [] T o H0) as (o1 & s1 & -> & H1 & Z1); [done|lia|]. rewrite bind_Done.
  destruct (put_at_any Lf (lit "%s'GUID': '%s',~") [AStr (ToGuidString g)] (T ++ s1) o1 H1)
    as (o2 & s2 & -> & H2 & Z2); [done|zl|]. rewrite bind_Done.
  destruct (put_at_any Lf (lit "%s'FormId': '0x%x',~") [AInt id] ((T ++ s1) ++ s2) o2 H2)
    as (o3 & s3 & -> & H3 & Z3); [done|zl|]. rewrite bind_Done.
  destruct (put_at_any Lf (lit "%s'Title': '%s',~") [AStr t] (((T ++ s1) ++ s2) ++ s3) o3 H3)
    as (o4 & s4 & -> & H4 & Z4); [done|zl|].
  exists o4, (s1 ++ s2 ++ s3 ++ s4). rewrite <- !app_assoc in H4. split; [done|]. split; [done|zl].
Qed.

Lemma open_entry_ok Lb Lf g id t T o :
  holds T o -> 0 <= Lb <= 31 -> 0 <= Lf <= 31 ->
  zlen (line_guid Lf g) <= 127 -> zlen (line_title Lf t) <= 127 -> zlen T + 509 <= N ->
  exists o', open_entry Lb Lf g id t o = Done o' /\
    holds (T ++ line_open Lb ++ line_guid Lf g ++ line_id Lf id ++ line_title Lf t) o'.
Proof using.
  intros H0 HLb HLf Hg Ht Hr. unfold open_entry.
  destruct (lines (pre Lb) [] [] 0) as (F1 & _). destruct (lines (pre Lf) (ToGuidString g) t id) as (_ & F2 & F3 & F4 & _).
  assert (Z1 : zlen (line_open Lb) <= 127).
  { unfold line_open. rewrite zlen_app, zlen_pre by lia. change (zlen (lit "{~")) with 2. lia. }
  assert (Z3 : zlen (line_id Lf id) <= 127).
  { unfold line_id. rewrite !zlen_app, zlen_pre by lia. pose proof (hex_digits_length 8 (u32 id)). unfold hex.
    change (zlen (lit "'FormId': '0x")) with 13. change (zlen (lit "',~")) with 3. lia. }
  destruct (put_at_line Lb _ [] T o (line_open Lb) H0 HLb F1 Z1) as (o1 & -> & H1); [lia|]. rewrite bind_Done.
  destruct (put_at_line Lf _ _ _ o1 (line_guid Lf g) H1 HLf F2 Hg) as (o2 & -> & H2); [zl|]. rewrite bind_Done.
  destruct (put_at_line Lf _ _ _ o2 (line_id Lf id) H2 HLf F3 Z3) as (o3 & -> & H3); [zl|]. rewrite bind_Done.
  destruct (put_at_line Lf _ _ _ o3 (line_title Lf t) H3 HLf F4 Ht) as (o4 & -> & H4); [zl|].
  exists o4. split; [done|]. by rewrite <- !app_assoc in H4.
Qed.

Lemma line_title_end L t : line_title L t = (pre L ++ lit "'Title': '" ++ t ++ [34]) ++ [44; 10].
Proof using. unfold line_title. by rewrite <- !app_assoc. Qed.

Lemma close_entry_ok Lb Lf t T K buf :
  0 <= Lb <= 31 -> holds (T ++ line_title Lf t ++ K) (buf, zlen (T ++ line_title Lf t ++ K)) ->
  zlen T + zlen (line_title Lf t) + zlen K + 128 <= N ->
  exists o', close_entry Lb (zlen K) (buf, zlen (T ++ line_title Lf t)) = Done o' /\
    holds (T ++ (match K with [] => chop (line_title Lf t) | _ => line_title Lf t end) ++ K ++ line_close Lb) o'.
Proof using.
  intros HL Hh Hr. unfold close_entry. destruct (lines (pre Lb) [] [] 0) as (_ & _ & _ & _ & F & _).
  assert (Zc : zlen (line_close Lb) <= 127).
  { unfold line_close. rewrite zlen_app, zlen_pre by lia. change (zlen (lit "},~")) with 3. lia. }
  destruct K as [|x K].
  - rewrite Z.eqb_refl, app_nil_r in *. rewrite line_title_end in *. rewrite app_assoc in Hh.
    destruct (clear_comma_ok _ _ Hh) as (o1 & E & H1). rewrite <- app_assoc in E. rewrite E, bind_Done.
    destruct (put_at_line Lb _ [] _ o1 (line_close Lb) H1 HL F Zc) as (o2 & -> & H2).
    { change (zlen (@nil Z)) with 0 in Hr. zl. }
    exists o2. split; [done|]. rewrite chop_app. cbn [app]. rewrite <- !app_assoc. rewrite <- !app_assoc in H2. exact H2.
  - destruct (Z.eqb_spec (zlen (x :: K)) 0) as [E|_]; [rewrite zlen_cons in E; pose proof (zlen_nonneg K); lia|].
    rewrite bind_Done. cbn [fst snd].
    replace (zlen (T ++ line_title Lf t) + zlen (x :: K)) with (zlen (T ++ line_title Lf t ++ x :: K)) by zl.
    destruct (put_at_line Lb _ [] _ _ (line_close Lb) Hh HL F Zc) as (o2 & -> & H2).
    { rewrite !zlen_app. lia. }
    exists o2. split; [done|]. by rewrite <- !app_assoc in H2.
Qed.
End write.

(** ** The references of a form *)

(** A reference opcode: its place and payload. *)
Definition reference : Type := Z * list Z.

Fixpoint refs (f : forest) (p : Z) : list reference :=
  match f with
  | FNil => []
  | FLeaf c pl rest => (if is_ref c (2 + zlen pl) then [(p, pl)] else []) ++ refs rest (p + 2 + zlen pl)
  | FScope c pl kids rest =>
      let q := p + 2 + zlen pl in
      (if is_ref c (2 + zlen pl) then [(p, pl)] else []) ++ refs kids q ++ refs rest (q + zlen (enc kids) + 2)
  end.

Definition r_prompt (r : reference) : Z := le_val (take 2 (snd r)).
Definition r_id (r : reference) : Z := le_val (take 2 (drop 11 (snd r))).
Definition r_local (r : reference) : bool := 2 + zlen (snd r) =? sizeof_EFI_IFR_REF.
Definition r_guid (g : guid) (r : reference) : guid := if r_local r then g else take 16 (drop 15 (snd r)).

Section spec.
Context (get : Z -> Z -> EFI_STATUS * list Z) (map_ : list SMC_GUID_HANDLE) (hide : list SMC_ROOT_FORM_DATA).
Context (b : list Z) (forms : list SMC_FORM_DATA) (flags : list SMC_OP_FLAG).
(** The content of the form that starts at an offset. *)
Context (content : Z -> forest).

Definition handle (g : guid) : Z := GetGuidHandle g map_.

(** The title local: a string that is not there leaves the last one. *)
Definition next_title (old : list Z) (g : guid) (r : reference) : list Z :=
  let '(st, s) := get (handle g) (r_prompt r) in if EFI_ERROR st then old else UnicodeStrToAsciiStr s.

(** Marked as hidden, or a reference of a form to itself. *)
Definition skipped (id : Z) (r : reference) : bool :=
  negb (GetOpFlag (fst r) flags =? 0) || (r_local r && (r_id r =? id)).

Fixpoint nodes_of (below : guid -> Z -> Z -> option (list node)) (g : guid) (id : Z) (rs : list reference) (t : list Z)
    : option (list node) :=
  match rs with
  | [] => Some []
  | r :: rs =>
      if skipped id r then nodes_of below g id rs t
      else
        let t := next_title t g r in
        let g' := r_guid g r in
        if IsHideFormForSum g' t (r_id r) hide then nodes_of below g id rs t
        else
          match GetForm g' (r_id r) forms with
          | None => nodes_of below g id rs t
          | Some pt =>
              kids ← below g' (r_id r) (pt + 6);
              ns ← nodes_of below g id rs t;
              Some (Node g' (r_id r) t kids :: ns)
          end
  end.

(** The forms below form [id] of form set [g] whose content is at [q], if
    they nest less than [d] deep. *)
Fixpoint layout (d : nat) (g : guid) (id q : Z) : option (list node) :=
  match d with
  | O => None
  | S d => nodes_of (layout d) g id (refs (content q) q) []
  end.

(** The root forms that were found; their titles are empty. *)
Fixpoint roots_of (rs : list SMC_ROOT_FORM_DATA) : option (list node) :=
  match rs with
  | [] => Some []
  | r :: rs =>
      match rf_OpPointer r with
      | Some pt =>
          if rf_FormId r =? 0 then roots_of rs
          else
            kids ← layout 27 (rf_Guid r) (rf_FormId r) (pt + 6);
            ns ← roots_of rs;
            Some (Node (rf_Guid r) (rf_FormId r) [] kids :: ns)
      | None => roots_of rs
      end
  end.

(** *** The walk *)
Definition set_scope (k : Z) (s : ref_locals) : ref_locals :=
  mkLocals (lo_out s) (lo_Level s) k (lo_count s) (lo_title s).

Section walk.
Context (rec : ref_call) (h : Z) (g : guid) (id : Z).

Definition ref_at (s : ref_locals) (r : reference) : Res ref_locals :=
  ref_op get map_ hide b forms flags rec h g id (fst r) EFI_IFR_REF_OP s.

Lemma produce_ref_scope hh pr g' id' th k s :
  produce_ref get hide b forms rec hh pr g' id' th (set_scope k s) =
  (s' ← produce_ref get hide b forms rec hh pr g' id' th s; Done (set_scope k s')).
Proof using.
  unfold produce_ref, set_scope. cbn [lo_out lo_Level lo_scope lo_count lo_title].
  destruct (SmcGetString _ _ _ _ _) as [[st t]| |]; [|done..]. rewrite !bind_Done.
  destruct (IsHideFormForSum _ _ _ _); [done|].
  destruct (open_entry _ _ _ _ _ _) as [o| |]; [|done..]. rewrite !bind_Done.
  destruct (GetForm _ _ _) as [pt|].
  - destruct (op_length _ _) as [l| |]; [|done..]. rewrite !bind_Done.
    destruct (rec _ _ _ _ _ _ _) as [[[n L] buf]| |]; [|done..]. rewrite !bind_Done.
    by destruct (close_entry _ _ _).
  - by destruct (rewind _ _).
Qed.

Lemma ref_op_scope pOp c k s :
  ref_op get map_ hide b forms flags rec h g id pOp c (set_scope k s) =
  (s' ← ref_op get map_ hide b forms flags rec h g id pOp c s; Done (set_scope k s')).
Proof using.
  unfold ref_op. destruct (op_length _ _) as [l| |]; [|done..]. rewrite !bind_Done.
  destruct (_ && _).
  - destruct (negb _); [done|]. destruct (REF_FormId _ _) as [i| |]; [|done..]. rewrite !bind_Done.
    destruct (_ =? _); [done|]. destruct (QUESTION_Prompt _ _); [|done..]. rewrite !bind_Done.
    apply produce_ref_scope.
  - destruct (_ && _); [|done]. destruct (negb _); [done|].
    destruct (REF_FormId _ _) as [i| |]; [|done..]. rewrite !bind_Done.
    destruct (QUESTION_Prompt _ _); [|done..]. rewrite !bind_Done.
    destruct (REF3_FormSetId _ _); [|done..]. rewrite !bind_Done. apply produce_ref_scope.
Qed.

Lemma ref_at_scope k s r : ref_at (set_scope k s) r = (s' ← ref_at s r; Done (set_scope k s')).
Proof using. apply ref_op_scope. Qed.

Lemma refs_scope rs k : forall s,
  foldM ref_at rs (set_scope k s) = (s' ← foldM ref_at rs s; Done (set_scope k s')).
Proof using.
  induction rs as [|r rs IH]; intros s; [done|]. cbn [foldM]. rewrite ref_at_scope. destruct (ref_at s r) as [s'| |]; [|done..]. rewrite !bind_Done. apply IH.
Qed.

Lemma set_scope_id s : set_scope (lo_scope s) s = s.
Proof using. by destruct s. Qed.

Lemma ref_at_keeps s r s' : ref_at s r = Done s' -> lo_scope s' = lo_scope s.
Proof using.
  intros E. rewrite <- (set_scope_id s), ref_at_scope in E.
  apply bind_inv in E as (s1 & _ & [= <-]). done.
Qed.

Lemma refs_keep rs : forall s s', foldM ref_at rs s = Done s' -> lo_scope s' = lo_scope s.
Proof using.
  induction rs as [|r rs IH]; intros s s'; [by intros [= <-]|]. cbn [foldM].
  intros (s1 & E1 & E2)%bind_inv. rewrite (IH _ _ E2). by eapply ref_at_keeps.
Qed.

(** Any opcode that is not [END]. *)
Lemma ref_op_here c pl sc p s :
  found b p (op_bytes c sc pl) -> fits pl ->
  ref_op get map_ hide b forms flags rec h g id p c s =
  foldM ref_at (if is_ref c (2 + zlen pl) then [(p, pl)] else []) s.
Proof using.
  intros Hf Hfit. destruct (is_ref c (2 + zlen pl)) eqn:Er.
  - cbn [foldM]. unfold is_ref in Er. apply andb_prop in Er as [E%Z.eqb_eq _]. subst c.
    unfold ref_at. cbn [fst]. by destruct (ref_op _ _ _ _ _ _ _ _ _ _ _ _ _).
  - cbn [foldM]. unfold ref_op. rewrite (found_op_length _ _ _ _ _ Hfit Hf), bind_Done.
    unfold is_ref in Er. destruct (c =? EFI_IFR_REF_OP); [|done]. cbn [andb] in Er |- *.
    apply orb_false_elim in Er as [-> ->]. done.
Qed.

Lemma ref_step_op c pl sc p s :
  found b p (op_bytes c sc pl) -> fits pl -> c <> EFI_IFR_END_OP ->
  ref_step get map_ hide b forms flags rec h g id (p, s) =
  (s' ← foldM ref_at (if is_ref c (2 + zlen pl) then [(p, pl)] else []) s;
   Done (inl (p + (2 + zlen pl), if sc then set_scope (u32 (lo_scope s' + 1)) s' else s'))).
Proof using.
  intros Hf Hfit Hc. unfold ref_step. rewrite (found_op_code _ _ _ _ _ Hf), bind_Done.
  replace (c =? EFI_IFR_END_OP) with false by lia. cbn [andb].
  rewrite (ref_op_here c pl sc p s Hf Hfit). destruct (foldM _ _ s) as [s'| |]; [|done..].
  rewrite !bind_Done, (found_op_scope _ _ _ _ _ Hfit Hf), bind_Done, (found_op_length _ _ _ _ _ Hfit Hf), bind_Done.
  destruct sc; cbn [b2z Z.eqb Pos.eqb]; [done|]. do 4 f_equal. apply set_scope_id.
Qed.

Lemma ref_step_END p s :
  found b p END_bytes ->
  ref_step get map_ hide b forms flags rec h g id (p, s) =
  Done (if lo_scope s =? 0 then inr (mkLocals (lo_out s) (u32 (lo_Level s - 1)) (lo_scope s) (lo_count s) (lo_title s))
        else inl (p + 2, set_scope (lo_scope s - 1) s)).
Proof using.
  intros Hf. destruct (END_facts _ _ Hf) as (EC & EL & ES). unfold ref_step. rewrite EC, bind_Done.
  rewrite Z.eqb_refl. cbn [andb]. destruct (lo_scope s =? 0); [done|]. by rewrite bind_Done, ES, bind_Done, EL, bind_Done.
Qed.

Lemma refs_walk f : forall p s m,
  found b p (enc f) -> forest_ok f -> 0 <= lo_scope s -> lo_scope s + depth f < 2 ^ 32 ->
  loop (ops f + m) (ref_step get map_ hide b forms flags rec h g id) (p, s) =
  (s' ← foldM ref_at (refs f p) s;
   loop m (ref_step get map_ hide b forms flags rec h g id) (p + zlen (enc f), s')).
Proof using.
  induction f as [|c pl f IH|c pl kids IHk rest IHr]; intros p s m Hf Hok Hk Hd.
  - cbn [refs foldM enc ops Nat.add]. rewrite bind_Done. change (zlen []) with 0. by rewrite Z.add_0_r.
  - cbn [enc] in Hf. apply found_app in Hf as [H1 H2]. rewrite zlen_op_bytes in H2. destruct Hok as (Hc & Hfit & Hok).
    cbn [ops Nat.add refs enc depth] in *. rewrite loop_S, (ref_step_op c pl false) by done.
    rewrite foldM_app, !bind_assoc. destruct (foldM _ _ s) as [s1| |] eqn:E1; [|done..]. rewrite !bind_Done.
    apply refs_keep in E1. rewrite IH by (done || lia). rewrite !Z.add_assoc. rewrite zlen_app, zlen_op_bytes.
    by rewrite !Z.add_assoc.
  - cbn [enc] in Hf. apply found_app in Hf as [H1 H2]. rewrite zlen_op_bytes in H2.
    apply found_app in H2 as [H2 H3]. apply found_app in H3 as [H3 H4]. rewrite zlen_END_bytes in H4.
    destruct Hok as (Hc & Hfit & Hok1 & Hok2). cbn [ops Nat.add refs enc depth] in *.
    pose proof (depth_nonneg kids). rewrite loop_S, (ref_step_op c pl true) by done.
    rewrite !foldM_app, !bind_assoc. destruct (foldM _ _ s) as [s1| |] eqn:E1; [|done..]. rewrite !bind_Done.
    apply refs_keep in E1. rewrite u32_small by (unfold is_u32; lia).
    replace (S (ops kids + ops rest + m))%nat with (ops kids + S (ops rest + m))%nat by lia.
    rewrite IHk; [|done|done|cbn [set_scope lo_scope]; lia|cbn [set_scope lo_scope]; lia].
    rewrite refs_scope, foldM_app, !bind_assoc. replace (p + (2 + zlen pl)) with (p + 2 + zlen pl) in * by lia.
    destruct (foldM ref_at (refs kids _) s1) as [s2| |] eqn:E2; [|done..]. rewrite !bind_Done.
    apply refs_keep in E2. rewrite loop_S, ref_step_END, bind_Done by done. cbn [set_scope lo_scope].
    replace (lo_scope s1 + 1 =? 0) with false by lia.
    replace (lo_scope s1 + 1 - 1) with (lo_scope s2) by lia.
    change (mkLocals (lo_out s2) (lo_Level s2) (lo_scope s1 + 1) (lo_count s2) (lo_title s2)) with (set_scope (lo_scope s1 + 1) s2).
    replace (set_scope (lo_scope s2) (set_scope (lo_scope s1 + 1) s2)) with s2 by (by destruct s2).
    rewrite IHr by (done || lia). destruct (foldM _ _ s2); [|done..]. rewrite !bind_Done. do 2 f_equal.
    rewrite !zlen_app, zlen_op_bytes, zlen_END_bytes. lia.
Qed.
End walk.

(** *** What is assumed of the data *)

(** A string fits the 128 characters it is fetched into, and listed forms are
    form opcodes with a scope. *)
Definition form_stream (q : Z) : Prop := found b q (enc (content q) ++ END_bytes) /\ forest_ok (content q).

Hypothesis get_ok : forall h i, fst (get h i) = EFI_SUCCESS -> zlen (UnicodeStrToAsciiStr (snd (get h i))) < 128.
Hypothesis forms_ok : forall g id pt, GetForm g id forms = Some pt -> op_length b pt = Done 6 /\ form_stream (pt + 6).
Hypothesis b_size : zlen b < 2 ^ 32.

Lemma ops_length f : (ops f <= length (enc f))%nat.
Proof using.
  induction f as [|c pl f IH|c pl kids IHk rest IHr]; cbn [ops enc]; [lia|..]; rewrite !length_app; unfold op_bytes;
    cbn [length]; lia.
Qed.

Lemma depth_length f : depth f <= Z.of_nat (ops f).
Proof using. induction f; cbn [depth ops]; lia. Qed.

Definition ref_found (r : reference) : Prop :=
  exists sc, found b (fst r) (op_bytes EFI_IFR_REF_OP sc (snd r)) /\ fits (snd r) /\
    is_ref EFI_IFR_REF_OP (2 + zlen (snd r)) = true.

Lemma ref_here_found c sc pl p :
  found b p (op_bytes c sc pl) -> fits pl -> Forall ref_found (if is_ref c (2 + zlen pl) then [(p, pl)] else []).
Proof using.
  intros Hf Hfit. destruct (is_ref c (2 + zlen pl)) eqn:E; [|constructor]. apply Forall_singleton. exists sc.
  pose proof E as E'. unfold is_ref in E'. apply andb_prop in E' as [E1%Z.eqb_eq _]. by subst c.
Qed.

Lemma refs_found f : forall p, found b p (enc f) -> forest_ok f -> Forall ref_found (refs f p).
Proof using.
  induction f as [|c pl f IH|c pl kids IHk rest IHr]; intros p Hf Hok; cbn [refs enc] in *; [constructor|..];
    apply found_app in Hf as [H1 H2]; rewrite zlen_op_bytes, Z.add_assoc in H2.
  - destruct Hok as (_ & Hfit & Hok). apply Forall_app. split; [by eapply ref_here_found|by apply IH].
  - apply found_app in H2 as [H2 H3]. apply found_app in H3 as [H3 H4]. rewrite zlen_END_bytes in H4.
    destruct Hok as (_ & Hfit & Hok1 & Hok2). apply Forall_app. split; [by eapply ref_here_found|].
    apply Forall_app. split; [by apply IHk|by apply IHr].
Qed.

Lemma SmcGetString_title old g r : exists st,
  SmcGetString get (handle g) (r_prompt r) 128 old = Done (st, next_title old g r).
Proof using get_ok.
  unfold SmcGetString, next_title. pose proof (get_ok (handle g) (r_prompt r)) as Hg.
  destruct (get (handle g) (r_prompt r)) as [st s]. cbn [fst snd] in Hg. exists st. destruct (EFI_ERROR st) eqn:E; [done|].
  specialize (Hg (no_error _ E)). by replace (_ + 1 <=? 128) with true by lia.
Qed.

(** One reference. *)
Lemma ref_at_eq rec g id s r :
  ref_found r ->
  ref_at rec (handle g) g id s r =
  if skipped id r then Done s
  else produce_ref get hide b forms rec (handle g) (r_prompt r) (r_guid g r) (r_id r) (handle (r_guid g r)) s.
Proof using.
  destruct r as [p pl]. intros (sc & Hf & Hfit & Hr). cbn [fst snd] in *. pose proof (found_payload _ _ _ _ _ Hf) as Hp.
  unfold ref_at, ref_op, skipped, r_guid, r_local, r_id, r_prompt. cbn [fst snd].
  rewrite (found_op_length _ _ _ _ _ Hfit Hf), bind_Done, Z.eqb_refl. cbn [andb].
  unfold is_ref in Hr. rewrite Z.eqb_refl in Hr. cbn [andb] in Hr.
  assert (Hl : 13 <= zlen pl) by (apply orb_prop in Hr; unfold sizeof_EFI_IFR_REF, sizeof_EFI_IFR_REF3 in Hr; lia).
  assert (Ei : REF_FormId b p = Done (le_val (take 2 (drop 11 pl)))).
  { unfold REF_FormId, rd16. replace (p + 13) with (p + 2 + 11) by lia.
    rewrite (found_part b (p + 2) pl 11 2 Hp) by lia. done. }
  assert (Eq : QUESTION_Prompt b p = Done (le_val (take 2 pl))).
  { unfold QUESTION_Prompt, rd16. replace (p + 2) with (p + 2 + 0) by lia.
    rewrite (found_part b (p + 2) pl 0 2 Hp) by lia. done. }
  destruct (Z.eqb_spec (2 + zlen pl) sizeof_EFI_IFR_REF) as [E|E].
  - destruct (negb _); [done|]. cbn [orb andb]. rewrite Ei, bind_Done. destruct (_ =? id); [done|].
    by rewrite Eq, bind_Done.
  - cbn [orb andb] in Hr |- *. rewrite Hr. destruct (negb _); [done|]. cbn [orb]. rewrite Ei, bind_Done, Eq, bind_Done.
    unfold REF3_FormSetId. replace (p + 17) with (p + 2 + 15) by lia.
    unfold sizeof_EFI_IFR_REF3 in Hr. rewrite (found_part b (p + 2) pl 15 16 Hp) by lia. done.
Qed.

Lemma produce_ref_eq rec g s r :
  let t := next_title (lo_title s) g r in
  let g' := r_guid g r in
  produce_ref get hide b forms rec (handle g) (r_prompt r) g' (r_id r) (handle g') s =
  if IsHideFormForSum g' t (r_id r) hide then Done (mkLocals (lo_out s) (lo_Level s) (lo_scope s) (lo_count s) t)
  else
    o ← open_entry (lo_Level s) (lo_Level s) g' (r_id r) t (lo_out s);
    match GetForm g' (r_id r) forms with
    | Some pt =>
        '(n, L, buf) ← rec (fst o) (snd o) (u32 (lo_Level s + 1)) (handle g') g' (r_id r) (pt + 6);
        o ← close_entry L n (buf, snd o);
        Done (mkLocals o L (lo_scope s) (u32 (lo_count s + 1)) t)
    | None => o ← rewind (snd (lo_out s)) o; Done (mkLocals o (lo_Level s) (lo_scope s) (lo_count s) t)
    end.
Proof using get_ok forms_ok.
  intros t g'. unfold produce_ref. destruct (SmcGetString_title (lo_title s) g r) as [st ->]. rewrite bind_Done. fold t.
  destruct (IsHideFormForSum _ _ _ _); [done|]. destruct (open_entry _ _ _ _ _ _) as [o| |]; [|done..]. rewrite !bind_Done.
  destruct (GetForm g' (r_id r) forms) as [pt|] eqn:E; [|done]. destruct (forms_ok _ _ _ E) as [-> _]. by rewrite bind_Done.
Qed.

(** *** The text of a form list *)
Lemma entry_end Lb Lf g i t K : exists X, entry Lb Lf g i t K = X ++ [44; 10].
Proof using.
  exists (line_open Lb ++ line_guid Lf g ++ line_id Lf i ++
    (match K with [] => chop (line_title Lf t) | _ => line_title Lf t end) ++ K ++ pre Lb ++ [125]).
  unfold entry, line_close. change (lit "},~") with ([125] ++ [44; 10]). by rewrite <- !app_assoc.
Qed.

Lemma print_node_end L n : exists X, print_node L n = X ++ [44; 10].
Proof using. destruct n. apply entry_end. Qed.

Lemma concat_end M n ns : exists X, concat (map (print_node M) (n :: ns)) = X ++ [44; 10].
Proof using.
  revert n. induction ns as [|n' ns IH]; intros n; cbn [map concat] in *.
  - rewrite app_nil_r. apply print_node_end.
  - destruct (IH n') as [X ->]. destruct (print_node_end M n) as [Y _]. exists (print_node M n ++ X). by rewrite app_assoc.
Qed.

Lemma print_list_cons M n ns :
  print_list M (n :: ns) = line_form (M - 1) ++ chop (concat (map (print_node M) (n :: ns))) ++ line_end (M - 1).
Proof using. done. Qed.

(** The length of an entry around the forms below. *)
Lemma zlen_entry Lb Lf g i t K : 0 <= Lb ->
  zlen (entry Lb Lf g i t K) + 1 >=
  zlen (line_open Lb ++ line_guid Lf g ++ line_id Lf i ++ line_title Lf t) + zlen K + zlen (line_close Lb).
Proof using.
  intros HL. unfold entry. rewrite !zlen_app. destruct K as [|x K]; [|lia]. rewrite line_title_end, zlen_chop.
  rewrite (zlen_app _ [44; 10]). change (zlen [44; 10]) with 2. change (zlen (@nil Z)) with 0. lia.
Qed.

Section write.
Context (N : Z).
Hypothesis N_size : N < 2 ^ 32.

(** What a call with [d] levels left does. *)
Definition call_ok (d : nat) (rec : ref_call) : Prop :=
  forall M g id q T buf ns,
    layout d g id q = Some ns -> form_stream q -> 1 <= M -> M + Z.of_nat d <= 32 ->
    holds N T (buf, zlen T) -> forallb (node_fits M) ns = true ->
    zlen T + zlen (print_list M ns) + 640 <= N ->
    exists buf', rec buf (zlen T) M (handle g) g id q = Done (zlen (print_list M ns), M - 1, buf') /\
      holds N (T ++ print_list M ns) (buf', zlen (T ++ print_list M ns)).

(** An entry around a call. *)
Lemma write_entry d rec Lb Lf M g' id' q t kids T o :
  call_ok d rec -> layout d g' id' q = Some kids -> form_stream q ->
  0 <= Lb <= 31 -> 0 <= Lf <= 31 -> 1 <= M -> M + Z.of_nat d <= 32 -> holds N T o ->
  zlen (line_guid Lf g') <= 127 -> zlen (line_title Lf t) <= 127 -> forallb (node_fits M) kids = true ->
  let K := print_list M kids in
  zlen T + zlen (entry Lb Lf g' id' t K) + 640 <= N ->
  exists o1 buf o2, open_entry Lb Lf g' id' t o = Done o1 /\
    rec (fst o1) (snd o1) M (handle g') g' id' q = Done (zlen K, M - 1, buf) /\
    close_entry Lb (zlen K) (buf, snd o1) = Done o2 /\ holds N (T ++ entry Lb Lf g' id' t K) o2.
Proof using N_size.
  intros Hrec Hlay Hst HLb HLf HM Hd Ho Hg Ht Hk K Hr.
  pose proof (zlen_entry Lb Lf g' id' t K ltac:(lia)) as Hz.
  assert (Hc : 3 <= zlen (line_close Lb)).
  { unfold line_close. rewrite zlen_app. change (zlen (lit "},~")) with 3. pose proof (zlen_nonneg (pre Lb)). lia. }
  set (A := line_open Lb ++ line_guid Lf g' ++ line_id Lf id'). pose proof (zlen_nonneg K).
  assert (HA : line_open Lb ++ line_guid Lf g' ++ line_id Lf id' ++ line_title Lf t = A ++ line_title Lf t).
  { unfold A. by rewrite <- !app_assoc. }
  rewrite HA in Hz. rewrite zlen_app in Hz. pose proof (zlen_nonneg (entry Lb Lf g' id' t K)).
  destruct (open_entry_ok N Lb Lf g' id' t T o Ho) as (o1 & E1 & H1); [lia|lia|done|done|lia|].
  rewrite HA in H1. destruct o1 as [buf1 p1]. pose proof H1 as (_ & Hp & _). cbn [snd] in Hp. subst p1.
  destruct (Hrec M g' id' q (T ++ A ++ line_title Lf t) buf1 kids Hlay Hst) as (buf2 & E2 & H2);
    [lia|lia|done|done|fold K; rewrite !zlen_app; lia|].
  fold K in E2, H2. rewrite <- !app_assoc in H2. rewrite app_assoc in H2.
  destruct (close_entry_ok N Lb Lf t (T ++ A) K buf2) as (o2 & E3 & H3); [lia|exact H2|rewrite zlen_app; lia|].
  exists (buf1, zlen (T ++ A ++ line_title Lf t)), buf2, o2. cbn [fst snd]. rewrite <- app_assoc in E3.
  split; [done|]. split; [done|]. split; [done|]. unfold entry. unfold A in H3. by rewrite <- !app_assoc in H3.
Qed.

(** Any run of references. *)
Lemma write_refs d rec M g id rs : forall T s ns,
  call_ok d rec -> nodes_of (layout d) g id rs (lo_title s) = Some ns -> Forall ref_found rs ->
  1 <= M -> M + 1 + Z.of_nat d <= 32 -> holds N T (lo_out s) -> lo_Level s = M -> 0 <= lo_count s ->
  lo_count s + zlen ns < 2 ^ 32 -> forallb (node_fits M) ns = true ->
  zlen T + zlen (concat (map (print_node M) ns)) + 509 <= N ->
  (ns <> [] -> zlen T + zlen (concat (map (print_node M) ns)) + 640 <= N) ->
  exists s', foldM (ref_at rec (handle g) g id) rs s = Done s' /\
    holds N (T ++ concat (map (print_node M) ns)) (lo_out s') /\ lo_Level s' = M /\ lo_count s' = lo_count s + zlen ns.
Proof using N_size get_ok forms_ok.
  induction rs as [|r rs IH]; intros T s ns Hrec Hn Hrs HM Hd Ho HL Hc0 Hc Hfit Hr Hr'.
  { injection Hn as <-. exists s. cbn [map concat]. rewrite app_nil_r. split; [done|]. split; [done|]. split; [done|].
    change (zlen (@nil node)) with 0. lia. }
  apply Forall_cons in Hrs as [Hf Hrs]. cbn [foldM nodes_of] in *. rewrite (ref_at_eq rec g id s r Hf).
  destruct (skipped id r); [rewrite bind_Done; by apply IH|].
  rewrite produce_ref_eq. set (t := next_title (lo_title s) g r) in *. set (g' := r_guid g r) in *.
  destruct (IsHideFormForSum g' t (r_id r) hide).
  { rewrite bind_Done. apply (IH T (mkLocals (lo_out s) (lo_Level s) (lo_scope s) (lo_count s) t)); done. }
  destruct (GetForm g' (r_id r) forms) as [pt|] eqn:Eg.
  - destruct (layout d g' (r_id r) (pt + 6)) as [kids|] eqn:El; [|done]. cbn in Hn.
    destruct (nodes_of (layout d) g id rs t) as [ns'|] eqn:En; [|done]. cbn in Hn. injection Hn as <-.
    cbn [forallb map concat] in *. apply andb_prop in Hfit as [Hfn Hfs]. rewrite zlen_app in Hr, Hr'.
    specialize (Hr' ltac:(done)). rewrite zlen_cons in Hc. pose proof (zlen_nonneg ns').
    pose proof (zlen_nonneg (concat (map (print_node M) ns'))). destruct (forms_ok _ _ _ Eg) as [_ Hst].
    cbn [node_fits] in Hfn. apply andb_prop in Hfn as [[Hg%Z.leb_le Ht%Z.leb_le]%andb_prop Hfk].
    destruct (write_entry d rec M M (M + 1) g' (r_id r) (pt + 6) t kids T (lo_out s) Hrec El Hst)
      as (o1 & buf & o2 & E1 & E2 & E3 & H2); try done; try lia.
    { cbn [print_node] in Hr'. fold (print_list (M + 1) kids) in Hr'. lia. }
    rewrite HL, E1, bind_Done. rewrite (u32_small (M + 1)) by (unfold is_u32; lia).
    rewrite E2, bind_Done. replace (M + 1 - 1) with M by lia. rewrite E3, !bind_Done.
    rewrite u32_small by (unfold is_u32; lia).
    destruct (IH (T ++ print_node M (Node g' (r_id r) t kids)) (mkLocals o2 M (lo_scope s) (lo_count s + 1) t) ns')
      as (s' & -> & H3 & H4 & H5); try done; cbn [lo_count lo_out lo_Level]; try lia.
    { rewrite zlen_app. lia. }
    { intros _. rewrite zlen_app. lia. }
    exists s'. split; [done|]. rewrite app_assoc. split; [done|]. split; [done|]. rewrite H5, zlen_cons. cbn [lo_count]. lia.
  - destruct (open_entry_any N (lo_Level s) (lo_Level s) g' (r_id r) t T (lo_out s) Ho) as (o1 & X & -> & H1 & _);
      [lia|lia| |].
    { pose proof (zlen_nonneg (concat (map (print_node M) ns))). lia. }
    rewrite !bind_Done. pose proof Ho as (_ & Hp & _). rewrite Hp.
    destruct (rewind_ok N T X o1 N_size H1) as (o2 & -> & H2). rewrite !bind_Done.
    apply (IH T (mkLocals o2 (lo_Level s) (lo_scope s) (lo_count s) t)); done.
Qed.

(** A call with one level more. *)
Lemma call_step d rec :
  call_ok d rec -> call_ok (S d) (ParseRefNode_body get map_ hide b forms flags rec).
Proof using N_size get_ok forms_ok b_size.
  intros Hrec M g id q T buf ns Hlay Hst HM Hd Ho Hfit Hr. cbn [layout] in Hlay. unfold ParseRefNode_body.
  destruct (lines (pre (M - 1)) [] [] 0) as (_ & _ & _ & _ & _ & F1 & F2).
  assert (Z1 : zlen (line_form (M - 1)) = 2 * (M - 1) + 9).
  { unfold line_form. rewrite zlen_app, zlen_pre by lia. done. }
  assert (Z2 : zlen (line_end (M - 1)) = 2 * (M - 1) + 2).
  { unfold line_end. rewrite zlen_app, zlen_pre by lia. done. }
  pose proof (zlen_nonneg T). pose proof (zlen_nonneg (print_list M ns)).
  rewrite u32_small by (unfold is_u32; lia).
  destruct (put_at_line N (M - 1) (lit "%s'Form':[~") [] T (buf, zlen T) (line_form (M - 1)) Ho)
    as (o1 & -> & H1); [lia|exact F1|lia|lia|]. rewrite bind_Done.
  destruct Hst as [Hf Hok]. pose proof (found_bound _ _ _ Hf) as Hb. apply found_app in Hf as [Hf He].
  rewrite zlen_app, zlen_END_bytes in Hb. pose proof (ops_length (content q)) as Hops. pose proof (depth_length (content q)).
  replace (Datatypes.S (length b)) with (ops (content q) + S (length b - ops (content q)))%nat
    by (unfold zlen in Hb; lia).
  rewrite (refs_walk rec (handle g) g id (content q) q (mkLocals o1 M 0 0 []) _ Hf Hok);
    [|cbn [lo_scope]; lia|cbn [lo_scope]; unfold zlen in *; lia].
  assert (Hw : zlen (T ++ line_form (M - 1)) + zlen (concat (map (print_node M) ns)) + 509 <= N /\
    (ns <> [] -> zlen (T ++ line_form (M - 1)) + zlen (concat (map (print_node M) ns)) + 640 <= N)).
  { rewrite zlen_app. destruct ns as [|n ns].
    - cbn [map concat]. change (zlen (@nil Z)) with 0. split; [|done]. unfold print_list, form_list_text in Hr. cbn [map] in Hr.
      change (zlen (@nil Z)) with 0 in Hr. lia.
    - rewrite print_list_cons in Hr. destruct (concat_end M n ns) as [X EX]. rewrite EX in Hr |- *.
      rewrite !zlen_app, zlen_chop in Hr. rewrite zlen_app. change (zlen [44; 10]) with 2. split; [lia|intros _; lia]. }
  destruct Hw as [W1 W2].
  assert (Hns : zlen ns <= zlen (concat (map (print_node M) ns))).
  { clear. induction ns as [|n ns IH]; [done|]. cbn [map concat]. rewrite zlen_cons, zlen_app.
    destruct (print_node_end M n) as [X ->]. rewrite zlen_app. change (zlen [44; 10]) with 2. pose proof (zlen_nonneg X). lia. }
  pose proof (zlen_nonneg (T ++ line_form (M - 1))).
  destruct (write_refs d rec M g id (refs (content q) q) (T ++ line_form (M - 1)) (mkLocals o1 M 0 0 []) ns)
    as (s' & E & H5 & L2 & C2); try done; cbn [lo_count lo_out lo_Level]; try lia.
  { by apply refs_found. }
  rewrite E, bind_Done. apply refs_keep in E. cbn [lo_scope] in E. rewrite loop_S, ref_step_END by done. rewrite E.
  cbn [Z.eqb]. rewrite !bind_Done. cbn [lo_count lo_Level lo_out lo_count] in *. rewrite C2, L2.
  rewrite (u32_small (M - 1)) by (unfold is_u32; lia).
  destruct ns as [|n ns].
  - cbn [map concat] in H5. rewrite app_nil_r in H5. change (0 + zlen (@nil node) =? 0) with true. cbn [negb].
    destruct (rewind_ok N T (line_form (M - 1)) (lo_out s') N_size H5) as (o2 & -> & H6). rewrite bind_Done.
    destruct o2 as [buf2 p2]. pose proof H6 as (_ & Hp & _). cbn [snd fst] in Hp |- *. subst p2. exists buf2.
    unfold print_list, form_list_text. cbn [map]. rewrite app_nil_r, Z.sub_diag. by split.
  - destruct (Z.eqb_spec (0 + zlen (n :: ns)) 0) as [E0|_]; [rewrite zlen_cons in E0; pose proof (zlen_nonneg ns); lia|].
    cbn [negb]. destruct (concat_end M n ns) as [X EX]. rewrite EX in H5. rewrite print_list_cons, EX in *. rewrite chop_app in *.
    rewrite app_assoc in H5. destruct (clear_comma_ok N _ _ H5) as (o2 & -> & H6). rewrite bind_Done.
    rewrite !zlen_app in Hr. change (zlen [10]) with 1 in Hr.
    destruct (put_at_line N (M - 1) (lit "%s]~") [] _ o2 (line_end (M - 1)) H6) as (o3 & -> & H7);
      [lia|exact F2|lia|rewrite !zlen_app; change (zlen [10]) with 1; lia|].
    rewrite bind_Done. destruct o3 as [buf3 p3]. pose proof H7 as (_ & Hp & _). cbn [snd fst] in Hp |- *. subst p3.
    exists buf3. rewrite <- !app_assoc. rewrite <- !app_assoc in H7. split; [|exact H7]. do 3 f_equal. rewrite !zlen_app.
    change (zlen [10]) with 1. rewrite u32_small; [lia|]. unfold is_u32. pose proof (zlen_nonneg X). lia.
Qed.

Lemma ParseRefNode_call d : forall fuel, (d <= fuel)%nat -> call_ok d (ParseRefNode get map_ hide b forms flags fuel).
Proof using N_size get_ok forms_ok b_size.
  induction d as [|d IH]; intros fuel Hf; [by intros ???????|]. destruct fuel as [|fuel]; [lia|].
  apply call_step, IH. lia.
Qed.

Definition root_stream (r : SMC_ROOT_FORM_DATA) : Prop :=
  forall pt, rf_OpPointer r = Some pt -> op_length b pt = Done 6 /\ form_stream (pt + 6).

#[local] Opaque entry print_list lit.

Lemma write_roots rec rs : forall T o c ns,
  call_ok 27 rec -> roots_of rs = Some ns -> Forall root_stream rs -> holds N T o -> 0 <= c -> c + zlen ns < 2 ^ 32 ->
  forallb root_fits ns = true -> zlen T + zlen (concat (map print_root ns)) + 640 <= N ->
  exists o', foldM (root_form map_ b rec) rs (o, c) = Done (o', c + zlen ns) /\
    holds N (T ++ concat (map print_root ns)) o'.
Proof using N_size.
  induction rs as [|r rs IH]; intros T o c ns Hrec Hn Hrs Ho Hc Hcn Hfit Hr.
  { injection Hn as <-. exists o. cbn [map concat foldM]. rewrite app_nil_r. change (zlen (@nil node)) with 0.
    by rewrite Z.add_0_r. }
  apply Forall_cons in Hrs as [Hr1 Hrs]. cbn [roots_of foldM] in *. 
  set (F := foldM (root_form map_ b rec) rs) in *. unfold root_form.
  destruct (rf_OpPointer r) as [pt|] eqn:Ep; [|rewrite bind_Done; by apply IH].
  destruct (rf_FormId r =? 0); [rewrite bind_Done; by apply IH|].
  destruct (layout 27 (rf_Guid r) (rf_FormId r) (pt + 6)) as [kids|] eqn:El; [|done]. cbn in Hn.
  destruct (roots_of rs) as [ns'|] eqn:En; [|done]. cbn in Hn. injection Hn as <-.
  cbn [forallb map concat root_fits print_root] in *. rewrite zlen_app in Hr. rewrite zlen_cons in Hcn |- *.
  apply andb_prop in Hfit as [[[Hg%Z.leb_le Ht%Z.leb_le]%andb_prop Hfk]%andb_prop Hfs].
  pose proof (zlen_nonneg ns'). pose proof (zlen_nonneg (concat (map print_root ns'))).
  destruct (Hr1 pt Ep) as [Hl Hst].
  destruct (write_entry 27 rec 3 4 5 (rf_Guid r) (rf_FormId r) (pt + 6) [] kids T o Hrec El Hst) as (o1 & buf & o2 & E1 & E2 & E3 & H2); try done; try lia.
  rewrite E1, !bind_Done, Hl, !bind_Done. unfold handle in E2. rewrite E2, !bind_Done, E3, !bind_Done. rewrite u32_small by (unfold is_u32; lia).
  destruct (IH (T ++ entry 3 4 (rf_Guid r) (rf_FormId r) [] (print_list 5 kids)) o2 (c + 1) ns')
    as (o' & -> & H3); try done; try lia.
  { rewrite zlen_app. lia. }
  exists o'. rewrite app_assoc. split; [do 2 f_equal; lia|done].
Qed.
#[local] Transparent entry print_list lit.
End write.

(** *** References that nest too deep *)

(** Out of the 32nd level the prefix overruns its buffer; before it a call
    either ends with its level one down or goes out of a buffer. *)
Definition tame {A} (P : A -> Prop) (r : Res A) : Prop := r = Fault \/ exists a, r = Done a /\ P a.

Lemma tame_bind {A B} (P : A -> Prop) (Q : B -> Prop) r (k : A -> Res B) :
  tame P r -> (forall a, P a -> tame Q (k a)) -> tame Q (r ≫= k).
Proof using. intros [->|(a & -> & Ha)] Hk; [by left|]. rewrite bind_Done. by apply Hk. Qed.

Lemma tame_done {A} (P : A -> Prop) a : P a -> tame P (Done a).
Proof using. intros H. right. by exists a. Qed.

Lemma tame_write {A} (P : A -> Prop) buf i l (k : list Z -> Res A) :
  (forall buf', tame P (k buf')) -> tame P (wrn buf i l ≫= k).
Proof using. intros Hk. unfold wrn. destruct (_ && _); [apply Hk|by left]. Qed.

Definition anything {A} (a : A) : Prop := True.

Lemma tame_put Format args o : tame anything (put Format args o).
Proof using. destruct o as [buf p]. apply tame_write. intros buf'. by apply tame_done. Qed.

Lemma tame_put_at L Format args o : tame anything (put_at L Format args o).
Proof using. unfold put_at, BuildPrefix. destruct (_ <=? _); [|by left]. rewrite bind_Done. apply tame_put. Qed.

Lemma tame_clear o : tame anything (clear_comma o).
Proof using.
  destruct o as [buf p]. unfold clear_comma, wr8. apply tame_write. intros b1. apply tame_write. intros b2. by apply tame_done.
Qed.

Lemma tame_rewind start o : tame anything (rewind start o).
Proof using. destruct o as [buf p]. apply tame_write. intros buf'. by apply tame_done. Qed.

Lemma tame_open Lb Lf g i t o : tame anything (open_entry Lb Lf g i t o).
Proof using.
  unfold open_entry. do 3 (eapply tame_bind; [apply tame_put_at|intros ? _]). apply tame_put_at.
Qed.

Lemma tame_close Lb n o : tame anything (close_entry Lb n o).
Proof using.
  unfold close_entry. eapply tame_bind; [|intros ? _; apply tame_put_at].
  destruct (n =? 0); [apply tame_clear|by apply tame_done].
Qed.

Definition tame_call (M : Z) (rec : ref_call) : Prop :=
  forall g id q buf p, form_stream q -> tame (fun r => snd (fst r) = M - 1) (rec buf p M (handle g) g id q).

Lemma tame_ref rec M g id s r :
  tame_call (M + 1) rec -> 0 <= M < 33 -> ref_found r -> lo_Level s = M ->
  tame (fun s' => lo_Level s' = M) (ref_at rec (handle g) g id s r).
Proof using get_ok forms_ok.
  intros Hrec HM Hf HL. rewrite (ref_at_eq rec g id s r Hf). destruct (skipped id r); [by apply tame_done|].
  rewrite produce_ref_eq. destruct (IsHideFormForSum _ _ _ _); [by apply tame_done|].
  eapply tame_bind; [apply tame_open|]. intros o _. destruct (GetForm _ _ _) as [pt|] eqn:E.
  - rewrite HL, (u32_small (M + 1)) by (unfold is_u32; lia). destruct (forms_ok _ _ _ E) as [_ Hst].
    eapply tame_bind; [by apply Hrec|]. intros [[n L] buf] HL'. cbn [fst snd] in HL'.
    eapply tame_bind; [apply tame_close|]. intros o' _. apply tame_done. cbn [lo_Level]. lia.
  - eapply tame_bind; [apply tame_rewind|]. intros o' _. by apply tame_done.
Qed.

Lemma tame_refs rec M g id rs : forall s,
  tame_call (M + 1) rec -> 0 <= M < 33 -> Forall ref_found rs -> lo_Level s = M ->
  tame (fun s' => lo_Level s' = M) (foldM (ref_at rec (handle g) g id) rs s).
Proof using get_ok forms_ok.
  induction rs as [|r rs IH]; intros s Hrec HM Hf HL; cbn [foldM]; [by apply tame_done|].
  apply Forall_cons in Hf as [Hf1 Hf2]. eapply tame_bind; [by apply tame_ref|]. intros s' HL'. by apply IH.
Qed.

(** The body of a call around its run of references. *)
Lemma body_refs rec M g id q buf p : form_stream q -> 1 <= M < 2 ^ 32 ->
  ParseRefNode_body get map_ hide b forms flags rec buf p M (handle g) g id q =
  (o ← put_at (M - 1) (lit "%s'Form':[~") [] (buf, p);
   s ← foldM (ref_at rec (handle g) g id) (refs (content q) q) (mkLocals o M 0 0 []);
   o ← (if negb (lo_count s =? 0)
        then o ← clear_comma (lo_out s); put_at (u32 (lo_Level s - 1)) (lit "%s]~") [] o
        else rewind p (lo_out s));
   Done (u32 (snd o - p), u32 (lo_Level s - 1), fst o)).
Proof using b_size.
  intros [Hf Hok] HM. unfold ParseRefNode_body. rewrite u32_small by (unfold is_u32; lia).
  destruct (put_at _ _ _ _) as [o| |]; [|done..]. rewrite !bind_Done. pose proof (found_bound _ _ _ Hf) as Hb.
  apply found_app in Hf as [Hf He]. rewrite zlen_app, zlen_END_bytes in Hb.
  pose proof (ops_length (content q)). pose proof (depth_length (content q)).
  replace (Datatypes.S (length b)) with (ops (content q) + S (length b - ops (content q)))%nat by (unfold zlen in Hb; lia).
  rewrite (refs_walk rec (handle g) g id (content q) q (mkLocals o M 0 0 []) _ Hf Hok);
    [|cbn [lo_scope]; lia|cbn [lo_scope]; unfold zlen in *; lia].
  destruct (foldM _ _ _) as [s| |] eqn:E; [|done..]. rewrite !bind_Done. apply refs_keep in E. cbn [lo_scope] in E.
  by rewrite loop_S, ref_step_END, E, !bind_Done by done.
Qed.

Lemma tame_ParseRefNode fuel : forall M, 1 <= M -> 34 - M <= Z.of_nat fuel -> (1 <= fuel)%nat -> M < 2 ^ 32 ->
  tame_call M (ParseRefNode get map_ hide b forms flags fuel).
Proof using get_ok forms_ok b_size.
  induction fuel as [|fuel IH]; intros M HM Hf Hf1 HMu; [lia|]. intros g id q buf p Hst. cbn [ParseRefNode].
  rewrite body_refs by done. destruct (Z.leb_spec 33 M) as [Hd|Hd].
  { left. unfold put_at, BuildPrefix. by replace (2 * (M - 1) + 1 <=? 64) with false by lia. }
  eapply tame_bind; [apply tame_put_at|]. intros o _. destruct Hst as [[Hfo _]%found_app Hok].
  eapply (tame_bind (fun s => lo_Level s = M)); [apply (tame_refs _ M); [apply IH; lia|lia|by apply refs_found|done]|]. intros s HL.
  eapply (tame_bind anything).
  - destruct (negb _); [|apply tame_rewind]. eapply tame_bind; [apply tame_clear|]. intros o' _. apply tame_put_at.
  - intros o' _. apply tame_done. cbn [fst snd]. rewrite HL. apply u32_small. unfold is_u32. lia.
Qed.

Lemma fault_bind {A B} (P : A -> Prop) r (k : A -> Res B) :
  tame P r -> (forall a, P a -> k a = Fault) -> r ≫= k = Fault.
Proof using. intros [->|(a & -> & Ha)] Hk; [done|]. rewrite bind_Done. by apply Hk. Qed.

Lemma deep_refs d rec M g id rs : forall s,
  tame_call (M + 1) rec -> 0 <= M < 33 -> Forall ref_found rs -> lo_Level s = M ->
  (forall g id q buf p, layout d g id q = None -> form_stream q -> rec buf p (M + 1) (handle g) g id q = Fault) ->
  nodes_of (layout d) g id rs (lo_title s) = None -> foldM (ref_at rec (handle g) g id) rs s = Fault.
Proof using get_ok forms_ok.
  induction rs as [|r rs IH]; intros s Hrec HM Hf HL Hdeep Hn; [done|].
  apply Forall_cons in Hf as [Hf1 Hf2]. cbn [foldM nodes_of] in *. rewrite (ref_at_eq rec g id s r Hf1).
  destruct (skipped id r); [rewrite bind_Done; by apply IH|].
  rewrite produce_ref_eq. set (t := next_title (lo_title s) g r) in *. set (g' := r_guid g r) in *.
  destruct (IsHideFormForSum _ _ _ _); [rewrite bind_Done; by apply IH|].
  rewrite bind_assoc. eapply fault_bind; [apply tame_open|]. intros o _. destruct (GetForm _ _ _) as [pt|] eqn:E.
  - rewrite HL, (u32_small (M + 1)) by (unfold is_u32; lia). destruct (forms_ok _ _ _ E) as [_ Hst].
    destruct (layout d g' (r_id r) (pt + 6)) as [kids|] eqn:El; [|by rewrite Hdeep].
    cbn in Hn. destruct (nodes_of _ _ _ rs t) eqn:En; [done|].
    rewrite bind_assoc. eapply fault_bind; [by apply Hrec|]. intros [[n L] buf] HL'. cbn [fst snd] in HL'.
    rewrite bind_assoc. eapply fault_bind; [apply tame_close|]. intros o' _. rewrite bind_Done.
    apply IH; try done. cbn [lo_Level]. lia.
  - rewrite bind_assoc. eapply fault_bind; [apply tame_rewind|]. intros o' _. rewrite bind_Done. by apply IH.
Qed.

Lemma deep_call d : forall fuel M g id q buf p,
  layout d g id q = None -> form_stream q -> 1 <= M -> M + Z.of_nat d = 33 -> (d < fuel)%nat ->
  ParseRefNode get map_ hide b forms flags fuel buf p M (handle g) g id q = Fault.
Proof using get_ok forms_ok b_size.
  induction d as [|d IH]; intros fuel M g id q buf p Hl Hst HM Hd Hf; destruct fuel as [|fuel]; try lia; cbn [ParseRefNode];
    rewrite body_refs by (done || lia).
  { unfold put_at, BuildPrefix. by replace (2 * (M - 1) + 1 <=? 64) with false by lia. }
  eapply fault_bind; [apply tame_put_at|]. intros o _. cbn [layout] in Hl. destruct Hst as [[Hfo _]%found_app Hok].
  rewrite (deep_refs d _ M); [done|apply tame_ParseRefNode; lia|lia|by apply refs_found|done| |done].
  intros g' id' q' buf' p' Hl' Hst'. apply IH; [done|done|lia|lia|lia].
Qed.

Lemma deep_roots rec rs : forall o c,
  tame_call 5 rec -> Forall root_stream rs ->
  (forall g id q buf p, layout 28 g id q = None -> form_stream q -> rec buf p 5 (handle g) g id q = Fault) ->
  Exists (fun r => exists pt, rf_OpPointer r = Some pt /\ rf_FormId r <> 0 /\
    layout 28 (rf_Guid r) (rf_FormId r) (pt + 6) = None) rs ->
  foldM (root_form map_ b rec) rs (o, c) = Fault.
Proof using.
  induction rs as [|r rs IH]; intros o c Hrec Hrs Hdeep He; [by apply Exists_nil in He|].
  apply Forall_cons in Hrs as [Hr1 Hrs]. cbn [foldM]. set (F := foldM (root_form map_ b rec) rs) in *. unfold root_form.
  apply Exists_cons in He. destruct (rf_OpPointer r) as [pt|] eqn:Ep.
  2:{ destruct He as [(pt & [=] & _)|He]. rewrite bind_Done. by apply IH. }
  destruct (Hr1 pt Ep) as [Hl Hst]. destruct (Z.eqb_spec (rf_FormId r) 0) as [E0|E0].
  { destruct He as [(pt' & _ & ? & _)|He]; [done|]. rewrite bind_Done. by apply IH. }
  rewrite bind_assoc. eapply fault_bind; [apply tame_open|]. intros o1 _. rewrite Hl, bind_Done.
  fold (handle (rf_Guid r)). destruct He as [(pt' & [= <-] & _ & Hn)|He]; [by rewrite Hdeep|].
  rewrite bind_assoc. eapply fault_bind; [by apply Hrec|]. intros [[n L] buf] _.
  rewrite bind_assoc. eapply fault_bind; [apply tame_close|]. intros o2 _. rewrite bind_Done. by apply IH.
Qed.
End spec.

(** ** A whole export

    Package lists with the form sets as forests. *)
Fixpoint flatten (f : forest) : list ifr_op :=
  match f with
  | FNil => []
  | FLeaf c pl rest => mkOp c false pl :: flatten rest
  | FScope c pl kids rest => mkOp c true pl :: flatten kids ++ mkOp EFI_IFR_END_OP false [] :: flatten rest
  end.

Definition op_END : ifr_op := mkOp EFI_IFR_END_OP false [].

Lemma enc_flatten f : enc_ops (flatten f) = enc f.
Proof.
  unfold enc_ops. induction f as [|c pl f IH|c pl kids IHk rest IHr]; cbn [flatten map concat enc]; [done|by rewrite IH|].
  rewrite map_app, concat_app. cbn [map concat]. by rewrite IHk, IHr.
Qed.

Inductive lpkg := LForms (fs : list Z) (f : forest) | LOther (type : Z) (data : list Z).

Definition to_package (k : lpkg) : package :=
  match k with LForms fs f => PForms fs true (flatten f ++ [op_END]) | LOther t d => POther t d end.
Definition to_plist (h : list Z * list lpkg) : list Z * list package := (fst h, map to_package (snd h)).
Definition enc_lpkg (k : lpkg) : list Z := enc_package (to_package k).
Definition enc_llist (h : list Z * list lpkg) : list Z := enc_plist (to_plist h).
Definition enc_export (x : list (list Z * list lpkg)) : list Z := concat (map enc_llist x).

(** Forms open a scope. *)
Fixpoint forms_scoped (f : forest) : Prop :=
  match f with
  | FNil => True
  | FLeaf c _ rest => c <> EFI_IFR_FORM_OP /\ forms_scoped rest
  | FScope c pl kids rest => (c = EFI_IFR_FORM_OP -> zlen pl = 4) /\ forms_scoped kids /\ forms_scoped rest
  end.

Definition lpkg_ok (k : lpkg) : Prop :=
  match k with
  | LForms _ f => forest_ok f /\ conds_scoped f /\ depth f <= 64 /\ forms_scoped f
  | LOther _ _ => True
  end.

(** Place of the content of a form set whose package is at [p]. *)
Definition content_at (fs : list Z) (p : Z) : Z := p + 4 + (2 + zlen fs).

Lemma found_forms b fs f p :
  found b p (enc_lpkg (LForms fs f)) ->
  found b (p + 4) (op_bytes EFI_IFR_FORM_SET_OP true fs) /\ found b (content_at fs p) (enc f ++ END_bytes).
Proof.
  unfold enc_lpkg, enc_package, enc_pkg, content_at. cbn [to_package pkg_of k_data k_type]. intros [_ Hf]%found_app.
  rewrite zlen_pkg_header in Hf. unfold enc_ops in Hf. cbn [map concat] in Hf. apply found_app in Hf as [H1 H2].
  rewrite map_app, concat_app in H2. fold (enc_ops (flatten f)) in H2. rewrite enc_flatten in H2. cbn [map concat] in H2.
  rewrite app_nil_r in H2. split; [exact H1|]. unfold enc_op in H2 at 1. cbn [formset_op o_code o_scope o_payload] in H2.
  rewrite zlen_op_bytes in H2. exact H2.
Qed.

(** *** The marking pass *)
Section marking.
Context (get : Z -> Z -> EFI_STATUS * list Z) (map_ : list SMC_GUID_HANDLE) (b : list Z).

Definition marks_pkg (k : lpkg) (p : Z) (st : SmcStack) : Res (list Z * SmcStack) :=
  match k with LForms fs f => hidden_refs b f (content_at fs p) false st | LOther _ _ => Done ([], st) end.

Fixpoint marks_pkgs (l : list lpkg) (p : Z) (st : SmcStack) : Res (list Z * SmcStack) :=
  match l with
  | [] => Done ([], st)
  | k :: l =>
      '(x, st) ← marks_pkg k p st;
      '(y, st) ← marks_pkgs l (p + zlen (enc_lpkg k)) st;
      Done (x ++ y, st)
  end.

Fixpoint marks_lists (l : list (list Z * list lpkg)) (p : Z) (st : SmcStack) : Res (list Z * SmcStack) :=
  match l with
  | [] => Done ([], st)
  | h :: l =>
      '(x, st) ← marks_pkgs (snd h) (p + 20) st;
      '(y, st) ← marks_lists l (p + zlen (enc_llist h)) st;
      Done (x ++ y, st)
  end.

Lemma mark_pkg_spec k p tab st l st' :
  found b p (enc_lpkg k) -> package_ok get map_ (to_package k) -> lpkg_ok k -> marks_pkg k p st = Done (l, st') ->
  mark_pkg b p (tab, st) = Done (marks l tab, st').
Proof using.
  intros Hf [Hk Hp] Hok Hm. destruct (pkg_item _ _ _ Hk Hf) as [_ Et]. unfold mark_pkg. rewrite Et, bind_Done.
  destruct k as [fs f|t d]; cbn [to_package pkg_of k_type] in *.
  - rewrite Z.eqb_refl. destruct (found_forms _ _ _ _ Hf) as [H1 H2]. change (p + PKG_HEADER) with (p + 4).
    rewrite (found_op_code _ _ _ _ _ H1), bind_Done, Z.eqb_refl. destruct Hp as (Hl & Hfit & _).
    rewrite (found_op_length _ _ _ _ _ Hfit H1), bind_Done. cbn [fst snd].
    destruct Hok as (Hfo & Hc & Hd & _). cbn [marks_pkg] in Hm. pose proof (found_bound _ _ _ H2) as Hb.
    apply found_app in H2 as [H2 H3]. destruct (END_facts _ _ H3) as (EC & _ & _).
    fold (content_at fs p). rewrite zlen_app, zlen_END_bytes in Hb.
    pose proof (ops_length f) as Hops.
    assert (E : ParseOpNode (ops f + 1) b (content_at fs p) (mkWalk 0 (replicate (Z.to_nat MAX_LEVEL_SIZE) 0) tab st) =
      Done (content_at fs p + zlen (enc f), mkWalk 0 (replicate (Z.to_nat MAX_LEVEL_SIZE) 0) (marks l tab) st')).
    { eapply (walk_forest b f (content_at fs p) 0 []); try done. cbn [ParseOpNode]. by rewrite EC, bind_Done. }
    apply (ParseOpNode_mono _ (Datatypes.S (length b))) in E; [|unfold zlen in Hb; lia].
    by rewrite E, bind_Done.
  - injection Hm as <- <-. by replace (t =? EFI_HII_PACKAGE_FORMS) with false by (cbn in Hp; lia).
Qed.

Lemma mark_pkgs_spec l : forall p tab st x st',
  found b p (concat (map enc_lpkg l)) -> Forall (fun k => package_ok get map_ (to_package k)) l -> Forall lpkg_ok l ->
  marks_pkgs l p st = Done (x, st') ->
  runM (mark_pkg b) enc_lpkg l p (tab, st) = Done (marks x tab, st').
Proof using.
  induction l as [|k l IH]; intros p tab st x st' Hf Hk Hok Hm; cbn [runM marks_pkgs] in *; [by injection Hm as <- <-|].
  cbn [map concat] in Hf. apply found_app in Hf as [H1 H2]. apply Forall_cons in Hk as [Hk1 Hk2].
  apply Forall_cons in Hok as [Ho1 Ho2]. apply bind_inv in Hm as ([y st1] & E1 & Hm).
  apply bind_inv in Hm as ([z st2] & E2 & [= <- <-]).
  rewrite (mark_pkg_spec k p tab st y st1) by done. rewrite bind_Done. rewrite (IH _ _ _ z st2) by done.
  unfold marks. by rewrite fold_left_app.
Qed.

Definition llist_ok (h : list Z * list lpkg) : Prop := plist_ok get map_ (to_plist h) /\ Forall lpkg_ok (snd h).

Lemma packages_map l : concat (map enc_package (map to_package l)) = concat (map enc_lpkg l).
Proof using. by rewrite map_map. Qed.

Lemma llist_pkgs h : llist_ok h -> Forall (fun k => package_ok get map_ (to_package k)) (snd h).
Proof using. intros [[_ Hk] _]. cbn [to_plist snd] in Hk. rewrite List.Forall_map in Hk. exact Hk. Qed.

Lemma mark_list_spec h p tab st x st' :
  found b p (enc_llist h) -> llist_ok h -> marks_pkgs (snd h) (p + 20) st = Done (x, st') ->
  mark_list b p (tab, st) = Done (marks x tab, st').
Proof using.
  intros Hf Hok Hm. pose proof (llist_pkgs h Hok) as Hk. destruct Hok as [[Hh _] Hl].
  destruct (list_item _ _ _ Hh Hf) as [El Hp]. unfold mark_list.
  rewrite El, bind_Done. cbn [plist_of to_plist l_pkgs snd] in Hp. rewrite enc_packages, packages_map in Hp.
  rewrite (for_each_items pkg_length b _ _ enc_lpkg (snd h) (p + PKG_LIST_HEADER)).
  - by apply mark_pkgs_spec.
  - exact Hp.
  - unfold enc_plist. rewrite (zlen_enc_list _ Hh). cbn [plist_of to_plist l_pkgs snd].
    rewrite enc_packages, packages_map. unfold PKG_LIST_HEADER. lia.
  - intros k q Hin Hq. rewrite Forall_forall in Hk. destruct (Hk k Hin) as [Hpk _].
    by destruct (pkg_item _ _ _ Hpk Hq).
  - intros k _. apply pkg_pos.
Qed.

Lemma mark_lists_spec l : forall p tab st x st',
  found b p (enc_export l) -> Forall llist_ok l -> marks_lists l p st = Done (x, st') ->
  runM (mark_list b) enc_llist l p (tab, st) = Done (marks x tab, st').
Proof using.
  induction l as [|h l IH]; intros p tab st x st' Hf Hok Hm; cbn [runM marks_lists] in *; [by injection Hm as <- <-|].
  unfold enc_export in Hf. cbn [map concat] in Hf. apply found_app in Hf as [H1 H2].
  apply Forall_cons in Hok as [Ho1 Ho2]. apply bind_inv in Hm as ([y st1] & E1 & Hm).
  apply bind_inv in Hm as ([z st2] & E2 & [= <- <-]).
  rewrite (mark_list_spec h p tab st y st1) by done. rewrite bind_Done, (IH _ _ _ z st2) by done.
  unfold marks. by rewrite fold_left_app.
Qed.
End marking.

(** *** The contents of the forms *)

(** The forest below the scope whose content starts at [q]. *)
Fixpoint form_body (f : forest) (p q : Z) : option forest :=
  match f with
  | FNil => None
  | FLeaf c pl rest => form_body rest (p + 2 + zlen pl) q
  | FScope c pl kids rest =>
      let r := p + 2 + zlen pl in
      if r =? q then Some kids
      else
        match form_body kids r q with
        | Some k => Some k
        | None => form_body rest (r + zlen (enc kids) + 2) q
        end
  end.

Definition body_pkg (k : lpkg) (p q : Z) : option forest :=
  match k with LForms fs f => form_body f (content_at fs p) q | LOther _ _ => None end.

Fixpoint body_pkgs (l : list lpkg) (p q : Z) : option forest :=
  match l with
  | [] => None
  | k :: l => match body_pkg k p q with Some f => Some f | None => body_pkgs l (p + zlen (enc_lpkg k)) q end
  end.

Fixpoint body_lists (l : list (list Z * list lpkg)) (p q : Z) : option forest :=
  match l with
  | [] => None
  | h :: l =>
      match body_pkgs (snd h) (p + 20) q with Some f => Some f | None => body_lists l (p + zlen (enc_llist h)) q end
  end.

Definition export_content (x : list (list Z * list lpkg)) (q : Z) : forest := default FNil (body_lists x 0 q).

Section contents.
Context (get : Z -> Z -> EFI_STATUS * list Z) (map_ : list SMC_GUID_HANDLE) (b : list Z).

Definition body_ok (q : Z) (k : forest) : Prop := found b q (enc k ++ END_bytes) /\ forest_ok k.

Lemma form_body_ok f : forall p q k, found b p (enc f) -> forest_ok f -> form_body f p q = Some k -> body_ok q k.
Proof using.
  induction f as [|c pl f IH|c pl kids IHk rest IHr]; intros p q k Hf Hok Hb; cbn [form_body enc] in *; [done|..];
    apply found_app in Hf as [H1 H2]; rewrite zlen_op_bytes, Z.add_assoc in H2.
  - destruct Hok as (_ & _ & Hok). by eapply IH.
  - destruct Hok as (_ & _ & Hk & Hr). rewrite app_assoc in H2. apply found_app in H2 as [H2 H4].
    rewrite zlen_app, zlen_END_bytes, Z.add_assoc in H4.
    destruct (Z.eqb_spec (p + 2 + zlen pl) q) as [E|_]; [injection Hb as <-; by subst q|].
    apply found_app in H2 as [H2 _]. destruct (form_body kids _ q) eqn:E; [|by eapply IHr].
    injection Hb as <-. by eapply IHk.
Qed.

Lemma form_event g h f : forall p e, forms_scoped f -> forest_ok f -> found b p (enc f) ->
  e ∈ forms_of_ops g h (flatten f) p -> op_length b (e_pos e) = Done 6 /\ is_Some (form_body f p (e_pos e + 6)).
Proof using.
  induction f as [|c pl f IH|c pl kids IHk rest IHr]; intros p e Hs Hok Hf He; cbn [flatten form_body enc] in *.
  { by apply elem_of_nil in He. }
  all: apply found_app in Hf as [H1 H2]; rewrite zlen_op_bytes, Z.add_assoc in H2.
  - destruct Hs as [Hc Hs], Hok as (_ & _ & Hok). cbn [forms_of_ops o_code] in He.
    rewrite (proj2 (Z.eqb_neq _ _) Hc) in He. cbn [app] in He. unfold enc_op in He. cbn [o_code o_scope o_payload] in He.
    rewrite zlen_op_bytes, Z.add_assoc in He. by apply IH.
  - destruct Hs as (Hc & Hs1 & Hs2), Hok as (_ & Hfit & Hok1 & Hok2). cbn [forms_of_ops o_code o_payload] in He.
    unfold enc_op in He at 1. cbn [o_code o_scope o_payload] in He. rewrite zlen_op_bytes, Z.add_assoc in He.
    apply found_app in H2 as [H2 H3]. apply found_app in H3 as [_ H4]. rewrite zlen_END_bytes in H4.
    assert (Ea : forall l1 l2 p, forms_of_ops g h (l1 ++ l2) p =
      forms_of_ops g h l1 p ++ forms_of_ops g h l2 (p + zlen (enc_ops l1))).
    { clear. induction l1 as [|o l1 IH]; intros l2 p; [cbn [app]; change (zlen (enc_ops [])) with 0; by rewrite Z.add_0_r|].
      cbn [app forms_of_ops]. rewrite IH. unfold enc_ops. cbn [map concat]. rewrite zlen_app. by rewrite <- app_assoc, Z.add_assoc. }
    rewrite Ea, enc_flatten in He. cbn [forms_of_ops o_code] in He. change (EFI_IFR_END_OP =? EFI_IFR_FORM_OP) with false in He.
    cbn [app] in He. change (zlen (enc_op op_END)) with 2 in He. change (zlen (enc_op (mkOp EFI_IFR_END_OP false []))) with 2 in He.
    destruct (Z.eqb_spec (p + 2 + zlen pl) (e_pos e + 6)) as [E|E].
    + split; [|by eexists]. apply elem_of_app in He as [He|He].
      * destruct (Z.eqb_spec c EFI_IFR_FORM_OP) as [Ec|]; [|by apply elem_of_nil in He]. apply list_elem_of_singleton in He as ->.
        cbn [e_pos]. rewrite (found_op_length _ _ _ _ _ Hfit H1). by rewrite (Hc Ec).
      * apply elem_of_app in He as [He|He]; [by eapply IHk|by eapply IHr].
    + apply elem_of_app in He as [He|He].
      * destruct (Z.eqb_spec c EFI_IFR_FORM_OP) as [Ec|]; [|by apply elem_of_nil in He]. apply list_elem_of_singleton in He as ->.
        cbn [e_pos] in E. rewrite (Hc Ec) in E. lia.
      * apply elem_of_app in He as [He|He].
        -- destruct (IHk _ _ Hs1 Hok1 H2 He) as [? [k Ek]]. rewrite Ek. split; [done|by eexists].
        -- destruct (IHr _ _ Hs2 Hok2 H4 He) as [? [k Ek]]. rewrite Ek. split; [done|]. by case_match; eexists.
Qed.

Lemma body_pkg_ok k p q f :
  found b p (enc_lpkg k) -> lpkg_ok k -> body_pkg k p q = Some f -> body_ok q f.
Proof using.
  intros Hf Hok Hb. destruct k as [fs f'|]; [|done]. destruct (found_forms _ _ _ _ Hf) as [_ [H2 _]%found_app].
  eapply form_body_ok; [exact H2|apply Hok|exact Hb].
Qed.

Lemma event_pkg k p e :
  found b p (enc_lpkg k) -> lpkg_ok k -> e ∈ forms_of_pkg map_ (to_package k) p ->
  op_length b (e_pos e) = Done 6 /\ is_Some (body_pkg k p (e_pos e + 6)).
Proof using.
  intros Hf Hok He. destruct k as [fs f|]; [|by apply elem_of_nil in He].
  destruct (found_forms _ _ _ _ Hf) as [_ [H2 _]%found_app]. cbn [to_package forms_of_pkg] in He.
  destruct (_ =? 0); [by apply elem_of_nil in He|]. destruct Hok as (Hfo & _ & _ & Hs).
  cbn [body_pkg]. fold (content_at fs p) in He. revert He. generalize (formset_guid fs) (GetGuidHandle (formset_guid fs) map_).
  intros g h He. eapply (form_event g h f); [done..|].
  assert (Ea : forall l p, forms_of_ops g h (l ++ [op_END]) p = forms_of_ops g h l p).
  { clear. induction l as [|o l IH]; intros p; [done|]. cbn [app forms_of_ops]. by rewrite IH. }
  by rewrite Ea in He.
Qed.

Lemma body_pkgs_ok l : forall p q f, found b p (concat (map enc_lpkg l)) -> Forall lpkg_ok l ->
  body_pkgs l p q = Some f -> body_ok q f.
Proof using.
  induction l as [|k l IH]; intros p q f Hf Hok Hb; [done|]. cbn [map concat body_pkgs] in *.
  apply found_app in Hf as [H1 H2]. apply Forall_cons in Hok as [Ho1 Ho2].
  destruct (body_pkg k p q) eqn:E; [injection Hb as <-; by eapply body_pkg_ok|by eapply IH].
Qed.

Lemma event_pkgs l : forall p e, found b p (concat (map enc_lpkg l)) -> Forall lpkg_ok l ->
  e ∈ forms_of_pkgs map_ (map to_package l) p -> op_length b (e_pos e) = Done 6 /\ is_Some (body_pkgs l p (e_pos e + 6)).
Proof using.
  induction l as [|k l IH]; intros p e Hf Hok He; cbn [map concat body_pkgs forms_of_pkgs] in *; [by apply elem_of_nil in He|].
  apply found_app in Hf as [H1 H2]. apply Forall_cons in Hok as [Ho1 Ho2]. apply elem_of_app in He as [He|He].
  - destruct (event_pkg k p e H1 Ho1 He) as [? [f Ef]]. rewrite Ef. split; [done|by eexists].
  - destruct (IH _ _ H2 Ho2 He) as [? [f Ef]]. split; [done|]. destruct (body_pkg k p _); [by eexists|]. by rewrite Ef.
Qed.

Lemma llist_found h p : llist_ok get map_ h -> found b p (enc_llist h) -> found b (p + 20) (concat (map enc_lpkg (snd h))).
Proof using.
  intros [[Hh _] _] Hf. destruct (list_item _ _ _ Hh Hf) as [_ Hp]. cbn [plist_of to_plist l_pkgs snd] in Hp.
  by rewrite enc_packages, packages_map in Hp.
Qed.

Lemma body_lists_ok l : forall p q f, found b p (enc_export l) -> Forall (llist_ok get map_) l ->
  body_lists l p q = Some f -> body_ok q f.
Proof using.
  induction l as [|h l IH]; intros p q f Hf Hok Hb; [done|]. unfold enc_export in Hf. cbn [map concat body_lists] in *.
  apply found_app in Hf as [H1 H2]. apply Forall_cons in Hok as [Ho1 Ho2]. apply (llist_found h p Ho1) in H1.
  destruct (body_pkgs (snd h) (p + 20) q) eqn:E; [injection Hb as <-|by eapply IH].
  eapply body_pkgs_ok; [exact H1|apply Ho1|exact E].
Qed.

Lemma event_lists l : forall p e, found b p (enc_export l) -> Forall (llist_ok get map_) l ->
  e ∈ forms_of_lists map_ (map to_plist l) p -> op_length b (e_pos e) = Done 6 /\ is_Some (body_lists l p (e_pos e + 6)).
Proof using.
  induction l as [|h l IH]; intros p e Hf Hok He; [by apply elem_of_nil in He|]. unfold enc_export in Hf.
  cbn [map concat body_lists forms_of_lists] in *.
  apply found_app in Hf as [H1 H2]. apply Forall_cons in Hok as [Ho1 Ho2]. apply (llist_found h p Ho1) in H1.
  apply elem_of_app in He as [He|He].
  - destruct (event_pkgs (snd h) (p + 20) e H1 (proj2 Ho1) He) as [? [f Ef]]. rewrite Ef. split; [done|by eexists].
  - destruct (IH _ _ H2 Ho2 He) as [? [f Ef]]. split; [done|]. destruct (body_pkgs (snd h) _ _); [by eexists|]. by rewrite Ef.
Qed.

Lemma event_content x e :
  found b 0 (enc_export x) -> Forall (llist_ok get map_) x -> e ∈ forms_of_lists map_ (map to_plist x) 0 ->
  op_length b (e_pos e) = Done 6 /\ form_stream b (export_content x) (e_pos e + 6).
Proof using.
  intros Hf Hok He. destruct (event_lists x 0 e Hf Hok He) as [Hl [f Ef]]. split; [done|].
  unfold form_stream, export_content. rewrite Ef. cbn [default from_option id]. by eapply body_lists_ok.
Qed.
End contents.

(** *** Entries of the tables *)
Lemma put_first_in {A} (free : A -> bool) y t x : x ∈ put_first free y t -> x = y \/ x ∈ t.
Proof.
  induction t as [|z t IH]; cbn [put_first]; [by intros ?%elem_of_nil|]. destruct (free z); intros [->|H]%elem_of_cons.
  - by left.
  - right. by constructor.
  - right. constructor.
  - destruct (IH H) as [->|]; [by left|right; by constructor].
Qed.

Lemma GetForm_in g id t pt : GetForm g id t = Some pt -> exists e, e ∈ t /\ fd_OpPointer e = Some pt.
Proof.
  unfold GetForm. destruct (List.find _ t) as [e|] eqn:E; [|done]. intros H. exists e. split; [|done].
  apply List.find_some in E as [E _]. by apply list_elem_of_In.
Qed.

Lemma update_root_in g t id p root r : r ∈ update_root g t id p root -> rf_OpPointer r = Some p \/ r ∈ root.
Proof.
  unfold update_root. destruct (GetRootForm g t root) as [i|]; [|by right].
  intros [j Hj]%list_elem_of_lookup. destruct (decide (i = j)) as [<-|Hne].
  - rewrite list_lookup_alter_eq in Hj. destruct (root !! i); [|done]. injection Hj as <-. by left.
  - rewrite list_lookup_alter_ne in Hj by done. right. by eapply list_elem_of_lookup_2.
Qed.

Section tables.
Context (get : Z -> Z -> EFI_STATUS * list Z).

Lemma entered_form es : forall s e pt,
  e ∈ FormData (fold_left (enter_form get) es s) -> fd_OpPointer e = Some pt ->
  (exists ev, ev ∈ es /\ e_pos ev = pt) \/ e ∈ FormData s.
Proof using.
  induction es as [|ev es IH]; intros s e pt He Hp; [by right|]. cbn [fold_left] in He.
  destruct (IH _ _ _ He Hp) as [(ev' & Hin & E)|Hin]; [left; exists ev'; split; [by constructor|done]|].
  unfold enter_form, register_form, AddForm in Hin. cbn [FormData] in Hin. apply put_first_in in Hin as [->|]; [|by right].
  injection Hp as <-. left. exists ev. split; [by constructor|done].
Qed.

Lemma entered_root es : forall s r pt,
  r ∈ RootForm (fold_left (enter_form get) es s) -> rf_OpPointer r = Some pt ->
  (exists ev, ev ∈ es /\ e_pos ev = pt) \/ r ∈ RootForm s.
Proof using.
  induction es as [|ev es IH]; intros s r pt He Hp; [by right|]. cbn [fold_left] in He.
  destruct (IH _ _ _ He Hp) as [(ev' & Hin & E)|Hin]; [left; exists ev'; split; [by constructor|done]|].
  unfold enter_form, register_form in Hin. cbn [RootForm] in Hin. apply update_root_in in Hin as [E|]; [|by right].
  rewrite E in Hp. injection Hp as <-. left. exists ev. split; [by constructor|done].
Qed.

Lemma blank_form e : e ∈ FormData0 -> fd_OpPointer e = None.
Proof using. unfold FormData0. by intros [-> _]%elem_of_replicate. Qed.
End tables.

(** ** The layout of an export *)
Definition layout_list (ns : list node) : hii_list := mkList FormLayoutGuid [mkPkg 0xF0 (layout_text ns)].

Lemma le_bytes_3 l : 0 <= l < 2 ^ 24 -> le_bytes 4 (l + 0xF0 * 2 ^ 24) = le_bytes 3 l ++ [0xF0].
Proof.
  intros Hl. rewrite <- (le_bytes_le_val (le_bytes 3 l ++ [0xF0])).
  2:{ apply Forall_app. split; [apply le_bytes_ok|]. by repeat constructor. }
  rewrite length_app, length_le_bytes. cbn [length Nat.add]. f_equal.
  pose proof (le_val_le_bytes 3 l) as E. change (256 ^ Z.of_nat 3) with (2 ^ 24) in E. rewrite Z.mod_small in E by done.
  cbn [le_bytes app le_val] in E |- *. lia.
Qed.

Lemma put_text N s T o :
  holds N T o -> sprintf None s [] = s -> zlen s <= 127 -> zlen T + zlen s < N ->
  exists o', put s [] o = Done o' /\ holds N (T ++ s) o'.
Proof. intros Hh E Hs Hr. by eapply put_line. Qed.

Section generate.
Context (get : Z -> Z -> EFI_STATUS * list Z) (map_ : list SMC_GUID_HANDLE) (hide : list SMC_ROOT_FORM_DATA).
Context (x : list (list Z * list lpkg)) (root : list SMC_ROOT_FORM_DATA).
Hypothesis get_ok : forall h i, fst (get h i) = EFI_SUCCESS -> zlen (UnicodeStrToAsciiStr (snd (get h i))) < 128.
Hypothesis x_ok : Forall (llist_ok get map_) x.
Hypothesis root_ok : Forall (fun r => rf_OpPointer r = None) root.

Definition the_events : list form := forms_of_lists map_ (map to_plist x) 0.
Definition the_forms : form_state := fold_left (enter_form get) the_events (mkFS FormData0 root).
Definition the_roots (l : list Z) : option (list node) :=
  roots_of get map_ hide (FormData the_forms) (marks l OpFlag0) (export_content x) (RootForm the_forms).

Lemma x_found : found (enc_export x) 0 (enc_export x).
Proof using. pose proof (found_at [] (enc_export x) []) as H. by rewrite app_nil_r in H. Qed.

Lemma event_ok e : e ∈ the_events ->
  op_length (enc_export x) (e_pos e) = Done 6 /\ form_stream (enc_export x) (export_content x) (e_pos e + 6).
Proof using x_ok. intros He. eapply event_content; [apply x_found|exact x_ok|exact He]. Qed.

Lemma the_forms_ok g id pt : GetForm g id (FormData the_forms) = Some pt ->
  op_length (enc_export x) pt = Done 6 /\ form_stream (enc_export x) (export_content x) (pt + 6).
Proof using x_ok.
  intros (e & He & Hp)%GetForm_in. destruct (entered_form get _ _ _ _ He Hp) as [(ev & Hin & <-)|Hin]; [by apply event_ok|].
  apply blank_form in Hin. congruence.
Qed.

Lemma the_roots_ok : Forall (root_stream (enc_export x) (export_content x)) (RootForm the_forms).
Proof using x_ok root_ok.
  apply Forall_forall. intros r Hr pt Hp.
  destruct (entered_root get _ _ _ _ Hr Hp) as [(ev & Hin & <-)|Hin]; [by apply event_ok|]. cbn [RootForm] in Hin.
  rewrite Forall_forall in root_ok. apply root_ok in Hin. congruence.
Qed.

Lemma init_forms : InitFormData get map_ (enc_export x) (zlen (enc_export x)) root = Done the_forms.
Proof using x_ok.
  assert (E : enc_export x = concat (map enc_plist (map to_plist x))) by (by rewrite map_map).
  unfold the_forms, the_events. rewrite E. apply InitFormData_fold. apply List.Forall_map. eapply Forall_impl; [exact x_ok|].
  by intros h [H _].
Qed.

Lemma mark_all st l st' : marks_lists (enc_export x) x 0 st = Done (l, st') ->
  for_each pkg_list_length (enc_export x) (zlen (enc_export x)) (mark_list (enc_export x)) 0 (OpFlag0, st) =
  Done (marks l OpFlag0, st').
Proof using x_ok.
  intros Hm. rewrite (for_each_items pkg_list_length _ _ _ enc_llist x 0).
  - eapply mark_lists_spec; [apply x_found|exact x_ok|exact Hm].
  - exact x_found.
  - done.
  - intros h q Hh Hq. rewrite Forall_forall in x_ok. apply x_ok in Hh as [[Hl _] _].
    by destruct (list_item _ _ _ Hl Hq).
  - intros h Hh. rewrite Forall_forall in x_ok. apply x_ok in Hh as [[Hl _] _]. by apply list_pos.
Qed.

(** The header's fixed fields; eight bytes are left for its sizes. *)
Lemma layout_header b buf :
  b `prefix_of` buf -> zlen b + 24 <= zlen buf ->
  exists u v buf1 buf2, wrn buf (zlen b) FormLayoutGuid = Done buf1 /\
    wr8 buf1 (zlen b + PKG_LIST_HEADER + 3) 0xF0 = Done buf2 /\ zlen u = 4 /\ zlen v = 3 /\
    holds (zlen buf) (b ++ FormLayoutGuid ++ u ++ v ++ [0xF0]) (buf2, zlen b + PKG_LIST_HEADER + PKG_HEADER).
Proof.
  intros [r ->] Hl. rewrite zlen_app in Hl. assert (Hr : 24 <= zlen r) by lia.
  set (g := take 16 r). set (u := take 4 (drop 16 r)). set (v := take 3 (drop 20 r)). set (y := take 1 (drop 23 r)).
  set (z := drop 24 r).
  assert (Er : r = g ++ u ++ v ++ y ++ z).
  { unfold g, u, v, y, z. rewrite <- (take_drop 16 r) at 1. f_equal.
    rewrite <- (take_drop 4 (drop 16 r)) at 1. f_equal. rewrite drop_drop.
    rewrite <- (take_drop 3 (drop (16 + 4) r)) at 1. f_equal. rewrite drop_drop.
    rewrite <- (take_drop 1 (drop (16 + 4 + 3) r)) at 1. f_equal. by rewrite drop_drop. }
  assert (Zg : zlen g = 16) by (unfold g, zlen in *; rewrite length_take; lia).
  assert (Zu : zlen u = 4) by (unfold u, zlen in *; rewrite length_take, length_drop; lia).
  assert (Zv : zlen v = 3) by (unfold v, zlen in *; rewrite length_take, length_drop; lia).
  assert (Zy : zlen y = 1) by (unfold y, zlen in *; rewrite length_take, length_drop; lia).
  assert (ZG : zlen FormLayoutGuid = 16) by done. clearbody g u v y z. clear Hl Hr.
  exists u, v, (b ++ FormLayoutGuid ++ u ++ v ++ y ++ z), (b ++ FormLayoutGuid ++ u ++ v ++ [0xF0] ++ z).
  split; [by rewrite Er, (wrn_as _ b g (u ++ v ++ y ++ z)) by solve [app_eq | zl]|].
  split.
  { unfold wr8. change (u8 0xF0) with 0xF0. unfold PKG_LIST_HEADER.
    rewrite (wrn_as _ (b ++ FormLayoutGuid ++ u ++ v) y z) by solve [app_eq | zl]. f_equal. app_eq. }
  split; [done|]. split; [done|]. unfold PKG_LIST_HEADER, PKG_HEADER. split; [|split; cbn [fst snd]].
  - cbn [fst]. exists z. app_eq.
  - rewrite !zlen_app, ZG, Zu, Zv. change (zlen [0xF0]) with 1. lia.
  - rewrite Er, !zlen_app, ZG, Zg, Zy. change (zlen [0xF0]) with 1. lia.
Qed.

(** The sizes at the end. *)
Lemma layout_sizes b u v t buf :
  zlen u = 4 -> zlen v = 3 -> 4 + zlen t < 2 ^ 24 ->
  (b ++ FormLayoutGuid ++ u ++ v ++ [0xF0] ++ t) `prefix_of` buf ->
  let p := zlen b + 24 + zlen t in
  exists buf1 buf2, wrn buf (zlen b + PKG_LIST_HEADER) (le_bytes 3 (p - (zlen b + PKG_LIST_HEADER))) = Done buf1 /\
    wr32 buf1 (zlen b + 16) (p - zlen b) = Done buf2 /\ zlen buf2 = zlen buf /\
    (b ++ enc_list (mkList FormLayoutGuid [mkPkg 0xF0 t])) `prefix_of` buf2.
Proof.
  intros Zu Zv Ht [z ->] p. assert (ZG : zlen FormLayoutGuid = 16) by done. pose proof (zlen_nonneg t).
  unfold PKG_LIST_HEADER. replace (p - (zlen b + 20)) with (4 + zlen t) by (unfold p; lia).
  replace (p - zlen b) with (24 + zlen t) by (unfold p; lia).
  exists (b ++ FormLayoutGuid ++ u ++ le_bytes 3 (4 + zlen t) ++ [0xF0] ++ t ++ z),
    (b ++ FormLayoutGuid ++ le_bytes 4 (24 + zlen t) ++ le_bytes 3 (4 + zlen t) ++ [0xF0] ++ t ++ z).
  split; [|split; [|split]].
  - rewrite (wrn_as _ (b ++ FormLayoutGuid ++ u) v ([0xF0] ++ t ++ z)); [f_equal; app_eq|app_eq|zl|].
    rewrite zlen_le_bytes. lia.
  - unfold wr32. rewrite (wrn_as _ (b ++ FormLayoutGuid) u (le_bytes 3 (4 + zlen t) ++ [0xF0] ++ t ++ z));
      [f_equal; app_eq|app_eq|zl|]. rewrite zlen_le_bytes. lia.
  - rewrite !zlen_app, !zlen_le_bytes. lia.
  - exists z. unfold enc_list, list_header. cbn [l_guid l_pkgs]. unfold enc_pkgs. cbn [map concat]. rewrite app_nil_r.
    rewrite zlen_enc_pkg. unfold enc_pkg, pkg_header. cbn [k_data k_type]. rewrite le_bytes_3 by lia.
    replace (20 + (4 + zlen t)) with (24 + zlen t) by lia. app_eq.
Qed.

Lemma print_roots_end n ns : exists X, concat (map print_root (n :: ns)) = X ++ [44; 10].
Proof using.
  revert n. induction ns as [|n' ns IH]; intros n; cbn [map concat] in *.
  - rewrite app_nil_r. destruct n. apply entry_end.
  - destruct (IH n') as [X ->]. exists (print_root n ++ X). by rewrite app_assoc.
Qed.

Lemma zlen_layout_text ns : zlen (layout_text ns) = 44 + zlen (match ns with [] => [] | _ => chop (concat (map print_root ns)) end).
Proof using.
  unfold layout_text. rewrite !zlen_app. change (zlen (lit "{~")) with 2. change (zlen (lit "  'FormLayout':{~")) with 17.
  change (zlen (lit "    'Form':[~")) with 13. change (zlen (lit "    ]~")) with 6. change (zlen (lit "  }~")) with 4.
  change (zlen (lit "}~")) with 2. lia.
Qed.

(** The text, from the cursor behind the header. *)
Lemma write_text N rec forms flags content T o ns rs :
  N < 2 ^ 32 -> call_ok get map_ hide (enc_export x) forms flags content N 27 rec ->
  roots_of get map_ hide forms flags content rs = Some ns ->
  Forall (root_stream (enc_export x) content) rs -> forallb root_fits ns = true -> holds N T o ->
  zlen T + zlen (layout_text ns) + 640 <= N ->
  exists o', (o ← put (lit "{~") [] o;
    o ← put (lit "  'FormLayout':{~") [] o;
    o ← put (lit "    'Form':[~") [] o;
    '(o, RefCount) ← foldM (root_form map_ (enc_export x) rec) rs (o, 0);
    o ← (if negb (RefCount =? 0) then clear_comma o else Done o);
    o ← put (lit "    ]~") [] o;
    o ← put (lit "  }~") [] o;
    put (lit "}~") [] o) = Done o' /\ holds N (T ++ layout_text ns) o'.
Proof using.
  intros HN Hrec Hns Hrs Hfit Ho Hr. rewrite zlen_layout_text in Hr.
  assert (Hc : zlen (concat (map print_root ns)) <=
    zlen (match ns with [] => [] | _ => chop (concat (map print_root ns)) end) + 1).
  { destruct ns as [|n ns]; [done|]. destruct (print_roots_end n ns) as [X ->]. rewrite zlen_chop, zlen_app.
    change (zlen [44; 10]) with 2. lia. }
  assert (Hn : zlen ns <= zlen (concat (map print_root ns))).
  { clear. induction ns as [|n ns IH]; [done|]. cbn [map concat]. rewrite zlen_cons, zlen_app.
    destruct n as [g i t k]. destruct (entry_end 3 4 g i t (print_list 5 k)) as [X E]. cbn [print_root]. rewrite E, zlen_app.
    change (zlen [44; 10]) with 2. pose proof (zlen_nonneg X). lia. }
  set (C := match ns with [] => [] | _ => _ end) in *. pose proof (zlen_nonneg C). pose proof (zlen_nonneg T).
  destruct (put_text N (lit "{~") T o Ho) as (o1 & -> & H1); [done|done|change (zlen (lit "{~")) with 2; lia|].
  rewrite bind_Done.
  destruct (put_text N (lit "  'FormLayout':{~") _ o1 H1) as (o2 & -> & H2); [done|done| |].
  { rewrite !zlen_app. change (zlen (lit "{~")) with 2. change (zlen (lit "  'FormLayout':{~")) with 17. lia. }
  rewrite bind_Done.
  destruct (put_text N (lit "    'Form':[~") _ o2 H2) as (o3 & -> & H3); [done|done| |].
  { rewrite !zlen_app. change (zlen (lit "{~")) with 2. change (zlen (lit "  'FormLayout':{~")) with 17.
    change (zlen (lit "    'Form':[~")) with 13. lia. }
  rewrite bind_Done. set (T3 := ((T ++ lit "{~") ++ lit "  'FormLayout':{~") ++ lit "    'Form':[~") in *.
  assert (ZT3 : zlen T3 = zlen T + 32).
  { unfold T3. rewrite !zlen_app. change (zlen (lit "{~")) with 2. change (zlen (lit "  'FormLayout':{~")) with 17.
    change (zlen (lit "    'Form':[~")) with 13. lia. }
  destruct (write_roots get map_ hide (enc_export x) forms flags content N HN rec rs T3 o3 0 ns Hrec Hns Hrs H3)
    as (o4 & -> & K4); [lia|lia|done|lia|].
  rewrite bind_Done. pose proof (zlen_nonneg ns).
  assert (Hcl : exists o5, (if negb (0 + zlen ns =? 0) then clear_comma o4 else Done o4) = Done o5 /\ holds N (T3 ++ C) o5).
  { unfold C. destruct ns as [|n ns]; [by exists o4|].
    destruct (Z.eqb_spec (0 + zlen (n :: ns)) 0) as [E|_]; [rewrite zlen_cons in E; pose proof (zlen_nonneg ns); lia|].
    destruct (print_roots_end n ns) as [X E]. rewrite E in K4 |- *. rewrite app_assoc in K4.
    destruct (clear_comma_ok N _ _ K4) as (o5 & E5 & K5). exists o5. split; [done|].
    rewrite chop_app, app_assoc. exact K5. }
  destruct Hcl as (o5 & -> & K5). rewrite bind_Done.
  destruct (put_text N (lit "    ]~") _ o5 K5) as (o6 & -> & K6); [done|done| |].
  { rewrite !zlen_app. change (zlen (lit "    ]~")) with 6. lia. }
  rewrite bind_Done.
  destruct (put_text N (lit "  }~") _ o6 K6) as (o7 & -> & K7); [done|done| |].
  { rewrite !zlen_app. change (zlen (lit "    ]~")) with 6. change (zlen (lit "  }~")) with 4. lia. }
  rewrite bind_Done.
  destruct (put_text N (lit "}~") _ o7 K7) as (o8 & -> & K8); [done|done| |].
  { rewrite !zlen_app. change (zlen (lit "    ]~")) with 6. change (zlen (lit "  }~")) with 4. change (zlen (lit "}~")) with 2. lia. }
  exists o8. split; [done|]. unfold layout_text. fold C. unfold T3 in K8. rewrite <- !app_assoc in K8. exact K8.
Qed.

Lemma GenFormLayout_spec st l st' ns BuffAddress BuffSize :
  let b := enc_export x in
  marks_lists b x 0 st = Done (l, st') -> the_roots l = Some ns -> forallb root_fits ns = true ->
  zlen b + 24 + zlen (layout_text ns) + 640 <= zlen BuffAddress < 2 ^ 32 -> 4 + zlen (layout_text ns) < 2 ^ 24 ->
  exists buf,
    GenFormLayout get map_ hide b EFI_SUCCESS EFI_SUCCESS (zlen b) BuffAddress BuffSize root st =
      Done (EFI_SUCCESS, buf, zlen (b ++ enc_list (layout_list ns)), RootForm the_forms, st') /\
    (b ++ enc_list (layout_list ns)) `prefix_of` buf /\ zlen buf = zlen BuffAddress.
Proof using get_ok x_ok root_ok.
  intros b Hm Hns Hfit Hr Ht. pose proof (zlen_nonneg b). pose proof (zlen_nonneg (layout_text ns)).
  unfold GenFormLayout. rewrite (proj2 (rdn_Done b 0 (zlen b) b)), bind_Done.
  2: { split_and!; [done|done|lia|]. change (drop (Z.to_nat 0) b) with b. symmetry. apply take_ge. unfold zlen. lia. }
  destruct (wrn_append BuffAddress [] b (prefix_nil _)) as (buf0 & E0 & P0 & Z0).
  { change (zlen (@nil Z)) with 0. lia. }
  change (zlen (@nil Z)) with 0 in E0. cbn [app] in P0. rewrite E0, bind_Done. cbn [EFI_ERROR].
  pose proof init_forms as Ei. fold b in Ei. rewrite Ei, bind_Done. pose proof (mark_all st l st' Hm) as Em. fold b in Em.
  rewrite Em, bind_Done.
  destruct (layout_header b buf0 P0) as (u & v & buf1 & buf2 & -> & E2 & Zu & Zv & H2); [lia|].
  rewrite bind_Done, E2, bind_Done. rewrite Z0 in H2. clear E2 E0.
  destruct (write_text (zlen BuffAddress) (ParseRefNode get map_ hide b (FormData the_forms) (marks l OpFlag0) 32)
    (FormData the_forms) (marks l OpFlag0) (export_content x) _ _ ns (RootForm the_forms)
    ltac:(lia) (ParseRefNode_call get map_ hide b (FormData the_forms) (marks l OpFlag0) (export_content x) get_ok
      the_forms_ok ltac:(lia) (zlen BuffAddress) ltac:(lia) 27 32 ltac:(lia)) Hns the_roots_ok Hfit H2) as (o & Eo & Ho).
  { rewrite !zlen_app, Zu, Zv. change (zlen FormLayoutGuid) with 16. change (zlen [0xF0]) with 1. lia. }
  fold b in Eo. apply bind_inv in Eo as (o1 & -> & Eo). rewrite bind_Done. apply bind_inv in Eo as (o2 & -> & Eo). rewrite bind_Done.
  apply bind_inv in Eo as (o3 & -> & Eo). rewrite bind_Done. apply bind_inv in Eo as ([o4 n4] & -> & Eo). rewrite bind_Done.
  apply bind_inv in Eo as (o5 & -> & Eo). rewrite bind_Done. apply bind_inv in Eo as (o6 & -> & Eo). rewrite bind_Done.
  apply bind_inv in Eo as (o7 & -> & Eo). rewrite bind_Done. rewrite Eo, bind_Done. clear Eo.
  destruct o as [buf3 p3]. destruct Ho as (P3 & Hp & Z3). cbn [fst snd] in *. subst p3. rewrite <- !app_assoc in P3.
  rewrite <- !app_assoc. rewrite !zlen_app, Zu, Zv. change (zlen FormLayoutGuid) with 16. change (zlen [0xF0]) with 1.
  replace (zlen b + (16 + (4 + (3 + (1 + zlen (layout_text ns)))))) with (zlen b + 24 + zlen (layout_text ns)) by lia.
  destruct (layout_sizes b u v (layout_text ns) buf3 Zu Zv Ht P3) as (buf4 & buf5 & -> & E5 & Z5 & P5).
  rewrite bind_Done, E5, bind_Done. exists buf5. split; [|split; [exact P5|lia]]. do 4 f_equal.
  unfold layout_list. rewrite zlen_enc_list.
  - unfold enc_pkgs. cbn [l_pkgs map concat]. rewrite app_nil_r, zlen_enc_pkg. cbn [k_data]. rewrite u32_small; [lia|].
    unfold is_u32. lia.
  - split; [done|]. cbn [l_pkgs]. unfold enc_pkgs. cbn [map concat]. rewrite app_nil_r, zlen_enc_pkg. cbn [k_data].
    split; [lia|]. apply Forall_singleton. split; [done|]. cbn [k_data]. exact Ht.
Qed.

Lemma GenFormLayout_deep st l st' BuffAddress BuffSize :
  let b := enc_export x in
  zlen b < 2 ^ 32 -> marks_lists b x 0 st = Done (l, st') ->
  Exists (fun r => exists pt, rf_OpPointer r = Some pt /\ rf_FormId r <> 0 /\
    layout get map_ hide (FormData the_forms) (marks l OpFlag0) (export_content x) 28 (rf_Guid r) (rf_FormId r) (pt + 6) = None)
    (RootForm the_forms) ->
  GenFormLayout get map_ hide b EFI_SUCCESS EFI_SUCCESS (zlen b) BuffAddress BuffSize root st = Fault.
Proof using get_ok x_ok root_ok.
  intros b Hb Hm He. unfold GenFormLayout. rewrite (proj2 (rdn_Done b 0 (zlen b) b)), bind_Done.
  2: { pose proof (zlen_nonneg b). split_and!; [done|done|lia|]. change (drop (Z.to_nat 0) b) with b.
       symmetry. apply take_ge. unfold zlen. lia. }
  assert (Hw : forall buf i v, tame anything (wrn buf i v)).
  { intros buf i v. unfold wrn. destruct (_ && _); [by apply tame_done|by left]. }
  eapply fault_bind; [apply Hw|]. intros buf _. cbn [EFI_ERROR].
  pose proof init_forms as Ei. fold b in Ei. rewrite Ei, bind_Done. pose proof (mark_all st l st' Hm) as Em. fold b in Em.
  rewrite Em, bind_Done. eapply fault_bind; [apply Hw|]. intros buf1 _. eapply fault_bind; [apply Hw|]. intros buf2 _.
  eapply fault_bind; [apply tame_put|]. intros o1 _. eapply fault_bind; [apply tame_put|]. intros o2 _.
  eapply fault_bind; [apply tame_put|]. intros o3 _.
  rewrite (deep_roots get map_ hide b (FormData the_forms) (marks l OpFlag0) (export_content x)); [done| | | |exact He].
  - apply tame_ParseRefNode; [exact get_ok|exact the_forms_ok|exact Hb|lia..].
  - exact the_roots_ok.
  - intros g id q buf' p Hl Hst. apply (deep_call get map_ hide b _ _ (export_content x) get_ok the_forms_ok Hb 28);
      [exact Hl|exact Hst|lia..].
Qed.
End generate.

(** ** What the generator promises *)

(** C18: (functional) The layout of an export. For an export whose package lists,
    form sets and forms are well formed, the generator copies it and appends
    one package list with one package of type 0xF0, whose text is that of
    the tree of forms: below each root form of the policy that was found the
    forms its references lead to, in stream order, without the references
    that were marked as hidden, lead to the form they are in, lead to a form
    the policy hides or to none that is listed. It needs 640 bytes of room
    above the result, lines that fit 127 bytes and forms that nest less
    than 27 deep. *)
Theorem GenFormLayout_correct get map_ hide x root st l st' ns BuffAddress BuffSize :
  (forall h i, fst (get h i) = EFI_SUCCESS -> zlen (UnicodeStrToAsciiStr (snd (get h i))) < 128) ->
  Forall (llist_ok get map_) x -> Forall (fun r => rf_OpPointer r = None) root ->
  let b := enc_export x in
  marks_lists b x 0 st = Done (l, st') -> the_roots get map_ hide x root l = Some ns -> forallb root_fits ns = true ->
  zlen b + 24 + zlen (layout_text ns) + 640 <= zlen BuffAddress < 2 ^ 32 -> 4 + zlen (layout_text ns) < 2 ^ 24 ->
  exists buf,
    GenFormLayout get map_ hide b EFI_SUCCESS EFI_SUCCESS (zlen b) BuffAddress BuffSize root st =
      Done (EFI_SUCCESS, buf, zlen (b ++ enc_list (layout_list ns)), RootForm (the_forms get map_ x root), st') /\
    (b ++ enc_list (layout_list ns)) `prefix_of` buf /\ zlen buf = zlen BuffAddress.
Proof. intros H1 H2 H3 b. by apply GenFormLayout_spec. Qed.

(** C20: (error) Forms that nest 28 deep, as they do when references go in a
    circle, make the prefix of a line longer than its buffer of 64 bytes: the
    generator writes over its stack, whatever the other forms are. *)
Theorem GenFormLayout_too_deep get map_ hide x root st l st' BuffAddress BuffSize :
  (forall h i, fst (get h i) = EFI_SUCCESS -> zlen (UnicodeStrToAsciiStr (snd (get h i))) < 128) ->
  Forall (llist_ok get map_) x -> Forall (fun r => rf_OpPointer r = None) root ->
  let b := enc_export x in
  zlen b < 2 ^ 32 -> marks_lists b x 0 st = Done (l, st') ->
  Exists (fun r => exists pt, rf_OpPointer r = Some pt /\ rf_FormId r <> 0 /\
    layout get map_ hide (FormData (the_forms get map_ x root)) (marks l OpFlag0) (export_content x) 28
      (rf_Guid r) (rf_FormId r) (pt + 6) = None) (RootForm (the_forms get map_ x root)) ->
  GenFormLayout get map_ hide b EFI_SUCCESS EFI_SUCCESS (zlen b) BuffAddress BuffSize root st = Fault.
Proof. intros H1 H2 H3 b. by apply GenFormLayout_deep. Qed.

(** A form set with form 5, which refers to form 6 and, hidden, to form 7. *)
Definition demo_body (back : forest) : forest :=
  FScope EFI_IFR_FORM_OP [5; 0; 2; 0]
    (FLeaf EFI_IFR_REF_OP (demo_ref 6)
       (FScope EFI_IFR_SUPPRESS_IF_OP [] (FLeaf EFI_IFR_TRUE_OP [] (FLeaf EFI_IFR_REF_OP (demo_ref 7) FNil)) FNil))
    (FScope EFI_IFR_FORM_OP [6; 0; 3; 0] back (FScope EFI_IFR_FORM_OP [7; 0; 3; 0] FNil FNil)).
Definition demo_export (back : forest) : list (list Z * list lpkg) :=
  [(replicate 16 9, [LOther 4 [1; 2; 3]; LForms (demo_guid ++ [1; 0; 0; 0]) (demo_body back)])].
Definition demo_root : list SMC_ROOT_FORM_DATA := [mkRootForm demo_guid 0 [70; 50] None].
Definition demo_nodes : list node := [Node demo_guid 5 [] [Node demo_guid 6 [70; 48] []]].

Lemma demo_export_ok back : back = FNil \/ back = FLeaf EFI_IFR_REF_OP (demo_ref 5) FNil ->
  Forall (llist_ok demo_strings demo_map) (demo_export back).
Proof.
  intros Hb. apply Forall_singleton. split; [split|].
  - destruct Hb as [->| ->]; (split; [reflexivity|split; [by vm_compute|]]; repeat constructor; by vm_compute).
  - destruct Hb as [->| ->]; repeat constructor; cbn; unfold fits, title_ok; cbn; try done; lia.
  - destruct Hb as [->| ->]; repeat constructor; cbn; unfold fits; cbn; try done; lia.
Qed.

Lemma demo_strings_ok h i : fst (demo_strings h i) = EFI_SUCCESS ->
  zlen (UnicodeStrToAsciiStr (snd (demo_strings h i))) < 128.
Proof.
  intros _. cbn [demo_strings snd]. unfold UnicodeStrToAsciiStr. cbn [map until_nul].
  destruct (u8 70 =? 0); [done|]. destruct (u8 (48 + i) =? 0); done.
Qed.

Definition marked (r : Res (list Z * SmcStack)) : list Z := match r with Done (l, _) => l | _ => [] end.

Lemma marked_value b x p st l : forall st', marks_lists b x p st = Done (l, st') -> l = marked (marks_lists b x p st).
Proof. by intros st' ->. Qed.

Lemma GenFormLayout_correct_witness : exists buf st',
  GenFormLayout demo_strings demo_map [] (enc_export (demo_export FNil)) EFI_SUCCESS EFI_SUCCESS
    (zlen (enc_export (demo_export FNil))) (replicate 2048 0) 2048 demo_root demo_stack =
    Done (EFI_SUCCESS, buf, zlen (enc_export (demo_export FNil) ++ enc_list (layout_list demo_nodes)),
          RootForm (the_forms demo_strings demo_map (demo_export FNil) demo_root), st') /\
  (enc_export (demo_export FNil) ++ enc_list (layout_list demo_nodes)) `prefix_of` buf.
Proof.
  destruct (marks_lists (enc_export (demo_export FNil)) (demo_export FNil) 0 demo_stack)
    as [[l st']| |] eqn:E; try (exfalso; vm_compute in E; discriminate E).
  assert (Er : the_roots demo_strings demo_map [] (demo_export FNil) demo_root l = Some demo_nodes).
  { rewrite (marked_value _ _ _ _ _ _ E). vm_compute. reflexivity. }
  destruct (GenFormLayout_correct demo_strings demo_map [] (demo_export FNil) demo_root demo_stack l st'
              demo_nodes (replicate 2048 0) 2048 demo_strings_ok (demo_export_ok FNil (or_introl eq_refl)))
    as (buf & E1 & E2 & _).
  - by apply Forall_singleton.
  - exact E.
  - exact Er.
  - vm_compute. reflexivity.
  - split; vm_compute; congruence.
  - vm_compute. reflexivity.
  - exists buf, st'. split; [exact E1|exact E2].
Defined.

(** Forms 5 and 6 refer to each other. *)
Lemma GenFormLayout_too_deep_witness :
  let x := demo_export (FLeaf EFI_IFR_REF_OP (demo_ref 5) FNil) in
  GenFormLayout demo_strings demo_map [] (enc_export x) EFI_SUCCESS EFI_SUCCESS
    (zlen (enc_export x)) (replicate 2048 0) 2048 demo_root demo_stack = Fault.
Proof.
  cbv zeta. set (x := demo_export (FLeaf EFI_IFR_REF_OP (demo_ref 5) FNil)).
  destruct (marks_lists (enc_export x) x 0 demo_stack)
    as [[l st']| |] eqn:E; try (exfalso; vm_compute in E; discriminate E).
  apply (GenFormLayout_too_deep demo_strings demo_map [] x demo_root demo_stack l st'
           (replicate 2048 0) 2048 demo_strings_ok (demo_export_ok _ (or_intror eq_refl))).
  - by apply Forall_singleton.
  - vm_compute. reflexivity.
  - exact E.
  - rewrite (marked_value _ _ _ _ _ _ E).
    apply Exists_cons_hd. eexists. split; [vm_compute; reflexivity|]. split; [done|]. vm_compute. reflexivity.
Defined.
