(* ===== verification/LayoutJson.v ===== *)
(** * The form layout is JSON

    A grammar of JSON texts (RFC 8259, without numbers, literals and escapes,
    which the layout does not use), and the tree of forms that the text of
    [FormLayout] denotes in it. *)

From S2P Require Import Prelude Services ExpStack Ifr Packages Expression SetupTables FormWalk FormData Hii FormLayout.
From Stdlib Require String.
Import String.StringSyntax.

(** ** The grammar *)
#[warnings="-register-all"]
Inductive json := JString (s : list Z) | JArray (l : list json) | JObject (l : list (list Z * json)).

(** Space, tab, line feed and carriage return. *)
Definition ws (w : list Z) : Prop := Forall (fun c => c = 32 \/ c = 9 \/ c = 10 \/ c = 13) w.

(** A character that stands for itself in a string. *)
Definition plain (c : Z) : Prop := 32 <= c /\ c <> 34 /\ c <> 92.

Definition quoted (s : list Z) : list Z := 34 :: s ++ [34].

Inductive value : list Z -> json -> Prop :=
| value_string s : Forall plain s -> value (quoted s) (JString s)
| value_empty w : ws w -> value (91 :: w ++ [93]) (JArray [])
| value_array t l : elements t l -> value (91 :: t ++ [93]) (JArray l)
| value_object t l : members t l -> value (123 :: t ++ [125]) (JObject l)
with elements : list Z -> list json -> Prop :=
| elements_one w1 t w2 j : ws w1 -> value t j -> ws w2 -> elements (w1 ++ t ++ w2) [j]
| elements_cons w1 t w2 j r l :
    ws w1 -> value t j -> ws w2 -> elements r l -> elements (w1 ++ t ++ w2 ++ 44 :: r) (j :: l)
with members : list Z -> list (list Z * json) -> Prop :=
| members_one w1 k w2 w3 t w4 j :
    ws w1 -> Forall plain k -> ws w2 -> ws w3 -> value t j -> ws w4 ->
    members (w1 ++ quoted k ++ w2 ++ 58 :: w3 ++ t ++ w4) [(k, j)]
| members_cons w1 k w2 w3 t w4 j r l :
    ws w1 -> Forall plain k -> ws w2 -> ws w3 -> value t j -> ws w4 -> members r l ->
    members (w1 ++ quoted k ++ w2 ++ 58 :: w3 ++ t ++ w4 ++ 44 :: r) ((k, j) :: l).

(** ** The tree *)
Fixpoint json_of (n : node) : json :=
  match n with
  | Node g id t kids =>
      JObject ([(str "GUID", JString (ToGuidString g)); (str "FormId", JString (lit "0x" ++ hex id));
                (str "Title", JString t)] ++
               match kids with [] => [] | _ => [(str "Form", JArray (map json_of kids))] end)
  end.

Definition layout_json (ns : list node) : json :=
  JObject [(str "FormLayout", JObject [(str "Form", JArray (map json_of ns))])].

Fixpoint titles_plain (n : node) : Prop :=
  match n with
  | Node _ _ t kids => Forall plain t /\ (fix all l := match l with [] => True | k :: l => titles_plain k /\ all l end) kids
  end.

Fixpoint all_plain (l : list node) : Prop :=
  match l with [] => True | k :: l => titles_plain k /\ all_plain l end.

(** ** Characters *)
Lemma ws_app v w : ws v -> ws w -> ws (v ++ w).
Proof. intros. by apply Forall_app. Qed.
Lemma ws_nl w : ws w -> ws (10 :: w).
Proof. intros. constructor; auto. Qed.
Lemma ws_pre L : ws (pre L).
Proof. apply Forall_replicate. auto. Qed.
Lemma ws_nil : ws [].
Proof. constructor. Qed.
Lemma ws_space : ws [32].
Proof. repeat constructor. Qed.
Create HintDb json.
#[local] Hint Resolve ws_app ws_nl ws_pre ws_nil ws_space : json.

Lemma digit_plain d : 0 <= d < 16 -> plain (digit_char d).
Proof. intros H. unfold plain, digit_char. destruct (Z.ltb_spec d 10); lia. Qed.

Lemma hex_plain v : Forall plain (hex v).
Proof.
  unfold hex. generalize (u32 v), 8%nat. intros w n. revert w. induction n as [|n IH]; intros w; cbn [hex_digits]; [constructor|].
  apply Forall_app. split; [destruct (_ =? 0); [constructor|apply IH]|]. apply Forall_singleton, digit_plain.
  apply Z.mod_pos_bound. lia.
Qed.

(** What is printed from plain parts is plain. *)
Lemma sprintf_plain Format : forall dir args,
  Forall plain Format -> (forall f w, dir = Some (f, w) -> plain f) ->
  Forall (fun a => match a with AStr s => Forall plain s | AInt _ => True end) args ->
  Forall plain (sprintf dir Format args).
Proof.
  induction Format as [|c Format IH]; intros dir args Hf Hd Ha; cbn [sprintf]; [constructor|].
  apply Forall_cons in Hf as [Hc Hf]. destruct dir as [[f w]|].
  - specialize (Hd f w eq_refl). destruct (_ && _); [apply IH; [done| |done]; intros f' w' [= <- <-]; unfold plain; lia|].
    destruct (_ && _); [apply IH; [done| |done]; by intros f' w' [= <- <-]|].
    assert (Hl : Forall plain (c :: sprintf None Format args)) by (constructor; [done|by apply IH]).
    destruct args as [|[s|v] args]; [exact Hl|..]; pose proof Ha as [Ha1 Ha2]%Forall_cons;
      (destruct (_ : bool); [|exact Hl]); apply Forall_app.
    + split; [done|by apply IH].
    + split; [|by apply IH]. apply Forall_app. split; [by apply Forall_replicate|apply hex_plain].
  - destruct (c =? 37).
    + apply IH; [done| |done]. intros f' w' [= <- <-]. unfold plain. lia.
    + constructor; [done|by apply IH].
Qed.

Lemma guid_plain g : Forall plain (ToGuidString g).
Proof.
  unfold ToGuidString. apply sprintf_plain; [|done|].
  - apply Forall_forall. intros c Hc. assert (E : forallb (fun c => (32 <=? c) && negb (c =? 34) && negb (c =? 92))
      (lit "%08x-%04x-%04x-%02x%02x-%02x%02x%02x%02x%02x%02x") = true) by reflexivity.
    rewrite forallb_forall in E. apply list_elem_of_In, E in Hc. unfold plain. lia.
  - repeat constructor. apply Forall_forall. intros a (v & -> & _)%list_elem_of_fmap. done.
Qed.

(** Literals of keys. *)
Lemma str_plain s : forallb (fun c => (32 <=? c) && negb (c =? 34) && negb (c =? 92)) (str s) = true -> Forall plain (str s).
Proof.
  intros E. apply Forall_forall. intros c Hc. rewrite forallb_forall in E. apply list_elem_of_In, E in Hc.
  unfold plain. lia.
Qed.

Lemma id_plain v : Forall plain (lit "0x" ++ hex v).
Proof.
  apply Forall_app. split; [|apply hex_plain]. change (lit "0x") with [48; 120].
  constructor; [unfold plain; lia|]. constructor; [unfold plain; lia|constructor].
Qed.
#[local] Hint Resolve hex_plain guid_plain id_plain : json.
#[local] Opaque ToGuidString hex.

(** ** The text denotes the tree *)

(** The text of [n] is the value [V] between the blanks of its level and a
    comma. *)
Definition shows (print : node -> list Z) (L : Z) (n : node) : Prop :=
  exists V, print n = pre L ++ V ++ [44; 10] /\ value V (json_of n).

(** A list of them, as it stands between brackets. *)
Lemma elements_shown print L w n ns :
  Forall (shows print L) (n :: ns) -> ws w ->
  elements (10 :: chop (concat (map print (n :: ns))) ++ w) (map json_of (n :: ns)).
Proof.
  revert n. induction ns as [|n' ns IH]; intros n Hs Hw; apply Forall_cons in Hs as [(V & E & HV) Hs].
  - cbn [map concat]. rewrite E, app_nil_r, app_assoc, chop_app, <- app_assoc. cbn [app].
    replace (10 :: (pre L ++ V) ++ 10 :: w) with ((10 :: pre L) ++ V ++ (10 :: w)) by app_eq.
    constructor; auto with json.
  - specialize (IH n' Hs Hw). cbn [map concat] in IH |- *. rewrite E.
    apply Forall_cons in Hs as [(V' & E' & _) Hs].
    assert (Hend : exists X, print n' ++ concat (map print ns) = X ++ [44; 10]).
    { clear - E' Hs. revert n' V' E'. induction Hs as [|n ns (V & E & _) Hs IH]; intros n' V' E'.
      - cbn [map concat]. rewrite app_nil_r, E'. exists (pre L ++ V'). by rewrite app_assoc.
      - destruct (IH n V E) as [X EX]. cbn [map concat]. rewrite EX. exists (print n' ++ X). by rewrite app_assoc. }
    destruct Hend as [X EX]. rewrite EX in IH |- *. rewrite chop_app in IH.
    replace ((pre L ++ V ++ [44; 10]) ++ X ++ [44; 10]) with ((pre L ++ V ++ [44; 10] ++ X) ++ [44; 10]) by app_eq.
    rewrite chop_app.
    replace (10 :: ((pre L ++ V ++ [44; 10] ++ X) ++ [10]) ++ w)
      with ((10 :: pre L) ++ V ++ [] ++ 44 :: (10 :: (X ++ [10]) ++ w)) by app_eq.
    constructor; auto with json.
Qed.

(** The lines with their keys. *)
Definition field (k v : list Z) : list Z := quoted k ++ 58 :: 32 :: quoted v.

Lemma line_guid_field L g : line_guid L g = pre L ++ field (str "GUID") (ToGuidString g) ++ [44; 10].
Proof.
  unfold line_guid, field, quoted. change (lit "'GUID': '") with (34 :: str "GUID" ++ [34; 58; 32; 34]).
  change (lit "',~") with [34; 44; 10]. app_eq.
Qed.

Lemma line_id_field L v : line_id L v = pre L ++ field (str "FormId") (lit "0x" ++ hex v) ++ [44; 10].
Proof.
  unfold line_id, field, quoted. change (lit "'FormId': '0x") with (34 :: str "FormId" ++ [34; 58; 32; 34] ++ lit "0x").
  change (lit "',~") with [34; 44; 10]. app_eq.
Qed.

Lemma line_title_field L t : line_title L t = (pre L ++ field (str "Title") t) ++ [44; 10].
Proof.
  unfold line_title, field, quoted. change (lit "'Title': '") with (34 :: str "Title" ++ [34; 58; 32; 34]).
  change (lit "',~") with [34; 44; 10]. app_eq.
Qed.

Lemma line_braces L : line_open L = pre L ++ [123; 10] /\ line_close L = pre L ++ [125; 44; 10].
Proof. done. Qed.

Lemma line_form_key L : line_form L = pre L ++ quoted (str "Form") ++ [58; 91; 10].
Proof. done. Qed.

Lemma line_end_bracket L : line_end L = pre L ++ [93; 10].
Proof. done. Qed.

Lemma keys_plain : Forall plain (str "GUID") /\ Forall plain (str "FormId") /\ Forall plain (str "Title") /\ Forall plain (str "Form").
Proof. split_and!; by apply str_plain. Qed.

(** A field as a member, alone or with more behind. *)
Lemma field_last w k v w' : ws w -> Forall plain k -> Forall plain v -> ws w' ->
  members (w ++ field k v ++ w') [(k, JString v)].
Proof.
  intros Hw Hk Hv Hw'. pose proof (members_one w k [] [32] (quoted v) w' (JString v)) as H. unfold field.
  replace (w ++ (quoted k ++ 58 :: 32 :: quoted v) ++ w') with (w ++ quoted k ++ [] ++ 58 :: [32] ++ quoted v ++ w') by app_eq.
  apply H; auto with json. by constructor.
Qed.

Lemma field_more w k v r l : ws w -> Forall plain k -> Forall plain v -> members r l ->
  members (w ++ field k v ++ 44 :: r) ((k, JString v) :: l).
Proof.
  intros Hw Hk Hv Hr. pose proof (members_cons w k [] [32] (quoted v) [] (JString v) r l) as H. unfold field.
  replace (w ++ (quoted k ++ 58 :: 32 :: quoted v) ++ 44 :: r)
    with (w ++ quoted k ++ [] ++ 58 :: [32] ++ quoted v ++ [] ++ 44 :: r) by app_eq.
  apply H; auto with json. by constructor.
Qed.

#[local] Opaque str lit.

(** A form list between its brackets. *)
Lemma list_shown M ns :
  Forall (shows (print_node M) M) ns -> ns <> [] ->
  exists V, print_list M ns = pre (M - 1) ++ quoted (str "Form") ++ 58 :: V ++ [10] /\ value V (JArray (map json_of ns)).
Proof.
  intros Hs Hne. destruct ns as [|n ns]; [done|]. rewrite print_list_cons, line_form_key, line_end_bracket.
  pose proof (elements_shown (print_node M) M (pre (M - 1)) n ns Hs (ws_pre _)) as He. revert He.
  generalize (chop (concat (map (print_node M) (n :: ns)))) (map json_of (n :: ns)). intros C js He.
  exists (91 :: (10 :: C ++ pre (M - 1)) ++ [93]). split; [app_eq|]. by apply value_array.
Qed.

(** From the title to the closing brace. *)
Lemma title_shown Lb Lf t M kids :
  Forall plain t -> Forall (shows (print_node M) M) kids ->
  exists R, (match print_list M kids with [] => chop (line_title Lf t) | _ => line_title Lf t end) ++
      print_list M kids ++ pre Lb = R /\
    members (10 :: R) ((str "Title", JString t) :: match kids with [] => [] | _ => [(str "Form", JArray (map json_of kids))] end).
Proof.
  intros Ht Hk. destruct keys_plain as (_ & _ & P3 & P4). eexists. split; [reflexivity|].
  rewrite line_title_field, chop_app. destruct kids as [|k ks].
  - change (print_list M []) with (@nil Z). cbn [app].
    replace (10 :: ((pre Lf ++ field (str "Title") t) ++ [10]) ++ pre Lb)
      with ((10 :: pre Lf) ++ field (str "Title") t ++ (10 :: pre Lb)) by app_eq.
    apply field_last; auto with json.
  - destruct (list_shown M (k :: ks) Hk ltac:(done)) as (V & EV & HV). rewrite EV.
    assert (Hne : exists z Z0, pre (M - 1) ++ quoted (str "Form") ++ 58 :: V ++ [10] = z :: Z0).
    { destruct (pre (M - 1)); cbn [app]; [unfold quoted; cbn [app]|]; eauto. }
    destruct Hne as (z & Z0 & E). rewrite E, <- E. clear E z Z0 EV.
    replace (10 :: ((pre Lf ++ field (str "Title") t) ++ [44; 10]) ++ (pre (M - 1) ++ quoted (str "Form") ++ 58 :: V ++ [10]) ++ pre Lb)
      with ((10 :: pre Lf) ++ field (str "Title") t ++ 44 ::
        ((10 :: pre (M - 1)) ++ quoted (str "Form") ++ [] ++ 58 :: [] ++ V ++ (10 :: pre Lb))) by app_eq.
    apply field_more; auto with json. constructor; auto with json.
Qed.

(** An entry, given the text of the forms below. *)
Lemma entry_shown Lb Lf g i t M kids :
  Forall plain t -> Forall (shows (print_node M) M) kids ->
  exists V, entry Lb Lf g i t (print_list M kids) = pre Lb ++ V ++ [44; 10] /\ value V (json_of (Node g i t kids)).
Proof.
  intros Ht Hk. destruct (title_shown Lb Lf t M kids Ht Hk) as (R & ER & HR). destruct keys_plain as (P1 & P2 & _).
  destruct (line_braces Lb) as [B1 B2]. unfold entry. rewrite B1, B2, line_guid_field, line_id_field.
  exists (123 :: ((10 :: pre Lf) ++ field (str "GUID") (ToGuidString g) ++ 44 ::
    ((10 :: pre Lf) ++ field (str "FormId") (lit "0x" ++ hex i) ++ 44 :: (10 :: R))) ++ [125]). split.
  - rewrite <- ER. app_eq.
  - cbn [json_of]. apply value_object. apply field_more; auto with json. apply field_more; auto with json.
Qed.

Lemma node_shown : forall n L, titles_plain n -> shows (print_node L) L n.
Proof.
  fix IH 1. intros [g i t kids] L [Ht Hk].
  assert (Hs : Forall (shows (print_node (L + 1)) (L + 1)) kids).
  { induction kids as [|k ks IHk]; constructor; [apply IH, Hk|apply IHk, Hk]. }
  exact (entry_shown L L g i t (L + 1) kids Ht Hs).
Qed.

Lemma root_shown n : titles_plain n -> shows print_root 3 n.
Proof.
  destruct n as [g i t kids]. intros [Ht Hk]. apply (entry_shown 3 4 g i t 5 kids Ht).
  clear Ht. induction kids as [|k ks IHk]; constructor; [apply node_shown, Hk|apply IHk, Hk].
Qed.

#[local] Transparent str lit.

Lemma layout_lines ns :
  layout_text ns =
  (123 :: ((10 :: pre 1) ++ quoted (str "FormLayout") ++ [] ++ 58 :: [] ++
    (123 :: ((10 :: pre 2) ++ quoted (str "Form") ++ [] ++ 58 :: [] ++
      (91 :: (10 :: match ns with [] => [] | _ => chop (concat (map print_root ns)) end ++ pre 2) ++ [93]) ++
      (10 :: pre 1)) ++ [125]) ++ [10]) ++ [125]) ++ [10].
Proof.
  unfold layout_text. generalize (match ns with [] => [] | _ => chop (concat (map print_root ns)) end). intros C.
  change (lit "{~") with [123; 10]. change (lit "  'FormLayout':{~") with (pre 1 ++ quoted (str "FormLayout") ++ [58; 123; 10]).
  change (lit "    'Form':[~") with (pre 2 ++ quoted (str "Form") ++ [58; 91; 10]).
  change (lit "    ]~") with (pre 2 ++ [93; 10]). change (lit "  }~") with (pre 1 ++ [125; 10]).
  change (lit "}~") with [125; 10]. app_eq.
Qed.

(** The text of a list of trees is one value and a line feed. *)
Lemma layout_text_value ns :
  all_plain ns -> exists V, layout_text ns = V ++ [10] /\ value V (layout_json ns).
Proof.
  intros Hp. rewrite layout_lines. eexists. split; [reflexivity|]. unfold layout_json.
  assert (PF : Forall plain (str "FormLayout")) by (by apply str_plain).
  assert (Pf : Forall plain (str "Form")) by (by apply str_plain).
  apply value_object, members_one; auto with json. apply value_object, members_one; auto with json.
  destruct ns as [|n ns].
  - apply value_empty. cbn [app]. auto with json.
  - apply value_array. apply (elements_shown print_root 3); [|auto with json].
    revert Hp. generalize (n :: ns). intros l. induction l as [|k l IH]; constructor; [by apply root_shown, Hp|by apply IH, Hp].
Qed.

(** C19: (type) What the generator writes is JSON. For an export as in the
    theorem on the generator (well-formed package lists, form sets and forms,
    640 bytes of room above the result, lines that fit 127 bytes, forms that
    nest less than 27 deep) whose titles hold no quotes, backslashes or
    control characters, [GenFormLayout] succeeds, and what it appends to the
    export is one package list with one package of type 0xF0 that holds one
    JSON value and a line feed. The value is the object of the tree of forms,
    each with its form set, its id, its title and, if there are any, the
    forms below it. *)
Theorem GenFormLayout_json get map_ hide x root st l st' ns BuffAddress BuffSize :
  (forall h i, fst (get h i) = EFI_SUCCESS -> zlen (UnicodeStrToAsciiStr (snd (get h i))) < 128) ->
  Forall (llist_ok get map_) x -> Forall (fun r => rf_OpPointer r = None) root ->
  let b := enc_export x in
  marks_lists b x 0 st = Done (l, st') -> the_roots get map_ hide x root l = Some ns -> forallb root_fits ns = true ->
  all_plain ns ->
  zlen b + 24 + zlen (layout_text ns) + 640 <= zlen BuffAddress < 2 ^ 32 -> 4 + zlen (layout_text ns) < 2 ^ 24 ->
  exists buf V, value V (layout_json ns) /\
    let added := enc_list (mkList FormLayoutGuid [mkPkg 0xF0 (V ++ [10])]) in
    GenFormLayout get map_ hide b EFI_SUCCESS EFI_SUCCESS (zlen b) BuffAddress BuffSize root st =
      Done (EFI_SUCCESS, buf, zlen (b ++ added), RootForm (the_forms get map_ x root), st') /\
    (b ++ added) `prefix_of` buf.
Proof.
  intros H1 H2 H3 b Hm Hns Hfit Hp Hr Ht. destruct (layout_text_value ns Hp) as (V & EV & HV).
  destruct (GenFormLayout_spec get map_ hide x root H1 H2 H3 st l st' ns BuffAddress BuffSize Hm Hns Hfit Hr Ht)
    as (buf & E & P & _). fold b in E, P. unfold layout_list in E, P. rewrite EV in E, P.
  exists buf, V. split; [exact HV|]. split; [exact E|exact P].
Qed.

(** The export of [FormLayout]: form 5 with form 6 below it. *)
Lemma GenFormLayout_json_witness : exists buf st' V, value V (layout_json demo_nodes) /\
  let b := enc_export (demo_export FNil) in
  let added := enc_list (mkList FormLayoutGuid [mkPkg 0xF0 (V ++ [10])]) in
  GenFormLayout demo_strings demo_map [] b EFI_SUCCESS EFI_SUCCESS (zlen b) (replicate 2048 0) 2048 demo_root demo_stack =
    Done (EFI_SUCCESS, buf, zlen (b ++ added), RootForm (the_forms demo_strings demo_map (demo_export FNil) demo_root), st') /\
  (b ++ added) `prefix_of` buf.
Proof.
  destruct (marks_lists (enc_export (demo_export FNil)) (demo_export FNil) 0 demo_stack)
    as [[l st']| |] eqn:E; try (exfalso; vm_compute in E; discriminate E).
  assert (Er : the_roots demo_strings demo_map [] (demo_export FNil) demo_root l = Some demo_nodes).
  { rewrite (marked_value _ _ _ _ _ _ E). vm_compute. reflexivity. }
  destruct (GenFormLayout_json demo_strings demo_map [] (demo_export FNil) demo_root demo_stack l st'
              demo_nodes (replicate 2048 0) 2048 demo_strings_ok (demo_export_ok FNil (or_introl eq_refl)))
    as (buf & V & H).
  - by apply Forall_singleton.
  - exact E.
  - exact Er.
  - vm_compute. reflexivity.
  - cbn. unfold plain. repeat constructor; lia.
  - split; vm_compute; congruence.
  - vm_compute. reflexivity.
  - exists buf, st', V. exact H.
Defined.
