(* ===== verification/HiiImage.v ===== *)
(** * The HII image

    Models [CombineHiiData] of [SmcInBand/SmcInBandHii.c]: the exported lists
    and the form layout are compressed, padded to the cipher's block size with
    line feeds, enciphered and put behind a header. The layout generator and
    the compressor are parameters: the first appends a package list to the
    export, the second fills a buffer of the input's size and says how many
    bytes it needs, whether or not they fit. *)

From S2P Require Import Prelude Services Blowfish Ifr Packages SetupTables Hii.
From Stdlib Require String.
Import String.StringSyntax.

Definition sizeof_HII_FILE_HEADER : Z := 18.
Definition HII_sig : list Z := [0x5f; 0x48; 0x49; 0x49].
Definition HII_KEY : list Z := str "SMCIKEY".

(** The globals the function leaves behind. *)
Record hii_globals := mkHiiG {
  h_value : Z; h_map : list SMC_GUID_HANDLE; h_statics : hii_statics; h_bf : CBlowfish }.

Section combine.
Context (HiiLibGetString : Z -> Z -> EFI_STATUS * list Z).
Context (SmcSetupModifyProtocol : option (list Z -> Z -> bool)).
Context (IpmiLanSelection HiiVersion : Z) (db : hii_db).
Context (GenFormLayout : list SMC_GUID_HANDLE -> list Z -> Z -> Res (list Z)).
Context (TianoCompress : list Z -> list Z * Z).

(** Fills the block with ['\n']; the new size. *)
Definition pad_block (DstBuffer : list Z) (DstSize : Z) : Res (list Z * Z) :=
  let Rem := DstSize mod 8 in
  if Rem =? 0 then Done (DstBuffer, DstSize)
  else
    b ← foldM (fun b ii => wr8 b (DstSize + Z.of_nat ii) 10) (seq 0 (Z.to_nat (8 - Rem))) DstBuffer;
    Done (b, DstSize + (8 - Rem)).

Definition fill_hii (BuffAddress DstBuffer : list Z) (DstSize : Z) : Res (list Z) :=
  data ← rdn DstBuffer 0 DstSize;
  b ← wrn BuffAddress 0 HII_sig;
  b ← wr16 b 4 HiiVersion;
  b ← wr32 b 6 DstSize;
  b ← wr8 b 10 (sum8 data);
  wrn b sizeof_HII_FILE_HEADER data.

(** Returns the buffer, [*BuffSize] and the globals. *)
Definition CombineHiiData (BuffAddress : list Z) (g : hii_globals) : Res (list Z * Z * hii_globals) :=
  '(HiiDataBuffer, HiiDataSize, value, map_, st) ←
    EnumerateHpkList HiiLibGetString SmcSetupModifyProtocol IpmiLanSelection db (h_value g) (h_statics g);
  OriDataBuffer ← GenFormLayout map_ HiiDataBuffer HiiDataSize;
  let OriDataSize := zlen OriDataBuffer in
  if MAX_HII_COMBINE_SIZE <? OriDataSize then Done (BuffAddress, 0, mkHiiG value map_ st (h_bf g))
  else
    let '(DstBuffer, DstSize) := TianoCompress OriDataBuffer in
    '(DstBuffer, DstSize) ← pad_block DstBuffer DstSize;
    bf ← CBlowFishInit HII_KEY (h_bf g);
    '(ok, DstBuffer) ← CBlowFishEncipherCharArray bf DstBuffer DstSize DstSize;
    let g := mkHiiG value map_ st bf in
    if ok =? 0 then Done (BuffAddress, DstSize, g)
    else
      b ← fill_hii BuffAddress DstBuffer DstSize;
      Done (b, DstSize + sizeof_HII_FILE_HEADER, g).
End combine.

(** ** Padding *)
Definition padding (n : Z) : list Z := if n mod 8 =? 0 then [] else replicate (Z.to_nat (8 - n mod 8)) 10.

Lemma padding_zlen n : 0 <= zlen (padding n) < 8 /\ (n + zlen (padding n)) mod 8 = 0.
Proof.
  unfold padding. pose proof (Z.mod_pos_bound n 8). destruct (Z.eqb_spec (n mod 8) 0) as [E|E].
  - change (zlen (@nil Z)) with 0. rewrite Z.add_0_r. lia.
  - rewrite zlen_replicate, Z2Nat.id by lia. split; [lia|].
    replace (n + (8 - n mod 8)) with ((n / 8 + 1) * 8) by (pose proof (Z.div_mod n 8); lia).
    apply Z.mod_mul. lia.
Qed.

Lemma padding_bytes n : bytes_ok (padding n).
Proof.
  unfold padding. destruct (n mod 8 =? 0); [constructor|]. apply Forall_replicate. unfold is_u8. lia.
Qed.

Lemma wr8_in pre x post i v :
  i = zlen pre -> wr8 (pre ++ x :: post) i v = Done (pre ++ u8 v :: post).
Proof. intros ->. unfold wr8. by rewrite (wrn_as _ pre [x] post). Qed.

Lemma wr8_out b i v : zlen b <= i -> wr8 b i v = Fault.
Proof. intros H. unfold wr8, wrn. replace (i + zlen [u8 v] <=? zlen b) with false by zl. by rewrite andb_false_r. Qed.

Lemma pad_writes k : forall pre old post j,
  zlen old = Z.of_nat k ->
  foldM (fun b ii => wr8 b (zlen pre - Z.of_nat j + Z.of_nat ii) 10) (seq j k) (pre ++ old ++ post) =
  Done (pre ++ replicate k 10 ++ post).
Proof.
  induction k as [|k IH]; intros pre old post j Hl; cbn [seq foldM replicate].
  - destruct old; [done|]. exfalso. zl.
  - destruct old as [|x old]; [exfalso; zl|]. cbn [app].
    rewrite (wr8_in pre x (old ++ post)) by lia. rewrite bind_Done. change (u8 10) with 10.
    specialize (IH (pre ++ [10]) old post (Datatypes.S j)).
    replace (zlen (pre ++ [10]) - Z.of_nat (Datatypes.S j)) with (zlen pre - Z.of_nat j) in IH by zl.
    rewrite <- !app_assoc in IH. cbn [app] in IH |- *. rewrite IH by zl. done.
Qed.

Lemma pad_block_ok data old post :
  zlen old = zlen (padding (zlen data)) ->
  pad_block (data ++ old ++ post) (zlen data) =
  Done (data ++ padding (zlen data) ++ post, zlen data + zlen (padding (zlen data))).
Proof.
  intros Ho. unfold pad_block, padding in *. pose proof (Z.mod_pos_bound (zlen data) 8).
  destruct (Z.eqb_spec (zlen data mod 8) 0) as [E|E].
  - destruct old; [|exfalso; zl]. change (zlen (@nil Z)) with 0. by rewrite Z.add_0_r.
  - rewrite zlen_replicate, Z2Nat.id in * by lia.
    pose proof (pad_writes (Z.to_nat (8 - zlen data mod 8)) data old post 0 ltac:(lia)) as Hp.
    change (Z.of_nat 0) with 0 in Hp. rewrite Z.sub_0_r in Hp. by rewrite Hp.
Qed.

(** Padding that does not fit runs past the buffer. *)
Lemma pad_short k : forall b j n,
  zlen b < n + Z.of_nat (j + k) -> 0 <= n -> (0 < k)%nat ->
  foldM (fun b ii => wr8 b (n + Z.of_nat ii) 10) (seq j k) b = Fault.
Proof.
  induction k as [|k IH]; intros b j n Hb Hn Hk; [lia|]. cbn [seq foldM].
  destruct (Z.leb_spec (n + Z.of_nat j + 1) (zlen b)) as [Hin|Hout].
  - destruct (wrn_in b (n + Z.of_nat j) [u8 10]) as [b' E]; [lia|zl|]. 
    assert (E' : wr8 b (n + Z.of_nat j) 10 = Done b') by exact E. rewrite E', bind_Done.
    apply IH; [|done|].
    + rewrite (wrn_zlen _ _ _ _ E). lia.
    + destruct k; [|lia]. lia.
  - by rewrite wr8_out by lia.
Qed.

(** *** The buffer keeps its type *)
Lemma pad_block_area k b n b' n' : pad_block b n = Done (b', n') -> area k b -> area k b'.
Proof.
  unfold pad_block. destruct (_ =? 0); [by intros [= <- _]|].
  intros (b1 & E & [= <- _])%bind_inv. intros Hb.
  refine (foldM_inv _ (area k) _ _ _ _ Hb E). intros s a s' Hs E1. by eapply wr8_area.
Qed.

Lemma fill_hii_size k Version b d n b' :
  fill_hii Version b d n = Done b' -> area k b -> bytes_ok d -> is_u32 n ->
  area k b' /\ n = le_val (take 4 (drop 6 b')) /\ n + sizeof_HII_FILE_HEADER <= k.
Proof.
  unfold fill_hii. intros (data & E0 & (b1 & E1 & (b2 & E2 & (b3 & E3 & (b4 & E4 & E5)
    %bind_inv)%bind_inv)%bind_inv)%bind_inv)%bind_inv Hb Hd Hn.
  assert (Hdata : bytes_ok data).
  { apply rdn_Done in E0 as (_ & _ & _ & ->). by apply Forall_take, Forall_drop. }
  assert (H4 : area k b4).
  { eapply wr8_area; [exact E4|]. eapply wr32_area; [exact E3|]. eapply wr16_area; [exact E2|].
    eapply wrn_area; [exact E1|by repeat constructor|done]. }
  unfold sizeof_HII_FILE_HEADER in *.
  pose proof (proj1 (wrn_Done _ _ _ _) E5) as (_ & L & _). rewrite (rdn_zlen _ _ _ _ E0), (proj2 H4) in L.
  assert (R : rdn b3 6 4 = Done (le_bytes 4 n)) by (by apply (rdn_wrn_same _ _ _ _ E3)).
  rewrite <- (rdn_wrn_other _ _ _ _ _ _ E4), <- (rdn_wrn_other _ _ _ _ _ _ E5) in R by lia.
  apply rdn_Done in R as (_ & _ & _ & R). change (Z.to_nat 4) with 4%nat in R.
  change (Z.to_nat 6) with 6%nat in R. rewrite <- R, le_val_4 by done.
  split; [by eapply wrn_area|]. lia.
Qed.

Section size.
Context (get : Z -> Z -> EFI_STATUS * list Z) (search : option (list Z -> Z -> bool)).
Context (lan Version : Z) (db : hii_db).
Context (layout : list SMC_GUID_HANDLE -> list Z -> Z -> Res (list Z)) (compress : list Z -> list Z * Z).
Hypothesis compress_bytes : forall l, bytes_ok (fst (compress l)).
Hypothesis compress_size : forall l, 0 <= snd (compress l) < 2 ^ 31.

(** When a size of more than the header comes back after the data was
    enciphered, the header states it; on every other path the buffer is as it
    was. *)
Lemma CombineHiiData_size k b g b' n g' :
  CombineHiiData get search lan Version db layout compress b g = Done (b', n, g') -> area k b ->
  area k b' /\
  (b' = b \/ n = le_val (take 4 (drop 6 b')) + sizeof_HII_FILE_HEADER /\ n <= k).
Proof using compress_bytes compress_size.
  unfold CombineHiiData. intros (r & _ & K)%bind_inv Hb.
  destruct r as [[[[data size] value] mp] st]. apply bind_inv in K as (ori & _ & K).
  destruct (_ <? _); [injection K as <- _ _; by auto|].
  pose proof (compress_bytes ori) as Hz. pose proof (compress_size ori) as Hn.
  destruct (compress ori) as [D DS]. cbn [fst snd] in *.
  apply bind_inv in K as ([D1 DS1] & Ep & K). apply bind_inv in K as (bf & _ & K).
  apply bind_inv in K as ([ok D2] & Ee & K).
  destruct (ok =? 0); [injection K as <- _ _; by auto|].
  apply bind_inv in K as (b1 & Ef & [= <- <- _]).
  assert (HD : area (zlen D) D) by (by split).
  assert (H2 : area (zlen D) D2) by (eapply CharArray_area; [exact Ee|by eapply pad_block_area]).
  assert (HS : is_u32 DS1).
  { unfold pad_block in Ep. pose proof (Z.mod_pos_bound DS 8 ltac:(lia)). unfold is_u32.
    destruct (_ =? 0); [injection Ep as _ <-; lia|]. apply bind_inv in Ep as (? & _ & [= _ <-]). lia. }
  destruct (fill_hii_size k _ _ _ _ _ Ef Hb (proj1 H2) HS) as (H3 & H4 & H5).
  split; [done|]. right. lia.
Qed.
End size.

Lemma HII_KEY_ok : 4 <= zlen HII_KEY <= 54.
Proof. split; by vm_compute. Qed.

Lemma fill_hii_ok Version out c post old rest :
  zlen old = 11 -> out = old ++ rest -> 7 + zlen c <= zlen rest -> zlen c < 2 ^ 32 ->
  exists mid tail, rest = mid ++ tail /\ zlen mid = 7 + zlen c /\
    fill_hii Version out (c ++ post) (zlen c) =
    Done (HII_sig ++ le_bytes 2 Version ++ le_bytes 4 (zlen c) ++ [sum8 c] ++ take 7 mid ++ c ++ tail).
Proof.
  intros Ho -> Hl Hc. pose proof (zlen_nonneg c).
  exists (take (Z.to_nat (7 + zlen c)) rest), (drop (Z.to_nat (7 + zlen c)) rest).
  rewrite take_drop. split; [done|]. split; [zl|].
  set (mid := take _ rest). set (tail := drop _ rest).
  assert (Hr : rest = (take 7 mid ++ drop 7 mid) ++ tail).
  { rewrite take_drop. subst mid tail. by rewrite take_drop. }
  assert (Hm : zlen mid = 7 + zlen c) by (subst mid; zl).
  set (f := take 7 mid) in *. assert (Hf : zlen f = 7) by (subst f; zl).
  set (d := drop 7 mid) in *. assert (Hd : zlen d = zlen c) by (subst d; zl).
  assert (Es : exists o1 o2 o3 o4, old = o1 ++ o2 ++ o3 ++ o4 /\ zlen o1 = 4 /\ zlen o2 = 2 /\ zlen o3 = 4 /\ zlen o4 = 1).
  { exists (take 4 old), (take 2 (drop 4 old)), (take 4 (drop 6 old)), (drop 10 old). split_and!; try zl.
    rewrite <- (take_drop 4 old) at 1. f_equal. rewrite <- (take_drop 2 (drop 4 old)) at 1. f_equal.
    rewrite drop_drop. rewrite <- (take_drop 4 (drop (4 + 2) old)) at 1. by rewrite drop_drop. }
  destruct Es as (o1 & o2 & o3 & o4 & -> & H1 & H2 & H3 & H4).
  rewrite Hr. clearbody f d tail. clear Hr Hm mid. assert (HS : zlen HII_sig = 4) by done.
  unfold fill_hii, wr16, wr32, wr8, sizeof_HII_FILE_HEADER.
  pose proof (zlen_le_bytes 2 Version) as Hv. pose proof (zlen_le_bytes 4 (zlen c)) as Hz.
  revert Hv Hz. generalize (le_bytes 2 Version) (le_bytes 4 (zlen c)). intros v z Hv Hz.
  rd_as (@nil Z) c post.
  wr_as (@nil Z) o1 (o2 ++ o3 ++ o4 ++ f ++ d ++ tail).
  wr_as HII_sig o2 (o3 ++ o4 ++ f ++ d ++ tail).
  wr_as (HII_sig ++ v) o3 (o4 ++ f ++ d ++ tail).
  rewrite u8_small by apply sum8_range.
  wr_as (HII_sig ++ v ++ z) o4 (f ++ d ++ tail).
  rewrite (wrn_as _ (HII_sig ++ v ++ z ++ [sum8 c] ++ f) d tail) by solve [app_eq | zl].
  f_equal. app_eq.
Qed.

Lemma CombineHiiData_spec get search IpmiLanSelection Version db layout compress out g
    data size value m st ori n z pad post :
  EnumerateHpkList get search IpmiLanSelection db (h_value g) (h_statics g) =
    Done (data, size, value, m, st) ->
  layout m data size = Done ori -> zlen ori <= MAX_HII_COMBINE_SIZE ->
  compress ori = (z ++ pad ++ post, n) -> n = zlen z -> 0 < n -> bytes_ok z ->
  zlen pad = zlen (padding n) -> zlen (z ++ pad ++ post) = zlen ori ->
  sizeof_HII_FILE_HEADER + n + zlen (padding n) <= zlen out ->
  exists bf c flags tail,
    let N := n + zlen (padding n) in
    CombineHiiData get search IpmiLanSelection Version db layout compress out g =
      Done (HII_sig ++ le_bytes 2 Version ++ le_bytes 4 N ++ [sum8 c] ++ flags ++ c ++ tail,
            N + sizeof_HII_FILE_HEADER, mkHiiG value m st bf) /\
    zlen c = N /\ zlen flags = 7 /\
    CBlowFishInit HII_KEY (h_bf g) = Done bf /\
    forall t, CBlowFishDecipherChararray bf (c ++ t) N N = Done (1, z ++ padding n ++ t).
Proof.
  intros He Hlay Hori Hcmp -> Hn Hz Hpad Hbuf Hout. unfold sizeof_HII_FILE_HEADER, MAX_HII_COMBINE_SIZE in *.
  destruct (padding_zlen (zlen z)) as [Hp Hm].
  destruct (CBlowFishInit_key HII_KEY (h_bf g) HII_KEY_ok) as (bf & Eb & _ & Hc & Hw).
  set (d := z ++ padding (zlen z)). assert (Hd : zlen d = zlen z + zlen (padding (zlen z))) by (unfold d; zl).
  destruct (CharArray_any bf d Hw Hc) as (c & Hzc & Hany).
  { apply Forall_app. split; [done|apply padding_bytes]. }
  { lia. }
  { by rewrite Hd. }
  destruct (Hany post (zlen d) ltac:(lia)) as [Ec _].
  rewrite !zlen_app in Hbuf. pose proof (zlen_nonneg post).
  destruct (fill_hii_ok Version out c post (take 11 out) (drop 11 out)) as (mid & tail & _ & Hmid & Ef);
    [zl|by rewrite take_drop|zl|lia|].
  exists bf, c, (take 7 mid), tail. cbv zeta. rewrite <- Hd.
  split; [|split_and!; [done|zl|done|]].
  - unfold CombineHiiData. rewrite He, bind_Done, Hlay, bind_Done.
    replace (MAX_HII_COMBINE_SIZE <? zlen ori) with false by (unfold MAX_HII_COMBINE_SIZE; lia).
    rewrite Hcmp. rewrite (pad_block_ok z pad post Hpad), bind_Done, Eb, bind_Done.
    rewrite app_assoc. fold d. rewrite <- Hd, Ec, bind_Done. cbn [Z.eqb].
    by rewrite <- Hzc, Ef, bind_Done.
  - intros t. rewrite (proj2 (Hany t (zlen d) ltac:(lia))). unfold d. by rewrite <- app_assoc.
Qed.

(** when the compressor's output and its padding fit the
    buffer, [CombineHiiData] writes a header with signature, version, size
    and 8-bit sum in front of the enciphered data, reports header plus data,
    and deciphering the data with the same key gives the compressor's output
    followed by the padding. *)
Theorem CombineHiiData_correct get search IpmiLanSelection Version db layout compress out g
    data size value m st ori n z pad post :
  EnumerateHpkList get search IpmiLanSelection db (h_value g) (h_statics g) =
    Done (data, size, value, m, st) ->
  layout m data size = Done ori -> zlen ori <= MAX_HII_COMBINE_SIZE ->
  compress ori = (z ++ pad ++ post, n) -> n = zlen z -> 0 < n -> bytes_ok z ->
  zlen pad = zlen (padding n) -> zlen (z ++ pad ++ post) = zlen ori ->
  sizeof_HII_FILE_HEADER + n + zlen (padding n) <= zlen out ->
  exists bf c flags tail,
    let N := n + zlen (padding n) in
    CombineHiiData get search IpmiLanSelection Version db layout compress out g =
      Done (HII_sig ++ le_bytes 2 Version ++ le_bytes 4 N ++ [sum8 c] ++ flags ++ c ++ tail,
            N + sizeof_HII_FILE_HEADER, mkHiiG value m st bf) /\
    zlen c = N /\ zlen flags = 7 /\
    CBlowFishInit HII_KEY (h_bf g) = Done bf /\
    CBlowFishDecipherChararray bf (c ++ post) N N = Done (1, z ++ padding n ++ post).
Proof.
  intros He Hl Ho Hc Hn Hp Hz Hpd Hb Hout.
  destruct (CombineHiiData_spec get search IpmiLanSelection Version db layout compress out g
    data size value m st ori n z pad post He Hl Ho Hc Hn Hp Hz Hpd Hb Hout) as (bf & c & flags & tail & E & Hzc & Hf & Ei & Hd).
  exists bf, c, flags, tail. by split_and!.
Qed.

Definition demo_layout (m : list SMC_GUID_HANDLE) (data : list Z) (size : Z) : Res (list Z) :=
  Done (data ++ replicate 16 5).
Definition demo_out : list Z := replicate 64 0.
Definition demo_g : hii_globals := mkHiiG 0 GuidHandleMap0 (mkStatics None false) CBlowfish_globals.

Lemma CombineHiiData_correct_witness :
  exists bf c flags tail,
    CombineHiiData demo_get None 1 7 (db_of demo_lists [0x41]) demo_layout
      (fun ori => (replicate 11 3 ++ replicate 5 0 ++ [], 11)) demo_out demo_g =
      Done (HII_sig ++ le_bytes 2 7 ++ le_bytes 4 16 ++ [sum8 c] ++ flags ++ c ++ tail, 34,
            mkHiiG 0 GuidHandleMap0 (mkStatics (Some [0x41; 0]) true) bf) /\
    CBlowFishDecipherChararray bf (c ++ []) 16 16 = Done (1, replicate 11 3 ++ replicate 5 10 ++ []).
Proof.
  destruct (CombineHiiData_correct demo_get None 1 7 (db_of demo_lists [0x41]) demo_layout
    (fun ori => (replicate 11 3 ++ replicate 5 0 ++ [], 11)) demo_out demo_g
    [] 0 0 GuidHandleMap0 (mkStatics (Some [0x41; 0]) true) (replicate 16 5) 11
    (replicate 11 3) (replicate 5 0) []) as (bf & c & flags & tail & E & _ & _ & _ & D).
  - reflexivity.
  - reflexivity.
  - by vm_compute.
  - reflexivity.
  - reflexivity.
  - reflexivity.
  - apply Forall_replicate. split; [discriminate|reflexivity].
  - reflexivity.
  - reflexivity.
  - by vm_compute.
  - exists bf, c, flags, tail. split; [exact E|exact D].
Defined.

(** the padding is written behind the compressor's output
    without a check: whenever the last block goes past the input's size, which
    is the size of the buffer, [CombineHiiData] writes out of bounds. *)
Theorem CombineHiiData_padding_overrun get search IpmiLanSelection Version db layout compress out g
    data size value m st ori buf n :
  EnumerateHpkList get search IpmiLanSelection db (h_value g) (h_statics g) =
    Done (data, size, value, m, st) ->
  layout m data size = Done ori -> zlen ori <= MAX_HII_COMBINE_SIZE ->
  compress ori = (buf, n) -> zlen buf = zlen ori -> 0 <= n -> n mod 8 <> 0 ->
  zlen ori < n + (8 - n mod 8) ->
  CombineHiiData get search IpmiLanSelection Version db layout compress out g = Fault.
Proof.
  intros He Hlay Hori Hcmp Hbuf Hn Hm Hlt. unfold CombineHiiData.
  rewrite He, bind_Done, Hlay, bind_Done. replace (MAX_HII_COMBINE_SIZE <? zlen ori) with false by lia.
  rewrite Hcmp. unfold pad_block. replace (n mod 8 =? 0) with false by lia.
  pose proof (Z.mod_pos_bound n 8). rewrite pad_short; [done| |done|].
  - rewrite Hbuf. lia.
  - lia.
Qed.

Lemma CombineHiiData_padding_overrun_witness :
  CombineHiiData demo_get None 1 7 (db_of demo_lists [0x41]) (fun _ _ _ => Done (replicate 15 5))
    (fun ori => (ori, 13)) demo_out demo_g = Fault.
Proof.
  apply (CombineHiiData_padding_overrun demo_get None 1 7 (db_of demo_lists [0x41])
    (fun _ _ _ => Done (replicate 15 5)) (fun ori => (ori, 13)) demo_out demo_g
    [] 0 0 GuidHandleMap0 (mkStatics (Some [0x41; 0]) true) (replicate 15 5) (replicate 15 5) 13).
  - reflexivity.
  - reflexivity.
  - by vm_compute.
  - reflexivity.
  - reflexivity.
  - discriminate.
  - discriminate.
  - reflexivity.
Defined.
