(* ===== verification/HiiRead.v ===== *)
(** * Reading the HII image

    What a management tool does with the image [CombineHiiData] makes: it takes
    the data behind the header, deciphers it with the key and decompresses it.
    [HiiImage] is instantiated with the compressor of [TianoCompress], and the
    tool reads with the decompressor the platform has. *)

From S2P Require Import Prelude CArray TianoHuff TianoFormat TianoBlock TianoSlide TianoCompress TianoDecompress.
From S2P Require Import Blowfish Ifr Packages SetupTables Hii HiiImage.
From S2P Require BitStream.

(** The call of the compressor: the destination is a new pool of the size of
    the data, [junk], and the status is dropped. The call returns for all data
    that fits the window. *)
Definition call_TianoCompress (MemCpy : carr -> Z -> Z -> Z -> carr) (Start0 MatchPos0 : Z) (table : carr) (p : pools) (h : huf)
    (junk : Z -> list Z) (OriDataBuffer : list Z) : list Z * Z :=
  match TianoCompress MemCpy Start0 MatchPos0 table p h OriDataBuffer (junk (zlen OriDataBuffer)) with
  | Done r => (r_dst r, r_DstSize r)
  | _ => ([], 0)
  end.

Section read.
Context (get : Z -> Z -> EFI_STATUS * list Z) (search : option (list Z -> Z -> bool)) (lan Version : Z) (db : hii_db).
Context (layout : list SMC_GUID_HANDLE -> list Z -> Z -> Res (list Z)).
Context (MemCpy : carr -> Z -> Z -> Z -> carr) (Start0 MatchPos0 : Z) (table : carr) (p : pools) (h : huf) (junk : Z -> list Z).

(** C7: (roundtrip) The HII image can be read: when the export with the form
    layout is at most 524286 bytes and the compressor succeeds with eight bytes
    to spare for the padding, the image [CombineHiiData] makes states its size
    and the sum of its data, and the data, deciphered with the key, tells the
    size of the export to [UefiDecompressGetInfo] and becomes the export again
    with [UefiTianoDecompress]. *)
Theorem CombineHiiData_readable out g data size value m st ori r Scratch :
  EnumerateHpkList get search lan db (h_value g) (h_statics g) = Done (data, size, value, m, st) ->
  layout m data size = Done ori -> bytes_ok ori -> zlen ori <= WNDSIZ - 2 -> granted p -> zlen (junk (zlen ori)) = zlen ori ->
  TianoCompress MemCpy Start0 MatchPos0 table p h ori (junk (zlen ori)) = Done r -> r_status r = EFI_SUCCESS ->
  r_DstSize r + 8 <= zlen ori -> sizeof_HII_FILE_HEADER + zlen ori <= zlen out ->
  exists img n g' bf c plain,
    CombineHiiData get search lan Version db layout (call_TianoCompress MemCpy Start0 MatchPos0 table p h junk) out g =
      Done (img, n + sizeof_HII_FILE_HEADER, g') /\
    rdn img 0 4 = Done HII_sig /\ rd32 img 6 = Done n /\ rd8 img 10 = Done (sum8 c) /\ rdn img sizeof_HII_FILE_HEADER n = Done c /\
    CBlowFishInit HII_KEY (h_bf g) = Done bf /\ CBlowFishDecipherChararray bf c n n = Done (1, plain) /\
    UefiDecompressGetInfo Scratch plain n = Done (EFI_SUCCESS, Some (zlen ori, Scratch)) /\
    forall d0, zlen d0 = zlen ori -> UefiTianoDecompress plain d0 2 = Done (EFI_SUCCESS, ori).
Proof.
  intros He Hl Hob Hn Hg Hj Er Hs Hroom Hout.
  destruct (TianoCompress_success _ _ _ _ _ _ _ _ r Hg Hob Hn Er Hs) as (z & Hcx & Hzb & Ez & Hz & Hzle & Hzd & Et).
  destruct (padding_zlen (r_DstSize r)) as [Hp _]. change WNDSIZ with 524288 in Hn.
  set (rest := drop (Z.to_nat (r_DstSize r)) (r_dst r)). set (k := Z.to_nat (zlen (padding (r_DstSize r)))).
  assert (Esplit : r_dst r = z ++ take k rest ++ drop k rest) by (rewrite take_drop; unfold rest; by rewrite <- Et, take_drop).
  assert (Hrest : zlen rest = zlen ori - r_DstSize r) by (unfold rest; zl).
  assert (Hmax : zlen ori <= MAX_HII_COMBINE_SIZE) by (unfold MAX_HII_COMBINE_SIZE; lia).
  assert (Hcall : call_TianoCompress MemCpy Start0 MatchPos0 table p h junk ori = (z ++ take k rest ++ drop k rest, r_DstSize r)).
  { unfold call_TianoCompress. by rewrite Er, <- Esplit. }
  assert (Hk : zlen (take k rest) = zlen (padding (r_DstSize r))) by (unfold k; zl).
  assert (Hall : zlen (z ++ take k rest ++ drop k rest) = zlen ori) by (rewrite <- Esplit; lia).
  destruct (CombineHiiData_spec get search lan Version db layout (call_TianoCompress MemCpy Start0 MatchPos0 table p h junk) out g
    data size value m st ori (r_DstSize r) z (take k rest) (drop k rest) He Hl Hmax Hcall ltac:(lia) ltac:(lia) Hzb Hk Hall ltac:(lia))
    as (bf & c & flags & tail & E & Hzc & Hf & Ei & Hd).
  specialize (Hd []). rewrite !app_nil_r in Hd. set (n := r_DstSize r + zlen (padding (r_DstSize r))) in *. cbv zeta in E.
  eexists _, n, _, bf, c, _. split; [exact E|]. unfold sizeof_HII_FILE_HEADER.
  pose proof (zlen_le_bytes 2 Version) as Hv. assert (Hs4 : zlen HII_sig = 4) by done. pose proof (zlen_le_bytes 4 n) as H4.
  split; [by rewrite (rdn_as _ [] HII_sig (le_bytes 2 Version ++ le_bytes 4 n ++ [sum8 c] ++ flags ++ c ++ tail)) by done|]. split; [|split; [|split; [|split; [exact Ei|split; [exact Hd|split]]]]].
  - unfold rd32. rewrite (rdn_as _ (HII_sig ++ le_bytes 2 Version) (le_bytes 4 n) ([sum8 c] ++ flags ++ c ++ tail)) by solve [app_eq | zl].
    rewrite bind_Done. f_equal. apply le_val_4. unfold is_u32, n. lia.
  - unfold rd8, arr_get. rewrite (proj2 (Z.leb_le 0 10)) by lia. rewrite (app_assoc HII_sig), (app_assoc (HII_sig ++ _)).
    rewrite lookup_app_r by (unfold zlen in *; rewrite !length_app; lia).
    assert (E0 : (Z.to_nat 10 - length ((HII_sig ++ le_bytes 2 Version) ++ le_bytes 4 n) = 0)%nat) by (unfold zlen in *; rewrite !length_app; lia).
    by rewrite E0.
  - rewrite (rdn_as _ (HII_sig ++ le_bytes 2 Version ++ le_bytes 4 n ++ [sum8 c] ++ flags) c tail) by solve [app_eq | zl]. done.
  - apply GetInfo_spec; [done|lia|lia|unfold n; lia].
  - intros d0 Hd0. destruct (UefiTianoDecompress_spec ori z (padding (r_DstSize r)) d0 Hcx ltac:(apply padding_bytes) ltac:(lia) ltac:(lia) ltac:(lia)) as [H1 _].
    apply wp_elim in H1 as (v & Ev & ->). rewrite Ev, drop_ge, app_nil_r by (unfold zlen in Hd0; lia). done.
Qed.
End read.

Definition demo_pools : pools :=
  let u := fun i : Z => i mod 251 in
  mkPools (Some u) (Some u) (Some u) (Some u) (Some u) (Some u) (Some u) (fun n => if n <? 20000 then Some u else None).
Definition demo_huf : huf :=
  let z := fun _ : Z => 0 in mkHuf (mkSym z z z) z z z z (mkTrees z z z z) (BitStream.mkSink [] 0 0 0 0) z 0 0 0.
Definition demo_junk (n : Z) : list Z := replicate (Z.to_nat n) 9.
Definition demo_compress (ori : list Z) : Res result :=
  TianoCompress (fun t _ _ _ => t) 7 9 (fun _ => 0) demo_pools demo_huf ori (demo_junk (zlen ori)).

Lemma demo_compress_eq ori : demo_compress ori = TianoCompress (fun t _ _ _ => t) 7 9 (fun _ => 0) demo_pools demo_huf ori (demo_junk (zlen ori)).
Proof. unfold demo_compress. reflexivity. Qed.

(** Sixty-four equal bytes take nineteen. *)
Lemma demo_compress_small :
  match demo_compress (replicate 64 65) with Done r => (r_status r, r_DstSize r) | _ => (EFI_ABORTED, 0) end = (EFI_SUCCESS, 19).
Proof. vm_compute. reflexivity. Qed.

Lemma CombineHiiData_readable_witness :
  exists img n g' bf c plain,
    CombineHiiData demo_get None 1 7 (db_of demo_lists [0x41]) (fun _ _ _ => Done (replicate 64 65))
      (call_TianoCompress (fun t _ _ _ => t) 7 9 (fun _ => 0) demo_pools demo_huf demo_junk) (replicate 100 0) demo_g =
      Done (img, n + sizeof_HII_FILE_HEADER, g') /\
    CBlowFishInit HII_KEY (h_bf demo_g) = Done bf /\ CBlowFishDecipherChararray bf c n n = Done (1, plain) /\
    UefiTianoDecompress plain (replicate 64 0) 2 = Done (EFI_SUCCESS, replicate 64 65).
Proof.
  pose proof demo_compress_small as Hr. destruct (demo_compress (replicate 64 65)) as [r| |] eqn:Er; [|discriminate Hr|discriminate Hr].
  injection Hr as Hs Hz.
  destruct (CombineHiiData_readable demo_get None 1 7 (db_of demo_lists [0x41]) (fun _ _ _ => Done (replicate 64 65))
    (fun t _ _ _ => t) 7 9 (fun _ => 0) demo_pools demo_huf demo_junk (replicate 100 0) demo_g
    [] 0 0 GuidHandleMap0 (mkStatics (Some [0x41; 0]) true) (replicate 64 65) r 0)
    as (img & n & g' & bf & c & plain & E & _ & _ & _ & _ & Ei & Ed & _ & Ep).
  - reflexivity.
  - reflexivity.
  - apply Forall_replicate. split; [discriminate|reflexivity].
  - by vm_compute.
  - repeat split; by eexists.
  - reflexivity.
  - rewrite demo_compress_eq in Er. exact Er.
  - exact Hs.
  - rewrite Hz. by vm_compute.
  - by vm_compute.
  - exists img, n, g', bf, c, plain. split; [exact E|]. split; [exact Ei|]. split; [exact Ed|]. by apply Ep.
Defined.
