(* ===== verification/Dxe.v ===== *)
(** * The in-band DXE driver

    Models [SmcInBand/SmcInBandDxe.c]: the entry point, the callback that
    applies uploaded data early in a boot, and the ready-to-boot callback that
    combines the three images and has the E8 handler copy them to SMRAM.

    The buffer [pBuffer] lies in the flat memory of [PhysMem]; a component that
    fills a part of it works on the bytes from there to the end of the block.
    [gSmmCtl->Trigger] and the RAID setup driver are parameters. *)

From S2P Require Import Prelude Services OobCmos FeatureFlag Smbios SmbiosUpdate BiosCfg PhysMem FullSm InBandSmm.
From S2P Require Import Blowfish Packages SetupTables Hii HiiImage.

(** ** Installation *)

(** The platform policy as the driver uses it. *)
Record dxe_policy := mkDxePolicy {
  dp_smm : smm_policy; BoardInfoSvid : Z; BoardInfoDate : Z; BoardInfoTime : Z }.

Inductive dxe_event := SmcInBandCallback_event | SmcInBandReadyToBoot_event.

Record dxe_globals := mkDxeGlobals {
  mSmcRomHoleProtocol : bool; mSmcOobPlatformPolicyPtr : option dxe_policy;
  mSmcOobLibraryProtocol : bool; SmbiosProtocol : bool;
  events : list dxe_event; pBuffer : option Z }.

(** What the boot services answer, in the order of the calls. *)
Record dxe_env := mkDxeEnv {
  env_RomHole : bool; env_policy : option dxe_policy; env_OobLibrary : bool; env_Smbios : bool;
  env_CreateEvent : bool; env_Notify : bool; env_ReadyToBoot : bool; env_pool : option Z }.

(** [L"SMC_BOARD_INFO_NAME"]. *)
Definition BoardInfoVar : list Z :=
  [0x53; 0x4d; 0x43; 0x5f; 0x42; 0x4f; 0x41; 0x52; 0x44; 0x5f; 0x49; 0x4e; 0x46; 0x4f; 0x5f;
   0x4e; 0x41; 0x4d; 0x45].
Definition sizeof_BOARD_INFO : Z := 10.

Definition BoardInfo (pol : dxe_policy) : list Z :=
  le_bytes 4 (BoardInfoSvid pol) ++ le_bytes 4 (BoardInfoDate pol) ++ le_bytes 2 (BoardInfoTime pol).

Section install.
Context {W : Type} `{Firmware W} (gSmcBoardInfoVariableGuid : list Z).

(** [stack]: what the uninitialised [OldBoardInfo] holds. *)
Definition update_board_info (pol : dxe_policy) (stack : list Z) (w : W) : W :=
  let r := GetVariable BoardInfoVar gSmcBoardInfoVariableGuid sizeof_BOARD_INFO w in
  let OldBoardInfo := v_data r ++ drop (length (v_data r)) stack in
  if EFI_ERROR (v_status r) || negb (bool_decide (OldBoardInfo = BoardInfo pol))
  then snd (SetVariable BoardInfoVar gSmcBoardInfoVariableGuid
              (Z.lor EFI_VARIABLE_NON_VOLATILE EFI_VARIABLE_BOOTSERVICE_ACCESS) (BoardInfo pol) w)
  else w.

(** The allocated block is cleared whether or not there is one. *)
Definition InitSmcInBand (e : dxe_env) (stack : list Z) (m : mem) (w : W)
    : Res (EFI_STATUS * dxe_globals * mem * W) :=
  let g0 := mkDxeGlobals false None false false [] None in
  if negb (env_RomHole e) then Done (EFI_NOT_READY, g0, m, w) else
  match env_policy e with
  | None => Done (EFI_NOT_READY, mkDxeGlobals true None false false [] None, m, w)
  | Some pol =>
      if negb (env_OobLibrary e)
      then Done (EFI_NOT_READY, mkDxeGlobals true (Some pol) false false [] None, m, w) else
      let w := update_board_info pol stack w in
      if negb (env_Smbios e)
      then Done (EFI_NOT_READY, mkDxeGlobals true (Some pol) true false [] None, m, w) else
      let ev := (if env_CreateEvent e && env_Notify e then [SmcInBandCallback_event] else [])
                ++ (if env_ReadyToBoot e then [SmcInBandReadyToBoot_event] else []) in
      match env_pool e with
      | None => Fault
      | Some p =>
          Done (EFI_SUCCESS, mkDxeGlobals true (Some pol) true true ev (Some p),
                mwrite m p (replicate (Z.to_nat SMC_OOB_SMRAM_TOTAL_SIZE) 0), w)
      end
  end.

(** What the callbacks dereference. *)
Definition dxe_ready (g : dxe_globals) : Prop :=
  mSmcRomHoleProtocol g = true /\ is_Some (mSmcOobPlatformPolicyPtr g) /\
  mSmcOobLibraryProtocol g = true /\ SmbiosProtocol g = true /\ is_Some (pBuffer g).

Lemma zlen_BoardInfo pol : zlen (BoardInfo pol) = sizeof_BOARD_INFO.
Proof. unfold BoardInfo, sizeof_BOARD_INFO. zl. Qed.

Lemma update_board_info_spec pol stack w :
  @vars_writable W _ -> zlen stack = sizeof_BOARD_INFO ->
  (forall a d, var w BoardInfoVar gSmcBoardInfoVariableGuid = Some (a, d) -> sizeof_BOARD_INFO <= zlen d) ->
  let w' := update_board_info pol stack w in
  (exists a, var w' BoardInfoVar gSmcBoardInfoVariableGuid = Some (a, BoardInfo pol)) /\
  (forall n i, (n, i) <> (BoardInfoVar, gSmcBoardInfoVariableGuid) -> var w' n i = var w n i) /\
  rom w' = rom w.
Proof using.
  intros Hw Hs Hd w'. subst w'. unfold update_board_info. rewrite GetVariable_law.
  set (R := get_result _ _). destruct (_ || _) eqn:E.
  - split_and!; [|intros; by apply SetVariable_other|apply SetVariable_rom].
    rewrite set_same by done. eexists. unfold stored.
    pose proof (zlen_BoardInfo pol). by destruct (BoardInfo pol).
  - split_and!; [|done|done]. apply orb_false_iff in E as [Es Eb].
    apply negb_false_iff, bool_decide_eq_true in Eb. subst R. unfold get_result in *.
    destruct (var w BoardInfoVar _) as [[a d]|] eqn:Ev; [|done]. specialize (Hd a d eq_refl).
    destruct (_ <=? _); [|done]. cbn [v_data] in Eb. exists a. rewrite <- Eb.
    rewrite drop_ge, app_nil_r; [done|unfold zlen, sizeof_BOARD_INFO in *; lia].
Qed.

(** when the entry point comes back, a callback is registered
    only if every protocol it uses and the buffer are in place; it fails
    exactly when a protocol is missing; on success the board-information
    variable, if it can be written, is the one of the policy, the other variables and the flash are
    as they were, the buffer is zero and no other byte of memory changed. *)
Theorem InitSmcInBand_safe e stack m w :
  @vars_writable W _ -> zlen stack = sizeof_BOARD_INFO -> is_Some (env_pool e) ->
  (forall a d, var w BoardInfoVar gSmcBoardInfoVariableGuid = Some (a, d) -> sizeof_BOARD_INFO <= zlen d) ->
  exists st g m' w', InitSmcInBand e stack m w = Done (st, g, m', w') /\
    (events g <> [] -> dxe_ready g) /\
    (st = EFI_SUCCESS <->
       env_RomHole e = true /\ is_Some (env_policy e) /\ env_OobLibrary e = true /\ env_Smbios e = true) /\
    (forall n i, (n, i) <> (BoardInfoVar, gSmcBoardInfoVariableGuid) -> var w' n i = var w n i) /\
    rom w' = rom w /\
    (st = EFI_SUCCESS -> exists pol p,
       env_policy e = Some pol /\ pBuffer g = Some p /\
       (exists a, var w' BoardInfoVar gSmcBoardInfoVariableGuid = Some (a, BoardInfo pol)) /\
       mread m' p SMC_OOB_SMRAM_TOTAL_SIZE = replicate (Z.to_nat SMC_OOB_SMRAM_TOTAL_SIZE) 0 /\
       (forall x, x < p \/ p + SMC_OOB_SMRAM_TOTAL_SIZE <= x -> m' x = m x)).
Proof using.
  intros Hw Hs [p Hp] Hd. unfold InitSmcInBand. rewrite Hp.
  destruct (env_RomHole e); cbn [negb]; [|by eexists _, _, _, _; split_and!; try done; split; [done|intros (?&?&?&?)]].
  destruct (env_policy e) as [pol|];
    [|by eexists _, _, _, _; split_and!; try done; split; [done|intros (?&[? ?]&?&?)]].
  destruct (env_OobLibrary e); cbn [negb]; [|by eexists _, _, _, _; split_and!; try done; split; [done|intros (?&?&?&?)]].
  destruct (update_board_info_spec pol stack w Hw Hs Hd) as (H1 & H2 & H3).
  destruct (env_Smbios e); cbn [negb]; [|by eexists _, _, _, _; split_and!; try done; split; [done|intros (?&?&?&?)]].
  assert (Hn : 0 <= SMC_OOB_SMRAM_TOTAL_SIZE) by (by vm_compute).
  revert Hn. generalize SMC_OOB_SMRAM_TOTAL_SIZE. intros n Hn.
  eexists _, _, _, _. split; [reflexivity|]. split_and!; try done.
  intros _. exists pol, p. split_and!; [done|done|done| |].
  - apply mread_same. rewrite zlen_replicate. lia.
  - intros x Hx. apply mwrite_out. rewrite zlen_replicate. lia.
Qed.
End install.

(** ** The address in CMOS *)
Section cmos.
Context {S : Type} `{CmosPorts S}.

Definition save_address (pol : smm_policy) (Data32 : Z) (s : S) : Res S :=
  s ← OobSetCmosTokensValue (CmosSmcAddrHH pol) (Z.land (Z.shiftr Data32 24) 0xff) s;
  s ← OobSetCmosTokensValue (CmosSmcAddrH pol) (Z.land (Z.shiftr Data32 16) 0xff) s;
  s ← OobSetCmosTokensValue (CmosSmcAddrL pol) (Z.land (Z.shiftr Data32 8) 0xff) s;
  OobSetCmosTokensValue (CmosSmcAddrLL pol) (Z.land Data32 0xff) s.

(** The four tokens are whole cells, no two of them the same. *)
Definition address_tokens (pol : smm_policy) : Prop :=
  whole_cells (CmosSmcAddrHH pol) (CmosSmcAddrH pol) (CmosSmcAddrL pol) (CmosSmcAddrLL pol).

(** What the driver saves is what the handler finds. *)
Lemma save_address_read pol d s :
  address_tokens pol -> is_u32 d ->
  exists s', save_address pol d s = Done s' /\ exists c, cmos_address pol s' = Done (d, c).
Proof using.
  intros Ht Hd. destruct (put_get_address _ _ _ _ d s Ht Hd) as (s' & E & G). exists s'. split; [exact E|].
  destruct (G s') as (c & Hc & _); [done|]. by exists c.
Qed.
End cmos.

(** ** The RAID setup driver as the DXE driver calls it *)
Record SetupDriver (W : Type) := mkSetup {
  sd_driver : RaidDriver W;
  SmcLsiSetupDriverStart : W -> EFI_STATUS * W;
  SmcLsiSetupDriverDownload : W -> EFI_STATUS * W;
  SmcLsiSetupDriverLoadR : W -> EFI_STATUS * W }.
Arguments sd_driver {W}.
Arguments SmcLsiSetupDriverStart {W}.
Arguments SmcLsiSetupDriverDownload {W}.
Arguments SmcLsiSetupDriverLoadR {W}.

(** ** The early callback *)
Section callback.
Context {W : Type} `{Firmware W}.
Context (PlatformVar : list (list Z * list Z)).
Context (Smc_UpdatePlatformVariable : list Z -> list Z -> list Z -> W -> W).
Context (Smc_OobLoadDefaultPreSetting : W -> W).
Context (LoadDefaultGuid : list Z) (digit : Z -> Z) (gAmiSmbiosNvramGuid : list Z).

(** [hook]: the field [Smc_OobDetermineUpdBiosCfg] is not NULL. [located]: what
    [LocateProtocol] finds. Returns the RAID setup driver global. *)
Definition SmcInBandCallback (hook : bool) (located : option (SetupDriver W)) (w : W)
    : Res (option (SetupDriver W) * W) :=
  let w :=
    match located with
    | None => w
    | Some drv =>
        let '(Status, w) := SmcLsiSetupDriverStart drv w in
        if EFI_ERROR Status then w else snd (SmcLsiSetupDriverDownload drv w)
    end in
  w ← (if hook then
         '(_, w) ← InBandUpdateBiosCfg PlatformVar Smc_UpdatePlatformVariable Smc_OobLoadDefaultPreSetting
                     (sd_driver <$> located) LoadDefaultGuid w;
         Done w
       else Done w);
  w ← InBandUpdateSmbios digit gAmiSmbiosNvramGuid w;
  Done (located, w).
End callback.

(** ** Ready to boot *)
Section ready_to_boot.
Context {W : Type} `{Firmware W} {S : Type} `{CmosPorts S}.

Context (GetNextVariableName : W -> Z -> list Z * list Z -> EFI_STATUS * (list Z * list Z)).
Context (BiosCfgVersion : Z) (fuel : nat) (guid0 mStdDefGuid pool : list Z).
Context (SmbiosReadStrucByType : Z -> Z -> option (list Z)) (garbage SmbiosVersion : Z).
Context (HiiLibGetString : Z -> Z -> EFI_STATUS * list Z).
Context (SmcSetupModifyProtocol : option (list Z -> Z -> bool)).
Context (IpmiLanSelection HiiVersion : Z) (hii_database : W -> hii_db).
Context (GenFormLayout : list SMC_GUID_HANDLE -> list Z -> Z -> Res (list Z)).
Context (TianoCompress : list Z -> list Z * Z).
Context (FullSmbiosVersion SmbiosMajorVersion SmbiosMinorVersion SmbiosDocVersion : Z).

(** [gSmmCtl->Trigger] with the SMI value and the data port; [None] when the
    protocol is not there. *)
Context (gSmmCtl : option (Z -> Z -> @smm W S -> Res (@smm W S))).

(** The machine, the globals of the HII export, the RAID setup driver, and
    whether the data-ready protocol was installed. *)
Record dxe := mkDxe {
  d_smm : @smm W S; d_hii : hii_globals; mSmcLsiRaidOOBSetupDriver : option (SetupDriver W);
  d_ready : bool }.

Definition set_smm (s : dxe) (x : @smm W S) : dxe :=
  mkDxe x (d_hii s) (mSmcLsiRaidOOBSetupDriver s) (d_ready s).

(** The bytes of the block from [off] on. *)
Definition buffer_rest (pBuffer off : Z) (m : mem) : list Z :=
  mread m (pBuffer + off) (SMC_OOB_SMRAM_TOTAL_SIZE - off).

Definition combine_cfg (pBuffer : Z) (s : dxe) : Res dxe :=
  let x := d_smm s in
  '(_, (b, _), w) ←
    CombineBiosCfg GetNextVariableName (sd_driver <$> mSmcLsiRaidOOBSetupDriver s) BiosCfgVersion
      fuel guid0 mStdDefGuid pool (buffer_rest pBuffer SMC_OOB_SMRAM_BIOS_CFG_OFFSET (mm x)) 0 (fw x);
  Done (set_smm s (mkSmm (mwrite (mm x) (pBuffer + SMC_OOB_SMRAM_BIOS_CFG_OFFSET) b) w (cm x))).

Definition combine_smbios (s : dxe) : Res dxe :=
  let x := d_smm s in
  w ← CombineSmbios SmbiosReadStrucByType garbage SmbiosVersion (fw x);
  Done (set_smm s (mkSmm (mm x) w (cm x))).

Definition load_raid (s : dxe) : dxe :=
  match mSmcLsiRaidOOBSetupDriver s with
  | None => s
  | Some drv =>
      let x := d_smm s in
      set_smm s (mkSmm (mm x) (snd (SmcLsiSetupDriverLoadR drv (fw x))) (cm x))
  end.

Definition combine_hii (pBuffer : Z) (s : dxe) : Res dxe :=
  let x := d_smm s in
  '(b, _, g) ←
    CombineHiiData HiiLibGetString SmcSetupModifyProtocol IpmiLanSelection HiiVersion (hii_database (fw x))
      GenFormLayout TianoCompress (buffer_rest pBuffer SMC_OOB_SMRAM_HII_OFFSET (mm x)) (d_hii s);
  Done (mkDxe (mkSmm (mwrite (mm x) (pBuffer + SMC_OOB_SMRAM_HII_OFFSET) b) (fw x) (cm x))
          g (mSmcLsiRaidOOBSetupDriver s) (d_ready s)).

Definition combine_full (pBuffer : Z) (s : dxe) : Res dxe :=
  let x := d_smm s in
  '(m, _) ← CombineFullSmBios FullSmbiosVersion SmbiosMajorVersion SmbiosMinorVersion SmbiosDocVersion
              (pBuffer + SMC_OOB_SMRAM_FULL_SMBIOS_OFFSET) (mm x);
  Done (set_smm s (mkSmm m (fw x) (cm x))).

(** Save the low 32 bits of the address and raise the SMI. *)
Definition trigger (pol : smm_policy) (pBuffer DataPort : Z) (s : dxe) : Res dxe :=
  match gSmmCtl with
  | None => Done s
  | Some Trigger =>
      let x := d_smm s in
      c ← save_address pol (u32 pBuffer) (cm x);
      x ← Trigger (InBandSwSmiE8 pol) DataPort (mkSmm (mm x) (fw x) c);
      Done (set_smm s x)
  end.

Definition SmcInBandReadyToBoot (g : dxe_globals) (s : dxe) : Res dxe :=
  match mSmcOobPlatformPolicyPtr g, pBuffer g with
  | Some dp, Some pBuffer =>
      let pol := dp_smm dp in
      s ← combine_cfg pBuffer s;
      s ← trigger pol pBuffer SWSMI_E8_SUBCMD_COMBINE_BIOS_CFG s;
      s ← combine_smbios s;
      let s := load_raid s in
      s ← combine_hii pBuffer s;
      s ← combine_full pBuffer s;
      s ← trigger pol pBuffer SWSMI_E8_SUBCMD_COMBINE_HII s;
      s ← trigger pol pBuffer SWSMI_E8_SUBCMD_COMBINE_FULL_SMBIOS s;
      Done (mkDxe (d_smm s) (d_hii s) (mSmcLsiRaidOOBSetupDriver s) true)
  | _, _ => Fault
  end.
End ready_to_boot.

(** ** What ready to boot publishes *)

(** The size a file header states. *)
Definition stated (b : list Z) : Z := le_val (take 4 (drop 6 b)).

(** [n] bytes from [a] are neither in the DXE block nor in SMRAM. *)
Definition outside (ram pB a n : Z) : Prop :=
  apart a n pB SMC_OOB_SMRAM_TOTAL_SIZE /\ apart a n ram SMC_OOB_SMRAM_TOTAL_SIZE.

Lemma mread_in m a bs i n :
  0 <= i -> 0 <= n -> i + n <= zlen bs ->
  mread (mwrite m a bs) (a + i) n = take (Z.to_nat n) (drop (Z.to_nat i) bs).
Proof. intros Hi Hn Hl. rewrite (mread_part _ a (zlen bs)) by lia. by rewrite mread_same. Qed.

Lemma stated_mread m a n : 10 <= n -> stated (mread m a n) = mr32 m (a + 6).
Proof. intros Hn. unfold stated, mr32. by rewrite (mread_part m a n 6 4) by lia. Qed.

Lemma stated_mwrite m a bs : 10 <= zlen bs -> mr32 (mwrite m a bs) (a + 6) = stated bs.
Proof. intros Hn. unfold stated, mr32. by rewrite mread_in by lia. Qed.

Lemma stated_at sig version n r :
  zlen sig = 4 -> zlen version = 2 -> is_u32 n -> stated (sig ++ version ++ le_bytes 4 n ++ r) = n.
Proof.
  intros Hs Hv Hn. unfold stated. rewrite app_assoc.
  change 6%nat with (Z.to_nat 6). rewrite drop_app_zlen by zl.
  change 4%nat with (Z.to_nat 4) at 1. rewrite take_app_zlen by zl. by apply le_val_4.
Qed.

Section publish.
Context {W : Type} `{Firmware W} {S : Type} `{CmosPorts S}.
Context (ram pB : Z) (pol : smm_policy).
Context (Trigger : Z -> Z -> @smm W S -> Res (@smm W S)).

(** The SMI of the E8 value runs the E8 handler with the data port. *)
Hypothesis Trigger_E8 : forall k x, Trigger (InBandSwSmiE8 pol) (img_port k) x = E8_request ram pol x k.
Hypothesis tokens : address_tokens pol.
Hypothesis pB_range : is_u32 pB.
Hypothesis block_apart : apart pB SMC_OOB_SMRAM_TOTAL_SIZE ram SMC_OOB_SMRAM_TOTAL_SIZE.

Definition published (m : mem) (k : image) : mem := mwrite m (ram + img_off k) (img_bytes m pB k).

Lemma trigger_spec k (s : @dxe W S) :
  exists c, trigger (Some Trigger) pol pB (img_port k) s
    = Done (set_smm s (mkSmm (published (mm (d_smm s)) k) (fw (d_smm s)) c)).
Proof using Trigger_E8 pB_range tokens.
  unfold trigger. rewrite u32_small by done.
  destruct (save_address_read pol pB (cm (d_smm s)) tokens pB_range) as (c1 & -> & c2 & Hc).
  rewrite bind_Done, Trigger_E8. exists c2.
  rewrite (E8_copy ram pol _ k pB c2) by exact Hc. by rewrite bind_Done.
Qed.
(** *** Reading what was published *)
Lemma published_same m k :
  0 <= img_size m pB k -> mread (published m k) (ram + img_off k) (img_size m pB k) = img_bytes m pB k.
Proof using. intros Hk. apply mread_same. unfold img_bytes. by rewrite zlen_mread. Qed.

Lemma published_out m k x :
  0 <= img_size m pB k <= img_room k -> x < ram \/ ram + SMC_OOB_SMRAM_TOTAL_SIZE <= x ->
  published m k x = m x.
Proof using.
  intros Hk Hx. pose proof (img_layout k). apply mwrite_out. unfold img_bytes. rewrite zlen_mread by lia. lia.
Qed.

Lemma published_other m k k' n :
  0 <= img_size m pB k <= img_room k -> k' <> k -> n <= img_room k' ->
  mread (published m k) (ram + img_off k') n = mread m (ram + img_off k') n.
Proof using.
  intros Hk Hne Hn. apply mread_other. pose proof (img_areas_apart k k' ltac:(congruence)).
  unfold img_bytes. rewrite zlen_mread by lia. unfold apart in *. lia.
Qed.

Lemma published_ok m k : mem_ok m -> mem_ok (published m k).
Proof using. intros Hm. apply mwrite_ok; [done|by apply mread_bytes_ok]. Qed.

Lemma img_size_nonneg m k : mem_ok m -> 0 <= img_size m pB k.
Proof using.
  intros Hm. unfold img_size, FileSize_at. pose proof (mr32_range m (pB + img_off k + 6) Hm) as [? _].
  pose proof (img_layout k). lia.
Qed.

(** An image that fills the start of a written list. *)
Lemma img_of_list m off b k :
  off = img_off k -> 10 <= zlen b ->
  img_size (mwrite m (pB + off) b) pB k = stated b + img_header k /\
  (0 <= stated b + img_header k <= zlen b ->
   img_bytes (mwrite m (pB + off) b) pB k = take (Z.to_nat (stated b + img_header k)) b).
Proof using.
  intros -> Hb. unfold img_bytes. assert (E : img_size (mwrite m (pB + img_off k) b) pB k = stated b + img_header k).
  { unfold img_size, FileSize_at. by rewrite stated_mwrite. }
  split; [done|]. intros Hr. rewrite E. rewrite <- (Z.add_0_r (pB + img_off k)) at 2.
  by rewrite mread_in by lia.
Qed.
Definition in_block (x : Z) : Prop := pB <= x < pB + SMC_OOB_SMRAM_TOTAL_SIZE.
Definition in_smram (x : Z) : Prop := ram <= x < ram + SMC_OOB_SMRAM_TOTAL_SIZE.

(** The order of the writes: settings, their SMI, HII data, table, two SMIs. *)
Lemma publish_flow m0 b1 b2 m5 size :
  mem_ok m0 -> area SMC_OOB_SMRAM_BIOS_CFG_SIZE b1 -> area SMC_OOB_SMRAM_TOTAL_SIZE b2 ->
  let n1 := stated b1 + img_header IMG_BIOS_CFG in
  let n2 := stated b2 + img_header IMG_HII in
  n1 <= SMC_OOB_SMRAM_BIOS_CFG_SIZE -> n2 <= SMC_OOB_SMRAM_HII_SIZE ->
  let m1 := mwrite m0 (pB + SMC_OOB_SMRAM_BIOS_CFG_OFFSET) b1 in
  let m4 := mwrite (published m1 IMG_BIOS_CFG) (pB + SMC_OOB_SMRAM_HII_OFFSET) b2 in
  let F := pB + SMC_OOB_SMRAM_FULL_SMBIOS_OFFSET in
  mem_ok m5 -> 18 <= size <= SMC_OOB_SMRAM_FULL_SMBIOS_SIZE ->
  (forall x, x < F \/ F + size <= x -> m5 x = m4 x) -> mr32 m5 (F + 6) = size - 18 ->
  let m7 := published (published m5 IMG_HII) IMG_FULL_SMBIOS in
  mem_ok m7 /\
  mread m7 (ram + SMC_OOB_SMRAM_BIOS_CFG_OFFSET) n1 = take (Z.to_nat n1) b1 /\
  mread m7 (ram + SMC_OOB_SMRAM_HII_OFFSET) n2 = take (Z.to_nat n2) b2 /\
  mread m7 (ram + SMC_OOB_SMRAM_FULL_SMBIOS_OFFSET) size = mread m5 F size /\
  (forall x, ~ in_block x -> ~ in_smram x -> m7 x = m0 x).
Proof using block_apart.
  intros Hm0 [B1 L1] [B2 L2] n1 n2 H1 H2 m1 m4 F Hm5 Hsz Ho Hf m7.
  pose proof (img_layout IMG_BIOS_CFG) as A1. pose proof (img_layout IMG_HII) as A2.
  pose proof (img_layout IMG_FULL_SMBIOS) as A3. cbn [img_off img_room] in A1, A2, A3.
  assert (Hn : forall b, bytes_ok b -> 0 <= stated b).
  { intros b Hb. unfold stated. apply le_val_bound. by apply Forall_take, Forall_drop. }
  pose proof (Hn b1 B1) as N1. pose proof (Hn b2 B2) as N2.
  assert (Z1 : 20 <= SMC_OOB_SMRAM_BIOS_CFG_SIZE) by (by vm_compute).
  assert (Hm1 : mem_ok m1) by (by apply mwrite_ok).
  assert (Hm4 : mem_ok m4) by (apply mwrite_ok; [by apply published_ok|done]).
  destruct (img_of_list m0 SMC_OOB_SMRAM_BIOS_CFG_OFFSET b1 IMG_BIOS_CFG eq_refl ltac:(lia)) as [E1 F1].
  fold m1 n1 in E1, F1. specialize (F1 ltac:(lia)).
  assert (EF : FileSize_at m5 (pB + SMC_OOB_SMRAM_HII_OFFSET) = stated b2).
  { unfold FileSize_at. unfold F, apart in *. change SMC_OOB_SMRAM_HII_OFFSET with 0 in *.
    change SMC_OOB_SMRAM_FULL_SMBIOS_OFFSET with 393216 in *.
    unfold mr32. rewrite (mread_ext m5 m4) by (intros x Hx; apply Ho; lia).
    apply stated_mwrite. lia. }
  assert (E2 : img_size m5 pB IMG_HII = n2) by (unfold img_size; cbn [img_off]; by rewrite EF).
  assert (E3 : img_size m5 pB IMG_FULL_SMBIOS = size).
  { unfold img_size, FileSize_at. cbn [img_off img_header]. fold F. rewrite Hf.
    unfold sizeof_FullSmBios_Header. lia. }
  assert (HF2 : img_bytes m5 pB IMG_HII = take (Z.to_nat n2) b2).
  { unfold img_bytes. rewrite E2. cbn [img_off].
    change SMC_OOB_SMRAM_HII_SIZE with SMC_OOB_SMRAM_FULL_SMBIOS_OFFSET in H2.
    rewrite (mread_ext m5 m4) by (intros x Hx; apply Ho; unfold F; change SMC_OOB_SMRAM_HII_OFFSET with 0 in *; lia).
    unfold m4. rewrite <- (Z.add_0_r (pB + SMC_OOB_SMRAM_HII_OFFSET)) at 2.
    rewrite mread_in by lia. done. }
  set (m6 := published m5 IMG_HII) in *.
  assert (R6 : 0 <= img_size m5 pB IMG_HII <= img_room IMG_HII) by (rewrite E2; cbn [img_room]; lia).
  assert (O6 : forall x, ~ in_smram x -> m6 x = m5 x).
  { intros x Hx. apply published_out; [done|]. unfold in_smram in Hx. lia. }
  assert (Hblk : forall a, a = F \/ a = F + 6 -> forall x, a <= x < a + 4 \/ a <= x < F + size -> ~ in_smram x).
  { intros a Ha x Hx. unfold in_smram, apart, F in *. change SMC_OOB_SMRAM_FULL_SMBIOS_OFFSET with 393216 in *.
    change SMC_OOB_SMRAM_FULL_SMBIOS_SIZE with 262144 in *. change SMC_OOB_SMRAM_TOTAL_SIZE with 1048576 in *. lia. }
  assert (E6 : img_size m6 pB IMG_FULL_SMBIOS = size).
  { rewrite <- E3. unfold img_size, FileSize_at, mr32. do 2 f_equal. cbn [img_off]. fold F.
    apply mread_ext. intros x Hx. apply O6, (Hblk (F + 6)); [by right|lia]. }
  assert (E6b : img_bytes m6 pB IMG_FULL_SMBIOS = mread m5 F size).
  { unfold img_bytes. rewrite E6. cbn [img_off]. apply mread_ext. intros x Hx. apply O6, (Hblk F); [by left|fold F in Hx; lia]. }
  assert (R7 : 0 <= img_size m6 pB IMG_FULL_SMBIOS <= img_room IMG_FULL_SMBIOS)
    by (rewrite E6; cbn [img_room]; lia).
  split_and!.
  - by apply published_ok, published_ok.
  - unfold m7, m6. change SMC_OOB_SMRAM_BIOS_CFG_OFFSET with (img_off IMG_BIOS_CFG) at 1.
    rewrite published_other, published_other by (done || (cbn [img_room]; lia)).
    rewrite <- F1, <- E1. rewrite <- (published_same m1 IMG_BIOS_CFG) by lia. cbn [img_off].
    unfold apart, F in *. clear -Ho block_apart Hsz L1 L2 H1 N1 E1.
    change SMC_OOB_SMRAM_FULL_SMBIOS_OFFSET with 393216 in *. change SMC_OOB_SMRAM_BIOS_CFG_OFFSET with 655360 in *.
    change SMC_OOB_SMRAM_FULL_SMBIOS_SIZE with 262144 in *. change SMC_OOB_SMRAM_BIOS_CFG_SIZE with 393216 in *.
    change SMC_OOB_SMRAM_TOTAL_SIZE with 1048576 in *. change SMC_OOB_SMRAM_HII_OFFSET with 0 in *.
    apply mread_ext. intros x Hx. rewrite Ho by lia. unfold m4. apply mwrite_out. lia.
  - unfold m7, m6 at 1. change SMC_OOB_SMRAM_HII_OFFSET with (img_off IMG_HII) at 1.
    fold m6. rewrite published_other by (done || (cbn [img_room]; lia)).
    rewrite <- HF2, <- E2. apply published_same. lia.
  - unfold m7. rewrite <- E6b, <- E6 at 1. apply published_same. lia.
  - intros x Hb Hs. unfold m7. rewrite published_out by (done || (unfold in_smram in Hs; lia)).
    rewrite O6 by done. rewrite Ho; unfold m4; [rewrite mwrite_out|].
    + rewrite published_out by ((rewrite E1; cbn [img_room]; lia) || (unfold in_smram in Hs; lia)).
      apply mwrite_out. unfold in_block in Hb. cbn [img_off img_room] in *. lia.
    + unfold in_block in Hb. change SMC_OOB_SMRAM_HII_OFFSET with 0 in *. lia.
    + unfold in_block, F in *. lia.
Qed.
End publish.

(** ** The whole callback *)
Section ready_correct.
Context {W : Type} `{Firmware W} {S : Type} `{CmosPorts S}.
Context (GetNextVariableName : W -> Z -> list Z * list Z -> EFI_STATUS * (list Z * list Z)).
Context (BiosCfgVersion : Z) (fuel : nat) (guid0 mStdDefGuid pool : list Z).
Context (SmbiosRead : Z -> Z -> option (list Z)) (garbage SmbiosVersion : Z).
Context (get : Z -> Z -> EFI_STATUS * list Z) (search : option (list Z -> Z -> bool)).
Context (lan HiiVersion : Z) (hii_database : W -> hii_db).
Context (layout : list SMC_GUID_HANDLE -> list Z -> Z -> Res (list Z)) (compress : list Z -> list Z * Z).
Context (V Ma Mi D : Z).
Context (ram pB : Z) (pol : smm_policy) (Trigger : Z -> Z -> @smm W S -> Res (@smm W S)).

Hypothesis compress_bytes : forall l, bytes_ok (fst (compress l)).
Hypothesis compress_size : forall l, 0 <= snd (compress l) < 2 ^ 31.
Hypothesis Trigger_E8 : forall k x, Trigger (InBandSwSmiE8 pol) (img_port k) x = E8_request ram pol x k.
Hypothesis tokens : address_tokens pol.
Hypothesis pB_range : is_u32 pB.
Hypothesis block_apart : apart pB SMC_OOB_SMRAM_TOTAL_SIZE ram SMC_OOB_SMRAM_TOTAL_SIZE.

Definition ReadyToBoot : dxe_globals -> dxe -> Res dxe :=
  SmcInBandReadyToBoot GetNextVariableName BiosCfgVersion fuel guid0 mStdDefGuid pool SmbiosRead garbage
    SmbiosVersion get search lan HiiVersion hii_database layout compress V Ma Mi D (Some Trigger).

Definition Cfg (drv : option (SetupDriver W)) (b : list Z) (w : W) :=
  CombineBiosCfg GetNextVariableName (sd_driver <$> drv) BiosCfgVersion fuel guid0 mStdDefGuid pool b 0 w.
Definition HiiData (w : W) :=
  CombineHiiData get search lan HiiVersion (hii_database w) layout compress.

Definition loaded (drv : option (SetupDriver W)) (w : W) : W :=
  match drv with Some d => snd (SmcLsiSetupDriverLoadR d w) | None => w end.

Lemma buffer_after m0 b1 :
  zlen b1 = SMC_OOB_SMRAM_BIOS_CFG_SIZE -> 0 <= stated b1 + img_header IMG_BIOS_CFG <= zlen b1 ->
  buffer_rest pB SMC_OOB_SMRAM_HII_OFFSET
    (published ram pB (mwrite m0 (pB + SMC_OOB_SMRAM_BIOS_CFG_OFFSET) b1) IMG_BIOS_CFG)
  = mread m0 pB SMC_OOB_SMRAM_BIOS_CFG_OFFSET ++ b1.
Proof using block_apart.
  intros L1 R1. set (m1 := mwrite m0 _ b1). unfold buffer_rest, apart in *.
  change SMC_OOB_SMRAM_HII_OFFSET with 0. change SMC_OOB_SMRAM_BIOS_CFG_SIZE with 393216 in *.
  change SMC_OOB_SMRAM_BIOS_CFG_OFFSET with 655360 in *. change SMC_OOB_SMRAM_TOTAL_SIZE with 1048576 in *.
  rewrite Z.add_0_r, (mread_cut _ pB (1048576 - 0) 655360 393216 (pB + 655360)) by lia.
  destruct (img_of_list pB m0 655360 b1 IMG_BIOS_CFG eq_refl ltac:(lia)) as [E1 _]. fold m1 in E1.
  assert (O : forall x, pB <= x < pB + 1048576 -> published ram pB m1 IMG_BIOS_CFG x = m1 x).
  { intros x Hx. apply published_out; [rewrite E1; change (img_room IMG_BIOS_CFG) with 393216; lia|].
    change SMC_OOB_SMRAM_TOTAL_SIZE with 1048576. lia. }
  apply (f_equal2 (@app Z)).
  - apply mread_ext. intros x Hx. rewrite O by lia. unfold m1. apply mwrite_out. lia.
  - rewrite (mread_ext _ m1) by (intros x Hx; apply O; lia). apply mread_same. lia.
Qed.

(** The entry point and the table read the same wherever nothing was
    written. *)
Lemma full_step m m4 p :
  mem_ok m4 -> (forall x, ~ in_block pB x -> ~ in_smram ram x -> m4 x = m x) ->
  first_entry m p -> outside ram pB SM_START 0x10020 ->
  let n := EP_TableLength m p in let t := EP_TableAddress m p in
  outside ram pB t n ->
  let F := pB + SMC_OOB_SMRAM_FULL_SMBIOS_OFFSET in
  exists m5, CombineFullSmBios V Ma Mi D F m4 = Done (m5, 18 + n) /\ mem_ok m5 /\ is_u16 n /\
    (forall x, x < F \/ F + (18 + n) <= x -> m5 x = m4 x) /\
    mr32 m5 (F + 6) = n /\ mread m5 (F + 18) n = mread m t n.
Proof using block_apart.
  intros Hm4 Ho (P1 & P2 & P3 & P4) [Sb Ss] n t [Tb Ts] F.
  assert (Hx : forall a k, apart a k pB SMC_OOB_SMRAM_TOTAL_SIZE -> apart a k ram SMC_OOB_SMRAM_TOTAL_SIZE ->
    forall x, a <= x < a + k -> m4 x = m x).
  { intros a k Ha Hk x Hx. apply Ho; unfold in_block, in_smram, apart in *; lia. }
  assert (R : forall a k, SM_START <= a -> a + k <= SM_START + 0x10020 -> mread m4 a k = mread m a k).
  { intros a k Ha Hk. apply mread_ext. intros x Hin. apply (Hx SM_START 0x10020); [done|done|lia]. }
  assert (HE : SM_END = SM_START + 0xffff) by done.
  assert (P' : first_entry m4 p).
  { split_and!; [lia|lia|done| |].
    - unfold mr32. rewrite R by lia. exact P3.
    - intros x Hx1 Hx2. unfold mr32. rewrite R by lia. by apply P4. }
  assert (En : EP_TableLength m4 p = n) by (unfold n, EP_TableLength, mr16; by rewrite R by lia).
  assert (Et : EP_TableAddress m4 p = t) by (unfold t, EP_TableAddress, mr32; by rewrite R by lia).
  assert (Hn : is_u16 n).
  { rewrite <- En. unfold EP_TableLength, mr16. apply le_val_2_range; [by apply mread_bytes_ok|by apply zlen_mread]. }
  assert (Hap : apart F 18 t n).
  { unfold apart, F in *. change SMC_OOB_SMRAM_FULL_SMBIOS_OFFSET with 393216.
    change SMC_OOB_SMRAM_TOTAL_SIZE with 1048576 in *. lia. }
  destruct (CombineFullSmBios_entry V Ma Mi D F m4 p Hm4 P') as (m5 & E5 & _ & T5); [by rewrite En, Et|].
  destruct (CombineFullSmBios_size V Ma Mi D F m4 Hm4) as (m5' & sz & E5' & M5 & O5 & S5).
  rewrite E5 in E5'. injection E5' as <- <-. rewrite En, ?Et in *. unfold is_u16 in Hn.
  exists m5. split_and!; try done; try lia.
  rewrite T5. apply mread_ext. by apply Hx.
Qed.

(** The run of the callback as a sequence of memories. *)
Lemma ReadyToBoot_runs g dp m w0 c0 h drv rd st b1 n1 w1 w2 b2 n2 g2 m5 sz :
  mSmcOobPlatformPolicyPtr g = Some dp -> dp_smm dp = pol -> pBuffer g = Some pB ->
  zlen b1 = SMC_OOB_SMRAM_BIOS_CFG_SIZE -> 0 <= stated b1 + img_header IMG_BIOS_CFG <= zlen b1 ->
  Cfg drv (buffer_rest pB SMC_OOB_SMRAM_BIOS_CFG_OFFSET m) w0 = Done (st, (b1, n1), w1) ->
  CombineSmbios SmbiosRead garbage SmbiosVersion w1 = Done w2 ->
  HiiData (loaded drv w2) (mread m pB SMC_OOB_SMRAM_BIOS_CFG_OFFSET ++ b1) h = Done (b2, n2, g2) ->
  let m1 := mwrite m (pB + SMC_OOB_SMRAM_BIOS_CFG_OFFSET) b1 in
  let m4 := mwrite (published ram pB m1 IMG_BIOS_CFG) (pB + SMC_OOB_SMRAM_HII_OFFSET) b2 in
  CombineFullSmBios V Ma Mi D (pB + SMC_OOB_SMRAM_FULL_SMBIOS_OFFSET) m4 = Done (m5, sz) ->
  exists c, ReadyToBoot g (mkDxe (mkSmm m w0 c0) h drv rd) =
    Done (mkDxe (mkSmm (published ram pB (published ram pB m5 IMG_HII) IMG_FULL_SMBIOS) (loaded drv w2) c)
            g2 drv true).
Proof using Trigger_E8 tokens pB_range block_apart.
  intros Gp Gs Gb L1 R1 Hcfg Hsmb Hhii m1 m4 Hfull. unfold ReadyToBoot, SmcInBandReadyToBoot. rewrite Gp, Gb, Gs.
  pose proof (trigger_spec ram pB pol Trigger Trigger_E8 tokens pB_range) as T.
  unfold combine_cfg, combine_smbios, combine_hii, combine_full, Cfg, HiiData, set_smm in *.
  cbn [d_smm mm fw cm d_hii mSmcLsiRaidOOBSetupDriver d_ready].
  rewrite Hcfg, bind_Done. fold m1. rewrite bind_Done.
  edestruct (T IMG_BIOS_CFG) as (c2 & T1). cbn [img_port] in T1. rewrite T1, bind_Done. clear T1.
  cbn [d_smm mm fw cm d_hii mSmcLsiRaidOOBSetupDriver d_ready]. rewrite Hsmb, !bind_Done.
  set (s3 := load_raid _).
  assert (E3 : s3 = mkDxe (mkSmm (published ram pB m1 IMG_BIOS_CFG) (loaded drv w2) c2) h drv rd)
    by (subst s3; by destruct drv).
  rewrite E3. clearbody s3. clear E3 s3. cbn [d_smm mm fw cm d_hii mSmcLsiRaidOOBSetupDriver d_ready].
  unfold m1. rewrite (buffer_after m b1 L1 R1), Hhii, !bind_Done. fold m1.
  cbn [d_smm mm fw cm d_hii mSmcLsiRaidOOBSetupDriver d_ready]. fold m4. rewrite Hfull, !bind_Done.
  edestruct (T IMG_HII) as (c3 & T2). cbn [img_port] in T2. rewrite T2, bind_Done. clear T2.
  edestruct (T IMG_FULL_SMBIOS) as (c4 & T3). cbn [img_port] in T3. rewrite T3, bind_Done.
  cbn [d_smm mm fw cm d_hii mSmcLsiRaidOOBSetupDriver d_ready]. by exists c4.
Qed.

(** C2: (functional) ready to boot, with every component returning: the
    settings image lands in the SMRAM block with the size it reports, the HII
    image with the size its header states, the SMBIOS table behind a header
    with its length, each in its own area although the images are written and
    handed over in an interleaved order; the firmware state is the one the
    components leave, the data-ready protocol is installed, and memory outside
    the two blocks is untouched. *)
Theorem ReadyToBoot_publishes g dp (s : @dxe W S) st b1 n1 w1 w2 b2 n2 g2 p :
  mSmcOobPlatformPolicyPtr g = Some dp -> dp_smm dp = pol -> pBuffer g = Some pB ->
  let m := mm (d_smm s) in
  let drv := mSmcLsiRaidOOBSetupDriver s in
  mem_ok m -> var_bytes (fw (d_smm s)) -> guid_bytes GetNextVariableName ->
  match drv with Some d => raid_bytes (sd_driver d) | None => True end ->
  Cfg drv (buffer_rest pB SMC_OOB_SMRAM_BIOS_CFG_OFFSET m) (fw (d_smm s)) = Done (st, (b1, n1), w1) ->
  CombineSmbios SmbiosRead garbage SmbiosVersion w1 = Done w2 ->
  let w3 := loaded drv w2 in
  HiiData w3 (mread m pB SMC_OOB_SMRAM_BIOS_CFG_OFFSET ++ b1) (d_hii s) = Done (b2, n2, g2) ->
  let n2' := stated b2 + img_header IMG_HII in
  n2' <= SMC_OOB_SMRAM_HII_SIZE ->
  first_entry m p -> outside ram pB SM_START 0x10020 ->
  let n := EP_TableLength m p in let t := EP_TableAddress m p in
  outside ram pB t n ->
  exists s', ReadyToBoot g s = Done s' /\ d_ready s' = true /\ fw (d_smm s') = w3 /\
    let m' := mm (d_smm s') in
    mem_ok m' /\
    mread m' (ram + SMC_OOB_SMRAM_BIOS_CFG_OFFSET) n1 = take (Z.to_nat n1) b1 /\
    mread m' (ram + SMC_OOB_SMRAM_HII_OFFSET) n2' = take (Z.to_nat n2') b2 /\
    mr32 m' (ram + SMC_OOB_SMRAM_FULL_SMBIOS_OFFSET + 6) = n /\
    mread m' (ram + SMC_OOB_SMRAM_FULL_SMBIOS_OFFSET + 18) n = mread m t n /\
    (forall x, ~ in_block pB x -> ~ in_smram ram x -> m' x = m x).
Proof using compress_bytes compress_size Trigger_E8 tokens pB_range block_apart.
  destruct s as [[m w0 c0] h drv rd]. intros Gp Gs Gb m' drv' Hm Hv Hg Hr Hcfg Hsmb w3 Hhii n2' Hn2 Hp Hseg n t Ht.
  subst m' drv'. cbn [d_smm d_hii mSmcLsiRaidOOBSetupDriver mm fw] in *.
  assert (Hrest : area SMC_OOB_SMRAM_BIOS_CFG_SIZE (buffer_rest pB SMC_OOB_SMRAM_BIOS_CFG_OFFSET m)).
  { split; [by apply mread_bytes_ok|]. by apply zlen_mread. }
  destruct (CombineBiosCfg_size _ SMC_OOB_SMRAM_BIOS_CFG_SIZE _ _ _ _ _ _ _ _ _ _ _ _ Hcfg Hrest)
    as ([B1 L1] & Hn1 & E1); [by vm_compute|done|done|by destruct drv|].
  assert (E1' : n1 = stated b1 + img_header IMG_BIOS_CFG) by (rewrite E1; unfold stated; cbn [img_header]; lia).
  assert (N1 : 0 <= stated b1) by (unfold stated; apply le_val_bound; by apply Forall_take, Forall_drop).
  pose proof (img_layout IMG_BIOS_CFG) as [_ [Hh _]]. clear E1. subst n1.
  assert (Hb0 : area SMC_OOB_SMRAM_TOTAL_SIZE (mread m pB SMC_OOB_SMRAM_BIOS_CFG_OFFSET ++ b1)).
  { split; [apply Forall_app; split; [by apply mread_bytes_ok|done]|]. rewrite zlen_app, L1, zlen_mread; [done|by vm_compute]. }
  destruct (CombineHiiData_size _ _ _ _ _ _ _ compress_bytes compress_size _ _ _ _ _ _ Hhii Hb0) as [A2 _].
  set (m1 := mwrite m (pB + SMC_OOB_SMRAM_BIOS_CFG_OFFSET) b1).
  set (m4 := mwrite (published ram pB m1 IMG_BIOS_CFG) (pB + SMC_OOB_SMRAM_HII_OFFSET) b2).
  assert (O1 : forall x, ~ in_block pB x -> ~ in_smram ram x -> m4 x = m x).
  { intros x Hb Hs. unfold in_block, in_smram in *. destruct A2 as [_ L2].
    destruct (img_of_list pB m SMC_OOB_SMRAM_BIOS_CFG_OFFSET b1 IMG_BIOS_CFG eq_refl ltac:(lia)) as [E1 _]. fold m1 in E1.
    assert (R1 : 0 <= img_size m1 pB IMG_BIOS_CFG <= img_room IMG_BIOS_CFG)
      by (rewrite E1; change (img_room IMG_BIOS_CFG) with SMC_OOB_SMRAM_BIOS_CFG_SIZE; lia).
    change SMC_OOB_SMRAM_BIOS_CFG_SIZE with 393216 in *. change SMC_OOB_SMRAM_TOTAL_SIZE with 1048576 in *.
    unfold m4. rewrite mwrite_out by (change SMC_OOB_SMRAM_HII_OFFSET with 0; lia).
    rewrite published_out; [|done|change SMC_OOB_SMRAM_TOTAL_SIZE with 1048576; lia].
    unfold m1. apply mwrite_out. change SMC_OOB_SMRAM_BIOS_CFG_OFFSET with 655360. lia. }
  assert (M4 : mem_ok m4) by (apply mwrite_ok; [apply published_ok, mwrite_ok|apply A2]; done).
  destruct (full_step m m4 p M4 O1 Hp Hseg Ht) as (m5 & E5 & M5 & Hn & O5 & S5 & T5). fold n t in E5, Hn, O5, S5, T5.
  unfold is_u16 in Hn.
  destruct (ReadyToBoot_runs g dp m w0 c0 h drv rd st b1 _ w1 w2 b2 n2 g2 m5 (18 + n) Gp Gs Gb L1 ltac:(lia) Hcfg Hsmb Hhii E5)
    as (c & E).
  assert (Hsz : 18 <= 18 + n <= SMC_OOB_SMRAM_FULL_SMBIOS_SIZE)
    by (change SMC_OOB_SMRAM_FULL_SMBIOS_SIZE with 262144; lia).
  assert (S5' : mr32 m5 (pB + SMC_OOB_SMRAM_FULL_SMBIOS_OFFSET + 6) = 18 + n - 18) by lia.
  destruct (publish_flow ram pB block_apart m b1 b2 m5 (18 + n) Hm (conj B1 L1) A2 Hn1 Hn2 M5 Hsz O5 S5')
    as (M7 & P1 & P2 & P3 & P4).
  eexists. split; [exact E|]. cbn [d_ready d_smm fw mm]. set (m7 := published ram pB _ IMG_FULL_SMBIOS) in *.
  split_and!; [done|done|done|exact P1|exact P2| | |exact P4].
  - unfold mr32. rewrite (mread_part m7 _ (18 + n) 6 4), P3 by lia. rewrite <- (mread_part m5 _ (18 + n) 6 4) by lia.
    exact S5.
  - rewrite (mread_part m7 _ (18 + n) 18 n), P3 by lia. rewrite <- (mread_part m5 _ (18 + n) 18 n) by lia.
    exact T5.
Qed.
End ready_correct.

(** ** From the tool to the next boot *)
Section next_boot.
Context {W : Type} `{Firmware W} {S : Type} `{CmosPorts S}.
Context (P : list (list Z * list Z)) (hook : list Z -> list Z -> list Z -> W -> W) (preset : W -> W).
Context (G : list Z) (digit : Z -> Z) (dmi : list Z).
Context (ram : Z) (pol : smm_policy).
Context (ReadSaveState : smm_reg -> Z -> EFI_STATUS * Z) (AmiValidateMemoryBuffer : Z -> Z -> EFI_STATUS).
Hypothesis hook_rom : forall n g d w, rom (hook n g d w) = rom w.

(** The early callback with a marked settings file in the flash region. *)
Lemma callback_applies l version flag checksum h6 rest (w : W) :
  @regions_readable W _ -> @regions_writable W _ ->
  Forall rd_ok l -> zlen version = 2 -> zlen h6 = 6 -> 18 + zlen (enc_nvs l) < 2 ^ 32 ->
  rom w INBAND_REGION =
    BIN_sig ++ version ++ le_bytes 4 (zlen (enc_nvs l)) ++ [checksum; flag] ++ h6 ++ enc_nvs l ++ rest ->
  Z.land flag 1 <> 0 -> Z.land flag 2 = 0 -> not_uploaded (rom w CURRENT_SMBIOS_REGION) ->
  SmcInBandCallback P hook preset G digit dmi true None w =
    (w' ← foldM (apply_nv P hook None) l (without_load_default G w);
     Done (None, IoWrite8_cf9 0x0E
       (snd (SmcRomHoleWriteRegion INBAND_REGION (replicate (Z.to_nat (zlen (rom w INBAND_REGION))) 0xff) w')))).
Proof using hook_rom.
  intros Hrd Hwr Hl Hv H6 Hs R1 F1 F2 Hsmb. unfold SmcInBandCallback.
  change (sd_driver <$> @None (SetupDriver W)) with (@None (RaidDriver W)).
  rewrite (InBandUpdateBiosCfg_spec P hook preset None G l version flag checksum h6 rest w Hrd Hl Hv H6 Hs R1).
  unfold apply_image. rewrite (proj2 (Z.eqb_neq _ _) F1), F2. cbn [Z.eqb].
  rewrite !bind_assoc. pose proof (without_load_default_rom G w) as E0. revert E0.
  generalize (without_load_default G w). intros w1 E0.
  destruct (foldM (apply_nv P hook None) l w1) as [w2| |] eqn:E2; cbn [mbind Res_bind]; [|done|done].
  apply apply_nvs_rom in E2; [|done|done]. unfold finish_update.
  rewrite InBandUpdateSmbios_idle; [done|done|by rewrite reset_rom, write_region_other, E2, E0].
Qed.

(** C3: (functional) a settings file a tool downloads through E6, with bit 0
    of its flag set and bit 1 clear, is what the early callback of the next
    boot applies: the handler accepts it and reports status 0, and the
    callback then deletes a one-byte load-default variable, writes the
    file's records back in order, blanks the flash region and resets the
    system. This is about boots in which memory is to be had, every read and
    write of a flash region works, the current SMBIOS region holds no upload (it has no
    signature, or its source byte is zero, which is how ready-to-boot leaves
    it), there is no RAID driver, and the platform's hook does not write the
    flash; the file ends before the region does and its names fit the
    parser's 50 characters. *)
Theorem download_applied_at_next_boot (x : @smm W S) Cpu hdr st l version flag checksum h6 rest :
  @regions_readable W _ -> @regions_writable W _ ->
  E6_request_at ReadSaveState AmiValidateMemoryBuffer Cpu hdr st ->
  mr8 (mm x) (hdr + H_SubCommand) = 1 -> mr8 (mm x) (hdr + H_FileType) = 0 ->
  let m := mw8 (mm x) (hdr + H_ReturnStatus) 0 in
  let size := SmcRomHoleSize INBAND_REGION (fw x) in
  mread m (mr64 m (hdr + H_DataBufferAddress)) size =
    BIN_sig ++ version ++ le_bytes 4 (zlen (enc_nvs l)) ++ [checksum; flag] ++ h6 ++ enc_nvs l ++ rest ->
  Forall rd_ok l -> zlen version = 2 -> zlen h6 = 6 -> rest <> [] -> size < 2 ^ 32 ->
  Z.land flag 1 <> 0 -> Z.land flag 2 = 0 ->
  not_uploaded (rom (fw x) CURRENT_SMBIOS_REGION) ->
  exists x1,
    SmcInBandSwSmiE6Handler ram pol ReadSaveState AmiValidateMemoryBuffer Cpu x = Done (st, x1) /\
    mr8 (mm x1) (hdr + H_ReturnStatus) = 0 /\ var (fw x1) = var (fw x) /\
    SmcInBandCallback P hook preset G digit dmi true None (fw x1) =
      (w ← foldM (apply_nv P hook None) l (without_load_default G (fw x1));
       Done (None, IoWrite8_cf9 0x0E
         (snd (SmcRomHoleWriteRegion INBAND_REGION (replicate (Z.to_nat size) 0xff) w)))).
Proof using hook_rom.
  intros Hrd Hw He Hsub Hty m size Him Hl Hv H6 Hr Hs F1 F2 Hsmb.
  rewrite (E6_dispatch _ _ _ _ _ _ _ _ He), Hsub, Hty. cbn [Z.eqb Pos.eqb].
  rewrite (download_eq hdr 0 INBAND_REGION (sizeof_Cfg_Header + 1) x) by (by left). fold m. cbv zeta.
  set (src := mr64 m (hdr + H_DataBufferAddress)) in *. fold size. rewrite Him.
  set (img := BIN_sig ++ _) in *. assert (Hzi : zlen img = size).
  { rewrite <- Him. apply zlen_mread. unfold size, SmcRomHoleSize. apply zlen_nonneg. }
  assert (HL : 19 + zlen (enc_nvs l) <= size).
  { destruct rest as [|r rest]; [done|]. rewrite <- Hzi. unfold img.
    change (zlen BIN_sig) with 4. pose proof (zlen_le_bytes 4 (zlen (enc_nvs l))).
    assert (HB : zlen BIN_sig = 4) by done. clearbody img. zl. }
  pose proof (zlen_nonneg (enc_nvs l)) as Hpos.
  assert (EF : FileSize_at m src = zlen (enc_nvs l)).
  { unfold FileSize_at. rewrite <- (stated_mread m src size), Him by lia. apply stated_at; [done|done|unfold is_u32; lia]. }
  rewrite EF, u32_small by (unfold is_u32, sizeof_Cfg_Header; lia).
  replace (_ <=? size) with true by (unfold sizeof_Cfg_Header; lia).
  eexists. split; [done|]. cbn [mm fw]. split; [apply mr8_mw8|].
  set (w1 := snd (SmcRomHoleWriteRegion INBAND_REGION img (fw x))).
  assert (R1 : rom w1 INBAND_REGION = img) by (by apply write_region_same).
  assert (V1 : var w1 = var (fw x)) by apply WriteRegion_var.
  split; [exact V1|].
  rewrite (callback_applies l version flag checksum h6 rest w1), R1, Hzi; [done|..]; try done; try lia.
  unfold w1. by rewrite write_region_other.
Qed.
End next_boot.

(** ** A concrete system

    The machine of [InBandSmm]: SMRAM at 16 MB, the block at 8 MB; the
    firmware of [BiosCfg] with two variables and one of the RAID driver. *)
Definition demo_env : dxe_env :=
  mkDxeEnv true (Some (mkDxePolicy demo_pol 0x15d9086a 0x20180625 0x1234)) true true true true true (Some 0x800000).

Lemma InitSmcInBand_safe_witness :
  exists st g m' w', InitSmcInBand BiosCfg.demo_G demo_env (replicate 10 0xcc) (fun _ => 7) demo_store =
    Done (st, g, m', w') /\ st = EFI_SUCCESS /\
    exists a, var w' BoardInfoVar BiosCfg.demo_G =
      Some (a, [0x6a; 0x08; 0xd9; 0x15; 0x25; 0x06; 0x18; 0x20; 0x34; 0x12]).
Proof.
  destruct (InitSmcInBand_safe BiosCfg.demo_G demo_env (replicate 10 0xcc) (fun _ => 7) demo_store)
    as (st & g & m' & w' & E & _ & Hs & _ & _ & Hok).
  - apply SimpleFw_vars.
  - reflexivity.
  - by eexists.
  - intros a d. vm_compute. discriminate.
  - exists st, g, m', w'. split; [exact E|].
    assert (st = EFI_SUCCESS) as Est by (apply Hs; split_and!; try done; by eexists).
    split; [exact Est|]. destruct (Hok Est) as (pol & p & Ep & _ & [a Ha] & _).
    exists a. rewrite Ha. injection Ep as <-. reflexivity.
Defined.

Definition demo_Trigger (v port : Z) (x : @smm SimpleFw RTC) : Res (@smm SimpleFw RTC) :=
  '(_, x) ← SmcInBandSwSmiE8Handler demo_ram demo_pol port x; Done x.

Definition demo_setup : SetupDriver SimpleFw :=
  mkSetup _ demo_raid (fun w => (EFI_SUCCESS, w)) (fun w => (EFI_SUCCESS, w)) (fun w => (EFI_SUCCESS, w)).

Definition demo_globals : dxe_globals :=
  mkDxeGlobals true (env_policy demo_env) true true [SmcInBandCallback_event; SmcInBandReadyToBoot_event]
    (Some 0x800000).

(** The settings of the concrete system and the image they give. *)
Definition demo_payload : list Z :=
  enc_nvs (BiosCfg.image demo_store [(demo_name1, BiosCfg.demo_G); (demo_name2, BiosCfg.demo_G)] ++ [mkNv [0x52] BiosCfg.demo_G [5]]).
Definition demo_settings : list Z :=
  let h := cfg_header 0x200 demo_payload ++ demo_payload in h ++ [sum8 h].

Definition demo_dxe : @dxe SimpleFw RTC := mkDxe (mkSmm FullSm.demo_mem demo_store demo_rtc) HiiImage.demo_g (Some demo_setup) false.

Lemma demo_block_apart : apart 0x800000 SMC_OOB_SMRAM_TOTAL_SIZE demo_ram SMC_OOB_SMRAM_TOTAL_SIZE.
Proof. left. by vm_compute. Qed.

Lemma demo_bytes : bytes_ok (replicate 11 3 ++ replicate 5 0 ++ []).
Proof. by apply demo_bytes_ok. Qed.

Lemma demo_var_bytes : var_bytes demo_store.
Proof.
  intros n g a d. cbn -[lookup]. intros [[_ E]|[_ [[_ E]|[_ E]]%lookup_insert_Some]]%lookup_insert_Some.
  - injection E as <- <-. by apply demo_bytes_ok.
  - injection E as <- <-. by apply demo_bytes_ok.
  - done.
Qed.

Lemma demo_guid_bytes : guid_bytes demo_next.
Proof.
  intros w size cur st ng. unfold demo_next. repeat destruct (decide _); intros [= <- <-]; try done;
    intros _; by apply demo_bytes_ok.
Qed.

Lemma demo_raid_bytes : raid_bytes demo_raid.
Proof.
  intros w v w'. cbn. destruct (fw_resets w); [|done]. intros [= <- <-]. by split; apply demo_bytes_ok.
Qed.

Lemma demo_mem_bytes : mem_ok FullSm.demo_mem.
Proof. apply mwrite_ok; [apply mwrite_ok; [done|]|]; by apply demo_bytes_ok. Qed.

Lemma demo_16 : is_u32 16.
Proof. split; [discriminate|reflexivity]. Qed.
Lemma demo_11 : 0 <= 11 < 2 ^ 31.
Proof. split; [discriminate|reflexivity]. Qed.
Lemma demo_range : is_u32 0x800000.
Proof. split; [discriminate|reflexivity]. Qed.

Lemma demo_tokens : address_tokens demo_pol.
Proof. unfold address_tokens, whole_cells, byte_token, tokens_apart. split_and!; reflexivity. Qed.

Lemma demo_smbios :
  CombineSmbios (fun _ _ => None) 0 0x100 (mkFw (fw_vars demo_store) ∅ [0]) = Done (mkFw (fw_vars demo_store) ∅ [0]).
Proof. vm_compute. reflexivity. Qed.

Lemma demo_entry : first_entry FullSm.demo_mem (SM_START + 16).
Proof.
  split; [split; discriminate|split; [reflexivity|split; [vm_compute; reflexivity|]]].
  intros x Hx Hm. assert (x = SM_START) as ->.
  { rewrite Z.mod_small in Hm by lia. lia. }
  vm_compute. discriminate.
Qed.

Lemma ReadyToBoot_publishes_witness :
  exists s', ReadyToBoot demo_next 0x200 9 [] BiosCfg.demo_G [] (fun _ _ => None) 0 0x100 demo_get None 1 7
      (fun _ => db_of Hii.demo_lists [0x41]) (fun _ _ _ => Done (replicate 16 5))
      (fun _ => (replicate 11 3 ++ replicate 5 0 ++ [], 11)) 0x100 2 8 0 demo_Trigger demo_globals demo_dxe = Done s' /\
    d_ready s' = true /\
    mread (mm (d_smm s')) (demo_ram + SMC_OOB_SMRAM_BIOS_CFG_OFFSET) (19 + zlen demo_payload) = demo_settings /\
    mread (mm (d_smm s')) (demo_ram + SMC_OOB_SMRAM_FULL_SMBIOS_OFFSET + 18) 3 = [1; 2; 250].
Proof.
  set (b := buffer_rest 0x800000 SMC_OOB_SMRAM_BIOS_CFG_OFFSET FullSm.demo_mem).
  assert (Hb : zlen b = SMC_OOB_SMRAM_BIOS_CFG_SIZE) by (apply zlen_mread; by vm_compute).
  destruct (CombineBiosCfg_spec demo_next demo_store [(demo_name1, BiosCfg.demo_G); (demo_name2, BiosCfg.demo_G)]
    (Some demo_raid) [mkNv [0x52] BiosCfg.demo_G [5]] (mkFw (fw_vars demo_store) ∅ [0])
    [] BiosCfg.demo_G [] 0x200 9 b EFI_NOT_FOUND) as (st & rest & E1 & _ & L1).
  - split; [reflexivity|split; [reflexivity|split; discriminate]].
  - repeat constructor.
  - cbn. lia.
  - eexists. split; reflexivity.
  - repeat constructor.
  - cbn. lia.
  - reflexivity.
  - rewrite Hb. by vm_compute.
  - set (b1 := cfg_header 0x200 _ ++ _) in E1, L1. rewrite Hb in L1.
    set (out := mread FullSm.demo_mem 0x800000 SMC_OOB_SMRAM_BIOS_CFG_OFFSET ++ b1).
    assert (Ho : zlen out = SMC_OOB_SMRAM_BIOS_CFG_OFFSET + SMC_OOB_SMRAM_BIOS_CFG_SIZE).
    { unfold out. rewrite zlen_app, L1, zlen_mread by (by vm_compute). reflexivity. }
    destruct (CombineHiiData_spec demo_get None 1 7 (db_of Hii.demo_lists [0x41]) (fun _ _ _ => Done (replicate 16 5))
      (fun _ => (replicate 11 3 ++ replicate 5 0 ++ [], 11)) out HiiImage.demo_g
      [] 0 0 GuidHandleMap0 (mkStatics (Some [0x41; 0]) true) (replicate 16 5) 11
      (replicate 11 3) (replicate 5 0) []) as (bf & c & flags & tail & E2 & _).
    + reflexivity.
    + reflexivity.
    + by vm_compute.
    + reflexivity.
    + reflexivity.
    + reflexivity.
    + apply Forall_replicate. split; [discriminate|reflexivity].
    + reflexivity.
    + reflexivity.
    + rewrite Ho. by vm_compute.
    + assert (EN : 11 + zlen (padding 11) = 16) by reflexivity. rewrite EN in E2. clear EN.
      pose proof (stated_at HII_sig (le_bytes 2 7) 16 ([sum8 c] ++ flags ++ c ++ tail) eq_refl eq_refl
        demo_16) as Hn2.
      set (b2 := HII_sig ++ _) in E2, Hn2.
      destruct (ReadyToBoot_publishes demo_next 0x200 9 [] BiosCfg.demo_G [] (fun _ _ => None) 0 0x100 demo_get None 1 7
        (fun _ => db_of Hii.demo_lists [0x41]) (fun _ _ _ => Done (replicate 16 5))
        (fun _ => (replicate 11 3 ++ replicate 5 0 ++ [], 11)) 0x100 2 8 0 demo_ram 0x800000 demo_pol demo_Trigger
        (fun _ => demo_bytes) (fun _ => demo_11) (fun _ _ => eq_refl)
        demo_tokens demo_range demo_block_apart
        demo_globals _ demo_dxe st b1 _ _ _ b2 _ _ (SM_START + 16) eq_refl eq_refl eq_refl
        demo_mem_bytes demo_var_bytes demo_guid_bytes demo_raid_bytes E1 demo_smbios E2
        ltac:(rewrite Hn2; by vm_compute) demo_entry ltac:(split; left; by vm_compute) ltac:(split; left; by vm_compute))
        as (s' & E & Hr & _ & _ & H1 & _ & _ & H2 & _).
      exists s'. split; [exact E|]. split; [exact Hr|]. split.
      * fold demo_payload in H1. etransitivity; [exact H1|]. unfold b1. fold demo_payload.
        rewrite (app_assoc (cfg_header 0x200 demo_payload)), (app_assoc (_ ++ _)).
        change ((cfg_header 0x200 demo_payload ++ demo_payload) ++ _) with demo_settings.
        by apply take_app_zlen.
      * assert (EL : EP_TableLength FullSm.demo_mem (SM_START + 16) = 3) by (vm_compute; reflexivity).
        assert (EA : EP_TableAddress FullSm.demo_mem (SM_START + 16) = 0x2000) by (vm_compute; reflexivity).
        cbn [demo_dxe d_smm mm] in H2. rewrite EL, EA in H2. etransitivity; [exact H2|]. vm_compute. reflexivity.
Defined.

(** A file with new values for both variables, of which the platform lets the
    tool change the first. *)
Definition demo_file : list Z :=
  BIN_sig ++ [0; 2] ++ le_bytes 4 (zlen (enc_nvs demo_vars)) ++ [0; 1] ++ [0; 0; 0; 0; 0; 0] ++
  enc_nvs demo_vars ++ [0xff].

Definition demo_tool : @smm SimpleFw RTC :=
  mkSmm (mwrite (mwrite zero_mem 0x2000 demo_file) 0x1000 (demo_request 1 0 0x2000))
    (mkFw (fw_vars demo_store)
      (<[INBAND_REGION := replicate (length demo_file) 0xff]> {[CURRENT_SMBIOS_REGION := replicate 8 0xff]}) [])
    demo_rtc.

Lemma download_applied_at_next_boot_witness :
  exists x1,
    SmcInBandSwSmiE6Handler demo_ram demo_pol demo_save demo_validate 0 demo_tool = Done (EFI_SUCCESS, x1) /\
    exists w, SmcInBandCallback [(demo_name1, BiosCfg.demo_G)] (fun _ _ _ w => w) (fun w => w) BiosCfg.demo_G
        hexdigit demo_guid true None (fw x1) = Done (None, w) /\
      var w demo_name1 BiosCfg.demo_G = Some (3, [4; 5; 6]) /\ var w demo_name2 BiosCfg.demo_G = Some (3, [9]).
Proof.
  destruct (download_applied_at_next_boot [(demo_name1, BiosCfg.demo_G)] (fun _ _ _ w => w) (fun w => w)
    BiosCfg.demo_G hexdigit demo_guid demo_ram demo_pol demo_save demo_validate (fun _ _ _ _ => eq_refl)
    demo_tool 0 0x1000 EFI_SUCCESS demo_vars [0; 2] 1 0 [0; 0; 0; 0; 0; 0] [0xff]) as (x1 & E & _ & _ & Hc).
  - apply SimpleFw_reads.
  - apply SimpleFw_regions.
  - apply demo_E6.
  - reflexivity.
  - reflexivity.
  - vm_compute. reflexivity.
  - apply demo_vars_ok.
  - reflexivity.
  - reflexivity.
  - discriminate.
  - by vm_compute.
  - discriminate.
  - reflexivity.
  - left. split; [by vm_compute|discriminate].
  - exists x1. split; [exact E|]. rewrite Hc. clear Hc.
    pose proof (f_equal (fun r => match r with Done (_, x) => fw x | _ => fw demo_tool end) E) as Ef.
    cbn beta iota in Ef. clear E. revert Ef. generalize (fw x1). intros f Ef. eexists. split.
    + vm_compute in Ef. rewrite <- Ef. vm_compute. reflexivity.
    + split; reflexivity.
Defined.
