(* ===== verification/RaidSetup.v ===== *)
(** * The LSI RAID setup driver

    [SmcLsiRaidOOB/SmcLsiRaidOOBSetup.c] with the tables of
    [SmcLsiRaidOOBSetting.c] and the HII helpers of [SmcLsiRaidOOBLib.c] it
    calls: the search for the form sets of RAID cards, the list of cards, the
    identifier counters and the driver protocol other drivers call.

    The cards are pool nodes linked by [pNext]; a static of
    [AddSmcLsiHiiHandle] keeps the address of the last one. The allocator hands
    out the addresses of [avail], 0 being a failure; the entries
    [LoopToInitialTables] allocates per card are lists of their headers (their
    bodies are zero) and their allocations succeed. The library
    ([SmcLsiRaidLib_*]), [LoadResources] and [InstallProtocolInterface] are
    parameters; what the library keeps in the cards, in the protocol and in the
    rest of the machine is its state [W], and it takes identifiers through the
    counters. *)

From Stdlib Require Import Ascii String.
From S2P Require Import Prelude Chain Ifr Packages Hii RaidCmd BiosCfg.

(** ** Tables *)
Inductive SMC_LSI_RAID_TYPE := RAID_3108 | RAID_9260 | RAID_2208 | RAID_RSTE | RAID_NULL.
Inductive SMC_RAID_ITEMS_TYPE :=
  RAID_INFORMATION_TYPE | RAID_CHANGEABLE_TYPE | RAID_HDG_TYPE | RAID_RDG_TYPE | RAID_JBOD_TYPE.

#[export] Instance SMC_LSI_RAID_TYPE_eq : EqDecision SMC_LSI_RAID_TYPE.
Proof. solve_decision. Defined.

Record SMC_LSI_RAID_NANE := mkName { LsiRaidTypeIndex : SMC_LSI_RAID_TYPE; FormRaidName : list Z }.

Definition RaidName : list SMC_LSI_RAID_NANE := [
  mkName RAID_3108 (lit "AVAGO MegaRAID <AVAGO 3108 MegaRAID>");
  mkName RAID_2208 (lit "AVAGO MegaRAID <LSI 2208 MegaRAID>");
  mkName RAID_RSTE (lit "Intel RSTe SATA Controller");
  mkName RAID_NULL [] ].

(** The headers of the three tables; the type comes first in each. *)
Class TableHeader (H : Type) := header_type : H -> SMC_LSI_RAID_TYPE.

Record SMC_LSI_RAID_FORM_HEADER := mkFormHeader {
  f_type : SMC_LSI_RAID_TYPE; Lsi_FormName : list Z; Lsi_OpCode : Z }.
Record SMC_RAID_ITEMS_HEADER := mkItemsHeader {
  i_type : SMC_LSI_RAID_TYPE; LsiItemForm : list Z; LsiItemName : list Z; LsiItemId : Z;
  RaidItemsType : SMC_RAID_ITEMS_TYPE }.
Record SMC_RAID_CHRECORD_HEADER := mkChRecordHeader {
  c_type : SMC_LSI_RAID_TYPE; ChRFrom : list Z; ChRTarget : list Z }.

#[export] Instance form_header : TableHeader SMC_LSI_RAID_FORM_HEADER := f_type.
#[export] Instance items_header : TableHeader SMC_RAID_ITEMS_HEADER := i_type.
#[export] Instance chrecord_header : TableHeader SMC_RAID_CHRECORD_HEADER := c_type.

Definition HARD_DRIVES_GROUP : list Z := lit "HARD DRIVES GROUP".
Definition RAID_DRIVES_GROUP : list Z := lit "RAID DRIVES GROUP".
Definition JBOD_DRIVES_GROUP : list Z := lit "JBOD DRIVES GROUP".

Definition mSmcLsiRaidFormRefSearchTable : list SMC_LSI_RAID_FORM_HEADER := [
  mkFormHeader RAID_3108 (lit "Main Menu") EFI_IFR_REF_OP;
  mkFormHeader RAID_3108 (lit "Configuration Management") EFI_IFR_REF_OP;
  mkFormHeader RAID_3108 (lit "Create Virtual Drive") EFI_IFR_REF_OP;
  mkFormHeader RAID_3108 (lit "Select Drives") EFI_IFR_REF_OP;
  mkFormHeader RAID_3108 (lit "Make JBOD") EFI_IFR_REF_OP;
  mkFormHeader RAID_3108 (lit "Make Unconfigured Good") EFI_IFR_REF_OP;
  mkFormHeader RAID_3108 (lit "Controller Management") EFI_IFR_REF_OP;
  mkFormHeader RAID_3108 (lit "Advanced Controller Properties") EFI_IFR_REF_OP;
  mkFormHeader RAID_3108 (lit "Virtual Drive Management") EFI_IFR_REF_OP;
  mkFormHeader RAID_3108 (lit "Drive Management") EFI_IFR_REF_OP;
  mkFormHeader RAID_2208 (lit "Main Menu") EFI_IFR_REF_OP;
  mkFormHeader RAID_2208 (lit "Configuration Management") EFI_IFR_REF_OP;
  mkFormHeader RAID_2208 (lit "Create Virtual Drive") EFI_IFR_REF_OP;
  mkFormHeader RAID_2208 (lit "Select Drives") EFI_IFR_REF_OP;
  mkFormHeader RAID_2208 (lit "Make JBOD") EFI_IFR_REF_OP;
  mkFormHeader RAID_2208 (lit "Make Unconfigured Good") EFI_IFR_REF_OP;
  mkFormHeader RAID_2208 (lit "Controller Management") EFI_IFR_REF_OP;
  mkFormHeader RAID_2208 (lit "Advanced Controller Properties") EFI_IFR_REF_OP;
  mkFormHeader RAID_2208 (lit "Virtual Drive Management") EFI_IFR_REF_OP;
  mkFormHeader RAID_2208 (lit "Drive Management") EFI_IFR_REF_OP;
  mkFormHeader RAID_RSTE (lit "Create RAID Volume") EFI_IFR_REF_OP;
  mkFormHeader RAID_NULL (lit "SMC_LSI_RAID_END") 0xFF ].

Definition mSmcLsiItemsTable : list SMC_RAID_ITEMS_HEADER := [
  mkItemsHeader RAID_3108 (lit "Dashboard View") (lit "Status") 0xFFFF RAID_INFORMATION_TYPE;
  mkItemsHeader RAID_3108 (lit "Controller Management") (lit "Product Name") 0xFFFF RAID_INFORMATION_TYPE;
  mkItemsHeader RAID_3108 (lit "Controller Management") (lit "Serial Number") 0xFFFF RAID_INFORMATION_TYPE;
  mkItemsHeader RAID_3108 (lit "Controller Management") (lit "Controller Status") 0xFFFF RAID_INFORMATION_TYPE;
  mkItemsHeader RAID_3108 (lit "Controller Management") (lit "PCI ID") 0xFFFF RAID_INFORMATION_TYPE;
  mkItemsHeader RAID_3108 (lit "Controller Management") (lit "PCI Slot Number") 0xFFFF RAID_INFORMATION_TYPE;
  mkItemsHeader RAID_3108 (lit "Controller Management") (lit "Package Version") 0xFFFF RAID_INFORMATION_TYPE;
  mkItemsHeader RAID_3108 (lit "Controller Management") (lit "Firmware Version") 0xFFFF RAID_INFORMATION_TYPE;
  mkItemsHeader RAID_3108 (lit "Controller Management") (lit "Connector Count") 0xFFFF RAID_INFORMATION_TYPE;
  mkItemsHeader RAID_3108 (lit "Controller Management") (lit "Drive Count") 0xFFFF RAID_INFORMATION_TYPE;
  mkItemsHeader RAID_3108 (lit "Controller Management") (lit "Virtual Drive Count") 0xFFFF RAID_INFORMATION_TYPE;
  mkItemsHeader RAID_3108 (lit "Dashboard View") (lit "MegaRAID RAID6") 0xFFFF RAID_INFORMATION_TYPE;
  mkItemsHeader RAID_3108 (lit "Dashboard View") (lit "MegaRAID RAID5") 0xFFFF RAID_INFORMATION_TYPE;
  mkItemsHeader RAID_3108 (lit "Select Drives") HARD_DRIVES_GROUP 0xA700 RAID_HDG_TYPE;
  mkItemsHeader RAID_3108 (lit "Virtual Drive Management") RAID_DRIVES_GROUP 0xA000 RAID_RDG_TYPE;
  mkItemsHeader RAID_3108 (lit "Make Unconfigured Good") JBOD_DRIVES_GROUP 0xAB00 RAID_JBOD_TYPE;
  mkItemsHeader RAID_3108 (lit "Advanced Controller Properties") (lit "Boot Mode") 0xFFFF RAID_CHANGEABLE_TYPE;
  mkItemsHeader RAID_3108 (lit "Advanced Controller Properties") (lit "JBOD Mode") 0xFFFF RAID_CHANGEABLE_TYPE;
  mkItemsHeader RAID_3108 (lit "Advanced Controller Properties") (lit "Write Verify") 0xFFFF RAID_CHANGEABLE_TYPE;
  mkItemsHeader RAID_3108 (lit "Advanced Controller Properties") (lit "Large IO Support") 0xFFFF RAID_CHANGEABLE_TYPE;
  mkItemsHeader RAID_2208 (lit "Dashboard View") (lit "Status") 0xFFFF RAID_INFORMATION_TYPE;
  mkItemsHeader RAID_2208 (lit "Controller Management") (lit "Product Name") 0xFFFF RAID_INFORMATION_TYPE;
  mkItemsHeader RAID_2208 (lit "Controller Management") (lit "Serial Number") 0xFFFF RAID_INFORMATION_TYPE;
  mkItemsHeader RAID_2208 (lit "Controller Management") (lit "Controller Status") 0xFFFF RAID_INFORMATION_TYPE;
  mkItemsHeader RAID_2208 (lit "Controller Management") (lit "PCI ID") 0xFFFF RAID_INFORMATION_TYPE;
  mkItemsHeader RAID_2208 (lit "Controller Management") (lit "PCI Slot Number") 0xFFFF RAID_INFORMATION_TYPE;
  mkItemsHeader RAID_2208 (lit "Controller Management") (lit "Package Version") 0xFFFF RAID_INFORMATION_TYPE;
  mkItemsHeader RAID_2208 (lit "Controller Management") (lit "Firmware Version") 0xFFFF RAID_INFORMATION_TYPE;
  mkItemsHeader RAID_2208 (lit "Controller Management") (lit "Connector Count") 0xFFFF RAID_INFORMATION_TYPE;
  mkItemsHeader RAID_2208 (lit "Controller Management") (lit "Drive Count") 0xFFFF RAID_INFORMATION_TYPE;
  mkItemsHeader RAID_2208 (lit "Controller Management") (lit "Virtual Drive Count") 0xFFFF RAID_INFORMATION_TYPE;
  mkItemsHeader RAID_2208 (lit "Dashboard View") (lit "MegaRAID RAID6") 0xFFFF RAID_INFORMATION_TYPE;
  mkItemsHeader RAID_2208 (lit "Dashboard View") (lit "MegaRAID RAID5") 0xFFFF RAID_INFORMATION_TYPE;
  mkItemsHeader RAID_2208 (lit "Select Drives") HARD_DRIVES_GROUP 0xA700 RAID_HDG_TYPE;
  mkItemsHeader RAID_2208 (lit "Virtual Drive Management") RAID_DRIVES_GROUP 0xA000 RAID_RDG_TYPE;
  mkItemsHeader RAID_2208 (lit "Make Unconfigured Good") JBOD_DRIVES_GROUP 0xAB00 RAID_JBOD_TYPE;
  mkItemsHeader RAID_2208 (lit "Advanced Controller Properties") (lit "Boot Mode") 0xFFFF RAID_CHANGEABLE_TYPE;
  mkItemsHeader RAID_2208 (lit "Advanced Controller Properties") (lit "JBOD Mode") 0xFFFF RAID_CHANGEABLE_TYPE;
  mkItemsHeader RAID_2208 (lit "Advanced Controller Properties") (lit "Write Verify") 0xFFFF RAID_CHANGEABLE_TYPE;
  mkItemsHeader RAID_2208 (lit "Advanced Controller Properties") (lit "Large IO Support") 0xFFFF RAID_CHANGEABLE_TYPE;
  mkItemsHeader RAID_RSTE (lit "Intel(R) RSTe") HARD_DRIVES_GROUP 0xFFFF RAID_HDG_TYPE;
  mkItemsHeader RAID_NULL [] [] 0 RAID_INFORMATION_TYPE ].

Definition mSmcLsiChRecordsTable : list SMC_RAID_CHRECORD_HEADER := [
  mkChRecordHeader RAID_3108 (lit "Advanced Controller Properties") (lit "Apply Changes");
  mkChRecordHeader RAID_2208 (lit "Advanced Controller Properties") (lit "Apply Changes");
  mkChRecordHeader RAID_NULL [] [] ].

(** ** The list of cards *)
Record SMC_LSI_HII_HANDLE := mkCard {
  RaidCardType : SMC_LSI_RAID_TYPE;
  RaidCardIndex : Z;
  RaidCardHiiHandle : Z;
  RaidCardAccessForms : list SMC_LSI_RAID_FORM_HEADER;
  RaidCardInfItems : list SMC_RAID_ITEMS_HEADER;
  RaidCardChRecordTable : list SMC_RAID_CHRECORD_HEADER;
  pNext : Z }.

Definition set_pNext (p : Z) (n : SMC_LSI_HII_HANDLE) : SMC_LSI_HII_HANDLE :=
  mkCard (RaidCardType n) (RaidCardIndex n) (RaidCardHiiHandle n) (RaidCardAccessForms n)
    (RaidCardInfItems n) (RaidCardChRecordTable n) p.

(** The nodes, the global and the statics. [StringTemp]: the buffer of
    [GetHiiString] is there. *)
Record Cards := mkCards {
  nodes : gmap Z SMC_LSI_HII_HANDLE;
  mSmcLsiHiiHandleTable : Z;
  pLocal : Z;
  Raid3108Index : Z; Raid9260Index : Z; Raid2208Index : Z;
  StringTemp : bool;
  avail : list Z }.

Definition set_avail (a : list Z) (c : Cards) : Cards :=
  mkCards (nodes c) (mSmcLsiHiiHandleTable c) (pLocal c)
    (Raid3108Index c) (Raid9260Index c) (Raid2208Index c) (StringTemp c) a.
Definition set_StringTemp (c : Cards) : Cards :=
  mkCards (nodes c) (mSmcLsiHiiHandleTable c) (pLocal c)
    (Raid3108Index c) (Raid9260Index c) (Raid2208Index c) true (avail c).
Definition set_indexes (a b d : Z) (c : Cards) : Cards :=
  mkCards (nodes c) (mSmcLsiHiiHandleTable c) (pLocal c) a b d (StringTemp c) (avail c).
Definition set_list (h : gmap Z SMC_LSI_HII_HANDLE) (t l : Z) (c : Cards) : Cards :=
  mkCards h t l (Raid3108Index c) (Raid9260Index c) (Raid2208Index c) (StringTemp c) (avail c).

Definition AllocatePool (c : Cards) : Z * Cards :=
  match avail c with [] => (0, c) | a :: r => (a, set_avail r c) end.

(** 8-bit counters, one for each type but RSTe. *)
Definition GetRaidIndex (RaidType : SMC_LSI_RAID_TYPE) (c : Cards) : Z * Cards :=
  let '(a, b, d) := (Raid3108Index c, Raid9260Index c, Raid2208Index c) in
  match RaidType with
  | RAID_3108 => (a, set_indexes (u8 (a + 1)) b d c)
  | RAID_9260 => (b, set_indexes a (u8 (b + 1)) d c)
  | RAID_2208 => (d, set_indexes a b (u8 (d + 1)) c)
  | _ => (0, c)
  end.

(** The table from entry [Index] on, and the entries copied so far; a table
    without its last entry is read past its end. *)
Fixpoint LoopToInitialTables {H} `{TableHeader H} (Table : list H) (RaidCardType : SMC_LSI_RAID_TYPE)
    (copied : list H) : Res (EFI_STATUS * list H) :=
  match Table with
  | [] => Fault
  | h :: Table =>
      if decide (header_type h = RAID_NULL) then Done (EFI_NO_MEDIA, copied)
      else LoopToInitialTables Table RaidCardType
             (if decide (RaidCardType = header_type h) then copied ++ [h] else copied)
  end.

Definition LoopToInitialChRecrodsTable (t : SMC_LSI_RAID_TYPE) := LoopToInitialTables mSmcLsiChRecordsTable t [].
Definition LoopToInitialFormRefSearchTable (t : SMC_LSI_RAID_TYPE) :=
  LoopToInitialTables mSmcLsiRaidFormRefSearchTable t [].
Definition LoopToInitialItemsTable (t : SMC_LSI_RAID_TYPE) := LoopToInitialTables mSmcLsiItemsTable t [].

(** The memory is cleared whether or not there is any. *)
Definition AddSmcLsiHiiHandle (RaidType : SMC_LSI_RAID_TYPE) (RaidHiiHandle : Z) (c : Cards) : Res Cards :=
  let '(pTemp, c) := AllocatePool c in
  if pTemp =? 0 then Fault else
  let '(Index, c) := GetRaidIndex RaidType c in
  '(_, records) ← LoopToInitialChRecrodsTable RaidType;
  '(_, forms) ← LoopToInitialFormRefSearchTable RaidType;
  '(_, items) ← LoopToInitialItemsTable RaidType;
  let h := <[pTemp := mkCard RaidType Index RaidHiiHandle forms items records 0]> (nodes c) in
  if pLocal c =? 0 then Done (set_list h pTemp pTemp c)
  else
    n ← deref h (pLocal c);
    Done (set_list (<[pLocal c := set_pNext pTemp n]> h) (mSmcLsiHiiHandleTable c) pTemp c).

(** ** The search for form sets *)
Section search.
Context (db : hii_db) (GetString : Z -> Z -> EFI_STATUS * list Z).

(** Its buffer is as large as the answer of the first query, and one slot that
    stays NULL. *)
Definition GetListPackageListsHandle (c : Cards) : EFI_STATUS * list Z * Cards :=
  match db_handles db with
  | [] => (EFI_LOAD_ERROR, [], c)
  | hs =>
      let '(p, c) := AllocatePool c in
      if p =? 0 then (EFI_LOAD_ERROR, [], c) else (EFI_SUCCESS, hs ++ [0], c)
  end.

(** The list is exported with the size of the first query, whatever the size
    of the buffer. *)
Definition GetHiiPackageList (TargetHiiHandle : Z) (c : Cards) : Res (option (list Z) * Cards) :=
  if TargetHiiHandle =? 0 then Done (None, c) else
  let '(p, c) := AllocatePool c in
  if p =? 0 then Done (None, c) else
  let '(Status, data) := db_export db TargetHiiHandle in
  if EFI_ERROR Status then Done (None, c) else
  if MAX_HPK_LIST_SIZE <? zlen data then Fault else
  Done (Some (data ++ replicate (Z.to_nat (MAX_HPK_LIST_SIZE - zlen data)) 0), c).

(** [StringSize]: 512 bytes for the characters and the terminator. *)
Definition GetHiiString (PackageList StringId : Z) (c : Cards) : option (list Z) * Cards :=
  let '(ready, c) :=
    if StringTemp c then (true, c)
    else let '(p, c) := AllocatePool c in if p =? 0 then (false, c) else (true, set_StringTemp c) in
  if negb ready then (None, c) else
  let '(Status, s) := GetString PackageList StringId in
  if EFI_ERROR Status || (512 <? 2 * (zlen s + 1)) then (None, c) else (Some s, c).

(** [MemCmp] with a name of the table: a prefix of the title. *)
Fixpoint match_names (names : list SMC_LSI_RAID_NANE) (TempS : option (list Z)) (h : Z)
    (s : bool * Cards) : Res (bool * Cards) :=
  match names with
  | [] => Fault
  | n :: names =>
      if decide (LsiRaidTypeIndex n = RAID_NULL) then Done s else
      title ← match TempS with Some t => Done t | None => Fault end;
      s ← (if starts title (FormRaidName n)
           then c ← AddSmcLsiHiiHandle (LsiRaidTypeIndex n) h s.2; Done (true, c)
           else Done s);
      match_names names TempS h s
  end.

Definition visit_package (h : Z) (b : list Z) (p : Z) (s : bool * Cards) : Res (bool * Cards) :=
  ty ← pkg_type b p;
  if ty =? EFI_HII_PACKAGE_FORMS then
    code ← op_code b (p + PKG_HEADER);
    if code =? EFI_IFR_FORM_SET_OP then
      t ← FORM_SET_FormSetTitle b (p + PKG_HEADER);
      let '(TempS, c) := GetHiiString h t s.2 in
      match_names RaidName TempS h (s.1, c)
    else Done s
  else Done s.

(** The bound of the index is that of the NULL slot. *)
Fixpoint scan_handles (HiiHandleBuffer : list Z) (s : bool * Cards) : Res (bool * Cards) :=
  match HiiHandleBuffer with
  | [] => Fault
  | h :: rest =>
      if h =? 0 then Done s else
      '(list, c) ← GetHiiPackageList h s.2;
      match list with
      | None => Done (s.1, c)
      | Some b =>
          len ← pkg_list_length b 0;
          s ← for_each pkg_length b len (visit_package h b) PKG_LIST_HEADER (s.1, c);
          scan_handles rest s
      end
  end.

Definition SearchForLsiFormSetByHiiOrder (c : Cards) : Res (bool * Cards) :=
  let '(PackStatus, HiiHandleBuffer, c) := GetListPackageListsHandle c in
  if EFI_ERROR PackStatus then Done (false, c) else scan_handles HiiHandleBuffer (false, c).
End search.

(** ** The driver *)
Inductive SMC_RAID_SETUP_DRIVER_PROCESS := DRIVER_INITIAL | DRIVER_INSTALL | DRIVER_DOWNLOAD | DRIVER_NON.

Definition process_value (p : SMC_RAID_SETUP_DRIVER_PROCESS) : Z :=
  match p with DRIVER_INITIAL => 0 | DRIVER_INSTALL => 1 | DRIVER_DOWNLOAD => 2 | DRIVER_NON => 0xFF end.

#[export] Instance PROCESS_eq : EqDecision SMC_RAID_SETUP_DRIVER_PROCESS.
Proof. solve_decision. Defined.

(** The four counters. *)
Record Ids := mkIds { QIdStart : Z; FormIdStart : Z; VarIdStart : Z; OtherLabelStart : Z }.

(** The private data without the pointers to the functions; [table] is
    [SmcLsiHiiHandleTable] of the protocol. *)
Record SMC_LSI_RAID_OOB_SETUP_PRIVATE := mkPrivate {
  HIIHandle : Z;
  FormSetGuid : list Z; FormSetNameID : Z; FormID : Z;
  FormGoToLabel : Z; FormLabel : Z; VarGuid : list Z;
  ids : Ids;
  Process : SMC_RAID_SETUP_DRIVER_PROCESS;
  HaveRaidResource : bool;
  table : Z }.

Definition set_ids (i : Ids) (p : SMC_LSI_RAID_OOB_SETUP_PRIVATE) : SMC_LSI_RAID_OOB_SETUP_PRIVATE :=
  mkPrivate (HIIHandle p) (FormSetGuid p) (FormSetNameID p) (FormID p) (FormGoToLabel p) (FormLabel p)
    (VarGuid p) i (Process p) (HaveRaidResource p) (table p).
Definition set_HIIHandle (h : Z) (p : SMC_LSI_RAID_OOB_SETUP_PRIVATE) : SMC_LSI_RAID_OOB_SETUP_PRIVATE :=
  mkPrivate h (FormSetGuid p) (FormSetNameID p) (FormID p) (FormGoToLabel p) (FormLabel p)
    (VarGuid p) (ids p) (Process p) (HaveRaidResource p) (table p).
Definition set_Process (s : SMC_RAID_SETUP_DRIVER_PROCESS) (p : SMC_LSI_RAID_OOB_SETUP_PRIVATE)
    : SMC_LSI_RAID_OOB_SETUP_PRIVATE :=
  mkPrivate (HIIHandle p) (FormSetGuid p) (FormSetNameID p) (FormID p) (FormGoToLabel p) (FormLabel p)
    (VarGuid p) (ids p) s (HaveRaidResource p) (table p).

(** The functions of the protocol that take an identifier. *)
Definition GetQIdStart (i : Ids) : Z * Ids :=
  let v := u16 (QIdStart i + 1) in (v, mkIds v (FormIdStart i) (VarIdStart i) (OtherLabelStart i)).
Definition GetFormIdStart (i : Ids) : Z * Ids :=
  let v := u16 (FormIdStart i + 1) in (v, mkIds (QIdStart i) v (VarIdStart i) (OtherLabelStart i)).
Definition GetVIdStart (i : Ids) : Z * Ids :=
  let v := u16 (VarIdStart i + 1) in (v, mkIds (QIdStart i) (FormIdStart i) v (OtherLabelStart i)).
Definition GetOtherLableStart (i : Ids) : Z * Ids :=
  let v := u16 (OtherLabelStart i + 1) in (v, mkIds (QIdStart i) (FormIdStart i) (VarIdStart i) v).
Definition GetQIdNow (i : Ids) : Z := QIdStart i.
Definition GetFormIdNow (i : Ids) : Z := FormIdStart i.
Definition GetVIdNow (i : Ids) : Z := VarIdStart i.
Definition GetOtherLableNow (i : Ids) : Z := OtherLabelStart i.

Definition SMC_LSI_OOB_FORM_SET_GUID : list Z :=
  GUID 0xca113bd9 0x21cc 0xaa1b [0x33; 0x58; 0xa9; 0x73; 0x78; 0xdd; 0x3c; 0x5e].
Definition SMC_LSI_OOB_VAR_GUID : list Z :=
  GUID 0x98775d3c 0xC22A 0x1197 [0x71; 0xCC; 0xF1; 0x36; 0x72; 0x16; 0xAC; 0xD9].
Definition SMC_LSI_OOB_FORM : Z := 0x5000.
Definition SMC_LSI_OOB_FORM_GOTO_LABEL : Z := 0x1000.
Definition SMC_LSI_OOB_FORM_LABEL : Z := 0x1500.
Definition SMC_LSI_OOB_FORM_START : Z := 0x2200.
Definition SMC_LSI_OOB_Q_ID_START : Z := 0x3000.
Definition SMC_LSI_OOB_VAR_ID_START : Z := 0x4000.
Definition SMC_LSI_OOB_OTHER_LABEL_START : Z := 0x6000.

Definition start_ids : Ids :=
  mkIds SMC_LSI_OOB_Q_ID_START SMC_LSI_OOB_FORM_START SMC_LSI_OOB_VAR_ID_START SMC_LSI_OOB_OTHER_LABEL_START.

(** What the library gets: the list of cards and the counters. *)
Record Library (W : Type) := mkLib {
  SmcLsiRaidLib_DownLoad : Cards -> Ids -> W -> EFI_STATUS * Ids * W;
  SmcLsiRaidLib_AddDynamicItems : Cards -> Ids -> W -> EFI_STATUS * Ids * W;
  SmcLsiRaidLib_ParseNvData : Cards -> bool -> nv_var -> Ids -> W -> EFI_STATUS * nv_var * Ids * W;
  SmcLsiRaidLib_CollectData : Cards -> list Z -> list Z -> list Z -> Ids -> W -> EFI_STATUS * Ids * W;
  SmcLsiRaidLib_HandleData : Cards -> Ids -> W -> EFI_STATUS * Ids * W }.
Arguments SmcLsiRaidLib_DownLoad {W}.
Arguments SmcLsiRaidLib_AddDynamicItems {W}.
Arguments SmcLsiRaidLib_ParseNvData {W}.
Arguments SmcLsiRaidLib_CollectData {W}.
Arguments SmcLsiRaidLib_HandleData {W}.

(** The two protocols it installs. *)
Inductive raid_interface := SetupDriver_interface | SetupProtocol_interface.

Record Driver (W : Type) := mkDriver {
  cards : Cards; pPrivate : SMC_LSI_RAID_OOB_SETUP_PRIVATE; machine : W }.
Arguments mkDriver {W}.
Arguments cards {W}.
Arguments pPrivate {W}.
Arguments machine {W}.

Section driver.
Context {W : Type} (lib : Library W) (db : hii_db) (GetString : Z -> Z -> EFI_STATUS * list Z).
Context (InstallProtocolInterface : raid_interface -> W -> EFI_STATUS * W) (LoadResources : W -> EFI_STATUS * Z * W).
Context (STR_SMC_LSI_OOB_TITLE : Z).

(** A call of the library with the private data. *)
Definition call (f : Cards -> Ids -> W -> EFI_STATUS * Ids * W) (s : Driver W) : EFI_STATUS * Driver W :=
  let '(Status, i, w) := f (cards s) (ids (pPrivate s)) (machine s) in
  (Status, mkDriver (cards s) (set_ids i (pPrivate s)) w).

(** The protocol structure is cleared whether or not there is memory for it. *)
Definition SmcLsiOOBSetupDriverStart (s : Driver W) : Res (EFI_STATUS * Driver W) :=
  '(found, c) ← SearchForLsiFormSetByHiiOrder db GetString (cards s);
  if negb found then Done (EFI_LOAD_ERROR, mkDriver c (pPrivate s) (machine s)) else
  let '(protocol, c) := AllocatePool c in
  if protocol =? 0 then Fault else
  let p := mkPrivate 0 SMC_LSI_OOB_FORM_SET_GUID STR_SMC_LSI_OOB_TITLE SMC_LSI_OOB_FORM
             SMC_LSI_OOB_FORM_GOTO_LABEL SMC_LSI_OOB_FORM_LABEL SMC_LSI_OOB_VAR_GUID start_ids
             DRIVER_INSTALL true (mSmcLsiHiiHandleTable c) in
  let '(Status, w) := InstallProtocolInterface SetupProtocol_interface (machine s) in
  Done (Status, mkDriver c p w).

Definition SmcLsiOOBSetupDriverDownload (s : Driver W) : EFI_STATUS * Driver W :=
  if HaveRaidResource (pPrivate s) && (process_value DRIVER_INSTALL <=? process_value (Process (pPrivate s))) then
    let '(Status, s) := call (SmcLsiRaidLib_DownLoad lib) s in
    (Status, if EFI_ERROR Status then s
             else mkDriver (cards s) (set_Process DRIVER_DOWNLOAD (pPrivate s)) (machine s))
  else (EFI_NOT_READY, s).

Definition SmcLsiOOBSetupDriverLoadResource (s : Driver W) : EFI_STATUS * Driver W :=
  if decide (Process (pPrivate s) = DRIVER_DOWNLOAD) then
    let '(Status, HiiHandle, w) := LoadResources (machine s) in
    if EFI_ERROR Status then (Status, mkDriver (cards s) (pPrivate s) w)
    else call (SmcLsiRaidLib_AddDynamicItems lib)
           (mkDriver (cards s) (set_HIIHandle HiiHandle (pPrivate s)) w)
  else (EFI_NOT_READY, s).

Definition SmcLsiOOBSetupDriverGetNvData (ReNew : bool) (pNVStruct : option nv_var) (s : Driver W)
    : EFI_STATUS * option nv_var * Driver W :=
  match pNVStruct with
  | None => (EFI_BUFFER_TOO_SMALL, None, s)
  | Some nv =>
      if decide (Process (pPrivate s) = DRIVER_DOWNLOAD) then
        let '(Status, nv, i, w) :=
          SmcLsiRaidLib_ParseNvData lib (cards s) ReNew nv (ids (pPrivate s)) (machine s) in
        (Status, Some nv, mkDriver (cards s) (set_ids i (pPrivate s)) w)
      else (EFI_NOT_READY, Some nv, s)
  end.

Definition SmcLsiOOBSetupDriverCollectData (VarName VarGuid VarBuffer : list Z) (s : Driver W)
    : EFI_STATUS * Driver W :=
  if decide (Process (pPrivate s) = DRIVER_DOWNLOAD) then
    call (fun c => SmcLsiRaidLib_CollectData lib c VarName VarGuid VarBuffer) s
  else (EFI_NOT_READY, s).

Definition SmcLsiOOBSetupDriverHandleDataStart (s : Driver W) : EFI_STATUS * Driver W :=
  if decide (Process (pPrivate s) = DRIVER_DOWNLOAD) then call (SmcLsiRaidLib_HandleData lib) s
  else (EFI_NOT_READY, s).

(** The private data is cleared; the status of the installation is only
    printed. *)
Definition SmcLsiRaidOOBSetupEntry (a : list Z) (w : W) : Res (EFI_STATUS * Driver W) :=
  let c := mkCards ∅ 0 0 0 0 0 false a in
  let '(p, c) := AllocatePool c in
  let '(q, c) := AllocatePool c in
  if (p =? 0) || (q =? 0) then Fault else
  Done (EFI_SUCCESS,
    mkDriver c (mkPrivate 0 (replicate 16 0) 0 0 0 0 (replicate 16 0) (mkIds 0 0 0 0) DRIVER_INITIAL false 0)
      (snd (InstallProtocolInterface SetupDriver_interface w))).

(** The driver as [SmcInBandBiosCfg.c] calls it. *)
Definition raid_driver : RaidDriver (Driver W) :=
  mkRaid _
    (fun s => let '(Status, nv, s) := SmcLsiOOBSetupDriverGetNvData false (Some (mkNv [] [] [])) s in
              (if EFI_ERROR Status then None else nv, s))
    SmcLsiOOBSetupDriverCollectData
    (fun s => snd (SmcLsiOOBSetupDriverHandleDataStart s)).
End driver.

(** ** What the list of cards holds *)
Section spec_tables.
Context {H : Type} `{TableHeader H}.

(** The entries of a type before the last entry. *)
Fixpoint entries_of (Table : list H) (t : SMC_LSI_RAID_TYPE) : list H :=
  match Table with
  | [] => []
  | h :: Table =>
      if decide (header_type h = RAID_NULL) then []
      else if decide (t = header_type h) then h :: entries_of Table t else entries_of Table t
  end.

Definition closed (Table : list H) : Prop := Exists (fun h => header_type h = RAID_NULL) Table.

Lemma LoopToInitialTables_spec Table t : forall copied,
  closed Table -> LoopToInitialTables Table t copied = Done (EFI_NO_MEDIA, copied ++ entries_of Table t).
Proof.
  induction Table as [|h Table IH]; intros copied Hc; [by apply Exists_nil in Hc|].
  cbn [LoopToInitialTables entries_of]. destruct (decide (header_type h = RAID_NULL)) as [|Hn].
  - by rewrite app_nil_r.
  - apply Exists_cons in Hc as [Hc|Hc]; [done|]. rewrite IH by done.
    destruct (decide (t = header_type h)); [|done]. by rewrite <- app_assoc.
Qed.
End spec_tables.

Ltac closed_table := vm_compute; repeat first [apply Exists_cons_hd; reflexivity | apply Exists_cons_tl].

Lemma forms_closed : closed mSmcLsiRaidFormRefSearchTable.
Proof. closed_table. Qed.
Lemma items_closed : closed mSmcLsiItemsTable.
Proof. closed_table. Qed.
Lemma records_closed : closed mSmcLsiChRecordsTable.
Proof. closed_table. Qed.

Definition new_card (t : SMC_LSI_RAID_TYPE) (i h : Z) : SMC_LSI_HII_HANDLE :=
  mkCard t i h (entries_of mSmcLsiRaidFormRefSearchTable t) (entries_of mSmcLsiItemsTable t)
    (entries_of mSmcLsiChRecordsTable t) 0.

Definition count (l : list SMC_LSI_HII_HANDLE) (t : SMC_LSI_RAID_TYPE) : Z :=
  zlen (List.filter (fun x => bool_decide (RaidCardType x = t)) l).

(** The number of a new card: how many of its type there are, in 8 bits. *)
Definition card_index (l : list SMC_LSI_HII_HANDLE) (t : SMC_LSI_RAID_TYPE) : Z :=
  match t with RAID_RSTE | RAID_NULL => 0 | _ => u8 (count l t) end.

Fixpoint add_cards (l : list SMC_LSI_HII_HANDLE) (ths : list (SMC_LSI_RAID_TYPE * Z))
    : list SMC_LSI_HII_HANDLE :=
  match ths with
  | [] => l
  | (t, h) :: ths => add_cards (l ++ [new_card t (card_index l t) h]) ths
  end.

Definition nonzero (l : list Z) : list Z := List.filter (fun a => negb (a =? 0)) l.

(** The nodes at the addresses [ps] are the cards [l], but for the links. *)
Definition listed (h : gmap Z SMC_LSI_HII_HANDLE) (ps : list Z) (l : list SMC_LSI_HII_HANDLE) : Prop :=
  Forall2 (fun p x => exists n, h !! p = Some n /\ set_pNext 0 n = x) ps l.

Lemma listed_frame h h' ps l :
  (forall p n, p ∈ ps -> h !! p = Some n -> exists n', h' !! p = Some n' /\ set_pNext 0 n' = set_pNext 0 n) ->
  listed h ps l -> listed h' ps l.
Proof.
  intros Hh H. induction H as [|p x ps l (n & Hn & <-) _ IH]; constructor.
  - apply Hh; [by left|done].
  - apply IH. intros q m Hq. apply Hh. by right.
Qed.

(** Every card has the table entries of its type and the number of the cards of
    its type before it. *)
Definition numbered (l : list SMC_LSI_HII_HANDLE) : Prop :=
  forall i x, l !! i = Some x ->
    x = new_card (RaidCardType x) (card_index (take i l) (RaidCardType x)) (RaidCardHiiHandle x).

Lemma numbered_snoc l t h : numbered l -> numbered (l ++ [new_card t (card_index l t) h]).
Proof.
  intros Hl i x [Hx|[Hi Hx]]%lookup_app_Some.
  - rewrite take_app_le by (apply lookup_lt_Some in Hx; lia). by apply Hl.
  - apply list_lookup_singleton_Some in Hx as [Ei <-].
    by rewrite take_app_length' by lia.
Qed.

(** The chain of the cards [l] at the addresses [ps], the address of the last
    one, a pool apart from them, and the counters. *)
Record cards_wf (c : Cards) (ps : list Z) (l : list SMC_LSI_HII_HANDLE) : Prop := mkWf {
  wf_chain : Chain.chain pNext (nodes c) (mSmcLsiHiiHandleTable c) ps;
  wf_last : pLocal c = default 0 (last ps);
  wf_list : listed (nodes c) ps l;
  wf_fresh : forall a, a ∈ avail c -> a ∉ ps;
  wf_nodup : NoDup (nonzero (avail c));
  wf_index : forall t, fst (GetRaidIndex t c) = card_index l t;
  wf_numbered : numbered l }.

Lemma cards_wf_avail c ps l r :
  cards_wf c ps l -> (forall a, a ∈ r -> a ∈ avail c) -> NoDup (nonzero r) -> cards_wf (set_avail r c) ps l.
Proof.
  intros [? ? ? Hf ? Hi ?] Hr Hn. constructor; try done.
  - intros a Ha. by apply Hf, Hr.
  - intros t. rewrite <- Hi. by destruct t.
Qed.

Lemma cards_wf_string c ps l : cards_wf c ps l -> cards_wf (set_StringTemp c) ps l.
Proof. intros [? ? ? ? ? Hi ?]. constructor; try done. intros t. rewrite <- Hi. by destruct t. Qed.

Lemma nonzero_cons a r :
  NoDup (nonzero (a :: r)) -> NoDup (nonzero r) /\ (a <> 0 -> a ∉ r).
Proof.
  unfold nonzero. cbn. destruct (Z.eqb_spec a 0) as [->|Ha]; cbn; [done|].
  intros [Hin Hd]%NoDup_cons. split; [done|]. intros _ Hr. apply Hin, filter_in. split; [done|].
  by rewrite (proj2 (Z.eqb_neq a 0)).
Qed.

Lemma AllocatePool_wf c ps l p c' :
  cards_wf c ps l -> AllocatePool c = (p, c') ->
  cards_wf c' ps l /\ (p <> 0 -> (p ∉ ps) /\ (p ∉ avail c')) /\ StringTemp c' = StringTemp c.
Proof.
  intros Hw. pose proof Hw as [_ _ _ Hf Hn _ _]. unfold AllocatePool.
  destruct (avail c) as [|a r] eqn:E; intros [= <- <-].
  - by split_and!.
  - apply nonzero_cons in Hn as [Hn Ha]. split_and!; [|intros Hp; split|done].
    + apply cards_wf_avail; [done| |done]. rewrite E. intros b Hb. by right.
    + apply Hf. by left.
    + by apply Ha.
Qed.

Lemma last_snoc_Z (ps : list Z) (d a : Z) : default d (last (ps ++ [a])) = a.
Proof. by rewrite last_snoc. Qed.

Lemma count_snoc l x t :
  count (l ++ [x]) t = count l t + (if decide (RaidCardType x = t) then 1 else 0).
Proof.
  unfold count. rewrite List.filter_app, zlen_app. cbn.
  destruct (decide (RaidCardType x = t)); [rewrite bool_decide_true by done|rewrite bool_decide_false by done]; zl.
Qed.

Lemma u8_next n : u8 (u8 n + 1) = u8 (n + 1).
Proof. unfold u8. by rewrite Zplus_mod_idemp_l. Qed.

Lemma GetRaidIndex_next l c t h i c' :
  (forall t, fst (GetRaidIndex t c) = card_index l t) -> GetRaidIndex t c = (i, c') ->
  i = card_index l t /\ forall t', fst (GetRaidIndex t' c') = card_index (l ++ [new_card t i h]) t'.
Proof.
  intros Hi E. split; [rewrite <- Hi; by rewrite E|]. intros t'.
  pose proof (Hi RAID_3108) as H1. pose proof (Hi RAID_9260) as H2. pose proof (Hi RAID_2208) as H3.
  cbn in H1, H2, H3. unfold card_index. rewrite count_snoc. cbn [RaidCardType new_card].
  destruct t; cbn in E; injection E as <- <-;
    destruct t'; cbn [decide decide_rel SMC_LSI_RAID_TYPE_eq SMC_LSI_RAID_TYPE_rec SMC_LSI_RAID_TYPE_rect];
    cbn; rewrite ?H1, ?H2, ?H3, ?Z.add_0_r, ?u8_next; done.
Qed.

Lemma GetRaidIndex_frame t c i c' :
  GetRaidIndex t c = (i, c') ->
  nodes c' = nodes c /\ mSmcLsiHiiHandleTable c' = mSmcLsiHiiHandleTable c /\ pLocal c' = pLocal c /\
  avail c' = avail c /\ StringTemp c' = StringTemp c.
Proof. destruct t; cbn; by intros [= <- <-]. Qed.

(** A node behind the last one. *)
Lemma push_last h tb qs y n l a x :
  Chain.chain pNext h tb (qs ++ [y]) -> listed h (qs ++ [y]) l -> h !! y = Some n ->
  a <> 0 -> a ∉ qs ++ [y] -> pNext x = 0 -> set_pNext 0 x = x ->
  let h' := <[y := set_pNext a n]> (<[a := x]> h) in
  Chain.chain pNext h' tb ((qs ++ [y]) ++ [a]) /\ listed h' ((qs ++ [y]) ++ [a]) (l ++ [x]).
Proof.
  intros Hc Hf Hn Ha Hps Hnext Hx h'.
  assert (Hay : a <> y) by (intros ->; apply Hps, elem_of_app; right; by left). split.
  - eapply chain_extend; [done|by apply lseg_insert_ne| |done..|by rewrite lookup_insert_eq|done].
    by rewrite lookup_insert_ne.
  - apply Forall2_app; [|constructor; [|constructor]].
    + eapply listed_frame; [|exact Hf]. intros p m Hp Hm.
      assert (a <> p) by (intros ->; done). subst h'.
      destruct (decide (y = p)) as [->|].
      * rewrite lookup_insert_eq. exists (set_pNext a n). split; [done|].
        rewrite Hn in Hm. by injection Hm as ->.
      * exists m. by rewrite !lookup_insert_ne.
    + exists x. subst h'. by rewrite lookup_insert_ne, lookup_insert_eq.
Qed.

(** Adding a card: the list grows by it. *)
Lemma add_alloc c c1 ps l a t h :
  cards_wf c ps l -> AllocatePool c = (a, c1) -> a <> 0 ->
  exists c', AddSmcLsiHiiHandle t h c = Done c' /\
    cards_wf c' (ps ++ [a]) (l ++ [new_card t (card_index l t) h]) /\
    avail c' = avail c1 /\ StringTemp c' = StringTemp c.
Proof.
  intros Hw Ea Ha. destruct (AllocatePool_wf _ _ _ _ _ Hw Ea) as (Hw1 & Hfr & Hst).
  destruct (Hfr Ha) as [Hps Hav]. unfold AddSmcLsiHiiHandle. rewrite Ea.
  rewrite (proj2 (Z.eqb_neq a 0) Ha). destruct (GetRaidIndex t c1) as [i c2] eqn:Ei.
  destruct (GetRaidIndex_frame _ _ _ _ Ei) as (E1 & E2 & E3 & E4 & E5).
  pose proof Hw1 as [Hc Hl Hf Hav1 Hn Hi Hnum].
  destruct (GetRaidIndex_next _ _ _ h _ _ Hi Ei) as [Hi1 Hi2]. subst i.
  unfold LoopToInitialChRecrodsTable, LoopToInitialFormRefSearchTable, LoopToInitialItemsTable.
  rewrite (LoopToInitialTables_spec _ t [] records_closed), bind_Done.
  rewrite (LoopToInitialTables_spec _ t [] forms_closed), bind_Done.
  rewrite (LoopToInitialTables_spec _ t [] items_closed), bind_Done. cbn [app].
  fold (new_card t (card_index l t) h). apply (numbered_snoc l t h) in Hnum. set (x := new_card _ _ _) in *.
  assert (Hnext : pNext x = 0) by done. assert (Hx : set_pNext 0 x = x) by done. clearbody x.
  rewrite E1, E2, E3. clear Hw Ea Hfr.
  assert (Hwf : forall h' tb, Chain.chain pNext h' tb (ps ++ [a]) ->
    listed h' (ps ++ [a]) (l ++ [x]) ->
    cards_wf (set_list h' tb a c2) (ps ++ [a]) (l ++ [x])).
  { intros h' tb H1 H2. constructor; cbn [nodes mSmcLsiHiiHandleTable pLocal avail set_list]; [done| |done| | | |done].
    - by rewrite last_snoc.
    - rewrite E4. intros b Hb [Hb'|Hb']%elem_of_app; [by eapply Hav1|].
      apply list_elem_of_singleton in Hb' as ->. done.
    - by rewrite E4.
    - intros t'. rewrite <- Hi2. by destruct t'. }
  destruct ps as [|y qs _] using rev_ind.
  - rewrite Hl. cbn [last default Z.eqb]. eexists. split; [done|]. split; [|split; [done|by etransitivity]].
    apply Hwf.
    + cbn. split_and!; [done..|]. exists x. by rewrite lookup_insert_eq.
    + apply Forall2_nil_inv_l in Hf as ->. constructor; [|constructor]. exists x. by rewrite lookup_insert_eq.
  - rewrite last_snoc in Hl. change (pLocal c1 = y) in Hl. rewrite Hl.
    destruct (lseg_in _ _ _ _ _ y Hc) as [Hy [n Hn']]; [apply elem_of_app; right; by left|].
    rewrite (proj2 (Z.eqb_neq y 0) Hy), (deref_at _ _ n), bind_Done
      by (rewrite lookup_insert_ne; [done|]; intros ->; apply Hps, elem_of_app; right; by left).
    destruct (push_last _ _ _ _ _ _ a x Hc Hf Hn') as [H1 H2]; [done..|].
    eexists. split; [done|]. split; [by apply Hwf|]. split; [done|by etransitivity].
Qed.

(** What the search keeps: the list stays well formed with its cards [ps0], and
    when a card was found there is one in it. *)
Definition found_wf (ps0 : list Z) (s : bool * Cards) : Prop :=
  exists ps l, cards_wf s.2 (ps0 ++ ps) l /\ (s.1 = true -> ps0 ++ ps <> []).

Lemma found_wf_pool ps0 b c p c' : AllocatePool c = (p, c') -> found_wf ps0 (b, c) -> found_wf ps0 (b, c').
Proof.
  intros E (ps & l & Hw & Hb). exists ps, l. split; [|done]. by eapply AllocatePool_wf in Hw as [Hw _].
Qed.

Lemma AddSmcLsiHiiHandle_keeps ps0 b c t h c' :
  found_wf ps0 (b, c) -> AddSmcLsiHiiHandle t h c = Done c' -> found_wf ps0 (true, c').
Proof.
  intros (ps & l & Hw & _) H. cbn [snd] in Hw. destruct (AllocatePool c) as [a c1] eqn:Ea.
  destruct (Z.eq_dec a 0) as [->|Ha].
  { unfold AddSmcLsiHiiHandle in H. rewrite Ea in H. done. }
  destruct (add_alloc _ _ _ _ _ t h Hw Ea Ha) as (c2 & E & Hw2 & _).
  rewrite E in H. injection H as <-. exists (ps ++ [a]), (l ++ [new_card t (card_index l t) h]).
  rewrite app_assoc. split; [exact Hw2|]. intros _ E'. by apply app_nil in E' as [_ ?].
Qed.

Section search_spec.
Context (GetString : Z -> Z -> EFI_STATUS * list Z).

Lemma GetHiiString_keeps ps0 b h id c s c' :
  GetHiiString GetString h id c = (s, c') -> found_wf ps0 (b, c) -> found_wf ps0 (b, c').
Proof.
  unfold GetHiiString. intros E H. destruct (StringTemp c).
  - cbn [negb] in E. destruct (GetString h id) as [st x].
    destruct (_ || _); injection E as <- <-; done.
  - destruct (AllocatePool c) as [p c1] eqn:Ea. pose proof (found_wf_pool _ _ _ _ _ Ea H) as H1.
    destruct (p =? 0); cbn [negb] in E; [by injection E as <- <-|].
    destruct (GetString h id) as [st x].
    assert (H2 : found_wf ps0 (b, set_StringTemp c1)).
    { destruct H1 as (ps & l & Hw & Hb). exists ps, l. split; [by apply cards_wf_string|done]. }
    destruct (_ || _); injection E as <- <-; done.
Qed.

Lemma match_names_keeps ps0 names T h : forall s s',
  found_wf ps0 s -> match_names names T h s = Done s' -> found_wf ps0 s'.
Proof using.
  induction names as [|n names IH]; intros s s' Hs; cbn [match_names]; [done|].
  destruct (decide _); [by intros [= <-]|]. intros (t & Ht & (s1 & H1 & H)%bind_inv)%bind_inv.
  eapply IH; [|exact H]. destruct (starts _ _); [|by injection H1 as <-].
  apply bind_inv in H1 as (c & Hc & [= <-]). destruct s as [b c0]. by eapply AddSmcLsiHiiHandle_keeps.
Qed.

Lemma visit_package_keeps ps0 h b p s s' :
  found_wf ps0 s -> visit_package GetString h b p s = Done s' -> found_wf ps0 s'.
Proof using.
  intros Hs (ty & _ & H)%bind_inv. destruct (ty =? _); [|by injection H as <-].
  apply bind_inv in H as (code & _ & H). destruct (code =? _); [|by injection H as <-].
  apply bind_inv in H as (id & _ & H). destruct (GetHiiString _ _ _ _) as [T c] eqn:E.
  eapply match_names_keeps; [|exact H]. destruct s as [b0 c0]. by eapply GetHiiString_keeps.
Qed.

Lemma for_each_keeps {S} (next : list Z -> Z -> Res Z) b stop (body : Z -> S -> Res S) (I : S -> Prop) p s s' :
  (forall p s s', I s -> body p s = Done s' -> I s') -> I s -> for_each next b stop body p s = Done s' -> I s'.
Proof using.
  intros Hb Hs. apply (loop_inv _ (fun x => I x.2) I); [| |done].
  - intros [q t] [q' t'] Ht. unfold each_step. destruct (q <? stop); [|done].
    intros (t1 & H1 & (l & _ & [= _ <-])%bind_inv)%bind_inv. by eapply Hb.
  - intros [q t] r Ht. unfold each_step. destruct (q <? stop); [|by intros [= <-]].
    by intros (t1 & H1 & (l & _ & [=])%bind_inv)%bind_inv.
Qed.

Context (db : hii_db).

Lemma GetHiiPackageList_keeps ps0 b h c o c' :
  GetHiiPackageList db h c = Done (o, c') -> found_wf ps0 (b, c) -> found_wf ps0 (b, c').
Proof using.
  unfold GetHiiPackageList. intros E H. destruct (h =? 0); [by injection E as _ <-|].
  destruct (AllocatePool c) as [p c1] eqn:Ea. pose proof (found_wf_pool _ _ _ _ _ Ea H) as H1.
  destruct (p =? 0); [by injection E as _ <-|]. destruct (db_export db h) as [st data].
  destruct (EFI_ERROR st); [by injection E as _ <-|]. destruct (_ <? _); [done|by injection E as _ <-].
Qed.

Lemma scan_handles_keeps ps0 hs : forall s s',
  found_wf ps0 s -> scan_handles db GetString hs s = Done s' -> found_wf ps0 s'.
Proof using.
  induction hs as [|h hs IH]; intros s s' Hs; cbn [scan_handles]; [done|].
  destruct (h =? 0); [by intros [= <-]|]. intros ([o c] & E & H)%bind_inv.
  assert (H1 : found_wf ps0 (s.1, c)) by (destruct s as [b0 c0]; by eapply GetHiiPackageList_keeps).
  destruct o as [b|]; [|by injection H as <-].
  apply bind_inv in H as (len & _ & (s1 & H2 & H)%bind_inv).
  eapply IH; [|exact H]. eapply for_each_keeps; [|exact H1|exact H2].
  intros p x x'. apply visit_package_keeps.
Qed.

Lemma Search_keeps ps0 c s' :
  found_wf ps0 (false, c) -> SearchForLsiFormSetByHiiOrder db GetString c = Done s' -> found_wf ps0 s'.
Proof using.
  intros Hc. unfold SearchForLsiFormSetByHiiOrder, GetListPackageListsHandle.
  destruct (db_handles db) as [|h hs]; [by intros [= <-]|].
  destruct (AllocatePool c) as [p c1] eqn:Ea. pose proof (found_wf_pool _ _ _ _ _ Ea Hc) as H1.
  destruct (p =? 0); [by intros [= <-]|]. cbn [EFI_ERROR]. by apply scan_handles_keeps.
Qed.
End search_spec.

(** ** The cards of a database *)

(** The types whose name is a prefix of a title, in the order of the table. *)
Fixpoint matching (names : list SMC_LSI_RAID_NANE) (title : list Z) : list SMC_LSI_RAID_TYPE :=
  match names with
  | [] => []
  | n :: names =>
      if decide (LsiRaidTypeIndex n = RAID_NULL) then []
      else if starts title (FormRaidName n) then LsiRaidTypeIndex n :: matching names title
      else matching names title
  end.

(** The title of the form set a package starts with. *)
Definition formset_title (k : xpkg) : option Z :=
  match k with
  | XForms f =>
      match head_op f with
      | Some (c, pl) => if c =? EFI_IFR_FORM_SET_OP then Some (le_val (take 2 (drop 16 pl))) else None
      | None => None
      end
  | XOther _ _ => None
  end.

Section cards_of.
Context (GetString : Z -> Z -> EFI_STATUS * list Z) (lists : Z -> option (list Z * list xpkg)).

Definition pkg_cards (h : Z) (k : xpkg) : list (SMC_LSI_RAID_TYPE * Z) :=
  match formset_title k with
  | Some id => map (fun t => (t, h)) (matching RaidName (snd (GetString h id)))
  | None => []
  end.
Definition list_cards (h : Z) (ks : list xpkg) : list (SMC_LSI_RAID_TYPE * Z) :=
  concat (map (pkg_cards h) ks).

(** The search ends at the first list that cannot be exported. *)
Fixpoint db_cards (hs : list Z) : list (SMC_LSI_RAID_TYPE * Z) :=
  match hs with
  | [] => []
  | h :: hs =>
      match lists h with None => [] | Some (_, ks) => list_cards h ks ++ db_cards hs end
  end.

Definition string_ok (h : Z) (k : xpkg) : Prop :=
  forall id, formset_title k = Some id ->
    EFI_ERROR (fst (GetString h id)) = false /\ 2 * (zlen (snd (GetString h id)) + 1) <= 512.

Definition handle_ok (h : Z) : Prop :=
  h <> 0 /\ source_ok lists h /\
  forall g ks, lists h = Some (g, ks) -> Forall (string_ok h) ks.

(** A list of cards, and room in the pool for [n] more blocks. *)
Definition room (n : nat) (c : Cards) : Prop :=
  (n <= length (avail c))%nat /\ Forall (fun a => a <> 0) (avail c) /\ exists ps l, cards_wf c ps l.

(** The string buffer takes one the first time. *)
Definition need (c : Cards) : nat := if StringTemp c then 0%nat else 1%nat.

Lemma room_alloc n c :
  room (S n) c -> exists a c', AllocatePool c = (a, c') /\ a <> 0 /\ room n c' /\ need c' = need c /\
    forall ps l, cards_wf c ps l -> cards_wf c' ps l.
Proof using.
  intros (Hl & Hz & ps0 & l0 & Hw0). destruct (AllocatePool c) as [a c'] eqn:E. exists a, c'.
  assert (Hkeep : forall ps l, cards_wf c ps l -> cards_wf c' ps l).
  { intros ps l Hw. by eapply AllocatePool_wf in Hw as [Hw _]. }
  pose proof E as E'. unfold AllocatePool in E'.
  destruct (avail c) as [|x r] eqn:Ea; [cbn in Hl; lia|]. injection E' as <- <-.
  apply Forall_cons in Hz as [Hx Hz]. split_and!; [done|done| |done|done].
  split_and!; [cbn in *; lia|done|]. eauto.
Qed.

Lemma room_le n m c : (n <= m)%nat -> room m c -> room n c.
Proof using. intros H (Hl & Hz). split; [lia|done]. Qed.

(** [grown c s n ths s']: the cards [ths] went to the end of the list, [n]
    blocks are left. *)
Definition grown (s : bool * Cards) (n : nat) (ths : list (SMC_LSI_RAID_TYPE * Z)) (s' : bool * Cards) : Prop :=
  s'.1 = s.1 || negb (bool_decide (ths = [])) /\ room (n + need s'.2) s'.2 /\
  forall ps l, cards_wf s.2 ps l -> exists ps', cards_wf s'.2 (ps ++ ps') (add_cards l ths).

Lemma grown_nil s n c' b :
  b = s.1 -> room (n + need c') c' -> (forall ps l, cards_wf s.2 ps l -> cards_wf c' ps l) ->
  grown s n [] (b, c').
Proof using.
  intros -> Hr Hw. split_and!; [by rewrite orb_false_r|done|]. intros ps l H. exists []. rewrite app_nil_r. by apply Hw.
Qed.

Lemma add_cards_app l xs ys : add_cards l (xs ++ ys) = add_cards (add_cards l xs) ys.
Proof using. revert l. induction xs as [|[t h] xs IH]; intros l; cbn; [done|]. by rewrite IH. Qed.

Lemma grown_trans s n m xs s1 ys s2 : grown s m xs s1 -> grown s1 n ys s2 -> grown s n (xs ++ ys) s2.
Proof using.
  intros (E1 & _ & H1) (E2 & R & H2). split_and!; [|done|].
  - rewrite E2, E1, <- orb_assoc, <- negb_andb. do 2 f_equal.
    destruct xs, ys; try done; cbn; by rewrite ?bool_decide_false.
  - intros ps l Hw. destruct (H1 ps l Hw) as (qs & Hw1). destruct (H2 _ _ Hw1) as (rs & Hw2).
    exists (qs ++ rs). by rewrite app_assoc, add_cards_app.
Qed.

Lemma AddSmcLsiHiiHandle_grown b n t h c :
  room (S n + need c) c ->
  exists c', AddSmcLsiHiiHandle t h c = Done c' /\ grown (b, c) n [(t, h)] (true, c').
Proof using.
  intros Hr. pose proof Hr as (_ & _ & ps0 & l0 & Hw).
  destruct (room_alloc _ _ Hr) as (a & c1 & Ea & Ha & Hr1 & Hn & _).
  destruct (add_alloc _ _ _ _ _ t h Hw Ea Ha) as (c' & E & Hw' & Eav & Est). exists c'. split; [done|].
  assert (Hneed : need c' = need c) by (unfold need; by rewrite Est).
  split_and!; cbn [fst snd].
  - rewrite bool_decide_false by done. by rewrite orb_true_r.
  - rewrite Hneed. destruct Hr1 as (? & ? & _). split_and!; [by rewrite Eav|by rewrite Eav|by eauto].
  - intros ps l Hw2. destruct (add_alloc _ _ _ _ _ t h Hw2 Ea Ha) as (c2 & E2 & Hw3 & _).
    rewrite E in E2. injection E2 as <-. by exists [a].
Qed.

Lemma GetHiiString_grown b n h k id c :
  room (n + need c) c -> string_ok h k -> formset_title k = Some id ->
  exists c', GetHiiString GetString h id c = (Some (snd (GetString h id)), c') /\ grown (b, c) n [] (b, c').
Proof using.
  intros Hr Hs Hid. destruct (Hs id Hid) as [He Hl]. unfold GetHiiString.
  destruct (GetString h id) as [st x]. cbn [fst snd] in *. rewrite He.
  replace (512 <? 2 * (zlen x + 1)) with false by lia. cbn [orb].
  destruct (StringTemp c) eqn:Est; unfold need in Hr; rewrite Est in Hr.
  - exists c. split; [done|]. apply grown_nil; [done| |done]. unfold need. by rewrite Est.
  - replace (n + 1)%nat with (S n) in Hr by lia.
    destruct (room_alloc _ _ Hr) as (a & c1 & Ea & Ha & (Hr1 & Hr2 & ps & l & Hw) & _ & Hk). rewrite Ea.
    rewrite (proj2 (Z.eqb_neq a 0) Ha). eexists. split; [done|]. apply grown_nil; [done| |].
    + split_and!; [cbn; lia|done|]. exists ps, l. by apply cards_wf_string.
    + intros ps' l' Hw'. apply cards_wf_string. by apply Hk.
Qed.

Lemma match_names_grown names h title : forall n s,
  Exists (fun n => LsiRaidTypeIndex n = RAID_NULL) names ->
  room (length (matching names title) + n + need s.2) s.2 ->
  exists s', match_names names (Some title) h s = Done s' /\
    grown s n (map (fun t => (t, h)) (matching names title)) s'.
Proof using.
  induction names as [|x names IH]; intros n s Hn Hr; [by apply Exists_nil in Hn|].
  cbn [match_names matching] in *. destruct (decide _) as [|Ht].
  - exists s. split; [done|]. destruct s. by apply grown_nil.
  - apply Exists_cons in Hn as [Hn|Hn]; [done|]. rewrite bind_Done.
    destruct (starts title (FormRaidName x)).
    + cbn [length] in Hr. destruct s as [b c]. cbn [snd] in *.
      destruct (AddSmcLsiHiiHandle_grown b (length (matching names title) + n) (LsiRaidTypeIndex x) h c Hr)
        as (c' & E & Hg). rewrite E, !bind_Done.
      destruct (IH n (true, c') Hn) as (s' & E' & Hg'); [by apply Hg|]. exists s'. split; [done|].
      cbn [map]. exact (grown_trans _ _ _ [_] _ _ _ Hg Hg').
    + rewrite bind_Done. by apply IH.
Qed.

Lemma RaidName_closed : Exists (fun n => LsiRaidTypeIndex n = RAID_NULL) RaidName.
Proof using. vm_compute. repeat first [apply Exists_cons_hd; reflexivity | apply Exists_cons_tl]. Qed.

Lemma visit_package_grown b h k p n s :
  xpkg_ok k -> string_ok h k -> found b p (enc_pkg (xpkg_of k)) ->
  room (length (pkg_cards h k) + n + need s.2) s.2 ->
  exists s', visit_package GetString h b p s = Done s' /\ grown s n (pkg_cards h k) s'.
Proof using.
  intros Hk Hs Hf Hr. destruct (pkg_item _ _ _ (proj1 Hk) Hf) as [_ Et].
  unfold visit_package. rewrite Et, bind_Done.
  assert (Hsame : forall n, room (n + need s.2) s.2 -> grown s n [] s).
  { intros m Hm. destruct s. by apply grown_nil. }
  unfold pkg_cards in *. destruct k as [f|ty d]; cbn [formset_title xpkg_of k_type] in *.
  2:{ destruct Hk as [_ Hne]. rewrite (proj2 (Z.eqb_neq _ _) Hne). exists s. split; [done|by apply Hsame]. }
  rewrite Z.eqb_refl. destruct Hk as (_ & _ & Hnil & Hfs).
  destruct (head_op f) as [[c pl]|] eqn:Eh; [|by destruct f].
  destruct (head_op_enc f c pl Eh) as (sc & rest & Ee).
  apply found_app in Hf as [_ Hd]. rewrite zlen_pkg_header in Hd. cbn [xpkg_of k_data] in Hd. rewrite Ee in Hd.
  apply found_app in Hd as [Hop _]. pose proof (found_op_code _ _ _ _ _ Hop) as Ec.
  change (p + PKG_HEADER) with (p + 4). rewrite Ec, bind_Done.
  destruct (Z.eqb_spec c EFI_IFR_FORM_SET_OP) as [->|Hne]; [|exists s; split; [done|by apply Hsame]].
  unfold FORM_SET_FormSetTitle, rd16. replace (p + 4 + 18) with (p + 4 + 2 + 16) by lia.
  rewrite (found_part _ _ pl 16 2 (found_payload _ _ _ _ _ Hop)), !bind_Done
    by (lia || (specialize (Hfs pl eq_refl); lia)).
  change (take (Z.to_nat 2) (drop (Z.to_nat 16) pl)) with (take 2 (drop 16 pl)).
  set (id := le_val _) in *. assert (Hid : formset_title (XForms f) = Some id) by (cbn; by rewrite Eh).
  destruct s as [b0 c0]. cbn [fst snd] in *. rewrite length_map in Hr.
  destruct (GetHiiString_grown b0 _ h _ id c0 Hr Hs Hid) as (c1 & E & Hg). rewrite E.
  destruct (match_names_grown RaidName h (snd (GetString h id)) n (b0, c1) RaidName_closed) as (s' & E' & Hg').
  { apply Hg. }
  exists s'. split; [exact E'|]. exact (grown_trans _ _ _ [] _ _ _ Hg Hg').
Qed.

Lemma packages_grown b h ks : forall p n s,
  Forall xpkg_ok ks -> Forall (string_ok h) ks -> found b p (enc_xpkgs ks) ->
  room (length (list_cards h ks) + n + need s.2) s.2 ->
  exists s', runM (visit_package GetString h b) enc_pkg (map xpkg_of ks) p s = Done s' /\
    grown s n (list_cards h ks) s'.
Proof using.
  induction ks as [|k ks IH]; intros p n s Hk Hs Hf Hr; cbn [map runM].
  { exists s. split; [done|]. destruct s. by apply grown_nil. }
  unfold enc_xpkgs, enc_pkgs in Hf. cbn [map concat] in Hf. apply found_app in Hf as [Hf Hf2].
  apply Forall_cons in Hk as [Hk Hks]. apply Forall_cons in Hs as [Hs Hss].
  unfold list_cards in *. cbn [map concat] in *. rewrite length_app in Hr.
  destruct (visit_package_grown b h k p (length (list_cards h ks) + n) s Hk Hs Hf) as (s1 & E1 & Hg1).
  { unfold list_cards. eapply room_le; [|exact Hr]. lia. }
  rewrite E1, bind_Done. destruct (IH _ n s1 Hks Hss Hf2) as (s2 & E2 & Hg2); [apply Hg1|].
  exists s2. split; [exact E2|]. by eapply grown_trans.
Qed.

Lemma GetHiiPackageList_grown b h n hs c :
  handle_ok h -> room (S n + need c) c ->
  exists c', GetHiiPackageList (db_of lists hs) h c = Done (match lists h with
      | Some (g, ks) => let l := enc_list (mkList g (map xpkg_of ks)) in
          Some (l ++ replicate (Z.to_nat (MAX_HPK_LIST_SIZE - zlen l)) 0)
      | None => None end, c') /\ grown (b, c) n [] (b, c').
Proof using.
  intros (Hh & Hs & _) Hr. destruct (room_alloc _ _ Hr) as (a & c1 & Ea & Ha & Hr1 & Hn & Hk).
  exists c1. split; [|apply grown_nil; [done|by rewrite Hn|done]]. unfold GetHiiPackageList.
  rewrite (proj2 (Z.eqb_neq h 0) Hh), Ea, (proj2 (Z.eqb_neq a 0) Ha). cbn [db_of db_export].
  unfold source_ok in Hs. destruct (lists h) as [[g ks]|]; [|done]. destruct Hs as (_ & _ & Hl).
  cbn [EFI_ERROR]. by replace (MAX_HPK_LIST_SIZE <? _) with false by lia.
Qed.

Lemma list_walk h g ks n s :
  let b := enc_list (mkList g (map xpkg_of ks)) ++ replicate
    (Z.to_nat (MAX_HPK_LIST_SIZE - zlen (enc_list (mkList g (map xpkg_of ks))))) 0 in
  list_ok (mkList g (map xpkg_of ks)) -> Forall xpkg_ok ks -> Forall (string_ok h) ks ->
  room (length (list_cards h ks) + n + need s.2) s.2 ->
  exists len s', pkg_list_length b 0 = Done len /\
    for_each pkg_length b len (visit_package GetString h b) PKG_LIST_HEADER s = Done s' /\
    grown s n (list_cards h ks) s'.
Proof using.
  intros b Hl Hk Hs Hr. set (l := enc_list _) in b.
  pose proof (found_at [] l (replicate (Z.to_nat (MAX_HPK_LIST_SIZE - zlen l)) 0)) as Hf.
  change (found b 0 l) in Hf. clearbody b.
  destruct (list_item b _ 0 Hl Hf) as [El Hp]. change (0 + PKG_LIST_HEADER) with PKG_LIST_HEADER in Hp.
  cbn [l_pkgs] in Hp. destruct (packages_grown b h ks _ n s Hk Hs Hp Hr) as (s' & E & Hg).
  exists (zlen l), s'. split; [exact El|]. split; [|exact Hg].
  rewrite (for_each_items _ _ _ _ enc_pkg (map xpkg_of ks)); [exact E|exact Hp| | |].
  - unfold l. by rewrite (zlen_enc_list _ Hl).
  - intros x q Hx Hq. apply pkg_item; [|done].
    apply list_elem_of_fmap in Hx as (k & -> & Hx). rewrite Forall_forall in Hk. by apply (Hk k).
  - intros x _. apply pkg_pos.
Qed.

Lemma scan_handles_grown all hs : forall n s,
  Forall handle_ok hs -> room (length hs + length (db_cards hs) + n + need s.2) s.2 ->
  exists s', scan_handles (db_of lists all) GetString (hs ++ [0]) s = Done s' /\ grown s n (db_cards hs) s'.
Proof using.
  induction hs as [|h hs IH]; intros n s Hhs Hr; cbn [app scan_handles db_cards] in *.
  { exists s. split; [done|]. destruct s. by apply grown_nil. }
  apply Forall_cons in Hhs as [Hh Hhs]. destruct s as [b0 c0]. cbn [fst snd length] in *.
  rewrite (proj2 (Z.eqb_neq h 0)) by apply Hh.
  set (m := (length hs + length match lists h with
     | Some (_, ks) => list_cards h ks ++ db_cards hs | None => [] end + n)%nat).
  destruct (GetHiiPackageList_grown b0 h m all c0 Hh) as (c1 & E & Hg).
  { eapply room_le; [|exact Hr]. lia. }
  rewrite E, bind_Done. destruct Hh as (_ & Hsrc & Hstr). unfold source_ok in Hsrc. subst m.
  destruct (lists h) as [[g ks]|]; [|exists (b0, c1); split; [done|]].
  2:{ destruct Hg as (H1 & H2 & H3). split_and!; [done| |done]. eapply room_le; [|exact H2]. cbn; lia. }
  destruct Hsrc as (Hlo & Hxo & _). cbv zeta. rewrite length_app in *.
  destruct (list_walk h g ks (length hs + length (db_cards hs) + n) (b0, c1) Hlo Hxo (Hstr g ks eq_refl))
    as (len & s1 & El & E1 & Hg1).
  { destruct Hg as (_ & H2 & _). eapply room_le; [|exact H2]. cbn; lia. }
  rewrite El, bind_Done, E1, bind_Done.
  destruct (IH n s1 Hhs) as (s2 & E2 & Hg2); [apply Hg1|].
  exists s2. split; [exact E2|]. apply (grown_trans _ _ _ [] _ _ _ Hg). by eapply grown_trans.
Qed.

Lemma Search_grown hs n c :
  Forall handle_ok hs -> room (S (length hs + length (db_cards hs)) + n + need c) c ->
  exists s', SearchForLsiFormSetByHiiOrder (db_of lists hs) GetString c = Done s' /\
    grown (false, c) n (db_cards hs) s'.
Proof using.
  intros Hhs Hr. unfold SearchForLsiFormSetByHiiOrder, GetListPackageListsHandle. cbn [db_of db_handles].
  destruct hs as [|h hs].
  { exists (false, c). split; [done|]. apply grown_nil; [done| |done]. eapply room_le; [|exact Hr]. cbn; lia. }
  set (l := h :: hs) in *. destruct (room_alloc _ _ Hr) as (a & c1 & Ea & Ha & Hr1 & Hn & Hk).
  rewrite Ea, (proj2 (Z.eqb_neq a 0) Ha). cbn [EFI_ERROR].
  assert (Hg : grown (false, c) (length l + length (db_cards l) + n) [] (false, c1)).
  { apply grown_nil; [done|by rewrite Hn|done]. }
  destruct (scan_handles_grown l l n (false, c1) Hhs) as (s' & E & Hg'); [apply Hg|].
  exists s'. split; [exact E|]. exact (grown_trans _ _ _ [] _ _ _ Hg Hg').
Qed.

(** the search adds, behind the cards there are, one card for
    each form set whose title begins with a name of the table, in the order of
    the handles and of the table, and reports whether there was one; the list
    stays linked from the global to the last card, and every card has the table
    entries of its type and is numbered by the cards of its type before it, in
    8 bits. A second search therefore adds every card again. *)
Theorem SearchForLsiFormSet_correct hs c ps l :
  cards_wf c ps l -> Forall handle_ok hs -> Forall (fun a => a <> 0) (avail c) ->
  (length hs + length (db_cards hs) + 2 <= length (avail c))%nat ->
  exists c' ps',
    SearchForLsiFormSetByHiiOrder (db_of lists hs) GetString c =
      Done (negb (bool_decide (db_cards hs = [])), c') /\
    cards_wf c' (ps ++ ps') (add_cards l (db_cards hs)).
Proof using.
  intros Hw Hhs Hz Hl. destruct (Search_grown hs 0 c Hhs) as ([b c'] & E & Hb & _ & Hg).
  { split_and!; [|done|by eauto]. unfold need. destruct (StringTemp c); lia. }
  destruct (Hg ps l Hw) as (ps' & Hw'). exists c', ps'. cbn [fst orb] in Hb. subst b. done.
Qed.
End cards_of.

(** ** The driver's states *)
Lemma entry_cards {W} Install a (w : W) st s :
  NoDup (nonzero a) -> SmcLsiRaidOOBSetupEntry Install a w = Done (st, s) ->
  cards_wf (cards s) [] [] /\ avail (cards s) = drop 2 a /\ StringTemp (cards s) = false /\
  Process (pPrivate s) = DRIVER_INITIAL /\ HaveRaidResource (pPrivate s) = false.
Proof.
  intros Ha H. unfold SmcLsiRaidOOBSetupEntry in H.
  assert (Hw : cards_wf (mkCards ∅ 0 0 0 0 0 false a) [] []).
  { constructor; try done; [constructor|by intros x _ ?%not_elem_of_nil|by intros []]. }
  destruct (AllocatePool _) as [p c1] eqn:E1. destruct (AllocatePool c1) as [q c2] eqn:E2.
  destruct (AllocatePool_wf _ _ _ _ _ Hw E1) as (Hw1 & _). destruct (AllocatePool_wf _ _ _ _ _ Hw1 E2) as (Hw2 & _).
  destruct ((p =? 0) || (q =? 0)) eqn:Ez; [done|]. injection H as <- <-. cbn [cards pPrivate].
  apply orb_false_iff in Ez as [Ep Eq]. unfold AllocatePool in E1, E2. cbn [avail] in E1.
  destruct a as [|x a]; injection E1 as <- <-; [done|]. cbn [avail set_avail] in E2.
  destruct a as [|y a]; injection E2 as <- <-; done.
Qed.

Inductive driver_call :=
| Start | Download | LoadR
| GetNvData (ReNew : bool) (pNVStruct : option nv_var)
| CollectData (VarName VarGuid VarBuffer : list Z)
| HandleDataStart.

Section states.
Context {W : Type} (lib : Library W) (db : hii_db) (GetString : Z -> Z -> EFI_STATUS * list Z).
Context (InstallProtocolInterface : raid_interface -> W -> EFI_STATUS * W) (LoadResources : W -> EFI_STATUS * Z * W).
Context (STR_SMC_LSI_OOB_TITLE : Z).

Definition run_call (o : driver_call) (s : Driver W) : Res (EFI_STATUS * Driver W) :=
  match o with
  | Start => SmcLsiOOBSetupDriverStart db GetString InstallProtocolInterface STR_SMC_LSI_OOB_TITLE s
  | Download => Done (SmcLsiOOBSetupDriverDownload lib s)
  | LoadR => Done (SmcLsiOOBSetupDriverLoadResource lib LoadResources s)
  | GetNvData r nv => let '(Status, _, s) := SmcLsiOOBSetupDriverGetNvData lib r nv s in Done (Status, s)
  | CollectData n g d => Done (SmcLsiOOBSetupDriverCollectData lib n g d s)
  | HandleDataStart => Done (SmcLsiOOBSetupDriverHandleDataStart lib s)
  end.

(** The states reached from the entry point, with the calls made and their
    statuses. *)
Inductive reached : list (driver_call * EFI_STATUS) -> Driver W -> Prop :=
| reached_entry a w Status s :
    NoDup (nonzero a) ->
    SmcLsiRaidOOBSetupEntry InstallProtocolInterface a w = Done (Status, s) -> reached [] s
| reached_call calls o s Status s' :
    reached calls s -> run_call o s = Done (Status, s') -> reached (calls ++ [(o, Status)]) s'.

Definition driver_wf (s : Driver W) : Prop :=
  let p := pPrivate s in
  Process p <> DRIVER_NON /\
  (HaveRaidResource p = true <-> Process p <> DRIVER_INITIAL) /\
  exists ps l, cards_wf (cards s) ps l /\
    (Process p <> DRIVER_INITIAL -> ps <> [] /\ table p = mSmcLsiHiiHandleTable (cards s)).

(** A download succeeded, and since then every [Start] found no card. *)
Definition downloaded (calls : list (driver_call * EFI_STATUS)) : Prop :=
  exists before after, calls = before ++ (Download, EFI_SUCCESS) :: after /\
    Forall (fun x => fst x = Start -> snd x = EFI_LOAD_ERROR) after.

Lemma downloaded_more calls o st :
  downloaded calls -> (o = Start -> st = EFI_LOAD_ERROR) -> downloaded (calls ++ [(o, st)]).
Proof using.
  intros (b & a & -> & Ha) Ho. exists b, (a ++ [(o, st)]). split; [by rewrite <- app_assoc|].
  apply Forall_app. split; [done|]. by constructor.
Qed.

(** The same phase and cards. *)
Definition same_phase (s s' : Driver W) : Prop :=
  cards s' = cards s /\ Process (pPrivate s') = Process (pPrivate s) /\
  HaveRaidResource (pPrivate s') = HaveRaidResource (pPrivate s) /\ table (pPrivate s') = table (pPrivate s).

Lemma call_phase f s st s' : call f s = (st, s') -> same_phase s s'.
Proof using. unfold call. destruct (f _ _ _) as [[st0 i] w]. by intros [= <- <-]. Qed.

Lemma same_phase_wf s s' : same_phase s s' -> driver_wf s -> driver_wf s'.
Proof using. unfold driver_wf. intros (-> & -> & -> & ->). done. Qed.

Lemma other_phase o s st s' :
  o <> Start -> o <> Download -> run_call o s = Done (st, s') -> same_phase s s'.
Proof using.
  intros H1 H2. destruct o; try done; cbn [run_call]; intros H.
  - injection H as H. unfold SmcLsiOOBSetupDriverLoadResource in H.
    destruct (decide _); [|by injection H as <- <-]. destruct (LoadResources _) as [[st0 h] w].
    destruct (EFI_ERROR st0); [by injection H as <- <-|]. by apply call_phase in H.
  - unfold SmcLsiOOBSetupDriverGetNvData in H. destruct pNVStruct as [nv|]; [|by injection H as <- <-].
    destruct (decide _); [|by injection H as <- <-].
    destruct (SmcLsiRaidLib_ParseNvData _ _ _ _ _ _) as [[[st0 nv'] i] w]. by injection H as <- <-.
  - injection H as H. unfold SmcLsiOOBSetupDriverCollectData in H.
    destruct (decide _); [by apply call_phase in H|by injection H as <- <-].
  - injection H as H. unfold SmcLsiOOBSetupDriverHandleDataStart in H.
    destruct (decide _); [by apply call_phase in H|by injection H as <- <-].
Qed.

Lemma Download_phase s st s' :
  SmcLsiOOBSetupDriverDownload lib s = (st, s') ->
  same_phase s s' \/
  st = EFI_SUCCESS /\ cards s' = cards s /\ Process (pPrivate s') = DRIVER_DOWNLOAD /\
    table (pPrivate s') = table (pPrivate s) /\ HaveRaidResource (pPrivate s') = true /\
    HaveRaidResource (pPrivate s) = true.
Proof using.
  unfold SmcLsiOOBSetupDriverDownload. destruct (HaveRaidResource (pPrivate s)) eqn:Eh; [|intros [= <- <-]; by left].
  cbn [andb]. destruct (_ <=? _); [|intros [= <- <-]; by left].
  destruct (call _ s) as [st0 s0] eqn:Ec. apply call_phase in Ec.
  destruct st0; intros [= <- <-]; try (by left). right. destruct Ec as (E1 & E2 & E3 & E4). cbn. by rewrite E1, E3, E4.
Qed.

Lemma Start_phase s st s' :
  driver_wf s -> run_call Start s = Done (st, s') ->
  driver_wf s' /\ (Process (pPrivate s') = DRIVER_DOWNLOAD -> Process (pPrivate s) = DRIVER_DOWNLOAD /\ st = EFI_LOAD_ERROR).
Proof using.
  intros (Hn & Hh & ps & l & Hw & Ht). cbn [run_call]. unfold SmcLsiOOBSetupDriverStart.
  intros ([b c] & E & H)%bind_inv.
  assert (Hk : found_wf ps (b, c)).
  { eapply Search_keeps; [|exact E]. exists [], l. by rewrite app_nil_r. }
  destruct b; cbn [negb] in H.
  - destruct (AllocatePool c) as [a c1] eqn:Ea. apply (found_wf_pool _ _ _ _ _ Ea) in Hk as (qs & l' & Hw' & Hq).
    destruct (a =? 0); [done|]. destruct (InstallProtocolInterface _ _) as [st0 w]. injection H as <- <-.
    split; [|done]. split; [done|]. split; [done|]. exists (ps ++ qs), l'. split; [done|]. intros _. by split; [apply Hq|].
  - injection H as <- <-. split; [|done]. destruct Hk as (qs & l' & Hw' & _). split; [done|]. split; [done|].
    exists (ps ++ qs), l'. split; [done|]. intros Hp. destruct (Ht Hp) as [Hps Htb]. split.
    + by destruct ps.
    + cbn [pPrivate cards]. rewrite Htb. pose proof (wf_chain _ _ _ Hw) as H1. pose proof (wf_chain _ _ _ Hw') as H2.
      destruct ps as [|x ps]; [done|]. cbn [app fst snd] in H2.
      apply chain_head in H1 as [H1 _]. apply chain_head in H2 as [H2 _]. congruence.
Qed.

Lemma reached_wf calls s :
  reached calls s -> driver_wf s /\ (Process (pPrivate s) = DRIVER_DOWNLOAD -> downloaded calls).
Proof using.
  induction 1 as [a w Status s Ha H|calls o s Status s' _ [IH IHd] H].
  - destruct (entry_cards _ _ _ _ _ Ha H) as (Hw & _ & _ & Hp & Hh). unfold driver_wf. rewrite Hp, Hh.
    split; [|done]. split; [done|]. split; [done|]. by exists [], [].
  - assert (Ho : o = Start \/ o = Download \/ (o <> Start /\ o <> Download)) by (destruct o; auto).
    destruct Ho as [->|[->|[Ho Ho']]].
    + destruct (Start_phase _ _ _ IH H) as [Hw Hd]. split; [done|]. intros Hp.
      destruct (Hd Hp) as [Hp0 ->]. apply downloaded_more; [by apply IHd|done].
    + cbn [run_call] in H. injection H as H. destruct (Download_phase _ _ _ H) as [Hs|Hd].
      * split; [by eapply same_phase_wf|]. destruct Hs as (_ & -> & _). intros Hp. apply downloaded_more; [by apply IHd|done].
      * destruct Hd as (-> & E1 & E2 & E3 & E4 & E5). split; [|intros _; by exists calls, []].
        destruct IH as (_ & Hh & ps & l & Hw & Ht). unfold driver_wf. rewrite E1, E2, E3, E4.
        split; [done|]. split; [done|]. exists ps, l. split; [done|]. intros _. by apply Ht, Hh.
    + pose proof (other_phase _ _ _ _ Ho Ho' H) as Hs.
      split; [by eapply same_phase_wf|]. destruct Hs as (_ & -> & _). intros Hp. apply downloaded_more; [by apply IHd|done].
Qed.

(** C38: (invariant) in every state the driver reaches from its entry point,
    whatever the order of the calls, the list of cards is well formed, an
    installed driver has a card and publishes the head of the list; and as long
    as no download succeeded after the last start that found cards, each call
    for data or resources returns EFI_NOT_READY and changes nothing, the library
    is not run, and the BIOS configuration image gets no variable of the
    driver. *)
Theorem data_only_after_download calls s :
  reached calls s ->
  driver_wf s /\
  (~ downloaded calls ->
     SmcLsiOOBSetupDriverLoadResource lib LoadResources s = (EFI_NOT_READY, s) /\
     (forall r nv, SmcLsiOOBSetupDriverGetNvData lib r (Some nv) s = (EFI_NOT_READY, Some nv, s)) /\
     (forall n g d, SmcLsiOOBSetupDriverCollectData lib n g d s = (EFI_NOT_READY, s)) /\
     SmcLsiOOBSetupDriverHandleDataStart lib s = (EFI_NOT_READY, s) /\
     raid_yields (Some (raid_driver lib)) s [] s).
Proof using.
  intros H. destruct (reached_wf _ _ H) as [Hw Hd]. split; [done|]. intros Hn.
  assert (Hp : Process (pPrivate s) <> DRIVER_DOWNLOAD) by auto.
  unfold SmcLsiOOBSetupDriverLoadResource, SmcLsiOOBSetupDriverGetNvData, SmcLsiOOBSetupDriverCollectData,
    SmcLsiOOBSetupDriverHandleDataStart, raid_yields, raid_chain, raid_driver, SmcLsiSetupDriverGetNvData,
    SmcLsiOOBSetupDriverGetNvData.
  split_and!; intros; by rewrite decide_False.
Qed.
End states.

Lemma Download_installed {W} (lib : Library W) s :
  HaveRaidResource (pPrivate s) = true -> Process (pPrivate s) = DRIVER_INSTALL ->
  (forall c i w, fst (fst (SmcLsiRaidLib_DownLoad lib c i w)) = EFI_SUCCESS) ->
  exists s', SmcLsiOOBSetupDriverDownload lib s = (EFI_SUCCESS, s') /\ cards s' = cards s /\
    Process (pPrivate s') = DRIVER_DOWNLOAD.
Proof.
  intros Hh Hp Hlib. unfold SmcLsiOOBSetupDriverDownload, call. rewrite Hh, Hp. cbn [andb].
  change (process_value DRIVER_INSTALL <=? process_value DRIVER_INSTALL) with true. cbv iota.
  specialize (Hlib (cards s) (ids (pPrivate s)) (machine s)).
  destruct (SmcLsiRaidLib_DownLoad _ _ _ _) as [[st i] w]. cbn [fst] in Hlib. subst st. by eexists.
Qed.

(** the sequence of the DXE driver gets there: when the database
    has a card, the pool has room, the protocol is installed and the library
    downloads its data, [Start] and then [Download] succeed and the driver
    serves data calls with exactly the cards of the database; without a card
    [Start] fails and [Download] is refused. *)
Theorem Start_Download_ready {W} (lib : Library W) lists GetString Install title hs a w st s :
  NoDup (nonzero a) -> Forall (fun x => x <> 0) a ->
  (length hs + length (db_cards GetString lists hs) + 5 <= length a)%nat ->
  Forall (handle_ok GetString lists) hs ->
  (forall w, fst (Install SetupProtocol_interface w) = EFI_SUCCESS) ->
  (forall c i w, fst (fst (SmcLsiRaidLib_DownLoad lib c i w)) = EFI_SUCCESS) ->
  SmcLsiRaidOOBSetupEntry Install a w = Done (st, s) ->
  exists st1 s1 st2 s2,
    SmcLsiOOBSetupDriverStart (db_of lists hs) GetString Install title s = Done (st1, s1) /\
    SmcLsiOOBSetupDriverDownload lib s1 = (st2, s2) /\
    (exists ps, cards_wf (cards s2) ps (add_cards [] (db_cards GetString lists hs))) /\
    if decide (db_cards GetString lists hs = [])
    then st1 = EFI_LOAD_ERROR /\ st2 = EFI_NOT_READY /\ Process (pPrivate s2) = DRIVER_INITIAL
    else st1 = EFI_SUCCESS /\ st2 = EFI_SUCCESS /\ Process (pPrivate s2) = DRIVER_DOWNLOAD.
Proof.
  intros Hd Hz Hl Hhs Hi Hlib He. destruct (entry_cards _ _ _ _ _ Hd He) as (Hw & Ha & Hst & Hp & Hh).
  destruct (Search_grown GetString lists hs 1 (cards s) Hhs) as ([b c'] & E & Hb & Hr & Hg).
  { split_and!; [|rewrite Ha; by apply Forall_drop|by eauto]. unfold need. rewrite Hst, Ha, length_drop. lia. }
  destruct (Hg _ _ Hw) as (ps & Hw'). cbn [fst snd app orb] in *. unfold SmcLsiOOBSetupDriverStart. rewrite E, bind_Done, Hb.
  destruct (decide (db_cards GetString lists hs = [])) as [Hn|Hn].
  - rewrite bool_decide_true by done. eexists _, _, _, _. split; [done|].
    unfold SmcLsiOOBSetupDriverDownload. cbn [pPrivate negb]. rewrite Hh. split; [done|]. by split; [eauto|].
  - rewrite bool_decide_false by done. cbn [negb].
    destruct (room_alloc (need c') c') as (x & c1 & -> & Hx & _ & _ & Hk).
    { eapply room_le; [|exact Hr]. lia. }
    rewrite (proj2 (Z.eqb_neq x 0) Hx). specialize (Hi (machine s)).
    destruct (Install SetupProtocol_interface (machine s)) as [st1 w1]. cbn [fst] in Hi. subst st1.
    set (d := mkDriver c1 _ w1). destruct (Download_installed lib d eq_refl eq_refl Hlib) as (s2 & E2 & E3 & E4).
    exists EFI_SUCCESS, d, EFI_SUCCESS, s2. split; [done|]. split; [done|]. split; [|done].
    exists ps. rewrite E3. by apply Hk.
Qed.

(** ** Examples *)
Definition raid_lists (h : Z) : option (list Z * list xpkg) :=
  if (h =? 0x40) || (h =? 0x41) then demo_lists 0x40 else None.
Definition raid_titles (h id : Z) : EFI_STATUS * list Z :=
  (EFI_SUCCESS, if h =? 0x40 then lit "AVAGO MegaRAID <AVAGO 3108 MegaRAID> Configuration Utility"
                else lit "Intel RSTe SATA Controller").
Definition no_cards (a : list Z) : Cards := mkCards ∅ 0 0 0 0 0 false a.
Definition demo_lib : Library Z :=
  mkLib _ (fun _ i w => (EFI_SUCCESS, i, w + 1)) (fun _ i w => (EFI_SUCCESS, i, w))
    (fun _ _ nv i w => (EFI_NOT_FOUND, nv, i, w)) (fun _ _ _ _ i w => (EFI_SUCCESS, i, w))
    (fun _ i w => (EFI_SUCCESS, i, w)).
Definition demo_install (i : raid_interface) (w : Z) : EFI_STATUS * Z := (EFI_SUCCESS, w).

Lemma no_cards_wf a : NoDup (nonzero a) -> cards_wf (no_cards a) [] [].
Proof.
  intros Ha. constructor; try done; [constructor|by intros x _ ?%not_elem_of_nil|by intros []].
Qed.

Lemma raid_handles_ok : Forall (handle_ok raid_titles raid_lists) [0x40; 0x41; 0x42].
Proof.
  pose proof demo_source as Hs. apply Forall_cons in Hs as [Hs _].
  assert (H1 : forall h, h = 0x40 \/ h = 0x41 -> handle_ok raid_titles raid_lists h).
  { intros h Hh. split; [lia|]. split; [by destruct Hh as [-> | ->]|]. intros g ks E.
    assert (E' : demo_lists 0x40 = Some (g, ks)) by (destruct Hh as [-> | ->]; exact E).
    injection E' as <- <-. constructor; [by intros id [=]|]. constructor; [|constructor].
    intros id _. split; [done|]. destruct Hh as [-> | ->]; vm_compute; discriminate. }
  constructor; [apply H1; auto|]. constructor; [apply H1; auto|]. constructor; [|constructor].
  split; [done|]. by split.
Qed.

Lemma SearchForLsiFormSet_correct_witness :
  exists c' ps', SearchForLsiFormSetByHiiOrder (db_of raid_lists [0x40; 0x41; 0x42]) raid_titles
      (no_cards [10; 20; 30; 40; 50; 60; 70; 80]) = Done (true, c') /\
    cards_wf c' ps' [new_card RAID_3108 0 0x40; new_card RAID_RSTE 0 0x41].
Proof.
  destruct (SearchForLsiFormSet_correct raid_titles raid_lists [0x40; 0x41; 0x42]
    (no_cards [10; 20; 30; 40; 50; 60; 70; 80]) [] []) as (c' & ps' & E & Hw).
  - apply no_cards_wf. repeat constructor; vm_compute; intros H%list_elem_of_In; cbn in H; lia.
  - exact raid_handles_ok.
  - repeat constructor; done.
  - vm_compute. lia.
  - exists c', ps'. split; [exact E|exact Hw].
Defined.

Definition demo_pool : list Z := [10; 20; 30; 40; 50; 60; 70; 80; 90; 100; 110].

Lemma demo_pool_ok : NoDup (nonzero demo_pool) /\ Forall (fun a => a <> 0) demo_pool.
Proof.
  split; [|by repeat constructor].
  repeat constructor; vm_compute; intros H%list_elem_of_In; cbn in H; lia.
Qed.

Lemma Start_Download_ready_witness :
  exists s st1 s1 s2,
    SmcLsiRaidOOBSetupEntry demo_install demo_pool 0 = Done (EFI_SUCCESS, s) /\
    SmcLsiOOBSetupDriverStart (db_of raid_lists [0x40; 0x41; 0x42]) raid_titles demo_install 2 s = Done (st1, s1) /\
    SmcLsiOOBSetupDriverDownload demo_lib s1 = (EFI_SUCCESS, s2) /\ Process (pPrivate s2) = DRIVER_DOWNLOAD.
Proof.
  destruct demo_pool_ok as [H1 H2]. eexists.
  destruct (Start_Download_ready demo_lib raid_lists raid_titles demo_install 2 [0x40; 0x41; 0x42] demo_pool 0
    EFI_SUCCESS _ H1 H2 ltac:(vm_compute; lia) raid_handles_ok ltac:(done) ltac:(done) eq_refl)
    as (st1 & s1 & st2 & s2 & E1 & E2 & _ & _ & -> & E3).
  exists st1, s1, s2. split; [reflexivity|]. split; [exact E1|]. by split.
Defined.

Lemma data_only_after_download_witness :
  exists s, reached demo_lib (db_of raid_lists []) raid_titles demo_install (fun w => (EFI_SUCCESS, 0, w)) 2
      [(Download, EFI_NOT_READY)] s /\
    SmcLsiOOBSetupDriverHandleDataStart demo_lib s = (EFI_NOT_READY, s).
Proof.
  assert (H : exists s, reached demo_lib (db_of raid_lists []) raid_titles demo_install (fun w => (EFI_SUCCESS, 0, w)) 2
      [(Download, EFI_NOT_READY)] s).
  { eexists. eapply (reached_call _ _ _ _ _ _ []).
    - eapply (reached_entry _ _ _ _ _ _ demo_pool 0); [apply demo_pool_ok|reflexivity].
    - reflexivity. }
  destruct H as [s H]. exists s. split; [exact H|].
  apply (data_only_after_download _ _ _ _ _ _ _ _ H).
  intros (b & a & E & _). destruct b as [|x [|y b]]; discriminate.
Defined.
