(* ===== verification/SmcLibBmc.v ===== *)
(** * The BMC library

    Models the file transfer part of [SmcPkg/SmcLib/SmcLibBmc.c] (the build
    with [OOB_READ_DATA_FROM_DRAM]) and the functions of
    [SmcOOB/Sample/SmcOobPlatformPolicy] that publish it as
    [SMC_IPMI_OEM_COMMAND_SET_PROTOCOL]. Data goes through a window of 64 KB
    onto the memory of the BMC, commands go over IPMI. The VGA device with
    its bridge ([VideoDevice] over [Ast]) and the firmware behind the IPMI
    commands ([BmcFirmware] over [Ipmi]) are interfaces; over them the library is an instance of [Bmc]. *)

From S2P Require Import Prelude Services PhysMem Bmc.

Definition OOB_IPMI_COMMAND_RETRY : nat := 20.
Definition SMC_IPMI_RETRY : nat := 5.
Definition IPMI_VIDEO_MEMORY_OFFSET : Z := 0xF00000.

(** ** The hardware and the firmware of the BMC *)

(** PCI configuration space and memory-mapped accesses. *)
Class Ast (M : Type) := {
  PciRead32 : Z -> Z -> Z;
  PciRead8 : Z -> Z -> Z;
  MmioRead8 : Z -> M -> Z;
  MmioRead32 : Z -> M -> Z;
  MmioWrite32 : Z -> Z -> M -> M;
  MmioCopyFrom : Z -> Z -> M -> list Z;
  MmioCopyTo : Z -> list Z -> M -> M;
}.

(** [SendIpmiCommand] to function 0x30, command 0xA0: the status and the
    response. *)
Class Ipmi (M : Type) := { SendIpmiCommand : list Z -> M -> EFI_STATUS * list Z * M }.

(** ** The globals *)
Record statics := mkStatics {
  mIpmiTransport : bool; IVBar : Z; AstMmioBar : Z; AstRevision : Z;
  mP2AEnable : Z; mP2ARemapping : Z; mP2Abar : Z;
  mDramConfig : Z; mDramSize : Z; mDramBase : Z; mRemappingBase : Z }.

Definition statics0 : statics := mkStatics false 0 0 0 0 0 0 0 0 0 0.

(** Size and base of the BMC's memory by the revision of the device (the
    high digit tells AST2500 from AST2400) and two bits of configuration. *)
Definition dram_size (digit config : Z) : Z :=
  if digit =? 4 then
    if config =? 3 then 0x40000000 else if config =? 2 then 0x20000000
    else if config =? 1 then 0x10000000 else if config =? 0 then 0x8000000 else 0
  else if digit =? 3 then
    if config =? 3 then 0x20000000 else if config =? 2 then 0x10000000
    else if config =? 1 then 0x8000000 else if config =? 0 then 0x4000000 else 0
  else 0.
Definition dram_base (digit : Z) : Z :=
  if digit =? 4 then 0x80000000 else if digit =? 3 then 0x40000000 else 0.

Section library.
Context {M : Type} `{Ast M} `{Ipmi M}.

Record lib := mkLib { lm : M; ls : statics }.

Definition on_hw (f : M -> M) (x : lib) : lib := mkLib (f (lm x)) (ls x).

(** The vendor and device of the VGA; whether the IPMI protocol is there. *)
Context (IPMI_VGA_SVID : Z) (located : bool).

Definition SmcLibLocateIpmiProtocol (x : lib) : EFI_STATUS * lib :=
  let s := ls x in
  if mIpmiTransport s then (EFI_SUCCESS, x)
  else if located then
    (EFI_SUCCESS, mkLib (lm x) (mkStatics true (IVBar s) (AstMmioBar s) (AstRevision s) (mP2AEnable s)
      (mP2ARemapping s) (mP2Abar s) (mDramConfig s) (mDramSize s) (mDramBase s) (mRemappingBase s)))
  else (EFI_NOT_FOUND, x).

(** [for(bus = 1; bus < 255; bus++)]: the bus of the device. *)
Definition find_bus : option Z :=
  list_find (fun bus => PciRead32 bus 0x0 = IPMI_VGA_SVID) (map Z.of_nat (seq 1 254)) ≫= (fun p => Some (snd p)).

(** The part under [OOB_READ_DATA_FROM_DRAM]. *)
Definition map_dram (x : lib) : lib :=
  let s := ls x in
  if (mDramBase s =? 0) && negb (AstMmioBar s =? 0) && negb (AstRevision s =? 0) then
    let mP2AEnable := AstMmioBar s + 0xF000 in
    let mP2ARemapping := AstMmioBar s + 0xF004 in
    let mP2Abar := AstMmioBar s + 0x10000 in
    let m := MmioWrite32 mP2ARemapping 0x1E6E0000 (lm x) in
    let m := MmioWrite32 mP2AEnable 1 m in
    let mDramConfig := Z.land (MmioRead8 (mP2Abar + 4) m) 3 in
    let digit := Z.shiftr (AstRevision s) 4 in
    let supported := (digit =? 4) || (digit =? 3) in
    let mDramBase := if supported then dram_base digit else mDramBase s in
    let mDramSize := if supported then dram_size digit mDramConfig else mDramSize s in
    let mRemappingBase := u32 (mDramBase + mDramSize - 0x100000) in
    let m := MmioWrite32 mP2ARemapping mRemappingBase m in
    let m := MmioWrite32 mP2AEnable 0 m in
    mkLib m (mkStatics (mIpmiTransport s) (IVBar s) (AstMmioBar s) (AstRevision s) mP2AEnable mP2ARemapping mP2Abar
      mDramConfig mDramSize mDramBase mRemappingBase)
  else x.

Definition set_bars (v bar rev : Z) (s : statics) : statics :=
  mkStatics (mIpmiTransport s) v bar rev (mP2AEnable s) (mP2ARemapping s) (mP2Abar s) (mDramConfig s)
    (mDramSize s) (mDramBase s) (mRemappingBase s).

(** The state afterwards; the result is its [IVBar]. *)
Definition GetIPMIVideoBar (x : lib) : lib :=
  let s := ls x in
  if negb (IVBar s =? 0) then x
  else
    match find_bus with
    | None => mkLib (lm x) (set_bars 0 (AstMmioBar s) (AstRevision s) s)
    | Some bus =>
        let bar := PciRead32 bus 0x14 in
        let rev := PciRead8 bus 0x08 in
        let IVIO := u16 (Z.land (PciRead32 bus 0x18) 0xFFF0) in
        if (IVIO =? 0) || (IVIO =? 0xFFF0) then mkLib (lm x) (set_bars 0 bar rev s)
        else map_dram (mkLib (lm x) (set_bars (PciRead32 bus 0x10 + IPMI_VIDEO_MEMORY_OFFSET) bar rev s))
    end.

(** ** Data to the BMC *)

(** The sum over the first [n] bytes of the window, from [c]. *)
Definition window_sum (n : Z) (m : M) (bar c : Z) : Z :=
  fold_left (fun c ii => u8 (MmioRead8 (bar + Z.of_nat ii) m + c)) (seq 0 (Z.to_nat n)) c.

(** [while (BufferLength != 0 && BufferLength <= 0x100000)]: buffer, length,
    checksum and state. *)
Definition window_step (s : statics) (st : list Z * Z * Z * M) : Res (list Z * Z * Z * M + Z * M) :=
  let '(Buffer, BufferLength, CheckSum, m) := st in
  if (BufferLength =? 0) || (0x100000 <? BufferLength) then Done (inr (CheckSum, m))
  else if BufferLength <=? 0x10000 then
    bs ← rdn Buffer 0 BufferLength;
    let m := MmioCopyTo (mP2Abar s) bs m in
    Done (inl (Buffer, 0, window_sum BufferLength m (mP2Abar s) CheckSum, m))
  else
    bs ← rdn Buffer 0 0x10000;
    let m := MmioCopyTo (mP2Abar s) bs m in
    let CheckSum := window_sum 0x10000 m (mP2Abar s) CheckSum in
    let m := MmioWrite32 (mP2ARemapping s) (u32 (MmioRead32 (mP2ARemapping s) m + 0x10000)) m in
    Done (inl (drop (Z.to_nat 0x10000) Buffer, BufferLength - 0x10000, CheckSum, m)).

(** Status and checksum; seventeen rounds are enough. *)
Definition DataToBMCPrepareData (Buffer : list Z) (BufferLength VramCheckSum : Z) (x : lib)
    : Res (EFI_STATUS * Z * lib) :=
  let x := GetIPMIVideoBar x in
  let s := ls x in
  if negb (mDramBase s =? 0) then
    let m := MmioWrite32 (mP2ARemapping s) (mRemappingBase s) (lm x) in
    let m := MmioWrite32 (mP2AEnable s) 1 m in
    '(CheckSum, m) ← loop 18 (window_step s) (Buffer, BufferLength, 0, m);
    let m := MmioWrite32 (mP2AEnable s) 0 m in
    Done (EFI_SUCCESS, CheckSum, mkLib m s)
  else Done (EFI_NOT_READY, VramCheckSum, x).

(** ** Data from the BMC

    The local pointers are set only with the device found: without it the
    last two statements go through uninitialised ones. *)
Definition DataToBIOSReadData (BufferLength : Z) (x : lib) : Res (EFI_STATUS * list Z * lib) :=
  let x := GetIPMIVideoBar x in
  let s := ls x in
  if negb (AstMmioBar s =? 0) && negb (AstRevision s =? 0) then
    let P2AEnable := AstMmioBar s + 0xF000 in
    let P2ARemapping := AstMmioBar s + 0xF004 in
    let P2Abar := AstMmioBar s + 0x10000 in
    let OldP2AEnable := MmioRead32 P2AEnable (lm x) in
    let OldP2ARemapping := MmioRead32 P2ARemapping (lm x) in
    let m := MmioWrite32 P2ARemapping 0x1E6E0000 (lm x) in
    let m := MmioWrite32 P2AEnable 1 m in
    let DramConfig := Z.land (MmioRead8 (P2Abar + 4) m) 3 in
    let digit := Z.shiftr (AstRevision s) 4 in
    let DramBase := dram_base digit in
    let DramSize := dram_size digit DramConfig in
    let m := MmioWrite32 P2ARemapping (u32 (DramBase + DramSize - 0x100000)) m in
    let '(Status, b) :=
      if negb (DramBase =? 0) && (BufferLength <=? 0x10000) then (EFI_SUCCESS, MmioCopyFrom P2Abar BufferLength m)
      else if negb (IVBar s =? 0) then (EFI_SUCCESS, MmioCopyFrom (IVBar s) BufferLength m)
      else (EFI_NOT_READY, []) in
    let m := MmioWrite32 P2ARemapping OldP2ARemapping m in
    let m := MmioWrite32 P2AEnable OldP2AEnable m in
    Done (Status, b, mkLib m s)
  else Fault.

(** ** The commands *)

(** What a response leaves in the variable behind the pointer. *)
Definition overlay (r old : list Z) : list Z := take (length old) (r ++ drop (length r) old).

Definition send (req old : list Z) (x : lib) : EFI_STATUS * list Z * lib :=
  let '(Status, r, m) := SendIpmiCommand req (lm x) in (Status, overlay r old, mkLib m (ls x)).

(** [while(CommandRetry)] up to the first success; the status before the loop
    is [EFI_SUCCESS]. *)
Fixpoint send_retry (CommandRetry : nat) (req old : list Z) (Status : EFI_STATUS) (x : lib)
    : EFI_STATUS * list Z * lib :=
  match CommandRetry with
  | O => (Status, old, x)
  | S CommandRetry =>
      let '(Status, r, x) := send req old x in
      if EFI_ERROR Status then send_retry CommandRetry req r Status x else (Status, r, x)
  end.

(** A command once the protocol is there. *)
Definition with_ipmi {R : Type} (none : R) (f : lib -> EFI_STATUS * R * lib) (x : lib) : EFI_STATUS * R * lib :=
  let '(Status, x) := SmcLibLocateIpmiProtocol x in
  if EFI_ERROR Status then (EFI_NOT_READY, none, x) else f x.

(** The bytes of uninitialised locals. *)
Context (junk : nat -> list Z).

Definition DataToBMCReadyNotify (FileType FileLength : Z) (x : lib) : EFI_STATUS * list Z * lib :=
  with_ipmi [] (send_retry OOB_IPMI_COMMAND_RETRY ([0x0C; FileType] ++ le_bytes 4 FileLength) (junk 1) EFI_SUCCESS) x.

Fixpoint done_loop (CommandRetry : nat) (req old : list Z) (x : lib) : EFI_STATUS * list Z * lib :=
  match CommandRetry with
  | O => (EFI_ABORTED, old, x)
  | S CommandRetry =>
      let '(Status, r, x) := send req old x in
      if EFI_ERROR Status then done_loop CommandRetry req r x
      else if bool_decide (r = [0x02]) then (EFI_SUCCESS, r, x)
      else if bool_decide (r = [0x01]) then (EFI_ABORTED, r, x)
      else done_loop CommandRetry req r x
  end.

Definition DataToBMCDone (FileType : Z) (x : lib) : EFI_STATUS * list Z * lib :=
  with_ipmi [] (done_loop (OOB_IPMI_COMMAND_RETRY * 3) [0x0E; FileType] (junk 1)) x.

(** The response is the status and four bytes of length; [o] is what the two
    pointers hold, length first. *)
Fixpoint notify_loop (CommandRetry : nat) (req old : list Z) (Status : EFI_STATUS) (o : Z * Z) (x : lib)
    : EFI_STATUS * (Z * Z) * lib :=
  match CommandRetry with
  | O => (Status, o, x)
  | S CommandRetry =>
      let '(Status, r, x) := send req old x in
      if EFI_ERROR Status then
        if bool_decide (r !! 1%nat = Some 0xCC) then (Status, o, x)
        else notify_loop CommandRetry req r Status o x
      else (Status, (le_val (take 4 (drop 1 r)), default 0 (head r)), x)
  end.

Definition DataToBIOSReadyNotify (FileType : Z) (o : Z * Z) (x : lib) : EFI_STATUS * (Z * Z) * lib :=
  with_ipmi o (notify_loop OOB_IPMI_COMMAND_RETRY [0x09; FileType] (junk 5) EFI_SUCCESS o) x.

(** [RspStatus] is written on success only. *)
Definition DataToBIOSWait (FileType RspStatus : Z) (x : lib) : EFI_STATUS * Z * lib :=
  with_ipmi RspStatus (fun x =>
    let '(Status, r, x) := send_retry OOB_IPMI_COMMAND_RETRY [0x0A; FileType] (junk 1) EFI_SUCCESS x in
    (Status, (if EFI_ERROR Status then RspStatus else default 0 (head r)), x)) x.

Definition DataToBIOSDone (FileType DownloadStatus : Z) (x : lib) : EFI_STATUS * list Z * lib :=
  with_ipmi [] (send_retry OOB_IPMI_COMMAND_RETRY [0x0B; FileType; DownloadStatus] (junk 1) EFI_SUCCESS) x.

Definition SMC_IPMICmd30_A0_12 (BoardId Date Time : Z) (x : lib) : EFI_STATUS * list Z * lib :=
  with_ipmi [] (send_retry OOB_IPMI_COMMAND_RETRY
    ([0x12; 1] ++ le_bytes 4 BoardId ++ le_bytes 4 Date ++ le_bytes 2 Time) (junk 1) EFI_SUCCESS) x.

Definition SMC_IPMICmd30_A0_15 (GetSet FlashFlag : Z) (x : lib) : EFI_STATUS * Z * lib :=
  with_ipmi FlashFlag (fun x =>
    let '(Status, r, x) := send_retry SMC_IPMI_RETRY [0x15; GetSet; if GetSet =? 0 then 0 else FlashFlag]
      (junk 1) EFI_SUCCESS x in
    (Status, default 0 (head r), x)) x.
End library.

(** ** What the library relies on

    A supported device on the first bus that answers with its identity, and
    its bridge: while the window is enabled its bytes are those of the BMC's
    memory from the address in the remapping register on. The last megabyte
    of that memory is [transfer_area]. Of what the video memory shows nothing
    is known but that a read of it gives as many bytes as are asked for. *)
Class VideoDevice (M : Type) `{Ast M} (IPMI_VGA_SVID : Z) := {
  bus : Z;
  strap : Z;
  p2a_enable : M -> Z;
  p2a_remap : M -> Z;
  bmc_mem : M -> mem;
  bar0 := PciRead32 bus 0x10;
  bar1 := PciRead32 bus 0x14;
  digit := Z.shiftr (PciRead8 bus 0x08) 4;
  transfer_area := dram_base digit + dram_size digit strap - TRANSFER_SIZE;

  bus_found : find_bus (M := M) IPMI_VGA_SVID = Some bus;
  io_base_set : let v := u16 (Z.land (PciRead32 bus 0x18) 0xFFF0) in v <> 0 /\ v <> 0xFFF0;
  bar0_range : 0 <= PciRead32 bus 0x10;
  bar1_set : PciRead32 bus 0x14 <> 0;
  revision : Z.shiftr (PciRead8 bus 0x08) 4 = 4 \/ Z.shiftr (PciRead8 bus 0x08) 4 = 3;
  strap_range : 0 <= strap < 4;

  write_enable v m : let m' := MmioWrite32 (bar1 + 0xF000) v m in
    p2a_enable m' = u32 v /\ p2a_remap m' = p2a_remap m /\ bmc_mem m' = bmc_mem m;
  write_remap v m : let m' := MmioWrite32 (bar1 + 0xF004) v m in
    p2a_enable m' = p2a_enable m /\ p2a_remap m' = u32 v /\ bmc_mem m' = bmc_mem m;
  read_remap m : MmioRead32 (bar1 + 0xF004) m = p2a_remap m;
  read_strap m : p2a_enable m = 1 -> p2a_remap m = 0x1E6E0000 ->
    Z.land (MmioRead8 (bar1 + 0x10000 + 4) m) 3 = strap;
  read_window i m : p2a_enable m = 1 -> 0 <= i < 0x10000 ->
    transfer_area <= p2a_remap m -> p2a_remap m + i < transfer_area + TRANSFER_SIZE ->
    MmioRead8 (bar1 + 0x10000 + i) m = bmc_mem m (p2a_remap m + i);
  copy_to_window bs m : p2a_enable m = 1 -> zlen bs <= 0x10000 ->
    transfer_area <= p2a_remap m -> p2a_remap m + zlen bs <= transfer_area + TRANSFER_SIZE ->
    let m' := MmioCopyTo (bar1 + 0x10000) bs m in
    p2a_enable m' = p2a_enable m /\ p2a_remap m' = p2a_remap m /\
    forall x, bmc_mem m' x = mwrite (bmc_mem m) (p2a_remap m) bs x;
  copy_from_window n m : p2a_enable m = 1 -> 0 <= n <= 0x10000 -> p2a_remap m = transfer_area ->
    MmioCopyFrom (bar1 + 0x10000) n m = mread (bmc_mem m) transfer_area n;
  copy_from_zlen a n m : 0 <= n -> zlen (MmioCopyFrom a n m) = n;
}.

(** The firmware of the BMC: its files, the file an upload has announced, the
    file a download has put up and the flags of the user, and the commands as
    the comments of [SmcLibBmc.c] describe them. *)
Class BmcFirmware (M : Type) `{Firmware M} `{Ipmi M} `{VideoDevice M} := {
  stored_file : M -> Z -> option (list Z);
  staged : M -> option (Z * list Z);
  offer : M -> option (list Z);
  user_flags : M -> Z;

  mmio_write_firmware a v m : let m' := MmioWrite32 a v m in
    quiet m m' /\ stored_file m' = stored_file m /\ staged m' = staged m /\ offer m' = offer m /\
    user_flags m' = user_flags m;
  mmio_copy_firmware a bs m : let m' := MmioCopyTo a bs m in
    quiet m m' /\ stored_file m' = stored_file m /\ staged m' = staged m /\ offer m' = offer m /\
    user_flags m' = user_flags m;
  set_variable_files n g a d m : stored_file (snd (SetVariable n g a d m)) = stored_file m;
  write_region_files op b m : stored_file (snd (SmcRomHoleWriteRegion op b m)) = stored_file m;

  send_quiet req m : quiet m (snd (SendIpmiCommand req m));
  send_length c rest r m m' : SendIpmiCommand (c :: rest) m = (EFI_SUCCESS, r, m') ->
    length r = if c =? 0x09 then 5%nat else 1%nat;
  send_files c rest m : c <> 0x0E -> c <> 0x0B ->
    stored_file (snd (SendIpmiCommand (c :: rest) m)) = stored_file m;
  send_other_files c t rest m t' : t' <> t ->
    stored_file (snd (SendIpmiCommand (c :: t :: rest) m)) t' = stored_file m t';
  send_flags c t rest m : c <> 0x15 \/ t = 0 ->
    user_flags (snd (SendIpmiCommand (c :: t :: rest) m)) = user_flags m;
  ready_memory rest m x : transfer_area <= x < transfer_area + TRANSFER_SIZE ->
    bmc_mem (snd (SendIpmiCommand (0x0C :: rest) m)) x = bmc_mem m x;
  ready_law t l4 r m m' : SendIpmiCommand (0x0C :: t :: l4) m = (EFI_SUCCESS, r, m') ->
    staged m' = Some (t, mread (bmc_mem m) transfer_area (le_val l4));
  done_pending t m st r m' : SendIpmiCommand [0x0E; t] m = (st, r, m') -> st <> EFI_SUCCESS \/ r <> [2] ->
    staged m' = staged m /\ (stored_file m' t = stored_file m t \/ stored_file m' t = None);
  done_law t d m m' : SendIpmiCommand [0x0E; t] m = (EFI_SUCCESS, [2], m') -> staged m = Some (t, d) ->
    stored_file m' t = Some d;
  notify_law t l4 m m' : SendIpmiCommand [0x09; t] m = (EFI_SUCCESS, 1 :: l4, m') ->
    exists f, stored_file m t = Some f /\ zlen f = le_val l4;
  wait_law t m m' : SendIpmiCommand [0x0A; t] m = (EFI_SUCCESS, [2], m') ->
    offer m' = stored_file m' t /\
    forall f, offer m' = Some f -> zlen f <= TRANSFER_SIZE -> mread (bmc_mem m') transfer_area (zlen f) = f;
  flag_law v m m' : SendIpmiCommand [0x15; 0; 0] m = (EFI_SUCCESS, [v], m') -> v = user_flags m;
}.

(** ** The window *)
Lemma mwrite_ext m m' a bs x : (forall y, m y = m' y) -> mwrite m a bs x = mwrite m' a bs x.
Proof. intros E. unfold mwrite. rewrite E. done. Qed.

(** Two writes in a row. *)
Lemma mwrite_app m a b c x : mwrite (mwrite m a b) (a + zlen b) c x = mwrite m a (b ++ c) x.
Proof.
  unfold mwrite. rewrite zlen_app. pose proof (zlen_nonneg b). pose proof (zlen_nonneg c).
  destruct (Z.leb_spec (a + zlen b) x).
  - replace (a <=? x) with true by lia. cbn [andb]. replace (x <? a + zlen b) with false by lia.
    rewrite Z.add_assoc. destruct (Z.ltb_spec x (a + zlen b + zlen c)); [|done].
    rewrite lookup_app_r by (unfold zlen in *; lia).
    replace (Z.to_nat (x - (a + zlen b))) with (Z.to_nat (x - a) - length b)%nat by (unfold zlen in *; lia). done.
  - cbn [andb]. destruct (Z.leb_spec a x); [|done]. cbn [andb].
    replace (x <? a + zlen b) with true by lia. replace (x <? a + (zlen b + zlen c)) with true by lia.
    by rewrite lookup_app_l by (unfold zlen in *; lia).
Qed.

Lemma mwrite_nil m a x : mwrite m a [] x = m x.
Proof. apply mwrite_out. change (zlen (@nil Z)) with 0. lia. Qed.

Section refine.
Context {M : Type} {HF : Firmware M} {HA : Ast M} {HI : Ipmi M} {SVID : Z} {HV : VideoDevice M SVID}
  {HB : BmcFirmware M}.

Lemma area_range : 0x40000000 <= transfer_area /\ transfer_area + TRANSFER_SIZE < 2 ^ 32.
Proof using.
  unfold transfer_area, TRANSFER_SIZE. pose proof strap_range as Hs.
  assert (strap = 0 \/ strap = 1 \/ strap = 2 \/ strap = 3) as Hc by lia.
  destruct revision as [E|E]; unfold digit; rewrite E; destruct Hc as [Ec|[Ec|[Ec|Ec]]]; rewrite Ec; cbv; by split.
Qed.

(** Nothing a client can see has changed. *)
Definition calm (m m' : M) : Prop :=
  quiet m m' /\ stored_file m' = stored_file m /\ staged m' = staged m /\ offer m' = offer m /\
  user_flags m' = user_flags m.

Lemma calm_refl m : calm m m.
Proof using. by repeat split. Qed.

Lemma calm_trans a b c : calm a b -> calm b c -> calm a c.
Proof using.
  intros (A1 & A2 & A3 & A4 & A5) (B1 & B2 & B3 & B4 & B5). split; [by eapply quiet_trans|]. repeat split; congruence.
Qed.

Lemma calm_write a v m : calm m (MmioWrite32 a v m).
Proof using. apply mmio_write_firmware. Qed.

Lemma calm_copy a bs m : calm m (MmioCopyTo a bs m).
Proof using. apply mmio_copy_firmware. Qed.

Definition found (ipmi : bool) : statics :=
  mkStatics ipmi (bar0 + IPMI_VIDEO_MEMORY_OFFSET) bar1 (PciRead8 bus 0x08) (bar1 + 0xF000) (bar1 + 0xF004)
    (bar1 + 0x10000) strap (dram_size digit strap) (dram_base digit) transfer_area.
Definition unused (ipmi : bool) : statics := mkStatics ipmi 0 0 0 0 0 0 0 0 0 0.

(** The globals are as at the start, or as the search leaves them. *)
Definition statics_ok (s : statics) : Prop := exists ipmi, s = unused ipmi \/ s = found ipmi.

Lemma revision_set : PciRead8 bus 0x08 <> 0.
Proof using. intros E. destruct revision as [R|R]; rewrite E in R; discriminate R. Qed.

Lemma remap_base : u32 (dram_base digit + dram_size digit strap - 0x100000) = transfer_area.
Proof using. change 0x100000 with TRANSFER_SIZE. fold transfer_area. apply u32_small. pose proof area_range. unfold is_u32. unfold TRANSFER_SIZE in *. lia. Qed.

(** The search finds the device once, and changes nothing else. *)
Lemma video_bar x :
  statics_ok (ls x) -> let x' := GetIPMIVideoBar SVID x in
  ls x' = found (mIpmiTransport (ls x)) /\ calm (lm x) (lm x') /\ bmc_mem (lm x') = bmc_mem (lm x).
Proof using.
  intros [ipmi [E|E]] x'; unfold x', GetIPMIVideoBar; rewrite E; cbn [IVBar unused found mIpmiTransport].
  - rewrite Z.eqb_refl. cbn [negb]. rewrite bus_found. destruct io_base_set as [I1 I2].
    apply Z.eqb_neq in I1. apply Z.eqb_neq in I2. rewrite I1, I2. cbn [orb].
    unfold map_dram, set_bars. cbn [ls lm mDramBase AstMmioBar AstRevision mIpmiTransport unused IVBar mP2AEnable
      mP2ARemapping mP2Abar mDramConfig mDramSize mRemappingBase]. fold bar0 bar1.
    pose proof bar1_set as Hb. fold bar1 in Hb. apply Z.eqb_neq in Hb. pose proof revision_set as Hr.
    apply Z.eqb_neq in Hr. rewrite Z.eqb_refl, Hb, Hr. cbn [negb andb lm ls]. fold digit.
    set (m1 := MmioWrite32 (bar1 + 0xF004) 0x1E6E0000 (lm x)).
    destruct (write_remap 0x1E6E0000 (lm x)) as (_ & R1 & M1). fold m1 in R1, M1.
    set (m2 := MmioWrite32 (bar1 + 0xF000) 1 m1). destruct (write_enable 1 m1) as (E2 & R2 & M2). fold m2 in E2, R2, M2.
    rewrite (read_strap m2) by (rewrite ?E2, ?R2, ?R1; done).
    assert (Hd : (digit =? 4) || (digit =? 3) = true).
    { unfold digit. destruct revision as [->| ->]; done. }
    rewrite Hd, remap_base.
    set (m3 := MmioWrite32 (bar1 + 0xF004) transfer_area m2). destruct (write_remap transfer_area m2) as (_ & _ & M3).
    destruct (write_enable 0 m3) as (_ & _ & M4). fold m3 in M3. split; [done|]. split; [|congruence].
    eapply calm_trans; [apply calm_write|]. eapply calm_trans; [apply calm_write|].
    eapply calm_trans; apply calm_write.
  - pose proof bar0_range as Hb. fold bar0 in Hb. unfold IPMI_VIDEO_MEMORY_OFFSET.
    destruct (Z.eqb_spec (bar0 + 0xF00000) 0) as [|_]; [lia|]. cbn [negb]. split; [done|].
    split; [apply calm_refl|done].
Qed.

(** *** Data to the BMC *)

(** The sum is over the bytes just copied. *)
Lemma window_sum_spec n m c :
  p2a_enable m = 1 -> 0 <= n <= 0x10000 -> transfer_area <= p2a_remap m ->
  p2a_remap m + n <= transfer_area + TRANSFER_SIZE ->
  window_sum n m (bar1 + 0x10000) c = fold_left (fun c b => u8 (b + c)) (mread (bmc_mem m) (p2a_remap m) n) c.
Proof using.
  intros He Hn H1 H2. unfold window_sum, mread.
  assert (Hl : forall ii, In ii (seq 0 (Z.to_nat n)) -> (ii < Z.to_nat n)%nat) by (intros ii [_ Hi]%in_seq; lia).
  revert c Hl. generalize (seq 0 (Z.to_nat n)). intros l. induction l as [|i l IH]; intros c Hl; [done|].
  cbn [fold_left map]. assert (Hi : (i < Z.to_nat n)%nat) by (apply Hl; by left).
  rewrite read_window by lia. apply IH. intros ii Hin. apply Hl. by right.
Qed.

Definition add_bytes (c : Z) (l : list Z) : Z := fold_left (fun c b => u8 (b + c)) l c.

Lemma add_bytes_sum8 l : add_bytes 0 l = sum8 l.
Proof using. unfold add_bytes, sum8. generalize 0. induction l as [|b l IH]; intros c; [done|]. cbn [fold_left]. by rewrite (Z.add_comm b c), IH. Qed.

(** What the loop does from a state where the window stands at [a]. *)
Record at_window (m : M) (a : Z) : Prop := {
  aw_enable : p2a_enable m = 1; aw_remap : p2a_remap m = a; aw_low : transfer_area <= a }.

(** One chunk. *)
Lemma chunk_copied m a bs c :
  at_window m a -> zlen bs <= 0x10000 -> a + zlen bs <= transfer_area + TRANSFER_SIZE ->
  let m' := MmioCopyTo (bar1 + 0x10000) bs m in
  at_window m' a /\ calm m m' /\ (forall x, bmc_mem m' x = mwrite (bmc_mem m) a bs x) /\
  window_sum (zlen bs) m' (bar1 + 0x10000) c = add_bytes c bs.
Proof using HB.
  intros [He Hr Hl] Hz Ha. destruct (copy_to_window bs m He Hz) as (E & R & B); [lia..|].
  set (m' := MmioCopyTo (bar1 + 0x10000) bs m) in *. rewrite Hr in *. cbv zeta.
  split; [by constructor; rewrite ?E, ?R|]. split; [apply calm_copy|]. split; [exact B|].
  pose proof (zlen_nonneg bs). rewrite window_sum_spec by (rewrite ?E, ?R; lia). rewrite R.
  unfold add_bytes. f_equal. rewrite (mread_ext _ _ _ _ (fun x _ => B x)). by apply mread_same.
Qed.

Lemma window_loop_step s :
  forall Buffer c m, s = found true \/ s = found false -> at_window m (p2a_remap m) -> 0x10000 < zlen Buffer ->
  p2a_remap m + zlen Buffer <= transfer_area + TRANSFER_SIZE ->
  exists bs rest m', Buffer = bs ++ rest /\ zlen bs = 0x10000 /\ at_window m' (p2a_remap m + 0x10000) /\ calm m m' /\
    (forall x, bmc_mem m' x = mwrite (bmc_mem m) (p2a_remap m) bs x) /\
    window_step s (Buffer, zlen Buffer, c, m) = Done (inl (rest, zlen Buffer - 0x10000, add_bytes c bs, m')).
Proof using HB.
  intros Buffer c m Hs Haw Hz Ha. set (a := p2a_remap m) in *. set (bs := take (Z.to_nat 0x10000) Buffer).
  assert (Hbs : zlen bs = 0x10000) by (unfold bs, zlen in *; rewrite length_take; lia).
  assert (El : mP2Abar s = bar1 + 0x10000 /\ mP2ARemapping s = bar1 + 0xF004) by (destruct Hs as [->| ->]; done).
  destruct El as [El1 El2]. pose proof area_range as Har.
  assert (Hn : zlen Buffer <= TRANSFER_SIZE) by (pose proof (aw_low _ _ Haw); lia). unfold TRANSFER_SIZE in Hn.
  destruct (chunk_copied m a bs c Haw) as (W1 & C1 & B1 & S1); [lia..|].
  set (m1 := MmioCopyTo (bar1 + 0x10000) bs m) in *.
  set (m2 := MmioWrite32 (bar1 + 0xF004) (u32 (a + 0x10000)) m1).
  destruct (write_remap (u32 (a + 0x10000)) m1) as (E2 & R2 & B2). fold m2 in E2, R2, B2.
  assert (Hu : u32 (a + 0x10000) = a + 0x10000) by (apply u32_small; unfold is_u32; pose proof (aw_low _ _ Haw); lia).
  exists bs, (drop (Z.to_nat 0x10000) Buffer), m2. split; [symmetry; apply take_drop|]. split; [done|]. split.
  { constructor; [rewrite E2; apply W1|by rewrite R2, !Hu|pose proof (aw_low _ _ Haw); lia]. }
  split; [eapply calm_trans; [exact C1|apply calm_write]|]. split; [intros x; by rewrite B2|].
  unfold window_step. destruct (Z.eqb_spec (zlen Buffer) 0); [lia|]. cbn [orb].
  replace (0x100000 <? zlen Buffer) with false by lia. replace (zlen Buffer <=? 0x10000) with false by lia.
  rewrite (proj2 (rdn_Done Buffer 0 0x10000 bs)), bind_Done by (split_and!; [done|done|lia|done]).
  rewrite El1, El2. fold m1. rewrite read_remap, (aw_remap _ _ W1). fold m2. rewrite <- S1, Hbs. done.
Qed.

Lemma window_loop s n : forall Buffer c m,
  s = found true \/ s = found false -> at_window m (p2a_remap m) -> zlen Buffer <= 0x10000 * Z.of_nat n ->
  p2a_remap m + zlen Buffer <= transfer_area + TRANSFER_SIZE ->
  exists m', loop (S (S n)) (window_step s) (Buffer, zlen Buffer, c, m) = Done (add_bytes c Buffer, m') /\ calm m m' /\
    forall x, bmc_mem m' x = mwrite (bmc_mem m) (p2a_remap m) Buffer x.
Proof using HB.
  induction n as [|n IH]; intros Buffer c m Hs Haw Hz Ha; rewrite loop_S.
  { destruct Buffer as [|b l]; [|rewrite zlen_cons in Hz; pose proof (zlen_nonneg l); lia].
    cbn [window_step]. exists m. split; [done|]. split; [apply calm_refl|]. intros x. by rewrite mwrite_nil. }
  destruct (decide (zlen Buffer = 0)) as [E0|N0].
  { destruct Buffer as [|b l]; [|rewrite zlen_cons in E0; pose proof (zlen_nonneg l); lia].
    exists m. split; [done|]. split; [apply calm_refl|]. intros x. by rewrite mwrite_nil. }
  destruct (decide (zlen Buffer <= 0x10000)) as [Hsm|Hbig].
  - destruct (chunk_copied m _ Buffer c Haw Hsm Ha) as (W1 & C1 & B1 & S1).
    set (m1 := MmioCopyTo (bar1 + 0x10000) Buffer m) in *. exists m1. split; [|by split].
    assert (E : window_step s (Buffer, zlen Buffer, c, m) = Done (inl (Buffer, 0, add_bytes c Buffer, m1)));
      [|rewrite E, bind_Done; by rewrite loop_S].
    unfold window_step. apply Z.eqb_neq in N0. rewrite N0. cbn [orb].
    replace (0x100000 <? zlen Buffer) with false by lia. replace (zlen Buffer <=? 0x10000) with true by lia.
    pose proof (zlen_nonneg Buffer).
    rewrite (proj2 (rdn_Done Buffer 0 (zlen Buffer) Buffer)), bind_Done.
    2: { split_and!; [done|done|lia|]. change (drop (Z.to_nat 0) Buffer) with Buffer. symmetry. apply take_ge.
         unfold zlen. lia. }
    assert (El : mP2Abar s = bar1 + 0x10000) by (destruct Hs as [->| ->]; done).
    rewrite El. fold m1. by rewrite S1.
  - destruct (window_loop_step s Buffer c m Hs Haw) as (bs & rest & m1 & -> & Hbs & W1 & C1 & B1 & ->); [lia|done|].
    rewrite bind_Done. rewrite zlen_app in Hz, Ha |- *.
    replace (zlen bs + zlen rest - 0x10000) with (zlen rest) by lia. pose proof (aw_remap _ _ W1) as R1.
    rewrite <- R1 in W1. destruct (IH rest (add_bytes c bs) m1 Hs W1) as (m2 & -> & C2 & B2); [lia|rewrite R1; lia|].
    exists m2. split; [unfold add_bytes; by rewrite fold_left_app|]. split; [by eapply calm_trans|].
    intros x. rewrite B2, R1, <- Hbs. rewrite (mwrite_ext _ _ _ _ _ B1). apply mwrite_app.
Qed.

(** Preparing: up to a megabyte lands in the transfer area and the sum is
    right; more is not copied. *)
Lemma prepare_spec Buffer v x :
  statics_ok (ls x) -> exists c x', DataToBMCPrepareData SVID Buffer (zlen Buffer) v x = Done (EFI_SUCCESS, c, x') /\
    statics_ok (ls x') /\ calm (lm x) (lm x') /\ p2a_enable (lm x') = 0 /\
    (if zlen Buffer <=? TRANSFER_SIZE
     then c = sum8 Buffer /\ forall y, bmc_mem (lm x') y = mwrite (bmc_mem (lm x)) transfer_area Buffer y
     else c = 0 /\ bmc_mem (lm x') = bmc_mem (lm x)).
Proof using HB.
  intros Hok. unfold DataToBMCPrepareData. destruct (video_bar x Hok) as (L & C & B).
  set (x1 := GetIPMIVideoBar SVID x) in *. rewrite L. set (s := found (mIpmiTransport (ls x))).
  assert (Hs : s = found true \/ s = found false) by (unfold s; destruct (mIpmiTransport (ls x)); auto).
  cbn [found s mDramBase mP2ARemapping mRemappingBase mP2AEnable]. fold s.
  assert (Hd : (dram_base digit =? 0) = false) by (unfold digit; destruct revision as [->| ->]; done).
  rewrite Hd. cbn [negb]. set (m1 := MmioWrite32 (bar1 + 0xF004) transfer_area (lm x1)).
  destruct (write_remap transfer_area (lm x1)) as (_ & R1 & B1). fold m1 in R1, B1.
  pose proof area_range as Har. rewrite u32_small in R1 by (unfold is_u32, TRANSFER_SIZE in *; lia).
  set (m2 := MmioWrite32 (bar1 + 0xF000) 1 m1). destruct (write_enable 1 m1) as (E2 & R2 & B2). fold m2 in E2, R2, B2.
  assert (C2 : calm (lm x) m2).
  { eapply calm_trans; [exact C|]. eapply calm_trans; apply calm_write. }
  assert (Bm2 : bmc_mem m2 = bmc_mem (lm x)) by congruence. assert (Rm2 : p2a_remap m2 = transfer_area) by congruence.
  assert (Hend : forall m3, calm m2 m3 -> let m4 := MmioWrite32 (bar1 + 0xF000) 0 m3 in
    statics_ok s /\ calm (lm x) m4 /\ p2a_enable m4 = 0 /\ bmc_mem m4 = bmc_mem m3).
  { intros m3 C3 m4. destruct (write_enable 0 m3) as (E4 & _ & B4). split; [eexists; right; reflexivity|].
    split; [eapply calm_trans; [exact C2|]; eapply calm_trans; [exact C3|apply calm_write]|]. by split. }
  destruct (Z.leb_spec (zlen Buffer) TRANSFER_SIZE) as [Hz|Hz].
  - destruct (window_loop s 16 Buffer 0 m2) as (m3 & -> & C3 & B3); [done|by constructor; [..|rewrite Rm2]| |lia|].
    { unfold TRANSFER_SIZE in Hz. lia. }
    rewrite bind_Done. destruct (Hend m3 C3) as (O & C4 & E4 & B4). eexists _, _. split; [done|]. cbn [ls lm].
    split; [exact O|]. split; [exact C4|]. split; [exact E4|]. split; [apply add_bytes_sum8|].
    intros y. by rewrite B4, B3, Rm2, Bm2.
  - assert (E : window_step s (Buffer, zlen Buffer, 0, m2) = Done (inr (0, m2))).
    { unfold window_step. unfold TRANSFER_SIZE in Hz. replace (0x100000 <? zlen Buffer) with true by lia.
      by rewrite orb_true_r. }
    rewrite loop_S, E, !bind_Done.
    destruct (Hend m2 (calm_refl m2)) as (O & C4 & E4 & B4). eexists _, _. split; [done|]. cbn [ls lm].
    split; [exact O|]. split; [exact C4|]. split; [exact E4|]. split; [done|congruence].
Qed.

(** *** Data from the BMC: through the window up to 64 KB, from the video
    memory above. *)
Lemma window_transfer : WINDOW_SIZE <= TRANSFER_SIZE.
Proof using. done. Qed.

Lemma read_spec n x :
  statics_ok (ls x) -> 0 <= n -> exists b x', DataToBIOSReadData SVID n x = Done (EFI_SUCCESS, b, x') /\
    statics_ok (ls x') /\ calm (lm x) (lm x') /\ bmc_mem (lm x') = bmc_mem (lm x) /\ zlen b = n /\
    (n <= WINDOW_SIZE -> b = mread (bmc_mem (lm x)) transfer_area n).
Proof using HB.
  intros Hok Hn. unfold DataToBIOSReadData. destruct (video_bar x Hok) as (L & C & B).
  set (x1 := GetIPMIVideoBar SVID x) in *. rewrite L. set (s := found (mIpmiTransport (ls x))).
  cbn [found s AstMmioBar AstRevision IVBar]. fold s.
  pose proof bar1_set as Hb. fold bar1 in Hb. apply Z.eqb_neq in Hb. pose proof revision_set as Hr.
  apply Z.eqb_neq in Hr. rewrite Hb, Hr. cbn [negb andb]. fold digit.
  set (m1 := MmioWrite32 (bar1 + 0xF004) 0x1E6E0000 (lm x1)).
  destruct (write_remap 0x1E6E0000 (lm x1)) as (_ & R1 & M1). fold m1 in R1, M1.
  set (m2 := MmioWrite32 (bar1 + 0xF000) 1 m1). destruct (write_enable 1 m1) as (E2 & R2 & M2). fold m2 in E2, R2, M2.
  rewrite (read_strap m2) by (rewrite ?E2, ?R2, ?R1; done). rewrite remap_base.
  set (m3 := MmioWrite32 (bar1 + 0xF004) transfer_area m2).
  destruct (write_remap transfer_area m2) as (E3 & R3 & M3). fold m3 in E3, R3, M3.
  pose proof area_range as Har. rewrite u32_small in R3 by (unfold is_u32, TRANSFER_SIZE in *; lia).
  assert (Hd : (dram_base digit =? 0) = false) by (unfold digit; destruct revision as [->| ->]; done).
  pose proof bar0_range as Hb0. fold bar0 in Hb0.
  assert (Hv : (bar0 + IPMI_VIDEO_MEMORY_OFFSET =? 0) = false) by (unfold IPMI_VIDEO_MEMORY_OFFSET; lia).
  rewrite Hd, Hv. cbn [negb andb]. assert (Bm : bmc_mem m3 = bmc_mem (lm x)) by congruence.
  assert (C3 : calm (lm x) m3).
  { eapply calm_trans; [exact C|]. eapply calm_trans; [apply calm_write|]. eapply calm_trans; apply calm_write. }
  assert (Hend : forall old olde b, (zlen b = n /\ (n <= WINDOW_SIZE -> b = mread (bmc_mem (lm x)) transfer_area n)) ->
    let m5 := MmioWrite32 (bar1 + 0xF000) olde (MmioWrite32 (bar1 + 0xF004) old m3) in
    statics_ok s /\ calm (lm x) m5 /\ bmc_mem m5 = bmc_mem (lm x) /\
    zlen b = n /\ (n <= WINDOW_SIZE -> b = mread (bmc_mem (lm x)) transfer_area n)).
  { intros old olde b Hbb m5. destruct (write_remap old m3) as (_ & _ & M4).
    destruct (write_enable olde (MmioWrite32 (bar1 + 0xF004) old m3)) as (_ & _ & M5).
    split; [eexists; right; reflexivity|]. split; [|split; [unfold m5; congruence|done]].
    eapply calm_trans; [exact C3|]. eapply calm_trans; apply calm_write. }
  destruct (Z.leb_spec n 0x10000) as [Hsm|Hbig]; (eexists _, _; split; [reflexivity|]; cbn [ls lm]; apply Hend;
    split; [by apply copy_from_zlen|]; intros Ht).
  - rewrite <- Bm. apply copy_from_window; [|done|done]. rewrite E3, E2. done.
  - unfold WINDOW_SIZE in Ht. lia.
Qed.

(** *** The commands *)
Lemma send_ok req old x :
  let '(st, r, x') := send req old x in
  ls x' = ls x /\ exists r0, SendIpmiCommand req (lm x) = (st, r0, lm x') /\ r = overlay r0 old.
Proof using. unfold send. destruct (SendIpmiCommand req (lm x)) as [[st r0] m]. cbn. split; [done|by exists r0]. Qed.

Lemma overlay_same r old : length r = length old -> overlay r old = r.
Proof using.
  intros E. unfold overlay. rewrite drop_ge, app_nil_r by lia. by apply take_ge; lia.
Qed.

Lemma length_overlay r old : length (overlay r old) = length old.
Proof using. unfold overlay. rewrite length_take, length_app, length_drop. lia. Qed.

(** The retry loop keeps whatever each command keeps; a success is a command
    that succeeded on a state reached by failing ones. *)
Lemma send_retry_spec (R : M -> M -> Prop) req n : forall old st x,
  (forall m, R m m) -> (forall a b c, R a b -> R b c -> R a c) -> (forall m, R m (snd (SendIpmiCommand req m))) ->
  let '(st', r, x') := send_retry n req old st x in
  ls x' = ls x /\ R (lm x) (lm x') /\ length r = length old /\
  (st' = EFI_SUCCESS -> n <> 0%nat -> exists m r0, R (lm x) m /\ SendIpmiCommand req m = (EFI_SUCCESS, r0, lm x') /\
     (length r0 = length old -> r = r0)).
Proof using.
  induction n as [|n IH]; intros old st x Hrefl Htr Hs; cbn [send_retry].
  { split; [done|]. split; [apply Hrefl|]. by split. }
  pose proof (send_ok req old x) as Hk. destruct (send req old x) as [[st1 r1] x1].
  destruct Hk as (L1 & r0 & E1 & ->). pose proof (Hs (lm x)) as R1. rewrite E1 in R1. cbn [snd] in R1.
  destruct (EFI_ERROR st1) eqn:Ee.
  - specialize (IH (overlay r0 old) st1 x1 Hrefl Htr Hs).
    destruct (send_retry n req (overlay r0 old) st1 x1) as [[st2 r2] x2] eqn:E2.
    destruct IH as (L2 & R2 & N2 & K2). rewrite length_overlay in N2, K2.
    split; [congruence|]. split; [by eapply Htr|]. split; [done|]. intros Hst _.
    destruct n as [|n].
    { cbn [send_retry] in E2. injection E2 as <- _ _. subst st1. discriminate Ee. }
    destruct (K2 Hst ltac:(done)) as (m & r3 & R3 & E3 & Hr3). exists m, r3. split; [by eapply Htr|done].
  - split; [done|]. split; [done|]. split; [apply length_overlay|]. intros _ _. exists (lm x), r0.
    split; [apply Hrefl|]. split; [by rewrite <- (no_error _ Ee)|]. apply overlay_same.
Qed.

Context (located : bool) (junk : nat -> list Z).
Hypothesis junk_length : forall n, length (junk n) = n.

(** What every command leaves alone. *)
Definition same_files (m m' : M) : Prop :=
  quiet m m' /\ stored_file m' = stored_file m /\ user_flags m' = user_flags m.

Lemma same_files_refl m : same_files m m.
Proof using. by repeat split. Qed.

Lemma same_files_trans a b c : same_files a b -> same_files b c -> same_files a c.
Proof using. intros (A1 & A2 & A3) (B1 & B2 & B3). split; [by eapply quiet_trans|]. split; congruence. Qed.

Lemma send_same_files c t rest m :
  c <> 0x0E -> c <> 0x0B -> c <> 0x15 \/ t = 0 -> same_files m (snd (SendIpmiCommand (c :: t :: rest) m)).
Proof using.
  intros H1 H2 H3. split; [apply send_quiet|]. split; [by apply send_files|by apply send_flags].
Qed.

Lemma locate_ok (x : @lib M) :
  statics_ok (ls x) -> let '(st, x') := SmcLibLocateIpmiProtocol located x in statics_ok (ls x') /\ lm x' = lm x.
Proof using.
  intros Hok. unfold SmcLibLocateIpmiProtocol. destruct (mIpmiTransport (ls x)); [by split|].
  destruct located; [|by split]. split; [|done]. destruct Hok as [i [E|E]]; rewrite E; eexists; [left|right]; reflexivity.
Qed.

(** A command keeps what its loop keeps, and succeeds only through it. *)
Lemma with_ipmi_spec {T} (none : T) f (x : @lib M) (P : M -> EFI_STATUS -> T -> M -> Prop) :
  statics_ok (ls x) -> P (lm x) EFI_NOT_READY none (lm x) ->
  (forall x1, lm x1 = lm x -> let '(st, r, x') := f x1 in ls x' = ls x1 /\ P (lm x) st r (lm x')) ->
  let '(st, r, x') := with_ipmi located none f x in statics_ok (ls x') /\ P (lm x) st r (lm x').
Proof using.
  intros Hok H0 Hf. unfold with_ipmi. pose proof (locate_ok x Hok) as Hl.
  destruct (SmcLibLocateIpmiProtocol located x) as [st x1]. destruct Hl as [Hs Hm].
  destruct (EFI_ERROR st); [by rewrite Hm|]. specialize (Hf x1 Hm). destruct (f x1) as [[st2 r] x2].
  destruct Hf as [L HP]. by rewrite L.
Qed.

(** The four plain commands. *)
Lemma retry_keeps (R : M -> M -> Prop) k req old x :
  (forall m, R m m) -> (forall a b c, R a b -> R b c -> R a c) -> (forall m, R m (snd (SendIpmiCommand req m))) ->
  let '(st, r, x') := send_retry k req old EFI_SUCCESS x in ls x' = ls x /\ R (lm x) (lm x').
Proof using.
  intros H1 H2 H3. pose proof (send_retry_spec R req k old EFI_SUCCESS x H1 H2 H3) as Hs.
  destruct (send_retry k req old EFI_SUCCESS x) as [[st r] x']. destruct Hs as (A & B & _). by split.
Qed.

(** Announcing an upload: on success the BMC has taken what lay in the
    transfer area. *)
Lemma ready_notify_spec t n x :
  statics_ok (ls x) -> let '(st, r, x') := DataToBMCReadyNotify located junk t n x in
  statics_ok (ls x') /\ same_files (lm x) (lm x') /\
  (st = EFI_SUCCESS -> 0 <= n <= TRANSFER_SIZE ->
   staged (lm x') = Some (t, mread (bmc_mem (lm x)) transfer_area n)).
Proof using.
  intros Hok. unfold DataToBMCReadyNotify.
  set (R := fun m m' : M => same_files m m' /\
    forall y, transfer_area <= y < transfer_area + TRANSFER_SIZE -> bmc_mem m' y = bmc_mem m y).
  apply (with_ipmi_spec [] _ x (fun m st _ m' => same_files m m' /\
    (st = EFI_SUCCESS -> 0 <= n <= TRANSFER_SIZE -> staged m' = Some (t, mread (bmc_mem m) transfer_area n)))); [done| |].
  { split; [apply same_files_refl|done]. }
  intros x1 Hm. pose proof (send_retry_spec R ([0x0C; t] ++ le_bytes 4 n) OOB_IPMI_COMMAND_RETRY (junk 1) EFI_SUCCESS x1) as Hs.
  destruct (send_retry _ _ _ _ x1) as [[st r] x'] eqn:E. rewrite <- Hm.
  destruct Hs as (L & [S1 B1] & _ & K).
  - intros m. split; [apply same_files_refl|done].
  - intros m1 m2 m3 [S1 B1] [S2 B2]. split; [by eapply same_files_trans|]. intros y Hy. by rewrite B2, B1.
  - intros m. split; [by apply send_same_files; [..|left]|]. intros y Hy. by apply ready_memory.
  - split; [done|]. split; [done|]. intros Hst Hn. destruct (K Hst) as (m & r0 & [_ Bm] & Es & _); [done|].
    apply ready_law in Es. rewrite Es, le_val_4 by (unfold is_u32, TRANSFER_SIZE in *; lia). do 2 f_equal. apply mread_ext. intros y Hy. apply Bm. lia.
Qed.

(** The end of an upload. *)
Lemma done_loop_spec t : forall k old x, length old = 1%nat ->
  let '(st, r, x') := done_loop k [0x0E; t] old x in
  ls x' = ls x /\ quiet (lm x) (lm x') /\ (forall t', t' <> t -> stored_file (lm x') t' = stored_file (lm x) t') /\
  (st <> EFI_SUCCESS -> stored_file (lm x') t = stored_file (lm x) t \/ stored_file (lm x') t = None) /\
  (st = EFI_SUCCESS -> forall d, staged (lm x) = Some (t, d) -> stored_file (lm x') t = Some d).
Proof using.
  induction k as [|k IH]; intros old x Hold; cbn [done_loop].
  { split; [done|]. split; [apply quiet_refl|]. split; [done|]. split; [by left|done]. }
  pose proof (send_ok [0x0E; t] old x) as Hk. destruct (send [0x0E; t] old x) as [[st1 r1] x1].
  destruct Hk as (L1 & r0 & E1 & ->). pose proof (send_quiet [0x0E; t] (lm x)) as Q1.
  assert (O1 : forall t', t' <> t -> stored_file (lm x1) t' = stored_file (lm x) t').
  { intros t' Ht. pose proof (send_other_files 0x0E t [] (lm x) t' Ht) as Hf. by rewrite E1 in Hf. }
  rewrite E1 in Q1. cbn [snd] in Q1.
  assert (Again : st1 <> EFI_SUCCESS \/ r0 <> [2] ->
    let '(st, r, x') := done_loop k [0x0E; t] (overlay r0 old) x1 in
    ls x' = ls x /\ quiet (lm x) (lm x') /\ (forall t', t' <> t -> stored_file (lm x') t' = stored_file (lm x) t') /\
    (st <> EFI_SUCCESS -> stored_file (lm x') t = stored_file (lm x) t \/ stored_file (lm x') t = None) /\
    (st = EFI_SUCCESS -> forall d, staged (lm x) = Some (t, d) -> stored_file (lm x') t = Some d)).
  { intros Hp. destruct (done_pending t (lm x) st1 r0 (lm x1) E1 Hp) as [G1 F1].
    specialize (IH (overlay r0 old) x1). rewrite length_overlay in IH. specialize (IH Hold).
    destruct (done_loop k _ _ x1) as [[st r] x']. destruct IH as (L2 & Q2 & O2 & N2 & S2).
    split; [congruence|]. split; [by eapply quiet_trans|]. split; [intros t' Ht; by rewrite O2, O1|]. split.
    - intros Hst. destruct (N2 Hst) as [->|?]; [done|by right].
    - intros Hst d Hd. apply S2; [done|]. by rewrite G1. }
  destruct (EFI_ERROR st1) eqn:Ee; [apply Again; left; by intros ->|].
  rewrite (no_error _ Ee) in *. pose proof (send_length _ _ _ _ _ E1) as Hlen. cbn [Z.eqb Pos.eqb] in Hlen.
  rewrite overlay_same in * by congruence.
  case_bool_decide as E2; [|case_bool_decide as E3; [|apply Again; by right]].
  - subst r0. split; [done|]. split; [done|]. split; [done|]. split; [done|]. intros _ d Hd. by eapply done_law.
  - subst r0. destruct (done_pending t (lm x) EFI_SUCCESS [1] (lm x1) E1) as [G1 F1]; [by right|].
    split; [done|]. split; [done|]. split; [done|]. split; [by intros _|done].
Qed.

(** Asking for a file: a status of 1 comes with the size of a file that is
    there. *)
Lemma notify_loop_spec t : forall k old st o x, length old = 5%nat -> (st = EFI_SUCCESS -> k <> 0%nat) ->
  let '(st', o', x') := notify_loop k [0x09; t] old st o x in
  ls x' = ls x /\ same_files (lm x) (lm x') /\
  (st' = EFI_SUCCESS -> snd o' = 1 -> exists f, stored_file (lm x) t = Some f /\ zlen f = fst o').
Proof using.
  induction k as [|k IH]; intros old st o x Hold Hst; cbn [notify_loop].
  { split; [done|]. split; [apply same_files_refl|]. intros E. by destruct (Hst E). }
  pose proof (send_ok [0x09; t] old x) as Hk. destruct (send [0x09; t] old x) as [[st1 r1] x1].
  destruct Hk as (L1 & r0 & E1 & ->).
  assert (S1 : same_files (lm x) (lm x1)).
  { pose proof (send_same_files 0x09 t [] (lm x)) as Hf. rewrite E1 in Hf. apply Hf; [done|done|by left]. }
  destruct (EFI_ERROR st1) eqn:Ee.
  - assert (Hne : st1 <> EFI_SUCCESS) by (by intros ->). case_bool_decide; [by split|].
    specialize (IH (overlay r0 old) st1 o x1). rewrite length_overlay in IH.
    destruct (notify_loop k _ _ st1 o x1) as [[st2 o2] x2]. destruct IH as (L2 & S2 & K2); [done|by intros|].
    split; [congruence|]. split; [by eapply same_files_trans|]. destruct S1 as (_ & <- & _). exact K2.
  - rewrite (no_error _ Ee) in E1. pose proof (send_length _ _ _ _ _ E1) as Hlen. cbn [Z.eqb Pos.eqb] in Hlen.
    rewrite overlay_same by congruence. split; [done|]. split; [done|]. intros _. cbn [fst snd].
    destruct r0 as [|s l4]; [done|]. cbn [head default from_option id]. intros ->.
    destruct (notify_law t l4 _ _ E1) as (f & Hf & Hz). exists f. split; [done|]. rewrite Hz. f_equal.
    symmetry. change (drop 1 (1 :: l4)) with (drop 0 l4). rewrite drop_0. apply take_ge. injection Hlen as ->. done.
Qed.

Lemma notify_spec t o x :
  statics_ok (ls x) -> let '(st, o', x') := DataToBIOSReadyNotify located junk t o x in
  statics_ok (ls x') /\ same_files (lm x) (lm x') /\
  (st = EFI_SUCCESS -> snd o' = 1 -> exists f, stored_file (lm x) t = Some f /\ zlen f = fst o').
Proof using junk_length.
  intros Hok. unfold DataToBIOSReadyNotify.
  apply (with_ipmi_spec o _ x (fun m st o' m' => same_files m m' /\
    (st = EFI_SUCCESS -> snd o' = 1 -> exists f, stored_file m t = Some f /\ zlen f = fst o'))); [done| |].
  { split; [apply same_files_refl|done]. }
  intros x1 Hm. pose proof (notify_loop_spec t OOB_IPMI_COMMAND_RETRY (junk 5) EFI_SUCCESS o x1) as Hs.
  rewrite junk_length in Hs. specialize (Hs eq_refl ltac:(done)).
  destruct (notify_loop _ _ _ _ _ x1) as [[st o'] x']. by rewrite <- Hm.
Qed.

(** Waiting for a file: ready means that it lies in the transfer area. *)
Lemma wait_spec t v x :
  statics_ok (ls x) -> let '(st, r, x') := DataToBIOSWait located junk t v x in
  statics_ok (ls x') /\ same_files (lm x) (lm x') /\
  (st = EFI_SUCCESS -> r = 2 -> offer (lm x') = stored_file (lm x') t /\
     forall f, offer (lm x') = Some f -> zlen f <= TRANSFER_SIZE -> mread (bmc_mem (lm x')) transfer_area (zlen f) = f).
Proof using junk_length.
  intros Hok. unfold DataToBIOSWait.
  apply (with_ipmi_spec v _ x (fun m st r m' => same_files m m' /\
    (st = EFI_SUCCESS -> r = 2 -> offer m' = stored_file m' t /\
     forall f, offer m' = Some f -> zlen f <= TRANSFER_SIZE -> mread (bmc_mem m') transfer_area (zlen f) = f))); [done| |].
  { split; [apply same_files_refl|done]. }
  intros x1 Hm. pose proof (send_retry_spec same_files [0x0A; t] OOB_IPMI_COMMAND_RETRY (junk 1) EFI_SUCCESS x1
    same_files_refl same_files_trans) as Hs.
  destruct (send_retry _ _ _ _ x1) as [[st r] x']. rewrite <- Hm. destruct Hs as (L & S1 & N & K).
  { intros m. by apply send_same_files; [..|left]. }
  split; [done|]. split; [done|]. intros -> . cbn [EFI_ERROR]. destruct (K eq_refl ltac:(done)) as (m & r0 & _ & Es & Hr).
  pose proof (send_length _ _ _ _ _ Es) as Hlen. cbn [Z.eqb Pos.eqb] in Hlen. rewrite junk_length in Hr.
  rewrite (Hr Hlen). destruct r0 as [|b [|]]; [done| |done]. cbn [head default from_option id]. intros ->.
  by eapply wait_law.
Qed.

Lemma bios_done_spec t v x :
  statics_ok (ls x) -> let '(st, r, x') := DataToBIOSDone located junk t v x in
  statics_ok (ls x') /\ quiet (lm x) (lm x') /\ forall t', t' <> t -> stored_file (lm x') t' = stored_file (lm x) t'.
Proof using.
  intros Hok. unfold DataToBIOSDone.
  set (R := fun m m' : M => quiet m m' /\ forall t', t' <> t -> stored_file m' t' = stored_file m t').
  apply (with_ipmi_spec [] _ x (fun m _ _ m' => R m m')); [done|by split|].
  intros x1 Hm. rewrite <- Hm. apply (retry_keeps R).
  - by split.
  - intros a b c [A1 A2] [B1 B2]. split; [by eapply quiet_trans|]. intros t' Ht. by rewrite B2, A2.
  - intros m. split; [apply send_quiet|]. intros t' Ht. by apply send_other_files.
Qed.

Lemma identify_spec a b c x :
  statics_ok (ls x) -> let '(st, r, x') := SMC_IPMICmd30_A0_12 located junk a b c x in
  statics_ok (ls x') /\ quiet (lm x) (lm x').
Proof using HB.
  intros Hok. unfold SMC_IPMICmd30_A0_12. apply (with_ipmi_spec [] _ x (fun m _ _ m' => quiet m m')); [done|done|].
  intros x1 Hm. rewrite <- Hm. apply (retry_keeps quiet); [apply quiet_refl|apply quiet_trans|intros m; apply send_quiet].
Qed.

(** The flags of the user. *)
Lemma preservation_spec op v x :
  statics_ok (ls x) -> let '(st, r, x') := SMC_IPMICmd30_A0_15 located junk op v x in
  statics_ok (ls x') /\ quiet (lm x) (lm x') /\ (op = 0 -> st = EFI_SUCCESS -> r = user_flags (lm x)).
Proof using junk_length.
  intros Hok. unfold SMC_IPMICmd30_A0_15.
  apply (with_ipmi_spec v _ x (fun m st r m' => quiet m m' /\ (op = 0 -> st = EFI_SUCCESS -> r = user_flags m))); [done|by split|].
  intros x1 Hm. set (R := fun m m' : M => quiet m m' /\ (op = 0 -> user_flags m' = user_flags m)).
  pose proof (send_retry_spec R [0x15; op; if op =? 0 then 0 else v] SMC_IPMI_RETRY (junk 1) EFI_SUCCESS x1) as Hs.
  destruct (send_retry _ _ _ _ x1) as [[st r] x']. rewrite <- Hm. destruct Hs as (L & [Q1 _] & N & K).
  { by split. }
  { intros a b c [A1 A2] [B1 B2]. split; [by eapply quiet_trans|]. intros E. by rewrite B2, A2. }
  { intros m. split; [apply send_quiet|]. intros E. apply send_flags. by right. }
  split; [done|]. split; [done|]. intros -> ->. destruct (K eq_refl ltac:(done)) as (m & r0 & [_ F] & Es & Hr).
  pose proof (send_length _ _ _ _ _ Es) as Hlen. cbn [Z.eqb Pos.eqb] in Hlen. rewrite junk_length in Hr.
  rewrite (Hr Hlen). destruct r0 as [|b [|]]; [done| |done]. cbn [head default from_option id].
  rewrite <- F by done. by eapply flag_law.
Qed.

Lemma bmc_done_spec t x :
  statics_ok (ls x) -> let '(st, r, x') := DataToBMCDone located junk t x in
  statics_ok (ls x') /\ quiet (lm x) (lm x') /\ (forall t', t' <> t -> stored_file (lm x') t' = stored_file (lm x) t') /\
  (st <> EFI_SUCCESS -> stored_file (lm x') t = stored_file (lm x) t \/ stored_file (lm x') t = None) /\
  (st = EFI_SUCCESS -> forall d, staged (lm x) = Some (t, d) -> stored_file (lm x') t = Some d).
Proof using junk_length.
  intros Hok. unfold DataToBMCDone.
  apply (with_ipmi_spec [] _ x (fun m st _ m' => quiet m m' /\ (forall t', t' <> t -> stored_file m' t' = stored_file m t') /\
    (st <> EFI_SUCCESS -> stored_file m' t = stored_file m t \/ stored_file m' t = None) /\
    (st = EFI_SUCCESS -> forall d, staged m = Some (t, d) -> stored_file m' t = Some d))); [done| |].
  { split; [apply quiet_refl|]. split; [done|]. split; [by left|done]. }
  intros x1 Hm. pose proof (done_loop_spec t (OOB_IPMI_COMMAND_RETRY * 3) (junk 1) x1 (junk_length 1)) as Hs.
  destruct (done_loop _ _ _ x1) as [[st r] x']. by rewrite <- Hm.
Qed.
End refine.

(** ** The protocol

    The functions behind [SMC_IPMI_OEM_COMMAND_SET_PROTOCOL] only forward
    (their pointers are never NULL here). *)
Section protocol.
Context {M : Type} `{Ast M} `{Ipmi M}.
Context (IPMI_VGA_SVID : Z) (located : bool) (junk : nat -> list Z).

Definition SmcDownloadOobDataStart (FileType : Z) (o : Z * Z) (x : @lib M) : EFI_STATUS * (Z * Z) * @lib M :=
  DataToBIOSReadyNotify located junk FileType o x.
Definition SmcDownloadOobDataReady (FileType ResponseStatus : Z) (x : @lib M) : EFI_STATUS * Z * @lib M :=
  DataToBIOSWait located junk FileType ResponseStatus x.
Definition SmcDownloadOobDataDone (FileType UpdateStatus : Z) (x : @lib M) : EFI_STATUS * list Z * @lib M :=
  DataToBIOSDone located junk FileType UpdateStatus x.
Definition SmcUploadOobDataStart (FileType FileSize : Z) (x : @lib M) : EFI_STATUS * list Z * @lib M :=
  DataToBMCReadyNotify located junk FileType FileSize x.
Definition SmcUploadOobDataDone (FileType : Z) (x : @lib M) : EFI_STATUS * list Z * @lib M :=
  DataToBMCDone located junk FileType x.
Definition SmcReadDataToBios (BufferLength : Z) (x : @lib M) : Res (EFI_STATUS * list Z * @lib M) :=
  DataToBIOSReadData IPMI_VGA_SVID BufferLength x.
Definition SmcPrepareDataToBmc (Buffer : list Z) (BufferLength : Z) (x : @lib M) : Res (EFI_STATUS * Z * @lib M) :=
  DataToBMCPrepareData IPMI_VGA_SVID Buffer BufferLength 0 x.
Definition SmcGetSetOobIdentify (BoardId Date Time : Z) (x : @lib M) : EFI_STATUS * list Z * @lib M :=
  SMC_IPMICmd30_A0_12 located junk BoardId Date Time x.
Definition SmcSmibiosPreservation (Operation FlashFlag : Z) (x : @lib M) : EFI_STATUS * Z * @lib M :=
  SMC_IPMICmd30_A0_15 located junk Operation FlashFlag x.
End protocol.

(** ** The library is a BMC for the out-of-band driver *)
#[global] Instance statics_eq_dec : EqDecision statics.
Proof. solve_decision. Defined.

Section instance.
Context {M : Type} {HF : Firmware M} {HA : Ast M} {HI : Ipmi M} {SVID : Z} {HV : VideoDevice M SVID}
  {HB : BmcFirmware M}.

Lemma statics_ok_iff s :
  statics_ok s <-> s ∈ [unused false; found false; unused true; found true].
Proof.
  rewrite list_elem_of_In. cbn [In]. split.
  - intros [[] [->| ->]]; auto.
  - intros Hs. repeat destruct Hs as [<-|Hs]; [exists false..|exists true|exists true|done]; auto.
Qed.

#[export] Instance statics_ok_dec s : Decision (statics_ok s).
Proof.
  destruct (decide (s ∈ [unused false; found false; unused true; found true])) as [E|E]; [left|right];
    by rewrite statics_ok_iff.
Defined.

(** The library's state with globals as it leaves them itself. *)
Record sys := mkSys { sl : @lib M; sys_ok : statics_ok (ls sl) }.

Definition put_machine (m : M) (s : sys) : sys := mkSys (mkLib m (ls (sl s))) (sys_ok s).

#[export] Instance sys_firmware : Firmware sys :=
  lift_firmware (fun s => lm (sl s)) put_machine (fun _ _ => eq_refl).

(** A call of the library. *)
Definition run {T} (r : Res (EFI_STATUS * T * @lib M)) (none : T) (s : sys) : EFI_STATUS * T * sys :=
  match r with
  | Done (Status, t, x) =>
      match decide (statics_ok (ls x)) with
      | left ok => (Status, t, mkSys x ok)
      | right _ => (EFI_ABORTED, none, s)
      end
  | _ => (EFI_ABORTED, none, s)
  end.

Lemma run_Done {T} r (none : T) s st t x :
  r = Done (st, t, x) -> statics_ok (ls x) -> exists ok, run r none s = (st, t, mkSys x ok).
Proof. intros -> Hok. cbn. destruct (decide _); [by eexists|done]. Qed.

(** A call that meets a specification. *)
Lemma run_spec {T} (r : EFI_STATUS * T * @lib M) s (Q : EFI_STATUS -> T -> @lib M -> Prop) :
  (let '(st, t, x') := r in statics_ok (ls x') /\ Q st t x') ->
  exists st t s', (forall none, run (Done r) none s = (st, t, s')) /\ Q st t (sl s').
Proof using.
  destruct r as [[st t] x']. intros [Hok HQ]. cbn [run]. destruct (decide (statics_ok (ls x'))) as [ok|]; [|done].
  by exists st, t, (mkSys x' ok).
Qed.

Definition unit_status {T} (r : EFI_STATUS * T * sys) : EFI_STATUS * sys := (fst (fst r), snd r).

(** What the BMC has put up, as long as it is still in the transfer area. *)
Definition offered_file (m : M) : option (list Z) :=
  match offer m with
  | Some f => if decide (zlen f <= TRANSFER_SIZE -> mread (bmc_mem m) transfer_area (zlen f) = f) then Some f else None
  | None => None
  end.

Lemma run_prepare d v s :
  exists c s', run (DataToBMCPrepareData SVID d (zlen d) v (sl s)) 0 s = (EFI_SUCCESS, c, s') /\
    calm (lm (sl s)) (lm (sl s')) /\
    (zlen d <= TRANSFER_SIZE -> mread (bmc_mem (lm (sl s'))) transfer_area (zlen d) = d).
Proof.
  destruct (prepare_spec d v (sl s) (sys_ok s)) as (c & x' & E & Hok & Hc & _ & Hm).
  destruct (run_Done _ 0 s _ _ _ E Hok) as [ok Er]. eexists c, _. split; [exact Er|]. cbn [sl]. split; [done|].
  intros Hz. apply Z.leb_le in Hz. rewrite Hz in Hm. destruct Hm as [_ Hm].
  rewrite (mread_ext _ _ _ _ (fun y _ => Hm y)). by apply mread_same.
Qed.

Lemma run_read n s :
  0 <= n -> exists b s', run (DataToBIOSReadData SVID n (sl s)) [] s = (EFI_SUCCESS, b, s') /\
    calm (lm (sl s)) (lm (sl s')) /\ zlen b = n /\
    (n <= WINDOW_SIZE -> b = mread (bmc_mem (lm (sl s))) transfer_area n).
Proof.
  intros Hn. destruct (read_spec n (sl s) (sys_ok s) Hn) as (b & x' & E & Hok & Hc & _ & Hz & Hb).
  destruct (run_Done _ [] s _ _ _ E Hok) as [ok Er]. by eexists b, _.
Qed.

Context (located : bool) (junk : nat -> list Z) (junk_length : forall n, length (junk n) = n).

#[local] Obligation Tactic := idtac.

(** Replace the call in the goal by a result that meets its specification. *)
Ltac lib_call s spec st r s' Hs :=
  unfold SmcUploadOobDataStart, SmcUploadOobDataDone, SmcDownloadOobDataStart, SmcDownloadOobDataReady,
    SmcDownloadOobDataDone, SmcSmibiosPreservation, SmcGetSetOobIdentify;
  let E := fresh "E" in destruct (run_spec _ s _ spec) as (st & r & s' & E & Hs);
  rewrite E; clear E; unfold unit_status; cbn [fst snd].

(** The read of a negative number of bytes is no call of the library. *)
#[program] Definition sys_bmc : Bmc sys := {|
  bmc_file s := stored_file (lm (sl s));
  offered s := offered_file (lm (sl s));
  flash_flags s := user_flags (lm (sl s));
  PrepareDataToBmc d s := unit_status (run (SmcPrepareDataToBmc SVID d (zlen d) (sl s)) 0 s);
  UploadOobDataStart t n s := unit_status (run (Done (SmcUploadOobDataStart located junk t n (sl s))) [] s);
  UploadOobDataDone t s := unit_status (run (Done (SmcUploadOobDataDone located junk t (sl s))) [] s);
  DownloadOobDataStart t o s := run (Done (SmcDownloadOobDataStart located junk t o (sl s))) o s;
  DownloadOobDataReady t v s := run (Done (SmcDownloadOobDataReady located junk t v (sl s))) v s;
  ReadDataToBios n s := if n <? 0 then (EFI_ABORTED, [], s) else run (SmcReadDataToBios SVID n (sl s)) [] s;
  DownloadOobDataDone t v s := unit_status (run (Done (SmcDownloadOobDataDone located junk t v (sl s))) [] s);
  SmibiosPreservation op v s := run (Done (SmcSmibiosPreservation located junk op v (sl s))) v s;
  GetSetOobIdentify a b c s := unit_status (run (Done (SmcGetSetOobIdentify located junk a b c (sl s))) [] s);
|}.
Next Obligation. intros n g a d s. apply set_variable_files. Qed.
Next Obligation. intros op b s. apply write_region_files. Qed.
Next Obligation. intros d s. unfold SmcPrepareDataToBmc. destruct (run_prepare d 0 s) as (c & s' & -> & Hc & _). apply Hc. Qed.
Next Obligation. intros t n s. lib_call s (ready_notify_spec located junk t n (sl s) (sys_ok s)) st r s1 Hs. apply Hs. Qed.
Next Obligation. intros t s. lib_call s (bmc_done_spec located junk junk_length t (sl s) (sys_ok s)) st r s1 Hs. apply Hs. Qed.
Next Obligation. intros t o s. lib_call s (notify_spec located junk junk_length t o (sl s) (sys_ok s)) st r s1 Hs. apply Hs. Qed.
Next Obligation. intros t v s. lib_call s (wait_spec located junk junk_length t v (sl s) (sys_ok s)) st r s1 Hs. apply Hs. Qed.
Next Obligation.
  intros n s. cbv beta. destruct (Z.ltb_spec n 0); [apply quiet_refl|]. unfold SmcReadDataToBios.
  destruct (run_read n s) as (b & s' & -> & Hc & _); [done|]. apply Hc.
Qed.
Next Obligation. intros t v s. lib_call s (bios_done_spec located junk t v (sl s) (sys_ok s)) st r s1 Hs. apply Hs. Qed.
Next Obligation. intros op v s. lib_call s (preservation_spec located junk junk_length op v (sl s) (sys_ok s)) st r s1 Hs. apply Hs. Qed.
Next Obligation. intros a b c s. lib_call s (identify_spec located junk a b c (sl s) (sys_ok s)) st r s1 Hs. apply Hs. Qed.
Next Obligation. intros d s. unfold SmcPrepareDataToBmc. destruct (run_prepare d 0 s) as (c & s' & -> & Hc & _). apply Hc. Qed.
Next Obligation. intros t n s. lib_call s (ready_notify_spec located junk t n (sl s) (sys_ok s)) st r s1 Hs. apply Hs. Qed.
Next Obligation.
  intros t s t' Ht. lib_call s (bmc_done_spec located junk junk_length t (sl s) (sys_ok s)) st r s1 Hs. by apply Hs.
Qed.
Next Obligation.
  intros t s. lib_call s (bmc_done_spec located junk junk_length t (sl s) (sys_ok s)) st r s1 Hs. intros Hst. by apply Hs.
Qed.
Next Obligation.
  intros d t s s1 s2 s3 Hz. unfold SmcPrepareDataToBmc. destruct (run_prepare d 0 s) as (c & s' & -> & Hc & Hm).
  intros [= <-]. cbn [unit_status fst snd].
  lib_call s' (ready_notify_spec located junk t (zlen d) (sl s') (sys_ok s')) st r s4 H2. intros [= -> <-].
  destruct H2 as (_ & H2). specialize (H2 eq_refl (conj (zlen_nonneg d) Hz)). rewrite Hm in H2 by done. cbn [sl] in *.
  lib_call s4 (bmc_done_spec located junk junk_length t (sl s4) (sys_ok s4)) st2 r2 s5 H3.
  intros [= -> <-]. cbn [sl]. by apply H3.
Qed.
Next Obligation. intros t o s. lib_call s (notify_spec located junk junk_length t o (sl s) (sys_ok s)) st r s1 Hs. apply Hs. Qed.
Next Obligation.
  intros t o s n s'. lib_call s (notify_spec located junk junk_length t o (sl s) (sys_ok s)) st r s1 Hs.
  intros [= -> -> _]. destruct Hs as (_ & Hs). by apply Hs.
Qed.
Next Obligation. intros t v s. lib_call s (wait_spec located junk junk_length t v (sl s) (sys_ok s)) st r s1 Hs. apply Hs. Qed.
Next Obligation.
  intros t v s s'. lib_call s (wait_spec located junk junk_length t v (sl s) (sys_ok s)) st r s1 Hs.
  intros [= -> -> <-]. destruct Hs as (_ & Hs). destruct (Hs eq_refl eq_refl) as [Ho Hm]. cbn [sl]. unfold offered_file.
  rewrite <- Ho. destruct (offer (lm (sl s1))) as [f|]; [|done]. rewrite decide_True; [done|]. by apply Hm.
Qed.
Next Obligation.
  intros n s. cbv beta. destruct (Z.ltb_spec n 0); [done|]. unfold SmcReadDataToBios.
  destruct (run_read n s) as (b & s' & -> & Hc & _); [done|]. apply Hc.
Qed.
Next Obligation.
  intros n s bs s' Hn. cbv beta. destruct (Z.ltb_spec n 0); [done|]. unfold SmcReadDataToBios.
  destruct (run_read n s Hn) as (b & s1 & -> & _ & Hz & _). by intros [= <- _].
Qed.
Next Obligation.
  intros t v s t' Ht. lib_call s (bios_done_spec located junk t v (sl s) (sys_ok s)) st r s1 Hs. by apply Hs.
Qed.
Next Obligation.
  intros f s bs s' Ho Hz. cbv beta. pose proof (zlen_nonneg f). destruct (Z.ltb_spec (zlen f) 0); [lia|]. unfold SmcReadDataToBios.
  destruct (run_read (zlen f) s) as (b & s1 & -> & _ & _ & Hb); [done|]. intros [= <- _]. rewrite Hb by done.
  unfold offered_file in Ho. destruct (offer (lm (sl s))) as [g|]; [|done]. case_decide as Hd; [|done].
  injection Ho as ->. apply Hd. pose proof window_transfer. lia.
Qed.
Next Obligation. intros t o s. lib_call s (notify_spec located junk junk_length t o (sl s) (sys_ok s)) st r s1 Hs. apply Hs. Qed.
Next Obligation. intros t v s. lib_call s (wait_spec located junk junk_length t v (sl s) (sys_ok s)) st r s1 Hs. apply Hs. Qed.
Next Obligation.
  intros n s. cbv beta. destruct (Z.ltb_spec n 0); [done|]. unfold SmcReadDataToBios.
  destruct (run_read n s) as (b & s' & -> & Hc & _); [done|]. apply Hc.
Qed.
Next Obligation.
  intros v s r s'. lib_call s (preservation_spec located junk junk_length 0 v (sl s) (sys_ok s)) st r' s1 Hs.
  intros [= -> -> _]. destruct Hs as (_ & Hs). by apply Hs.
Qed.
End instance.

(** ** A machine

    An AST2500 with 512 MB on bus 2 and a BMC that answers every command at
    once: the interfaces above have an instance. *)
Module Machine.
Record machine := mkMachine {
  mc_fw : SimpleFw; mc_mem : mem; mc_enable : Z; mc_remap : Z; mc_files : gmap Z (list Z);
  mc_staged : option (Z * list Z); mc_offer : option (list Z); mc_flags : Z }.

Definition machine0 : machine := mkMachine (mkFw ∅ ∅ []) (fun _ => 0xEE) 0 0 ∅ None None 0.

Definition SVID : Z := 0x20001A03.
Definition BAR0 : Z := 0xC4000000.
Definition BAR1 : Z := 0xC6000000.
Definition AREA : Z := 0x9FF00000.

Definition mc_put (f : SimpleFw) (m : machine) : machine :=
  mkMachine f (mc_mem m) (mc_enable m) (mc_remap m) (mc_files m) (mc_staged m) (mc_offer m) (mc_flags m).

#[export] Instance machine_firmware : Firmware machine :=
  lift_firmware mc_fw mc_put (fun _ _ => eq_refl).

Definition pci (b reg : Z) : Z :=
  if b =? 2 then
    if reg =? 0x0 then SVID else if reg =? 0x08 then 0x41 else if reg =? 0x10 then BAR0
    else if reg =? 0x14 then BAR1 else if reg =? 0x18 then 0xE001 else 0
  else 0xFFFFFFFF.

(** The byte behind an address: the window when enabled, the frame buffer. *)
Definition mc_byte (a : Z) (m : machine) : Z :=
  if (BAR1 + 0x10000 <=? a) && (a <? BAR1 + 0x20000) then
    if mc_enable m =? 1 then
      let o := a - (BAR1 + 0x10000) in
      if (mc_remap m =? 0x1E6E0000) && (o =? 4) then 2 else mc_mem m (mc_remap m + o)
    else 0xFF
  else if (BAR0 <=? a) && (a <? BAR0 + 0x1000000) then mc_mem m (AREA + (a - (BAR0 + 0xF00000)))
  else 0xFF.

Definition mc_set_mem (f : mem) (m : machine) : machine :=
  mkMachine (mc_fw m) f (mc_enable m) (mc_remap m) (mc_files m) (mc_staged m) (mc_offer m) (mc_flags m).
Definition mc_set_regs (e r : Z) (m : machine) : machine :=
  mkMachine (mc_fw m) (mc_mem m) e r (mc_files m) (mc_staged m) (mc_offer m) (mc_flags m).
Definition mc_set_bmc files st o fl (m : machine) : machine :=
  mkMachine (mc_fw m) (mc_mem m) (mc_enable m) (mc_remap m) files st o fl.

#[export] Instance machine_ast : Ast machine := {
  PciRead32 := pci;
  PciRead8 := pci;
  MmioRead8 := mc_byte;
  MmioRead32 a m := if a =? BAR1 + 0xF000 then mc_enable m else if a =? BAR1 + 0xF004 then mc_remap m else 0xFFFFFFFF;
  MmioWrite32 a v m :=
    if a =? BAR1 + 0xF000 then mc_set_regs (u32 v) (mc_remap m) m
    else if a =? BAR1 + 0xF004 then mc_set_regs (mc_enable m) (u32 v) m else m;
  MmioCopyFrom a n m := map (fun i => mc_byte (a + Z.of_nat i) m) (seq 0 (Z.to_nat n));
  MmioCopyTo a bs m :=
    if (a =? BAR1 + 0x10000) && (mc_enable m =? 1) then mc_set_mem (mwrite (mc_mem m) (mc_remap m) bs) m else m;
}.

(** The commands: announce and finish an upload; ask for, fetch and finish a
    download; the flags; everything else is not supported. *)
Definition mc_command (c t : Z) (rest : list Z) (m : machine) : EFI_STATUS * list Z * machine :=
  if c =? 0x0C then
    (EFI_SUCCESS, [0], mc_set_bmc (mc_files m) (Some (t, mread (mc_mem m) AREA (le_val rest))) (mc_offer m) (mc_flags m) m)
  else if c =? 0x0E then
    match mc_staged m with
    | Some (t', d) =>
        if decide (t' = t) then
          (EFI_SUCCESS, [2], mc_set_bmc (<[t := d]> (mc_files m)) (Some (t', d)) (mc_offer m) (mc_flags m) m)
        else (EFI_SUCCESS, [1], m)
    | None => (EFI_SUCCESS, [1], m)
    end
  else if c =? 0x09 then
    match mc_files m !! t with
    | Some f => (EFI_SUCCESS, (if zlen f <? 2 ^ 32 then 1 else 0) :: le_bytes 4 (zlen f), m)
    | None => (EFI_SUCCESS, [0; 0; 0; 0; 0], m)
    end
  else if c =? 0x0A then
    match mc_files m !! t with
    | Some f =>
        (EFI_SUCCESS, [2], mc_set_bmc (mc_files m) (mc_staged m) (Some f) (mc_flags m)
           (mc_set_mem (mwrite (mc_mem m) AREA f) m))
    | None => (EFI_SUCCESS, [0], m)
    end
  else if c =? 0x0B then (EFI_SUCCESS, [0], m)
  else if c =? 0x15 then
    if t =? 0 then (EFI_SUCCESS, [mc_flags m], m)
    else (EFI_SUCCESS, [default 0 (head rest)],
      mc_set_bmc (mc_files m) (mc_staged m) (mc_offer m) (default 0 (head rest)) m)
  else (EFI_UNSUPPORTED, [], m).

#[export] Instance machine_ipmi : Ipmi machine := {
  SendIpmiCommand req m :=
    match req with c :: t :: rest => mc_command c t rest m | _ => (EFI_UNSUPPORTED, [], m) end
}.

#[local] Obligation Tactic := idtac.

#[export, program] Instance machine_video : VideoDevice machine SVID := {
  bus := 2; strap := 2; p2a_enable := mc_enable; p2a_remap := mc_remap; bmc_mem := mc_mem;
}.
Next Obligation. reflexivity. Qed.
Next Obligation. cbv. split; discriminate. Qed.
Next Obligation. cbv. discriminate. Qed.
Next Obligation. cbv. discriminate. Qed.
Next Obligation. by left. Qed.
Next Obligation. lia. Qed.
Next Obligation. done. Qed.
Next Obligation. done. Qed.
Next Obligation. done. Qed.
Next Obligation. intros m He Hr. cbn. unfold mc_byte. by rewrite He, Hr. Qed.
Next Obligation.
  intros i m He Hi Hl _. change (dram_base _ + dram_size _ _ - TRANSFER_SIZE) with AREA in Hl.
  cbn. unfold mc_byte, BAR1, AREA in *. rewrite He. change (1 =? 1) with true. cbv iota.
  replace (_ <=? _) with true by lia. replace (_ <? _) with true by lia. cbn [andb].
  replace (mc_remap m =? 0x1E6E0000) with false by lia. cbn [andb]. f_equal. lia.
Qed.
Next Obligation. intros bs m He _ _ _. cbn. by rewrite He. Qed.
Next Obligation.
  intros n m He Hn Hr. change (dram_base _ + dram_size _ _ - TRANSFER_SIZE) with AREA in *. cbn. unfold mread.
  apply map_ext_in. intros i [_ Hi]%in_seq. unfold mc_byte, BAR1, AREA in *. rewrite He, Hr.
  change (1 =? 1) with true. cbv iota. replace (_ <=? _) with true by lia. replace (_ <? _) with true by lia.
  cbn [andb]. change (0x9FF00000 =? 0x1E6E0000) with false. cbn [andb]. f_equal. lia.
Qed.
Next Obligation. intros a n m Hn. cbn. rewrite zlen_map. unfold zlen. rewrite length_seq. lia. Qed.

(** Unfold a command with its code known and look at every case. *)
Ltac command := cbn [SendIpmiCommand machine_ipmi]; unfold mc_command; repeat case_match; cbn [fst snd];
  simplify_eq.

#[export, program] Instance machine_bmc : BmcFirmware machine := {
  stored_file m t := mc_files m !! t; staged := mc_staged; offer := mc_offer; user_flags := mc_flags;
}.
Next Obligation. intros a v m. cbn. repeat case_match; by repeat split. Qed.
Next Obligation. intros a bs m. cbn. repeat case_match; by repeat split. Qed.
Next Obligation. done. Qed.
Next Obligation. done. Qed.
Next Obligation. intros [|c [|t rest]] m; [by repeat split..|]. command; by repeat split. Qed.
Next Obligation.
  intros c [|t rest] r m m'; [done|]. destruct (Z.eqb_spec c 9) as [->|Hc]; command; intros [= <- _]; done || lia.
Qed.
Next Obligation. intros c [|t rest] m H1 H2; [done|]. command; try done; lia. Qed.
Next Obligation. intros c t rest m t' Ht. command; try done. by apply lookup_insert_ne. Qed.
Next Obligation. intros c t rest m [Hc| ->]; command; try done; lia. Qed.
Next Obligation. intros [|t rest] m x Hx; [done|]. by command. Qed.
Next Obligation. intros t l4 r m m'. command; intros [= _ <-]. done. Qed.
Next Obligation.
  intros t m st r m'. command; intros [= <- <- <-] Hp; cbn; auto. by destruct Hp.
Qed.
Next Obligation.
  intros t d m m'. command; intros [= <-] [= ->]. cbn. by rewrite lookup_insert_eq.
Qed.
Next Obligation.
  intros t l4 m m'. command; intros Hr; simplify_eq. eexists. split; [done|]. symmetry. apply le_val_4.
  unfold is_u32. pose proof (zlen_nonneg l). lia.
Qed.
Next Obligation.
  intros t m m'. command; intros Hr; simplify_eq. cbn. split; [done|]. intros f [= <-] _. by apply mread_same.
Qed.
Next Obligation. intros v m m'. command; intros Hr; by simplify_eq. Qed.
End Machine.

(** ** What the library promises *)

(** A PCI bus without the device. *)
#[local] Instance no_ast : Ast unit := {
  PciRead32 _ _ := 0xFFFFFFFF; PciRead8 _ _ := 0xFF; MmioRead8 _ _ := 0xFF; MmioRead32 _ _ := 0xFFFFFFFF;
  MmioWrite32 _ _ m := m; MmioCopyFrom _ n _ := replicate (Z.to_nat n) 0xFF; MmioCopyTo _ _ m := m }.

Section claims.
Context {M : Type} {HF : Firmware M} {HA : Ast M} {HI : Ipmi M} {SVID : Z} {HV : VideoDevice M SVID}
  {HB : BmcFirmware M}.
Context (located : bool) (junk : nat -> list Z) (junk_length : forall n, length (junk n) = n).

(** What [DataToBMCPrepareData] puts into the transfer area is what
    [DataToBIOSReadData] takes out of it again through the 64 KB window; a
    larger buffer is put there chunk by chunk, but read from the frame
    buffer, which need not show it. The sum returned is the sum of the bytes, and
    nothing of the files, the firmware or the rest of the memory changes. *)
Theorem prepare_read_roundtrip Buffer v x :
  statics_ok (ls x) -> zlen Buffer <= WINDOW_SIZE ->
  exists x1 x2, DataToBMCPrepareData SVID Buffer (zlen Buffer) v x = Done (EFI_SUCCESS, sum8 Buffer, x1) /\
    DataToBIOSReadData SVID (zlen Buffer) x1 = Done (EFI_SUCCESS, Buffer, x2) /\
    calm (lm x) (lm x2) /\ p2a_enable (lm x1) = 0 /\
    forall y, ~ transfer_area <= y < transfer_area + zlen Buffer -> bmc_mem (lm x2) y = bmc_mem (lm x) y.
Proof using HB.
  intros Hok Hz. destruct (prepare_spec Buffer v x Hok) as (c & x1 & E1 & O1 & C1 & P1 & M1).
  replace (zlen Buffer <=? TRANSFER_SIZE) with true in M1 by (pose proof window_transfer; lia).
  destruct M1 as [-> M1].
  destruct (read_spec (zlen Buffer) x1 O1 (zlen_nonneg _)) as (b & x2 & E2 & O2 & C2 & M2 & _ & Hb).
  exists x1, x2. rewrite E1, E2. split; [done|]. split.
  - do 3 f_equal. rewrite Hb by done. rewrite (mread_ext _ _ _ _ (fun y _ => M1 y)). by apply mread_same.
  - split; [by eapply calm_trans|]. split; [done|]. intros y Hy. rewrite M2, M1. apply mwrite_out. lia.
Qed.

(** A buffer of more than a megabyte is not copied at all, and
    the caller is told [EFI_SUCCESS] with a sum of 0; so the BMC, told of
    it, takes whatever was in the transfer area before. *)
Theorem prepare_oversized Buffer v x :
  statics_ok (ls x) -> TRANSFER_SIZE < zlen Buffer ->
  exists x1, DataToBMCPrepareData SVID Buffer (zlen Buffer) v x = Done (EFI_SUCCESS, 0, x1) /\
    calm (lm x) (lm x1) /\ bmc_mem (lm x1) = bmc_mem (lm x).
Proof using HB.
  intros Hok Hz. destruct (prepare_spec Buffer v x Hok) as (c & x1 & E1 & _ & C1 & _ & M1).
  replace (zlen Buffer <=? TRANSFER_SIZE) with false in M1 by lia. destruct M1 as [-> M1]. by exists x1.
Qed.

(** C26: (refinement) With the video device found, the three calls of an
    upload of at most 1 MB replace a file: preparing works; when the BMC
    also accepts the announcement and the end, it
    holds the new file; when it does not accept the end, it has the old one
    or none; the other files stay, and the firmware is not used. *)
Theorem upload_replaces d v t x :
  statics_ok (ls x) -> zlen d <= TRANSFER_SIZE ->
  exists x1, DataToBMCPrepareData SVID d (zlen d) v x = Done (EFI_SUCCESS, sum8 d, x1) /\
  let '(st2, _, x2) := DataToBMCReadyNotify located junk t (zlen d) x1 in
  let '(st3, _, x3) := DataToBMCDone located junk t x2 in
  (st2 = EFI_SUCCESS -> st3 = EFI_SUCCESS -> stored_file (lm x3) t = Some d) /\
  (st3 <> EFI_SUCCESS -> stored_file (lm x3) t = stored_file (lm x) t \/ stored_file (lm x3) t = None) /\
  (forall t', t' <> t -> stored_file (lm x3) t' = stored_file (lm x) t') /\ quiet (lm x) (lm x3).
Proof using HB junk_length.
  intros Hok Hz. destruct (prepare_spec d v x Hok) as (c & x1 & E1 & O1 & (Q1 & F1 & _) & _ & M1).
  apply Z.leb_le in Hz as Hz'. rewrite Hz' in M1. destruct M1 as [-> M1]. exists x1. split; [done|].
  pose proof (ready_notify_spec located junk t (zlen d) x1 O1) as H2.
  destruct (DataToBMCReadyNotify located junk t (zlen d) x1) as [[st2 r2] x2]. destruct H2 as (O2 & (Q2 & F2 & _) & G2).
  pose proof (bmc_done_spec located junk junk_length t x2 O2) as H3.
  destruct (DataToBMCDone located junk t x2) as [[st3 r3] x3]. destruct H3 as (_ & Q3 & F3 & N3 & S3).
  split; [|split; [|split]].
  - intros E2 E3. apply S3; [done|]. rewrite G2; [|done|by split; [apply zlen_nonneg|]].
    rewrite (mread_ext _ _ _ _ (fun y _ => M1 y)). by rewrite mread_same.
  - by rewrite <- F1, <- F2.
  - intros t' Ht. by rewrite F3, F2, F1.
  - exact (quiet_trans _ _ _ Q1 (quiet_trans _ _ _ Q2 Q3)).
Qed.

(** C27: (refinement) With the video device found, the three calls of a
    download fetch a file: a status of 1 says that the BMC has the file and
    gives its size, a status of 2 that it is there to be read, and the read
    of that size then succeeds with that many bytes, without touching
    the firmware's state or the files. They are the file when it has at most
    64 KB, the size of the window on the memory of the BMC; a larger one is
    taken from the video memory, of which nothing is promised (revision 1.21
    in the file's history says it does not follow the memory of the BMC). *)
Theorem download_fetches t o v x :
  statics_ok (ls x) ->
  let '(st1, o1, x1) := DataToBIOSReadyNotify located junk t o x in
  let '(st2, r2, x2) := DataToBIOSWait located junk t v x1 in
  st1 = EFI_SUCCESS -> snd o1 = 1 -> st2 = EFI_SUCCESS -> r2 = 2 ->
  exists f, stored_file (lm x) t = Some f /\ fst o1 = zlen f /\
    exists b x3, DataToBIOSReadData SVID (fst o1) x2 = Done (EFI_SUCCESS, b, x3) /\
      zlen b = zlen f /\ (zlen f <= WINDOW_SIZE -> b = f) /\
      quiet (lm x) (lm x3) /\ stored_file (lm x3) = stored_file (lm x).
Proof using HB junk_length.
  intros Hok. pose proof (notify_spec located junk junk_length t o x Hok) as H1.
  destruct (DataToBIOSReadyNotify located junk t o x) as [[st1 o1] x1]. destruct H1 as (O1 & (Q1 & F1 & _) & G1).
  pose proof (wait_spec located junk junk_length t v x1 O1) as H2.
  destruct (DataToBIOSWait located junk t v x1) as [[st2 r2] x2]. destruct H2 as (O2 & (Q2 & F2 & _) & G2).
  intros E1 E1' E2 E2'. destruct (G1 E1 E1') as (f & Hf & Hz). destruct (G2 E2 E2') as (Ho & Hm).
  exists f. rewrite <- Hz. split; [done|]. split; [done|].
  destruct (read_spec (zlen f) x2 O2 (zlen_nonneg _)) as (b & x3 & E3 & _ & (Q3 & F3 & _) & _ & Hl & Hb).
  exists b, x3. rewrite E3. rewrite F2, F1 in Ho. split; [done|]. split; [done|]. split.
  - intros Ht. rewrite Hb by done. apply Hm; [congruence|]. pose proof window_transfer. lia.
  - split; [exact (quiet_trans _ _ _ Q1 (quiet_trans _ _ _ Q2 Q3))|congruence].
Qed.

(** The machine after [k] times the same command, and the answer to the
    next one. *)
Definition after (req : list Z) (k : nat) (m : M) : M := Nat.iter k (fun m => snd (SendIpmiCommand req m)) m.
Definition answer (req : list Z) (k : nat) (m : M) : EFI_STATUS * list Z := fst (SendIpmiCommand req (after req k m)).

(** Neither the checksum matches nor it differs: ask again. *)
Definition undecided (a : EFI_STATUS * list Z) : Prop := fst a <> EFI_SUCCESS \/ (snd a <> [2] /\ snd a <> [1]).

Lemma after_S req k m : after req (S k) m = after req k (snd (SendIpmiCommand req m)).
Proof using. unfold after. by rewrite Nat.iter_succ_r. Qed.

Lemma done_loop_polls t n : forall old x, length old = 1%nat ->
  let '(st, r, x') := done_loop n [0x0E; t] old x in
  (exists k, (k < n)%nat /\ (forall j, (j < k)%nat -> undecided (answer [0x0E; t] j (lm x))) /\
     lm x' = after [0x0E; t] (S k) (lm x) /\
     (st = EFI_SUCCESS /\ answer [0x0E; t] k (lm x) = (EFI_SUCCESS, [2]) \/
      st = EFI_ABORTED /\ answer [0x0E; t] k (lm x) = (EFI_SUCCESS, [1]))) \/
  ((forall j, (j < n)%nat -> undecided (answer [0x0E; t] j (lm x))) /\ st = EFI_ABORTED /\
     lm x' = after [0x0E; t] n (lm x)).
Proof using HB.
  induction n as [|n IH]; intros old x Hold; cbn [done_loop].
  { right. split; [intros j Hj; lia|done]. }
  pose proof (send_ok [0x0E; t] old x) as Hk. destruct (send [0x0E; t] old x) as [[st1 r1] x1].
  destruct Hk as (_ & r0 & E1 & ->).
  assert (A0 : answer [0x0E; t] 0 (lm x) = (st1, r0)) by (unfold answer; change (after _ 0 (lm x)) with (lm x); by rewrite E1).
  assert (Again : undecided (st1, r0) -> let '(st, r, x') := done_loop n [0x0E; t] (overlay r0 old) x1 in
    (exists k, (k < S n)%nat /\ (forall j, (j < k)%nat -> undecided (answer [0x0E; t] j (lm x))) /\
       lm x' = after [0x0E; t] (S k) (lm x) /\
       (st = EFI_SUCCESS /\ answer [0x0E; t] k (lm x) = (EFI_SUCCESS, [2]) \/
        st = EFI_ABORTED /\ answer [0x0E; t] k (lm x) = (EFI_SUCCESS, [1]))) \/
    ((forall j, (j < S n)%nat -> undecided (answer [0x0E; t] j (lm x))) /\ st = EFI_ABORTED /\
       lm x' = after [0x0E; t] (S n) (lm x))).
  { intros Hu. specialize (IH (overlay r0 old) x1). rewrite length_overlay in IH. specialize (IH Hold).
    destruct (done_loop n _ _ x1) as [[st r] x'].
    assert (As : forall k, answer [0x0E; t] k (lm x1) = answer [0x0E; t] (S k) (lm x)).
    { intros k. unfold answer. by rewrite after_S, E1. }
    assert (Ns : forall k, after [0x0E; t] k (lm x1) = after [0x0E; t] (S k) (lm x)) by (intros k; by rewrite after_S, E1).
    assert (Us : forall k, (forall j, (j < k)%nat -> undecided (answer [0x0E; t] j (lm x1))) ->
      forall j, (j < S k)%nat -> undecided (answer [0x0E; t] j (lm x))).
    { intros k Hj [|j] Hjk; [by rewrite A0|]. rewrite <- As. apply Hj. lia. }
    destruct IH as [(k & Hk & Hj & Hl & Hr)|(Hj & Hr & Hl)].
    - left. exists (S k). split; [lia|]. split; [by apply Us|]. rewrite <- Ns, <- As. by split.
    - right. split; [by apply Us|]. by rewrite <- Ns. }
  destruct (EFI_ERROR st1) eqn:Ee; [apply Again; left; cbn [fst]; by intros ->|].
  rewrite (no_error _ Ee) in *. pose proof (send_length _ _ _ _ _ E1) as Hlen. cbn [Z.eqb Pos.eqb] in Hlen.
  rewrite overlay_same in * by congruence.
  assert (Hend : lm x1 = after [0x0E; t] 1 (lm x)) by (by rewrite after_S, E1).
  case_bool_decide as E2; [|case_bool_decide as E3; [|apply Again; by right]].
  - left. exists 0%nat. split; [lia|]. split; [intros j Hj; lia|]. split; [done|]. left. by rewrite A0, E2.
  - left. exists 0%nat. split; [lia|]. split; [intros j Hj; lia|]. split; [done|]. right. by rewrite A0, E3.
Qed.

(** The end of an upload asks for the outcome of the check
    sum at most 60 times and takes the first answer that decides: 2 is
    success, 1 is [EFI_ABORTED], everything else, failed commands
    included, asks again; when no answer decides it is [EFI_ABORTED]. *)
Theorem DataToBMCDone_polls t x :
  statics_ok (ls x) -> located = true \/ mIpmiTransport (ls x) = true ->
  let '(st, r, x') := DataToBMCDone located junk t x in
  (exists k, (k < 60)%nat /\ (forall j, (j < k)%nat -> undecided (answer [0x0E; t] j (lm x))) /\
     lm x' = after [0x0E; t] (S k) (lm x) /\
     (st = EFI_SUCCESS /\ answer [0x0E; t] k (lm x) = (EFI_SUCCESS, [2]) \/
      st = EFI_ABORTED /\ answer [0x0E; t] k (lm x) = (EFI_SUCCESS, [1]))) \/
  ((forall j, (j < 60)%nat -> undecided (answer [0x0E; t] j (lm x))) /\ st = EFI_ABORTED /\
     lm x' = after [0x0E; t] 60 (lm x)).
Proof using HB junk_length.
  intros Hok Hl. unfold DataToBMCDone, with_ipmi. pose proof (locate_ok located x Hok) as Hm.
  destruct (SmcLibLocateIpmiProtocol located x) as [st x1] eqn:E. destruct Hm as [_ <-].
  assert (EFI_ERROR st = false) as ->.
  { unfold SmcLibLocateIpmiProtocol in E. destruct (mIpmiTransport (ls x)); [by injection E as <- _|].
    destruct Hl as [-> | ?]; [by injection E as <- _|done]. }
  exact (done_loop_polls t 60 (junk 1) x1 (junk_length 1)).
Qed.
End claims.

(** Without the device, preparing an upload is refused with
    [EFI_NOT_READY] and touches nothing, while reading a download goes
    through two pointers that were never set. *)
Theorem no_device {M} `{Ast M} (SVID Length v : Z) (Buffer : list Z) i (x : @lib M) :
  find_bus (M := M) SVID = None -> ls x = unused i ->
  DataToBMCPrepareData SVID Buffer Length v x = Done (EFI_NOT_READY, v, x) /\
  DataToBIOSReadData SVID Length x = Fault.
Proof.
  intros Hn Hs. destruct x as [m s]. cbn [ls] in Hs. subst s.
  assert (E : GetIPMIVideoBar SVID (mkLib m (unused i)) = mkLib m (unused i)).
  { unfold GetIPMIVideoBar. cbn [ls lm IVBar unused]. by rewrite Hn. }
  unfold DataToBMCPrepareData, DataToBIOSReadData. by rewrite E.
Qed.

(** *** At a concrete machine *)
Import Machine.

Definition junk0 (n : nat) : list Z := replicate n 0.
Definition lib0 : @lib machine := mkLib machine0 statics0.
Definition lib_staged : @lib machine := mkLib (mc_set_bmc ∅ (Some (2, [7; 8])) None 0 machine0) statics0.
Definition lib_file : @lib machine := mkLib (mc_set_bmc {[ 2 := [7; 8] ]} None None 0 machine0) statics0.

Lemma statics0_ok : statics_ok (SVID := SVID) statics0.
Proof. by exists false; left. Qed.

Lemma length_junk0 n : length (junk0 n) = n.
Proof. apply length_replicate. Qed.

Lemma prepare_read_roundtrip_witness :
  exists x1 x2, DataToBMCPrepareData SVID [1; 2; 3] 3 0 lib0 = Done (EFI_SUCCESS, 6, x1) /\
    DataToBIOSReadData SVID 3 x1 = Done (EFI_SUCCESS, [1; 2; 3], x2).
Proof.
  destruct (prepare_read_roundtrip [1; 2; 3] 0 lib0 statics0_ok ltac:(done)) as (x1 & x2 & E1 & E2 & _).
  by exists x1, x2.
Defined.

Lemma prepare_oversized_witness :
  exists x1, DataToBMCPrepareData SVID (replicate (Z.to_nat 0x100001) 5) 0x100001 0 lib0 = Done (EFI_SUCCESS, 0, x1) /\
    bmc_mem (lm x1) = bmc_mem machine0.
Proof.
  assert (Hz : zlen (replicate (Z.to_nat 0x100001) 5) = 0x100001) by (unfold zlen; rewrite length_replicate; lia).
  destruct (prepare_oversized (replicate (Z.to_nat 0x100001) 5) 0 lib0 statics0_ok) as (x1 & E1 & _ & M1).
  { by rewrite Hz. }
  rewrite Hz in E1. exists x1. split; [exact E1|exact M1].
Defined.

Definition upload_statuses : option (EFI_STATUS * EFI_STATUS) :=
  match DataToBMCPrepareData SVID [1; 2; 3] 3 0 lib_file with
  | Done (_, _, x1) =>
      let '(st2, _, x2) := DataToBMCReadyNotify true junk0 2 3 x1 in
      let '(st3, _, x3) := DataToBMCDone true junk0 2 x2 in Some (st2, st3)
  | _ => None
  end.

Lemma upload_statuses_ok : upload_statuses = Some (EFI_SUCCESS, EFI_SUCCESS).
Proof. vm_compute. reflexivity. Qed.

Lemma upload_replaces_witness :
  exists x1 r2 x2 r3 x3, DataToBMCPrepareData SVID [1; 2; 3] 3 0 lib_file = Done (EFI_SUCCESS, 6, x1) /\
    DataToBMCReadyNotify true junk0 2 3 x1 = (EFI_SUCCESS, r2, x2) /\
    DataToBMCDone true junk0 2 x2 = (EFI_SUCCESS, r3, x3) /\ stored_file (lm x3) 2 = Some [1; 2; 3].
Proof.
  destruct (upload_replaces true junk0 length_junk0 [1; 2; 3] 0 2 lib_file statics0_ok ltac:(done)) as (x1 & E1 & H).
  exists x1. change (sum8 [1; 2; 3]) with 6 in E1. change (zlen [1; 2; 3]) with 3 in *.
  destruct (DataToBMCReadyNotify true junk0 2 3 x1) as [[st2 r2] x2] eqn:E2.
  destruct (DataToBMCDone true junk0 2 x2) as [[st3 r3] x3] eqn:E3.
  exists r2, x2, r3, x3. destruct H as (H & _). pose proof upload_statuses_ok as Hs. unfold upload_statuses in Hs.
  rewrite E1, E2, E3 in Hs. injection Hs as -> ->. split; [done|]. split; [done|]. split; [done|]. by apply H.
Defined.

Definition download_statuses : EFI_STATUS * (Z * Z) * EFI_STATUS * Z :=
  let '(st1, o1, x1) := DataToBIOSReadyNotify true junk0 2 (0, 0) lib_file in
  let '(st2, r2, x2) := DataToBIOSWait true junk0 2 0 x1 in (st1, o1, st2, r2).

Lemma download_statuses_ok : download_statuses = (EFI_SUCCESS, (2, 1), EFI_SUCCESS, 2).
Proof. vm_compute. reflexivity. Qed.

Lemma download_fetches_witness :
  exists o1 x1 r2 x2 x3, DataToBIOSReadyNotify true junk0 2 (0, 0) lib_file = (EFI_SUCCESS, o1, x1) /\
    DataToBIOSWait true junk0 2 0 x1 = (EFI_SUCCESS, r2, x2) /\
    DataToBIOSReadData SVID 2 x2 = Done (EFI_SUCCESS, [7; 8], x3).
Proof.
  pose proof (download_fetches true junk0 length_junk0 2 (0, 0) 0 lib_file statics0_ok) as H.
  destruct (DataToBIOSReadyNotify true junk0 2 (0, 0) lib_file) as [[st1 o1] x1] eqn:E1.
  destruct (DataToBIOSWait true junk0 2 0 x1) as [[st2 r2] x2] eqn:E2.
  pose proof download_statuses_ok as Hs. unfold download_statuses in Hs. rewrite E1, E2 in Hs.
  injection Hs as -> -> -> ->. destruct (H eq_refl eq_refl eq_refl eq_refl) as (f & Hf & Hz & Hr).
  vm_compute in Hf. injection Hf as <-. destruct Hr as (b & x3 & E3 & _ & Hb & _). rewrite Hb in E3 by done.
  by eexists _, _, _, _, x3.
Defined.

Lemma DataToBMCDone_polls_witness :
  exists k, (k < 60)%nat /\ answer [0x0E; 2] k (lm lib_staged) = (EFI_SUCCESS, [2]).
Proof.
  pose proof (DataToBMCDone_polls true junk0 length_junk0 2 lib_staged statics0_ok (or_introl eq_refl)) as H.
  assert (Hs : fst (fst (DataToBMCDone true junk0 2 lib_staged)) = EFI_SUCCESS) by (vm_compute; reflexivity).
  destruct (DataToBMCDone true junk0 2 lib_staged) as [[st r] x']. cbn [fst] in Hs. subst st.
  destruct H as [(k & Hk & _ & _ & [[_ Ha]|[Hs _]])|(_ & Hs & _)]; [|discriminate Hs|discriminate Hs].
  exists k. by split.
Defined.

Lemma no_device_witness :
  DataToBMCPrepareData (M := unit) SVID [1] 1 9 (mkLib tt statics0) = Done (EFI_NOT_READY, 9, mkLib tt statics0) /\
  DataToBIOSReadData (M := unit) SVID 1 (mkLib tt statics0) = Fault.
Proof. apply (no_device SVID 1 9 [1] false (mkLib tt statics0)); reflexivity. Defined.
