(* ===== verification/OutBand.v ===== *)
(** * The out-of-band driver

    Models [SmcOutBand/SmcOutBand.c], and [CalculateMd5] of
    [Library/OobLibrary.c]. At the early callback the driver downloads the
    files a remote tool left on the BMC into the ROM hole; after ready to boot
    it uploads the images the in-band driver published, unless the MD5 digest
    it keeps in a variable says the BMC has them already. The BMC is the
    interface [Bmc], memory, CMOS and flash are those of [InBandSmm]. *)

From S2P Require Import RomHole.
From S2P Require Import Prelude Services Bmc OobCmos FeatureFlag Smbios BiosCfg FullSm PhysMem InBandSmm HiiImage.

(** [#define MAX_DOWNLOAD_SIZE 256 * 1024]. *)
Definition MAX_DOWNLOAD_SIZE : Z := 256 * 1024.
Definition MD5_DIGEST_SIZE : Z := 16.
Definition OOB_IPMI_FILE_RETRY : nat := 3.
Definition Preserve_SMBIOS : Z := 1.
Definition Preserve_OA : Z := 2.
Definition OobBakerville : Z := 2.
(** [SM_SIGNATURE] as bytes. *)
Definition SM_sig : list Z := [0x5f; 0x53; 0x4d; 0x5f].
(** ["$SMC"]. *)
Definition SMC_sig : list Z := [0x24; 0x53; 0x4d; 0x43].

(** [L"SMCBIOSBIN"], [L"SMCOOBHII"], [L"SMCFULLSM"], [L"SMCSMBIOS"],
    [L"SMCFSFHEADER"], [L"SMCBIOSSTORAGE"]. *)
Definition SMCBIOSBIN : name := [0x53; 0x4d; 0x43; 0x42; 0x49; 0x4f; 0x53; 0x42; 0x49; 0x4e].
Definition SMCOOBHII : name := [0x53; 0x4d; 0x43; 0x4f; 0x4f; 0x42; 0x48; 0x49; 0x49].
Definition SMCFULLSM : name := [0x53; 0x4d; 0x43; 0x46; 0x55; 0x4c; 0x4c; 0x53; 0x4d].
Definition SMCSMBIOS : name := [0x53; 0x4d; 0x43; 0x53; 0x4d; 0x42; 0x49; 0x4f; 0x53].
Definition SMCFSFHEADER : name :=
  [0x53; 0x4d; 0x43; 0x46; 0x53; 0x46; 0x48; 0x45; 0x41; 0x44; 0x45; 0x52].
Definition SMCBIOSSTORAGE : name :=
  [0x53; 0x4d; 0x43; 0x42; 0x49; 0x4f; 0x53; 0x53; 0x54; 0x4f; 0x52; 0x41; 0x47; 0x45].

(** ** The digest

    The three calls of the crypto library, over its context; the digest is
    zero when one of them fails before the last. *)
Record md5_lib := mkMd5 {
  md5_ctx : Type; Md5Init : option md5_ctx; Md5Update : md5_ctx -> list Z -> option md5_ctx;
  Md5Final : md5_ctx -> bool * list Z }.

Definition CalculateMd5 (L : md5_lib) (HashData : list Z) : EFI_STATUS * list Z :=
  let zero := replicate (Z.to_nat MD5_DIGEST_SIZE) 0 in
  match Md5Init L with
  | None => (EFI_ABORTED, zero)
  | Some ctx =>
      match Md5Update L ctx HashData with
      | None => (EFI_ABORTED, zero)
      | Some ctx => let '(ok, d) := Md5Final L ctx in (if ok then EFI_SUCCESS else EFI_ABORTED, d)
      end
  end.

(** What the driver reads of the platform policy besides the CMOS tokens and
    the feature flags. *)
Record oob_config := mkOob {
  PlatformId : Z; Md5Support : bool; OobFileStatus0 : Z;
  BoardInfoSvid : Z; BoardInfoDate : Z; BoardInfoTime : Z }.

Section outband.
Context {W : Type} `{Bmc W} {S : Type} `{CmosPorts S}.
Context (pol : smm_policy) (cfg : oob_config) (md5 : md5_lib).
Context (gSMCOOBMD5GUID gSmcFeatureSupportFlagsGuid : guid).
(** What [AllocatePool] returns for a size, and the bytes of the local array
    [OldDigest]. *)
Context (AllocatePool : Z -> option (list Z)) (OldDigest : list Z).

Definition GetCmosMemoryAddressValue (s : S) : Res (Z * S) := cmos_address pol s.

(** ** Uploading *)

(** One attempt: the three steps, up to the first error. *)
Definition upload_once (FileType : Z) (data : list Z) (w : W) : EFI_STATUS * W :=
  let '(Status, w) := PrepareDataToBmc data w in
  if EFI_ERROR Status then (Status, w)
  else
    let '(Status, w) := UploadOobDataStart FileType (zlen data) w in
    if EFI_ERROR Status then (Status, w) else UploadOobDataDone FileType w.

(** [while(FileRetry)]; [remember] runs after an attempt that succeeds. *)
Fixpoint upload_loop (FileRetry : nat) (FileType : Z) (data : list Z) (remember : W -> W) (w : W) : W :=
  match FileRetry with
  | O => w
  | Datatypes.S FileRetry =>
      let '(Status, w) := upload_once FileType data w in
      if EFI_ERROR Status then upload_loop FileRetry FileType data remember w else remember w
  end.

(** The file is on the BMC, and the variable of the last upload holds the
    digest. *)
Definition same_as_last (n : name) (FileType : Z) (Digest : list Z) (w : W) : bool :=
  if Z.land (OobFileStatus0 cfg) (Z.shiftl 1 FileType) =? 0 then false
  else
    let r := GetVariable n gSMCOOBMD5GUID MD5_DIGEST_SIZE w in
    if EFI_ERROR (v_status r) then false
    else bool_decide (v_data r ++ drop (length (v_data r)) OldDigest = Digest).

Definition remember (n : name) (Digest : list Z) (w : W) : W :=
  if Md5Support cfg then snd (SetVariable n gSMCOOBMD5GUID nv_attr Digest w) else w.

(** The common end of four uploads: [hashed] is what the digest covers,
    [data] what is sent. *)
Definition upload_file (n : name) (FileType : Z) (hashed data : list Z) (w : W) : W :=
  let '(_, Digest) := CalculateMd5 md5 hashed in
  if Md5Support cfg && same_as_last n FileType Digest w then w
  else upload_loop OOB_IPMI_FILE_RETRY FileType data (remember n Digest) w.

Definition set_fw (s : @smm W S) (w : W) : @smm W S := mkSmm (mm s) w (cm s).
Definition set_cm (s : @smm W S) (c : S) : @smm W S := mkSmm (mm s) (fw s) c.

Definition UploadBiosCfgToBMC (s : @smm W S) : Res (@smm W S) :=
  '(Temp32, c) ← GetCmosMemoryAddressValue (cm s);
  let s := set_cm s c in
  let p := u32 (Temp32 + SMC_OOB_SMRAM_BIOS_CFG_OFFSET) in
  if negb (bool_decide (mread (mm s) p 4 = BIN_sig)) then Done s
  else
    let TotalDataBufferSize := FileSize_at (mm s) p + sizeof_Cfg_Header + 1 in
    Done (set_fw s (upload_file SMCBIOSBIN OOB_FILE_TYPE_BIN (mread (mm s) p TotalDataBufferSize)
      (mread (mm s) p (u32 TotalDataBufferSize)) (fw s))).

Definition UploadHiiToBMC (s : @smm W S) : Res (@smm W S) :=
  '(Temp32, c) ← GetCmosMemoryAddressValue (cm s);
  let s := set_cm s c in
  let p := Temp32 + SMC_OOB_SMRAM_HII_OFFSET in
  let HiiDataSize := u32 (FileSize_at (mm s) p + sizeof_HII_HEADER) in
  if negb (bool_decide (mread (mm s) p 4 = HiiImage.HII_sig)) then Done s
  else
    let data := mread (mm s) p HiiDataSize in
    Done (set_fw s (upload_file SMCOOBHII OOB_FILE_TYPE_HII data data (fw s))).

Definition UploadFullSmBiosToBMC (s : @smm W S) : Res (@smm W S) :=
  '(Temp32, c) ← GetCmosMemoryAddressValue (cm s);
  let s := set_cm s c in
  let p := u32 (Temp32 + SMC_OOB_SMRAM_FULL_SMBIOS_OFFSET) in
  let FullSmBiosSize := u32 (FileSize_at (mm s) p + sizeof_FullSmBios_Header) in
  if negb (bool_decide (mread (mm s) p 4 = SM_sig)) then Done s
  else
    let data := mread (mm s) p FullSmBiosSize in
    Done (set_fw s (upload_file SMCFULLSM OOB_FILE_TYPE_FULL_SMBIOS data data (fw s))).

Definition UploadSmbiosFileToBmc (w : W) : Res W :=
  match AllocatePool (SmcRomHoleSize CURRENT_SMBIOS_REGION w) with
  | None => Done w
  | Some _ =>
      let '(Status, SmbiosData) := SmcRomHoleReadRegion CURRENT_SMBIOS_REGION w in
      if EFI_ERROR Status then Done w
      else
        sig ← rdn SmbiosData 0 4;
        if negb (bool_decide (sig = SMB_sig)) then Done w
        else
          FileSize ← rd32 SmbiosData 6;
          let TotalDataSize := FileSize + sizeof_Smbios_Header in
          data ← rdn SmbiosData 0 TotalDataSize;
          Done (upload_file SMCSMBIOS OOB_FILE_TYPE_DMI data data w)
  end.

Definition UploadFeatureSupportFlagsFileToBmc (w : W) : Res W :=
  match AllocatePool 64 with
  | None => Done w
  | Some pBuffer =>
      '(pBuffer, DataSize) ← GenerateFeatureSupportFlags pBuffer (SumFeatureFlags pol);
      match AllocatePool sizeof_PlatInfo_H with
      | None => Done w
      | Some _ =>
          header ← rdn pBuffer 0 sizeof_PlatInfo_H;
          data ← rdn pBuffer 0 DataSize;
          let same :=
            if Z.land (OobFileStatus0 cfg) (Z.shiftl 1 OOB_FILE_TYPE_BIOS_FEATURE_FLAG) =? 0 then false
            else
              let r := GetVariable SMCFSFHEADER gSmcFeatureSupportFlagsGuid sizeof_PlatInfo_H w in
              if EFI_ERROR (v_status r) then false
              else bool_decide (v_data r = take (Z.to_nat (v_size r)) pBuffer) in
          if (same : bool) then Done w
          else Done (upload_loop OOB_IPMI_FILE_RETRY OOB_FILE_TYPE_BIOS_FEATURE_FLAG data
            (fun w => snd (SetVariable SMCFSFHEADER gSmcFeatureSupportFlagsGuid nv_attr header w)) w)
      end
  end.

Definition UploadBiosStorageToBMC (w : W) : Res W :=
  match AllocatePool SMC_ROM_HOLE_SIZE with
  | None => Done w
  | Some _ =>
      let '(Status, DataBuffer) := SmcRomHoleReadRegion FULL_REGION w in
      if EFI_ERROR Status then Done w
      else
        l ← rdn DataBuffer 0 (SMC_ROM_HOLE_SIZE - 1);
        DataBuffer ← wr8 DataBuffer (SMC_ROM_HOLE_SIZE - 1) (sum8 l);
        data ← rdn DataBuffer 0 SMC_ROM_HOLE_SIZE;
        Done (upload_file SMCBIOSSTORAGE OOB_FILE_TYPE_BIOS_STORAGE data data w)
  end.

(** The firmware part of a step. *)
Definition on_fw (f : W -> Res W) (s : @smm W S) : Res (@smm W S) := w ← f (fw s); Done (set_fw s w).

(** The callback of the data-ready protocol; the result says that
    [SignalOOBUploadDone] installed its protocol. *)
Definition UploadOobDataToBmc (s : @smm W S) : Res (@smm W S * bool) :=
  s ← UploadBiosCfgToBMC s;
  s ← on_fw UploadSmbiosFileToBmc s;
  s ← UploadHiiToBMC s;
  s ← UploadFullSmBiosToBMC s;
  s ← on_fw UploadFeatureSupportFlagsFileToBmc s;
  s ← on_fw UploadBiosStorageToBMC s;
  Done (s, true).

(** ** Downloading *)

(** The wait for the BMC to copy a file to the video memory; a new
    [WaitRspStatus] comes with every call. *)
Fixpoint wait_ready (n : nat) (FileType WaitRspStatus : Z) (w : W) : Z * W :=
  match n with
  | O => (WaitRspStatus, w)
  | Datatypes.S n =>
      let '(Status, WaitRspStatus, w) := DownloadOobDataReady FileType WaitRspStatus w in
      if negb (EFI_ERROR Status) && ((WaitRspStatus =? 0) || (WaitRspStatus =? 2))
      then (WaitRspStatus, w) else wait_ready n FileType WaitRspStatus w
  end.

(** [DownloadProcess], [DownloadSuccess] and the buffer. *)
Record transfer := mkTransfer { DownloadProcess : bool; DownloadSuccess : bool; Buffer : list Z }.

(** The retry loop of the three downloads: [fits] filters the announced size,
    [verify] is the checksum test on the filled buffer, [accept] what runs
    before the loop ends with success. [p] is [FileSize] and [RspStatus]. *)
Fixpoint attempts (n : nat) (FileType : Z) (fits : Z -> bool) (verify : list Z -> Z -> Res bool)
    (accept : list Z -> W -> Res (list Z * W)) (p : Z * Z) (t : transfer) (w : W) : Res (transfer * W) :=
  match n with
  | O => Done (t, w)
  | Datatypes.S n =>
      let failed := mkTransfer false false (Buffer t) in
      let '(Status, p, w) := DownloadOobDataStart FileType p w in
      if EFI_ERROR Status || negb (fits (fst p)) then attempts n FileType fits verify accept p failed w
      else if snd p =? 1 then
        let '(WaitRspStatus, w) := wait_ready 200 FileType 0 w in
        let t := mkTransfer true false (Buffer t) in
        if WaitRspStatus =? 2 then
          let '(Status, bs, w) := ReadDataToBios (fst p) w in
          if EFI_ERROR Status then attempts n FileType fits verify accept p t w
          else
            b ← wrn (Buffer t) 0 bs;
            ok ← verify b (fst p);
            if (ok : bool) then '(b, w) ← accept b w; Done (mkTransfer true true b, w)
            else attempts n FileType fits verify accept p (mkTransfer true false b) w
        else attempts n FileType fits verify accept p t w
      else if snd p =? 0 then Done (failed, w)
      else attempts n FileType fits verify accept p failed w
  end.

(** The checksum in the last byte. *)
Definition last_byte_checksum (b : list Z) (FileSize : Z) : Res bool :=
  l ← rdn b 0 (u32 (FileSize - 1));
  c ← rd8 b (u32 (FileSize - 1));
  Done (sum8 l =? c).

(** The checksum of the SMBIOS header over the data behind it. *)
Definition header_checksum (b : list Z) (_ : Z) : Res bool :=
  FileSize ← rd32 b 6;
  if FileSize <? MAX_DOWNLOAD_SIZE then
    l ← rdn b sizeof_Smbios_Header FileSize;
    c ← rd8 b 10;
    Done (sum8 l =? c)
  else Done false.

Definition keep (b : list Z) (w : W) : Res (list Z * W) := Done (b, w).

(** Tell the BMC; on success store the first bytes of the buffer in the
    region. *)
Definition store_in (op FileType : Z) (t : transfer) (w : W) : Res W :=
  if negb (DownloadProcess t) then Done w
  else if DownloadSuccess t then
    let '(Status, w) := DownloadOobDataDone FileType 0 w in
    if EFI_ERROR Status then Done w
    else b ← rdn (Buffer t) 0 (SmcRomHoleSize op w); Done (snd (SmcRomHoleWriteRegion op b w))
  else Done (snd (DownloadOobDataDone FileType 1 w)).

(** [FileSize] and [RspStatus] before the first call. *)
Context (RspStatus0 FileSize0 : Z).

Definition DownloadBiosCfgFromBMC (w : W) : Res W :=
  match AllocatePool MAX_DOWNLOAD_SIZE with
  | None => Done w
  | Some TotalDataBuffer =>
      '(t, w) ← attempts 5 OOB_FILE_TYPE_BIN (fun _ => true) last_byte_checksum keep (FileSize0, RspStatus0)
                  (mkTransfer false false TotalDataBuffer) w;
      store_in INBAND_REGION OOB_FILE_TYPE_BIN t w
  end.

Definition DownloadSmbiosFileFromBmc (w : W) : Res W :=
  match AllocatePool MAX_DOWNLOAD_SIZE with
  | None => Done w
  | Some TotalDataBuffer =>
      '(t, w) ← attempts 5 OOB_FILE_TYPE_DMI (fun _ => true) header_checksum keep (0, RspStatus0)
                  (mkTransfer false false TotalDataBuffer) w;
      store_in CURRENT_SMBIOS_REGION OOB_FILE_TYPE_DMI t w
  end.

(** A region of the hole inside [DataBuffer]: fill it with 0xFF. *)
Definition clear_region (op : Z) (b : list Z) (w : W) : Res (list Z) :=
  off ← SmcRomHoleOffset op;
  wrn b off (replicate (Z.to_nat (SmcRomHoleSize op w)) 0xff).

(** Write it to flash; the status is not looked at. *)
Definition flash_region (op : Z) (b : list Z) (w : W) : Res W :=
  off ← SmcRomHoleOffset op;
  src ← rdn b off (SmcRomHoleSize op w);
  Done (snd (SmcRomHoleWriteRegion op src w)).

(** What happens to a verified storage file: the regions come back as the
    flags of the BMC say, then the flags are cleared. *)
Definition restore_regions (b : list Z) (w : W) : Res (list Z * W) :=
  let '(Status, FlashFlag, w) := SmibiosPreservation 0 0 w in
  '(b, w) ←
    (if EFI_ERROR Status then Done (b, w)
     else
       off ← SmcRomHoleOffset SMBIOS_FOR_BMC_REGION;
       b ← (if Z.land FlashFlag Preserve_SMBIOS =? 0 then
              b ← clear_region SMBIOS_FOR_BMC_REGION b w; wrn b off SMC_sig
            else wr8 b (off + 10) 0x01);
       w ← flash_region SMBIOS_FOR_BMC_REGION b w;
       b ← (if Z.land FlashFlag Preserve_OA =? 0 then
              b ← clear_region OA3_REGION b w; clear_region OA2_REGION b w
            else Done b);
       w ← flash_region OA3_REGION b w;
       w ← flash_region OA2_REGION b w;
       Done (b, w));
  let '(_, _, w) := SmibiosPreservation 1 FlashFlag w in
  Done (b, w).

(** The programmer or the BMC rewrote the flash when the signature is gone. *)
Definition DownloadBiosStorageFromBmc (w : W) : Res W :=
  match AllocatePool SMC_ROM_HOLE_SIZE with
  | None => Done w
  | Some DataBuffer =>
      let '(Status, region) := SmcRomHoleReadRegion SMBIOS_FOR_BMC_REGION w in
      DataBuffer ← wrn DataBuffer 0 region;
      sig ← rdn DataBuffer 0 4;
      if negb (EFI_ERROR Status) && bool_decide (sig = SMC_sig) then Done w
      else
        '(t, w) ← attempts 5 OOB_FILE_TYPE_BIOS_STORAGE (fun n => n =? SMC_ROM_HOLE_SIZE) last_byte_checksum
                    restore_regions (0, RspStatus0)
                    (mkTransfer false false (replicate (Z.to_nat SMC_ROM_HOLE_SIZE) 0xff)) w;
        if negb (DownloadProcess t) then Done w
        else if DownloadSuccess t then
          w ← (if PlatformId cfg =? OobBakerville
               then b ← rdn (Buffer t) 0 SMC_ROM_HOLE_SIZE; Done (snd (SmcRomHoleWriteRegion FULL_REGION b w))
               else Done w);
          Done (snd (DownloadOobDataDone OOB_FILE_TYPE_BIOS_STORAGE 0 w))
        else Done (snd (DownloadOobDataDone OOB_FILE_TYPE_BIOS_STORAGE 1 w))
  end.

(** The callback that runs before the in-band one. *)
Definition DownloadFileFromBMC (w : W) : Res W :=
  w ← DownloadBiosCfgFromBMC w;
  w ← DownloadSmbiosFileFromBmc w;
  DownloadBiosStorageFromBmc w.

(** ** The entry point *)

(** Which of the five protocols are there, and whether the events can be
    made. *)
Record oob_env := mkOobEnv {
  oe_Ipmi : bool; oe_RomHole : bool; oe_Policy : bool; oe_Library : bool; oe_Transport : bool;
  oe_CreateEvent : bool; oe_Callback : bool }.

Inductive oob_event := DownloadFileFromBMC_event | UploadOobDataToBmc_event.

Definition SmcOutBandEntry (e : oob_env) (w : W) : EFI_STATUS * list oob_event * W :=
  if negb (oe_Ipmi e) then (EFI_NOT_READY, [], w)
  else if negb (oe_RomHole e) then (EFI_NOT_READY, [], w)
  else if negb (oe_Policy e) then (EFI_NOT_READY, [], w)
  else if negb (oe_Library e) then (EFI_NOT_READY, [], w)
  else if negb (oe_Transport e) then (EFI_NOT_READY, [], w)
  else
    let '(Status, w) := GetSetOobIdentify (BoardInfoSvid cfg) (BoardInfoDate cfg) (BoardInfoTime cfg) w in
    if EFI_ERROR Status then (EFI_SUCCESS, [], w)
    else
      (EFI_SUCCESS,
       (if oe_CreateEvent e then [DownloadFileFromBMC_event] else []) ++
       (if oe_Callback e then [UploadOobDataToBmc_event] else []), w).
End outband.

(** A pool that always has memory, for the concrete runs. *)
Definition demo_pool (n : Z) : option (list Z) := Some (replicate (Z.to_nat n) 0).

Lemma demo_pool_size n : 0 <= n -> exists b, demo_pool n = Some b /\ zlen b = n.
Proof. intros Hn. eexists. split; [done|]. rewrite zlen_replicate. lia. Qed.
