(* ===== verification/OobUpload.v ===== *)
(** * The out-of-band uploads

    What [OutBand.UploadOobDataToBmc] does: one upload and its retry loop
    ([only_file]), what the driver remembers of its uploads ([in_sync]), a
    series of them ([uploads]), and the six uploads at the end of the boot. *)

From S2P Require Import RomHole.
From S2P Require Import Prelude Services Bmc OobCmos FeatureFlag Smbios BiosCfg FullSm PhysMem InBandSmm HiiImage OutBand.

(** ** One upload *)

(** Between the two states the BMC did no more than replace or lose the file
    of type [t]. *)
Definition only_file {W} `{Bmc W} (t : Z) (w w' : W) : Prop :=
  quiet w w' /\ forall t', t' <> t -> bmc_file w' t' = bmc_file w t'.

Section upload.
Context {W : Type} `{Bmc W}.

Lemma only_file_refl t (w : W) : only_file t w w.
Proof. split; [apply quiet_refl|done]. Qed.

Lemma only_file_trans t (a b c : W) : only_file t a b -> only_file t b c -> only_file t a c.
Proof.
  intros [A1 A2] [B1 B2]. split; [by eapply quiet_trans|]. intros t' Ht. by rewrite B2, A2.
Qed.

Lemma files_only (t : Z) (w w' : W) : quiet w w' -> bmc_file w' = bmc_file w -> only_file t w w'.
Proof. intros Hq Hf. split; [done|]. intros t' _. by rewrite Hf. Qed.

(** One attempt: only the file of its type may change; it is replaced when
    the attempt succeeds, and at worst lost when it does not. *)
Lemma upload_once_spec t d (w : W) :
  let '(st, w') := upload_once t d w in
  only_file t w w' /\
  (if EFI_ERROR st then bmc_file w' t = bmc_file w t \/ bmc_file w' t = None
   else zlen d <= TRANSFER_SIZE -> bmc_file w' t = Some d).
Proof.
  unfold upload_once.
  pose proof (Prepare_quiet d w) as Q1. pose proof (Prepare_files d w) as F1.
  destruct (PrepareDataToBmc d w) as [st1 w1] eqn:E1. cbn [snd] in Q1, F1.
  destruct (EFI_ERROR st1) eqn:G1.
  { rewrite G1. split; [by apply files_only|]. left. by rewrite F1. }
  pose proof (UploadStart_quiet t (zlen d) w1) as Q2. pose proof (UploadStart_files t (zlen d) w1) as F2.
  destruct (UploadOobDataStart t (zlen d) w1) as [st2 w2] eqn:E2. cbn [snd] in Q2, F2.
  assert (O2 : only_file t w w2) by (eapply only_file_trans; by apply files_only).
  destruct (EFI_ERROR st2) eqn:G2.
  { rewrite G2. split; [done|]. left. by rewrite F2, F1. }
  pose proof (UploadDone_quiet t w2) as Q3. pose proof (UploadDone_other t w2) as F3.
  pose proof (UploadDone_error t w2) as R3.
  destruct (UploadOobDataDone t w2) as [st3 w3] eqn:E3. cbn [fst snd] in Q3, F3, R3.
  split; [eapply only_file_trans; [exact O2|by split]|].
  destruct (EFI_ERROR st3) eqn:G3.
  - rewrite F2, F1 in R3. apply R3. intros ->. discriminate G3.
  - intros Hz. rewrite (no_error _ G1) in E1. rewrite (no_error _ G2) in E2. rewrite (no_error _ G3) in E3.
    by eapply (upload_law d t w w1 w2 w3).
Qed.

(** The retry loop: either an attempt succeeded and [remember] ran on its
    state, or none did. *)
Lemma upload_loop_spec k t d (rem : W -> W) : forall w,
  (exists w1, upload_loop k t d rem w = rem w1 /\ only_file t w w1 /\
     (zlen d <= TRANSFER_SIZE -> bmc_file w1 t = Some d)) \/
  only_file t w (upload_loop k t d rem w) /\
    (bmc_file (upload_loop k t d rem w) t = bmc_file w t \/ bmc_file (upload_loop k t d rem w) t = None).
Proof.
  induction k as [|k IH]; intros w; cbn [upload_loop].
  { right. split; [apply only_file_refl|by left]. }
  pose proof (upload_once_spec t d w) as H1. destruct (upload_once t d w) as [st w1]. destruct H1 as [O1 F1].
  destruct (EFI_ERROR st); [|left; by exists w1].
  destruct (IH w1) as [(w2 & E & O2 & F2)|[O2 F2]].
  - left. exists w2. split; [done|]. split; [by eapply only_file_trans|done].
  - right. split; [by eapply only_file_trans|]. destruct F2 as [->|?]; [|by right]. done.
Qed.

(** With a BMC that takes everything the first attempt succeeds. *)
Lemma upload_loop_accepts k t d (rem : W -> W) w :
  bmc_accepts -> exists w1, upload_loop (S k) t d rem w = rem w1 /\ only_file t w w1 /\
    (zlen d <= TRANSFER_SIZE -> bmc_file w1 t = Some d).
Proof.
  intros (A1 & A2 & A3). cbn [upload_loop].
  pose proof (upload_once_spec t d w) as H1. destruct (upload_once t d w) as [st w1] eqn:E.
  assert (G : EFI_ERROR st = false).
  { unfold upload_once in E. pose proof (A1 d w) as B1.
    destruct (PrepareDataToBmc d w) as [st1 w1']. cbn [fst] in B1. subst st1. cbn [EFI_ERROR] in E.
    pose proof (A2 t (zlen d) w1') as B2. destruct (UploadOobDataStart t (zlen d) w1') as [st2 w2'].
    cbn [fst] in B2. subst st2. cbn [EFI_ERROR] in E. pose proof (A3 t w2') as B3. rewrite E in B3. cbn in B3.
    by subst st. }
  rewrite G in *. destruct H1 as [O1 F1]. by exists w1.
Qed.
End upload.

(** ** What the driver remembers of its uploads *)

(** A file the driver uploads: the variable of its last upload, its type, and
    what the variable holds of it. *)
Record tracked := Tracked { tr_name : name; tr_guid : guid; tr_type : Z; tr_sum : list Z -> list Z }.

Section sync.
Context {W : Type} `{Bmc W}.
Context (cfg : oob_config) (md5 : md5_lib) (MD5GUID FLAGSGUID : guid) (OldDigest : list Z).

Definition digest (data : list Z) : list Z := snd (CalculateMd5 md5 data).

Definition tracked_files : list tracked :=
  [Tracked SMCBIOSBIN MD5GUID OOB_FILE_TYPE_BIN digest;
   Tracked SMCSMBIOS MD5GUID OOB_FILE_TYPE_DMI digest;
   Tracked SMCOOBHII MD5GUID OOB_FILE_TYPE_HII digest;
   Tracked SMCFULLSM MD5GUID OOB_FILE_TYPE_FULL_SMBIOS digest;
   Tracked SMCFSFHEADER FLAGSGUID OOB_FILE_TYPE_BIOS_FEATURE_FLAG (take (Z.to_nat sizeof_PlatInfo_H));
   Tracked SMCBIOSSTORAGE MD5GUID OOB_FILE_TYPE_BIOS_STORAGE digest].

(** All summaries have 16 bytes. *)
Definition summary_size : Z := 16.

(** A variable never speaks of another file than the one on the BMC. *)
Definition in_sync (w : W) : Prop :=
  forall e f a d, e ∈ tracked_files -> bmc_file w (tr_type e) = Some f ->
    var w (tr_name e) (tr_guid e) = Some (a, d) -> d = tr_sum e f /\ zlen d = summary_size.

(** The status word of the policy names a file only when the BMC has it. *)
Definition truthful (w : W) (t : Z) : Prop :=
  Z.land (OobFileStatus0 cfg) (Z.shiftl 1 t) <> 0 -> is_Some (bmc_file w t).

(** The BMC has the data, as far as the summary tells, and the variable holds
    the summary. *)
Definition remembered (e : tracked) (d : list Z) (w : W) : Prop :=
  exists a, var w (tr_name e) (tr_guid e) = Some (a, tr_sum e d).
Definition current (e : tracked) (d : list Z) (w : W) : Prop :=
  (exists f, bmc_file w (tr_type e) = Some f /\ tr_sum e f = tr_sum e d) /\ remembered e d w.

Lemma tracked_types e e' :
  e ∈ tracked_files -> e' ∈ tracked_files -> tr_type e = tr_type e' -> e = e'.
Proof using.
  unfold tracked_files. rewrite !list_elem_of_In. cbn [In].
  intros He He'. repeat destruct He as [<-|He]; try done; repeat destruct He' as [<-|He']; done.
Qed.

Lemma tracked_names e e' :
  e ∈ tracked_files -> e' ∈ tracked_files -> tr_name e = tr_name e' -> e = e'.
Proof using.
  unfold tracked_files. rewrite !list_elem_of_In. cbn [In].
  intros He He'. repeat destruct He as [<-|He]; try done; repeat destruct He' as [<-|He']; done.
Qed.

Hypothesis writes : @vars_writable W _.

(** What an upload of [d] as [e] does. *)
Record uploaded (e : tracked) (d : list Z) (w w' : W) : Prop := {
  up_tracked : e ∈ tracked_files;
  up_sync : in_sync w -> in_sync w';
  up_rom : rom w' = rom w;
  up_resets : resets w' = resets w;
  up_var : forall n g, (n, g) <> (tr_name e, tr_guid e) -> var w' n g = var w n g;
  up_other : forall t, t <> tr_type e -> bmc_file w' t = bmc_file w t;
  up_current : bmc_accepts -> in_sync w -> truthful w (tr_type e) -> current e d w' }.

Lemma sync_lost e w w' :
  e ∈ tracked_files -> only_file (tr_type e) w w' ->
  bmc_file w' (tr_type e) = bmc_file w (tr_type e) \/ bmc_file w' (tr_type e) = None ->
  in_sync w -> in_sync w'.
Proof using.
  intros He [(Qv & _) Ho] Hf Hs e' f a d He' Hb. rewrite Qv. apply (Hs e'); [done|].
  destruct (decide (tr_type e' = tr_type e)) as [E|E]; [|by rewrite <- Ho].
  rewrite E in *. destruct Hf as [Hf|Hf]; congruence.
Qed.

Definition store_sum (e : tracked) (d : list Z) (w : W) : W :=
  snd (SetVariable (tr_name e) (tr_guid e) nv_attr (tr_sum e d) w).

Lemma sync_stored e d w w1 :
  e ∈ tracked_files -> zlen (tr_sum e d) = summary_size -> only_file (tr_type e) w w1 ->
  bmc_file w1 (tr_type e) = Some d -> in_sync w -> in_sync (store_sum e d w1).
Proof using writes.
  intros He Hd [(Qv & _) Ho] Hf Hs e' f a d' He'. unfold store_sum. rewrite SetVariable_bmc.
  destruct (decide (tr_type e' = tr_type e)) as [E|E].
  - apply tracked_types in E as ->; [|done|done].
    rewrite Hf. intros [= <-]. rewrite set_same by done. unfold stored. destruct (tr_sum e d); [done|].
    intros [= _ <-]. done.
  - assert (tr_name e' <> tr_name e) by (intros Hn; apply E; by rewrite (tracked_names e' e)).
    rewrite Ho by done. rewrite SetVariable_other by congruence. rewrite Qv. by apply Hs.
Qed.

Lemma store_remembers e d w : zlen (tr_sum e d) = summary_size -> remembered e d (store_sum e d w).
Proof using writes.
  intros Hd. unfold remembered, store_sum. rewrite set_same by done. unfold stored.
  destruct (tr_sum e d); [done|by eexists].
Qed.

(** The retry loop of an upload. *)
Lemma upload_loop_uploaded e d w :
  e ∈ tracked_files -> zlen d <= TRANSFER_SIZE -> zlen (tr_sum e d) = summary_size ->
  uploaded e d w (upload_loop OOB_IPMI_FILE_RETRY (tr_type e) d (store_sum e d) w).
Proof using writes.
  intros He Hz Hsum. pose proof (upload_loop_accepts 2 (tr_type e) d (store_sum e d) w) as Ha.
  unfold OOB_IPMI_FILE_RETRY. change (Datatypes.S 2) with 3%nat in Ha.
  destruct (upload_loop_spec 3 (tr_type e) d (store_sum e d) w) as [(w1 & E & O1 & F1)|[O1 F1]].
  - rewrite E in *. clear E. specialize (F1 Hz). destruct O1 as [(Qv & Qr & Qs) Ho]. unfold store_sum at 1.
    constructor.
    + done.
    + apply sync_stored; [done|done|by split|done].
    + by rewrite SetVariable_rom.
    + by rewrite SetVariable_resets.
    + intros n g Hn. by rewrite SetVariable_other, Qv.
    + intros t Ht. by rewrite SetVariable_bmc, Ho.
    + intros _ _ _. split; [exists d; by rewrite SetVariable_bmc|].
      by apply store_remembers.
  - destruct O1 as [(Qv & Qr & Qs) Ho] eqn:EO. constructor.
    + done.
    + apply (sync_lost e); [done|by split|done].
    + done.
    + done.
    + intros n g _. by rewrite Qv.
    + done.
    + intros Hb _ _. destruct (Ha Hb) as (w1 & E & _ & F2). rewrite E.
      split; [exists d; unfold store_sum; by rewrite SetVariable_bmc, F2|by apply store_remembers].
Qed.

(** Skipping an upload whose summary is remembered. *)
Lemma skip_uploaded e d w a v :
  e ∈ tracked_files -> Z.land (OobFileStatus0 cfg) (Z.shiftl 1 (tr_type e)) <> 0 ->
  var w (tr_name e) (tr_guid e) = Some (a, v) -> (zlen v = summary_size -> v = tr_sum e d) ->
  uploaded e d w w.
Proof using.
  intros He Hst Hv Hd. constructor; try done. intros _ Hs Ht.
  destruct (Ht Hst) as [f Hf]. destruct (Hs e f a v He Hf Hv) as [E Hz]. specialize (Hd Hz).
  split; [exists f; by rewrite <- E|]. exists a. by rewrite <- Hd.
Qed.

Lemma found_variable n g size w :
  EFI_ERROR (v_status (GetVariable n g size w)) = false ->
  exists a d, var w n g = Some (a, d) /\ zlen d <= size /\
    v_data (GetVariable n g size w) = d /\ v_size (GetVariable n g size w) = zlen d.
Proof using.
  rewrite GetVariable_law. destruct (var w n g) as [[a d]|]; cbn; [|done].
  destruct (Z.leb_spec (zlen d) size); cbn; [|done]. intros _. by exists a, d.
Qed.

Hypothesis md5_on : Md5Support cfg = true.
Hypothesis digest_size : forall d, zlen (digest d) = summary_size.

(** The common end of the uploads, for a file tracked by its digest. *)
Lemma upload_file_uploaded n t d w :
  Tracked n MD5GUID t digest ∈ tracked_files -> zlen d <= TRANSFER_SIZE ->
  uploaded (Tracked n MD5GUID t digest) d w (upload_file cfg md5 MD5GUID OldDigest n t d d w).
Proof using writes md5_on digest_size.
  intros He Hz. unfold upload_file.
  rewrite (surjective_pairing (CalculateMd5 md5 d)). change (snd (CalculateMd5 md5 d)) with (digest d).
  rewrite md5_on. cbn [andb]. destruct (same_as_last cfg MD5GUID OldDigest n t (digest d) w) eqn:Es.
  - unfold same_as_last in Es. destruct (Z.eqb_spec (Z.land (OobFileStatus0 cfg) (Z.shiftl 1 t)) 0); [done|].
    destruct (EFI_ERROR (v_status (GetVariable n MD5GUID MD5_DIGEST_SIZE w))) eqn:Ee; [done|].
    apply bool_decide_eq_true in Es. destruct (found_variable _ _ _ _ Ee) as (a & v & Hva & _ & Hd & _).
    rewrite Hd in Es. apply (skip_uploaded _ d w a v); [done|done|done|]. cbn [tr_sum]. intros Hv.
    pose proof (digest_size d) as Hds. rewrite <- Es in Hds |- *. rewrite zlen_app in Hds.
    destruct (drop (length v) OldDigest) as [|x l]; [by rewrite app_nil_r|].
    exfalso. pose proof (zlen_nonneg l). rewrite zlen_cons in Hds. lia.
  - pose proof (upload_loop_uploaded (Tracked n MD5GUID t digest) d w He Hz (digest_size d)) as Hu.
    unfold store_sum in Hu. cbn [tr_name tr_guid tr_type tr_sum] in Hu.
    unfold remember. rewrite md5_on. exact Hu.
Qed.

(** The comparison of the feature flags with what the variable holds. *)
Definition flags_seen (d : list Z) (w : W) : bool :=
  if Z.land (OobFileStatus0 cfg) (Z.shiftl 1 OOB_FILE_TYPE_BIOS_FEATURE_FLAG) =? 0 then false
  else
    let r := GetVariable SMCFSFHEADER FLAGSGUID sizeof_PlatInfo_H w in
    if EFI_ERROR (v_status r) then false else bool_decide (v_data r = take (Z.to_nat (v_size r)) d).

(** The record of the supported features, tracked by its header. *)
Lemma flags_uploaded d w :
  zlen d = 40 ->
  let e := Tracked SMCFSFHEADER FLAGSGUID OOB_FILE_TYPE_BIOS_FEATURE_FLAG (take (Z.to_nat sizeof_PlatInfo_H)) in
  uploaded e d w
    (if flags_seen d w then w else upload_loop OOB_IPMI_FILE_RETRY (tr_type e) d (store_sum e d) w).
Proof using writes.
  intros Hd e. assert (He : e ∈ tracked_files).
  { unfold tracked_files. rewrite list_elem_of_In. cbn [In]. unfold e. auto 10. }
  assert (Hs : zlen (tr_sum e d) = summary_size).
  { cbn [e tr_sum]. unfold zlen, summary_size, sizeof_PlatInfo_H in *. rewrite length_take. lia. }
  unfold flags_seen. set (r := GetVariable _ _ _ w).
  destruct (Z.eqb_spec (Z.land (OobFileStatus0 cfg) (Z.shiftl 1 OOB_FILE_TYPE_BIOS_FEATURE_FLAG)) 0) as [|Hst];
    [|destruct (EFI_ERROR (v_status r)) eqn:Ee]; [| |case_bool_decide as Eb];
    try (apply upload_loop_uploaded; [done|unfold TRANSFER_SIZE; lia|done]).
  destruct (found_variable _ _ _ _ Ee) as (a & v & Hva & _ & Hdv & Hsv). fold r in Hdv, Hsv.
  rewrite Hdv, Hsv in Eb. apply (skip_uploaded e d w a v); [done|done|done|].
  intros Hv. by rewrite Hv in Eb.
Qed.

(** ** A series of uploads *)
Fixpoint uploads (l : list (tracked * list Z)) (w w' : W) : Prop :=
  match l with
  | [] => w' = w
  | (e, d) :: l => exists w1, uploaded e d w w1 /\ uploads l w1 w'
  end.

Lemma uploads_app l l' w w1 w' : uploads l w w1 -> uploads l' w1 w' -> uploads (l ++ l') w w'.
Proof using.
  revert w. induction l as [|[e d] l IH]; intros w; cbn [uploads app]; [by intros ->|].
  intros (w2 & Hu & Hl) Hl'. exists w2. split; [done|by apply IH].
Qed.

Lemma uploads_keep l w w' :
  uploads l w w' -> (in_sync w -> in_sync w') /\ rom w' = rom w /\ resets w' = resets w.
Proof using.
  revert w. induction l as [|[e d] l IH]; intros w; cbn [uploads]; [by intros ->|].
  intros (w1 & Hu & Hl). destruct (IH w1 Hl) as (A & B & C). destruct Hu.
  split; [by auto|]. split; congruence.
Qed.

Lemma uploads_other e l w w' :
  e ∈ tracked_files -> uploads l w w' -> tr_type e ∉ map (fun x => tr_type (fst x)) l ->
  bmc_file w' (tr_type e) = bmc_file w (tr_type e) /\
  var w' (tr_name e) (tr_guid e) = var w (tr_name e) (tr_guid e).
Proof using.
  intros He. revert w. induction l as [|[e' d] l IH]; intros w; cbn [uploads map fst]; [by intros ->|].
  intros (w1 & [] & Hl) [Ht1 Ht2]%not_elem_of_cons. destruct (IH w1 Hl Ht2) as [-> ->].
  rewrite up_other0 by done. split; [done|]. apply up_var0. intros [= En _].
  apply Ht1. by rewrite (tracked_names e e').
Qed.

(** Uploads of files of different types leave all of them on the BMC. *)
Lemma uploads_current l w w' :
  uploads l w w' -> NoDup (map (fun x => tr_type (fst x)) l) -> bmc_accepts -> in_sync w ->
  (forall e d, (e, d) ∈ l -> truthful w (tr_type e)) ->
  forall e d, (e, d) ∈ l -> current e d w'.
Proof using.
  revert w. induction l as [|[e d] l IH]; intros w; cbn [uploads map fst].
  { intros _ _ _ _ _ e d []%not_elem_of_nil. }
  intros (w1 & Hu & Hl) [Hn Hnd]%NoDup_cons Hb Hs Ht e' d'.
  intros [[= -> ->]|Hin]%elem_of_cons.
  - destruct (uploads_other e l w1 w' (up_tracked _ _ _ _ Hu) Hl Hn) as [K1 K2].
    destruct (up_current _ _ _ _ Hu Hb Hs (Ht _ _ (list_elem_of_here _ _))) as [Hf Hr].
    unfold current, remembered. by rewrite K1, K2.
  - apply (IH w1); [done|done|done|by apply (up_sync _ _ _ _ Hu)| |done].
    intros e2 d2 Hin2. unfold truthful. rewrite (up_other _ _ _ _ Hu); [by eapply Ht, list_elem_of_further|].
    intros Heq. apply Hn. rewrite <- Heq. rewrite list_elem_of_In, in_map_iff. exists (e2, d2).
    by rewrite <- list_elem_of_In.
Qed.
End sync.

(** ** The upload at the end of the boot *)

(** The signature an image starts with, and the file it becomes. *)
Definition img_sig (k : image) : list Z :=
  match k with IMG_HII => HiiImage.HII_sig | IMG_FULL_SMBIOS => SM_sig | IMG_BIOS_CFG => BIN_sig end.
Definition img_file (k : image) : name * Z :=
  match k with
  | IMG_HII => (SMCOOBHII, OOB_FILE_TYPE_HII)
  | IMG_FULL_SMBIOS => (SMCFULLSM, OOB_FILE_TYPE_FULL_SMBIOS)
  | IMG_BIOS_CFG => (SMCBIOSBIN, OOB_FILE_TYPE_BIN)
  end.

(** The SMBIOS editing image in its region, as long as its header says. *)
Definition region_image_size (r : list Z) : Z := le_val (take 4 (drop 6 r)) + sizeof_Smbios_Header.

(** The ROM hole, its last byte replaced by the checksum of the others. *)
Definition storage_file (r : list Z) : list Z :=
  let l := take (Z.to_nat (SMC_ROM_HOLE_SIZE - 1)) r in l ++ [sum8 l].

Section upload_driver.
Context {W : Type} `{Bmc W} {S : Type} `{CmosPorts S}.
Context (pol : smm_policy) (cfg : oob_config) (md5 : md5_lib) (MD5GUID FLAGSGUID : guid).
Context (AllocatePool : Z -> option (list Z)) (OldDigest : list Z).

Hypothesis writes : @vars_writable W _.
Hypothesis reads : @regions_readable W _.
Hypothesis md5_on : Md5Support cfg = true.
Hypothesis digest_size : forall d, zlen (digest md5 d) = summary_size.
Hypothesis pool : forall n, 0 <= n -> exists b, AllocatePool n = Some b /\ zlen b = n.

Definition digested (n : name) (t : Z) : tracked := Tracked n MD5GUID t (digest md5).
Definition flags_entry : tracked :=
  Tracked SMCFSFHEADER FLAGSGUID OOB_FILE_TYPE_BIOS_FEATURE_FLAG (take (Z.to_nat sizeof_PlatInfo_H)).

(** What is there to upload: an image of the memory block, the image of the
    SMBIOS region, the feature flags, the ROM hole. *)
Definition block_file (m : mem) (pB : Z) (k : image) : list (tracked * list Z) :=
  if bool_decide (mread m (pB + img_off k) 4 = img_sig k)
  then [(digested (fst (img_file k)) (snd (img_file k)), img_bytes m pB k)] else [].
Definition region_file (r : list Z) : list (tracked * list Z) :=
  if bool_decide (take 4 r = SMB_sig)
  then [(digested SMCSMBIOS OOB_FILE_TYPE_DMI, take (Z.to_nat (region_image_size r)) r)] else [].
Definition flags_file : list (tracked * list Z) :=
  match AllocatePool 64 with
  | Some b =>
      match GenerateFeatureSupportFlags b (SumFeatureFlags pol) with
      | Done (b, n) => [(flags_entry, take (Z.to_nat n) b)]
      | _ => []
      end
  | None => []
  end.
Definition hole_file (r : list Z) : list (tracked * list Z) :=
  [(digested SMCBIOSSTORAGE OOB_FILE_TYPE_BIOS_STORAGE, storage_file r)].

Definition to_upload (s : @smm W S) (pB : Z) : list (tracked * list Z) :=
  block_file (mm s) pB IMG_BIOS_CFG ++ region_file (rom (fw s) CURRENT_SMBIOS_REGION) ++
  block_file (mm s) pB IMG_HII ++ block_file (mm s) pB IMG_FULL_SMBIOS ++ flags_file ++
  hole_file (rom (fw s) FULL_REGION).

Lemma to_upload_types s pB : NoDup (map (fun x => tr_type (fst x)) (to_upload s pB)).
Proof using.
  unfold to_upload, block_file, region_file, flags_file, hole_file.
  repeat case_bool_decide; repeat case_match; cbn [map fst app tr_type digested flags_entry img_file snd];
    rewrite ?NoDup_cons, ?not_elem_of_cons;
    repeat split; try discriminate; try apply not_elem_of_nil; apply NoDup_nil_2.
Qed.

Lemma digested_tracked n t :
  (n, t) ∈ [img_file IMG_HII; img_file IMG_FULL_SMBIOS; img_file IMG_BIOS_CFG; (SMCSMBIOS, OOB_FILE_TYPE_DMI);
            (SMCBIOSSTORAGE, OOB_FILE_TYPE_BIOS_STORAGE)] ->
  Tracked n MD5GUID t (digest md5) ∈ tracked_files md5 MD5GUID FLAGSGUID.
Proof using.
  unfold tracked_files, img_file. rewrite !list_elem_of_In. cbn [In].
  intros Hi. repeat destruct Hi as [[= <- <-]|Hi]; auto 10.
Qed.

#[local] Abbreviation sent := (uploads cfg md5 MD5GUID FLAGSGUID).
#[local] Abbreviation send n t d w := (upload_file cfg md5 MD5GUID OldDigest n t d d w).

Lemma send_uploads n t d w :
  (n, t) ∈ [img_file IMG_HII; img_file IMG_FULL_SMBIOS; img_file IMG_BIOS_CFG; (SMCSMBIOS, OOB_FILE_TYPE_DMI);
            (SMCBIOSSTORAGE, OOB_FILE_TYPE_BIOS_STORAGE)] -> zlen d <= TRANSFER_SIZE ->
  sent [(digested n t, d)] w (send n t d w).
Proof using writes md5_on digest_size.
  intros Hi Hz. cbn [uploads]. eexists. split; [|done].
  apply upload_file_uploaded; [done..| |done]. by apply digested_tracked.
Qed.

(** A step of the upload: memory stays, CMOS reads the same, the BMC gets the
    files [l]. *)
Definition stepped (l : list (tracked * list Z)) (s s' : @smm W S) : Prop :=
  mm s' = mm s /\ same_cells (cm s') (cm s) /\ sent l (fw s) (fw s').

Lemma stepped_app l l' s s1 s' : stepped l s s1 -> stepped l' s1 s' -> stepped (l ++ l') s s'.
Proof using.
  intros (M1 & C1 & U1) (M2 & C2 & U2). split; [congruence|]. split; [|by eapply uploads_app].
  intros i. by rewrite C2.
Qed.

Lemma on_fw_stepped l f s w :
  f (fw s) = Done w -> sent l (fw s) w -> exists s', on_fw f s = Done s' /\ stepped l s s'.
Proof using.
  intros E U. unfold on_fw. rewrite E, bind_Done. eexists. split; [done|]. by split.
Qed.

(** The three uploads from the memory block; [pB] is what CMOS says. *)
Context (pB : Z).
Hypothesis pB_range : 0 <= pB /\ pB + SMC_OOB_SMRAM_TOTAL_SIZE <= 2 ^ 32.

Definition address_at (s : @smm W S) : Prop := exists c, cmos_address pol (cm s) = Done (pB, c).

(** An image that is there fits its area. *)
Definition images_fit (m : mem) : Prop :=
  forall k, mread m (pB + img_off k) 4 = img_sig k -> img_size m pB k <= img_room k.

Lemma img_range m k :
  mem_ok m -> images_fit m -> mread m (pB + img_off k) 4 = img_sig k ->
  0 <= img_size m pB k <= 0x60000 /\ zlen (img_bytes m pB k) <= TRANSFER_SIZE.
Proof using.
  intros Hm Hf Hs. pose proof (img_layout k) as Hl. specialize (Hf k Hs).
  assert (Hr : 0 <= img_size m pB k).
  { unfold img_size, FileSize_at. pose proof (mr32_range m (pB + img_off k + 6) Hm) as [? _]. lia. }
  unfold img_bytes. rewrite zlen_mread by done. unfold TRANSFER_SIZE. lia.
Qed.

(** [UploadBiosCfgToBMC], [UploadHiiToBMC] and [UploadFullSmBiosToBMC] are one
    step for different images. *)
Definition upload_block (k : image) (s : @smm W S) : Res (@smm W S) :=
  match k with
  | IMG_HII => UploadHiiToBMC pol cfg md5 MD5GUID OldDigest s
  | IMG_FULL_SMBIOS => UploadFullSmBiosToBMC pol cfg md5 MD5GUID OldDigest s
  | IMG_BIOS_CFG => UploadBiosCfgToBMC pol cfg md5 MD5GUID OldDigest s
  end.

Lemma upload_block_eq k s c :
  cmos_address pol (cm s) = Done (pB, c) -> mem_ok (mm s) -> images_fit (mm s) ->
  upload_block k s = Done
    (if bool_decide (mread (mm s) (pB + img_off k) 4 = img_sig k)
     then set_fw (set_cm s c) (send (fst (img_file k)) (snd (img_file k)) (img_bytes (mm s) pB k) (fw s))
     else set_cm s c).
Proof using pB_range.
  intros Ha Hm Hf. pose proof (img_range (mm s) k Hm Hf) as Hr. pose proof (img_layout k) as Hl.
  unfold img_bytes in *. unfold img_size in *.
  destruct k; cbn [upload_block]; unfold UploadHiiToBMC, UploadFullSmBiosToBMC, UploadBiosCfgToBMC,
    GetCmosMemoryAddressValue; rewrite Ha, bind_Done; cbn [img_off img_header img_sig img_file fst snd] in *;
    try rewrite (u32_small (pB + _)) by (unfold is_u32; lia);
    (case_bool_decide as Hs; cbn [negb]; [|by rewrite bool_decide_eq_false_2 by exact Hs]);
    rewrite bool_decide_eq_true_2 by exact Hs; destruct (Hr Hs) as [Hr1 _]; cbn [set_cm mm fw];
    rewrite u32_small by (unfold is_u32; lia); rewrite ?Z.add_assoc in *; reflexivity.
Qed.

Lemma upload_block_stepped k s :
  address_at s -> mem_ok (mm s) -> images_fit (mm s) ->
  exists s', upload_block k s = Done s' /\ stepped (block_file (mm s) pB k) s s'.
Proof using writes md5_on digest_size pB_range.
  intros [c Ha] Hm Hf. rewrite (upload_block_eq k s c Ha Hm Hf). eexists. split; [reflexivity|].
  destruct (cmos_address_again pol (cm s) (cm s) pB c (fun _ => eq_refl) Ha) as (c' & Ha' & Hc).
  rewrite Ha in Ha'. injection Ha' as <-. unfold block_file. case_bool_decide as Hs.
  - split; [done|]. split; [done|]. cbn [fw set_fw]. apply send_uploads.
    + destruct k; rewrite list_elem_of_In; cbn [In img_file fst snd]; auto 10.
    + by apply img_range.
  - split; [done|]. by split.
Qed.

Lemma address_kept s s' : same_cells (cm s') (cm s) -> address_at s -> address_at s'.
Proof using.
  intros Hc [c Ha]. destruct (cmos_address_again pol _ _ _ _ Hc Ha) as (c' & Ha' & _). by exists c'.
Qed.

(** The regions of the ROM hole the upload reads. *)
Record regions_ok (w : W) : Prop := {
  ro_hole : zlen (rom w FULL_REGION) = SMC_ROM_HOLE_SIZE;
  ro_bytes : bytes_ok (rom w CURRENT_SMBIOS_REGION);
  ro_header : sizeof_Smbios_Header <= zlen (rom w CURRENT_SMBIOS_REGION) <= TRANSFER_SIZE;
  ro_image : take 4 (rom w CURRENT_SMBIOS_REGION) = SMB_sig ->
    region_image_size (rom w CURRENT_SMBIOS_REGION) <= zlen (rom w CURRENT_SMBIOS_REGION) }.

Lemma upload_smbios_eq w :
  regions_ok w -> let r := rom w CURRENT_SMBIOS_REGION in
  UploadSmbiosFileToBmc cfg md5 MD5GUID AllocatePool OldDigest w = Done
    (if bool_decide (take 4 r = SMB_sig)
     then send SMCSMBIOS OOB_FILE_TYPE_DMI (take (Z.to_nat (region_image_size r)) r) w else w).
Proof using reads pool.
  intros [_ Hb Hh Hi] r. unfold UploadSmbiosFileToBmc. fold r in Hb, Hh, Hi.
  destruct (pool (SmcRomHoleSize CURRENT_SMBIOS_REGION w)) as (p & -> & _); [apply zlen_nonneg|].
  rewrite (read_region _ _ reads). cbn [EFI_ERROR]. fold r. unfold sizeof_Smbios_Header in Hh.
  assert (E0 : rdn r 0 4 = Done (take 4 r)) by (apply rdn_Done; split_and!; [lia..|done]).
  rewrite E0, bind_Done. case_bool_decide as Hs; cbn [negb]; [|done].
  assert (E1 : rd32 r 6 = Done (le_val (take 4 (drop 6 r)))).
  { unfold rd32. rewrite (proj2 (rdn_Done r 6 4 (take 4 (drop 6 r)))); [done|]. split_and!; [lia..|done]. }
  rewrite E1, bind_Done. specialize (Hi Hs). unfold region_image_size in *.
  assert (Hp : is_u32 (le_val (take 4 (drop 6 r)))).
  { apply le_val_4_range; [by apply Forall_take, Forall_drop|]. unfold zlen in *.
    rewrite length_take, length_drop. lia. }
  unfold is_u32 in Hp.
  set (n := le_val (take 4 (drop 6 r)) + sizeof_Smbios_Header) in *.
  assert (Hn : 0 <= n) by (unfold n, sizeof_Smbios_Header; lia).
  assert (E2 : rdn r 0 n = Done (take (Z.to_nat n) r)) by (apply rdn_Done; split_and!; [lia..|done]).
  by rewrite E2, bind_Done.
Qed.

Lemma upload_smbios_step w :
  regions_ok w -> exists w', UploadSmbiosFileToBmc cfg md5 MD5GUID AllocatePool OldDigest w = Done w' /\
    sent (region_file (rom w CURRENT_SMBIOS_REGION)) w w'.
Proof using writes reads md5_on digest_size pool.
  intros Hr. rewrite upload_smbios_eq by done. eexists. split; [done|]. unfold region_file.
  case_bool_decide; [|done]. apply send_uploads; [by rewrite list_elem_of_In; cbn; auto 10|].
  destruct Hr as [_ _ Hh _]. unfold zlen in *. rewrite length_take. lia.
Qed.

Lemma upload_flags_eq w :
  exists d, zlen d = 40 /\ flags_file = [(flags_entry, d)] /\
    UploadFeatureSupportFlagsFileToBmc pol cfg FLAGSGUID AllocatePool w =
      Done (if flags_seen cfg FLAGSGUID d w then w
            else upload_loop OOB_IPMI_FILE_RETRY OOB_FILE_TYPE_BIOS_FEATURE_FLAG d (store_sum flags_entry d) w).
Proof using pool.
  unfold UploadFeatureSupportFlagsFileToBmc, flags_file.
  destruct (pool 64) as (p & -> & Hp); [lia|].
  destruct (GenerateFeatureSupportFlags_done (SumFeatureFlags pol) p) as (b & -> & Hb); [lia|].
  rewrite bind_Done. destruct (pool sizeof_PlatInfo_H) as (h & -> & _); [done|].
  set (d := take (Z.to_nat 40) b). exists d.
  assert (Hd : zlen d = 40) by (unfold d, zlen in *; rewrite length_take; lia). do 2 (split; [done|]).
  assert (E1 : rdn b 0 sizeof_PlatInfo_H = Done (take (Z.to_nat sizeof_PlatInfo_H) d)).
  { apply rdn_Done. unfold sizeof_PlatInfo_H. split_and!; [lia..|]. unfold d. by rewrite take_take. }
  assert (E2 : rdn b 0 40 = Done d) by (apply rdn_Done; split_and!; [lia..|done]).
  rewrite E1, bind_Done, E2, bind_Done. unfold flags_seen. set (r := GetVariable _ _ _ w) in *.
  assert (E3 : EFI_ERROR (v_status r) = false -> take (Z.to_nat (v_size r)) b = take (Z.to_nat (v_size r)) d).
  { intros Hr. destruct (found_variable _ _ _ _ Hr) as (a & v & _ & Hz & _ & Hs). fold r in Hs.
    unfold d. rewrite take_take, Hs. f_equal. unfold sizeof_PlatInfo_H in Hz. pose proof (zlen_nonneg v). lia. }
  destruct (_ =? 0); [done|]. destruct (EFI_ERROR (v_status r)); [done|]. rewrite E3 by done.
  by destruct (bool_decide _).
Qed.

Lemma upload_flags_step w :
  exists w', UploadFeatureSupportFlagsFileToBmc pol cfg FLAGSGUID AllocatePool w = Done w' /\
    sent flags_file w w'.
Proof using writes pool.
  destruct (upload_flags_eq w) as (d & Hd & -> & ->). eexists. split; [done|]. cbn [uploads]. eexists.
  split; [|reflexivity]. by apply (flags_uploaded cfg md5 MD5GUID FLAGSGUID writes d w Hd).
Qed.

Lemma upload_storage_eq w :
  regions_ok w -> let d := storage_file (rom w FULL_REGION) in
  zlen d <= TRANSFER_SIZE /\ UploadBiosStorageToBMC cfg md5 MD5GUID AllocatePool OldDigest w =
    Done (send SMCBIOSSTORAGE OOB_FILE_TYPE_BIOS_STORAGE d w).
Proof using reads pool.
  intros [Hh _ _ _]. cbv zeta. unfold UploadBiosStorageToBMC, storage_file. set (r := rom w FULL_REGION) in *.
  destruct (pool SMC_ROM_HOLE_SIZE) as (p & -> & _); [unfold SMC_ROM_HOLE_SIZE; lia|].
  rewrite (read_region _ _ reads). cbn [EFI_ERROR]. fold r.
  generalize (eq_refl : SMC_ROM_HOLE_SIZE = 65536). generalize dependent SMC_ROM_HOLE_SIZE. intros N Hh HN.
  set (l := take (Z.to_nat (N - 1)) r). assert (Hl : zlen l = N - 1) by (unfold l, zlen in *; rewrite length_take; lia).
  assert (E0 : rdn r 0 (N - 1) = Done l) by (apply rdn_Done; split_and!; [lia..|done]).
  rewrite E0, bind_Done.
  assert (E1 : wr8 r (N - 1) (sum8 l) = Done (l ++ [sum8 l])).
  { apply wrn_Done. rewrite u8_small by apply sum8_range. change (zlen [sum8 l]) with 1. split_and!; [lia..|].
    rewrite (drop_ge r); [done|unfold zlen in *; lia]. }
  rewrite E1, bind_Done.
  assert (E2 : rdn (l ++ [sum8 l]) 0 N = Done (l ++ [sum8 l])).
  { apply rdn_Done. rewrite zlen_app, Hl. change (zlen [sum8 l]) with 1. split_and!; [lia..|].
    symmetry. apply take_ge. change (drop (Z.to_nat 0) ?x) with x. rewrite length_app. cbn [length]. unfold zlen in *. lia. }
  rewrite E2, bind_Done. split; [|done].
  rewrite zlen_app, Hl. change (zlen [sum8 l]) with 1. unfold TRANSFER_SIZE. lia.
Qed.

Lemma upload_storage_step w :
  regions_ok w -> exists w', UploadBiosStorageToBMC cfg md5 MD5GUID AllocatePool OldDigest w = Done w' /\
    sent (hole_file (rom w FULL_REGION)) w w'.
Proof using writes reads md5_on digest_size pool.
  intros Hr. destruct (upload_storage_eq w Hr) as [Hz ->]. eexists. split; [done|].
  apply send_uploads; [by rewrite list_elem_of_In; cbn; auto 10|done].
Qed.

Lemma stepped_rom l s s' : stepped l s s' -> rom (fw s') = rom (fw s).
Proof using. intros (_ & _ & U). by apply uploads_keep in U as (_ & ? & _). Qed.

Lemma regions_kept w w' : rom w' = rom w -> regions_ok w -> regions_ok w'.
Proof using. intros E []. by constructor; rewrite E. Qed.

(** The six uploads in a row. *)
Lemma UploadOobDataToBmc_steps s :
  address_at s -> mem_ok (mm s) -> images_fit (mm s) -> regions_ok (fw s) ->
  exists s', UploadOobDataToBmc pol cfg md5 MD5GUID FLAGSGUID AllocatePool OldDigest s = Done (s', true) /\
    stepped (to_upload s pB) s s'.
Proof using writes reads md5_on digest_size pool pB_range.
  intros Ha Hm Hf Hr. unfold UploadOobDataToBmc, to_upload.
  destruct (upload_block_stepped IMG_BIOS_CFG s Ha Hm Hf) as (s1 & E1 & T1). cbn [upload_block] in E1.
  rewrite E1, bind_Done. pose proof (stepped_rom _ _ _ T1) as R1. pose proof T1 as (M1 & C1 & _).
  destruct (upload_smbios_step (fw s1) (regions_kept _ _ R1 Hr)) as (w2 & E2 & U2).
  destruct (on_fw_stepped _ _ s1 w2 E2 U2) as (s2 & F2 & T2). rewrite F2, bind_Done.
  pose proof (stepped_app _ _ _ _ _ T1 T2) as T12. pose proof T12 as (M2 & C2 & _).
  destruct (upload_block_stepped IMG_HII s2) as (s3 & E3 & T3);
    [by eapply address_kept|by rewrite M2|by rewrite M2|]. cbn [upload_block] in E3. rewrite E3, bind_Done.
  pose proof (stepped_app _ _ _ _ _ T12 T3) as T13. pose proof T13 as (M3 & C3 & _).
  destruct (upload_block_stepped IMG_FULL_SMBIOS s3) as (s4 & E4 & T4);
    [by eapply address_kept|by rewrite M3|by rewrite M3|]. cbn [upload_block] in E4. rewrite E4, bind_Done.
  pose proof (stepped_app _ _ _ _ _ T13 T4) as T14.
  destruct (upload_flags_step (fw s4)) as (w5 & E5 & U5).
  destruct (on_fw_stepped _ _ s4 w5 E5 U5) as (s5 & F5 & T5). rewrite F5, bind_Done.
  pose proof (stepped_app _ _ _ _ _ T14 T5) as T15. pose proof (stepped_rom _ _ _ T15) as R5.
  destruct (upload_storage_step (fw s5) (regions_kept _ _ R5 Hr)) as (w6 & E6 & U6).
  destruct (on_fw_stepped _ _ s5 w6 E6 U6) as (s6 & F6 & T6). rewrite F6, bind_Done.
  exists s6. split; [done|]. pose proof (stepped_app _ _ _ _ _ T15 T6) as T16.
  rewrite R1, M2, M3, R5, <- !app_assoc in T16. exact T16.
Qed.

(** C5: (invariant) the upload after ready to boot, with MD5 support on, every
    write of a variable and every read of a flash region working (where a
    write fails, an old digest survives a new upload), memory granted, digests
    of 16 bytes, a ROM hole of 64 KB, the images no larger than their areas
    and the region they are in, and the address of the block in CMOS. Whatever the BMC answers, the callback returns and signals
    its end, memory and the ROM hole stay as they were, and, if it was so
    before, a digest (or header) the driver keeps in a variable never speaks
    of another file than the BMC's; and when the BMC accepts the transfers
    and the policy's status word is right about the files it has, every image
    that is there (settings, SMBIOS region, HII, full SMBIOS, feature flags,
    ROM hole) is on the BMC afterwards, as far as its summary tells, whether
    it was sent or skipped. *)
Theorem UploadOobDataToBmc_sync s :
  address_at s -> mem_ok (mm s) -> images_fit (mm s) -> regions_ok (fw s) ->
  in_sync md5 MD5GUID FLAGSGUID (fw s) ->
  exists s', UploadOobDataToBmc pol cfg md5 MD5GUID FLAGSGUID AllocatePool OldDigest s = Done (s', true) /\
    mm s' = mm s /\ rom (fw s') = rom (fw s) /\ in_sync md5 MD5GUID FLAGSGUID (fw s') /\
    (bmc_accepts -> (forall e d, (e, d) ∈ to_upload s pB -> truthful cfg (fw s) (tr_type e)) ->
     forall e d, (e, d) ∈ to_upload s pB -> current e d (fw s')).
Proof using writes reads md5_on digest_size pool pB_range.
  intros Ha Hm Hf Hr Hs. destruct (UploadOobDataToBmc_steps s Ha Hm Hf Hr) as (s' & E & M & _ & U).
  exists s'. split; [done|]. destruct (uploads_keep _ _ _ _ _ _ _ U) as (K1 & K2 & _).
  split; [done|]. split; [done|]. split; [by apply K1|]. intros Hb Ht.
  by eapply uploads_current; [exact U|apply to_upload_types|..].
Qed.

(** *** A second run

    What the driver remembers as sent it does not send again. *)
Definition listed (e : tracked) : Prop := Z.land (OobFileStatus0 cfg) (Z.shiftl 1 (tr_type e)) <> 0.
Hypothesis old_size : zlen OldDigest <= summary_size.

Definition idle (l : list (tracked * list Z)) (w : W) : Prop :=
  forall e d, (e, d) ∈ l -> listed e /\ remembered e d w.

Lemma idle_app l l' w : idle (l ++ l') w -> idle l w /\ idle l' w.
Proof using. intros Hi. split; intros e d Hin; apply Hi, elem_of_app; auto. Qed.

Lemma send_idle n t d w : idle [(digested n t, d)] w -> send n t d w = w.
Proof using md5_on digest_size old_size.
  intros Hi. destruct (Hi (digested n t) d ltac:(by apply list_elem_of_singleton)) as [Hl [a Hv]].
  unfold listed in Hl. cbn [digested tr_type tr_name tr_guid tr_sum] in Hl, Hv. unfold upload_file.
  rewrite (surjective_pairing (CalculateMd5 md5 d)). change (snd (CalculateMd5 md5 d)) with (digest md5 d).
  rewrite md5_on. unfold same_as_last. apply Z.eqb_neq in Hl. rewrite Hl, GetVariable_law, Hv. cbn [get_result].
  unfold MD5_DIGEST_SIZE. pose proof (digest_size d) as Hd. unfold summary_size in *.
  rewrite Hd. cbn [Z.leb Z.compare Pos.compare Pos.compare_cont v_status EFI_ERROR v_data].
  rewrite (drop_ge OldDigest), app_nil_r by (unfold zlen in *; lia). by rewrite bool_decide_eq_true_2.
Qed.

Lemma upload_block_idle k s :
  address_at s -> mem_ok (mm s) -> images_fit (mm s) -> idle (block_file (mm s) pB k) (fw s) ->
  exists c, upload_block k s = Done (set_cm s c) /\ same_cells c (cm s).
Proof using md5_on digest_size old_size pB_range.
  intros [c Ha] Hm Hf Hi. rewrite (upload_block_eq k s c Ha Hm Hf).
  destruct (cmos_address_again pol (cm s) (cm s) pB c (fun _ => eq_refl) Ha) as (c' & Ha' & Hc).
  rewrite Ha in Ha'. injection Ha' as <-. exists c. split; [|done]. unfold block_file in Hi.
  case_bool_decide; [|done]. by rewrite send_idle.
Qed.

Lemma flags_idle d w : zlen d = 40 -> idle [(flags_entry, d)] w -> flags_seen cfg FLAGSGUID d w = true.
Proof using.
  intros Hz Hi. destruct (Hi flags_entry d ltac:(by apply list_elem_of_singleton)) as [Hl [a Hv]].
  unfold listed in Hl. cbn [flags_entry tr_type tr_name tr_guid tr_sum] in Hl, Hv. unfold flags_seen.
  apply Z.eqb_neq in Hl. rewrite Hl, GetVariable_law, Hv. cbn [get_result].
  assert (Hd : zlen (take (Z.to_nat sizeof_PlatInfo_H) d) = sizeof_PlatInfo_H)
    by (clear -Hz; unfold zlen, sizeof_PlatInfo_H in *; rewrite length_take; lia).
  rewrite Hd, Z.leb_refl. cbn [v_status EFI_ERROR v_data v_size]. by apply bool_decide_eq_true_2.
Qed.

Lemma UploadOobDataToBmc_idle s :
  address_at s -> mem_ok (mm s) -> images_fit (mm s) -> regions_ok (fw s) -> idle (to_upload s pB) (fw s) ->
  exists s', UploadOobDataToBmc pol cfg md5 MD5GUID FLAGSGUID AllocatePool OldDigest s = Done (s', true) /\
    mm s' = mm s /\ fw s' = fw s.
Proof using reads md5_on digest_size pool pB_range old_size.
  intros Ha Hm Hf Hr. unfold to_upload.
  intros (I1 & (I2 & (I3 & (I4 & (I5 & I6)%idle_app)%idle_app)%idle_app)%idle_app)%idle_app.
  unfold UploadOobDataToBmc, on_fw.
  destruct (upload_block_idle IMG_BIOS_CFG s Ha Hm Hf I1) as (c1 & E1 & C1). cbn [upload_block] in E1.
  rewrite E1, bind_Done. cbn [fw set_cm]. rewrite upload_smbios_eq by done.
  unfold region_file in I2. rewrite bind_Done.
  replace (if bool_decide (take 4 (rom (fw s) CURRENT_SMBIOS_REGION) = SMB_sig) then _ else _) with (fw s)
    by (case_bool_decide; [by rewrite send_idle|done]). rewrite bind_Done.
  set (s2 := set_fw _ (fw s)). assert (A2 : address_at s2) by (by apply (address_kept s)).
  destruct (upload_block_idle IMG_HII s2 A2 Hm Hf I3) as (c3 & E3 & C3). cbn [upload_block] in E3.
  rewrite E3, bind_Done. set (s3 := set_cm s2 c3). assert (A3 : address_at s3) by (by apply (address_kept s2)).
  destruct (upload_block_idle IMG_FULL_SMBIOS s3 A3 Hm Hf I4) as (c4 & E4 & C4). cbn [upload_block] in E4.
  rewrite E4, bind_Done. cbn [fw set_cm s3 s2 set_fw].
  destruct (upload_flags_eq (fw s)) as (d & Hd & Ed & ->). rewrite Ed in I5.
  rewrite bind_Done, (flags_idle d _ Hd I5), bind_Done. cbn [fw set_fw].
  destruct (upload_storage_eq (fw s) Hr) as [_ ->]. rewrite bind_Done, send_idle by exact I6. rewrite bind_Done.
  eexists. split; [reflexivity|done].
Qed.
End upload_driver.

Section again.
Context {W : Type} `{Bmc W} {S : Type} `{CmosPorts S}.
Context (pol : smm_policy) (cfg cfg' : oob_config) (md5 : md5_lib) (MD5GUID FLAGSGUID : guid).
Context (AllocatePool : Z -> option (list Z)) (OldDigest : list Z) (pB : Z).
Hypothesis writes : @vars_writable W _.
Hypothesis reads : @regions_readable W _.
Hypothesis md5_on : Md5Support cfg = true /\ Md5Support cfg' = true.
Hypothesis digest_size : forall d, zlen (digest md5 d) = summary_size.
Hypothesis old_size : zlen OldDigest <= summary_size.
Hypothesis pool : forall n, 0 <= n -> exists b, AllocatePool n = Some b /\ zlen b = n.
Hypothesis pB_range : 0 <= pB /\ pB + SMC_OOB_SMRAM_TOTAL_SIZE <= 2 ^ 32.

(** nothing is sent twice: when the BMC took the images and the
    variables could be written and the regions read, a later run of the callback on the same images, with a status word that
    lists them, leaves the BMC, the variables and the flash as they are: it
    does the same as doing nothing. *)
Theorem UploadOobDataToBmc_again s s' b :
  address_at pol pB s -> mem_ok (mm s) -> images_fit pB (mm s) -> regions_ok (fw s) ->
  in_sync md5 MD5GUID FLAGSGUID (fw s) -> bmc_accepts ->
  (forall e d, (e, d) ∈ to_upload pol md5 MD5GUID FLAGSGUID AllocatePool s pB -> truthful cfg (fw s) (tr_type e)) ->
  UploadOobDataToBmc pol cfg md5 MD5GUID FLAGSGUID AllocatePool OldDigest s = Done (s', b) ->
  (forall e d, (e, d) ∈ to_upload pol md5 MD5GUID FLAGSGUID AllocatePool s pB -> listed cfg' e) ->
  exists s'', UploadOobDataToBmc pol cfg' md5 MD5GUID FLAGSGUID AllocatePool OldDigest s' = Done (s'', true) /\
    mm s'' = mm s' /\ fw s'' = fw s'.
Proof using writes reads md5_on digest_size old_size pool pB_range.
  intros Ha Hm Hf Hr Hs Hb Ht E Hl. destruct md5_on as [On On'].
  destruct (UploadOobDataToBmc_steps pol cfg md5 MD5GUID FLAGSGUID AllocatePool OldDigest writes reads On digest_size pool
    pB pB_range s Ha Hm Hf Hr) as (s1 & E1 & M & C & U). rewrite E in E1. injection E1 as <- _.
  destruct (uploads_keep _ _ _ _ _ _ _ U) as (_ & K & _).
  apply (UploadOobDataToBmc_idle pol cfg' md5 MD5GUID FLAGSGUID AllocatePool OldDigest reads On' digest_size pool pB
    pB_range old_size); [by eapply address_kept|by rewrite M|by rewrite M|by eapply regions_kept|].
  intros e d Hin. unfold to_upload in Hin. rewrite M, K in Hin. split; [by eapply Hl|].
  eapply (uploads_current cfg md5 MD5GUID FLAGSGUID _ _ _ U); [by apply to_upload_types|done|done|exact Ht|exact Hin].
Qed.
End again.

(** ** A concrete machine

    The block at 8 MB with a settings image and nothing else, an empty BMC in
    memory, and a digest that only adds the bytes. *)
Definition demo_md5 : md5_lib :=
  mkMd5 (list Z) (Some []) (fun c d => Some (c ++ d)) (fun c => (true, replicate 16 (sum8 c))).
Definition demo_oob (status : Z) : oob_config := mkOob 0 true status 0 0 0.
Definition demo_md5_guid : guid := replicate 16 1.
Definition demo_flags_guid : guid := replicate 16 2.
Definition demo_bmc (files : gmap Z (list Z)) (regions : gmap Z (list Z)) : SimpleBmc :=
  mkBmc (mkFw ∅ regions []) files [] (0, []) None 0 [].
Definition demo_hole : gmap Z (list Z) :=
  {[FULL_REGION := replicate (Z.to_nat SMC_ROM_HOLE_SIZE) 0; CURRENT_SMBIOS_REGION := replicate 18 0xff]}.
Definition demo_image : list Z := BIN_sig ++ [0; 2] ++ le_bytes 4 3 ++ replicate 8 0 ++ [1; 2; 3; 6].
Definition demo_state : @smm SimpleBmc RTC :=
  mkSmm (mwrite zero_mem (0x800000 + img_off IMG_BIOS_CFG) demo_image) (demo_bmc ∅ demo_hole) demo_rtc.

Lemma demo_digest d : zlen (digest demo_md5 d) = summary_size.
Proof. done. Qed.

Lemma demo_address : address_at demo_pol 0x800000 demo_state.
Proof. eexists. vm_compute. reflexivity. Qed.

Lemma demo_block_range : 0 <= 0x800000 /\ 0x800000 + SMC_OOB_SMRAM_TOTAL_SIZE <= 2 ^ 32.
Proof. done. Qed.

Lemma demo_mem_ok : mem_ok (mm demo_state).
Proof. apply mwrite_ok; [apply zero_mem_ok|]. by apply demo_bytes_ok. Qed.

Lemma demo_fit : images_fit 0x800000 (mm demo_state).
Proof. intros []; vm_compute; intros E; discriminate E || done. Qed.

Lemma demo_region op : rom (fw demo_state) op = default [] (demo_hole !! op).
Proof. done. Qed.

Lemma demo_regions : regions_ok (fw demo_state).
Proof.
  assert (EC : rom (fw demo_state) CURRENT_SMBIOS_REGION = replicate 18 0xff) by done.
  constructor; rewrite ?EC.
  - rewrite demo_region. unfold demo_hole. rewrite lookup_insert_eq.
    change (zlen (replicate (Z.to_nat SMC_ROM_HOLE_SIZE) 0) = SMC_ROM_HOLE_SIZE).
    rewrite zlen_replicate. unfold SMC_ROM_HOLE_SIZE. lia.
  - by apply Forall_replicate.
  - done.
  - done.
Qed.

Lemma demo_sync : in_sync demo_md5 demo_md5_guid demo_flags_guid (fw demo_state).
Proof. intros e f a d _ Hb. discriminate Hb. Qed.

Lemma demo_truthful t : truthful (demo_oob 0) (fw demo_state) t.
Proof. intros Hn. destruct Hn. apply Z.land_0_l. Qed.

Lemma UploadOobDataToBmc_sync_witness :
  exists s', UploadOobDataToBmc demo_pol (demo_oob 0) demo_md5 demo_md5_guid demo_flags_guid demo_pool [] demo_state =
    Done (s', true) /\
  exists f, bmc_file (fw s') OOB_FILE_TYPE_BIN = Some f /\ digest demo_md5 f = digest demo_md5 demo_image.
Proof.
  destruct (UploadOobDataToBmc_sync demo_pol (demo_oob 0) demo_md5 demo_md5_guid demo_flags_guid demo_pool []
    SimpleBmc_vars SimpleBmc_reads eq_refl demo_digest demo_pool_size 0x800000 demo_block_range demo_state
    demo_address demo_mem_ok demo_fit demo_regions demo_sync) as (s' & E & _ & _ & _ & C).
  exists s'. split; [exact E|].
  destruct (C SimpleBmc_accepts (fun _ _ _ => demo_truthful _) (digested demo_md5 demo_md5_guid SMCBIOSBIN OOB_FILE_TYPE_BIN)
    demo_image) as [Hf _]; [|exact Hf].
  unfold to_upload. apply elem_of_app. left. unfold block_file. rewrite bool_decide_eq_true_2 by (vm_compute; reflexivity).
  rewrite list_elem_of_In. left. f_equal; by vm_compute.
Defined.

Lemma UploadOobDataToBmc_again_witness :
  exists s' s'',
    UploadOobDataToBmc demo_pol (demo_oob 0) demo_md5 demo_md5_guid demo_flags_guid demo_pool [] demo_state =
      Done (s', true) /\
    UploadOobDataToBmc demo_pol (demo_oob 0x1ff) demo_md5 demo_md5_guid demo_flags_guid demo_pool [] s' =
      Done (s'', true) /\ fw s'' = fw s'.
Proof.
  destruct (UploadOobDataToBmc_steps demo_pol (demo_oob 0) demo_md5 demo_md5_guid demo_flags_guid demo_pool []
    SimpleBmc_vars SimpleBmc_reads eq_refl demo_digest demo_pool_size 0x800000 demo_block_range demo_state
    demo_address demo_mem_ok demo_fit demo_regions) as (s' & E & _).
  destruct (UploadOobDataToBmc_again demo_pol (demo_oob 0) (demo_oob 0x1ff) demo_md5 demo_md5_guid demo_flags_guid
    demo_pool [] 0x800000 SimpleBmc_vars SimpleBmc_reads (conj eq_refl eq_refl) demo_digest ltac:(discriminate) demo_pool_size
    demo_block_range demo_state s' true demo_address demo_mem_ok demo_fit demo_regions demo_sync SimpleBmc_accepts
    (fun _ _ _ => demo_truthful _) E) as (s'' & E' & _ & F).
  - intros e d Hin. unfold to_upload in Hin.
    assert (Ht : In (tr_type e) [OOB_FILE_TYPE_BIN; OOB_FILE_TYPE_BIOS_FEATURE_FLAG; OOB_FILE_TYPE_BIOS_STORAGE]).
    { rewrite list_elem_of_In in Hin. apply (in_map (fun x => tr_type (fst x))) in Hin. cbn [fst] in Hin. revert Hin.
      destruct (upload_flags_eq demo_pol (demo_oob 0) demo_flags_guid demo_pool demo_pool_size (fw demo_state))
        as (d2 & _ & -> & _). unfold block_file, region_file, hole_file.
      rewrite bool_decide_eq_true_2 by (vm_compute; reflexivity).
      rewrite !bool_decide_eq_false_2 by (vm_compute; discriminate).
      cbn [app map fst digested flags_entry tr_type img_file snd In]. intuition. }
    unfold listed. clear E Hin. cbn [In] in Ht. repeat destruct Ht as [<-|Ht]; [discriminate..|destruct Ht].
  - exists s', s''. exact (conj E (conj E' F)).
Defined.
