(* ===== verification/OobDownload.v ===== *)
(** * The out-of-band downloads

    What [OutBand.DownloadFileFromBMC] does: the retry loop for any test and
    any use of the file ([attempts_spec]), the settings file from the BMC to
    the variables, and the storage file back in the flash. *)

From S2P Require Import SmbiosUpdate RomHole Dxe.
From S2P Require Import Prelude Services Bmc OobCmos Smbios BiosCfg InBandSmm OutBand.

(** ** Downloads *)
Section download.
Context {W : Type} `{Bmc W}.

(** The driver only talked to the BMC, which kept its files and flags. *)
Definition talk (w w' : W) : Prop :=
  quiet w w' /\ bmc_file w' = bmc_file w /\ flash_flags w' = flash_flags w.

Lemma talk_refl w : talk w w.
Proof using. by repeat split. Qed.

Lemma talk_trans a b c : talk a b -> talk b c -> talk a c.
Proof using. intros (A1 & A2 & A3) (B1 & B2 & B3). split; [by eapply quiet_trans|]. split; congruence. Qed.

Lemma talk_start t o w : talk w (snd (DownloadOobDataStart t o w)).
Proof using. split; [apply DownloadStart_quiet|]. split; [apply DownloadStart_files|apply DownloadStart_flags]. Qed.

Lemma talk_ready t o w : talk w (snd (DownloadOobDataReady t o w)).
Proof using. split; [apply Ready_quiet|]. split; [apply Ready_files|apply Ready_flags]. Qed.

Lemma talk_read n w : talk w (snd (ReadDataToBios n w)).
Proof using. split; [apply Read_quiet|]. split; [apply Read_files|apply Read_flags]. Qed.

Lemma wait_ready_talk n t s w : talk w (snd (wait_ready n t s w)).
Proof using.
  revert s w. induction n as [|n IH]; intros s w; cbn [wait_ready snd]; [apply talk_refl|].
  pose proof (talk_ready t s w) as T. destruct (DownloadOobDataReady t s w) as [[st s'] w1]. cbn [snd] in T.
  destruct (_ && _); [done|]. eapply talk_trans; [exact T|apply IH].
Qed.

Context (FileType : Z) (fits : Z -> bool) (verify : list Z -> Z -> Res bool)
  (accept : list Z -> W -> Res (list Z * W)).
#[local] Abbreviation tries n p t w := (attempts n FileType fits verify accept p t w).

(** [bs] is what the BMC sent when it was asked for its file, in a call of
    the three steps of a download; [w'] is the state after the last step. *)
Definition received (w : W) (bs : list Z) (w' : W) : Prop :=
  exists f p w0 w1 w2, talk w w0 /\ bmc_file w FileType = Some f /\
    DownloadOobDataStart FileType p w0 = (EFI_SUCCESS, (zlen f, 1), w1) /\
    wait_ready 200 FileType 0 w1 = (2, w2) /\
    ReadDataToBios (zlen f) w2 = (EFI_SUCCESS, bs, w') /\
    zlen bs = zlen f /\ (offered w2 = Some f -> zlen f <= WINDOW_SIZE -> bs = f).

Lemma received_from w w1 bs w' : talk w w1 -> received w1 bs w' -> received w bs w'.
Proof using.
  intros Ht (f & p & w0 & w2 & w3 & T & Hf & Hr). exists f, p, w0, w2, w3.
  split; [by eapply talk_trans|]. split; [|done]. destruct Ht as (_ & Eb & _). by rewrite <- Eb.
Qed.

Lemma received_talk w bs w' : received w bs w' -> talk w w'.
Proof using.
  intros (f & p & w0 & w1 & w2 & T & _ & E1 & E2 & E3 & _).
  eapply talk_trans; [exact T|]. eapply talk_trans; [|eapply talk_trans].
  - pose proof (talk_start FileType p w0) as T1. rewrite E1 in T1. exact T1.
  - pose proof (wait_ready_talk 200 FileType 0 w1) as T2. rewrite E2 in T2. exact T2.
  - pose proof (talk_read (zlen f) w2) as T3. rewrite E3 in T3. exact T3.
Qed.

(** What the loop may end with: no success and nothing but talk, or [accept]
    on a buffer that starts with what the BMC sent and passed the test. *)
Definition outcome (L : Z) (w : W) (t' : transfer) (w' : W) : Prop :=
  (DownloadSuccess t' = false /\ zlen (Buffer t') = L /\ talk w w') \/
  (DownloadSuccess t' = true /\ DownloadProcess t' = true /\ exists bs junk w1,
     received w bs w1 /\ 1 <= zlen bs /\ fits (zlen bs) = true /\ zlen (bs ++ junk) = L /\
     verify (bs ++ junk) (zlen bs) = Done true /\ accept (bs ++ junk) w1 = Done (Buffer t', w')).

Lemma outcome_talk L w w1 t' w' : talk w w1 -> outcome L w1 t' w' -> outcome L w t' w'.
Proof using.
  intros Ht [(A & B & C)|(A & B & bs & junk & w2 & C1 & C2)].
  - left. split; [done|]. split; [done|]. by eapply talk_trans.
  - right. split; [done|]. split; [done|]. exists bs, junk, w2. split; [by eapply received_from|done].
Qed.

Lemma attempts_spec L n p t w :
  zlen (Buffer t) = L -> DownloadSuccess t = false ->
  (forall f, bmc_file w FileType = Some f -> 1 <= zlen f <= L) ->
  (forall b k, zlen b = L -> 1 <= k <= L -> exists ok, verify b k = Done ok) ->
  (forall b w1, zlen b = L -> quiet w w1 -> exists r, accept b w1 = Done r) ->
  exists t' w', tries n p t w = Done (t', w') /\ outcome L w t' w'.
Proof using.
  intros HL Hs Hf Hv Ha. revert p t w HL Hs Hf Ha. induction n as [|n IH]; intros p t w HL Hs Hf Ha; cbn [attempts].
  { exists t, w. split; [done|]. left. split; [done|]. split; [done|apply talk_refl]. }
  assert (IH' : forall p t w1, talk w w1 -> zlen (Buffer t) = L -> DownloadSuccess t = false ->
    exists t' w', tries n p t w1 = Done (t', w') /\ outcome L w t' w').
  { intros p' t1 w1 T HL1 Hs1. destruct (IH p' t1 w1 HL1 Hs1) as (t' & w' & E & O).
    - destruct T as (_ & -> & _). exact Hf.
    - intros b w2 Hb Hq. apply Ha; [done|]. eapply quiet_trans; [apply T|done].
    - exists t', w'. split; [done|]. by eapply outcome_talk. }
  pose proof (talk_start FileType p w) as T1.
  destruct (DownloadOobDataStart FileType p w) as [[st [k r]] w1] eqn:E1. cbn [snd] in T1. cbn [fst snd].
  destruct (EFI_ERROR st) eqn:G1; cbn [orb]; [by apply IH'|].
  destruct (fits k) eqn:Gf; cbn [negb]; [|by apply IH'].
  destruct (Z.eqb_spec r 1) as [->|]; [|destruct (r =? 0); [|by apply IH']].
  2: { eexists _, w1. split; [done|]. left. by split. }
  rewrite (no_error _ G1) in E1. destruct (DownloadStart_law _ _ _ _ _ E1) as (f & Hbf & Hk).
  specialize (Hf f Hbf). rewrite Hk in Hf.
  pose proof (wait_ready_talk 200 FileType 0 w1) as T2. destruct (wait_ready 200 FileType 0 w1) as [s w2] eqn:E2.
  cbn [snd] in T2. pose proof (talk_trans _ _ _ T1 T2) as T12.
  destruct (Z.eqb_spec s 2) as [Es|]; [|by apply IH'].
  pose proof (talk_read k w2) as T3. destruct (ReadDataToBios k w2) as [[st3 bs] w3] eqn:E3. cbn [snd] in T3.
  pose proof (talk_trans _ _ _ T12 T3) as T13.
  destruct (EFI_ERROR st3) eqn:G3; [by apply IH'|].
  rewrite (no_error _ G3) in E3. assert (Hk0 : 0 <= k) by lia.
  pose proof (Read_zlen k w2 bs w3 Hk0 E3) as Hbs. cbn [Buffer].
  destruct (wrn_in (Buffer t) 0 bs) as [b Eb]; [lia|lia|].
  pose proof (wrn_zlen _ _ _ _ Eb) as Hb. rewrite Eb, bind_Done.
  destruct (Hv b k) as [ok Ek]; [congruence|done|]. rewrite Ek, bind_Done. destruct ok; [|by apply IH'; cbn; try congruence].
  destruct (Ha b w3) as [[b' w'] Eac]; [congruence|apply T13|]. rewrite Eac, bind_Done.
  eexists _, w'. split; [done|]. right. split; [done|]. split; [done|].
  apply wrn_Done in Eb as (_ & _ & Eb'). change (b = bs ++ drop (Z.to_nat (0 + zlen bs)) (Buffer t)) in Eb'.
  exists bs, (drop (Z.to_nat (0 + zlen bs)) (Buffer t)), w3. rewrite <- Eb', Hbs.
  split; [|split_and!; [lia|done|congruence|done|exact Eac]].
  exists f, p, w, w1, w2. rewrite Hk, <- Es. split; [apply talk_refl|]. split; [exact Hbf|].
  split; [exact E1|]. split; [exact E2|]. split; [exact E3|]. split; [congruence|]. intros Ho Hw. by apply (Read_law f w2 bs w3); rewrite ?Hk.
Qed.

(** A file the BMC does not have. *)
Lemma attempts_absent n p t w :
  bmc_file w FileType = None -> DownloadProcess t = false ->
  exists t' w', tries n p t w = Done (t', w') /\ DownloadProcess t' = false /\ talk w w'.
Proof using.
  revert p t w. induction n as [|n IH]; intros p t w Hf Ht; cbn [attempts].
  { exists t, w. split; [done|]. split; [done|apply talk_refl]. }
  assert (IH' : forall p t w1, talk w w1 -> DownloadProcess t = false ->
    exists t' w', tries n p t w1 = Done (t', w') /\ DownloadProcess t' = false /\ talk w w').
  { intros p' t1 w1 T Ht1. destruct (IH p' t1 w1) as (t' & w' & E & A & B); [by rewrite (proj1 (proj2 T))|done|].
    exists t', w'. split; [done|]. split; [done|by eapply talk_trans]. }
  pose proof (talk_start FileType p w) as T1.
  destruct (DownloadOobDataStart FileType p w) as [[st [k r]] w1] eqn:E1. cbn [snd] in T1. cbn [fst snd].
  destruct (EFI_ERROR st) eqn:G1; cbn [orb]; [by apply IH'|].
  destruct (negb _); [by apply IH'|]. destruct (Z.eqb_spec r 1) as [->|].
  - rewrite (no_error _ G1) in E1. destruct (DownloadStart_law _ _ _ _ _ E1) as (f & Hbf & _). congruence.
  - destruct (r =? 0); [|by apply IH']. eexists _, w1. split; [done|]. by split.
Qed.

(** A BMC that hands out its file: the first attempt has it. *)
Lemma attempts_delivers n p t w f b :
  bmc_hands_out -> bmc_file w FileType = Some f -> fits (zlen f) = true -> zlen f <= WINDOW_SIZE ->
  wrn (Buffer t) 0 f = Done b -> verify b (zlen f) = Done true ->
  exists w1, talk w w1 /\ tries (Datatypes.S n) p t w = ('(b, w) ← accept b w1; Done (mkTransfer true true b, w)).
Proof using.
  intros (H1 & H2 & H3 & _) Hf Hfit Hz Hb Hv. cbn [attempts].
  destruct (H1 FileType f p w Hf) as [w1 E1]. pose proof (talk_start FileType p w) as T1.
  rewrite E1 in *. cbn [snd fst EFI_ERROR orb negb] in *.
  rewrite Hfit. cbn [negb Z.eqb Pos.eqb]. change 200%nat with (Datatypes.S 199). cbn [wait_ready].
  destruct (H2 FileType f 0 w1) as [w2 E2]; [by rewrite (proj1 (proj2 T1))|].
  pose proof (talk_ready FileType 0 w1) as T2. pose proof (Ready_law _ _ _ _ E2) as O2. rewrite E2 in *.
  cbn [snd EFI_ERROR negb andb orb Z.eqb Pos.eqb] in *. pose proof (talk_trans _ _ _ T1 T2) as T12.
  rewrite (proj1 (proj2 T12)), Hf in O2.
  destruct (H3 f w2 O2) as (bs & w3 & E3). pose proof (talk_read (zlen f) w2) as T3.
  pose proof (Read_law _ _ _ _ O2 Hz E3) as ->. rewrite E3 in *. cbn [snd EFI_ERROR Buffer] in *.
  exists w3. split; [by eapply talk_trans|]. by rewrite Hb, bind_Done, Hv, bind_Done.
Qed.
End download.

(** A file that ends with the sum of its other bytes. *)
Definition checksummed (f : list Z) : Prop := exists l, f = l ++ [sum8 l].

Lemma last_byte_at l c post k :
  zlen l = k - 1 -> k <= 2 ^ 32 -> last_byte_checksum (l ++ [c] ++ post) k = Done (sum8 l =? c).
Proof.
  intros Hl Hk. unfold last_byte_checksum. pose proof (zlen_nonneg l).
  rewrite u32_small by (unfold is_u32; lia). rewrite (rdn_at [] l ([c] ++ post)), bind_Done by done.
  by rewrite (rd8_at l c post), bind_Done.
Qed.

Lemma split_byte k (b : list Z) : 1 <= k <= zlen b -> exists l c post, b = l ++ [c] ++ post /\ zlen l = k - 1.
Proof.
  intros Hk. destruct (lookup_lt_is_Some_2 b (Z.to_nat (k - 1))) as [c Hc]; [unfold zlen in Hk; lia|].
  exists (take (Z.to_nat (k - 1)) b), c, (drop (Datatypes.S (Z.to_nat (k - 1))) b).
  split; [symmetry; by apply take_drop_middle|]. unfold zlen in *. rewrite length_take. lia.
Qed.

(** The test answers for every size up to the buffer's, and is right. *)
Lemma last_byte_total b k : 1 <= k <= zlen b -> k <= 2 ^ 32 -> exists ok, last_byte_checksum b k = Done ok.
Proof. intros H1 H2. destruct (split_byte k b H1) as (l & c & post & -> & Hl). eexists. by apply last_byte_at. Qed.

Lemma last_byte_checksummed bs junk :
  1 <= zlen bs <= 2 ^ 32 -> last_byte_checksum (bs ++ junk) (zlen bs) = Done true -> checksummed bs.
Proof.
  intros Hk. destruct (split_byte (zlen bs) bs) as (l & c & post & -> & Hl); [lia|].
  assert (post = []) as ->.
  { destruct post as [|x post]; [done|]. exfalso. rewrite !zlen_app, !zlen_cons, (@zlen_nil Z) in Hl. pose proof (zlen_nonneg post). lia. }
  set (k := zlen (l ++ [c] ++ [])) in *. replace ((l ++ [c] ++ []) ++ junk) with (l ++ [c] ++ junk) by (by rewrite <- !app_assoc).
  rewrite last_byte_at by lia. intros [= E]. apply Z.eqb_eq in E as <-. by exists l.
Qed.

Section download_driver.
Context {W : Type} `{Bmc W}.
Context (cfg : oob_config) (AllocatePool : Z -> option (list Z)) (RspStatus0 FileSize0 : Z).
Hypothesis pool : forall n, 0 <= n -> exists b, AllocatePool n = Some b /\ zlen b = n.

(** C30: (safety) whatever the BMC answers, as long as the settings file it
    has is not empty nor larger than the buffer and the buffer is to be had,
    the download returns, changes no variable and resets nothing. The flash
    stays as it was, unless the BMC answered all three steps of a download of
    its settings file and the bytes it sent end with the sum of the others:
    then the one thing written is the settings region, with those bytes (cut
    to the region, or followed by what the buffer held after them). The bytes
    are the file itself when the BMC had put it up and it is no larger than
    the 64 KB window. *)
Theorem DownloadBiosCfgFromBMC_verified w :
  (forall f, bmc_file w OOB_FILE_TYPE_BIN = Some f -> 1 <= zlen f <= MAX_DOWNLOAD_SIZE) ->
  zlen (rom w INBAND_REGION) <= MAX_DOWNLOAD_SIZE ->
  exists w', DownloadBiosCfgFromBMC AllocatePool RspStatus0 FileSize0 w = Done w' /\
    var w' = var w /\ resets w' = resets w /\
    (rom w' = rom w \/
     exists f p w0 w1 w2 bs w3 junk,
       bmc_file w OOB_FILE_TYPE_BIN = Some f /\ quiet w w0 /\
       DownloadOobDataStart OOB_FILE_TYPE_BIN p w0 = (EFI_SUCCESS, (zlen f, 1), w1) /\
       wait_ready 200 OOB_FILE_TYPE_BIN 0 w1 = (2, w2) /\
       ReadDataToBios (zlen f) w2 = (EFI_SUCCESS, bs, w3) /\
       (offered w2 = Some f -> zlen f <= WINDOW_SIZE -> bs = f) /\
       checksummed bs /\
       let w4 := snd (DownloadOobDataDone OOB_FILE_TYPE_BIN 0 w3) in
       quiet w w4 /\
       w' = snd (SmcRomHoleWriteRegion INBAND_REGION (take (length (rom w INBAND_REGION)) (bs ++ junk)) w4)).
Proof using pool.
  intros Hf Hr. unfold DownloadBiosCfgFromBMC.
  destruct (pool MAX_DOWNLOAD_SIZE) as (b0 & -> & Hb0); [done|].
  destruct (attempts_spec OOB_FILE_TYPE_BIN (fun _ => true) last_byte_checksum keep MAX_DOWNLOAD_SIZE 5
    (FileSize0, RspStatus0) (mkTransfer false false b0) w Hb0 eq_refl Hf) as (t & w1 & E & O).
  { intros b k Hb Hk. rewrite <- Hb in Hk. apply last_byte_total; [done|]. unfold MAX_DOWNLOAD_SIZE in Hb. lia. }
  { intros b w1 _ _. by eexists. }
  rewrite E, bind_Done. unfold store_in.
  assert (Q : forall v w1, quiet w w1 -> let w2 := snd (DownloadOobDataDone OOB_FILE_TYPE_BIN v w1) in
    quiet w w2) by (intros; eapply quiet_trans; [done|apply DownloadDone_quiet]).
  destruct O as [(S1 & _ & (T & _))|(S1 & P1 & bs & junk & w2 & Hrec & Hk & _ & Hb & Hv & Eac)].
  - rewrite S1. destruct (negb (DownloadProcess t)); [exists w1; destruct T as (A & B & C); auto|].
    eexists. split; [done|]. destruct (Q 1 w1 T) as (A & B & C). auto.
  - unfold keep in Eac. injection Eac as <- <-. rewrite S1, P1. cbn [negb].
    pose proof (received_talk _ _ _ _ Hrec) as (T & _). pose proof (Q 0 w2 T) as Q2. cbv zeta in Q2.
    destruct Hrec as (f & p & wa & wb & wc & (Ta & _) & Hbf & E1 & E2 & E3 & Hz & Hc).
    destruct (DownloadOobDataDone OOB_FILE_TYPE_BIN 0 w2) as [st w3] eqn:ED. cbn [snd] in Q2.
    pose proof Q2 as (A & B & C). destruct (EFI_ERROR st); [exists w3; auto|]. unfold SmcRomHoleSize. rewrite B.
    rewrite (proj2 (rdn_Done (bs ++ junk) 0 _ (take (length (rom w INBAND_REGION)) (bs ++ junk))));
      [|split_and!; [done|apply zlen_nonneg|lia|unfold zlen; by rewrite Nat2Z.id]].
    rewrite bind_Done. eexists. split; [done|]. rewrite WriteRegion_var, WriteRegion_resets.
    split; [done|]. split; [done|]. right. exists f, p, wa, wb, wc, bs, w2, junk.
    do 6 (split; [done|]). split.
    + apply (last_byte_checksummed bs junk); [|done]. specialize (Hf f Hbf). unfold MAX_DOWNLOAD_SIZE in Hf. lia.
    + by rewrite ED.
Qed.
(** Nothing to download. *)
Lemma smbios_absent w :
  bmc_file w OOB_FILE_TYPE_DMI = None ->
  exists w', DownloadSmbiosFileFromBmc AllocatePool RspStatus0 w = Done w' /\ talk w w'.
Proof using pool.
  intros Hf. unfold DownloadSmbiosFileFromBmc. destruct (pool MAX_DOWNLOAD_SIZE) as (b0 & -> & _); [done|].
  destruct (attempts_absent OOB_FILE_TYPE_DMI (fun _ => true) header_checksum keep 5 (0, RspStatus0)
    (mkTransfer false false b0) w Hf eq_refl) as (t & w1 & E & P1 & T).
  rewrite E, bind_Done. unfold store_in. rewrite P1. by exists w1.
Qed.

Lemma storage_absent w :
  bmc_file w OOB_FILE_TYPE_BIOS_STORAGE = None ->
  4 <= zlen (rom w SMBIOS_FOR_BMC_REGION) <= SMC_ROM_HOLE_SIZE ->
  exists w', DownloadBiosStorageFromBmc cfg AllocatePool RspStatus0 w = Done w' /\ talk w w'.
Proof using pool.
  intros Hf Hr. unfold DownloadBiosStorageFromBmc.
  destruct (pool SMC_ROM_HOLE_SIZE) as (b0 & -> & Hb0); [unfold SMC_ROM_HOLE_SIZE; lia|].
  destruct (SmcRomHoleReadRegion SMBIOS_FOR_BMC_REGION w) as [st r] eqn:Er.
  destruct (ReadRegion_law _ _ _ _ Er) as [Hz _].
  destruct (wrn_in b0 0 r) as [b1 E1]; [lia|lia|]. pose proof (wrn_zlen _ _ _ _ E1).
  rewrite E1, bind_Done. destruct (rdn_in b1 0 4) as [sig E2]; [lia..|]. rewrite E2, bind_Done.
  destruct (_ && _); [exists w; split; [done|apply talk_refl]|].
  destruct (attempts_absent OOB_FILE_TYPE_BIOS_STORAGE (fun n => n =? SMC_ROM_HOLE_SIZE) last_byte_checksum
    restore_regions 5 (0, RspStatus0)
    (mkTransfer false false (replicate (Z.to_nat SMC_ROM_HOLE_SIZE) 0xff)) w Hf eq_refl) as (t & w1 & E & P1 & T).
  rewrite E, bind_Done, P1. by exists w1.
Qed.

(** A settings file the BMC hands out, with its checksum right, is in the
    settings region afterwards, as far as it fits. *)
Lemma cfg_delivered w f l :
  @regions_writable W _ -> bmc_hands_out -> bmc_file w OOB_FILE_TYPE_BIN = Some f ->
  f = l ++ [sum8 l] -> zlen f <= WINDOW_SIZE -> zlen (rom w INBAND_REGION) <= MAX_DOWNLOAD_SIZE ->
  exists w' junk, DownloadBiosCfgFromBMC AllocatePool RspStatus0 FileSize0 w = Done w' /\
    var w' = var w /\ rom w' INBAND_REGION = take (length (rom w INBAND_REGION)) (f ++ junk) /\
    zlen (rom w' INBAND_REGION) = zlen (rom w INBAND_REGION) /\
    (forall op, op <> INBAND_REGION -> op <> FULL_REGION -> rom w' op = rom w op) /\
    (forall t, t <> OOB_FILE_TYPE_BIN -> bmc_file w' t = bmc_file w t).
Proof using pool.
  intros Hw Hh Hf El Hz Hr. unfold DownloadBiosCfgFromBMC.
  destruct (pool MAX_DOWNLOAD_SIZE) as (b0 & -> & Hb0); [done|].
  assert (HM : WINDOW_SIZE <= MAX_DOWNLOAD_SIZE) by done.
  destruct (wrn_in b0 0 f) as [b Eb]; [done|lia|]. pose proof (wrn_zlen _ _ _ _ Eb) as Hzb.
  apply wrn_Done in Eb as (_ & _ & Eb'). change (b = f ++ drop (Z.to_nat (zlen f)) b0) in Eb'.
  assert (HL : zlen l = zlen f - 1) by (rewrite El, zlen_app; change (zlen [sum8 l]) with 1; lia).
  destruct (attempts_delivers OOB_FILE_TYPE_BIN (fun _ => true) last_byte_checksum keep 4 (FileSize0, RspStatus0)
    (mkTransfer false false b0) w f b Hh Hf eq_refl) as (w1 & (T & TF & _) & E).
  { done. }
  { apply wrn_Done. cbn [Buffer]. split_and!; [done|lia|done]. }
  { rewrite Eb'. replace (f ++ drop (Z.to_nat (zlen f)) b0) with (l ++ [sum8 l] ++ drop (Z.to_nat (zlen f)) b0)
      by (rewrite El at 2; by rewrite <- app_assoc).
    rewrite last_byte_at, Z.eqb_refl; [done|done|]. unfold WINDOW_SIZE in Hz. lia. }
  rewrite E. unfold keep. rewrite !bind_Done. unfold store_in. cbn [DownloadProcess DownloadSuccess Buffer negb].
  destruct Hh as (_ & _ & _ & Hd & _). pose proof (Hd OOB_FILE_TYPE_BIN 0 w1) as Hd1.
  pose proof (DownloadDone_quiet OOB_FILE_TYPE_BIN 0 w1) as Q. pose proof (DownloadDone_other OOB_FILE_TYPE_BIN 0 w1) as F.
  destruct (DownloadOobDataDone OOB_FILE_TYPE_BIN 0 w1) as [st w2]. cbn [fst snd] in *. subst st. cbn [EFI_ERROR].
  destruct (quiet_trans _ _ _ T Q) as (A & B & C). unfold SmcRomHoleSize. rewrite B.
  set (src := take (length (rom w INBAND_REGION)) b).
  rewrite (proj2 (rdn_Done b 0 _ src)), bind_Done;
    [|split_and!; [done|apply zlen_nonneg|lia|unfold zlen, src; by rewrite Nat2Z.id]].
  assert (Hsrc : zlen src = zlen (rom w2 INBAND_REGION)).
  { rewrite B. unfold src, zlen in *. rewrite length_take. lia. }
  eexists _, (drop (Z.to_nat (zlen f)) b0). split; [done|]. rewrite WriteRegion_var, WriteRegion_zlen, B.
  rewrite write_region_same by done. split; [done|]. split; [unfold src; by rewrite Eb'|].
  split; [done|]. split.
  - intros op H1 H2. by rewrite write_region_other, B.
  - intros t Ht. by rewrite WriteRegion_bmc, F, TF.
Qed.
End download_driver.

(** ** From the BMC to the variables *)
Section remote.
Context {W : Type} `{Bmc W}.
Context (cfg : oob_config) (AllocatePool : Z -> option (list Z)) (RspStatus0 FileSize0 : Z).
Hypothesis pool : forall n, 0 <= n -> exists b, AllocatePool n = Some b /\ zlen b = n.
Context (P : list (list Z * list Z)) (hook : list Z -> list Z -> list Z -> W -> W) (preset : W -> W).
Context (G : list Z) (digit : Z -> Z) (dmi : list Z).
Hypothesis hook_rom : forall n g d w, rom (hook n g d w) = rom w.

(** C4: (functional) out of band and back in: a settings file a remote tool
    leaves on the BMC, of at most 64 KB, with its last byte the sum of the
    others, with bit 0 of its flag set and bit 1 clear and with records that
    fit the settings region, is downloaded by the early callback of this
    driver, and the in-band callback that runs next deletes a one-byte
    load-default variable, writes the file's records back in order, blanks
    the region and resets the system. This is about boots in which the BMC
    answers every command of a download and has no SMBIOS nor storage file,
    the download buffers are to be had, every read and write of a flash
    region works, the current SMBIOS region holds no upload (it has no
    signature, or its source byte is zero, which is how ready-to-boot leaves
    it), there is no RAID driver, and the platform's hook does not write the
    flash; the names fit the parser's 50 characters, and the settings region
    and the BMC's SMBIOS region are no larger than their buffers. *)
Theorem remote_settings_applied w f recs version flag checksum h6 rest :
  @regions_readable W _ -> @regions_writable W _ -> bmc_hands_out -> bmc_file w OOB_FILE_TYPE_BIN = Some f ->
  checksummed f ->
  f = BIN_sig ++ version ++ le_bytes 4 (zlen (enc_nvs recs)) ++ [checksum; flag] ++ h6 ++ enc_nvs recs ++ rest ->
  Forall rd_ok recs -> zlen version = 2 -> zlen h6 = 6 -> zlen f <= WINDOW_SIZE ->
  18 + zlen (enc_nvs recs) <= zlen (rom w INBAND_REGION) <= MAX_DOWNLOAD_SIZE ->
  Z.land flag 1 <> 0 -> Z.land flag 2 = 0 ->
  bmc_file w OOB_FILE_TYPE_DMI = None -> bmc_file w OOB_FILE_TYPE_BIOS_STORAGE = None ->
  4 <= zlen (rom w SMBIOS_FOR_BMC_REGION) <= SMC_ROM_HOLE_SIZE ->
  not_uploaded (rom w CURRENT_SMBIOS_REGION) ->
  exists w1, DownloadFileFromBMC cfg AllocatePool RspStatus0 FileSize0 w = Done w1 /\ var w1 = var w /\
    Dxe.SmcInBandCallback P hook preset G digit dmi true None w1 =
      (w2 ← foldM (apply_nv P hook None) recs (without_load_default G w1);
       Done (None, IoWrite8_cf9 0x0E
         (snd (SmcRomHoleWriteRegion INBAND_REGION
           (replicate (Z.to_nat (zlen (rom w INBAND_REGION))) 0xff) w2)))).
Proof using pool hook_rom.
  intros Hrd Hw Hh Hf [l El] Ef Hl Hv H6 Hz Hr F1 F2 Hdmi Hsto Hbmc Hcur.
  destruct (cfg_delivered AllocatePool RspStatus0 FileSize0 pool w f l Hw Hh Hf El Hz (proj2 Hr))
    as (w1 & junk & E1 & V1 & R1 & Z1 & O1 & B1).
  destruct (smbios_absent AllocatePool RspStatus0 pool w1) as (w2 & E2 & (V2 & R2 & _) & B2 & _); [by rewrite B1|].
  assert (R12 : forall op, op <> INBAND_REGION -> op <> FULL_REGION -> rom w2 op = rom w op)
    by (intros; rewrite R2; by apply O1).
  destruct (storage_absent cfg AllocatePool RspStatus0 pool w2) as (w3 & E3 & (V3 & R3 & _) & _);
    [by rewrite B2, B1|by rewrite R12|].
  exists w3. unfold DownloadFileFromBMC. rewrite E1, bind_Done, E2, bind_Done. split; [done|].
  assert (Rin : rom w3 INBAND_REGION = rom w1 INBAND_REGION) by congruence.
  split; [congruence|]. rewrite <- Z1, <- Rin.
  eapply (Dxe.callback_applies P hook preset G digit dmi hook_rom recs version flag checksum h6);
    [done|done|done|done|done|unfold MAX_DOWNLOAD_SIZE in Hr; lia| |done|done|rewrite R3, R12; done].
  rewrite Rin, R1, Ef. set (len := le_bytes 4 _). assert (HL : zlen len = 4) by apply zlen_le_bytes.
  set (pre := BIN_sig ++ version ++ len ++ [checksum; flag] ++ h6 ++ enc_nvs recs).
  assert (Hpre : zlen pre = 18 + zlen (enc_nvs recs)).
  { unfold pre. assert (HB : zlen BIN_sig = 4) by done. zl. }
  replace ((BIN_sig ++ _) ++ junk) with (pre ++ rest ++ junk) by (unfold pre; by rewrite <- !app_assoc).
  rewrite take_app_ge by (unfold zlen in *; lia). unfold pre. by rewrite <- !app_assoc.
Qed.
End remote.

(** ** The storage file back in the flash *)

(** The bytes of a member of the hole. *)
Definition hole_part (op : Z) (b : list Z) : list Z :=
  match member_at op 0 SMC_ROM_HOLE_MAP with
  | Some (off, n) => take (Z.to_nat n) (drop (Z.to_nat off) b)
  | None => []
  end.

(** What the two flags of the BMC make of the members of the file. *)
Definition restored (FlashFlag : Z) (f : list Z) (op : Z) : list Z :=
  if op =? SMBIOS_FOR_BMC_REGION then
    if Z.land FlashFlag Preserve_SMBIOS =? 0 then SMC_sig ++ replicate 4092 0xff
    else <[10%nat := 1]> (hole_part op f)
  else if Z.land FlashFlag Preserve_OA =? 0 then replicate 2048 0xff else hole_part op f.

Lemma wr8_insert b i v : 0 <= i < zlen b -> wr8 b i v = Done (<[Z.to_nat i := u8 v]> b).
Proof.
  intros Hi. apply wrn_Done. change (zlen [u8 v]) with 1. split; [lia|]. split; [lia|].
  rewrite insert_take_drop by (unfold zlen in Hi; lia). cbn [app]. do 2 f_equal.
  replace (Z.to_nat (i + 1)) with (Datatypes.S (Z.to_nat i)) by lia. done.
Qed.

Lemma rdn_hole_part op off n b :
  member_at op 0 SMC_ROM_HOLE_MAP = Some (off, n) -> 0 <= off -> 0 <= n -> off + n <= zlen b ->
  rdn b off n = Done (hole_part op b).
Proof. intros E H0 H1 H2. unfold hole_part. rewrite E. by apply rdn_Done. Qed.

Section restore.
Context {W : Type} `{Bmc W}.
Hypothesis writes : @regions_writable W _.

(** The regions are as large as the map says. *)
Definition hole_sizes (w : W) : Prop :=
  forall op off n, member_at op 0 SMC_ROM_HOLE_MAP = Some (off, n) -> zlen (rom w op) = n.

Lemma clear_region_eq op off n b w :
  hole_sizes w -> member_at op 0 SMC_ROM_HOLE_MAP = Some (off, n) -> clear_region op b w = wrn b off (replicate (Z.to_nat n) 0xff).
Proof using.
  intros Hs E. unfold clear_region, SmcRomHoleOffset, SmcRomHoleSize. by rewrite E, bind_Done, (Hs _ _ _ E).
Qed.

(** One region written; the others stay. *)
Lemma flash_region_eq op off n b src w :
  hole_sizes w -> member_at op 0 SMC_ROM_HOLE_MAP = Some (off, n) -> op <> FULL_REGION -> rdn b off n = Done src ->
  exists w', flash_region op b w = Done w' /\ hole_sizes w' /\ rom w' op = src /\ var w' = var w /\
    (forall op', op' <> op -> op' <> FULL_REGION -> rom w' op' = rom w op').
Proof using writes.
  intros Hs E Hop Hr. unfold flash_region, RomHole.SmcRomHoleOffset, SmcRomHoleSize.
  rewrite E, bind_Done, (Hs _ _ _ E), Hr, bind_Done. eexists. split; [done|].
  split; [intros o1 off1 n1 E1; rewrite WriteRegion_zlen; by eapply Hs|].
  split; [apply write_region_same; [done|]; rewrite (Hs _ _ _ E); by eapply rdn_zlen|].
  split; [by rewrite WriteRegion_var|]. intros op' H1 H2. by apply write_region_other.
Qed.

Context (FlashFlag : Z).

Lemma member_eqs :
  member_at SMBIOS_FOR_BMC_REGION 0 SMC_ROM_HOLE_MAP = Some (4096, 4096) /\
  member_at OA3_REGION 0 SMC_ROM_HOLE_MAP = Some (0, 2048) /\
  member_at OA2_REGION 0 SMC_ROM_HOLE_MAP = Some (2048, 2048).
Proof using. done. Qed.

(** The two blocks that prepare the buffer. *)
Definition prepare_bmc (b : list Z) (w : W) : Res (list Z) :=
  if Z.land FlashFlag Preserve_SMBIOS =? 0 then
    b ← clear_region SMBIOS_FOR_BMC_REGION b w; wrn b 4096 SMC_sig
  else wr8 b (4096 + 10) 0x01.
Definition prepare_oa (b : list Z) (w : W) : Res (list Z) :=
  if Z.land FlashFlag Preserve_OA =? 0 then
    b ← clear_region OA3_REGION b w; clear_region OA2_REGION b w
  else Done b.

Lemma prepare_bmc_spec b w :
  hole_sizes w -> 8192 <= zlen b ->
  exists b', prepare_bmc b w = Done b' /\ zlen b' = zlen b /\
    rdn b' 4096 4096 = Done (restored FlashFlag b SMBIOS_FOR_BMC_REGION) /\
    (forall j n, j + n <= 4096 -> rdn b' j n = rdn b j n).
Proof using.
  intros Hs Hb. unfold prepare_bmc, restored. rewrite Z.eqb_refl. destruct (_ =? 0).
  - rewrite (clear_region_eq _ 4096 4096) by done.
    replace (replicate (Z.to_nat 4096) 255) with (replicate 4 255 ++ replicate 4092 255)
      by (rewrite <- replicate_add; done).
    set (f4 := replicate 4 255). set (rest := replicate 4092 255).
    assert (Hf4 : zlen f4 = 4) by done. assert (Hrest : zlen rest = 4092) by (unfold rest; by rewrite zlen_replicate).
    clearbody f4 rest. destruct (wrn_in b 4096 (f4 ++ rest)) as [b1 E1]; [lia|zl|]. rewrite E1, bind_Done.
    destruct (wrn_split _ _ _ _ E1) as (pre & old & post & -> & -> & Hpre & Hold).
    assert (H4 : zlen SMC_sig = 4) by done.
    rewrite (wrn_as _ pre f4 (rest ++ post)) by (first [by rewrite <- !app_assoc|done|by rewrite Hf4]).
    eexists. split; [done|]. split; [zl|]. split.
    + rewrite (rdn_as _ pre (SMC_sig ++ rest) post); [done|by rewrite <- !app_assoc|done|zl].
    + intros j n Hj. symmetry. assert (Hl : zlen old = 4096) by zl.
      unfold rdn. replace (zlen (pre ++ SMC_sig ++ rest ++ post)) with (zlen (pre ++ old ++ post)) by zl.
      destruct (Z.leb_spec 0 j); [|done]. destruct (Z.leb_spec 0 n); [|done]. cbn [andb].
      destruct (_ <=? _); [|done]. f_equal. rewrite !drop_app_le by (unfold zlen in Hpre; lia).
      rewrite !take_app_le by (rewrite length_drop; unfold zlen in Hpre; lia). done.
  - rewrite wr8_insert by lia. eexists. split; [done|]. split; [unfold zlen; by rewrite length_insert|]. split.
    + unfold hole_part. destruct member_eqs as (-> & _). apply rdn_Done. split; [done|]. split; [done|].
      split; [unfold zlen in *; rewrite length_insert; lia|].
      rewrite drop_insert_ge by lia. rewrite take_insert_lt by lia. done.
    + intros j n Hj. assert (E : wr8 b (4096 + 10) 1 = Done (<[Z.to_nat (4096 + 10) := u8 1]> b)) by (apply wr8_insert; lia).
      unfold wr8 in E. eapply rdn_wrn_other; [exact E|]. lia.
Qed.

Lemma prepare_oa_spec b w :
  hole_sizes w -> 4096 <= zlen b ->
  exists b', prepare_oa b w = Done b' /\ zlen b' = zlen b /\
    rdn b' 0 2048 = (if Z.land FlashFlag Preserve_OA =? 0 then Done (replicate 2048 0xff) else rdn b 0 2048) /\
    rdn b' 2048 2048 = (if Z.land FlashFlag Preserve_OA =? 0 then Done (replicate 2048 0xff) else rdn b 2048 2048).
Proof using.
  intros Hs Hb. unfold prepare_oa. destruct (_ =? 0); [|by exists b].
  rewrite (clear_region_eq _ 0 2048) by done. change (Z.to_nat 2048) with 2048%nat.
  set (ff := replicate 2048 255). assert (Hff : zlen ff = 2048) by (unfold ff; by rewrite zlen_replicate).
  assert (Er : (fun b => wrn b 2048 (replicate 2048 255)) = (fun b => wrn b 2048 ff)) by done.
  clearbody ff. destruct (wrn_in b 0 ff) as [b1 E1]; [lia|lia|]. pose proof (wrn_zlen _ _ _ _ E1) as Z1.
  rewrite E1, bind_Done, (clear_region_eq _ 2048 2048) by done. change (Z.to_nat 2048) with 2048%nat.
  apply (f_equal (fun g => g b1)) in Er. cbn beta in Er. rewrite Er. clear Er.
  destruct (wrn_in b1 2048 ff) as [b2 E2]; [lia|lia|]. exists b2. split; [done|].
  split; [rewrite (wrn_zlen _ _ _ _ E2); congruence|]. split.
  - rewrite (rdn_wrn_other _ _ _ _ 0 2048 E2) by lia. pose proof (rdn_wrn_same _ _ _ _ E1) as R. by rewrite Hff in R.
  - pose proof (rdn_wrn_same _ _ _ _ E2) as R. by rewrite Hff in R.
Qed.

(** The regions the storage file restores. *)
Definition restored_regions : list Z := [SMBIOS_FOR_BMC_REGION; OA3_REGION; OA2_REGION].

Lemma restore_regions_eq b w :
  fst (SmibiosPreservation 0 0 w) = (EFI_SUCCESS, FlashFlag) ->
  restore_regions b w =
    (let w := snd (SmibiosPreservation 0 0 w) in
     b ← prepare_bmc b w;
     w ← flash_region SMBIOS_FOR_BMC_REGION b w;
     b ← prepare_oa b w;
     w ← flash_region OA3_REGION b w;
     w ← flash_region OA2_REGION b w;
     Done (b, snd (SmibiosPreservation 1 FlashFlag w))).
Proof using.
  intros E. unfold restore_regions. destruct (SmibiosPreservation 0 0 w) as [[st v] w1].
  cbn [fst] in E. injection E as -> ->. cbn [EFI_ERROR snd]. unfold SmcRomHoleOffset.
  destruct member_eqs as (-> & _). rewrite bind_Done. rewrite !bind_assoc. unfold prepare_bmc.
  match goal with |- mbind _ ?x = mbind _ ?y => change y with x; destruct x as [b1| |]; [|done..] end.
  rewrite !bind_Done, !bind_assoc. destruct (flash_region _ b1 w1) as [w2| |]; [|done..].
  rewrite !bind_Done, !bind_assoc. unfold prepare_oa.
  match goal with |- mbind _ ?x = mbind _ ?y => change y with x; destruct x as [b2| |]; [|done..] end.
  rewrite !bind_Done, !bind_assoc. destruct (flash_region _ b2 w2) as [w3| |]; [|done..].
  rewrite !bind_Done, !bind_assoc. destruct (flash_region _ b2 w3) as [w4| |]; [|done..].
  rewrite !bind_Done. by destruct (SmibiosPreservation 1 FlashFlag w4) as [[? ?] ?].
Qed.

Lemma quiet_sizes w w' : quiet w w' -> hole_sizes w -> hole_sizes w'.
Proof using. intros (_ & R & _) Hs op off n E. rewrite R. by eapply Hs. Qed.

(** The verified file back in the flash. *)
Lemma restore_regions_spec b w :
  fst (SmibiosPreservation 0 0 w) = (EFI_SUCCESS, FlashFlag) -> hole_sizes w -> 8192 <= zlen b ->
  exists b' w', restore_regions b w = Done (b', w') /\ var w' = var w /\
    (forall op, op ∈ restored_regions -> rom w' op = restored FlashFlag b op) /\
    (forall op, op ∉ restored_regions -> op <> FULL_REGION -> rom w' op = rom w op).
Proof using writes.
  intros Hfl Hs Hb. rewrite restore_regions_eq by done. cbv zeta. destruct member_eqs as (MB & M3 & M2).
  pose proof (Preservation_quiet 0 0 w) as Q. set (w0 := snd (SmibiosPreservation 0 0 w)) in *.
  pose proof (quiet_sizes _ _ Q Hs) as Hs0. destruct Q as (QV & QR & _).
  destruct (prepare_bmc_spec b w0 Hs0 Hb) as (b1 & -> & Z1 & R1 & K1). rewrite bind_Done.
  destruct (flash_region_eq _ _ _ b1 _ w0 Hs0 MB ltac:(done) R1) as (w1 & -> & Hs1 & W1 & V1 & O1). rewrite bind_Done.
  destruct (prepare_oa_spec b1 w1 Hs1 ltac:(lia)) as (b2 & -> & Z2 & R3 & R2). rewrite bind_Done.
  assert (P : forall op off n, member_at op 0 SMC_ROM_HOLE_MAP = Some (off, n) -> (op =? SMBIOS_FOR_BMC_REGION) = false ->
    0 <= off -> n = 2048 -> off + n <= 4096 ->
    (if Z.land FlashFlag Preserve_OA =? 0 then Done (replicate 2048 0xff) else rdn b1 off n) =
    Done (restored FlashFlag b op)).
  { intros op off n E Hop H1 H2 H3. unfold restored. rewrite Hop. destruct (_ =? 0); [done|].
    rewrite K1 by lia. apply rdn_hole_part; [done|done|lia|lia]. }
  rewrite (P OA3_REGION 0 2048 M3) in R3 by done. rewrite (P OA2_REGION 2048 2048 M2) in R2 by done.
  destruct (flash_region_eq _ _ _ b2 _ w1 Hs1 M3 ltac:(done) R3) as (w2 & -> & Hs2 & W2 & V2 & O2). rewrite bind_Done.
  destruct (flash_region_eq _ _ _ b2 _ w2 Hs2 M2 ltac:(done) R2) as (w3 & -> & Hs3 & W3 & V3 & O3). rewrite bind_Done.
  destruct (Preservation_quiet 1 FlashFlag w3) as (QV' & QR' & _).
  eexists b2, _. split; [reflexivity|]. rewrite QV', QR'. split; [congruence|]. split.
  - intros op. unfold restored_regions. rewrite list_elem_of_In. cbn [In]. intros Hi. repeat destruct Hi as [<-|Hi].
    + by rewrite O3, O2.
    + by rewrite O3.
    + done.
    + done.
  - intros op (Hn1 & (Hn2 & (Hn3 & _)%not_elem_of_cons)%not_elem_of_cons)%not_elem_of_cons Hf.
    by rewrite O3, O2, O1, QR.
Qed.
End restore.

Section storage.
Context {W : Type} `{Bmc W}.
Context (cfg : oob_config) (AllocatePool : Z -> option (list Z)) (RspStatus0 : Z).
Hypothesis pool : forall n, 0 <= n -> exists b, AllocatePool n = Some b /\ zlen b = n.

(** C29: (functional) on a platform other than Bakerville, after the flash was
    rewritten ("$SMC" is gone), a storage file of exactly 64 KB the BMC hands
    out, with its last byte the sum of the others, comes back region by region
    as the BMC's flags say: the BMC's SMBIOS region from the file, marked by a
    1 in its byte 10, or blank but for a new "$SMC"; the two OA regions from
    the file or blank; the other members of the hole and the variables stay
    (Bakerville goes on to write the whole hole from the file). This is about
    boots in which the BMC answers every command of a download, the buffer is
    to be had, every read and write of a flash region works, and the regions
    are as large as the map of the hole says. *)
Theorem DownloadBiosStorageFromBmc_restores w f :
  @regions_readable W _ -> @regions_writable W _ -> bmc_hands_out -> PlatformId cfg <> OobBakerville -> hole_sizes w ->
  take 4 (rom w SMBIOS_FOR_BMC_REGION) <> SMC_sig ->
  bmc_file w OOB_FILE_TYPE_BIOS_STORAGE = Some f -> checksummed f -> zlen f = SMC_ROM_HOLE_SIZE ->
  exists w', DownloadBiosStorageFromBmc cfg AllocatePool RspStatus0 w = Done w' /\ var w' = var w /\
    rom w' SMBIOS_FOR_BMC_REGION =
      (if Z.land (flash_flags w) Preserve_SMBIOS =? 0 then SMC_sig ++ replicate 4092 0xff
       else <[10%nat := 1]> (hole_part SMBIOS_FOR_BMC_REGION f)) /\
    (forall op, op ∈ [OA3_REGION; OA2_REGION] ->
       rom w' op = if Z.land (flash_flags w) Preserve_OA =? 0 then replicate 2048 0xff else hole_part op f) /\
    (forall op, op ∉ restored_regions -> op <> FULL_REGION -> rom w' op = rom w op).
Proof using pool.
  intros Hrd Hw Hh Hp Hs Hsig Hf [l El] Hz. unfold DownloadBiosStorageFromBmc.
  assert (HN : SMC_ROM_HOLE_SIZE = 65536) by reflexivity. destruct member_eqs as (MB & _).
  destruct (pool SMC_ROM_HOLE_SIZE) as (b0 & -> & Hb0); [rewrite HN; done|].
  rewrite read_region by done. pose proof (Hs _ _ _ MB) as Hr. set (r := rom w SMBIOS_FOR_BMC_REGION) in *.
  destruct (wrn_in b0 0 r) as [b1 E1]; [lia|lia|]. rewrite E1, bind_Done. pose proof (wrn_zlen _ _ _ _ E1) as Z1.
  pose proof (rdn_wrn_same _ _ _ _ E1) as R1. apply rdn_Done in R1 as (_ & _ & _ & R1).
  destruct (rdn_in b1 0 4) as [sig E2]; [lia..|]. rewrite E2, bind_Done.
  assert (Es : sig = take 4 r).
  { apply rdn_Done in E2 as (_ & _ & _ & ->). rewrite R1, take_take. f_equal. lia. }
  cbn [EFI_ERROR negb andb]. rewrite bool_decide_eq_false_2 by congruence.
  destruct (attempts_delivers OOB_FILE_TYPE_BIOS_STORAGE (fun n => n =? SMC_ROM_HOLE_SIZE) last_byte_checksum
    restore_regions 4 (0, RspStatus0) (mkTransfer false false (replicate (Z.to_nat SMC_ROM_HOLE_SIZE) 0xff))
    w f f Hh Hf) as (w1 & (Q1 & _ & G1) & E).
  { by rewrite Hz, Z.eqb_refl. }
  { rewrite Hz, HN. done. }
  { apply wrn_Done. cbn [Buffer]. rewrite zlen_replicate, Hz. split; [done|]. split; [lia|].
    rewrite drop_ge by (rewrite length_replicate; lia). by rewrite app_nil_r. }
  { replace (last_byte_checksum f) with (last_byte_checksum (l ++ [sum8 l] ++ [])) by (by rewrite El, app_nil_r).
    rewrite last_byte_at, Z.eqb_refl; [done| |rewrite Hz, HN; done].
    rewrite El, zlen_app. change (zlen [sum8 l]) with 1. lia. }
  assert (Hfl : fst (SmibiosPreservation 0 0 w1) = (EFI_SUCCESS, flash_flags w)).
  { destruct Hh as (_ & _ & _ & _ & Hs0). specialize (Hs0 0 w1).
    destruct (SmibiosPreservation 0 0 w1) as [[st v] w2] eqn:Ep. cbn [fst] in *. subst st.
    by rewrite <- G1, (Preservation_law _ _ _ _ Ep). }
  rewrite E. destruct (restore_regions_spec Hw (flash_flags w) f w1 Hfl) as (b' & w2 & Er & V2 & A2 & O2);
    [by eapply quiet_sizes|rewrite Hz, HN; done|].
  rewrite Er, !bind_Done. cbn [DownloadProcess DownloadSuccess negb]. rewrite (proj2 (Z.eqb_neq _ _) Hp), bind_Done.
  destruct (DownloadDone_quiet OOB_FILE_TYPE_BIOS_STORAGE 0 w2) as (V3 & R3 & _). destruct Q1 as (V1 & QR1 & _).
  eexists. split; [done|]. rewrite R3, V3. split; [congruence|]. split; [|split].
  - rewrite A2 by (rewrite list_elem_of_In; cbn; auto). unfold restored. by rewrite Z.eqb_refl.
  - intros op Hin. rewrite A2; unfold restored_regions; revert Hin; rewrite !list_elem_of_In; cbn [In].
    + unfold restored. intros Hin. repeat destruct Hin as [<-|Hin]; done.
    + intros Hin. right. exact Hin.
  - intros op Hn Hfull. by rewrite O2, QR1.
Qed.
End storage.

(** ** Concrete downloads *)
Definition demo_oob : oob_config := mkOob 0 true 0 0 0 0.

(** The settings file of [Dxe], with its checksum, on the BMC. *)
Definition demo_bin : list Z := demo_file ++ [sum8 demo_file].
Definition demo_bmc : SimpleBmc :=
  mkBmc (mkFw (fw_vars demo_store)
      (<[INBAND_REGION := replicate (length demo_file) 0xff]>
       (<[CURRENT_SMBIOS_REGION := replicate 8 0xff]> {[SMBIOS_FOR_BMC_REGION := replicate 8 0xff]})) [])
    {[OOB_FILE_TYPE_BIN := demo_bin]} [] (0, []) None 0 [].

Lemma DownloadBiosCfgFromBMC_verified_witness :
  exists w', DownloadBiosCfgFromBMC demo_pool 7 9 demo_bmc = Done w' /\ var w' = var demo_bmc.
Proof.
  destruct (DownloadBiosCfgFromBMC_verified demo_pool 7 9 demo_pool_size demo_bmc) as (w' & E & V & _).
  - intros f [= <-]. vm_compute. by split.
  - by vm_compute.
  - exists w'. exact (conj E V).
Defined.

Lemma remote_settings_applied_witness :
  exists w1, DownloadFileFromBMC demo_oob demo_pool 7 9 demo_bmc = Done w1 /\
    exists w, Dxe.SmcInBandCallback [(demo_name1, BiosCfg.demo_G)] (fun _ _ _ w => w) (fun w => w) BiosCfg.demo_G
        hexdigit demo_guid true None w1 = Done (None, w) /\
      var w demo_name1 BiosCfg.demo_G = Some (3, [4; 5; 6]) /\ var w demo_name2 BiosCfg.demo_G = Some (3, [9]).
Proof.
  destruct (remote_settings_applied demo_oob demo_pool 7 9 demo_pool_size [(demo_name1, BiosCfg.demo_G)]
    (fun _ _ _ w => w) (fun w => w) BiosCfg.demo_G hexdigit demo_guid (fun _ _ _ _ => eq_refl)
    demo_bmc demo_bin demo_vars [0; 2] 1 0 [0; 0; 0; 0; 0; 0] [0xff; sum8 demo_file]) as (w1 & E & _ & Hc).
  - apply SimpleBmc_reads.
  - apply SimpleBmc_regions.
  - apply SimpleBmc_hands_out.
  - reflexivity.
  - by exists demo_file.
  - vm_compute. reflexivity.
  - apply demo_vars_ok.
  - reflexivity.
  - reflexivity.
  - by vm_compute.
  - vm_compute. by split.
  - discriminate.
  - reflexivity.
  - reflexivity.
  - reflexivity.
  - vm_compute. by split.
  - left. split; [by vm_compute|vm_compute; discriminate].
  - exists w1. split; [exact E|]. rewrite Hc. clear Hc.
    pose proof (f_equal (fun r => match r with Done x => sb_fw x | _ => sb_fw demo_bmc end) E) as Ef.
    cbn beta iota in Ef. clear E. vm_compute in Ef. destruct w1 as [f1 ? ? ? ? ? ?]. cbn [sb_fw] in Ef.
    subst f1. eexists. split; [vm_compute; reflexivity|]. split; reflexivity.
Defined.

(** An empty storage file after a flash update; the user keeps the OA keys. *)
Definition demo_storage : list Z := repeat 0 (Z.to_nat SMC_ROM_HOLE_SIZE).
Definition demo_blank : SimpleBmc :=
  mkBmc (mkFw ∅
      (<[SMBIOS_FOR_BMC_REGION := replicate (Z.to_nat 4096) 0xff]>
       (<[OA3_REGION := replicate (Z.to_nat 2048) 0xff]> (<[OA2_REGION := replicate (Z.to_nat 2048) 0xff]>
       (<[AFU_CMD_REGION := replicate (Z.to_nat 4096) 0xff]> (<[INBAND_REGION := replicate (Z.to_nat 12288) 0xff]>
       (<[CURRENT_SMBIOS_REGION := replicate (Z.to_nat 4096) 0xff]>
        {[PREVIOUS_SMBIOS_REGION := replicate (Z.to_nat 4096) 0xff]})))))) [])
    {[OOB_FILE_TYPE_BIOS_STORAGE := demo_storage]} [] (0, []) None Preserve_OA [].

Lemma demo_sizes : hole_sizes demo_blank.
Proof.
  intros op off n. unfold SMC_ROM_HOLE_MAP. cbn [member_at].
  repeat match goal with |- context [op =? ?r] => destruct (Z.eqb_spec op r) as [->|]; [intros [= <- <-]|] end; try done.
  all: by vm_compute.
Qed.

Lemma zeros_sum n : sum8 (repeat 0 n) = 0.
Proof.
  rewrite sum8_zsum. induction n as [|n IH]; [done|]. cbn [repeat zsum]. exact IH.
Qed.

Lemma zeros_snoc n : repeat 0 (Datatypes.S n) = repeat 0 n ++ [0].
Proof. induction n as [|n IH]; [done|]. cbn [repeat app] in *. by rewrite <- IH. Qed.

Lemma DownloadBiosStorageFromBmc_restores_witness :
  exists w', DownloadBiosStorageFromBmc demo_oob demo_pool 7 demo_blank = Done w' /\
    take 5 (rom w' SMBIOS_FOR_BMC_REGION) = SMC_sig ++ [0xff] /\
    take 5 (rom w' OA3_REGION) = [0; 0; 0; 0; 0].
Proof.
  destruct (DownloadBiosStorageFromBmc_restores demo_oob demo_pool 7 demo_pool_size demo_blank demo_storage) as (w' & E & _ & R1 & R2 & _).
  - apply SimpleBmc_reads.
  - apply SimpleBmc_regions.
  - apply SimpleBmc_hands_out.
  - discriminate.
  - apply demo_sizes.
  - vm_compute. discriminate.
  - reflexivity.
  - exists (repeat 0 (Z.to_nat (SMC_ROM_HOLE_SIZE - 1))). rewrite zeros_sum, <- zeros_snoc. refine (f_equal (repeat 0) _). unfold SMC_ROM_HOLE_SIZE. lia.
  - unfold demo_storage, zlen. rewrite repeat_length. unfold SMC_ROM_HOLE_SIZE. lia.
  - exists w'. split; [exact E|]. rewrite R1, R2 by (rewrite list_elem_of_In; cbn; auto). split; [reflexivity|].
    unfold hole_part, demo_storage. vm_compute. reflexivity.
Defined.
